(* ===== verification/_CoqProject ===== *)
-Q . S2P
Prelude.v
Memory.v
Strings.v
Console.v
Printf.v
Filesystem.v
Paging.v
Pic.v
Rtc.v
Idt.v
Kernel.v
Terminal.v
Syscall.v
Tables.v
Process.v
Sb16.v
Scheduling.v
Keyboard.v
Calls.v
Linkage.v
Interrupts.v
Commands.v
Shells.v
Boot.v
Lifecycle.v
User.v
Programs.v
Userland.v
Grep.v
Search.v
Session.v
Dialogue.v
Answers.v
Syserr.v
Selftest.v
Pingpong.v
Ticking.v
Entry.v
Blink.v
Fish.v
Fishing.v
Emulate.v
Sigtest.v
