(* ===== verification/Prelude.v ===== *)
(** Illinix: a verification development of the kernel in src/student-distrib
    and of the user programs in src/syscalls and src/fish.

    * What the program is

    A 32-bit single-processor kernel with three text terminals.  Each terminal
    runs a stack of processes (at most six in all); the timer interrupt takes
    the terminals in turn, the keyboard interrupt edits the line of the
    displayed terminal and switches terminals, and programs enter the kernel
    through eleven system calls.  A program image is loaded from a read-only file
    system that lies in memory.

    * Files, components and sources

    - Prelude: machine words, the outcome monad, bounded loops, list cells.
    - Memory, Strings, Console, Printf: lib.c (and syscalls/ece391support.c in
      Strings).  Memory is a function from addresses to bytes; a block
      operation is modelled from its inline assembly, instruction by
      instruction.  Console has the record [console]: the variables of lib.c
      that concern the screen, the three [terminal_t], the line buffer.
    - Filesystem: filesystem.c over the bytes of an image in memory.  Its
      addresses are physical ones: the image lies in the page from 4 to 8 MB,
      which the kernel maps to itself ([image_translation] in Syscall), and
      every theorem with paging on says so ([sys_ok], [machine_ok], [cold]).
    - Paging: paging.c; the state is the three tables and the control
      registers, and its specification is the page walk of the processor.
    - Linkage: syscall_linkage.S and the wrappers of syscalls/ece391syscall.S,
      instruction by instruction over registers, the stack of the program and
      that of the kernel; the functions they call are a table of the model.
    - Interrupts: int_linkage.S, the wrappers of the four interrupt handlers
      over registers and kernel stacks.
    - Pic: i8259.c and the ports of the two chips.
    - Rtc: rtc.c, one virtual clock per terminal.
    - Idt: idt.c, exception.c and the gate descriptors of x86_desc.h.
    - Kernel: the record [kernel] that collects the components' states, the
      process control blocks (a finite map from addresses) and the process
      tables; the pointer arithmetic that finds a control block.
    - Terminal: terminal.c, reads, writes, saving and restoring.
    - Syscall: syscall.c, every system call, and file_read of filesystem.c.
    - Tables, Process, Calls, Commands: theorems on the process tables, the
      life of one process, the calls it makes, and the command-line parser.
    - Sb16: sb16.c and play of syscall.c, with the 8237 DMA controller.
    - Scheduling: scheduling.c, switch_to_terminal and init_terminal of
      terminal.c.
    - Keyboard: keyboard.c.
    - Shells, Boot, Lifecycle: theorems on the composition of the above: the
      shell of a terminal, the start of the first one, and every history of
      events from there.
    - Entry: kernel.c, from the boot loader to the first shell, with
      enable_cursor of lib.c and the segment descriptors of x86_desc.h.
    - User: the system call wrappers of ece391syscall.h as a class, [Syscalls],
      the abstract view a program has of its process ([world]), and the class
      [Promises] of laws that connect the two; the helpers of ece391support.c
      that make calls.
    - Programs, Grep: cat, ls and grep, and theorems proved from [Promises].
    - Userland, Search: the instance of both classes for a process of the
      kernel, and the programs running there.
    - Session, Dialogue: the shell, hello, counter and testprint against
      classes of terminal sessions ([Talks], and [Sessions] for a program that
      executes others), with a scripted instance.
    - Answers: the keyboard side of a process.  [Listens] (in User) promises
      the next line; the kernel keeps it for every line typed at the displayed
      terminal while the process waits, so it is an instance of [Talks] and
      the programs of Dialogue run on it.
    - Syserr, Selftest: ece391syserr.c against a class of refusals
      ([Refuses]), and the kernel as an instance of it, through the gate.
    - Pingpong, Ticking: ece391pingpong.c against a class of clocks ([Clocks],
      in User), and the kernel as an instance of it: a read waits for the
      virtual clock of the terminal.
    - Blink: blink.S, blink.h, mp1_malloc and mp1_free of fish.c: a linked
      list in a static array ([blinks]), and the abstract list ([animation])
      it implements.
    - Emulate: ece391emulate.c, the system calls under Linux; the C library and
      Linux are the class [Linux].
    - Sigtest: ece391sigtest.c with its signal handlers, and ece391exception.c;
      the check that the processor makes before an access is an argument of
      the programs, and [user_access] is that of the kernel's page tables and
      page-fault handler.
    - Fish, Fishing: main, add_frames and mp1_set_video_mode of fish.c against
      [Refuses], [Clocks] and a class of processes that can map the text page
      and draw on it ([Displays]), and the kernel as an instance of all three.
      What the functions of Blink store to the page goes through the page
      tables of the process ([drawing]) to the text of the terminal.

    Every operation of the source is one definition with the source's name.
    An operation takes the state of its component (or the [kernel]) and
    returns it in the monad [out]: [Done] is a return, [Undef] an access
    outside the object it names, a division by zero or a call of a garbage
    pointer, [Hang] a loop without end.  C integers are [Z] with the
    conversions [u8], [u16], [u32], [i32] written where the code converts.
    A call that does not return to its caller (execute, halt, a context
    switch that delivers a signal) gives an [outcome]: [Return] to the caller
    of execute, [Enter] a program at an address with a stack, or [Handler],
    the call of a signal handler.

    * How the components meet

    The drivers are called by the system calls through the operations table
    of an open file.  A pointer argument is an address of the program, which
    the kernel follows through the page tables ([at_user] for strings, [range]
    for buffers).  A blocking read takes the interrupts that arrive while
    it waits as an argument ([ticks] of the clock, [typed] of the keyboard),
    so each theorem about a read holds for every schedule of interrupts that
    satisfies its hypothesis.  Terminal numbers of the console, of the
    scheduler and of the process tables are separate variables as in the
    source: [current_terminal] is the displayed one, [running_terminal] the
    one whose program runs.

    * Bounds and fuel

    A C loop is [run body], which stops after [FUEL] = 2^33 iterations; every
    such loop counts a 32-bit variable or walks an object smaller than 2^32,
    so it ends earlier, and the theorems that use one prove it with a measure
    ([run_total]).  Loops with a constant bound are [for_range].  Waiting
    loops end when the schedule they are given wakes them.

    * Theorems

    - C1, C2, C35: block operations, numerals and printf.
    - C3 to C5: text on the visible screen and in the background, line editing.
    - C6: the gate and the wrappers refine a call of a C function.
    - C7, C8, C18: reading files and directories, whole file sessions.
    - C10, C11: the page tables implement an abstract map and isolate programs.
    - C12, C13, C15: interrupt controllers, clocks (Rtc has blocking reads
      too), interrupt gates.
    - C14: what becomes of a program that accesses memory it does not own.
    - C9: the kernel passes its own test of the error returns.
    - C16, C25: terminals keep their texts across switches.
    - C19, C20, C28 to C30: processes, system calls, errors, command lines.
      C28 is about calls that return, with stores of the program between them,
      and names the calls it leaves out.
    - C22: audio playback, and what the DMA controller then transfers, which
      is the buffer unless it crosses a 64 KB boundary.  C23, C26: the scheduler.  C27: typed lines.
    - C24: preemption.  The interrupt assembly and the scheduler together
      implement one processor for each terminal.
    - C31, C32: the list of blink.S implements an abstract list, and what a
      screen of blinking places shows at any time.
    - C33, C34: the invariant of the whole kernel, and the one way a program
      can break it.  Shells and Boot prove that the first switch to a terminal
      and init_terminal establish it.
    - C17: hello and counter, from the keys that are typed to what they print.
    - C38: grep on the kernel (Userland has cat and ls too); C21 and C37:
      pingpong and fish.  Each is proved twice over: for every implementation
      of the interface that keeps its promises, and that the kernel keeps
      them.
    - C36: command lines under the Linux emulation; Emulate proves that it
      reads directories as the kernel does.
    - C39: the shell on every terminal session; Dialogue has the same for the
      other programs.
    - C40: booting.  It composes the initialisation of every component with
      the start of the first shell and ends in the invariant of C33.

    * Parameters

    The addresses at which the linker puts the page tables, the answers of
    the devices to port reads, the addresses of stack locals whose bytes the
    code sends to a device, the upper byte of a port of which sb16.c gives
    only the lower ([dh]), the contents of uninitialised locals
    ([stack_dentry]), and the contents of the image are arguments; what is
    assumed of them is named in the theorems ([linked], [image_ok], [shell_on],
    [multiboot], [sound_memory]).  Of a user program, the addresses of its
    string literals ([rodata]) and of its local arrays are arguments, and so
    is what the programs it executes do until they halt ([child]).

    * Not modelled

    - boot.S, x86_desc.S: the multiboot header, the switch to protected mode
      and the descriptor tables as data; what C puts into them is modelled.
    - tests.c: interactive tests of the kernel.

    * What the statements leave out

    - Interrupts come only where a call waits for them (a read of the terminal
      or of the clock); those of the rest of terminal_read, after the wait, and
      a timer interrupt that takes the processor from the program of one of
      the theorems on programs (C9, C14, C17, C21, C37 to C39) are not steps
      of those theorems.  C24 says that preemption is transparent to the
      registers and stacks of a program; it says nothing of the video window,
      which a switch maps to the page of the terminal that runs.
    - printf reads its format and its strings before it prints the first
      character, so a string that lies in video memory and is overwritten by the
      printing is outside C35.
    - The jump table of Linkage is the list of its C functions; that each entry
      has the number of the wrapper that calls it is part of the model, not of
      C6.  A string argument that reaches an address that is not mapped makes a
      call [Undef]; the kernel would take a page fault there.
    - In C9 the unknown call numbers go through the gate, and the other calls
      are the C functions that C6 puts behind it.
    - C33 is about the programs that start from the displayed terminal and, for
      the last program of a terminal, end there ([enabled]); C34 is what happens
      otherwise.
*)
From Stdlib Require Export Lia ZArith.
From stdpp Require Export base list numbers option.

#[global] Open Scope Z_scope.

#[global] Arguments Z.leb : simpl never.
#[global] Arguments Z.ltb : simpl never.
#[global] Arguments Z.eqb : simpl never.
#[global] Arguments Z.rem : simpl never.
#[global] Arguments Z.quot : simpl never.
#[global] Arguments Z.land : simpl never.
#[global] Arguments Z.lor : simpl never.
#[global] Arguments Z.shiftl : simpl never.
#[global] Arguments Z.shiftr : simpl never.

(** * Machine words

    A [w]-bit register is a [Z] in [0, 2^w); the wrap-around of every
    narrowing store is written with one of these functions. *)
Definition u8 (z : Z) : Z := z mod 2 ^ 8.
Definition u16 (z : Z) : Z := z mod 2 ^ 16.
Definition u32 (z : Z) : Z := z mod 2 ^ 32.

(** Two's complement reading of an 8-bit and of a 32-bit pattern ([char] and
    [int] are signed on this target). *)
Definition i8 (z : Z) : Z :=
  let u := u8 z in if u <? 2 ^ 7 then u else u - 2 ^ 8.
Definition i32 (z : Z) : Z :=
  let u := u32 z in if u <? 2 ^ 31 then u else u - 2 ^ 32.

Definition is_u8 (z : Z) : Prop := 0 <= z < 2 ^ 8.
Definition is_u32 (z : Z) : Prop := 0 <= z < 2 ^ 32.

(** * Outcomes

    [Done a]: the code returns [a].  [Undef]: it performs an access outside
    the object it names, calls through a garbage pointer or divides by zero.
    [Hang]: a loop does not finish (a busy wait whose condition is false). *)
Inductive out (A : Type) : Type :=
| Done (a : A)
| Undef
| Hang.
Arguments Done {A} a.
Arguments Undef {A}.
Arguments Hang {A}.

#[export] Instance out_ret : MRet out := @Done.
#[export] Instance out_bind : MBind out := λ A B f o,
  match o with Done a => f a | Undef => Undef | Hang => Hang end.
#[export] Instance out_fmap : FMap out := λ A B f o,
  match o with Done a => Done (f a) | Undef => Undef | Hang => Hang end.

#[export] Instance out_eq_dec {A} `{EqDecision A} : EqDecision (out A).
Proof. solve_decision. Defined.

(** An access that must be in range. *)
Definition must {A} (o : option A) : out A :=
  match o with Some a => Done a | None => Undef end.

Definition is_done {A} (o : out A) : Prop := ∃ a, o = Done a.

Lemma bind_Done {A B} (a : A) (f : A → out B) : (Done a ≫= f) = f a.
Proof. done. Qed.

Lemma bind_Done_inv {A B} (o : out A) (f : A → out B) b :
  (o ≫= f) = Done b → ∃ a, o = Done a ∧ f a = Done b.
Proof. destruct o; naive_solver. Qed.

Lemma must_Done_inv {A} (o : option A) a : must o = Done a → o = Some a.
Proof. destruct o; naive_solver. Qed.

(** * Loops

    [loop p body s] runs at most [p] iterations of [body], which either
    continues with a new state ([inl]) or leaves the loop ([inr]).  The
    recursion is on the binary numeral, so a bound of [2 ^ 33] costs nothing
    when the loop leaves early. *)
Section loop.
Context {S R : Type} (body : S → S + R).

Fixpoint loop (p : positive) (s : S) : S + R :=
  match p with
  | xH => body s
  | xO q => match loop q s with inl s' => loop q s' | inr r => inr r end
  | xI q =>
      match body s with
      | inl s' => match loop q s' with inl s'' => loop q s'' | inr r => inr r end
      | inr r => inr r
      end
  end.
End loop.

(** More iterations than any loop over a 32-bit counter can make. *)
Definition FUEL : positive := (2 ^ 33)%positive.

Definition run {S R} (body : S → S + R) (s : S) : out R :=
  match loop body FUEL s with inr r => Done r | inl _ => Hang end.

Section loop_rule.
Context {S R : Type} (body : S → S + R).
Context (I : S → Prop) (Q : R → Prop) (mu : S → Z).

(** One iteration keeps the invariant and decreases the measure, or leaves
    the loop with the postcondition. *)
Definition iteration_ok : Prop := ∀ s, I s →
  match body s with
  | inl s' => I s' ∧ 0 <= mu s' < mu s
  | inr r => Q r
  end.

Lemma loop_rule p s : iteration_ok → I s →
  match loop body p s with
  | inl s' => I s' ∧ 0 <= mu s' ∧ mu s' + Zpos p <= mu s
  | inr r => Q r
  end.
Proof.
  intros Hok. revert s. induction p as [p IH|p IH|]; intros s Hs; cbn.
  - pose proof (Hok s Hs) as Hb. destruct (body s) as [s1|]; [|done].
    destruct Hb as [H1 ?]. pose proof (IH s1 H1) as E1.
    destruct (loop body p s1) as [s2|]; [|done]. destruct E1 as (H2 & ? & ?).
    pose proof (IH s2 H2) as E2. destruct (loop body p s2) as [s3|]; [|done].
    destruct E2 as (? & ? & ?). split_and!; [done|lia|lia].
  - pose proof (IH s Hs) as E1.
    destruct (loop body p s) as [s2|]; [|done]. destruct E1 as (H2 & ? & ?).
    pose proof (IH s2 H2) as E2. destruct (loop body p s2) as [s3|]; [|done].
    destruct E2 as (? & ? & ?). split_and!; [done|lia|lia].
  - pose proof (Hok s Hs) as Hb. destruct (body s) as [s1|]; [|done].
    destruct Hb; split_and!; [done|lia|lia].
Qed.

(** Total correctness of [run]: the loop ends and its result satisfies the
    postcondition. *)
Lemma run_total s : iteration_ok → I s → mu s < 2 ^ 33 →
  ∃ r, run body s = Done r ∧ Q r.
Proof.
  intros Hok Hs Hm. pose proof (loop_rule FUEL s Hok Hs) as E. unfold run.
  destruct (loop body FUEL s) as [s'|r]; [|by eauto].
  change (Zpos FUEL) with (2 ^ 33) in E. lia.
Qed.
End loop_rule.

Section iterate.
Context {S R : Type} (body : S → S + R).
(** A loop is the iteration of its body. *)
Fixpoint iterate (n : nat) (s : S) : S + R :=
  match n with
  | O => inl s
  | Datatypes.S n => match body s with inl s' => iterate n s' | inr r => inr r end
  end.
Lemma iterate_next n s s' : body s = inl s' → iterate (Datatypes.S n) s = iterate n s'.
Proof. intros E. cbn. by rewrite E. Qed.
Lemma iterate_last n s r : body s = inr r → iterate (Datatypes.S n) s = inr r.
Proof. intros E. cbn. by rewrite E. Qed.
Lemma iterate_add n m s : iterate (n + m) s = match iterate n s with inl s' => iterate m s' | inr r => inr r end.
Proof. revert s. induction n as [|n IH]; intros s; [done|]. cbn. destruct (body s); [apply IH|done]. Qed.
Lemma loop_iterate p s : loop body p s = iterate (Pos.to_nat p) s.
Proof.
  revert s. induction p as [p IH|p IH|]; intros s; cbn [loop].
  - rewrite Pos2Nat.inj_xI. cbn [iterate]. destruct (body s) as [s1|r]; [|done].
    replace (2 * Pos.to_nat p)%nat with (Pos.to_nat p + Pos.to_nat p)%nat by lia. rewrite iterate_add, IH.
    by destruct (iterate (Pos.to_nat p) s1).
  - rewrite Pos2Nat.inj_xO. replace (2 * Pos.to_nat p)%nat with (Pos.to_nat p + Pos.to_nat p)%nat by lia.
    rewrite iterate_add, IH. by destruct (iterate (Pos.to_nat p) s).
  - change (Pos.to_nat 1) with 1%nat. cbn. by destruct (body s).
Qed.
(** A loop that leaves after [n] iterations, and one that never does. *)
Lemma run_exits n s r : iterate n s = inr r → Z.of_nat n <= 2 ^ 33 → run body s = Done r.
Proof.
  intros E Hn. unfold run. rewrite loop_iterate.
  replace (Pos.to_nat FUEL) with (n + (Pos.to_nat FUEL - n))%nat; [by rewrite iterate_add, E|].
  assert (Z.of_nat (Pos.to_nat FUEL) = 2 ^ 33) by (rewrite positive_nat_Z; reflexivity). lia.
Qed.
Lemma run_stuck (I : S → Prop) s : (∀ s, I s → ∃ s', body s = inl s' ∧ I s') → I s → run body s = Hang.
Proof.
  intros Hstep Hs. unfold run. rewrite loop_iterate. generalize (Pos.to_nat FUEL) as n. intros n.
  assert (∃ s', iterate n s = inl s') as [s' ->]; [|done].
  revert s Hs. induction n as [|n IH]; intros s Hs; cbn; [by exists s|]. destruct (Hstep s Hs) as (s1 & -> & H1). by apply IH.
Qed.
End iterate.

(** [for (i = lo; i < hi; i++) s = f s i]. *)
Definition for_range {S} (lo hi : Z) (f : S → Z → S) (s : S) : S :=
  foldl f s (seqZ lo (hi - lo)).

Lemma for_range_nil {S} lo hi (f : S → Z → S) s :
  hi <= lo → for_range lo hi f s = s.
Proof. intros. unfold for_range. by rewrite seqZ_nil by lia. Qed.

Lemma for_range_cons {S} lo hi (f : S → Z → S) s :
  lo < hi → for_range lo hi f s = for_range (lo + 1) hi f (f s lo).
Proof.
  intros. unfold for_range. rewrite seqZ_cons by lia. cbn.
  by replace (Z.pred (hi - lo)) with (hi - (lo + 1)) by lia.
Qed.

Lemma for_range_snoc {S} lo hi (f : S → Z → S) s :
  lo <= hi → for_range lo (hi + 1) f s = f (for_range lo hi f s) hi.
Proof.
  intros. unfold for_range. replace (hi + 1 - lo) with ((hi - lo) + 1) by lia.
  rewrite seqZ_app by lia. rewrite foldl_app. cbn. by replace (lo + (hi - lo)) with hi by lia.
Qed.

(** Invariant rule: [P i s] holds when the counter is [i]. *)
Lemma for_range_ind {S} (P : Z → S → Prop) lo hi (f : S → Z → S) s :
  lo <= hi → P lo s →
  (∀ i s', lo <= i < hi → P i s' → P (i + 1) (f s' i)) →
  P hi (for_range lo hi f s).
Proof.
  intros Hle. remember (Z.to_nat (hi - lo)) as n eqn:En.
  revert lo s Hle En. induction n as [|n IH]; intros lo s Hle En H0 Hs.
  - replace hi with lo by lia. by rewrite for_range_nil by lia.
  - rewrite for_range_cons by lia. apply IH; [lia|lia| |].
    + apply Hs; [lia|done].
    + intros i s' Hi. apply Hs. lia.
Qed.

(** * Arrays: lists read and written at a [Z] index, partial out of range *)
Definition zget {A} (l : list A) (i : Z) : option A :=
  if i <? 0 then None else l !! Z.to_nat i.
Definition zset {A} (l : list A) (i : Z) (x : A) : option (list A) :=
  if (0 <=? i) && (i <? Z.of_nat (length l)) then Some (<[Z.to_nat i := x]> l)
  else None.

#[global] Arguments zget : simpl never.
#[global] Arguments zset : simpl never.
#[global] Arguments u8 : simpl never.
#[global] Arguments u16 : simpl never.
#[global] Arguments u32 : simpl never.
#[global] Arguments i32 : simpl never.

(** * Tactics *)

(** Case analysis on the integer comparisons of the goal. *)
Ltac zcase_step :=
  match goal with
  | |- context [Z.eqb ?a ?b] => destruct (Z.eqb_spec a b)
  | |- context [Z.ltb ?a ?b] => destruct (Z.ltb_spec a b)
  | |- context [Z.leb ?a ?b] => destruct (Z.leb_spec a b)
  end.
Ltac zcase := repeat (zcase_step; cbn [andb orb negb]; try lia).

(** Split a chain of [out] binds that ended in [Done]. *)
Ltac inv_out :=
  repeat match goal with
  | H : (_ ≫= _) = Done _ |- _ =>
      apply bind_Done_inv in H; destruct H as (? & ? & ?)
  | H : must _ = Done _ |- _ => apply must_Done_inv in H
  | H : Done _ = Done _ |- _ => injection H as H; subst
  | H : mret _ = Done _ |- _ => injection H as H; subst
  | H : Undef = Done _ |- _ => discriminate H
  | H : Hang = Done _ |- _ => discriminate H
  end.

Create HintDb words.
Create Rewrite HintDb words.

(** * Word lemmas *)
Lemma u8_id z : is_u8 z → u8 z = z.
Proof. intros. by apply Z.mod_small. Qed.
Lemma u32_id z : is_u32 z → u32 z = z.
Proof. intros. by apply Z.mod_small. Qed.
Lemma u8_range z : is_u8 (u8 z).
Proof. by apply Z.mod_pos_bound. Qed.
Lemma u32_range z : is_u32 (u32 z).
Proof. by apply Z.mod_pos_bound. Qed.
Lemma u8_u8 z : u8 (u8 z) = u8 z.
Proof. apply u8_id, u8_range. Qed.
Lemma u32_u32 z : u32 (u32 z) = u32 z.
Proof. apply u32_id, u32_range. Qed.
Lemma i32_small z : 0 <= z < 2 ^ 31 → i32 z = z.
Proof. intros. unfold i32. rewrite u32_id by (split; lia). zcase. Qed.
Lemma i32_m1 : i32 (-1) = -1.
Proof. reflexivity. Qed.

(** Drop the wrap-arounds whose argument is in range. *)
Ltac u8_simpl :=
  repeat match goal with |- context [u8 ?z] => rewrite (u8_id z) by (split; lia) end.
Ltac u32_simpl :=
  repeat match goal with |- context [u32 ?z] => rewrite (u32_id z) by (split; lia) end.

#[export] Hint Resolve u8_range u32_range : words.
#[export] Hint Rewrite u8_u8 u32_u32 : words.

(** * Array lemmas *)
Lemma zget_Some {A} (l : list A) i x :
  zget l i = Some x ↔ 0 <= i ∧ l !! Z.to_nat i = Some x.
Proof.
  unfold zget. destruct (Z.ltb_spec i 0).
  - split; [done|lia].
  - split; [intros; split; [lia|done]|by intros [_ ?]].
Qed.

Lemma zget_is_Some {A} (l : list A) i :
  0 <= i < Z.of_nat (length l) → ∃ x, zget l i = Some x.
Proof.
  intros. destruct (lookup_lt_is_Some_2 l (Z.to_nat i)) as [x ?]; [lia|].
  exists x. apply zget_Some. split; [lia|done].
Qed.

Lemma zset_in {A} (l : list A) i x :
  0 <= i < Z.of_nat (length l) → zset l i x = Some (<[Z.to_nat i := x]> l).
Proof. intros. unfold zset. zcase. done. Qed.

Lemma zset_Some {A} (l : list A) i x l' :
  zset l i x = Some l' →
  0 <= i < Z.of_nat (length l) ∧ l' = <[Z.to_nat i := x]> l.
Proof.
  unfold zset. destruct (Z.leb_spec 0 i); [|done].
  destruct (Z.ltb_spec i (Z.of_nat (length l))); [|done].
  intros [= <-]. split; [lia|done].
Qed.

Lemma zget_same_length {A} (l l' : list A) : (∀ j, is_Some (zget l' j) ↔ is_Some (zget l j)) → length l' = length l.
Proof.
  assert (Hlen : ∀ (a b : list A), (∀ j, is_Some (zget a j) → is_Some (zget b j)) → (length a <= length b)%nat).
  { intros a b H. destruct (decide (length a <= length b)%nat) as [|Hlt]; [done|].
    destruct (zget_is_Some a (Z.of_nat (length b))) as [x Hx]; [lia|].
    destruct (H (Z.of_nat (length b))) as [y [_ Hy%lookup_lt_Some]%zget_Some]; [by eexists|]. lia. }
  intros H. apply Nat.le_antisymm; apply Hlen; intros j Hj; by apply H.
Qed.

Lemma zget_insert_eq {A} (l : list A) i x :
  0 <= i < Z.of_nat (length l) → zget (<[Z.to_nat i := x]> l) i = Some x.
Proof. intros. apply zget_Some. split; [lia|]. apply list_lookup_insert_eq. lia. Qed.

Lemma zget_insert_ne {A} (l : list A) i j x :
  0 <= i → i ≠ j → zget (<[Z.to_nat i := x]> l) j = zget l j.
Proof.
  intros. unfold zget. destruct (Z.ltb_spec j 0); [done|].
  apply list_lookup_insert_ne. lia.
Qed.

Lemma length_zset {A} (l l' : list A) i x : zset l i x = Some l' → length l' = length l.
Proof. intros [_ ->]%zset_Some. apply length_insert. Qed.

(** A loop whose body can itself perform an undefined access. *)
Definition orun {S R} (body : S → S + out R) (s : S) : out R := run body s ≫= id.

Lemma orun_total {S R} (body : S → S + out R) (I : S → Prop) (Q : R → Prop)
    (mu : S → Z) s :
  iteration_ok body I (λ o, ∃ r, o = Done r ∧ Q r) mu → I s → mu s < 2 ^ 33 →
  ∃ r, orun body s = Done r ∧ Q r.
Proof.
  intros Hok Hs Hm. destruct (run_total body I _ mu s Hok Hs Hm) as (o & E & r & -> & HQ).
  exists r. unfold orun. rewrite E. done.
Qed.

(** The loop ends with the outcome [o], respectively with the value [r]. *)
Lemma orun_result {S R} (body : S → S + out R) (I : S → Prop) (o : out R) (mu : S → Z) s :
  iteration_ok body I (λ o', o' = o) mu → I s → mu s < 2 ^ 33 → orun body s = o.
Proof.
  intros Hok Hs Hm. destruct (run_total body I _ mu s Hok Hs Hm) as (o' & E & ->).
  unfold orun. by rewrite E.
Qed.
Lemma orun_done {S R} (body : S → S + out R) (I : S → Prop) (r : R) (mu : S → Z) s :
  iteration_ok body I (λ o, o = Done r) mu → I s → mu s < 2 ^ 33 → orun body s = Done r.
Proof. apply orun_result. Qed.

Lemma orun_exits {S R} (body : S → S + out R) n s o : iterate body n s = inr o → Z.of_nat n <= 2 ^ 33 → orun body s = o.
Proof. intros E Hn. unfold orun. by rewrite (run_exits body n s o E Hn). Qed.

(** Total correctness of a loop whose distance [n] to its end is not read off
    its state: the invariant carries it. *)
Section loop_index.
Context {S R : Type} (body : S → S + R) (I : Z → S → Prop) (Q : R → Prop).
Context (Hok : ∀ n s, 0 <= n → I n s →
  match body s with inl s' => ∃ n', 0 <= n' < n ∧ I n' s' | inr r => Q r end).

Lemma loop_index p : ∀ n s, 0 <= n → I n s →
  match loop body p s with inl s' => ∃ n', 0 <= n' ∧ n' + Zpos p <= n ∧ I n' s' | inr r => Q r end.
Proof.
  induction p as [p IH|p IH|]; intros n s Hn Hs; cbn.
  - pose proof (Hok n s Hn Hs) as Hb. destruct (body s) as [s1|]; [|done]. destruct Hb as (n1 & ? & H1).
    pose proof (IH n1 s1 ltac:(lia) H1) as E1. destruct (loop body p s1) as [s2|]; [|done]. destruct E1 as (n2 & ? & ? & H2).
    pose proof (IH n2 s2 ltac:(lia) H2) as E2. destruct (loop body p s2) as [s3|]; [|done]. destruct E2 as (n3 & ? & ? & ?).
    exists n3. split_and!; [lia|lia|done].
  - pose proof (IH n s Hn Hs) as E1. destruct (loop body p s) as [s2|]; [|done]. destruct E1 as (n2 & ? & ? & H2).
    pose proof (IH n2 s2 ltac:(lia) H2) as E2. destruct (loop body p s2) as [s3|]; [|done]. destruct E2 as (n3 & ? & ? & ?).
    exists n3. split_and!; [lia|lia|done].
  - pose proof (Hok n s Hn Hs) as Hb. destruct (body s) as [s1|]; [|done]. destruct Hb as (n1 & ? & H1).
    exists n1. split_and!; [lia|lia|done].
Qed.
End loop_index.

Lemma orun_index {S R} (body : S → S + out R) (I : Z → S → Prop) (Q : R → Prop) n s :
  (∀ n s, 0 <= n → I n s → match body s with
     | inl s' => ∃ n', 0 <= n' < n ∧ I n' s' | inr o => ∃ r, o = Done r ∧ Q r end) →
  0 <= n < 2 ^ 33 → I n s → ∃ r, orun body s = Done r ∧ Q r.
Proof.
  intros Hok Hn Hs. pose proof (loop_index body I _ Hok FUEL n s ltac:(lia) Hs) as E. unfold orun, run.
  destruct (loop body FUEL s) as [s'|o]; [|by destruct E as (r & -> & HQ); exists r].
  destruct E as (n' & ? & E & _). change (Zpos FUEL) with (2 ^ 33) in E. lia.
Qed.

Lemma loop_ext {S R} (b1 b2 : S → S + R) p s :
  (∀ s, b1 s = b2 s) → loop b1 p s = loop b2 p s.
Proof.
  intros H. revert s. induction p as [p IH|p IH|]; intros s; cbn.
  - rewrite H. destruct (b2 s); [|done]. rewrite IH. by destruct (loop b2 p _).
  - rewrite IH. by destruct (loop b2 p s).
  - apply H.
Qed.
Lemma orun_ext {S R} (b1 b2 : S → S + out R) s :
  (∀ s, b1 s = b2 s) → orun b1 s = orun b2 s.
Proof. intros H. unfold orun, run. by rewrite (loop_ext _ _ _ _ H). Qed.

(** A loop that leaves at once. *)
Lemma loop_exit {S R} (body : S → S + R) p s r : body s = inr r → loop body p s = inr r.
Proof. intros H. induction p as [p IH|p IH|]; cbn; by rewrite ?H, ?IH. Qed.
Lemma orun_exit {S R} (body : S → S + out R) s o : body s = inr o → orun body s = o.
Proof. intros H. unfold orun, run. by rewrite (loop_exit _ _ _ _ H). Qed.

(** * Bit fields *)
Lemma testbit_low n x i : 0 <= i < n → Z.testbit (x mod 2 ^ n) i = Z.testbit x i.
Proof. intros. apply Z.mod_pow2_bits_low. lia. Qed.

(** The field of [k] bits at bit [n]. *)
Lemma land_field x k n : 0 <= n → 0 <= k →
  Z.land x (Z.shiftl (Z.ones k) n) = (x / 2 ^ n) mod 2 ^ k * 2 ^ n.
Proof.
  intros Hn Hk. apply Z.bits_inj'. intros i Hi. rewrite Z.land_spec, Z.shiftl_spec by done.
  destruct (Z.ltb_spec i n).
  - rewrite (Z.testbit_neg_r _ (i - n)), andb_false_r, Z.mul_pow2_bits_low by lia. done.
  - rewrite Z.mul_pow2_bits by lia. destruct (Z.ltb_spec (i - n) k).
    + rewrite Z.ones_spec_low, andb_true_r, testbit_low, <- Z.shiftr_div_pow2, Z.shiftr_spec by lia.
      f_equal. lia.
    + rewrite Z.ones_spec_high, andb_false_r, Z.mod_pow2_bits_high by lia. done.
Qed.

(** Combining fields that do not overlap is addition. *)
Lemma lor_add n a b : 0 <= n → 0 <= a < 2 ^ n → Z.lor a (2 ^ n * b) = a + 2 ^ n * b.
Proof.
  intros Hn Ha. symmetry. rewrite Z.mul_comm. rewrite <- (Z.mod_small a (2 ^ n) Ha).
  assert (Hd : Z.land (a mod 2 ^ n) (b * 2 ^ n) = 0).
  { apply Z.bits_inj'. intros i Hi. rewrite Z.land_spec, Z.bits_0. destruct (Z.ltb_spec i n).
    - rewrite Z.mul_pow2_bits_low, andb_false_r by lia. done.
    - rewrite Z.mod_pow2_bits_high by lia. done. }
  rewrite Z.add_nocarry_lxor by done. rewrite Z.lxor_lor; done.
Qed.

Lemma testbit_add n a b i : 0 <= i < n → Z.testbit (a + 2 ^ n * b) i = Z.testbit a i.
Proof.
  intros. rewrite <- (testbit_low n (a + _)), <- (testbit_low n a) by lia.
  by rewrite (Z.mul_comm _ b), Z.mod_add by lia.
Qed.
