(* ===== verification/Memory.v ===== *)
(** Byte memory, and the block operations of student-distrib/lib.c (memcpy,
    memmove, memset, memset_word, memset_dword), modelled instruction by
    instruction from their inline assembly and proved equal to one-line
    specifications. *)
From S2P Require Import Prelude.

(** * The memory

    A total map from byte addresses to bytes.  Two memories are equivalent
    when they hold the same byte everywhere. *)
Definition mem : Type := Z → Z.

#[export] Instance mem_equiv : Equiv mem := λ m1 m2, ∀ a, m1 a = m2 a.
#[export] Instance mem_equivalence : Equivalence (≡@{mem}).
Proof.
  split.
  - by intros m a.
  - intros m1 m2 H a. by rewrite (H a).
  - intros m1 m2 m3 H1 H2 a. by rewrite (H1 a), (H2 a).
Qed.

Definition upd (m : mem) (a v : Z) : mem := λ x, if x =? a then v else m x.
Definition store8 (m : mem) (a v : Z) : mem := upd m a (u8 v).
Definition load32 (m : mem) (a : Z) : Z :=
  m a + 2 ^ 8 * m (a + 1) + 2 ^ 16 * m (a + 2) + 2 ^ 24 * m (a + 3).

(** The array [l] stored at address [a]. *)
Definition blit (m : mem) (a : Z) (l : list Z) : mem :=
  λ x, match zget l (x - a) with Some v => v | None => m x end.

(** Every cell holds a byte. *)
Definition mem_ok (m : mem) : Prop := ∀ a, is_u8 (m a).

(** [m'] agrees with [m] outside [lo, hi). *)
Definition only_in (lo hi : Z) (m m' : mem) : Prop :=
  ∀ a, a < lo ∨ hi <= a → m' a = m a.

(** * memcpy *)

(** [rep movsl], [n] times: each step reads a doubleword, then writes it. *)
Definition movsl (m : mem) (edi esi : Z) : mem :=
  let b0 := m esi in let b1 := m (esi + 1) in
  let b2 := m (esi + 2) in let b3 := m (esi + 3) in
  upd (upd (upd (upd m edi b0) (edi + 1) b1) (edi + 2) b2) (edi + 3) b3.

Fixpoint rep_movsl (n : nat) (edi esi : Z) (m : mem) : mem :=
  match n with
  | O => m
  | S n' => rep_movsl n' (edi + 4) (esi + 4) (movsl m edi esi)
  end.

(** The byte loop [.memcpy_bottom], with [edx = n]. *)
Fixpoint memcpy_bottom (n : nat) (edi esi : Z) (m : mem) : mem :=
  match n with
  | O => m
  | S n' => memcpy_bottom n' (edi + 1) (esi + 1) (upd m edi (m esi))
  end.

(** The loop [.memcpy_top], with [ecx = n]: bytes until [edi] is aligned,
    then doublewords, then the remaining bytes. *)
Fixpoint memcpy_top (n : nat) (edi esi : Z) (m : mem) : mem :=
  match n with
  | O => m
  | S n' =>
      if Z.land edi 3 =? 0 then
        let ecx := Z.shiftr (Z.of_nat n) 2 in
        let edx := Z.land (Z.of_nat n) 3 in
        memcpy_bottom (Z.to_nat edx) (edi + 4 * ecx) (esi + 4 * ecx)
          (rep_movsl (Z.to_nat ecx) edi esi m)
      else memcpy_top n' (edi + 1) (esi + 1) (upd m edi (m esi))
  end.

Definition memcpy (m : mem) (dest src n : Z) : mem :=
  memcpy_top (Z.to_nat n) dest src m.

(** * memmove *)

(** [rep movsb] with the direction flag clear ([d = 1]) or set ([d = -1]). *)
Fixpoint rep_movsb (n : nat) (d edi esi : Z) (m : mem) : mem :=
  match n with
  | O => m
  | S n' => rep_movsb n' d (edi + d) (esi + d) (upd m edi (m esi))
  end.

(** The resulting memory and the direction flag left behind. *)
Definition memmove (m : mem) (dest src n : Z) : mem * bool :=
  if dest <=? src then (rep_movsb (Z.to_nat n) 1 dest src m, false)
  else (rep_movsb (Z.to_nat n) (-1) (-1 + dest + n) (-1 + src + n) m, true).

(** * memset *)

(** [stosl]: the four bytes of [eax] at [edi]. *)
Definition byte_of (w j : Z) : Z := Z.land (Z.shiftr w (8 * j)) 255.
Definition stosl (m : mem) (edi eax : Z) : mem :=
  upd (upd (upd (upd m edi (byte_of eax 0)) (edi + 1) (byte_of eax 1))
    (edi + 2) (byte_of eax 2)) (edi + 3) (byte_of eax 3).
Definition stosw (m : mem) (edi eax : Z) : mem :=
  upd (upd m edi (byte_of eax 0)) (edi + 1) (byte_of eax 1).

Fixpoint rep_stosl (n : nat) (edi eax : Z) (m : mem) : mem :=
  match n with
  | O => m
  | S n' => rep_stosl n' (edi + 4) eax (stosl m edi eax)
  end.
Fixpoint rep_stosw (n : nat) (edi eax : Z) (m : mem) : mem :=
  match n with
  | O => m
  | S n' => rep_stosw n' (edi + 2) eax (stosw m edi eax)
  end.

Fixpoint memset_bottom (n : nat) (edi eax : Z) (m : mem) : mem :=
  match n with
  | O => m
  | S n' => memset_bottom n' (edi + 1) eax (upd m edi (byte_of eax 0))
  end.

Fixpoint memset_top (n : nat) (edi eax : Z) (m : mem) : mem :=
  match n with
  | O => m
  | S n' =>
      if Z.land edi 3 =? 0 then
        let ecx := Z.shiftr (Z.of_nat n) 2 in
        let edx := Z.land (Z.of_nat n) 3 in
        memset_bottom (Z.to_nat edx) (edi + 4 * ecx) eax
          (rep_stosl (Z.to_nat ecx) edi eax m)
      else memset_top n' (edi + 1) eax (upd m edi (byte_of eax 0))
  end.

Definition memset (m : mem) (s c n : Z) : mem :=
  let c := Z.land c 255 in
  let eax := u32 (Z.lor (Z.lor (Z.lor (Z.shiftl c 24) (Z.shiftl c 16)) (Z.shiftl c 8)) c) in
  memset_top (Z.to_nat n) s eax m.
Definition memset_word (m : mem) (s c n : Z) : mem := rep_stosw (Z.to_nat n) s c m.
Definition memset_dword (m : mem) (s c n : Z) : mem := rep_stosl (Z.to_nat n) s c m.

(** * Specifications *)
Definition copied (m : mem) (d s n : Z) : mem :=
  λ a, if (d <=? a) && (a <? d + n) then m (s + (a - d)) else m a.
Definition filled (m : mem) (d n v : Z) : mem :=
  λ a, if (d <=? a) && (a <? d + n) then v else m a.

(** The regions for which a forward copy reads no byte it has overwritten. *)
Definition copy_safe (d s n : Z) : Prop := d <= s ∨ s + n <= d.

Lemma only_in_refl lo hi m : only_in lo hi m m.
Proof. by intros a _. Qed.
Lemma only_in_trans lo hi m1 m2 m3 :
  only_in lo hi m1 m2 → only_in lo hi m2 m3 → only_in lo hi m1 m3.
Proof. intros H1 H2 a Ha. by rewrite (H2 a Ha), (H1 a Ha). Qed.
Lemma only_in_weaken lo hi lo' hi' m m' :
  lo' <= lo → hi <= hi' → only_in lo hi m m' → only_in lo' hi' m m'.
Proof. intros ?? H a Ha. apply H. lia. Qed.
Lemma only_in_upd lo hi m a v : lo <= a < hi → only_in lo hi m (upd m a v).
Proof. intros H x Hx. unfold upd. zcase; done. Qed.
Lemma only_in_copied d s n m : only_in d (d + n) m (copied m d s n).
Proof. intros a Ha. unfold copied. zcase; done. Qed.

#[export] Instance upd_proper : Proper ((≡) ==> eq ==> eq ==> (≡)) upd.
Proof. intros m m' H a ? <- v ? <- x. unfold upd. by rewrite (H x). Qed.
#[export] Instance load32_proper : Proper ((≡) ==> eq ==> eq) load32.
Proof. intros m m' H a ? <-. unfold load32. by rewrite !(H _). Qed.
#[export] Instance copied_proper : Proper ((≡) ==> eq ==> eq ==> eq ==> (≡)) copied.
Proof. intros m m' H d ? <- s ? <- n ? <- a. unfold copied. by rewrite !(H _). Qed.
#[export] Instance only_in_proper lo hi : Proper ((≡) ==> (≡) ==> iff) (only_in lo hi).
Proof.
  intros m1 m1' H1 m2 m2' H2.
  split; intros H a Ha; specialize (H a Ha); by rewrite ?(H1 a), ?(H2 a), <- ?(H1 a), <- ?(H2 a) in *.
Qed.

Ltac mem_unfold := unfold copied, filled, upd, movsl, stosl, stosw.

Section copy_steps.
Context (m : mem) (d s n : Z) (Hsafe : copy_safe d s n).

Lemma copied_byte m' k : 0 <= k < n → m' ≡ copied m d s k →
  upd m' (d + k) (m' (s + k)) ≡ copied m d s (k + 1).
Proof.
  intros Hk H a. unfold upd. rewrite !(H _). unfold copied, copy_safe in *.
  zcase; f_equal; lia.
Qed.

Lemma copied_dword m' k : 0 <= k → k + 4 <= n → m' ≡ copied m d s k →
  movsl m' (d + k) (s + k) ≡ copied m d s (k + 4).
Proof.
  intros Hk Hn H a. unfold movsl, upd. rewrite !(H _). unfold copied, copy_safe in *.
  zcase; f_equal; lia.
Qed.

Lemma rep_movsl_copied c : ∀ m' k, 0 <= k → k + 4 * Z.of_nat c <= n →
  m' ≡ copied m d s k →
  rep_movsl c (d + k) (s + k) m' ≡ copied m d s (k + 4 * Z.of_nat c).
Proof.
  induction c as [|c IH]; intros m' k Hk Hn H; cbn [rep_movsl].
  - by replace (k + 4 * Z.of_nat 0) with k by lia.
  - rewrite <- !Z.add_assoc. rewrite IH; [|lia|lia|apply copied_dword; [lia|lia|done]].
    by replace (k + 4 + 4 * Z.of_nat c) with (k + 4 * Z.of_nat (S c)) by lia.
Qed.

Lemma memcpy_bottom_copied c : ∀ m' k, 0 <= k → k + Z.of_nat c <= n →
  m' ≡ copied m d s k →
  memcpy_bottom c (d + k) (s + k) m' ≡ copied m d s (k + Z.of_nat c).
Proof.
  induction c as [|c IH]; intros m' k Hk Hn H; cbn [memcpy_bottom].
  - by replace (k + Z.of_nat 0) with k by lia.
  - rewrite <- !Z.add_assoc. rewrite IH; [|lia|lia|apply copied_byte; [lia|done]].
    by replace (k + 1 + Z.of_nat c) with (k + Z.of_nat (S c)) by lia.
Qed.

Lemma split4 c : 0 <= c → 4 * Z.shiftr c 2 + Z.land c 3 = c ∧ 0 <= Z.shiftr c 2 ∧ 0 <= Z.land c 3.
Proof.
  intros. change 3 with (Z.ones 2). rewrite Z.land_ones, Z.shiftr_div_pow2 by lia.
  change (2 ^ 2) with 4. pose proof (Z.div_mod c 4). pose proof (Z.mod_pos_bound c 4).
  pose proof (Z.div_pos c 4). lia.
Qed.

Lemma memcpy_top_copied c : ∀ m' k, 0 <= k → k + Z.of_nat c <= n →
  m' ≡ copied m d s k →
  memcpy_top c (d + k) (s + k) m' ≡ copied m d s (k + Z.of_nat c).
Proof.
  induction c as [|c IH]; intros m' k Hk Hn H; cbn [memcpy_top].
  - by replace (k + Z.of_nat 0) with k by lia.
  - case_match.
    + destruct (split4 (Z.of_nat (S c))) as (E & ? & ?); [lia|].
      set (q := Z.shiftr (Z.of_nat (S c)) 2) in *. set (r := Z.land (Z.of_nat (S c)) 3) in *.
      clearbody q r.
      rewrite <- !Z.add_assoc.
      rewrite memcpy_bottom_copied; [|lia|lia|].
      * by replace (k + 4 * q + Z.of_nat (Z.to_nat r)) with (k + Z.of_nat (S c)) by lia.
      * rewrite rep_movsl_copied by (lia || done).
        by replace (k + 4 * Z.of_nat (Z.to_nat q)) with (k + 4 * q) by lia.
    + rewrite <- !Z.add_assoc. rewrite IH; [|lia|lia|apply copied_byte; [lia|done]].
      by replace (k + 1 + Z.of_nat c) with (k + Z.of_nat (S c)) by lia.
Qed.
End copy_steps.

Lemma memcpy_copied m d s n : copy_safe d s n → memcpy m d s n ≡ copied m d s n.
Proof.
  intros Hs. assert (H0 : m ≡ copied m d s 0).
  { intros a. unfold copied. zcase. }
  destruct (decide (0 <= n)).
  - pose proof (memcpy_top_copied m d s n Hs (Z.to_nat n) m 0) as H.
    rewrite !Z.add_0_r in H. unfold memcpy. rewrite H by (lia || done).
    by replace (0 + Z.of_nat (Z.to_nat n)) with n by lia.
  - unfold memcpy. replace (Z.to_nat n) with O by lia.
    intros a. cbn. unfold copied. zcase.
Qed.

(** Bytes of a replicated pattern. *)
Lemma byte_of_pattern c j : 0 <= c < 256 → 0 <= j < 4 →
  byte_of (u32 (Z.lor (Z.lor (Z.lor (Z.shiftl c 24) (Z.shiftl c 16)) (Z.shiftl c 8)) c)) j = c.
Proof.
  intros Hc Hj.
  set (f c j := byte_of
    (u32 (Z.lor (Z.lor (Z.lor (Z.shiftl c 24) (Z.shiftl c 16)) (Z.shiftl c 8)) c)) j =? c).
  assert (H : forallb (λ c, forallb (f c) (seqZ 0 4)) (seqZ 0 256) = true) by by vm_compute.
  rewrite forallb_forall in H. specialize (H c).
  rewrite <- list_elem_of_In, elem_of_seqZ, forallb_forall in H.
  specialize (H ltac:(lia) j). rewrite <- list_elem_of_In, elem_of_seqZ in H.
  apply Z.eqb_eq, H. lia.
Qed.

Section fill_steps.
Context (d eax v : Z) (Hv : ∀ j, 0 <= j < 4 → byte_of eax j = v).
Context (m : mem).

Lemma filled_byte m' k : 0 <= k → m' ≡ filled m d k v →
  upd m' (d + k) (byte_of eax 0) ≡ filled m d (k + 1) v.
Proof.
  intros Hk H a. unfold upd. rewrite !(H _), Hv by lia. unfold filled. zcase.
Qed.

Lemma filled_dword m' k : 0 <= k → m' ≡ filled m d k v →
  stosl m' (d + k) eax ≡ filled m d (k + 4) v.
Proof.
  intros Hk H a. unfold stosl, upd. rewrite !(H _), !Hv by lia. unfold filled. zcase.
Qed.

Lemma rep_stosl_filled c : ∀ m' k, 0 <= k → m' ≡ filled m d k v →
  rep_stosl c (d + k) eax m' ≡ filled m d (k + 4 * Z.of_nat c) v.
Proof.
  induction c as [|c IH]; intros m' k Hk H; cbn [rep_stosl].
  - by replace (k + 4 * Z.of_nat 0) with k by lia.
  - rewrite <- !Z.add_assoc. rewrite IH; [|lia|by apply filled_dword].
    by replace (k + 4 + 4 * Z.of_nat c) with (k + 4 * Z.of_nat (S c)) by lia.
Qed.

Lemma memset_bottom_filled c : ∀ m' k, 0 <= k → m' ≡ filled m d k v →
  memset_bottom c (d + k) eax m' ≡ filled m d (k + Z.of_nat c) v.
Proof.
  induction c as [|c IH]; intros m' k Hk H; cbn [memset_bottom].
  - by replace (k + Z.of_nat 0) with k by lia.
  - rewrite <- !Z.add_assoc. rewrite IH; [|lia|by apply filled_byte].
    by replace (k + 1 + Z.of_nat c) with (k + Z.of_nat (S c)) by lia.
Qed.

Lemma memset_top_filled c : ∀ m' k, 0 <= k → m' ≡ filled m d k v →
  memset_top c (d + k) eax m' ≡ filled m d (k + Z.of_nat c) v.
Proof.
  induction c as [|c IH]; intros m' k Hk H; cbn [memset_top].
  - by replace (k + Z.of_nat 0) with k by lia.
  - case_match.
    + destruct (split4 (Z.of_nat (S c))) as (E & ? & ?); [lia|].
      set (q := Z.shiftr (Z.of_nat (S c)) 2) in *.
      set (r := Z.land (Z.of_nat (S c)) 3) in *. clearbody q r.
      rewrite <- !Z.add_assoc. rewrite memset_bottom_filled; [|lia|].
      * by replace (k + 4 * q + Z.of_nat (Z.to_nat r)) with (k + Z.of_nat (S c)) by lia.
      * rewrite rep_stosl_filled by (lia || done).
        by replace (k + 4 * Z.of_nat (Z.to_nat q)) with (k + 4 * q) by lia.
    + rewrite <- !Z.add_assoc. rewrite IH; [|lia|by apply filled_byte].
      by replace (k + 1 + Z.of_nat c) with (k + Z.of_nat (S c)) by lia.
Qed.
End fill_steps.

Lemma filled_0 m d n v : n <= 0 → m ≡ filled m d n v.
Proof. intros Hn a. unfold filled. zcase. Qed.

Lemma rep_movsb_forward n d s : d <= s → ∀ m,
  rep_movsb n 1 d s m ≡ copied m d s (Z.of_nat n).
Proof.
  revert d s. induction n as [|n IH]; intros d s Hds m a; cbn [rep_movsb].
  - unfold copied. zcase.
  - rewrite (IH (d + 1) (s + 1) ltac:(lia) _ a). unfold copied, upd. zcase; f_equal; lia.
Qed.

Lemma rep_movsb_backward n d s : s < d → ∀ m,
  rep_movsb n (-1) (d + Z.of_nat n - 1) (s + Z.of_nat n - 1) m ≡ copied m d s (Z.of_nat n).
Proof.
  intros Hds. induction n as [|n IH]; intros m a; cbn [rep_movsb].
  - unfold copied. zcase.
  - replace (d + Z.of_nat (S n) - 1 + -1) with (d + Z.of_nat n - 1) by lia.
    replace (s + Z.of_nat (S n) - 1 + -1) with (s + Z.of_nat n - 1) by lia.
    rewrite (IH _ a). unfold copied, upd. zcase; f_equal; lia.
Qed.

(** * Lemmas on [blit] *)
Lemma store8_ok m a v : mem_ok m → mem_ok (store8 m a v).
Proof. intros H x. unfold store8, upd. case_match; [apply u8_range|apply H]. Qed.
Lemma blit_in m a l i v : zget l i = Some v → blit m a l (a + i) = v.
Proof. intros H. unfold blit. replace (a + i - a) with i by lia. by rewrite H. Qed.

Lemma blit_out m a l x : x < a ∨ a + Z.of_nat (length l) <= x → blit m a l x = m x.
Proof.
  intros H. unfold blit, zget. destruct (Z.ltb_spec (x - a) 0); [done|].
  by rewrite lookup_ge_None_2 by lia.
Qed.

Lemma load32_range m a : mem_ok m → is_u32 (load32 m a).
Proof.
  intros H. unfold load32. pose proof (H a); pose proof (H (a + 1)).
  pose proof (H (a + 2)); pose proof (H (a + 3)). unfold is_u8, is_u32 in *. lia.
Qed.

Lemma copied_ok m d s n : mem_ok m → mem_ok (copied m d s n).
Proof. intros H a. unfold copied. case_match; apply H. Qed.
Lemma blit_only_in m a l lo hi :
  lo <= a → a + Z.of_nat (length l) <= hi → only_in lo hi m (blit m a l).
Proof. intros ?? x Hx. apply blit_out. lia. Qed.
Lemma blit_ok m a l : mem_ok m → Forall is_u8 l → mem_ok (blit m a l).
Proof.
  intros Hm Hl x. unfold blit. destruct (zget l (x - a)) as [v|] eqn:E; [|apply Hm].
  apply zget_Some in E as [_ E]. by apply (Forall_lookup_1 is_u8 l (Z.to_nat (x - a))).
Qed.
#[export] Hint Resolve only_in_refl copied_ok load32_range : words.

(** * Correctness of the block operations *)

(** C1. For every memory and every length, [memcpy] copies exactly the
    [n] source bytes whenever the destination does not start inside the source
    region after its first byte (the only case in which a forward copy would
    read a byte it has overwritten); [memmove] copies them for every overlap;
    [memset] fills the region with the low byte of its argument.  None of them
    writes outside [[d, d + n)]. *)
Theorem block_operations_correct (m : mem) (d s n c : Z) (Hn : 0 <= n) (a : Z) :
  (copy_safe d s n →
     memcpy m d s n a = if (d <=? a) && (a <? d + n) then m (s + (a - d)) else m a) ∧
  (memmove m d s n).1 a = (if (d <=? a) && (a <? d + n) then m (s + (a - d)) else m a) ∧
  memset m d c n a = (if (d <=? a) && (a <? d + n) then Z.land c 255 else m a).
Proof.
  split_and!.
  - intros H. by rewrite (memcpy_copied m d s n H a).
  - unfold memmove. case_match; cbn.
    + rewrite (rep_movsb_forward _ d s ltac:(by apply Z.leb_le) m a). unfold copied. by rewrite Z2Nat.id.
    + pose proof (rep_movsb_backward (Z.to_nat n) d s ltac:(by apply Z.leb_gt) m a) as E.
      rewrite Z2Nat.id in E by done.
      replace (-1 + d + n) with (d + n - 1) by lia. replace (-1 + s + n) with (s + n - 1) by lia.
      by rewrite E.
  - unfold memset.
    assert (Hc : 0 <= Z.land c 255 < 256).
    { change 255 with (Z.ones 8). rewrite Z.land_ones by lia. by apply Z.mod_pos_bound. }
    set (eax := u32 _).
    pose proof (memset_top_filled d eax (Z.land c 255)) as H.
    specialize (H ltac:(intros; by apply byte_of_pattern) m (Z.to_nat n) m 0 ltac:(lia)).
    rewrite Z.add_0_r in H. rewrite (H ltac:(by apply filled_0) a).
    unfold filled. by replace (0 + Z.of_nat (Z.to_nat n)) with n by lia.
Qed.

Lemma block_operations_correct_witness :
  memcpy (λ a, a mod 256) 3 7 9 5 = 9 ∧
  (memmove (λ a, a mod 256) 7 3 9).1 8 = 4 ∧ memset (λ a, a mod 256) 5 511 6 9 = 255.
Proof.
  destruct (block_operations_correct (λ a, a mod 256) 3 7 9 0 ltac:(lia) 5) as (H1 & _ & _).
  destruct (block_operations_correct (λ a, a mod 256) 7 3 9 0 ltac:(lia) 8) as (_ & H2 & _).
  destruct (block_operations_correct (λ a, a mod 256) 5 0 6 511 ltac:(lia) 9) as (_ & _ & H3).
  split; [|split].
  - rewrite H1; [reflexivity|left; lia].
  - rewrite H2. reflexivity.
  - rewrite H3. reflexivity.
Defined.

(** [memmove] to a higher address leaves the direction flag set. *)
Lemma memmove_direction_flag m d s n : s < d → (memmove m d s n).2 = true.
Proof. intros H. unfold memmove. by destruct (Z.leb_spec d s); [lia|]. Qed.
