(* ===== verification/Strings.v ===== *)
(** The C string routines: strlen, strncmp, strcpy, strncpy, strrev and itoa of
    student-distrib/lib.c, and their user-level counterparts of
    syscalls/ece391support.c.

    A [char*] argument that is only read is a [str]: the byte at each offset,
    [None] where the object it points into ends.  A buffer that is written from
    its start is returned as the list of the bytes stored. *)
From S2P Require Import Prelude Memory.

Definition str : Type := Z → option Z.
Definition mview (m : mem) (a : Z) : str := λ i, Some (m (a + i)).
Definition lview (l : list Z) : str := zget l.

(** [s] is NUL-terminated and has length [n]. *)
Definition is_cstr (s : str) (n : Z) : Prop :=
  0 <= n ∧ s n = Some 0 ∧ ∀ i, 0 <= i < n → ∃ c, s i = Some c ∧ c ≠ 0.

(** * lib.c *)
Definition strlen (s : str) : out Z :=
  orun (λ len, match s len with
               | None => inr Undef
               | Some c => if c =? 0 then inr (Done len) else inl (u32 (len + 1))
               end) 0.

Definition strncmp (s1 s2 : str) (n : Z) : out Z :=
  orun (λ i,
    if negb (i <? n) then inr (Done 0) else
    match s1 i, s2 i with
    | Some c1, Some c2 =>
        if negb (i8 c1 =? i8 c2) || (i8 c1 =? 0) then inr (Done (i8 c1 - i8 c2))
        else inl (i + 1)
    | _, _ => inr Undef
    end) 0.

(** The bytes stored at [dest[0]], [dest[1]], ... *)
Definition strcpy (src : str) : out (list Z) :=
  orun (λ '(i, dest), match src i with
    | None => inr Undef
    | Some c => if c =? 0 then inr (Done (dest ++ [0])) else inl (i + 1, dest ++ [c])
    end) (0, []).

Definition strncpy_copy (src : str) (n : Z) : out (Z * list Z) :=
  orun (λ '(i, dest), match src i with
    | None => inr Undef
    | Some c =>
        if negb (c =? 0) && (i <? n) then inl (i + 1, dest ++ [c]) else inr (Done (i, dest))
    end) (0, []).
Definition strncpy (src : str) (n : Z) : out (list Z) :=
  '(i, dest) ← strncpy_copy src n;
  run (λ '(i, dest), if i <? n then inl (i + 1, dest ++ [0]) else inr dest) (i, dest).

(** [strrev] swaps in place inside the buffer [s]. *)
Definition strrev_swap (s : list Z) (last : Z) : out (list Z) :=
  orun (λ '(b, e, s),
    if b <? e then
      match zget s e, zget s b with
      | Some tmp, Some c =>
          match zset s e c with
          | Some s1 => match zset s1 b tmp with
                       | Some s2 => inl (b + 1, e - 1, s2) | None => inr Undef end
          | None => inr Undef
          end
      | _, _ => inr Undef
      end
    else inr (Done s)) (0, last, s).
Definition strrev (s : list Z) : out (list Z) :=
  n ← strlen (lview s); strrev_swap s (i32 (n - 1)).

(** "0123456789ABCDEFGHIJKLMNOPQRSTUVWXYZ" *)
Definition lookup_digits : list Z := seqZ 48 10 ++ seqZ 65 26 ++ [0].

(** The digits, lowest place first, as the loop stores them. *)
Definition itoa_digits (value radix : Z) : out (list Z) :=
  orun (λ '(newval, buf),
    if 0 <? newval then
      if u32 radix =? 0 then inr Undef else
      match zget lookup_digits (newval mod u32 radix) with
      | Some c => inl (newval / u32 radix, buf ++ [c])
      | None => inr Undef
      end
    else inr (Done buf)) (value, []).
(** The bytes of [buf] on return, its terminating NUL included. *)
Definition itoa (value radix : Z) : out (list Z) :=
  if value =? 0 then Done [48; 0] else
  digits ← itoa_digits value radix; strrev (digits ++ [0]).

(** * ece391support.c *)
Definition ece391_strlen (s : str) : out Z :=
  orun (λ len, match s len with
               | None => inr Undef
               | Some c => if 0 =? c then inr (Done len) else inl (u32 (len + 1))
               end) 0.

Definition ece391_strcpy (src : str) : out (list Z) :=
  orun (λ '(i, dst), match src i with
    | None => inr Undef
    | Some c => if 0 =? c then inr (Done (dst ++ [c])) else inl (i + 1, dst ++ [c])
    end) (0, []).

Definition ece391_strcmp (s1 s2 : str) : out Z :=
  orun (λ i, match s1 i, s2 i with
    | Some c1, Some c2 =>
        if c1 =? c2 then (if c1 =? 0 then inr (Done 0) else inl (i + 1))
        else inr (Done (c1 - c2))
    | _, _ => inr Undef
    end) 0.

Definition ece391_strncmp (s1 s2 : str) (n : Z) : out Z :=
  if 0 =? n then Done 0 else
  orun (λ '(i, n), match s1 i, s2 i with
    | Some c1, Some c2 =>
        if c1 =? c2 then
          if c1 =? 0 then inr (Done 0) else
          let n := u32 (n - 1) in
          if n =? 0 then inr (Done 0) else inl (i + 1, n)
        else inr (Done (c1 - c2))
    | _, _ => inr Undef
    end) (0, n).

Definition ece391_strrev (s : list Z) : out (list Z) :=
  n ← ece391_strlen (lview s);
  let last := i32 (n - 1) in
  if last <=? 0 then Done s else strrev_swap s last.

Definition ece391_itoa (value radix : Z) : out (list Z) :=
  if value =? 0 then Done [48; 0] else
  digits ← itoa_digits value radix; ece391_strrev (digits ++ [0]).

(** * Lemmas *)

(** The first [n] bytes of a string. *)
Definition bytes_of (s : str) (n : Z) : list Z := (λ i, default 0 (s i)) <$> seqZ 0 n.

Lemma bytes_of_snoc s n : 0 <= n → bytes_of s (n + 1) = bytes_of s n ++ [default 0 (s n)].
Proof.
  intros. unfold bytes_of. rewrite seqZ_app by lia. rewrite fmap_app. do 2 f_equal.
Qed.
Lemma length_bytes_of s n : 0 <= n → Z.of_nat (length (bytes_of s n)) = n.
Proof. intros. unfold bytes_of. rewrite length_fmap, length_seqZ. lia. Qed.
Lemma zget_bytes_of s n i : 0 <= i < n → zget (bytes_of s n) i = Some (default 0 (s i)).
Proof.
  intros. apply zget_Some. split; [lia|]. unfold bytes_of.
  rewrite list_lookup_fmap, (lookup_seqZ_lt 0 n (Z.to_nat i)) by lia. cbn.
  by replace (0 + Z.of_nat (Z.to_nat i)) with i by lia.
Qed.

(** A list with its terminator, seen through a pointer. *)
Lemma lview_cstr l : Forall (λ c, c ≠ 0) l → is_cstr (lview (l ++ [0])) (Z.of_nat (length l)).
Proof.
  intros Hl. unfold lview. split_and!; [lia| |].
  - apply zget_Some. split; [lia|]. rewrite Nat2Z.id, lookup_app_r by lia. by rewrite Nat.sub_diag.
  - intros j Hj. destruct (lookup_lt_is_Some_2 l (Z.to_nat j)) as [c Hc]; [lia|]. exists c.
    split; [|by eapply (list.Forall_lookup_1 _ _ _ _ Hl)]. apply zget_Some. split; [lia|].
    by apply lookup_app_l_Some.
Qed.

Lemma bytes_of_lview l : bytes_of (lview (l ++ [0])) (Z.of_nat (length l)) = l.
Proof.
  apply list_eq. intros j. unfold bytes_of, lview. rewrite list_lookup_fmap.
  destruct (decide (j < length l)%nat).
  - rewrite (lookup_seqZ_lt 0 _ j) by lia. cbn.
    destruct (lookup_lt_is_Some_2 l j) as [c Hc]; [lia|]. rewrite Hc.
    assert (E : zget (l ++ [0]) (0 + Z.of_nat j) = Some c); [|by rewrite E]. rewrite Z.add_0_l.
    apply zget_Some. split; [lia|]. rewrite Nat2Z.id. by apply lookup_app_l_Some.
  - rewrite (lookup_ge_None_2 l) by lia. rewrite lookup_seqZ_ge by lia. done.
Qed.

Lemma strlen_spec s n : is_cstr s n → n < 2 ^ 32 → strlen s = Done n.
Proof.
  intros (H0 & Hn & Hs) Hlt.
  destruct (orun_total (λ len, match s len with
     | None => inr Undef
     | Some c => if c =? 0 then inr (Done len) else inl (u32 (len + 1)) end)
     (λ i, 0 <= i <= n) (λ r, r = n) (λ i, n - i) 0) as (r & E & ->); [|lia|lia|done].
  intros i Hi. destruct (decide (i = n)) as [->|].
  - rewrite Hn, Z.eqb_refl. eauto.
  - destruct (Hs i) as (c & -> & Hc); [lia|]. rewrite (proj2 (Z.eqb_neq c 0) Hc).
    rewrite u32_id by (split; lia). lia.
Qed.

Lemma ece391_strlen_eq s : ece391_strlen s = strlen s.
Proof. apply orun_ext. intros i. destruct (s i) as [c|]; [|done]. by rewrite Z.eqb_sym. Qed.

Lemma i8_inj a b : is_u8 a → is_u8 b → i8 a = i8 b → a = b.
Proof. intros Ha Hb. unfold i8. rewrite !u8_id by done. unfold is_u8 in *. zcase. Qed.
Lemma i8_zero a : is_u8 a → i8 a = 0 → a = 0.
Proof. intros Ha. unfold i8. rewrite !u8_id by done. unfold is_u8 in *. zcase. Qed.

(** The strings agree on their first [n] bytes, or up to a common NUL. *)
Definition agree (s1 s2 : str) (n : Z) : Prop :=
  ∀ i, 0 <= i < n → (∀ j, 0 <= j < i → s1 j ≠ Some 0) → s1 i = s2 i.
Definition readable (s : str) (n : Z) : Prop :=
  ∀ i, 0 <= i < n → ∃ c, s i = Some c ∧ is_u8 c.

Lemma strncmp_spec s1 s2 n : 0 <= n < 2 ^ 32 → readable s1 n → readable s2 n →
  ∃ r, strncmp s1 s2 n = Done r ∧ (r = 0 ↔ agree s1 s2 n).
Proof.
  intros Hn R1 R2.
  apply (orun_total _ (λ i, 0 <= i <= n ∧ ∀ j, 0 <= j < i → s1 j = s2 j ∧ s1 j ≠ Some 0)
    _ (λ i, n - i)); [|split; [lia|intros; lia]|lia].
  intros i [Hi Hpre]. destruct (Z.ltb_spec i n) as [Hlt|Hge]; cbn.
  2:{ exists 0. split; [done|]. split; [|done]. intros _ k Hk _. apply Hpre. lia. }
  destruct (R1 i ltac:(lia)) as (c1 & E1 & B1), (R2 i ltac:(lia)) as (c2 & E2 & B2).
  rewrite E1, E2.
  destruct (Z.eqb_spec (i8 c1) (i8 c2)) as [Ec|Ec]; cbn.
  - assert (c1 = c2) as <- by by apply i8_inj.
    destruct (Z.eqb_spec (i8 c1) 0) as [Ez|Ez].
    + exists (i8 c1 - i8 c1). split; [done|]. split; [intros _|lia].
      intros k Hk Hnz. destruct (Z.lt_trichotomy k i) as [|[->|]]; [apply Hpre; lia|congruence|].
      exfalso. apply (Hnz i); [lia|]. by rewrite E1, (i8_zero c1).
    + split; [split; [lia|]|lia]. intros j Hj. destruct (decide (j = i)) as [->|].
      * rewrite E1, E2. split; [done|]. intros [= ->]. by apply Ez.
      * apply Hpre. lia.
  - exists (i8 c1 - i8 c2). split; [done|]. split; [lia|].
    intros Ha. specialize (Ha i ltac:(lia)). rewrite E1, E2 in Ha.
    destruct Ec. f_equal. assert (Some c1 = Some c2) as [= ->]; [|done].
    apply Ha. intros j Hj. by apply Hpre.
Qed.

(** The user-level comparisons of two C strings. *)
Lemma ece391_strncmp_spec s1 n1 s2 n2 n : is_cstr s1 n1 → is_cstr s2 n2 → 0 <= n < 2 ^ 32 →
  ∃ r, ece391_strncmp s1 s2 n = Done r ∧ (r = 0 ↔ agree s1 s2 n).
Proof.
  intros (P1 & Z1 & C1) (P2 & Z2 & C2) Hn. unfold ece391_strncmp. destruct (Z.eqb_spec 0 n) as [<-|Hne].
  { exists 0. split; [done|]. split; [intros _ i; lia|done]. }
  apply (orun_total _ (λ '(i, m), 0 <= i ∧ m = n - i ∧ 1 <= m ∧ i <= n1 ∧ i <= n2 ∧ ∀ j, 0 <= j < i → s1 j = s2 j ∧ s1 j ≠ Some 0)
    _ (λ '(_, m), m)); [|split_and!; try lia; intros; lia|lia].
  intros [i m] (Hi & -> & Hm & H1 & H2 & Hpre).
  assert (E1 : ∃ c, s1 i = Some c ∧ (c = 0 ↔ i = n1)).
  { destruct (decide (i = n1)) as [->|]; [by exists 0|]. destruct (C1 i) as (c & ? & ?); [lia|]. by exists c. }
  assert (E2 : ∃ c, s2 i = Some c ∧ (c = 0 ↔ i = n2)).
  { destruct (decide (i = n2)) as [->|]; [by exists 0|]. destruct (C2 i) as (c & ? & ?); [lia|]. by exists c. }
  destruct E1 as (c1 & E1 & Hc1), E2 as (c2 & E2 & Hc2). rewrite E1, E2. destruct (Z.eqb_spec c1 c2) as [<-|Hc].
  - destruct (Z.eqb_spec c1 0) as [->|Hc0].
    { exists 0. split; [done|]. split; [|done]. intros _ j Hj Hnz. destruct (Z.lt_trichotomy j i) as [|[->|]];
        [apply Hpre; lia|congruence|]. exfalso. by apply (Hnz i); [lia|]. }
    rewrite u32_id by (split; lia). destruct (Z.eqb_spec (n - i - 1) 0).
    { exists 0. split; [done|]. split; [|done]. intros _ j Hj _. destruct (decide (j = i)) as [->|]; [congruence|apply Hpre; lia]. }
    split; [|lia]. split_and!; [lia|lia|lia|lia|lia|]. intros j Hj.
    destruct (decide (j = i)) as [->|]; [split; congruence|apply Hpre; lia].
  - exists (c1 - c2). split; [done|]. split; [lia|]. intros Ha. exfalso. apply Hc. specialize (Ha i ltac:(lia)).
    rewrite E1, E2 in Ha. by injection Ha; [|intros j Hj; apply Hpre; lia].
Qed.

Lemma ece391_strcmp_spec s1 n1 s2 n2 : is_cstr s1 n1 → is_cstr s2 n2 → n1 < 2 ^ 32 →
  ∃ r, ece391_strcmp s1 s2 = Done r ∧ (r = 0 ↔ n1 = n2 ∧ ∀ i, 0 <= i < n1 → s1 i = s2 i).
Proof.
  intros (H1 & Z1 & C1) (H2 & Z2 & C2) Hn.
  apply (orun_total _ (λ i, 0 <= i ∧ i <= n1 ∧ i <= n2 ∧ ∀ j, 0 <= j < i → s1 j = s2 j) _ (λ i, n1 - i));
    [|split_and!; try lia; intros; lia|lia].
  intros i (Hi & Hi1 & Hi2 & Hpre).
  assert (E1 : ∃ c, s1 i = Some c ∧ (c = 0 ↔ i = n1)).
  { destruct (decide (i = n1)) as [->|]; [by exists 0|]. destruct (C1 i) as (c & ? & ?); [lia|]. by exists c. }
  assert (E2 : ∃ c, s2 i = Some c ∧ (c = 0 ↔ i = n2)).
  { destruct (decide (i = n2)) as [->|]; [by exists 0|]. destruct (C2 i) as (c & ? & ?); [lia|]. by exists c. }
  destruct E1 as (c1 & E1 & Hc1), E2 as (c2 & E2 & Hc2). rewrite E1, E2. destruct (Z.eqb_spec c1 c2) as [<-|Hc].
  - destruct (Z.eqb_spec c1 0) as [->|Hc0].
    + exists 0. split; [done|]. split; [|done]. intros _. split; [lia|]. intros j Hj. apply Hpre. lia.
    + split; [|lia]. split_and!; [lia|lia|lia|]. intros j Hj. destruct (decide (j = i)) as [->|]; [congruence|apply Hpre; lia].
  - exists (c1 - c2). split; [done|]. split; [lia|]. intros [En Ha]. destruct (decide (i = n1)) as [->|].
    + assert (c1 = 0) by tauto. assert (c2 = 0) by (apply Hc2; lia). lia.
    + specialize (Ha i ltac:(lia)). rewrite E1, E2 in Ha. injection Ha as ->. done.
Qed.

(** [strncpy] stores [k] bytes of the source, up to its NUL or to [n], and then
    zeros: [n] bytes in all. *)
Lemma strncpy_spec s n k : 0 <= k <= n → n < 2 ^ 32 →
  (∀ i, 0 <= i < k → ∃ c, s i = Some c ∧ c ≠ 0) →
  (s k = Some 0 ∨ k = n ∧ is_Some (s k)) →
  strncpy s n = Done (bytes_of s k ++ replicate (Z.to_nat (n - k)) 0).
Proof.
  intros Hk Hn Hs Hend.
  assert (Ecopy : strncpy_copy s n = Done (k, bytes_of s k)).
  { destruct (orun_total (λ '(i, dest), match s i with
      | None => inr Undef
      | Some c => if negb (c =? 0) && (i <? n) then inl (i + 1, dest ++ [c])
                  else inr (Done (i, dest)) end)
      (λ '(i, dest), 0 <= i <= k ∧ dest = bytes_of s i) (λ r, r = (k, bytes_of s k))
      (λ '(i, _), k - i) (0, [])) as (r & E & ->); [|by split; [lia|]|lia|done].
    intros [i dest] [Hi ->]. destruct (decide (i = k)) as [->|Hne].
    - destruct Hend as [->|[-> [c ->]]]; [rewrite Z.eqb_refl; cbn; by eauto|].
      rewrite Z.ltb_irrefl, andb_false_r. eauto.
    - destruct (Hs i ltac:(lia)) as (c & Ec & Hc). rewrite Ec.
      rewrite (proj2 (Z.eqb_neq c 0) Hc), (proj2 (Z.ltb_lt i n)) by lia. cbn.
      rewrite bytes_of_snoc, Ec by lia. split; [split; [lia|done]|lia]. }
  unfold strncpy. rewrite Ecopy. cbn.
  destruct (run_total (λ '(i, dest), if i <? n then inl (i + 1, dest ++ [0]) else inr dest)
    (λ '(i, dest), k <= i <= n ∧ dest = bytes_of s k ++ replicate (Z.to_nat (i - k)) 0)
    (λ r, r = bytes_of s k ++ replicate (Z.to_nat (n - k)) 0)
    (λ '(i, _), n - i) (k, bytes_of s k)) as (r & E & ->); [| |lia|done].
  - intros [i dest] [Hi ->]. destruct (Z.ltb_spec i n).
    + split; [split; [lia|]|lia]. rewrite <- app_assoc, <- replicate_S_end.
      do 2 f_equal. lia.
    + by replace i with n by lia.
  - split; [lia|]. by rewrite Z.sub_diag, app_nil_r.
Qed.

(** [strncpy] from a source readable up to [n] stores [n] bytes and keeps every
    byte before the first NUL. *)
Lemma strncpy_prefix s n : 0 <= n < 2 ^ 32 → (∀ i, 0 <= i <= n → is_Some (s i)) →
  ∃ l, strncpy s n = Done l ∧ Z.of_nat (length l) = n ∧
    ∀ j, 0 <= j < n → (∀ i, 0 <= i <= j → s i ≠ Some 0) → zget l j = s j.
Proof.
  intros [Hn0 Hn] Hs.
  assert (Hk : ∃ k, 0 <= k <= n ∧ (∀ i, 0 <= i < k → ∃ c, s i = Some c ∧ c ≠ 0) ∧
    (s k = Some 0 ∨ k = n ∧ is_Some (s k))).
  { clear Hn. revert Hn0 Hs. apply (natlike_ind (λ n, (∀ i, 0 <= i <= n → is_Some (s i)) → ∃ k, 0 <= k <= n ∧
      (∀ i, 0 <= i < k → ∃ c, s i = Some c ∧ c ≠ 0) ∧ (s k = Some 0 ∨ k = n ∧ is_Some (s k)))).
    - intros Hs. exists 0. split_and!; [lia|lia|lia|]. right. split; [done|]. apply Hs. lia.
    - intros m Hm IH Hs. destruct IH as (k & Hk & Hpre & Hend); [intros; apply Hs; lia|].
      destruct Hend as [Hz|[-> [c Hc]]]; [exists k; split_and!; [lia|lia|done|by left]|].
      destruct (decide (c = 0)) as [->|Hne]; [exists m; split_and!; [lia|lia|done|by left]|].
      exists (Z.succ m). split_and!; [lia|lia| |].
      + intros i Hi. destruct (decide (i = m)) as [->|]; [by exists c|apply Hpre; lia].
      + right. split; [done|]. apply Hs. lia. }
  destruct Hk as (k & Hk & Hpre & Hend).
  exists (bytes_of s k ++ replicate (Z.to_nat (n - k)) 0). pose proof (length_bytes_of s k ltac:(lia)) as El.
  split_and!; [by apply strncpy_spec|rewrite length_app, length_replicate; lia|].
  intros j Hj Hnz. assert (Hjk : j < k).
  { destruct Hend as [Hz|[-> _]]; [|lia]. destruct (decide (j < k)); [done|].
    exfalso. apply (Hnz k); [lia|done]. }
  destruct (Hpre j ltac:(lia)) as (c & Ec & _). pose proof (zget_bytes_of s k j ltac:(lia)) as E.
  rewrite Ec in *. apply zget_Some in E as [? E]. apply zget_Some. split; [done|].
  rewrite lookup_app_l by lia. done.
Qed.

(** ** strrev *)
Lemma zget_lt {A} (l : list A) i : i < 0 ∨ Z.of_nat (length l) <= i → zget l i = None.
Proof.
  intros H. unfold zget. destruct (Z.ltb_spec i 0); [done|]. apply lookup_ge_None_2. lia.
Qed.

Lemma strrev_swap_spec s last :
  -1 <= last < Z.of_nat (length s) → last < 2 ^ 31 →
  ∃ s', strrev_swap s last = Done s' ∧ length s' = length s ∧
    ∀ i, zget s' i = if (0 <=? i) && (i <=? last) then zget s (last - i) else zget s i.
Proof.
  intros Hl Hlt.
  apply (orun_total _ (λ '(b, e, s'), b + e = last ∧ 0 <= b <= e + 1 ∧ length s' = length s ∧
    ∀ i, zget s' i = if ((0 <=? i) && (i <? b)) || ((e <? i) && (i <=? last))
                     then zget s (last - i) else zget s i) _ (λ '(b, e, _), e - b + 1));
    [|split_and!; [lia|lia|lia|done|]|lia].
  2:{ intros i. destruct (Z.leb_spec 0 i), (Z.ltb_spec i 0), (Z.ltb_spec last i),
        (Z.leb_spec i last); cbn; lia || done. }
  intros [[b e] s'] (Hs & Hb & Hlen & Hget). destruct (Z.ltb_spec b e) as [Hlt'|Hge].
  - destruct (zget_is_Some s' e) as [tmp Ee]; [lia|].
    destruct (zget_is_Some s' b) as [c Eb]; [lia|]. rewrite Ee, Eb.
    rewrite zset_in by lia. cbn. rewrite zset_in by (rewrite length_insert; lia).
    split; [|lia]. split_and!; [lia|lia|lia|by rewrite !length_insert|].
    intros i. destruct (decide (i = b)) as [->|].
    { rewrite zget_insert_eq by (rewrite length_insert; lia). rewrite <- Ee, Hget.
      zcase; f_equal; lia. }
    rewrite zget_insert_ne by lia. destruct (decide (i = e)) as [->|].
    { rewrite zget_insert_eq by lia. rewrite <- Eb, Hget. zcase; f_equal; lia. }
    rewrite zget_insert_ne, Hget by lia. zcase; done.
  - exists s'. split_and!; [done|done|]. intros i. rewrite Hget.
    destruct (decide (i = last - i)) as [E|]; [rewrite <- E; by repeat case_match|].
    zcase; done.
Qed.

Lemma strrev_spec l rest : Forall (λ c, c ≠ 0) l → Z.of_nat (length l) < 2 ^ 31 →
  strrev (l ++ 0 :: rest) = Done (reverse l ++ 0 :: rest).
Proof.
  intros Hnz Hlen. unfold strrev. set (s := l ++ 0 :: rest).
  assert (Hs : length s = (length l + S (length rest))%nat) by (unfold s; by rewrite length_app).
  rewrite (strlen_spec _ (Z.of_nat (length l))); [| |lia].
  2:{ split_and!; [lia| |].
      - unfold lview. apply zget_Some. split; [lia|]. unfold s.
        by rewrite Nat2Z.id, list_lookup_middle.
      - intros i Hi. destruct (lookup_lt_is_Some_2 l (Z.to_nat i)) as [c Ec]; [lia|].
        exists c. split.
        + apply zget_Some. split; [lia|]. unfold s. by rewrite lookup_app_l by lia.
        + by apply (Forall_lookup_1 _ _ _ _ Hnz Ec). }
  cbn. assert (E : i32 (Z.of_nat (length l) - 1) = Z.of_nat (length l) - 1).
  { destruct l as [|c l']; [done|]. apply i32_small. cbn in *. lia. }
  rewrite E. destruct (strrev_swap_spec s (Z.of_nat (length l) - 1)) as (s' & -> & Hl & Hget);
    [lia|lia|]. f_equal. apply list_eq. intros i. specialize (Hget (Z.of_nat i)).
  unfold zget in Hget at 1. rewrite (proj2 (Z.ltb_ge (Z.of_nat i) 0)), Nat2Z.id in Hget by lia.
  rewrite Hget. destruct (Z.leb_spec 0 (Z.of_nat i)) as [_|]; [|lia].
  destruct (Z.leb_spec (Z.of_nat i) (Z.of_nat (length l) - 1)); cbn.
  - rewrite lookup_app_l by (rewrite length_reverse; lia). rewrite reverse_lookup by lia.
    unfold zget. destruct (Z.ltb_spec (Z.of_nat (length l) - 1 - Z.of_nat i) 0); [lia|].
    unfold s. rewrite lookup_app_l by lia. f_equal. lia.
  - unfold zget. destruct (Z.ltb_spec (Z.of_nat i) 0); [lia|]. rewrite Nat2Z.id. unfold s.
    rewrite !lookup_app_r by (rewrite ?length_reverse; lia). by rewrite length_reverse.
Qed.

(** ** itoa *)
Definition digit_val (c : Z) : Z := if c <? 58 then c - 48 else c - 55.
Definition val_le (r : Z) (l : list Z) : Z := foldr (λ c acc, digit_val c + r * acc) 0 l.

(** The number a digit string denotes in base [r], most significant first. *)
Definition val_be (r : Z) (l : list Z) : Z := foldl (λ acc c, acc * r + digit_val c) 0 l.

Lemma val_be_reverse r l : val_be r (reverse l) = val_le r l.
Proof.
  induction l as [|c l IH]; [done|]. rewrite reverse_cons. unfold val_be in *.
  rewrite foldl_app, IH. cbn [foldl].
  change (val_le r (c :: l)) with (digit_val c + r * val_le r l). lia.
Qed.
Lemma val_le_snoc r l c : val_le r (l ++ [c]) = val_le r l + r ^ Z.of_nat (length l) * digit_val c.
Proof.
  induction l as [|d l IH]; cbn [app val_le foldr length]; [lia|].
  fold (val_le r (l ++ [c])). rewrite IH, Nat2Z.inj_succ, Z.pow_succ_r by lia.
  unfold val_le. lia.
Qed.

Lemma lookup_digit d : 0 <= d < 36 → ∃ c, zget lookup_digits d = Some c ∧ c ≠ 0 ∧ digit_val c = d.
Proof.
  intros Hd.
  assert (H : forallb (λ d, match zget lookup_digits d with
    | Some c => negb (c =? 0) && (digit_val c =? d) | None => false end) (seqZ 0 36) = true)
    by by vm_compute.
  rewrite forallb_forall in H. specialize (H d).
  rewrite <- list_elem_of_In, elem_of_seqZ in H. specialize (H ltac:(lia)).
  destruct (zget lookup_digits d) as [c|]; [|done]. exists c.
  apply andb_true_iff in H as [H1 H2]. apply negb_true_iff, Z.eqb_neq in H1.
  apply Z.eqb_eq in H2. done.
Qed.

Definition digit_ok (r c : Z) : Prop := c ≠ 0 ∧ 0 <= digit_val c < r.

Lemma itoa_digits_spec value r : 2 <= r <= 36 → 0 < value < 2 ^ 32 →
  ∃ l, itoa_digits value r = Done l ∧ val_le r l = value ∧ Forall (digit_ok r) l ∧
    l ≠ [] ∧ r ^ (Z.of_nat (length l) - 1) <= value.
Proof.
  intros Hr Hv. assert (Eu : u32 r = r) by (apply u32_id; split; lia).
  apply (orun_total _ (λ '(nv, l), 0 <= nv ∧ val_le r l + r ^ Z.of_nat (length l) * nv = value ∧
    Forall (digit_ok r) l ∧ (l = [] → nv = value) ∧ r ^ (Z.of_nat (length l) - 1) <= value) _
    (λ '(nv, _), nv)); [|cbn; split_and!; try done; lia|lia].
  intros [nv l] (Hnv & Hval & Hok & Hnil & Hpow). rewrite Eu.
  destruct (Z.ltb_spec 0 nv).
  - rewrite (proj2 (Z.eqb_neq r 0)) by lia.
    pose proof (Z.mod_pos_bound nv r ltac:(lia)).
    destruct (lookup_digit (nv mod r)) as (c & -> & Hc & Hd); [lia|].
    pose proof (Z.div_mod nv r ltac:(lia)). pose proof (Z.div_pos nv r ltac:(lia) ltac:(lia)).
    pose proof (Z.pow_pos_nonneg r (Z.of_nat (length l)) ltac:(lia) ltac:(lia)).
    split; [|nia]. rewrite val_le_snoc, length_app, Hd. cbn [length].
    replace (Z.of_nat (length l + 1)) with (Z.succ (Z.of_nat (length l))) by lia.
    rewrite Z.pow_succ_r by lia. split_and!; [lia|nia| |by destruct l|].
    + apply Forall_app. split; [done|]. constructor; [|constructor]. split; [done|lia].
    + rewrite Z.sub_1_r, Z.pred_succ. assert (0 <= val_le r l); [|nia]. clear -Hok Hr.
      induction Hok as [|x l [_ Hx] Hl IH]; cbn; [lia|]. fold (val_le r l). nia.
  - exists l. assert (nv = 0) as -> by lia. split_and!; [done|lia|done| |done].
    intros ->. specialize (Hnil eq_refl). lia.
Qed.

Lemma ece391_strrev_eq s : 0 <= Z.of_nat (length s) < 2 ^ 31 → ece391_strrev s = strrev s.
Proof.
  intros Hs. unfold ece391_strrev, strrev. rewrite ece391_strlen_eq.
  destruct (strlen (lview s)) as [n| |]; [|done|done]. cbn.
  destruct (Z.leb_spec (i32 (n - 1)) 0) as [Hle|]; [|done].
  symmetry. apply orun_exit. by rewrite (proj2 (Z.ltb_ge 0 _)).
Qed.

Lemma itoa_spec (value radix : Z) (Hr : 2 <= radix <= 36) (Hv : is_u32 value) :
  ∃ ds, itoa value radix = Done (ds ++ [0]) ∧ ece391_itoa value radix = Done (ds ++ [0]) ∧
    val_be radix ds = value ∧ Forall (digit_ok radix) ds ∧
    1 <= Z.of_nat (length ds) <= 32 ∧
    (1 < Z.of_nat (length ds) → radix ^ (Z.of_nat (length ds) - 1) <= value).
Proof.
  unfold itoa, ece391_itoa. destruct (Z.eqb_spec value 0) as [->|Hne].
  { exists [48]. split_and!; try done. constructor; [|done]. split; [done|].
    change (digit_val 48) with 0. lia. }
  unfold is_u32 in Hv. destruct (itoa_digits_spec value radix) as (l & -> & Hval & Hok & Hnil & Hp);
    [lia|lia|].
  assert (Hlen : 1 <= Z.of_nat (length l) <= 32).
  { split; [destruct l; [done|cbn; lia]|]. apply Z.nlt_ge. intros Hc.
    pose proof (Z.pow_le_mono_l 2 radix 32 ltac:(lia)).
    pose proof (Z.pow_le_mono_r radix 32 (Z.of_nat (length l) - 1) ltac:(lia) ltac:(lia)). lia. }
  assert (Hnz : Forall (λ c, c ≠ 0) l) by (eapply Forall_impl; [|exact Hok]; intros x [Hx _]; exact Hx).
  exists (reverse l). cbn [mbind out_bind].
  rewrite ece391_strrev_eq by (rewrite length_app; cbn; lia).
  rewrite strrev_spec by (done || lia). rewrite length_reverse.
  split_and!; [done|done|by rewrite val_be_reverse|by apply Forall_reverse|lia|lia|done].
Qed.

(** C2. [itoa] terminates for every 32-bit value and every radix from 2 to 36
    and leaves a NUL-terminated string of digits of that radix which denotes the
    value, has no leading zero, and is at most 32 digits long (so at most 10
    in decimal and 8 in hexadecimal); the user-level [ece391_itoa] leaves the
    same string. *)
Theorem itoa_correct (value radix : Z) (Hr : 2 <= radix <= 36) (Hv : is_u32 value) :
  ∃ ds, itoa value radix = Done (ds ++ [0]) ∧ ece391_itoa value radix = Done (ds ++ [0]) ∧
    val_be radix ds = value ∧ Forall (digit_ok radix) ds ∧
    1 <= Z.of_nat (length ds) <= 32 ∧
    (1 < Z.of_nat (length ds) → radix ^ (Z.of_nat (length ds) - 1) <= value).
Proof. exact (itoa_spec value radix Hr Hv). Qed.

Lemma itoa_correct_witness :
  itoa 3054 16 = Done [66; 69; 69; 0] ∧ val_be 16 [66; 69; 69] = 3054.
Proof.
  destruct (itoa_correct 3054 16 ltac:(lia) ltac:(split; lia)) as (ds & H & _ & Hv & _).
  assert (E : itoa 3054 16 = Done [66; 69; 69; 0]) by reflexivity.
  rewrite E in H. injection H as H. change [66; 69; 69; 0] with ([66; 69; 69] ++ [0]) in H.
  apply app_inj_tail in H as [<- _]. split; [exact E|exact Hv].
Defined.
