(* ===== verification/Console.v ===== *)
(** The console of student-distrib/lib.c: the text screen in video memory, the
    background copies of the other terminals, the cursor, the line-editing
    buffer and printf. *)
From Stdlib Require Import String Ascii.
From S2P Require Import Prelude Memory Strings.

(** String literals, and the same with the terminating NUL. *)
Definition lit (s : string) : list Z :=
  List.map (λ a, Z.of_nat (nat_of_ascii a)) (list_ascii_of_string s).
Definition lit0 (s : string) : str := lview (lit s ++ [0]).

(** * Constants of lib.c, lib.h and types.h *)
Definition VIDEO : Z := 0xB8000.
Definition NUM_COLS : Z := 80.
Definition NUM_ROWS : Z := 24.
Definition MAX_TERMINAL_NUM : Z := 3.
Definition KEY_ARR_SIZE : Z := 128.
Definition FOUR_KB_SIZE : Z := 4096.
Definition TERMINAL_BUFFER_1 : Z := 0xB8000 + FOUR_KB_SIZE.
Definition TERMINAL_BUFFER_2 : Z := 0xB8000 + 2 * FOUR_KB_SIZE.
Definition TERMINAL_BUFFER_3 : Z := 0xB8000 + 3 * FOUR_KB_SIZE.
Definition ATTRIB_BAR : Z := Z.lor (Z.shiftl 0xF 4) 0x0.
Definition ATTRIB_HIG : Z := Z.lor (Z.shiftl 0xF 4) 0xD.
Definition BARTEXLEN : Z := 10.
Definition BLUE : Z := 0x17.

Definition attrib_tbl : list Z :=
  [Z.lor (Z.shiftl 0xC 4) 0xE; Z.lor (Z.shiftl 0x8 4) 0xA; Z.lor (Z.shiftl 0x9 4) 0xA].
Definition high_tbl : list Z := [13; 35; 57].
Definition saved_screen_tbl : list Z := [TERMINAL_BUFFER_1; TERMINAL_BUFFER_2; TERMINAL_BUFFER_3].
Definition bartext : list Z :=
  lit "             TERMINAL 1            TERMINAL 2            TERMINAL 3             ".

(** Table accesses; the index is a terminal number below 3. *)
Definition tbl (l : list Z) (i : Z) : Z := default 0 (zget l i).
Definition attrib (t : Z) : Z := tbl attrib_tbl t.
Definition high (t : Z) : Z := tbl high_tbl t.
Definition saved_screen (t : Z) : Z := tbl saved_screen_tbl t.

(** * State *)
Record terminal_t : Type := Terminal {
  terminal_id : Z; screen_pos_x : Z; screen_pos_y : Z;
  key_arr_ptr_old : Z; key_arr_overflow_old : Z;
  row_stack_old : Z; column_stack_old : Z;
  key_arr_old : list Z; screen_buffer : Z }.

(** The globals of lib.c: [key_arr] is the whole [key_arr_all] block, which the
    pointer [key_arr] is set to the start of; [ports] is the trace of [outb]. *)
Record console : Type := Console {
  c_mem : mem;
  screen_x : Z; screen_y : Z; row_stack : Z; column_stack : Z;
  key_arr : list Z; key_arr_ptr : Z; key_arr_overflow : Z;
  current_terminal : Z;
  terminal_info : list terminal_t;
  ports : list (Z * Z) }.

Definition with_mem (f : mem → mem) (c : console) : console :=
  Console (f (c_mem c)) (screen_x c) (screen_y c) (row_stack c) (column_stack c)
    (key_arr c) (key_arr_ptr c) (key_arr_overflow c) (current_terminal c) (terminal_info c) (ports c).
Definition with_xy (x y : Z) (c : console) : console :=
  Console (c_mem c) x y (row_stack c) (column_stack c)
    (key_arr c) (key_arr_ptr c) (key_arr_overflow c) (current_terminal c) (terminal_info c) (ports c).
Definition with_row_stack (r : Z) (c : console) : console :=
  Console (c_mem c) (screen_x c) (screen_y c) r (column_stack c)
    (key_arr c) (key_arr_ptr c) (key_arr_overflow c) (current_terminal c) (terminal_info c) (ports c).
Definition with_column_stack (r : Z) (c : console) : console :=
  Console (c_mem c) (screen_x c) (screen_y c) (row_stack c) r
    (key_arr c) (key_arr_ptr c) (key_arr_overflow c) (current_terminal c) (terminal_info c) (ports c).
Definition with_keys (a : list Z) (p o : Z) (c : console) : console :=
  Console (c_mem c) (screen_x c) (screen_y c) (row_stack c) (column_stack c)
    a p o (current_terminal c) (terminal_info c) (ports c).
Definition with_current (t : Z) (c : console) : console :=
  Console (c_mem c) (screen_x c) (screen_y c) (row_stack c) (column_stack c)
    (key_arr c) (key_arr_ptr c) (key_arr_overflow c) t (terminal_info c) (ports c).
Definition with_terminals (l : list terminal_t) (c : console) : console :=
  Console (c_mem c) (screen_x c) (screen_y c) (row_stack c) (column_stack c)
    (key_arr c) (key_arr_ptr c) (key_arr_overflow c) (current_terminal c) l (ports c).
Definition outb (data port : Z) (c : console) : console :=
  Console (c_mem c) (screen_x c) (screen_y c) (row_stack c) (column_stack c)
    (key_arr c) (key_arr_ptr c) (key_arr_overflow c) (current_terminal c) (terminal_info c)
    (ports c ++ [(port, u8 data)]).

(** * Screen *)

(** A character cell: the character at an even offset, then its attribute. *)
Definition put_cell (base row col ch attr : Z) (m : mem) : mem :=
  let off := Z.shiftl (NUM_COLS * row + col) 1 in
  store8 (store8 m (base + off) ch) (base + off + 1) attr.
Definition blank_row (base row attr : Z) (m : mem) : mem :=
  for_range 0 NUM_COLS (λ m i, put_cell base row i 32 attr m) m.

Definition cursor_helper (c : console) : console :=
  let pos := u16 (screen_y c * NUM_COLS + screen_x c) in
  outb (u8 (Z.land (Z.shiftr pos 8) 0xFF)) 0x3D5
    (outb 0x0E 0x3D4 (outb (u8 (Z.land pos 0xFF)) 0x3D5 (outb 0x0F 0x3D4 c))).

Definition set_cursor_position (x_ y_ : Z) (c : console) : console :=
  let y := if NUM_ROWS <=? y_ then NUM_ROWS else y_ in
  with_row_stack 0 (cursor_helper (with_xy x_ y c)).

Definition enter_and_scroll (c : console) : console :=
  let c := with_mem (λ m, memcpy m VIDEO (VIDEO + Z.shiftl NUM_COLS 1) 3840) c in
  let c := with_xy 0 (NUM_ROWS - 1) c in
  let c := with_mem (blank_row VIDEO (screen_y c) (attrib (current_terminal c))) c in
  cursor_helper (with_xy 0 (NUM_ROWS - 1) c).

Definition enter_handler (c : console) : console :=
  let adjust := (screen_x c =? 0) && negb (row_stack c =? 0) in
  let c := if NUM_ROWS - 1 <=? screen_y c then enter_and_scroll c
           else set_cursor_position 0 (screen_y c + 1) c in
  let c := if adjust then cursor_helper (with_xy (screen_x c) (screen_y c - 1) c) else c in
  with_row_stack 0 c.

Definition putc (c : console) (ch : Z) : console :=
  if (ch =? 10) || (ch =? 13) then cursor_helper (enter_handler c) else
  let attr := attrib (current_terminal c) in
  let c := with_mem (put_cell VIDEO (screen_y c) (screen_x c) ch attr) c in
  let c := with_xy (screen_x c + 1) (screen_y c) c in
  let c :=
    if NUM_COLS <=? screen_x c then
      let r := row_stack c + 1 in
      let c := with_row_stack (if NUM_ROWS - 1 <? r then NUM_ROWS - 1 else r) c in
      let c := with_xy (Z.rem (screen_x c) NUM_COLS) (screen_y c) c in
      if screen_y c <? NUM_ROWS - 1 then with_xy (screen_x c) (screen_y c + 1) c
      else
        let c := with_mem (λ m, memcpy m VIDEO (VIDEO + Z.shiftl NUM_COLS 1)
                                  (Z.shiftl ((NUM_ROWS - 1) * NUM_COLS) 1)) c in
        let c := with_xy 0 (NUM_ROWS - 1) c in
        with_mem (blank_row VIDEO (screen_y c) attr) c
    else c in
  let c := with_xy (screen_x c)
             (Z.rem (screen_y c + Z.quot (screen_x c) NUM_COLS) NUM_ROWS) c in
  cursor_helper c.

Definition puts_chars (s : str) : out (list Z) :=
  orun (λ '(i, acc), match s i with
    | None => inr Undef
    | Some ch => if ch =? 0 then inr (Done acc) else inl (i + 1, acc ++ [ch])
    end) (0, []).
Definition puts (s : str) (c : console) : out (Z * console) :=
  cs ← puts_chars s; Done (Z.of_nat (List.length cs), foldl putc c cs).

Definition set_column_stack (c : console) : console := with_column_stack (screen_x c) c.

Definition clear (c : console) : console :=
  let t := current_terminal c in
  let text m i := store8 (store8 m (VIDEO + Z.shiftl i 1) 32) (VIDEO + Z.shiftl i 1 + 1) (attrib t) in
  let bar attr m i :=
    store8 (store8 m (VIDEO + Z.shiftl i 1) (tbl bartext (i - NUM_ROWS * NUM_COLS)))
      (VIDEO + Z.shiftl i 1 + 1) attr in
  with_mem (λ m,
    let m := for_range 0 (NUM_ROWS * NUM_COLS) text m in
    let m := for_range (NUM_ROWS * NUM_COLS) ((NUM_ROWS + 1) * NUM_COLS) (bar ATTRIB_BAR) m in
    for_range (NUM_ROWS * NUM_COLS + high t) (NUM_ROWS * NUM_COLS + high t + BARTEXLEN)
      (bar ATTRIB_HIG) m) c.

Definition blue_screen (c : console) : console :=
  with_mem (for_range 0 (NUM_ROWS * NUM_COLS)
    (λ m i, store8 m (VIDEO + Z.shiftl i 1 + 1) BLUE)) c.
Definition test_interrupts (c : console) : console :=
  with_mem (for_range 0 (NUM_ROWS * NUM_COLS)
    (λ m i, store8 m (VIDEO + Z.shiftl i 1) (m (VIDEO + Z.shiftl i 1) + 1))) c.

Definition copy_from_screen_buffer (des_addr : Z) (c : console) : console :=
  with_mem (λ m, memcpy m des_addr VIDEO (Z.shiftl (NUM_COLS * NUM_ROWS) 1)) c.
Definition copy_to_screen_buffer (source : Z) (c : console) : console :=
  with_mem (λ m, memcpy m VIDEO source (Z.shiftl (NUM_COLS * NUM_ROWS) 1)) c.

(** * The line-editing buffer *)
Definition key_arr_pop (c : console) : console :=
  if negb (key_arr_overflow c =? 0) then
    with_keys (key_arr c) (key_arr_ptr c) (u8 (key_arr_overflow c - 1)) c
  else if negb (key_arr_ptr c =? 0) then
    with_keys (key_arr c) (u8 (key_arr_ptr c - 1)) (key_arr_overflow c) c
  else c.
Definition key_arr_push (elem : Z) (c : console) : out console :=
  if key_arr_ptr c <? KEY_ARR_SIZE - 1 then
    a ← must (zset (key_arr c) (key_arr_ptr c) (u8 elem));
    Done (with_keys a (u8 (key_arr_ptr c + 1)) (key_arr_overflow c) c)
  else Done (with_keys (key_arr c) (key_arr_ptr c) (u8 (key_arr_overflow c + 1)) c).

Definition key_arr_clear (c : console) : console :=
  with_keys (for_range 0 (KEY_ARR_SIZE + 1) (λ a i, <[Z.to_nat i := 0]> a) (key_arr c)) 0 0 c.

Definition backspace_handler (c : console) : console :=
  let blank c := with_mem (put_cell VIDEO (screen_y c) (screen_x c) 32 (attrib (current_terminal c))) c in
  if (screen_x c =? column_stack c) && (row_stack c =? 0) then c
  else if (screen_x c =? 0) && negb (row_stack c =? 0) then
    let c := blank (with_xy (NUM_COLS - 1) (screen_y c - 1) c) in
    cursor_helper (key_arr_pop (with_row_stack (row_stack c - 1) c))
  else
    cursor_helper (key_arr_pop (blank (with_xy (screen_x c - 1) (screen_y c) c))).

(** * Background terminals

    The fields are [uint8_t]; [with_cursor] stores position and row stack. *)
Definition with_cursor (x y r : Z) (t : terminal_t) : terminal_t :=
  Terminal (terminal_id t) (u8 x) (u8 y) (key_arr_ptr_old t) (key_arr_overflow_old t)
    (u8 r) (column_stack_old t) (key_arr_old t) (screen_buffer t).

Definition enter_and_scroll_terminal (id : Z) (st : terminal_t * mem) : terminal_t * mem :=
  let '(t, m) := st in
  let base := saved_screen id in
  let m := memcpy m base (base + Z.shiftl NUM_COLS 1) 3840 in
  let t := with_cursor 0 (NUM_ROWS - 1) (row_stack_old t) t in
  let m := blank_row base (screen_pos_y t) (attrib id) m in
  (with_cursor 0 (NUM_ROWS - 1) (row_stack_old t) t, m).

Definition enter_handler_terminal (id : Z) (st : terminal_t * mem) : terminal_t * mem :=
  let '(t, m) := st in
  let adjust := (screen_pos_x t =? 0) && negb (row_stack_old t =? 0) in
  let '(t, m) :=
    if NUM_ROWS - 1 <=? screen_pos_y t then enter_and_scroll_terminal id (t, m)
    else (with_cursor 0
            (if NUM_ROWS <=? screen_pos_y t then NUM_ROWS else screen_pos_y t + 1) 0 t, m) in
  let t := if adjust then with_cursor (screen_pos_x t) (screen_pos_y t - 1) (row_stack_old t) t
           else t in
  (with_cursor (screen_pos_x t) (screen_pos_y t) 0 t, m).

Definition putc_terminal_state (ch id : Z) (st : terminal_t * mem) : terminal_t * mem :=
  let '(t, m) := st in
  if (ch =? 10) || (ch =? 13) then enter_handler_terminal id (t, m) else
  let base := saved_screen id in
  let m := put_cell base (screen_pos_y t) (screen_pos_x t) ch (attrib id) m in
  let t := with_cursor (screen_pos_x t + 1) (screen_pos_y t) (row_stack_old t) t in
  let '(t, m) :=
    if NUM_COLS <=? screen_pos_x t then
      let r := u8 (row_stack_old t + 1) in
      let t := with_cursor (Z.rem (screen_pos_x t) NUM_COLS) (screen_pos_y t)
                 (if NUM_ROWS - 1 <? r then NUM_ROWS - 1 else r) t in
      if screen_pos_y t <? NUM_ROWS - 1
      then (with_cursor (screen_pos_x t) (screen_pos_y t + 1) (row_stack_old t) t, m)
      else
        let m := memcpy m base (base + Z.shiftl NUM_COLS 1)
                   (Z.shiftl ((NUM_ROWS - 1) * NUM_COLS) 1) in
        let t := with_cursor 0 (NUM_ROWS - 1) (row_stack_old t) t in
        (t, blank_row base (screen_pos_y t) (attrib id) m)
    else (t, m) in
  (with_cursor (screen_pos_x t)
     (Z.rem (screen_pos_y t + Z.quot (screen_pos_x t) NUM_COLS) NUM_ROWS) (row_stack_old t) t, m).

Definition putc_terminal (ch id : Z) (c : console) : out console :=
  t ← must (zget (terminal_info c) id);
  let '(t, m) := putc_terminal_state ch id (t, c_mem c) in
  l ← must (zset (terminal_info c) id t);
  Done (with_terminals l (with_mem (λ _, m) c)).

(** * printf *)

(** [%#x]: the digits are written at [conv_buf[8]] and zeros below them, down
    to the index that makes eight characters. *)
Definition hex_padded (v : Z) : out (list Z) :=
  digits ← itoa v 16;
  starting_index ← strlen (lview digits);
  let conv_buf := replicate 8 0 ++ digits in
  let conv_buf := for_range starting_index 8 (λ b i, <[Z.to_nat i := 48]> b) conv_buf in
  puts_chars (λ i, zget conv_buf (starting_index + i)).

Definition conv_signed (v : Z) : out (list Z) :=
  if i32 v <? 0 then
    ds ← itoa (u32 (- i32 v)) 10; puts_chars (lview (45 :: ds))
  else ds ← itoa (u32 v) 10; puts_chars (lview ds).

(** The conversion selected by character [ch] ([alternate] is set by '#') with
    next stack word [v]; [None] when [ch] consumes no argument. *)
Definition conversion (m : mem) (alternate : bool) (ch v : Z) : option (out (list Z)) :=
  if ch =? 120 then Some (if alternate then hex_padded (u32 v)
                          else ds ← itoa (u32 v) 16; puts_chars (lview ds))
  else if ch =? 117 then Some (ds ← itoa (u32 v) 10; puts_chars (lview ds))
  else if ch =? 100 then Some (conv_signed v)
  else if ch =? 99 then Some (Done [u8 v])
  else if ch =? 115 then Some (puts_chars (mview m v))
  else None.

(** The characters printed, in order.  The state is the position in the format,
    whether the scan is at [format_char_switch] (and [alternate]), the words
    left on the stack and the characters so far. *)
Definition printf_step (m : mem) (format : str)
    (st : Z * option bool * list Z * list Z) : (Z * option bool * list Z * list Z) + out (list Z) :=
  let '(i, mode, args, acc) := st in
  match format i, mode with
  | None, _ => inr Undef
  | Some ch, None =>
      if ch =? 0 then inr (Done acc)
      else if ch =? 37 then inl (i + 1, Some false, args, acc)
      else inl (i + 1, None, args, acc ++ [ch])
  | Some ch, Some alternate =>
      if ch =? 37 then inl (i + 1, None, args, acc ++ [37])
      else if ch =? 35 then inl (i + 1, Some true, args, acc)
      else match conversion m alternate ch (default 0 (head args)), args with
           | None, _ => inl (i + 1, None, args, acc)
           | Some _, [] => inr Undef
           | Some (Done cs), _ :: args' => inl (i + 1, None, args', acc ++ cs)
           | Some o, _ :: _ => inr o
           end
  end.
Definition printf_chars (m : mem) (format : str) (args : list Z) : out (list Z) :=
  orun (printf_step m format) (0, None, args, []).

Definition printf (format : str) (args : list Z) (c : console) : out console :=
  cs ← printf_chars (c_mem c) format args; Done (foldl putc c cs).

(** Right-justify [s] in [width] columns; returns the characters not printed. *)
Definition print_width (s : str) (width : Z) (c : console) : out (Z * console) :=
  len ← strlen s;
  if width <? len then
    cs ← strncpy s width;
    '(_, c) ← puts (lview (cs ++ [0])) c; Done (u32 (len - width), c)
  else
    let num_space := u32 (width - len) in
    cs ← strncpy s len;
    '(_, c) ← puts (lview (replicate (Z.to_nat num_space) 32 ++ cs ++ [0])) c; Done (0, c).

(** * The abstract text screen

    24 rows of 80 cells, as the bytes at offsets 0 to 3839, with the write
    position and the number of wrapped rows of the current input line.  Both
    the visible screen and a background terminal are shown to implement it. *)
Record tscreen : Type := TScreen { cells : Z → Z; tx : Z; ty : Z; trow : Z }.

Definition SCREEN_BYTES : Z := 3840.

(** Equal positions, and equal cells on the screen. *)
#[export] Instance tscreen_equiv : Equiv tscreen := λ s1 s2,
  tx s1 = tx s2 ∧ ty s1 = ty s2 ∧ trow s1 = trow s2 ∧
  ∀ o, 0 <= o < SCREEN_BYTES → cells s1 o = cells s2 o.

Definition ts_scroll (attr : Z) (f : Z → Z) : Z → Z := λ o,
  if o <? SCREEN_BYTES - 160 then f (o + 160) else if Z.even o then 32 else attr.
Definition ts_cell (attr ch row col : Z) (f : Z → Z) : Z → Z := λ o,
  let off := 2 * (NUM_COLS * row + col) in
  if o =? off then ch else if o =? off + 1 then attr else f o.

Definition ts_newline (attr : Z) (s : tscreen) : tscreen :=
  let wrapped := (tx s =? 0) && negb (trow s =? 0) in
  let '(f, y) := if ty s =? NUM_ROWS - 1 then (ts_scroll attr (cells s), ty s)
                 else (cells s, ty s + 1) in
  TScreen f 0 (if wrapped then y - 1 else y) 0.

Definition ts_putc (attr ch : Z) (s : tscreen) : tscreen :=
  if (ch =? 10) || (ch =? 13) then ts_newline attr s else
  let f := ts_cell attr ch (ty s) (tx s) (cells s) in
  if tx s + 1 <? NUM_COLS then TScreen f (tx s + 1) (ty s) (trow s) else
  let r := Z.min (trow s + 1) (NUM_ROWS - 1) in
  if ty s =? NUM_ROWS - 1 then TScreen (ts_scroll attr f) 0 (ty s) r
  else TScreen f 0 (ty s + 1) r.

(** The position is on the screen, and the wrapped rows fit above it. *)
Definition ts_ok (s : tscreen) : Prop :=
  0 <= tx s < NUM_COLS ∧ 0 <= ty s < NUM_ROWS ∧ 0 <= trow s <= ty s.

Definition view_at (m : mem) (base x y r : Z) : tscreen := TScreen (λ o, m (base + o)) x y r.
Definition abs_video (c : console) : tscreen :=
  view_at (c_mem c) VIDEO (screen_x c) (screen_y c) (row_stack c).
Definition abs_term (id : Z) (t : terminal_t) (m : mem) : tscreen :=
  view_at m (saved_screen id) (screen_pos_x t) (screen_pos_y t) (row_stack_old t).

(** ** Lemmas *)
#[export] Instance tscreen_equivalence : Equivalence (≡@{tscreen}).
Proof.
  split.
  - by intros s.
  - intros s1 s2 (?&?&?&H). split_and!; [done|done|done|]. intros o Ho. by rewrite H.
  - intros s1 s2 s3 (?&?&?&HA) (?&?&?&HB). split_and!; [congruence|congruence|congruence|].
    intros o Ho. by rewrite HA, HB.
Qed.

#[export] Instance ts_putc_proper attr ch : Proper ((≡) ==> (≡)) (ts_putc attr ch).
Proof.
  intros [f x y r] [f' x' y' r'] (?&?&?&H); cbn in *; subst x' y' r'.
  unfold ts_putc, ts_newline; cbn.
  repeat case_match; simplify_eq; split_and!; try done; intros o Ho; cbn;
    unfold ts_scroll, ts_cell; repeat case_match; try done; apply H; unfold SCREEN_BYTES in *; lia.
Qed.

Lemma shiftl1 z : Z.shiftl z 1 = 2 * z.
Proof. rewrite Z.shiftl_mul_pow2 by lia. lia. Qed.

Lemma put_cell_spec base row col ch attr m a : is_u8 ch → is_u8 attr →
  put_cell base row col ch attr m a =
    let off := base + 2 * (NUM_COLS * row + col) in
    if a =? off then ch else if a =? off + 1 then attr else m a.
Proof.
  intros Hc Ha. unfold put_cell, store8, upd. cbn zeta. rewrite shiftl1, !u8_id by done. zcase.
Qed.

Lemma blank_row_spec base row attr m a : is_u8 attr →
  blank_row base row attr m a =
    let lo := base + 160 * row in
    if (lo <=? a) && (a <? lo + 160) then (if Z.even (a - base) then 32 else attr) else m a.
Proof.
  intros Ha. unfold blank_row. cbn zeta.
  apply (for_range_ind (λ i m', m' a = if (base + 160 * row <=? a) && (a <? base + 160 * row + 2 * i)
    then (if Z.even (a - base) then 32 else attr) else m a) 0 NUM_COLS).
  - by unfold NUM_COLS.
  - zcase.
  - intros i m' Hi IH. rewrite put_cell_spec by done. cbn zeta. rewrite IH. unfold NUM_COLS in *.
    assert (Heven : ∀ k, Z.even (2 * k) = true ∧ Z.even (2 * k + 1) = false).
    { intros k. rewrite Z.even_add, Z.even_mul. done. }
    zcase; try done.
    + replace (a - base) with (2 * (80 * row + i)) by lia. by rewrite (proj1 (Heven _)).
    + replace (a - base) with (2 * (80 * row + i) + 1) by lia. by rewrite (proj2 (Heven _)).
Qed.

Definition scrolled (base attr : Z) (m : mem) : mem := λ a,
  if (base <=? a) && (a <? base + SCREEN_BYTES) then ts_scroll attr (λ o, m (base + o)) (a - base)
  else m a.

(** Copying 3840 bytes (with the status row, then overwritten) and copying 3680
    bytes scroll alike. *)
Lemma scroll_spec base attr n m : is_u8 attr → n = 3840 ∨ n = 3680 →
  blank_row base (NUM_ROWS - 1) attr (memcpy m base (base + Z.shiftl NUM_COLS 1) n)
    ≡ scrolled base attr m.
Proof.
  intros Ha Hn a. rewrite blank_row_spec by done. cbn zeta.
  rewrite (memcpy_copied m base _ n) by (left; unfold NUM_COLS; rewrite shiftl1; lia).
  unfold scrolled, ts_scroll, copied, SCREEN_BYTES, NUM_ROWS, NUM_COLS. rewrite shiftl1.
  zcase; f_equal; lia.
Qed.

Lemma attrib_u8 t : is_u8 (attrib t).
Proof.
  unfold attrib, tbl, zget. destruct (t <? 0); [by split|].
  destruct (Z.to_nat t) as [|[|[|k]]]; by split.
Qed.
#[export] Hint Resolve attrib_u8 : words.

Lemma ts_newline_ok attr s : ts_ok s → ts_ok (ts_newline attr s).
Proof.
  unfold ts_ok, ts_newline, NUM_COLS, NUM_ROWS. intros (?&?&?).
  destruct (Z.eqb_spec (ty s) (24 - 1)), (Z.eqb_spec (tx s) 0), (Z.eqb_spec (trow s) 0); cbn; lia.
Qed.
Lemma ts_putc_ok attr ch s : ts_ok s → ts_ok (ts_putc attr ch s).
Proof.
  intros Hs. unfold ts_putc. destruct (_ || _); [by apply ts_newline_ok|].
  unfold ts_ok, NUM_COLS, NUM_ROWS in *. destruct Hs as (?&?&?).
  destruct (Z.ltb_spec (tx s + 1) 80), (Z.eqb_spec (ty s) (24 - 1)); cbn; lia.
Qed.

(** Scrolling seen as an operation on the abstract cells. *)
Lemma view_scrolled base attr m o : 0 <= o < SCREEN_BYTES →
  scrolled base attr m (base + o) = ts_scroll attr (λ o, m (base + o)) o.
Proof.
  intros Ho. unfold scrolled. rewrite (proj2 (Z.leb_le _ _)), (proj2 (Z.ltb_lt _ _)) by lia.
  cbn. unfold ts_scroll. by replace (base + o - base) with o by lia.
Qed.
Lemma scrolled_only_in base attr m : only_in base (base + SCREEN_BYTES) m (scrolled base attr m).
Proof. intros a Ha. unfold scrolled. zcase. Qed.

Lemma view_put_cell base row col ch attr m o : is_u8 ch → is_u8 attr →
  put_cell base row col ch attr m (base + o) = ts_cell attr ch row col (λ o, m (base + o)) o.
Proof. intros. rewrite put_cell_spec by done. unfold ts_cell. cbn zeta. zcase. Qed.
Lemma put_cell_only_in base row col ch attr m : 0 <= row < NUM_ROWS → 0 <= col < NUM_COLS →
  only_in base (base + SCREEN_BYTES) m (put_cell base row col ch attr m).
Proof.
  intros Hr Hc a Ha. unfold put_cell, store8, upd. rewrite shiftl1.
  unfold SCREEN_BYTES, NUM_ROWS, NUM_COLS in *. zcase.
Qed.

Lemma ts_scroll_ext attr f g o : 0 <= o < SCREEN_BYTES →
  (∀ o, 0 <= o < SCREEN_BYTES → f o = g o) → ts_scroll attr f o = ts_scroll attr g o.
Proof. intros Ho H. unfold ts_scroll, SCREEN_BYTES in *. zcase; try done. apply H. lia. Qed.

Ltac screen_consts := unfold NUM_ROWS, NUM_COLS, SCREEN_BYTES in *.

(** The visible screen and a background terminal step alike; [step_ok] is what
    is proved of both. *)
Definition step_ok (base : Z) (s s' : tscreen) (m m' : mem) (expected : tscreen) : Prop :=
  s' ≡ expected ∧ only_in base (base + SCREEN_BYTES) m m'.

Lemma enter_handler_ok c : ts_ok (abs_video c) →
  step_ok VIDEO (abs_video c) (abs_video (enter_handler c)) (c_mem c) (c_mem (enter_handler c))
    (ts_newline (attrib (current_terminal c)) (abs_video c)).
Proof.
  intros (Hx & Hy & Hr); cbn in *. unfold enter_handler, ts_newline, step_ok; cbn.
  pose proof (scroll_spec VIDEO (attrib (current_terminal c)) 3840 (c_mem c)
    (attrib_u8 _) (or_introl eq_refl)) as Hsc.
  destruct (Z.leb_spec (NUM_ROWS - 1) (screen_y c)) as [Hl|Hl].
  - assert (screen_y c = NUM_ROWS - 1) as -> by (screen_consts; lia). rewrite Z.eqb_refl.
    split.
    + destruct (_ && _); cbn; split_and!; try done; intros o Ho; cbn;
        rewrite (Hsc (VIDEO + o)); by apply view_scrolled.
    + destruct (_ && _); cbn; rewrite Hsc; apply scrolled_only_in.
  - rewrite (proj2 (Z.eqb_neq (screen_y c) _)) by lia.
    split; [|by destruct (_ && _)].
    assert ((NUM_ROWS <=? screen_y c + 1) = false) as E by (apply Z.leb_gt; screen_consts; lia).
    unfold set_cursor_position. rewrite E. destruct (_ && _); split_and!; done.
Qed.

Lemma putc_ok c ch : ts_ok (abs_video c) → is_u8 ch →
  step_ok VIDEO (abs_video c) (abs_video (putc c ch)) (c_mem c) (c_mem (putc c ch))
    (ts_putc (attrib (current_terminal c)) ch (abs_video c)).
Proof.
  intros Hok Hch. pose proof Hok as (Hx & Hy & Hr); cbn in *. unfold putc, ts_putc.
  destruct (_ || _); [by apply enter_handler_ok|]. cbn.
  set (attr := attrib (current_terminal c)).
  set (m1 := put_cell VIDEO (screen_y c) (screen_x c) ch attr (c_mem c)).
  assert (H1 : only_in VIDEO (VIDEO + SCREEN_BYTES) (c_mem c) m1) by by apply put_cell_only_in.
  assert (Hc : ∀ o, m1 (VIDEO + o) = ts_cell attr ch (screen_y c) (screen_x c)
    (λ o, c_mem c (VIDEO + o)) o) by (intros; apply view_put_cell; [done|apply attrib_u8]).
  destruct (Z.leb_spec NUM_COLS (screen_x c + 1)) as [Hl|Hl].
  - rewrite (proj2 (Z.ltb_ge _ _) Hl).
    assert (Z.rem (screen_x c + 1) NUM_COLS = 0) as Erem.
    { replace (screen_x c + 1) with NUM_COLS by lia. done. }
    assert (∀ r, (if NUM_ROWS - 1 <? r then NUM_ROWS - 1 else r) = Z.min r (NUM_ROWS - 1)) as Emin.
    { intros r. destruct (Z.ltb_spec (NUM_ROWS - 1) r); lia. }
    destruct (Z.eqb_spec (screen_y c) (NUM_ROWS - 1)) as [Ey|Ey]; cbn.
    + rewrite (proj2 (Z.ltb_ge _ _)) by lia. cbn.
      pose proof (scroll_spec VIDEO attr 3680 m1 (attrib_u8 _) (or_intror eq_refl)) as Hsc.
      split; cbn.
      * split_and!; cbn; [done|by rewrite Ey|by rewrite Emin|].
        intros o Ho. cbn. etrans; [apply (Hsc (VIDEO + o))|]. rewrite view_scrolled by done.
        apply ts_scroll_ext; [done|]. intros. apply Hc.
      * eapply only_in_trans; [exact H1|]. eapply only_in_proper; [reflexivity|exact Hsc|].
        apply scrolled_only_in.
    + rewrite (proj2 (Z.ltb_lt _ _)) by lia. cbn. rewrite Erem. split; [|done].
      split_and!; cbn; [done| |by rewrite Emin|intros; apply Hc].
      rewrite Z.quot_0_l, Z.add_0_r by done. apply Z.rem_small. lia.
  - rewrite (proj2 (Z.ltb_lt _ _) Hl). cbn. split; [|done].
    split_and!; cbn; [done| |done|intros; apply Hc].
    rewrite Z.quot_small, Z.add_0_r by lia. by apply Z.rem_small.
Qed.

Lemma enter_handler_terminal_ok id t m : ts_ok (abs_term id t m) →
  let '(t', m') := enter_handler_terminal id (t, m) in
  step_ok (saved_screen id) (abs_term id t m) (abs_term id t' m') m m'
    (ts_newline (attrib id) (abs_term id t m)).
Proof.
  intros (Hx & Hy & Hr); cbn in Hx, Hy, Hr.
  pose proof (scroll_spec (saved_screen id) (attrib id) 3840 m
    (attrib_u8 _) (or_introl eq_refl)) as Hsc.
  unfold enter_handler_terminal, ts_newline; cbn [tx ty trow cells abs_term view_at].
  set (wrapped := (screen_pos_x t =? 0) && negb (row_stack_old t =? 0)).
  destruct (Z.leb_spec (NUM_ROWS - 1) (screen_pos_y t)) as [Hl|Hl].
  - assert (screen_pos_y t = NUM_ROWS - 1) as -> by (screen_consts; lia). rewrite Z.eqb_refl.
    cbn -[memcpy blank_row ts_scroll].
    split.
    + destruct wrapped; split_and!; try done; intros o Ho; cbn;
        (etrans; [apply (Hsc (saved_screen id + o))|]); by apply view_scrolled.
    + eapply only_in_proper; [reflexivity|exact Hsc|]. apply scrolled_only_in.
  - rewrite (proj2 (Z.eqb_neq (screen_pos_y t) _)) by lia.
    assert ((NUM_ROWS <=? screen_pos_y t) = false) as -> by (apply Z.leb_gt; screen_consts; lia).
    cbn -[u8 with_cursor]. split; [|by destruct wrapped].
    assert (E1 : u8 (screen_pos_y t + 1) = screen_pos_y t + 1)
      by (apply u8_id; split; screen_consts; lia).
    assert (E2 : u8 (screen_pos_y t + 1 - 1) = screen_pos_y t + 1 - 1)
      by (apply u8_id; split; screen_consts; lia).
    destruct wrapped; unfold abs_term, with_cursor; cbn -[u8]; rewrite ?E1, ?E2, ?E1;
      split_and!; done.
Qed.

Lemma putc_terminal_ok ch id t m : ts_ok (abs_term id t m) → is_u8 ch →
  let '(t', m') := putc_terminal_state ch id (t, m) in
  step_ok (saved_screen id) (abs_term id t m) (abs_term id t' m') m m'
    (ts_putc (attrib id) ch (abs_term id t m)).
Proof.
  intros Hok Hch. pose proof Hok as (Hx & Hy & Hr); cbn in Hx, Hy, Hr.
  unfold putc_terminal_state, ts_putc.
  destruct (_ || _); [by apply enter_handler_terminal_ok|].
  cbn [tx ty trow cells abs_term view_at screen_pos_x screen_pos_y row_stack_old with_cursor].
  set (base := saved_screen id). set (attr := attrib id).
  set (m1 := put_cell base (screen_pos_y t) (screen_pos_x t) ch attr m).
  assert (H1 : only_in base (base + SCREEN_BYTES) m m1) by by apply put_cell_only_in.
  assert (Hc : ∀ o, m1 (base + o) = ts_cell attr ch (screen_pos_y t) (screen_pos_x t)
    (λ o, m (base + o)) o) by (intros; apply view_put_cell; [done|apply attrib_u8]).
  screen_consts. u8_simpl.
  destruct (Z.leb_spec 80 (screen_pos_x t + 1)) as [Hl|Hl].
  - rewrite (proj2 (Z.ltb_ge _ _) Hl).
    assert (Z.rem (screen_pos_x t + 1) 80 = 0) as ->
      by (replace (screen_pos_x t + 1) with 80 by lia; done).
    assert (Emin : ∀ r, (if 24 - 1 <? r then 24 - 1 else r) = Z.min r (24 - 1)).
    { intros r. destruct (Z.ltb_spec (24 - 1) r); lia. }
    rewrite Emin. destruct (Z.eqb_spec (screen_pos_y t) (24 - 1)) as [Ey|Ey].
    + rewrite (proj2 (Z.ltb_ge _ _)) by lia.
      pose proof (scroll_spec base attr 3680 m1 (attrib_u8 _) (or_intror eq_refl)) as Hsc.
      cbn -[u8 memcpy blank_row ts_scroll Z.min]. u8_simpl. split.
      * split_and!; cbn -[u8 memcpy blank_row ts_scroll Z.min]; u8_simpl; try done.
        intros o Ho. etrans; [apply (Hsc (base + o))|]. rewrite view_scrolled by done.
        apply ts_scroll_ext; [done|]. intros. apply Hc.
      * eapply only_in_trans; [exact H1|]. eapply only_in_proper; [reflexivity|exact Hsc|].
        apply scrolled_only_in.
    + rewrite (proj2 (Z.ltb_lt _ _)) by lia.
      cbn -[u8 Z.min]. u8_simpl. split; [|done].
      split_and!; cbn -[u8 Z.min]; u8_simpl; [done| |done|intros; apply Hc].
      rewrite Z.quot_0_l, Z.add_0_r by done. rewrite Z.rem_small by lia. by u8_simpl.
  - rewrite (proj2 (Z.ltb_lt _ _) Hl). cbn -[u8]. u8_simpl. split; [|done].
    split_and!; cbn -[u8]; u8_simpl; [done| |done|intros; apply Hc].
    rewrite Z.quot_small, Z.add_0_r by lia. rewrite Z.rem_small by lia. by u8_simpl.
Qed.

Lemma putc_current c ch : current_terminal (putc c ch) = current_terminal c.
Proof.
  unfold putc, enter_handler, enter_and_scroll, set_cursor_position.
  repeat case_match; reflexivity.
Qed.

(** Memory keeps holding bytes. *)
Lemma put_cell_bytes base row col ch attr m : mem_ok m → mem_ok (put_cell base row col ch attr m).
Proof. intros H. unfold put_cell. by do 2 apply store8_ok. Qed.
Lemma blank_row_bytes base row attr m : mem_ok m → mem_ok (blank_row base row attr m).
Proof.
  intros H. unfold blank_row. apply (for_range_ind (λ _ m', mem_ok m')); [done|done|]. intros. by apply put_cell_bytes.
Qed.
Lemma scroll_bytes m base n : mem_ok m → mem_ok (memcpy m base (base + Z.shiftl NUM_COLS 1) n).
Proof.
  intros H a. rewrite memcpy_copied by (left; change (Z.shiftl NUM_COLS 1) with 160; lia). by apply copied_ok.
Qed.
Lemma enter_bytes c : mem_ok (c_mem c) → mem_ok (c_mem (enter_handler c)).
Proof.
  intros H. unfold enter_handler. destruct (NUM_ROWS - 1 <=? screen_y c).
  - assert (Hs : mem_ok (blank_row VIDEO (NUM_ROWS - 1) (attrib (current_terminal c)) (memcpy (c_mem c) VIDEO (VIDEO + Z.shiftl NUM_COLS 1) 3840))).
    { apply blank_row_bytes, scroll_bytes, H. }
    destruct (_ && _); exact Hs.
  - destruct (_ && _); exact H.
Qed.
Lemma putc_bytes c ch : mem_ok (c_mem c) → mem_ok (c_mem (putc c ch)).
Proof.
  intros H. unfold putc. destruct (_ || _); [by apply enter_bytes|]. cbv zeta. cbn [c_mem with_mem with_xy screen_x screen_y].
  assert (Hp := put_cell_bytes VIDEO (screen_y c) (screen_x c) ch (attrib (current_terminal c)) _ H).
  destruct (NUM_COLS <=? screen_x c + 1); [|exact Hp]. cbn [screen_y with_row_stack with_xy].
  destruct (screen_y c <? NUM_ROWS - 1); [exact Hp|]. by apply blank_row_bytes, scroll_bytes.
Qed.
Lemma putc_terminal_bytes ch id t m : mem_ok m → mem_ok (putc_terminal_state ch id (t, m)).2.
Proof.
  intros H. unfold putc_terminal_state. destruct (_ || _).
  - unfold enter_handler_terminal. destruct (NUM_ROWS - 1 <=? screen_pos_y t); [|exact H].
    unfold enter_and_scroll_terminal. cbn [snd]. by apply blank_row_bytes, scroll_bytes.
  - cbv zeta. assert (Hp := put_cell_bytes (saved_screen id) (screen_pos_y t) (screen_pos_x t) ch (attrib id) _ H).
    destruct (NUM_COLS <=? _); [|exact Hp]. destruct (_ <? NUM_ROWS - 1); [exact Hp|].
    cbn [snd]. by apply blank_row_bytes, scroll_bytes.
Qed.

#[export] Instance ts_ok_proper : Proper ((≡) ==> iff) ts_ok.
Proof. intros s1 s2 (Ex & Ey & Er & _). unfold ts_ok. by rewrite Ex, Ey, Er. Qed.

(** Printing on the abstract screen. *)
Definition ts_print (attr : Z) (s : tscreen) (cs : list Z) : tscreen :=
  foldl (λ s ch, ts_putc attr ch s) s cs.
#[export] Instance ts_print_proper attr : Proper ((≡) ==> eq ==> (≡)) (ts_print attr).
Proof.
  intros s1 s2 Hs cs ? <-. revert s1 s2 Hs. induction cs as [|ch cs IH]; intros s1 s2 Hs; [done|].
  apply IH. by rewrite Hs.
Qed.
Lemma ts_print_ok attr s cs : ts_ok s → ts_ok (ts_print attr s cs).
Proof.
  revert s. induction cs as [|ch cs IH]; intros s Hs; [done|]. by apply IH, ts_putc_ok.
Qed.

Lemma print_foreground cs : ∀ c, ts_ok (abs_video c) → Forall is_u8 cs →
  abs_video (foldl putc c cs) ≡ ts_print (attrib (current_terminal c)) (abs_video c) cs ∧
  only_in VIDEO (VIDEO + SCREEN_BYTES) (c_mem c) (c_mem (foldl putc c cs)).
Proof.
  induction cs as [|ch cs IH]; intros c Hok Hcs; [by split|].
  apply Forall_cons_1 in Hcs as [Hch Hcs]. cbn.
  destruct (putc_ok c ch Hok Hch) as [Habs Hmem].
  destruct (IH (putc c ch)) as [IHa IHm]; [by rewrite Habs; apply ts_putc_ok|done|].
  split; [|by eapply only_in_trans]. rewrite IHa, putc_current, Habs. done.
Qed.

(** The loop of [terminal_write] for a terminal that is not displayed. *)
Definition putc_terminal_all (id : Z) (cs : list Z) (c : console) : out console :=
  foldl (λ o ch, o ≫= putc_terminal ch id) (Done c) cs.

Lemma putc_terminal_eq ch id c t : zget (terminal_info c) id = Some t →
  putc_terminal ch id c =
    let '(t', m) := putc_terminal_state ch id (t, c_mem c) in
    Done (with_terminals (<[Z.to_nat id := t']> (terminal_info c)) (with_mem (λ _, m) c)).
Proof.
  intros Ht. unfold putc_terminal. rewrite Ht. cbn [must mbind out_bind].
  destruct (putc_terminal_state ch id (t, c_mem c)) as [t' m].
  rewrite zset_in; [done|]. apply zget_Some in Ht as [? Ht]. apply lookup_lt_Some in Ht. lia.
Qed.

Lemma print_background id cs : ∀ c t, zget (terminal_info c) id = Some t →
  ts_ok (abs_term id t (c_mem c)) → Forall is_u8 cs →
  ∃ c' t', putc_terminal_all id cs c = Done c' ∧ zget (terminal_info c') id = Some t' ∧
    abs_term id t' (c_mem c') ≡ ts_print (attrib id) (abs_term id t (c_mem c)) cs ∧
    only_in (saved_screen id) (saved_screen id + SCREEN_BYTES) (c_mem c) (c_mem c') ∧
    (∀ j, j ≠ id → zget (terminal_info c') j = zget (terminal_info c) j).
Proof.
  induction cs as [|ch cs IH]; intros c t Ht Hok Hcs; [by exists c, t|].
  apply Forall_cons_1 in Hcs as [Hch Hcs]. unfold putc_terminal_all. cbn [foldl mbind out_bind].
  rewrite (putc_terminal_eq _ _ _ _ Ht).
  pose proof (putc_terminal_ok ch id t (c_mem c) Hok Hch) as Hstep.
  destruct (putc_terminal_state ch id (t, c_mem c)) as [t1 m1]. destruct Hstep as [Habs Hmem].
  set (c1 := with_terminals _ _).
  apply zget_Some in Ht as [Hid Hlk]. pose proof (lookup_lt_Some _ _ _ Hlk).
  destruct (IH c1 t1) as (c' & t' & E & Ht' & Ha & Hm & Hj); [| |done|].
  - unfold c1. cbn. apply zget_insert_eq. lia.
  - change (c_mem c1) with m1. rewrite Habs. by apply ts_putc_ok.
  - exists c', t'. split_and!; [exact E|done| |by eapply only_in_trans|].
    + rewrite Ha. change (c_mem c1) with m1. by rewrite Habs.
    + intros j Hne. rewrite (Hj j Hne). unfold c1. cbn. apply zget_insert_ne; [lia|congruence].
Qed.

(** * Correctness of the console *)

(** C3. Printing any bytes on the visible terminal from a valid position
    keeps the position on the screen (columns 0 to 79, rows 0 to 23, wrapped rows
    above the cursor), writes video memory only inside the 24 text rows, so never
    the status bar nor a background buffer, and leaves the text the abstract
    screen prints: wrapping at column 80, scrolling at the bottom, and newline
    after a wrapped row. *)
Theorem print_visible_screen (c : console) (cs : list Z)
    (Hok : ts_ok (abs_video c)) (Hcs : Forall is_u8 cs) :
  abs_video (foldl putc c cs) ≡ ts_print (attrib (current_terminal c)) (abs_video c) cs ∧
  ts_ok (abs_video (foldl putc c cs)) ∧
  only_in VIDEO (VIDEO + 2 * NUM_COLS * NUM_ROWS) (c_mem c) (c_mem (foldl putc c cs)).
Proof.
  destruct (print_foreground cs c Hok Hcs) as [Ha Hm]. split_and!; [done| |exact Hm].
  rewrite Ha. by apply ts_print_ok.
Qed.

Definition console0 : console :=
  Console (λ _, 0) 78 23 0 0 (replicate 387 0) 0 0 0
    [Terminal 0 0 0 0 0 0 0 [] TERMINAL_BUFFER_1; Terminal 0 78 23 0 0 0 0 [] TERMINAL_BUFFER_2] [].

Lemma print_visible_screen_witness :
  ts_ok (abs_video (foldl putc console0 [65; 66; 67; 10])) ∧
  c_mem (foldl putc console0 [65; 66; 67; 10]) (VIDEO + 2 * (80 * 22) ) = 67.
Proof.
  destruct (print_visible_screen console0 [65; 66; 67; 10]) as (Ha & Hb & _).
  - unfold ts_ok. cbn. unfold NUM_COLS, NUM_ROWS. lia.
  - repeat constructor; lia.
  - split; [exact Hb|]. destruct Ha as (_ & _ & _ & Hc).
    specialize (Hc (2 * (80 * 22)) ltac:(unfold SCREEN_BYTES; lia)).
    transitivity (cells (ts_print (attrib (current_terminal console0)) (abs_video console0)
      [65; 66; 67; 10]) (2 * (80 * 22))); [exact Hc|reflexivity].
Defined.

(** C4. A program prints the same text whether its terminal is displayed or
    in the background: if the buffer of terminal [id] holds the screen a visible
    console shows, then after the same bytes the buffer again holds what that
    console shows; the background writes stay inside that buffer and leave the
    other terminals alone. *)
Theorem background_print_same_text (id : Z) (cs : list Z) (cf c : console) (t : terminal_t)
    (Hcur : current_terminal cf = id) (Hok : ts_ok (abs_video cf))
    (Ht : zget (terminal_info c) id = Some t)
    (Hsame : abs_video cf ≡ abs_term id t (c_mem c)) (Hcs : Forall is_u8 cs) :
  ∃ c' t', putc_terminal_all id cs c = Done c' ∧ zget (terminal_info c') id = Some t' ∧
    abs_video (foldl putc cf cs) ≡ abs_term id t' (c_mem c') ∧
    only_in (saved_screen id) (saved_screen id + 2 * NUM_COLS * NUM_ROWS) (c_mem c) (c_mem c') ∧
    (∀ j, j ≠ id → zget (terminal_info c') j = zget (terminal_info c) j).
Proof.
  destruct (print_background id cs c t) as (c' & t' & E & Ht' & Ha & Hm & Hj);
    [done|by rewrite <- Hsame|done|].
  exists c', t'. split_and!; [done|done| |exact Hm|done].
  destruct (print_foreground cs cf Hok Hcs) as [Hv _]. by rewrite Hv, Ha, Hsame, Hcur.
Qed.

Lemma background_print_same_text_witness :
  ∃ c' t', putc_terminal_all 1 [65; 66; 67] console0 = Done c' ∧
    zget (terminal_info c') 1 = Some t' ∧ screen_pos_x t' = 1 ∧
    c_mem c' (TERMINAL_BUFFER_2 + 2 * (80 * 23)) = 67.
Proof.
  destruct (background_print_same_text 1 [65; 66; 67] (with_current 1 console0) console0
    (Terminal 0 78 23 0 0 0 0 [] TERMINAL_BUFFER_2)) as (c' & t' & E & Ht & Ha & _).
  - reflexivity.
  - unfold ts_ok. cbn. unfold NUM_COLS, NUM_ROWS. lia.
  - reflexivity.
  - split_and!; done.
  - repeat constructor; lia.
  - exists c', t'. split; [exact E|]. split; [exact Ht|]. destruct Ha as (Hx & _ & _ & Hc).
    split; [symmetry; exact Hx|].
    specialize (Hc (2 * (80 * 23)) ltac:(unfold SCREEN_BYTES; lia)). symmetry. exact Hc.
Defined.

(** * Line editing *)

(** The pointer stays below the last slot, and characters are only counted as
    overflow once the buffer is full. *)
Definition keys_ok (c : console) : Prop :=
  0 <= key_arr_ptr c <= KEY_ARR_SIZE - 1 ∧ 0 <= key_arr_overflow c < 256 ∧
  (0 < key_arr_overflow c → key_arr_ptr c = KEY_ARR_SIZE - 1) ∧
  KEY_ARR_SIZE < Z.of_nat (List.length (key_arr c)).

(** The characters typed since the buffer was cleared, dropped ones included. *)
Definition depth (c : console) : Z := key_arr_ptr c + key_arr_overflow c.

Definition type_all (cs : list Z) (c : console) : out console :=
  foldl (λ o ch, o ≫= key_arr_push ch) (Done c) cs.

Lemma depth_inj c1 c2 : keys_ok c1 → keys_ok c2 → depth c1 = depth c2 →
  key_arr_ptr c1 = key_arr_ptr c2 ∧ key_arr_overflow c1 = key_arr_overflow c2.
Proof. unfold keys_ok, depth. lia. Qed.

Lemma push_depth ch c : keys_ok c → depth c < KEY_ARR_SIZE - 1 + 255 →
  ∃ c', key_arr_push ch c = Done c' ∧ keys_ok c' ∧ depth c' = depth c + 1 ∧
    (∀ i, i ≠ depth c → zget (key_arr c') i = zget (key_arr c) i) ∧
    (depth c < KEY_ARR_SIZE - 1 → zget (key_arr c') (depth c) = Some (u8 ch)).
Proof.
  intros (Hp & Ho & Hfull & Hl) Hd. unfold key_arr_push, keys_ok, depth in *.
  destruct (Z.ltb_spec (key_arr_ptr c) (KEY_ARR_SIZE - 1)) as [Hlt|Hge].
  - rewrite zset_in by lia. eexists. split; [done|]. cbn. unfold KEY_ARR_SIZE in *. u8_simpl.
    assert (key_arr_overflow c = 0) as -> by lia.
    split_and!; try lia; [rewrite length_insert; lia| |].
    + intros i Hi. apply zget_insert_ne; lia.
    + intros _. rewrite Z.add_0_r. apply zget_insert_eq. lia.
  - eexists. split; [done|]. cbn. unfold KEY_ARR_SIZE in *. u8_simpl. split_and!; try lia. done.
Qed.

Lemma pop_depth c : keys_ok c →
  keys_ok (key_arr_pop c) ∧ depth (key_arr_pop c) = Z.max 0 (depth c - 1) ∧
  key_arr (key_arr_pop c) = key_arr c.
Proof.
  intros (Hp & Ho & Hfull & Hl). unfold key_arr_pop, keys_ok, depth.
  destruct (Z.eqb_spec (key_arr_overflow c) 0) as [E|E]; cbn.
  - destruct (Z.eqb_spec (key_arr_ptr c) 0); cbn; unfold KEY_ARR_SIZE in *; u8_simpl;
      split_and!; try lia; done.
  - unfold KEY_ARR_SIZE in *. u8_simpl. split_and!; try lia; done.
Qed.

Lemma type_all_depth cs : ∀ c, keys_ok c → Forall is_u8 cs →
  depth c + Z.of_nat (List.length cs) <= KEY_ARR_SIZE - 1 + 255 →
  ∃ c', type_all cs c = Done c' ∧ keys_ok c' ∧
    depth c' = depth c + Z.of_nat (List.length cs) ∧
    (∀ i, i < depth c → zget (key_arr c') i = zget (key_arr c) i) ∧
    (∀ i ch, cs !! i = Some ch → depth c + Z.of_nat i < KEY_ARR_SIZE - 1 →
       zget (key_arr c') (depth c + Z.of_nat i) = Some ch).
Proof.
  induction cs as [|ch cs IH]; intros c Hok Hcs Hlen; cbn [List.length] in Hlen.
  { exists c. split_and!; [done|done|cbn; lia|done|]. intros i ch Hi. by rewrite lookup_nil in Hi. }
  apply Forall_cons_1 in Hcs as [Hch Hcs].
  destruct (push_depth ch c Hok ltac:(lia)) as (c1 & E1 & Hok1 & Hd1 & Hne & Heq).
  unfold type_all. cbn [foldl mbind out_bind]. rewrite E1.
  destruct (IH c1 Hok1 Hcs ltac:(lia)) as (c' & E & Hok' & Hd & Hlow & Hnew).
  exists c'. split_and!; [exact E|done|cbn [List.length]; lia| |].
  - intros i Hi. rewrite Hlow, Hne by lia. done.
  - intros [|i] ch' Hi Hlt; cbn in Hi.
    + injection Hi as <-. rewrite Z.add_0_r, Hlow by lia. rewrite Heq by lia. f_equal. by apply u8_id.
    + rewrite <- (Hnew i ch' Hi) by lia. f_equal. lia.
Qed.

Lemma pop_n_depth n c : keys_ok c →
  keys_ok (Nat.iter n key_arr_pop c) ∧
  depth (Nat.iter n key_arr_pop c) = Z.max 0 (depth c - Z.of_nat n) ∧
  key_arr (Nat.iter n key_arr_pop c) = key_arr c.
Proof.
  intros Hok. induction n as [|n (IHo & IHd & IHk)].
  - split_and!; [done| |done]. cbn. destruct Hok as (? & ? & _). unfold depth. lia.
  - change (Nat.iter (S n) key_arr_pop c) with (key_arr_pop (Nat.iter n key_arr_pop c)).
    destruct (pop_depth _ IHo) as (? & Hd & Hk). split_and!; [done|lia|congruence].
Qed.

(** C5. Line editing: typing any characters succeeds, keeps the buffer
    invariant, stores the first of them in order up to the 127 slots of the line
    and counts the rest as overflow; the same number of backspaces then restores
    the pointer, the overflow count and the line that was there before (as long
    as at most 255 characters are in overflow, the range of its counter). *)
Theorem line_edit_undo (c : console) (cs : list Z) (Hok : keys_ok c) (Hcs : Forall is_u8 cs)
    (Hroom : depth c + Z.of_nat (List.length cs) <= KEY_ARR_SIZE - 1 + 255) :
  ∃ c', type_all cs c = Done c' ∧ keys_ok c' ∧
    (∀ i ch, cs !! i = Some ch → depth c + Z.of_nat i < KEY_ARR_SIZE - 1 →
       zget (key_arr c') (depth c + Z.of_nat i) = Some ch) ∧
    let c'' := Nat.iter (List.length cs) key_arr_pop c' in
    key_arr_ptr c'' = key_arr_ptr c ∧ key_arr_overflow c'' = key_arr_overflow c ∧
    (∀ i, i < key_arr_ptr c → zget (key_arr c'') i = zget (key_arr c) i).
Proof.
  destruct (type_all_depth cs c Hok Hcs Hroom) as (c' & E & Hok' & Hd & Hlow & Hnew).
  exists c'. split_and!; [done|done|exact Hnew|].
  destruct (pop_n_depth (List.length cs) c' Hok') as (Hok'' & Hd'' & Hk).
  assert (0 <= depth c) by (unfold keys_ok, depth in *; lia).
  destruct (depth_inj (Nat.iter (List.length cs) key_arr_pop c') c Hok'' Hok ltac:(lia)) as [Ep Eo].
  split_and!; [done|done|]. intros i Hi. rewrite Hk. apply Hlow.
  unfold keys_ok, depth in *. lia.
Qed.

Lemma line_edit_undo_witness :
  keys_ok console0 ∧ ∃ c', type_all [104; 105] console0 = Done c' ∧
    zget (key_arr c') 1 = Some 105 ∧ key_arr_ptr (Nat.iter 2 key_arr_pop c') = 0.
Proof.
  assert (Hok : keys_ok console0) by by vm_compute.
  split; [exact Hok|].
  destruct (line_edit_undo console0 [104; 105]) as (c' & E & _ & Hnew & Hp & _).
  - exact Hok.
  - repeat constructor; lia.
  - by vm_compute.
  - exists c'. split; [exact E|]. split; [|exact Hp].
    apply (Hnew 1%nat 105); [reflexivity|by vm_compute].
Defined.

(** The overflow counter is one byte: 256 dropped characters reset it. *)
Lemma overflow_wraps c ch : key_arr_ptr c = KEY_ARR_SIZE - 1 → key_arr_overflow c = 255 →
  ∃ c', key_arr_push ch c = Done c' ∧ key_arr_overflow c' = 0.
Proof. intros Hp Ho. unfold key_arr_push. rewrite Hp, Ho. eexists. split; [done|reflexivity]. Qed.

Lemma key_arr_pop_screen c : abs_video (key_arr_pop c) = abs_video c ∧
  current_terminal (key_arr_pop c) = current_terminal c.
Proof. unfold key_arr_pop. repeat case_match; done. Qed.

(** Backspace undoes a typed character: if a printable character is echoed
    at a position of the input line (at or after the column where input began)
    other than the last cell of the screen, backspace returns the cursor and the
    wrapped-row count to where they were and blanks exactly that cell, also
    across a line wrap. *)
Theorem backspace_undoes_putc (c : console) (ch : Z) (Hok : ts_ok (abs_video c))
    (Hch : is_u8 ch) (Hnl : ch ≠ 10 ∧ ch ≠ 13)
    (Hcol : column_stack c <= screen_x c)
    (Hlast : ¬ (screen_x c = NUM_COLS - 1 ∧ screen_y c = NUM_ROWS - 1)) :
  abs_video (backspace_handler (putc c ch)) ≡
    TScreen (ts_cell (attrib (current_terminal c)) 32 (screen_y c) (screen_x c)
               (λ o, c_mem c (VIDEO + o))) (screen_x c) (screen_y c) (row_stack c).
Proof.
  destruct (putc_ok c ch Hok Hch) as [(Ex & Ey & Er & Hc) _].
  assert (Ecol : column_stack (putc c ch) = column_stack c).
  { unfold putc, enter_handler, enter_and_scroll, set_cursor_position.
    repeat case_match; reflexivity. }
  pose proof (putc_current c ch) as Ecur. set (c1 := putc c ch) in *. clearbody c1.
  cbn in Ex, Ey, Er. unfold ts_putc in *. destruct Hok as (Hx & Hy & Hr). cbn in Hx, Hy, Hr.
  rewrite (proj2 (Z.eqb_neq ch 10)), (proj2 (Z.eqb_neq ch 13)) in * by lia. cbn in *.
  assert (Hblank : ∀ o, 0 <= o < SCREEN_BYTES → c_mem c1 (VIDEO + o) =
      ts_cell (attrib (current_terminal c)) ch (screen_y c) (screen_x c) (λ o, c_mem c (VIDEO + o)) o →
    put_cell VIDEO (screen_y c) (screen_x c) 32 (attrib (current_terminal c)) (c_mem c1) (VIDEO + o) =
      ts_cell (attrib (current_terminal c)) 32 (screen_y c) (screen_x c) (λ o, c_mem c (VIDEO + o)) o).
  { intros o Ho E. rewrite view_put_cell by (apply attrib_u8 || by split). unfold ts_cell in *.
    repeat case_match; done. }
  unfold backspace_handler. rewrite Ecol. screen_consts.
  destruct (Z.ltb_spec (screen_x c + 1) 80) as [Hl|Hl]; cbn in Ex, Ey, Er, Hc.
  - rewrite (proj2 (Z.eqb_neq (screen_x c1) (column_stack c))) by lia.
    rewrite (proj2 (Z.eqb_neq (screen_x c1) 0)) by lia. cbn [andb].
    set (c2 := with_mem _ _). change (abs_video (cursor_helper (key_arr_pop c2))) with (abs_video (key_arr_pop c2)).
    rewrite (proj1 (key_arr_pop_screen c2)). unfold c2, abs_video, view_at. cbn. rewrite Ex, Ey, Er, Ecur.
    replace (screen_x c + 1 - 1) with (screen_x c) by lia.
    split_and!; [done|done|done|]. intros o Ho. cbn. apply Hblank; [done|]. by apply Hc.
  - assert (screen_y c ≠ 24 - 1) as Hy' by lia.
    rewrite (proj2 (Z.eqb_neq _ _) Hy') in *. cbn in Ex, Ey, Er, Hc.
    rewrite (proj2 (Z.eqb_neq (row_stack c1) 0)), andb_false_r by lia.
    rewrite Ex. cbn [Z.eqb negb andb]. rewrite Z.eqb_refl. cbn [andb].
    set (c2 := with_row_stack _ _). change (abs_video (cursor_helper (key_arr_pop c2))) with (abs_video (key_arr_pop c2)).
    rewrite (proj1 (key_arr_pop_screen c2)). unfold c2, abs_video, view_at. cbn. rewrite Ey, Er, Ecur.
    assert (screen_x c = 80 - 1) as Ex' by lia. rewrite <- Ex'.
    replace (screen_y c + 1 - 1) with (screen_y c) by lia.
    split_and!; [done|done|cbn; lia|]. intros o Ho. cbn. apply Hblank; [done|]. by apply Hc.
Qed.

Lemma backspace_undoes_putc_witness :
  let c := with_xy 79 3 console0 in
  screen_x (backspace_handler (putc c 65)) = 79 ∧ screen_y (backspace_handler (putc c 65)) = 3.
Proof.
  destruct (backspace_undoes_putc (with_xy 79 3 console0) 65) as (Hx & Hy & _).
  - unfold ts_ok. cbn. unfold NUM_COLS, NUM_ROWS. lia.
  - split; lia.
  - lia.
  - cbn. lia.
  - cbn. unfold NUM_COLS, NUM_ROWS. lia.
  - split; [exact Hx|exact Hy].
Defined.

(** Enter does not reset [column_stack]: a backspace right after it, when the
    previous input began right of column 0, moves the cursor to column -1. *)
Lemma backspace_after_enter_underflows c : ts_ok (abs_video c) → column_stack c ≠ 0 →
  screen_x (backspace_handler (enter_handler c)) = -1.
Proof.
  intros Hok Hcol. destruct (enter_handler_ok c Hok) as [(Ex & _ & Er & _) _].
  assert (Ecol : column_stack (enter_handler c) = column_stack c).
  { unfold enter_handler, enter_and_scroll, set_cursor_position. repeat case_match; reflexivity. }
  unfold ts_newline in Ex, Er. set (c1 := enter_handler c) in *. clearbody c1. cbn in Ex, Er.
  assert (screen_x c1 = 0 ∧ row_stack c1 = 0) as [Ex0 Er0] by (destruct (_ =? _) in Ex, Er; done).
  unfold backspace_handler. rewrite Ecol, Ex0, Er0.
  rewrite (proj2 (Z.eqb_neq 0 (column_stack c))) by done. cbn [andb].
  replace (negb (0 =? 0)) with false by done. rewrite andb_false_r.
  unfold key_arr_pop. cbn. repeat case_match; reflexivity.
Qed.
