(* ===== verification/Printf.v ===== *)
(** The output of printf, student-distrib/lib.c: format strings as lists of
    items, and what every conversion prints. *)
From Stdlib Require Import String.
From S2P Require Import Prelude Memory Strings Console.

(** * Format strings *)
Inductive spec : Type := Hex | Hex8 | Unsigned | Signed | Char | Str.
Inductive item : Type := Text (c : Z) | Percent | Conv (s : spec).

(** The characters of an item after its '%'. *)
Definition letter (s : spec) : Z :=
  match s with Hex | Hex8 => 120 | Unsigned => 117 | Signed => 100 | Char => 99 | Str => 115 end.
Definition alternate (s : spec) : bool := match s with Hex8 => true | _ => false end.
Definition spec_bytes (s : spec) : list Z := if alternate s then [35; letter s] else [letter s].
Definition item_bytes (i : item) : list Z :=
  match i with Text c => [c] | Percent => [37; 37] | Conv s => 37 :: spec_bytes s end.
Definition format_bytes (its : list item) : list Z := concat (item_bytes <$> its).
Definition item_ok (i : item) : Prop := match i with Text c => c ≠ 0 ∧ c ≠ 37 | _ => True end.

(** * What is printed *)

(** [ds] is the numeral of [v] in base [r]: its digits, without leading zeros. *)
Definition numeral (r v : Z) (ds : list Z) : Prop :=
  val_be r ds = v ∧ Forall (digit_ok r) ds ∧ 1 <= Z.of_nat (length ds) <= 32 ∧
  (1 < Z.of_nat (length ds) → r ^ (Z.of_nat (length ds) - 1) <= v).

Definition shows (m : mem) (s : spec) (v : Z) (cs : list Z) : Prop :=
  match s with
  | Hex => numeral 16 (u32 v) cs
  | Hex8 => length cs = 8%nat ∧ val_be 16 cs = u32 v ∧ Forall (digit_ok 16) cs
  | Unsigned => numeral 10 (u32 v) cs
  | Signed => if i32 v <? 0 then ∃ ds, cs = 45 :: ds ∧ numeral 10 (- i32 v) ds else numeral 10 (i32 v) cs
  | Char => cs = [u8 v]
  | Str => ∃ n, is_cstr (mview m v) n ∧ cs = bytes_of (mview m v) n
  end.
(** The words that can be shown: everything, and for [%s] the address of a
    string. *)
Definition showable (m : mem) (s : spec) (v : Z) : Prop :=
  match s with Str => ∃ n, is_cstr (mview m v) n ∧ n < 2 ^ 32 | _ => True end.

Inductive rendered (P : spec → Z → list Z → Prop) : list item → list Z → list Z → Prop :=
| rendered_nil args : rendered P [] args []
| rendered_text c its args cs : rendered P its args cs → rendered P (Text c :: its) args (c :: cs)
| rendered_percent its args cs : rendered P its args cs → rendered P (Percent :: its) args (37 :: cs)
| rendered_conv s v its args c cs : P s v c → rendered P its args cs → rendered P (Conv s :: its) (v :: args) (c ++ cs).

Lemma rendered_impl (P Q : spec → Z → list Z → Prop) its args cs : (∀ s v c, P s v c → Q s v c) →
  rendered P its args cs → rendered Q its args cs.
Proof. intros H. induction 1; constructor; auto. Qed.

(** * The conversions *)
Lemma puts_chars_spec s n : is_cstr s n → n < 2 ^ 32 → puts_chars s = Done (bytes_of s n).
Proof.
  intros (H0 & Hn & Hs) Hlt. unfold puts_chars.
  apply (orun_done _ (λ '(i, acc), 0 <= i <= n ∧ acc = bytes_of s i) _ (λ '(i, _), n - i)); [|cbn; split; [lia|done]|cbn; lia].
  intros [i acc] [Hi ->]. destruct (decide (i = n)) as [->|].
  - rewrite Hn. change (0 =? 0) with true. done.
  - destruct (Hs i) as (c & Hc & Hnz); [lia|]. rewrite Hc, (proj2 (Z.eqb_neq c 0)) by done.
    split; [|lia]. split; [lia|]. by rewrite bytes_of_snoc, Hc by lia.
Qed.

Lemma puts_list l : Forall (λ c, c ≠ 0) l → Z.of_nat (length l) < 2 ^ 32 → puts_chars (lview (l ++ [0])) = Done l.
Proof. intros Hl Hn. by rewrite (puts_chars_spec _ _ (lview_cstr l Hl) Hn), bytes_of_lview. Qed.

Lemma digits_nonzero r ds : Forall (digit_ok r) ds → Forall (λ c, c ≠ 0) ds.
Proof. intros H. eapply list.Forall_impl; [exact H|]. by intros c [? _]. Qed.

Lemma itoa_numeral v r : 2 <= r <= 36 → is_u32 v → ∃ ds, itoa v r = Done (ds ++ [0]) ∧ numeral r v ds ∧
  puts_chars (lview (ds ++ [0])) = Done ds.
Proof.
  intros Hr Hv. destruct (itoa_spec v r Hr Hv) as (ds & E & _ & H1 & H2 & H3 & H4). exists ds.
  split; [done|]. split; [split; [exact H1|split; [exact H2|split; [exact H3|exact H4]]]|]. apply puts_list; [by eapply digits_nonzero|lia].
Qed.

(** The zero-padded form is the numeral behind zeros, eight characters long. *)
Lemma val_be_zeros n ds : val_be 16 (replicate n 48 ++ ds) = val_be 16 ds.
Proof. induction n as [|n IH]; [done|]. exact IH. Qed.
Lemma val_be_bound ds : Forall (digit_ok 16) ds → 0 <= val_be 16 ds < 16 ^ Z.of_nat (length ds).
Proof.
  induction ds as [|c ds IH] using rev_ind; [done|]. intros [Hds Hc]%list.Forall_app.
  apply list.Forall_cons in Hc as [[_ Hc] _]. specialize (IH Hds). unfold val_be in *. rewrite foldl_app. cbn [foldl].
  rewrite length_app. cbn [length]. rewrite Nat2Z.inj_add, Z.pow_add_r by lia. lia.
Qed.

Lemma zeros_inserted (l : list Z) (a b : Z) : 0 <= a <= b → b <= Z.of_nat (length l) → ∀ j,
  zget (for_range a b (λ l i, <[Z.to_nat i := 48]> l) l) j = if (a <=? j) && (j <? b) then Some 48 else zget l j.
Proof.
  intros Ha Hb j. assert (H : length (for_range a b (λ l i, <[Z.to_nat i := 48]> l) l) = length l ∧ ∀ j,
    zget (for_range a b (λ l i, <[Z.to_nat i := 48]> l) l) j = if (a <=? j) && (j <? b) then Some 48 else zget l j); [|apply H].
  apply (for_range_ind (λ i l', length l' = length l ∧ ∀ j, zget l' j = if (a <=? j) && (j <? i) then Some 48 else zget l j)); [lia| |].
  - split; [done|]. intros x. zcase; done.
  - intros i l' Hi [Hl H]. split; [by rewrite length_insert|]. intros x. destruct (decide (i = x)) as [<-|Hne].
    + rewrite zget_insert_eq by lia. zcase; done.
    + rewrite zget_insert_ne by lia. rewrite H. zcase; done.
Qed.

Lemma hex_padded_spec v : is_u32 v → ∃ cs, hex_padded v = Done cs ∧ length cs = 8%nat ∧ val_be 16 cs = v ∧ Forall (digit_ok 16) cs.
Proof.
  intros Hv. destruct (itoa_numeral v 16 ltac:(lia) Hv) as (ds & E & (Hval & Hok & Hlen & Hlead) & _).
  assert (Hlen8 : Z.of_nat (length ds) <= 8).
  { destruct (Z.leb_spec (Z.of_nat (length ds)) 8); [done|]. exfalso. specialize (Hlead ltac:(lia)). unfold is_u32 in Hv.
    pose proof (Z.pow_le_mono_r 16 8 (Z.of_nat (length ds) - 1) ltac:(lia) ltac:(lia)). lia. }
  exists (replicate (8 - length ds) 48 ++ ds). split_and!.
  - unfold hex_padded. rewrite E, bind_Done.
    rewrite (strlen_spec _ _ (lview_cstr ds (digits_nonzero _ _ Hok))) by lia. rewrite bind_Done. cbv zeta.
    set (l := replicate 8 0 ++ ds ++ [0]). set (n := Z.of_nat (length ds)) in *.
    assert (Hll : Z.of_nat (length l) = n + 9) by (unfold l; rewrite !length_app, length_replicate; cbn; lia).
    set (out := replicate (8 - length ds) 48 ++ ds). assert (Hout : length out = 8%nat) by (unfold out; rewrite length_app, length_replicate; lia).
    assert (Hview : ∀ i, 0 <= i <= 8 → zget (for_range n 8 (λ b i, <[Z.to_nat i := 48]> b) l) (n + i) = zget (out ++ [0]) i).
    { intros i Hi. rewrite zeros_inserted by lia. unfold zget. destruct (Z.ltb_spec (n + i) 0); [lia|]. destruct (Z.ltb_spec i 0); [lia|].
      destruct (Z.leb_spec n (n + i)); [|lia]. destruct (Z.ltb_spec (n + i) 8); cbn [andb].
      - unfold out. rewrite <- app_assoc, lookup_app_l by (rewrite length_replicate; lia). symmetry. apply lookup_replicate. split; [done|lia].
      - unfold l, out. rewrite <- app_assoc, !(lookup_app_r (replicate _ _)) by (rewrite length_replicate; lia).
        rewrite !length_replicate. f_equal. lia. }
    transitivity (puts_chars (lview (out ++ [0]))).
    2: { apply puts_list; [|lia]. unfold out. apply list.Forall_app. split; [|by eapply digits_nonzero]. apply Forall_replicate. lia. }
    assert (Hc : is_cstr (lview (out ++ [0])) 8).
    { pose proof (lview_cstr out) as Hc. rewrite Hout in Hc. apply Hc. unfold out. apply list.Forall_app.
      split; [|by eapply digits_nonzero]. apply Forall_replicate. lia. }
    assert (Hc' : is_cstr (λ i, zget (for_range n 8 (λ b i, <[Z.to_nat i := 48]> b) l) (n + i)) 8).
    { destruct Hc as (H0 & H8 & Hs). split; [done|]. split; [by rewrite Hview by lia|]. intros i Hi. rewrite Hview by lia. by apply Hs. }
    rewrite (puts_chars_spec _ _ Hc'), (puts_chars_spec _ _ Hc) by lia. f_equal. unfold bytes_of. apply list_fmap_ext.
    intros j x Hj. apply lookup_seqZ in Hj as [-> Hj]. by rewrite Hview by lia.
  - rewrite length_app, length_replicate. lia.
  - by rewrite val_be_zeros.
  - apply list.Forall_app. split; [|done]. by apply Forall_replicate.
Qed.

(** Every conversion ends and prints what it says. *)
Lemma conversion_ok m s v : showable m s v → ∃ cs, conversion m (alternate s) (letter s) v = Some (Done cs) ∧ shows m s v cs.
Proof.
  intros Hs. pose proof (Z.mod_pos_bound v (2 ^ 32) ltac:(lia)) as Hu. assert (Hv : is_u32 (u32 v)) by exact Hu.
  destruct s; unfold conversion; cbn [letter alternate].
  - destruct (itoa_numeral (u32 v) 16 ltac:(lia) Hv) as (ds & E & Hn & Ep). exists ds.
    change (120 =? 120) with true. cbv iota. by rewrite E, bind_Done, Ep.
  - destruct (hex_padded_spec (u32 v) Hv) as (cs & E & Hn). exists cs. change (120 =? 120) with true. cbv iota. by rewrite E.
  - destruct (itoa_numeral (u32 v) 10 ltac:(lia) Hv) as (ds & E & Hn & Ep). exists ds.
    change (117 =? 120) with false. change (117 =? 117) with true. cbv iota. by rewrite E, bind_Done, Ep.
  - change (100 =? 120) with false. change (100 =? 117) with false. change (100 =? 100) with true. cbv iota.
    assert (Hi : - 2 ^ 31 <= i32 v < 2 ^ 31 ∧ (0 <= i32 v → u32 v = i32 v)).
    { unfold i32. destruct (Z.ltb_spec (u32 v) (2 ^ 31)); unfold is_u32 in Hv; lia. }
    unfold conv_signed, shows. destruct (Z.ltb_spec (i32 v) 0).
    + rewrite (u32_id (- i32 v)) by (split; lia).
      destruct (itoa_numeral (- i32 v) 10 ltac:(lia) ltac:(split; lia)) as (ds & E & Hn & _). exists (45 :: ds).
      rewrite E, bind_Done. split; [|by exists ds]. do 2 f_equal. rewrite app_comm_cons. destruct Hn as (_ & Hok & Hl & _). apply puts_list.
      * constructor; [done|by eapply digits_nonzero].
      * cbn. lia.
    + destruct Hi as [Hb Eu]. rewrite Eu by lia. destruct (itoa_numeral (i32 v) 10 ltac:(lia) ltac:(split; lia)) as (ds & E & Hn & Ep).
      exists ds. by rewrite E, bind_Done, Ep.
  - exists [u8 v]. done.
  - destruct Hs as (n & Hc & Hn). exists (bytes_of (mview m v) n). split; [|by exists n].
    change (115 =? 120) with false. change (115 =? 117) with false. change (115 =? 100) with false. change (115 =? 99) with false.
    change (115 =? 115) with true. cbv iota. by rewrite puts_chars_spec with (n := n).
Qed.

(** * The scan of the format *)
Section scan.
Context (m : mem) (out : list Z).
Let P (s : spec) (v : Z) (c : list Z) : Prop := conversion m (alternate s) (letter s) v = Some (Done c).

(** What is left of the format, and what it still prints. *)
Definition scan_ok (format : list Z) (st : Z * option bool * list Z * list Z) : Prop :=
  let '(i, mode, args, acc) := st in 0 <= i ∧
  let rest := drop (Z.to_nat i) format in
  match mode with
  | None => ∃ its cs, Forall item_ok its ∧ rendered P its args cs ∧ rest = format_bytes its ++ [0] ∧ acc ++ cs = out
  | Some false => ∃ it its cs, Forall item_ok its ∧ rendered P (it :: its) args cs ∧ acc ++ cs = out ∧
      match it with Text _ => False | Percent => rest = 37 :: format_bytes its ++ [0]
                  | Conv s => rest = spec_bytes s ++ format_bytes its ++ [0] end
  | Some true => ∃ s its cs, Forall item_ok its ∧ rendered P (Conv s :: its) args cs ∧ acc ++ cs = out ∧
      alternate s = true ∧ rest = letter s :: format_bytes its ++ [0]
  end.

Lemma read_rest (format : list Z) i c rest : 0 <= i → drop (Z.to_nat i) format = c :: rest →
  lview format i = Some c ∧ drop (Z.to_nat (i + 1)) format = rest ∧ i < Z.of_nat (length format).
Proof.
  intros Hi E. assert (Hc : format !! Z.to_nat i = Some c) by (rewrite <- (Nat.add_0_r (Z.to_nat i)), <- lookup_drop, E; done).
  split; [apply zget_Some; by split|]. split; [|apply lookup_lt_Some in Hc; lia].
  rewrite Z2Nat.inj_add, Nat.add_comm by lia. rewrite Nat.add_comm, <- drop_drop, E. done.
Qed.

Lemma letter_plain s : letter s ≠ 37 ∧ letter s ≠ 35.
Proof. by destruct s. Qed.

Lemma scan_step format : iteration_ok (printf_step m (lview format)) (scan_ok format) (λ o, o = Done out)
  (λ '(i, _, _, _), Z.of_nat (length format) - i).
Proof.
  intros [[[i mode] args] acc] [Hi Hst]. unfold printf_step. destruct mode as [[]|].
  - destruct Hst as (s & its & cs & Hits & Hr & Hacc & Halt & Hrest).
    destruct (read_rest format i _ _ Hi Hrest) as (-> & Hd & Hlt). destruct (letter_plain s) as [H1 H2].
    rewrite (proj2 (Z.eqb_neq _ _) H1), (proj2 (Z.eqb_neq _ _) H2). inversion Hr as [| | |s' v its' args' c cs' Hc Hr' E1 E2 E3]. subst.
    unfold P in Hc. rewrite Halt in Hc. change (default 0 (head (v :: args'))) with v. rewrite Hc. split; [|lia].
    split; [lia|]. exists its, cs'. split_and!; [done|done|done|by rewrite <- app_assoc].
  - destruct Hst as (it & its & cs & Hits & Hr & Hacc & Hrest). destruct it as [c| |s]; [done| |].
    + destruct (read_rest format i _ _ Hi Hrest) as (-> & Hd & Hlt). change (37 =? 37) with true. cbv iota.
      inversion Hr as [| |its' args' cs' Hr' E1 E2 E3|]. subst. split; [|lia]. split; [lia|].
      exists its, cs'. split_and!; [done|done|done|by rewrite <- app_assoc].
    + unfold spec_bytes in Hrest. destruct (alternate s) eqn:Ea.
      * destruct (read_rest format i _ _ Hi Hrest) as (-> & Hd & Hlt). change (35 =? 37) with false. change (35 =? 35) with true. cbv iota.
        split; [|lia]. split; [lia|]. exists s, its, cs. by split_and!.
      * destruct (read_rest format i _ _ Hi Hrest) as (-> & Hd & Hlt). destruct (letter_plain s) as [H1 H2].
        rewrite (proj2 (Z.eqb_neq _ _) H1), (proj2 (Z.eqb_neq _ _) H2). inversion Hr as [| | |s' v its' args' c cs' Hc Hr' E1 E2 E3]. subst.
        unfold P in Hc. rewrite Ea in Hc. change (default 0 (head (v :: args'))) with v. rewrite Hc. split; [|lia].
        split; [lia|]. exists its, cs'. split_and!; [done|done|done|by rewrite <- app_assoc].
  - destruct Hst as (its & cs & Hits & Hr & Hrest & Hacc). destruct its as [|it its].
    + destruct (read_rest format i _ _ Hi Hrest) as (-> & _). inversion Hr as [args' E1 E2 E3| | |]. rewrite <- E3, app_nil_r in Hacc. by rewrite <- Hacc.
    + apply list.Forall_cons in Hits as [Hit Hits]. destruct it as [c| |s].
      * destruct (read_rest format i _ _ Hi Hrest) as (-> & Hd & Hlt). destruct Hit as [H0 H37].
        rewrite (proj2 (Z.eqb_neq _ _) H0), (proj2 (Z.eqb_neq _ _) H37). inversion Hr as [|c' its' args' cs' Hr' E1 E2 E3| |]. subst.
        split; [|lia]. split; [lia|]. exists its, cs'. split_and!; [done|done|done|by rewrite <- app_assoc].
      * destruct (read_rest format i _ _ Hi Hrest) as (-> & Hd & Hlt). change (37 =? 0) with false. change (37 =? 37) with true. cbv iota.
        split; [|lia]. split; [lia|]. by exists Percent, its, cs.
      * change (format_bytes (Conv s :: its)) with ((37 :: spec_bytes s) ++ format_bytes its) in Hrest. rewrite <- app_assoc in Hrest.
        destruct (read_rest format i _ _ Hi Hrest) as (-> & Hd & Hlt). change (37 =? 0) with false. change (37 =? 37) with true. cbv iota.
        split; [|lia]. split; [lia|]. by exists (Conv s), its, cs.
Qed.

Lemma printf_scan its args : Forall item_ok its → rendered P its args out → Z.of_nat (length (format_bytes its)) < 2 ^ 32 →
  printf_chars m (lview (format_bytes its ++ [0])) args = Done out.
Proof.
  intros Hits Hr Hl. unfold printf_chars. apply (orun_done _ (scan_ok (format_bytes its ++ [0])) _
    (λ '(i, _, _, _), Z.of_nat (length (format_bytes its ++ [0])) - i)); [apply scan_step| |].
  - split; [lia|]. exists its, out. by split_and!.
  - rewrite length_app. cbn. lia.
Qed.
End scan.

(** The words a format takes from the stack can all be shown. *)
Inductive enough (m : mem) : list item → list Z → Prop :=
| enough_nil args : enough m [] args
| enough_text c its args : enough m its args → enough m (Text c :: its) args
| enough_percent its args : enough m its args → enough m (Percent :: its) args
| enough_conv s v its args : showable m s v → enough m its args → enough m (Conv s :: its) (v :: args).

Lemma enough_rendered m its args : enough m its args → ∃ cs,
  rendered (λ s v c, conversion m (alternate s) (letter s) v = Some (Done c)) its args cs ∧ rendered (shows m) its args cs.
Proof.
  induction 1 as [args|c its args _ (cs & H1 & H2)|its args _ (cs & H1 & H2)|s v its args Hs _ (cs & H1 & H2)].
  - exists []. split; constructor.
  - exists (c :: cs). by split; constructor.
  - exists (37 :: cs). by split; constructor.
  - destruct (conversion_ok m s v Hs) as (c & E & Hc). exists (c ++ cs). by split; constructor.
Qed.

(** C35. printf.  For every format built from plain characters, %% and the
    conversions %x, %#x, %u, %d, %c and %s, and every list of stack words that
    holds enough of them (the addresses of strings for %s), printf terminates and
    prints, in order, the plain characters and for every conversion its word:
    the hexadecimal or decimal numeral without leading zeros, the signed one
    with a minus sign for negative words (the smallest one included), the eight
    hexadecimal digits of the padded form, the character, or the string; and
    the console is that of printing those characters one by one. *)
Theorem printf_correct (its : list item) (args : list Z) (c : console) (Hits : Forall item_ok its)
    (Hargs : enough (c_mem c) its args) (Hlen : Z.of_nat (length (format_bytes its)) < 2 ^ 32) :
  ∃ cs, printf (lview (format_bytes its ++ [0])) args c = Done (foldl putc c cs) ∧ rendered (shows (c_mem c)) its args cs.
Proof.
  destruct (enough_rendered _ _ _ Hargs) as (cs & H1 & H2). exists cs. split; [|exact H2].
  unfold printf. by rewrite (printf_scan _ cs its args Hits H1 Hlen).
Qed.

Definition console_hi : console := with_mem (λ _ a, a mod 256) console0.

(** "%d: %s" on -7 and the string of two bytes at 254. *)
Lemma printf_correct_witness : ∃ cs,
  printf (lview (lit "%d: %s" ++ [0])) [2 ^ 32 - 7; 254] console_hi = Done (foldl putc console_hi cs) ∧
  rendered (shows (c_mem console_hi)) [Conv Signed; Text 58; Text 32; Conv Str] [2 ^ 32 - 7; 254] cs.
Proof.
  destruct (printf_correct [Conv Signed; Text 58; Text 32; Conv Str] [2 ^ 32 - 7; 254] console_hi) as (cs & E & H).
  - repeat constructor; lia.
  - constructor; [done|]. constructor. constructor. constructor; [|constructor]. exists 2. split; [|lia].
    split; [lia|]. split; [reflexivity|]. intros i Hi. assert (i = 0 ∨ i = 1) as [-> | ->] by lia; (eexists; split; [reflexivity|done]).
  - reflexivity.
  - exists cs. split; [exact E|exact H].
Defined.
