(* ===== verification/Filesystem.v ===== *)
(** The read-only file system of student-distrib/filesystem.c: directory
    lookup, block-wise file reading, and the directory and file drivers. *)
From S2P Require Import Prelude Memory Strings.

Definition BLOCKSIZE : Z := 4096.
Definition ENTRY_OFFSET : Z := 64.
Definition BYTE_OFFSET : Z := 4.
Definition F_TYPE_OFFSET : Z := 32.
Definition UINT32_OFFSET : Z := 4.
Definition D_ENT_COPY_SIZE : Z := 40.

(** * State *)

(** A [dentry_t] as its 64 bytes: name, type, inode number, reserved. *)
Definition dentry_t : Type := list Z.
Definition f_type (d : dentry_t) : Z := load32 (λ i, default 0 (zget d i)) 32.
Definition i_node (d : dentry_t) : Z := load32 (λ i, default 0 (zget d i)) 36.

(** The globals set by [filesystem_init], and the cursor of [dir_read]. *)
Record fs : Type := Fs {
  fs_addr : Z; num_dentries : Z; num_inodes : Z; num_d_blocks : Z;
  dentry_addr : Z; inode_addr : Z; d_block_addr : Z; dir_location : Z }.

Definition with_dir_location (l : Z) (f : fs) : fs :=
  Fs (fs_addr f) (num_dentries f) (num_inodes f) (num_d_blocks f)
    (dentry_addr f) (inode_addr f) (d_block_addr f) l.

Definition filesystem_init (m : mem) (starting_addr : Z) : fs :=
  let fs_addr := starting_addr in
  let num_dentries := load32 m fs_addr in
  let num_inodes := load32 m (u32 (fs_addr + BYTE_OFFSET)) in
  let num_d_blocks := load32 m (u32 (fs_addr + Z.shiftl BYTE_OFFSET 1)) in
  let dentry_addr := u32 (fs_addr + ENTRY_OFFSET) in
  let inode_addr := u32 (fs_addr + BLOCKSIZE) in
  Fs fs_addr num_dentries num_inodes num_d_blocks dentry_addr inode_addr
    (u32 (inode_addr + u32 (num_inodes * BLOCKSIZE))) 0.

(** * Routines *)

(** [memcpy] of the first 40 bytes of an entry into a [dentry_t]. *)
Definition copy_dentry (m : mem) (addr : Z) (dentry : dentry_t) : dentry_t :=
  bytes_of (mview m addr) D_ENT_COPY_SIZE ++ drop 40 dentry.

(** The test of one loop iteration: same bytes, and same length. *)
Definition dentry_match (m : mem) (fname : str) (fnlength temp_addr : Z) : out bool :=
  cmp_res ← strncmp fname (mview m temp_addr) fnlength;
  tlen ← strlen (mview m temp_addr);
  cmp_res_len ←
    (if (32 <=? fnlength) && (32 <=? tlen) then Done true
     else flen ← strlen fname; Done (flen =? tlen));
  Done ((cmp_res =? 0) && cmp_res_len).

(** Returns the result and the contents of [*dentry]. *)
Definition read_dentry_by_name (m : mem) (f : fs) (fname : str) (dentry : dentry_t)
    : out (Z * dentry_t) :=
  fnlength ← strlen fname;
  if F_TYPE_OFFSET <? fnlength then Done (-1, dentry) else
  orun (λ '(i, temp_addr),
    if negb (i <? num_dentries f) then inr (Done (-1, dentry)) else
    match dentry_match m fname fnlength temp_addr with
    | Done true => inr (Done (0, copy_dentry m temp_addr dentry))
    | Done false => inl (i + 1, u32 (temp_addr + ENTRY_OFFSET))
    | Undef => inr Undef
    | Hang => inr Hang
    end) (0, dentry_addr f).

Definition read_dentry_by_index (m : mem) (f : fs) (index : Z) (dentry : dentry_t)
    : Z * dentry_t :=
  if num_dentries f <=? index then (-1, dentry)
  else (0, copy_dentry m (u32 (dentry_addr f + u32 (index * ENTRY_OFFSET))) dentry).

(** The block number stored at entry [k] of the inode whose block list starts
    at [d_block_idx_ptr], and the address of a byte of a data block. *)
Definition block_entry (m : mem) (d_block_idx_ptr k : Z) : Z :=
  load32 m (u32 (d_block_idx_ptr + k * UINT32_OFFSET)).
Definition block_addr (f : fs) (index off : Z) : Z :=
  u32 (d_block_addr f + u32 (index * BLOCKSIZE) + off).

(** The loop over the blocks after the first; its state is [bytes_to_copy],
    [d_block_idx_offset], [temp_buf] and the memory. *)
Definition read_rest (f : fs) (d_block_idx_ptr real_length : Z)
    (st : Z * Z * Z * mem) : (Z * Z * Z * mem) + out (Z * mem) :=
  let '(bytes_to_copy, idx, temp_buf, m) := st in
  if bytes_to_copy =? 0 then inr (Done (i32 real_length, m)) else
  if BLOCKSIZE <? bytes_to_copy then
    let bytes_to_copy := bytes_to_copy - BLOCKSIZE in
    let idx := idx + 1 in
    let d_block_real_index := block_entry m d_block_idx_ptr idx in
    if num_d_blocks f <? d_block_real_index then inr (Done (-1, m)) else
    inl (bytes_to_copy, idx, temp_buf + BLOCKSIZE,
         memcpy m temp_buf (block_addr f d_block_real_index 0) BLOCKSIZE)
  else
    let idx := idx + 1 in
    let d_block_real_index := block_entry m d_block_idx_ptr idx in
    inr (Done (i32 real_length,
               memcpy m temp_buf (block_addr f d_block_real_index 0) bytes_to_copy)).

(** Returns the result and the memory after the copies to [buf]. *)
Definition read_data (m : mem) (f : fs) (inode offset buf length : Z) : out (Z * mem) :=
  if u32 (num_inodes f - 1) <=? inode then Done (-1, m) else
  let cur_inode_addr := u32 (inode_addr f + u32 (BLOCKSIZE * inode)) in
  let file_size := load32 m cur_inode_addr in
  if file_size <=? offset then Done (0, m) else
  let real_length := if file_size - offset <? length then file_size - offset else length in
  let d_block_idx_ptr := u32 (cur_inode_addr + UINT32_OFFSET) in
  let d_block_idx_offset := offset / BLOCKSIZE in
  let d_block_byte_offset := offset mod BLOCKSIZE in
  let d_block_real_index := block_entry m d_block_idx_ptr d_block_idx_offset in
  if num_d_blocks f <? d_block_real_index then Done (-1, m) else
  let first := BLOCKSIZE - d_block_byte_offset in
  let src := block_addr f d_block_real_index d_block_byte_offset in
  if real_length <=? first then Done (i32 real_length, memcpy m buf src real_length)
  else
    orun (read_rest f d_block_idx_ptr real_length)
      (real_length - first, d_block_idx_offset, buf + first, memcpy m buf src first).

(** * Directory driver *)
Definition dir_open (f : fs) : Z * fs := (0, with_dir_location 0 f).
Definition dir_close : Z := 0.
Definition dir_write : Z := -1.

(** [dentry] is the uninitialised local of the same name. *)
Definition dir_read (m : mem) (f : fs) (dentry : dentry_t) (buf nbytes : Z)
    : out (Z * mem * fs) :=
  let '(res, dentry) := read_dentry_by_index m f (dir_location f) dentry in
  if res =? 0 then
    let fname := lview dentry in
    fname_len ← strlen fname;
    let m := for_range 0 F_TYPE_OFFSET (λ m i, store8 m (buf + i) 0) m in
    let fname_len := if u32 nbytes <? fname_len then u32 nbytes else fname_len in
    bs ← strncpy fname fname_len;
    Done (i32 fname_len, blit m buf bs, with_dir_location (u32 (dir_location f + 1)) f)
  else Done (0, m, with_dir_location 0 f).

(** * File driver: the parts that do not look at the process *)
Definition file_open : Z := 0.
Definition file_close : Z := 0.
Definition file_write : Z := -1.


(** * The image: what the driver is given

    [image_ok m f]: the globals [f] were set from the boot block that [m]
    holds, and the image does not wrap around the address space. *)
Definition image_end (f : fs) : Z :=
  fs_addr f + BLOCKSIZE * (1 + num_inodes f + num_d_blocks f).

Record image_ok (m : mem) (f : fs) : Prop := ImageOk {
  im_bytes : mem_ok m;
  im_init : f = with_dir_location (dir_location f) (filesystem_init m (fs_addr f));
  im_low : 0 <= fs_addr f;
  im_high : image_end f < 2 ^ 32 }.

(** The file an inode denotes: its size and its bytes. *)
Definition inode_at (f : fs) (inode : Z) : Z := inode_addr f + BLOCKSIZE * inode.
Definition file_size (m : mem) (f : fs) (inode : Z) : Z := load32 m (inode_at f inode).
Definition block_no (m : mem) (f : fs) (inode k : Z) : Z :=
  load32 m (inode_at f inode + 4 + k * 4).
Definition file_byte (m : mem) (f : fs) (inode i : Z) : Z :=
  m (d_block_addr f + BLOCKSIZE * block_no m f inode (i / BLOCKSIZE) + i mod BLOCKSIZE).

Record inode_ok (m : mem) (f : fs) (inode : Z) : Prop := InodeOk {
  in_range : 0 <= inode < num_inodes f - 1;
  in_size : file_size m f inode <= 1023 * BLOCKSIZE;
  in_blocks : ∀ k, 0 <= k → k * BLOCKSIZE < file_size m f inode →
    block_no m f inode k < num_d_blocks f }.

(** A buffer outside the image. *)
Definition buf_ok (f : fs) (buf length : Z) : Prop :=
  0 <= length ∧ (buf + length <= fs_addr f ∨ image_end f <= buf).

Section layout.
Context (m : mem) (f : fs) (Hi : image_ok m f).

Lemma image_counts : is_u32 (num_inodes f) ∧ is_u32 (num_d_blocks f) ∧ is_u32 (num_dentries f).
Proof.
  destruct Hi as [Hb -> _ _]. cbn. split_and!; by apply load32_range.
Qed.

Lemma image_layout :
  inode_addr f = fs_addr f + BLOCKSIZE ∧ dentry_addr f = fs_addr f + 64 ∧
  d_block_addr f = fs_addr f + BLOCKSIZE * (1 + num_inodes f).
Proof.
  destruct image_counts as (H1 & H2 & _). destruct Hi as [Hb E Hl Hh].
  unfold image_end in Hh. rewrite E. cbn. rewrite E in H1, H2, Hh. cbn in H1, H2, Hh.
  unfold is_u32, BLOCKSIZE, ENTRY_OFFSET in *.
  rewrite !(u32_id (fs_addr f + 4096)) by (split; lia).
  rewrite !(u32_id (load32 _ _ * 4096)) by (split; lia).
  rewrite !u32_id by (split; lia). lia.
Qed.

Lemma inode_inside i : 0 <= i < num_inodes f →
  fs_addr f + BLOCKSIZE <= inode_at f i ∧ inode_at f i + BLOCKSIZE <= d_block_addr f.
Proof. destruct image_layout as (E1 & _ & E3). unfold inode_at, BLOCKSIZE in *. lia. Qed.

Lemma block_inside b : 0 <= b < num_d_blocks f →
  fs_addr f + BLOCKSIZE <= d_block_addr f + BLOCKSIZE * b ∧
  d_block_addr f + BLOCKSIZE * b + BLOCKSIZE <= image_end f.
Proof.
  destruct image_layout as (_ & _ & E3). destruct image_counts as ([? ?] & _).
  unfold image_end, BLOCKSIZE in *. lia.
Qed.

Lemma block_no_range inode k : is_u32 (block_no m f inode k).
Proof. apply load32_range, Hi. Qed.
Lemma file_size_range inode : is_u32 (file_size m f inode).
Proof. apply load32_range, Hi. Qed.
End layout.

(** Memory changes outside the image leave the files alone. *)
Lemma load32_frame (m m' : mem) a : (∀ x, a <= x < a + 4 → m' x = m x) → load32 m' a = load32 m a.
Proof. intros H. unfold load32. by rewrite !H by lia. Qed.

Section frame.
Context (m m' : mem) (f : fs) (Hi : image_ok m f).
Context (Hsame : ∀ a, fs_addr f <= a < image_end f → m' a = m a).

Lemma image_frame_load a : fs_addr f <= a → a + 4 <= image_end f → load32 m' a = load32 m a.
Proof. intros. apply load32_frame. intros. apply Hsame. lia. Qed.

Lemma block_no_frame inode k : 0 <= inode < num_inodes f → 0 <= k < 1023 →
  block_no m' f inode k = block_no m f inode k.
Proof.
  intros Hn Hk. pose proof (inode_inside m f Hi inode Hn) as [H1 H2].
  destruct (image_layout m f Hi) as (_ & _ & E). destruct (image_counts m f Hi) as ([? ?] & [? ?] & _).
  unfold block_no. apply image_frame_load; unfold image_end, BLOCKSIZE in *; lia.
Qed.
Lemma file_size_frame inode : 0 <= inode < num_inodes f → file_size m' f inode = file_size m f inode.
Proof.
  intros Hn. pose proof (inode_inside m f Hi inode Hn) as [H1 H2].
  destruct (image_layout m f Hi) as (_ & _ & E). destruct (image_counts m f Hi) as ([? ?] & [? ?] & _).
  unfold file_size. apply image_frame_load; unfold image_end, BLOCKSIZE in *; lia.
Qed.

Lemma image_ok_frame : mem_ok m' → image_ok m' f.
Proof.
  intros Hm. destruct (image_counts m f Hi) as ([? ?] & [? ?] & _).
  pose proof (im_low m f Hi). pose proof (im_high m f Hi).
  assert (Hend : fs_addr f + 12 <= image_end f) by (unfold image_end, BLOCKSIZE in *; lia).
  assert (E : filesystem_init m' (fs_addr f) = filesystem_init m (fs_addr f)).
  { unfold filesystem_init, BYTE_OFFSET. change (Z.shiftl 4 1) with 8. u32_simpl.
    by rewrite !image_frame_load by lia. }
  split; [done|rewrite E; apply (im_init m f Hi)|done|done].
Qed.

Lemma inode_ok_frame inode : inode_ok m f inode → inode_ok m' f inode.
Proof.
  intros [Hr Hs Hb]. assert (0 <= inode < num_inodes f) by lia.
  split; rewrite ?file_size_frame by done; [done|done|].
  intros k Hk Hlt. rewrite block_no_frame; [by apply Hb|done|unfold BLOCKSIZE in *; lia].
Qed.

Lemma file_byte_frame inode i : inode_ok m f inode → 0 <= i < file_size m f inode →
  file_byte m' f inode i = file_byte m f inode i.
Proof.
  intros [Hr Hs Hb] Hi'. unfold file_byte, BLOCKSIZE in *.
  assert (0 <= i / 4096 < 1023) by (split; [apply Z.div_pos; lia|apply Z.div_lt_upper_bound; lia]).
  rewrite block_no_frame by lia. apply Hsame.
  pose proof (Z.div_mod i 4096). pose proof (Z.mod_pos_bound i 4096).
  pose proof (block_no_range m f Hi inode (i / 4096)) as [? ?].
  destruct (block_inside m f Hi (block_no m f inode (i / 4096))) as [? ?].
  { split; [done|]. apply Hb; lia. }
  unfold BLOCKSIZE in *. lia.
Qed.
End frame.

(** * read_data *)
Section read.
Context (m : mem) (f : fs) (inode offset buf length : Z).
Context (Him : image_ok m f) (Hin : inode_ok m f inode).
Context (Hoff : is_u32 offset) (Hlen : is_u32 length).
Context (n := Z.min (file_size m f inode - offset) length).
Context (Hn : offset < file_size m f inode).
Context (Hbuf : buf_ok f buf n).

(** The first [d] bytes have been copied into the buffer. *)
Definition read_upto (d : Z) (mm : mem) : Prop :=
  only_in buf (buf + d) m mm ∧
  ∀ i, 0 <= i < d → mm (buf + i) = file_byte m f inode (offset + i).

Lemma read_upto_same d mm : d <= n → read_upto d mm →
  ∀ a, fs_addr f <= a < image_end f → mm a = m a.
Proof. intros Hd [Ho _] a Ha. apply Ho. destruct Hbuf. lia. Qed.

Lemma block_entry_no d mm k : d <= n → read_upto d mm → 0 <= k < 1023 →
  block_entry mm (u32 (u32 (inode_addr f + u32 (BLOCKSIZE * inode)) + UINT32_OFFSET)) k =
  block_no m f inode k.
Proof.
  intros Hd Hr Hk. pose proof (in_range _ _ _ Hin) as Hr1.
  destruct (inode_inside m f Him inode ltac:(lia)) as [Ha Hb].
  destruct (image_layout m f Him) as (E1 & _ & E3). pose proof (im_high m f Him).
  pose proof (im_low m f Him). destruct (image_counts m f Him) as ([? ?] & [? ?] & _).
  rewrite <- (block_no_frame m mm f Him (read_upto_same d mm Hd Hr)) by lia.
  unfold block_entry, block_no, inode_at, image_end, BLOCKSIZE, UINT32_OFFSET in *.
  u32_simpl. done.
Qed.

(** One copy of [c] bytes from offset [o] of block [k] of the file. *)
Lemma read_step d mm k o c : read_upto d mm → 0 <= d → d + c <= n → 0 <= c →
  offset + d = BLOCKSIZE * k + o → 0 <= o → o + c <= BLOCKSIZE → o < BLOCKSIZE → 0 <= k < 1023 →
  offset + d < file_size m f inode →
  read_upto (d + c) (memcpy mm (buf + d) (block_addr f (block_no m f inode k) o) c).
Proof.
  intros Hr Hd Hdc Hc He Ho Hoc Ho' Hk Hlt.
  pose proof (block_no_range m f Him inode k) as [Hb0 _].
  assert (Hb1 : block_no m f inode k < num_d_blocks f)
    by (apply (in_blocks _ _ _ Hin); unfold BLOCKSIZE in *; lia).
  destruct (block_inside m f Him (block_no m f inode k) ltac:(lia)) as [Hlo Hhi].
  pose proof (im_low m f Him). pose proof (im_high m f Him). destruct Hbuf as [Hn0 Hdisj].
  assert (Ea : block_addr f (block_no m f inode k) o =
    d_block_addr f + BLOCKSIZE * block_no m f inode k + o).
  { destruct (image_layout m f Him) as (_ & _ & E3). destruct (image_counts m f Him) as ([? ?] & _).
    unfold block_addr, BLOCKSIZE in *. u32_simpl. lia. }
  rewrite Ea. pose proof (read_upto_same d mm ltac:(lia) Hr) as Hsame.
  assert (E : memcpy mm (buf + d) (d_block_addr f + BLOCKSIZE * block_no m f inode k + o) c
    ≡ copied mm (buf + d) (d_block_addr f + BLOCKSIZE * block_no m f inode k + o) c).
  { apply memcpy_copied. unfold copy_safe, BLOCKSIZE in *. lia. }
  destruct Hr as [Hout Hbytes]. split.
  - intros a Ha. rewrite (E a). unfold copied. zcase; apply Hout; lia.
  - intros i Hi. rewrite (E _). unfold copied.
    destruct (Z.ltb_spec (buf + i) (buf + d + c)); [|lia].
    destruct (Z.leb_spec (buf + d) (buf + i)); cbn [andb]; [|apply Hbytes; lia].
    rewrite Hsame by (unfold BLOCKSIZE in *; lia). unfold file_byte.
    replace (offset + i) with (o + (i - d) + k * BLOCKSIZE) by lia.
    rewrite Z.div_add, Z.mod_add by done.
    rewrite Z.div_small, Z.mod_small by (unfold BLOCKSIZE in *; lia). f_equal.
    replace (0 + k) with k by lia. lia.
Qed.

Lemma read_rest_correct st :
  let '(rem, idx, tb, mm) := st in
  0 < rem <= n → tb = buf + (n - rem) → offset + (n - rem) = BLOCKSIZE * (idx + 1) →
  0 <= idx → read_upto (n - rem) mm →
  ∃ r, orun (read_rest f
         (u32 (u32 (inode_addr f + u32 (BLOCKSIZE * inode)) + UINT32_OFFSET)) n) st = Done r ∧
    r.1 = n ∧ read_upto n r.2.
Proof.
  destruct st as [[[rem idx] tb] mm]. intros Hrem Htb Hpos Hidx Hup.
  pose proof (in_size _ _ _ Hin) as Hsz. unfold BLOCKSIZE in Hsz.
  destruct Hoff as [? ?].
  assert (Hn2 : n < 2 ^ 31 ∧ n <= file_size m f inode - offset) by lia.
  apply (orun_total _ (λ '(rem, idx, tb, mm), 0 < rem <= n ∧ tb = buf + (n - rem) ∧
      offset + (n - rem) = BLOCKSIZE * (idx + 1) ∧ 0 <= idx ∧ read_upto (n - rem) mm)
    (λ r, r.1 = n ∧ read_upto n r.2) (λ '(rem, _, _, _), rem)); [|done|lia].
  clear rem idx tb mm Hrem Htb Hpos Hidx Hup.
  intros [[[rem idx] tb] mm] (Hrem & -> & Hpos & Hidx & Hup). unfold read_rest.
  destruct (Z.eqb_spec rem 0); [lia|].
  assert (Hk : 0 <= idx + 1 < 1023) by (unfold BLOCKSIZE in *; lia).
  rewrite (block_entry_no (n - rem)) by (lia || done).
  destruct (Z.ltb_spec BLOCKSIZE rem).
  - assert (block_no m f inode (idx + 1) < num_d_blocks f)
      by (apply (in_blocks _ _ _ Hin); unfold BLOCKSIZE in *; lia).
    destruct (Z.ltb_spec (num_d_blocks f) (block_no m f inode (idx + 1))); [lia|].
    pose proof (read_step (n - rem) mm (idx + 1) 0 BLOCKSIZE Hup) as Hstep.
    unfold BLOCKSIZE in *.
    replace (n - (rem - 4096)) with (n - rem + 4096) by lia.
    split_and!; try lia. apply Hstep; lia.
  - pose proof (read_step (n - rem) mm (idx + 1) 0 rem Hup) as Hstep.
    eexists. split; [done|]. cbn [fst snd]. split; [apply i32_small; lia|].
    replace (n - rem + rem) with n in Hstep by lia. unfold BLOCKSIZE in *. apply Hstep; lia.
Qed.

Lemma read_data_reads : ∃ mm, read_data m f inode offset buf length = Done (n, mm) ∧ read_upto n mm.
Proof.
  pose proof (in_range _ _ _ Hin). pose proof (in_size _ _ _ Hin) as Hsz.
  destruct (image_counts m f Him) as ([? ?] & [? ?] & _).
  destruct (inode_inside m f Him inode ltac:(lia)) as [Ha Hb].
  destruct (image_layout m f Him) as (E1 & _ & E3).
  pose proof (im_low m f Him). pose proof (im_high m f Him). destruct Hoff, Hlen.
  assert (Hup0 : read_upto 0 m) by (split; [intros a _; done|lia]).
  assert (Esz : load32 m (u32 (inode_addr f + u32 (BLOCKSIZE * inode))) = file_size m f inode).
  { unfold file_size, inode_at, image_end, BLOCKSIZE in *. by u32_simpl. }
  assert (Hq : offset = BLOCKSIZE * (offset / BLOCKSIZE) + offset mod BLOCKSIZE)
    by (apply Z.div_mod; done).
  assert (Hr : 0 <= offset mod BLOCKSIZE < BLOCKSIZE) by by apply Z.mod_pos_bound.
  assert (Hk : 0 <= offset / BLOCKSIZE < 1023) by (unfold BLOCKSIZE in *; lia).
  unfold read_data. rewrite Esz, (block_entry_no 0 m) by (done || lia).
  rewrite (u32_id (num_inodes f - 1)) by (split; lia).
  destruct (Z.leb_spec (num_inodes f - 1) inode); [lia|].
  destruct (Z.leb_spec (file_size m f inode) offset); [lia|].
  replace (if file_size m f inode - offset <? length then _ else _) with n
    by (unfold n; zcase).
  assert (block_no m f inode (offset / BLOCKSIZE) < num_d_blocks f)
    by (apply (in_blocks _ _ _ Hin); lia).
  destruct (Z.ltb_spec (num_d_blocks f) (block_no m f inode (offset / BLOCKSIZE))); [lia|].
  assert (Hstep : ∀ c, 0 <= c <= n → offset mod BLOCKSIZE + c <= BLOCKSIZE → read_upto c
    (memcpy m buf (block_addr f (block_no m f inode (offset / BLOCKSIZE)) (offset mod BLOCKSIZE)) c)).
  { intros c Hc Hoc.
    pose proof (read_step 0 m (offset / BLOCKSIZE) (offset mod BLOCKSIZE) c Hup0) as Hs.
    rewrite !Z.add_0_r, !Z.add_0_l in Hs. apply Hs; lia. }
  destruct (Z.leb_spec n (BLOCKSIZE - offset mod BLOCKSIZE)).
  - rewrite i32_small by (unfold BLOCKSIZE in *; lia). eexists. split; [done|]. apply Hstep; lia.
  - destruct (read_rest_correct (n - (BLOCKSIZE - offset mod BLOCKSIZE), offset / BLOCKSIZE,
      buf + (BLOCKSIZE - offset mod BLOCKSIZE), memcpy m buf (block_addr f
        (block_no m f inode (offset / BLOCKSIZE)) (offset mod BLOCKSIZE))
        (BLOCKSIZE - offset mod BLOCKSIZE))) as ([r mm] & Er & E & Hm); [lia|lia|lia|lia| |].
    + replace (n - (n - (BLOCKSIZE - offset mod BLOCKSIZE))) with
        (BLOCKSIZE - offset mod BLOCKSIZE) by lia. apply Hstep; lia.
    + cbn [fst snd] in E, Hm. subst r. eauto.
Qed.
End read.

(** At or past the end of the file nothing is read. *)
Lemma read_data_eof m f inode offset buf length : image_ok m f → inode_ok m f inode →
  file_size m f inode <= offset → read_data m f inode offset buf length = Done (0, m).
Proof.
  intros Hi Hn Hge. pose proof (in_range _ _ _ Hn). destruct (image_counts m f Hi) as ([? ?] & [? ?] & _).
  destruct (inode_inside m f Hi inode ltac:(lia)) as [Ha Hb'].
  destruct (image_layout m f Hi) as (E1 & _ & E3). pose proof (im_low m f Hi). pose proof (im_high m f Hi).
  unfold read_data. rewrite (u32_id (num_inodes f - 1)) by (split; lia).
  destruct (Z.leb_spec (num_inodes f - 1) inode); [lia|].
  replace (load32 m _) with (file_size m f inode)
    by (unfold file_size, inode_at, image_end, BLOCKSIZE in *; by u32_simpl).
  destruct (Z.leb_spec (file_size m f inode) offset); [done|lia].
Qed.

(** * Directory lookup *)

(** The bytes before the first NUL. *)
Fixpoint cut0 (l : list Z) : list Z :=
  match l with
  | [] => []
  | c :: l => if c =? 0 then [] else c :: cut0 l
  end.

Definition entry_at (f : fs) (i : Z) : Z := dentry_addr f + ENTRY_OFFSET * i.
(** The file name of directory entry [i]: at most 32 bytes, NUL-padded. *)
Definition entry_name (m : mem) (f : fs) (i : Z) : list Z :=
  cut0 (bytes_of (mview m (entry_at f i)) F_TYPE_OFFSET).

(** The boot block has room for 63 entries; the type of an entry is small, so
    that a 32-byte name is followed by a zero byte inside the entry. *)
Record dir_ok (m : mem) (f : fs) : Prop := DirOk {
  dir_count : num_dentries f <= 63;
  dir_types : ∀ i, 0 <= i < num_dentries f → load32 m (entry_at f i + F_TYPE_OFFSET) < 2 ^ 24 }.

(** The number of bytes before the first NUL among the first [k + 1]. *)
Lemma cstr_exists s k : 0 <= k → s k = Some 0 → (∀ i, 0 <= i < k → is_Some (s i)) →
  ∃ n, n <= k ∧ is_cstr s n.
Proof.
  intros Hk. revert Hk s. apply (natlike_ind (λ k, ∀ s, s k = Some 0 →
    (∀ i, 0 <= i < k → is_Some (s i)) → ∃ n, n <= k ∧ is_cstr s n)).
  - intros s H0 _. exists 0. split; [lia|]. split_and!; [lia|done|intros; lia].
  - clear k. intros k Hk IH s H0 Hs. destruct (Hs 0 ltac:(lia)) as [c Hc].
    destruct (decide (c = 0)) as [->|Hne].
    { exists 0. split; [lia|]. split_and!; [lia|done|intros; lia]. }
    destruct (IH (λ i, s (i + 1))) as (n & Hn & H1 & H2 & H3); [done| |].
    { intros i Hi. apply Hs. lia. }
    exists (n + 1). split; [lia|]. split_and!; [lia|done|]. intros i Hi.
    destruct (decide (i = 0)) as [->|]; [eauto|].
    destruct (H3 (i - 1) ltac:(lia)) as (d & Hd & ?). exists d.
    by replace (i - 1 + 1) with i in Hd by lia.
Qed.

Lemma cut0_cstr s n k : is_cstr s n → 0 <= k → cut0 (bytes_of s k) = bytes_of s (Z.min n k).
Proof.
  intros (H0 & Hn & Hs) Hk. revert s n H0 Hn Hs. revert k Hk. apply (natlike_ind (λ k, ∀ s n,
    0 <= n → s n = Some 0 → (∀ i, 0 <= i < n → ∃ c, s i = Some c ∧ c ≠ 0) →
    cut0 (bytes_of s k) = bytes_of s (Z.min n k))).
  { intros s n Hn0 _ _. by replace (Z.min n 0) with 0 by lia. }
  intros k Hk IH s n Hn0 Hn Hs.
  assert (Hcons : ∀ j, 0 <= j → bytes_of s (Z.succ j) =
    default 0 (s 0) :: bytes_of (λ i, s (i + 1)) j).
  { intros j Hj. unfold bytes_of. rewrite seqZ_cons by lia. rewrite fmap_cons. f_equal.
    change (Z.succ 0) with (1 + 0). rewrite Z.pred_succ, <- (fmap_add_seqZ 1), <- list_fmap_compose.
    apply list_fmap_ext. intros ? i _. cbn. by rewrite Z.add_comm. }
  rewrite Hcons by done. destruct (decide (n = 0)) as [->|].
  - rewrite Hn. cbn. by replace (Z.min 0 (Z.succ k)) with 0 by lia.
  - destruct (Hs 0 ltac:(lia)) as (c & Ec & Hc).
    replace (Z.min n (Z.succ k)) with (Z.succ (Z.min (n - 1) k)) by lia.
    rewrite Hcons by lia. rewrite Ec. cbn.
    rewrite (proj2 (Z.eqb_neq c 0) Hc). f_equal. apply IH; [lia| |].
    + by replace (n - 1 + 1) with n by lia.
    + intros i Hi. apply Hs. lia.
Qed.

Lemma bytes_of_eq s1 s2 n1 n2 : 0 <= n1 → 0 <= n2 →
  bytes_of s1 n1 = bytes_of s2 n2 ↔
  n1 = n2 ∧ ∀ i, 0 <= i < n1 → default 0 (s1 i) = default 0 (s2 i).
Proof.
  intros H1 H2. split.
  - intros E. assert (n1 = n2) as <-.
    { rewrite <- (length_bytes_of s1 n1), <- (length_bytes_of s2 n2) by done. by rewrite E. }
    split; [done|]. intros i Hi. apply (f_equal (λ l, zget l i)) in E.
    rewrite !zget_bytes_of in E by done. by injection E.
  - intros [<- H]. unfold bytes_of. apply list_fmap_ext. intros k i Hi.
    apply list_elem_of_lookup_2, elem_of_seqZ in Hi. apply H. lia.
Qed.

Section directory.
Context (m : mem) (f : fs) (Hi : image_ok m f) (Hd : dir_ok m f).

Lemma entry_inside i : 0 <= i < num_dentries f →
  fs_addr f + 64 <= entry_at f i ∧ entry_at f i + 64 <= fs_addr f + BLOCKSIZE.
Proof.
  intros H. destruct (image_layout m f Hi) as (_ & E & _). destruct Hd as [Hc _].
  unfold entry_at, ENTRY_OFFSET, BLOCKSIZE. lia.
Qed.

Lemma boot_inside : fs_addr f + BLOCKSIZE <= image_end f.
Proof.
  destruct (image_counts m f Hi) as ([? ?] & [? ?] & _). unfold image_end, BLOCKSIZE. lia.
Qed.

(** Every entry is NUL-terminated within its name and type fields. *)
Lemma entry_cstr i : 0 <= i < num_dentries f →
  ∃ n, n <= 35 ∧ is_cstr (mview m (entry_at f i)) n ∧
    entry_name m f i = bytes_of (mview m (entry_at f i)) (Z.min n 32).
Proof.
  intros H. destruct (cstr_exists (mview m (entry_at f i)) 35) as (n & Hn & Hc); [lia| |done|].
  - pose proof (dir_types m f Hd i H) as Ht. unfold load32, F_TYPE_OFFSET in Ht.
    pose proof (im_bytes m f Hi) as Hb. unfold mview. f_equal.
    pose proof (Hb (entry_at f i + 32)) as [? ?]. pose proof (Hb (entry_at f i + 32 + 1)) as [? ?].
    pose proof (Hb (entry_at f i + 32 + 2)) as [? ?]. pose proof (Hb (entry_at f i + 32 + 3)) as [? ?].
    replace (entry_at f i + 35) with (entry_at f i + 32 + 3) by lia. lia.
  - exists n. split_and!; [done|done|]. unfold entry_name. by apply cut0_cstr.
Qed.

Section by_name.
Context (fname : str) (len : Z) (Hf : is_cstr fname len) (Hr : readable fname len).
Context (Hlen : len <= F_TYPE_OFFSET).

Lemma dentry_match_spec i : 0 <= i < num_dentries f →
  dentry_match m fname len (entry_at f i) = Done (bool_decide (bytes_of fname len = entry_name m f i)).
Proof.
  intros H. destruct (entry_cstr i H) as (n & Hn & Hc & ->). unfold F_TYPE_OFFSET in Hlen.
  pose proof Hf as (Hl0 & Hl1 & Hl2). pose proof Hc as (Hn0 & Hn1 & Hn2). unfold dentry_match.
  destruct (strncmp_spec fname (mview m (entry_at f i)) len) as (r & -> & Hr0); [lia|done| |].
  { intros j _. eexists. split; [done|]. apply Hi. }
  rewrite bind_Done, (strlen_spec (mview _ _) n) by (lia || done). rewrite bind_Done.
  assert (Hag : agree fname (mview m (entry_at f i)) len ↔
    ∀ j, 0 <= j < len → default 0 (fname j) = default 0 (mview m (entry_at f i) j)).
  { split.
    - intros Hag j Hj. rewrite (Hag j Hj); [done|]. intros k Hk E.
      destruct (Hl2 k ltac:(lia)) as (c & Ec & Hc0). congruence.
    - intros Hag j Hj _. specialize (Hag j Hj). destruct (Hl2 j Hj) as (c & Ec & _).
      rewrite Ec in *. cbn in Hag. by rewrite Hag. }
  assert (Eb : bytes_of fname len = bytes_of (mview m (entry_at f i)) (Z.min n 32) ↔
    r = 0 ∧ len = Z.min n 32) by (rewrite bytes_of_eq, Hr0, Hag by lia; tauto).
  rewrite (strlen_spec fname len Hf) by lia.
  rewrite (bool_decide_ext _ _ Eb). clear Eb Hag Hr0.
  destruct (Z.leb_spec 32 len), (Z.leb_spec 32 n); cbn [andb]; rewrite !bind_Done; f_equal;
    case_bool_decide; zcase; done.
Qed.

(** The lookup returns the first entry of that name. *)
Definition lookup_result (dentry : dentry_t) (r : Z * dentry_t) : Prop :=
  (∃ i, 0 <= i < num_dentries f ∧ entry_name m f i = bytes_of fname len ∧
     (∀ j, 0 <= j < i → entry_name m f j ≠ bytes_of fname len) ∧
     r = (0, copy_dentry m (entry_at f i) dentry)) ∨
  (∀ i, 0 <= i < num_dentries f → entry_name m f i ≠ bytes_of fname len) ∧ r = (-1, dentry).

Lemma read_dentry_by_name_found dentry :
  ∃ r, read_dentry_by_name m f fname dentry = Done r ∧ lookup_result dentry r.
Proof.
  pose proof Hf as (? & _ & _). pose proof Hlen as Hl32. unfold F_TYPE_OFFSET in Hl32.
  unfold read_dentry_by_name. rewrite (strlen_spec fname len) by (lia || done).
  rewrite bind_Done. destruct (Z.ltb_spec F_TYPE_OFFSET len); [lia|].
  destruct (image_counts m f Hi) as ([? ?] & _ & [? ?]). pose proof (dir_count m f Hd).
  apply (orun_total _ (λ '(i, a), 0 <= i <= num_dentries f ∧ a = entry_at f i ∧
    ∀ j, 0 <= j < i → entry_name m f j ≠ bytes_of fname len) _ (λ '(i, _), num_dentries f - i)).
  2: split_and!; [lia|lia|unfold entry_at; lia|intros; lia].
  2: lia.
  intros [i a] (Hi' & -> & Hpre). destruct (Z.ltb_spec i (num_dentries f)) as [Hlt|]; cbn [negb].
  2: { eexists. split; [done|]. right. split; [|done]. intros j Hj. apply Hpre. lia. }
  rewrite dentry_match_spec by lia. case_bool_decide as E.
  - eexists. split; [done|]. left. exists i. split_and!; [lia|lia|done|done|done].
  - pose proof (entry_inside i ltac:(lia)). pose proof boot_inside. pose proof (im_high m f Hi).
    pose proof (im_low m f Hi). split_and!; [lia|lia| | |lia|lia].
    + rewrite u32_id by (unfold ENTRY_OFFSET, BLOCKSIZE in *; split; lia).
      unfold entry_at, ENTRY_OFFSET. lia.
    + intros j Hj. destruct (decide (j = i)) as [->|]; [done|]. apply Hpre. lia.
Qed.
End by_name.
End directory.

(** The entry copied into a [dentry_t] carries the type and inode of the image. *)
Lemma copy_dentry_byte m a d i : 0 <= i < 40 → zget (copy_dentry m a d) i = Some (m (a + i)).
Proof.
  intros H. unfold copy_dentry. pose proof (length_bytes_of (mview m a) D_ENT_COPY_SIZE ltac:(done)) as El.
  unfold D_ENT_COPY_SIZE in *. pose proof (zget_bytes_of (mview m a) 40 i H) as E.
  apply zget_Some in E as [? E]. apply zget_Some. split; [done|].
  rewrite lookup_app_l by lia. rewrite E. done.
Qed.

Lemma copy_dentry_fields m a d :
  f_type (copy_dentry m a d) = load32 m (a + 32) ∧ i_node (copy_dentry m a d) = load32 m (a + 36).
Proof.
  unfold f_type, i_node, load32. rewrite !copy_dentry_byte by lia. cbn [default].
  rewrite <- !Z.add_assoc. done.
Qed.

(** Lookup by index inside the directory. *)
Lemma read_dentry_by_index_in m f i d : image_ok m f → dir_ok m f → 0 <= i < num_dentries f →
  read_dentry_by_index m f i d = (0, copy_dentry m (entry_at f i) d).
Proof.
  intros Hi Hd H. destruct (entry_inside m f Hi Hd i H). pose proof (boot_inside m f Hi).
  pose proof (im_high m f Hi). pose proof (im_low m f Hi). pose proof (dir_count m f Hd).
  unfold read_dentry_by_index. destruct (Z.leb_spec (num_dentries f) i); [lia|].
  unfold entry_at, ENTRY_OFFSET, BLOCKSIZE in *. u32_simpl. do 2 f_equal. lia.
Qed.

(** [dir_ok] too survives changes outside the image. *)
Lemma entry_name_frame m m' f i : image_ok m f → dir_ok m f → 0 <= i < num_dentries f →
  (∀ a, fs_addr f <= a < image_end f → m' a = m a) → entry_name m' f i = entry_name m f i.
Proof.
  intros Hi Hd H Hs. destruct (entry_inside m f Hi Hd i H). pose proof (boot_inside m f Hi).
  unfold entry_name. f_equal. apply bytes_of_eq; [done|done|]. split; [done|].
  intros j Hj. unfold mview, F_TYPE_OFFSET in *. cbn. apply Hs. lia.
Qed.

Lemma dir_ok_frame m m' f : image_ok m f → dir_ok m f →
  (∀ a, fs_addr f <= a < image_end f → m' a = m a) → dir_ok m' f.
Proof.
  intros Hi Hd Hs. split; [apply Hd|]. intros i H.
  destruct (entry_inside m f Hi Hd i H). pose proof (boot_inside m f Hi).
  rewrite (image_frame_load m m' f Hs) by (unfold F_TYPE_OFFSET in *; lia). by apply Hd.
Qed.

(** * Reading the directory *)
Lemma clear_32 m buf a :
  for_range 0 F_TYPE_OFFSET (λ m i, store8 m (buf + i) 0) m a =
  if (buf <=? a) && (a <? buf + 32) then 0 else m a.
Proof.
  revert a. apply (for_range_ind (λ i mm, ∀ a, mm a = if (buf <=? a) && (a <? buf + i) then 0 else m a));
    [done|intros a; zcase; done|].
  intros i mm ? IH a. unfold store8, upd. change (u8 0) with 0. rewrite (IH a). zcase.
Qed.

(** The buffer after a call that read [name]: its first bytes, zero-padded. *)
Definition name_in (m m' : mem) (buf r : Z) (name : list Z) : Prop :=
  only_in buf (buf + 32) m m' ∧
  ∀ i, 0 <= i < 32 → m' (buf + i) = if i <? r then default 0 (zget name i) else 0.

Lemma dir_read_entry m f d buf nbytes : image_ok m f → dir_ok m f →
  0 <= dir_location f < num_dentries f → 0 <= nbytes <= 32 →
  ∃ m', let name := entry_name m f (dir_location f) in
    let r := Z.min nbytes (Z.of_nat (length name)) in
    dir_read m f d buf nbytes = Done (r, m', with_dir_location (dir_location f + 1) f) ∧
    name_in m m' buf r name.
Proof.
  intros Hi Hd Hl Hn. set (k := dir_location f) in *.
  destruct (entry_cstr m f Hi Hd k Hl) as (n & Hn35 & Hc & Ename). pose proof Hc as (Hn0 & Hz & Hnz).
  assert (Elen : Z.of_nat (length (entry_name m f k)) = Z.min n 32)
    by (rewrite Ename; apply length_bytes_of; lia).
  set (r := Z.min nbytes (Z.of_nat (length (entry_name m f k)))).
  set (bs := bytes_of (lview (copy_dentry m (entry_at f k) d)) r).
  assert (Hview : ∀ i, 0 <= i < 40 → lview (copy_dentry m (entry_at f k) d) i = mview m (entry_at f k) i)
    by (intros; by apply copy_dentry_byte).
  exists (blit (for_range 0 F_TYPE_OFFSET (λ m i, store8 m (buf + i) 0) m) buf bs).
  cbv zeta. fold r. unfold dir_read. fold k. rewrite read_dentry_by_index_in by done. rewrite Z.eqb_refl.
  pose proof (dir_count m f Hd). rewrite (strlen_spec _ n); [|split_and!|lia].
  2: done. 2: by rewrite Hview by lia. 2: intros; rewrite Hview by lia; by apply Hnz.
  rewrite bind_Done, (u32_id nbytes) by (split; lia).
  replace (if nbytes <? n then nbytes else n) with r by (unfold r; zcase).
  rewrite (strncpy_spec _ r r); [|lia|lia| |right; split; [done|]].
  2: intros; rewrite Hview by lia; apply Hnz; lia.
  2: rewrite Hview by lia; by eexists.
  rewrite bind_Done, Z.sub_diag, app_nil_r, (u32_id (k + 1)), i32_small by (try split; lia).
  split; [done|]. assert (Eb : Z.of_nat (length bs) = r) by (apply length_bytes_of; lia). split.
  - intros a Ha. rewrite blit_out by lia. rewrite clear_32. zcase; done.
  - intros i Hi'. destruct (Z.ltb_spec i r).
    + unfold bs. erewrite blit_in; [|apply zget_bytes_of; lia]. rewrite Hview by lia.
      rewrite Ename, zget_bytes_of by lia. done.
    + rewrite blit_out by lia. rewrite clear_32. zcase.
Qed.

(** At the end the call returns 0 and rewinds. *)
Lemma dir_read_end m f d buf nbytes : num_dentries f <= dir_location f →
  dir_read m f d buf nbytes = Done (0, m, with_dir_location 0 f).
Proof. intros H. unfold dir_read, read_dentry_by_index. zcase. done. Qed.

Lemma image_ok_at m f l : image_ok m f → image_ok m (with_dir_location l f).
Proof. intros [H1 H2 H3 H4]. split; [done| |done|done]. rewrite H2 at 1. done. Qed.
Lemma dir_ok_at m f l : dir_ok m f → dir_ok m (with_dir_location l f).
Proof. intros [H1 H2]. by split. Qed.

(** The loop of the [ls] program: read names into [buf] [n] times, collecting
    what each call returned. *)
Fixpoint list_names (n : nat) (m : mem) (f : fs) (d : dentry_t) (buf : Z) : out (list (list Z) * mem * fs) :=
  match n with
  | O => Done ([], m, f)
  | S n =>
      '(r, m, f) ← dir_read m f d buf 32;
      '(names, m', f) ← list_names n m f d buf;
      Done (bytes_of (mview m buf) r :: names, m', f)
  end.

Lemma entry_name_bytes m f i : mem_ok m → Forall is_u8 (entry_name m f i).
Proof.
  intros H. unfold entry_name.
  assert (Hb : Forall is_u8 (bytes_of (mview m (entry_at f i)) F_TYPE_OFFSET))
    by (apply Forall_fmap, Forall_true; intros; apply H).
  induction Hb; cbn; [done|]. case_match; by constructor.
Qed.

Section listing.
Context (f0 : fs) (d : dentry_t) (buf : Z) (Hbuf : buf_ok f0 buf 32).

Lemma read_entry_step m l : let f := with_dir_location l f0 in
  image_ok m f → dir_ok m f → 0 <= l < num_dentries f0 →
  ∃ r m', dir_read m f d buf 32 = Done (r, m', with_dir_location (l + 1) f0) ∧
    image_ok m' f ∧ dir_ok m' f ∧ bytes_of (mview m' buf) r = entry_name m f l ∧
    only_in buf (buf + 32) m m' ∧
    ∀ i, 0 <= i < num_dentries f0 → entry_name m' f i = entry_name m f i.
Proof.
  intros f Hi Hd Hl. destruct (dir_read_entry m f d buf 32 Hi Hd Hl ltac:(lia)) as (m' & E & Ho & Hb).
  cbn [dir_location with_dir_location f] in E, Hb, Ho. change (dir_location f) with l in *.
  destruct (entry_cstr m f Hi Hd l Hl) as (n & Hn & (Hn0 & _) & Ename).
  assert (Elen : Z.of_nat (length (entry_name m f l)) = Z.min n 32)
    by (rewrite Ename; apply length_bytes_of; lia).
  replace (Z.min 32 (Z.of_nat (length (entry_name m f l)))) with (Z.min n 32) in * by lia.
  assert (Hsame : ∀ a, fs_addr f <= a < image_end f → m' a = m a).
  { intros a Ha. apply Ho. destruct Hbuf as [_ Hb']. unfold image_end, f in *. cbn in *. lia. }
  assert (Hok : mem_ok m').
  { intros a. destruct (decide (buf <= a < buf + 32)); [|rewrite Ho by lia; apply Hi].
    replace a with (buf + (a - buf)) by lia. rewrite Hb by lia. case_match; [|done].
    destruct (zget (entry_name m f l) (a - buf)) as [v|] eqn:Ev; [|done].
    apply zget_Some in Ev as [_ Ev]. cbn. revert Ev. apply Forall_lookup_1, entry_name_bytes, Hi. }
  exists (Z.min n 32), m'. split_and!.
  - done.
  - by apply (image_ok_frame m m' f Hi Hsame).
  - by apply (dir_ok_frame m m' f Hi Hd Hsame).
  - rewrite Ename. apply bytes_of_eq; [lia|lia|]. split; [done|]. intros i Hi'.
    unfold mview at 1. cbn. rewrite Hb by lia. destruct (Z.ltb_spec i (Z.min n 32)); [|lia].
    rewrite Ename, zget_bytes_of by lia. done.
  - done.
  - intros i Hi'. by apply entry_name_frame.
Qed.

Lemma list_names_from k : ∀ m l, let f := with_dir_location l f0 in
  image_ok m f → dir_ok m f → 0 <= l → l + Z.of_nat k = num_dentries f0 →
  ∃ m', list_names k m f d buf = Done (entry_name m f <$> seqZ l (Z.of_nat k), m',
      with_dir_location (num_dentries f0) f0) ∧
    only_in buf (buf + 32) m m'.
Proof.
  induction k as [|k IH]; intros m l f Hi Hd Hl Hk.
  - exists m. split; [|by apply only_in_refl]. unfold f. cbn.
    by replace (num_dentries f0) with l by lia.
  - destruct (read_entry_step m l Hi Hd ltac:(lia)) as (r & m1 & E1 & Hi1 & Hd1 & Eb & Ho1 & En).
    cbn [list_names]. unfold f at 1. rewrite E1, bind_Done.
    destruct (IH m1 (l + 1)) as (m2 & E2 & Ho2).
    { apply (image_ok_at _ _ (l + 1)) in Hi1. exact Hi1. }
    { apply (dir_ok_at _ _ (l + 1)) in Hd1. exact Hd1. }
    { lia. } { lia. }
    rewrite E2, bind_Done. exists m2. split; [|by eapply only_in_trans].
    rewrite (seqZ_cons l) by lia. rewrite fmap_cons, Eb.
    replace (Z.pred (Z.of_nat (S k))) with (Z.of_nat k) by lia. change (Z.succ l) with (l + 1).
    assert (Ees : entry_name m1 (with_dir_location (l + 1) f0) <$> seqZ (l + 1) (Z.of_nat k) =
      entry_name m f <$> seqZ (l + 1) (Z.of_nat k)).
    { apply list_fmap_ext. intros j x Hx.
      apply list_elem_of_lookup_2, elem_of_seqZ in Hx. apply (En x). lia. }
    by rewrite Ees.
Qed.
End listing.

(** * Findings *)

(** The inode check rejects the last inode of the image. *)
Lemma last_inode_rejected m f offset buf length : image_ok m f → 1 <= num_inodes f →
  read_data m f (num_inodes f - 1) offset buf length = Done (-1, m).
Proof.
  intros Hi H. destruct (image_counts m f Hi) as ([? ?] & _). unfold read_data.
  rewrite u32_id by (split; lia). by rewrite (proj2 (Z.leb_le _ _)).
Qed.

(** A [dir_read] that was asked for [nbytes] bytes clears the buffer up to 32. *)
Lemma dir_read_overruns m f d buf nbytes : image_ok m f → dir_ok m f →
  0 <= dir_location f < num_dentries f → 0 <= nbytes < 32 →
  ∃ r m' f', dir_read m f d buf nbytes = Done (r, m', f') ∧ r <= nbytes ∧
    ∀ i, nbytes <= i < 32 → m' (buf + i) = 0.
Proof.
  intros Hi Hd Hl Hn. destruct (dir_read_entry m f d buf nbytes Hi Hd Hl ltac:(lia)) as (m' & E & _ & Hb).
  do 3 eexists. split; [exact E|]. split; [lia|]. intros i Hi'. rewrite Hb by lia. zcase.
Qed.

(** * Theorems *)

(** A small image for the witnesses, in the page where the kernel runs: two directory entries,
    two inodes, two data blocks; inode 0 is a file of 5000 bytes in the data
    blocks 1 and 0 that starts like an executable with entry 0x8048000.  The
    cells are given by their offset in the image. *)
Definition image_base : Z := 0x700000.
Definition cells : list (Z * Z) :=
  [(0, 2); (4, 2); (8, 2); (64, 46); (96, 1); (128, 97); (129, 98); (160, 2);
   (4096, 136); (4097, 19); (4100, 1); (16384, 127); (16385, 69); (16386, 76); (16387, 70);
   (16408, 0); (16409, 128); (16410, 4); (16411, 8)].
Definition cell_image (cells : list (Z * Z)) : mem := λ a,
  match find (λ p, image_base + p.1 =? a) cells with
  | Some p => p.2
  | None => if a <? image_base + 12288 then 0 else a mod 251
  end.
Lemma cell_image_bytes cells : forallb (λ p, (0 <=? p.2) && (p.2 <? 256)) cells = true → mem_ok (cell_image cells).
Proof.
  intros Hf a. unfold cell_image. destruct (find _ cells) as [[b v]|] eqn:E; [|case_match; [done|]].
  - apply find_some in E as [E _]. rewrite forallb_forall in Hf. apply Hf in E. cbn in E |- *. unfold is_u8. lia.
  - pose proof (Z.mod_pos_bound a 251). unfold is_u8. lia.
Qed.

Definition img : mem := cell_image cells.
Definition img_fs : fs := filesystem_init img image_base.

Lemma img_ok : image_ok img img_fs.
Proof. split; [by apply cell_image_bytes|done|done|done]. Qed.
Lemma img_inode_ok : inode_ok img img_fs 0.
Proof.
  split; [by vm_compute|by vm_compute|]. intros k Hk. change (file_size img img_fs 0) with 5000.
  unfold BLOCKSIZE. intros ?. assert (k = 0 ∨ k = 1) as [-> | ->] by lia; by vm_compute.
Qed.
Lemma img_dir_ok : dir_ok img img_fs.
Proof.
  split; [by vm_compute|]. change (num_dentries img_fs) with 2.
  intros i Hi. assert (i = 0 ∨ i = 1) as [-> | ->] by lia; by vm_compute.
Qed.

(** C7. Reading a file.  For every well-formed image, every valid inode, every
    32-bit offset and length, and every buffer outside the image, [read_data]
    terminates and returns the number of bytes available, that is
    [min (size - offset) length], or 0 at or past the end of the file; the buffer then holds exactly
    those bytes of the file, gathered across block boundaries through the
    inode's block list; nothing else in memory changes, so the image, the
    inode and every byte of the file are as before. *)
Theorem read_data_correct (m : mem) (f : fs) (inode offset buf length : Z)
    (Hi : image_ok m f) (Hn : inode_ok m f inode) (Ho : is_u32 offset) (Hl : is_u32 length)
    (Hb : buf_ok f buf length) :
  let n := Z.max 0 (Z.min (file_size m f inode - offset) length) in
  ∃ m', read_data m f inode offset buf length = Done (n, m') ∧
    only_in buf (buf + n) m m' ∧
    (∀ i, 0 <= i < n → m' (buf + i) = file_byte m f inode (offset + i)) ∧
    image_ok m' f ∧ inode_ok m' f inode ∧
    (∀ i, 0 <= i < file_size m f inode → file_byte m' f inode i = file_byte m f inode i).
Proof.
  cbv zeta. destruct Hb as [Hl0 Hb], Ho as [Ho ?]. destruct (decide (offset < file_size m f inode)) as [Hlt|Hge].
  - rewrite Z.max_r by lia. set (n := Z.min _ _).
    destruct (read_data_reads m f inode offset buf length Hi Hn ltac:(done) Hl Hlt)
      as (m' & E & Hup); [split; lia|]. fold n in E, Hup. destruct Hup as [Hout Hby].
    assert (Hs : ∀ a, fs_addr f <= a < image_end f → m' a = m a) by (intros; apply Hout; lia).
    assert (Hok : mem_ok m').
    { intros a. destruct (decide (buf <= a < buf + n)); [|rewrite Hout by lia; apply Hi].
      replace a with (buf + (a - buf)) by lia. rewrite Hby by lia. apply Hi. }
    exists m'. split_and!; [done|done|done|by apply (image_ok_frame m)|by apply (inode_ok_frame m)|].
    intros. by apply (file_byte_frame m).
  - rewrite Z.max_l by lia. exists m.
    split_and!; [apply read_data_eof; done || lia|by apply only_in_refl|lia|done|done|done].
Qed.

Lemma read_data_correct_witness :
  ∃ m', read_data img img_fs 0 4090 0xC48000 5000 = Done (910, m') ∧
    m' (0xC48000 + 6) = (image_base + 12288) mod 251 ∧ m' (0xC48000 + 910) = (0xC48000 + 910) mod 251.
Proof.
  destruct (read_data_correct img img_fs 0 4090 0xC48000 5000 img_ok img_inode_ok) as (m' & E & Ho & Hb & _).
  - by split.
  - by split.
  - split; [done|right; by vm_compute].
  - assert (En : Z.max 0 (Z.min (file_size img img_fs 0 - 4090) 5000) = 910) by by vm_compute. rewrite En in E.
    exists m'. split; [exact E|]. split; [rewrite Hb; [by vm_compute|rewrite En; lia]|].
    rewrite Ho; [by vm_compute|right; by vm_compute].
Defined.

(** C8. Looking a file up.  For every well-formed directory and every
    NUL-terminated name, [read_dentry_by_name] terminates; a name longer than
    32 bytes is refused; otherwise it returns 0 and the entry (its type and
    inode number) of the first file whose name is exactly [fname], or -1 and
    an untouched [dentry] when no file has that name. *)
Theorem read_dentry_by_name_correct (m : mem) (f : fs) (fname : str) (len : Z) (dentry : dentry_t)
    (Hi : image_ok m f) (Hd : dir_ok m f) (Hf : is_cstr fname len) (Hr : readable fname len)
    (Hlen : len < 2 ^ 32) :
  if len <=? 32 then
    (∃ i d, read_dentry_by_name m f fname dentry = Done (0, d) ∧ 0 <= i < num_dentries f ∧
       entry_name m f i = bytes_of fname len ∧
       (∀ j, 0 <= j < i → entry_name m f j ≠ bytes_of fname len) ∧
       f_type d = load32 m (entry_at f i + 32) ∧ i_node d = load32 m (entry_at f i + 36)) ∨
    (read_dentry_by_name m f fname dentry = Done (-1, dentry) ∧
       ∀ i, 0 <= i < num_dentries f → entry_name m f i ≠ bytes_of fname len)
  else read_dentry_by_name m f fname dentry = Done (-1, dentry).
Proof.
  destruct (Z.leb_spec len 32) as [Hle|].
  - destruct (read_dentry_by_name_found m f Hi Hd fname len Hf Hr Hle dentry)
      as (r & E & [(i & ? & ? & ? & ->)|[? ->]]); [left|by right].
    exists i, (copy_dentry m (entry_at f i) dentry). destruct (copy_dentry_fields m (entry_at f i) dentry).
    split_and!; done || lia.
  - unfold read_dentry_by_name. rewrite (strlen_spec fname len Hf Hlen), bind_Done. unfold F_TYPE_OFFSET.
    destruct (Z.ltb_spec 32 len); [done|lia].
Qed.

Lemma read_dentry_by_name_correct_witness :
  ∃ d, read_dentry_by_name img img_fs (lview [97; 98; 0]) (replicate 64 0) = Done (0, d) ∧ f_type d = 2.
Proof.
  destruct (read_dentry_by_name_correct img img_fs (lview [97; 98; 0]) 2 (replicate 64 0) img_ok img_dir_ok)
    as [(i & d & E & Hi & En & _ & Ht & _)|[_ H]].
  - split_and!; [done|done|]. intros i Hi. assert (i = 0 ∨ i = 1) as [-> | ->] by lia; by eexists.
  - intros i Hi. assert (i = 0 ∨ i = 1) as [-> | ->] by lia; eexists; (split; [done|by vm_compute]).
  - done.
  - exists d. split; [exact E|]. rewrite Ht. change (num_dentries img_fs) with 2 in Hi.
    assert (i = 0 ∨ i = 1) as [-> | ->] by lia; [by vm_compute in En|reflexivity].
  - exfalso. apply (H 1); by vm_compute.
Defined.

(** Listing the directory.  Opening the directory and reading names
    with 32-byte requests yields, one per call, the name of every directory
    entry in order; the next call returns 0 and rewinds, so that a second
    listing starts over; only the 32 bytes of the caller's buffer change. *)
Theorem directory_listing (m : mem) (f : fs) (d : dentry_t) (buf : Z)
    (Hi : image_ok m f) (Hd : dir_ok m f) (Hb : buf_ok f buf 32) :
  ∃ m', list_names (Z.to_nat (num_dentries f)) m (dir_open f).2 d buf =
      Done (entry_name m f <$> seqZ 0 (num_dentries f), m', with_dir_location (num_dentries f) f) ∧
    only_in buf (buf + 32) m m' ∧
    dir_read m' (with_dir_location (num_dentries f) f) d buf 32 = Done (0, m', (dir_open f).2).
Proof.
  destruct (image_counts m f Hi) as (_ & _ & [Hn _]).
  destruct (list_names_from f d buf Hb (Z.to_nat (num_dentries f)) m 0) as (m' & E & Ho).
  - by apply image_ok_at.
  - by apply dir_ok_at.
  - lia.
  - lia.
  - rewrite Z2Nat.id in E by done. exists m'. split_and!; [exact E|done|].
    by apply dir_read_end.
Qed.

Lemma directory_listing_witness :
  ∃ m', list_names 2 img img_fs (replicate 64 0) 0xC48000 =
    Done ([[46]; [97; 98]], m', with_dir_location 2 img_fs).
Proof.
  destruct (directory_listing img img_fs (replicate 64 0) 0xC48000 img_ok img_dir_ok) as (m' & E & _).
  - split; [done|right; by vm_compute].
  - exists m'. exact E.
Defined.
