(* ===== verification/Paging.v ===== *)
(** Virtual memory, student-distrib/paging.c: the page directory, the page
    table of the first 4 MB and the page table of the user's video window,
    with the processor's page walk as the meaning of their entries. *)
From S2P Require Import Prelude.

Definition DIR_SIZE : Z := 1024.
Definition TABLE_SIZE : Z := 1024.
Definition VIDEO_OFFSET : Z := 0xB8000.
Definition KERNEL_OFFSET : Z := 0x400000.
Definition PRESENT_MASK : Z := 1.
Definition R_W_MASK : Z := 2.
Definition U_S_MASK : Z := 4.
Definition PS_MASK : Z := 0x80.
Definition FOUR_KB : Z := 4096.
Definition FOUR_MB : Z := 0x400000.
Definition EIGHT_MB : Z := 0x800000.
Definition _128_MB : Z := 0x8000000.
Definition FOUR_LB_PB_MASK : Z := 0xFFFFF000.
Definition PROGRAM_VIRTUAL : Z := 32.
Definition USER_VIDEO : Z := 0x8000000 + 0x800000 * 10.

(** A translation: the physical address and the user and write bits. *)
Record xlat : Type := Xlat { x_pa : Z; x_user : bool; x_write : bool }.

(** The three tables, the control registers, and the translations the
    processor has cached, by linear page number. *)
Record paging : Type := Paging {
  page_directory : list Z; page_table : list Z; page_table_vidmem : list Z;
  cr0 : Z; cr3 : Z; cr4 : Z; tlb : list (Z * xlat) }.

Definition set_pde (i v : Z) (p : paging) : paging :=
  Paging (<[Z.to_nat i := v]> (page_directory p)) (page_table p) (page_table_vidmem p)
    (cr0 p) (cr3 p) (cr4 p) (tlb p).
Definition set_pte (i v : Z) (p : paging) : paging :=
  Paging (page_directory p) (<[Z.to_nat i := v]> (page_table p)) (page_table_vidmem p)
    (cr0 p) (cr3 p) (cr4 p) (tlb p).
Definition set_vid_pte (i v : Z) (p : paging) : paging :=
  Paging (page_directory p) (page_table p) (<[Z.to_nat i := v]> (page_table_vidmem p))
    (cr0 p) (cr3 p) (cr4 p) (tlb p).
(** Loading cr3 drops the cached translations. *)
Definition load_cr3 (v : Z) (p : paging) : paging :=
  Paging (page_directory p) (page_table p) (page_table_vidmem p) (cr0 p) v (cr4 p) [].
Definition or_cr4 (v : Z) (p : paging) : paging :=
  Paging (page_directory p) (page_table p) (page_table_vidmem p) (cr0 p) (cr3 p) (Z.lor (cr4 p) v) (tlb p).
Definition or_cr0 (v : Z) (p : paging) : paging :=
  Paging (page_directory p) (page_table p) (page_table_vidmem p) (Z.lor (cr0 p) v) (cr3 p) (cr4 p) (tlb p).

Section paging.
(** The link-time addresses of the three arrays. *)
Context (dir_addr table_addr vidmem_addr : Z).

Definition flush_tlb (p : paging) : paging := load_cr3 (cr3 p) p.

Definition map_kernel (p : paging) : paging :=
  let ker_entrance := Z.lor 0 PRESENT_MASK in
  let ker_entrance := Z.lor ker_entrance PS_MASK in
  let ker_entrance := Z.lor ker_entrance (Z.land KERNEL_OFFSET FOUR_LB_PB_MASK) in
  set_pde 1 ker_entrance p.

Definition initialize_page_table (p : paging) : paging :=
  let init_entrance := Z.lor 0 PRESENT_MASK in
  set_pde 0 (Z.lor init_entrance (Z.land table_addr FOUR_LB_PB_MASK)) p.

(** Map the page at [offset] in the first page table. *)
Definition map_text_page (offset : Z) (p : paging) : paging :=
  set_pte (Z.shiftr offset 12) (Z.lor (Z.lor (Z.lor 0 PRESENT_MASK) offset) R_W_MASK) p.
Definition map_video (p : paging) : paging :=
  let p := map_text_page VIDEO_OFFSET p in
  let p := map_text_page (VIDEO_OFFSET + FOUR_KB) p in
  let p := map_text_page (VIDEO_OFFSET + 2 * FOUR_KB) p in
  let p := map_text_page (VIDEO_OFFSET + 3 * FOUR_KB) p in
  flush_tlb p.

(** The directory entry of the user's video window and its only page. *)
Definition map_window (target : Z) (p : paging) : paging :=
  let vid_entrance := Z.lor 0 PRESENT_MASK in
  let vid_entrance := Z.lor vid_entrance vidmem_addr in
  let vid_entrance := Z.lor vid_entrance R_W_MASK in
  let vid_entrance := Z.lor vid_entrance U_S_MASK in
  let p := set_pde (Z.shiftr USER_VIDEO 22) vid_entrance p in
  let vid_entrance := Z.lor (Z.lor (Z.lor (Z.lor 0 U_S_MASK) R_W_MASK) PRESENT_MASK) target in
  flush_tlb (set_vid_pte 0 vid_entrance p).
Definition map_user_video (p : paging) : paging := map_window VIDEO_OFFSET p.
Definition map_terminal_video (terminal_id : Z) (p : paging) : paging :=
  map_window (VIDEO_OFFSET + (terminal_id + 1) * FOUR_KB) p.
Definition map_user_video_to_buffer (current_terminal terminal_id : Z) (p : paging) : paging :=
  if terminal_id =? current_terminal then map_user_video p else map_terminal_video terminal_id p.

Definition map_program (pid : Z) (p : paging) : paging :=
  let program_entrance := Z.lor 0 PRESENT_MASK in
  let program_entrance := Z.lor program_entrance PS_MASK in
  let program_entrance := Z.lor program_entrance U_S_MASK in
  let program_entrance := Z.lor program_entrance R_W_MASK in
  let program_entrance := Z.lor program_entrance (u32 (pid * FOUR_MB + EIGHT_MB)) in
  flush_tlb (set_pde PROGRAM_VIRTUAL program_entrance p).

Definition init_page (p : paging) : paging :=
  let p := for_range 0 DIR_SIZE (λ p i, set_pde i (Z.lor 0 R_W_MASK) p) p in
  let '(p, _) := for_range 0 TABLE_SIZE (λ '(p, base_add) i,
      (set_pte i (Z.lor (Z.lor 0 R_W_MASK) base_add) p, u32 (base_add + FOUR_KB))) (p, 0) in
  let p := map_video (initialize_page_table (map_kernel p)) in
  or_cr0 0x80000001 (or_cr4 0x10 (load_cr3 dir_addr p)).

(** * The page walk

    The processor's two-level translation, with 4 MB pages when cr4.PSE is
    set. *)
Definition table_at (p : paging) (addr : Z) : option (list Z) :=
  if addr =? dir_addr then Some (page_directory p)
  else if addr =? table_addr then Some (page_table p)
  else if addr =? vidmem_addr then Some (page_table_vidmem p)
  else None.

Definition walk (p : paging) (la : Z) : option xlat :=
  dir ← table_at p (Z.land (cr3 p) FOUR_LB_PB_MASK);
  pde ← zget dir (la / 2 ^ 22);
  if negb (Z.testbit pde 0) then None else
  if Z.testbit pde 7 && Z.testbit (cr4 p) 4 then
    Some (Xlat (pde / 2 ^ 22 * 2 ^ 22 + la mod 2 ^ 22) (Z.testbit pde 2) (Z.testbit pde 1))
  else
    tab ← table_at p (Z.land pde FOUR_LB_PB_MASK);
    pte ← zget tab (la / 2 ^ 12 mod 2 ^ 10);
    if negb (Z.testbit pte 0) then None else
    Some (Xlat (pte / 2 ^ 12 * 2 ^ 12 + la mod 2 ^ 12)
            (Z.testbit pde 2 && Z.testbit pte 2) (Z.testbit pde 1 && Z.testbit pte 1)).

(** A memory access uses a cached translation if there is one, and may cache
    the one it walks for. *)
Definition cached (p : paging) (la : Z) : option xlat :=
  snd <$> find (λ e, e.1 =? la / FOUR_KB) (tlb p).
Definition translate (p : paging) (la : Z) : option xlat :=
  match cached p la with
  | Some x => Some (Xlat (x_pa x + la mod FOUR_KB) (x_user x) (x_write x))
  | None => walk p la
  end.
Definition touch (la : Z) (p : paging) : paging :=
  match cached p la, walk p (la / FOUR_KB * FOUR_KB) with
  | None, Some x =>
      Paging (page_directory p) (page_table p) (page_table_vidmem p) (cr0 p) (cr3 p) (cr4 p)
        ((la / FOUR_KB, x) :: tlb p)
  | _, _ => p
  end.
End paging.

(** * The address map the kernel means to build

    The page of the running program ([prog] is its pid, once one has been
    mapped) and the physical page shown in the video window. *)
Definition TEXT_PAGE : Z := 0xB8.

Definition address_map (prog win : option Z) (la : Z) : option xlat :=
  if la <? FOUR_MB then
    if (TEXT_PAGE <=? la / FOUR_KB) && (la / FOUR_KB <? TEXT_PAGE + 4)
    then Some (Xlat la false false) else None
  else if la <? EIGHT_MB then Some (Xlat la false false)
  else if la / FOUR_MB =? 32 then
    pid ← prog; Some (Xlat (EIGHT_MB + pid * FOUR_MB + la mod FOUR_MB) true true)
  else if la / FOUR_KB =? USER_VIDEO / FOUR_KB then
    w ← win; Some (Xlat (w * FOUR_KB + la mod FOUR_KB) true true)
  else None.

(** The operations of a run, memory accesses among them, and what each does
    to the map. *)
Inductive page_op : Type :=
| Touch (la : Z)
| MapProgram (pid : Z)
| MapUserVideo
| MapUserVideoToBuffer (current_terminal terminal_id : Z).

Definition op_ok (o : page_op) : Prop :=
  match o with
  | Touch la => is_u32 la
  | MapProgram pid => 0 <= pid < 6
  | MapUserVideo => True
  | MapUserVideoToBuffer c t => 0 <= c < 3 ∧ 0 <= t < 3
  end.

Definition map_op (o : page_op) (st : option Z * option Z) : option Z * option Z :=
  match o with
  | Touch _ => st
  | MapProgram pid => (Some pid, st.2)
  | MapUserVideo => (st.1, Some TEXT_PAGE)
  | MapUserVideoToBuffer c t => (st.1, Some (if t =? c then TEXT_PAGE else TEXT_PAGE + t + 1))
  end.

Section refinement.
Context (dir_addr table_addr vidmem_addr : Z).

(** The linker places the three arrays at distinct 4 KB boundaries. *)
Record linked : Prop := Linked {
  l_dir : 0 <= dir_addr < 2 ^ 32 ∧ dir_addr mod FOUR_KB = 0;
  l_table : 0 <= table_addr < 2 ^ 32 ∧ table_addr mod FOUR_KB = 0;
  l_vidmem : 0 <= vidmem_addr < 2 ^ 32 ∧ vidmem_addr mod FOUR_KB = 0;
  l_distinct : dir_addr ≠ table_addr ∧ dir_addr ≠ vidmem_addr ∧ table_addr ≠ vidmem_addr }.

(** At boot the arrays have their size and the window's table is zero. *)
Definition boot_state (p : paging) : Prop :=
  length (page_directory p) = 1024%nat ∧ length (page_table p) = 1024%nat ∧
  page_table_vidmem p = replicate 1024 0.

Definition run_op (p : paging) (o : page_op) : paging :=
  match o with
  | Touch la => touch dir_addr table_addr vidmem_addr la p
  | MapProgram pid => map_program pid p
  | MapUserVideo => map_user_video vidmem_addr p
  | MapUserVideoToBuffer c t => map_user_video_to_buffer vidmem_addr c t p
  end.

Definition pde_of (prog win : option Z) (i : Z) : Z :=
  if i =? 0 then 1 + table_addr
  else if i =? 1 then 0x400081
  else if i =? 32 then match prog with Some pid => 0x87 + 2 ^ 22 * (pid + 2) | None => 2 end
  else if i =? 52 then match win with Some _ => 7 + vidmem_addr | None => 2 end
  else 2.
Definition pte_of (i : Z) : Z :=
  (if (TEXT_PAGE <=? i) && (i <? TEXT_PAGE + 4) then 3 else 2) + 4096 * i.
Definition window_pte (win : option Z) (i : Z) : Z :=
  if i =? 0 then match win with Some w => 7 + 4096 * w | None => 0 end else 0.

(** A table holds the entries given by a function. *)
Definition holds (l : list Z) (f : Z → Z) : Prop :=
  length l = 1024%nat ∧ ∀ i, 0 <= i < 1024 → zget l i = Some (f i).

Lemma holds_insert l f i v g : holds l f → 0 <= i < 1024 →
  (∀ j, 0 <= j < 1024 → g j = if j =? i then v else f j) → holds (<[Z.to_nat i := v]> l) g.
Proof.
  intros [Hl H] Hi Hg. split; [by rewrite length_insert|]. intros j Hj. rewrite Hg by done.
  destruct (Z.eqb_spec j i) as [->|]; [apply zget_insert_eq; lia|].
  rewrite zget_insert_ne by lia. by apply H.
Qed.
Lemma holds_ext l f g : holds l f → (∀ j, 0 <= j < 1024 → g j = f j) → holds l g.
Proof. intros [Hl H] Hg. split; [done|]. intros j Hj. rewrite Hg by done. by apply H. Qed.

Record rep (p : paging) (st : option Z * option Z) : Prop := Rep {
  r_dir : holds (page_directory p) (pde_of st.1 st.2);
  r_table : holds (page_table p) pte_of;
  r_vid : holds (page_table_vidmem p) (window_pte st.2);
  r_cr3 : cr3 p = dir_addr;
  r_cr4 : Z.testbit (cr4 p) 4 = true;
  r_tlb : ∀ n x, (n, x) ∈ tlb p → 0 <= n < 2 ^ 20 ∧ address_map st.1 st.2 (n * FOUR_KB) = Some x }.

Context (Hlink : linked).

Lemma aligned_lor a x : 0 <= a < 4096 → x mod FOUR_KB = 0 → Z.lor a x = a + x.
Proof.
  intros Ha Hx. pose proof (Z.div_mod x FOUR_KB ltac:(done)) as E. rewrite Hx, Z.add_0_r in E.
  rewrite E. by apply (lor_add 12).
Qed.

Lemma map_program_rep p st pid : rep p st → 0 <= pid < 6 → rep (map_program pid p) (Some pid, st.2).
Proof.
  intros [H1 H2 H3 H4 H5 _] Hp. split; try done; cbn; [|by intros ?? ?%elem_of_nil].
  eapply holds_insert; [exact H1|done|]. intros j Hj. unfold pde_of. unfold FOUR_MB, EIGHT_MB.
  rewrite u32_id by (split; lia). replace (pid * 0x400000 + 0x800000) with (2 ^ 22 * (pid + 2)) by lia.
  change (Z.lor (Z.lor (Z.lor (Z.lor 0 PRESENT_MASK) PS_MASK) U_S_MASK) R_W_MASK) with 0x87.
  rewrite (lor_add 22) by lia. unfold PROGRAM_VIRTUAL. zcase; done.
Qed.

Lemma map_window_rep p st w : rep p st → 0 <= w < 2 ^ 20 →
  rep (map_window vidmem_addr (4096 * w) p) (st.1, Some w).
Proof.
  intros [H1 H2 H3 H4 H5 _] Hw. destruct Hlink as [_ _ [? Hv] _]. split; try done; cbn;
    [| |by intros ?? ?%elem_of_nil].
  - eapply holds_insert; [exact H1|done|]. intros j Hj. unfold pde_of.
    change (Z.shiftr USER_VIDEO 22) with 52. rewrite <- !Z.lor_assoc.
    rewrite (Z.lor_comm vidmem_addr), !Z.lor_assoc.
    change (Z.lor (Z.lor (Z.lor 0 PRESENT_MASK) R_W_MASK) U_S_MASK) with 7.
    rewrite aligned_lor by done. zcase; done.
  - eapply (holds_insert _ _ 0); [exact H3|done|]. intros j Hj. unfold window_pte.
    change (Z.lor (Z.lor (Z.lor 0 U_S_MASK) R_W_MASK) PRESENT_MASK) with 7.
    rewrite (lor_add 12) by lia. zcase; done.
Qed.

(** The two filling loops of [init_page]. *)
Lemma fill_dir p : length (page_directory p) = 1024%nat →
  let p' := for_range 0 DIR_SIZE (λ p i, set_pde i (Z.lor 0 R_W_MASK) p) p in
  holds (page_directory p') (λ _, 2) ∧ page_table p' = page_table p ∧
  page_table_vidmem p' = page_table_vidmem p.
Proof.
  intros Hl. cbv zeta.
  apply (for_range_ind (λ n q, (length (page_directory q) = 1024%nat ∧
    ∀ i, 0 <= i < n → zget (page_directory q) i = Some 2) ∧ page_table q = page_table p ∧
    page_table_vidmem q = page_table_vidmem p)); [done|split_and!; [done|lia|done|done]|].
  intros i q Hi ([Hlq Hq] & Ht & Hv). cbn. split_and!; [by rewrite length_insert| |done|done].
  intros j Hj. destruct (decide (j = i)) as [->|]; [apply zget_insert_eq; unfold DIR_SIZE in *; lia|].
  rewrite zget_insert_ne by lia. apply Hq. lia.
Qed.

Lemma fill_table p : length (page_table p) = 1024%nat →
  let r := for_range 0 TABLE_SIZE (λ '(p, base_add) i,
      (set_pte i (Z.lor (Z.lor 0 R_W_MASK) base_add) p, u32 (base_add + FOUR_KB))) (p, 0) in
  holds (page_table r.1) (λ i, 2 + 4096 * i) ∧ page_directory r.1 = page_directory p ∧
  page_table_vidmem r.1 = page_table_vidmem p.
Proof.
  intros Hl. cbv zeta.
  set (f := λ '(p, base_add) i, _). set (r := for_range 0 TABLE_SIZE f (p, 0)).
  cut (holds (page_table r.1) (λ i, 2 + 4096 * i) ∧ r.2 = 4096 * TABLE_SIZE ∧
    page_directory r.1 = page_directory p ∧ page_table_vidmem r.1 = page_table_vidmem p); [by intuition|].
  apply (for_range_ind (λ n r, (length (page_table r.1) = 1024%nat ∧
    ∀ i, 0 <= i < n → zget (page_table r.1) i = Some (2 + 4096 * i)) ∧ r.2 = 4096 * n ∧
    page_directory r.1 = page_directory p ∧ page_table_vidmem r.1 = page_table_vidmem p));
    [done|cbn; split_and!; [done|lia|done|done|done]|].
  clear r. subst f.
  intros i [q b] Hi ([Hlq Hq] & Hb & Ht & Hv). cbn in *. subst b. unfold TABLE_SIZE, FOUR_KB in *.
  change (Z.lor 0 R_W_MASK) with 2. rewrite (lor_add 12) by lia.
  split_and!; [by rewrite length_insert| |rewrite u32_id by (split; lia); lia|done|done].
  intros j Hj. destruct (decide (j = i)) as [->|]; [by rewrite zget_insert_eq by lia|].
  rewrite zget_insert_ne by lia. apply Hq. lia.
Qed.

Lemma map_text_page_table k f p : 0 <= k < 1024 → holds (page_table p) f →
  holds (page_table (map_text_page (4096 * k) p)) (λ j, if j =? k then 3 + 4096 * k else f j).
Proof.
  intros Hk H. unfold map_text_page. cbn [page_table set_pte].
  rewrite Z.shiftr_div_pow2 by done. change (2 ^ 12) with 4096.
  rewrite (Z.mul_comm 4096 k), Z.div_mul, (Z.mul_comm k) by done.
  eapply holds_insert; [exact H|done|]. intros j Hj. cbv beta. destruct (Z.eqb_spec j k); [|done].
  rewrite Z.lor_comm, Z.lor_assoc. change (Z.lor R_W_MASK (Z.lor 0 PRESENT_MASK)) with 3.
  by rewrite (lor_add 12).
Qed.

Lemma map_video_table f p : holds (page_table p) f →
  holds (page_table (map_video p)) (λ j,
    if j =? 0xBB then 3 + 4096 * 0xBB else if j =? 0xBA then 3 + 4096 * 0xBA
    else if j =? 0xB9 then 3 + 4096 * 0xB9 else if j =? 0xB8 then 3 + 4096 * 0xB8 else f j).
Proof.
  intros H. unfold map_video, flush_tlb, load_cr3. cbn [page_table].
  apply (map_text_page_table 0xBB (λ j, if j =? 0xBA then _ else if j =? 0xB9 then _ else if j =? 0xB8 then _ else f j)); [done|].
  apply (map_text_page_table 0xBA (λ j, if j =? 0xB9 then _ else if j =? 0xB8 then _ else f j)); [done|].
  apply (map_text_page_table 0xB9 (λ j, if j =? 0xB8 then _ else f j)); [done|].
  by apply (map_text_page_table 0xB8 f).
Qed.

Lemma init_page_rep p : boot_state p → rep (init_page dir_addr table_addr p) (None, None).
Proof.
  intros (Hd & Ht & Hv). unfold init_page.
  destruct (fill_dir p Hd) as (Hd1 & Ht1 & Hv1). set (p1 := for_range 0 DIR_SIZE _ p) in *. clearbody p1.
  destruct (fill_table p1) as (Ht2 & Hd2 & Hv2); [by rewrite Ht1|].
  set (r := for_range 0 TABLE_SIZE _ _) in *. clearbody r. destruct r as [p2 b]. cbn [fst] in *.
  destruct Hlink as [_ [? Htab] _ _]. rewrite <- Hd2 in Hd1. rewrite Hv1 in Hv2.
  split; try done; cbn -[Z.testbit].
  - eapply (holds_insert _ _ 0); [eapply (holds_insert _ _ 1); [exact Hd1|done|reflexivity]|done|].
    intros j Hj. unfold pde_of. unfold FOUR_LB_PB_MASK.
    change 0xFFFFF000 with (Z.shiftl (Z.ones 20) 12). rewrite land_field by lia.
    rewrite (Z.mod_small (table_addr / 2 ^ 12)) by (split; [apply Z.div_pos|apply Z.div_lt_upper_bound]; lia).
    pose proof (Z.div_mod table_addr FOUR_KB ltac:(done)) as E. rewrite Htab, Z.add_0_r in E.
    change FOUR_KB with (2 ^ 12) in E. rewrite Z.mul_comm, <- E.
    rewrite aligned_lor by done. zcase; done.
  - eapply holds_ext; [apply map_video_table; exact Ht2|]. intros j Hj. unfold pte_of, TEXT_PAGE. zcase.
  - rewrite Hv2, Hv. split; [done|]. intros i Hi. unfold window_pte.
    apply zget_Some. split; [lia|]. rewrite lookup_replicate_2 by lia. by case_match.
  - match goal with |- context [Z.lor ?c 16] => change (Z.testbit (Z.lor c 16) 4 = true) end.
    by rewrite Z.lor_spec, orb_true_r.
  - by intros ?? ?%elem_of_nil.
Qed.

(** The states a run can reach. *)
Definition st_ok (st : option Z * option Z) : Prop :=
  (∀ pid, st.1 = Some pid → 0 <= pid < 6) ∧
  (∀ w, st.2 = Some w → TEXT_PAGE <= w < TEXT_PAGE + 4).

Lemma map_op_ok st o : op_ok o → st_ok st → st_ok (map_op o st).
Proof.
  intros Ho [H1 H2]. destruct o as [la|pid| |c t]; cbn in *; split; cbn; intros x E;
    try (by apply H1); try (by apply H2); injection E as <-; [done|unfold TEXT_PAGE; lia|].
  unfold TEXT_PAGE. case_match; lia.
Qed.
Lemma map_ops_ok ops : ∀ st, Forall op_ok ops → st_ok st → st_ok (foldl (flip map_op) st ops).
Proof.
  induction ops as [|o ops IH]; intros st Ho Hs; [done|].
  apply Forall_cons_1 in Ho as [? ?]. cbn. apply IH; [done|]. by apply map_op_ok.
Qed.

Lemma land_page x : 0 <= x < 2 ^ 32 → Z.land x FOUR_LB_PB_MASK = x / 2 ^ 12 * 2 ^ 12.
Proof.
  intros. unfold FOUR_LB_PB_MASK. change 0xFFFFF000 with (Z.shiftl (Z.ones 20) 12).
  rewrite land_field by lia. rewrite Z.mod_small; [done|].
  split; [apply Z.div_pos|apply Z.div_lt_upper_bound]; lia.
Qed.

Lemma aligned_page a x : 0 <= a < 4096 → 0 <= x < 2 ^ 32 → x mod FOUR_KB = 0 →
  Z.land (a + x) FOUR_LB_PB_MASK = x ∧ ∀ i, 0 <= i < 12 → Z.testbit (a + x) i = Z.testbit a i.
Proof.
  intros Ha Hx Hm. pose proof (Z.div_mod x FOUR_KB ltac:(done)) as E. rewrite Hm, Z.add_0_r in E.
  unfold FOUR_KB in *. split.
  - rewrite land_page by lia. change (2 ^ 12) with 4096. rewrite E at 1.
    rewrite (Z.mul_comm 4096), Z.div_add, Z.div_small by lia. lia.
  - intros i Hi. rewrite E. by apply (testbit_add 12).
Qed.

Lemma dir_of p st : rep p st →
  table_at dir_addr table_addr vidmem_addr p (Z.land (cr3 p) FOUR_LB_PB_MASK) = Some (page_directory p).
Proof.
  intros H. rewrite (r_cr3 _ _ H). destruct Hlink as [[? Hd] _ _ _].
  destruct (aligned_page 0 dir_addr ltac:(lia) ltac:(lia) Hd) as [E _]. rewrite Z.add_0_l in E.
  rewrite E. unfold table_at. by rewrite Z.eqb_refl.
Qed.

(** A walk that ends in a 4 MB page. *)
Lemma walk_big p st la : rep p st → 0 <= la < 2 ^ 32 →
  let pde := pde_of st.1 st.2 (la / 2 ^ 22) in
  Z.testbit pde 0 = true → Z.testbit pde 7 = true →
  walk dir_addr table_addr vidmem_addr p la =
    Some (Xlat (pde / 2 ^ 22 * 2 ^ 22 + la mod 2 ^ 22) (Z.testbit pde 2) (Z.testbit pde 1)).
Proof.
  intros H Hla pde Hp Hps. unfold walk. rewrite (dir_of p st H). cbn [mbind option_bind].
  rewrite (proj2 (r_dir _ _ H)) by (split; [apply Z.div_pos|apply Z.div_lt_upper_bound]; lia).
  cbn [mbind option_bind]. fold pde. by rewrite Hp, Hps, (r_cr4 _ _ H).
Qed.

(** A walk through one of the two page tables. *)
Lemma walk_small p st la tab a l f : rep p st → 0 <= la < 2 ^ 32 →
  pde_of st.1 st.2 (la / 2 ^ 22) = a + tab → 0 <= a < 128 → Z.testbit a 0 = true →
  0 <= tab < 2 ^ 32 → tab mod FOUR_KB = 0 →
  table_at dir_addr table_addr vidmem_addr p tab = Some l → holds l f →
  let pte := f (la / 2 ^ 12 mod 2 ^ 10) in
  walk dir_addr table_addr vidmem_addr p la =
    if negb (Z.testbit pte 0) then None else
    Some (Xlat (pte / 2 ^ 12 * 2 ^ 12 + la mod 2 ^ 12)
            (Z.testbit a 2 && Z.testbit pte 2) (Z.testbit a 1 && Z.testbit pte 1)).
Proof.
  intros H Hla Hpde Ha Hp Htab Hal Hat Hf pte. unfold walk. rewrite (dir_of p st H).
  cbn [mbind option_bind].
  rewrite (proj2 (r_dir _ _ H)) by (split; [apply Z.div_pos|apply Z.div_lt_upper_bound]; lia).
  cbn [mbind option_bind]. rewrite Hpde.
  destruct (aligned_page a tab ltac:(lia) Htab Hal) as [Ep Eb]. rewrite !Eb, Hp by lia.
  assert (E7 : Z.testbit a 7 = false).
  { rewrite Z.testbit_false, Z.div_small by lia. done. }
  rewrite E7. cbn [negb andb]. rewrite Ep, Hat. cbn [mbind option_bind].
  rewrite (proj2 Hf) by by apply Z.mod_pos_bound. cbn [mbind option_bind]. by fold pte.
Qed.

Lemma walk_absent p st la : rep p st → 0 <= la < 2 ^ 32 →
  pde_of st.1 st.2 (la / 2 ^ 22) = 2 → walk dir_addr table_addr vidmem_addr p la = None.
Proof.
  intros H Hla Hpde. unfold walk. rewrite (dir_of p st H). cbn [mbind option_bind].
  rewrite (proj2 (r_dir _ _ H)) by (split; [apply Z.div_pos|apply Z.div_lt_upper_bound]; lia).
  cbn [mbind option_bind]. by rewrite Hpde.
Qed.

Lemma page_bits a k : 0 <= a < 4096 →
  (a + 4096 * k) / 2 ^ 12 = k ∧ ∀ i, 0 <= i < 12 → Z.testbit (a + 4096 * k) i = Z.testbit a i.
Proof.
  intros Ha. split; [|intros; by apply (testbit_add 12)].
  change (2 ^ 12) with 4096. rewrite (Z.mul_comm 4096), Z.div_add, Z.div_small by lia. lia.
Qed.

(** The walk is the address map. *)
Lemma walk_low p st la : rep p st → 0 <= la < FOUR_MB →
  walk dir_addr table_addr vidmem_addr p la = address_map st.1 st.2 la.
Proof.
  intros H Hla. unfold FOUR_MB in Hla. destruct Hlink as [_ [Ht1 Ht2] _ (D1 & D2 & D3)].
  assert (E0 : la / 2 ^ 22 = 0) by (apply Z.div_small; lia).
  rewrite (walk_small p st la table_addr 1 (page_table p) pte_of); try done; try lia.
  2: { unfold pde_of. rewrite E0. done. }
  2: { unfold table_at. zcase; done. } 2: apply H.
  change (2 ^ 12) with 4096. change (2 ^ 10) with 1024.
  rewrite (Z.mod_small (la / 4096)) by (split; [apply Z.div_pos|apply Z.div_lt_upper_bound]; lia).
  unfold address_map, pte_of, FOUR_MB, FOUR_KB. rewrite (proj2 (Z.ltb_lt la _)) by lia.
  set (k := la / 4096). pose proof (Z.div_mod la 4096 ltac:(done)) as Em. fold k in Em.
  destruct ((TEXT_PAGE <=? k) && (k <? TEXT_PAGE + 4)).
  - destruct (page_bits 3 k ltac:(lia)) as [Ed Eb]. change (2 ^ 12) with 4096 in Ed.
    rewrite !Eb, Ed by lia. replace (k * 4096 + la mod 4096) with la by lia. done.
  - destruct (page_bits 2 k ltac:(lia)) as [_ Eb]. by rewrite !Eb by lia.
Qed.

Lemma walk_window p st la : rep p st → st_ok st → 0 <= la < 2 ^ 32 → la / 2 ^ 22 = 52 →
  walk dir_addr table_addr vidmem_addr p la = address_map st.1 st.2 la.
Proof.
  intros H [_ Hw] Hla E52. destruct Hlink as [_ _ [Hv1 Hv2] (D1 & D2 & D3)].
  pose proof (Z.div_mod la (2 ^ 22) ltac:(done)) as Em. rewrite E52 in Em.
  pose proof (Z.mod_pos_bound la (2 ^ 22) ltac:(done)) as Hm.
  assert (Emap : address_map st.1 st.2 la = if la / 4096 =? USER_VIDEO / FOUR_KB then
    w ← st.2; Some (Xlat (w * FOUR_KB + la mod FOUR_KB) true true) else None).
  { unfold address_map, FOUR_MB, EIGHT_MB, FOUR_KB. change 0x400000 with (2 ^ 22). rewrite E52. zcase; done. }
  rewrite Emap. destruct st as [prog [w|]]; cbn [fst snd mbind option_bind] in *.
  2: { rewrite (walk_absent p (prog, None)); [by case_match|done|done|]. unfold pde_of. by rewrite E52. }
  rewrite (walk_small p (prog, Some w) la vidmem_addr 7 (page_table_vidmem p) (window_pte (Some w)));
    try done; try lia.
  2: { unfold pde_of. rewrite E52. done. }
  2: { unfold table_at. zcase; done. } 2: apply H.
  assert (Eq : (la / 2 ^ 12 mod 2 ^ 10 =? 0) = (la / 4096 =? USER_VIDEO / FOUR_KB)).
  { change (USER_VIDEO / FOUR_KB) with (52 * 1024). change (2 ^ 12) with 4096. change (2 ^ 10) with 1024.
    change (2 ^ 22) with (4096 * 1024) in E52. rewrite <- Z.div_div in E52 by lia.
    pose proof (Z.div_mod (la / 4096) 1024 ltac:(done)). zcase. }
  unfold window_pte. rewrite Eq. destruct (la / 4096 =? USER_VIDEO / FOUR_KB); [|done].
  destruct (page_bits 7 w ltac:(lia)) as [Ed Eb]. rewrite !Eb, Ed by lia. done.
Qed.

Lemma walk_program p st la : rep p st → st_ok st → 0 <= la < 2 ^ 32 → la / 2 ^ 22 = 32 →
  walk dir_addr table_addr vidmem_addr p la = address_map st.1 st.2 la.
Proof.
  intros H [Hp _] Hla E32.
  pose proof (Z.div_mod la (2 ^ 22) ltac:(done)) as Em. rewrite E32 in Em.
  pose proof (Z.mod_pos_bound la (2 ^ 22) ltac:(done)) as Hm.
  assert (Emap : address_map st.1 st.2 la =
    pid ← st.1; Some (Xlat (EIGHT_MB + pid * FOUR_MB + la mod FOUR_MB) true true)).
  { unfold address_map, EIGHT_MB, FOUR_MB. change 0x400000 with (2 ^ 22). rewrite E32. zcase; done. }
  rewrite Emap. destruct st as [[pid|] win]; cbn [fst snd mbind option_bind] in *.
  2: { apply (walk_absent p (None, win)); [done|done|]. unfold pde_of. by rewrite E32. }
  assert (Epde : pde_of (Some pid) win (la / 2 ^ 22) = 0x87 + 2 ^ 22 * (pid + 2))
    by (unfold pde_of; by rewrite E32).
  rewrite (walk_big p (Some pid, win)); [|done|done| |]; cbn [fst snd]; rewrite Epde.
  - rewrite !(testbit_add 22) by lia. rewrite (Z.mul_comm (2 ^ 22) (pid + 2)), Z.div_add by done.
    change (0x87 / 2 ^ 22) with 0. unfold EIGHT_MB, FOUR_MB. do 2 f_equal; try done. change 0x400000 with (2 ^ 22). lia.
  - by rewrite testbit_add by lia.
  - by rewrite testbit_add by lia.
Qed.

Lemma walk_is_map p st la : rep p st → st_ok st → 0 <= la < 2 ^ 32 →
  walk dir_addr table_addr vidmem_addr p la = address_map st.1 st.2 la.
Proof.
  intros H Hs Hla. set (d := la / 2 ^ 22).
  pose proof (Z.div_mod la (2 ^ 22) ltac:(done)) as Em. fold d in Em.
  pose proof (Z.mod_pos_bound la (2 ^ 22) ltac:(done)) as Hm.
  destruct (decide (d = 0)); [apply (walk_low p st); [done|unfold FOUR_MB; lia]|].
  destruct (decide (d = 32)); [by apply walk_program|].
  destruct (decide (d = 52)); [by apply walk_window|].
  assert (E : address_map st.1 st.2 la = if d =? 1 then Some (Xlat la false false) else None).
  { unfold address_map, FOUR_MB, EIGHT_MB. change 0x400000 with (2 ^ 22) at 2. fold d.
    destruct (Z.ltb_spec la 0x400000); [lia|]. destruct (Z.eqb_spec d 1); [zcase; done|].
    destruct (Z.ltb_spec la 0x800000); [lia|]. destruct (Z.eqb_spec d 32); [lia|].
    destruct (Z.eqb_spec (la / FOUR_KB) (USER_VIDEO / FOUR_KB)) as [Ew|]; [|done].
    exfalso. unfold d in *. change (2 ^ 22) with (4096 * 1024) in *.
    rewrite <- Z.div_div in * by lia. unfold FOUR_KB in Ew. rewrite Ew in *. done. }
  rewrite E. destruct (Z.eqb_spec d 1) as [E1|].
  - rewrite (walk_big p st); unfold pde_of; fold d; [|done|done| |]; rewrite E1; try done.
    do 2 f_equal. rewrite E1 in Em. change (2 ^ 22 + la mod 2 ^ 22 = la). lia.
  - apply (walk_absent p st); [done|done|]. unfold pde_of. fold d. zcase; done.
Qed.

(** Every address of a page translates alike. *)
Lemma address_map_page prog win la : 0 <= la →
  address_map prog win la =
  x ← address_map prog win (la / FOUR_KB * FOUR_KB);
  Some (Xlat (x_pa x + la mod FOUR_KB) (x_user x) (x_write x)).
Proof.
  intros Hla. pose proof (Z.div_mod la FOUR_KB ltac:(done)) as Em.
  pose proof (Z.mod_pos_bound la FOUR_KB ltac:(done)) as Hm.
  set (n := la / FOUR_KB) in *. set (r := la mod FOUR_KB) in *.
  assert (Hdiv : la / FOUR_MB = n * FOUR_KB / FOUR_MB).
  { change FOUR_MB with (FOUR_KB * 1024). rewrite <- !Z.div_div, Z.div_mul by done. done. }
  assert (Hmod : la mod FOUR_MB = (n * FOUR_KB) mod FOUR_MB + r).
  { pose proof (Z.div_mod la FOUR_MB ltac:(done)). pose proof (Z.div_mod (n * FOUR_KB) FOUR_MB ltac:(done)).
    rewrite <- Hdiv in *. lia. }
  unfold address_map. rewrite Z.div_mul, <- Hdiv, Z_mod_mult, Hmod by done. fold n. fold r.
  assert (E4 : (la <? FOUR_MB) = (n * FOUR_KB <? FOUR_MB)) by (unfold FOUR_MB, FOUR_KB in *; zcase).
  assert (E8 : (la <? EIGHT_MB) = (n * FOUR_KB <? EIGHT_MB)) by (unfold EIGHT_MB, FOUR_KB in *; zcase).
  rewrite <- E4, <- E8. clear E4 E8.
  repeat case_match; cbn; try done; try (do 2 f_equal; lia).
  - destruct prog; cbn; [do 2 f_equal; lia|done].
  - destruct win; cbn; [do 2 f_equal; lia|done].
Qed.

Lemma translate_is_map p st la : rep p st → st_ok st → 0 <= la < 2 ^ 32 →
  translate dir_addr table_addr vidmem_addr p la = address_map st.1 st.2 la.
Proof.
  intros H Hs Hla. unfold translate, cached.
  destruct (find _ (tlb p)) as [[n x]|] eqn:E; [|by apply walk_is_map].
  apply find_some in E as [Hin Hn]. cbn in *. apply Z.eqb_eq in Hn as ->.
  rewrite <- list_elem_of_In in Hin. destruct (r_tlb _ _ H _ _ Hin) as [_ Hx].
  rewrite address_map_page by lia. by rewrite Hx.
Qed.

Lemma touch_rep p st la : rep p st → st_ok st → is_u32 la →
  rep (touch dir_addr table_addr vidmem_addr la p) st.
Proof.
  intros H Hs Hla. unfold touch. destruct (cached p la); [done|].
  assert (Hn : 0 <= la / FOUR_KB < 2 ^ 20).
  { destruct Hla. split; [by apply Z.div_pos|apply Z.div_lt_upper_bound; [done|unfold FOUR_KB; lia]]. }
  rewrite (walk_is_map p st) by (done || unfold FOUR_KB in *; lia).
  destruct (address_map st.1 st.2 _) as [x|] eqn:E; [|done].
  destruct H as [H1 H2 H3 H4 H5 H6]. split; try done. intros n y [[= -> ->]|Hin]%elem_of_cons; [done|].
  by apply H6.
Qed.

Lemma run_op_rep p st o : rep p st → st_ok st → op_ok o → rep (run_op p o) (map_op o st).
Proof.
  intros H Hs Ho. destruct o as [la|pid| |c t]; cbn in Ho |- *.
  - by apply touch_rep.
  - by apply map_program_rep.
  - apply (map_window_rep p st TEXT_PAGE H). done.
  - unfold map_user_video_to_buffer, TEXT_PAGE. case_match.
    + apply (map_window_rep p st 0xB8 H). done.
    + unfold map_terminal_video. replace (VIDEO_OFFSET + (t + 1) * FOUR_KB) with (4096 * (0xB8 + t + 1))
        by (unfold VIDEO_OFFSET, FOUR_KB; lia).
      apply map_window_rep; [done|lia].
Qed.

Lemma run_ops_rep ops : ∀ p st, rep p st → st_ok st → Forall op_ok ops →
  rep (foldl run_op p ops) (foldl (flip map_op) st ops).
Proof.
  induction ops as [|o ops IH]; intros p st H Hs Ho; [done|].
  apply Forall_cons_1 in Ho as [? ?]. cbn. apply IH; [by apply run_op_rep|by apply map_op_ok|done].
Qed.

End refinement.

(** * Theorems *)
Section theorems.
Context (dir_addr table_addr vidmem_addr : Z) (p0 : paging) (ops : list page_op).

(** The tables after boot and a run of mapping operations. *)
Definition tables_after : paging :=
  foldl (run_op dir_addr table_addr vidmem_addr) (init_page dir_addr table_addr p0) ops.
Definition map_after : option Z * option Z := foldl (flip map_op) (None, None) ops.

Context (Hlink : linked dir_addr table_addr vidmem_addr) (Hboot : boot_state p0).
Context (Hops : Forall op_ok ops).

Lemma after_rep : rep dir_addr table_addr vidmem_addr tables_after map_after.
Proof. apply run_ops_rep; [done|by apply init_page_rep|by split|done]. Qed.
Lemma after_ok : st_ok map_after.
Proof. by apply map_ops_ok. Qed.
Lemma after_translate la : 0 <= la < 2 ^ 32 →
  translate dir_addr table_addr vidmem_addr tables_after la = address_map map_after.1 map_after.2 la.
Proof. apply translate_is_map; [done|apply after_rep|apply after_ok]. Qed.
End theorems.

Lemma address_map_user prog win la x : 0 <= la → st_ok (prog, win) →
  address_map prog win la = Some x → x_user x = true →
  (∃ pid, prog = Some pid ∧ _128_MB <= la < _128_MB + FOUR_MB ∧
     x_pa x = EIGHT_MB + pid * FOUR_MB + (la - _128_MB)) ∨
  (USER_VIDEO <= la < USER_VIDEO + FOUR_KB ∧
     VIDEO_OFFSET <= x_pa x < VIDEO_OFFSET + 4 * FOUR_KB).
Proof.
  intros Hla [_ Hw] E Hu. unfold address_map in E. revert E.
  destruct (Z.ltb_spec la FOUR_MB); [by case_match; intros [= <-]|].
  destruct (Z.ltb_spec la EIGHT_MB); [by intros [= <-]|].
  destruct (Z.eqb_spec (la / FOUR_MB) 32) as [Ed|].
  - destruct prog as [pid|]; [|done]. cbn. intros [= <-]. left. exists pid.
    pose proof (Z.div_mod la FOUR_MB ltac:(done)) as Em. rewrite Ed in Em.
    pose proof (Z.mod_pos_bound la FOUR_MB ltac:(done)). cbn [x_pa].
    unfold _128_MB, FOUR_MB, EIGHT_MB in *. split_and!; [done|lia|lia|lia].
  - destruct (Z.eqb_spec (la / FOUR_KB) (USER_VIDEO / FOUR_KB)) as [Ew|]; [|done].
    destruct win as [w|]; [|done]. cbn. intros [= <-]. right.
    pose proof (Z.div_mod la FOUR_KB ltac:(done)) as Em. rewrite Ew in Em.
    pose proof (Z.mod_pos_bound la FOUR_KB ltac:(done)). specialize (Hw w eq_refl). cbn [x_pa].
    change (USER_VIDEO / FOUR_KB) with (52 * 1024) in *. change USER_VIDEO with (52 * 1024 * 4096).
    unfold FOUR_KB, TEXT_PAGE, VIDEO_OFFSET in *. lia.
Qed.

(** Boot values for the witnesses. *)
Definition boot0 : paging :=
  Paging (replicate 1024 0) (replicate 1024 0) (replicate 1024 0) 0x11 0 0 [(0, Xlat 0 true true)].
Lemma boot0_ok : boot_state boot0.
Proof. unfold boot_state, boot0. cbn [page_directory page_table page_table_vidmem].
  by rewrite !length_replicate. Qed.
Lemma linked0 : linked 0x500000 0x501000 0x502000.
Proof. by split. Qed.

(** C10. The page tables implement the kernel's address map.  After
    [init_page] and any sequence of the mapping operations (with pids below 6
    and terminals below 3) interleaved with memory accesses, which may cache
    translations, the processor's walk of the tables and the translation it
    uses, from the cache or not, both are, for every 32-bit linear address, what the map says: 4-8 MB and the four text
    pages are the kernel's, identically mapped; 128-132 MB is the 4 MB page of
    the program mapped last; the page at 208 MB is the text page chosen last;
    everything else, page 0 included, faults.  So no operation leaves a stale translation behind. *)
Theorem paging_implements_map (dir_addr table_addr vidmem_addr : Z) (p0 : paging) (ops : list page_op)
    (Hlink : linked dir_addr table_addr vidmem_addr) (Hboot : boot_state p0) (Hops : Forall op_ok ops) :
  let p := tables_after dir_addr table_addr vidmem_addr p0 ops in
  ∀ la, is_u32 la →
    walk dir_addr table_addr vidmem_addr p la = address_map (map_after ops).1 (map_after ops).2 la ∧
    translate dir_addr table_addr vidmem_addr p la = address_map (map_after ops).1 (map_after ops).2 la.
Proof.
  intros p la Hla. split; [|by apply after_translate].
  apply walk_is_map; [done| |by apply after_ok|done]. by apply after_rep.
Qed.

Lemma paging_implements_map_witness :
  translate 0x500000 0x501000 0x502000
    (tables_after 0x500000 0x501000 0x502000 boot0 [MapProgram 1; Touch 0x8048000; MapProgram 3])
    0x8048123 = Some (Xlat 0x1448123 true true).
Proof.
  destruct (paging_implements_map 0x500000 0x501000 0x502000 boot0
    [MapProgram 1; Touch 0x8048000; MapProgram 3] linked0 boot0_ok) with (la := 0x8048123) as [_ H].
  - repeat constructor; cbn; lia.
  - by split.
  - rewrite H. reflexivity.
Defined.

(** C11. User isolation.  In every reachable state of the tables, an address
    that user code can access lies either in 128-132 MB, and is backed by the 4 MB
    page of the process mapped last, or in the video window, and is backed by
    one of the four text pages; so user code of one process can reach neither
    kernel memory nor the page of any other process. *)
Theorem user_isolation (dir_addr table_addr vidmem_addr : Z) (p0 : paging) (ops : list page_op)
    (Hlink : linked dir_addr table_addr vidmem_addr) (Hboot : boot_state p0) (Hops : Forall op_ok ops)
    (la : Z) (x : xlat) (Hla : is_u32 la)
    (Hx : translate dir_addr table_addr vidmem_addr
            (tables_after dir_addr table_addr vidmem_addr p0 ops) la = Some x)
    (Huser : x_user x = true) :
  ¬ (KERNEL_OFFSET <= x_pa x < KERNEL_OFFSET + FOUR_MB) ∧
  ((∃ pid, (map_after ops).1 = Some pid ∧ 0 <= pid < 6 ∧
      EIGHT_MB + pid * FOUR_MB <= x_pa x < EIGHT_MB + (pid + 1) * FOUR_MB ∧
      x_pa x - (EIGHT_MB + pid * FOUR_MB) = la - _128_MB) ∨
   VIDEO_OFFSET <= x_pa x < VIDEO_OFFSET + 4 * FOUR_KB).
Proof.
  rewrite after_translate in Hx by done.
  pose proof (after_ok ops Hops) as Hs. destruct (map_after ops) as [prog win].
  destruct (address_map_user prog win la x ltac:(apply Hla) Hs Hx Huser)
    as [(pid & -> & Hr & Hpa)|[Hr Hpa]].
  - destruct Hs as [Hp _]. specialize (Hp pid eq_refl).
    unfold KERNEL_OFFSET, FOUR_MB, EIGHT_MB, _128_MB in *. split; [lia|]. left. exists pid.
    split_and!; [done|lia|lia|lia|lia|lia].
  - unfold KERNEL_OFFSET, FOUR_MB, FOUR_KB, VIDEO_OFFSET in *. split; [lia|]. right. lia.
Qed.

Lemma user_isolation_witness :
  ∃ x, translate 0x500000 0x501000 0x502000
    (tables_after 0x500000 0x501000 0x502000 boot0 [MapProgram 3; MapUserVideo]) 0xD000010 = Some x ∧
    VIDEO_OFFSET <= x_pa x < VIDEO_OFFSET + 4 * FOUR_KB.
Proof.
  exists (Xlat 0xB8010 true true).
  assert (E : translate 0x500000 0x501000 0x502000
    (tables_after 0x500000 0x501000 0x502000 boot0 [MapProgram 3; MapUserVideo]) 0xD000010
    = Some (Xlat 0xB8010 true true)) by by vm_compute.
  split; [exact E|].
  destruct (user_isolation 0x500000 0x501000 0x502000 boot0 [MapProgram 3; MapUserVideo]
    linked0 boot0_ok ltac:(repeat constructor; cbn; lia) 0xD000010 _ ltac:(by split) E eq_refl)
    as [_ [(pid & E' & _ & [H1 H2] & _)|H]]; [|exact H].
  injection E' as <-. exfalso. cbn in H1. unfold EIGHT_MB, FOUR_MB in H1. lia.
Defined.
