(* ===== verification/Pic.v ===== *)
(** The interrupt controller driver, student-distrib/i8259.c, against a model
    of the two chips it programs. *)
From S2P Require Import Prelude.

Definition IRQ_NUMBER : Z := 15.
Definition MASTER_BOUND : Z := 8.
Definition MASTER_8259_PORT : Z := 0x20.
Definition SLAVE_8259_PORT : Z := 0xA0.
Definition MASTER_8259_DATA : Z := 0x21.
Definition SLAVE_8259_DATA : Z := 0xA1.
Definition ICW1 : Z := 0x11.
Definition ICW2_MASTER : Z := 0x20.
Definition ICW2_SLAVE : Z := 0x28.
Definition ICW3_MASTER : Z := 0x04.
Definition ICW3_SLAVE : Z := 0x02.
Definition ICW4 : Z := 0x01.
Definition EOI : Z := 0x60.

(** The driver's masks, and the trace of port writes (port, byte). *)
Record pic : Type := Pic { master_mask : Z; slave_mask : Z; pic_ports : list (Z * Z) }.

Definition pic_outb (data port : Z) (p : pic) : pic :=
  Pic (master_mask p) (slave_mask p) (pic_ports p ++ [(port, u8 data)]).
Definition set_master (v : Z) (p : pic) : pic := Pic (u8 v) (slave_mask p) (pic_ports p).
Definition set_slave (v : Z) (p : pic) : pic := Pic (master_mask p) (u8 v) (pic_ports p).

Definition i8259_init (p : pic) : pic :=
  let p := set_slave 0xFF (set_master 0xFF p) in
  let p := pic_outb (master_mask p) MASTER_8259_DATA p in
  let p := pic_outb (slave_mask p) SLAVE_8259_DATA p in
  let p := pic_outb ICW1 MASTER_8259_PORT p in
  let p := pic_outb ICW2_MASTER MASTER_8259_DATA p in
  let p := pic_outb ICW3_MASTER MASTER_8259_DATA p in
  let p := pic_outb ICW4 MASTER_8259_DATA p in
  let p := pic_outb ICW1 SLAVE_8259_PORT p in
  let p := pic_outb ICW2_SLAVE SLAVE_8259_DATA p in
  let p := pic_outb ICW3_SLAVE SLAVE_8259_DATA p in
  let p := pic_outb ICW4 SLAVE_8259_DATA p in
  let p := pic_outb (master_mask p) MASTER_8259_DATA p in
  pic_outb (slave_mask p) SLAVE_8259_DATA p.

Definition enable_irq (irq_num : Z) (p : pic) : pic :=
  if (irq_num <? 0) || (IRQ_NUMBER <? irq_num) then p else
  if irq_num <? MASTER_BOUND then
    let p := set_master (Z.land (master_mask p) (Z.lnot (Z.shiftl 1 irq_num))) p in
    pic_outb (master_mask p) MASTER_8259_DATA p
  else
    let p := set_slave (Z.land (slave_mask p) (Z.lnot (Z.shiftl 1 (irq_num - MASTER_BOUND)))) p in
    pic_outb (slave_mask p) SLAVE_8259_DATA p.

Definition disable_irq (irq_num : Z) (p : pic) : pic :=
  if (irq_num <? 0) || (IRQ_NUMBER <? irq_num) then p else
  if irq_num <? MASTER_BOUND then
    let p := set_master (Z.lor (master_mask p) (Z.shiftl 1 irq_num)) p in
    pic_outb (master_mask p) MASTER_8259_DATA p
  else
    let p := set_slave (Z.lor (slave_mask p) (Z.shiftl 1 (irq_num - MASTER_BOUND))) p in
    pic_outb (slave_mask p) SLAVE_8259_DATA p.

Definition send_eoi (irq_num : Z) (p : pic) : pic :=
  if (irq_num <? 0) || (IRQ_NUMBER <? irq_num) then p else
  if irq_num <? MASTER_BOUND then pic_outb (Z.lor EOI irq_num) MASTER_8259_PORT p
  else
    pic_outb (Z.lor EOI ICW3_SLAVE) MASTER_8259_PORT
      (pic_outb (Z.lor EOI (irq_num - MASTER_BOUND)) SLAVE_8259_PORT p).

(** * The chips

    An 8259A: its mask and in-service registers, its vector base, and the
    number of initialisation words it still expects on the data port. *)
Record chip : Type := Chip { imr : Z; isr : Z; vec_base : Z; icw : nat }.

(** Command port: bit 4 starts initialisation; 011 in the top bits ends the
    interrupt named by the low three. *)
Definition chip_command (v : Z) (c : chip) : chip :=
  if Z.testbit v 4 then Chip 0 0 (vec_base c) 3
  else if Z.shiftr v 5 =? 3 then Chip (imr c) (Z.clearbit (isr c) (Z.land v 7)) (vec_base c) (icw c)
  else c.
Definition chip_data (v : Z) (c : chip) : chip :=
  match icw c with
  | O => Chip v (isr c) (vec_base c) 0
  | 3%nat => Chip (imr c) (isr c) (Z.land v 0xF8) 2
  | S n => Chip (imr c) (isr c) (vec_base c) n
  end.
Definition chip_write (cmd data : Z) (c : chip) (w : Z * Z) : chip :=
  if w.1 =? cmd then chip_command w.2 c else if w.1 =? data then chip_data w.2 c else c.

(** The two chips after a trace of writes. *)
Definition master_chip (c : chip) (tr : list (Z * Z)) : chip :=
  foldl (chip_write MASTER_8259_PORT MASTER_8259_DATA) c tr.
Definition slave_chip (c : chip) (tr : list (Z * Z)) : chip :=
  foldl (chip_write SLAVE_8259_PORT SLAVE_8259_DATA) c tr.

(** The driver's view agrees with the hardware. *)
Record pic_sync (cm cs : chip) (p : pic) : Prop := PicSync {
  ps_master : master_chip cm (pic_ports p) = Chip (master_mask p) (isr (master_chip cm (pic_ports p))) 0x20 0;
  ps_slave : slave_chip cs (pic_ports p) = Chip (slave_mask p) (isr (slave_chip cs (pic_ports p))) 0x28 0;
  ps_bytes : is_u8 (master_mask p) ∧ is_u8 (slave_mask p) }.

(** IRQ [n] is masked. *)
Definition masked (p : pic) (n : Z) : bool :=
  if n <? 8 then Z.testbit (master_mask p) n else Z.testbit (slave_mask p) (n - 8).

Lemma master_snoc c tr w : master_chip c (tr ++ [w]) =
  chip_write MASTER_8259_PORT MASTER_8259_DATA (master_chip c tr) w.
Proof. unfold master_chip. by rewrite foldl_app. Qed.
Lemma slave_snoc c tr w : slave_chip c (tr ++ [w]) =
  chip_write SLAVE_8259_PORT SLAVE_8259_DATA (slave_chip c tr) w.
Proof. unfold slave_chip. by rewrite foldl_app. Qed.

Lemma testbit_u8 x i : 0 <= i < 8 → Z.testbit (u8 x) i = Z.testbit x i.
Proof. apply testbit_low. Qed.
Lemma testbit_shift1 k i : 0 <= k → Z.testbit (Z.shiftl 1 k) i = (k =? i).
Proof. intros. rewrite Z.shiftl_1_l. by apply Z.pow2_bits_eqb. Qed.

(** Setting or clearing one bit of a mask register. *)
Lemma clear_bit_spec m k i : 0 <= k → 0 <= i < 8 →
  Z.testbit (u8 (Z.land m (Z.lnot (Z.shiftl 1 k)))) i = if k =? i then false else Z.testbit m i.
Proof.
  intros Hk Hi. rewrite testbit_u8, Z.land_spec, Z.lnot_spec, testbit_shift1 by lia.
  destruct (k =? i); [apply andb_false_r|apply andb_true_r].
Qed.
Lemma set_bit_spec m k i : 0 <= k → 0 <= i < 8 →
  Z.testbit (u8 (Z.lor m (Z.shiftl 1 k))) i = if k =? i then true else Z.testbit m i.
Proof.
  intros Hk Hi. rewrite testbit_u8, Z.lor_spec, testbit_shift1 by lia.
  destruct (k =? i); [apply orb_true_r|apply orb_false_r].
Qed.

Section driver.
Context (cm cs : chip).

(** Rewriting one mask register keeps the chips in step. *)
Lemma set_master_sync v p : pic_sync cm cs p →
  let q := pic_outb (u8 v) MASTER_8259_DATA (set_master v p) in
  pic_sync cm cs q ∧ isr (master_chip cm (pic_ports q)) = isr (master_chip cm (pic_ports p)) ∧
  isr (slave_chip cs (pic_ports q)) = isr (slave_chip cs (pic_ports p)).
Proof.
  intros [Hm Hs [Bm Bs]]. cbn. rewrite master_snoc, slave_snoc.
  unfold chip_write. cbn [fst snd]. change (MASTER_8259_DATA =? MASTER_8259_PORT) with false.
  change (MASTER_8259_DATA =? MASTER_8259_DATA) with true.
  change (MASTER_8259_DATA =? SLAVE_8259_PORT) with false.
  change (MASTER_8259_DATA =? SLAVE_8259_DATA) with false. cbv iota.
  rewrite Hm. unfold chip_data. cbn. split; [|done].
  split; cbn; [|by rewrite slave_snoc|split; [apply u8_range|done]].
  rewrite master_snoc. unfold chip_write. cbn [fst snd].
  change (MASTER_8259_DATA =? MASTER_8259_PORT) with false.
  change (MASTER_8259_DATA =? MASTER_8259_DATA) with true. cbv iota.
  rewrite Hm. unfold chip_data. cbn. by rewrite !u8_u8.
Qed.

Lemma set_slave_sync v p : pic_sync cm cs p →
  let q := pic_outb (u8 v) SLAVE_8259_DATA (set_slave v p) in
  pic_sync cm cs q ∧ isr (master_chip cm (pic_ports q)) = isr (master_chip cm (pic_ports p)) ∧
  isr (slave_chip cs (pic_ports q)) = isr (slave_chip cs (pic_ports p)).
Proof.
  intros [Hm Hs [Bm Bs]]. cbn. rewrite master_snoc, slave_snoc.
  unfold chip_write. cbn [fst snd]. change (SLAVE_8259_DATA =? MASTER_8259_PORT) with false.
  change (SLAVE_8259_DATA =? MASTER_8259_DATA) with false.
  change (SLAVE_8259_DATA =? SLAVE_8259_PORT) with false.
  change (SLAVE_8259_DATA =? SLAVE_8259_DATA) with true. cbv iota.
  rewrite Hs. unfold chip_data. cbn. split; [|done].
  split; cbn; [by rewrite master_snoc| |split; [done|apply u8_range]].
  rewrite slave_snoc. unfold chip_write. cbn [fst snd].
  change (SLAVE_8259_DATA =? SLAVE_8259_PORT) with false.
  change (SLAVE_8259_DATA =? SLAVE_8259_DATA) with true. cbv iota.
  rewrite Hs. unfold chip_data. cbn. by rewrite !u8_u8.
Qed.

Lemma enable_irq_spec n p : pic_sync cm cs p → 0 <= n →
  pic_sync cm cs (enable_irq n p) ∧
  ∀ i, 0 <= i < 16 → masked (enable_irq n p) i = if n =? i then false else masked p i.
Proof.
  intros H Hn. unfold enable_irq, IRQ_NUMBER, MASTER_BOUND.
  rewrite (proj2 (Z.ltb_ge n 0)) by lia. cbn [orb]. destruct (Z.ltb_spec 15 n).
  { split; [done|]. intros i Hi. zcase. done. }
  destruct (Z.ltb_spec n 8).
  - split; [by apply set_master_sync|]. intros i Hi. unfold masked. cbn.
    destruct (Z.ltb_spec i 8); [apply clear_bit_spec; lia|]. zcase. done.
  - split; [by apply set_slave_sync|]. intros i Hi. unfold masked. cbn.
    destruct (Z.ltb_spec i 8); [zcase; done|]. rewrite clear_bit_spec by lia. zcase; done.
Qed.

Lemma disable_irq_spec n p : pic_sync cm cs p → 0 <= n →
  pic_sync cm cs (disable_irq n p) ∧
  ∀ i, 0 <= i < 16 → masked (disable_irq n p) i = if n =? i then true else masked p i.
Proof.
  intros H Hn. unfold disable_irq, IRQ_NUMBER, MASTER_BOUND.
  rewrite (proj2 (Z.ltb_ge n 0)) by lia. cbn [orb]. destruct (Z.ltb_spec 15 n).
  { split; [done|]. intros i Hi. zcase. done. }
  destruct (Z.ltb_spec n 8).
  - split; [by apply set_master_sync|]. intros i Hi. unfold masked. cbn.
    destruct (Z.ltb_spec i 8); [apply set_bit_spec; lia|]. zcase. done.
  - split; [by apply set_slave_sync|]. intros i Hi. unfold masked. cbn.
    destruct (Z.ltb_spec i 8); [zcase; done|]. rewrite set_bit_spec by lia. zcase; done.
Qed.

Lemma init_sync p : pic_sync cm cs (i8259_init p) ∧ ∀ i, 0 <= i < 16 → masked (i8259_init p) i = true.
Proof.
  split.
  - split; [| |by split]; unfold i8259_init; cbn [pic_ports pic_outb set_master set_slave master_mask slave_mask];
      rewrite ?master_snoc, ?slave_snoc; reflexivity.
  - intros i Hi. unfold masked. cbn. change (u8 255) with (Z.ones 8).
    destruct (Z.ltb_spec i 8); rewrite Z.ones_spec_low by lia; done.
Qed.
End driver.

(** * Theorems *)

(** A request to the driver. *)
Inductive pic_op : Type := Enable (n : Z) | Disable (n : Z).
Definition pic_run (p : pic) (o : pic_op) : pic :=
  match o with Enable n => enable_irq n p | Disable n => disable_irq n p end.
Definition pic_op_ok (o : pic_op) : Prop :=
  match o with Enable n | Disable n => is_u32 n end.

(** What the requests ask for: the last one naming a line decides. *)
Definition wanted (i : Z) (b : bool) (o : pic_op) : bool :=
  match o with
  | Enable n => if n =? i then false else b
  | Disable n => if n =? i then true else b
  end.

Lemma run_masks cm cs ops : ∀ q (b : Z → bool), Forall pic_op_ok ops → pic_sync cm cs q →
  (∀ i, 0 <= i < 16 → masked q i = b i) →
  pic_sync cm cs (foldl pic_run q ops) ∧
  ∀ i, 0 <= i < 16 → masked (foldl pic_run q ops) i = foldl (wanted i) (b i) ops.
Proof.
  induction ops as [|o ops IH]; intros q b Hops H Hb; [by split|].
  apply Forall_cons_1 in Hops as [Ho Hops]. cbn.
  assert (Hstep : pic_sync cm cs (pic_run q o) ∧
    ∀ i, 0 <= i < 16 → masked (pic_run q o) i = wanted i (b i) o).
  { destruct o as [n|n]; cbn in *.
    - destruct (enable_irq_spec cm cs n q H) as [? E]; [apply Ho|]. split; [done|].
      intros i Hi. by rewrite E, Hb.
    - destruct (disable_irq_spec cm cs n q H) as [? E]; [apply Ho|]. split; [done|].
      intros i Hi. by rewrite E, Hb. }
  destruct Hstep as [Hs E]. by apply (IH (pic_run q o) (λ i, wanted i (b i) o)).
Qed.

Lemma eoi_write cmd data c k : 0 <= k < 8 →
  chip_write cmd data c (cmd, u8 (Z.lor EOI k)) =
  Chip (imr c) (Z.clearbit (isr c) k) (vec_base c) (icw c).
Proof.
  intros Hk. assert (Hf : forallb (λ k, let v := u8 (Z.lor EOI k) in negb (Z.testbit v 4) &&
    (Z.shiftr v 5 =? 3) && (Z.land v 7 =? k)) (seqZ 0 8) = true) by by vm_compute.
  rewrite forallb_forall in Hf. specialize (Hf k).
  rewrite <- list_elem_of_In, elem_of_seqZ in Hf. specialize (Hf ltac:(lia)). cbv zeta in Hf.
  unfold chip_write, chip_command. cbn [fst snd]. rewrite Z.eqb_refl.
  destruct (Z.testbit _ 4); [done|]. destruct (Z.shiftr _ 5 =? 3); [|done].
  cbn [negb andb] in Hf. apply Z.eqb_eq in Hf. by rewrite Hf.
Qed.
Lemma other_write cmd data c port v : (port =? cmd) = false → (port =? data) = false →
  chip_write cmd data c (port, v) = c.
Proof. intros H1 H2. unfold chip_write. cbn [fst snd]. by rewrite H1, H2. Qed.

(** Ending an interrupt clears the in-service bit of its line, and for a line
    of the slave also that of the cascade line 2 of the master. *)
Lemma send_eoi_spec cm cs p n : pic_sync cm cs p → 0 <= n <= 15 →
  let q := send_eoi n p in
  pic_sync cm cs q ∧
  isr (master_chip cm (pic_ports q)) =
    Z.clearbit (isr (master_chip cm (pic_ports p))) (if n <? 8 then n else 2) ∧
  isr (slave_chip cs (pic_ports q)) =
    (if n <? 8 then isr (slave_chip cs (pic_ports p))
     else Z.clearbit (isr (slave_chip cs (pic_ports p))) (n - 8)).
Proof.
  intros [H1 H2 H3] Hn. cbv zeta. unfold send_eoi, IRQ_NUMBER, MASTER_BOUND.
  rewrite (proj2 (Z.ltb_ge n 0)), (proj2 (Z.ltb_ge 15 n)) by lia. cbn [orb].
  set (m := master_chip cm (pic_ports p)) in *. set (s := slave_chip cs (pic_ports p)) in *.
  destruct (Z.ltb_spec n 8).
  - assert (Em : master_chip cm (pic_ports (pic_outb (Z.lor EOI n) MASTER_8259_PORT p)) =
      Chip (imr m) (Z.clearbit (isr m) n) (vec_base m) (icw m))
      by (cbn [pic_ports pic_outb]; rewrite master_snoc; apply eoi_write; lia).
    assert (Es : slave_chip cs (pic_ports (pic_outb (Z.lor EOI n) MASTER_8259_PORT p)) = s)
      by (cbn [pic_ports pic_outb]; rewrite slave_snoc; by apply other_write).
    rewrite Em, Es. split_and!; [|done|done]. split; [rewrite Em, H1|rewrite Es, H2|]; done.
  - set (q := pic_outb _ MASTER_8259_PORT _).
    assert (Em : master_chip cm (pic_ports q) =
      Chip (imr m) (Z.clearbit (isr m) 2) (vec_base m) (icw m)).
    { cbn [q pic_ports pic_outb]. rewrite !master_snoc, eoi_write by done.
      by rewrite !other_write by done. }
    assert (Es : slave_chip cs (pic_ports q) =
      Chip (imr s) (Z.clearbit (isr s) (n - 8)) (vec_base s) (icw s)).
    { cbn [q pic_ports pic_outb]. rewrite !slave_snoc, other_write by done.
      apply eoi_write. unfold MASTER_BOUND. lia. }
    rewrite Em, Es. split_and!; [|done|done]. split; [rewrite Em, H1|rewrite Es, H2|]; done.
Qed.

(** C12. The interrupt masks.  Whatever the state of the two chips before,
    after [i8259_init] and any sequence of [enable_irq] and [disable_irq]
    requests (out-of-range ones are ignored) the mask registers of the
    hardware are the driver's masks, each line is masked exactly when the
    last request for it, if any, did not enable it, and the chips deliver IRQ
    0-7 at vectors 0x20-0x27 and IRQ 8-15 at 0x28-0x2F. *)
Theorem irq_masks_correct (cm cs : chip) (p : pic) (ops : list pic_op) (Hops : Forall pic_op_ok ops) :
  let q := foldl pic_run (i8259_init p) ops in
  let m := master_chip cm (pic_ports q) in
  let s := slave_chip cs (pic_ports q) in
  imr m = master_mask q ∧ imr s = slave_mask q ∧
  vec_base m = 0x20 ∧ vec_base s = 0x28 ∧
  ∀ i, 0 <= i < 16 →
    (if i <? 8 then Z.testbit (imr m) i else Z.testbit (imr s) (i - 8)) = foldl (wanted i) true ops.
Proof.
  destruct (init_sync cm cs p) as [H Hb].
  destruct (run_masks cm cs ops _ (λ _, true) Hops H Hb) as [[Hm Hs _] Hw].
  cbv zeta. rewrite Hm, Hs. cbn. split_and!; [done..|exact Hw].
Qed.

Lemma irq_masks_correct_witness :
  imr (slave_chip (Chip 0 0 0 0) (pic_ports (foldl pic_run (i8259_init (Pic 0 0 []))
    [Enable 2; Enable 8; Enable 12; Disable 12]))) = 0xFE.
Proof.
  destruct (irq_masks_correct (Chip 0 0 0 0) (Chip 0 0 0 0) (Pic 0 0 [])
    [Enable 2; Enable 8; Enable 12; Disable 12]) as (_ & E & _).
  - repeat constructor; cbn; lia.
  - exact E.
Defined.
