(* ===== verification/Rtc.v ===== *)
(** The virtualised real-time clock, student-distrib/rtc.c: every terminal has
    its own frequency, served from one hardware interrupt at 1024 Hz. *)
From S2P Require Import Prelude Memory Pic.

Definition RTC_IRQ : Z := 8.
Definition RTC_PORT : Z := 0x70.
Definition CMOS_PORT : Z := 0x71.
Definition RTC_REG_B : Z := 0x8B.
Definition RTC_REG_C : Z := 0x8C.
Definition SIXTH_BIT : Z := 0x40.
Definition MAX_TERMINALS : Z := 3.

(** The three tables, indexed by terminal. *)
Record rtc : Type := Rtc { itr_occur_table : list Z; counter_table : list Z; constant_arr : list Z }.
Definition rtc0 : rtc := Rtc [0; 0; 0] [0; 0; 0] [1024; 1024; 1024].

Definition with_occur (l : list Z) (s : rtc) : rtc := Rtc l (counter_table s) (constant_arr s).
Definition with_counter (l : list Z) (s : rtc) : rtc := Rtc (itr_occur_table s) l (constant_arr s).
Definition with_constant (l : list Z) (s : rtc) : rtc := Rtc (itr_occur_table s) (counter_table s) l.

(** [b] is the byte read back from control register B. *)
Definition rtc_init (b : Z) (p : pic) : pic :=
  let p := pic_outb RTC_REG_B RTC_PORT p in
  let p := pic_outb RTC_REG_B RTC_PORT p in
  enable_irq RTC_IRQ (pic_outb (Z.lor SIXTH_BIT b) CMOS_PORT p).

(** The halving loop: [true] when it reaches 1 without an odd intermediate. *)
Definition halve (freq : Z) : out bool :=
  orun (λ freq,
    if 1 <? freq then
      if negb (Z.rem freq 2 =? 0) then inr (Done false) else inl (Z.quot freq 2)
    else inr (Done true)) freq.

(** The result, the state, and the interrupt flag on return. *)
Definition rtc_set_freq (running_terminal freq : Z) (s : rtc) : out (Z * rtc * bool) :=
  let iflag := false in
  if (freq <? 0) || (1024 <? freq) || negb (Z.rem freq 2 =? 0) then Done (-1, s, iflag) else
  ok ← halve freq;
  if negb (ok : bool) then Done (-1, s, iflag) else
  if freq =? 0 then Undef else
  l ← must (zset (constant_arr s) running_terminal (Z.quot 1024 freq));
  Done (0, with_constant l s, true).

(** One terminal's share of the interrupt handler. *)
Definition tick_one (s : rtc) (i : Z) : out rtc :=
  c ← must (zget (counter_table s) i);
  k ← must (zget (constant_arr s) i);
  let c := i32 (c + 1) in
  if k <=? c then
    lc ← must (zset (counter_table s) i 0);
    lo ← must (zset (itr_occur_table s) i 1);
    Done (with_occur lo (with_counter lc s))
  else lc ← must (zset (counter_table s) i c); Done (with_counter lc s).

(** Returns with interrupts enabled. *)
Definition rtc_handler (p : pic) (s : rtc) : out (pic * rtc) :=
  let p := send_eoi RTC_IRQ p in
  s ← for_range 0 MAX_TERMINALS (λ o i, s ← o; tick_one s i) (Done s);
  Done (pic_outb RTC_REG_C RTC_PORT p, s).

(** The busy wait of [rtc_read]: [ticks k] handler runs happen between the
    [k]-th and the next test of the flag. *)
Fixpoint handler_runs (n : nat) (p : pic) (s : rtc) : out (pic * rtc) :=
  match n with
  | O => Done (p, s)
  | S n => '(p, s) ← rtc_handler p s; handler_runs n p s
  end.
Definition rtc_read (running_terminal : Z) (ticks : Z → nat) (p : pic) (s : rtc) : out (Z * pic * rtc) :=
  orun (λ '(k, p, s),
    match zget (itr_occur_table s) running_terminal with
    | None => inr Undef
    | Some flag =>
        if negb (flag =? 0) then
          inr (lo ← must (zset (itr_occur_table s) running_terminal 0); Done (0, p, with_occur lo s))
        else match handler_runs (ticks k) p s with
             | Done (p, s) => inl (k + 1, p, s)
             | Undef => inr Undef
             | Hang => inr Hang
             end
    end) (0, p, s).

(** [buf] is an address; 0 is NULL. *)
Definition rtc_write (running_terminal : Z) (m : mem) (buf nbytes : Z) (iflag : bool) (s : rtc)
    : out (Z * rtc * bool) :=
  if negb (nbytes =? 4) || (buf =? 0) then Done (-1, s, iflag)
  else rtc_set_freq running_terminal (i32 (load32 m buf)) s.

Definition rtc_open (running_terminal : Z) (s : rtc) : out (Z * rtc * bool) :=
  '(_, s, iflag) ← rtc_set_freq running_terminal 2 s; Done (0, s, iflag).
Definition rtc_close : Z := 0.

(** * Invariant

    The tables have three entries; each counter is below its period. *)
Record rtc_ok (s : rtc) : Prop := RtcOk {
  ro_occur : length (itr_occur_table s) = 3%nat;
  ro_counter : length (counter_table s) = 3%nat;
  ro_constant : length (constant_arr s) = 3%nat;
  ro_period : ∀ i k, zget (constant_arr s) i = Some k → 1 <= k <= 1024;
  ro_count : ∀ i c, zget (counter_table s) i = Some c → 0 <= c < 2 ^ 30 }.

Lemma zget_3 {A} (l : list A) i : length l = 3%nat → 0 <= i < 3 → ∃ x, zget l i = Some x.
Proof. intros Hl Hi. apply zget_is_Some. lia. Qed.

(** * Setting the frequency *)
Definition is_rate (freq : Z) : bool := existsb (λ k, freq =? 2 ^ k) (seqZ 1 10).

Definition halve_agrees (f : Z) : bool :=
  negb (Z.rem f 2 =? 0) || (f =? 0) || bool_decide (halve f = Done (is_rate f)).

Lemma halve_all : forallb halve_agrees (seqZ 0 1025) = true.
Proof. by vm_compute. Qed.

Lemma halve_spec freq : 0 <= freq <= 1024 → Z.rem freq 2 = 0 → freq ≠ 0 →
  halve freq = Done (is_rate freq).
Proof.
  intros Hf Hr Hz. pose proof halve_all as H. rewrite forallb_forall in H. specialize (H freq).
  rewrite <- list_elem_of_In, elem_of_seqZ in H. specialize (H ltac:(lia)).
  unfold halve_agrees in H. rewrite !orb_true_iff in H. destruct H as [[H|H]|H].
  - by rewrite Hr in H.
  - by apply Z.eqb_eq in H.
  - by apply bool_decide_eq_true in H.
Qed.

Lemma is_rate_spec freq : is_rate freq = true → 1 <= Z.quot 1024 freq <= 512 ∧ 2 <= freq <= 1024 ∧
  Z.rem freq 2 = 0 ∧ Z.quot 1024 freq * freq = 1024.
Proof.
  intros H. unfold is_rate in H. apply existsb_exists in H as (k & Hk & E).
  apply Z.eqb_eq in E as ->. rewrite <- list_elem_of_In, elem_of_seqZ in Hk.
  assert (Hall : forallb (λ k, (1 <=? Z.quot 1024 (2 ^ k)) && (Z.quot 1024 (2 ^ k) <=? 512) && (2 <=? 2 ^ k)
    && (2 ^ k <=? 1024) && (Z.rem (2 ^ k) 2 =? 0) && (Z.quot 1024 (2 ^ k) * 2 ^ k =? 1024)) (seqZ 1 10) = true)
    by by vm_compute.
  rewrite forallb_forall in Hall. specialize (Hall k).
  rewrite <- list_elem_of_In, elem_of_seqZ in Hall. specialize (Hall ltac:(lia)). lia.
Qed.

(** * One tick *)

(** The counter and flag of a terminal of period [k] after a tick. *)
Definition tick_counter (k c : Z) : Z := if k <=? c + 1 then 0 else c + 1.
Definition tick_flag (k c fl : Z) : Z := if k <=? c + 1 then 1 else fl.

Lemma tick_one_spec s i k c fl : rtc_ok s → 0 <= i < 3 →
  zget (constant_arr s) i = Some k → zget (counter_table s) i = Some c →
  zget (itr_occur_table s) i = Some fl →
  ∃ s', tick_one s i = Done s' ∧ constant_arr s' = constant_arr s ∧
    counter_table s' = <[Z.to_nat i := tick_counter k c]> (counter_table s) ∧
    (itr_occur_table s' = <[Z.to_nat i := tick_flag k c fl]> (itr_occur_table s)).
Proof.
  intros H Hi Hk Hc Hf. pose proof (ro_count s H i c Hc). unfold tick_one. rewrite Hc, Hk.
  cbn [must mbind out_bind]. rewrite i32_small by lia. unfold tick_counter, tick_flag.
  rewrite !zset_in by (rewrite ?(ro_counter s H), ?(ro_occur s H); lia). cbn [must mbind out_bind].
  case_match; eexists; (split; [done|]); split_and!; try done.
  cbn. symmetry. apply list_insert_id. by apply zget_Some in Hf as [_ Hf].
Qed.

(** What a handler run does to every terminal. *)
Definition ticked (s s' : rtc) : Prop := ∀ i k c fl,
  zget (constant_arr s) i = Some k → zget (counter_table s) i = Some c →
  zget (itr_occur_table s) i = Some fl →
  zget (counter_table s') i = Some (tick_counter k c) ∧
  zget (itr_occur_table s') i = Some (tick_flag k c fl).

(** The terminals below [j] have been served. *)
Definition served (s : rtc) (j : Z) (s' : rtc) : Prop :=
  constant_arr s' = constant_arr s ∧ length (counter_table s') = 3%nat ∧
  length (itr_occur_table s') = 3%nat ∧
  ∀ i k c fl, zget (constant_arr s) i = Some k → zget (counter_table s) i = Some c →
    zget (itr_occur_table s) i = Some fl →
    zget (counter_table s') i = Some (if i <? j then tick_counter k c else c) ∧
    zget (itr_occur_table s') i = Some (if i <? j then tick_flag k c fl else fl).

Lemma zget_range {A} (l : list A) i x : length l = 3%nat → zget l i = Some x → 0 <= i < 3.
Proof. intros Hl [? H%lookup_lt_Some]%zget_Some. lia. Qed.

Lemma served_count s j s' : rtc_ok s → served s j s' →
  ∀ i c, zget (counter_table s') i = Some c → 0 <= c < 2 ^ 30.
Proof.
  intros H (Ek & Lc & Lo & Hs) i c' Hc'. pose proof (zget_range _ _ _ Lc Hc') as Hi.
  destruct (zget_3 (constant_arr s) i (ro_constant s H) Hi) as [k Hk].
  destruct (zget_3 (counter_table s) i (ro_counter s H) Hi) as [c Hc].
  destruct (zget_3 (itr_occur_table s) i (ro_occur s H) Hi) as [fl Hf].
  destruct (Hs i k c fl Hk Hc Hf) as [E _]. rewrite E in Hc'. injection Hc' as <-.
  pose proof (ro_count s H i c Hc). pose proof (ro_period s H i k Hk).
  unfold tick_counter. zcase.
Qed.

Lemma handler_step s j s' : rtc_ok s → 0 <= j < 3 → served s j s' →
  ∃ s'', tick_one s' j = Done s'' ∧ served s (j + 1) s''.
Proof.
  intros H Hj Hsv. pose proof (served_count s j s' H Hsv) as Hcnt.
  destruct Hsv as (Ek & Lc & Lo & Hs).
  destruct (zget_3 (constant_arr s) j (ro_constant s H) Hj) as [k Hk].
  destruct (zget_3 (counter_table s) j (ro_counter s H) Hj) as [c Hc].
  destruct (zget_3 (itr_occur_table s) j (ro_occur s H) Hj) as [fl Hf].
  destruct (Hs j k c fl Hk Hc Hf) as [E1 E2]. rewrite (proj2 (Z.ltb_ge j j)) in E1, E2 by lia.
  assert (Hok' : rtc_ok s').
  { split; [done|done|rewrite Ek; apply H|rewrite Ek; apply H|done]. }
  destruct (tick_one_spec s' j k c fl Hok' Hj) as (s'' & E & Ek' & Ec & Eo);
    [by rewrite Ek|done|done|].
  exists s''. split; [done|]. split_and!; [congruence|by rewrite Ec, length_insert|by rewrite Eo, length_insert|].
  intros i k' c' fl' Hk' Hc' Hf'. destruct (decide (i = j)) as [->|].
  - rewrite Ec, Eo, !zget_insert_eq by lia. rewrite (proj2 (Z.ltb_lt j (j + 1))) by lia. split; congruence.
  - rewrite Ec, Eo, !zget_insert_ne by lia. destruct (Hs i k' c' fl' Hk' Hc' Hf') as [-> ->].
    split; repeat case_match; done || lia.
Qed.

Lemma handler_spec p s : rtc_ok s →
  ∃ s', rtc_handler p s = Done (pic_outb RTC_REG_C RTC_PORT (send_eoi RTC_IRQ p), s') ∧
    rtc_ok s' ∧ constant_arr s' = constant_arr s ∧ ticked s s'.
Proof.
  intros H. unfold rtc_handler.
  assert (Hfold : ∃ s', for_range 0 MAX_TERMINALS (λ o i, s ← o; tick_one s i) (Done s) = Done s' ∧
    served s MAX_TERMINALS s').
  { apply (for_range_ind (λ j o, ∃ s', o = Done s' ∧ served s j s')); [done| |].
    - exists s. split; [done|]. split_and!; [done|apply H|apply H|]. intros i k c fl Hk Hc Hf.
      pose proof (zget_range _ _ _ (ro_counter s H) Hc). by rewrite (proj2 (Z.ltb_ge i 0)) by lia.
    - intros i o Hi (s' & -> & Hsv). by apply handler_step. }
  destruct Hfold as (s' & -> & Hsv). exists s'. cbn [mbind out_bind].
  pose proof (served_count s _ s' H Hsv). destruct Hsv as (Ek & Lc & Lo & Hs).
  split_and!; [done| |done|].
  - split; [done|done|rewrite Ek; apply H|rewrite Ek; apply H|done].
  - intros i k c fl Hk Hc Hf. pose proof (zget_range _ _ _ (ro_counter s H) Hc) as Hi.
    destruct (Hs i k c fl Hk Hc Hf) as [E1 E2].
    by rewrite (proj2 (Z.ltb_lt i MAX_TERMINALS)) in E1, E2 by (unfold MAX_TERMINALS; lia).
Qed.

(** [n] ticks of one terminal's clock, and how many of them completed a period. *)
Fixpoint clock (n : nat) (k c fl : Z) : Z * Z * Z :=
  match n with
  | O => (c, fl, 0)
  | S n => let '(c', fl', w) := clock n k (tick_counter k c) (tick_flag k c fl) in
           (c', fl', w + if k <=? c + 1 then 1 else 0)
  end.

Lemma clock_spec n : ∀ k c fl, 1 <= k → 0 <= c < k →
  clock n k c fl = ((c + Z.of_nat n) mod k, if k - c <=? Z.of_nat n then 1 else fl, (c + Z.of_nat n) / k).
Proof.
  induction n as [|n IH]; intros k c fl Hk Hc; cbn [clock].
  - rewrite Z.add_0_r, Z.mod_small, Z.div_small by lia.
    by rewrite (proj2 (Z.leb_gt (k - c) (Z.of_nat 0))) by lia.
  - unfold tick_counter, tick_flag. destruct (Z.leb_spec k (c + 1)).
    + rewrite IH by lia. replace (c + Z.of_nat (S n)) with (0 + Z.of_nat n + 1 * k) by lia.
      rewrite Z.mod_add, Z.div_add by lia. f_equal. f_equal. zcase; done.
    + rewrite IH by lia. replace (c + 1 + Z.of_nat n) with (c + Z.of_nat (S n)) by lia.
      f_equal; [f_equal; zcase; done|lia].
Qed.

(** [n] handler runs drive every terminal's clock independently. *)
Lemma handler_runs_spec n : ∀ p s, rtc_ok s →
  ∃ p' s', handler_runs n p s = Done (p', s') ∧ rtc_ok s' ∧ constant_arr s' = constant_arr s ∧
    ∀ i k c fl, zget (constant_arr s) i = Some k → zget (counter_table s) i = Some c →
      zget (itr_occur_table s) i = Some fl →
      zget (counter_table s') i = Some (clock n k c fl).1.1 ∧
      zget (itr_occur_table s') i = Some (clock n k c fl).1.2.
Proof.
  induction n as [|n IH]; intros p s H; cbn [handler_runs clock].
  - exists p, s. by split_and!.
  - destruct (handler_spec p s H) as (s1 & -> & H1 & Ek1 & Ht). rewrite bind_Done.
    destruct (IH (pic_outb RTC_REG_C RTC_PORT (send_eoi RTC_IRQ p)) s1 H1) as (p2 & s2 & -> & H2 & Ek2 & Hc2).
    exists p2, s2. split_and!; [done|done|congruence|]. intros i k c fl Hk Hc Hf.
    destruct (Ht i k c fl Hk Hc Hf) as [Ec Ef]. rewrite <- Ek1 in Hk.
    destruct (Hc2 i k _ _ Hk Ec Ef) as [-> ->].
    by destruct (clock n k (tick_counter k c) (tick_flag k c fl)) as [[? ?] ?].
Qed.

(** * Blocking reads *)
Fixpoint elapsed (ticks : Z → nat) (n : nat) : Z :=
  match n with O => 0 | S n => elapsed ticks n + Z.of_nat (ticks (Z.of_nat n)) end.

Lemma elapsed_nonneg ticks n : 0 <= elapsed ticks n.
Proof. induction n; cbn; lia. Qed.

Section reading.
Context (r : Z) (k c : Z) (s0 : rtc) (ticks : Z → nat) (N : nat).
Context (Hok : rtc_ok s0) (Hk : zget (constant_arr s0) r = Some k).
Context (Hc : zget (counter_table s0) r = Some c) (Hck : c < k).
Context (Hf : zget (itr_occur_table s0) r = Some 0).
Context (HN : k - c <= elapsed ticks N) (HN33 : Z.of_nat N < 2 ^ 33).

(** At poll [j] the flag has not been up, and the clock shows the ticks so far. *)
Definition waiting (st : Z * pic * rtc) : Prop :=
  let '(j, p, s) := st in
  let e := elapsed ticks (Z.to_nat j) in
  0 <= j <= Z.of_nat N ∧ rtc_ok s ∧ constant_arr s = constant_arr s0 ∧
  zget (counter_table s) r = Some ((c + e) mod k) ∧
  zget (itr_occur_table s) r = Some (if k - c <=? e then 1 else 0) ∧
  ∀ i, 0 <= i < j → elapsed ticks (Z.to_nat i) < k - c.

Lemma rtc_read_waits p :
  ∃ res, rtc_read r ticks p s0 = Done res ∧
    let '(ret, p', s') := res in
    ret = 0 ∧ ∃ j, (j <= N)%nat ∧ k - c <= elapsed ticks j ∧
      (∀ i, (i < j)%nat → elapsed ticks i < k - c) ∧
      rtc_ok s' ∧ constant_arr s' = constant_arr s0 ∧ zget (itr_occur_table s') r = Some 0 ∧
      zget (counter_table s') r = Some ((c + elapsed ticks j) mod k).
Proof.
  pose proof (ro_period s0 Hok r k Hk) as Hkr. pose proof (ro_count s0 Hok r c Hc) as Hcr.
  pose proof (zget_range _ _ _ (ro_constant s0 Hok) Hk) as Hr.
  apply (orun_total _ waiting _ (λ '(j, _, _), Z.of_nat N - j)); [| |lia].
  2: { unfold waiting. change (elapsed ticks (Z.to_nat 0)) with 0. cbv zeta.
       rewrite Z.add_0_r, Z.mod_small by lia. rewrite (proj2 (Z.leb_gt (k - c) 0)) by lia.
       split_and!; done || lia. }
  intros [[j p'] s] (Hj & Hs & Ek & Ec & Ef & Hpre). rewrite Ef. set (e := elapsed ticks (Z.to_nat j)) in *.
  destruct (Z.leb_spec (k - c) e) as [Hdone|Hwait]; cbn [Z.eqb negb].
  - change (negb (1 =? 0)) with true. cbv iota. eexists. split.
    { rewrite zset_in by (rewrite (ro_occur s Hs); lia). done. }
    split; [done|]. exists (Z.to_nat j). fold e. split_and!; [lia|done| |  |done| |done].
    + intros i Hi. specialize (Hpre (Z.of_nat i) ltac:(lia)). by rewrite Nat2Z.id in Hpre.
    + split; cbn; [rewrite length_insert; apply Hs|apply Hs..].
    + apply zget_insert_eq. rewrite (ro_occur s Hs). lia.
  - change (negb (0 =? 0)) with false. cbv iota.
    destruct (handler_runs_spec (ticks j) p' s Hs) as (p2 & s2 & -> & H2 & Ek2 & Hcl).
    rewrite <- Ek in Hk. destruct (Hcl r k _ _ Hk Ec Ef) as [Ec2 Ef2].
    assert (He0 : 0 <= e) by apply elapsed_nonneg.
    assert (HjN : j ≠ Z.of_nat N) by (intros ->; unfold e in *; rewrite Nat2Z.id in *; lia).
    assert (Ee : elapsed ticks (Z.to_nat (j + 1)) = e + Z.of_nat (ticks j)).
    { replace (Z.to_nat (j + 1)) with (S (Z.to_nat j)) by lia. cbn. by rewrite Z2Nat.id by lia. }
    rewrite (Z.mod_small (c + e)) in Ec2, Ef2 by lia.
    rewrite clock_spec in Ec2, Ef2 by lia. cbn [fst snd] in Ec2, Ef2.
    split; [|lia]. unfold waiting. rewrite Ee. split_and!; [lia|lia|done|congruence| | |].
    + by rewrite Ec2, Z.add_assoc.
    + rewrite Ef2. f_equal. zcase; done.
    + intros i Hi. destruct (decide (i = j)) as [->|]; [done|]. apply Hpre. lia.
Qed.
End reading.

(** Whatever the state of the clock, a read returns once 1024 ticks have come,
    the longest period there is. *)
Section returning.
Context (r : Z) (Hr : 0 <= r < 3) (ticks : Z → nat) (N : nat).
Context (HN : 1024 <= elapsed ticks N) (HN33 : Z.of_nat N < 2 ^ 33).

(** A tick that has not raised the flag has brought the end of the period
    nearer; one that starts beyond the end raises it. *)
Lemma clock_lags n k c : 1 <= k → 0 <= c → (clock n k c 0).1.2 = 0 →
  (k <= c → n = 0%nat) ∧ (c < k → Z.of_nat n < k - c ∧ (clock n k c 0).1.1 = c + Z.of_nat n).
Proof.
  intros Hk Hc Hf. split.
  - intros Hkc. destruct n as [|n]; [done|]. cbn [clock] in Hf. unfold tick_counter, tick_flag in Hf.
    rewrite (proj2 (Z.leb_le k (c + 1))) in Hf by lia. rewrite clock_spec in Hf by lia. cbn [fst snd] in Hf. by destruct (_ <=? _).
  - intros Hck. rewrite clock_spec in Hf |- * by lia. cbn [fst snd] in *. destruct (Z.leb_spec (k - c) (Z.of_nat n)); [done|].
    split; [done|]. apply Z.mod_small. lia.
Qed.

Definition lagging (st : Z * pic * rtc) : Prop :=
  let '(j, p, s) := st in
  0 <= j <= Z.of_nat N ∧ rtc_ok s ∧ ∃ k c fl, zget (constant_arr s) r = Some k ∧ zget (counter_table s) r = Some c ∧
    zget (itr_occur_table s) r = Some fl ∧
    (fl = 0 → (k <= c → elapsed ticks (Z.to_nat j) = 0) ∧ (c < k → k - c + elapsed ticks (Z.to_nat j) <= 1024)).

Lemma rtc_read_returns p s : rtc_ok s → ∃ p' s', rtc_read r ticks p s = Done (0, p', s') ∧ rtc_ok s'.
Proof.
  intros Hs. enough (∃ res, rtc_read r ticks p s = Done res ∧ res.1.1 = 0 ∧ rtc_ok res.2) as ([[ret p'] s'] & E & Er & H') by (cbn in Er; subst ret; by exists p', s').
  apply (orun_total _ lagging _ (λ '(j, _, _), Z.of_nat N - j)); [| |lia].
  2: { destruct (zget_3 _ r (ro_constant s Hs) Hr) as [k Hk]. destruct (zget_3 _ r (ro_counter s Hs) Hr) as [c Hc].
       destruct (zget_3 _ r (ro_occur s Hs) Hr) as [fl Hf]. pose proof (ro_period s Hs r k Hk). pose proof (ro_count s Hs r c Hc).
       split; [lia|]. split; [done|]. exists k, c, fl. change (elapsed ticks (Z.to_nat 0)) with 0. split_and!; [done|done|done|]. intros _. lia. }
  intros [[j p'] s1] (Hj & Hs1 & k & c & fl & Hk & Hc & Hf & Hlag). rewrite Hf. destruct (Z.eqb_spec fl 0) as [-> |]; cbn [negb].
  - destruct (handler_runs_spec (ticks j) p' s1 Hs1) as (p2 & s2 & -> & H2 & Ek2 & Hcl).
    destruct (Hcl r k c 0 Hk Hc Hf) as [Ec Ef]. specialize (Hlag eq_refl) as [L1 L2].
    pose proof (ro_period s1 Hs1 r k Hk). pose proof (ro_count s1 Hs1 r c Hc).
    assert (HjN : j < Z.of_nat N) by (destruct (decide (j = Z.of_nat N)) as [-> |]; [rewrite Nat2Z.id in *; lia|lia]).
    assert (Ee : elapsed ticks (Z.to_nat (j + 1)) = elapsed ticks (Z.to_nat j) + Z.of_nat (ticks j)).
    { replace (Z.to_nat (j + 1)) with (S (Z.to_nat j)) by lia. cbn. by rewrite Z2Nat.id by lia. }
    split; [|lia]. split; [lia|]. split; [done|]. exists k. eexists _, _. rewrite Ek2. split_and!; [done|exact Ec|exact Ef|].
    intros Hfl. destruct (clock_lags (ticks j) k c) as [K1 K2]; [lia|lia|done|]. rewrite Ee. destruct (Z.le_gt_cases k c) as [Hkc|Hck].
    + rewrite (K1 Hkc). cbn [clock fst]. split; lia.
    + destruct (K2 Hck) as [K3 ->]. lia.
  - eexists. split.
    { rewrite zset_in by (rewrite (ro_occur s1 Hs1); lia). done. }
    split; [done|]. split; cbn; [rewrite length_insert; apply Hs1|apply Hs1..].
Qed.
End returning.

(** * Theorems *)

(** How many of [n] successive handler runs raise terminal [r]'s flag, when
    the flag is consumed after each. *)
Fixpoint raised (n : nat) (r : Z) (p : pic) (s : rtc) : out Z :=
  match n with
  | O => Done 0
  | S n =>
      lo ← must (zset (itr_occur_table s) r 0);
      '(p, s) ← rtc_handler p (with_occur lo s);
      fl ← must (zget (itr_occur_table s) r);
      w ← raised n r p s; Done (w + fl)
  end.

Lemma raised_spec n r k : ∀ p s c, rtc_ok s → zget (constant_arr s) r = Some k →
  zget (counter_table s) r = Some c → raised n r p s = Done (clock n k c 0).2.
Proof.
  assert (Hfl : ∀ m k c fl, (clock m k c fl).2 = (clock m k c 0).2).
  { induction m as [|m IH]; intros k' c fl; cbn; [done|].
    pose proof (IH k' (tick_counter k' c) (tick_flag k' c fl)) as E1.
    pose proof (IH k' (tick_counter k' c) (tick_flag k' c 0)) as E2.
    destruct (clock m k' _ (tick_flag k' c fl)) as [[? ?] ?], (clock m k' _ (tick_flag k' c 0)) as [[? ?] ?].
    cbn in *. lia. }
  induction n as [|n IH]; intros p s c H Hk Hc; cbn [raised clock]; [done|].
  pose proof (zget_range _ _ _ (ro_constant s H) Hk) as Hr.
  rewrite zset_in by (rewrite (ro_occur s H); lia). cbn [must mbind out_bind].
  set (s1 := with_occur _ s).
  assert (H1 : rtc_ok s1) by (split; cbn; [rewrite length_insert; apply H|apply H..]).
  destruct (handler_spec p s1 H1) as (s2 & -> & H2 & Ek & Ht). cbn [must mbind out_bind].
  assert (Hf : zget (itr_occur_table s1) r = Some 0)
    by (apply zget_insert_eq; rewrite (ro_occur s H); lia).
  destruct (Ht r k c 0 Hk Hc Hf) as [Ec Ef]. rewrite Ef. cbn [must mbind out_bind].
  rewrite (IH _ s2 _ H2 ltac:(by rewrite Ek) Ec). cbn [mbind out_bind].
  pose proof (Hfl n k (tick_counter k c) (tick_flag k c 0)) as E.
  destruct (clock n k _ (tick_flag k c 0)) as [[? ?] w]. cbn in *. unfold tick_flag. by rewrite E.
Qed.

(** A clock of period [k] completes [f] periods in [k * f] ticks, from any start. *)
Lemma clock_rate k f c n : 1 <= k → 1 <= f → 0 <= c → k * f = Z.of_nat n → (clock n k c 0).2 = f.
Proof.
  intros Hk Hf Hc Hn. destruct (decide (c < k)).
  - rewrite clock_spec by lia. cbn [snd].
    replace (c + Z.of_nat n) with (c + f * k) by lia. rewrite Z.div_add, Z.div_small by lia. lia.
  - destruct n as [|n]; [lia|]. cbn [clock]. unfold tick_counter.
    rewrite !(proj2 (Z.leb_le k (c + 1))) by lia. rewrite clock_spec by lia. cbn [snd].
    replace (0 + Z.of_nat n) with ((k - 1) + (f - 1) * k) by lia.
    rewrite Z.div_add, Z.div_small by lia. lia.
Qed.

Lemma rtc_set_freq_ok r freq s : rtc_ok s → 0 <= r < 3 → freq ≠ 0 → rtc_set_freq r freq s =
  if is_rate freq
  then Done (0, with_constant (<[Z.to_nat r := Z.quot 1024 freq]> (constant_arr s)) s, true)
  else Done (-1, s, false).
Proof.
  intros H Hr Hz. unfold rtc_set_freq. destruct (is_rate freq) eqn:Erate.
  - pose proof (is_rate_spec freq Erate) as (? & ? & Hrem & _).
    rewrite (proj2 (Z.ltb_ge freq 0)), (proj2 (Z.ltb_ge 1024 freq)), Hrem by lia.
    rewrite halve_spec, Erate by (lia || done). cbn [orb negb mbind out_bind].
    change (negb (0 =? 0)) with false. cbv iota. rewrite (proj2 (Z.eqb_neq freq 0)) by done.
    by rewrite zset_in by (rewrite (ro_constant s H); lia).
  - destruct (Z.ltb_spec freq 0); [done|]. destruct (Z.ltb_spec 1024 freq); [done|]. cbn [orb].
    destruct (Z.eqb_spec (Z.rem freq 2) 0); [|done]. cbn [negb].
    rewrite halve_spec, Erate by (lia || done). done.
Qed.

Lemma with_constant_ok r k s : rtc_ok s → 0 <= r < 3 → 1 <= k <= 1024 →
  rtc_ok (with_constant (<[Z.to_nat r := k]> (constant_arr s)) s).
Proof.
  intros H Hr Hk. split; try apply H; cbn.
  - rewrite length_insert. apply H.
  - intros i k' Hk'. destruct (decide (r = i)) as [<-|].
    + rewrite zget_insert_eq in Hk' by (rewrite (ro_constant s H); lia). by injection Hk' as <-.
    + rewrite zget_insert_ne in Hk' by lia. by apply (ro_period s H i).
Qed.

(** Frequency 0 passes the checks and divides by zero. *)
Lemma rtc_set_freq_zero r s : rtc_set_freq r 0 s = Undef.
Proof. by vm_compute. Qed.

Lemma rtc0_ok : rtc_ok rtc0.
Proof.
  split; try done; intros i x Hx;
    (assert (Hi : 0 <= i < 3) by (eapply zget_range; [|exact Hx]; reflexivity));
    (assert (i = 0 ∨ i = 1 ∨ i = 2) as [-> | [-> | ->]] by lia; injection Hx as <-; lia).
Qed.

(** C13. Setting the frequency.  For every non-zero request, [rtc_set_freq] terminates: a
    power of two from 2 to 1024 is accepted, changes the period of the
    calling terminal only and enables interrupts, and from then on, after any number of
    handler runs, each 1024 successive runs of the interrupt handler raise that
    terminal's flag exactly [freq] times; any other request is refused and
    changes nothing. *)
Theorem rtc_frequency (r freq : Z) (s : rtc) (Hs : rtc_ok s) (Hr : 0 <= r < 3) (Hf : freq ≠ 0) :
  if is_rate freq then
    ∃ s', rtc_set_freq r freq s = Done (0, s', true) ∧ rtc_ok s' ∧
      (∀ i, i ≠ r → zget (constant_arr s') i = zget (constant_arr s) i) ∧
      ∀ n p p' s'', handler_runs n p s' = Done (p', s'') → raised 1024 r p' s'' = Done freq
  else rtc_set_freq r freq s = Done (-1, s, false).
Proof.
  rewrite rtc_set_freq_ok by done. destruct (is_rate freq) eqn:Erate; [|done].
  pose proof (is_rate_spec freq Erate) as (Hq & Hf2 & _ & Hqf).
  pose proof (with_constant_ok r (Z.quot 1024 freq) s Hs Hr ltac:(lia)) as Hok.
  eexists. split_and!; [done|done| |].
  - intros i Hi. cbn. apply zget_insert_ne; [lia|done].
  - intros n p p' s'' Hrun. destruct (handler_runs_spec n p _ Hok) as (p2 & s2 & E & H2 & Ek & _).
    rewrite E in Hrun. injection Hrun as <- <-.
    destruct (zget_3 (counter_table s2) r (ro_counter s2 H2) Hr) as [c Hc].
    rewrite (raised_spec 1024 r (Z.quot 1024 freq) p2 s2 c H2); [| |done].
    + f_equal. pose proof (ro_count s2 H2 r c Hc). apply clock_rate; lia.
    + rewrite Ek. cbn. apply zget_insert_eq. rewrite (ro_constant s Hs). lia.
Qed.

Lemma rtc_frequency_witness :
  ∃ s', rtc_set_freq 1 32 rtc0 = Done (0, s', true) ∧ raised 1024 1 (Pic 0 0 []) s' = Done 32.
Proof.
  destruct (rtc_frequency 1 32 rtc0 rtc0_ok ltac:(lia) ltac:(lia)) as (s' & E & _ & _ & H).
  exists s'. split; [exact E|]. apply (H 0%nat (Pic 0 0 [])). reflexivity.
Defined.

(** Blocking reads.  A read on a terminal whose flag is down
    terminates as soon as enough clock interrupts arrive during its polls,
    whatever their spacing: it returns 0 at the first poll that follows the
    tick completing the terminal's period, not before, and leaves the flag down and the
    clock where those ticks put it. *)
Theorem rtc_read_blocks (r k c : Z) (s : rtc) (ticks : Z → nat) (N : nat) (p : pic)
    (Hs : rtc_ok s) (Hk : zget (constant_arr s) r = Some k) (Hc : zget (counter_table s) r = Some c)
    (Hck : c < k) (Hf : zget (itr_occur_table s) r = Some 0)
    (Hticks : k - c <= elapsed ticks N) (HN : Z.of_nat N < 2 ^ 33) :
  ∃ p' s' j, rtc_read r ticks p s = Done (0, p', s') ∧ (j <= N)%nat ∧
    k - c <= elapsed ticks j ∧ (∀ i, (i < j)%nat → elapsed ticks i < k - c) ∧
    zget (itr_occur_table s') r = Some 0 ∧
    zget (counter_table s') r = Some ((c + elapsed ticks j) mod k).
Proof.
  destruct (rtc_read_waits r k c s ticks N Hs Hk Hc Hck Hf Hticks HN p)
    as ([[ret p'] s'] & E & -> & j & ? & ? & ? & _ & _ & ? & ?).
  by exists p', s', j.
Qed.

Lemma rtc_read_blocks_witness :
  ∃ p' s', rtc_read 0 (λ _, 1%nat) (Pic 0 0 []) (Rtc [0; 0; 0] [510; 0; 0] [512; 1024; 1024])
    = Done (0, p', s') ∧ zget (itr_occur_table s') 0 = Some 0.
Proof.
  destruct (rtc_read_blocks 0 512 510 (Rtc [0; 0; 0] [510; 0; 0] [512; 1024; 1024]) (λ _, 1%nat) 2
    (Pic 0 0 [])) as (p' & s' & j & E & _ & _ & _ & Hf & _).
  - split; try done; intros i x Hx;
    (assert (Hi : 0 <= i < 3) by (eapply zget_range; [|exact Hx]; reflexivity));
      (assert (i = 0 ∨ i = 1 ∨ i = 2) as [-> | [-> | ->]] by lia; injection Hx as <-; lia).
  - reflexivity.
  - reflexivity.
  - lia.
  - reflexivity.
  - cbn. lia.
  - lia.
  - exists p', s'. split; [exact E|exact Hf].
Defined.
