(* ===== verification/Idt.v ===== *)
(** The interrupt descriptor table, student-distrib/idt.c, and the exception
    handlers of exception.c that most of its gates point to. *)
From Stdlib Require Import String.
From S2P Require Import Prelude Memory Strings Console Pic.

Definition NUM_VEC : Z := 256.
Definition KERNEL_CS : Z := 0x10.
Definition IDT_LAST : Z := 0x13 + 1.
Definition IDT_PIT : Z := 0x20.
Definition IDT_KEYBOARD : Z := 0x21.
Definition IDT_SB16 : Z := 0x25.
Definition IDT_RTC : Z := 0x28.
Definition IDT_SYS_CALL : Z := 0x80.

(** * Exceptions *)
Inductive exc : Type :=
| divide_by_zero_exception | debug_exception | nmi_exception | breakpoint_exception
| overflow_exception | bound_range_exception | invalid_opcode_exception
| device_not_available_exception | double_fault_exception | coprocessor_exception
| invalid_tss_exception | segment_not_present_exception | stack_fault_exception
| general_protection_exception | page_fault_exception | fpu_floating_point_exception
| alignment_check_exception | machine_check_exception | simd_floating_point_exception.

Definition exc_message (e : exc) : string :=
  match e with
  | divide_by_zero_exception => "EXCEPTION: divide_by_zero_exception!"
  | debug_exception => "EXCEPTION: debug_exception!"
  | nmi_exception => "EXCEPTION: nmi_exception!"
  | breakpoint_exception => "EXCEPTION: breakpoint_exception!"
  | overflow_exception => "EXCEPTION: overflow_exception!"
  | bound_range_exception => "EXCEPTION: bound_range_exception!"
  | invalid_opcode_exception => "EXCEPTION: invalid_opcode_exception!"
  | device_not_available_exception => "EXCEPTION: device_not_available_exception!"
  | double_fault_exception => "EXCEPTION: double_fault_exception!"
  | coprocessor_exception => "EXCEPTION: coprocessor_exception!"
  | invalid_tss_exception => "EXCEPTION: invalid_tss_exception!"
  | segment_not_present_exception => "EXCEPTION: segment_not_present_exception!"
  | stack_fault_exception => "EXCEPTION: stack_fault_exception!"
  | general_protection_exception => "EXCEPTION: general_protection_exception!"
  | page_fault_exception => "EXCEPTION: page_fault_exception!"
  | fpu_floating_point_exception => "EXCEPTION: fpu_floating_point_exception!"
  | alignment_check_exception => "EXCEPTION: alignment_check_exception!"
  | machine_check_exception => "EXCEPTION: machine_check_exception!"
  | simd_floating_point_exception => "EXCEPTION: simd_floating_point_exception!"
  end.

(** A literal that ends in a newline, and the terminating NUL. *)
Definition line0 (s : string) : str := lview (lit s ++ [10; 0]).

(** [print_exception] prints and then spins; the call of [halt] after the loop
    is not reached. *)
Definition print_exception (s : str) (c : console) : out console :=
  c ← printf s [] c; Hang.

(** [cr2] and [esp] are the registers the page-fault handler reads. *)
Definition exception (e : exc) (cr2 esp : Z) (c : console) : out console :=
  match e with
  | page_fault_exception =>
      let val := load32 (c_mem c) (u32 (esp - 12)) in
      c ← printf (line0 "exception occur at address: 0x%x") [cr2] c;
      c ← printf (line0 "user esp at address: 0x%x") [val] c;
      print_exception (line0 (exc_message e)) c
  | _ => print_exception (line0 (exc_message e)) c
  end.

(** * The table *)

(** The routines whose addresses the linker supplies. *)
Inductive routine : Type :=
| Exception (e : exc) | pit_assembly | keyboard_assembly | sb16_assembly | rtc_assembly | syscall_assembly.

Record idt_desc_t : Type := IdtDesc {
  offset_15_00 : Z; seg_selector : Z; reserved4 : Z; reserved3 : Z; reserved2 : Z;
  reserved1 : Z; size : Z; reserved0 : Z; dpl : Z; present : Z; offset_31_16 : Z }.

(** The body of the first loop: every field but the offset. *)
Definition init_gate (i : Z) (g : idt_desc_t) : idt_desc_t :=
  let '(reserved3, present, dpl) := (0, 0, 0) in
  let '(reserved3, present) := if i <? IDT_LAST then (1, 1) else (reserved3, present) in
  let '(reserved3, present, dpl) := if i =? IDT_SYS_CALL then (1, 1, 3) else (reserved3, present, dpl) in
  let present :=
    if (i =? IDT_PIT) || (i =? IDT_RTC) || (i =? IDT_KEYBOARD) || (i =? IDT_SB16) then 1 else present in
  IdtDesc (offset_15_00 g) KERNEL_CS 0 reserved3 1 1 1 0 dpl present (offset_31_16 g).

Definition SET_IDT_ENTRY (handler : Z) (g : idt_desc_t) : idt_desc_t :=
  IdtDesc (Z.land handler 0xFFFF) (seg_selector g) (reserved4 g) (reserved3 g) (reserved2 g)
    (reserved1 g) (size g) (reserved0 g) (dpl g) (present g)
    (Z.shiftr (Z.land handler 0xFFFF0000) 16).

(** The SET_IDT_ENTRY calls, in order. *)
Definition idt_entries : list (Z * routine) :=
  [(0x00, Exception divide_by_zero_exception); (0x01, Exception debug_exception);
   (0x02, Exception nmi_exception); (0x03, Exception breakpoint_exception);
   (0x04, Exception overflow_exception); (0x05, Exception bound_range_exception);
   (0x06, Exception invalid_opcode_exception); (0x07, Exception device_not_available_exception);
   (0x08, Exception double_fault_exception); (0x09, Exception coprocessor_exception);
   (0x0A, Exception invalid_tss_exception); (0x0B, Exception segment_not_present_exception);
   (0x0C, Exception stack_fault_exception); (0x0D, Exception general_protection_exception);
   (0x0E, Exception page_fault_exception); (0x10, Exception fpu_floating_point_exception);
   (0x11, Exception alignment_check_exception); (0x12, Exception machine_check_exception);
   (0x13, Exception simd_floating_point_exception);
   (IDT_PIT, pit_assembly); (IDT_KEYBOARD, keyboard_assembly); (IDT_SB16, sb16_assembly);
   (IDT_RTC, rtc_assembly); (IDT_SYS_CALL, syscall_assembly)].

Definition init_idt (address : routine → Z) (idt : list idt_desc_t) : list idt_desc_t :=
  let idt := for_range 0 NUM_VEC (λ l i, alter (init_gate i) (Z.to_nat i) l) idt in
  foldl (λ l '(v, h), alter (SET_IDT_ENTRY (address h)) (Z.to_nat v) l) idt idt_entries.

(** * What the processor makes of a gate *)
Inductive gate : Type :=
| Absent
| Gate (trap : bool) (dpl : Z) (selector offset : Z).

Definition gate_type (g : idt_desc_t) : Z :=
  reserved3 g + 2 * reserved2 g + 4 * reserved1 g + 8 * size g + 16 * reserved0 g.
Definition decode (g : idt_desc_t) : gate :=
  if present g =? 0 then Absent
  else Gate (gate_type g =? 0xF) (dpl g) (seg_selector g) (offset_15_00 g + 2 ^ 16 * offset_31_16 g).

(** * What the processor and the controllers deliver

    The vector of an exception, as the processor numbers them. *)
Definition exception_vector (e : exc) : Z :=
  match e with
  | divide_by_zero_exception => 0
  | debug_exception => 1
  | nmi_exception => 2
  | breakpoint_exception => 3
  | overflow_exception => 4
  | bound_range_exception => 5
  | invalid_opcode_exception => 6
  | device_not_available_exception => 7
  | double_fault_exception => 8
  | coprocessor_exception => 9
  | invalid_tss_exception => 10
  | segment_not_present_exception => 11
  | stack_fault_exception => 12
  | general_protection_exception => 13
  | page_fault_exception => 14
  | fpu_floating_point_exception => 16
  | alignment_check_exception => 17
  | machine_check_exception => 18
  | simd_floating_point_exception => 19
  end.

(** The vector at which the interrupt controllers, programmed by
    [i8259_init], deliver line [n]. *)
Definition line_vector (n : Z) : Z :=
  if n <? MASTER_BOUND then ICW2_MASTER + n else ICW2_SLAVE + (n - MASTER_BOUND).

(** The event each routine is there for: the timer is on line 0 of the
    controllers, the keyboard on 1, the sound card on 5 and the real-time
    clock on 8; programs enter the kernel with INT 0x80. *)
Definition vector_of (h : routine) : Z :=
  match h with
  | Exception e => exception_vector e
  | pit_assembly => line_vector 0
  | keyboard_assembly => line_vector 1
  | sb16_assembly => line_vector 5
  | rtc_assembly => line_vector 8
  | syscall_assembly => 0x80
  end.

(** Exceptions and system calls leave interrupts as they are. *)
Definition is_trap (h : routine) : bool :=
  match h with Exception _ | syscall_assembly => true | _ => false end.
(** The least privileged code that may raise the vector by an instruction. *)
Definition routine_dpl (h : routine) : Z :=
  match h with syscall_assembly => 3 | _ => 0 end.

Definition routines : list routine :=
  map Exception [divide_by_zero_exception; debug_exception; nmi_exception; breakpoint_exception;
    overflow_exception; bound_range_exception; invalid_opcode_exception; device_not_available_exception;
    double_fault_exception; coprocessor_exception; invalid_tss_exception; segment_not_present_exception;
    stack_fault_exception; general_protection_exception; page_fault_exception; fpu_floating_point_exception;
    alignment_check_exception; machine_check_exception; simd_floating_point_exception] ++
  [pit_assembly; keyboard_assembly; sb16_assembly; rtc_assembly; syscall_assembly].
Lemma in_routines h : h ∈ routines.
Proof. destruct h as [[]| | | | |]; vm_compute; repeat (apply list_elem_of_here || apply list_elem_of_further). Qed.

Lemma zget_alter {A} (f : A → A) l i j : 0 <= i →
  zget (alter f (Z.to_nat i) l) j = if i =? j then f <$> zget l j else zget l j.
Proof.
  intros Hi. unfold zget. destruct (Z.ltb_spec j 0); [by case_match|].
  destruct (Z.eqb_spec i j) as [->|]; [by rewrite list_lookup_alter_eq|].
  by rewrite list_lookup_alter_ne by lia.
Qed.

Lemma set_entries_spec (address : routine → Z) es : ∀ l v,
  NoDup es.*1 → Forall (λ e, 0 <= e.1) es →
  zget (foldl (λ l '(w, h), alter (SET_IDT_ENTRY (address h)) (Z.to_nat w) l) l es) v =
  match List.find (λ e, e.1 =? v) es with
  | Some (_, h) => SET_IDT_ENTRY (address h) <$> zget l v
  | None => zget l v
  end.
Proof.
  induction es as [|[w h] es IH]; intros l v Hnd Hpos; cbn [foldl List.find fst]; [done|].
  cbn in Hnd. apply list.NoDup_cons in Hnd as [Hn Hnd]. apply Forall_cons_1 in Hpos as [Hw Hpos]. cbn in Hw.
  rewrite IH by done. rewrite zget_alter by done. destruct (Z.eqb_spec w v) as [->|]; [|done].
  destruct (List.find (λ e, e.1 =? v) es) as [[w' h']|] eqn:E; [|done].
  exfalso. apply find_some in E as [Hin Heq]. cbn in Heq. apply Z.eqb_eq in Heq as ->.
  apply Hn, list_elem_of_fmap. exists (v, h'). split; [done|]. by apply list_elem_of_In.
Qed.

Lemma init_gates_spec idt v : 0 <= v < 256 →
  zget (for_range 0 NUM_VEC (λ l i, alter (init_gate i) (Z.to_nat i) l) idt) v = init_gate v <$> zget idt v.
Proof.
  intros Hv.
  assert (H : zget (for_range 0 NUM_VEC (λ l i, alter (init_gate i) (Z.to_nat i) l) idt) v =
    if v <? NUM_VEC then init_gate v <$> zget idt v else zget idt v).
  { apply (for_range_ind (λ j l, zget l v = if v <? j then init_gate v <$> zget idt v else zget idt v));
      [done|by rewrite (proj2 (Z.ltb_ge v 0)) by lia|].
    intros i l Hi Hl. rewrite zget_alter by lia. rewrite Hl. destruct (Z.eqb_spec i v) as [->|].
    - by rewrite (proj2 (Z.ltb_ge v v)), (proj2 (Z.ltb_lt v (v + 1))) by lia.
    - zcase; done. }
  rewrite H. unfold NUM_VEC. by rewrite (proj2 (Z.ltb_lt v 256)) by lia.
Qed.

(** The two halves of an offset put together. *)
Lemma offset_halves h : is_u32 h → Z.land h 0xFFFF + 2 ^ 16 * Z.shiftr (Z.land h 0xFFFF0000) 16 = h.
Proof.
  intros [? ?]. change 0xFFFF with (Z.ones 16).
  change 0xFFFF0000 with (Z.shiftl (Z.ones 16) 16). rewrite Z.land_ones, land_field by lia.
  rewrite Z.shiftr_div_pow2, Z.div_mul by lia.
  rewrite (Z.mod_small (h / 2 ^ 16)) by (split; [by apply Z.div_pos|by apply Z.div_lt_upper_bound]).
  pose proof (Z.div_mod h (2 ^ 16)). lia.
Qed.

(** The bits that the first loop gives to gate [v]. *)
Definition gate_bits (v : Z) : Z * Z * Z :=
  let g := init_gate v (IdtDesc 0 0 0 0 0 0 0 0 0 0 0) in (reserved3 g, dpl g, present g).

Lemma init_gate_fields v g : init_gate v g =
  let '(r3, d, p) := gate_bits v in
  IdtDesc (offset_15_00 g) KERNEL_CS 0 r3 1 1 1 0 d p (offset_31_16 g).
Proof. unfold gate_bits, init_gate. by repeat case_match; simplify_eq. Qed.

#[export] Instance exc_eq_dec : EqDecision exc.
Proof. solve_decision. Defined.
#[export] Instance routine_eq_dec : EqDecision routine.
Proof. solve_decision. Defined.

(** What the two loops leave at the vector of a routine. *)
Definition routine_ok (h : routine) : Prop :=
  let v := vector_of h in
  (0 <= v ∧ v < 256) ∧ snd <$> List.find (λ e, e.1 =? v) idt_entries = Some h ∧
  gate_bits v = ((if is_trap h then 1 else 0), routine_dpl h, 1).
#[export] Instance routine_ok_dec h : Decision (routine_ok h).
Proof. unfold routine_ok. apply _. Defined.
Lemma routines_ok h : routine_ok h.
Proof.
  assert (H : Forall routine_ok routines) by (apply (bool_decide_unpack _); by vm_compute).
  rewrite list.Forall_forall in H. apply H, in_routines.
Qed.

(** What they leave at a vector that no routine is for. *)
Definition unused_ok (v : Z) : Prop :=
  Exists (λ h, vector_of h = v) routines ∨
  List.find (λ e, e.1 =? v) idt_entries = None ∧
  gate_bits v = if v =? 15 then (1, 0, 1) else (0, 0, 0).
#[export] Instance unused_ok_dec v : Decision (unused_ok v).
Proof. unfold unused_ok. apply _. Defined.
Lemma unused_vectors_ok v : 0 <= v < 256 → unused_ok v.
Proof.
  intros Hv. assert (H : Forall unused_ok (seqZ 0 256)) by (apply (bool_decide_unpack _); by vm_compute).
  rewrite list.Forall_forall in H. apply H, elem_of_seqZ. lia.
Qed.

(** One gate after [init_idt]. *)
Lemma init_idt_lookup address idt v g : 0 <= v < 256 → zget idt v = Some g →
  zget (init_idt address idt) v =
  Some (match snd <$> List.find (λ e, e.1 =? v) idt_entries with
        | Some h => SET_IDT_ENTRY (address h) (init_gate v g)
        | None => init_gate v g
        end).
Proof.
  intros Hv Hg. unfold init_idt. rewrite set_entries_spec;
    [|apply (bool_decide_unpack _); by vm_compute|apply (bool_decide_unpack _); by vm_compute].
  rewrite init_gates_spec, Hg by done. by destruct (List.find _ _) as [[]|].
Qed.

(** * Theorem *)

(** C15. The interrupt descriptor table.  Whatever the 256 entries of the table
    held before, after [init_idt] the processor finds at the vector of every
    event the kernel serves the routine for that event: the 19 exceptions, at
    the processor's own numbers, behind trap gates; the timer, keyboard, sound
    card and real-time clock, at the vectors the interrupt controllers give to
    lines 0, 1, 5 and 8, behind interrupt gates; and INT 0x80 behind the only
    gate open to user code.  Every other vector is absent, except 15, which is
    present with whatever offset its entry had. *)
Theorem init_idt_gates (address : routine → Z) (idt : list idt_desc_t)
    (Ha : ∀ h, is_u32 (address h)) (Hl : Z.of_nat (length idt) = NUM_VEC) :
  (∀ h, decode <$> zget (init_idt address idt) (vector_of h) =
        Some (Gate (is_trap h) (routine_dpl h) KERNEL_CS (address h))) ∧
  (∀ v g, zget idt v = Some g → (∀ h, vector_of h ≠ v) →
     decode <$> zget (init_idt address idt) v =
     Some (if v =? 15 then Gate true 0 KERNEL_CS (offset_15_00 g + 2 ^ 16 * offset_31_16 g) else Absent)).
Proof.
  unfold NUM_VEC in Hl. split.
  - intros h. destruct (routines_ok h) as (Hv & Hf & Hb). destruct (zget_is_Some idt (vector_of h)) as [g Hg]; [lia|].
    rewrite (init_idt_lookup _ _ _ g), Hf by (done || lia). cbn [fmap option_fmap option_map]. f_equal.
    unfold decode, gate_type. rewrite init_gate_fields, Hb.
    cbn -[Z.pow Z.land Z.shiftr]. rewrite offset_halves by done. by destruct (is_trap h).
  - intros v g Hg Hn. assert (Hv : 0 <= v < 256).
    { apply zget_Some in Hg as [? Hg]. apply lookup_lt_Some in Hg. lia. }
    destruct (unused_vectors_ok v Hv) as [Hu|[Hf Hb]].
    { apply list.Exists_exists in Hu as (h & _ & Hu). by destruct (Hn h). }
    rewrite (init_idt_lookup _ _ _ g), Hf by done. cbn [fmap option_fmap option_map]. f_equal.
    unfold decode, gate_type. rewrite init_gate_fields, Hb. by destruct (v =? 15).
Qed.

Definition idt_zero : list idt_desc_t := replicate 256 (IdtDesc 0 0 0 0 0 0 0 0 0 0 0).

Lemma init_idt_gates_witness :
  let address h := match h with syscall_assembly => 0x401234 | keyboard_assembly => 0x402000 | _ => 0x400000 end in
  decode <$> zget (init_idt address idt_zero) 0x80 = Some (Gate true 3 KERNEL_CS 0x401234) ∧
  decode <$> zget (init_idt address idt_zero) 0x21 = Some (Gate false 0 KERNEL_CS 0x402000) ∧
  decode <$> zget (init_idt address idt_zero) 0x30 = Some Absent.
Proof.
  intros address. destruct (init_idt_gates address idt_zero) as [Hr Hn]; [by intros []|done|].
  split; [exact (Hr syscall_assembly)|]. split; [exact (Hr keyboard_assembly)|].
  apply (Hn 0x30 (IdtDesc 0 0 0 0 0 0 0 0 0 0 0)); [reflexivity|]. by intros [[]| | | | |].
Defined.

(** An exception never returns to its caller, nor to the shell: the handler
    spins before its call of [halt]. *)
Lemma exceptions_hang e cr2 esp c c' : exception e cr2 esp c ≠ Done c'.
Proof.
  assert (H : ∀ s c, print_exception s c ≠ Done c').
  { intros s c0. unfold print_exception. by destruct (printf s [] c0). }
  destruct e; try apply H. cbn [exception].
  destruct (printf (line0 "exception occur at address: 0x%x") [cr2] c) as [c1| |]; [|done|done].
  rewrite bind_Done. destruct (printf _ _ c1) as [c2| |]; [|done|done]. rewrite bind_Done. apply H.
Qed.
