(* ===== verification/Kernel.v ===== *)
(** The state of the kernel as a whole: the components, the process control
    blocks, the process tables of syscall.c and lib.c, and the pointer
    arithmetic that finds a control block from the stack. *)
From stdpp Require Import gmap.
From S2P Require Import Prelude Memory Strings Console Filesystem Paging Pic Rtc.

Definition MIN_FD : Z := 2.
Definition MAX_FD : Z := 8.
Definition ARG_MAX : Z := 100.
Definition MAX_TASK : Z := 6.
Definition EIGHT_KB_SIZE : Z := 8192.
Definition EIGHT_MB_SIZE : Z := 0x800000.
Definition FOUR_MB_SIZE : Z := 0x400000.
Definition _128_MB_SIZE : Z := 0x8000000.
Definition PCB_MASK : Z := 0x7FE000.
Definition ESP_OFFSET : Z := 4.
Definition IN_USE : Z := 1.
Definition NOT_IN_USE : Z := 0.

(** The tables of driver functions; [None] in a descriptor is a pointer that
    was never set. *)
Inductive file_operation_ptrs : Type :=
| fail_funcs | stdin_funcs | stdout_funcs | dir_funcs | rtc_funcs | file_funcs.
#[export] Instance file_operation_ptrs_eq_dec : EqDecision file_operation_ptrs.
Proof. solve_decision. Defined.

Record file_desc_t : Type := FileDesc {
  ptrs : option file_operation_ptrs; inode : Z; file_pos : Z; flags : Z }.

Inductive handler : Type := signal_default | user_handler (address : Z).

Record pcb_t : Type := Pcb {
  files : list file_desc_t; pid : Z; parent_pid : Z; parent_esp : Z; parent_ebp : Z;
  schedule_esp : Z; schedule_ebp : Z; argument : list Z; pending_signal : Z; sighandler : handler }.

Definition with_files (l : list file_desc_t) (p : pcb_t) : pcb_t :=
  Pcb l (pid p) (parent_pid p) (parent_esp p) (parent_ebp p) (schedule_esp p) (schedule_ebp p)
    (argument p) (pending_signal p) (sighandler p).
Definition with_schedule (esp ebp : Z) (p : pcb_t) : pcb_t :=
  Pcb (files p) (pid p) (parent_pid p) (parent_esp p) (parent_ebp p) esp ebp
    (argument p) (pending_signal p) (sighandler p).
Definition with_pending (s : Z) (p : pcb_t) : pcb_t :=
  Pcb (files p) (pid p) (parent_pid p) (parent_esp p) (parent_ebp p) (schedule_esp p) (schedule_ebp p)
    (argument p) s (sighandler p).
Definition with_sighandler (h : handler) (p : pcb_t) : pcb_t :=
  Pcb (files p) (pid p) (parent_pid p) (parent_esp p) (parent_ebp p) (schedule_esp p) (schedule_ebp p)
    (argument p) (pending_signal p) h.

(** The pid array, and the stack of pids of each terminal with its height. *)
Record procs : Type := Procs {
  process : list Z; process_terminal : list (list Z); process_terminal_cnt : list Z }.

Record kernel : Type := Kernel {
  k_con : console; k_fs : fs; k_page : paging; k_pic : pic; k_rtc : rtc;
  k_procs : procs; k_pcbs : gmap Z pcb_t;
  running_terminal : Z; terminal_running : list Z; enter_state : Z;
  k_esp : Z; k_ebp : Z; tss_esp0 : Z; retval : Z; k_if : bool }.

Definition with_con (c : console) (k : kernel) : kernel :=
  Kernel c (k_fs k) (k_page k) (k_pic k) (k_rtc k) (k_procs k) (k_pcbs k) (running_terminal k)
    (terminal_running k) (enter_state k) (k_esp k) (k_ebp k) (tss_esp0 k) (retval k) (k_if k).
Definition with_fs (f : fs) (k : kernel) : kernel :=
  Kernel (k_con k) f (k_page k) (k_pic k) (k_rtc k) (k_procs k) (k_pcbs k) (running_terminal k)
    (terminal_running k) (enter_state k) (k_esp k) (k_ebp k) (tss_esp0 k) (retval k) (k_if k).
Definition with_page (p : paging) (k : kernel) : kernel :=
  Kernel (k_con k) (k_fs k) p (k_pic k) (k_rtc k) (k_procs k) (k_pcbs k) (running_terminal k)
    (terminal_running k) (enter_state k) (k_esp k) (k_ebp k) (tss_esp0 k) (retval k) (k_if k).
Definition with_pic_rtc (p : pic) (r : rtc) (k : kernel) : kernel :=
  Kernel (k_con k) (k_fs k) (k_page k) p r (k_procs k) (k_pcbs k) (running_terminal k)
    (terminal_running k) (enter_state k) (k_esp k) (k_ebp k) (tss_esp0 k) (retval k) (k_if k).
Definition with_procs (p : procs) (k : kernel) : kernel :=
  Kernel (k_con k) (k_fs k) (k_page k) (k_pic k) (k_rtc k) p (k_pcbs k) (running_terminal k)
    (terminal_running k) (enter_state k) (k_esp k) (k_ebp k) (tss_esp0 k) (retval k) (k_if k).
Definition with_pcbs (m : gmap Z pcb_t) (k : kernel) : kernel :=
  Kernel (k_con k) (k_fs k) (k_page k) (k_pic k) (k_rtc k) (k_procs k) m (running_terminal k)
    (terminal_running k) (enter_state k) (k_esp k) (k_ebp k) (tss_esp0 k) (retval k) (k_if k).
Definition with_running (t : Z) (k : kernel) : kernel :=
  Kernel (k_con k) (k_fs k) (k_page k) (k_pic k) (k_rtc k) (k_procs k) (k_pcbs k) t
    (terminal_running k) (enter_state k) (k_esp k) (k_ebp k) (tss_esp0 k) (retval k) (k_if k).
Definition with_terminal_running (l : list Z) (k : kernel) : kernel :=
  Kernel (k_con k) (k_fs k) (k_page k) (k_pic k) (k_rtc k) (k_procs k) (k_pcbs k) (running_terminal k)
    l (enter_state k) (k_esp k) (k_ebp k) (tss_esp0 k) (retval k) (k_if k).
Definition with_enter (e : Z) (k : kernel) : kernel :=
  Kernel (k_con k) (k_fs k) (k_page k) (k_pic k) (k_rtc k) (k_procs k) (k_pcbs k) (running_terminal k)
    (terminal_running k) e (k_esp k) (k_ebp k) (tss_esp0 k) (retval k) (k_if k).
Definition with_stack (esp ebp : Z) (k : kernel) : kernel :=
  Kernel (k_con k) (k_fs k) (k_page k) (k_pic k) (k_rtc k) (k_procs k) (k_pcbs k) (running_terminal k)
    (terminal_running k) (enter_state k) esp ebp (tss_esp0 k) (retval k) (k_if k).
Definition with_tss (e : Z) (k : kernel) : kernel :=
  Kernel (k_con k) (k_fs k) (k_page k) (k_pic k) (k_rtc k) (k_procs k) (k_pcbs k) (running_terminal k)
    (terminal_running k) (enter_state k) (k_esp k) (k_ebp k) e (retval k) (k_if k).
Definition with_retval (v : Z) (k : kernel) : kernel :=
  Kernel (k_con k) (k_fs k) (k_page k) (k_pic k) (k_rtc k) (k_procs k) (k_pcbs k) (running_terminal k)
    (terminal_running k) (enter_state k) (k_esp k) (k_ebp k) (tss_esp0 k) v (k_if k).
Definition with_if (b : bool) (k : kernel) : kernel :=
  Kernel (k_con k) (k_fs k) (k_page k) (k_pic k) (k_rtc k) (k_procs k) (k_pcbs k) (running_terminal k)
    (terminal_running k) (enter_state k) (k_esp k) (k_ebp k) (tss_esp0 k) (retval k) b.

Definition k_mem (k : kernel) : mem := c_mem (k_con k).
Definition set_mem (m : mem) (k : kernel) : kernel := with_con (with_mem (λ _, m) (k_con k)) k.

(** * Control blocks *)

(** [andl %esp, %eax] with the mask in [eax]. *)
Definition get_curr_pcb (k : kernel) : Z := Z.land (k_esp k) PCB_MASK.
Definition get_pcb_by_index (index : Z) : Z := u32 (EIGHT_MB_SIZE - (index + 1) * EIGHT_KB_SIZE).

(** Dereferencing a control-block pointer. *)
Definition pcb_at (k : kernel) (a : Z) : out pcb_t := must (k_pcbs k !! a).
Definition set_pcb (a : Z) (p : pcb_t) (k : kernel) : kernel := with_pcbs (<[a := p]> (k_pcbs k)) k.

(** * Process tables *)

(** The lowest free pid, or -1. *)
Fixpoint free_pid (l : list Z) (i : Z) : Z :=
  match l with
  | [] => -1
  | s :: l => if s =? NOT_IN_USE then i else free_pid l (i + 1)
  end.
Definition get_pid (k : kernel) : Z := free_pid (process (k_procs k)) 0.

(** The first terminal with [pid] in one of its six slots, or 0x3F. *)
Fixpoint find_terminal (l : list (list Z)) (i pid : Z) : Z :=
  match l with
  | [] => 0x3F
  | row :: l => if existsb (λ p, p =? pid) row then i else find_terminal l (i + 1) pid
  end.
Definition get_terminal_id (pid : Z) (k : kernel) : Z := find_terminal (process_terminal (k_procs k)) 0 pid.

Definition is_running (terminal_id : Z) (k : kernel) : out Z :=
  if MAX_TERMINAL_NUM <? terminal_id then Done 0x3F
  else r ← must (zget (terminal_running k) terminal_id); Done (if r =? 1 then 1 else 0).

(** [process_terminal[t][i]]. *)
Definition slot (k : kernel) (t i : Z) : out Z :=
  row ← must (zget (process_terminal (k_procs k)) t); must (zget row i).
Definition set_slot (t i v : Z) (p : procs) : out procs :=
  row ← must (zget (process_terminal p) t);
  row ← must (zset row i v);
  rows ← must (zset (process_terminal p) t row);
  Done (Procs (process p) rows (process_terminal_cnt p)).
Definition set_cnt (t v : Z) (p : procs) : out procs :=
  l ← must (zset (process_terminal_cnt p) t (u32 v)); Done (Procs (process p) (process_terminal p) l).
Definition set_process (i v : Z) (p : procs) : out procs :=
  l ← must (zset (process p) i v); Done (Procs l (process_terminal p) (process_terminal_cnt p)).
Definition cnt (k : kernel) (t : Z) : out Z := must (zget (process_terminal_cnt (k_procs k)) t).

(** * Virtual addresses *)
Section virtual.
Context (dir_addr table_addr vidmem_addr : Z).

Definition translation (k : kernel) (a : Z) : option xlat :=
  translate dir_addr table_addr vidmem_addr (k_page k) a.

(** The physical address behind a pointer the kernel is given. *)
Definition phys (k : kernel) (a : Z) : Z :=
  match translation k a with Some x => x_pa x | None => a end.

(** The bytes behind a pointer as the kernel reads them, each through the page
    tables; [None] where the access faults. *)
Definition vview (k : kernel) (a : Z) : str := λ i, x ← translation k (a + i); Some (k_mem k (x_pa x)).

(** A load and a store of user code. *)
Definition user_load (k : kernel) : str := λ a,
  x ← translation k a; if x_user x then Some (k_mem k (x_pa x)) else None.
Definition user_store (a v : Z) (k : kernel) : out kernel :=
  x ← must (translation k a);
  if x_user x && x_write x then Done (set_mem (store8 (k_mem k) (x_pa x) v) k) else Undef.

(** An access to [n] bytes at [a] that does not fault and is contiguous: both
    ends are mapped and in the same 4 MB region. *)
Definition check_range (k : kernel) (a n : Z) : out () :=
  if n <=? 0 then Done () else
  match translation k a, translation k (a + n - 1) with
  | Some _, Some _ => if a / FOUR_MB_SIZE =? (a + n - 1) / FOUR_MB_SIZE then Done () else Undef
  | _, _ => Undef
  end.
End virtual.

(** * Lemmas *)

(** Any stack pointer into the kernel stack of a process finds its block. *)
Lemma stack_pcb p d : 0 <= p < MAX_TASK → 0 <= d <= EIGHT_KB_SIZE - ESP_OFFSET →
  Z.land (EIGHT_MB_SIZE - p * EIGHT_KB_SIZE - ESP_OFFSET - d) PCB_MASK = get_pcb_by_index p.
Proof.
  unfold MAX_TASK, EIGHT_KB_SIZE, EIGHT_MB_SIZE, ESP_OFFSET, PCB_MASK, get_pcb_by_index. intros Hp Hd.
  change 0x7FE000 with (Z.shiftl (Z.ones 10) 13). rewrite land_field by lia.
  change (2 ^ 13) with 8192. change (2 ^ 10) with 1024.
  replace (0x800000 - p * 8192 - 4 - d) with ((8192 - 4 - d) + (1024 - (p + 1)) * 8192) by lia.
  rewrite Z.div_add, Z.div_small, Z.add_0_l, Z.mod_small by lia.
  unfold u32, EIGHT_MB_SIZE, EIGHT_KB_SIZE. rewrite Z.mod_small by lia. lia.
Qed.

Lemma get_pcb_inj p q : 0 <= p < MAX_TASK → 0 <= q < MAX_TASK →
  get_pcb_by_index p = get_pcb_by_index q → p = q.
Proof.
  unfold get_pcb_by_index, MAX_TASK, EIGHT_MB_SIZE, EIGHT_KB_SIZE. intros ??. u32_simpl. lia.
Qed.

Lemma free_pid_spec l : ∀ i, 0 <= i →
  (free_pid l i = -1 ∧ Forall (λ s, s ≠ 0) l) ∨
  (∃ j, free_pid l i = i + Z.of_nat j ∧ l !! j = Some 0 ∧ ∀ j', (j' < j)%nat → ∀ s, l !! j' = Some s → s ≠ 0).
Proof.
  induction l as [|s l IH]; intros i Hi; cbn; [by left|].
  unfold NOT_IN_USE. destruct (Z.eqb_spec s 0) as [->|Hs].
  - right. exists O. split_and!; [lia|done|lia].
  - destruct (IH (i + 1) ltac:(lia)) as [[E H]|(j & E & Hj & H)].
    + left. split; [done|by constructor].
    + right. exists (S j). split_and!; [lia|done|].
      intros [|j'] Hj' s' Hs'; [by injection Hs' as <-|]. apply (H j'); [lia|done].
Qed.
