(* ===== verification/Terminal.v ===== *)
(** The terminal driver of student-distrib/terminal.c: line reads, writes to
    the visible or a background terminal, and saving and restoring a
    terminal's screen and line buffer. *)
From Stdlib Require Import String.
From S2P Require Import Prelude Memory Strings Console Filesystem Paging Pic Rtc Kernel.

Definition KEY_ARR_SIZE_OLD : Z := 128.

Definition terminal_open : Z := 0.
Definition terminal_close : Z := 0.

(** * Saving and restoring *)

(** The eight fields of a [terminal_t] are bytes; [save_fields] stores the
    globals in them. *)
Definition save_fields (keys : list Z) (c : console) (t : terminal_t) : terminal_t :=
  Terminal (terminal_id t) (u8 (screen_x c)) (u8 (screen_y c)) (u8 (key_arr_ptr c))
    (u8 (key_arr_overflow c)) (u8 (row_stack c)) (u8 (column_stack c))
    (keys ++ drop 128 (key_arr_old t)) (screen_buffer t).

Definition save_terminal_info (id : Z) (c : console) : out (Z * console) :=
  if MAX_TERMINAL_NUM <=? id then Done (-1, c) else
  t ← must (zget (terminal_info c) id);
  keys ← strncpy (lview (key_arr c)) KEY_ARR_SIZE_OLD;
  l ← must (zset (terminal_info c) id (save_fields keys c t));
  Done (0, copy_from_screen_buffer (screen_buffer t) (with_terminals l c)).

Definition restore_terminal_info (id : Z) (c : console) : out (Z * console) :=
  if MAX_TERMINAL_NUM <? id then Done (-1, c) else
  t ← must (zget (terminal_info c) id);
  let c := set_cursor_position (screen_pos_x t) (screen_pos_y t) c in
  let c := with_keys (key_arr c) (key_arr_ptr_old t) (key_arr_overflow_old t) c in
  let c := with_row_stack (row_stack_old t) c in
  let c := with_column_stack (column_stack_old t) c in
  keys ← strncpy (lview (key_arr_old t)) KEY_ARR_SIZE_OLD;
  let c := with_keys (keys ++ drop 128 (key_arr c)) (key_arr_ptr c) (key_arr_overflow c) c in
  Done (0, copy_to_screen_buffer (screen_buffer t) c).

Section driver.
Context (dir_addr table_addr vidmem_addr : Z).

(** * Reading a line *)

(** The copy of the line buffer to [buf], with its terminating NUL. *)
Definition copy_line (n buf : Z) (keys : list Z) (m : mem) : mem :=
  store8 (for_range 0 n (λ m i, store8 m (buf + i) (tbl keys i)) m) (buf + n) 0.

(** [typed i] is what interrupt handlers do to the console and [enter_state]
    between the [i]-th and the next test of the wait loop. *)
Definition wait_enter (typed : Z → console * Z → console * Z) (p : Z) (k : kernel) : out (console * Z) :=
  orun (λ '(i, c, e),
    if negb (e =? 0) && (get_terminal_id p k =? current_terminal c) then inr (Done (c, e))
    else let '(c, e) := typed i (c, e) in inl (i + 1, c, e)) (0, k_con k, enter_state k).

Definition terminal_read (typed : Z → console * Z → console * Z) (buf nbytes : Z) (k : kernel)
    : out (Z * kernel) :=
  pcb ← pcb_at k (get_curr_pcb k);
  '(c, _) ← wait_enter typed (pid pcb) k;
  let tid := get_terminal_id (pid pcb) k in
  c ← printf (lview (lit "current tid: %d" ++ [10; 0])) [tid] c;
  let k := with_if true (with_enter 0 (with_con c k)) in
  let n := Z.max 0 (Z.min (key_arr_ptr c) nbytes) in
  _ ← check_range dir_addr table_addr vidmem_addr k buf (n + 1);
  let c := with_mem (copy_line n (phys dir_addr table_addr vidmem_addr k buf) (key_arr c)) c in
  Done (n, with_con (key_arr_clear c) k).

(** * Writing *)

(** Byte [i] of the buffer at [buf], read when it is printed. *)
Definition write_visible (buf n : Z) (c : console) : console :=
  for_range 0 n (λ c i, set_column_stack (putc c (c_mem c (buf + i)))) c.
Definition write_background (tid buf n : Z) (c : console) : out console :=
  for_range 0 n (λ o i, c ← o; putc_terminal (c_mem c (buf + i)) tid c) (Done c).

Definition with_column_stack_old (x : Z) (t : terminal_t) : terminal_t :=
  Terminal (terminal_id t) (screen_pos_x t) (screen_pos_y t) (key_arr_ptr_old t)
    (key_arr_overflow_old t) (row_stack_old t) x (key_arr_old t) (screen_buffer t).

Definition terminal_write (buf nbytes : Z) (k : kernel) : out (Z * kernel) :=
  let k := with_if false k in
  pcb ← pcb_at k (get_curr_pcb k);
  let tid := get_terminal_id (pid pcb) k in
  let n := Z.max 0 nbytes in
  _ ← check_range dir_addr table_addr vidmem_addr k buf n;
  let b := phys dir_addr table_addr vidmem_addr k buf in
  if tid =? current_terminal (k_con k) then
    Done (n, with_if true (with_con (write_visible b n (k_con k)) k))
  else if MAX_TERMINAL_NUM <=? tid then Done (-1, k)
  else
    c ← write_background tid b n (k_con k);
    t ← must (zget (terminal_info c) tid);
    l ← must (zset (terminal_info c) tid (with_column_stack_old (screen_pos_x t) t));
    Done (n, with_if true (with_con (with_terminals l c) k)).
End driver.

(** * The text of every terminal *)

(** The text that terminal [t] shows, or will show when it is switched to. *)
Definition text_of (c : console) (t : Z) : option tscreen :=
  if t =? current_terminal c then Some (abs_video c)
  else (λ i, abs_term t i (c_mem c)) <$> zget (terminal_info c) t.

(** The four text pages: video memory and the background buffers. *)
Definition TEXT_END : Z := VIDEO + 4 * FOUR_KB_SIZE.
Definition outside_text (a n : Z) : Prop := a + n <= VIDEO ∨ TEXT_END <= a.

Lemma saved_screen_at t : 0 <= t < MAX_TERMINAL_NUM → saved_screen t = VIDEO + (t + 1) * 4096.
Proof.
  unfold MAX_TERMINAL_NUM. intros H. assert (t = 0 ∨ t = 1 ∨ t = 2) as [-> | [-> | ->]] by lia; reflexivity.
Qed.

Lemma putc_terminals c ch : terminal_info (putc c ch) = terminal_info c.
Proof. unfold putc, enter_handler, enter_and_scroll, set_cursor_position. repeat case_match; reflexivity. Qed.

Lemma ts_print_snoc attr s cs ch : ts_print attr s (cs ++ [ch]) = ts_putc attr ch (ts_print attr s cs).
Proof. unfold ts_print. by rewrite foldl_app. Qed.

Lemma ts_print_app attr s cs1 cs2 : ts_print attr s (cs1 ++ cs2) = ts_print attr (ts_print attr s cs1) cs2.
Proof. unfold ts_print. by rewrite foldl_app. Qed.

Lemma bytes_of_mem_u8 m a n : mem_ok m → Forall is_u8 (bytes_of (mview m a) n).
Proof. intros H. apply Forall_fmap, Forall_true. intros. apply H. Qed.

Lemma view_frame base x y r m m' : (∀ o, 0 <= o < SCREEN_BYTES → m' (base + o) = m (base + o)) →
  view_at m' base x y r ≡ view_at m base x y r.
Proof. intros H. split_and!; done. Qed.

(** Memory outside the text pages does not matter to the texts. *)
Lemma text_frame c m' : (∀ a, VIDEO <= a < TEXT_END → m' a = c_mem c a) →
  ∀ t, 0 <= t < 3 → ∀ s, text_of c t = Some s → ∃ s', text_of (with_mem (λ _, m') c) t = Some s' ∧ s' ≡ s.
Proof.
  intros H t Ht s. unfold text_of. change (current_terminal (with_mem _ c)) with (current_terminal c).
  change (terminal_info (with_mem _ c)) with (terminal_info c). pose proof (saved_screen_at t Ht) as Es.
  destruct (t =? current_terminal c).
  - intros [= <-]. eexists. split; [reflexivity|]. unfold abs_video. apply view_frame. intros o Ho. apply H.
    unfold TEXT_END, SCREEN_BYTES, FOUR_KB_SIZE in *. lia.
  - destruct (zget (terminal_info c) t) as [i|]; [|done]. intros [= <-]. eexists. split; [reflexivity|].
    apply view_frame. intros o Ho. apply H. unfold TEXT_END, SCREEN_BYTES, FOUR_KB_SIZE in *. lia.
Qed.

(** Reading the buffer while printing reads the bytes it had at the start. *)
Lemma write_visible_spec buf n c : 0 <= n → ts_ok (abs_video c) → mem_ok (c_mem c) →
  outside_text buf n →
  let c' := write_visible buf n c in
  abs_video c' ≡ ts_print (attrib (current_terminal c)) (abs_video c) (bytes_of (mview (c_mem c) buf) n) ∧
  only_in VIDEO (VIDEO + SCREEN_BYTES) (c_mem c) (c_mem c') ∧
  current_terminal c' = current_terminal c ∧ terminal_info c' = terminal_info c.
Proof.
  intros Hn Hok Hm Hout. cbv zeta. unfold write_visible.
  apply (for_range_ind (λ i c', abs_video c' ≡ ts_print (attrib (current_terminal c)) (abs_video c)
      (bytes_of (mview (c_mem c) buf) i) ∧ only_in VIDEO (VIDEO + SCREEN_BYTES) (c_mem c) (c_mem c') ∧
    current_terminal c' = current_terminal c ∧ terminal_info c' = terminal_info c));
    [done|by split_and!|].
  intros i c' Hi (Ha & Ho & Ec & Et).
  assert (Eb : c_mem c' (buf + i) = c_mem c (buf + i)).
  { apply Ho. unfold outside_text, TEXT_END, SCREEN_BYTES, FOUR_KB_SIZE in *. lia. }
  assert (Hok' : ts_ok (abs_video c')) by (rewrite Ha; by apply ts_print_ok).
  destruct (putc_ok c' (c_mem c' (buf + i)) Hok') as [Habs Hmem]; [rewrite Eb; apply Hm|].
  change (abs_video (set_column_stack ?x)) with (abs_video x).
  split_and!.
  - rewrite bytes_of_snoc by lia. rewrite ts_print_snoc. cbn [mview default]. rewrite <- Ha, <- Eb, <- Ec.
    exact Habs.
  - by eapply only_in_trans.
  - cbn. rewrite <- Ec. apply putc_current.
  - cbn. rewrite <- Et. apply putc_terminals.
Qed.

Lemma putc_terminal_keeps ch id c c' : putc_terminal ch id c = Done c' →
  current_terminal c' = current_terminal c ∧ screen_x c' = screen_x c ∧ screen_y c' = screen_y c ∧
  row_stack c' = row_stack c.
Proof.
  unfold putc_terminal. destruct (zget (terminal_info c) id) as [t|]; [|done]. cbn [must mbind out_bind].
  destruct (putc_terminal_state ch id (t, c_mem c)) as [t' m'].
  destruct (zset _ _ _) as [l|]; [|done]. by intros [= <-].
Qed.

Lemma write_background_spec tid buf n c t : 0 <= n → 0 <= tid < MAX_TERMINAL_NUM →
  zget (terminal_info c) tid = Some t → ts_ok (abs_term tid t (c_mem c)) → mem_ok (c_mem c) →
  outside_text buf n →
  ∃ c' t', write_background tid buf n c = Done c' ∧ zget (terminal_info c') tid = Some t' ∧
    abs_term tid t' (c_mem c') ≡
      ts_print (attrib tid) (abs_term tid t (c_mem c)) (bytes_of (mview (c_mem c) buf) n) ∧
    only_in (saved_screen tid) (saved_screen tid + SCREEN_BYTES) (c_mem c) (c_mem c') ∧
    (∀ j, j ≠ tid → zget (terminal_info c') j = zget (terminal_info c) j) ∧
    current_terminal c' = current_terminal c ∧ screen_x c' = screen_x c ∧
    screen_y c' = screen_y c ∧ row_stack c' = row_stack c.
Proof.
  intros Hn Htid Ht Hok Hm Hout. unfold write_background. pose proof (saved_screen_at tid Htid) as Es.
  apply (for_range_ind (λ i o, ∃ c' t', o = Done c' ∧ zget (terminal_info c') tid = Some t' ∧
    abs_term tid t' (c_mem c') ≡
      ts_print (attrib tid) (abs_term tid t (c_mem c)) (bytes_of (mview (c_mem c) buf) i) ∧
    only_in (saved_screen tid) (saved_screen tid + SCREEN_BYTES) (c_mem c) (c_mem c') ∧
    (∀ j, j ≠ tid → zget (terminal_info c') j = zget (terminal_info c) j) ∧
    current_terminal c' = current_terminal c ∧ screen_x c' = screen_x c ∧
    screen_y c' = screen_y c ∧ row_stack c' = row_stack c));
    [done|by exists c, t; split_and!|].
  intros i o Hi (c' & t' & -> & Ht' & Ha & Ho & Hj & Ek). rewrite bind_Done.
  assert (Eb : c_mem c' (buf + i) = c_mem c (buf + i)).
  { apply Ho. unfold outside_text, TEXT_END, SCREEN_BYTES, FOUR_KB_SIZE, MAX_TERMINAL_NUM in *. lia. }
  destruct (print_background tid [c_mem c' (buf + i)] c' t' Ht') as (c2 & t2 & E & Ht2 & Ha2 & Ho2 & Hj2).
  { rewrite Ha. by apply ts_print_ok. }
  { constructor; [rewrite Eb; apply Hm|constructor]. }
  unfold putc_terminal_all in E. cbn [foldl mbind out_bind] in E.
  destruct (putc_terminal_keeps _ _ _ _ E) as (K1 & K2 & K3 & K4). destruct Ek as (L1 & L2 & L3 & L4).
  exists c2, t2. split_and!; [done|done| |by eapply only_in_trans| |congruence..].
  - rewrite Ha2, bytes_of_snoc, ts_print_snoc by lia. unfold ts_print at 1. cbn [foldl mview default].
    rewrite <- Eb. by rewrite Ha.
  - intros j Hne. rewrite Hj2 by done. by apply Hj.
Qed.

Lemma terminal_write_bytes dir_addr table_addr vidmem_addr buf n k r k' : mem_ok (k_mem k) →
  terminal_write dir_addr table_addr vidmem_addr buf n k = Done (r, k') → mem_ok (k_mem k').
Proof.
  intros Hm. unfold terminal_write. destruct (pcb_at _ _) as [p| |]; [|done|done]. rewrite bind_Done.
  destruct (check_range _ _ _ _ _ _); [|done|done]. rewrite bind_Done.
  set (b := phys _ _ _ _ _). clearbody b. destruct (get_terminal_id _ _ =? _).
  - intros [= _ <-]. cbn [k_mem k_con with_if with_con]. unfold write_visible.
    apply (for_range_ind (λ _ c, mem_ok (c_mem c))); [lia|done|]. intros i c _ Hc. by apply putc_bytes.
  - destruct (_ <=? _); [by intros [= _ <-]|]. set (tid := get_terminal_id _ _). clearbody tid.
    assert (Hb : ∀ c, write_background tid b (Z.max 0 n) (k_con (with_if false k)) = Done c → mem_ok (c_mem c)).
    { unfold write_background. apply (for_range_ind (λ _ o, ∀ c, o = Done c → mem_ok (c_mem c))); [lia|by intros c [= <-]|].
      intros i [c| |] _ Hc c'; [|done|done]. rewrite bind_Done. unfold putc_terminal.
      destruct (zget _ _) as [t|]; [|done]. cbn [must]. rewrite bind_Done.
      pose proof (putc_terminal_bytes (c_mem c (b + i)) tid t (c_mem c) (Hc c eq_refl)) as Hp.
      destruct (putc_terminal_state _ _ _) as [t' m']. destruct (zset _ _ _); [|done]. by intros [= <-]. }
    destruct (write_background _ _ _ _) as [c| |]; [|done|done]. rewrite bind_Done.
    destruct (zget _ _) as [t|]; [|done]. cbn [must]. rewrite bind_Done. destruct (zset _ _ _); [|done].
    cbn [must]. rewrite bind_Done. intros [= _ <-]. exact (Hb c eq_refl).
Qed.

(** Printing leaves the keyboard side of the console alone. *)
Record same_keyboard (c c' : console) : Prop := SameKeyboard {
  sk_keys : key_arr c' = key_arr c; sk_ptr : key_arr_ptr c' = key_arr_ptr c;
  sk_overflow : key_arr_overflow c' = key_arr_overflow c; sk_current : current_terminal c' = current_terminal c }.
#[export] Instance same_keyboard_preorder : PreOrder same_keyboard.
Proof. split; [by split|]. intros c1 c2 c3 [] []. split; congruence. Qed.

Lemma putc_keyboard c ch : same_keyboard c (putc c ch).
Proof. unfold putc, enter_handler, enter_and_scroll, set_cursor_position. repeat case_match; by split. Qed.
Lemma enter_keyboard c : same_keyboard c (enter_handler c).
Proof. unfold enter_handler, enter_and_scroll, set_cursor_position. repeat case_match; by split. Qed.
Lemma print_keyboard cs c : same_keyboard c (foldl putc c cs).
Proof. revert c. induction cs as [|ch cs IH]; intros c; cbn; [done|]. etrans; [apply putc_keyboard|apply IH]. Qed.
Lemma print_infos cs c : terminal_info (foldl putc c cs) = terminal_info c.
Proof. revert c. induction cs as [|ch cs IH]; intros c; cbn; [done|]. by rewrite IH, putc_terminals. Qed.
Lemma print_bytes cs c : mem_ok (c_mem c) → mem_ok (c_mem (foldl putc c cs)).
Proof. revert c. induction cs as [|ch cs IH]; intros c H; cbn; [done|]. by apply IH, putc_bytes. Qed.
Lemma write_visible_keyboard buf n c : 0 <= n → same_keyboard c (write_visible buf n c).
Proof.
  intros Hn. unfold write_visible. apply (for_range_ind (λ _ c', same_keyboard c c')); [done|done|].
  intros i c' _ H. etrans; [exact H|]. destruct (putc_keyboard c' (c_mem c' (buf + i))). by split.
Qed.
Lemma write_background_keyboard tid buf n c c' : 0 <= n → write_background tid buf n c = Done c' → same_keyboard c c'.
Proof.
  intros Hn. unfold write_background. revert c'. apply (for_range_ind (λ _ o, ∀ c', o = Done c' → same_keyboard c c')); [done|by intros c' [= <-]|].
  intros i [c1| |] _ H c'; [|done|done]. rewrite bind_Done. unfold putc_terminal.
  destruct (zget _ _) as [t|]; [|done]. cbn [must]. rewrite bind_Done. destruct (putc_terminal_state _ _ _) as [t' m'].
  destruct (zset _ _ _); [|done]. cbn [must]. rewrite bind_Done. intros [= <-]. destruct (H c1 eq_refl). by split.
Qed.
Lemma terminal_write_keyboard dir_addr table_addr vidmem_addr buf n k r k' :
  terminal_write dir_addr table_addr vidmem_addr buf n k = Done (r, k') →
  same_keyboard (k_con k) (k_con k') ∧ enter_state k' = enter_state k.
Proof.
  unfold terminal_write. destruct (pcb_at _ _) as [p| |]; [|done|done]. rewrite bind_Done.
  destruct (check_range _ _ _ _ _ _); [|done|done]. rewrite bind_Done.
  set (b := phys _ _ _ _ _). clearbody b. destruct (get_terminal_id _ _ =? _).
  - intros [= _ <-]. split; [|done]. apply (write_visible_keyboard b (Z.max 0 n) (k_con k)). lia.
  - destruct (_ <=? _); [by intros [= _ <-]|]. destruct (write_background _ _ _ _) as [c| |] eqn:E; [|done|done]. rewrite bind_Done.
    destruct (zget _ _) as [t|]; [|done]. cbn [must]. rewrite bind_Done. destruct (zset _ _ _); [|done].
    cbn [must]. rewrite bind_Done. intros [= _ <-]. split; [|done]. apply write_background_keyboard in E; [|lia]. destruct E. by split.
Qed.
(** Printing no bytes stores nothing. *)
Lemma terminal_write_nothing dir_addr table_addr vidmem_addr buf k r k' :
  terminal_write dir_addr table_addr vidmem_addr buf 0 k = Done (r, k') → k_mem k' = k_mem k.
Proof.
  unfold terminal_write. destruct (pcb_at _ _) as [p| |]; [|done|done]. rewrite bind_Done.
  destruct (check_range _ _ _ _ _ _); [|done|done]. rewrite bind_Done. set (b := phys _ _ _ _ _). clearbody b. destruct (get_terminal_id _ _ =? _).
  - by intros [= _ <-].
  - destruct (_ <=? _); [by intros [= _ <-]|]. change (write_background ?t b (Z.max 0 0) ?c) with (Done c). rewrite bind_Done.
    destruct (zget _ _) as [t|]; [|done]. cbn [must]. rewrite bind_Done. destruct (zset _ _ _); [|done]. cbn [must]. rewrite bind_Done. by intros [= _ <-].
Qed.

Section write.
Context (dir_addr table_addr vidmem_addr : Z).
Context (buf n : Z) (k : kernel) (p : pcb_t).
Let b := phys dir_addr table_addr vidmem_addr k buf.
Let c := k_con k.
Let tid := get_terminal_id (pid p) k.
Context (Hpcb : k_pcbs k !! get_curr_pcb k = Some p) (Htid : 0 <= tid < MAX_TERMINAL_NUM).
Context (Hcur : 0 <= current_terminal c < MAX_TERMINAL_NUM) (Hn : 0 <= n).
Context (Hrange : check_range dir_addr table_addr vidmem_addr k buf n = Done ()).
Context (Hb : outside_text b n) (Hm : mem_ok (c_mem c)) (Hinfo : length (terminal_info c) = 3%nat).
Context (Htext : ∀ s, text_of c tid = Some s → ts_ok s).

Lemma terminal_write_full :
  ∃ c' s s', terminal_write dir_addr table_addr vidmem_addr buf n k = Done (n, with_if true (with_con c' k)) ∧
    text_of c tid = Some s ∧ text_of c' tid = Some s' ∧
    s' ≡ ts_print (attrib tid) s (bytes_of (mview (c_mem c) b) n) ∧
    (∀ j, 0 <= j < MAX_TERMINAL_NUM → j ≠ tid → ∃ u u', text_of c j = Some u ∧ text_of c' j = Some u' ∧ u' ≡ u) ∧
    only_in VIDEO TEXT_END (c_mem c) (c_mem c') ∧ current_terminal c' = current_terminal c ∧
    length (terminal_info c') = length (terminal_info c).
Proof.
  assert (Hlook : ∀ j, 0 <= j < MAX_TERMINAL_NUM → ∃ t, zget (terminal_info c) j = Some t).
  { intros j Hj. apply zget_is_Some. unfold MAX_TERMINAL_NUM in *. lia. }
  unfold terminal_write, pcb_at.
  change (k_pcbs (with_if false k)) with (k_pcbs k).
  change (get_curr_pcb (with_if false k)) with (get_curr_pcb k). rewrite Hpcb. cbn [must mbind out_bind].
  change (get_terminal_id (pid p) (with_if false k)) with tid.
  rewrite Z.max_r by done.
  change (check_range dir_addr table_addr vidmem_addr (with_if false k) buf n)
    with (check_range dir_addr table_addr vidmem_addr k buf n).
  change (phys dir_addr table_addr vidmem_addr (with_if false k) buf) with b.
  change (k_con (with_if false k)) with c. rewrite Hrange. cbn [mbind out_bind].
  unfold text_of in *. destruct (Z.eqb_spec tid (current_terminal c)) as [Et|Et].
  - destruct (write_visible_spec b n c Hn (Htext _ eq_refl) Hm Hb) as (Ha & Ho & Ec & Ei).
    eexists (write_visible b n c), _, _. split; [reflexivity|].
    rewrite Ec, Ei. rewrite <- Et, Z.eqb_refl in *. split_and!; [done|done|exact Ha| |by eapply only_in_weaken; [..|exact Ho]|done|done].
    intros j Hj Hne. rewrite (proj2 (Z.eqb_neq j tid) Hne). destruct (Hlook j Hj) as [t Ht]. rewrite Ht.
    do 2 eexists. split; [done|]. split; [done|]. apply view_frame. intros o Hor. apply Ho.
    rewrite (saved_screen_at j Hj). unfold SCREEN_BYTES, MAX_TERMINAL_NUM in *. lia.
  - rewrite (proj2 (Z.leb_gt _ _)) by lia. destruct (Hlook tid Htid) as [t Ht]. rewrite Ht in Htext.
    destruct (write_background_spec tid b n c t Hn Htid Ht (Htext _ eq_refl) Hm Hb)
      as (c' & t' & -> & Ht' & Ha & Ho & Hj & Ec & Ex & Ey & Er).
    rewrite bind_Done, Ht'. cbn [must mbind out_bind]. apply zget_Some in Ht' as Hl.
    destruct Hl as [_ Hl%lookup_lt_Some]. rewrite zset_in by lia. cbn [must mbind out_bind].
    pose proof (saved_screen_at tid Htid) as Es.
    eexists (with_terminals _ c'), _, _. split; [reflexivity|]. cbn [with_terminals terminal_info current_terminal c_mem].
    rewrite Ec, Ht, (proj2 (Z.eqb_neq _ _) Et), zget_insert_eq by lia.
    split_and!; [done|done|exact Ha| | |done|].
    + intros j Hjr Hne. destruct (Z.eqb_spec j (current_terminal c)).
      * do 2 eexists. split; [done|]. split; [done|]. unfold abs_video. cbn [screen_x screen_y row_stack c_mem with_terminals].
        rewrite Ex, Ey, Er. apply view_frame. intros o Hor. apply Ho.
        unfold SCREEN_BYTES, MAX_TERMINAL_NUM in *. lia.
      * rewrite zget_insert_ne, Hj by (lia || done). destruct (Hlook j Hjr) as [u Hu]. rewrite Hu.
        do 2 eexists. split; [done|]. split; [done|]. apply view_frame. intros o Hor. apply Ho.
        rewrite (saved_screen_at j Hjr). unfold SCREEN_BYTES, MAX_TERMINAL_NUM in *. lia.
    + eapply only_in_weaken; [| |exact Ho]; unfold TEXT_END, SCREEN_BYTES, FOUR_KB_SIZE, MAX_TERMINAL_NUM in *; lia.
    + rewrite length_insert. apply zget_same_length. intros j. destruct (decide (j = tid)) as [->|Hne]; [|by rewrite Hj].
      rewrite Ht, Ht'. split; by eexists.
Qed.

Lemma terminal_write_spec :
  ∃ k' s s', terminal_write dir_addr table_addr vidmem_addr buf n k = Done (n, k') ∧ k_if k' = true ∧
    text_of c tid = Some s ∧ text_of (k_con k') tid = Some s' ∧
    s' ≡ ts_print (attrib tid) s (bytes_of (mview (c_mem c) b) n) ∧
    ∀ j, 0 <= j < MAX_TERMINAL_NUM → j ≠ tid → ∃ u u', text_of c j = Some u ∧
      text_of (k_con k') j = Some u' ∧ u' ≡ u.
Proof.
  destruct terminal_write_full as (c' & s & s' & E & H1 & H2 & H3 & H4 & _). exists (with_if true (with_con c' k)), s, s'.
  split_and!; [exact E|done|done|done|done|done].
Qed.
End write.

(** * Theorems *)

(** The switch copies: the screen to the buffer, and back. *)
Lemma copy_out_spec t c a : 0 <= t < MAX_TERMINAL_NUM →
  c_mem (copy_from_screen_buffer (saved_screen t) c) a =
  copied (c_mem c) (saved_screen t) VIDEO SCREEN_BYTES a.
Proof.
  intros Ht. cbn [copy_from_screen_buffer with_mem c_mem].
  change (Z.shiftl (NUM_COLS * NUM_ROWS) 1) with SCREEN_BYTES. apply memcpy_copied.
  right. rewrite (saved_screen_at t Ht). unfold SCREEN_BYTES, MAX_TERMINAL_NUM in *. lia.
Qed.
Lemma copy_in_spec t c a : 0 <= t < MAX_TERMINAL_NUM →
  c_mem (copy_to_screen_buffer (saved_screen t) c) a =
  copied (c_mem c) VIDEO (saved_screen t) SCREEN_BYTES a.
Proof.
  intros Ht. cbn [copy_to_screen_buffer with_mem c_mem].
  change (Z.shiftl (NUM_COLS * NUM_ROWS) 1) with SCREEN_BYTES. apply memcpy_copied.
  left. rewrite (saved_screen_at t Ht). unfold MAX_TERMINAL_NUM in *. lia.
Qed.

Lemma abs_copy_in t c : 0 <= t < MAX_TERMINAL_NUM →
  abs_video (copy_to_screen_buffer (saved_screen t) c) ≡
  view_at (c_mem c) (saved_screen t) (screen_x c) (screen_y c) (row_stack c).
Proof.
  intros Ht. pose proof (λ a, copy_in_spec t c a Ht) as H. unfold abs_video.
  change (screen_x (copy_to_screen_buffer ?b c)) with (screen_x c).
  change (screen_y (copy_to_screen_buffer ?b c)) with (screen_y c).
  change (row_stack (copy_to_screen_buffer ?b c)) with (row_stack c).
  revert H. generalize (c_mem (copy_to_screen_buffer (saved_screen t) c)). intros m H.
  split_and!; try done. intros o Ho. change (m (VIDEO + o) = c_mem c (saved_screen t + o)). rewrite H. unfold copied.
  rewrite (proj2 (Z.leb_le _ _)), (proj2 (Z.ltb_lt _ _)) by lia. cbn. f_equal. lia.
Qed.

Lemma save_spec id c t : 0 <= id < MAX_TERMINAL_NUM → zget (terminal_info c) id = Some t →
  screen_buffer t = saved_screen id → keys_ok c → length (key_arr_old t) = 129%nat →
  ∃ keys, Z.of_nat (length keys) = 128 ∧
    save_terminal_info id c = Done (0, copy_from_screen_buffer (saved_screen id)
      (with_terminals (<[Z.to_nat id := save_fields keys c t]> (terminal_info c)) c)) ∧
    (∀ j, 0 <= j < 128 → (∀ i, 0 <= i <= j → zget (key_arr c) i ≠ Some 0) →
       zget keys j = zget (key_arr c) j).
Proof.
  intros Hid Ht Hbuf (_ & _ & _ & Hl) Hold. unfold KEY_ARR_SIZE in Hl.
  destruct (strncpy_prefix (lview (key_arr c)) KEY_ARR_SIZE_OLD) as (keys & E & El & Hk); [done| |].
  { intros i Hi. destruct (zget_is_Some (key_arr c) i) as [x Hx]; [unfold KEY_ARR_SIZE_OLD in Hi; lia|].
    by exists x. }
  exists keys. split; [done|]. split; [|done]. unfold save_terminal_info.
  destruct (Z.leb_spec MAX_TERMINAL_NUM id); [lia|]. rewrite Ht, E. cbn [must mbind out_bind].
  apply zget_Some in Ht as [_ Ht%lookup_lt_Some]. rewrite zset_in by lia. by rewrite Hbuf.
Qed.

Lemma zget_app_l {A} (l r : list A) i : i < Z.of_nat (length l) → zget (l ++ r) i = zget l i.
Proof.
  intros H. unfold zget. destruct (Z.ltb_spec i 0); [done|]. apply lookup_app_l. lia.
Qed.

(** The console just before the screen is copied back. *)
Definition restored (t : terminal_t) (keys : list Z) (c : console) : console :=
  let c := set_cursor_position (screen_pos_x t) (screen_pos_y t) c in
  let c := with_keys (key_arr c) (key_arr_ptr_old t) (key_arr_overflow_old t) c in
  let c := with_row_stack (row_stack_old t) c in
  let c := with_column_stack (column_stack_old t) c in
  with_keys (keys ++ drop 128 (key_arr c)) (key_arr_ptr c) (key_arr_overflow c) c.

Lemma restore_eq id c t keys : 0 <= id < MAX_TERMINAL_NUM → zget (terminal_info c) id = Some t →
  strncpy (lview (key_arr_old t)) KEY_ARR_SIZE_OLD = Done keys →
  restore_terminal_info id c = Done (0, copy_to_screen_buffer (screen_buffer t) (restored t keys c)).
Proof.
  intros Hid Ht E. unfold restore_terminal_info. rewrite (proj2 (Z.ltb_ge _ _)) by lia.
  rewrite Ht. cbn [must]. rewrite bind_Done. cbv zeta. by rewrite E, bind_Done.
Qed.

Lemma restored_fields t keys c : 0 <= screen_pos_y t < NUM_ROWS →
  c_mem (restored t keys c) = c_mem c ∧ screen_x (restored t keys c) = screen_pos_x t ∧
  screen_y (restored t keys c) = screen_pos_y t ∧ row_stack (restored t keys c) = row_stack_old t.
Proof.
  intros Hy. unfold restored, set_cursor_position. rewrite (proj2 (Z.leb_gt _ _)) by lia.
  by split_and!.
Qed.

Lemma restore_spec id c t : 0 <= id < MAX_TERMINAL_NUM → zget (terminal_info c) id = Some t →
  screen_buffer t = saved_screen id → length (key_arr_old t) = 129%nat →
  0 <= screen_pos_y t < NUM_ROWS →
  ∃ c', restore_terminal_info id c = Done (0, c') ∧
    abs_video c' ≡ abs_term id t (c_mem c) ∧ column_stack c' = column_stack_old t ∧
    key_arr_ptr c' = key_arr_ptr_old t ∧ key_arr_overflow c' = key_arr_overflow_old t ∧
    (∀ j, 0 <= j < 128 → (∀ i, 0 <= i <= j → zget (key_arr_old t) i ≠ Some 0) →
       zget (key_arr c') j = zget (key_arr_old t) j) ∧
    terminal_info c' = terminal_info c ∧ current_terminal c' = current_terminal c ∧
    only_in VIDEO (VIDEO + SCREEN_BYTES) (c_mem c) (c_mem c') ∧ (mem_ok (c_mem c) → mem_ok (c_mem c')).
Proof.
  intros Hid Ht Hbuf Hold Hy.
  destruct (strncpy_prefix (lview (key_arr_old t)) KEY_ARR_SIZE_OLD) as (keys & E & El & Hk); [done| |].
  { intros i Hi. destruct (zget_is_Some (key_arr_old t) i) as [x Hx]; [unfold KEY_ARR_SIZE_OLD in Hi; lia|].
    by exists x. }
  eexists. split; [by apply restore_eq|]. rewrite Hbuf.
  destruct (restored_fields t keys c Hy) as (Em & Ex & Ey & Er). split; [|split_and!; [done|done|done| |done|done| |]].
  - rewrite abs_copy_in, Em, Ex, Ey, Er by done. done.
  - intros j Hj Hnz. change (zget (keys ++ drop 128 (key_arr c)) j = zget (key_arr_old t) j).
    rewrite zget_app_l by (unfold KEY_ARR_SIZE_OLD in El; lia). by apply Hk.
  - intros a Ha. rewrite (copy_in_spec id _ a Hid), Em. unfold copied. zcase; done.
  - intros Hm a. rewrite (copy_in_spec id _ a Hid), Em. by apply copied_ok.
Qed.

(** C16. Switching away and back.  Saving a terminal keeps the visible screen; whatever happens
    to the console afterwards, as long as the terminal's record and its
    background buffer are left alone, restoring it brings back its text,
    position and wrapped rows, its prompt column, and the characters of the
    line being typed, provided none of them is NUL. *)
Theorem save_restore_roundtrip (id : Z) (c : console) (t : terminal_t)
    (Hid : 0 <= id < MAX_TERMINAL_NUM) (Ht : zget (terminal_info c) id = Some t)
    (Hbuf : screen_buffer t = saved_screen id) (Hold : length (key_arr_old t) = 129%nat)
    (Hok : ts_ok (abs_video c)) (Hkeys : keys_ok c) (Hcol : is_u8 (column_stack c))
    (Hnz : ∀ i, 0 <= i < key_arr_ptr c → zget (key_arr c) i ≠ Some 0) :
  ∃ c1, save_terminal_info id c = Done (0, c1) ∧ abs_video c1 ≡ abs_video c ∧
    ∀ c2, zget (terminal_info c2) id = zget (terminal_info c1) id →
      (∀ o, 0 <= o < SCREEN_BYTES →
         c_mem c2 (saved_screen id + o) = c_mem c1 (saved_screen id + o)) →
      ∃ c3, restore_terminal_info id c2 = Done (0, c3) ∧ abs_video c3 ≡ abs_video c ∧
        column_stack c3 = column_stack c ∧ key_arr_ptr c3 = key_arr_ptr c ∧
        key_arr_overflow c3 = key_arr_overflow c ∧
        ∀ i, 0 <= i < key_arr_ptr c → zget (key_arr c3) i = zget (key_arr c) i.
Proof.
  destruct (save_spec id c t Hid Ht Hbuf Hkeys Hold) as (keys & El & E & Hk).
  eexists. split; [exact E|]. set (c1 := copy_from_screen_buffer _ _).
  pose proof (saved_screen_at id Hid) as Es. unfold MAX_TERMINAL_NUM in Hid.
  assert (Hmem : ∀ a, c_mem c1 a = copied (c_mem c) (saved_screen id) VIDEO SCREEN_BYTES a)
    by (intros a; etrans; [by apply copy_out_spec|done]).
  assert (Hget : zget (terminal_info c1) id = Some (save_fields keys c t)).
  { cbn. apply zget_Some in Ht as [_ Ht%lookup_lt_Some]. apply zget_insert_eq. lia. }
  assert (Hpos : screen_x c1 = screen_x c ∧ screen_y c1 = screen_y c ∧ row_stack c1 = row_stack c) by done.
  clearbody c1. split.
  - destruct Hpos as (Px & Py & Pr). unfold abs_video. rewrite Px, Py, Pr. apply view_frame.
    intros o Ho. rewrite Hmem. unfold copied, SCREEN_BYTES in *. zcase.
  - intros c2 Ht2 Hm2. rewrite Hget in Ht2. destruct Hok as (Hx & Hy & Hr). cbn in Hx, Hy, Hr.
    destruct Hkeys as (Hp & Hov & _ & Hl). unfold NUM_ROWS, NUM_COLS, KEY_ARR_SIZE in *.
    destruct (restore_spec id c2 (save_fields keys c t)) as (c3 & E3 & Ha & Ecol & Eptr & Eov & Hk3 & _);
      [unfold MAX_TERMINAL_NUM; lia|done|done|cbn; rewrite length_app, length_drop; lia| |].
    { cbn. unfold NUM_ROWS. u8_simpl. lia. }
    exists c3. cbn [column_stack_old key_arr_ptr_old key_arr_overflow_old save_fields] in Ecol, Eptr, Eov.
    unfold is_u8 in Hcol. rewrite u8_id in Ecol, Eptr, Eov by (split; lia).
    split_and!; try done.
    + rewrite Ha. unfold abs_term. cbn [screen_pos_x screen_pos_y row_stack_old save_fields].
      u8_simpl. split_and!; try done. intros o Ho.
      change (c_mem c2 (saved_screen id + o) = c_mem c (VIDEO + o)). rewrite Hm2, Hmem by done. unfold copied.
      rewrite (proj2 (Z.leb_le _ _)), (proj2 (Z.ltb_lt _ _)) by lia. cbn. f_equal. lia.
    + assert (Hpre : ∀ i, 0 <= i < key_arr_ptr c →
        zget (key_arr_old (save_fields keys c t)) i = zget (key_arr c) i).
      { intros i Hi. cbn. rewrite zget_app_l by lia. apply Hk; [lia|]. intros i' Hi'. apply Hnz. lia. }
      intros i Hi. rewrite Hk3; [by apply Hpre|lia|]. intros i' Hi'. rewrite Hpre by lia. apply Hnz. lia.
Qed.

Definition console1 : console :=
  Console (λ a, a mod 256) 5 7 0 3 ([104; 105] ++ replicate 385 0) 2 0 1
    (map (λ i, Terminal i 0 0 0 0 0 0 (replicate 129 0) (saved_screen i)) [0; 1; 2]) [].

Lemma console1_ok : ts_ok (abs_video console1) ∧ keys_ok console1.
Proof. unfold ts_ok, keys_ok. cbn. unfold NUM_COLS, NUM_ROWS, KEY_ARR_SIZE. lia. Qed.

Lemma save_restore_roundtrip_witness :
  ∃ c1 c3, save_terminal_info 1 console1 = Done (0, c1) ∧
    restore_terminal_info 1 (with_xy 0 0 (with_keys (replicate 387 0) 0 0 c1)) = Done (0, c3) ∧
    screen_y c3 = 7 ∧ zget (key_arr c3) 1 = Some 105.
Proof.
  destruct console1_ok as [H1 H2].
  destruct (save_restore_roundtrip 1 console1 (Terminal 1 0 0 0 0 0 0 (replicate 129 0) (saved_screen 1)))
    as (c1 & E1 & _ & Hr); try done.
  - intros i Hi. cbn in Hi. assert (i = 0 ∨ i = 1) as [-> | ->] by lia; done.
  - destruct (Hr (with_xy 0 0 (with_keys (replicate 387 0) 0 0 c1))) as (c3 & E3 & Ha & _ & _ & _ & Hk);
      [done|done|].
    exists c1, c3. split_and!; [exact E1|exact E3| |].
    + destruct Ha as (_ & Hy & _). exact Hy.
    + rewrite Hk; [reflexivity|split; reflexivity || (cbn; lia)].
Defined.

(** Writing to a terminal.  [terminal_write] prints on the terminal of
    the calling process, displayed or not: that terminal's text becomes what
    the abstract screen prints for the [n] bytes of the buffer, no other
    terminal's text changes, [n] is returned and interrupts are enabled. *)
Theorem terminal_write_prints (dir_addr table_addr vidmem_addr buf n : Z) (k : kernel) (p : pcb_t)
    (Hpcb : k_pcbs k !! get_curr_pcb k = Some p)
    (Htid : 0 <= get_terminal_id (pid p) k < MAX_TERMINAL_NUM)
    (Hcur : 0 <= current_terminal (k_con k) < MAX_TERMINAL_NUM) (Hn : 0 <= n)
    (Hrange : check_range dir_addr table_addr vidmem_addr k buf n = Done ())
    (Hb : outside_text (phys dir_addr table_addr vidmem_addr k buf) n) (Hm : mem_ok (k_mem k))
    (Hinfo : length (terminal_info (k_con k)) = 3%nat)
    (Htext : ∀ s, text_of (k_con k) (get_terminal_id (pid p) k) = Some s → ts_ok s) :
  let tid := get_terminal_id (pid p) k in
  ∃ k' s s', terminal_write dir_addr table_addr vidmem_addr buf n k = Done (n, k') ∧ k_if k' = true ∧
    text_of (k_con k) tid = Some s ∧ text_of (k_con k') tid = Some s' ∧
    s' ≡ ts_print (attrib tid) s
           (bytes_of (mview (k_mem k) (phys dir_addr table_addr vidmem_addr k buf)) n) ∧
    ∀ j, 0 <= j < MAX_TERMINAL_NUM → j ≠ tid → ∃ u u', text_of (k_con k) j = Some u ∧
      text_of (k_con k') j = Some u' ∧ u' ≡ u.
Proof. exact (terminal_write_spec _ _ _ buf n k p Hpcb Htid Hcur Hn Hrange Hb Hm Hinfo Htext). Qed.

(** A kernel in which process 1 runs on terminal 1, for the witness. *)
Definition pcb1 : pcb_t :=
  Pcb (replicate 8 (FileDesc None 0 0 0)) 1 0 0 0 0 0 (replicate 100 0) 0x3F signal_default.
Definition kernel1 : kernel :=
  Kernel console1 (Fs 0 0 0 0 0 0 0 0)
    (tables_after 0x500000 0x501000 0x502000 boot0 [MapProgram 1]) (Pic 0 0 []) rtc0
    (Procs [1; 1; 0; 0; 0; 0] [[0; 0; 0; 0; 0; 0]; [1; 0; 0; 0; 0; 0]; [0; 0; 0; 0; 0; 0]] [1; 1; 0])
    {[get_pcb_by_index 1 := pcb1]} 1 [1; 1; 0] 0 (0x800000 - 8192 - 4) 0 (0x800000 - 8192 - 4) 0 true.

Lemma terminal_write_prints_witness :
  ∃ k', terminal_write 0x500000 0x501000 0x502000 0x8048041 2 kernel1 = Done (2, k') ∧ k_if k' = true.
Proof.
  assert (Ephys : phys 0x500000 0x501000 0x502000 kernel1 0x8048041 = 0xC48041) by by vm_compute.
  destruct (terminal_write_prints 0x500000 0x501000 0x502000 0x8048041 2 kernel1 pcb1)
    as (k' & _ & _ & E & Hif & _).
  - reflexivity.
  - by split.
  - by split.
  - lia.
  - by vm_compute.
  - rewrite Ephys. right. by vm_compute.
  - intros a. apply Z.mod_pos_bound. lia.
  - reflexivity.
  - intros s [= <-]. apply console1_ok.
  - exists k'. split; [exact E|exact Hif].
Defined.
