(* ===== verification/Syscall.v ===== *)
(** The system calls of student-distrib/syscall.c: the file-descriptor calls
    and their dispatch to the drivers, arguments, signals, and the life of a
    process from execute to halt. *)
From Stdlib Require Import String.
From stdpp Require Import gmap.
From S2P Require Import Prelude Memory Strings Console Filesystem Paging Pic Rtc Kernel Terminal.

Definition RTC_TYPE : Z := 0.
Definition DIR_TYPE : Z := 1.
Definition REGULAR_FILE : Z := 2.
Definition ENTRY_POINT : Z := 24.
Definition PROGRAM_OFFSET : Z := 0x8048000.
Definition EXCEPTION_MAGIC : Z := 0xF.
Definition EXCEPTION_RET : Z := 256.
Definition NO_SIGNAL : Z := 0x3F.

(** How a call ends: it returns to its caller, control enters user code by
    [iret], or the kernel calls a user's signal handler. *)
Inductive outcome : Type := Return (r : Z) | Enter (eip esp : Z) | Handler (address signum : Z).

Definition store32 (m : mem) (a v : Z) : mem :=
  store8 (store8 (store8 (store8 m a v) (a + 1) (v / 2 ^ 8)) (a + 2) (v / 2 ^ 16)) (a + 3) (v / 2 ^ 24).

(** * Parsing a command line (the first part of [execute]) *)
Definition skip_spaces (command : str) : out Z :=
  orun (λ i, match command i with
    | None => inr Undef
    | Some c => if c =? 32 then inl (i + 1) else inr (Done i)
    end) 0.
Definition word_length (command : str) (start : Z) : out Z :=
  orun (λ len, match command (start + len) with
    | None => inr Undef
    | Some c => if negb (c =? 32) && negb (c =? 10) && negb (c =? 0) then inl (len + 1)
                else inr (Done len)
    end) 0.

(** The name copied to [exe_name[32]], or the message of a refusal. *)
Definition copy_name (command : str) (start len : Z) : out (string + list Z) :=
  orun (λ '(i, name),
    if i <? start + len then
      if KEY_ARR_SIZE - 1 <? i then inr (Done (inl ">>>>>>>> keyboard array overflow <<<<<<<<<"%string)) else
      if F_TYPE_OFFSET <? i - start then inr (Done (inl ">>>>>>>> Commond is too long! <<<<<<<<<"%string)) else
      if F_TYPE_OFFSET <=? i - start then inr Undef else
      match command i with
      | None => inr Undef
      | Some c => inl (i + 1, name ++ [c])
      end
    else
      let k := if F_TYPE_OFFSET <=? i - start then F_TYPE_OFFSET - 1 else i - start in
      inr (Done (inr (take (Z.to_nat k) name ++ [0])))) (start, []).

(** The rest of the line, copied to [args_buf[100]]. *)
Definition copy_args (command : str) (from : Z) : out (list Z) :=
  orun (λ '(i, args), match command i with
    | None => inr Undef
    | Some c =>
        if ARG_MAX <=? i - from then inr Undef
        else if negb (c =? 10) && negb (c =? 0) then inl (i + 1, args ++ [c])
        else inr (Done (args ++ [0]))
    end) (from, []).

Definition parse_command (command : str) : out (string + list Z * list Z) :=
  start ← skip_spaces command;
  len ← word_length command start;
  name ← copy_name command start len;
  match name with
  | inl msg => Done (inl msg)
  | inr name => args ← copy_args command (start + len); Done (inr (name, args))
  end.

Section syscalls.
Context (dir_addr table_addr vidmem_addr : Z).
(** Where the stack locals of [execute] and [open] are, and what an
    uninitialised [dentry_t] holds. *)
Context (magics : Z) (stack_dentry : dentry_t).

Definition va (k : kernel) (a : Z) : Z := phys dir_addr table_addr vidmem_addr k a.
Definition at_user (k : kernel) (a : Z) : str := vview dir_addr table_addr vidmem_addr k a.
Definition range (k : kernel) (a n : Z) : out () := check_range dir_addr table_addr vidmem_addr k a n.

(** * Driver dispatch *)
Definition file_at (p : pcb_t) (fd : Z) : out file_desc_t := must (zget (files p) fd).
Definition set_file (fd : Z) (f : file_desc_t) (p : pcb_t) : out pcb_t :=
  l ← must (zset (files p) fd f); Done (with_files l p).

(** [file_read] of filesystem.c. *)
Definition file_read (fd buf nbytes : Z) (k : kernel) : out (Z * kernel) :=
  let a := get_curr_pcb k in
  p ← pcb_at k a;
  d ← file_at p fd;
  '(res, m) ← read_data (k_mem k) (k_fs k) (inode d) (file_pos d) (va k buf) (u32 nbytes);
  _ ← range k buf res;
  p ← set_file fd (FileDesc (ptrs d) (inode d) (u32 (file_pos d + res)) (flags d)) p;
  Done (res, set_pcb a p (set_mem m k)).

Definition dir_read_call (buf nbytes : Z) (k : kernel) : out (Z * kernel) :=
  '(r, m, f) ← dir_read (k_mem k) (k_fs k) stack_dentry (va k buf) nbytes;
  _ ← (if dir_location (k_fs k) <? num_dentries (k_fs k) then range k buf F_TYPE_OFFSET else Done ());
  Done (r, with_fs f (set_mem m k)).

Definition call_open (f : option file_operation_ptrs) (k : kernel) : out (Z * kernel) :=
  match f with
  | None => Undef
  | Some fail_funcs => Done (-1, k)
  | Some stdin_funcs | Some stdout_funcs => Done (terminal_open, k)
  | Some dir_funcs => let '(r, f) := dir_open (k_fs k) in Done (r, with_fs f k)
  | Some rtc_funcs =>
      '(r, s, b) ← rtc_open (running_terminal k) (k_rtc k);
      Done (r, with_if b (with_pic_rtc (k_pic k) s k))
  | Some file_funcs => Done (file_open, k)
  end.

Definition call_close (f : option file_operation_ptrs) : out Z :=
  match f with
  | None => Undef
  | Some fail_funcs => Done (-1)
  | Some stdin_funcs | Some stdout_funcs => Done terminal_close
  | Some dir_funcs => Done dir_close
  | Some rtc_funcs => Done rtc_close
  | Some file_funcs => Done file_close
  end.

(** [typed] and [ticks] are what interrupts do while a read blocks. *)
Definition call_read (typed : Z → console * Z → console * Z) (ticks : Z → nat)
    (f : option file_operation_ptrs) (fd buf nbytes : Z) (k : kernel) : out (Z * kernel) :=
  match f with
  | None => Undef
  | Some fail_funcs | Some stdout_funcs => Done (-1, k)
  | Some stdin_funcs => terminal_read dir_addr table_addr vidmem_addr typed buf nbytes k
  | Some dir_funcs => dir_read_call buf nbytes k
  | Some rtc_funcs =>
      '(r, p, s) ← rtc_read (running_terminal k) ticks (k_pic k) (k_rtc k);
      Done (r, with_pic_rtc p s k)
  | Some file_funcs => file_read fd buf nbytes k
  end.

Definition call_write (f : option file_operation_ptrs) (fd buf nbytes : Z) (k : kernel)
    : out (Z * kernel) :=
  match f with
  | None => Undef
  | Some fail_funcs | Some stdin_funcs => Done (-1, k)
  | Some stdout_funcs => terminal_write dir_addr table_addr vidmem_addr buf nbytes k
  | Some dir_funcs => Done (dir_write, k)
  | Some rtc_funcs =>
      '(r, s, b) ← rtc_write (running_terminal k) (k_mem k) (va k buf) nbytes (k_if k) (k_rtc k);
      Done (r, with_if b (with_pic_rtc (k_pic k) s k))
  | Some file_funcs => Done (file_write, k)
  end.

(** * read, write, open, close *)
Definition read typed ticks (fd buf nbytes : Z) (k : kernel) : out (Z * kernel) :=
  if (fd <? 0) || (MAX_FD <=? fd) then Done (-1, k) else
  if nbytes <? 0 then Done (-1, k) else
  if buf =? 0 then Done (-1, k) else
  p ← pcb_at k (get_curr_pcb k);
  d ← file_at p fd;
  if flags d =? NOT_IN_USE then Done (-1, k) else
  call_read typed ticks (ptrs d) fd buf nbytes k.

Definition write (fd buf nbytes : Z) (k : kernel) : out (Z * kernel) :=
  if (fd <? 0) || (MAX_FD <=? fd) then Done (-1, k) else
  if nbytes <? 0 then Done (-1, k) else
  if buf =? 0 then Done (-1, k) else
  p ← pcb_at k (get_curr_pcb k);
  d ← file_at p fd;
  if flags d =? NOT_IN_USE then Done (-1, k) else
  call_write (ptrs d) fd buf nbytes k.

(** The first free descriptor from [i] on; [l] starts at descriptor [i]. *)
Fixpoint free_fd (l : list file_desc_t) (i : Z) : option Z :=
  match l with
  | [] => None
  | d :: l => if flags d =? NOT_IN_USE then Some i else free_fd l (i + 1)
  end.

Definition type_funcs (t : Z) : option file_operation_ptrs :=
  if t =? RTC_TYPE then Some rtc_funcs
  else if t =? DIR_TYPE then Some dir_funcs
  else if t =? REGULAR_FILE then Some file_funcs
  else None.

(** [filename] is a user address; 0 is NULL. *)
Definition open (filename : Z) (k : kernel) : out (Z * kernel) :=
  let a := get_curr_pcb k in
  if filename =? 0 then Done (-1, k) else
  '(r, dentry) ← read_dentry_by_name (k_mem k) (k_fs k) (at_user k filename) stack_dentry;
  if r =? -1 then Done (-1, k) else
  p ← pcb_at k a;
  match free_fd (drop 2 (files p)) MIN_FD with
  | None => Done (-1, k)
  | Some i =>
      d ← file_at p i;
      p ← set_file i (FileDesc (ptrs d) (i_node dentry) 0 IN_USE) p;
      let k := set_pcb a p k in
      match type_funcs (f_type dentry) with
      | None =>
          c ← printf (lview (lit "invalid file type!!!" ++ [10; 0])) [] (k_con k); Done (-1, with_con c k)
      | Some fns =>
          p ← set_file i (FileDesc (Some fns) (i_node dentry) 0 IN_USE) p;
          '(r, k) ← call_open (Some fns) (set_pcb a p k);
          if r =? -1 then Done (-1, k) else Done (i, k)
      end
  end.

Definition close (fd : Z) (k : kernel) : out (Z * kernel) :=
  let a := get_curr_pcb k in
  if (fd <? MIN_FD) || (MAX_FD <=? fd) then Done (-1, k) else
  p ← pcb_at k a;
  d ← file_at p fd;
  if flags d =? NOT_IN_USE then Done (-1, k) else
  p ← set_file fd (FileDesc (ptrs d) (inode d) (file_pos d) NOT_IN_USE) p;
  r ← call_close (ptrs d);
  Done (r, set_pcb a p k).

(** * getargs, vidmap, signals *)

(** The scan for the end of the blanks before the arguments. *)
Definition args_offset (argument : list Z) : out (option Z) :=
  orun (λ offset,
    if negb (offset <? ARG_MAX) then inr (Done (Some offset)) else
    match zget argument offset, zget argument (offset + 1) with
    | Some c, Some c1 =>
        if (c =? 32) && negb (c1 =? 32) then inr (Done (Some (offset + 1)))
        else if offset =? ARG_MAX - 2 then inr (Done None)
        else inl (offset + 1)
    | _, _ => inr Undef
    end) 0.

Definition getargs (buf nbytes : Z) (k : kernel) : out (Z * kernel) :=
  p ← pcb_at k (get_curr_pcb k);
  c ← must (zget (argument p) 0);
  if c =? 0 then Done (-1, k) else
  o ← args_offset (argument p);
  match o with
  | None => Done (-1, k)
  | Some offset =>
      bs ← strncpy (λ i, zget (argument p) (offset + i)) (u32 nbytes);
      _ ← range k buf (u32 nbytes);
      Done (0, set_mem (blit (k_mem k) (va k buf) bs) k)
  end.

Definition vidmap (screen_start : Z) (k : kernel) : out (Z * kernel) :=
  if (screen_start <? _128_MB_SIZE) || (_128_MB_SIZE + FOUR_MB_SIZE - ESP_OFFSET <? screen_start)
  then Done (-1, k) else
  let k := with_page (map_user_video vidmem_addr (k_page k)) k in
  _ ← range k screen_start 4;
  Done (USER_VIDEO, set_mem (store32 (k_mem k) (va k screen_start) USER_VIDEO) k).

Definition set_handler (signum handler_address : Z) (k : kernel) : out (Z * kernel) :=
  if (signum <? 0) || (4 <? signum) then Done (-1, k) else
  if handler_address =? 0 then Done (0, k) else
  let a := get_curr_pcb k in
  p ← pcb_at k a;
  Done (0, set_pcb a (with_sighandler (user_handler handler_address) p) k).

Definition sigreturn : Z := -1.
Definition fail : Z := -1.

(** * execute *)

(** The lowest free pid, marked used. *)
Definition alloc_pid (k : kernel) : out (option (Z * kernel)) :=
  let new_pid := get_pid k in
  if new_pid =? -1 then Done None else
  ps ← set_process new_pid IN_USE (k_procs k); Done (Some (new_pid, with_procs ps k)).

(** The pid of the parent: of the program on top of the terminal's stack, of
    block 0 on an empty terminal, and of the process itself for pid 0. *)
Definition parent_of (new_pid : Z) (k : kernel) : out Z :=
  if new_pid =? 0 then Done new_pid else
  let t := current_terminal (k_con k) in
  n ← cnt k t;
  if negb (n =? 0) then
    q ← slot k t (n - 1); p ← pcb_at k (get_pcb_by_index q); Done (pid p)
  else p ← pcb_at k (get_pcb_by_index 0); Done (pid p).

(** Push [new_pid] on the stack of the displayed terminal. *)
Definition push_process (new_pid : Z) (k : kernel) : out kernel :=
  let t := current_terminal (k_con k) in
  n ← cnt k t;
  ps ← set_cnt t (n + 1) (k_procs k);
  ps ← set_slot t (u32 (n + 1) - 1) new_pid ps;
  Done (with_procs ps k).

Definition init_files (l : list file_desc_t) : list file_desc_t :=
  FileDesc (Some stdin_funcs) (u32 (-1)) 0 IN_USE :: FileDesc (Some stdout_funcs) (u32 (-1)) 0 IN_USE ::
  ((λ d, FileDesc (ptrs d) (inode d) (file_pos d) NOT_IN_USE) <$> drop 2 l).

(** The control block of the new process. *)
Definition init_pcb (new_pid parent : Z) (args : list Z) (esp ebp : Z) (old : pcb_t) : pcb_t :=
  Pcb (init_files (files old)) new_pid parent esp ebp (schedule_esp old) (schedule_ebp old) args
    NO_SIGNAL signal_default.

Definition execute (command : str) (k : kernel) : out (outcome * kernel) :=
  let k := with_if false k in
  parsed ← parse_command command;
  match parsed with
  | inl msg => c ← printf (lview (lit msg ++ [10; 0])) [] (k_con k); Done (Return (-1), with_con c k)
  | inr (exe_name, args_buf) =>
      '(r, dentry) ← read_dentry_by_name (k_mem k) (k_fs k) (lview exe_name) stack_dentry;
      if r =? -1 then Done (Return (-1), k) else
      '(_, m) ← read_data (k_mem k) (k_fs k) (i_node dentry) 0 magics 4;
      let k := set_mem m k in
      if negb ((m magics =? 0x7F) && (m (magics + 1) =? 0x45) && (m (magics + 2) =? 0x4C)
               && (m (magics + 3) =? 0x46)) then Done (Return (-1), k) else
      '(_, m) ← read_data m (k_fs k) (i_node dentry) ENTRY_POINT magics 4;
      let k := set_mem m k in
      let entry := load32 m magics in
      a ← alloc_pid k;
      match a with
      | None => Done (Return (-1), k)
      | Some (new_pid, k) =>
          let k := with_page (map_program new_pid (k_page k)) k in
          '(n, m) ← read_data (k_mem k) (k_fs k) (i_node dentry) 0 (va k PROGRAM_OFFSET) FOUR_MB_SIZE;
          _ ← range k PROGRAM_OFFSET n;
          let k := set_mem m k in
          parent ← parent_of new_pid k;
          k ← push_process new_pid k;
          old ← pcb_at k (get_pcb_by_index new_pid);
          args ← strncpy (lview args_buf) ARG_MAX;
          let k := set_pcb (get_pcb_by_index new_pid)
                     (init_pcb new_pid parent args (k_esp k) (k_ebp k) old) k in
          let esp0 := u32 (EIGHT_MB_SIZE - new_pid * EIGHT_KB_SIZE - ESP_OFFSET) in
          Done (Enter entry (_128_MB_SIZE + FOUR_MB_SIZE - ESP_OFFSET),
                with_if true (with_stack esp0 (k_ebp k) (with_tss esp0 k)))
      end
  end.

(** The code after [return_to_execute], run on the parent's stack. *)
Definition return_to_execute (k : kernel) : outcome * kernel :=
  let k := with_if true k in
  (Return (if retval k =? EXCEPTION_MAGIC then EXCEPTION_RET else 0), k).

(** * halt *)
Definition close_file (o : out (list file_desc_t)) (d : file_desc_t) : out (list file_desc_t) :=
  l ← o;
  _ ← (if flags d =? IN_USE then call_close (ptrs d) else Done 0);
  Done (l ++ [FileDesc (Some fail_funcs) (u32 (-1)) 0 NOT_IN_USE]).
Definition close_all (l : list file_desc_t) : out (list file_desc_t) := foldl close_file (Done []) l.

(** The outcome [Return r] is that the parent's call of [execute] returns [r]. *)
Definition halt (status : Z) (k : kernel) : out (outcome * kernel) :=
  let k := with_if false k in
  let t := running_terminal k in
  n ← cnt k t;
  q ← slot k t (u32 (n - 1));
  let a := get_pcb_by_index q in
  p ← pcb_at k a;
  let k := with_page (map_program (parent_pid p) (k_page k)) k in
  let k := with_tss (u32 (EIGHT_MB_SIZE - parent_pid p * EIGHT_KB_SIZE - ESP_OFFSET)) k in
  ps ← set_process (pid p) NOT_IN_USE (k_procs k);
  ps ← set_slot t (u32 (n - 1)) NOT_IN_USE ps;
  ps ← set_cnt t (n - 1) ps;
  fls ← close_all (files p);
  let k := set_pcb a (with_files fls p) (with_procs ps k) in
  let resume k := return_to_execute (with_stack (parent_esp p) (parent_ebp p) (with_retval status k)) in
  if (pid p =? 0) || (u32 (n - 1) =? 0) then
    '(o, k) ← execute (lit0 "shell") k;
    match o with
    | Return _ => Done (resume k)
    | _ => Done (o, k)
    end
  else Done (resume k).

(** * Signals *)

(** The default action: terminate for 0 to 2, ignore the others.  [None] when
    the call returns normally. *)
Definition signal_action (signum : Z) (k : kernel) : out (option outcome * kernel) :=
  if (signum =? 0) || (signum =? 1) then '(o, k) ← halt 0xF k; Done (Some o, k)
  else if signum =? 2 then '(o, k) ← halt 0 k; Done (Some o, k)
  else Done (None, k).

(** A user handler is called in kernel mode: control leaves the kernel code. *)
Definition send_signal (signum : Z) (k : kernel) : out (option outcome * kernel) :=
  p ← pcb_at k (get_curr_pcb k);
  match sighandler p with
  | signal_default => signal_action signum k
  | user_handler address => Done (Some (Handler address signum), k)
  end.
End syscalls.

(** * The world of a running process

    [sys_ok pid k p]: the file system image is well formed and lies between 4
    and 8 MB, where the kernel's addresses are physical ones
    ([image_translation]), the page tables map the program page of process [pid], and [p] is the
    control block of the running process. *)
Section world.
Context (dir_addr table_addr vidmem_addr magics : Z) (stack_dentry : dentry_t).
Context (Hlink : linked dir_addr table_addr vidmem_addr).

Record sys_ok (id : Z) (k : kernel) (p : pcb_t) : Prop := SysOk {
  so_image : image_ok (k_mem k) (k_fs k);
  so_dir : dir_ok (k_mem k) (k_fs k);
  so_low : FOUR_MB_SIZE <= fs_addr (k_fs k) ∧ image_end (k_fs k) <= EIGHT_MB_SIZE;
  so_page : ∃ win, rep dir_addr table_addr vidmem_addr (k_page k) (Some id, win) ∧ st_ok (Some id, win);
  so_pcb : k_pcbs k !! get_curr_pcb k = Some p;
  so_files : length (files p) = 8%nat }.

(** The part of it that does not depend on the running process. *)
Record machine_ok (k : kernel) : Prop := MachineOk {
  mo_image : image_ok (k_mem k) (k_fs k);
  mo_dir : dir_ok (k_mem k) (k_fs k);
  mo_low : FOUR_MB_SIZE <= fs_addr (k_fs k) ∧ image_end (k_fs k) <= EIGHT_MB_SIZE;
  mo_page : ∃ st, rep dir_addr table_addr vidmem_addr (k_page k) st ∧ st_ok st }.
Lemma sys_machine id k p : sys_ok id k p → machine_ok k.
Proof. intros [H1 H2 H3 (win & H4) _ _]. split; try done. by exists (Some id, win). Qed.

(** A buffer in the user's program page. *)
Definition user_buf (buf len : Z) : Prop :=
  _128_MB_SIZE <= buf ∧ 0 <= len ∧ buf + len <= _128_MB_SIZE + FOUR_MB_SIZE.

Definition user_phys (id a : Z) : Z := EIGHT_MB_SIZE + id * FOUR_MB_SIZE + (a - _128_MB_SIZE).

Lemma page_translation id win k a : rep dir_addr table_addr vidmem_addr (k_page k) (Some id, win) →
  st_ok (Some id, win) → _128_MB_SIZE <= a < _128_MB_SIZE + FOUR_MB_SIZE →
  translation dir_addr table_addr vidmem_addr k a = Some (Xlat (user_phys id a) true true).
Proof.
  intros Hrep Hst Ha. unfold translation. unfold _128_MB_SIZE, FOUR_MB_SIZE in Ha.
  rewrite (translate_is_map _ _ _ Hlink _ _ _ Hrep Hst) by lia. cbn [fst snd]. unfold address_map.
  unfold FOUR_MB, EIGHT_MB. rewrite !(proj2 (Z.ltb_ge _ _)) by lia.
  assert (Ed : a / 0x400000 = 32).
  { symmetry; apply Z.div_unique with (r := a - 0x8000000); lia. }
  rewrite Ed. cbn [mbind option_bind]. change (32 =? 32) with true. cbv iota. do 2 f_equal.
  unfold user_phys, EIGHT_MB_SIZE, FOUR_MB_SIZE, _128_MB_SIZE.
  rewrite (Z.mod_eq a) by done. rewrite Ed. lia.
Qed.

(** The kernel's addresses of the image are physical ones. *)
Lemma image_translation k a : machine_ok k → fs_addr (k_fs k) <= a < image_end (k_fs k) →
  translation dir_addr table_addr vidmem_addr k a = Some (Xlat a false false).
Proof.
  intros [_ _ [Hlo Hhi] (st & Hrep & Hst)] Ha. unfold FOUR_MB_SIZE, EIGHT_MB_SIZE in *. unfold translation.
  rewrite (translate_is_map _ _ _ Hlink _ _ _ Hrep Hst) by lia. unfold address_map, FOUR_MB, EIGHT_MB.
  by rewrite (proj2 (Z.ltb_ge _ _)), (proj2 (Z.ltb_lt _ _)) by lia.
Qed.

Lemma user_translation id k p a : sys_ok id k p → _128_MB_SIZE <= a < _128_MB_SIZE + FOUR_MB_SIZE →
  translation dir_addr table_addr vidmem_addr k a = Some (Xlat (user_phys id a) true true).
Proof. intros H Ha. destruct (so_page _ _ _ H) as (win & Hrep & Hst). by apply (page_translation id win). Qed.

Lemma user_va id k p buf len : sys_ok id k p → user_buf buf len → 0 < len →
  va dir_addr table_addr vidmem_addr k buf = user_phys id buf.
Proof.
  intros H (Hlo & _ & Hhi) Hlen. unfold va, phys. rewrite (user_translation id k p) by (done || lia). done.
Qed.

Lemma page_range id win k buf n : rep dir_addr table_addr vidmem_addr (k_page k) (Some id, win) →
  st_ok (Some id, win) → _128_MB_SIZE <= buf → buf + n <= _128_MB_SIZE + FOUR_MB_SIZE →
  range dir_addr table_addr vidmem_addr k buf n = Done ().
Proof.
  intros Hrep Hst Hlo Hhi. unfold range, check_range. destruct (Z.leb_spec n 0); [done|].
  rewrite !(page_translation id win) by (done || lia).
  unfold _128_MB_SIZE, FOUR_MB_SIZE in *.
  replace ((buf + n - 1) / 0x400000) with 32 by (apply Z.div_unique with (r := buf + n - 1 - 0x8000000); lia).
  replace (buf / 0x400000) with 32 by (apply Z.div_unique with (r := buf - 0x8000000); lia). done.
Qed.

Lemma user_range id k p buf len n : sys_ok id k p → user_buf buf len → n <= len →
  range dir_addr table_addr vidmem_addr k buf n = Done ().
Proof.
  intros H (Hlo & ? & Hhi) Hn. destruct (so_page _ _ _ H) as (win & Hrep & Hst).
  apply (page_range id win); (done || lia).
Qed.

(** User buffers are above the image. *)
Lemma user_buf_ok id k p buf len : sys_ok id k p → user_buf buf len → buf_ok (k_fs k) (user_phys id buf) len.
Proof.
  intros H (Hlo & ? & Hhi). split; [done|]. right. destruct (so_page _ _ _ H) as (win & _ & [Hid _]).
  specialize (Hid id eq_refl). pose proof (proj2 (so_low _ _ _ H)). unfold user_phys, FOUR_MB_SIZE, _128_MB_SIZE, EIGHT_MB_SIZE in *. lia.
Qed.

(** The kernel after a file read: the descriptor's position and the buffer. *)
Definition after_read (fd : Z) (d : file_desc_t) (n : Z) (m : mem) (p : pcb_t) (k : kernel) : kernel :=
  set_pcb (get_curr_pcb k)
    (with_files (<[Z.to_nat fd := FileDesc (ptrs d) (inode d) (file_pos d + n) (flags d)]> (files p)) p)
    (set_mem m k).

Lemma zget_8 (l : list file_desc_t) fd d : length l = 8%nat → zget l fd = Some d → 0 <= fd < 8.
Proof. intros Hl [? H%lookup_lt_Some]%zget_Some. lia. Qed.

Lemma read_file_spec id k p fd ino pos buf n typed ticks :
  sys_ok id k p → zget (files p) fd = Some (FileDesc (Some file_funcs) ino pos IN_USE) →
  inode_ok (k_mem k) (k_fs k) ino → 0 <= pos <= file_size (k_mem k) (k_fs k) ino →
  user_buf buf n → 0 < n →
  let c := Z.min (file_size (k_mem k) (k_fs k) ino - pos) n in
  ∃ m', read dir_addr table_addr vidmem_addr stack_dentry typed ticks fd buf n k =
      Done (c, after_read fd (FileDesc (Some file_funcs) ino pos IN_USE) c m' p k) ∧
    (∀ i, 0 <= i < c → m' (user_phys id buf + i) = file_byte (k_mem k) (k_fs k) ino (pos + i)) ∧
    (∀ a, fs_addr (k_fs k) <= a < image_end (k_fs k) → m' a = k_mem k a) ∧ mem_ok m' ∧
    only_in (user_phys id buf) (user_phys id buf + c) (k_mem k) m'.
Proof.
  intros H Hd Hino Hpos Hbuf Hn. cbv zeta.
  pose proof (zget_8 _ _ _ (so_files _ _ _ H) Hd) as Hfd. pose proof (so_image _ _ _ H) as Him.
  pose proof (in_size _ _ _ Hino) as Hsz. unfold BLOCKSIZE in Hsz.
  pose proof (user_va id k p buf n H Hbuf Hn) as Eva. pose proof (user_buf_ok id k p buf n H Hbuf) as Hok.
  pose proof Hbuf as (Hb1 & _ & Hb3). unfold _128_MB_SIZE, FOUR_MB_SIZE in Hb1, Hb3.
  set (size := file_size (k_mem k) (k_fs k) ino) in *.
  assert (Hread : ∃ m', read_data (k_mem k) (k_fs k) ino pos (user_phys id buf) n =
      Done (Z.min (size - pos) n, m') ∧
    only_in (user_phys id buf) (user_phys id buf + Z.min (size - pos) n) (k_mem k) m' ∧
    ∀ i, 0 <= i < Z.min (size - pos) n →
      m' (user_phys id buf + i) = file_byte (k_mem k) (k_fs k) ino (pos + i)).
  { destruct (decide (pos < size)) as [Hlt|Hge].
    - apply (read_data_reads (k_mem k) (k_fs k) ino pos (user_phys id buf) n Him Hino);
        [split; lia|split; lia|done|]. destruct Hok as [_ Hok]. fold size. split; lia.
    - exists (k_mem k). replace (Z.min (size - pos) n) with 0 by lia.
      split_and!; [|apply only_in_refl|lia].
      apply (read_data_eof (k_mem k) (k_fs k) ino pos (user_phys id buf) n Him Hino). fold size. lia. }
  destruct Hread as (m' & E & Hout & Hby). exists m'. split_and!.
  - unfold read, MAX_FD, pcb_at. rewrite (proj2 (Z.ltb_ge fd 0)), (proj2 (Z.leb_gt 8 fd)) by lia. cbn [orb].
    rewrite (proj2 (Z.ltb_ge n 0)), (proj2 (Z.eqb_neq buf 0)) by lia.
    rewrite (so_pcb _ _ _ H). cbn [must mbind out_bind]. unfold file_at. rewrite Hd. cbn [must mbind out_bind].
    cbn [flags ptrs call_read]. change (IN_USE =? NOT_IN_USE) with false. cbv iota.
    unfold file_read, pcb_at. rewrite (so_pcb _ _ _ H). cbn [must mbind out_bind]. unfold file_at.
    rewrite Hd. cbn [must mbind out_bind inode file_pos ptrs flags].
    rewrite Eva, (u32_id n) by (split; lia). rewrite E. cbn [mbind out_bind].
    rewrite (user_range id k p buf n _ H Hbuf) by lia. cbn [mbind out_bind]. unfold set_file.
    rewrite zset_in by (rewrite (so_files _ _ _ H); lia). cbn [must mbind out_bind].
    rewrite u32_id by (split; lia). done.
  - done.
  - intros a Ha. apply Hout. destruct Hok as [_ Hok]. lia.
  - intros a. destruct (decide (user_phys id buf <= a < user_phys id buf + Z.min (size - pos) n)).
    + replace a with (user_phys id buf + (a - user_phys id buf)) by lia. rewrite Hby by lia. apply Him.
    + rewrite Hout by lia. apply Him.
  - done.
Qed.

(** The world after a read is the same but for the position. *)
Lemma after_read_ok id k p fd d n m' :
  sys_ok id k p → (∀ a, fs_addr (k_fs k) <= a < image_end (k_fs k) → m' a = k_mem k a) → mem_ok m' →
  sys_ok id (after_read fd d n m' p k)
    (with_files (<[Z.to_nat fd := FileDesc (ptrs d) (inode d) (file_pos d + n) (flags d)]> (files p)) p).
Proof.
  intros [H1 H2 H3 H4 H5 H6] Hs Hm. split.
  - by apply (image_ok_frame (k_mem k)).
  - by apply (dir_ok_frame (k_mem k)).
  - done.
  - done.
  - cbn. apply lookup_insert_eq.
  - cbn. by rewrite length_insert.
Qed.

(** Reading with requests of the given sizes, keeping what each call returned. *)
Fixpoint read_chunks (typed : Z → console * Z → console * Z) (ticks : Z → nat) (sizes : list Z)
    (fd buf : Z) (k : kernel) : out (list (list Z) * kernel) :=
  match sizes with
  | [] => Done ([], k)
  | n :: sizes =>
      '(r, k) ← read dir_addr table_addr vidmem_addr stack_dentry typed ticks fd buf n k;
      '(rest, k') ← read_chunks typed ticks sizes fd buf k;
      Done (bytes_of (mview (k_mem k) (va dir_addr table_addr vidmem_addr k buf)) r :: rest, k')
  end.

(** Bytes [pos] to [pos + n] of a file. *)
Definition file_slice (m : mem) (f : fs) (ino pos n : Z) : list Z :=
  (λ i, file_byte m f ino (pos + i)) <$> seqZ 0 n.

Lemma file_slice_app m f ino pos n1 n2 : 0 <= n1 → 0 <= n2 →
  file_slice m f ino pos n1 ++ file_slice m f ino (pos + n1) n2 = file_slice m f ino pos (n1 + n2).
Proof.
  intros H1 H2. unfold file_slice. rewrite (seqZ_app 0 n1 n2) by done. rewrite fmap_app. f_equal.
  rewrite Z.add_0_l. assert (E : seqZ n1 n2 = Z.add n1 <$> seqZ 0 n2)
    by (rewrite fmap_add_seqZ; f_equal; lia).
  rewrite E, <- list_fmap_compose. apply list_fmap_ext. intros ? i _. cbn. f_equal. lia.
Qed.

Lemma set_mem_id k : set_mem (k_mem k) k = k.
Proof. destruct k as [[]]. reflexivity. Qed.

Lemma set_pcb_id a p k : k_pcbs k !! a = Some p → set_pcb a p k = k.
Proof. intros H. unfold set_pcb. rewrite insert_id by done. by destruct k. Qed.

Lemma after_read_0 id k p fd d : sys_ok id k p → zget (files p) fd = Some d →
  after_read fd d 0 (k_mem k) p k = k.
Proof.
  intros H Hd. unfold after_read. rewrite set_mem_id. apply set_pcb_id. rewrite (so_pcb _ _ _ H). f_equal.
  assert (E : FileDesc (ptrs d) (inode d) (file_pos d + 0) (flags d) = d) by (rewrite Z.add_0_r; by destruct d).
  rewrite E. apply zget_Some in Hd as [_ Hd]. rewrite list_insert_id by done. by destruct p.
Qed.

Lemma after_read_after fd d n1 n2 m1 m2 p k : 0 <= fd →
  let d1 := FileDesc (ptrs d) (inode d) (file_pos d + n1) (flags d) in
  let p1 := with_files (<[Z.to_nat fd := d1]> (files p)) p in
  after_read fd d1 n2 m2 p1 (after_read fd d n1 m1 p k) = after_read fd d (n1 + n2) m2 p k.
Proof.
  intros Hfd. unfold after_read. cbn [ptrs inode file_pos flags files with_files].
  rewrite list_insert_insert_eq, Z.add_assoc.
  unfold set_pcb, set_mem, with_pcbs, with_con, with_mem, get_curr_pcb; cbn.
  by rewrite insert_insert_eq.
Qed.

Lemma file_slice_frame m m' f ino pos n : image_ok m f → inode_ok m f ino → 0 <= pos →
  pos + n <= file_size m f ino → (∀ a, fs_addr f <= a < image_end f → m' a = m a) →
  file_slice m' f ino pos n = file_slice m f ino pos n.
Proof.
  intros Hi Hn Hpos Hle Hs. unfold file_slice. apply list_fmap_ext. intros j i Hj.
  apply list_elem_of_lookup_2, elem_of_seqZ in Hj. apply (file_byte_frame m m' f Hi Hs ino _ Hn). lia.
Qed.

Definition total (sizes : list Z) : Z := foldr Z.add 0 sizes.

Lemma read_chunks_spec id typed ticks fd ino buf sizes : ∀ k p pos,
  sys_ok id k p → zget (files p) fd = Some (FileDesc (Some file_funcs) ino pos IN_USE) →
  inode_ok (k_mem k) (k_fs k) ino → 0 <= pos <= file_size (k_mem k) (k_fs k) ino →
  Forall (λ n, 0 < n ∧ user_buf buf n) sizes →
  let c := Z.min (file_size (k_mem k) (k_fs k) ino - pos) (total sizes) in
  ∃ cs m', read_chunks typed ticks sizes fd buf k =
      Done (cs, after_read fd (FileDesc (Some file_funcs) ino pos IN_USE) c m' p k) ∧
    concat cs = file_slice (k_mem k) (k_fs k) ino pos c ∧
    (∀ a, fs_addr (k_fs k) <= a < image_end (k_fs k) → m' a = k_mem k a) ∧ mem_ok m'.
Proof.
  induction sizes as [|n sizes IH]; intros k p pos H Hd Hino Hpos Hsz; cbv zeta; cbn [total foldr read_chunks].
  { exists [], (k_mem k). rewrite Z.min_r by lia.
    rewrite (after_read_0 id) by done. split_and!; [done|done|done|apply (so_image _ _ _ H)]. }
  apply Forall_cons_1 in Hsz as [[Hn Hbuf] Hsz]. fold (total sizes).
  assert (Ht : 0 <= total sizes).
  { clear IH. induction Hsz as [|x l [Hx _] _ IHl]; cbn; [lia|]. fold (total l). lia. }
  destruct (read_file_spec id k p fd ino pos buf n typed ticks H Hd Hino Hpos Hbuf Hn)
    as (m1 & E1 & Hby & Hs1 & Hm1 & _).
  set (size := file_size (k_mem k) (k_fs k) ino) in *. set (c1 := Z.min (size - pos) n) in *.
  set (d := FileDesc (Some file_funcs) ino pos IN_USE) in *.
  pose proof (zget_8 _ _ _ (so_files _ _ _ H) Hd) as Hfd. pose proof (so_image _ _ _ H) as Him.
  pose proof (after_read_ok id k p fd d c1 m1 H Hs1 Hm1) as H1. set (k1 := after_read fd d c1 m1 p k) in *.
  assert (Esz : file_size m1 (k_fs k) ino = size)
    by (apply (file_size_frame (k_mem k) m1 (k_fs k) Him Hs1 ino); pose proof (in_range _ _ _ Hino); lia).
  destruct (IH k1 _ (pos + c1) H1) as (cs & m2 & E2 & Hcat & Hs2 & Hm2).
  { cbn. apply zget_insert_eq. rewrite (so_files _ _ _ H). lia. }
  { by apply (inode_ok_frame (k_mem k) m1 (k_fs k) Him Hs1). }
  { change (k_mem k1) with m1. change (k_fs k1) with (k_fs k). rewrite Esz. lia. }
  { done. }
  change (k_mem k1) with m1 in *. change (k_fs k1) with (k_fs k) in *. rewrite Esz in E2, Hcat.
  rewrite E1. cbn [mbind out_bind]. rewrite E2. cbn [mbind out_bind].
  assert (Eva : va dir_addr table_addr vidmem_addr k1 buf = user_phys id buf)
    by (by apply (user_va id k1 _ buf n H1)).
  exists (bytes_of (mview m1 (va dir_addr table_addr vidmem_addr k1 buf)) c1 :: cs), m2. split_and!.
  - change (k_mem k1) with m1. do 2 f_equal.
    etrans; [apply (after_read_after fd d c1 _ m1 m2 p k); lia|]. f_equal. unfold c1. lia.
  - cbn [concat]. rewrite Hcat. rewrite Eva.
    assert (Efirst : bytes_of (mview m1 (user_phys id buf)) c1 = file_slice (k_mem k) (k_fs k) ino pos c1).
    { unfold bytes_of, file_slice. apply list_fmap_ext. intros j i Hj.
      apply list_elem_of_lookup_2, elem_of_seqZ in Hj. cbn. apply Hby. lia. }
    rewrite Efirst, (file_slice_frame (k_mem k) m1) by (try done; fold size; lia).
    rewrite file_slice_app by lia. f_equal. lia.
  - intros a Ha. rewrite Hs2 by done. by apply Hs1.
  - done.
Qed.

(** * Opening and closing *)
Lemma free_fd_spec l : ∀ i j, free_fd l i = Some j →
  i <= j ∧ (∃ d, l !! Z.to_nat (j - i) = Some d ∧ flags d = NOT_IN_USE) ∧
  ∀ j', i <= j' < j → ∀ d, l !! Z.to_nat (j' - i) = Some d → flags d ≠ NOT_IN_USE.
Proof.
  induction l as [|d l IH]; intros i j; cbn [free_fd]; [done|].
  destruct (Z.eqb_spec (flags d) NOT_IN_USE) as [E|E].
  - intros [= <-]. rewrite Z.sub_diag. split_and!; [lia|by exists d|lia].
  - intros H. destruct (IH _ _ H) as (Hle & (d' & Hd' & Ef) & Hpre). split_and!; [lia| |].
    + exists d'. replace (Z.to_nat (j - i)) with (S (Z.to_nat (j - (i + 1)))) by lia. done.
    + intros j' Hj' x Hx. destruct (decide (j' = i)) as [->|].
      * rewrite Z.sub_diag in Hx. by injection Hx as <-.
      * apply (Hpre j'); [lia|]. by replace (Z.to_nat (j' - i)) with (S (Z.to_nat (j' - (i + 1)))) in Hx by lia.
Qed.

(** The descriptor [open] picks: the lowest one from 2 on that is free. *)
Lemma free_fd_files l fd : length l = 8%nat → free_fd (drop 2 l) MIN_FD = Some fd →
  2 <= fd < 8 ∧ (∃ d, zget l fd = Some d ∧ flags d = NOT_IN_USE) ∧
  ∀ j, 2 <= j < fd → ∀ d, zget l j = Some d → flags d ≠ NOT_IN_USE.
Proof.
  intros Hl H. destruct (free_fd_spec _ _ _ H) as (Hle & (d & Hd & Ef) & Hpre). unfold MIN_FD in *.
  rewrite lookup_drop in Hd. pose proof (lookup_lt_Some _ _ _ Hd). split_and!; [lia|lia| |].
  - exists d. split; [|done]. apply zget_Some. split; [lia|]. by replace (Z.to_nat fd) with (2 + Z.to_nat (fd - 2))%nat by lia.
  - intros j Hj x Hx. apply zget_Some in Hx as [_ Hx]. apply (Hpre j); [lia|]. rewrite lookup_drop.
    by replace (2 + Z.to_nat (j - 2))%nat with (Z.to_nat j) by lia.
Qed.

Definition with_fd (fd : Z) (d : file_desc_t) (p : pcb_t) (k : kernel) : kernel :=
  set_pcb (get_curr_pcb k) (with_files (<[Z.to_nat fd := d]> (files p)) p) k.

(** What is behind a pointer is a byte, and in the program's page it is the
    byte of the process's physical page. *)
Lemma at_user_u8 k a i c : image_ok (k_mem k) (k_fs k) → at_user dir_addr table_addr vidmem_addr k a i = Some c → is_u8 c.
Proof.
  intros Him. unfold at_user, vview. destruct (translation _ _ _ k (a + i)); [|done]. intros [= <-]. apply Him.
Qed.
Lemma at_user_readable k a n : image_ok (k_mem k) (k_fs k) → is_cstr (at_user dir_addr table_addr vidmem_addr k a) n →
  readable (at_user dir_addr table_addr vidmem_addr k a) n.
Proof.
  intros Him (_ & _ & Hb) j Hj. destruct (Hb j Hj) as (c & Ec & _). exists c. split; [done|]. by apply (at_user_u8 k a j).
Qed.
Lemma at_user_page id win k a i : rep dir_addr table_addr vidmem_addr (k_page k) (Some id, win) → st_ok (Some id, win) →
  _128_MB_SIZE <= a + i < _128_MB_SIZE + FOUR_MB_SIZE →
  at_user dir_addr table_addr vidmem_addr k a i = mview (k_mem k) (user_phys id a) i.
Proof.
  intros Hrep Hst Hai. unfold at_user, vview. rewrite (page_translation id win k) by done. cbn. unfold mview, user_phys.
  do 2 f_equal. lia.
Qed.
Lemma at_user_string id k p a l n : sys_ok id k p → user_buf a (n + 1) → is_cstr (mview (k_mem k) (user_phys id a)) n →
  bytes_of (mview (k_mem k) (user_phys id a)) n = l →
  is_cstr (at_user dir_addr table_addr vidmem_addr k a) n ∧ bytes_of (at_user dir_addr table_addr vidmem_addr k a) n = l.
Proof.
  intros H (Hlo & Hn & Hhi) (H0 & Hend & Hbytes) <-. destruct (so_page _ _ _ H) as (win & Hrep & Hst).
  assert (E : ∀ i, 0 <= i <= n → at_user dir_addr table_addr vidmem_addr k a i = mview (k_mem k) (user_phys id a) i)
    by (intros i Hi; apply (at_user_page id win); [done|done|lia]).
  split.
  - split_and!; [done|by rewrite E by lia|]. intros i Hi. rewrite E by lia. by apply Hbytes.
  - unfold bytes_of. apply list_fmap_ext. intros j i Hj. apply list_elem_of_lookup_2, elem_of_seqZ in Hj. by rewrite E by lia.
Qed.

(** Entry [i] is the first of its name, and [filename] points to that name,
    which is mapped up to its end. *)
Definition names_entry (k : kernel) (filename i : Z) : Prop :=
  let s := at_user dir_addr table_addr vidmem_addr k filename in
  0 <= i < num_dentries (k_fs k) ∧
  ∃ len, is_cstr s len ∧ len <= 32 ∧ entry_name (k_mem k) (k_fs k) i = bytes_of s len ∧
    ∀ j, 0 <= j < i → entry_name (k_mem k) (k_fs k) j ≠ bytes_of s len.

(** [open] finds entry [i]: [p] is the control block of the caller, and the
    pointer can be read and names the entry. *)
Record opener (k : kernel) (p : pcb_t) (filename i : Z) : Prop := Opener {
  op_image : image_ok (k_mem k) (k_fs k);
  op_dir : dir_ok (k_mem k) (k_fs k);
  op_pcb : k_pcbs k !! get_curr_pcb k = Some p;
  op_files : length (files p) = 8%nat;
  op_pointer : filename ≠ 0;
  op_name : names_entry k filename i }.
Lemma sys_opener id k p filename i : sys_ok id k p → user_buf filename 1 → names_entry k filename i → opener k p filename i.
Proof.
  intros [H1 H2 _ _ H5 H6] Hf Hn. split; try done. destruct Hf as [? _]. unfold _128_MB_SIZE in *. lia.
Qed.

Lemma lookup_named k p filename i : opener k p filename i →
  read_dentry_by_name (k_mem k) (k_fs k)
    (at_user dir_addr table_addr vidmem_addr k filename) stack_dentry =
  Done (0, copy_dentry (k_mem k) (entry_at (k_fs k) i) stack_dentry).
Proof.
  intros [Him Hdir _ _ _ (Hi & len & Hc & Hl & En & Hpre)].
  destruct (read_dentry_by_name_found (k_mem k) (k_fs k) Him Hdir _ len Hc)
    with (dentry := stack_dentry) as (r & -> & [(j & Hj & Ej & Hfirst & ->)|[Hnone ->]]).
  - by apply at_user_readable.
  - done.
  - assert (j = i) as ->; [|done]. destruct (Z.lt_trichotomy j i) as [?|[?|?]]; [|done|].
    + exfalso. apply (Hpre j); [lia|exact Ej].
    + exfalso. apply (Hfirst i); [lia|exact En].
  - exfalso. apply (Hnone i); [lia|exact En].
Qed.

(** [open] of an entry whose type has a driver. *)
Lemma open_entry_spec k p filename i fd fns : opener k p filename i →
  type_funcs (load32 (k_mem k) (entry_at (k_fs k) i + 32)) = Some fns →
  free_fd (drop 2 (files p)) MIN_FD = Some fd →
  open dir_addr table_addr vidmem_addr stack_dentry filename k =
  ('(r, k) ← call_open (Some fns) (with_fd fd (FileDesc (Some fns)
     (load32 (k_mem k) (entry_at (k_fs k) i + 36)) 0 IN_USE) p k);
   if r =? -1 then Done (-1, k) else Done (fd, k)).
Proof.
  intros H Ht Hfd. destruct (free_fd_files _ _ (op_files _ _ _ _ H) Hfd) as (Hr & (d & Hd & _) & _).
  destruct (copy_dentry_fields (k_mem k) (entry_at (k_fs k) i) stack_dentry) as [Et Ei].
  pose proof (op_pointer _ _ _ _ H) as Hf0. unfold open. rewrite (proj2 (Z.eqb_neq _ _) Hf0).
  rewrite (lookup_named k p filename i H), bind_Done. change (0 =? -1) with false. cbv iota. unfold pcb_at. rewrite (op_pcb _ _ _ _ H).
  cbn [must mbind out_bind]. rewrite Hfd. unfold file_at. rewrite Hd. cbn [must mbind out_bind].
  unfold set_file. rewrite zset_in by (rewrite (op_files _ _ _ _ H); lia). cbn [must mbind out_bind].
  rewrite Et, Ht, Ei.
  rewrite zset_in by (cbn; rewrite length_insert, (op_files _ _ _ _ H); lia). cbn [must mbind out_bind].
  unfold with_fd. cbn [files with_files].
  rewrite list_insert_insert_eq. unfold set_pcb, with_pcbs, get_curr_pcb; cbn [k_pcbs k_esp]. by rewrite insert_insert_eq.
Qed.

Lemma open_file_spec k p filename i fd : opener k p filename i →
  load32 (k_mem k) (entry_at (k_fs k) i + 32) = REGULAR_FILE →
  free_fd (drop 2 (files p)) MIN_FD = Some fd →
  open dir_addr table_addr vidmem_addr stack_dentry filename k =
  Done (fd, with_fd fd (FileDesc (Some file_funcs)
    (load32 (k_mem k) (entry_at (k_fs k) i + 36)) 0 IN_USE) p k).
Proof.
  intros H Ht Hfd. rewrite (open_entry_spec k p filename i fd file_funcs H) by (done || by rewrite Ht). done.
Qed.

(** With no free descriptor, or no entry of that name, nothing happens. *)
Lemma open_full_spec k p filename i : opener k p filename i →
  free_fd (drop 2 (files p)) MIN_FD = None → open dir_addr table_addr vidmem_addr stack_dentry filename k = Done (-1, k).
Proof.
  intros H Hfd. pose proof (op_pointer _ _ _ _ H) as Hf0. unfold open. rewrite (proj2 (Z.eqb_neq _ _) Hf0).
  rewrite (lookup_named k p filename i H), bind_Done. change (0 =? -1) with false. cbv iota.
  unfold pcb_at. rewrite (op_pcb _ _ _ _ H). cbn [must]. by rewrite bind_Done, Hfd.
Qed.

Lemma with_fd_ok id k p fd d : sys_ok id k p →
  sys_ok id (with_fd fd d p k) (with_files (<[Z.to_nat fd := d]> (files p)) p).
Proof.
  intros [H1 H2 H3 H4 H5 H6]. split; try done; cbn; [apply lookup_insert_eq|by rewrite length_insert].
Qed.

Lemma close_file_spec id k p fd d : sys_ok id k p → 2 <= fd < 8 → zget (files p) fd = Some d →
  flags d = IN_USE → ptrs d = Some file_funcs →
  close fd k = Done (0, with_fd fd (FileDesc (ptrs d) (inode d) (file_pos d) NOT_IN_USE) p k).
Proof.
  intros H Hfd Hd Hf Hp. unfold close, MIN_FD, MAX_FD.
  rewrite (proj2 (Z.ltb_ge fd 2)), (proj2 (Z.leb_gt 8 fd)) by lia. cbn [orb].
  unfold pcb_at. rewrite (so_pcb _ _ _ H). cbn [must mbind out_bind]. unfold file_at. rewrite Hd.
  cbn [must mbind out_bind]. rewrite Hf. change (IN_USE =? NOT_IN_USE) with false. cbv iota.
  unfold set_file. rewrite zset_in by (rewrite (so_files _ _ _ H); lia). cbn [must mbind out_bind].
  rewrite Hp. done.
Qed.
End world.


(** * Theorems on files *)

(** A process with the small image of the file-system witnesses; the user's
    page holds the string "ab". *)
Definition mem2 : mem := blit img (0xC48000) [97; 98; 0].
Definition pcb2 : pcb_t :=
  Pcb (init_files (replicate 8 (FileDesc None 0 0 0))) 1 0 0 0 0 0 (replicate 100 0) 0x3F signal_default.
Definition kernel2 : kernel :=
  set_pcb (get_pcb_by_index 1) pcb2 (with_fs img_fs (set_mem mem2 kernel1)).

Lemma tables1_rep : ∃ win, rep 0x500000 0x501000 0x502000
  (tables_after 0x500000 0x501000 0x502000 boot0 [MapProgram 1]) (Some 1, win) ∧ st_ok (Some 1, win).
Proof.
  exists None. pose proof (after_rep 0x500000 0x501000 0x502000 boot0 [MapProgram 1] linked0 boot0_ok) as H.
  split; [apply H; repeat constructor; cbn; lia|].
  split; cbn; intros x [= <-]. lia.
Qed.

Lemma kernel2_ok : sys_ok 0x500000 0x501000 0x502000 1 kernel2 pcb2.
Proof.
  assert (Hs : ∀ a, fs_addr img_fs <= a < image_end img_fs → mem2 a = img a).
  { intros a Ha. apply blit_out. left. change (image_end img_fs) with 0x705000 in Ha. lia. }
  split.
  - apply (image_ok_frame img mem2 img_fs img_ok Hs). intros a. unfold mem2, blit.
    destruct (zget [97; 98; 0] _) as [v|] eqn:E; [|apply img_ok].
    apply zget_Some in E as [_ E]. revert E. apply Forall_lookup_1.
    do 3 (constructor; [split; lia|]). constructor.
  - apply (dir_ok_frame img mem2 img_fs img_ok img_dir_ok Hs).
  - by vm_compute.
  - apply tables1_rep.
  - reflexivity.
  - reflexivity.
Qed.

(** C18. A file session.  For every well-formed image and every process with
    a free descriptor: opening an existing regular file returns the lowest
    free descriptor from 2 on; reading it with requests of any positive sizes
    into the process's own memory returns, in total and in order, exactly the
    first bytes of the file up to the sum of the sizes or the whole file; closing it
    returns 0 and leaves a control block that differs only in that, now free,
    descriptor; the image in memory is unchanged. *)
Theorem file_session (dir_addr table_addr vidmem_addr : Z) (stack_dentry : dentry_t)
    (Hlink : linked dir_addr table_addr vidmem_addr) (id : Z) (k : kernel) (p : pcb_t)
    (typed : Z → console * Z → console * Z) (ticks : Z → nat) (filename i fd buf : Z) (sizes : list Z)
    (H : sys_ok dir_addr table_addr vidmem_addr id k p) (Hname : user_buf filename 1)
    (Hn : names_entry dir_addr table_addr vidmem_addr k filename i)
    (Ht : load32 (k_mem k) (entry_at (k_fs k) i + 32) = REGULAR_FILE)
    (Hino : inode_ok (k_mem k) (k_fs k) (load32 (k_mem k) (entry_at (k_fs k) i + 36)))
    (Hfd : free_fd (drop 2 (files p)) MIN_FD = Some fd)
    (Hsz : Forall (λ n, 0 < n ∧ user_buf buf n) sizes) :
  let ino := load32 (k_mem k) (entry_at (k_fs k) i + 36) in
  let n := Z.min (file_size (k_mem k) (k_fs k) ino) (total sizes) in
  2 <= fd < 8 ∧
  ∃ k1 cs k2 k3,
    open dir_addr table_addr vidmem_addr stack_dentry filename k = Done (fd, k1) ∧
    read_chunks dir_addr table_addr vidmem_addr stack_dentry typed ticks sizes fd buf k1 = Done (cs, k2) ∧
    close fd k2 = Done (0, k3) ∧
    concat cs = file_slice (k_mem k) (k_fs k) ino 0 n ∧
    k_pcbs k3 = <[get_curr_pcb k := with_files
      (<[Z.to_nat fd := FileDesc (Some file_funcs) ino n NOT_IN_USE]> (files p)) p]> (k_pcbs k) ∧
    ∀ a, fs_addr (k_fs k) <= a < image_end (k_fs k) → k_mem k3 a = k_mem k a.
Proof.
  cbv zeta. set (ino := load32 _ (_ + 36)) in *. set (d := FileDesc (Some file_funcs) ino 0 IN_USE).
  destruct (free_fd_files _ _ (so_files _ _ _ _ _ _ H) Hfd) as (Hr & _ & _). split; [done|].
  pose proof (with_fd_ok _ _ _ id k p fd d H) as H1. pose proof (zget_insert_eq (files p) fd d) as Hget.
  rewrite (so_files _ _ _ _ _ _ H) in Hget. specialize (Hget ltac:(lia)).
  destruct (read_chunks_spec dir_addr table_addr vidmem_addr stack_dentry Hlink id typed ticks fd ino buf sizes
    (with_fd fd d p k) _ 0 H1 Hget Hino) as (cs & m' & Er & Hcat & Hs & Hm'); [|done|].
  { pose proof (file_size_range _ _ (so_image _ _ _ _ _ _ H) ino) as [? _]. split; [lia|done]. }
  change (k_mem (with_fd fd d p k)) with (k_mem k) in *. change (k_fs (with_fd fd d p k)) with (k_fs k) in *.
  rewrite Z.sub_0_r in Er, Hcat. set (n := Z.min _ _) in *.
  set (p1 := with_files _ p) in *. set (k1 := with_fd fd d p k) in *.
  pose proof (after_read_ok dir_addr table_addr vidmem_addr id k1 p1 fd d n m' H1 Hs Hm') as H2.
  set (k2 := after_read fd d n m' p1 k1) in *. set (p2 := with_files _ p1) in *.
  assert (Hget2 : zget (files p2) fd = Some (FileDesc (Some file_funcs) ino n IN_USE)).
  { cbn. apply zget_insert_eq. rewrite length_insert, (so_files _ _ _ _ _ _ H). lia. }
  pose proof (close_file_spec dir_addr table_addr vidmem_addr id k2 p2 fd _ H2 Hr Hget2 eq_refl eq_refl) as Ec.
  exists k1, cs, k2. eexists. split_and!.
  - apply (open_file_spec dir_addr table_addr vidmem_addr stack_dentry k p filename i fd); [by apply (sys_opener _ _ _ id)|done|done].
  - exact Er.
  - exact Ec.
  - exact Hcat.
  - cbn. rewrite !list_insert_insert_eq, !insert_insert_eq. done.
  - exact Hs.
Qed.

Lemma file_session_witness :
  ∃ k1 cs k2, open 0x500000 0x501000 0x502000 (replicate 64 0) 0x8048000 kernel2 = Done (2, k1) ∧
    read_chunks 0x500000 0x501000 0x502000 (replicate 64 0) (λ _ x, x) (λ _, O) [4000; 4000] 2 0x8050000 k1
      = Done (cs, k2) ∧ concat cs = file_slice mem2 img_fs 0 0 5000.
Proof.
  destruct (file_session 0x500000 0x501000 0x502000 (replicate 64 0) linked0 1 kernel2 pcb2 (λ _ x, x) (λ _, O)
    0x8048000 1 2 0x8050000 [4000; 4000] kernel2_ok) as (_ & k1 & cs & k2 & k3 & Eo & Er & _ & Ec & _).
  - split_and!; by vm_compute.
  - assert (Ed : num_dentries (k_fs kernel2) = 2) by by vm_compute.
    unfold names_entry. rewrite Ed. cbv zeta. split; [lia|]. exists 2. split_and!.
    + split_and!; [done|by vm_compute|]. intros i Hi.
      assert (i = 0 ∨ i = 1) as [-> | ->] by lia; [exists 97|exists 98]; (split; [by vm_compute|done]).
    + lia.
    + by vm_compute.
    + intros j Hj. assert (j = 0) as -> by lia. by vm_compute.
  - by vm_compute.
  - apply (inode_ok_frame img mem2 img_fs img_ok); [|exact img_inode_ok].
    intros a Ha. apply blit_out. left. change (image_end img_fs) with 0x705000 in Ha. lia.
  - reflexivity.
  - repeat constructor; by vm_compute.
  - assert (Ei : load32 (k_mem kernel2) (entry_at (k_fs kernel2) 1 + 36) = 0) by by vm_compute.
    assert (En : Z.min (file_size (k_mem kernel2) (k_fs kernel2) 0) (total [4000; 4000]) = 5000)
      by by vm_compute.
    rewrite Ei, En in Ec. exists k1, cs, k2. split; [exact Eo|]. split; [exact Er|exact Ec].
Defined.
