(* ===== verification/Tables.v ===== *)
(** The process tables of student-distrib/syscall.c and lib.c: the pid array
    and the stacks of pids of the terminals, their invariant, and the effect
    of [execute] and of [halt] on them. *)
From stdpp Require Import gmap.
From S2P Require Import Prelude Kernel.

(** * The process tables *)

(** The pids on the stack of terminal [t], bottom first. *)
Definition stack_of (ps : procs) (t : Z) : list Z :=
  match zget (process_terminal ps) t, zget (process_terminal_cnt ps) t with
  | Some row, Some n => take (Z.to_nat n) row
  | _, _ => []
  end.
Definition all_pids (ps : procs) : list Z := stack_of ps 0 ++ stack_of ps 1 ++ stack_of ps 2.

(** The tables have their size; a pid is in use exactly when it is on one of
    the stacks, and then on one place of one stack only. *)
Record procs_ok (ps : procs) : Prop := ProcsOk {
  po_process : length (process ps) = 6%nat;
  po_rows : length (process_terminal ps) = 3%nat;
  po_row : ∀ t row, zget (process_terminal ps) t = Some row → length row = 6%nat;
  po_cnts : length (process_terminal_cnt ps) = 3%nat;
  po_cnt : ∀ t n, zget (process_terminal_cnt ps) t = Some n → 0 <= n <= 6;
  po_nodup : NoDup (all_pids ps);
  po_live : ∀ q, q ∈ all_pids ps ↔ zget (process ps) q = Some IN_USE;
  po_flag : ∀ q s, zget (process ps) q = Some s → s = IN_USE ∨ s = NOT_IN_USE }.

(** The effect of [execute] and of [halt] on the tables. *)
Definition pushed (ps : procs) (t q : Z) : procs :=
  match zget (process_terminal ps) t, zget (process_terminal_cnt ps) t with
  | Some row, Some n =>
      Procs (<[Z.to_nat q := IN_USE]> (process ps))
        (<[Z.to_nat t := <[Z.to_nat n := q]> row]> (process_terminal ps))
        (<[Z.to_nat t := n + 1]> (process_terminal_cnt ps))
  | _, _ => ps
  end.
Definition popped (ps : procs) (t q : Z) : procs :=
  match zget (process_terminal ps) t, zget (process_terminal_cnt ps) t with
  | Some row, Some n =>
      Procs (<[Z.to_nat q := NOT_IN_USE]> (process ps))
        (<[Z.to_nat t := <[Z.to_nat (n - 1) := NOT_IN_USE]> row]> (process_terminal ps))
        (<[Z.to_nat t := n - 1]> (process_terminal_cnt ps))
  | _, _ => ps
  end.

Lemma zget_length3 {A} (l : list A) t : length l = 3%nat → 0 <= t < 3 → ∃ x, zget l t = Some x.
Proof. intros. apply zget_is_Some. lia. Qed.

Section tables.
Context (ps : procs) (Hps : procs_ok ps) (t : Z) (Ht : 0 <= t < 3).

Lemma table_lookup : ∃ row n, zget (process_terminal ps) t = Some row ∧
  zget (process_terminal_cnt ps) t = Some n ∧ length row = 6%nat ∧ 0 <= n <= 6 ∧
  stack_of ps t = take (Z.to_nat n) row.
Proof.
  destruct (zget_length3 (process_terminal ps) t (po_rows _ Hps) Ht) as [row Hrow].
  destruct (zget_length3 (process_terminal_cnt ps) t (po_cnts _ Hps) Ht) as [n Hn].
  exists row, n. split_and!; [done|done|by eapply po_row|by eapply po_cnt|by eapply po_cnt|].
  unfold stack_of. by rewrite Hrow, Hn.
Qed.

(** The stacks, with that of [t] singled out. *)
Definition others : list Z :=
  if t =? 0 then stack_of ps 1 ++ stack_of ps 2
  else if t =? 1 then stack_of ps 0 ++ stack_of ps 2 else stack_of ps 0 ++ stack_of ps 1.
Lemma all_pids_split : all_pids ps ≡ₚ stack_of ps t ++ others.
Proof.
  unfold all_pids, others. assert (t = 0 ∨ t = 1 ∨ t = 2) as [-> | [-> | ->]] by lia; cbn [Z.eqb].
  - done.
  - change (1 =? 0) with false. change (1 =? 1) with true. cbv iota. rewrite !app_assoc.
    by rewrite (Permutation_app_comm (stack_of ps 0) (stack_of ps 1)).
  - change (2 =? 0) with false. change (2 =? 1) with false. cbv iota.
    rewrite (app_assoc (stack_of ps 0)). apply Permutation_app_comm.
Qed.

Lemma pid_range q : q ∈ all_pids ps → 0 <= q < 6.
Proof.
  intros Hq. apply (po_live _ Hps) in Hq. apply zget_Some in Hq as [? Hq%lookup_lt_Some].
  rewrite (po_process _ Hps) in Hq. lia.
Qed.

(** With a free pid left, no stack is full. *)
Lemma stack_room q : zget (process ps) q = Some NOT_IN_USE →
  (length (stack_of ps t) < 6)%nat ∧ q ∉ all_pids ps.
Proof.
  intros Hq. assert (Hfree : q ∉ all_pids ps).
  { intros Hin. apply (po_live _ Hps) in Hin. rewrite Hin in Hq. discriminate Hq. }
  split; [|done]. assert (Hq6 : 0 <= q < 6).
  { apply zget_Some in Hq as [? Hq%lookup_lt_Some]. rewrite (po_process _ Hps) in Hq. lia. }
  assert (Hsub : q :: all_pids ps ⊆+ seqZ 0 6).
  { apply NoDup_submseteq; [constructor; [done|apply Hps]|].
    intros x [->|Hx]%elem_of_cons; apply elem_of_seqZ; [lia|]. apply pid_range in Hx. lia. }
  apply submseteq_length in Hsub. cbn [length] in Hsub.
  rewrite (Permutation_length all_pids_split), length_app in Hsub.
  change (length (seqZ 0 6)) with 6%nat in Hsub. lia.
Qed.
End tables.

Lemma stack_of_other ps t t' row n p : t ≠ t' → 0 <= t →
  stack_of (Procs p (<[Z.to_nat t := row]> (process_terminal ps))
    (<[Z.to_nat t := n]> (process_terminal_cnt ps))) t' = stack_of ps t'.
Proof. intros Hne Ht. unfold stack_of. cbn. by rewrite !zget_insert_ne by done. Qed.

Lemma others_same ps ps' t : 0 <= t < 3 → (∀ t', t' ≠ t → stack_of ps' t' = stack_of ps t') →
  others ps' t = others ps t.
Proof.
  intros Ht H. unfold others. assert (t = 0 ∨ t = 1 ∨ t = 2) as [-> | [-> | ->]] by lia;
    [change (0 =? 0) with true|change (1 =? 0) with false; change (1 =? 1) with true
    |change (2 =? 0) with false; change (2 =? 1) with false]; cbv iota; rewrite !H by done; done.
Qed.

(** Pushing a free pid keeps the tables well formed and grows one stack. *)
Lemma pushed_ok ps t q : procs_ok ps → 0 <= t < 3 → zget (process ps) q = Some NOT_IN_USE →
  procs_ok (pushed ps t q) ∧ stack_of (pushed ps t q) t = stack_of ps t ++ [q] ∧
  (∀ t', t' ≠ t → stack_of (pushed ps t q) t' = stack_of ps t').
Proof.
  intros Hps Ht Hq. destruct (table_lookup ps Hps t Ht) as (row & n & Hrow & Hn & Hl & Hr & Est).
  destruct (stack_room ps Hps t Ht q Hq) as [Hroom Hfree]. rewrite Est, length_take, Hl in Hroom.
  assert (Hq6 : 0 <= q < 6).
  { apply zget_Some in Hq as [? Hq%lookup_lt_Some]. rewrite (po_process _ Hps) in Hq. lia. }
  assert (E1 : stack_of (pushed ps t q) t = stack_of ps t ++ [q]).
  { rewrite Est. unfold stack_of, pushed. rewrite Hrow, Hn. cbn.
    rewrite !zget_insert_eq by (rewrite ?(po_rows _ Hps), ?(po_cnts _ Hps); lia).
    replace (Z.to_nat (n + 1)) with (S (Z.to_nat n)) by lia.
    rewrite (take_S_r _ _ q); [|apply list_lookup_insert_eq; lia]. by rewrite take_insert_ge by lia. }
  assert (E2 : ∀ t', t' ≠ t → stack_of (pushed ps t q) t' = stack_of ps t').
  { intros t' Hne. unfold pushed. rewrite Hrow, Hn. apply stack_of_other; [done|lia]. }
  split; [|done]. pose proof (others_same ps (pushed ps t q) t Ht E2) as Eo.
  assert (Eproc : process (pushed ps t q) = <[Z.to_nat q := IN_USE]> (process ps))
    by (unfold pushed; by rewrite Hrow, Hn).
  assert (Hshape : length (process_terminal (pushed ps t q)) = 3%nat ∧
    length (process_terminal_cnt (pushed ps t q)) = 3%nat ∧
    (∀ t' r, zget (process_terminal (pushed ps t q)) t' = Some r → length r = 6%nat) ∧
    (∀ t' c, zget (process_terminal_cnt (pushed ps t q)) t' = Some c → 0 <= c <= 6)).
  { unfold pushed. rewrite Hrow, Hn. cbn. rewrite !length_insert, (po_rows _ Hps), (po_cnts _ Hps).
    split_and!; [done|done| |].
    - intros t' r. destruct (decide (t = t')) as [<-|]; [rewrite zget_insert_eq by (rewrite (po_rows _ Hps); lia)|
        rewrite zget_insert_ne by lia; apply Hps]. intros [= <-]. by rewrite length_insert.
    - intros t' c. destruct (decide (t = t')) as [<-|]; [rewrite zget_insert_eq by (rewrite (po_cnts _ Hps); lia)|
        rewrite zget_insert_ne by lia; apply Hps]. intros [= <-]. lia. }
  destruct Hshape as (S1 & S2 & S3 & S4).
  assert (Hall : all_pids (pushed ps t q) ≡ₚ q :: all_pids ps).
  { rewrite (all_pids_split (pushed ps t q) t Ht), (all_pids_split ps t Ht), E1, Eo, <- app_assoc.
    apply Permutation_sym, Permutation_middle. }
  split; try done.
  - rewrite Eproc, length_insert. apply Hps.
  - rewrite Hall. constructor; [done|apply Hps].
  - intros x. rewrite Hall, elem_of_cons, Eproc, (po_live _ Hps).
    destruct (decide (q = x)) as [<-|]; [rewrite zget_insert_eq by (rewrite (po_process _ Hps); lia); naive_solver|].
    rewrite zget_insert_ne by lia. naive_solver.
  - intros x s. rewrite Eproc. destruct (decide (q = x)) as [<-|].
    + rewrite zget_insert_eq by (rewrite (po_process _ Hps); lia). intros [= <-]. by left.
    + rewrite zget_insert_ne by lia. apply Hps.
Qed.

(** Popping the top of a stack frees its pid. *)
Lemma popped_ok ps t q l : procs_ok ps → 0 <= t < 3 → stack_of ps t = l ++ [q] →
  procs_ok (popped ps t q) ∧ stack_of (popped ps t q) t = l ∧
  (∀ t', t' ≠ t → stack_of (popped ps t q) t' = stack_of ps t').
Proof.
  intros Hps Ht Etop. destruct (table_lookup ps Hps t Ht) as (row & n & Hrow & Hn & Hl & Hr & Est).
  assert (Hln : Z.of_nat (length l) = n - 1).
  { apply (f_equal length) in Etop. rewrite Est, length_take, length_app in Etop. cbn in Etop. lia. }
  assert (Hq : q ∈ all_pids ps).
  { rewrite (all_pids_split ps t Ht), Etop. set_solver. }
  pose proof (pid_range ps Hps q Hq) as Hq6.
  assert (E1 : stack_of (popped ps t q) t = l).
  { unfold stack_of, popped. rewrite Hrow, Hn. cbn.
    rewrite !zget_insert_eq by (rewrite ?(po_rows _ Hps), ?(po_cnts _ Hps); lia).
    rewrite take_insert_ge by lia. rewrite Est in Etop.
    apply (f_equal (take (Z.to_nat (n - 1)))) in Etop. rewrite take_take, Nat.min_l in Etop by lia.
    rewrite Etop, take_app_length' by lia. done. }
  assert (E2 : ∀ t', t' ≠ t → stack_of (popped ps t q) t' = stack_of ps t').
  { intros t' Hne. unfold popped. rewrite Hrow, Hn. apply stack_of_other; [done|lia]. }
  split; [|done]. pose proof (others_same ps (popped ps t q) t Ht E2) as Eo.
  assert (Eproc : process (popped ps t q) = <[Z.to_nat q := NOT_IN_USE]> (process ps))
    by (unfold popped; by rewrite Hrow, Hn).
  assert (Hshape : length (process_terminal (popped ps t q)) = 3%nat ∧
    length (process_terminal_cnt (popped ps t q)) = 3%nat ∧
    (∀ t' r, zget (process_terminal (popped ps t q)) t' = Some r → length r = 6%nat) ∧
    (∀ t' c, zget (process_terminal_cnt (popped ps t q)) t' = Some c → 0 <= c <= 6)).
  { unfold popped. rewrite Hrow, Hn. cbn. rewrite !length_insert, (po_rows _ Hps), (po_cnts _ Hps).
    split_and!; [done|done| |].
    - intros t' r. destruct (decide (t = t')) as [<-|]; [rewrite zget_insert_eq by (rewrite (po_rows _ Hps); lia)|
        rewrite zget_insert_ne by lia; apply Hps]. intros [= <-]. by rewrite length_insert.
    - intros t' c. destruct (decide (t = t')) as [<-|]; [rewrite zget_insert_eq by (rewrite (po_cnts _ Hps); lia)|
        rewrite zget_insert_ne by lia; apply Hps]. intros [= <-]. lia. }
  destruct Hshape as (S1 & S2 & S3 & S4).
  assert (Hall : all_pids ps ≡ₚ q :: all_pids (popped ps t q)).
  { rewrite (all_pids_split (popped ps t q) t Ht), (all_pids_split ps t Ht), E1, Eo, Etop, <- app_assoc.
    apply Permutation_sym, Permutation_middle. }
  pose proof (po_nodup _ Hps) as Hnd. rewrite Hall in Hnd. apply list.NoDup_cons in Hnd as [Hnq Hnd].
  split; try done.
  - rewrite Eproc, length_insert. apply Hps.
  - intros x. rewrite Eproc. pose proof (po_live _ Hps x) as Hlive. rewrite Hall, elem_of_cons in Hlive.
    destruct (decide (q = x)) as [<-|]; [rewrite zget_insert_eq by (rewrite (po_process _ Hps); lia); naive_solver|].
    rewrite zget_insert_ne by lia. naive_solver.
  - intros x s. rewrite Eproc. destruct (decide (q = x)) as [<-|].
    + rewrite zget_insert_eq by (rewrite (po_process _ Hps); lia). intros [= <-]. by right.
    + rewrite zget_insert_ne by lia. apply Hps.
Qed.

Lemma pushed_process ps t q : procs_ok ps → 0 <= t < 3 →
  process (pushed ps t q) = <[Z.to_nat q := IN_USE]> (process ps).
Proof. intros Hps Ht. destruct (table_lookup ps Hps t Ht) as (row & n & Hrow & Hn & _). unfold pushed. by rewrite Hrow, Hn. Qed.
Lemma popped_process ps t q : procs_ok ps → 0 <= t < 3 →
  process (popped ps t q) = <[Z.to_nat q := NOT_IN_USE]> (process ps).
Proof. intros Hps Ht. destruct (table_lookup ps Hps t Ht) as (row & n & Hrow & Hn & _). unfold popped. by rewrite Hrow, Hn. Qed.

(** A pop takes back a push. *)
Lemma popped_pushed ps t q : procs_ok ps → 0 <= t < 3 → zget (process ps) q = Some NOT_IN_USE →
  let ps' := popped (pushed ps t q) t q in
  procs_ok ps' ∧ process ps' = process ps ∧ ∀ t', stack_of ps' t' = stack_of ps t'.
Proof.
  intros Hps Ht Hfree ps'. destruct (pushed_ok ps t q Hps Ht Hfree) as (Hps1 & E1 & E2).
  destruct (popped_ok _ t q _ Hps1 Ht E1) as (Hps2 & E3 & E4). split_and!; [done| |].
  - unfold ps'. rewrite (popped_process _ t q Hps1 Ht), (pushed_process _ t q Hps Ht), list_insert_insert_eq.
    apply list_insert_id. by apply zget_Some in Hfree as [_ ?].
  - intros t'. destruct (decide (t' = t)) as [->|Hne]; [done|]. unfold ps'. by rewrite E4, E2.
Qed.

(** The other pids are in use after a push or a pop as before. *)
Lemma pushed_live ps t q x : procs_ok ps → 0 <= t < 3 → zget (process ps) q = Some NOT_IN_USE → x ≠ q →
  x ∈ all_pids (pushed ps t q) → x ∈ all_pids ps.
Proof.
  intros Hps Ht Hq Hx. destruct (pushed_ok ps t q Hps Ht Hq) as [Hok _].
  rewrite (po_live _ Hok), (po_live _ Hps), (pushed_process ps t q Hps Ht), zget_insert_ne; [done| |done].
  apply zget_Some in Hq. lia.
Qed.
Lemma popped_live ps t q l x : procs_ok ps → 0 <= t < 3 → stack_of ps t = l ++ [q] →
  x ∈ all_pids (popped ps t q) → x ∈ all_pids ps.
Proof.
  intros Hps Ht Hq. destruct (popped_ok ps t q l Hps Ht Hq) as [Hok _].
  rewrite (po_live _ Hok), (po_live _ Hps), (popped_process ps t q Hps Ht). intros Hx.
  assert (Hq6 : 0 <= q < 6) by (apply (pid_range ps Hps); rewrite (all_pids_split ps t Ht), Hq; set_solver).
  destruct (decide (q = x)) as [<-|]; [|by rewrite zget_insert_ne in Hx by lia].
  rewrite zget_insert_eq in Hx by (rewrite (po_process _ Hps); lia). discriminate Hx.
Qed.
