(* ===== verification/Process.v ===== *)
(** Theorems on the life of a process: parsing of the command line, starting
    a program with [execute], returning to its parent with [halt], and its
    arguments. *)
From Stdlib Require Import String.
From stdpp Require Import gmap.
From S2P Require Import Prelude Memory Strings Console Filesystem Paging Pic Rtc Kernel Terminal Syscall Tables.

(** * Command lines *)

(** The pointer [s] reads the bytes [l]. *)
Definition reads (s : str) (l : list Z) : Prop := ∀ i x, l !! i = Some x → s (Z.of_nat i) = Some x.

(** A line of [n] blanks, the word [w] and the rest [r]: empty or starting
    with a blank, without the bytes that end it. *)
Record command_line (w r : list Z) : Prop := CommandLine {
  cl_word : Forall (λ c, c ≠ 32 ∧ c ≠ 10 ∧ c ≠ 0) w;
  cl_rest : Forall (λ c, c ≠ 10 ∧ c ≠ 0) r;
  cl_blank : r = [] ∨ head r = Some 32 }.

Section parse.
Context (n : nat) (w r : list Z) (e : Z) (s : str).
Context (Hs : reads s (replicate n 32 ++ w ++ r ++ [e])) (Hl : command_line w r) (He : e = 10 ∨ e = 0).

Lemma reads_blank i : 0 <= i < Z.of_nat n → s i = Some 32.
Proof.
  intros Hi. replace i with (Z.of_nat (Z.to_nat i)) by lia. apply Hs.
  rewrite lookup_app_l by (rewrite length_replicate; lia). apply lookup_replicate. split; [done|lia].
Qed.
Lemma reads_word i x : w !! i = Some x → s (Z.of_nat n + Z.of_nat i) = Some x.
Proof.
  intros Hi. rewrite <- Nat2Z.inj_add. apply Hs.
  rewrite lookup_app_r, length_replicate by (rewrite length_replicate; lia).
  replace (n + i - n)%nat with i by lia. by apply lookup_app_l_Some.
Qed.
Lemma reads_rest i x : (r ++ [e]) !! i = Some x →
  s (Z.of_nat n + Z.of_nat (length w) + Z.of_nat i) = Some x.
Proof.
  intros Hi. rewrite <- !Nat2Z.inj_add. apply Hs.
  rewrite lookup_app_r, length_replicate by (rewrite length_replicate; lia).
  replace (n + length w + i - n)%nat with (length w + i)%nat by lia.
  rewrite lookup_app_r by lia. by replace (length w + i - length w)%nat with i by lia.
Qed.

(** The byte after the word. *)
Lemma after_word : ∃ c, s (Z.of_nat n + Z.of_nat (length w)) = Some c ∧ (c = 32 ∨ c = 10 ∨ c = 0).
Proof.
  destruct (cl_blank _ _ Hl) as [E|E].
  - exists e. split; [|lia]. rewrite <- (Z.add_0_r (_ + _)). apply (reads_rest 0). by rewrite E.
  - exists 32. split; [|lia]. rewrite <- (Z.add_0_r (_ + _)). apply (reads_rest 0). by destruct r.
Qed.

Lemma skip_spaces_spec : w ≠ [] → Z.of_nat n < 2 ^ 33 → skip_spaces s = Done (Z.of_nat n).
Proof.
  intros Hw Hn. unfold skip_spaces.
  apply (orun_done _ (λ i, 0 <= i <= Z.of_nat n) _ (λ i, Z.of_nat n - i)); [|lia|lia].
  intros i Hi. destruct (decide (i < Z.of_nat n)).
  - rewrite reads_blank by lia. change (32 =? 32) with true. cbv iota. lia.
  - replace i with (Z.of_nat n) by lia. destruct (lookup_lt_is_Some_2 w 0) as [c Hc].
    { destruct (decide (length w = 0%nat)) as [E%length_zero_iff_nil|]; [done|lia]. }
    pose proof (reads_word 0 c Hc) as E. rewrite Z.add_0_r in E. rewrite E.
    pose proof (list.Forall_lookup_1 _ _ _ _ (cl_word _ _ Hl) Hc) as (? & ? & ?).
    by rewrite (proj2 (Z.eqb_neq c 32)) by done.
Qed.

Lemma word_length_spec : Z.of_nat (length w) < 2 ^ 33 →
  word_length s (Z.of_nat n) = Done (Z.of_nat (length w)).
Proof.
  intros Hn. unfold word_length.
  apply (orun_done _ (λ i, 0 <= i <= Z.of_nat (length w)) _ (λ i, Z.of_nat (length w) - i)); [|lia|lia].
  intros i Hi. destruct (decide (i < Z.of_nat (length w))).
  - destruct (lookup_lt_is_Some_2 w (Z.to_nat i)) as [c Hc]; [lia|].
    pose proof (reads_word _ _ Hc) as E. rewrite Z2Nat.id in E by lia. rewrite E.
    pose proof (list.Forall_lookup_1 _ _ _ _ (cl_word _ _ Hl) Hc) as (? & ? & ?).
    rewrite !(proj2 (Z.eqb_neq c _)) by done. cbn. lia.
  - replace i with (Z.of_nat (length w)) by lia. destruct after_word as (c & -> & Hc).
    assert (Eb : negb (c =? 32) && negb (c =? 10) && negb (c =? 0) = false)
      by (destruct Hc as [-> | [-> | ->]]; done).
    by rewrite Eb.
Qed.

Lemma copy_name_spec : Z.of_nat (length w) < F_TYPE_OFFSET → Z.of_nat (n + length w) <= KEY_ARR_SIZE →
  copy_name s (Z.of_nat n) (Z.of_nat (length w)) = Done (inr (w ++ [0])).
Proof.
  unfold F_TYPE_OFFSET, KEY_ARR_SIZE. intros Hw Hn. unfold copy_name.
  apply (orun_done _ (λ '(i, name), Z.of_nat n <= i <= Z.of_nat (n + length w) ∧
    name = take (Z.to_nat (i - Z.of_nat n)) w) _ (λ p, Z.of_nat (n + length w) - p.1)).
  2: { split; [lia|]. by rewrite Z.sub_diag. }
  2: { cbn. lia. }
  intros [i name] [Hi ->]. unfold F_TYPE_OFFSET, KEY_ARR_SIZE.
  destruct (Z.ltb_spec i (Z.of_nat n + Z.of_nat (length w))).
  - destruct (Z.ltb_spec (128 - 1) i); [lia|]. destruct (Z.ltb_spec 32 (i - Z.of_nat n)); [lia|].
    destruct (Z.leb_spec 32 (i - Z.of_nat n)); [lia|].
    destruct (lookup_lt_is_Some_2 w (Z.to_nat (i - Z.of_nat n))) as [c Hc]; [lia|].
    pose proof (reads_word _ _ Hc) as E. replace (Z.of_nat n + Z.of_nat _) with i in E by lia.
    rewrite E. split; [|cbn [fst]; lia]. split; [lia|].
    replace (Z.to_nat (i + 1 - Z.of_nat n)) with (S (Z.to_nat (i - Z.of_nat n))) by lia.
    by rewrite (take_S_r _ _ c).
  - destruct (Z.leb_spec 32 (i - Z.of_nat n)); [lia|]. do 3 f_equal.
    rewrite take_take, Nat.min_id, take_ge by lia. done.
Qed.

Lemma copy_args_spec : Z.of_nat (length r) < ARG_MAX →
  copy_args s (Z.of_nat n + Z.of_nat (length w)) = Done (r ++ [0]).
Proof.
  unfold ARG_MAX. intros Hr. unfold copy_args. set (b := Z.of_nat n + Z.of_nat (length w)).
  apply (orun_done _ (λ '(i, args), b <= i <= b + Z.of_nat (length r) ∧
    args = take (Z.to_nat (i - b)) r) _ (λ p, b + Z.of_nat (length r) - p.1)).
  2: { split; [lia|]. by rewrite Z.sub_diag. }
  2: { cbn. lia. }
  intros [i args] [Hi ->]. unfold ARG_MAX.
  assert (Hb : (r ++ [e]) !! Z.to_nat (i - b) = s i ∨ s i = None).
  { destruct (lookup_lt_is_Some_2 (r ++ [e]) (Z.to_nat (i - b))) as [c Hc]; [rewrite length_app; cbn; lia|].
    pose proof (reads_rest _ _ Hc) as E. fold b in E. replace (b + Z.of_nat _) with i in E by lia.
    left. by rewrite E. }
  destruct (decide (i < b + Z.of_nat (length r))).
  - destruct (lookup_lt_is_Some_2 r (Z.to_nat (i - b))) as [c Hc]; [lia|].
    pose proof (reads_rest _ _ (lookup_app_l_Some r [e] _ _ Hc)) as E.
    fold b in E. replace (b + Z.of_nat _) with i in E by lia. rewrite E.
    destruct (Z.leb_spec 100 (i - b)); [lia|].
    pose proof (list.Forall_lookup_1 _ _ _ _ (cl_rest _ _ Hl) Hc) as (? & ?).
    rewrite !(proj2 (Z.eqb_neq c _)) by done. cbn [negb andb]. split; [|cbn [fst]; lia]. split; [lia|].
    replace (Z.to_nat (i + 1 - b)) with (S (Z.to_nat (i - b))) by lia. by rewrite (take_S_r _ _ c).
  - replace i with (b + Z.of_nat (length r)) by lia.
    assert (E : s (b + Z.of_nat (length r)) = Some e).
    { apply reads_rest. rewrite lookup_app_r by done. by rewrite Nat.sub_diag. }
    rewrite E. destruct (Z.leb_spec 100 (b + Z.of_nat (length r) - b)); [lia|].
    assert (Eb : negb (e =? 10) && negb (e =? 0) = false) by (destruct He as [-> | ->]; done).
    rewrite Eb. do 2 f_equal.
    replace (Z.to_nat (b + Z.of_nat (length r) - b)) with (length r) by lia. by rewrite take_ge by lia.
Qed.

Lemma parse_command_spec : w ≠ [] → Z.of_nat (length w) < F_TYPE_OFFSET →
  Z.of_nat (n + length w) <= KEY_ARR_SIZE → Z.of_nat (length r) < ARG_MAX →
  parse_command s = Done (inr (w ++ [0], r ++ [0])).
Proof.
  intros Hw Hlw Hn Hr. unfold parse_command. unfold F_TYPE_OFFSET, KEY_ARR_SIZE in *.
  rewrite skip_spaces_spec by (done || lia). rewrite bind_Done.
  rewrite word_length_spec by lia. rewrite bind_Done.
  rewrite copy_name_spec by done. rewrite bind_Done. cbv iota.
  rewrite copy_args_spec by done. by rewrite bind_Done.
Qed.
End parse.

(** * execute *)

(** Every kernel stack holds a control block with its eight descriptors; the
    block of a process in use holds its pid. *)
Definition pcbs_ok (k : kernel) : Prop := ∀ q, 0 <= q < MAX_TASK →
  ∃ p, k_pcbs k !! get_pcb_by_index q = Some p ∧ length (files p) = 8%nat ∧
       (q ∈ all_pids (k_procs k) → pid p = q).

Lemma nonzero_bytes l : Forall (λ c, is_u8 c ∧ c ≠ 0) l → Forall (λ c, c ≠ 0) l.
Proof. intros H. eapply list.Forall_impl; [exact H|]. by intros c [_ ?]. Qed.

(** The parent of a process [q] started on top of the stack [l]. *)
Definition parent_on (l : list Z) (q : Z) : Z := if q =? 0 then 0 else default 0 (list.last l).

(** The tables but for the pid array. *)
Definition same_stacks (ps ps' : procs) : Prop :=
  process_terminal ps' = process_terminal ps ∧ process_terminal_cnt ps' = process_terminal_cnt ps.

Section tables.
Context (k : kernel) (Hps : procs_ok (k_procs k)) (Hpcbs : pcbs_ok k).
Context (t := current_terminal (k_con k)) (Ht : 0 <= t < 3).
Context (q := get_pid k) (Hq : q ≠ -1).

Lemma get_pid_free : 0 <= q < 6 ∧ zget (process (k_procs k)) q = Some NOT_IN_USE ∧
  ∀ j, 0 <= j < q → zget (process (k_procs k)) j = Some IN_USE.
Proof.
  subst q. unfold get_pid in *. set (l := process (k_procs k)) in *.
  destruct (free_pid_spec l 0 ltac:(lia)) as [[E _]|(j & E & Hj & Hpre)]; [done|].
  assert (Hlen : length l = 6%nat) by apply Hps. pose proof (lookup_lt_Some _ _ _ Hj).
  rewrite E, Z.add_0_l. split_and!; [lia|lia|apply zget_Some; split; [lia|by rewrite Nat2Z.id]|].
  intros i Hi. destruct (zget_is_Some l i) as [s Hs]; [lia|].
  destruct (po_flag _ Hps i s Hs) as [-> | ->]; [done|]. apply zget_Some in Hs as [_ Hs].
  exfalso. eapply (Hpre (Z.to_nat i)); [lia|exact Hs|done].
Qed.

Lemma alloc_pid_spec : alloc_pid k = Done (Some (q, with_procs (Procs
  (<[Z.to_nat q := IN_USE]> (process (k_procs k))) (process_terminal (k_procs k))
  (process_terminal_cnt (k_procs k))) k)).
Proof.
  destruct get_pid_free as (Hr & _). unfold alloc_pid, set_process. fold q.
  rewrite (proj2 (Z.eqb_neq q (-1))) by done.
  rewrite zset_in by (rewrite (po_process _ Hps); lia). done.
Qed.

Lemma top_of_stack row n : zget (process_terminal (k_procs k)) t = Some row →
  zget (process_terminal_cnt (k_procs k)) t = Some n → 0 < n →
  ∃ x, zget row (n - 1) = Some x ∧ list.last (stack_of (k_procs k) t) = Some x ∧ x ∈ all_pids (k_procs k).
Proof.
  intros Hrow Hn Hpos. pose proof (po_row _ Hps _ _ Hrow) as Hl. pose proof (po_cnt _ Hps _ _ Hn) as Hr.
  destruct (zget_is_Some row (n - 1)) as [x Hx]; [lia|]. exists x. split; [done|].
  apply zget_Some in Hx as [_ Hx].
  assert (El : list.last (stack_of (k_procs k) t) = Some x).
  { unfold stack_of. rewrite Hrow, Hn, list.last_lookup, length_take, Hl.
    rewrite lookup_take_lt by lia. by replace (pred (Z.to_nat n `min` 6)) with (Z.to_nat (n - 1)) by lia. }
  split; [done|]. rewrite (all_pids_split _ t Ht). apply elem_of_app. left.
  rewrite list.last_lookup in El. by eapply list_elem_of_lookup_2.
Qed.

Lemma parent_of_spec k' : k_con k' = with_mem (λ _, k_mem k') (k_con k) →
  same_stacks (k_procs k) (k_procs k') → k_pcbs k' = k_pcbs k →
  parent_of q k' = Done (parent_on (stack_of (k_procs k) t) q).
Proof.
  intros Hc [E1 E2] E3. destruct get_pid_free as (Hr & _ & Hpre).
  assert (Ec : current_terminal (k_con k') = t) by by rewrite Hc.
  unfold parent_of, parent_on. destruct (Z.eqb_spec q 0) as [->|Hq0]; [done|].
  destruct (table_lookup _ Hps t Ht) as (row & n & Hrow & Hn & Hl & Hr' & Est).
  rewrite Ec. unfold cnt, slot, pcb_at. rewrite E1, E2, E3, Hn. cbn [must mbind out_bind].
  destruct (Z.eqb_spec n 0) as [->|Hn0]; cbn [negb].
  - rewrite Est. change (take (Z.to_nat 0) row) with (@nil Z). cbn [last default].
    destruct (Hpcbs 0) as (p & -> & _ & Hp); [unfold MAX_TASK; lia|]. cbn [must mbind out_bind].
    rewrite Hp; [done|]. apply (po_live _ Hps). apply Hpre. lia.
  - rewrite Hrow. cbn [must mbind out_bind].
    destruct (top_of_stack row n Hrow Hn ltac:(lia)) as (x & -> & -> & Hx). cbn [must mbind out_bind].
    pose proof (pid_range _ Hps x Hx). destruct (Hpcbs x) as (p & -> & _ & Hp); [unfold MAX_TASK; lia|].
    cbn. by rewrite Hp.
Qed.

Lemma push_process_spec k' : k_con k' = with_mem (λ _, k_mem k') (k_con k) →
  same_stacks (k_procs k) (k_procs k') → process (k_procs k') = <[Z.to_nat q := IN_USE]> (process (k_procs k)) →
  push_process q k' = Done (with_procs (pushed (k_procs k) t q) k').
Proof.
  intros Hc [E1 E2] E3. destruct get_pid_free as (Hr & Hfree & _).
  assert (Ec : current_terminal (k_con k') = t) by by rewrite Hc.
  destruct (table_lookup _ Hps t Ht) as (row & n & Hrow & Hn & Hl & Hr' & Est).
  destruct (stack_room _ Hps t Ht q Hfree) as [Hroom _]. rewrite Est, length_take, Hl in Hroom.
  unfold push_process. rewrite Ec. unfold cnt, set_cnt, set_slot. rewrite E2, Hn. cbn [must mbind out_bind].
  rewrite !u32_id by (split; lia).
  rewrite zset_in by (rewrite (po_cnts _ Hps); lia). cbn [must mbind out_bind process_terminal].
  rewrite E1, Hrow. cbn [must mbind out_bind]. replace (n + 1 - 1) with n by lia.
  rewrite zset_in by (rewrite Hl; lia). cbn [must mbind out_bind].
  rewrite zset_in by (rewrite (po_rows _ Hps); lia). cbn [must mbind out_bind process process_terminal_cnt].
  unfold pushed. by rewrite Hrow, Hn, E3.
Qed.
End tables.

(** * Starting a program *)
Section execute.
Context (dir_addr table_addr vidmem_addr magics : Z) (stack_dentry : dentry_t).
Context (Hlink : linked dir_addr table_addr vidmem_addr).
Context (k : kernel) (H : machine_ok dir_addr table_addr vidmem_addr k).

(** Entry [i] is the first one named [name], and it is a program: long enough
    for its header, short enough for the page, and with the magic number. *)
Record program (i : Z) (name : list Z) : Prop := Program {
  pr_entry : 0 <= i < num_dentries (k_fs k);
  pr_name : entry_name (k_mem k) (k_fs k) i = name;
  pr_first : ∀ j, 0 <= j < i → entry_name (k_mem k) (k_fs k) j ≠ name;
  pr_inode : inode_ok (k_mem k) (k_fs k) (load32 (k_mem k) (entry_at (k_fs k) i + 36));
  pr_size : 28 <= file_size (k_mem k) (k_fs k) (load32 (k_mem k) (entry_at (k_fs k) i + 36))
            <= _128_MB_SIZE + FOUR_MB_SIZE - PROGRAM_OFFSET;
  pr_magic : file_slice (k_mem k) (k_fs k) (load32 (k_mem k) (entry_at (k_fs k) i + 36)) 0 4
             = [0x7F; 0x45; 0x4C; 0x46] }.

Context (i : Z) (name : list Z) (Hname : Forall (λ c, is_u8 c ∧ c ≠ 0) name) (Hlen : Z.of_nat (length name) <= 32).
Context (Hprog : program i name) (ino := load32 (k_mem k) (entry_at (k_fs k) i + 36)).
Context (Hmag : buf_ok (k_fs k) magics 4).

(** The entry point in the program's header. *)
Definition entry_point : Z := load32 (file_byte (k_mem k) (k_fs k) ino) ENTRY_POINT.

Lemma lookup_program : read_dentry_by_name (k_mem k) (k_fs k) (lview (name ++ [0])) stack_dentry =
  Done (0, copy_dentry (k_mem k) (entry_at (k_fs k) i) stack_dentry).
Proof.
  destruct Hprog as [Hi En Hpre _ _ _].
  destruct (read_dentry_by_name_found (k_mem k) (k_fs k) (mo_image _ _ _ _ H) (mo_dir _ _ _ _ H)
    _ _ (lview_cstr name (nonzero_bytes name Hname))) with (dentry := stack_dentry) as (r & -> & Hr).
  - intros j Hj. destruct (lookup_lt_is_Some_2 name (Z.to_nat j)) as [c Hc]; [lia|]. exists c.
    split; [|by eapply (list.Forall_lookup_1 _ _ _ _ Hname)]. apply zget_Some. split; [lia|].
    by apply lookup_app_l_Some.
  - exact Hlen.
  - unfold lookup_result in Hr. rewrite bytes_of_lview in Hr. destruct Hr as [(j & Hj & Ej & Hfirst & ->)|[Hnone ->]].
    + assert (j = i) as ->; [|done]. destruct (Z.lt_trichotomy j i) as [?|[?|?]]; [|done|].
      * exfalso. apply (Hpre j); [lia|exact Ej].
      * exfalso. apply (Hfirst i); [lia|exact En].
    + exfalso. apply (Hnone i); [lia|exact En].
Qed.

(** The memory [m'] has the same image. *)
Definition same_image (m' : mem) : Prop :=
  mem_ok m' ∧ ∀ a, fs_addr (k_fs k) <= a < image_end (k_fs k) → m' a = k_mem k a.

(** Reading [n] bytes of the program to a buffer outside the image. *)
Lemma read_program m off buf n : same_image m → 0 <= off → 0 < n → n < 2 ^ 32 →
  off + n <= file_size (k_mem k) (k_fs k) ino → buf_ok (k_fs k) buf n →
  ∀ len, is_u32 len → n = Z.min (file_size (k_mem k) (k_fs k) ino - off) len →
  ∃ m', read_data m (k_fs k) ino off buf len = Done (n, m') ∧ same_image m' ∧
    (∀ j, 0 <= j < n → m' (buf + j) = file_byte (k_mem k) (k_fs k) ino (off + j)) ∧ only_in buf (buf + n) m m'.
Proof.
  intros [Hm Hs] Hoff Hn0 Hn Hsz Hbuf len Hlen' En. pose proof (mo_image _ _ _ _ H) as Him.
  pose proof (pr_inode _ _ Hprog) as Hino. fold ino in Hino. destruct (in_range _ _ _ Hino).
  pose proof (image_ok_frame _ _ _ Him Hs Hm) as Him'. pose proof (inode_ok_frame _ _ _ Him Hs ino Hino) as Hino'.
  assert (Esz : file_size m (k_fs k) ino = file_size (k_mem k) (k_fs k) ino)
    by (apply file_size_frame; [done|done|lia]).
  pose proof (in_size _ _ _ Hino) as Hmax. unfold BLOCKSIZE in Hmax.
  destruct (read_data_reads m (k_fs k) ino off buf len Him' Hino') as (m' & E & Ho & Hb);
    [split; lia|done|rewrite Esz; lia|by rewrite Esz, <- En|]. rewrite Esz, <- En in *.
  exists m'. split_and!; [done|split| |intros a Ha; by apply Ho].
  - intros a. destruct (decide (buf <= a < buf + n)) as [Ha|]; [|rewrite Ho by lia; apply Hm].
    replace a with (buf + (a - buf)) by lia. rewrite Hb by lia. apply Hm.
  - intros a Ha. rewrite Ho by (destruct Hbuf as [_ Hbuf]; lia). by apply Hs.
  - intros j Hj. rewrite Hb by lia. apply (file_byte_frame _ _ _ Him Hs ino _ Hino). lia.
Qed.

(** The two reads of the header. *)
Lemma read_header : ∃ m1 m2,
  read_data (k_mem k) (k_fs k) ino 0 magics 4 = Done (4, m1) ∧
  m1 magics = 0x7F ∧ m1 (magics + 1) = 0x45 ∧ m1 (magics + 2) = 0x4C ∧ m1 (magics + 3) = 0x46 ∧
  read_data m1 (k_fs k) ino ENTRY_POINT magics 4 = Done (4, m2) ∧
  load32 m2 magics = entry_point ∧ same_image m2 ∧ only_in magics (magics + 4) (k_mem k) m2.
Proof.
  pose proof (pr_size _ _ Hprog) as Hsz. fold ino in Hsz.
  assert (Hs0 : same_image (k_mem k)) by (split; [apply (mo_image _ _ _ _ H)|done]).
  destruct (read_program (k_mem k) 0 magics 4 Hs0) with (len := 4) as (m1 & E1 & Hs1 & Hb1 & Ho1);
    [lia|lia|lia|lia|done|by split; lia|lia|].
  destruct (read_program m1 ENTRY_POINT magics 4 Hs1) with (len := 4) as (m2 & E2 & Hs2 & Hb2 & Ho2);
    [unfold ENTRY_POINT; lia|lia|lia|unfold ENTRY_POINT; lia|done|by split; lia|unfold ENTRY_POINT; lia|].
  pose proof (pr_magic _ _ Hprog) as Hm. fold ino in Hm. injection Hm as H0 H1 H2 H3.
  exists m1, m2. split_and!; [exact E1|..|exact E2| |exact Hs2|exact (only_in_trans _ _ _ _ _ Ho1 Ho2)].
  - rewrite <- (Z.add_0_r magics), Hb1 by lia. exact H0.
  - rewrite Hb1 by lia. exact H1.
  - rewrite Hb1 by lia. exact H2.
  - rewrite Hb1 by lia. exact H3.
  - unfold load32, entry_point. rewrite <- (Z.add_0_r magics) at 1. by rewrite !Hb2 by lia.
Qed.

Context (Hps : procs_ok (k_procs k)) (Hpcbs : pcbs_ok k).
Context (t := current_terminal (k_con k)) (Ht : 0 <= t < 3) (q := get_pid k) (Hq : q ≠ -1).
Context (command : str) (args : list Z) (Hargs : Forall (λ c, c ≠ 0) args) (Hal : Z.of_nat (length args) < ARG_MAX).
Context (Hparse : parse_command command = Done (inr (name ++ [0], args ++ [0]))).

(** The argument array of the new process. *)
Definition argument_array : list Z := args ++ replicate (100 - length args) 0.
(** The kernel stack of process [q] when it is empty. *)
Definition stack_top (q : Z) : Z := EIGHT_MB_SIZE - q * EIGHT_KB_SIZE - ESP_OFFSET.

(** The kernel when the new program is entered. *)
Definition started (old : pcb_t) (m : mem) : kernel :=
  with_if true (with_stack (stack_top q) (k_ebp k) (with_tss (stack_top q) (set_pcb (get_pcb_by_index q)
    (init_pcb q (parent_on (stack_of (k_procs k) t) q) argument_array (k_esp k) (k_ebp k) old)
    (with_procs (pushed (k_procs k) t q) (with_page (map_program q (k_page k)) (set_mem m k)))))).

Lemma strncpy_args : strncpy (lview (args ++ [0])) ARG_MAX = Done argument_array.
Proof.
  unfold ARG_MAX in *. rewrite (strncpy_spec _ 100 (Z.of_nat (length args))).
  - rewrite bytes_of_lview. unfold argument_array. do 3 f_equal. lia.
  - lia.
  - lia.
  - intros j Hj. destruct (lookup_lt_is_Some_2 args (Z.to_nat j)) as [c Hc]; [lia|]. exists c.
    split; [|by eapply (list.Forall_lookup_1 _ _ _ _ Hargs)]. apply zget_Some. split; [lia|].
    by apply lookup_app_l_Some.
  - left. apply zget_Some. split; [lia|]. rewrite Nat2Z.id, lookup_app_r by lia. by rewrite Nat.sub_diag.
Qed.

Lemma stack_top_u32 : 0 <= q < 6 → u32 (EIGHT_MB_SIZE - q * EIGHT_KB_SIZE - ESP_OFFSET) = stack_top q.
Proof. unfold stack_top, EIGHT_MB_SIZE, EIGHT_KB_SIZE, ESP_OFFSET. intros. apply u32_id. split; lia. Qed.

(** The program page of the new process. *)
Lemma started_page : 0 <= q < 6 → ∃ win,
  rep dir_addr table_addr vidmem_addr (map_program q (k_page k)) (Some q, win) ∧ st_ok (Some q, win).
Proof.
  intros Hr. destruct (mo_page _ _ _ _ H) as ([id win] & Hrep & [_ Hw]). exists win. split.
  - exact (map_program_rep _ _ _ _ (id, win) q Hrep Hr).
  - split; [by intros ? [= <-]|exact Hw].
Qed.

Lemma execute_spec : ∃ old m', execute dir_addr table_addr vidmem_addr magics stack_dentry command k =
    Done (Enter entry_point (_128_MB_SIZE + FOUR_MB_SIZE - ESP_OFFSET), started old m') ∧
  k_pcbs k !! get_pcb_by_index q = Some old ∧ same_image m' ∧
  (∀ j, 0 <= j < file_size (k_mem k) (k_fs k) ino →
    m' (user_phys q PROGRAM_OFFSET + j) = file_byte (k_mem k) (k_fs k) ino j) ∧
  ∀ a, a < magics ∨ magics + 4 <= a → a < EIGHT_MB_SIZE → m' a = k_mem k a.
Proof.
  destruct (get_pid_free k Hps Hq) as (Hr & Hfree & _). fold q in Hr.
  destruct read_header as (m1 & m2 & E1 & M0 & M1 & M2 & M3 & E2 & Een & Hs2 & Ho2).
  destruct (started_page Hr) as (win & Hrep & Hst).
  pose proof (pr_size _ _ Hprog) as Hsz. fold ino in Hsz.
  unfold PROGRAM_OFFSET, _128_MB_SIZE, FOUR_MB_SIZE in Hsz.
  destruct (read_program m2 0 (user_phys q PROGRAM_OFFSET) (file_size (k_mem k) (k_fs k) ino) Hs2)
    with (len := FOUR_MB_SIZE) as (m3 & E3 & Hs3 & Hb3 & Ho3); [lia|lia|lia|lia| |by split|unfold FOUR_MB_SIZE; lia|].
  { split; [lia|]. right. pose proof (mo_low _ _ _ _ H).
    unfold user_phys, PROGRAM_OFFSET, EIGHT_MB_SIZE, FOUR_MB_SIZE, _128_MB_SIZE in *. lia. }
  destruct (Hpcbs q) as (old & Hold & _); [exact Hr|].
  destruct (copy_dentry_fields (k_mem k) (entry_at (k_fs k) i) stack_dentry) as [_ Ei]. fold ino in Ei.
  exists old, m3. split_and!; [|exact Hold|exact Hs3|exact Hb3|].
  2: { intros a Ha Hlow. rewrite Ho3; [by apply Ho2|left].
       unfold user_phys, PROGRAM_OFFSET, EIGHT_MB_SIZE, FOUR_MB_SIZE, _128_MB_SIZE in *. lia. }
  unfold execute. cbv zeta. rewrite Hparse, bind_Done. cbv iota.
  change (k_mem (with_if false k)) with (k_mem k). change (k_fs (with_if false k)) with (k_fs k).
  rewrite lookup_program, bind_Done. change (0 =? -1) with false. cbv iota.
  rewrite Ei, E1, bind_Done, M0, M1, M2, M3. change (negb _) with false. cbv iota.
  change (k_fs (set_mem m1 (with_if false k))) with (k_fs k). rewrite E2, bind_Done, Een.
  set (k2 := set_mem m2 _).
  assert (Ealloc : alloc_pid k2 = Done (Some (q, with_procs (Procs
    (<[Z.to_nat q := IN_USE]> (process (k_procs k))) (process_terminal (k_procs k))
    (process_terminal_cnt (k_procs k))) k2))) by exact (alloc_pid_spec k2 Hps Hq).
  rewrite Ealloc, bind_Done. cbv iota. set (k3 := with_page _ _).
  assert (Eva : va dir_addr table_addr vidmem_addr k3 PROGRAM_OFFSET = user_phys q PROGRAM_OFFSET).
  { unfold va, phys. rewrite (page_translation _ _ _ Hlink q win) by done. done. }
  change (k_mem k3) with m2. change (k_fs k3) with (k_fs k).
  rewrite Eva, E3, bind_Done.
  rewrite (page_range _ _ _ Hlink q win) by (done || unfold PROGRAM_OFFSET, _128_MB_SIZE, FOUR_MB_SIZE; lia).
  rewrite bind_Done. set (k4 := set_mem m3 k3).
  pose proof (parent_of_spec k Hps Hpcbs Ht Hq k4 eq_refl (conj eq_refl eq_refl) eq_refl) as Epar.
  pose proof (push_process_spec k Hps Ht Hq k4 eq_refl (conj eq_refl eq_refl) eq_refl) as Epush.
  fold q in Epar, Epush. rewrite Epar, bind_Done, Epush, bind_Done.
  fold t. set (k5 := with_procs _ k4). unfold pcb_at. change (k_pcbs k5) with (k_pcbs k).
  rewrite Hold. cbn [must]. rewrite bind_Done, strncpy_args, bind_Done.
  rewrite stack_top_u32 by exact Hr. reflexivity.
Qed.

(** The control block of the new process. *)
Definition started_pcb (old : pcb_t) : pcb_t :=
  init_pcb q (parent_on (stack_of (k_procs k) t) q) argument_array (k_esp k) (k_ebp k) old.

Lemma length_init_files l : length l = 8%nat → length (init_files l) = 8%nat.
Proof. intros E. unfold init_files. cbn [length]. by rewrite length_fmap, length_drop, E. Qed.

Lemma started_ok old m : k_pcbs k !! get_pcb_by_index q = Some old → same_image m →
  sys_ok dir_addr table_addr vidmem_addr q (started old m) (started_pcb old) ∧
  procs_ok (k_procs (started old m)) ∧ pcbs_ok (started old m) ∧
  get_curr_pcb (started old m) = get_pcb_by_index q.
Proof.
  intros Hold [Hm Hs]. destruct (get_pid_free k Hps Hq) as (Hr & Hfree & _). fold q in Hr, Hfree.
  destruct (Hpcbs q) as (old' & Hold' & Hlo & _); [exact Hr|]. rewrite Hold in Hold'. injection Hold' as <-.
  assert (Ecur : get_curr_pcb (started old m) = get_pcb_by_index q).
  { unfold get_curr_pcb. change (k_esp (started old m)) with (stack_top q). unfold stack_top.
    rewrite <- (stack_pcb q 0) by (unfold MAX_TASK, EIGHT_KB_SIZE, ESP_OFFSET; lia). by rewrite Z.sub_0_r. }
  split_and!; [split|by apply pushed_ok| |done].
  - change (image_ok m (k_fs k)). by apply (image_ok_frame (k_mem k) m (k_fs k) (mo_image _ _ _ _ H)).
  - change (dir_ok m (k_fs k)). apply (dir_ok_frame (k_mem k)); [apply (mo_image _ _ _ _ H)|apply (mo_dir _ _ _ _ H)|exact Hs].
  - apply (mo_low _ _ _ _ H).
  - by apply started_page.
  - rewrite Ecur. cbn. apply lookup_insert_eq.
  - by apply length_init_files.
  - intros x Hx. destruct (decide (x = q)) as [->|Hne].
    + exists (started_pcb old). split_and!; [cbn; apply lookup_insert_eq|by apply length_init_files|done].
    + destruct (Hpcbs x Hx) as (px & Hpx & Hlx & Hid). exists px. split_and!; [|done|].
      * cbn. rewrite lookup_insert_ne; [done|]. intros E. apply Hne. symmetry. by apply get_pcb_inj.
      * intros Hin. apply Hid. by apply (pushed_live _ t q).
Qed.
End execute.

(** * Returning to the parent *)
Section halt.
Context (dir_addr table_addr vidmem_addr magics : Z) (stack_dentry : dentry_t).
Context (k : kernel) (Hps : procs_ok (k_procs k)) (t := running_terminal k) (Ht : 0 <= t < 3).
Context (l : list Z) (q : Z) (Hstack : stack_of (k_procs k) t = l ++ [q]).
Context (p : pcb_t) (Hp : k_pcbs k !! get_pcb_by_index q = Some p) (Hpid : pid p = q).
Context (Hfiles : Forall (λ d, flags d = IN_USE → is_Some (ptrs d)) (files p)).

Definition closed_files (l : list file_desc_t) : list file_desc_t :=
  (λ _, FileDesc (Some fail_funcs) (u32 (-1)) 0 NOT_IN_USE) <$> l.

Lemma close_all_spec fs : Forall (λ d, flags d = IN_USE → is_Some (ptrs d)) fs →
  close_all fs = Done (closed_files fs).
Proof.
  unfold close_all. intros Hfs. change (closed_files fs) with ([] ++ closed_files fs).
  generalize (@nil file_desc_t) as acc. induction Hfs as [|d fs Hd _ IH]; intros acc; cbn [foldl].
  - by rewrite app_nil_r.
  - assert (E : close_file (Done acc) d = Done (acc ++ [FileDesc (Some fail_funcs) (u32 (-1)) 0 NOT_IN_USE])).
    { unfold close_file. rewrite bind_Done. destruct (Z.eqb_spec (flags d) IN_USE) as [E|]; [|done].
      destruct (Hd E) as [[] ->]; done. }
    rewrite E, IH. cbn. by rewrite <- app_assoc.
Qed.

(** The kernel when the process is gone. *)
Definition reaped : kernel :=
  set_pcb (get_pcb_by_index q) (with_files (closed_files (files p)) p) (with_procs (popped (k_procs k) t q)
    (with_tss (u32 (EIGHT_MB_SIZE - parent_pid p * EIGHT_KB_SIZE - ESP_OFFSET))
    (with_page (map_program (parent_pid p) (k_page k)) (with_if false k)))).
(** The parent's call of [execute] going on. *)
Definition resumed (status : Z) (k : kernel) : outcome * kernel :=
  return_to_execute (with_stack (parent_esp p) (parent_ebp p) (with_retval status k)).

(** The last program of a terminal, and pid 0, are followed by a new shell. *)
Lemma halt_cases status : halt dir_addr table_addr vidmem_addr magics stack_dentry status k =
  if (q =? 0) || bool_decide (l = []) then
    '(o, k) ← execute dir_addr table_addr vidmem_addr magics stack_dentry (lit0 "shell") reaped;
    match o with Return _ => Done (resumed status k) | _ => Done (o, k) end
  else Done (resumed status reaped).
Proof.
  destruct (table_lookup _ Hps t Ht) as (row & n & Hrow & Hn & Hlr & Hr & Est).
  assert (Hln : n = Z.of_nat (length l) + 1).
  { pose proof (f_equal length Hstack) as E. rewrite Est, length_take, length_app in E. cbn in E. lia. }
  assert (Hq : zget row (n - 1) = Some q).
  { apply zget_Some. split; [lia|]. rewrite Est in Hstack.
    rewrite <- (lookup_take_lt row (Z.to_nat n)) by lia. rewrite Hstack.
    replace (Z.to_nat (n - 1)) with (length l) by lia. rewrite lookup_app_r by lia. by rewrite Nat.sub_diag. }
  assert (Hq6 : 0 <= q < 6) by (apply (pid_range _ Hps); rewrite (all_pids_split _ t Ht), Hstack; set_solver).
  unfold halt. cbv zeta. change (running_terminal (with_if false k)) with t.
  unfold cnt, slot. change (k_procs (with_if false k)) with (k_procs k). rewrite Hn. cbn [must].
  rewrite bind_Done, Hrow. cbn [must]. rewrite bind_Done, (u32_id (n - 1)) by (split; lia).
  rewrite Hq. cbn [must]. rewrite bind_Done. unfold pcb_at. change (k_pcbs (with_if false k)) with (k_pcbs k).
  rewrite Hp. cbn [must]. rewrite bind_Done, Hpid. unfold set_process.
  change (k_procs (with_tss _ _)) with (k_procs k).
  rewrite zset_in by (rewrite (po_process _ Hps); lia). cbn [must]. rewrite !bind_Done.
  unfold set_slot. cbn [process_terminal process process_terminal_cnt]. rewrite Hrow. cbn [must]. rewrite bind_Done.
  rewrite zset_in by lia. cbn [must]. rewrite bind_Done.
  rewrite zset_in by (rewrite (po_rows _ Hps); lia). cbn [must]. rewrite !bind_Done.
  unfold set_cnt. cbn [process_terminal process process_terminal_cnt].
  rewrite zset_in by (rewrite (po_cnts _ Hps); lia). cbn [must]. rewrite !bind_Done.
  rewrite (close_all_spec _ Hfiles), bind_Done.
  assert (E : (n - 1 =? 0) = bool_decide (l = [])).
  { destruct l; cbn in Hln; case_bool_decide; zcase; done. }
  rewrite (u32_id (n - 1)), E by (split; lia). unfold reaped, resumed, popped. rewrite Hrow, Hn. reflexivity.
Qed.

(** The kernel when the parent goes on after its call of [execute]. *)
Definition halted (status : Z) : kernel :=
  with_if true (with_stack (parent_esp p) (parent_ebp p) (with_retval status reaped)).

Lemma halt_spec status : l ≠ [] → q ≠ 0 → halt dir_addr table_addr vidmem_addr magics stack_dentry status k =
  Done (Return (if status =? EXCEPTION_MAGIC then EXCEPTION_RET else 0), halted status).
Proof.
  intros Hl Hq0. rewrite halt_cases, (proj2 (Z.eqb_neq q 0) Hq0), bool_decide_false by done. reflexivity.
Qed.
End halt.

(** The kernel while the program [k1] entered is running: whatever it did, the
    process tables and the saved state of its control block are as they were. *)
Record still_running (dir_addr table_addr vidmem_addr : Z) (q : Z) (p1 : pcb_t) (k1 k2 : kernel) (p2 : pcb_t) : Prop :=
  StillRunning {
    sr_procs : k_procs k2 = k_procs k1;
    sr_pcb : k_pcbs k2 !! get_pcb_by_index q = Some p2;
    sr_saved : pid p2 = pid p1 ∧ parent_pid p2 = parent_pid p1 ∧
               parent_esp p2 = parent_esp p1 ∧ parent_ebp p2 = parent_ebp p1;
    sr_files : Forall (λ d, flags d = IN_USE → is_Some (ptrs d)) (files p2);
    sr_page : ∃ st, rep dir_addr table_addr vidmem_addr (k_page k2) st ∧ st_ok st }.

Lemma init_files_ptrs l : Forall (λ d, flags d = IN_USE → is_Some (ptrs d)) (init_files l).
Proof.
  unfold init_files. constructor; [by intros _; eexists|]. constructor; [by intros _; eexists|].
  apply Forall_fmap, Forall_true. intros d E. discriminate E.
Qed.

Section theorems.
Context (dir_addr table_addr vidmem_addr magics : Z) (stack_dentry : dentry_t).
Context (Hlink : linked dir_addr table_addr vidmem_addr).
Context (k : kernel) (id : Z) (p : pcb_t) (H : sys_ok dir_addr table_addr vidmem_addr id k p).
Context (Hps : procs_ok (k_procs k)) (Hpcbs : pcbs_ok k).
Context (t := current_terminal (k_con k)) (Ht : 0 <= t < 3) (q := get_pid k) (Hq : q ≠ -1).
Context (i : Z) (name args : list Z) (n : nat) (e : Z) (command : str).
Context (Hcommand : reads command (replicate n 32 ++ name ++ args ++ [e]) ∧ (e = 10 ∨ e = 0)).
Context (Hline : command_line name args) (Hname : name ≠ [] ∧ Z.of_nat (length name) < 32 ∧ Forall is_u8 name).
Context (Hsize : Z.of_nat (n + length name) <= KEY_ARR_SIZE ∧ Z.of_nat (length args) < ARG_MAX).
Context (Hprog : program k i name) (Hmag : buf_ok (k_fs k) magics 4).

Lemma name_bytes : Forall (λ c, is_u8 c ∧ c ≠ 0) name.
Proof.
  destruct Hname as (_ & _ & Hb). apply list.Forall_and. split; [done|].
  eapply list.Forall_impl; [apply (cl_word _ _ Hline)|]. by intros c (_ & _ & ?).
Qed.
Lemma args_bytes : Forall (λ c, c ≠ 0) args.
Proof. eapply list.Forall_impl; [apply (cl_rest _ _ Hline)|]. by intros c (_ & ?). Qed.
Lemma parse_ok : parse_command command = Done (inr (name ++ [0], args ++ [0])).
Proof.
  destruct Hname as (Hn0 & Hn & _), Hcommand as (Hr & He), Hsize as (Hs1 & Hs2).
  by apply (parse_command_spec n name args e command Hr Hline He).
Qed.

Lemma execute_line : ∃ old m', execute dir_addr table_addr vidmem_addr magics stack_dentry command k =
    Done (Enter (entry_point k i) (_128_MB_SIZE + FOUR_MB_SIZE - ESP_OFFSET), started k args old m') ∧
  k_pcbs k !! get_pcb_by_index q = Some old ∧ same_image k m' ∧
  ∀ j, 0 <= j < file_size (k_mem k) (k_fs k) (load32 (k_mem k) (entry_at (k_fs k) i + 36)) →
    m' (user_phys q PROGRAM_OFFSET + j) =
    file_byte (k_mem k) (k_fs k) (load32 (k_mem k) (entry_at (k_fs k) i + 36)) j.
Proof.
  destruct Hname as (_ & Hn & _), Hsize as (_ & Hs2).
  destruct (execute_spec dir_addr table_addr vidmem_addr magics stack_dentry Hlink k (sys_machine _ _ _ id k p H) i name name_bytes
    ltac:(lia) Hprog Hmag Hps Hpcbs Ht Hq command args args_bytes Hs2 parse_ok) as (old & m' & E & Hold & Hm & Hb & _).
  by exists old, m'.
Qed.

Lemma started_line old m : k_pcbs k !! get_pcb_by_index q = Some old → same_image k m →
  sys_ok dir_addr table_addr vidmem_addr q (started k args old m) (started_pcb k args old) ∧
  procs_ok (k_procs (started k args old m)) ∧ pcbs_ok (started k args old m) ∧
  get_curr_pcb (started k args old m) = get_pcb_by_index q.
Proof. exact (started_ok dir_addr table_addr vidmem_addr k (sys_machine _ _ _ id k p H) i name Hps Hpcbs Ht Hq args old m). Qed.

(** C19. Starting a program.  For every well-formed kernel state with a free
    pid and every command line (blanks, the name of a program on the image,
    its arguments), [execute] ends by entering user mode at the entry point
    stored in bytes 24 to 27 of the file, with the user stack at the top of
    the program page; the new process has the lowest free pid and is pushed
    on the stack of the displayed terminal, the other stacks are unchanged;
    its page holds the whole program at 0x8048000; its control block, found
    from the new kernel stack, records the parent, the parent's stack, the
    arguments padded with NULs and open standard descriptors; the image, the
    tables and the control blocks stay well formed. *)
Theorem execute_starts_program :
  ∃ k' p', execute dir_addr table_addr vidmem_addr magics stack_dentry command k =
    Done (Enter (entry_point k i) (_128_MB_SIZE + FOUR_MB_SIZE - ESP_OFFSET), k') ∧
  (∀ j, 0 <= j < q → zget (process (k_procs k)) j = Some IN_USE) ∧
  stack_of (k_procs k') t = stack_of (k_procs k) t ++ [q] ∧
  (∀ t', t' ≠ t → stack_of (k_procs k') t' = stack_of (k_procs k) t') ∧
  (∀ j, 0 <= j < file_size (k_mem k) (k_fs k) (load32 (k_mem k) (entry_at (k_fs k) i + 36)) →
    translation dir_addr table_addr vidmem_addr k' (PROGRAM_OFFSET + j) =
      Some (Xlat (user_phys q (PROGRAM_OFFSET + j)) true true) ∧
    k_mem k' (user_phys q (PROGRAM_OFFSET + j)) =
      file_byte (k_mem k) (k_fs k) (load32 (k_mem k) (entry_at (k_fs k) i + 36)) j) ∧
  (pid p' = q ∧ parent_pid p' = parent_on (stack_of (k_procs k) t) q ∧
   parent_esp p' = k_esp k ∧ parent_ebp p' = k_ebp k ∧ argument p' = argument_array args ∧
   sighandler p' = signal_default ∧
   flags <$> files p' = [IN_USE; IN_USE; NOT_IN_USE; NOT_IN_USE; NOT_IN_USE; NOT_IN_USE; NOT_IN_USE; NOT_IN_USE]) ∧
  sys_ok dir_addr table_addr vidmem_addr q k' p' ∧ procs_ok (k_procs k') ∧ pcbs_ok k' ∧
  tss_esp0 k' = stack_top q.
Proof.
  destruct execute_line as (old & m' & E & Hold & Hm & Hb). pose proof (get_pid_free k Hps Hq) as (Hr & Hfree & Hlow).
  destruct (started_line old m' Hold Hm) as (Hsys & Hps' & Hpcbs' & _).
  destruct (pushed_ok (k_procs k) t q Hps Ht Hfree) as (_ & E1 & E2).
  exists (started k args old m'), (started_pcb k args old). pose proof (pr_size _ _ _ Hprog) as Hsz.
  unfold PROGRAM_OFFSET in Hsz.
  split_and!; [exact E|exact Hlow|exact E1|exact E2| |done|done|done|done|done|done| |exact Hsys|exact Hps'|exact Hpcbs'|done].
  - intros j Hj. split.
    + apply (user_translation _ _ _ Hlink q _ _ _ Hsys). unfold PROGRAM_OFFSET, _128_MB_SIZE in *. lia.
    + rewrite <- Hb by done. cbn. f_equal. unfold user_phys. lia.
  - destruct (Hpcbs q) as (old' & Hold' & Hl8 & _); [exact Hr|]. rewrite Hold in Hold'. injection Hold' as <-.
    unfold started_pcb, init_pcb, init_files. cbn [files fmap list_fmap flags].
    destruct (files old) as [|? [|? [|? [|? [|? [|? [|? [|? [|]]]]]]]]]; try discriminate Hl8. reflexivity.
Qed.

(** C20. A program returns to its caller.  Whatever a program started with
    [execute] does while it runs, as long as its tables and the saved part of
    its control block are intact, its [halt] makes the caller's [execute]
    return, 0, or 256 for the status 15 an exception gives; the caller then
    has its kernel stack, its frame and its program page back, every
    descriptor of the program is closed, and the process tables are exactly
    as before the call. *)
Theorem execute_halt_roundtrip (Hrun : running_terminal k = t) (Hcaller : list.last (stack_of (k_procs k) t) = Some id)
    (Hq0 : q ≠ 0) :
  ∃ k1 p1 eip esp, execute dir_addr table_addr vidmem_addr magics stack_dentry command k = Done (Enter eip esp, k1) ∧
    still_running dir_addr table_addr vidmem_addr q p1 k1 k1 p1 ∧ running_terminal k1 = t ∧
  ∀ k2 p2 status, still_running dir_addr table_addr vidmem_addr q p1 k1 k2 p2 → running_terminal k2 = t →
  ∃ k3 p3, halt dir_addr table_addr vidmem_addr magics stack_dentry status k2 =
      Done (Return (if status =? 15 then 256 else 0), k3) ∧
    k_esp k3 = k_esp k ∧ k_ebp k3 = k_ebp k ∧ tss_esp0 k3 = stack_top id ∧
    process (k_procs k3) = process (k_procs k) ∧
    (∀ t', stack_of (k_procs k3) t' = stack_of (k_procs k) t') ∧ procs_ok (k_procs k3) ∧
    (∀ a, _128_MB_SIZE <= a < _128_MB_SIZE + FOUR_MB_SIZE →
      translation dir_addr table_addr vidmem_addr k3 a = translation dir_addr table_addr vidmem_addr k a) ∧
    k_pcbs k3 !! get_pcb_by_index q = Some p3 ∧ Forall (λ d, flags d = NOT_IN_USE) (files p3).
Proof.
  destruct execute_line as (old & m' & E & Hold & Hm & _). pose proof (get_pid_free k Hps Hq) as (Hr & Hfree & _).
  fold q in Hr, Hfree. destruct (pushed_ok (k_procs k) t q Hps Ht Hfree) as (Hps1 & E1 & _).
  destruct (popped_pushed (k_procs k) t q Hps Ht Hfree) as (Hps3 & Eprocess & Estacks).
  assert (Hid : 0 <= id < 6).
  { destruct (so_page _ _ _ _ _ _ H) as (win & _ & [Hid _]). by apply Hid. }
  assert (Hpar : parent_on (stack_of (k_procs k) t) q = id).
  { unfold parent_on. by rewrite (proj2 (Z.eqb_neq q 0)), Hcaller. }
  eexists _, (started_pcb k args old), _, _. split; [exact E|].
  split; [split; [done|cbn; apply lookup_insert_eq|done|apply init_files_ptrs|]|].
  { destruct (started_page dir_addr table_addr vidmem_addr k (sys_machine _ _ _ id k p H) Hr) as (win & Hst). by exists (Some q, win). }
  split; [exact Hrun|]. intros k2 p2 status [S1 S2 (Epid & Epar & Eesp & Eebp) S4 (st & Hrep & Hst)] Hrun2.
  change (k_procs (started k args old m')) with (pushed (k_procs k) t q) in S1.
  change (pid (started_pcb k args old)) with q in Epid.
  change (parent_pid (started_pcb k args old)) with (parent_on (stack_of (k_procs k) t) q) in Epar.
  rewrite Hpar in Epar. rewrite <- S1 in Hps1, Hps3, Eprocess, Estacks.
  assert (Ht2 : 0 <= running_terminal k2 < 3) by by rewrite Hrun2.
  assert (Hstack : stack_of (k_procs k2) (running_terminal k2) = stack_of (k_procs k) t ++ [q])
    by (rewrite S1, Hrun2; exact E1).
  assert (Hne : stack_of (k_procs k) t ≠ []) by (intros En; by rewrite En in Hcaller).
  exists (halted k2 q p2 status), (with_files (closed_files (files p2)) p2). split_and!.
  - exact (halt_spec _ _ _ magics stack_dentry k2 Hps1 Ht2 _ q Hstack p2 S2 Epid S4 status Hne Hq0).
  - exact Eesp.
  - exact Eebp.
  - change (u32 (EIGHT_MB_SIZE - parent_pid p2 * EIGHT_KB_SIZE - ESP_OFFSET) = stack_top id). rewrite Epar.
    unfold stack_top, EIGHT_MB_SIZE, EIGHT_KB_SIZE, ESP_OFFSET. apply u32_id. split; lia.
  - change (process (popped (k_procs k2) (running_terminal k2) q) = process (k_procs k)). by rewrite Hrun2.
  - intros t'. change (stack_of (popped (k_procs k2) (running_terminal k2) q) t' = stack_of (k_procs k) t'). by rewrite Hrun2.
  - change (procs_ok (popped (k_procs k2) (running_terminal k2) q)). by rewrite Hrun2.
  - intros a Ha. rewrite (user_translation _ _ _ Hlink id k p a H Ha).
    apply (page_translation _ _ _ Hlink id st.2).
    + change (k_page (halted k2 q p2 status)) with (map_program (parent_pid p2) (k_page k2)). rewrite Epar.
      exact (map_program_rep _ _ _ _ st id Hrep Hid).
    + split; [by intros ? [= <-]|apply Hst].
    + exact Ha.
  - cbn. apply lookup_insert_eq.
  - cbn. by apply Forall_fmap, Forall_true.
Qed.
End theorems.

(** * Arguments *)
Section arguments.
Context (m : nat) (a : list Z) (Hm : (0 < m)%nat) (Ha : Forall (λ c, c ≠ 0) a) (Hhead : head a ≠ Some 32).
Context (Hlen : Z.of_nat (m + length a) < ARG_MAX).
Let argv := argument_array (replicate m 32 ++ a).

Lemma argument_length : length argv = 100%nat.
Proof.
  unfold argv, argument_array, ARG_MAX in *. rewrite length_app, length_replicate, length_app, length_replicate. lia.
Qed.
Lemma argument_blank j : 0 <= j < Z.of_nat m → zget argv j = Some 32.
Proof.
  intros Hj. apply zget_Some. split; [lia|]. unfold argv, argument_array. rewrite <- app_assoc.
  rewrite lookup_app_l by (rewrite length_replicate; lia). apply lookup_replicate. split; [done|lia].
Qed.
Lemma argument_text j x : a !! j = Some x → zget argv (Z.of_nat m + Z.of_nat j) = Some x.
Proof.
  intros Hj. apply zget_Some. split; [lia|]. replace (Z.to_nat _) with (m + j)%nat by lia.
  unfold argv, argument_array. rewrite <- app_assoc, lookup_app_r, length_replicate by (rewrite length_replicate; lia).
  replace (m + j - m)%nat with j by lia. by apply lookup_app_l_Some.
Qed.
Lemma argument_end : zget argv (Z.of_nat m + Z.of_nat (length a)) = Some 0.
Proof.
  unfold ARG_MAX in Hlen. apply zget_Some. split; [lia|]. replace (Z.to_nat _) with (m + length a)%nat by lia.
  unfold argv, argument_array. rewrite lookup_app_r; rewrite length_app, length_replicate; [|lia].
  rewrite Nat.sub_diag. apply lookup_replicate. split; [done|lia].
Qed.

Lemma args_offset_spec : args_offset argv = Done (Some (Z.of_nat m)).
Proof.
  unfold args_offset, ARG_MAX in *.
  apply (orun_done _ (λ o, 0 <= o < Z.of_nat m) _ (λ o, Z.of_nat m - o)); [|lia|lia].
  intros o Ho. destruct (Z.ltb_spec o 100); [|lia]. cbn [negb]. rewrite (argument_blank o) by lia.
  destruct (decide (o = Z.of_nat m - 1)) as [->|].
  - replace (Z.of_nat m - 1 + 1) with (Z.of_nat m) by lia.
    assert (Hc : ∃ c, zget argv (Z.of_nat m) = Some c ∧ c ≠ 32).
    { destruct (decide (length a = 0%nat)) as [E|E].
      - exists 0. split; [|done]. rewrite <- argument_end, E. f_equal. lia.
      - destruct (lookup_lt_is_Some_2 a 0) as [c Hc]; [lia|]. exists c. split.
        + rewrite <- (argument_text 0 c Hc). f_equal. lia.
        + intros ->. apply Hhead. by destruct a. }
    destruct Hc as (c & -> & Hc). change (32 =? 32) with true. by rewrite (proj2 (Z.eqb_neq c 32)).
  - rewrite (argument_blank (o + 1)) by lia. change (32 =? 32) with true. cbn [negb andb].
    destruct (Z.eqb_spec o (100 - 2)); [lia|]. lia.
Qed.

(** What the scan leaves for [strncpy]: the text, its first [n] bytes. *)
Lemma copy_text n : 0 <= n < 2 ^ 32 → ∃ l, strncpy (λ i, zget argv (Z.of_nat m + i)) n = Done l ∧
  Z.of_nat (length l) = n ∧ ∀ j, 0 <= j < n → zget l j = Some (default 0 (a !! Z.to_nat j)).
Proof.
  intros Hn. set (s := λ i, zget argv (Z.of_nat m + i)). set (k := Z.min n (Z.of_nat (length a))).
  assert (Htext : ∀ j, 0 <= j < Z.of_nat (length a) → ∃ c, s j = Some c ∧ c ≠ 0 ∧ a !! Z.to_nat j = Some c).
  { intros j Hj. destruct (lookup_lt_is_Some_2 a (Z.to_nat j)) as [c Hc]; [lia|]. exists c. split_and!; [| |done].
    - unfold s. rewrite <- (argument_text _ c Hc). f_equal. lia.
    - by eapply (list.Forall_lookup_1 _ _ _ _ Ha). }
  exists (bytes_of s k ++ replicate (Z.to_nat (n - k)) 0). split_and!.
  - apply strncpy_spec; [lia|lia| |].
    + intros j Hj. destruct (Htext j) as (c & ? & ? & _); [lia|]. by exists c.
    + destruct (decide (k = n)) as [E|]; [|left; unfold k in *; rewrite Z.min_r by lia; apply argument_end].
      destruct (decide (k = Z.of_nat (length a))) as [E'|]; [left; rewrite E'; apply argument_end|].
      right. split; [done|]. destruct (Htext k) as (c & -> & _); [lia|done].
  - rewrite length_app, length_replicate. pose proof (length_bytes_of s k). lia.
  - intros j Hj. pose proof (length_bytes_of s k ltac:(lia)) as El. destruct (decide (j < k)) as [Hlt|].
    + pose proof (zget_bytes_of s k j ltac:(lia)) as Hb. apply zget_Some in Hb as [_ Hb].
      apply zget_Some. split; [lia|]. rewrite (lookup_app_l_Some _ _ _ _ Hb).
      destruct (Htext j) as (c & -> & _ & ->); [lia|done].
    + apply zget_Some. split; [lia|]. rewrite lookup_app_r by lia.
      rewrite (lookup_ge_None_2 a) by lia. cbn. apply lookup_replicate. split; [done|lia].
Qed.
End arguments.

(** What [getargs] copies out for the text [a] after [m] blanks. *)
Lemma getargs_spec dir_addr table_addr vidmem_addr (Hlink : linked dir_addr table_addr vidmem_addr) k id p
    (H : sys_ok dir_addr table_addr vidmem_addr id k p) (m : nat) (a : list Z) buf n
    (Ha : Forall (λ c, c ≠ 0) a) (Hhead : head a ≠ Some 32) (Hlen : Z.of_nat (m + length a) < ARG_MAX)
    (Harg : argument p = argument_array (replicate m 32 ++ a)) (Hbuf : user_buf buf n) (Hn : 0 < n) :
  ((0 < m)%nat → ∃ m', getargs dir_addr table_addr vidmem_addr buf n k = Done (0, set_mem m' k) ∧
    (∀ j, 0 <= j < n → m' (user_phys id buf + j) = default 0 (a !! Z.to_nat j)) ∧
    only_in (user_phys id buf) (user_phys id buf + n) (k_mem k) m') ∧
  (m = 0%nat → a = [] → getargs dir_addr table_addr vidmem_addr buf n k = Done (-1, k)).
Proof.
  pose proof Hbuf as (Hb1 & _ & Hb2). unfold _128_MB_SIZE, FOUR_MB_SIZE in Hb1, Hb2.
  unfold getargs, pcb_at. rewrite (so_pcb _ _ _ _ _ _ H). cbn [must]. rewrite bind_Done, Harg. split.
  - intros Hm. destruct (copy_text m a Hm Ha Hlen n ltac:(lia)) as (l & El & Hl & Hbytes).
    rewrite (argument_blank m a Hm Hlen 0) by lia. cbn [must]. rewrite bind_Done. change (32 =? 0) with false. cbv iota.
    rewrite (args_offset_spec m a Hm Ha Hhead Hlen), bind_Done. cbv iota. rewrite u32_id by (split; lia).
    rewrite El, bind_Done, (user_range _ _ _ Hlink id k p buf n n H Hbuf) by lia. rewrite bind_Done.
    rewrite (user_va _ _ _ Hlink id k p buf n H Hbuf Hn). eexists. split; [reflexivity|]. split.
    + intros j Hj. apply blit_in. by apply Hbytes.
    + intros x Hx. apply blit_out. lia.
  - intros -> ->. reflexivity.
Qed.

(** Arguments.  A process whose control block holds the arguments its
    command line had, blanks and then the text [a], gets that text: for every
    buffer in its memory [getargs] returns 0 and fills the buffer with the
    first bytes of [a], padded with NULs, and changes nothing else; a process started without
    arguments gets -1 and an untouched memory. *)
Theorem getargs_returns_arguments (dir_addr table_addr vidmem_addr : Z)
    (Hlink : linked dir_addr table_addr vidmem_addr) (k : kernel) (id : Z) (p : pcb_t)
    (H : sys_ok dir_addr table_addr vidmem_addr id k p)
    (m : nat) (a : list Z) (buf n : Z) (Ha : Forall (λ c, c ≠ 0) a) (Hhead : head a ≠ Some 32)
    (Hlen : Z.of_nat (m + length a) < ARG_MAX) (Harg : argument p = argument_array (replicate m 32 ++ a))
    (Hbuf : user_buf buf n) (Hn : 0 < n) :
  ((0 < m)%nat → ∃ m', getargs dir_addr table_addr vidmem_addr buf n k = Done (0, set_mem m' k) ∧
    (∀ j, 0 <= j < n → m' (user_phys id buf + j) = default 0 (a !! Z.to_nat j)) ∧
    only_in (user_phys id buf) (user_phys id buf + n) (k_mem k) m') ∧
  (m = 0%nat → a = [] → getargs dir_addr table_addr vidmem_addr buf n k = Done (-1, k)).
Proof.
  exact (getargs_spec _ _ _ Hlink k id p H m a buf n Ha Hhead Hlen Harg Hbuf Hn).
Qed.

(** * Witnesses *)

(** The kernel of the file witnesses with all six control blocks: process 0 on
    terminal 0 and process 1, which runs, on terminal 1. *)
Definition pcb3 (q : Z) : pcb_t :=
  Pcb (init_files (replicate 8 (FileDesc None 0 0 0))) q 0 0 0 0 0 (argument_array [32; 104; 105]) 0x3F signal_default.
Definition kernel3 : kernel :=
  with_pcbs (list_to_map ((λ q, (get_pcb_by_index q, pcb3 q)) <$> [0; 1; 2; 3; 4; 5])) kernel2.

Lemma lt6 q : 0 <= q < 6 → q = 0 ∨ q = 1 ∨ q = 2 ∨ q = 3 ∨ q = 4 ∨ q = 5.
Proof. lia. Qed.

Lemma kernel3_ok : sys_ok 0x500000 0x501000 0x502000 1 kernel3 (pcb3 1).
Proof.
  destruct kernel2_ok as [H1 H2 H3 H4 _ _]. split; [exact H1|exact H2|exact H3|exact H4| |reflexivity].
  by vm_compute.
Qed.
Lemma kernel3_pcbs : pcbs_ok kernel3.
Proof.
  intros q Hq. exists (pcb3 q). split; [|done].
  destruct (lt6 q Hq) as [-> | [-> | [-> | [-> | [-> | ->]]]]]; by vm_compute.
Qed.
Lemma zget_cases (l : list Z) q x : zget l q = Some x → 0 <= q < Z.of_nat (length l).
Proof. intros [? H%lookup_lt_Some]%zget_Some. lia. Qed.
Lemma kernel3_procs : procs_ok (k_procs kernel3).
Proof.
  assert (Hflag : ∀ q s, zget [1; 1; 0; 0; 0; 0] q = Some s → (q = 0 ∨ q = 1) ∧ s = 1 ∨ 2 <= q ∧ s = 0).
  { intros q s Hs. pose proof (zget_cases _ _ _ Hs) as Hr. cbn in Hr. revert Hs.
    destruct (lt6 q Hr) as [-> | [-> | [-> | [-> | [-> | ->]]]]]; intros [= <-]; lia. }
  split; try done.
  - intros t row [_ Hrow]%zget_Some. revert row Hrow. apply Forall_lookup. by repeat constructor.
  - intros t c [_ Hc]%zget_Some. revert t c Hc. change (process_terminal_cnt _) with [1; 1; 0].
    intros t c Hc. assert (HF : Forall (λ c, 0 <= c <= 6) [1; 1; 0]) by (repeat constructor; lia).
    exact (list.Forall_lookup_1 _ _ _ _ HF Hc).
  - change (all_pids _) with [0; 1]. apply NoDup_ListNoDup. repeat constructor; set_solver.
  - intros q. change (all_pids _) with [0; 1]. change (process _) with [1; 1; 0; 0; 0; 0]. split.
    + intros Hq. assert (q = 0 ∨ q = 1) as [-> | ->] by set_solver; done.
    + intros Hq. apply Hflag in Hq as [[[-> | ->] _]|[_ E]]; [set_solver|set_solver|discriminate E].
  - intros q s Hs. apply Hflag in Hs as [[_ ->]|[_ ->]]; [by left|by right].
Qed.

(** The program "ab" of the image. *)
Lemma kernel3_program : program kernel3 1 [97; 98].
Proof.
  assert (Hs : ∀ a, fs_addr img_fs <= a < image_end img_fs → mem2 a = img a).
  { intros a Ha. apply blit_out. left. change (image_end img_fs) with 0x705000 in Ha. lia. }
  split.
  - by vm_compute.
  - by vm_compute.
  - intros j Hj. assert (j = 0) as -> by lia. by vm_compute.
  - apply (inode_ok_frame img mem2 img_fs img_ok Hs). exact img_inode_ok.
  - assert (E : file_size (k_mem kernel3) (k_fs kernel3)
      (load32 (k_mem kernel3) (entry_at (k_fs kernel3) 1 + 36)) = 5000) by by vm_compute.
    rewrite E. unfold _128_MB_SIZE, FOUR_MB_SIZE, PROGRAM_OFFSET. lia.
  - by vm_compute.
Qed.

Definition line3 : str := lview ([97; 98; 32; 104; 105] ++ [0]).
Lemma line3_reads : reads line3 (replicate 0 32 ++ [97; 98] ++ [32; 104; 105] ++ [0]).
Proof. intros i x Hi. apply zget_Some. split; [lia|by rewrite Nat2Z.id]. Qed.
Lemma line3_line : command_line [97; 98] [32; 104; 105].
Proof. split; [repeat constructor; lia|repeat constructor; lia|by right]. Qed.

Lemma execute_starts_program_witness :
  ∃ k', execute 0x500000 0x501000 0x502000 0x7FB000 (replicate 64 0) line3 kernel3 =
      Done (Enter 0x8048000 0x83FFFFC, k') ∧
    stack_of (k_procs k') 1 = [1; 2] ∧ tss_esp0 k' = 0x7FBFFC.
Proof.
  destruct (execute_starts_program 0x500000 0x501000 0x502000 0x7FB000 (replicate 64 0) linked0 kernel3 1 (pcb3 1)
    kernel3_ok kernel3_procs kernel3_pcbs) with (i := 1) (name := [97; 98]) (args := [32; 104; 105]) (n := O)
    (e := 0) (command := line3) as (k' & p' & E & _ & Est & _ & _ & _ & _ & _ & _ & Et).
  - by vm_compute.
  - by vm_compute.
  - split; [exact line3_reads|by right].
  - exact line3_line.
  - split_and!; [done|by vm_compute|repeat constructor; unfold is_u8; lia].
  - split; by vm_compute.
  - exact kernel3_program.
  - split; [done|]. right. by vm_compute.
  - assert (Een : entry_point kernel3 1 = 0x8048000) by by vm_compute.
    assert (Epid : get_pid kernel3 = 2) by by vm_compute.
    assert (Est0 : stack_of (k_procs kernel3) 1 = [1]) by by vm_compute.
    rewrite Een in E. exists k'. split; [exact E|]. change (current_terminal (k_con kernel3)) with 1 in Est.
    rewrite Epid, Est0 in Est. split; [exact Est|]. rewrite Et, Epid. reflexivity.
Defined.

Lemma execute_halt_roundtrip_witness :
  ∃ k1 k3 eip esp, execute 0x500000 0x501000 0x502000 0x7FB000 (replicate 64 0) line3 kernel3 =
      Done (Enter eip esp, k1) ∧
    halt 0x500000 0x501000 0x502000 0x7FB000 (replicate 64 0) 15 k1 = Done (Return 256, k3) ∧
    k_esp k3 = k_esp kernel3.
Proof.
  destruct (execute_halt_roundtrip 0x500000 0x501000 0x502000 0x7FB000 (replicate 64 0) linked0 kernel3 1 (pcb3 1)
    kernel3_ok kernel3_procs kernel3_pcbs) with (i := 1) (name := [97; 98]) (args := [32; 104; 105]) (n := O)
    (e := 0) (command := line3) as (k1 & p1 & eip & esp & E & Hrun1 & Ht1 & Hall);
    [by vm_compute|by vm_compute|split; [exact line3_reads|by right]|exact line3_line
    |split_and!; [done|by vm_compute|repeat constructor; unfold is_u8; lia]|split; by vm_compute
    |exact kernel3_program|split; [done|right; by vm_compute]|reflexivity|by vm_compute|by vm_compute|].
  destruct (Hall k1 p1 15 Hrun1 Ht1) as (k3 & p3 & Eh & Hesp & _).
  exists k1, k3, eip, esp. split; [exact E|]. split; [exact Eh|exact Hesp].
Defined.

Lemma getargs_returns_arguments_witness :
  ∃ m', getargs 0x500000 0x501000 0x502000 0x8100000 4 kernel3 = Done (0, set_mem m' kernel3) ∧
    m' (user_phys 1 0x8100000) = 104 ∧ m' (user_phys 1 0x8100000 + 2) = 0.
Proof.
  destruct (getargs_returns_arguments 0x500000 0x501000 0x502000 linked0 kernel3 1 (pcb3 1) kernel3_ok
    1 [104; 105] 0x8100000 4) as [Hget _].
  - repeat constructor; lia.
  - done.
  - by vm_compute.
  - reflexivity.
  - unfold user_buf, _128_MB_SIZE, FOUR_MB_SIZE. lia.
  - lia.
  - destruct Hget as (m' & E & Hb & _); [lia|]. exists m'. split; [exact E|]. split.
    + rewrite <- (Z.add_0_r (user_phys _ _)). rewrite Hb by lia. reflexivity.
    + rewrite Hb by lia. reflexivity.
Defined.
