(* ===== verification/Sb16.v ===== *)
(** The Sound Blaster driver of student-distrib/sb16.c: the DSP port protocol,
    the set-up of a DMA channel, checked against a model of the 8237
    controller, and the double-buffered playback of a file. *)
From Stdlib Require Import String.
From stdpp Require Import gmap.
From S2P Require Import Prelude Memory Strings Console Filesystem Paging Pic Rtc Kernel Terminal Syscall.

Definition BLOCK_SIZE : Z := 32 * 1024.
Definition BUFFER_SIZE : Z := 2 * BLOCK_SIZE.
Definition DSP_Reset : Z := 0x6.
Definition DSP_Read : Z := 0xA.
Definition DSP_Write : Z := 0xC.
Definition DSP_Read_Buffer_Status : Z := 0xE.
Definition SB16_IOBase : Z := 0x220.
Definition SB_OUTPUT_RATE : Z := 0x41.
Definition DMA_1_MASK : Z := 0x0A.
Definition DMA_1_MODE : Z := 0x0B.
Definition DMA_1_CLEAR_PTR : Z := 0x0C.
Definition DMA_2_MASK : Z := 0xD4.
Definition DMA_2_MODE : Z := 0xD6.
Definition DMA_2_CLEAR_PTR : Z := 0xD8.
Definition DMA_1_BASE : Z := 0x00.
Definition DMA_2_BASE : Z := 0xC0.
Definition DMA_BIT_2 : Z := 4.
Definition RIFF : Z := 0x46464952.
Definition Pause_8_bit : Z := 0xD0.
Definition Start_8_bit : Z := 0xC0.

(** The bytes of the table of page-register ports. *)
Definition page_ports : list Z := [0x87; 0x83; 0x81; 0x82; 0x00; 0x8B; 0x89; 0x8A].

(** The driver's globals, the trace of port writes (port, byte), and the
    number of port reads made so far. *)
Record sb : Type := Sb {
  sb_ports : list (Z * Z); sb_reads : Z; cur_block : Z; is_playing : Z;
  audio_file_inode : Z; current_offset : Z; audio_filename : list Z; audio_fd : Z }.

Definition with_reads (n : Z) (s : sb) : sb :=
  Sb (sb_ports s) n (cur_block s) (is_playing s) (audio_file_inode s) (current_offset s) (audio_filename s) (audio_fd s).
Definition with_cur_block (b : Z) (s : sb) : sb :=
  Sb (sb_ports s) (sb_reads s) b (is_playing s) (audio_file_inode s) (current_offset s) (audio_filename s) (audio_fd s).
Definition with_playing (b : Z) (s : sb) : sb :=
  Sb (sb_ports s) (sb_reads s) (cur_block s) b (audio_file_inode s) (current_offset s) (audio_filename s) (audio_fd s).
Definition with_audio_inode (i : Z) (s : sb) : sb :=
  Sb (sb_ports s) (sb_reads s) (cur_block s) (is_playing s) i (current_offset s) (audio_filename s) (audio_fd s).
Definition with_offset (o : Z) (s : sb) : sb :=
  Sb (sb_ports s) (sb_reads s) (cur_block s) (is_playing s) (audio_file_inode s) (u32 o) (audio_filename s) (audio_fd s).
Definition with_filename (l : list Z) (s : sb) : sb :=
  Sb (sb_ports s) (sb_reads s) (cur_block s) (is_playing s) (audio_file_inode s) (current_offset s) l (audio_fd s).
Definition with_audio_fd (fd : Z) (s : sb) : sb :=
  Sb (sb_ports s) (sb_reads s) (cur_block s) (is_playing s) (audio_file_inode s) (current_offset s) (audio_filename s) fd.

Definition sb_outb (data port : Z) (s : sb) : sb :=
  Sb (sb_ports s ++ [(u16 port, u8 data)]) (sb_reads s) (cur_block s) (is_playing s) (audio_file_inode s)
    (current_offset s) (audio_filename s) (audio_fd s).

Section sb16.
(** What the device answers: [dsp port n] is the byte the [n]-th port read
    finds on [port]. *)
Context (dsp : Z → Z → Z).
(** Where [DMA_Buffer] and the local [magic] are; what is in the upper byte
    of [dx] when the port operand is an [int8_t]. *)
Context (DMA_Buffer magic dh : Z).
Context (dir_addr table_addr vidmem_addr : Z) (stack_dentry : dentry_t).

(** * The DSP *)
Definition DSP_outb (data port_offset : Z) (s : sb) : sb := sb_outb data (SB16_IOBase + port_offset) s.
Definition DSP_inb (port_offset : Z) (s : sb) : Z * sb :=
  (u8 (dsp (SB16_IOBase + port_offset) (sb_reads s)), with_reads (sb_reads s + 1) s).

(** [while (1) { read_val = DSP_inb(port); if (ok read_val) break; }] *)
Definition poll (port_offset : Z) (ok : Z → bool) (s : sb) : out sb :=
  orun (λ s, let '(read_val, s) := DSP_inb port_offset s in
             if ok read_val then inr (Done s) else inl s) s.

Definition Reset_DSP (s : sb) : out sb :=
  let _3ms := 30 in
  let s := DSP_outb 1 DSP_Reset s in
  _ ← orun (λ i, if i <? _3ms then inl (u8 (i + 1)) else inr (Done i)) 0;
  let s := DSP_outb 0 DSP_Reset s in
  s ← poll DSP_Read_Buffer_Status (λ v, negb (Z.land v (Z.shiftl 1 7) =? 0)) s;
  poll DSP_Read (λ v, negb (Z.land v 0xAA =? 0)) s.

Definition Write_DSP (data : Z) (s : sb) : out sb :=
  s ← poll DSP_Write (λ v, Z.land v (Z.shiftl 1 7) =? 0) s;
  Done (DSP_outb data DSP_Write s).

Definition Read_From_DSP (s : sb) : out (Z * sb) :=
  s ← poll DSP_Read_Buffer_Status (λ v, Z.land v (Z.shiftl 1 7) =? 0) s;
  Done (DSP_inb DSP_Read s).

(** * DMA *)
Definition Transfer_Sound_DMA (channel mode addr size : Z) (s : sb) : out sb :=
  let count := size in
  let low := channel <=? 3 in
  let s := if low then sb_outb (Z.lor channel DMA_BIT_2) DMA_1_MASK s
           else sb_outb (Z.lor (channel mod 4) DMA_BIT_2) DMA_2_MASK s in
  let s := if low then sb_outb 0 DMA_1_CLEAR_PTR s else sb_outb 0 DMA_2_CLEAR_PTR s in
  let s := if low then sb_outb (Z.lor mode channel) DMA_1_MODE s
           else sb_outb (Z.lor mode (channel mod 4)) DMA_2_MODE s in
  page ← must (zget page_ports channel);
  let port := dh * 2 ^ 8 + page in
  let s := if low then sb_outb (Z.shiftr addr 16) port s
           else sb_outb (Z.land (Z.shiftr addr 16) 0xFE) port s in
  let s := if low then
             sb_outb (Z.land (Z.shiftr addr 8) 0xFF) (DMA_1_BASE + Z.shiftl channel 1)
               (sb_outb (Z.land addr 0xFF) (DMA_1_BASE + Z.shiftl channel 1) s)
           else
             sb_outb (Z.land (Z.shiftr (addr / 2) 8) 0xFF) (DMA_2_BASE + Z.shiftl channel 2)
               (sb_outb (Z.land (addr / 2) 0xFF) (DMA_2_BASE + Z.shiftl channel 2) s) in
  let count := u32 (count - 1) in
  let s := if low then
             sb_outb (Z.land (Z.shiftr count 8) 0xFF) (DMA_1_BASE + Z.shiftl channel 1 + 1)
               (sb_outb (Z.land count 0xFF) (DMA_1_BASE + Z.shiftl channel 1 + 1) s)
           else
             sb_outb (Z.land (Z.shiftr (count / 2) 8) 0xFF) (DMA_2_BASE + Z.shiftl channel 2 + 2)
               (sb_outb (Z.land (count / 2) 0xFF) (DMA_2_BASE + Z.shiftl channel 2 + 2) s) in
  Done (if low then sb_outb channel DMA_1_MASK s else sb_outb (channel mod 4) DMA_2_MASK s).

(** * Playing *)
Definition Set_Sample_Rate (frequency : Z) (s : sb) : out sb :=
  s ← Write_DSP SB_OUTPUT_RATE s;
  s ← Write_DSP (u8 (Z.land (Z.shiftr frequency 8) 0xFF)) s;
  Write_DSP (u8 (Z.land frequency 0xFF)) s.

Definition start_play (block_size : Z) (s : sb) : out sb :=
  let blksize := u16 block_size in
  let commond := Z.lor (Z.lor 0 Start_8_bit) DSP_Reset in
  let mode := Z.lor 0 0 in
  s ← Write_DSP commond s;
  s ← Write_DSP mode s;
  let blksize := u16 (blksize - 1) in
  s ← Write_DSP (u8 (Z.land blksize 0xFF)) s;
  Write_DSP (u8 (Z.land (Z.shiftr blksize 8) 0xFF)) s.

Definition stop (s : sb) : out sb :=
  s ← Write_DSP Pause_8_bit s;
  let s := with_cur_block DMA_Buffer (with_offset 0 (with_audio_inode 0 (with_playing 0 s))) in
  Done (with_filename (for_range 0 33 (λ l i, <[Z.to_nat i := 0]> l) (audio_filename s)) s).

(** [filename] is a pointer. *)
Definition play_music (filename : Z) (s : sb) (k : kernel) : out (Z * sb * kernel) :=
  if is_playing s =? 1 then Done (0, s, k) else
  let name := at_user dir_addr table_addr vidmem_addr k filename in
  '(r, audio_dentry) ← read_dentry_by_name (k_mem k) (k_fs k) name stack_dentry;
  if r =? -1 then c ← printf (lit0 "No Such File") [] (k_con k); Done (-1, s, with_con c k) else
  let s := with_audio_inode (i_node audio_dentry) s in
  '(_, m) ← read_data (k_mem k) (k_fs k) (audio_file_inode s) 0 magic 4;
  let k := set_mem m k in
  if negb (load32 m magic =? RIFF) then
    c ← printf (lview (lit "file cannot be played! %s" ++ [10; 0])) [magic] (k_con k); Done (0, s, with_con c k)
  else
    s ← Reset_DSP s;
    let name := at_user dir_addr table_addr vidmem_addr k filename in
    len ← strlen name;
    copy ← strncpy name len;
    let s := with_filename (copy ++ drop (Z.to_nat len) (audio_filename s)) s in
    '(fd, k) ← open dir_addr table_addr vidmem_addr stack_dentry filename k;
    let s := with_audio_fd fd s in
    '(bytes_read, m) ← read_data (k_mem k) (k_fs k) (audio_file_inode s) (current_offset s) DMA_Buffer (BLOCK_SIZE * 2);
    let k := set_mem m k in
    s ← Transfer_Sound_DMA 1 (Z.lor 0x48 0x10) DMA_Buffer BUFFER_SIZE s;
    s ← Set_Sample_Rate 8000 s;
    s ← start_play BLOCK_SIZE s;
    let s := with_playing 1 s in
    Done (0, with_offset (current_offset s + u32 bytes_read) s, k).

(** The system call. *)
Definition play (filename : Z) (s : sb) (k : kernel) : out (Z * sb * kernel) :=
  if (filename <? _128_MB_SIZE) || (_128_MB_SIZE + FOUR_MB_SIZE - ESP_OFFSET <? filename)
  then Done (-1, s, k) else
  '(_, s, k) ← play_music filename s k; Done (0, s, k).

Definition sb16_handler (s : sb) (k : kernel) : out (sb * kernel) :=
  let '(_, s) := DSP_inb 0xE s in
  let k := with_if false (with_pic_rtc (send_eoi 5 (k_pic k)) (k_rtc k) k) in
  '(r, m) ← read_data (k_mem k) (k_fs k) (audio_file_inode s) (current_offset s) (cur_block s) BLOCK_SIZE;
  let bytes_read := u32 r in
  let s := with_offset (current_offset s + bytes_read) s in
  let k := with_if true (set_mem m k) in
  if bytes_read =? BLOCK_SIZE then
    let blksize := u16 bytes_read in
    let s := with_cur_block (if cur_block s =? DMA_Buffer then DMA_Buffer + BLOCK_SIZE else DMA_Buffer) s in
    s ← start_play blksize s; Done (s, k)
  else if bytes_read =? 0 then s ← stop s; Done (s, k)
  else Done (s, k).
End sb16.

(** * The DMA controller

    The four 8-bit channels of an 8237 and their page registers: the address
    and count ports take the low byte, then the high byte, as the flip-flop
    says. *)
Record channel : Type := Channel { c_base : Z; c_count : Z; c_mode : Z; c_masked : bool; c_page : Z }.
Record dma : Type := Dma { flipflop : bool; channels : list channel }.

Definition halfword (high : bool) (old data : Z) : Z :=
  if high then old mod 256 + 256 * data else 256 * (old / 256) + data.
Definition on_channel (n : Z) (f : channel → channel) (d : dma) : dma :=
  Dma (flipflop d) (alter f (Z.to_nat n) (channels d)).
Definition page_channel (port : Z) : option Z :=
  if port =? 0x87 then Some 0 else if port =? 0x83 then Some 1
  else if port =? 0x81 then Some 2 else if port =? 0x82 then Some 3 else None.

Definition dma_write (d : dma) (w : Z * Z) : dma :=
  let '(port, data) := w in
  if port <? 8 then
    let d' := on_channel (port / 2) (λ c,
      if port mod 2 =? 0
      then Channel (halfword (flipflop d) (c_base c) data) (c_count c) (c_mode c) (c_masked c) (c_page c)
      else Channel (c_base c) (halfword (flipflop d) (c_count c) data) (c_mode c) (c_masked c) (c_page c)) d in
    Dma (negb (flipflop d)) (channels d')
  else if port =? 0x0A then
    on_channel (Z.land data 3) (λ c, Channel (c_base c) (c_count c) (c_mode c) (Z.testbit data 2) (c_page c)) d
  else if port =? 0x0B then
    on_channel (Z.land data 3) (λ c, Channel (c_base c) (c_count c) data (c_masked c) (c_page c)) d
  else if port =? 0x0C then Dma false (channels d)
  else match page_channel port with
       | Some n => on_channel n (λ c, Channel (c_base c) (c_count c) (c_mode c) (c_masked c) data) d
       | None => d
       end.
Definition dma_run (ws : list (Z * Z)) (d : dma) : dma := foldl dma_write d ws.

(** [s] after the port writes [ws] and with [n] reads made. *)
Definition emitted (ws : list (Z * Z)) (n : Z) (s : sb) : sb :=
  Sb (sb_ports s ++ ws) n (cur_block s) (is_playing s) (audio_file_inode s) (current_offset s)
    (audio_filename s) (audio_fd s).

Lemma sb_outb_emitted data port s : sb_outb data port s = emitted [(u16 port, u8 data)] (sb_reads s) s.
Proof. done. Qed.
Lemma emitted_emitted ws ws' n n' s : emitted ws' n' (emitted ws n s) = emitted (ws ++ ws') n' s.
Proof. unfold emitted. cbn. by rewrite app_assoc. Qed.

Lemma sb_outb_next data port ws n s : sb_outb data port (emitted ws n s) = emitted (ws ++ [(u16 port, u8 data)]) n s.
Proof. apply (emitted_emitted ws [(u16 port, u8 data)] n n s). Qed.

(** The writes of a transfer set-up on an 8-bit channel. *)
Definition dma_setup (dh ch mode addr size : Z) : list (Z * Z) :=
  [(0x0A, u8 (Z.lor ch 4)); (0x0C, 0); (0x0B, u8 (Z.lor mode ch)); (dh * 2 ^ 8 + default 0 (zget page_ports ch), u8 (Z.shiftr addr 16));
   (2 * ch, u8 (Z.land addr 0xFF)); (2 * ch, u8 (Z.land (Z.shiftr addr 8) 0xFF));
   (2 * ch + 1, u8 (Z.land (u32 (size - 1)) 0xFF)); (2 * ch + 1, u8 (Z.land (Z.shiftr (u32 (size - 1)) 8) 0xFF));
   (0x0A, u8 ch)].

Lemma Transfer_Sound_DMA_spec dh ch mode addr size s : 0 <= dh < 256 → 0 <= ch <= 3 →
  Transfer_Sound_DMA dh ch mode addr size s = Done (emitted (dma_setup dh ch mode addr size) (sb_reads s) s).
Proof.
  intros Hdh Hch. unfold Transfer_Sound_DMA. rewrite (proj2 (Z.leb_le ch 3)) by lia. cbv zeta iota.
  assert (ch = 0 ∨ ch = 1 ∨ ch = 2 ∨ ch = 3) as [-> | [-> | [-> | ->]]] by lia;
    match goal with |- context [zget page_ports ?c] => change (zget page_ports c) with (Some (default 0 (zget page_ports c))) end;
    cbn [must]; rewrite bind_Done, (sb_outb_emitted _ _ s), !sb_outb_next;
    match goal with |- context [u16 (dh * 2 ^ 8 + ?d)] =>
      assert (Eport : u16 (dh * 2 ^ 8 + d) = dh * 2 ^ 8 + d) by (apply Z.mod_small; let v := eval vm_compute in d in change d with v; lia); rewrite Eport end; reflexivity.
Qed.

Lemma halfword_word old v : 0 <= v →
  halfword true (halfword false old (u8 (Z.land v 0xFF))) (u8 (Z.land (Z.shiftr v 8) 0xFF)) = v mod 2 ^ 16.
Proof.
  intros Hv. unfold halfword, u8. change 0xFF with (Z.ones 8). rewrite !Z.land_ones, Z.shiftr_div_pow2 by lia.
  change (2 ^ 8) with 256. rewrite !Zmod_mod.
  replace (256 * (old / 256) + v mod 256) with (v mod 256 + (old / 256) * 256) by lia.
  rewrite Z.mod_add, Zmod_mod by lia.
  pose proof (Z.div_mod v 256). pose proof (Z.mod_pos_bound v 256).
  pose proof (Z.div_mod (v / 256) 256). pose proof (Z.mod_pos_bound (v / 256) 256).
  change (2 ^ 16) with 65536. apply Z.mod_unique_pos with (q := v / 256 / 256); lia.
Qed.

(** One write to a register of channel [ch]. *)
Lemma channel_cases ch (P : Z → Prop) : 0 <= ch <= 3 → P 0 → P 1 → P 2 → P 3 → P ch.
Proof. intros Hch ????. assert (ch = 0 ∨ ch = 1 ∨ ch = 2 ∨ ch = 3) as [-> | [-> | [-> | ->]]] by lia; done. Qed.

Section registers.
Context (ch : Z) (Hch : 0 <= ch <= 3) (ff : bool) (cs : list channel) (v : Z).
Lemma write_addr : dma_write (Dma ff cs) (2 * ch, v) = Dma (negb ff) (alter (λ c,
  Channel (halfword ff (c_base c) v) (c_count c) (c_mode c) (c_masked c) (c_page c)) (Z.to_nat ch) cs).
Proof. by apply (channel_cases ch). Qed.
Lemma write_count : dma_write (Dma ff cs) (2 * ch + 1, v) = Dma (negb ff) (alter (λ c,
  Channel (c_base c) (halfword ff (c_count c) v) (c_mode c) (c_masked c) (c_page c)) (Z.to_nat ch) cs).
Proof. by apply (channel_cases ch). Qed.
Lemma write_page dh : 0 <= dh → dma_write (Dma ff cs) (dh * 2 ^ 8 + default 0 (zget page_ports ch), v) = Dma ff (alter (λ c,
  Channel (c_base c) (c_count c) (c_mode c) (c_masked c) (if dh =? 0 then v else c_page c)) (Z.to_nat ch) cs).
Proof.
  intros Hdh. destruct (Z.eqb_spec dh 0) as [->|Hne]; [by apply (channel_cases ch)|]. rewrite list_alter_id by (by intros []).
  assert (Hpage : 0 <= default 0 (zget page_ports ch)) by by apply (channel_cases ch).
  assert (Hport : 2 ^ 8 <= dh * 2 ^ 8 + default 0 (zget page_ports ch)) by lia.
  set (port := dh * 2 ^ 8 + _) in *. unfold dma_write, page_channel.
  destruct (Z.ltb_spec port 8); [lia|]. by rewrite !(proj2 (Z.eqb_neq port _)) by lia.
Qed.
Lemma write_mask : Z.land v 3 = ch → dma_write (Dma ff cs) (0x0A, v) = Dma ff (alter (λ c,
  Channel (c_base c) (c_count c) (c_mode c) (Z.testbit v 2) (c_page c)) (Z.to_nat ch) cs).
Proof. by intros <-. Qed.
Lemma write_mode : Z.land v 3 = ch → dma_write (Dma ff cs) (0x0B, v) = Dma ff (alter (λ c,
  Channel (c_base c) (c_count c) v (c_masked c) (c_page c)) (Z.to_nat ch) cs).
Proof. by intros <-. Qed.
End registers.

(** The channel after the set-up; a page register whose port was missed keeps
    its value. *)
Definition set_channel (dh ch mode addr size : Z) (c : channel) : channel :=
  Channel (addr mod 2 ^ 16) (size - 1) (mode + ch) false (if dh =? 0 then addr / 2 ^ 16 else c_page c).

Lemma dma_setup_run dh ch mode addr size d : 0 <= dh → 0 <= ch <= 3 → 0 <= addr < 2 ^ 24 → 1 <= size <= 2 ^ 16 →
  0 <= mode < 256 → mode mod 4 = 0 →
  dma_run (dma_setup dh ch mode addr size) d = Dma false (alter (set_channel dh ch mode addr size) (Z.to_nat ch) (channels d)).
Proof.
  intros Hdh Hch Haddr Hsize Hmode Hm4.
  assert (Emode : u8 (Z.lor mode ch) = mode + ch).
  { pose proof (Z.div_mod mode 4). replace mode with (2 ^ 2 * (mode / 4)) by lia.
    rewrite Z.lor_comm, (lor_add 2) by lia. rewrite u8_id by (split; lia). lia. }
  assert (Epage : u8 (Z.shiftr addr 16) = addr / 2 ^ 16).
  { rewrite Z.shiftr_div_pow2 by lia. apply u8_id. split; [apply Z.div_pos; lia|apply Z.div_lt_upper_bound; lia]. }
  assert (Ecount : u32 (size - 1) = size - 1) by (apply u32_id; split; lia).
  assert (Eland : Z.land (mode + ch) 3 = ch).
  { change 3 with (Z.ones 2) at 1. rewrite Z.land_ones by lia. change (2 ^ 2) with 4.
    symmetry. apply Z.mod_unique_pos with (q := mode / 4); [lia|]. pose proof (Z.div_mod mode 4). lia. }
  assert (Emask : Z.land (u8 (Z.lor ch 4)) 3 = ch ∧ Z.land (u8 ch) 3 = ch ∧ Z.testbit (u8 ch) 2 = false)
    by by apply (channel_cases ch).
  destruct Emask as (Em1 & Em2 & Em3). destruct d as [ff cs].
  unfold dma_setup, dma_run. rewrite Emode, Epage, Ecount. cbn [foldl].
  rewrite (write_mask ch) by done. change (dma_write (Dma ?f ?c) (0x0C, 0)) with (Dma false c).
  rewrite (write_mode ch), (write_page ch Hch _ _ _ dh Hdh), !(write_addr ch), !(write_count ch), (write_mask ch) by done.
  cbn [negb channels]. rewrite Em3, !list_alter_alter_eq. f_equal. apply list_alter_ext; [|done].
  intros [b c m k p] _. unfold compose, set_channel. cbn [c_base c_count c_mode c_masked c_page].
  rewrite !halfword_word by lia. by rewrite (Z.mod_small (size - 1)) by lia.
Qed.

(** The address of the [j]-th byte a channel transfers: the 16-bit address
    counter runs on inside its page. *)
Definition transfer_address (c : channel) (j : Z) : Z := c_page c * 2 ^ 16 + (c_base c + j) mod 2 ^ 16.

Lemma transfer_address_spec ch mode addr size c j : 0 <= addr → 0 <= j < 2 ^ 16 →
  transfer_address (set_channel 0 ch mode addr size c) j = addr + j - (if addr mod 2 ^ 16 + j <? 2 ^ 16 then 0 else 2 ^ 16).
Proof.
  intros Ha Hj. unfold transfer_address, set_channel. cbn [c_page c_base]. change (0 =? 0) with true. cbv iota.
  pose proof (Z.div_mod addr (2 ^ 16)). pose proof (Z.mod_pos_bound addr (2 ^ 16)).
  destruct (Z.ltb_spec (addr mod 2 ^ 16 + j) (2 ^ 16)).
  - rewrite (Z.mod_small (addr mod 2 ^ 16 + j)) by lia. lia.
  - replace ((addr mod 2 ^ 16 + j) mod 2 ^ 16) with (addr mod 2 ^ 16 + j - 2 ^ 16); [lia|].
    symmetry. replace (addr mod 2 ^ 16 + j) with ((addr mod 2 ^ 16 + j - 2 ^ 16) + 1 * 2 ^ 16) by lia.
    rewrite Z.mod_add, Z.mod_small by lia. lia.
Qed.

(** * The DSP protocol *)

(** The device keeps becoming ready: within 2^32 reads of any point the busy
    bit of the write port is clear, and after a reset the status and the data
    port answer. *)
Record dsp_ready (dsp : Z → Z → Z) : Prop := DspReady {
  rd_write : ∀ n, 0 <= n → ∃ j, 0 <= j < 2 ^ 32 ∧ Z.land (u8 (dsp 0x22C (n + j))) (Z.shiftl 1 7) = 0;
  rd_status : ∀ n, 0 <= n → ∃ j, 0 <= j < 2 ^ 32 ∧ Z.land (u8 (dsp 0x22E (n + j))) (Z.shiftl 1 7) ≠ 0;
  rd_data : ∀ n, 0 <= n → ∃ j, 0 <= j < 2 ^ 32 ∧ Z.land (u8 (dsp 0x22A (n + j))) 0xAA ≠ 0 }.

(** [s'] is [s] after the port writes [ws] and some reads. *)
Definition emits (ws : list (Z * Z)) (s s' : sb) : Prop := ∃ n, s' = emitted ws n s ∧ sb_reads s <= n.

Lemma emits_trans ws ws' s s' s'' : emits ws s s' → emits ws' s' s'' → emits (ws ++ ws') s s''.
Proof. intros (n & -> & ?) (n' & -> & ?). exists n'. rewrite emitted_emitted. split; [done|cbn in *; lia]. Qed.

Section protocol.
Context (dsp : Z → Z → Z) (Hready : dsp_ready dsp).

Lemma poll_spec port ok s j : 0 <= j < 2 ^ 32 → ok (u8 (dsp (SB16_IOBase + port) (sb_reads s + j))) = true →
  ∃ s', poll dsp port ok s = Done s' ∧ emits [] s s'.
Proof.
  intros Hj Hok. unfold poll. apply (orun_total _
    (λ s1, ∃ n, s1 = emitted [] n s ∧ sb_reads s <= n <= sb_reads s + j) _ (λ s1, sb_reads s + j - sb_reads s1)).
  - intros s1 (n & -> & Hn). unfold DSP_inb. cbn [sb_reads emitted].
    destruct (ok (u8 (dsp (SB16_IOBase + port) n))) eqn:E.
    + eexists. split; [done|]. exists (n + 1). split; [done|lia].
    + split; [|cbn; destruct (decide (n = sb_reads s + j)) as [->|]; [congruence|lia]].
      exists (n + 1). split; [done|]. destruct (decide (n = sb_reads s + j)) as [->|]; [congruence|lia].
  - exists (sb_reads s). split; [|lia]. unfold emitted. rewrite app_nil_r. by destruct s.
  - lia.
Qed.

Lemma Write_DSP_spec d s : 0 <= sb_reads s → ∃ s', Write_DSP dsp d s = Done s' ∧ emits [(0x22C, u8 d)] s s'.
Proof.
  intros Hs. destruct (rd_write _ Hready (sb_reads s) Hs) as (j & Hj & E).
  destruct (poll_spec DSP_Write (λ v, Z.land v (Z.shiftl 1 7) =? 0) s j Hj) as (s1 & E1 & H1); [by apply Z.eqb_eq|].
  unfold Write_DSP. rewrite E1, bind_Done. eexists. split; [done|].
  apply (emits_trans [] [(0x22C, u8 d)] s s1); [done|]. exists (sb_reads s1). split; [done|lia].
Qed.

Lemma emits_reads ws s s' : emits ws s s' → sb_reads s <= sb_reads s'.
Proof. by intros (n & -> & ?). Qed.

Lemma Write_DSP_all d1 d2 d3 d4 s : 0 <= sb_reads s → ∃ s',
  (s1 ← Write_DSP dsp d1 s; s2 ← Write_DSP dsp d2 s1; s3 ← Write_DSP dsp d3 s2; Write_DSP dsp d4 s3) = Done s' ∧
  emits [(0x22C, u8 d1); (0x22C, u8 d2); (0x22C, u8 d3); (0x22C, u8 d4)] s s'.
Proof.
  intros Hs. destruct (Write_DSP_spec d1 s Hs) as (s1 & -> & H1). rewrite bind_Done. apply emits_reads in H1 as R1.
  destruct (Write_DSP_spec d2 s1) as (s2 & -> & H2); [lia|]. rewrite bind_Done. apply emits_reads in H2 as R2.
  destruct (Write_DSP_spec d3 s2) as (s3 & -> & H3); [lia|]. rewrite bind_Done. apply emits_reads in H3 as R3.
  destruct (Write_DSP_spec d4 s3) as (s4 & -> & H4); [lia|]. exists s4. split; [done|].
  exact (emits_trans _ _ _ _ _ (emits_trans _ _ _ _ _ (emits_trans _ _ _ _ _ H1 H2) H3) H4).
Qed.

(** The commands of one block: 8-bit single-cycle output, mono, length - 1. *)
Definition start_commands : list (Z * Z) := [(0x22C, 0xC6); (0x22C, 0); (0x22C, 0xFF); (0x22C, 0x7F)].

Lemma start_play_spec s : 0 <= sb_reads s → ∃ s', start_play dsp BLOCK_SIZE s = Done s' ∧ emits start_commands s s'.
Proof. intros Hs. exact (Write_DSP_all 0xC6 0 0xFF 0x7F s Hs). Qed.

Lemma Set_Sample_Rate_spec s : 0 <= sb_reads s →
  ∃ s', Set_Sample_Rate dsp 8000 s = Done s' ∧ emits [(0x22C, 0x41); (0x22C, 0x1F); (0x22C, 0x40)] s s'.
Proof.
  intros Hs. unfold Set_Sample_Rate. destruct (Write_DSP_spec SB_OUTPUT_RATE s Hs) as (s1 & -> & H1).
  rewrite bind_Done. apply emits_reads in H1 as R1.
  destruct (Write_DSP_spec (u8 (Z.land (Z.shiftr 8000 8) 0xFF)) s1) as (s2 & -> & H2); [lia|].
  rewrite bind_Done. apply emits_reads in H2 as R2.
  destruct (Write_DSP_spec (u8 (Z.land 8000 0xFF)) s2) as (s3 & -> & H3); [lia|]. exists s3. split; [done|].
  exact (emits_trans _ _ _ _ _ (emits_trans _ _ _ _ _ H1 H2) H3).
Qed.

Lemma Reset_DSP_spec s : 0 <= sb_reads s →
  ∃ s', Reset_DSP dsp s = Done s' ∧ emits [(0x226, 1); (0x226, 0)] s s'.
Proof.
  intros Hs. unfold Reset_DSP. cbv zeta.
  assert (Edelay : orun (λ i, if i <? 30 then inl (u8 (i + 1)) else inr (Done i)) 0 = Done 30) by by vm_compute.
  rewrite Edelay, bind_Done. set (s1 := DSP_outb 0 _ _).
  assert (H1 : emits [(0x226, 1); (0x226, 0)] s s1).
  { exists (sb_reads s). split; [|lia]. unfold s1, DSP_outb. by rewrite (sb_outb_emitted _ _ s), sb_outb_next. }
  apply emits_reads in H1 as R1. destruct (rd_status _ Hready (sb_reads s1)) as (j & Hj & E); [lia|].
  destruct (poll_spec DSP_Read_Buffer_Status (λ v, negb (Z.land v (Z.shiftl 1 7) =? 0)) s1 j Hj) as (s2 & E2 & H2).
  { apply negb_true_iff. by apply Z.eqb_neq. }
  rewrite E2, bind_Done. apply emits_reads in H2 as R2.
  destruct (rd_data _ Hready (sb_reads s2)) as (j' & Hj' & E'); [lia|].
  destruct (poll_spec DSP_Read (λ v, negb (Z.land v 0xAA =? 0)) s2 j' Hj') as (s3 & E3 & H3).
  { apply negb_true_iff. by apply Z.eqb_neq. }
  exists s3. split; [exact E3|]. exact (emits_trans _ [] _ _ _ (emits_trans _ [] _ _ _ H1 H2) H3).
Qed.
End protocol.

(** * Streaming a file *)
Section stream.
Context (dsp : Z → Z → Z) (Hready : dsp_ready dsp) (buffer : Z).
(** The image at the start, and the file that is played. *)
Context (m0 : mem) (f : fs) (ino : Z) (Him : image_ok m0 f) (Hino : inode_ok m0 f ino).
Context (Hbuf : buf_ok f buffer BUFFER_SIZE).

(** Half [b mod 2] of the buffer holds block [b] of the file. *)
Definition half_holds (m : mem) (b : Z) : Prop :=
  ∀ i, 0 <= i < BLOCK_SIZE → m (buffer + b mod 2 * BLOCK_SIZE + i) = file_byte m0 f ino (b * BLOCK_SIZE + i).

(** Block [j] is playing and block [j + 1] is waiting in the other half. *)
Record streaming (j : Z) (s : sb) (k : kernel) : Prop := Streaming {
  st_fs : k_fs k = f;
  st_mem : mem_ok (k_mem k) ∧ ∀ a, fs_addr f <= a < image_end f → k_mem k a = m0 a;
  st_inode : audio_file_inode s = ino;
  st_cur : cur_block s = buffer + j mod 2 * BLOCK_SIZE;
  st_offset : current_offset s = (j + 2) * BLOCK_SIZE;
  st_reads : 0 <= sb_reads s;
  st_playing : is_playing s = 1;
  st_now : half_holds (k_mem k) j;
  st_next : half_holds (k_mem k) (j + 1) }.

Lemma mod2_succ j : (j + 1) mod 2 = 1 - j mod 2 ∧ (j mod 2 = 0 ∨ j mod 2 = 1) ∧ (j + 2) mod 2 = j mod 2.
Proof.
  pose proof (Z.div_mod j 2). pose proof (Z.mod_pos_bound j 2).
  split_and!; [symmetry|lia|symmetry].
  - destruct (decide (j mod 2 = 0)); [apply Z.mod_unique_pos with (q := j / 2)|apply Z.mod_unique_pos with (q := j / 2 + 1)]; lia.
  - apply Z.mod_unique_pos with (q := j / 2 + 1); lia.
Qed.

(** One interrupt while a whole block is left. *)
Lemma block_step j s k : 0 <= j → streaming j s k → (j + 3) * BLOCK_SIZE <= file_size m0 f ino →
  ∃ s' k', sb16_handler dsp buffer s k = Done (s', k') ∧ streaming (j + 1) s' k' ∧
    sb_ports s' = sb_ports s ++ start_commands ∧ k_if k' = true ∧ k_pic k' = send_eoi 5 (k_pic k).
Proof.
  intros Hj [F1 [Hm Hs] I1 C1 O1 R1 P1 N1 N2] Hsz. destruct (mod2_succ j) as (E1 & E2 & E3).
  pose proof (in_size _ _ _ Hino) as Hmax. unfold BLOCKSIZE in Hmax. pose proof (in_range _ _ _ Hino).
  unfold BUFFER_SIZE, BLOCK_SIZE in *.
  pose proof (image_ok_frame m0 (k_mem k) f Him Hs Hm) as Him'.
  pose proof (inode_ok_frame m0 (k_mem k) f Him Hs ino Hino) as Hino'.
  pose proof (file_size_frame m0 (k_mem k) f Him Hs ino ltac:(lia)) as Esz.
  destruct Hbuf as [_ Hout].
  destruct (read_data_reads (k_mem k) f ino ((j + 2) * 32768) (buffer + j mod 2 * 32768) 32768 Him' Hino') as (m' & E & Ho & Hb);
    [split; lia|by split|rewrite Esz; lia|split; lia|].
  assert (En : Z.min (file_size (k_mem k) f ino - (j + 2) * 32768) 32768 = 32768) by (rewrite Esz; lia).
  rewrite En in *.
  assert (Hs' : ∀ a, fs_addr f <= a < image_end f → m' a = m0 a) by (intros a Ha; rewrite Ho by lia; by apply Hs).
  unfold sb16_handler, DSP_inb. cbn [audio_file_inode current_offset cur_block with_reads].
  change (k_mem (with_if _ _)) with (k_mem k). change (k_fs (with_if _ _)) with (k_fs k).
  rewrite F1, I1, O1, C1. unfold BLOCK_SIZE. change (32 * 1024) with 32768. rewrite E, bind_Done.
  change (u32 32768 =? 32768) with true. cbv iota. change (u16 (u32 32768)) with BLOCK_SIZE.
  set (s1 := with_cur_block _ _). assert (HR1 : 0 <= sb_reads s1) by (cbn; lia).
  destruct (start_play_spec dsp Hready s1 HR1) as (s2 & Est & (n & -> & Hn)). cbn in HR1.
  rewrite Est, bind_Done. eexists _, _. split; [reflexivity|]. split_and!; [|done|done|done].
  split; cbn [k_fs with_if]; try done; unfold BLOCK_SIZE.
  - split; [|exact Hs']. intros a. cbn.
    destruct (decide (buffer + j mod 2 * 32768 <= a < buffer + j mod 2 * 32768 + 32768)) as [Ha|].
    + replace a with (buffer + j mod 2 * 32768 + (a - (buffer + j mod 2 * 32768))) by lia. rewrite Hb by lia. apply Him'.
    + rewrite Ho by lia. apply Hm.
  - cbn. rewrite C1, E1. unfold BLOCK_SIZE. change (32 * 1024) with 32768. destruct (Z.eqb_spec (buffer + j mod 2 * 32768) buffer); lia.
  - cbn. change (u32 32768) with 32768. rewrite u32_id by (split; lia). lia.
  - cbn in Hn |- *. lia.
  - intros i Hi. unfold BLOCK_SIZE in *. cbn. rewrite E1. rewrite Ho by (rewrite ?E1; lia).
    specialize (N2 i Hi). rewrite E1 in N2. exact N2.
  - intros i Hi. unfold BLOCK_SIZE in *. cbn. replace (j + 1 + 1) with (j + 2) by lia. rewrite E3, Hb by lia.
    apply (file_byte_frame m0 (k_mem k) f Him Hs ino _ Hino). lia.
Qed.

(** [n] interrupts. *)
Fixpoint interrupts (n : nat) (s : sb) (k : kernel) : out (sb * kernel) :=
  match n with
  | O => Done (s, k)
  | S n => '(s, k) ← sb16_handler dsp buffer s k; interrupts n s k
  end.

Lemma interrupts_spec n : ∀ j s k, 0 <= j → streaming j s k →
  (j + Z.of_nat n + 2) * BLOCK_SIZE <= file_size m0 f ino →
  ∃ s' k', interrupts n s k = Done (s', k') ∧ streaming (j + Z.of_nat n) s' k' ∧
    sb_ports s' = sb_ports s ++ concat (replicate n start_commands).
Proof.
  induction n as [|n IH]; intros j s k Hj Hst Hsz.
  - exists s, k. rewrite Z.add_0_r. cbn. rewrite app_nil_r. done.
  - destruct (block_step j s k Hj Hst) as (s1 & k1 & E1 & Hst1 & Ep & _).
    { unfold BLOCK_SIZE in *. lia. }
    destruct (IH (j + 1) s1 k1) as (s2 & k2 & E2 & Hst2 & Ep2); [lia|done|unfold BLOCK_SIZE in *; lia|].
    exists s2, k2. cbn [interrupts]. rewrite E1, bind_Done. split; [exact E2|].
    replace (j + Z.of_nat (S n)) with (j + 1 + Z.of_nat n) by lia. split; [done|].
    by rewrite Ep2, Ep, <- (assoc_L (++)).
Qed.
End stream.

(** The DMA controller does not see the DSP's ports. *)
Lemma dma_run_dsp ws d : Forall (λ w, w.1 = 0x22C ∨ w.1 = 0x226) ws → dma_run ws d = d.
Proof.
  intros H. revert d. induction H as [|[port v] ws Hw _ IH]; intros d; [done|]. cbn [dma_run foldl] in *.
  assert (E : dma_write d (port, v) = d) by (destruct Hw as [Hw|Hw]; cbn in Hw; by rewrite Hw).
  rewrite E. apply IH.
Qed.
Lemma dma_run_app ws ws' d : dma_run (ws ++ ws') d = dma_run ws' (dma_run ws d).
Proof. apply foldl_app. Qed.

Lemma starts_count n :
  length (filter (λ w, w = (0x22C, 0xC6)) (concat (replicate n start_commands))) = n.
Proof. induction n as [|n IH]; [done|]. cbn [replicate concat]. rewrite list.filter_app, length_app, IH. reflexivity. Qed.

(** ** Starting to play

    For any caller from which the name can be opened: a process, or the kernel
    when it starts. *)
Section start.
Context (dsp : Z → Z → Z) (Hready : dsp_ready dsp) (buffer magic dh : Z) (Hdh : 0 <= dh < 256).
Context (dir_addr table_addr vidmem_addr : Z) (stack_dentry : dentry_t).
Context (k : kernel) (p : pcb_t) (filename i : Z) (H : opener dir_addr table_addr vidmem_addr k p filename i).
Context (Htype : load32 (k_mem k) (entry_at (k_fs k) i + 32) = REGULAR_FILE).
Context (ino := load32 (k_mem k) (entry_at (k_fs k) i + 36)) (Hino : inode_ok (k_mem k) (k_fs k) ino).
Context (Hsize : BUFFER_SIZE <= file_size (k_mem k) (k_fs k) ino).
Context (Hriff : file_slice (k_mem k) (k_fs k) ino 0 4 = [0x52; 0x49; 0x46; 0x46]).
Context (fd : Z) (Hfd : free_fd (drop 2 (files p)) MIN_FD = Some fd).
Context (Hmagic : buf_ok (k_fs k) magic 4) (Hbuf : buf_ok (k_fs k) buffer BUFFER_SIZE).
Context (Haway : ∀ j x, 0 <= j <= 32 → translation dir_addr table_addr vidmem_addr k (filename + j) = Some x →
  x_pa x < magic ∨ magic + 4 <= x_pa x).

Lemma set_mem_opener m : mem_ok m → (∀ a, fs_addr (k_fs k) <= a < image_end (k_fs k) → m a = k_mem k a) →
  (∀ j x, 0 <= j <= 32 → translation dir_addr table_addr vidmem_addr k (filename + j) = Some x → m (x_pa x) = k_mem k (x_pa x)) →
  opener dir_addr table_addr vidmem_addr (set_mem m k) p filename i.
Proof.
  intros Hm Hs Hname. destruct H as [Him Hdir H3 H4 H5 (Hi & len & (Hl0 & Hend & Hbytes) & Hl & En & Hpre)].
  set (s := at_user dir_addr table_addr vidmem_addr k filename) in *.
  set (s' := at_user dir_addr table_addr vidmem_addr (set_mem m k) filename).
  assert (Hsame : ∀ j, 0 <= j <= len → s' j = s j).
  { intros j Hj. unfold s', s, at_user, vview. change (translation _ _ _ (set_mem m k)) with (translation dir_addr table_addr vidmem_addr k).
    destruct (translation _ _ _ k (filename + j)) as [x|] eqn:Ex; [|done]. cbn. f_equal. apply (Hname j x); [lia|done]. }
  assert (Eb : bytes_of s' len = bytes_of s len).
  { apply bytes_of_eq; [done|done|]. split; [done|]. intros j Hj. by rewrite Hsame by lia. }
  split; [by apply (image_ok_frame (k_mem k))|by apply (dir_ok_frame (k_mem k))|done|done|done|].
  split; [done|]. exists len. change (k_mem (set_mem m k)) with m. change (k_fs (set_mem m k)) with (k_fs k).
  fold s'. rewrite Eb.
  split_and!; [split_and!; [done|by rewrite Hsame by lia|]|done| |].
  - intros j Hj. rewrite Hsame by lia. by apply Hbytes.
  - by rewrite (entry_name_frame (k_mem k) m).
  - intros j Hj. rewrite (entry_name_frame (k_mem k) m) by (done || lia). by apply Hpre.
Qed.

(** The port writes of [play_music]. *)
Definition play_commands : list (Z * Z) :=
  [(0x226, 1); (0x226, 0)] ++ dma_setup dh 1 0x58 buffer BUFFER_SIZE ++
  [(0x22C, 0x41); (0x22C, 0x1F); (0x22C, 0x40)] ++ start_commands.

(** The kernel after the call: the bytes of the two buffers and the
    descriptor [fd] have changed. *)
Definition played (m : mem) : kernel := set_mem m (with_fd fd (FileDesc (Some file_funcs) ino 0 IN_USE) p k).

(** Reading the first bytes of the file into a buffer. *)
Record head_at (m : mem) (a n : Z) (m' : mem) : Prop := HeadAt {
  ha_only : only_in a (a + n) m m';
  ha_bytes : ∀ j, 0 <= j < n → m' (a + j) = file_byte (k_mem k) (k_fs k) ino j;
  ha_ok : mem_ok m' }.

Lemma read_head m a n : mem_ok m → (∀ x, fs_addr (k_fs k) <= x < image_end (k_fs k) → m x = k_mem k x) →
  buf_ok (k_fs k) a n → 0 <= n <= BUFFER_SIZE → ∃ m', read_data m (k_fs k) ino 0 a n = Done (n, m') ∧ head_at m a n m'.
Proof.
  intros Hm Hs Hb Hn. pose proof (op_image _ _ _ _ _ _ _ H) as Him. pose proof Hino as [Hir Hmax _].
  unfold BUFFER_SIZE, BLOCK_SIZE in *. unfold BLOCKSIZE in Hmax.
  pose proof (file_size_frame (k_mem k) m (k_fs k) Him Hs ino ltac:(lia)) as Esz.
  destruct (read_data_reads m (k_fs k) ino 0 a n) as (m' & E & Ho & Hby);
    [by apply (image_ok_frame (k_mem k))|by apply (inode_ok_frame (k_mem k) m (k_fs k) Him Hs)|split; lia|split; lia
    |rewrite Esz; lia|rewrite Esz, Z.min_r by lia; exact Hb|].
  rewrite Esz, Z.min_r in E, Ho, Hby by lia. exists m'. split; [done|].
  assert (Hbytes : ∀ j, 0 <= j < n → m' (a + j) = file_byte (k_mem k) (k_fs k) ino j).
  { intros j Hj. rewrite Hby by lia. apply (file_byte_frame (k_mem k) m (k_fs k) Him Hs ino _ Hino). lia. }
  split; [intros x Hx; apply Ho; lia|exact Hbytes|]. intros x. destruct (decide (a <= x < a + n)); [|by rewrite Ho by lia].
  replace x with (a + (x - a)) by lia. rewrite Hbytes by lia. apply Him.
Qed.

Lemma head_image m a n m' : buf_ok (k_fs k) a n → head_at m a n m' →
  (∀ x, fs_addr (k_fs k) <= x < image_end (k_fs k) → m x = k_mem k x) → ∀ x, fs_addr (k_fs k) <= x < image_end (k_fs k) → m' x = k_mem k x.
Proof. intros [Hn Hb] Hm Hs x Hx. rewrite (ha_only _ _ _ _ Hm) by lia. by apply Hs. Qed.

Lemma head_riff m' : head_at (k_mem k) magic 4 m' → load32 m' magic = RIFF.
Proof.
  intros [_ Hb _]. injection Hriff as B0 B1 B2 B3. unfold load32.
  assert (M0 : m' (magic + 0) = 0x52) by (rewrite Hb by lia; exact B0). rewrite Z.add_0_r in M0.
  assert (M1 : m' (magic + 1) = 0x49) by (rewrite Hb by lia; exact B1).
  assert (M2 : m' (magic + 2) = 0x46) by (rewrite Hb by lia; exact B2).
  assert (M3 : m' (magic + 3) = 0x46) by (rewrite Hb by lia; exact B3).
  by rewrite M0, M1, M2, M3.
Qed.

(** The state of the playback when the first block starts. *)
Lemma streaming_start s m1 m2 s' : head_at (k_mem k) magic 4 m1 → head_at m1 buffer BUFFER_SIZE m2 →
  audio_file_inode s' = ino → cur_block s' = buffer → current_offset s' = 2 * BLOCK_SIZE → 0 <= sb_reads s' → is_playing s' = 1 →
  sb_ports s' = sb_ports s ++ play_commands →
  streaming buffer (k_mem k) (k_fs k) ino 0 s' (played m2) ∧ sb_ports s' = sb_ports s ++ play_commands ∧
    ∀ a, (a < magic ∨ magic + 4 <= a) → (a < buffer ∨ buffer + BUFFER_SIZE <= a) → m2 a = k_mem k a.
Proof.
  intros H1 H2 Ei Ec Eo Er Ep Ew. split; [|split; [done|intros a Ha1 Ha2; by rewrite (ha_only _ _ _ _ H2), (ha_only _ _ _ _ H1)]].
  assert (Hhalf : ∀ x, 0 <= x < 2 → half_holds buffer (k_mem k) (k_fs k) ino m2 x).
  { intros x Hx j Hj. rewrite (Z.mod_small x) by lia. unfold BLOCK_SIZE in *. rewrite <- Z.add_assoc. apply (ha_bytes _ _ _ _ H2).
    unfold BUFFER_SIZE, BLOCK_SIZE. lia. }
  split; [done| |exact Ei| |exact Eo|exact Er|exact Ep|by apply Hhalf|by apply Hhalf].
  - split; [exact (ha_ok _ _ _ _ H2)|]. apply (head_image m1 buffer BUFFER_SIZE m2 Hbuf H2), (head_image _ _ _ _ Hmagic H1). done.
  - rewrite Ec. change (0 mod 2) with 0. lia.
Qed.

(** [open] after the first bytes are read. *)
Lemma open_track m1 : head_at (k_mem k) magic 4 m1 → opener dir_addr table_addr vidmem_addr (set_mem m1 k) p filename i ∧
  open dir_addr table_addr vidmem_addr stack_dentry filename (set_mem m1 k) =
    Done (fd, with_fd fd (FileDesc (Some file_funcs) ino 0 IN_USE) p (set_mem m1 k)).
Proof.
  intros Hm1. pose proof (op_image _ _ _ _ _ _ _ H) as Him. pose proof (head_image _ _ _ _ Hmagic Hm1 (λ x _, eq_refl)) as Hs1.
  pose proof (set_mem_opener m1 (ha_ok _ _ _ _ Hm1) Hs1 (λ j x Hj Hx, ha_only _ _ _ _ Hm1 (x_pa x) (Haway j x Hj Hx))) as H1. split; [exact H1|].
  pose proof (op_name _ _ _ _ _ _ _ H) as (Hi & _).
  destruct (entry_inside _ _ Him (op_dir _ _ _ _ _ _ _ H) i Hi) as [Hin1 Hin2]. pose proof (boot_inside _ _ Him) as Hboot.
  assert (Et : load32 m1 (entry_at (k_fs k) i + 32) = REGULAR_FILE)
    by (rewrite <- Htype; apply (image_frame_load (k_mem k) m1 (k_fs k) Hs1); lia).
  assert (Ei : load32 m1 (entry_at (k_fs k) i + 36) = ino)
    by (apply (image_frame_load (k_mem k) m1 (k_fs k) Hs1); lia).
  pose proof (open_file_spec dir_addr table_addr vidmem_addr stack_dentry (set_mem m1 k) p filename i fd H1 Et Hfd) as Eopen.
  change (k_mem (set_mem m1 k)) with m1 in Eopen. change (k_fs (set_mem m1 k)) with (k_fs k) in Eopen. by rewrite Ei in Eopen.
Qed.

Lemma play_music_spec s : 0 <= buffer → buffer + BUFFER_SIZE <= EIGHT_MB_SIZE →
  is_playing s ≠ 1 → current_offset s = 0 → cur_block s = buffer → 0 <= sb_reads s →
  ∃ s' m, play_music dsp buffer magic dh dir_addr table_addr vidmem_addr stack_dentry filename s k = Done (0, s', played m) ∧
    streaming buffer (k_mem k) (k_fs k) ino 0 s' (played m) ∧ sb_ports s' = sb_ports s ++ play_commands ∧
    ∀ a, (a < magic ∨ magic + 4 <= a) → (a < buffer ∨ buffer + BUFFER_SIZE <= a) → m a = k_mem k a.
Proof.
  intros Hb0 Hb8 Hp Ho Hc Hr. pose proof (op_image _ _ _ _ _ _ _ H) as Him.
  destruct (read_head (k_mem k) magic 4) as (m1 & E1 & H1); [apply Him|done|exact Hmagic|unfold BUFFER_SIZE, BLOCK_SIZE; lia|].
  destruct (open_track m1 H1) as [Hop1 Eopen].
  destruct (read_head m1 buffer BUFFER_SIZE) as (m2 & E2 & H2);
    [apply H1|by apply (head_image _ _ _ _ Hmagic H1)|exact Hbuf|unfold BUFFER_SIZE, BLOCK_SIZE; lia|].
  unfold play_music. rewrite (proj2 (Z.eqb_neq _ _) Hp). cbv zeta.
  rewrite (lookup_named _ _ _ stack_dentry k p filename i H), bind_Done.
  change (0 =? -1) with false. cbv iota. cbn [audio_file_inode with_audio_inode].
  destruct (copy_dentry_fields (k_mem k) (entry_at (k_fs k) i) stack_dentry) as [_ Eino]. rewrite Eino. fold ino.
  rewrite E1, bind_Done, (head_riff m1 H1). change (negb (RIFF =? RIFF)) with false. cbv iota. set (s1 := with_audio_inode ino s).
  destruct (Reset_DSP_spec dsp Hready s1 Hr) as (s2 & -> & (n2 & -> & Hn2)). rewrite bind_Done. change (k_mem (set_mem m1 k)) with m1.
  destruct (op_name _ _ _ _ _ _ _ Hop1) as (_ & len1 & Hcstr1 & Hlen1 & _). change (k_mem (set_mem m1 k)) with m1 in Hcstr1.
  rewrite (strlen_spec _ len1 Hcstr1) by lia. rewrite bind_Done. destruct Hcstr1 as (Hl1 & Hend1 & Hbytes1).
  rewrite (strncpy_spec _ len1 len1) by (done || lia || by left). rewrite bind_Done, Eopen, bind_Done.
  cbn [audio_file_inode current_offset with_audio_fd with_filename emitted].
  change (audio_file_inode s1) with ino. change (current_offset s1) with (current_offset s). rewrite Ho.
  change (BLOCK_SIZE * 2) with BUFFER_SIZE. change (k_mem (with_fd _ _ _ _)) with m1. change (k_fs (with_fd _ _ _ _)) with (k_fs k).
  rewrite E2, bind_Done, Transfer_Sound_DMA_spec by lia. rewrite bind_Done. change (Z.lor 0x48 0x10) with 0x58.
  match goal with |- context [Set_Sample_Rate dsp 8000 ?x] => set (s3 := x) end.
  destruct (Set_Sample_Rate_spec dsp Hready s3) as (s4 & -> & (n4 & -> & Hn4)); [unfold s3; cbn in Hn2 |- *; lia|rewrite bind_Done].
  match goal with |- context [start_play dsp _ ?x] => set (s5 := x) end. assert (R5 : 0 <= sb_reads s5) by (cbn in Hn2, Hn4 |- *; lia).
  destruct (start_play_spec dsp Hready s5 R5) as (s6 & -> & (n6 & -> & Hn6)). rewrite bind_Done.
  eexists _, m2. split; [reflexivity|]. apply (streaming_start s m1 m2); try done; cbn -[u32].
  - by rewrite Ho.
  - lia.
  - by rewrite <- !(assoc_L (++)).
Qed.
End start.

(** Any address from the program page up is behind none of the kernel's own
    variables. *)
Lemma user_pointer_away dir_addr table_addr vidmem_addr (Hlink : linked dir_addr table_addr vidmem_addr) id k p a x :
  sys_ok dir_addr table_addr vidmem_addr id k p → _128_MB_SIZE <= a < 2 ^ 32 →
  translation dir_addr table_addr vidmem_addr k a = Some x → x_pa x < FOUR_MB_SIZE ∨ EIGHT_MB_SIZE <= x_pa x.
Proof.
  intros H Ha. destruct (so_page _ _ _ _ _ _ H) as (win & Hrep & Hst). unfold translation.
  rewrite (translate_is_map _ _ _ Hlink _ _ _ Hrep Hst) by (unfold _128_MB_SIZE in *; lia).
  destruct Hst as [Hid Hwin]. cbn [fst snd] in *. unfold address_map, FOUR_MB, EIGHT_MB, FOUR_MB_SIZE, EIGHT_MB_SIZE, _128_MB_SIZE in *.
  rewrite !(proj2 (Z.ltb_ge _ _)) by lia. specialize (Hid id eq_refl). case_match.
  - cbn. intros [= <-]. cbn. right. pose proof (Z.mod_pos_bound a 0x400000). lia.
  - case_match; [|done]. destruct win as [w|]; [|done]. cbn. intros [= <-]. cbn. left.
    specialize (Hwin w eq_refl). unfold TEXT_PAGE, FOUR_KB in *. pose proof (Z.mod_pos_bound a 4096). lia.
Qed.

Lemma play_starts buffer dh : length (filter (λ w, w = (0x22C, 0xC6)) (play_commands buffer dh)) = 1%nat.
Proof.
  unfold play_commands. rewrite !list.filter_app.
  assert (E : filter (λ w, w = (0x22C, 0xC6)) (dma_setup dh 1 0x58 buffer BUFFER_SIZE) = []); [|by rewrite E].
  unfold dma_setup. change (default 0 (zget page_ports 1)) with 0x83.
  by rewrite !list.filter_cons_False by (intros [= ?]; lia).
Qed.
(** The controller sees the set-up of channel 1 alone. *)
Lemma play_dma buffer dh n d : 0 <= dh < 256 → 0 <= buffer < 2 ^ 24 →
  dma_run (play_commands buffer dh ++ concat (replicate n start_commands)) d =
  Dma false (alter (set_channel dh 1 0x58 buffer BUFFER_SIZE) 1%nat (channels d)).
Proof.
  intros Hdh Hb. unfold play_commands. rewrite !dma_run_app.
  rewrite (dma_run_dsp [(0x226, 1); (0x226, 0)]) by (repeat constructor; cbn; lia).
  rewrite dma_setup_run by (unfold BUFFER_SIZE, BLOCK_SIZE; done || lia).
  rewrite (dma_run_dsp (concat _)) by (apply List.Forall_concat, Forall_replicate; repeat constructor; cbn; lia).
  by rewrite !dma_run_dsp by (repeat constructor; cbn; lia).
Qed.

Section play.
Context (dsp : Z → Z → Z) (Hready : dsp_ready dsp) (buffer magic : Z).
Context (dir_addr table_addr vidmem_addr : Z) (stack_dentry : dentry_t).
Context (Hlink : linked dir_addr table_addr vidmem_addr).
Context (id : Z) (k : kernel) (p : pcb_t) (H : sys_ok dir_addr table_addr vidmem_addr id k p).
Context (filename i : Z) (Hf : user_buf filename 1) (Hn : names_entry dir_addr table_addr vidmem_addr k filename i).
Context (Htype : load32 (k_mem k) (entry_at (k_fs k) i + 32) = REGULAR_FILE).
Context (ino := load32 (k_mem k) (entry_at (k_fs k) i + 36)) (Hino : inode_ok (k_mem k) (k_fs k) ino).
Context (Hsize : BUFFER_SIZE <= file_size (k_mem k) (k_fs k) ino).
Context (Hriff : file_slice (k_mem k) (k_fs k) ino 0 4 = [0x52; 0x49; 0x46; 0x46]).
Context (fd : Z) (Hfd : free_fd (drop 2 (files p)) MIN_FD = Some fd).
Context (Hmagic : buf_ok (k_fs k) magic 4 ∧ FOUR_MB_SIZE <= magic ∧ magic + 4 <= EIGHT_MB_SIZE).
Context (Hbuf : buf_ok (k_fs k) buffer BUFFER_SIZE ∧ FOUR_MB_SIZE <= buffer ∧ buffer + BUFFER_SIZE <= EIGHT_MB_SIZE).
Context (dh : Z) (Hdh : 0 <= dh < 256).

(** Channel 1 as [play_music] leaves it. *)
Definition sound_channel : channel → channel := set_channel dh 1 0x58 buffer BUFFER_SIZE.

(** C22. Playing a file.  When a process plays a RIFF file of at least 64 KB
    and the device keeps becoming ready, [play_music] succeeds: it resets the
    DSP, leaves channel 1 of the DMA controller, and no other, unmasked in
    auto-initialised read mode for 64 KB from the low 16 bits of the buffer's
    address, and starts the first block; then, for every number [n] of
    interrupts while whole blocks are left, each interrupt starts one more
    block, and after the [n]-th one block [n] of the file is in the half of
    the buffer that is due to play and block [n + 1] in the other half, byte
    for byte, so that no block is overwritten while it plays.  The image is
    unchanged.

    What the controller transfers depends on two things the code leaves open.
    The page register is written only when the unspecified byte [dh] happens
    to be 0; otherwise it keeps its old value.  And its address counter does
    not leave the 64 KB page: with [dh = 0] the [j]-th byte transferred is
    byte [j] of the buffer up to the end of the page, and the byte 64 KB lower
    beyond it.  So when [dh = 0] and the buffer starts a page, the bytes
    transferred for block [n] are those of block [n] of the file, in order. *)
Theorem audio_streaming s : is_playing s ≠ 1 → current_offset s = 0 → cur_block s = buffer → 0 <= sb_reads s →
  ∃ s0 k0, play_music dsp buffer magic dh dir_addr table_addr vidmem_addr stack_dentry filename s k = Done (0, s0, k0) ∧
  (dh = 0 → ∀ c j, 0 <= j < BUFFER_SIZE →
     transfer_address (sound_channel c) j = buffer + j - (if buffer mod 2 ^ 16 + j <? 2 ^ 16 then 0 else 2 ^ 16)) ∧
  ∀ n, (Z.of_nat n + 2) * BLOCK_SIZE <= file_size (k_mem k) (k_fs k) ino →
  ∃ s' k' ws, interrupts dsp buffer n s0 k0 = Done (s', k') ∧ streaming buffer (k_mem k) (k_fs k) ino (Z.of_nat n) s' k' ∧
    sb_ports s' = sb_ports s ++ ws ∧ length (filter (λ w, w = (0x22C, 0xC6)) ws) = S n ∧
    (∀ d, dma_run ws d = Dma false (alter sound_channel 1%nat (channels d))) ∧
    (dh = 0 → buffer mod 2 ^ 16 = 0 → ∀ c j, 0 <= j < BLOCK_SIZE →
       k_mem k' (transfer_address (sound_channel c) (Z.of_nat n mod 2 * BLOCK_SIZE + j)) =
       file_byte (k_mem k) (k_fs k) ino (Z.of_nat n * BLOCK_SIZE + j)).
Proof.
  intros Hp Ho Hc Hr. destruct Hbuf as (Hbb & Hb4 & Hb8), Hmagic as (Hmb & Hm4 & Hm8).
  assert (Haddr : dh = 0 → ∀ c j, 0 <= j < BUFFER_SIZE →
    transfer_address (sound_channel c) j = buffer + j - (if buffer mod 2 ^ 16 + j <? 2 ^ 16 then 0 else 2 ^ 16)).
  { unfold sound_channel. intros -> c j Hj. apply transfer_address_spec; unfold FOUR_MB_SIZE in *; [lia|exact Hj]. }
  destruct (play_music_spec dsp Hready buffer magic dh Hdh dir_addr table_addr vidmem_addr stack_dentry k p filename i
    (sys_opener _ _ _ id k p filename i H Hf Hn)) with (fd := fd) (s := s) as (s0 & m0 & E & Hst & Eports & _); try done.
  { intros j x Hj Hx. destruct Hf as (Hf0 & _ & Hf1). unfold _128_MB_SIZE, FOUR_MB_SIZE in Hf0, Hf1.
    destruct (user_pointer_away _ _ _ Hlink id k p (filename + j) x H) as [?|?]; [unfold _128_MB_SIZE; lia|exact Hx|left|right]; lia. }
  { unfold FOUR_MB_SIZE in Hb4. lia. }
  exists s0, (played k p i fd m0). split; [exact E|]. split; [exact Haddr|]. intros n Hn'.
  destruct (interrupts_spec dsp Hready buffer (k_mem k) (k_fs k) ino (so_image _ _ _ _ _ _ H) Hino Hbb n 0 s0 (played k p i fd m0))
    as (s' & k' & E' & Hst' & Eports'); [lia|done|lia|].
  exists s', k', (play_commands buffer dh ++ concat (replicate n start_commands)). split_and!; [exact E'|exact Hst'| | | |].
  - by rewrite Eports', Eports, <- (assoc_L (++)).
  - rewrite list.filter_app, length_app. rewrite starts_count. by rewrite play_starts.
  - intros d. apply play_dma; [done|unfold BUFFER_SIZE, BLOCK_SIZE, FOUR_MB_SIZE, EIGHT_MB_SIZE in *; lia].
  - intros Hd0 Hb16 c j Hj. unfold BUFFER_SIZE, BLOCK_SIZE in *. pose proof (Z.mod_pos_bound (Z.of_nat n) 2).
    assert (Hi : 0 <= Z.of_nat n mod 2 * (32 * 1024) + j < 2 ^ 16) by (change (32 * 1024) with 32768 in *; lia).
    rewrite Haddr, Hb16 by done. destruct (Z.ltb_spec (0 + (Z.of_nat n mod 2 * (32 * 1024) + j)) (2 ^ 16)); [|lia].
    rewrite Z.sub_0_r, Z.add_assoc. by apply (st_now _ _ _ _ _ _ _ Hst').
Qed.
End play.

(** * Witness

    An image with one RIFF file of 100000 bytes, called "a". *)
Definition cells4 : list (Z * Z) :=
  [(0, 1); (4, 2); (8, 26); (64, 97); (96, 2); (4096, 160); (4097, 134); (4098, 1);
   (12288, 82); (12289, 73); (12290, 70); (12291, 70)].
Definition img4 : mem := λ a,
  match find (λ p, image_base + p.1 =? a) cells4 with
  | Some p => p.2
  | None =>
      if a <? image_base + 4100 then 0
      else if a <? image_base + 4200 then (if a mod 4 =? 0 then (a - image_base - 4100) / 4 else 0)
      else if a <? image_base + 12288 then 0 else a mod 251
  end.
Definition img4_fs : fs := filesystem_init img4 image_base.

Lemma img4_ok : image_ok img4 img4_fs.
Proof.
  split; [|done|done|done]. intros a. unfold img4. destruct (find _ cells4) as [[b v]|] eqn:E.
  - apply find_some in E as [E _]. cbn.
    assert (Hf : forallb (λ p, (0 <=? p.2) && (p.2 <? 256)) cells4 = true) by by vm_compute.
    rewrite forallb_forall in Hf. apply Hf in E. cbn in E. unfold is_u8. lia.
  - pose proof (Z.mod_pos_bound a 251). unfold is_u8. destruct (Z.ltb_spec a (image_base + 4100)); [lia|].
    destruct (Z.ltb_spec a (image_base + 4200)); [|case_match; lia]. case_match; [|lia].
    split; [apply Z.div_pos; lia|apply Z.div_lt_upper_bound; lia].
Qed.
Lemma img4_inode_ok : inode_ok img4 img4_fs 0.
Proof.
  split; [by vm_compute|by vm_compute|]. intros k Hk. change (file_size img4 img4_fs 0) with 100000.
  unfold BLOCKSIZE. intros Hlt.
  assert (Hall : forallb (λ k, block_no img4 img4_fs 0 k <? num_d_blocks img4_fs) (seqZ 0 25) = true) by by vm_compute.
  rewrite forallb_forall in Hall. apply Z.ltb_lt, Hall, list_elem_of_In, elem_of_seqZ. lia.
Qed.
Lemma img4_dir_ok : dir_ok img4 img4_fs.
Proof.
  split; [by vm_compute|]. change (num_dentries img4_fs) with 1.
  intros i Hi. assert (i = 0) as -> by lia. by vm_compute.
Qed.

Definition mem4 : mem := blit img4 0xC48000 [97; 0].
Definition kernel4 : kernel := set_pcb (get_pcb_by_index 1) pcb2 (with_fs img4_fs (set_mem mem4 kernel1)).
Lemma mem4_same a : fs_addr img4_fs <= a < image_end img4_fs → mem4 a = img4 a.
Proof. intros Ha. apply blit_out. left. change (image_end img4_fs) with 0x71D000 in Ha. lia. Qed.
Lemma kernel4_ok : sys_ok 0x500000 0x501000 0x502000 1 kernel4 pcb2.
Proof.
  split.
  - apply (image_ok_frame img4 mem4 img4_fs img4_ok mem4_same). intros a. unfold mem4, blit.
    destruct (zget [97; 0] _) as [v|] eqn:E; [|apply img4_ok].
    apply zget_Some in E as [_ E]. revert E. apply Forall_lookup_1.
    do 2 (constructor; [split; lia|]). constructor.
  - apply (dir_ok_frame img4 mem4 img4_fs img4_ok img4_dir_ok mem4_same).
  - by vm_compute.
  - apply tables1_rep.
  - reflexivity.
  - reflexivity.
Qed.

(** A device that is always ready. *)
Definition dsp4 (port n : Z) : Z := if port =? 0x22C then 0 else 0xFF.
Lemma dsp4_ready : dsp_ready dsp4.
Proof. split; intros n _; exists 0; by split. Qed.

Lemma audio_streaming_witness :
  ∃ s0 k0 s' k', play_music dsp4 0x410000 0x7FB000 0 0x500000 0x501000 0x502000 (replicate 64 0) 0x8048000
      (Sb [] 0 0x410000 0 0 0 (replicate 33 0) 0) kernel4 = Done (0, s0, k0) ∧
    interrupts dsp4 0x410000 1 s0 k0 = Done (s', k') ∧ current_offset s' = 3 * BLOCK_SIZE ∧
    k_mem k' (transfer_address (sound_channel 0x410000 0 (Channel 0 0 0 true 0)) (BLOCK_SIZE + 5)) =
    file_byte mem4 img4_fs 0 (BLOCK_SIZE + 5).
Proof.
  destruct (audio_streaming dsp4 dsp4_ready 0x410000 0x7FB000 0x500000 0x501000 0x502000 (replicate 64 0) linked0
    1 kernel4 pcb2 kernel4_ok 0x8048000 0) with (fd := 2) (dh := 0) (s := Sb [] 0 0x410000 0 0 0 (replicate 33 0) 0)
    as (s0 & k0 & E & Hall).
  - split_and!; by vm_compute.
  - assert (Ed : num_dentries (k_fs kernel4) = 1) by by vm_compute.
    unfold names_entry. rewrite Ed. cbv zeta. split; [lia|]. exists 1. split_and!.
    + split_and!; [done|by vm_compute|]. intros i Hi. assert (i = 0) as -> by lia.
      exists 97. split; [by vm_compute|done].
    + lia.
    + by vm_compute.
    + intros j Hj. lia.
  - by vm_compute.
  - apply (inode_ok_frame img4 mem4 img4_fs img4_ok mem4_same). exact img4_inode_ok.
  - by vm_compute.
  - by vm_compute.
  - reflexivity.
  - split; [split; [done|right]|split]; by vm_compute.
  - split; [split; [done|left]|split]; by vm_compute.
  - done.
  - done.
  - done.
  - done.
  - done.
  - destruct Hall as [_ Hall]. destruct (Hall 1%nat) as (s' & k' & ws & E' & Hst & _ & _ & _ & Hplay); [by vm_compute|].
    exists s0, k0, s', k'. split; [exact E|]. split; [exact E'|]. split; [exact (st_offset _ _ _ _ _ _ _ Hst)|].
    apply (Hplay eq_refl eq_refl (Channel 0 0 0 true 0) 5). by split.
Defined.
