(* ===== verification/Scheduling.v ===== *)
(** The scheduler of student-distrib/scheduling.c and the terminal switch of
    student-distrib/terminal.c: the timer set-up, the context switch of the
    timer interrupt, and the theorems that it takes the terminals in turn and
    keeps their contexts. *)
From Stdlib Require Import String.
From stdpp Require Import gmap.
From S2P Require Import Prelude Memory Strings Console Filesystem Paging Pic Rtc Kernel Terminal Syscall Tables Process.

Definition PIT_IRQ : Z := 0.
Definition PIT_CONST : Z := 1193182.
Definition PIT_REG : Z := 0x43.
Definition PIT_MODE_3 : Z := 0x36.
Definition CHANNEL_0 : Z := 0x40.

(** * The timer *)

(** [divisor_addr] is the address of the local [divisor]: [PIT_MASK] is an empty
    macro, so the low byte is that of the expression [& divisor].  Returns the
    port writes (port, byte). *)
Definition init_pit (divisor_addr frequency : Z) (p : pic) : out (list (Z * Z) * pic) :=
  if frequency =? 0 then Undef else
  let divisor := PIT_CONST / frequency in
  Done ([(PIT_REG, u8 PIT_MODE_3); (CHANNEL_0, u8 divisor_addr); (CHANNEL_0, u8 (Z.shiftr divisor 8))],
        enable_irq PIT_IRQ p).

(** * The timer interrupt *)

(** The loop that looks for the next terminal: [i] counts from 0. *)
Fixpoint next_from (fuel : nat) (i : Z) (k : kernel) : out Z :=
  let next_terminal := Z.rem (running_terminal k + 1 + i) 3 in
  match fuel with
  | O => Done (running_terminal k)
  | S fuel =>
      r ← is_running next_terminal k;
      if r =? 1 then Done next_terminal
      else if i + 1 <? MAX_TERMINAL_NUM then next_from fuel (i + 1) k else Done next_terminal
  end.

Section scheduling.
Context (dir_addr table_addr vidmem_addr magics : Z) (stack_dentry : dentry_t).

(** What happens after the stack switch: a pending signal, then [sti].  [None]
    when the interrupt returns normally to the process now on the stack. *)
Definition deliver (pending : Z) (k : kernel) : out (option outcome * kernel) :=
  if pending =? 0x3F then Done (None, k)
  else send_signal dir_addr table_addr vidmem_addr magics stack_dentry pending k.

Definition pit_handler (k : kernel) : out (option outcome * kernel) :=
  let k := with_if false (with_pic_rtc (send_eoi PIT_IRQ (k_pic k)) (k_rtc k) k) in
  n1 ← cnt k 1; n2 ← cnt k 2;
  if negb (n1 =? 0) || negb (n2 =? 0) then
    next_terminal ← next_from 3 0 k;
    n ← cnt k next_terminal;
    q ← slot k next_terminal (u32 (n - 1));
    let next_process := u8 q in
    if 5 <? next_process then Done (None, with_if true k) else
    let k := with_page (map_program next_process (k_page k)) k in
    let old := get_curr_pcb k in
    let k := with_running next_terminal k in
    new_pcb ← pcb_at k (get_pcb_by_index next_process);
    let pending_interrupt := u8 (pending_signal new_pcb) in
    let k := with_tss (u32 (EIGHT_MB_SIZE - EIGHT_KB_SIZE * next_process - ESP_OFFSET)) k in
    let k := with_page (map_user_video_to_buffer vidmem_addr (current_terminal (k_con k)) next_terminal (k_page k)) k in
    old_pcb ← pcb_at k old;
    let k := set_pcb old (with_schedule (k_esp k) (k_ebp k) old_pcb) k in
    new_pcb ← pcb_at k (get_pcb_by_index next_process);
    let k := with_stack (schedule_esp new_pcb) (schedule_ebp new_pcb) k in
    '(o, k) ← deliver pending_interrupt k;
    Done (o, match o with Some _ => k | None => with_if true k end)
  else
    n0 ← cnt k 0;
    if n0 =? 0 then Done (None, with_if true k) else
    let a := get_curr_pcb k in
    p ← pcb_at k a;
    if pending_signal p =? 0x3F then Done (None, with_if true k) else
    '(o, k) ← send_signal dir_addr table_addr vidmem_addr magics stack_dentry (u8 (pending_signal p)) k;
    match o with
    | Some _ => Done (o, k)
    | None => p ← pcb_at k a; Done (None, with_if true (set_pcb a (with_pending 0x3F p) k))
    end.

(** * Switching terminals *)
Definition save_display (k : kernel) : out kernel :=
  '(_, c) ← save_terminal_info (current_terminal (k_con k)) (k_con k); Done (with_con c k).

(** [return] after an [execute]: the value when it returns to this call. *)
Definition switch_to_terminal (terminal_id : Z) (k : kernel) : out (outcome * kernel) :=
  let k := with_if false k in
  if MAX_TERMINAL_NUM <=? terminal_id then Done (Return (-1), k) else
  if terminal_id =? current_terminal (k_con k) then Done (Return 0, k) else
  r ← must (zget (terminal_running k) terminal_id);
  if r =? 0 then
    if get_pid k =? -1 then
      c ← printf (lview (lit "process number reaches maximum! Can't switch to new terminal!"
                         ++ 10 :: lit "391OS> " ++ [0])) [] (k_con k);
      Done (Return (-1), with_con c k)
    else
      l ← must (zset (terminal_running k) terminal_id 1);
      k ← save_display (with_terminal_running l k);
      let c := clear (with_current terminal_id (k_con k)) in
      '(_, c) ← restore_terminal_info terminal_id c;
      let k := with_con c k in
      let a := get_curr_pcb k in
      p ← pcb_at k a;
      let k := set_pcb a (with_schedule (k_esp k) (k_ebp k) p) k in
      let k := with_if true (with_running terminal_id k) in
      '(o, k) ← execute dir_addr table_addr vidmem_addr magics stack_dentry (lit0 "shell") k;
      Done (match o with Return _ => Return 0 | _ => o end, k)
  else
    k ← save_display k;
    let c := clear (with_current terminal_id (k_con k)) in
    '(_, c) ← restore_terminal_info terminal_id c;
    Done (Return 0, with_if true (with_con c k)).

(** The terminal structure of terminal [i] at start-up. *)
Definition init_info (i : Z) (t : terminal_t) : terminal_t :=
  Terminal (terminal_id t) 0 0 0 0 0 0 (<[O := 0]> (key_arr_old t))
    (if i =? 0 then TERMINAL_BUFFER_1 else if i =? 1 then TERMINAL_BUFFER_2 else TERMINAL_BUFFER_3).
Definition init_screen (c : out console) (i : Z) : out console :=
  c ← c;
  t ← must (zget (terminal_info c) i);
  l ← must (zset (terminal_info c) i (init_info i t));
  let c := clear (with_current i (with_terminals l c)) in
  Done (copy_from_screen_buffer (screen_buffer (init_info i t)) c).

Definition init_terminal (k : kernel) : out (outcome * kernel) :=
  let c := clear (k_con k) in
  let c := with_keys (for_range 0 ((KEY_ARR_SIZE + 1) * 3) (λ a i, <[Z.to_nat i := 0]> a) (key_arr c))
             (key_arr_ptr c) (key_arr_overflow c) c in
  let k := with_procs (Procs (process (k_procs k)) (replicate 3 (replicate 6 0)) (replicate 3 0)) k in
  let k := with_running 0 k in
  c ← for_range 0 MAX_TERMINAL_NUM init_screen (Done (with_current 0 c));
  let c := clear (with_current 0 c) in
  t ← must (zget (terminal_info c) 0);
  let c := copy_from_screen_buffer (screen_buffer t) c in
  l ← must (zset (terminal_running k) 0 1);
  execute dir_addr table_addr vidmem_addr magics stack_dentry (lit0 "shell")
    (with_terminal_running l (with_if true (with_con c k))).
End scheduling.

(** * Taking the terminals in turn *)

(** Round robin over the terminals that are alive. *)
Definition after (r i : Z) : Z := Z.rem (r + 1 + i) 3.
Definition rr_next (alive : Z → bool) (r : Z) : Z :=
  if alive (after r 0) then after r 0 else if alive (after r 1) then after r 1 else after r 2.
Fixpoint rr_iter (alive : Z → bool) (n : nat) (r : Z) : Z :=
  match n with O => r | S n => rr_iter alive n (rr_next alive r) end.

Lemma after_range r i : 0 <= r → 0 <= i → 0 <= after r i < 3.
Proof. intros. apply Z.rem_bound_pos; lia. Qed.

(** Every terminal that is alive gets its turn within three ticks. *)
Lemma rr_fair alive r t : 0 <= r < 3 → 0 <= t < 3 → alive t = true →
  ∃ j, (1 <= j <= 3)%nat ∧ rr_iter alive j r = t.
Proof.
  intros Hr Ht Ha.
  assert (E : ∀ a0 a1 a2 : bool, let al x := if x =? 0 then a0 else if x =? 1 then a1 else a2 in
    al t = true → existsb (λ j, rr_iter al j r =? t) [1%nat; 2%nat; 3%nat] = true).
  { assert (r = 0 ∨ r = 1 ∨ r = 2) as [-> | [-> | ->]] by lia;
      (assert (t = 0 ∨ t = 1 ∨ t = 2) as [-> | [-> | ->]] by lia); intros [] [] []; by vm_compute. }
  specialize (E (alive 0) (alive 1) (alive 2)). cbv zeta in E. set (al := λ x, _) in E.
  assert (Eal : ∀ x, 0 <= x < 3 → al x = alive x).
  { intros x Hx. assert (x = 0 ∨ x = 1 ∨ x = 2) as [-> | [-> | ->]] by lia; reflexivity. }
  assert (Enext : ∀ x, 0 <= x → rr_next al x = rr_next alive x).
  { intros x Hx. unfold rr_next. rewrite !Eal by (apply after_range; lia). done. }
  assert (Hnext : ∀ x, 0 <= x → 0 <= rr_next alive x).
  { intros x Hx. unfold rr_next. repeat case_match; apply after_range; lia. }
  assert (Eiter : ∀ j x, 0 <= x → rr_iter al j x = rr_iter alive j x).
  { induction j as [|j IH]; intros x Hx; [done|]. cbn. rewrite Enext by done. apply IH. by apply Hnext. }
  rewrite Eal in E by done. specialize (E Ha). apply existsb_exists in E as (j & Hj & Ej%Z.eqb_eq).
  exists j. split; [cbn in Hj; lia|]. rewrite <- Ej. symmetry. apply Eiter. lia.
Qed.

Definition alive (k : kernel) (t : Z) : bool := negb (bool_decide (stack_of (k_procs k) t = [])).
(** The process on top of a terminal's stack. *)
Definition top (k : kernel) (t : Z) : Z := default 0 (list.last (stack_of (k_procs k) t)).
Definition top_pcb (k : kernel) (t : Z) : option pcb_t := k_pcbs k !! get_pcb_by_index (top k t).

(** The stack and frame pointers with which a terminal goes on when it runs. *)
Definition context (k : kernel) (t : Z) : option (Z * Z) :=
  if t =? running_terminal k then Some (k_esp k, k_ebp k)
  else (λ p, (schedule_esp p, schedule_ebp p)) <$> top_pcb k t.

(** The text page a terminal writes to through its video window. *)
Definition window_of (k : kernel) (t : Z) : Z := if t =? current_terminal (k_con k) then 0xB8 else 0xB8 + t + 1.

Section rounds.
Context (dir_addr table_addr vidmem_addr magics : Z) (stack_dentry : dentry_t).
Context (Hlink : linked dir_addr table_addr vidmem_addr).

(** The tables are well formed, the running terminal's top process is on its
    stack, the waiting ones have saved theirs, and no signal is pending. *)
Record quiet (k : kernel) : Prop := Quiet {
  sc_procs : procs_ok (k_procs k);
  sc_pcbs : pcbs_ok k;
  sc_running : 0 <= running_terminal k < 3 ∧ alive k (running_terminal k) = true;
  sc_flags : ∀ t, 0 <= t < 3 → ∃ r, zget (terminal_running k) t = Some r ∧ (r = 1 ↔ alive k t = true);
  sc_display : 0 <= current_terminal (k_con k) < 3;
  sc_curr : get_curr_pcb k = get_pcb_by_index (top k (running_terminal k));
  sc_saved : ∀ t p, 0 <= t < 3 → t ≠ running_terminal k → alive k t = true → top_pcb k t = Some p →
    Z.land (schedule_esp p) PCB_MASK = get_pcb_by_index (top k t);
  sc_pending : ∀ t p, 0 <= t < 3 → alive k t = true → top_pcb k t = Some p → pending_signal p = 0x3F;
  sc_page : ∃ st, rep dir_addr table_addr vidmem_addr (k_page k) st ∧ st_ok st }.
(** More than one terminal is in use: the scheduler switches. *)
Record sched_ok (k : kernel) : Prop := SchedOk {
  sc_quiet :> quiet k;
  sc_multi : alive k 1 = true ∨ alive k 2 = true }.

Section tick.
Context (k : kernel) (Hk : quiet k).

Lemma is_running_spec t : 0 <= t < 3 → is_running t k = Done (if alive k t then 1 else 0).
Proof.
  intros Ht. unfold is_running, MAX_TERMINAL_NUM. destruct (Z.ltb_spec 3 t); [lia|].
  destruct (sc_flags _ Hk t Ht) as (r & -> & Hr). cbn [must mbind out_bind].
  destruct (Z.eqb_spec r 1) as [->|Hne]; [by rewrite (proj1 Hr eq_refl)|].
  destruct (alive k t); [|done]. destruct Hne. by apply Hr.
Qed.

Lemma next_from_spec : next_from 3 0 k = Done (rr_next (alive k) (running_terminal k)).
Proof.
  destruct (sc_running _ Hk) as [Hr _]. unfold rr_next, next_from, MAX_TERMINAL_NUM.
  fold (after (running_terminal k) 0) (after (running_terminal k) (0 + 1)) (after (running_terminal k) (0 + 1 + 1)).
  rewrite !is_running_spec by (apply after_range; lia).
  change (0 + 1 <? 3) with true. change (0 + 1 + 1 <? 3) with true. change (0 + 1 + 1 + 1 <? 3) with false.
  change (0 + 1 + 1) with 2. change (0 + 1) with 1. cbv iota zeta.
  repeat match goal with |- context [alive k ?x] => destruct (alive k x) end; reflexivity.
Qed.

Let t' := rr_next (alive k) (running_terminal k).
Let q := top k t'.

Lemma next_alive : 0 <= t' < 3 ∧ alive k t' = true.
Proof.
  destruct (sc_running _ Hk) as [Hr Ha]. unfold t', rr_next.
  split; [repeat case_match; apply after_range; lia|].
  destruct (alive k (after _ 0)) eqn:E0; [done|]. destruct (alive k (after _ 1)) eqn:E1; [done|].
  assert (E : after (running_terminal k) 2 = running_terminal k); [|by rewrite E].
  assert (running_terminal k = 0 ∨ running_terminal k = 1 ∨ running_terminal k = 2) as [-> | [-> | ->]] by lia; reflexivity.
Qed.

Lemma alive_top t : 0 <= t < 3 → alive k t = true → ∃ l p,
  stack_of (k_procs k) t = l ++ [top k t] ∧ 0 <= top k t < 6 ∧ top_pcb k t = Some p ∧ length (files p) = 8%nat ∧ pid p = top k t.
Proof.
  intros Ht Ha. unfold alive in Ha. apply negb_true_iff, bool_decide_eq_false in Ha.
  destruct (exists_last Ha) as (l & x & El). exists l.
  assert (Etop : top k t = x) by (unfold top; by rewrite El, last_snoc).
  rewrite Etop. assert (Hin : x ∈ all_pids (k_procs k)).
  { rewrite (all_pids_split _ t Ht), El. set_solver. }
  pose proof (pid_range _ (sc_procs _ Hk) x Hin) as Hx.
  destruct (sc_pcbs _ Hk x Hx) as (p & Hp & Hl & Hid). exists p. split_and!; try done; try lia; [|by apply Hid].
  unfold top_pcb. by rewrite Etop.
Qed.

Lemma stacks_disjoint t1 t2 x : 0 <= t1 < 3 → 0 <= t2 < 3 → t1 ≠ t2 →
  x ∈ stack_of (k_procs k) t1 → x ∈ stack_of (k_procs k) t2 → False.
Proof.
  intros H1 H2 Hne Hx1 Hx2. pose proof (po_nodup _ (sc_procs _ Hk)) as Hnd. unfold all_pids in Hnd.
  apply list.NoDup_app in Hnd as (_ & Hd0 & Hnd). apply list.NoDup_app in Hnd as (_ & Hd1 & _).
  assert (t1 = 0 ∨ t1 = 1 ∨ t1 = 2) as [-> | [-> | ->]] by lia;
    (assert (t2 = 0 ∨ t2 = 1 ∨ t2 = 2) as [-> | [-> | ->]] by lia); try lia; set_solver.
Qed.
Lemma top_inj t1 t2 : 0 <= t1 < 3 → 0 <= t2 < 3 → alive k t1 = true → alive k t2 = true →
  get_pcb_by_index (top k t1) = get_pcb_by_index (top k t2) → t1 = t2.
Proof.
  intros H1 H2 A1 A2 E. destruct (alive_top t1 H1 A1) as (l1 & _ & E1 & R1 & _).
  destruct (alive_top t2 H2 A2) as (l2 & _ & E2 & R2 & _). apply get_pcb_inj in E; [|done|done].
  destruct (decide (t1 = t2)); [done|]. exfalso. apply (stacks_disjoint t1 t2 (top k t1)); [done|done|done|rewrite E1; set_solver|].
  rewrite E, E2. set_solver.
Qed.

Lemma cnt_spec t : 0 <= t < 3 → cnt k t = Done (Z.of_nat (length (stack_of (k_procs k) t))).
Proof.
  intros Ht. destruct (table_lookup _ (sc_procs _ Hk) t Ht) as (row & n & _ & Hn & Hl & Hr & Est).
  unfold cnt. rewrite Hn, Est, length_take, Hl. cbn [must]. f_equal. lia.
Qed.
Lemma slot_top t : 0 <= t < 3 → alive k t = true →
  slot k t (u32 (Z.of_nat (length (stack_of (k_procs k) t)) - 1)) = Done (top k t).
Proof.
  intros Ht Ha. destruct (alive_top t Ht Ha) as (l & _ & El & _).
  destruct (table_lookup _ (sc_procs _ Hk) t Ht) as (row & n & Hrow & _ & Hl & Hr & Est).
  unfold slot. rewrite Hrow. cbn [must mbind out_bind]. rewrite Est in El |- *.
  assert (Hln : length l = pred (Z.to_nat n) ∧ 0 < n).
  { pose proof (f_equal length El) as E. rewrite length_take, length_app in E. cbn in E. lia. }
  rewrite El, length_app, u32_id by (cbn; split; lia).
  replace (Z.of_nat (length l + length [top k t]) - 1) with (Z.of_nat (length l)) by (cbn; lia).
  unfold zget. destruct (Z.ltb_spec (Z.of_nat (length l)) 0); [lia|]. rewrite Nat2Z.id.
  rewrite <- (lookup_take_lt row (Z.to_nat n)) by lia. rewrite El, lookup_app_r by lia. by rewrite Nat.sub_diag.
Qed.

Lemma running_top : ∃ p, top_pcb k (running_terminal k) = Some p.
Proof.
  destruct (sc_running _ Hk) as [Hr Ha]. destruct (alive_top _ Hr Ha) as (_ & p & _ & _ & Hp & _). by exists p.
Qed.

(** The control blocks after the old context is saved. *)
Definition saved_pcbs (old : pcb_t) : gmap Z pcb_t :=
  <[get_pcb_by_index (top k (running_terminal k)) := with_schedule (k_esp k) (k_ebp k) old]> (k_pcbs k).
Lemma saved_lookup old t : 0 <= t < 3 → alive k t = true →
  saved_pcbs old !! get_pcb_by_index (top k t) =
  if t =? running_terminal k then Some (with_schedule (k_esp k) (k_ebp k) old) else top_pcb k t.
Proof.
  intros Ht Ha. destruct (sc_running _ Hk) as [Hr Har]. unfold saved_pcbs.
  destruct (Z.eqb_spec t (running_terminal k)) as [->|Hne]; [by rewrite lookup_insert_eq|].
  rewrite lookup_insert_ne; [done|]. intros E. apply Hne. by apply top_inj.
Qed.

(** The kernel after the switch to terminal [t']. *)
Definition switched (old new : pcb_t) : kernel :=
  Kernel (k_con k) (k_fs k)
    (map_user_video_to_buffer vidmem_addr (current_terminal (k_con k)) t' (map_program q (k_page k)))
    (send_eoi PIT_IRQ (k_pic k)) (k_rtc k) (k_procs k) (saved_pcbs old) t' (terminal_running k) (enter_state k)
    (schedule_esp new) (schedule_ebp new) (stack_top q) (retval k) true.

Context (Hmulti : alive k 1 = true ∨ alive k 2 = true).

Lemma pit_switches old : top_pcb k (running_terminal k) = Some old → ∃ new,
  saved_pcbs old !! get_pcb_by_index q = Some new ∧
  pit_handler dir_addr table_addr vidmem_addr magics stack_dentry k = Done (None, switched old new).
Proof.
  intros Hold. destruct (sc_running _ Hk) as [Hr Ha]. destruct next_alive as [Ht' Ha'].
  destruct (alive_top t' Ht' Ha') as (l & p & _ & Hq & Hp & _).
  assert (Hnew : ∃ new, saved_pcbs old !! get_pcb_by_index q = Some new ∧ pending_signal p = 0x3F).
  { unfold q. rewrite saved_lookup by done. pose proof (sc_pending _ Hk t' p Ht' Ha' Hp).
    destruct (_ =? _); eexists; by split. }
  destruct Hnew as (new & Hnew & Hpend). exists new. split; [exact Hnew|].
  unfold pit_handler. cbv zeta. set (k0 := with_if false _).
  change (cnt k0 1) with (cnt k 1). change (cnt k0 2) with (cnt k 2). rewrite !cnt_spec by lia. rewrite !bind_Done.
  assert (Emulti : negb (Z.of_nat (length (stack_of (k_procs k) 1)) =? 0) ||
    negb (Z.of_nat (length (stack_of (k_procs k) 2)) =? 0) = true).
  { apply orb_true_iff. destruct Hmulti as [A|A]; [left|right]; apply negb_true_iff, Z.eqb_neq;
      (apply alive_top in A as (l' & _ & E & _); [|lia]); rewrite E, length_app; cbn; lia. }
  rewrite Emulti. cbv iota. change (next_from 3 0 k0) with (next_from 3 0 k). rewrite next_from_spec, bind_Done.
  fold t'. change (cnt k0 t') with (cnt k t'). rewrite cnt_spec, bind_Done by done.
  change (slot k0 t') with (slot k t'). rewrite slot_top, bind_Done by done. fold q. fold q in Hq.
  rewrite (u8_id q) by (split; lia). destruct (Z.ltb_spec 5 q); [lia|].
  unfold pcb_at. cbn [k_pcbs with_running with_page]. change (k_pcbs k0) with (k_pcbs k).
  unfold top_pcb in Hp. fold q in Hp. rewrite Hp. cbn [must]. rewrite bind_Done, Hpend.
  change (get_curr_pcb (with_page _ k0)) with (get_curr_pcb k). rewrite (sc_curr _ Hk).
  cbn [k_pcbs with_running with_page with_tss]. change (k_pcbs k0) with (k_pcbs k).
  unfold top_pcb in Hold. rewrite Hold. cbn [must]. rewrite bind_Done.
  change (k_pcbs (set_pcb _ _ _)) with (saved_pcbs old). rewrite Hnew. cbn [must]. rewrite bind_Done.
  change (deliver _ _ _ _ _ (u8 0x3F) ?x) with (Done (@None outcome, x)). rewrite bind_Done.
  assert (Etss : u32 (EIGHT_MB_SIZE - EIGHT_KB_SIZE * q - ESP_OFFSET) = stack_top q).
  { unfold stack_top, EIGHT_MB_SIZE, EIGHT_KB_SIZE, ESP_OFFSET. rewrite (Z.mul_comm 8192). apply u32_id. split; lia. }
  rewrite Etss. reflexivity.
Qed.

(** The pages and the invariant after the switch. *)
Lemma switched_page : ∃ w, w = window_of k t' ∧
  rep dir_addr table_addr vidmem_addr
    (map_user_video_to_buffer vidmem_addr (current_terminal (k_con k)) t' (map_program q (k_page k))) (Some q, Some w) ∧
  st_ok (Some q, Some w).
Proof.
  destruct next_alive as [Ht' Ha']. destruct (alive_top t' Ht' Ha') as (_ & _ & _ & Hq & _). fold q in Hq.
  destruct (sc_page _ Hk) as (st & Hrep & Hst). exists (window_of k t'). split; [done|].
  pose proof (run_op_rep _ _ _ Hlink _ st (MapProgram q) Hrep Hst Hq) as H1.
  pose proof (map_op_ok st (MapProgram q) Hq Hst) as S1.
  pose proof (run_op_rep _ _ _ Hlink _ _ (MapUserVideoToBuffer (current_terminal (k_con k)) t') H1 S1 (conj (sc_display _ Hk) Ht')) as H2.
  pose proof (map_op_ok _ (MapUserVideoToBuffer (current_terminal (k_con k)) t') (conj (sc_display _ Hk) Ht') S1) as S2.
  cbn in H2, S2. unfold window_of. by destruct (t' =? _).
Qed.

Section after_switch.
Context (old new : pcb_t) (Hold : top_pcb k (running_terminal k) = Some old)
  (Hnew : saved_pcbs old !! get_pcb_by_index q = Some new).

Lemma switched_top_pcb t : 0 <= t < 3 → alive k t = true → top_pcb (switched old new) t =
  if t =? running_terminal k then Some (with_schedule (k_esp k) (k_ebp k) old) else top_pcb k t.
Proof. apply saved_lookup. Qed.

Lemma switched_context t : 0 <= t < 3 → alive k t = true → context (switched old new) t = context k t.
Proof.
  intros Ht Ha. destruct next_alive as [Ht' Ha']. pose proof (saved_lookup old t' Ht' Ha') as E'. fold q in E'.
  rewrite Hnew in E'. unfold context. change (running_terminal (switched old new)) with t'.
  destruct (Z.eqb_spec t t') as [->|Hne].
  - cbn [k_esp k_ebp switched]. destruct (Z.eqb_spec t' (running_terminal k)).
    + injection E' as ->. done.
    + by rewrite <- E'.
  - rewrite switched_top_pcb by done. destruct (Z.eqb_spec t (running_terminal k)); done.
Qed.

Lemma switched_ok : sched_ok (switched old new).
Proof.
  destruct next_alive as [Ht' Ha']. pose proof (saved_lookup old t' Ht' Ha') as E'. fold q in E'. rewrite Hnew in E'.
  destruct (sc_running _ Hk) as [Hr Hra].
  split; [|exact Hmulti]. split; [apply (sc_procs _ Hk)| |by split|apply (sc_flags _ Hk)|apply (sc_display _ Hk)| | | |].
  - intros x Hx. destruct (sc_pcbs _ Hk x Hx) as (p & Hp & Hl & Hid).
    change (k_pcbs (switched old new)) with (saved_pcbs old). unfold saved_pcbs.
    destruct (decide (get_pcb_by_index (top k (running_terminal k)) = get_pcb_by_index x)) as [E|E].
    + rewrite E, lookup_insert_eq. exists (with_schedule (k_esp k) (k_ebp k) old).
      unfold top_pcb in Hold. rewrite E in Hold. rewrite Hold in Hp. injection Hp as <-. done.
    + rewrite lookup_insert_ne by done. by exists p.
  - unfold get_curr_pcb. cbn [k_esp switched]. change (top (switched old new)) with (top k). change (running_terminal (switched old new)) with t'.
    destruct (Z.eqb_spec t' (running_terminal k)) as [E|].
    + injection E' as ->. cbn [schedule_esp with_schedule]. rewrite E. apply (sc_curr _ Hk).
    + by apply (sc_saved _ Hk).
  - intros t p Ht Hne Ha Hp. change (alive (switched old new) t) with (alive k t) in Ha.
    rewrite switched_top_pcb in Hp by done. change (top (switched old new)) with (top k).
    destruct (Z.eqb_spec t (running_terminal k)) as [->|].
    + injection Hp as <-. apply (sc_curr _ Hk).
    + by apply (sc_saved _ Hk).
  - intros t p Ht Ha Hp. change (alive (switched old new) t) with (alive k t) in Ha.
    rewrite switched_top_pcb in Hp by done. destruct (Z.eqb_spec t (running_terminal k)) as [->|].
    + injection Hp as <-. cbn. by apply (sc_pending _ Hk _ old Ht Ha).
    + by apply (sc_pending _ Hk t).
  - destruct switched_page as (w & _ & Hrep & Hst). by exists (Some q, Some w).
Qed.
End after_switch.

(** One tick, as the theorems use it. *)
Lemma tick_spec : ∃ k', pit_handler dir_addr table_addr vidmem_addr magics stack_dentry k = Done (None, k') ∧
  sched_ok k' ∧ running_terminal k' = t' ∧ k_procs k' = k_procs k ∧ k_con k' = k_con k ∧ tss_esp0 k' = stack_top q ∧
  rep dir_addr table_addr vidmem_addr (k_page k') (Some q, Some (window_of k t')) ∧ st_ok (Some q, Some (window_of k t')) ∧
  ∀ t, 0 <= t < 3 → alive k t = true → context k' t = context k t.
Proof.
  destruct running_top as (old & Hold). destruct (pit_switches old Hold) as (new & Hnew & E).
  destruct switched_page as (w & -> & Hrep & Hst). exists (switched old new).
  split; [exact E|]. split; [by apply switched_ok|]. split_and!; [done|done|done|done|done|done|].
  intros t Ht Ha. by apply switched_context.
Qed.
End tick.

(** [n] timer interrupts, each returning normally. *)
Fixpoint ticks (n : nat) (k : kernel) : out kernel :=
  match n with
  | O => Done k
  | S n =>
      '(o, k) ← pit_handler dir_addr table_addr vidmem_addr magics stack_dentry k;
      match o with None => ticks n k | Some _ => Undef end
  end.

Lemma ticks_spec n : ∀ k, sched_ok k → ∃ k', ticks n k = Done k' ∧ sched_ok k' ∧
  running_terminal k' = rr_iter (alive k) n (running_terminal k) ∧ k_procs k' = k_procs k ∧ k_con k' = k_con k ∧
  ∀ t, 0 <= t < 3 → alive k t = true → context k' t = context k t.
Proof.
  induction n as [|n IH]; intros k Hk; [by exists k|]. cbn [ticks].
  destruct (tick_spec k Hk (sc_multi _ Hk)) as (k1 & E1 & Hk1 & Hr1 & Hp1 & Hc1 & _ & _ & _ & Hx1). rewrite E1, bind_Done.
  destruct (IH k1 Hk1) as (k2 & E2 & Hk2 & Hr2 & Hp2 & Hc2 & Hx2). exists k2.
  assert (Ea : alive k1 = alive k) by (unfold alive; by rewrite Hp1).
  split_and!; [exact E2|exact Hk2|by rewrite Hr2, Ea, Hr1|congruence|congruence|].
  intros t Ht Ha. rewrite Hx2 by (done || by rewrite Ea). by apply Hx1.
Qed.
End rounds.

(** * Theorems *)

(** C23. A context switch.  With more than one terminal in use and no signal
    pending, a timer interrupt always returns, on the stack of the next
    terminal in use: that terminal's top process now has its page at the
    program address, its kernel stack in the task segment, its video window
    on the visible text page if it is displayed and on its own buffer
    otherwise; and every process, the one interrupted, the one resumed and the
    ones waiting, keeps the stack and frame pointers it will go on with. *)
Theorem context_switch (dir_addr table_addr vidmem_addr magics : Z) (stack_dentry : dentry_t)
    (Hlink : linked dir_addr table_addr vidmem_addr) (k : kernel) (Hk : sched_ok dir_addr table_addr vidmem_addr k) :
  let t' := rr_next (alive k) (running_terminal k) in
  ∃ k', pit_handler dir_addr table_addr vidmem_addr magics stack_dentry k = Done (None, k') ∧
    sched_ok dir_addr table_addr vidmem_addr k' ∧ running_terminal k' = t' ∧
    get_curr_pcb k' = get_pcb_by_index (top k t') ∧ tss_esp0 k' = stack_top (top k t') ∧ k_procs k' = k_procs k ∧
    (∀ a, _128_MB_SIZE <= a < _128_MB_SIZE + FOUR_MB_SIZE →
      translation dir_addr table_addr vidmem_addr k' a = Some (Xlat (user_phys (top k t') a) true true)) ∧
    (∀ o, 0 <= o < 4096 →
      translation dir_addr table_addr vidmem_addr k' (USER_VIDEO + o) = Some (Xlat (window_of k t' * 4096 + o) true true)) ∧
    ∀ t, 0 <= t < 3 → alive k t = true → context k' t = context k t.
Proof.
  cbv zeta. destruct (tick_spec dir_addr table_addr vidmem_addr magics stack_dentry Hlink k Hk (sc_multi _ _ _ _ Hk))
    as (k' & E & Hk' & Hr & Hp & _ & Ht & Hrep & Hst & Hx). exists k'. split; [exact E|].
  split_and!; [exact Hk'|exact Hr| |exact Ht|exact Hp| | |exact Hx].
  - rewrite (sc_curr _ _ _ _ Hk'), Hr. unfold top. by rewrite Hp.
  - intros a Ha. by apply (page_translation _ _ _ Hlink _ _ _ _ Hrep Hst).
  - intros o Ho. unfold translation. assert (Hu : USER_VIDEO = 0xD000000) by done. rewrite Hu.
    rewrite (translate_is_map _ _ _ Hlink _ _ _ Hrep Hst) by lia. cbn [fst snd]. unfold address_map.
    unfold FOUR_MB, EIGHT_MB, FOUR_KB. rewrite !(proj2 (Z.ltb_ge _ _)) by lia.
    assert (E1 : (0xD000000 + o) / 0x400000 = 52) by (symmetry; apply Z.div_unique with (r := o); lia).
    assert (E2 : (0xD000000 + o) / 4096 = 53248) by (symmetry; apply Z.div_unique with (r := o); lia).
    rewrite E1, E2, Hu. change (52 =? 32) with false. change (53248 =? 0xD000000 / 4096) with true. cbv iota.
    cbn [mbind option_bind]. do 2 f_equal. f_equal. symmetry. apply Z.mod_unique_pos with (q := 53248); lia.
Qed.

(** Round robin.  With more than one terminal in use and no signal
    pending, any number of timer interrupts all return normally; every
    terminal in use, whatever its number, runs within every three ticks; and
    after all of them every process still has the context it had before. *)
Theorem round_robin (dir_addr table_addr vidmem_addr magics : Z) (stack_dentry : dentry_t)
    (Hlink : linked dir_addr table_addr vidmem_addr) (k : kernel) (Hk : sched_ok dir_addr table_addr vidmem_addr k) (n : nat) :
  ∃ k1, ticks dir_addr table_addr vidmem_addr magics stack_dentry n k = Done k1 ∧
    sched_ok dir_addr table_addr vidmem_addr k1 ∧ k_procs k1 = k_procs k ∧
    (∀ t, 0 <= t < 3 → alive k t = true → context k1 t = context k t) ∧
    ∀ t, 0 <= t < 3 → alive k t = true → ∃ j k2, (1 <= j <= 3)%nat ∧
      ticks dir_addr table_addr vidmem_addr magics stack_dentry j k1 = Done k2 ∧ running_terminal k2 = t ∧
      Some (k_esp k2, k_ebp k2) = context k t.
Proof.
  destruct (ticks_spec dir_addr table_addr vidmem_addr magics stack_dentry Hlink n k Hk) as (k1 & E1 & Hk1 & _ & Hp1 & _ & Hx1).
  assert (Ea : alive k1 = alive k) by (unfold alive; by rewrite Hp1).
  exists k1. split_and!; [exact E1|exact Hk1|exact Hp1|exact Hx1|]. intros t Ht Ha.
  destruct (rr_fair (alive k1) (running_terminal k1) t) as (j & Hj & Er);
    [apply (sc_running _ _ _ _ Hk1)|done|by rewrite Ea|].
  destruct (ticks_spec dir_addr table_addr vidmem_addr magics stack_dentry Hlink j k1 Hk1) as (k2 & E2 & _ & Hr2 & _ & _ & Hx2).
  exists j, k2. rewrite Er in Hr2. split_and!; [lia|lia|exact E2|exact Hr2|].
  rewrite <- Hx1, <- Hx2 by (done || by rewrite Ea). unfold context. by rewrite Hr2, Z.eqb_refl.
Qed.

(** * Switching terminals *)
Lemma bar_row_only t attr lo hi m : 0 <= lo → hi <= 25 * 80 →
  only_in VIDEO (VIDEO + 4000) m (for_range lo hi (λ m i,
    store8 (store8 m (VIDEO + Z.shiftl i 1) (t i)) (VIDEO + Z.shiftl i 1 + 1) (attr i)) m).
Proof.
  intros Hlo Hhi. destruct (decide (lo <= hi)); [|rewrite for_range_nil by lia; apply only_in_refl].
  apply (for_range_ind (λ _ m', only_in VIDEO (VIDEO + 4000) m m')); [done|apply only_in_refl|].
  intros i m' Hi H. rewrite Z.shiftl_mul_pow2 by lia.
  eapply only_in_trans; [exact H|]. eapply only_in_trans; apply only_in_upd; lia.
Qed.

Lemma clear_only c : 0 <= current_terminal c < 3 → only_in VIDEO (VIDEO + 4000) (c_mem c) (c_mem (clear c)).
Proof.
  intros Ht. unfold clear. cbn [with_mem c_mem]. unfold NUM_ROWS, NUM_COLS, BARTEXLEN.
  assert (Hh : 0 <= high (current_terminal c) <= 57).
  { assert (current_terminal c = 0 ∨ current_terminal c = 1 ∨ current_terminal c = 2) as [-> | [-> | ->]] by lia; by vm_compute. }
  eapply only_in_trans; [|apply (bar_row_only _ (λ _, ATTRIB_HIG)); lia].
  eapply only_in_trans; [|apply (bar_row_only _ (λ _, ATTRIB_BAR)); lia].
  apply (bar_row_only (λ _, 32) (λ _, attrib (current_terminal c))); lia.
Qed.

Lemma bar_row_ok t attr lo hi m : mem_ok m → mem_ok (for_range lo hi (λ m i,
  store8 (store8 m (VIDEO + Z.shiftl i 1) (t i)) (VIDEO + Z.shiftl i 1 + 1) (attr i)) m).
Proof.
  intros Hm. destruct (decide (lo <= hi)); [|by rewrite for_range_nil by lia].
  apply (for_range_ind (λ _ m', mem_ok m')); [done|done|]. intros i m' _ H. by do 2 apply store8_ok.
Qed.
Lemma clear_ok c : mem_ok (c_mem c) → mem_ok (c_mem (clear c)).
Proof.
  intros H. unfold clear. cbn [with_mem c_mem]. apply (bar_row_ok _ (λ _, ATTRIB_HIG)), (bar_row_ok _ (λ _, ATTRIB_BAR)).
  by apply (bar_row_ok (λ _, 32) (λ _, attrib (current_terminal c))).
Qed.

(** The records of the terminals: each has its buffer, a full line buffer and
    a cursor on the screen. *)
Definition infos_ok (c : console) : Prop := ∀ t, 0 <= t < 3 → ∃ i, zget (terminal_info c) t = Some i ∧
  screen_buffer i = saved_screen t ∧ length (key_arr_old i) = 129%nat ∧ 0 <= screen_pos_y i < NUM_ROWS.

(** A console whose screen and line buffer, and the saved ones of every
    terminal, are well formed. *)
Record con_ok (c : console) : Prop := ConOk {
  co_infos : infos_ok c;
  co_saved : ∀ t i, 0 <= t < 3 → zget (terminal_info c) t = Some i → ts_ok (abs_term t i (c_mem c)) ∧
    0 <= key_arr_ptr_old i <= KEY_ARR_SIZE - 1 ∧ 0 <= key_arr_overflow_old i < 256 ∧
    (0 < key_arr_overflow_old i → key_arr_ptr_old i = KEY_ARR_SIZE - 1);
  co_text : ts_ok (abs_video c);
  co_keys : keys_ok c }.

Lemma clear_shape c : 0 <= current_terminal c < 3 → ∃ cc, clear c = cc ∧ terminal_info cc = terminal_info c ∧
  current_terminal cc = current_terminal c ∧ only_in VIDEO (VIDEO + 4000) (c_mem c) (c_mem cc) ∧
  (mem_ok (c_mem c) → mem_ok (c_mem cc)).
Proof.
  intros Ht. eexists. split; [reflexivity|]. split; [done|]. split; [done|]. split; [by apply clear_only|apply clear_ok].
Qed.

Lemma save_shape id c t : 0 <= id < MAX_TERMINAL_NUM → zget (terminal_info c) id = Some t →
  screen_buffer t = saved_screen id → keys_ok c → length (key_arr_old t) = 129%nat →
  ∃ c1 keys, save_terminal_info id c = Done (0, c1) ∧
    terminal_info c1 = <[Z.to_nat id := save_fields keys c t]> (terminal_info c) ∧
    (∀ a, c_mem c1 a = copied (c_mem c) (saved_screen id) VIDEO SCREEN_BYTES a) ∧
    Z.of_nat (length keys) = 128 ∧ key_arr c1 = key_arr c.
Proof.
  intros Hid Ht Hb Hk Hl. destruct (save_spec id c t Hid Ht Hb Hk Hl) as (keys & Hlk & E & _).
  eexists _, keys. split; [exact E|]. split; [done|]. split; [|done]. intros a. etrans; [by apply copy_out_spec|done].
Qed.

(** What saving writes, and what restoring brings back, is well formed. *)
Lemma save_fields_ok t keys c i : con_ok c → Z.of_nat (length keys) = 128 → length (key_arr_old i) = 129%nat →
  screen_buffer i = saved_screen t → let i' := save_fields keys c i in
  screen_buffer i' = saved_screen t ∧ length (key_arr_old i') = 129%nat ∧ (∀ m, ts_ok (abs_term t i' m)) ∧
  0 <= key_arr_ptr_old i' <= KEY_ARR_SIZE - 1 ∧ 0 <= key_arr_overflow_old i' < 256 ∧
  (0 < key_arr_overflow_old i' → key_arr_ptr_old i' = KEY_ARR_SIZE - 1).
Proof.
  intros [_ _ (Hx & Hy & Hr) (Hp & Ho & Hpo & _)] Hl Hlo Hb. cbn in Hx, Hy, Hr. unfold KEY_ARR_SIZE, NUM_COLS, NUM_ROWS in *.
  cbv zeta. split; [done|]. split; [cbn; rewrite length_app, length_drop; lia|]. unfold ts_ok. cbn.
  unfold NUM_COLS, NUM_ROWS. u8_simpl. split; [intros _; lia|]. lia.
Qed.
Lemma copy_in_fields b c : let c' := copy_to_screen_buffer b c in
  screen_x c' = screen_x c ∧ screen_y c' = screen_y c ∧ row_stack c' = row_stack c ∧
  key_arr c' = key_arr c ∧ key_arr_ptr c' = key_arr_ptr c ∧ key_arr_overflow c' = key_arr_overflow c.
Proof. done. Qed.
Lemma restored_ok id c t keys c' : restore_terminal_info id c = Done (0, c') → 0 <= id < 3 →
  zget (terminal_info c) id = Some t → strncpy (lview (key_arr_old t)) KEY_ARR_SIZE_OLD = Done keys →
  Z.of_nat (length keys) = 128 → KEY_ARR_SIZE < Z.of_nat (length (key_arr c)) → ts_ok (abs_term id t (c_mem c)) →
  0 <= key_arr_ptr_old t <= KEY_ARR_SIZE - 1 → 0 <= key_arr_overflow_old t < 256 →
  (0 < key_arr_overflow_old t → key_arr_ptr_old t = KEY_ARR_SIZE - 1) → ts_ok (abs_video c') ∧ keys_ok c'.
Proof.
  intros E Hid Ht Ek Hlk Hla (Hx & Hy & Hr) Hp Ho Hpo. rewrite (restore_eq id c t keys Hid Ht Ek) in E. injection E as <-.
  cbn in Hx, Hy, Hr. destruct (restored_fields t keys c Hy) as (_ & Ex & Ey & Er).
  assert (Ek' : key_arr (restored t keys c) = keys ++ drop 128 (key_arr c)) by done.
  assert (Ep : key_arr_ptr (restored t keys c) = key_arr_ptr_old t ∧ key_arr_overflow (restored t keys c) = key_arr_overflow_old t) by done.
  revert Ex Ey Er Ek' Ep. generalize (restored t keys c). intros c1 Ex Ey Er Ek' [Ep Eo].
  destruct (copy_in_fields (screen_buffer t) c1) as (F1 & F2 & F3 & F4 & F5 & F6). split.
  - unfold ts_ok, abs_video, view_at. cbn [tx ty trow]. by rewrite F1, F2, F3, Ex, Ey, Er.
  - unfold keys_ok. rewrite F4, F5, F6, Ek', Ep, Eo, length_app, length_drop. unfold KEY_ARR_SIZE in *.
    split_and!; [lia|lia|lia|lia|done|lia].
Qed.

Section switch.
Context (c : console) (id : Z) (cur := current_terminal c).
Context (Hid : 0 <= id < 3) (Hcur : 0 <= cur < 3) (Hne : id ≠ cur).
Context (Hinfo : infos_ok c) (Hok : ts_ok (abs_video c)) (Hkeys : keys_ok c).

Lemma saved_at t : 0 <= t < 3 → saved_screen t = VIDEO + (t + 1) * 4096.
Proof. apply saved_screen_at. Qed.

Lemma switched_con c1 c2 keys ti tc : con_ok c → terminal_info c1 = <[Z.to_nat cur := save_fields keys c tc]> (terminal_info c) →
  key_arr c1 = key_arr c → Z.of_nat (length keys) = 128 → zget (terminal_info c) cur = Some tc → zget (terminal_info c) id = Some ti →
  restore_terminal_info id (clear (with_current id c1)) = Done (0, c2) → terminal_info c2 = terminal_info c1 → con_ok c2.
Proof.
  intros Hc Hi Hk Hl Htc Hti E Hi2. destruct (co_infos _ Hc cur Hcur) as (tc' & Htc' & Hb & Hlo & _).
  rewrite Htc in Htc'. injection Htc' as <-. destruct (save_fields_ok cur keys c tc Hc Hl Hlo Hb) as (F1 & F2 & F3 & F4).
  assert (Hlen : cur < Z.of_nat (length (terminal_info c))) by (apply zget_Some in Htc as [_ Htc%lookup_lt_Some]; lia).
  destruct (co_infos _ Hc id Hid) as (ti' & Hti' & _ & Hlo' & _). rewrite Hti in Hti'. injection Hti' as <-.
  destruct (strncpy_prefix (lview (key_arr_old ti)) KEY_ARR_SIZE_OLD) as (keys' & Ek & Elk & _); [done| |].
  { intros j Hj. destruct (zget_is_Some (key_arr_old ti) j) as [x Hx]; [unfold KEY_ARR_SIZE_OLD in Hj; lia|by exists x]. }
  destruct (co_saved _ Hc id ti Hid Hti) as (Hts & Hp & Ho & Hpo). destruct (co_keys _ Hc) as (_ & _ & _ & Hla).
  destruct (restored_ok id _ ti keys' c2 E Hid) as [R1 R2]; try done.
  { change (terminal_info (clear _)) with (terminal_info c1). by rewrite Hi, zget_insert_ne by (lia || done). }
  { change (key_arr (clear _)) with (key_arr c1). by rewrite Hk. }
  split; [| |exact R1|exact R2].
  - intros t Ht. rewrite Hi2, Hi. destruct (decide (cur = t)) as [<-|Hne'].
    + rewrite zget_insert_eq by lia. eexists. split; [done|]. split; [done|]. split; [done|]. apply (F3 (c_mem c)).
    + rewrite zget_insert_ne by lia. by apply (co_infos _ Hc).
  - intros t i Ht. rewrite Hi2, Hi. destruct (decide (cur = t)) as [<-|Hne'].
    + rewrite zget_insert_eq by lia. intros [= <-]. split; [apply F3|exact F4].
    + rewrite zget_insert_ne by lia. intros Hti2. apply (co_saved _ Hc t i Ht Hti2).
Qed.

(** Saving the displayed terminal, clearing the screen and restoring [id]. *)
Lemma switch_display : ∃ c1 c2, save_terminal_info cur c = Done (0, c1) ∧
  restore_terminal_info id (clear (with_current id c1)) = Done (0, c2) ∧ current_terminal c2 = id ∧
  only_in VIDEO TEXT_END (c_mem c) (c_mem c2) ∧ (mem_ok (c_mem c) → mem_ok (c_mem c2)) ∧ (con_ok c → con_ok c2) ∧
  ∀ t, 0 <= t < 3 → ∃ s s', text_of c t = Some s ∧ text_of c2 t = Some s' ∧ s' ≡ s.
Proof.
  destruct (Hinfo cur Hcur) as (tc & Htc & Hbc & Hlc & Hyc). destruct (Hinfo id Hid) as (ti & Hti & Hbi & Hli & Hyi).
  destruct (save_shape cur c tc Hcur Htc Hbc Hkeys Hlc) as (c1 & keys & E1 & Hinfo1 & Hm1 & Hlk & Hkc).
  destruct (clear_shape (with_current id c1) Hid) as (cc & Ecc & Hinfoc & Hcurc & Hmc & Hokc).
  change (terminal_info (with_current id c1)) with (terminal_info c1) in Hinfoc.
  change (current_terminal (with_current id c1)) with id in Hcurc. change (c_mem (with_current id c1)) with (c_mem c1) in Hmc.
  assert (Hti1 : zget (terminal_info cc) id = Some ti)
    by (rewrite Hinfoc, Hinfo1, zget_insert_ne; [exact Hti|lia|done]).
  destruct (restore_spec id cc ti Hid Hti1 Hbi Hli Hyi) as (c2 & E2 & Ha & _ & _ & _ & _ & Einfo & Ecur & Hm2 & Hok2).
  exists c1, c2. split; [exact E1|]. split; [by rewrite Ecc|]. split; [by rewrite Ecur|].
  pose proof (saved_at cur Hcur) as Sc. unfold SCREEN_BYTES in *. split; [|split; [|split]].
  { unfold TEXT_END, FOUR_KB_SIZE. intros a Hout. rewrite Hm2, Hmc by lia. rewrite Hm1. unfold copied. zcase. }
  { intros Hm. apply Hok2, Hokc. intros a. change (is_u8 (c_mem c1 a)). rewrite Hm1. by apply copied_ok. }
  { intros Hc. rewrite <- Ecc in E2. apply (switched_con c1 c2 keys ti tc); try done. by rewrite Einfo, Hinfoc. }
  assert (Hmem : ∀ t o, 0 <= t < 3 → 0 <= o < 3840 → c_mem c2 (saved_screen t + o) =
    if t =? cur then c_mem c (VIDEO + o) else c_mem c (saved_screen t + o)).
  { intros t o Ht Ho. pose proof (saved_at t Ht) as St. rewrite Hm2, Hmc by lia. rewrite Hm1. unfold copied.
    destruct (Z.eqb_spec t cur) as [->|Hntc]; [zcase; f_equal; lia|zcase; done]. }
  assert (Hmid : ∀ o, 0 <= o < 3840 → c_mem cc (saved_screen id + o) = c_mem c (saved_screen id + o)).
  { intros o Ho. pose proof (saved_at id Hid). rewrite Hmc by lia. rewrite Hm1. unfold copied. zcase. }
  intros t Ht. destruct (Hinfo t Ht) as (it & Hit & _). unfold text_of. rewrite Ecur, Hit, Einfo.
  rewrite Hinfoc, Hinfo1, Hcurc. fold cur.
  destruct (Z.eqb_spec t cur) as [->|Hntc]; [|destruct (Z.eqb_spec t id) as [->|Hnti]].
  - rewrite (proj2 (Z.eqb_neq cur id)) by done.
    rewrite zget_insert_eq by (apply zget_Some in Htc as [_ Htc%lookup_lt_Some]; lia).
    do 2 eexists. split; [done|]. split; [done|]. unfold abs_term, abs_video. cbn [save_fields screen_pos_x screen_pos_y row_stack_old].
    destruct Hok as (Hx & Hy & Hr). cbn in Hx, Hy, Hr. unfold NUM_COLS, NUM_ROWS in *. u8_simpl.
    split_and!; try done. intros o Ho. unfold SCREEN_BYTES in Ho. change (c_mem c2 (saved_screen cur + o) = c_mem c (VIDEO + o)).
    by rewrite Hmem, Z.eqb_refl.
  - rewrite Hti in Hit. injection Hit as <-. do 2 eexists. split; [done|]. split; [done|]. rewrite Ha. apply view_frame. intros o Ho. by apply Hmid.
  - rewrite zget_insert_ne by (lia || done). rewrite Hit. do 2 eexists. split; [done|]. split; [done|].
    apply view_frame. intros o Ho. rewrite Hmem by done. by rewrite (proj2 (Z.eqb_neq t cur)).
Qed.
End switch.

(** C25. Switching the display.  Whatever the two terminals show, switching to
    another terminal that is already running returns 0 and makes it the
    displayed one; the text, the position and the wrapped rows of every
    terminal, the one left, the one shown and the third, are as before, and
    neither the process tables nor the running terminal change.  Switching to
    the displayed terminal changes nothing, and a number above 2 is refused. *)
Theorem switch_keeps_texts (dir_addr table_addr vidmem_addr magics : Z) (stack_dentry : dentry_t) (k : kernel) (id r : Z)
    (Hid : 0 <= id) (Hcur : 0 <= current_terminal (k_con k) < 3) (Hinfo : infos_ok (k_con k))
    (Hok : ts_ok (abs_video (k_con k))) (Hkeys : keys_ok (k_con k))
    (Hrun : id < 3 → zget (terminal_running k) id = Some r) (Hr : r ≠ 0) :
  ∃ v k', switch_to_terminal dir_addr table_addr vidmem_addr magics stack_dentry id k = Done (Return v, k') ∧
    v = (if 3 <=? id then -1 else 0) ∧
    current_terminal (k_con k') = (if 3 <=? id then current_terminal (k_con k) else id) ∧
    k_procs k' = k_procs k ∧ running_terminal k' = running_terminal k ∧
    ∀ t, 0 <= t < 3 → ∃ s s', text_of (k_con k) t = Some s ∧ text_of (k_con k') t = Some s' ∧ s' ≡ s.
Proof.
  assert (Htexts : ∀ t, 0 <= t < 3 → ∃ s, text_of (k_con k) t = Some s).
  { intros t Ht. destruct (Hinfo t Ht) as (it & Hit & _). unfold text_of. rewrite Hit. case_match; by eexists. }
  unfold switch_to_terminal. cbv zeta. change (k_con (with_if false k)) with (k_con k). unfold MAX_TERMINAL_NUM.
  destruct (Z.leb_spec 3 id).
  { do 2 eexists. split; [reflexivity|]. split_and!; try done. intros t Ht. destruct (Htexts t Ht) as (s & Es). by exists s, s. }
  destruct (Z.eqb_spec id (current_terminal (k_con k))) as [E|Hne].
  { do 2 eexists. split; [reflexivity|]. split_and!; try done. intros t Ht. destruct (Htexts t Ht) as (s & Es). by exists s, s. }
  change (terminal_running (with_if false k)) with (terminal_running k). rewrite Hrun by lia. cbn [must]. rewrite bind_Done.
  rewrite (proj2 (Z.eqb_neq r 0)) by done. unfold save_display. change (k_con (with_if false k)) with (k_con k).
  destruct (switch_display (k_con k) id ltac:(lia) Hcur Hne Hinfo Hok Hkeys) as (c1 & c2 & E1 & E2 & Ecur & _ & _ & _ & Ht).
  rewrite E1, !bind_Done. change (k_con (with_con c1 _)) with c1. rewrite E2, bind_Done.
  do 2 eexists. split; [reflexivity|]. by split_and!.
Qed.

(** * The timer's frequency

    The timer chip: its mode for channel 0, the low byte it waits to be
    completed, and the value it counts down from. *)
Record pit : Type := Pit { p_mode : Z; p_low : option Z; p_reload : Z }.
Definition pit_write (c : pit) (w : Z * Z) : pit :=
  let '(port, data) := w in
  if port =? PIT_REG then Pit (data / 2 mod 8) None (p_reload c)
  else if port =? CHANNEL_0 then
    match p_low c with
    | None => Pit (p_mode c) (Some data) (p_reload c)
    | Some lo => Pit (p_mode c) None (lo + 256 * data)
    end
  else c.

(** C26. The timer's period.  For every frequency from 19 Hz up to the
    timer's clock, wherever the local variable lies, [init_pit] puts the timer
    in mode 3 and unmasks its interrupt; the count it programs is the intended
    quotient up to its low byte, which is that of an address: the period is
    off by less than 256 ticks of the clock. *)
Theorem pit_period_bound (addr frequency : Z) (p : pic) (c : pit) (Hf : 19 <= frequency <= PIT_CONST) :
  ∃ ws, init_pit addr frequency p = Done (ws, enable_irq 0 p) ∧
    let c' := foldl pit_write c ws in
    p_mode c' = 3 ∧ p_low c' = None ∧ 0 <= p_reload c' < 2 ^ 16 ∧
    Z.abs (p_reload c' - PIT_CONST / frequency) < 256.
Proof.
  unfold init_pit. rewrite (proj2 (Z.eqb_neq frequency 0)) by lia. eexists. split; [done|]. cbv zeta.
  cbn [foldl pit_write]. change (PIT_REG =? PIT_REG) with true. change (CHANNEL_0 =? PIT_REG) with false.
  change (CHANNEL_0 =? CHANNEL_0) with true. cbn [p_low p_mode p_reload].
  assert (Hd : 0 <= PIT_CONST / frequency < 2 ^ 16).
  { unfold PIT_CONST in *. split; [apply Z.div_pos; lia|apply Z.div_lt_upper_bound; lia]. }
  set (d := PIT_CONST / frequency) in *. pose proof (u8_range addr) as Ha. unfold is_u8 in Ha.
  assert (Eh : u8 (Z.shiftr d 8) = d / 256).
  { rewrite Z.shiftr_div_pow2 by lia. apply u8_id. split; [apply Z.div_pos; lia|apply Z.div_lt_upper_bound; lia]. }
  pose proof (Z.div_mod d 256). pose proof (Z.mod_pos_bound d 256). rewrite Eh. change (2 ^ 8) with 256 in Ha.
  split_and!; [reflexivity|done|lia|lia|lia].
Qed.

Lemma pit_period_bound_witness : ∃ ws, init_pit 0x7FBFE4 20 (Pic 0xFF 0xFF []) = Done (ws, Pic 0xFE 0xFF [(0x21, 0xFE)]) ∧
  p_reload (foldl pit_write (Pit 0 None 0) ws) = 0xE9E4 ∧ Z.abs (0xE9E4 - 59659) < 256.
Proof.
  destruct (pit_period_bound 0x7FBFE4 20 (Pic 0xFF 0xFF []) (Pit 0 None 0)) as (ws & E & _ & _ & _ & Hb).
  - by unfold PIT_CONST.
  - exists ws. split; [exact E|]. injection E as <-. split; [reflexivity|exact Hb].
Defined.

(** * Witnesses *)

(** Two terminals in use: process 0 waits on terminal 0, process 1 runs on
    terminal 1. *)
Definition pcb5 (q : Z) : pcb_t := with_schedule (EIGHT_MB_SIZE - q * EIGHT_KB_SIZE - 100) 0 (pcb3 q).
Definition kernel5 : kernel :=
  with_pcbs (list_to_map ((λ q, (get_pcb_by_index q, pcb5 q)) <$> [0; 1; 2; 3; 4; 5])) kernel3.

Lemma kernel5_top t p : top_pcb kernel5 t = Some p → ∃ q, p = pcb5 q.
Proof.
  unfold top_pcb. intros Hp. apply elem_of_list_to_map_2, list_elem_of_fmap in Hp as (q & [= _ ->] & _). by exists q.
Qed.
Lemma kernel5_sched : sched_ok 0x500000 0x501000 0x502000 kernel5.
Proof.
  split; [|left; by vm_compute]. split.
  - exact kernel3_procs.
  - intros q Hq. exists (pcb5 q). split; [|done].
    destruct (lt6 q Hq) as [-> | [-> | [-> | [-> | [-> | ->]]]]]; by vm_compute.
  - by split.
  - intros t Ht. assert (t = 0 ∨ t = 1 ∨ t = 2) as [-> | [-> | ->]] by lia.
    + exists 1. by vm_compute.
    + exists 1. by vm_compute.
    + exists 0. by vm_compute.
  - by vm_compute.
  - by vm_compute.
  - intros t p Ht Hne Ha Hp. change (running_terminal kernel5) with 1 in Hne.
    assert (t = 0 ∨ t = 2) as [-> | ->] by lia; [|by vm_compute in Ha].
    assert (E : top_pcb kernel5 0 = Some (pcb5 0)) by by vm_compute. rewrite E in Hp. injection Hp as <-. by vm_compute.
  - intros t p Ht Ha Hp. apply kernel5_top in Hp as (q & ->). reflexivity.
  - destruct tables1_rep as (win & Hrep & Hst). by exists (Some 1, win).
Qed.

Lemma context_switch_witness : ∃ k', pit_handler 0x500000 0x501000 0x502000 0x7FB000 (replicate 64 0) kernel5 = Done (None, k') ∧
  running_terminal k' = 0 ∧ tss_esp0 k' = 0x7FFFFC.
Proof.
  destruct (context_switch 0x500000 0x501000 0x502000 0x7FB000 (replicate 64 0) linked0 kernel5 kernel5_sched)
    as (k' & E & _ & Hr & _ & Ht & _).
  assert (En : rr_next (alive kernel5) (running_terminal kernel5) = 0) by by vm_compute.
  rewrite En in Hr, Ht. assert (Eq : stack_top (top kernel5 0) = 0x7FFFFC) by by vm_compute. rewrite Eq in Ht.
  exists k'. split; [exact E|]. split; [exact Hr|exact Ht].
Defined.

Lemma round_robin_witness : ∃ k1 j k2, ticks 0x500000 0x501000 0x502000 0x7FB000 (replicate 64 0) 5 kernel5 = Done k1 ∧
  ticks 0x500000 0x501000 0x502000 0x7FB000 (replicate 64 0) j k1 = Done k2 ∧ running_terminal k2 = 1 ∧
  k_esp k2 = k_esp kernel5.
Proof.
  destruct (round_robin 0x500000 0x501000 0x502000 0x7FB000 (replicate 64 0) linked0 kernel5 kernel5_sched 5)
    as (k1 & E1 & _ & _ & _ & Hall). destruct (Hall 1) as (j & k2 & _ & E2 & Hr & Hc); [lia|by vm_compute|].
  exists k1, j, k2. split; [exact E1|]. split; [exact E2|]. split; [exact Hr|]. by injection Hc.
Defined.

Lemma switch_keeps_texts_witness : ∃ k', switch_to_terminal 0x500000 0x501000 0x502000 0x7FB000 (replicate 64 0) 0 kernel5 =
  Done (Return 0, k') ∧ current_terminal (k_con k') = 0.
Proof.
  destruct (switch_keeps_texts 0x500000 0x501000 0x502000 0x7FB000 (replicate 64 0) kernel5 0 1)
    as (v & k' & E & Ev & Ec & _).
  - lia.
  - by vm_compute.
  - intros t Ht. assert (t = 0 ∨ t = 1 ∨ t = 2) as [-> | [-> | ->]] by lia; (eexists; split; [reflexivity|by vm_compute]).
  - exact (proj1 console1_ok).
  - exact (proj2 console1_ok).
  - intros _. by vm_compute.
  - lia.
  - exists k'. subst v. split; [exact E|exact Ec].
Defined.
