(* ===== verification/Keyboard.v ===== *)
(** The keyboard driver of student-distrib/keyboard.c: the scan-code tables,
    the interrupt handler, and the theorem that a typed line is what the next
    terminal read returns. *)
From Stdlib Require Import String.
From stdpp Require Import gmap.
From S2P Require Import Prelude Memory Strings Console Filesystem Paging Pic Rtc Kernel Terminal Syscall Tables Process Sb16 Scheduling.

Definition KEY_DATA_PORT : Z := 0x60.
Definition KEYBOARD_IRQ : Z := 1.
Definition L_SHIFT_CODE : Z := 0x2A.
Definition R_SHIFT_CODE : Z := 0x36.
Definition L_SHIFT_REL_CODE : Z := 0xAA.
Definition R_SHIFT_REL_CODE : Z := 0xB6.
Definition CPSLK_CODE : Z := 0x3A.
Definition L_CTRL_CODE : Z := 0x1D.
Definition L_CTRL_REL_CODE : Z := 0x9D.
Definition ENTER_CODE : Z := 0x1C.
Definition BKSP_CODE : Z := 0x0E.
Definition TAB_CODE : Z := 0x0F.
Definition ALT_CODE : Z := 0x38.
Definition ALT_REL_CODE : Z := 0xB8.
Definition ESC_CODE : Z := 0x01.
Definition NUM_STAR_CODE : Z := 0x37.
Definition F1_CODE : Z := 0x3B.
Definition F2_CODE : Z := 0x3C.
Definition F3_CODE : Z := 0x3D.
Definition SCANCODE_L : Z := 0x26.
Definition SCANCODE_C : Z := 0x2E.
Definition INTERRUPT : Z := 2.
Definition NOTHING_PRESS : Z := 0.
Definition SHIFT_PRESS : Z := 1.
Definition CAPS_PRESS : Z := 2.
Definition CAP_SHI_PRESS : Z := 3.

(** One row of the table, from its four lines of keys; the rest of the 64
    entries is zero. *)
Definition scancode_row (digits qwerty home zxcv : list Z) : list Z :=
  [0; 0] ++ digits ++ [0; 9] ++ qwerty ++ [10; 0] ++ home ++ zxcv ++ [0; 0; 0; 32; 0] ++ replicate 5 0.
Definition key_scancode : list (list Z) :=
  [scancode_row (lit "1234567890-=") (lit "qwertyuiop[]") (lit "asdfghjkl;'`") (0 :: 92 :: lit "zxcvbnm,./");
   scancode_row (lit "!@#$%^&*()_+") (lit "QWERTYUIOP{}") (lit "ASDFGHJKL:" ++ [34; 126]) (0 :: 124 :: lit "ZXCVBNM<>?");
   scancode_row (lit "1234567890-=") (lit "QWERTYUIOP[]") (lit "ASDFGHJKL;'`") (0 :: 92 :: lit "ZXCVBNM,./");
   scancode_row (lit "!@#$%^&*()_+") (lit "qwertyuiop{}") (lit "asdfghjkl:" ++ [34; 126]) (0 :: 124 :: lit "zxcvbnm<>?")].

(** The modifier flags. *)
Record kbd : Type := Kbd { caps_lock_enabled : Z; shift_state : Z; ctrl_state : Z; alt_state : Z }.
Definition with_shift (v : Z) (b : kbd) : kbd := Kbd (caps_lock_enabled b) v (ctrl_state b) (alt_state b).
Definition with_caps (v : Z) (b : kbd) : kbd := Kbd v (shift_state b) (ctrl_state b) (alt_state b).
Definition with_ctrl (v : Z) (b : kbd) : kbd := Kbd (caps_lock_enabled b) (shift_state b) v (alt_state b).
Definition with_alt (v : Z) (b : kbd) : kbd := Kbd (caps_lock_enabled b) (shift_state b) (ctrl_state b) v.

Definition init_keyboard (k : kernel) : kernel :=
  let k := with_pic_rtc (enable_irq KEYBOARD_IRQ (k_pic k)) (k_rtc k) k in
  let k := with_enter 0 (with_con (with_keys (key_arr (k_con k)) 0 0 (k_con k)) k) in
  with_con (set_cursor_position 0 0 (k_con k)) k.

(** The row selected by the flags; the local is not set for other values. *)
Definition current_state (b : kbd) : option Z :=
  if (shift_state b =? 0) && (caps_lock_enabled b =? 0) then Some NOTHING_PRESS
  else if (shift_state b =? 1) && (caps_lock_enabled b =? 0) then Some SHIFT_PRESS
  else if (shift_state b =? 0) && (caps_lock_enabled b =? 1) then Some CAPS_PRESS
  else if (shift_state b =? 1) && (caps_lock_enabled b =? 1) then Some CAP_SHI_PRESS
  else None.

Definition lookup_key (state code : Z) : out Z :=
  row ← must (zget key_scancode state); must (zget row code).

Section keyboard.
(** The bytes the keyboard port gives when it is polled, and the parameters of
    the sound card and of [execute]. *)
Context (port : Z → Z) (dsp : Z → Z → Z) (DMA_Buffer : Z).
Context (dir_addr table_addr vidmem_addr magics : Z) (stack_dentry : dentry_t).

Definition eoi (k : kernel) : kernel := with_pic_rtc (send_eoi KEYBOARD_IRQ (k_pic k)) (k_rtc k) k.

(** Alt + Fx.  [None]: the handler goes on; [Some o]: control left it. *)
Definition switch_key (id : Z) (s : sb) (k : kernel) : out (option outcome * sb * kernel) :=
  '(o, k) ← switch_to_terminal dir_addr table_addr vidmem_addr magics stack_dentry id (with_if true (eoi k));
  Done (match o with Return _ => None | _ => Some o end, s, k).

Definition input_handler (s_code : Z) (b : kbd) (s : sb) (k : kernel) : out (option outcome * sb * kernel) :=
  if (ctrl_state b =? 1) && (s_code =? SCANCODE_L) then
    c ← printf (lit0 "391OS> ") [] (set_cursor_position 0 0 (clear (k_con k)));
    Done (None, s, with_con (set_column_stack c) k)
  else if (ctrl_state b =? 1) && (s_code =? SCANCODE_C) then
    let k := eoi k in
    s ← stop dsp DMA_Buffer s;
    let t := current_terminal (k_con k) in
    n ← cnt k t;
    q ← slot k t (u32 (n - 1));
    p ← pcb_at k (get_pcb_by_index q);
    Done (None, s, with_if true (set_pcb (get_pcb_by_index q) (with_pending INTERRUPT p) k))
  else if 0x3E <=? s_code then Done (None, s, k)
  else if (alt_state b =? 1) && (s_code =? F1_CODE) then switch_key 0 s k
  else if (alt_state b =? 1) && (s_code =? F2_CODE) then switch_key 1 s k
  else if (alt_state b =? 1) && (s_code =? F3_CODE) then switch_key 2 s k
  else if 0x3C <=? s_code then Done (None, s, k)
  else
    state ← must (current_state b);
    ch ← lookup_key state s_code;
    c ← key_arr_push ch (putc (k_con k) (u8 ch));
    Done (None, s, with_con c k).

(** The polling loop: the first value above 0. *)
Definition read_scancode : out Z :=
  orun (λ n, if 0 <? port n then inr (Done (port n)) else inl (n + 1)) 0.

Definition dispatch (scancode : Z) (b : kbd) (s : sb) (k : kernel) : out (option outcome * kbd * sb * kernel) :=
  if (scancode =? L_SHIFT_CODE) || (scancode =? R_SHIFT_CODE) then Done (None, with_shift 1 b, s, k)
  else if (scancode =? L_SHIFT_REL_CODE) || (scancode =? R_SHIFT_REL_CODE) then Done (None, with_shift 0 b, s, k)
  else if scancode =? CPSLK_CODE then
    Done (None, with_caps (if caps_lock_enabled b =? 0 then 1 else 0) b, s, k)
  else if scancode =? L_CTRL_CODE then Done (None, with_ctrl 1 b, s, k)
  else if scancode =? L_CTRL_REL_CODE then Done (None, with_ctrl 0 b, s, k)
  else if scancode =? ENTER_CODE then
    ch ← lookup_key NOTHING_PRESS scancode;
    c ← key_arr_push ch (k_con k);
    let k := with_enter 1 (with_con c k) in
    Done (None, b, s, with_con (enter_handler (k_con k)) k)
  else if scancode =? BKSP_CODE then Done (None, b, s, with_con (backspace_handler (k_con k)) k)
  else if scancode =? TAB_CODE then Done (None, b, s, k)
  else if scancode =? ALT_CODE then Done (None, with_alt 1 b, s, k)
  else if scancode =? ALT_REL_CODE then Done (None, with_alt 0 b, s, k)
  else if (scancode =? ESC_CODE) || (scancode =? NUM_STAR_CODE) then Done (None, b, s, k)
  else
    '(o, s, k) ← input_handler scancode b s k;
    Done (o, b, s, k).

Definition keyboard_handler (b : kbd) (s : sb) (k : kernel) : out (option outcome * kbd * sb * kernel) :=
  let flages := k_if k in
  let k := with_if false k in
  scancode ← read_scancode;
  '(o, b, s, k) ← dispatch scancode b s k;
  match o with
  | Some _ => Done (o, b, s, k)
  | None => Done (None, b, s, with_if flages (eoi k))
  end.
End keyboard.

(** * The layout, abstractly *)

(** The character of a key: letters change case with shift or caps lock but
    not with both, other keys with shift only. *)
Definition key_base (code : Z) : Z := tbl (default [] (zget key_scancode 0)) code.
Definition key_shifted (code : Z) : Z := tbl (default [] (zget key_scancode 1)) code.
Definition key_char (shift caps : bool) (code : Z) : Z :=
  let base := key_base code in
  if (97 <=? base) && (base <=? 122) then (if xorb shift caps then base - 32 else base)
  else if shift then key_shifted code else base.

(** The keys that type a character. *)
Definition char_code (code : Z) : bool :=
  (0x02 <=? code) && (code <=? 0x0D) || (0x10 <=? code) && (code <=? 0x1B) || (0x1E <=? code) && (code <=? 0x29)
  || (0x2B <=? code) && (code <=? 0x35) || (code =? 0x39).

Definition flags_ok (b : kbd) : Prop :=
  (shift_state b = 0 ∨ shift_state b = 1) ∧ (caps_lock_enabled b = 0 ∨ caps_lock_enabled b = 1).
Definition on (v : Z) : bool := v =? 1.

(** What one scan code does to the flags, and the character it types. *)
Definition decode (b : kbd) (code : Z) : kbd * list Z :=
  if (code =? L_SHIFT_CODE) || (code =? R_SHIFT_CODE) then (with_shift 1 b, [])
  else if (code =? L_SHIFT_REL_CODE) || (code =? R_SHIFT_REL_CODE) then (with_shift 0 b, [])
  else if code =? CPSLK_CODE then (with_caps (1 - caps_lock_enabled b) b, [])
  else (b, [key_char (on (shift_state b)) (on (caps_lock_enabled b)) code]).
Definition text_code (code : Z) : bool :=
  char_code code || existsb (Z.eqb code) [L_SHIFT_CODE; R_SHIFT_CODE; L_SHIFT_REL_CODE; R_SHIFT_REL_CODE; CPSLK_CODE].
Fixpoint decode_all (b : kbd) (codes : list Z) : kbd * list Z :=
  match codes with
  | [] => (b, [])
  | code :: codes =>
      let '(b1, c1) := decode b code in let '(b2, c2) := decode_all b1 codes in (b2, c1 ++ c2)
  end.

(** Scan codes are bytes: check a property of all of them. *)
Lemma all_codes (P : Z → bool) : forallb P (seqZ 0 256) = true → ∀ code, 0 <= code < 256 → P code = true.
Proof. intros H code Hc. rewrite forallb_forall in H. apply H, list_elem_of_In, elem_of_seqZ. lia. Qed.

Lemma text_code_range code : text_code code = true → 0 <= code < 256.
Proof.
  unfold text_code, char_code. intros H. repeat apply orb_true_iff in H as [H|H];
    try (apply andb_true_iff in H as [?%Z.leb_le ?%Z.leb_le]; lia);
    try (apply Z.eqb_eq in H; unfold L_SHIFT_CODE, R_SHIFT_CODE, L_SHIFT_REL_CODE, R_SHIFT_REL_CODE, CPSLK_CODE in H; lia).
  discriminate H.
Qed.

Definition states : list kbd := [Kbd 0 0 0 0; Kbd 0 1 0 0; Kbd 1 0 0 0; Kbd 1 1 0 0].

(** The table holds the layout. *)
Lemma layout_table b code : flags_ok b → char_code code = true → ∃ state,
  current_state b = Some state ∧ lookup_key state code = Done (key_char (on (shift_state b)) (on (caps_lock_enabled b)) code) ∧
  is_u8 (key_char (on (shift_state b)) (on (caps_lock_enabled b)) code) ∧
  key_char (on (shift_state b)) (on (caps_lock_enabled b)) code ≠ 10 ∧ key_char (on (shift_state b)) (on (caps_lock_enabled b)) code ≠ 0.
Proof.
  intros [Hs Hc] Hcode. pose proof (text_code_range code ltac:(unfold text_code; by rewrite Hcode)) as Hr.
  assert (Hall : forallb (λ code, negb (char_code code) || forallb (λ b,
    match current_state b with
    | Some state => let ch := key_char (on (shift_state b)) (on (caps_lock_enabled b)) code in
        bool_decide (lookup_key state code = Done ch) && (0 <=? ch) && (ch <? 256) && negb (ch =? 10) && negb (ch =? 0)
    | None => false end) states) (seqZ 0 256) = true) by by vm_compute.
  pose proof (all_codes _ Hall code Hr) as H. cbv beta in H. rewrite Hcode in H. cbn [negb orb] in H.
  rewrite forallb_forall in H. specialize (H (Kbd (caps_lock_enabled b) (shift_state b) 0 0)).
  destruct b as [caps shift ct al]. cbn [caps_lock_enabled shift_state] in *.
  assert (Hin : In (Kbd caps shift 0 0) states) by (destruct Hs as [-> | ->], Hc as [-> | ->]; cbn; tauto).
  specialize (H Hin). change (current_state (Kbd caps shift ct al)) with (current_state (Kbd caps shift 0 0)).
  destruct (current_state (Kbd caps shift 0 0)) as [state|]; [|discriminate H]. cbv zeta in H.
  repeat apply andb_true_iff in H as [H ?]. exists state.
  apply bool_decide_eq_true in H. split; [done|]. split; [done|].
  repeat match goal with E : negb _ = true |- _ => apply negb_true_iff, Z.eqb_neq in E end.
  unfold is_u8. lia.
Qed.

(** * Typing *)
Section typing.
Context (dsp : Z → Z → Z) (DMA_Buffer : Z).
Context (dir_addr table_addr vidmem_addr magics : Z) (stack_dentry : dentry_t).

Definition special_codes : list Z :=
  [L_SHIFT_CODE; R_SHIFT_CODE; L_SHIFT_REL_CODE; R_SHIFT_REL_CODE; CPSLK_CODE; L_CTRL_CODE; L_CTRL_REL_CODE;
   ENTER_CODE; BKSP_CODE; TAB_CODE; ALT_CODE; ALT_REL_CODE; ESC_CODE; NUM_STAR_CODE; F1_CODE; F2_CODE; F3_CODE].
Lemma char_not_special code x : char_code code = true → x ∈ special_codes → code =? x = false.
Proof.
  intros Hc Hx. pose proof (text_code_range code ltac:(unfold text_code; by rewrite Hc)) as Hr.
  assert (Hall : forallb (λ code, negb (char_code code) || forallb (λ x, negb (code =? x)) special_codes) (seqZ 0 256) = true)
    by by vm_compute.
  pose proof (all_codes _ Hall code Hr) as H. cbv beta in H. rewrite Hc in H. cbn [negb orb] in H.
  rewrite forallb_forall in H. apply negb_true_iff, H, list_elem_of_In, Hx.
Qed.
Lemma char_small code : char_code code = true → code < 0x3C.
Proof.
  unfold char_code. intros H. repeat apply orb_true_iff in H as [H|H];
    try (apply andb_true_iff in H as [?%Z.leb_le ?%Z.leb_le]; lia). apply Z.eqb_eq in H. lia.
Qed.

(** A character key without control and alt: echo and push. *)
Lemma dispatch_char code b s k : char_code code = true → flags_ok b → ctrl_state b = 0 → alt_state b = 0 →
  let ch := key_char (on (shift_state b)) (on (caps_lock_enabled b)) code in
  dispatch dsp DMA_Buffer dir_addr table_addr vidmem_addr magics stack_dentry code b s k =
    (c ← key_arr_push ch (putc (k_con k) ch); Done (None, b, s, with_con c k)).
Proof.
  intros Hc Hb Hctrl Halt. cbv zeta. destruct (layout_table b code Hb Hc) as (state & Est & Elook & Hu8 & _).
  unfold dispatch. rewrite !(char_not_special code) by (done || (unfold special_codes; set_solver)). cbn [orb].
  unfold input_handler. rewrite Hctrl, Halt. change (0 =? 1) with false. cbn [andb].
  pose proof (char_small code Hc). rewrite !(proj2 (Z.leb_gt _ code)) by lia.
  rewrite Est. cbn [must]. rewrite bind_Done, Elook, bind_Done, (u8_id _ Hu8).
  destruct (key_arr_push _ _); done.
Qed.

Lemma putc_keys c ch : key_arr (putc c ch) = key_arr c ∧ key_arr_ptr (putc c ch) = key_arr_ptr c ∧
  key_arr_overflow (putc c ch) = key_arr_overflow c.
Proof. by destruct (putc_keyboard c ch). Qed.
Lemma push_screen ch c c' : key_arr_push ch c = Done c' →
  abs_video c' = abs_video c ∧ current_terminal c' = current_terminal c ∧ terminal_info c' = terminal_info c ∧ c_mem c' = c_mem c.
Proof.
  unfold key_arr_push. destruct (_ <? _); [|by intros [= <-]].
  destruct (zset _ _ _); cbn [must mbind out_bind]; [by intros [= <-]|discriminate].
Qed.

(** Storing a character and printing one commute. *)
Lemma putc_with_keys a p o c ch : putc (with_keys a p o c) ch = with_keys a p o (putc c ch).
Proof. unfold putc, enter_handler, enter_and_scroll, set_cursor_position. cbn. repeat case_match; done. Qed.
Lemma push_putc ch c c' x : key_arr_push x (putc c ch) = Done c' → ∃ c1, key_arr_push x c = Done c1 ∧ putc c1 ch = c'.
Proof.
  destruct (putc_keys c ch) as (K1 & K2 & K3). unfold key_arr_push. rewrite K1, K2, K3.
  destruct (key_arr_ptr c <? KEY_ARR_SIZE - 1).
  - destruct (zset (key_arr c) (key_arr_ptr c) (u8 x)); cbn [must mbind out_bind]; [|done]. intros [= <-].
    eexists. split; [done|]. apply putc_with_keys.
  - intros [= <-]. eexists. split; [done|]. apply putc_with_keys.
Qed.

(** The parts of the kernel the keyboard leaves alone. *)
Record same_system (k k' : kernel) : Prop := SameSystem {
  ss_procs : k_procs k' = k_procs k; ss_pcbs : k_pcbs k' = k_pcbs k; ss_page : k_page k' = k_page k;
  ss_stack : k_esp k' = k_esp k ∧ k_ebp k' = k_ebp k; ss_running : running_terminal k' = running_terminal k;
  ss_if : k_if k' = k_if k }.

(** Characters are echoed and stored; Enter ends the line. *)
Definition echo_line (cs : list Z) (c : console) : out console :=
  foldl (λ o ch, c ← o; key_arr_push ch (putc c ch)) (Done c) cs.
Definition type_line (cs : list Z) (c : console) : out console :=
  c ← echo_line cs c; c ← key_arr_push 10 c; Done (enter_handler c).

(** The line [cs] was typed on the console since [c0], whose line buffer was empty. *)
Record line_typed (c0 c : console) (cs : list Z) : Prop := LineTyped {
  lt_current : current_terminal c = current_terminal c0;
  lt_infos : terminal_info c = terminal_info c0;
  lt_keys : keys_ok c ∧ depth c = Z.of_nat (length cs);
  lt_line : ∀ i ch, cs !! i = Some ch → Z.of_nat i < KEY_ARR_SIZE - 1 → zget (key_arr c) (Z.of_nat i) = Some ch;
  lt_screen : abs_video c ≡ ts_print (attrib (current_terminal c0)) (abs_video c0) cs;
  lt_ok : ts_ok (abs_video c);
  lt_mem : only_in VIDEO (VIDEO + SCREEN_BYTES) (c_mem c0) (c_mem c) ∧ (mem_ok (c_mem c0) → mem_ok (c_mem c));
  lt_bytes : Forall is_u8 cs }.
Record typed (k0 k : kernel) (cs : list Z) : Prop := Typed {
  ty_system : same_system k0 k;
  ty_enter : enter_state k = enter_state k0;
  ty_echo : echo_line cs (k_con k0) = Done (k_con k);
  ty_line : line_typed (k_con k0) (k_con k) cs }.

Lemma line_start c : keys_ok c → depth c = 0 → ts_ok (abs_video c) → line_typed c c [].
Proof.
  intros Hk Hd Ho. split; [done|done|by split|by intros i ch|by repeat split|done| |constructor]. split; [apply only_in_refl|done].
Qed.

(** Echoing a character and storing it in the line buffer. *)
Lemma line_push c0 c cs ch : line_typed c0 c cs → is_u8 ch → Z.of_nat (length cs) < KEY_ARR_SIZE - 1 + 255 →
  ∃ c', key_arr_push ch (putc c ch) = Done c' ∧ line_typed c0 c' (cs ++ [ch]).
Proof.
  intros [Hc Hi [Hk Hd] Hl Hs Ho [Hm Hb] Hf] Hu8 Hlen. destruct (putc_keys c ch) as (K1 & K2 & K3).
  assert (Hk' : keys_ok (putc c ch)) by (unfold keys_ok; by rewrite K1, K2, K3).
  assert (Hd' : depth (putc c ch) = Z.of_nat (length cs)) by (unfold depth; by rewrite K2, K3).
  destruct (push_depth ch (putc c ch) Hk') as (c' & Ep & Hkc & Hdc & Hother & Hnew); [unfold KEY_ARR_SIZE in *; lia|].
  destruct (push_screen _ _ _ Ep) as (Esc & Ecur & Einf & Emem). destruct (putc_ok c ch Ho Hu8) as [Hput Hpm].
  exists c'. split; [done|]. split.
  - by rewrite Ecur, putc_current.
  - by rewrite Einf, putc_terminals.
  - split; [exact Hkc|]. rewrite Hdc, Hd', length_app. cbn. lia.
  - intros i x Hix Hlt. destruct (decide (i < length cs)%nat).
    + rewrite Hother, K1 by lia. apply Hl; [|lia]. by rewrite lookup_app_l in Hix.
    + rewrite lookup_app_r in Hix by lia. pose proof (lookup_lt_Some _ _ _ Hix) as Hin. cbn in Hin.
      replace (i - length cs)%nat with 0%nat in Hix by lia. injection Hix as <-.
      replace (Z.of_nat i) with (depth (putc c ch)) by lia. rewrite Hnew by lia. by rewrite u8_id.
  - rewrite Esc, Hput, ts_print_snoc, Hc. by rewrite Hs.
  - rewrite Esc, Hput. by apply ts_putc_ok.
  - rewrite Emem. split; [by eapply only_in_trans|]. intros H. by apply putc_bytes, Hb.
  - apply list.Forall_app. by split; [|constructor].
Qed.
Lemma echo_snoc cs ch c : echo_line (cs ++ [ch]) c = (c ← echo_line cs c; key_arr_push ch (putc c ch)).
Proof. unfold echo_line. by rewrite foldl_app. Qed.
Lemma line_enter c0 c cs : line_typed c0 c cs → Z.of_nat (length cs) < KEY_ARR_SIZE - 1 + 255 →
  ∃ c1, key_arr_push 10 c = Done c1 ∧ line_typed c0 (enter_handler c1) (cs ++ [10]).
Proof.
  intros H Hlen. destruct (line_push c0 c cs 10 H ltac:(split; lia) Hlen) as (c' & Ep & Hl).
  destruct (push_putc _ _ _ _ Ep) as (c1 & E1 & Ec). change (putc c1 10) with (cursor_helper (enter_handler c1)) in Ec. subst c'.
  exists c1. split; [done|]. destruct Hl as [H1 H2 H3 H4 H5 H6 H7 H8]. by split.
Qed.

Lemma keyboard_handler_dispatch port code b s k b' s' k' : read_scancode port = Done code →
  dispatch dsp DMA_Buffer dir_addr table_addr vidmem_addr magics stack_dentry code b s (with_if false k) = Done (None, b', s', k') →
  keyboard_handler port dsp DMA_Buffer dir_addr table_addr vidmem_addr magics stack_dentry b s k =
    Done (None, b', s', with_if (k_if k) (eoi k')).
Proof. intros Hp E. unfold keyboard_handler. by rewrite Hp, bind_Done, E, bind_Done. Qed.

(** A modifier key: only the flags change. *)
Lemma dispatch_modifier code b s k :
  existsb (Z.eqb code) [L_SHIFT_CODE; R_SHIFT_CODE; L_SHIFT_REL_CODE; R_SHIFT_REL_CODE; CPSLK_CODE] = true → flags_ok b →
  dispatch dsp DMA_Buffer dir_addr table_addr vidmem_addr magics stack_dentry code b s k =
    Done (None, (decode b code).1, s, k) ∧ (decode b code).2 = [] ∧ flags_ok (decode b code).1 ∧
  ctrl_state (decode b code).1 = ctrl_state b ∧ alt_state (decode b code).1 = alt_state b.
Proof.
  intros Hcode [Hs Hc]. apply existsb_exists in Hcode as (x & Hin & ->%Z.eqb_eq).
  destruct b as [caps shift ct al]. cbn in Hs, Hc. unfold flags_ok.
  destruct Hin as [<- | [<- | [<- | [<- | [<- | []]]]]]; cbn; destruct Hc as [-> | ->]; cbn; split_and!; auto.
Qed.

Lemma typed_push k0 k cs ch : typed k0 k cs → is_u8 ch → Z.of_nat (length cs) < KEY_ARR_SIZE - 1 + 255 →
  ∃ c, key_arr_push ch (putc (k_con k) ch) = Done c ∧
    ∀ k', k_con k' = c → same_system k k' → enter_state k' = enter_state k → typed k0 k' (cs ++ [ch]).
Proof.
  intros [[H1 H2 H3 [H4 H4'] H5 H6] He Hecho Hl] Hu8 Hlen. destruct (line_push _ _ _ ch Hl Hu8 Hlen) as (c & Ep & Hl').
  exists c. split; [done|]. intros k' <- [S1 S2 S3 [S4 S4'] S5 S6] S7. split; [|congruence| |done].
  - split; [by rewrite S1|by rewrite S2|by rewrite S3|by rewrite S4, S4'|by rewrite S5|by rewrite S6].
  - by rewrite echo_snoc, Hecho, bind_Done.
Qed.

(** One key of a line. *)
Lemma type_key k0 k cs port code b s : typed k0 k cs → text_code code = true → read_scancode port = Done code →
  flags_ok b → ctrl_state b = 0 → alt_state b = 0 →
  Z.of_nat (length (cs ++ (decode b code).2)) <= KEY_ARR_SIZE - 1 + 255 →
  ∃ k', keyboard_handler port dsp DMA_Buffer dir_addr table_addr vidmem_addr magics stack_dentry b s k =
      Done (None, (decode b code).1, s, k') ∧ typed k0 k' (cs ++ (decode b code).2) ∧
    flags_ok (decode b code).1 ∧ ctrl_state (decode b code).1 = 0 ∧ alt_state (decode b code).1 = 0.
Proof.
  intros Ht Hcode Hport Hb Hctrl Halt Hlen. unfold text_code in Hcode. apply orb_true_iff in Hcode as [Hchar|Hmod].
  - destruct (layout_table b code Hb Hchar) as (_ & _ & _ & Hu8 & _). revert Hlen.
    unfold decode. rewrite !(char_not_special code) by (done || (unfold special_codes; set_solver)). cbn [orb fst snd].
    rewrite length_app. cbn [length]. intros Hlen. set (ch := key_char _ _ code) in *.
    destruct (typed_push k0 k cs ch Ht Hu8 ltac:(lia)) as (c & Ep & Htyped).
    exists (with_if (k_if k) (eoi (with_con c (with_if false k)))).
    split; [|split; [by apply Htyped|done]]. apply keyboard_handler_dispatch with (code := code); [done|].
    rewrite dispatch_char by done. fold ch. change (k_con (with_if false k)) with (k_con k). by rewrite Ep.
  - destruct (dispatch_modifier code b s (with_if false k) Hmod Hb) as (Ed & En & Hf & Ect & Eal). rewrite En.
    exists (with_if (k_if k) (eoi (with_if false k))). rewrite app_nil_r.
    split_and!; [by apply keyboard_handler_dispatch with (code := code)| |done|by rewrite Ect|by rewrite Eal].
    by destruct Ht as [[] He Hecho Hl].
Qed.
(** The handler runs once per interrupt. *)
Fixpoint interrupts (ports : list (Z → Z)) (b : kbd) (s : sb) (k : kernel) : out (option outcome * kbd * sb * kernel) :=
  match ports with
  | [] => Done (None, b, s, k)
  | port :: ports =>
      '(o, b, s, k) ← keyboard_handler port dsp DMA_Buffer dir_addr table_addr vidmem_addr magics stack_dentry b s k;
      match o with Some _ => Done (o, b, s, k) | None => interrupts ports b s k end
  end.

Lemma interrupts_app ports port b s k b' s' k' : interrupts ports b s k = Done (None, b', s', k') →
  interrupts (ports ++ [port]) b s k =
    keyboard_handler port dsp DMA_Buffer dir_addr table_addr vidmem_addr magics stack_dentry b' s' k'.
Proof.
  revert b s k. induction ports as [|q ports IH]; intros b s k; cbn [interrupts app].
  - intros [= <- <- <-]. destruct (keyboard_handler _ _ _ _ _ _ _ _ b s k) as [[[[[o|] b1] s1] k1]| |]; done.
  - destruct (keyboard_handler _ _ _ _ _ _ _ _ b s k) as [[[[o b1] s1] k1]| |]; [|done|done]. rewrite !bind_Done.
    destruct o; [done|apply IH].
Qed.

(** The keys of a line. *)
Lemma type_keys k0 ports codes : Forall2 (λ port code, read_scancode port = Done code) ports codes →
  ∀ k cs b s, typed k0 k cs → forallb text_code codes = true → flags_ok b → ctrl_state b = 0 → alt_state b = 0 →
  Z.of_nat (length (cs ++ (decode_all b codes).2)) <= KEY_ARR_SIZE - 1 + 255 →
  ∃ k', interrupts ports b s k = Done (None, (decode_all b codes).1, s, k') ∧
    typed k0 k' (cs ++ (decode_all b codes).2).
Proof.
  induction 1 as [|port code ports codes Hport _ IH]; intros k cs b s Ht Hcodes Hb Hctrl Halt Hlen.
  - exists k. cbn. rewrite app_nil_r. by split.
  - cbn [forallb] in Hcodes. apply andb_true_iff in Hcodes as [Hcode Hcodes]. cbn [decode_all interrupts] in *.
    destruct (decode b code) as [b1 c1] eqn:Ed. destruct (decode_all b1 codes) as [b2 c2] eqn:Eds. cbn [fst snd] in *.
    destruct (type_key k0 k cs port code b s Ht Hcode Hport Hb Hctrl Halt) as (k1 & E1 & Ht1 & Hb1 & Hctrl1 & Halt1);
      [rewrite Ed; rewrite !length_app in *; cbn [fst snd] in *; lia|]. rewrite Ed in *. cbn [fst snd] in *.
    rewrite app_assoc in Hlen. destruct (IH k1 (cs ++ c1) b1 s Ht1 Hcodes Hb1 Hctrl1 Halt1) as (k2 & E2 & Ht2);
      rewrite Eds in *; [done|]. cbn [fst snd] in *. exists k2. rewrite E1, bind_Done, app_assoc. by split.
Qed.

(** Enter ends the line. *)
Lemma enter_key k0 k cs port b s : typed k0 k cs → read_scancode port = Done ENTER_CODE →
  Z.of_nat (length cs) < KEY_ARR_SIZE - 1 + 255 →
  ∃ k', keyboard_handler port dsp DMA_Buffer dir_addr table_addr vidmem_addr magics stack_dentry b s k = Done (None, b, s, k') ∧
    same_system k0 k' ∧ enter_state k' = 1 ∧ type_line cs (k_con k0) = Done (k_con k') ∧ line_typed (k_con k0) (k_con k') (cs ++ [10]).
Proof.
  intros [Hsys He Hecho Hl] Hport Hlen. destruct (line_enter _ _ _ Hl Hlen) as (c1 & E1 & Hl1).
  exists (with_if (k_if k) (eoi (with_con (enter_handler c1) (with_enter 1 (with_con c1 (with_if false k)))))). split.
  - apply keyboard_handler_dispatch with (code := ENTER_CODE); [done|]. unfold dispatch.
    change (lookup_key NOTHING_PRESS ENTER_CODE) with (Done 10). rewrite bind_Done.
    change (k_con (with_if false k)) with (k_con k). rewrite E1, bind_Done. cbv zeta.
    change (k_con (with_enter 1 (with_con c1 (with_if false k)))) with c1. done.
  - split_and!; [by destruct Hsys|done| |exact Hl1]. unfold type_line. by rewrite Hecho, bind_Done, E1, bind_Done.
Qed.

(** The line in the buffer, cut to [n] bytes, for the reader. *)
Lemma copy_line_line keys line n buf m : Forall is_u8 line → 0 <= n <= Z.of_nat (length line) →
  (∀ i ch, line !! i = Some ch → Z.of_nat i < n → zget keys (Z.of_nat i) = Some ch) →
  bytes_of (mview (copy_line n buf keys m) buf) n = take (Z.to_nat n) line ∧ copy_line n buf keys m (buf + n) = 0.
Proof.
  intros Hu Hn Hk. unfold copy_line, store8, upd. split; [|by rewrite Z.eqb_refl].
  assert (Hfor : ∀ i, 0 <= i < n → for_range 0 n (λ m i, store8 m (buf + i) (tbl keys i)) m (buf + i) = u8 (tbl keys i)).
  { apply (for_range_ind (λ j m, ∀ i, 0 <= i < j → m (buf + i) = u8 (tbl keys i))); [lia|lia|].
    intros j m' Hj IH i Hi. unfold store8, upd. destruct (Z.eqb_spec (buf + i) (buf + j)).
    - by replace i with j by lia.
    - apply IH. lia. }
  apply list_eq. intros j. unfold bytes_of. rewrite list_lookup_fmap. destruct (decide (Z.of_nat j < n)).
  - rewrite lookup_seqZ_lt, lookup_take_lt by lia. cbn [fmap option_fmap option_map mview default].
    destruct (lookup_lt_is_Some_2 line j ltac:(lia)) as [ch Ech]. rewrite Ech. f_equal. rewrite Z.add_0_l.
    rewrite (proj2 (Z.eqb_neq _ _)) by lia. change (default 0 (Some ?x)) with x. unfold store8, upd in Hfor.
    rewrite Hfor by lia. unfold tbl. rewrite (Hk j ch Ech) by lia. apply u8_id. by apply (list.Forall_lookup_1 _ _ _ _ Hu Ech).
  - rewrite lookup_seqZ_ge, lookup_take_ge by lia. done.
Qed.

(** The message terminal_read prints first. *)
Definition tid_message (tid : Z) : list Z := lit "current tid: " ++ [48 + tid; 10].
Lemma print_tid tid c : 0 <= tid < MAX_TERMINAL_NUM →
  printf (lview (lit "current tid: %d" ++ [10; 0])) [tid] c = Done (foldl putc c (tid_message tid)).
Proof.
  unfold printf. generalize (c_mem c). intros m H.
  assert (printf_chars m (lview (lit "current tid: %d" ++ [10; 0])) [tid] = Done (tid_message tid)) as ->; [|done].
  unfold MAX_TERMINAL_NUM in H. assert (tid = 0 ∨ tid = 1 ∨ tid = 2) as [-> | [-> | ->]] by lia; by vm_compute.
Qed.
(** The wait ends when Enter was pressed between its first two tests. *)
Lemma wait_one_line typing p k c : enter_state k = 0 → typing 0 (k_con k, 0) = (c, 1) →
  get_terminal_id p k = current_terminal c → wait_enter typing p k = Done (c, 1).
Proof.
  intros He Ht Htid. unfold wait_enter. rewrite He.
  apply (orun_done _ (λ st, st = (0, k_con k, 0) ∨ st = (1, c, 1)) _ (λ '(i, _, _), 1 - i)); [|by left|done].
  intros [[i c'] e] [E|E]; injection E as -> -> ->; cbn.
  - rewrite Ht. split; [by right|lia].
  - by rewrite Htid, Z.eqb_refl.
Qed.

Lemma copy_line_mem n buf keys m : 0 <= n → only_in buf (buf + n + 1) m (copy_line n buf keys m) ∧
  (mem_ok m → mem_ok (copy_line n buf keys m)).
Proof.
  intros Hn. unfold copy_line.
  assert (H : only_in buf (buf + n) m (for_range 0 n (λ m i, store8 m (buf + i) (tbl keys i)) m) ∧
    (mem_ok m → mem_ok (for_range 0 n (λ m i, store8 m (buf + i) (tbl keys i)) m))).
  { apply (for_range_ind (λ _ m', only_in buf (buf + n) m m' ∧ (mem_ok m → mem_ok m'))); [done|split; [apply only_in_refl|done]|].
    intros i m' Hi [Ho Hm]. split; [eapply only_in_trans; [exact Ho|apply only_in_upd; lia]|]. intros H. apply store8_ok, Hm, H. }
  destruct H as [Ho Hm]. split; [|intros H; by apply store8_ok, Hm].
  eapply only_in_trans; [eapply only_in_weaken; [| |exact Ho]; lia|apply only_in_upd; lia].
Qed.

Lemma clear_keys c : KEY_ARR_SIZE < Z.of_nat (length (key_arr c)) → keys_ok (key_arr_clear c) ∧ depth (key_arr_clear c) = 0.
Proof.
  intros H. split; [|done]. unfold keys_ok, key_arr_clear. cbn. split_and!; try (unfold KEY_ARR_SIZE in *; lia).
  apply (for_range_ind (λ _ l, KEY_ARR_SIZE < Z.of_nat (length l))); [unfold KEY_ARR_SIZE; lia|done|]. intros i l _ Hl. by rewrite length_insert.
Qed.

(** From [c0] to [c] the line was typed and read, [n] characters of it, into
    the buffer at the physical address [a]. *)
Record line_read (c0 c : console) (line : list Z) (a n : Z) : Prop := LineRead {
  lr_bytes : bytes_of (mview (c_mem c) a) n = take (Z.to_nat n) line;
  lr_nul : c_mem c (a + n) = 0;
  lr_keys : keys_ok c ∧ depth c = 0;
  lr_current : current_terminal c = current_terminal c0;
  lr_infos : terminal_info c = terminal_info c0;
  lr_mem : ∀ x, (x < VIDEO ∨ VIDEO + SCREEN_BYTES <= x) → (x < a ∨ a + n + 1 <= x) → c_mem c x = c_mem c0 x;
  lr_ok : mem_ok (c_mem c0) → mem_ok (c_mem c);
  lr_screen : outside_text a (n + 1) → abs_video c ≡
    ts_print (attrib (current_terminal c0)) (abs_video c0) (line ++ tid_message (current_terminal c0)) }.

Lemma read_typed k c1 line typing buf nbytes p : line_typed (k_con k) c1 line → enter_state k = 0 →
  typing 0 (k_con k, 0) = (c1, 1) →
  k_pcbs k !! get_curr_pcb k = Some p → get_terminal_id (pid p) k = current_terminal (k_con k) →
  0 <= current_terminal (k_con k) < MAX_TERMINAL_NUM → 0 <= nbytes →
  let n := Z.min (Z.min (Z.of_nat (length line)) (KEY_ARR_SIZE - 1)) nbytes in
  check_range dir_addr table_addr vidmem_addr k buf (n + 1) = Done () →
  ∃ c, terminal_read dir_addr table_addr vidmem_addr typing buf nbytes k = Done (n, with_con c (with_if true (with_enter 0 k))) ∧
    line_read (k_con k) c line (phys dir_addr table_addr vidmem_addr k buf) n.
Proof.
  intros [Hc Hi [Hk Hd] Hl Hs Ho [Hm Hb] Hu] He0 Hty Hp Htid Hcur Hn n Hrange. unfold terminal_read, pcb_at. rewrite Hp. cbn [must]. rewrite bind_Done.
  rewrite (wait_one_line typing (pid p) k c1 He0 Hty) by by rewrite Htid, Hc. rewrite bind_Done, Htid, print_tid by done. rewrite bind_Done. cbv zeta.
  pose proof (print_keyboard (tid_message (current_terminal (k_con k))) c1) as [Ka Kp Ko Kc].
  destruct (print_foreground (tid_message (current_terminal (k_con k))) c1 Ho) as [Hpa Hpm].
  { apply list.Forall_app. split; [repeat (constructor; [split; done|]); constructor|]. unfold MAX_TERMINAL_NUM in Hcur. repeat constructor; lia. }
  pose proof (print_infos (tid_message (current_terminal (k_con k))) c1) as Hpi.
  pose proof (print_bytes (tid_message (current_terminal (k_con k))) c1) as Hpb.
  revert Ka Kp Ko Kc Hpa Hpm Hpi Hpb. generalize (foldl putc c1 (tid_message (current_terminal (k_con k)))).
  intros c2 Ka Kp Ko Kc Hpa Hpm Hpi Hpb. rewrite Ka, Kp.
  assert (Z.max 0 (Z.min (key_arr_ptr c1) nbytes) = n) as ->.
  { subst n. destruct Hk as (? & ? & ? & _). unfold depth in Hd. lia. }
  change (check_range dir_addr table_addr vidmem_addr (with_if true (with_enter 0 (with_con ?c k))) buf (n + 1))
    with (check_range dir_addr table_addr vidmem_addr k buf (n + 1)). rewrite Hrange, bind_Done.
  change (phys dir_addr table_addr vidmem_addr (with_if true (with_enter 0 (with_con ?c k))) buf)
    with (phys dir_addr table_addr vidmem_addr k buf). set (a := phys _ _ _ _ _).
  eexists. split; [reflexivity|].
  assert (Hn0 : 0 <= n <= Z.of_nat (length line)) by (subst n; unfold KEY_ARR_SIZE in *; lia).
  destruct (copy_line_line (key_arr c1) line n a (c_mem c2) Hu Hn0) as [Hby H0]; [intros i ch Hic Hlt; apply Hl; [done|subst n; lia]|].
  destruct (copy_line_mem n a (key_arr c1) (c_mem c2) ltac:(lia)) as [Hcm Hcb].
  split; [exact Hby|exact H0| |by rewrite <- Hc, <- Kc|by rewrite <- Hi, <- Hpi| | |].
  - apply clear_keys. cbn. rewrite Ka. apply Hk.
  - intros x Hx Hxa. cbn. rewrite Hcm by lia. rewrite Hpm by done. by apply Hm.
  - intros H. apply Hcb, Hpb, Hb, H.
  - intros Hout. rewrite ts_print_app, <- Hs, <- Hc. rewrite <- Hc in Hpa. rewrite <- Hpa.
    apply view_frame. intros o Hor. apply Hcm. unfold outside_text, TEXT_END, SCREEN_BYTES, FOUR_KB_SIZE in *. lia.
Qed.
End typing.

(** C27. A typed line.  While a process waits in [terminal_read] on the
    displayed terminal, the user types keys (letters, digits, punctuation,
    space, with shift and caps lock pressed and released at will) and then
    Enter.  The interrupts echo what the layout says the keys mean, and the
    read returns exactly that line with its newline, cut to the requested size
    and to the 127 characters of the line buffer, in the buffer of the process
    and NUL-terminated; the line buffer is empty again. *)
Theorem typed_line (dsp : Z → Z → Z) (DMA_Buffer dir_addr table_addr vidmem_addr magics : Z) (stack_dentry : dentry_t)
    (ports : list (Z → Z)) (codes : list Z) (enter : Z → Z) (b : kbd) (s : sb) (k : kernel) (p : pcb_t) (buf nbytes : Z)
    (Hports : Forall2 (λ port code, read_scancode port = Done code) ports codes)
    (Henter : read_scancode enter = Done ENTER_CODE) (Hcodes : forallb text_code codes = true)
    (Hb : flags_ok b) (Hctrl : ctrl_state b = 0) (Halt : alt_state b = 0)
    (Hkeys : keys_ok (k_con k)) (Hempty : depth (k_con k) = 0) (Hscreen : ts_ok (abs_video (k_con k)))
    (Hlen : Z.of_nat (length (decode_all b codes).2) < KEY_ARR_SIZE - 1 + 255)
    (Hp : k_pcbs k !! get_curr_pcb k = Some p) (Htid : get_terminal_id (pid p) k = current_terminal (k_con k))
    (Hcur : 0 <= current_terminal (k_con k) < MAX_TERMINAL_NUM) (Hwait : enter_state k = 0) (Hn : 0 <= nbytes) :
  let typed := (decode_all b codes).2 in
  let line := typed ++ [10] in
  let n := Z.min (Z.min (Z.of_nat (length line)) (KEY_ARR_SIZE - 1)) nbytes in
  ∃ k1, interrupts dsp DMA_Buffer dir_addr table_addr vidmem_addr magics stack_dentry (ports ++ [enter]) b s k =
      Done (None, (decode_all b codes).1, s, k1) ∧ type_line typed (k_con k) = Done (k_con k1) ∧ enter_state k1 = 1 ∧
    abs_video (k_con k1) ≡ ts_print (attrib (current_terminal (k_con k))) (abs_video (k_con k)) line ∧
    ∀ typing, typing 0 (k_con k, enter_state k) = (k_con k1, enter_state k1) →
      check_range dir_addr table_addr vidmem_addr k buf (n + 1) = Done () →
      ∃ c, terminal_read dir_addr table_addr vidmem_addr typing buf nbytes k = Done (n, with_con c (with_if true (with_enter 0 k))) ∧
        line_read (k_con k) c line (phys dir_addr table_addr vidmem_addr k buf) n.
Proof.
  intros typed line n.
  destruct (type_keys dsp DMA_Buffer dir_addr table_addr vidmem_addr magics stack_dentry k ports codes Hports k [] b s)
    as (k' & E & Ht); [|done|done|done|done|rewrite app_nil_l; unfold typed in *; lia|].
  { split; [by split|done|done|by apply line_start]. }
  rewrite app_nil_l in Ht.
  destruct (enter_key dsp DMA_Buffer dir_addr table_addr vidmem_addr magics stack_dentry k k' _ enter (decode_all b codes).1 s Ht Henter)
    as (k1 & E1 & _ & He1 & Hty1 & Hl1); [unfold typed in *; lia|].
  exists k1. split_and!; [by rewrite (interrupts_app _ _ _ _ _ _ _ _ _ _ _ _ _ _ _ E)|done|done|exact (lt_screen _ _ _ Hl1)|].
  intros typing Hty Hr. rewrite Hwait, He1 in Hty. exact (read_typed _ _ _ k (k_con k1) line typing buf nbytes p Hl1 Hwait Hty Hp Htid Hcur Hn Hr).
Qed.


(** Process 1 waits on the displayed terminal 1; the line is "Hi". *)
Definition kernel6 : kernel := with_con (with_keys (replicate 387 0) 0 0 (k_con kernel1)) kernel1.
Definition kbd6 : kbd := Kbd 0 0 0 0.
Definition keys6 : list Z := [L_SHIFT_CODE; 0x23; L_SHIFT_REL_CODE; 0x17].
Definition sb6 : sb := Sb [] 0 0 0 0 0 (replicate 32 0) 0.

Lemma typed_line_witness : ∃ k1 k2,
  interrupts (λ _ _, 0) 0x300000 0x500000 0x501000 0x502000 0 (replicate 64 0) (map (λ code (_ : Z), code) keys6 ++ [λ _, ENTER_CODE]) kbd6 sb6
    kernel6 = Done (None, kbd6, sb6, k1) ∧
  terminal_read 0x500000 0x501000 0x502000 (λ _ _, (k_con k1, enter_state k1)) 0x8048041 10 kernel6 = Done (3, k2) ∧
  bytes_of (mview (k_mem k2) 0xC48041) 3 = [72; 105; 10].
Proof.
  assert (Ephys : phys 0x500000 0x501000 0x502000 kernel6 0x8048041 = 0xC48041) by by vm_compute.
  destruct (typed_line (λ _ _, 0) 0x300000 0x500000 0x501000 0x502000 0 (replicate 64 0) (map (λ code (_ : Z), code) keys6) keys6
    (λ _, ENTER_CODE) kbd6 sb6 kernel6 pcb1 0x8048041 10) as (k1 & E1 & _ & _ & _ & Hread).
  - apply Forall2_fmap_l, Forall_Forall2_diag. repeat (constructor; [by apply orun_exit|]). constructor.
  - by apply orun_exit.
  - by vm_compute.
  - by split; left.
  - done.
  - done.
  - by split_and!.
  - done.
  - apply console1_ok.
  - by vm_compute.
  - reflexivity.
  - by vm_compute.
  - split; done.
  - done.
  - done.
  - destruct (Hread (λ _ _, (k_con k1, enter_state k1)) eq_refl ltac:(by vm_compute)) as (c2 & E2 & Hb).
    eexists k1, _. rewrite Ephys in Hb. split_and!; [exact E1|exact E2|exact (lr_bytes _ _ _ _ _ Hb)].
Defined.
