(* ===== verification/Calls.v ===== *)
(** The system calls of a running process as steps: what they keep, which
    arguments they refuse, and that a program that only makes system calls can
    always be halted back to its caller. *)
From Stdlib Require Import String.
From stdpp Require Import gmap.
From S2P Require Import Prelude Memory Strings Console Filesystem Paging Pic Rtc Kernel Terminal Syscall Tables Process.

(** Every descriptor in use has its table of driver functions. *)
Definition files_typed (p : pcb_t) : Prop := Forall (λ d, flags d = IN_USE → is_Some (ptrs d)) (files p).
Definition same_saved (p p' : pcb_t) : Prop :=
  pid p' = pid p ∧ parent_pid p' = parent_pid p ∧ parent_esp p' = parent_esp p ∧ parent_ebp p' = parent_ebp p.

Lemma files_typed_set fd d p p' : files_typed p → set_file fd d p = Done p' →
  (flags d = IN_USE → is_Some (ptrs d)) → files_typed p' ∧ same_saved p p'.
Proof.
  intros Hp E Hd. unfold set_file in E. inv_out. apply zset_Some in H as [_ ->].
  split; [|done]. by apply Forall_insert.
Qed.

Lemma set_file_twice i a b p p1 p2 : set_file i a p = Done p1 → set_file i b p1 = Done p2 → set_file i b p = Done p2.
Proof.
  unfold set_file. intros E1 E2. inv_out.
  repeat match goal with H : zset _ _ _ = Some _ |- _ => apply zset_Some in H as [? ->] end.
  cbn [files with_files] in *. rewrite zset_in by (rewrite ?length_insert in *; lia). cbn [must].
  by rewrite bind_Done, list_insert_insert_eq.
Qed.

Section calls.
Context (dir_addr table_addr vidmem_addr magics : Z) (stack_dentry : dentry_t).
Context (Hlink : linked dir_addr table_addr vidmem_addr).

Definition pages_ok (g : paging) : Prop := ∃ st, rep dir_addr table_addr vidmem_addr g st ∧ st_ok st.

(** What every system call of the process with control block [p] keeps. *)
Record keeps (k k' : kernel) (p p' : pcb_t) : Prop := Keeps {
  kp_procs : k_procs k' = k_procs k;
  kp_stack : k_esp k' = k_esp k ∧ k_ebp k' = k_ebp k ∧ tss_esp0 k' = tss_esp0 k;
  kp_running : running_terminal k' = running_terminal k;
  kp_pages : pages_ok (k_page k) → pages_ok (k_page k');
  kp_pcbs : k_pcbs k' = <[get_curr_pcb k := p']> (k_pcbs k);
  kp_saved : same_saved p p';
  kp_files : files_typed p' }.

(** Calls that touch neither the tables nor the control block. *)
Record same_process (k k' : kernel) : Prop := SameProcess {
  sp_procs : k_procs k' = k_procs k;
  sp_stack : k_esp k' = k_esp k ∧ k_ebp k' = k_ebp k ∧ tss_esp0 k' = tss_esp0 k;
  sp_running : running_terminal k' = running_terminal k;
  sp_pages : pages_ok (k_page k) → pages_ok (k_page k');
  sp_pcbs : k_pcbs k' = k_pcbs k }.

Lemma same_keeps k k' p : same_process k k' → k_pcbs k !! get_curr_pcb k = Some p → files_typed p → keeps k k' p p.
Proof. intros [H1 H2 H3 H4 H5] Hp Hf. split; try done. by rewrite H5, insert_id. Qed.
Lemma keeps_same k1 k k' p p' : keeps k1 k p p' → same_process k k' → keeps k1 k' p p'.
Proof.
  intros [H1 (H2 & H2' & H2'') H3 H4 H5 H6 H7] [E1 (E2 & E2' & E2'') E3 E4 E5].
  split; [by rewrite E1|by rewrite E2, E2', E2''|by rewrite E3|tauto|by rewrite E5|done|done].
Qed.

Lemma terminal_read_same typed buf n k r k' :
  terminal_read dir_addr table_addr vidmem_addr typed buf n k = Done (r, k') → same_process k k'.
Proof. unfold terminal_read. intros E. repeat (inv_out; repeat case_match); by split. Qed.
Lemma terminal_write_same buf n k r k' :
  terminal_write dir_addr table_addr vidmem_addr buf n k = Done (r, k') → same_process k k'.
Proof. unfold terminal_write. intros E. repeat (inv_out; repeat case_match); by split. Qed.
Lemma dir_read_same buf n k r k' :
  dir_read_call dir_addr table_addr vidmem_addr stack_dentry buf n k = Done (r, k') → same_process k k'.
Proof. unfold dir_read_call. intros E. repeat (inv_out; repeat case_match); by split. Qed.
Lemma call_open_same f k r k' : call_open f k = Done (r, k') → same_process k k'.
Proof. unfold call_open. intros E. repeat (inv_out; repeat case_match); try discriminate; by split. Qed.
Lemma call_write_same f fd buf n k r k' :
  call_write dir_addr table_addr vidmem_addr f fd buf n k = Done (r, k') → same_process k k'.
Proof.
  unfold call_write. intros E. repeat case_match; try discriminate; inv_out; try by split.
  - by apply (terminal_write_same buf n k r).
  - repeat case_match. inv_out. by split.
Qed.

(** [p] is the control block of the caller, with its descriptors typed. *)
Definition caller (k : kernel) (p : pcb_t) : Prop := k_pcbs k !! get_curr_pcb k = Some p ∧ files_typed p.

Lemma keeps_refl k p : caller k p → keeps k k p p.
Proof. intros [Hp Hf]. by apply same_keeps. Qed.
Lemma keeps_set k k0 p p' : caller k p → same_process k k0 → same_saved p p' → files_typed p' →
  keeps k (set_pcb (get_curr_pcb k) p' k0) p p'.
Proof. intros _ [H1 H2 H3 H4 H5] Hs Hf'. split; try done. cbn. by rewrite H5. Qed.
Lemma same_caller k k' p : caller k p → same_process k k' → keeps k k' p p.
Proof. intros [Hp Hf] H. by apply same_keeps. Qed.

Lemma caller_pcb k p : caller k p → pcb_at k (get_curr_pcb k) = Done p.
Proof. unfold pcb_at. by intros [-> _]. Qed.
Lemma typed_fd k p fd d : caller k p → file_at p fd = Done d → flags d = IN_USE → is_Some (ptrs d).
Proof.
  unfold file_at. intros [_ Hf] E%must_Done_inv. apply zget_Some in E as [_ E]. by apply (list.Forall_lookup_1 _ _ _ _ Hf E).
Qed.

Lemma file_read_keeps k p fd buf n r k' : caller k p →
  file_read dir_addr table_addr vidmem_addr fd buf n k = Done (r, k') → ∃ p', keeps k k' p p'.
Proof.
  intros Hc. unfold file_read. rewrite (caller_pcb k p Hc), bind_Done. intros E. inv_out. case_match. inv_out.
  match goal with H : set_file _ _ _ = Done _ |- _ =>
    destruct (files_typed_set _ _ _ _ (proj2 Hc) H) as [Hf' Hs]; [by cbn; eapply typed_fd|] end.
  eexists. by apply keeps_set.
Qed.

Lemma read_keeps k p typed ticks fd buf n r k' : caller k p →
  read dir_addr table_addr vidmem_addr stack_dentry typed ticks fd buf n k = Done (r, k') → ∃ p', keeps k k' p p'.
Proof.
  intros Hc. unfold read. rewrite (caller_pcb k p Hc), bind_Done. intros E.
  repeat (case_match; [inv_out; eexists; by apply keeps_refl|]). inv_out.
  case_match; [inv_out; eexists; by apply keeps_refl|].
  unfold call_read in *. repeat case_match; try discriminate; inv_out; try (eexists; by apply keeps_refl).
  - eexists. apply same_caller; [done|by eapply terminal_read_same].
  - eexists. apply same_caller; [done|by eapply dir_read_same].
  - repeat case_match. inv_out. eexists. by apply same_caller.
  - by eapply file_read_keeps.
Qed.
Lemma write_keeps k p fd buf n r k' : caller k p →
  write dir_addr table_addr vidmem_addr fd buf n k = Done (r, k') → ∃ p', keeps k k' p p'.
Proof.
  intros Hc. unfold write. rewrite (caller_pcb k p Hc), bind_Done. intros E.
  repeat (case_match; [inv_out; eexists; by apply keeps_refl|]). inv_out.
  case_match; inv_out; [eexists; by apply keeps_refl|]. eexists. apply same_caller; [done|by eapply call_write_same].
Qed.

(** The file type of the entry that [filename] names is one the switch of
    [open] knows. *)
Definition known_type (k : kernel) (filename : Z) : Prop := ∀ r d,
  read_dentry_by_name (k_mem k) (k_fs k) (at_user dir_addr table_addr vidmem_addr k filename) stack_dentry
    = Done (r, d) → r ≠ -1 → is_Some (type_funcs (f_type d)).

Lemma open_keeps k p filename r k' : caller k p → known_type k filename →
  open dir_addr table_addr vidmem_addr stack_dentry filename k = Done (r, k') → ∃ p', keeps k k' p p'.
Proof.
  intros Hc Hk. unfold open. intros E.
  case_match; [inv_out; eexists; by apply keeps_refl|]. inv_out. case_match.
  match goal with H : read_dentry_by_name _ _ _ _ = Done (?r, ?d) |- _ => specialize (Hk r d H) end.
  destruct (Z.eqb_spec z (-1)) as [|Hz]; [inv_out; eexists; by apply keeps_refl|]. destruct (Hk Hz) as [fns Efns].
  rewrite (caller_pcb k p Hc), bind_Done in *.
  case_match; [|inv_out; eexists; by apply keeps_refl]. rewrite Efns in *. inv_out.
  match goal with H : call_open _ _ = Done ?x |- _ => destruct x as [rc k1]; apply call_open_same in H as Hsame end.
  match goal with H1 : set_file _ _ p = Done ?p1, H2 : set_file _ _ ?p1 = Done ?p2 |- _ =>
    destruct (files_typed_set _ _ _ _ (proj2 Hc) (set_file_twice _ _ _ _ _ _ H1 H2)) as [Hf Hs]; [done|];
    assert (Hk1 : keeps k k1 p p2) end.
  { eapply keeps_same; [|exact Hsame]. split; try done. cbn. by rewrite insert_insert_eq. }
  case_match; inv_out; by eexists.
Qed.

Lemma close_keeps k p fd r k' : caller k p → close fd k = Done (r, k') → ∃ p', keeps k k' p p'.
Proof.
  intros Hc. unfold close. rewrite (caller_pcb k p Hc), bind_Done. intros E.
  repeat (case_match; [inv_out; eexists; by apply keeps_refl|]). inv_out.
  case_match; inv_out; [eexists; by apply keeps_refl|].
  match goal with H : set_file _ _ _ = Done _ |- _ =>
    destruct (files_typed_set _ _ _ _ (proj2 Hc) H) as [Hf' Hs]; [done|] end.
  eexists. by apply keeps_set.
Qed.

Lemma getargs_keeps k p buf n r k' : caller k p →
  getargs dir_addr table_addr vidmem_addr buf n k = Done (r, k') → ∃ p', keeps k k' p p'.
Proof.
  intros Hc. unfold getargs. rewrite (caller_pcb k p Hc), bind_Done. intros E. inv_out.
  case_match; inv_out; [eexists; by apply keeps_refl|]. case_match; inv_out; eexists; [|by apply keeps_refl].
  by apply same_caller.
Qed.

Lemma vidmap_keeps k p s r k' : caller k p →
  vidmap dir_addr table_addr vidmem_addr s k = Done (r, k') → ∃ p', keeps k k' p p'.
Proof.
  intros Hc. unfold vidmap. intros E. case_match; [inv_out; eexists; by apply keeps_refl|]. inv_out.
  eexists. apply same_caller; [done|]. split; try done. cbn. intros (st & Hrep & Hst).
  eexists. split; [by apply (run_op_rep _ _ _ Hlink _ st MapUserVideo)|by apply (map_op_ok st MapUserVideo)].
Qed.

Lemma set_handler_keeps k p sig h r k' : caller k p → set_handler sig h k = Done (r, k') → ∃ p', keeps k k' p p'.
Proof.
  intros Hc. unfold set_handler. rewrite (caller_pcb k p Hc), bind_Done. intros E.
  repeat (case_match; [inv_out; eexists; by apply keeps_refl|]). inv_out. eexists. apply keeps_set; try done. apply Hc.
Qed.

(** * Programs as sequences of calls *)
Inductive syscall : Type :=
| sys_read (typed : Z → console * Z → console * Z) (ticks : Z → nat) (fd buf nbytes : Z)
| sys_write (fd buf nbytes : Z)
| sys_open (filename : Z)
| sys_close (fd : Z)
| sys_getargs (buf nbytes : Z)
| sys_vidmap (screen_start : Z)
| sys_set_handler (signum handler_address : Z)
| sys_sigreturn.

Definition do_call (c : syscall) (k : kernel) : out (Z * kernel) :=
  match c with
  | sys_read typed ticks fd buf n => read dir_addr table_addr vidmem_addr stack_dentry typed ticks fd buf n k
  | sys_write fd buf n => write dir_addr table_addr vidmem_addr fd buf n k
  | sys_open filename => open dir_addr table_addr vidmem_addr stack_dentry filename k
  | sys_close fd => close fd k
  | sys_getargs buf n => getargs dir_addr table_addr vidmem_addr buf n k
  | sys_vidmap s => vidmap dir_addr table_addr vidmem_addr s k
  | sys_set_handler sig h => set_handler sig h k
  | sys_sigreturn => Done (sigreturn, k)
  end.

(** A program opens only entries of a known type. *)
Definition call_ok (c : syscall) (k : kernel) : Prop :=
  match c with sys_open filename => known_type k filename | _ => True end.

Lemma call_keeps c k p r k' : caller k p → call_ok c k → do_call c k = Done (r, k') → ∃ p', keeps k k' p p'.
Proof.
  destruct c; cbn; intros Hc Hok E.
  - by eapply read_keeps.
  - by eapply write_keeps.
  - by eapply open_keeps.
  - by eapply close_keeps.
  - by eapply getargs_keeps.
  - by eapply vidmap_keeps.
  - by eapply set_handler_keeps.
  - inv_out. eexists. by apply keeps_refl.
Qed.

(** The states a program reaches by calls and by stores of its own; what else
    it does changes only its registers. *)
Inductive runs : kernel → list Z → kernel → Prop :=
| runs_nil k : runs k [] k
| runs_store k a v k1 rs k2 : user_store dir_addr table_addr vidmem_addr a v k = Done k1 → runs k1 rs k2 → runs k rs k2
| runs_cons k c r k1 rs k2 : call_ok c k → do_call c k = Done (r, k1) → runs k1 rs k2 → runs k (r :: rs) k2.

Lemma keeps_trans k1 k2 k3 p1 p2 p3 : keeps k1 k2 p1 p2 → keeps k2 k3 p2 p3 → keeps k1 k3 p1 p3.
Proof.
  intros [H1 (H2 & H2' & H2'') H3 H4 H5 H6 H7] [E1 (E2 & E2' & E2'') E3 E4 E5 E6 E7]. split.
  - by rewrite E1.
  - by rewrite E2, E2', E2''.
  - by rewrite E3.
  - tauto.
  - rewrite E5, H5. unfold get_curr_pcb. rewrite H2. apply insert_insert_eq.
  - destruct H6 as (? & ? & ? & ?), E6 as (? & ? & ? & ?). split_and!; congruence.
  - done.
Qed.
Lemma keeps_caller k k' p p' : keeps k k' p p' → caller k' p'.
Proof.
  intros [_ (E & _) _ _ H _ Hf]. split; [|done]. unfold get_curr_pcb. rewrite H, E. apply lookup_insert_eq.
Qed.

Lemma runs_keeps k rs k' : runs k rs k' → ∀ p, caller k p → ∃ p', keeps k k' p p'.
Proof.
  induction 1 as [k|k a v k1 rs k2 E _ IH|k c r k1 rs k2 Hok E _ IH]; intros p Hc.
  - eexists. by apply keeps_refl.
  - assert (H1 : keeps k k1 p p).
    { unfold user_store in E. inv_out. case_match; [|done]. inv_out. by apply same_caller. }
    destruct (IH p (keeps_caller _ _ _ _ H1)) as [p2 H2]. exists p2. by eapply keeps_trans.
  - destruct (call_keeps c k p r k1 Hc Hok E) as [p1 H1].
    destruct (IH p1 (keeps_caller _ _ _ _ H1)) as [p2 H2]. exists p2. by eapply keeps_trans.
Qed.
End calls.

(** The driver of an open descriptor that cannot do what is asked: standard
    input is not written, standard output not read, files and directories not
    written. *)
Definition no_read (f : file_operation_ptrs) : Prop := f = fail_funcs ∨ f = stdout_funcs.
Definition no_write (f : file_operation_ptrs) : Prop :=
  f = fail_funcs ∨ f = stdin_funcs ∨ f = dir_funcs ∨ f = file_funcs.
Definition closed_fd (p : pcb_t) (fd : Z) : Prop :=
  ¬ (0 <= fd < MAX_FD) ∨ ∃ d, zget (files p) fd = Some d ∧ flags d = NOT_IN_USE.
Definition open_as (p : pcb_t) (fd : Z) (ok : file_operation_ptrs → Prop) : Prop :=
  ∃ d f, zget (files p) fd = Some d ∧ flags d = IN_USE ∧ ptrs d = Some f ∧ ok f.

Lemma free_fd_none l i : Forall (λ d, flags d = IN_USE) l → free_fd l i = None.
Proof. intros H. revert i. induction H as [|d l Hd _ IH]; intros i; [done|]. cbn. rewrite Hd. apply IH. Qed.

(** [open] of an entry of unknown type takes the descriptor all the same, and
    leaves it without functions: closing it calls through a garbage pointer. *)
Lemma open_unknown_type_leaks k p d rest r dentry filename c :
  k_pcbs k !! get_curr_pcb k = Some p → files p = rest ++ [d] → length rest = 2%nat →
  flags d = NOT_IN_USE → ptrs d = None → filename ≠ 0 → r ≠ -1 → type_funcs (f_type dentry) = None →
  read_dentry_by_name (k_mem k) (k_fs k) (at_user 0 0 0 k filename) [] = Done (r, dentry) →
  printf (lview (lit "invalid file type!!!" ++ [10; 0])) [] (k_con k) = Done c →
  ∃ k', open 0 0 0 [] filename k = Done (-1, k') ∧ close 2 k' = Undef.
Proof.
  intros Hp Hl Hr Hd Hptr Hf Hr1 Ht Hread Hc. unfold open.
  rewrite (proj2 (Z.eqb_neq _ _) Hf), Hread, bind_Done, (proj2 (Z.eqb_neq _ _) Hr1).
  unfold pcb_at. rewrite Hp. cbn [must]. rewrite bind_Done, Hl, drop_app_length' by done. cbn [free_fd].
  rewrite Hd. change (NOT_IN_USE =? NOT_IN_USE) with true. cbv iota. unfold MIN_FD, file_at, set_file. rewrite Hl.
  assert (Eg : zget (rest ++ [d]) 2 = Some d).
  { apply zget_Some. split; [lia|]. rewrite lookup_app_r, Hr by lia. done. }
  assert (Ez : ∀ x, zset (rest ++ [d]) 2 x = Some (rest ++ [x])).
  { intros x. rewrite zset_in by (rewrite length_app, Hr; cbn; lia). change (Z.to_nat 2) with 2%nat. rewrite <- Hr at 1.
    f_equal. rewrite <- (Nat.add_0_r (length rest)), insert_app_r. done. }
  rewrite Eg. cbn [must]. rewrite bind_Done, Ez. cbn [must]. rewrite !bind_Done, Ht.
  change (k_con (set_pcb _ _ k)) with (k_con k). rewrite Hc, bind_Done.
  eexists. split; [done|]. unfold close. change ((2 <? MIN_FD) || (MAX_FD <=? 2)) with false. cbv iota.
  change (get_curr_pcb (with_con _ _)) with (get_curr_pcb k). unfold pcb_at. cbn [k_pcbs with_con set_pcb with_pcbs].
  rewrite lookup_insert_eq. cbn [must]. rewrite bind_Done. unfold file_at. cbn [files with_files].
  replace (zget _ 2) with (Some (FileDesc (ptrs d) (i_node dentry) 0 IN_USE)).
  2: { symmetry. apply zget_Some. split; [lia|]. rewrite lookup_app_r, Hr by lia. done. }
  cbn [must]. rewrite bind_Done, Hptr. change (IN_USE =? NOT_IN_USE) with false. cbv iota.
  cbn [flags]. unfold set_file. cbn [files with_files]. rewrite zset_in by (rewrite length_app, Hr; cbn; lia). done.
Qed.


(** Process 2, started by process 1 on terminal 1. *)
Definition pcb7 : pcb_t :=
  Pcb (init_files (replicate 8 (FileDesc None 0 0 0))) 2 1 0x7F9000 0x7F9100 0 0 (replicate 100 0) 0x3F signal_default.
Definition kernel7 : kernel :=
  set_pcb (get_pcb_by_index 2) pcb7 (with_stack (stack_top 2) 0 (with_procs (pushed (k_procs kernel3) 1 2) kernel3)).

(** It installs a handler, stores a byte, closes a descriptor that is not open, and calls sigreturn. *)
Definition kernel7_handler : kernel :=
  set_pcb (get_pcb_by_index 2) (with_sighandler (user_handler 0x8048100) pcb7) kernel7.
Definition kernel7_end : kernel := set_mem (store8 (k_mem kernel7_handler) 0xC50000 7) kernel7_handler.
Lemma kernel7_stores : user_store 0x500000 0x501000 0x502000 0x8050000 7 kernel7_handler = Done kernel7_end.
Proof.
  assert (E : translation 0x500000 0x501000 0x502000 kernel7_handler 0x8050000 = Some (Xlat 0xC50000 true true)) by by vm_compute.
  unfold user_store. by rewrite E.
Qed.


(** A lookup finds an entry with the name, or returns -1. *)
Lemma name_lookup m f name dentry len : image_ok m f → dir_ok m f → is_cstr name len → readable name len → len < 2 ^ 32 →
  ∃ r d, read_dentry_by_name m f name dentry = Done (r, d) ∧
  (r = -1 ∨ len <= 32 ∧ ∃ i, 0 <= i < num_dentries f ∧ entry_name m f i = bytes_of name len).
Proof.
  intros Hi Hd Hc Hread Hlen. destruct (Z.leb_spec len 32) as [Hle|Hgt].
  - destruct (read_dentry_by_name_found m f Hi Hd name len Hc Hread) with (dentry := dentry) as ([r d] & E & Hr); [done|].
    exists r, d. split; [done|]. destruct Hr as [(i & Hi' & Ei & _)|[_ [= -> ->]]]; [right; split; [done|by exists i]|by left].
  - exists (-1), dentry. split; [|by left]. unfold read_dentry_by_name.
    rewrite (strlen_spec _ len Hc Hlen), bind_Done. unfold F_TYPE_OFFSET. destruct (Z.ltb_spec 32 len); [done|lia].
Qed.

(** The guards [read] and [write] share. *)
Lemma fd_guard k p fd n buf (call : file_desc_t → out (Z * kernel)) (no : file_operation_ptrs → Prop) :
  k_pcbs k !! get_curr_pcb k = Some p → length (files p) = 8%nat →
  (∀ d f, ptrs d = Some f → no f → call d = Done (-1, k)) →
  closed_fd p fd ∨ n < 0 ∨ buf = 0 ∨ open_as p fd no →
  (if (fd <? 0) || (MAX_FD <=? fd) then Done (-1, k) else
   if n <? 0 then Done (-1, k) else
   if buf =? 0 then Done (-1, k) else
   p ← pcb_at k (get_curr_pcb k);
   d ← file_at p fd;
   if flags d =? NOT_IN_USE then Done (-1, k) else call d) = Done (-1, k).
Proof.
  intros Hp Hl Hcall Hbad. destruct ((fd <? 0) || (MAX_FD <=? fd)) eqn:Efd; [done|].
  apply orb_false_iff in Efd as [Hf1%Z.ltb_ge Hf2%Z.leb_gt]. unfold MAX_FD in Hf2.
  destruct (Z.ltb_spec n 0); [done|]. destruct (Z.eqb_spec buf 0); [done|].
  unfold pcb_at, file_at. rewrite Hp. cbn [must]. rewrite bind_Done.
  destruct (zget_is_Some (files p) fd ltac:(lia)) as [d Hd]. rewrite Hd. cbn [must]. rewrite bind_Done.
  destruct Hbad as [[Hr|(d' & Hd' & Ef)]|[?|[?|(d' & f & Hd' & _ & Ef & Hno)]]]; [unfold MAX_FD in Hr; lia| |lia|done|];
    rewrite Hd in Hd'; injection Hd' as <-.
  - by rewrite Ef.
  - by destruct (flags d =? NOT_IN_USE); [|apply (Hcall d f)].
Qed.

(** ** The refusals, call by call *)
Section refused.
Context (dir_addr table_addr vidmem_addr : Z) (stack_dentry : dentry_t).
Context (Hlink : linked dir_addr table_addr vidmem_addr) (id : Z) (k : kernel) (p : pcb_t).
Context (H : sys_ok dir_addr table_addr vidmem_addr id k p).

Lemma read_refused typed ticks fd buf n : closed_fd p fd ∨ n < 0 ∨ buf = 0 ∨ open_as p fd no_read →
  read dir_addr table_addr vidmem_addr stack_dentry typed ticks fd buf n k = Done (-1, k).
Proof.
  intros Hbad. apply (fd_guard k p fd n buf _ no_read (so_pcb _ _ _ _ _ _ H) (so_files _ _ _ _ _ _ H)); [|done]. by intros d f -> [-> | ->].
Qed.
Lemma write_refused fd buf n : closed_fd p fd ∨ n < 0 ∨ buf = 0 ∨ open_as p fd no_write →
  write dir_addr table_addr vidmem_addr fd buf n k = Done (-1, k).
Proof.
  intros Hbad. apply (fd_guard k p fd n buf _ no_write (so_pcb _ _ _ _ _ _ H) (so_files _ _ _ _ _ _ H)); [|done].
  by intros d f -> [-> | [-> | [-> | ->]]].
Qed.
Lemma close_refused fd : closed_fd p fd ∨ fd < 2 → close fd k = Done (-1, k).
Proof.
  intros Hbad. unfold close, MIN_FD, MAX_FD. destruct (Z.ltb_spec fd 2) as [|H1]; [done|].
  destruct (Z.leb_spec 8 fd) as [|H2]; [done|]. cbn [orb]. unfold pcb_at, file_at. rewrite (so_pcb _ _ _ _ _ _ H). cbn [must]. rewrite bind_Done.
  destruct Hbad as [[Hr|(d & Hd & Ef)]|?]; [unfold MAX_FD in Hr; lia| |lia]. rewrite Hd. cbn [must]. by rewrite bind_Done, Ef.
Qed.
Lemma open_refused filename len : let name := at_user dir_addr table_addr vidmem_addr k filename in
  filename = 0 ∨ is_cstr name len ∧ len < 2 ^ 32 ∧
    (32 < len ∨ (∀ i, 0 <= i < num_dentries (k_fs k) → entry_name (k_mem k) (k_fs k) i ≠ bytes_of name len) ∨
     Forall (λ d, flags d = IN_USE) (drop 2 (files p))) →
  open dir_addr table_addr vidmem_addr stack_dentry filename k = Done (-1, k).
Proof.
  intros name Hbad. unfold open. fold name. destruct (Z.eqb_spec filename 0) as [|Hne]; [done|].
  destruct Hbad as [?|(Hname & Hlen & Hbad)]; [done|].
  pose proof (so_image _ _ _ _ _ _ H) as Him. pose proof (so_dir _ _ _ _ _ _ H) as Hdir.
  pose proof (at_user_readable _ _ _ k filename len Him Hname) as Hread.
  destruct (name_lookup _ _ _ stack_dentry _ Him Hdir Hname Hread Hlen) as (r & d & E & Hr). rewrite E, bind_Done.
  destruct (Z.eqb_spec r (-1)) as [|Hr1]; [done|]. destruct Hbad as [?|[Hno|Hfull]].
  - destruct Hr as [?|(? & _)]; [done|lia].
  - destruct Hr as [?|(_ & i & Hi & Ei)]; [done|]. by destruct (Hno i Hi).
  - unfold pcb_at. rewrite (so_pcb _ _ _ _ _ _ H). cbn [must]. by rewrite bind_Done, (free_fd_none _ MIN_FD Hfull).
Qed.
Lemma vidmap_refused s : s < _128_MB_SIZE ∨ _128_MB_SIZE + FOUR_MB_SIZE - 4 < s → vidmap dir_addr table_addr vidmem_addr s k = Done (-1, k).
Proof.
  intros Hs. unfold vidmap, ESP_OFFSET. destruct (Z.ltb_spec s _128_MB_SIZE); [done|].
  destruct (Z.ltb_spec (_128_MB_SIZE + FOUR_MB_SIZE - 4) s); [done|lia].
Qed.
Lemma set_handler_refused sig h : sig < 0 ∨ 4 < sig → set_handler sig h k = Done (-1, k).
Proof. intros Hs. unfold set_handler. destruct (Z.ltb_spec sig 0); [done|]. destruct (Z.ltb_spec 4 sig); [done|lia]. Qed.
End refused.

(** C29. Refused calls.  An invalid argument costs nothing: [read] and [write]
    on a number that is no descriptor, on a closed descriptor, with a negative
    size, with a NULL buffer or in a direction the file does not have,
    [close] of those and of the standard descriptors, [open] of a name that
    is too long or not in the directory, or with every descriptor in use,
    [vidmap] with a pointer outside the program page and [set_handler] with
    an unknown signal all return -1 and leave the whole kernel state as it
    was. *)
Theorem invalid_calls_refused (dir_addr table_addr vidmem_addr : Z) (stack_dentry : dentry_t)
    (Hlink : linked dir_addr table_addr vidmem_addr) (id : Z) (k : kernel) (p : pcb_t)
    (H : sys_ok dir_addr table_addr vidmem_addr id k p) :
  (∀ typed ticks fd buf n, closed_fd p fd ∨ n < 0 ∨ buf = 0 ∨ open_as p fd no_read →
    read dir_addr table_addr vidmem_addr stack_dentry typed ticks fd buf n k = Done (-1, k)) ∧
  (∀ fd buf n, closed_fd p fd ∨ n < 0 ∨ buf = 0 ∨ open_as p fd no_write →
    write dir_addr table_addr vidmem_addr fd buf n k = Done (-1, k)) ∧
  (∀ fd, closed_fd p fd ∨ fd < 2 → close fd k = Done (-1, k)) ∧
  (∀ filename len, let name := at_user dir_addr table_addr vidmem_addr k filename in
    filename = 0 ∨ is_cstr name len ∧ len < 2 ^ 32 ∧
      (32 < len ∨ (∀ i, 0 <= i < num_dentries (k_fs k) → entry_name (k_mem k) (k_fs k) i ≠ bytes_of name len) ∨
       Forall (λ d, flags d = IN_USE) (drop 2 (files p))) →
    open dir_addr table_addr vidmem_addr stack_dentry filename k = Done (-1, k)) ∧
  (∀ s, s < _128_MB_SIZE ∨ _128_MB_SIZE + FOUR_MB_SIZE - 4 < s →
    vidmap dir_addr table_addr vidmem_addr s k = Done (-1, k)) ∧
  (∀ sig h, sig < 0 ∨ 4 < sig → set_handler sig h k = Done (-1, k)).
Proof.
  split_and!; eauto using read_refused, write_refused, close_refused, open_refused, vidmap_refused, set_handler_refused.
Qed.


(** Standard input is not written, standard output not read, descriptor 2 is
    closed, and there is no file "b". *)
Lemma invalid_calls_refused_witness :
  write 0x500000 0x501000 0x502000 0 0x8048000 2 kernel2 = Done (-1, kernel2) ∧
  read 0x500000 0x501000 0x502000 (replicate 64 0) (λ _ x, x) (λ _, O) 1 0x8048000 2 kernel2 = Done (-1, kernel2) ∧
  close 2 kernel2 = Done (-1, kernel2) ∧
  open 0x500000 0x501000 0x502000 (replicate 64 0) 0x8048001 kernel2 = Done (-1, kernel2) ∧
  vidmap 0x500000 0x501000 0x502000 0 kernel2 = Done (-1, kernel2) ∧ set_handler 5 0x8048000 kernel2 = Done (-1, kernel2).
Proof.
  destruct (invalid_calls_refused 0x500000 0x501000 0x502000 (replicate 64 0) linked0 1 kernel2 pcb2 kernel2_ok)
    as (Hr & Hw & Hc & Ho & Hv & Hs). split_and!.
  - apply Hw. right; right; right. exists (FileDesc (Some stdin_funcs) (u32 (-1)) 0 IN_USE), stdin_funcs.
    split_and!; [by vm_compute|done|done|]. right; by left.
  - apply Hr. right; right; right. exists (FileDesc (Some stdout_funcs) (u32 (-1)) 0 IN_USE), stdout_funcs.
    split_and!; [by vm_compute|done|done|]. by right.
  - apply Hc. left; right. exists (FileDesc None 0 0 NOT_IN_USE). split; [by vm_compute|done].
  - apply (Ho _ 1). right. split; [|split; [done|]].
    + split; [done|]. split; [by vm_compute|]. intros i Hi. assert (i = 0) as -> by lia. exists 98. split; [by vm_compute|done].
    + right; left. assert (Ed : num_dentries (k_fs kernel2) = 2) by by vm_compute. rewrite Ed.
      intros i Hi. assert (i = 0 ∨ i = 1) as [-> | ->] by lia; by vm_compute.
  - apply Hv. left. by vm_compute.
  - apply Hs. lia.
Defined.
