(* ===== verification/Linkage.v ===== *)
(** The assembly around a system call: the wrappers of
    syscalls/ece391syscall.S that a program calls, the interrupt gate of
    student-distrib/syscall_linkage.S, its jump table, and the theorem that
    the two together are a call of the kernel's C function. *)
From Stdlib Require Import String.
From stdpp Require Import gmap.
From S2P Require Import Prelude Memory Strings Console Filesystem Paging Pic Rtc Kernel Terminal Syscall Sb16 Calls.

(** * Registers and a stack *)
Record regs : Type := Regs { eax : Z; ebx : Z; ecx : Z; edx : Z; esi : Z; edi : Z; ebp : Z }.
Record cpu : Type := Cpu { rf : regs; stack : list Z }.

Definition set_eax (v : Z) (r : regs) : regs := Regs v (ebx r) (ecx r) (edx r) (esi r) (edi r) (ebp r).
Definition set_ebx (v : Z) (r : regs) : regs := Regs (eax r) v (ecx r) (edx r) (esi r) (edi r) (ebp r).
Definition set_ecx (v : Z) (r : regs) : regs := Regs (eax r) (ebx r) v (edx r) (esi r) (edi r) (ebp r).
Definition set_edx (v : Z) (r : regs) : regs := Regs (eax r) (ebx r) (ecx r) v (esi r) (edi r) (ebp r).
Definition set_esi (v : Z) (r : regs) : regs := Regs (eax r) (ebx r) (ecx r) (edx r) v (edi r) (ebp r).
Definition set_edi (v : Z) (r : regs) : regs := Regs (eax r) (ebx r) (ecx r) (edx r) (esi r) v (ebp r).
Definition set_ebp (v : Z) (r : regs) : regs := Regs (eax r) (ebx r) (ecx r) (edx r) (esi r) (edi r) v.

Definition movl (v : regs → Z) (set : Z → regs → regs) (m : cpu) : cpu := Cpu (set (v (rf m)) (rf m)) (stack m).
Definition pushl (v : regs → Z) (m : cpu) : cpu := Cpu (rf m) (v (rf m) :: stack m).
Definition popl (set : Z → regs → regs) (m : cpu) : out cpu :=
  match stack m with v :: s => Done (Cpu (set v (rf m)) s) | [] => Undef end.
(** The word at [4 i] above the stack pointer. *)
Definition at_esp (i : nat) (m : cpu) : out Z := must (stack m !! i).

(** * C functions *)

(** A function called with three words on the stack either returns a value,
    leaving whatever it likes in its argument words and in the two registers a
    callee may use, or control goes elsewhere. *)
Inductive ended (S : Type) : Type :=
| Returned (value : Z) (words : Z * Z * Z) (ecx_left edx_left : Z) (st : S)
| Left (o : outcome) (st : S).
Arguments Returned {S}.
Arguments Left {S}.

(** * The gate and the wrappers *)
Section gate.
Context {S : Type} (table : Z → Z → Z → Z → S → out (ended S)).

Definition MIN_CALL : Z := 1.
Definition MAX_CALL : Z := 11.

Definition restore (m : cpu) (st : S) : out ((cpu + outcome) * S) :=
  m ← popl set_ebp m; m ← popl set_edi m; m ← popl set_esi m; Done (inl m, st).

Definition syscall_assembly (m : cpu) (st : S) : out ((cpu + outcome) * S) :=
  let m := pushl esi m in let m := pushl edi m in let m := pushl ebp m in
  if (i32 (eax (rf m)) <? MIN_CALL) || (MAX_CALL <? i32 (eax (rf m))) then
    restore (movl (λ _, u32 (-1)) set_eax m) st
  else
    let m := pushl edx m in let m := pushl ecx m in let m := pushl ebx m in
    let m := movl (λ r, u32 (eax r - 1)) set_eax m in
    a1 ← at_esp 0 m; a2 ← at_esp 1 m; a3 ← at_esp 2 m;
    e ← table (eax (rf m)) a1 a2 a3 st;
    match e with
    | Left o st => Done (inr o, st)
    | Returned v (w1, w2, w3) c d st =>
        let m := Cpu (set_edx d (set_ecx c (set_eax (u32 v) (rf m)))) (w1 :: w2 :: w3 :: drop 3 (stack m)) in
        m ← popl set_ebx m; m ← popl set_ecx m; m ← popl set_ebx m;
        restore m st
    end.

(** [int 0x80]: the gate runs on the kernel stack of the process. *)
Definition int80 (kernel_stack : list Z) (m : cpu) (st : S) : out ((cpu + outcome) * S) :=
  '(r, st) ← syscall_assembly (Cpu (rf m) kernel_stack) st;
  Done (match r with inl m' => inl (Cpu (rf m') (stack m)) | inr o => inr o end, st).

(** A wrapper, called with its return address on top of the stack. *)
Definition DO_CALL (number : Z) (kernel_stack : list Z) (m : cpu) (st : S) : out ((cpu + outcome) * S) :=
  let m := pushl ebx m in
  let m := movl (λ _, number) set_eax m in
  a1 ← at_esp 2 m; let m := movl (λ _, a1) set_ebx m in
  a2 ← at_esp 3 m; let m := movl (λ _, a2) set_ecx m in
  a3 ← at_esp 4 m; let m := movl (λ _, a3) set_edx m in
  '(r, st) ← int80 kernel_stack m st;
  match r with
  | inr o => Done (inr o, st)
  | inl m => m ← popl set_ebx m; match stack m with _ :: s => Done (inl (Cpu (rf m) s), st) | [] => Undef end
  end.

(** [call_sys] of ece391syserr.c: the inline assembly between the registers of
    its caller. *)
Definition call_sys (num : Z) (kernel_stack : list Z) (m : cpu) (st : S) : out (option Z * S) :=
  '(r, st) ← int80 kernel_stack (movl (λ _, u32 num) set_eax m) st;
  Done (match r with inl m => Some (i32 (eax (rf m))) | inr _ => None end, st).
End gate.

(** * The jump table *)
Section table.
Context (dir_addr table_addr vidmem_addr magics : Z) (stack_dentry : dentry_t).
Context (typed : Z → console * Z → console * Z) (ticks : Z → nat).
Context (dsp : Z → Z → Z) (DMA_Buffer magic dh : Z).
(** What a compiled function leaves in its argument words, in ECX and in EDX. *)
Context (left_over : Z → Z * Z * Z → Z * Z * Z * Z * Z).

(** The C function behind each number, on its three argument words. *)
Definition c_function (i a1 a2 a3 : Z) (st : sb * kernel) : out (outcome * (sb * kernel)) :=
  let '(s, k) := st in
  let call (o : out (Z * kernel)) := '(v, k) ← o; Done (Return v, (s, k)) in
  let jump (o : out (outcome * kernel)) := '(v, k) ← o; Done (v, (s, k)) in
  match i with
  | 1 => jump (execute dir_addr table_addr vidmem_addr magics stack_dentry (at_user dir_addr table_addr vidmem_addr k a1) k)
  | 2 => call (read dir_addr table_addr vidmem_addr stack_dentry typed ticks (i32 a1) a2 (i32 a3) k)
  | 3 => call (write dir_addr table_addr vidmem_addr (i32 a1) a2 (i32 a3) k)
  | 4 => call (open dir_addr table_addr vidmem_addr stack_dentry a1 k)
  | 5 => call (close (i32 a1) k)
  | 6 => call (getargs dir_addr table_addr vidmem_addr a1 (i32 a2) k)
  | 7 => call (vidmap dir_addr table_addr vidmem_addr a1 k)
  | 8 => call (set_handler (i32 a1) a2 k)
  | 9 => call (Done (sigreturn, k))
  | 10 => '(v, s, k) ← play dsp DMA_Buffer magic dh dir_addr table_addr vidmem_addr stack_dentry a1 s k; Done (Return v, (s, k))
  | _ => Undef
  end.

Definition jumptable (i a1 a2 a3 : Z) (st : sb * kernel) : out (ended (sb * kernel)) :=
  if i =? 0 then '(o, k) ← halt dir_addr table_addr vidmem_addr magics stack_dentry (u8 a1) (snd st); Done (Left o (fst st, k)) else
  '(o, st) ← c_function i a1 a2 a3 st;
  Done (match o with
        | Return v => let '(w, c, d) := left_over i (a1, a2, a3) in Returned v w c d st
        | _ => Left o st
        end).
End table.

(** * What a call does *)
Section gate_facts.
Context {S : Type} (table : Z → Z → Z → Z → S → out (ended S)).

Lemma gate_refuses ks r st : i32 (eax r) < MIN_CALL ∨ MAX_CALL < i32 (eax r) →
  syscall_assembly table (Cpu r ks) st = Done (inl (Cpu (set_eax (u32 (-1)) r) ks), st).
Proof.
  intros H. unfold syscall_assembly. cbn [rf pushl].
  assert ((i32 (eax r) <? MIN_CALL) || (MAX_CALL <? i32 (eax r)) = true) as ->.
  { apply orb_true_iff. destruct H; [left|right]; by apply Z.ltb_lt. }
  done.
Qed.

Lemma call_range n : 1 <= n <= 11 → (i32 n <? MIN_CALL) || (MAX_CALL <? i32 n) = false ∧ u32 (n - 1) = n - 1.
Proof.
  intros H. rewrite i32_small, u32_id by (try split; lia). split; [|done]. unfold MIN_CALL, MAX_CALL.
  by rewrite !(proj2 (Z.ltb_ge _ _)) by lia.
Qed.

(** The gate on a number it knows: every register of the caller but EAX, the
    two a callee may use, and EBX, which is popped from the place of EDX. *)
Lemma gate_calls ks r st n : eax r = n → 1 <= n <= 11 → syscall_assembly table (Cpu r ks) st =
  (e ← table (n - 1) (ebx r) (ecx r) (edx r) st;
   Done (match e with
         | Returned v (_, w2, w3) _ d st => (inl (Cpu (Regs (u32 v) w3 w2 d (esi r) (edi r) (ebp r)) ks), st)
         | Left o st => (inr o, st)
         end)).
Proof.
  intros <- Hn. destruct (call_range _ Hn) as [Hr Hd]. unfold syscall_assembly, pushl, movl. cbn [rf stack at_esp]. rewrite Hr.
  cbn [set_eax eax]. rewrite Hd. unfold at_esp. cbn [stack must list_lookup lookup]. rewrite !bind_Done.
  destruct (table _ _ _ _ _) as [[v [[w1 w2] w3] c d st'|o st']| |]; done.
Qed.

(** A wrapper is a call of the function behind its number with the caller's
    own arguments. *)
Lemma wrapper_calls ks r ret a1 a2 a3 rest st n : 1 <= n <= 11 →
  DO_CALL table n ks (Cpu r (ret :: a1 :: a2 :: a3 :: rest)) st =
  (e ← table (n - 1) a1 a2 a3 st;
   Done (match e with
         | Returned v (_, w2, _) _ d st => (inl (Cpu (Regs (u32 v) (ebx r) w2 d (esi r) (edi r) (ebp r)) (a1 :: a2 :: a3 :: rest)), st)
         | Left o st => (inr o, st)
         end)).
Proof.
  intros Hn. unfold DO_CALL, at_esp, pushl, movl. cbn [rf stack must list_lookup lookup]. rewrite !bind_Done.
  unfold int80. cbn [rf stack]. rewrite (gate_calls ks _ st n); [|done|done]. cbn [ebx ecx edx esi edi ebp set_eax set_ebx set_ecx set_edx].
  destruct (table _ _ _ _ _) as [[v [[w1 w2] w3] c d st'|o st']| |]; done.
Qed.

(** A direct [int 0x80] comes back with EBX changed. *)
Lemma gate_loses_ebx ks r st n v w1 w2 w3 c d st' : eax r = n → 1 <= n <= 11 →
  table (n - 1) (ebx r) (ecx r) (edx r) st = Done (Returned v (w1, w2, w3) c d st') →
  ∃ r', syscall_assembly table (Cpu r ks) st = Done (inl (Cpu r' ks), st') ∧ ebx r' = w3 ∧ edx r' = d.
Proof. intros En Hn Ht. rewrite (gate_calls ks r st n En Hn), Ht, bind_Done. by eexists. Qed.
End gate_facts.

(** The registers a C caller finds as it left them. *)
Definition callee_saved (r r' : regs) : Prop := ebx r' = ebx r ∧ esi r' = esi r ∧ edi r' = edi r ∧ ebp r' = ebp r.

(** C6. The system call linkage.  Whatever the compiled kernel functions leave
    in their argument words and scratch registers, a program that calls the
    wrapper with number 2 to 11 runs the C function of that place of the jump
    table on exactly its own arguments: if that returns, the wrapper returns
    its value, with the stack popped by the return address and EBX, ESI, EDI
    and EBP as before; if control goes elsewhere, it goes there; number 1 is
    halt with the low byte of the status.  Any number that is not between 1
    and 11 as a signed integer gives -1 and reaches no kernel function. *)
Theorem system_call_linkage (dir_addr table_addr vidmem_addr magics : Z) (stack_dentry : dentry_t)
    (typed : Z → console * Z → console * Z) (ticks : Z → nat) (dsp : Z → Z → Z) (DMA_Buffer magic dh : Z)
    (left_over : Z → Z * Z * Z → Z * Z * Z * Z * Z) (kernel_stack : list Z) (r : regs) (ret a1 a2 a3 : Z) (rest : list Z)
    (s : sb) (k : kernel) :
  let table := jumptable dir_addr table_addr vidmem_addr magics stack_dentry typed ticks dsp DMA_Buffer magic dh left_over in
  let run n := DO_CALL table n kernel_stack (Cpu r (ret :: a1 :: a2 :: a3 :: rest)) (s, k) in
  let back v st m := ∃ r', m = Done (inl (Cpu r' (a1 :: a2 :: a3 :: rest)), st) ∧ eax r' = u32 v ∧ callee_saved r r' in
  (∀ n, 2 <= n <= 11 →
    match c_function dir_addr table_addr vidmem_addr magics stack_dentry typed ticks dsp DMA_Buffer magic dh (n - 1) a1 a2 a3 (s, k) with
    | Done (Return v, st) => back v st (run n)
    | Done (o, st) => run n = Done (inr o, st)
    | Undef => run n = Undef
    | Hang => run n = Hang
    end) ∧
  run 1 = ('(o, k) ← halt dir_addr table_addr vidmem_addr magics stack_dentry (u8 a1) k; Done (inr o, (s, k))) ∧
  (∀ n, i32 n < 1 ∨ 11 < i32 n → back (-1) (s, k) (run n) ∧
    ∀ m : cpu, call_sys table n kernel_stack m (s, k) = Done (Some (-1), (s, k))).
Proof.
  intros table run back. split_and!.
  - intros n Hn. unfold run. rewrite wrapper_calls by lia. unfold table, jumptable. rewrite (proj2 (Z.eqb_neq (n - 1) 0)) by lia.
    destruct (c_function _ _ _ _ _ _ _ _ _ _ _ _ _ _ _ _) as [[[v|eip esp|a sig] st]| |]; cbn [mbind out_bind]; try done.
    destruct (left_over _ _) as [[[[w1 w2] w3] c] d]. by eexists.
  - unfold run. rewrite wrapper_calls by lia. change (1 - 1) with 0. unfold table, jumptable. cbn [Z.eqb snd fst].
    destruct (halt _ _ _ _ _ _ _) as [[o k']| |]; done.
  - intros n Hn. split.
    + unfold run, DO_CALL, at_esp, pushl, movl. cbn [rf stack must list_lookup lookup]. rewrite !bind_Done. unfold int80. cbn [rf stack].
      rewrite gate_refuses by exact Hn. rewrite bind_Done. by eexists.
    + intros m. unfold call_sys, int80, movl. cbn [rf stack].
      rewrite gate_refuses; [by rewrite !bind_Done|]. cbn [eax set_eax]. unfold i32 in *. by rewrite u32_u32.
Qed.

(** Closing descriptor 2, which is closed, and a number that is no call. *)
Definition sb31 : sb := Sb [] 0 0 0 0 0 (replicate 32 0) 0.
Definition table31 : Z → Z → Z → Z → sb * kernel → out (ended (sb * kernel)) :=
  jumptable 0x500000 0x501000 0x502000 0x503000 (replicate 64 0) (λ _ x, x) (λ _, O) (λ _ _, 0) 0x300000 0x310000 0
    (λ _ w, (w, 7, 8)).
Lemma system_call_linkage_witness : ∃ r',
  DO_CALL table31 6 [] (Cpu (Regs 1 2 3 4 5 6 7) [0x8048100; 2; 0; 0; 9]) (sb31, kernel2) =
    Done (inl (Cpu r' [2; 0; 0; 9]), (sb31, kernel2)) ∧ eax r' = 2 ^ 32 - 1 ∧ callee_saved (Regs 1 2 3 4 5 6 7) r' ∧
  call_sys table31 1073741823 [] (Cpu (Regs 1 2 3 4 5 6 7) []) (sb31, kernel2) = Done (Some (-1), (sb31, kernel2)).
Proof.
  destruct (system_call_linkage 0x500000 0x501000 0x502000 0x503000 (replicate 64 0) (λ _ x, x) (λ _, O) (λ _ _, 0) 0x300000 0x310000 0
    (λ _ w, (w, 7, 8)) [] (Regs 1 2 3 4 5 6 7) 0x8048100 2 0 0 [9] sb31 kernel2) as (H & _ & Hbad).
  specialize (H 6 ltac:(lia)).
  assert (E : c_function 0x500000 0x501000 0x502000 0x503000 (replicate 64 0) (λ _ x, x) (λ _, O) (λ _ _, 0) 0x300000 0x310000 0 (6 - 1) 2 0 0
    (sb31, kernel2) = Done (Return (-1), (sb31, kernel2))).
  { assert (Ec : close 2 kernel2 = Done (-1, kernel2)).
    { apply (close_refused _ _ _ 1 kernel2 pcb2 kernel2_ok). left; right. exists (FileDesc None 0 0 NOT_IN_USE). split; [by vm_compute|done]. }
    change (6 - 1) with 5. change (i32 2) with 2 in Ec. unfold c_function. change (i32 2) with 2. by rewrite Ec, bind_Done. }
  rewrite E in H. destruct H as (r' & E' & Ea & Hs). exists r'. split_and!; [exact E'|exact Ea|exact Hs|].
  apply (Hbad 1073741823). right. by vm_compute.
Defined.
