(* ===== verification/Interrupts.v ===== *)
(** The assembly around the interrupt handlers, int_linkage.S, over the
    registers and the kernel stacks of the programs, and preemption: to each
    program the timer interrupts are invisible. *)
From stdpp Require Import gmap.
From S2P Require Import Prelude Memory Console Filesystem Paging Pic Rtc Kernel Syscall Process Sb16 Scheduling Keyboard Linkage.

(** * A program that is interrupted *)

(** Its registers, where it is, and what lies on its kernel stack; a program in
    user mode also has a stack pointer and segment of its own. *)
Record thread : Type := Thread { th_regs : regs; th_eip : Z; th_cs : Z; th_eflags : Z; th_user : option (Z * Z); th_stack : list Z }.
Definition user_mode (cs : Z) : bool := negb (Z.land cs 3 =? 0).
(** In user mode the kernel stack is empty. *)
Definition thread_ok (t : thread) : Prop :=
  if user_mode (th_cs t) then is_Some (th_user t) ∧ th_stack t = [] else th_user t = None.

(** What the processor pushes: from user mode the stack pointer and segment
    too, on the empty stack that the task segment names. *)
Definition interrupted (t : thread) : list Z :=
  match th_user t with
  | Some (esp, ss) => [th_eip t; th_cs t; th_eflags t; esp; ss]
  | None => [th_eip t; th_cs t; th_eflags t] ++ th_stack t
  end.
Definition iret (r : regs) (stack : list Z) : out thread :=
  match stack with
  | eip :: cs :: eflags :: stack =>
      if user_mode cs then match stack with esp :: ss :: stack => Done (Thread r eip cs eflags (Some (esp, ss)) stack) | _ => Undef end
      else Done (Thread r eip cs eflags None stack)
  | _ => Undef
  end.
(** The word of ESP is skipped when it is popped. *)
Definition pushal (esp : Z) (r : regs) (stack : list Z) : list Z := [edi r; esi r; ebp r; esp; ebx r; edx r; ecx r; eax r] ++ stack.
Definition popal (stack : list Z) : out (regs * list Z) :=
  match stack with
  | di :: si :: bp :: _ :: b :: d :: c :: a :: stack => Done (Regs a b c d si di bp, stack)
  | _ => Undef
  end.

(** * The wrappers *)
Section wrappers.
(** The value of ESP when so many words are on the stack. *)
Context (esp_word : list Z → Z).

(** [call handler] on the stack of the interrupted program: it returns, on that
    stack or another, or control goes elsewhere. *)
Definition assembly {S : Type} (call : list Z → S → out (option outcome * list Z * S)) (t : thread) (s : S) : out ((thread + outcome) * S) :=
  let stack := interrupted t in
  let stack := pushal (esp_word stack) (th_regs t) stack in
  let stack := Z.clearbit (th_eflags t) 9 :: stack in
  '(o, stack, s) ← call stack s;
  match o with
  | Some o => Done (inr o, s)
  | None =>
      '(r, stack) ← match stack with _ :: stack => popal stack | [] => Undef end;
      t ← iret r stack; Done (inl t, s)
  end.

(** A handler that comes back on the stack it was called on. *)
Definition returns {S : Type} (handler : S → out (option outcome * S)) (stack : list Z) (s : S) : out (option outcome * list Z * S) :=
  '(o, s) ← handler s; Done (o, stack, s).

Definition rtc_assembly : thread → pic * rtc → out ((thread + outcome) * (pic * rtc)) :=
  assembly (returns (λ '(p, s), '(p, s) ← rtc_handler p s; Done (None, (p, s)))).

Section devices.
Context (port : Z → Z) (dsp : Z → Z → Z) (DMA_Buffer dir_addr table_addr vidmem_addr magics : Z) (stack_dentry : dentry_t).
Definition keyboard_assembly : thread → kbd * sb * kernel → out ((thread + outcome) * (kbd * sb * kernel)) :=
  assembly (returns (λ '(b, s, k),
    '(o, b, s, k) ← keyboard_handler port dsp DMA_Buffer dir_addr table_addr vidmem_addr magics stack_dentry b s k; Done (o, (b, s, k)))).
Definition sb16_assembly : thread → sb * kernel → out ((thread + outcome) * (sb * kernel)) :=
  assembly (returns (λ '(s, k), '(s, k) ← sb16_handler dsp DMA_Buffer s k; Done (None, (s, k)))).
End devices.

(** The timer handler comes back on the stack of the program it resumes.  The
    stacks that are left are found by the control blocks at their ends. *)
Section timer.
Context (dir_addr table_addr vidmem_addr magics : Z) (stack_dentry : dentry_t).
Definition switches (stack : list Z) (s : gmap Z (list Z) * kernel) : out (option outcome * list Z * (gmap Z (list Z) * kernel)) :=
  let '(waiting, k) := s in
  let waiting := <[get_curr_pcb k := stack]> waiting in
  '(o, k) ← pit_handler dir_addr table_addr vidmem_addr magics stack_dentry k;
  match o with
  | Some _ => Done (o, [], (waiting, k))
  | None => stack ← must (waiting !! get_curr_pcb k); Done (None, stack, (waiting, k))
  end.
Definition pit_assembly : thread → gmap Z (list Z) * kernel → out ((thread + outcome) * (gmap Z (list Z) * kernel)) := assembly switches.
End timer.
End wrappers.

(** * Coming back *)
Section facts.
Context (esp_word : list Z → Z).

(** The words the wrapper has pushed when it calls the handler. *)
Definition saved (t : thread) : list Z :=
  Z.clearbit (th_eflags t) 9 :: pushal (esp_word (interrupted t)) (th_regs t) (interrupted t).
Definition resume {S : Type} (stack : list Z) (s : S) : out ((thread + outcome) * S) :=
  '(r, stack) ← match stack with _ :: stack => popal stack | [] => Undef end; t ← iret r stack; Done (inl t, s).
Lemma resume_saved {S : Type} t (s : S) : thread_ok t → resume (saved t) s = Done (inl t, s).
Proof.
  destruct t as [[a b c d si di bp] eip cs fl user stack]. unfold thread_ok, resume, saved, interrupted. cbn [th_cs th_user th_stack th_regs th_eip th_eflags].
  destruct (user_mode cs) eqn:Em.
  - intros [[[esp ss] ->] ->]. cbn. by rewrite Em.
  - intros ->. cbn. by rewrite Em.
Qed.

(** A handler that returns is invisible to the program it interrupts, whatever
    the program was doing. *)
Lemma assembly_transparent {S : Type} (handler : S → out (option outcome * S)) t s s' : thread_ok t → handler s = Done (None, s') →
  assembly esp_word (returns handler) t s = Done (inl t, s').
Proof. intros Ht E. unfold assembly, returns. rewrite E, !bind_Done. exact (resume_saved t s' Ht). Qed.

(** The interrupts that only serve a device. *)
Lemma rtc_interrupt t p s p' s' : thread_ok t → rtc_handler p s = Done (p', s') → rtc_assembly esp_word t (p, s) = Done (inl t, (p', s')).
Proof. intros Ht E. apply assembly_transparent; [done|]. by rewrite E. Qed.
Lemma keyboard_interrupt port dsp DMA_Buffer dir_addr table_addr vidmem_addr magics stack_dentry t b s k b' s' k' : thread_ok t →
  keyboard_handler port dsp DMA_Buffer dir_addr table_addr vidmem_addr magics stack_dentry b s k = Done (None, b', s', k') →
  keyboard_assembly esp_word port dsp DMA_Buffer dir_addr table_addr vidmem_addr magics stack_dentry t (b, s, k) = Done (inl t, (b', s', k')).
Proof. intros Ht E. apply assembly_transparent; [done|]. by rewrite E. Qed.
Lemma sb16_interrupt dsp DMA_Buffer t s k s' k' : thread_ok t → sb16_handler dsp DMA_Buffer s k = Done (s', k') →
  sb16_assembly esp_word dsp DMA_Buffer t (s, k) = Done (inl t, (s', k')).
Proof. intros Ht E. apply assembly_transparent; [done|]. by rewrite E. Qed.
End facts.

(** * Preemption *)
Section preemption.
Context (esp_word : list Z → Z).
Context (dir_addr table_addr vidmem_addr magics : Z) (stack_dentry : dentry_t).
Context (Hlink : linked dir_addr table_addr vidmem_addr).

(** The program that runs, the stacks of the others, and the kernel. *)
Record machine : Type := Machine { now : thread; stacks : gmap Z (list Z); mk : kernel }.
(** The running program goes on, or the timer interrupts it; the handler then
    runs [depth] bytes below the top of the program's kernel stack. *)
Inductive event : Type := Run (f : thread → thread) | Tick (depth ebp : Z).
Definition step (e : event) (m : machine) : out machine :=
  match e with
  | Run f => Done (Machine (f (now m)) (stacks m) (mk m))
  | Tick depth ebp =>
      let esp := get_curr_pcb (mk m) + (EIGHT_KB_SIZE - ESP_OFFSET - depth) in
      '(t, (w, k)) ← pit_assembly esp_word dir_addr table_addr vidmem_addr magics stack_dentry (now m) (stacks m, with_stack esp ebp (mk m));
      match t with inl t => Done (Machine t w k) | inr _ => Undef end
  end.
Fixpoint steps (es : list event) (m : machine) : out machine :=
  match es with [] => Done m | e :: es => m ← step e m; steps es m end.
Definition event_ok (e : event) : Prop :=
  match e with Run f => ∀ t, thread_ok t → thread_ok (f t) | Tick depth _ => 0 <= depth <= EIGHT_KB_SIZE - ESP_OFFSET end.

(** Abstractly every terminal has a processor of its own, which stands still
    while it is another terminal's turn. *)
Record processors : Type := Processors { turn : Z; thread_of : Z → thread }.
Definition spec_step (alive : Z → bool) (e : event) (c : processors) : processors :=
  match e with
  | Run f => Processors (turn c) (λ t, if t =? turn c then f (thread_of c t) else thread_of c t)
  | Tick _ _ => Processors (rr_next alive (turn c)) (thread_of c)
  end.
Definition spec_steps (alive : Z → bool) (es : list event) (c : processors) : processors := foldl (λ c e, spec_step alive e c) c es.

Record implements (m : machine) (c : processors) : Prop := Implements {
  im_sched : sched_ok dir_addr table_addr vidmem_addr (mk m);
  im_turn : turn c = running_terminal (mk m);
  im_now : now m = thread_of c (turn c);
  im_threads : ∀ t, 0 <= t < 3 → alive (mk m) t = true → thread_ok (thread_of c t);
  im_stacks : ∀ t, 0 <= t < 3 → alive (mk m) t = true → t ≠ turn c →
    stacks m !! get_pcb_by_index (top (mk m) t) = Some (saved esp_word (thread_of c t)) }.

Lemma sched_stack k esp ebp : sched_ok dir_addr table_addr vidmem_addr k → Z.land esp PCB_MASK = get_curr_pcb k →
  sched_ok dir_addr table_addr vidmem_addr (with_stack esp ebp k).
Proof. intros [[H1 H2 H3 H4 H5 H6 H7 H8 H9] H10] E. split; [|done]. split; try done. by rewrite <- E in H6. Qed.

Lemma tick_implements m c depth ebp : implements m c → event_ok (Tick depth ebp) →
  ∃ m', step (Tick depth ebp) m = Done m' ∧ implements m' (spec_step (alive (mk m)) (Tick depth ebp) c) ∧ k_procs (mk m') = k_procs (mk m).
Proof.
  intros [Hk Ht Hn Hok Hst] Hd. destruct (sc_running _ _ _ _ Hk) as [Hr Har]. pose proof (sc_curr _ _ _ _ Hk) as Hcurr.
  destruct (alive_top _ _ _ Hlink _ Hk _ Hr Har) as (_ & _ & _ & Htop & _). cbn [step].
  set (esp := get_curr_pcb (mk m) + _). set (k := with_stack esp ebp (mk m)).
  assert (Hesp : Z.land esp PCB_MASK = get_curr_pcb (mk m)).
  { unfold esp. rewrite Hcurr. etrans; [|apply (stack_pcb _ depth); [done|exact Hd]]. f_equal. unfold get_pcb_by_index.
    rewrite u32_id by (unfold is_u32, EIGHT_MB_SIZE, EIGHT_KB_SIZE; lia). unfold EIGHT_MB_SIZE, EIGHT_KB_SIZE. lia. }
  pose proof (sched_stack _ esp ebp Hk Hesp) as Hk0. fold k in Hk0.
  destruct (tick_spec dir_addr table_addr vidmem_addr magics stack_dentry Hlink k Hk0 (sc_multi _ _ _ _ Hk0))
    as (k' & E & Hk' & Hr' & Hp' & _). change (running_terminal k) with (running_terminal (mk m)) in Hr'. change (alive k) with (alive (mk m)) in Hr'.
  assert (Ea : alive k' = alive (mk m)) by (unfold alive; by rewrite Hp').
  assert (Et : top k' = top (mk m)) by (unfold top; by rewrite Hp').
  destruct (next_alive _ _ _ _ Hk) as [Hr2 Ha2]. set (t' := rr_next (alive (mk m)) (running_terminal (mk m))) in *.
  set (w := <[get_curr_pcb (mk m) := saved esp_word (now m)]> (stacks m)).
  assert (Hw : ∀ t, 0 <= t < 3 → alive (mk m) t = true → w !! get_pcb_by_index (top (mk m) t) = Some (saved esp_word (thread_of c t))).
  { intros t Hb Ha. unfold w. rewrite Hcurr. destruct (decide (t = running_terminal (mk m))) as [->|Hne].
    - by rewrite lookup_insert_eq, Hn, Ht.
    - rewrite lookup_insert_ne; [apply Hst; [done|done|congruence]|]. intros Eq. apply Hne. by apply (top_inj _ _ _ Hlink _ Hk). }
  exists (Machine (thread_of c t') w k'). split; [|split; [|done]].
  - unfold pit_assembly, assembly. fold (saved esp_word (now m)). unfold switches. change (get_curr_pcb k) with (Z.land esp PCB_MASK). rewrite Hesp.
    fold w. rewrite E, bind_Done. rewrite (sc_curr _ _ _ _ Hk'), Et, Hr', Hw by done. cbn [must]. rewrite !bind_Done.
    fold (resume (saved esp_word (thread_of c t')) (w, k')). by rewrite (resume_saved esp_word _ _ (Hok t' Hr2 Ha2)).
  - split; cbn [mk now stacks spec_step turn thread_of].
    + exact Hk'.
    + by rewrite Hr', Ht.
    + by rewrite Ht.
    + rewrite Ea. exact Hok.
    + rewrite Ea, Et. intros t Hb Ha _. by apply Hw.
Qed.

Lemma run_implements m c f : implements m c → event_ok (Run f) →
  ∃ m', step (Run f) m = Done m' ∧ implements m' (spec_step (alive (mk m)) (Run f) c) ∧ k_procs (mk m') = k_procs (mk m).
Proof.
  intros [Hk Ht Hn Hok Hst] Hf. eexists. split; [reflexivity|]. split; [|done]. split; cbn [mk now stacks spec_step turn thread_of].
  - exact Hk.
  - exact Ht.
  - by rewrite Z.eqb_refl, Hn.
  - intros t Hb Ha. specialize (Hok t Hb Ha). destruct (Z.eqb_spec t (turn c)); [by apply Hf|done].
  - intros t Hb Ha Hne. rewrite (proj2 (Z.eqb_neq _ _) Hne). by apply Hst.
Qed.
Lemma steps_implement es : ∀ m c, implements m c → Forall event_ok es →
  ∃ m', steps es m = Done m' ∧ implements m' (spec_steps (alive (mk m)) es c) ∧ alive (mk m') = alive (mk m).
Proof.
  induction es as [|e es IH]; intros m c H He; [by exists m|]. apply list.Forall_cons in He as [He Hes].
  assert (∃ m', step e m = Done m' ∧ implements m' (spec_step (alive (mk m)) e c) ∧ k_procs (mk m') = k_procs (mk m)) as (m1 & E1 & H1 & Hp)
    by (destruct e; [by apply run_implements|by apply tick_implements]).
  assert (Ea : alive (mk m1) = alive (mk m)) by (unfold alive; by rewrite Hp).
  destruct (IH m1 _ H1 Hes) as (m2 & E2 & H2 & Ea2). rewrite Ea in H2. exists m2. cbn [steps]. rewrite E1, bind_Done. split_and!; [done|done|congruence].
Qed.

Definition tick_of (d : Z * Z) : event := Tick d.1 d.2.
Lemma ticks_turn alive ds : ∀ c, spec_steps alive (tick_of <$> ds) c = Processors (rr_iter alive (length ds) (turn c)) (thread_of c).
Proof. induction ds as [|d ds IH]; intros c; [by destruct c|]. exact (IH (spec_step alive (tick_of d) c)). Qed.
Lemma implements_now m c : implements m c → now m = thread_of c (turn c).
Proof. apply im_now. Qed.
Lemma implements_turn m c : implements m c → 0 <= turn c < 3.
Proof. intros [Hk -> _ _ _]. apply (sc_running _ _ _ _ Hk). Qed.
End preemption.

(** C24. Preemption.  The programs on top of the terminals share the processor
    as if each had one of its own.  With more than one terminal in use and no
    signal pending, let the running program go on and timer interrupts stop
    it, in any order, at any of its instructions, in user mode or in the
    kernel: every interrupt returns, into the next terminal's program, and
    that goes on with exactly the registers, flags, instruction and stack
    with which it was stopped, whatever the others did in between.  And any
    program waits at most three interrupts for its turn. *)
Theorem preemption_transparent (esp_word : list Z → Z) (dir_addr table_addr vidmem_addr magics : Z) (stack_dentry : dentry_t)
    (Hlink : linked dir_addr table_addr vidmem_addr) (m : machine) (c : processors)
    (Hm : implements esp_word dir_addr table_addr vidmem_addr m c) (es : list event) (Hes : Forall event_ok es) :
  let steps := steps esp_word dir_addr table_addr vidmem_addr magics stack_dentry in
  let c' := spec_steps (alive (mk m)) es c in
  ∃ m', steps es m = Done m' ∧ now m' = thread_of c' (turn c') ∧ implements esp_word dir_addr table_addr vidmem_addr m' c' ∧
    ∀ t, 0 <= t < 3 → alive (mk m) t = true → ∃ j, (1 <= j <= 3)%nat ∧ ∀ ds, length ds = j → Forall event_ok (tick_of <$> ds) →
      ∃ m2, steps (tick_of <$> ds) m' = Done m2 ∧ now m2 = thread_of c' t.
Proof.
  intros run c'. destruct (steps_implement esp_word dir_addr table_addr vidmem_addr magics stack_dentry Hlink es m c Hm Hes) as (m' & E & H' & Ea).
  fold c' in H'. exists m'. split; [exact E|]. split; [by eapply implements_now|]. split; [exact H'|]. intros t Ht Ha.
  destruct (rr_fair (alive (mk m)) (turn c') t) as (j & Hj & Er); [by eapply implements_turn|done|done|].
  exists j. split; [done|]. intros ds Hl Hds.
  destruct (steps_implement esp_word dir_addr table_addr vidmem_addr magics stack_dentry Hlink _ m' c' H' Hds) as (m2 & E2 & H2 & _).
  exists m2. split; [exact E2|]. rewrite (implements_now _ _ _ _ _ _ H2), Ea, ticks_turn, Hl, Er. done.
Qed.

(** Process 1 runs on terminal 1, in user mode; process 0 waits on terminal 0,
    stopped in the kernel. *)
Definition thread24 (t : Z) : thread :=
  if t =? 1 then Thread (Regs 1 2 3 4 5 6 7) 0x8048100 0x23 0x202 (Some (0x83FFFF0, 0x2B)) []
  else Thread (Regs 11 12 13 14 15 16 17) 0x401000 0x10 0x202 None [1; 2; 3].
Definition count (t : thread) : thread :=
  Thread (set_eax (eax (th_regs t) + 1) (th_regs t)) (th_eip t) (th_cs t) (th_eflags t) (th_user t) (th_stack t).
Definition machine24 : machine := Machine (thread24 1) {[get_pcb_by_index 0 := saved (λ _, 0) (thread24 0)]} kernel5.
Lemma machine24_implements : implements (λ _, 0) 0x500000 0x501000 0x502000 machine24 (Processors 1 thread24).
Proof.
  split; cbn [mk now stacks turn thread_of machine24].
  - exact kernel5_sched.
  - reflexivity.
  - reflexivity.
  - intros t Ht _. assert (t = 0 ∨ t = 1 ∨ t = 2) as [-> | [-> | ->]] by lia; [done| |done]. split; [by eexists|done].
  - intros t Ht Ha Hne. assert (t = 0 ∨ t = 2) as [-> | ->] by lia; [by vm_compute|by vm_compute in Ha].
Qed.
Lemma preemption_transparent_witness : ∃ m',
  steps (λ _, 0) 0x500000 0x501000 0x502000 0x7FB000 (replicate 64 0) [Run count; Tick 300 5; Run count; Run count; Tick 400 6] machine24 = Done m' ∧
  now m' = Thread (Regs 2 2 3 4 5 6 7) 0x8048100 0x23 0x202 (Some (0x83FFFF0, 0x2B)) [] ∧
  ∃ j, (1 <= j <= 3)%nat ∧ ∀ ds, length ds = j → Forall event_ok (tick_of <$> ds) →
    ∃ m2, steps (λ _, 0) 0x500000 0x501000 0x502000 0x7FB000 (replicate 64 0) (tick_of <$> ds) m' = Done m2 ∧ eax (th_regs (now m2)) = 13.
Proof.
  destruct (preemption_transparent (λ _, 0) 0x500000 0x501000 0x502000 0x7FB000 (replicate 64 0) linked0 machine24 _ machine24_implements
    [Run count; Tick 300 5; Run count; Run count; Tick 400 6]) as (m' & E & En & _ & Hw).
  - repeat (apply list.Forall_cons_2; [first [by intros []|split; by vm_compute]|]). apply list.Forall_nil_2.
  - exists m'. split; [exact E|]. split; [exact En|].
    destruct (Hw 0) as (j & Hj & Hall); [lia|by vm_compute|]. exists j. split; [exact Hj|]. intros ds Hl Hds.
    destruct (Hall ds Hl Hds) as (m2 & E2 & En2). exists m2. split; [exact E2|]. by rewrite En2.
Defined.
