(* ===== verification/Commands.v ===== *)
(** The parser of command lines on every line it can be given: it always
    finishes, and where it stays inside its two buffers. *)
From Stdlib Require Import String.
From stdpp Require Import gmap.
From S2P Require Import Prelude Memory Strings Console Filesystem Paging Pic Rtc Kernel Terminal Syscall Tables Process.

(** * The parts of a line *)
Fixpoint span (P : Z → bool) (l : list Z) : list Z * list Z :=
  match l with
  | c :: l' => if P c then let '(a, b) := span P l' in (c :: a, b) else ([], l)
  | [] => ([], [])
  end.
Definition in_word (c : Z) : bool := negb (c =? 32) && negb (c =? 10) && negb (c =? 0).
Definition in_line (c : Z) : bool := negb (c =? 10) && negb (c =? 0).

(** The number of blanks, the first word, and what follows it on the line. *)
Definition line_parts (l : list Z) : Z * list Z * list Z :=
  let '(blanks, l) := span (λ c, c =? 32) l in
  let '(w, l) := span in_word l in
  let '(r, _) := span in_line l in (Z.of_nat (length blanks), w, r).

Lemma span_spec P l a b : span P l = (a, b) →
  l = a ++ b ∧ Forall (λ c, P c = true) a ∧ ∀ c b', b = c :: b' → P c = false.
Proof.
  revert a b. induction l as [|c l IH]; intros a b; cbn.
  - intros [= <- <-]. by split_and!.
  - destruct (P c) eqn:E.
    + destruct (span P l) as [a' b'] eqn:Es. intros [= <- <-]. destruct (IH a' b' eq_refl) as (-> & Ha & Hb).
      split_and!; [done|by constructor|done].
    + intros [= <- <-]. split_and!; [done|done|]. by intros c' b' [= <- <-].
Qed.

Lemma in_word_line c : in_word c = negb (c =? 32) && in_line c.
Proof. unfold in_word, in_line. by rewrite andb_assoc. Qed.

(** The line that a NUL-terminated string holds. *)
Lemma line_parts_spec l n w r : line_parts (l ++ [0]) = (n, w, r) →
  0 <= n ∧ ∃ e rest, l ++ [0] = replicate (Z.to_nat n) 32 ++ w ++ r ++ e :: rest ∧ command_line w r ∧
  (e = 10 ∨ e = 0) ∧ (w = [] → r = []).
Proof.
  unfold line_parts. destruct (span (λ c, c =? 32) (l ++ [0])) as [bl l1] eqn:E1.
  destruct (span in_word l1) as [w' l2] eqn:E2. destruct (span in_line l2) as [r' l3] eqn:E3.
  intros [= <- <- <-]. split; [lia|].
  apply span_spec in E1 as (El & Hbl & Hb1), E2 as (-> & Hw & Hb2), E3 as (-> & Hr & Hb3).
  assert (Ebl : bl = replicate (Z.to_nat (Z.of_nat (length bl))) 32).
  { rewrite Nat2Z.id. clear El. induction Hbl as [|c bl Hc _ IH]; [done|]. cbn. apply Z.eqb_eq in Hc as ->. by f_equal. }
  destruct l3 as [|e l3].
  { exfalso. rewrite app_nil_r in El. assert (H0 : 0 ∈ bl ++ w' ++ r') by (rewrite <- El; set_solver).
    rewrite !elem_of_app in H0. rewrite !list.Forall_forall in *.
    destruct H0 as [H0|[H0|H0]]; [specialize (Hbl _ H0)|specialize (Hw _ H0)|specialize (Hr _ H0)]; discriminate. }
  exists e, l3. specialize (Hb3 e l3 eq_refl). split_and!.
  - by rewrite <- Ebl.
  - split.
    + eapply list.Forall_impl; [exact Hw|]. unfold in_word. intros c Hc.
      repeat apply andb_true_iff in Hc as [Hc ?]. repeat match goal with H : negb _ = true |- _ => apply negb_true_iff, Z.eqb_neq in H end. done.
    + eapply list.Forall_impl; [exact Hr|]. unfold in_line. intros c Hc.
      apply andb_true_iff in Hc as [Hc ?]. repeat match goal with H : negb _ = true |- _ => apply negb_true_iff, Z.eqb_neq in H end. done.
    + destruct r' as [|c r']; [by left|]. right. cbn. f_equal. specialize (Hb2 c _ eq_refl).
      apply list.Forall_cons in Hr as [Hc _]. rewrite in_word_line, Hc in Hb2.
      destruct (Z.eqb_spec c 32); [done|discriminate].
  - unfold in_line in Hb3. destruct (Z.eqb_spec e 10); [by left|]. destruct (Z.eqb_spec e 0); [by right|discriminate].
  - intros ->. destruct r' as [|c r']; [done|]. specialize (Hb1 c _ eq_refl). specialize (Hb2 c _ eq_refl).
    apply list.Forall_cons in Hr as [Hc _]. rewrite in_word_line, Hb1, Hc in Hb2. discriminate.
Qed.

(** * The parser *)
Definition OVERFLOW_MSG : String.string := ">>>>>>>> keyboard array overflow <<<<<<<<<"%string.

(** What the parser does with a line of [n] blanks, the word [w] and the rest
    [r].  [Undef]: it writes past [exe_name] or [args_buf]. *)
Definition name_result (n : Z) (w : list Z) : out (String.string + list Z) :=
  let len := Z.of_nat (length w) in
  if (0 <? len) && (128 <? n + len) && ((len <=? 32) || (96 <=? n)) then Done (inl OVERFLOW_MSG)
  else if 32 <? len then Undef else Done (inr (take 31 w ++ [0])).
Definition args_result (r : list Z) : out (list Z) :=
  if 100 <=? Z.of_nat (length r) then Undef else Done (r ++ [0]).
Definition parse_result (n : Z) (w r : list Z) : out (String.string + list Z * list Z) :=
  name ← name_result n w;
  match name with
  | inl msg => Done (inl msg)
  | inr name => args ← args_result r; Done (inr (name, args))
  end.

Section parser.
Context (n : nat) (w r : list Z) (e : Z) (s : str).
Context (Hs : reads s (replicate n 32 ++ w ++ r ++ [e])) (Hl : command_line w r) (He : e = 10 ∨ e = 0).
Context (Hw : w = [] → r = []) (Hlen : Z.of_nat (n + length w + length r) < 2 ^ 33).

Lemma skip_spaces_result : skip_spaces s = Done (Z.of_nat n).
Proof.
  destruct (decide (w = [])) as [Ew|]; [|apply (skip_spaces_spec n w r e); done || lia].
  unfold skip_spaces. apply (orun_done _ (λ i, 0 <= i <= Z.of_nat n) _ (λ i, Z.of_nat n - i)); [|lia|lia].
  intros i Hi. destruct (decide (i < Z.of_nat n)).
  - rewrite (reads_blank n w r e s Hs) by lia. change (32 =? 32) with true. cbv iota. lia.
  - replace i with (Z.of_nat n) by lia. assert (E : s (Z.of_nat n) = Some e).
    { apply Hs. rewrite Ew, (Hw Ew). cbn. rewrite lookup_app_r, length_replicate by (rewrite length_replicate; lia).
      by rewrite Nat.sub_diag. }
    rewrite E. destruct He as [-> | ->]; done.
Qed.

Lemma copy_name_result : copy_name s (Z.of_nat n) (Z.of_nat (length w)) = name_result (Z.of_nat n) w.
Proof.
  unfold copy_name, name_result, KEY_ARR_SIZE, F_TYPE_OFFSET. remember (Z.of_nat (length w)) as len eqn:Elen.
  apply (orun_result _ (λ '(i, name), Z.of_nat n <= i <= Z.of_nat n + len ∧ name = take (Z.to_nat (i - Z.of_nat n)) w ∧
    (Z.of_nat n < i → i <= 128 ∧ i - Z.of_nat n <= 32)) _ (λ p, Z.of_nat n + len - p.1)).
  2: { split_and!; [lia|lia|by rewrite Z.sub_diag|lia]. }
  2: { cbn. lia. }
  intros [i name] (Hi & -> & Hpre). destruct (Z.ltb_spec i (Z.of_nat n + len)) as [Hlt|Hge].
  - destruct (Z.ltb_spec (128 - 1) i).
    { by zcase. }
    destruct (Z.ltb_spec 32 (i - Z.of_nat n)); [lia|]. destruct (Z.leb_spec 32 (i - Z.of_nat n)).
    { by zcase. }
    destruct (lookup_lt_is_Some_2 w (Z.to_nat (i - Z.of_nat n))) as [c Hc]; [lia|].
    pose proof (reads_word n w r e s Hs _ _ Hc) as E. replace (Z.of_nat n + Z.of_nat _) with i in E by lia.
    rewrite E. split; [|cbn [fst]; lia]. split_and!; [lia|lia| |lia].
    replace (Z.to_nat (i + 1 - Z.of_nat n)) with (S (Z.to_nat (i - Z.of_nat n))) by lia. by rewrite (take_S_r _ _ c).
  - assert (i = Z.of_nat n + len) as -> by lia. rewrite (take_ge w (Z.to_nat (Z.of_nat n + len - Z.of_nat n))) by lia.
    destruct (Z.leb_spec 32 (Z.of_nat n + len - Z.of_nat n)); zcase; first [done | by rewrite !take_ge by lia].
Qed.

Lemma copy_args_result : copy_args s (Z.of_nat n + Z.of_nat (length w)) = args_result r.
Proof.
  destruct (Z.leb_spec 100 (Z.of_nat (length r))) as [Hlong|].
  2: { unfold args_result. rewrite (proj2 (Z.leb_gt _ _)) by lia.
       apply (copy_args_spec n w r e s Hs Hl He). unfold ARG_MAX. lia. }
  unfold args_result. rewrite (proj2 (Z.leb_le _ _)) by lia. unfold copy_args, ARG_MAX.
  set (b := Z.of_nat n + Z.of_nat (length w)).
  apply (orun_result _ (λ p, b <= p.1 <= b + 100) _ (λ p, b + 100 - p.1)); [|cbn; lia|cbn; lia].
  intros [i args] Hi. cbn [fst] in Hi.
  destruct (lookup_lt_is_Some_2 (r ++ [e]) (Z.to_nat (i - b))) as [c Hc]; [rewrite length_app; cbn; lia|].
  pose proof (reads_rest n w r e s Hs _ _ Hc) as E. fold b in E. replace (b + Z.of_nat _) with i in E by lia. rewrite E.
  destruct (Z.leb_spec 100 (i - b)) as [|Hlt]; [done|].
  rewrite lookup_app_l in Hc by lia. pose proof (list.Forall_lookup_1 _ _ _ _ (cl_rest _ _ Hl) Hc) as (? & ?).
  rewrite !(proj2 (Z.eqb_neq c _)) by done. cbn. lia.
Qed.

Lemma parse_command_result : parse_command s = parse_result (Z.of_nat n) w r.
Proof.
  unfold parse_command, parse_result. rewrite skip_spaces_result, bind_Done.
  rewrite (word_length_spec n w r e s Hs Hl He), bind_Done, copy_name_result by lia.
  destruct (name_result _ w) as [[|]| |]; [done| |done|done]. by rewrite !bind_Done, copy_args_result.
Qed.
End parser.

Lemma reads_cstr s len : is_cstr s len → reads s (bytes_of s len ++ [0]).
Proof.
  intros (H0 & Hn & Hs) i x Hi. pose proof (length_bytes_of s len H0) as El.
  destruct (decide (i < length (bytes_of s len))%nat).
  - rewrite lookup_app_l in Hi by done. destruct (Hs (Z.of_nat i)) as (c & Hc & _); [lia|]. rewrite Hc.
    pose proof (zget_bytes_of s len (Z.of_nat i) ltac:(lia)) as Hb. apply zget_Some in Hb as [_ Hb].
    rewrite Nat2Z.id, Hi, Hc in Hb. done.
  - rewrite lookup_app_r in Hi by lia. pose proof (lookup_lt_Some _ _ _ Hi) as Hlt. cbn in Hlt.
    replace (i - length (bytes_of s len))%nat with 0%nat in Hi by lia. injection Hi as <-.
    by replace (Z.of_nat i) with len by lia.
Qed.

(** C30. Command lines.  For every NUL-terminated string the parser finishes,
    and its result is a function of the number of blanks, the first word and
    the rest of the first line: the word, cut to 31 characters, and the rest;
    the overflow message when the word reaches past column 128; and only for
    a word of more than 32 characters or a rest of 100 or more does it write
    past one of its buffers. *)
Theorem parse_command_total (s : str) (len : Z) (Hs : is_cstr s len) (Hlen : len < 2 ^ 32) :
  let '(n, w, r) := line_parts (bytes_of s len ++ [0]) in
  parse_command s = parse_result n w r ∧
  (is_done (parse_command s) ∨ parse_command s = Undef ∧ (32 < Z.of_nat (length w) ∨ 100 <= Z.of_nat (length r))).
Proof.
  destruct (line_parts (bytes_of s len ++ [0])) as [[n w] r] eqn:El.
  pose proof (line_parts_spec _ _ _ _ El) as (Hn & e & rest & Eline & Hline & He & Hw).
  assert (Hlens : Z.of_nat (Z.to_nat n + length w + length r) < 2 ^ 33).
  { apply (f_equal length) in Eline. rewrite !length_app, length_replicate in Eline. cbn in Eline.
    destruct Hs as (H0 & _). pose proof (length_bytes_of s len H0). lia. }
  assert (Hreads : reads s (replicate (Z.to_nat n) 32 ++ w ++ r ++ [e])).
  { intros i x Hi. apply (reads_cstr s len Hs). rewrite Eline.
    replace (replicate (Z.to_nat n) 32 ++ w ++ r ++ e :: rest) with ((replicate (Z.to_nat n) 32 ++ w ++ r ++ [e]) ++ rest)
      by by rewrite <- !app_assoc.
    by apply lookup_app_l_Some. }
  assert (E : parse_command s = parse_result n w r).
  { rewrite (parse_command_result (Z.to_nat n) w r e s Hreads Hline He Hw Hlens). by rewrite Z2Nat.id. }
  split; [exact E|]. rewrite E. unfold parse_result, name_result, args_result.
  destruct (_ && _); [left; by eexists|]. destruct (Z.ltb_spec 32 (Z.of_nat (length w))); [right; split; [done|by left]|].
  rewrite bind_Done. destruct (Z.leb_spec 100 (Z.of_nat (length r))); [right; split; [done|by right]|left; by eexists].
Qed.

(** The line "  cat frame0.txt", and a line with a name of 33 characters. *)
Lemma parse_command_total_witness :
  parse_command (lit0 "  cat frame0.txt") = Done (inr (lit "cat" ++ [0], lit " frame0.txt" ++ [0])) ∧
  parse_command (lview (replicate 33 97 ++ [0])) = Undef.
Proof.
  split.
  - assert (Hs : is_cstr (lit0 "  cat frame0.txt") 16).
    { split_and!; [done|by vm_compute|]. intros i Hi. assert (Hall : forallb (λ i,
        match lit0 "  cat frame0.txt" i with Some c => negb (c =? 0) | None => false end) (seqZ 0 16) = true) by by vm_compute.
      rewrite forallb_forall in Hall. specialize (Hall i ltac:(apply list_elem_of_In, elem_of_seqZ; lia)).
      destruct (lit0 "  cat frame0.txt" i) as [c|]; [|discriminate]. exists c. by apply negb_true_iff, Z.eqb_neq in Hall. }
    exact (proj1 (parse_command_total _ 16 Hs ltac:(done))).
  - assert (Hs : is_cstr (lview (replicate 33 97 ++ [0])) 33).
    { split_and!; [done|by vm_compute|]. intros i Hi. exists 97. split; [|done]. apply zget_Some. split; [lia|].
      rewrite lookup_app_l by (rewrite length_replicate; lia). apply lookup_replicate. split; [done|lia]. }
    exact (proj1 (parse_command_total _ 33 Hs ltac:(done))).
Defined.
