(* ===== verification/Shells.v ===== *)
(** Where shells come from: the first switch to a terminal that has never run,
    the shell it starts there, and the screens before and after. *)
From Stdlib Require Import String.
From stdpp Require Import gmap.
From S2P Require Import Prelude Memory Strings Console Filesystem Paging Pic Rtc Kernel Terminal Syscall Tables Process Scheduling.

(** * Kernels with the same image *)
Section frame.
Context (dir_addr table_addr vidmem_addr : Z) (k k0 : kernel).
Context (H : machine_ok dir_addr table_addr vidmem_addr k) (Hfs : k_fs k0 = k_fs k).
Context (Hs : ∀ a, fs_addr (k_fs k) <= a < image_end (k_fs k) → k_mem k0 a = k_mem k a).

Lemma machine_frame : mem_ok (k_mem k0) → (∃ st, rep dir_addr table_addr vidmem_addr (k_page k0) st ∧ st_ok st) →
  machine_ok dir_addr table_addr vidmem_addr k0.
Proof.
  intros Hm Hp. pose proof (mo_image _ _ _ _ H) as Hi. split; rewrite ?Hfs; [|..|exact Hp].
  - by apply (image_ok_frame (k_mem k)).
  - by apply (dir_ok_frame (k_mem k)); [|apply (mo_dir _ _ _ _ H)|].
  - apply H.
Qed.

Lemma entry_name_same j : 0 <= j < num_dentries (k_fs k) →
  entry_name (k_mem k0) (k_fs k) j = entry_name (k_mem k) (k_fs k) j.
Proof. intros Hj. apply entry_name_frame; [apply H|apply H|exact Hj|exact Hs]. Qed.
Lemma entry_field_same j o : 0 <= j < num_dentries (k_fs k) → 0 <= o <= 36 →
  load32 (k_mem k0) (entry_at (k_fs k) j + o) = load32 (k_mem k) (entry_at (k_fs k) j + o).
Proof.
  intros Hj Ho. destruct (entry_inside (k_mem k) (k_fs k) (mo_image _ _ _ _ H) (mo_dir _ _ _ _ H) j Hj).
  pose proof (boot_inside (k_mem k) (k_fs k) (mo_image _ _ _ _ H)). apply (image_frame_load _ _ _ Hs); lia.
Qed.

Lemma program_frame j name : program k j name → program k0 j name.
Proof.
  intros [H1 H2 H3 H4 H5 H6]. pose proof (mo_image _ _ _ _ H) as Hi.
  split; rewrite Hfs, ?entry_field_same by (done || lia).
  - done.
  - by rewrite entry_name_same.
  - intros j' Hj'. rewrite entry_name_same by lia. by apply H3.
  - by apply (inode_ok_frame (k_mem k)).
  - rewrite (file_size_frame (k_mem k)); [done|done|done|]. destruct H4. lia.
  - rewrite (file_slice_frame (k_mem k)); [done|done|done|lia|lia|done].
Qed.
Lemma entry_point_frame j name : program k j name → entry_point k0 j = entry_point k j.
Proof.
  intros [H1 _ _ H4 H5 _]. unfold entry_point. rewrite Hfs, entry_field_same by (done || lia).
  pose proof (λ i, file_byte_frame _ _ _ (mo_image _ _ _ _ H) Hs _ i H4) as Hb. unfold load32, ENTRY_POINT.
  by rewrite !Hb by lia.
Qed.
End frame.

(** The first program of a terminal. *)
Definition shell : list Z := lit "shell".
Lemma shell_bytes : Forall (λ c, is_u8 c ∧ c ≠ 0) shell.
Proof. change shell with [115; 104; 101; 108; 108]. do 5 (constructor; [split; [split|]; lia|]). constructor. Qed.
Lemma parse_shell : parse_command (lit0 "shell") = Done (inr (shell ++ [0], [] ++ [0])).
Proof. by vm_compute. Qed.

(** * Starting a program on the displayed terminal *)

(** A kernel that can start a program there: the displayed terminal is the
    running one, and everything else is as the scheduler needs it. *)
Record launchable (k : kernel) : Prop := Launchable {
  la_procs : procs_ok (k_procs k);
  la_pcbs : pcbs_ok k;
  la_display : 0 <= current_terminal (k_con k) < 3;
  la_running : running_terminal k = current_terminal (k_con k);
  la_flags : ∀ t, 0 <= t < 3 → ∃ r, zget (terminal_running k) t = Some r ∧ (r = 1 ↔ t = running_terminal k ∨ alive k t = true);
  la_saved : ∀ t p, 0 <= t < 3 → t ≠ running_terminal k → alive k t = true → top_pcb k t = Some p →
    Z.land (schedule_esp p) PCB_MASK = get_pcb_by_index (top k t);
  la_pending : ∀ t p, 0 <= t < 3 → t ≠ running_terminal k → alive k t = true → top_pcb k t = Some p → pending_signal p = 0x3F }.

Lemma quiet_launchable dir_addr table_addr vidmem_addr k : quiet dir_addr table_addr vidmem_addr k →
  running_terminal k = current_terminal (k_con k) → launchable k.
Proof.
  intros [H1 H2 [H3 Ha] H4 H5 H6 H7 H8 _] Hr. split; try done.
  - intros t Ht. destruct (H4 t Ht) as (r & Er & Hr1). exists r. split; [done|]. rewrite Hr1.
    split; [by right|]. intros [->|]; done.
  - intros t p Ht _. by apply H8.
Qed.

Lemma top_on_stack k t : procs_ok (k_procs k) → 0 <= t < 3 → alive k t = true →
  top k t ∈ all_pids (k_procs k) ∧ ∃ l, stack_of (k_procs k) t = l ++ [top k t].
Proof.
  intros Hps Ht Ha. unfold alive in Ha. apply negb_true_iff, bool_decide_eq_false in Ha.
  destruct (exists_last Ha) as (l & x & El). unfold top. rewrite El, last_snoc. cbn [default].
  split; [rewrite (all_pids_split _ t Ht), El; set_solver|by exists l].
Qed.

Section launch.
Context (dir_addr table_addr vidmem_addr magics : Z) (stack_dentry : dentry_t).
Context (Hlink : linked dir_addr table_addr vidmem_addr).
Context (k : kernel) (La : launchable k) (q := get_pid k) (Hq : q ≠ -1) (t := current_terminal (k_con k)).
Context (args : list Z) (old : pcb_t) (m' : mem).
Let k' := started k args old m'.

Lemma started_stacks : stack_of (k_procs k') t = stack_of (k_procs k) t ++ [q] ∧
  ∀ t', t' ≠ t → stack_of (k_procs k') t' = stack_of (k_procs k) t'.
Proof.
  destruct (get_pid_free k (la_procs _ La) Hq) as (_ & Hfree & _).
  exact (proj2 (pushed_ok (k_procs k) t q (la_procs _ La) (la_display _ La) Hfree)).
Qed.
Lemma started_top t' : t' ≠ t → alive k' t' = alive k t' ∧ top k' t' = top k t'.
Proof. intros Hne. unfold alive, top. by rewrite (proj2 started_stacks t' Hne). Qed.
Lemma started_new : alive k' t = true ∧ top k' t = q.
Proof.
  unfold alive, top. rewrite (proj1 started_stacks), last_snoc. split; [|done].
  by destruct (stack_of (k_procs k) t).
Qed.

(** The control blocks of the live processes are as before. *)
Lemma started_lookup x : x ∈ all_pids (k_procs k) → k_pcbs k' !! get_pcb_by_index x = k_pcbs k !! get_pcb_by_index x.
Proof.
  intros Hx. destruct (get_pid_free k (la_procs _ La) Hq) as (Hqr & Hfree & _). fold q in Hqr, Hfree.
  destruct (stack_room (k_procs k) (la_procs _ La) t (la_display _ La) q Hfree) as [_ Hnot].
  pose proof (pid_range _ (la_procs _ La) x Hx) as Hxr. cbn [k' k_pcbs started with_if with_stack with_tss set_pcb with_pcbs].
  rewrite lookup_insert_ne; [done|]. intros E. apply get_pcb_inj in E; [|done|done]. by subst x.
Qed.
Lemma started_new_lookup : k_pcbs k' !! get_pcb_by_index q = Some (started_pcb k args old).
Proof. cbn. apply lookup_insert_eq. Qed.
Lemma started_top_pcb t' : 0 <= t' < 3 → t' ≠ t → alive k t' = true → top_pcb k' t' = top_pcb k t'.
Proof.
  intros Ht' Hne Ha. unfold top_pcb. rewrite (proj2 (started_top t' Hne)). apply started_lookup.
  by apply (top_on_stack k t' (la_procs _ La)).
Qed.

Lemma started_context t' : 0 <= t' < 3 → t' ≠ t → alive k t' = true → context k' t' = context k t'.
Proof.
  intros Ht' Hne Ha. unfold context. change (running_terminal k') with (running_terminal k).
  rewrite (la_running _ La). fold t. rewrite (proj2 (Z.eqb_neq t' t) Hne). by rewrite started_top_pcb.
Qed.

Lemma started_quiet p' : sys_ok dir_addr table_addr vidmem_addr q k' p' → procs_ok (k_procs k') → pcbs_ok k' →
  get_curr_pcb k' = get_pcb_by_index q → quiet dir_addr table_addr vidmem_addr k'.
Proof.
  intros Hsys Hps' Hpcbs' Hcur'. destruct started_new as [Ea Et]. pose proof (la_running _ La) as Hr. fold t in Hr.
  split; [exact Hps'|exact Hpcbs'| | |exact (la_display _ La)| | | |].
  - change (running_terminal k') with (running_terminal k). rewrite Hr. split; [exact (la_display _ La)|exact Ea].
  - intros t' Ht'. change (terminal_running k') with (terminal_running k).
    destruct (la_flags _ La t' Ht') as (r & Er & Hr1). exists r. split; [done|]. rewrite Hr1, Hr.
    destruct (decide (t' = t)) as [->|Hne]; [rewrite Ea; tauto|]. rewrite (proj1 (started_top t' Hne)). tauto.
  - change (running_terminal k') with (running_terminal k). by rewrite Hr, Et.
  - intros t' p Ht' Hne Ha Hp. change (running_terminal k') with (running_terminal k) in Hne.
    assert (Hne' : t' ≠ t) by congruence. destruct (started_top t' Hne') as [E1 E2]. rewrite E1 in Ha.
    rewrite started_top_pcb in Hp by done. rewrite E2. by apply (la_saved _ La).
  - intros t' p Ht' Ha Hp. destruct (decide (t' = t)) as [->|Hne'].
    + unfold top_pcb in Hp. rewrite Et, started_new_lookup in Hp. by injection Hp as <-.
    + destruct (started_top t' Hne') as [E1 E2]. rewrite E1 in Ha. rewrite started_top_pcb in Hp by done.
      apply (la_pending _ La t'); [done|congruence|done|done].
  - destruct (so_page _ _ _ _ _ _ Hsys) as (win & Hw). by exists (Some q, win).
Qed.
End launch.

(** Starting a program from a launchable state. *)
Lemma launch dir_addr table_addr vidmem_addr magics stack_dentry k i name args command :
  linked dir_addr table_addr vidmem_addr → launchable k → machine_ok dir_addr table_addr vidmem_addr k → get_pid k ≠ -1 →
  Forall (λ c, is_u8 c ∧ c ≠ 0) name → Z.of_nat (length name) <= 32 → program k i name → buf_ok (k_fs k) magics 4 →
  Forall (λ c, c ≠ 0) args → Z.of_nat (length args) < ARG_MAX → parse_command command = Done (inr (name ++ [0], args ++ [0])) →
  ∃ old m', let k' := started k args old m' in
    execute dir_addr table_addr vidmem_addr magics stack_dentry command k =
      Done (Enter (entry_point k i) (_128_MB_SIZE + FOUR_MB_SIZE - ESP_OFFSET), k') ∧
    k_pcbs k !! get_pcb_by_index (get_pid k) = Some old ∧ same_image k m' ∧
    (∀ a, a < magics ∨ magics + 4 <= a → a < EIGHT_MB_SIZE → m' a = k_mem k a) ∧
    quiet dir_addr table_addr vidmem_addr k' ∧ sys_ok dir_addr table_addr vidmem_addr (get_pid k) k' (started_pcb k args old).
Proof.
  intros Hlink La Hm Hq Hn Hln Hprog Hbuf Ha Hla Hparse.
  destruct (execute_spec dir_addr table_addr vidmem_addr magics stack_dentry Hlink k Hm i name Hn Hln Hprog Hbuf (la_procs _ La)
    (la_pcbs _ La) (la_display _ La) Hq command args Ha Hla Hparse) as (old & m' & E & Hold & Him & _ & Hfr).
  destruct (started_ok dir_addr table_addr vidmem_addr k Hm i name (la_procs _ La) (la_pcbs _ La) (la_display _ La) Hq args
    old m' Hold Him) as (Hsys & Hps' & Hpcbs' & Hcur').
  exists old, m'. cbv zeta. split_and!; [exact E|exact Hold|exact Him|exact Hfr|by eapply started_quiet|exact Hsys].
Qed.

(** * Switching to a terminal for the first time *)
Section first_switch.
Context (dir_addr table_addr vidmem_addr magics : Z) (stack_dentry : dentry_t).
Context (Hlink : linked dir_addr table_addr vidmem_addr).

(** The image is outside the text pages and holds the program "shell"; the
    stack buffer of [execute] is outside both. *)
Record shell_on (k : kernel) (i : Z) : Prop := ShellOn {
  so_program : program k i shell;
  so_buffer : buf_ok (k_fs k) magics 4;
  so_outside : outside_text (fs_addr (k_fs k)) (image_end (k_fs k) - fs_addr (k_fs k));
  so_stack : outside_text magics 4 }.

Context (k : kernel) (i id : Z) (Hk : quiet dir_addr table_addr vidmem_addr k).
Context (Hmach : machine_ok dir_addr table_addr vidmem_addr k) (Hshell : shell_on k i).
Context (Hid : 0 <= id < 3) (Hne : id ≠ current_terminal (k_con k)) (Hfirst : zget (terminal_running k) id = Some 0).
Context (q := get_pid k) (Hq : q ≠ -1).
Context (Hinfo : infos_ok (k_con k)) (Hok : ts_ok (abs_video (k_con k))) (Hkeys : keys_ok (k_con k)).

Lemma not_alive : alive k id = false ∧ id ≠ running_terminal k.
Proof.
  destruct (sc_flags _ _ _ _ Hk id Hid) as (r & Er & Hr). rewrite Hfirst in Er. injection Er as <-.
  assert (E : alive k id = false) by (destruct (alive k id); [by discriminate (proj2 Hr eq_refl)|done]).
  split; [done|]. intros ->. destruct (sc_running _ _ _ _ Hk) as [_ E']. by rewrite E' in E.
Qed.

(** The kernel when [execute] is called. *)
Definition displayed (old : pcb_t) (c2 : console) : kernel :=
  with_if true (with_running id (set_pcb (get_curr_pcb k) (with_schedule (k_esp k) (k_ebp k) old)
    (with_con c2 (with_terminal_running (<[Z.to_nat id := 1]> (terminal_running k)) k)))).

Lemma displayed_ok old c2 : k_pcbs k !! get_curr_pcb k = Some old → current_terminal c2 = id →
  only_in VIDEO TEXT_END (k_mem k) (c_mem c2) → mem_ok (c_mem c2) →
  machine_ok dir_addr table_addr vidmem_addr (displayed old c2) ∧ pcbs_ok (displayed old c2) ∧
  shell_on (displayed old c2) i ∧ entry_point (displayed old c2) i = entry_point k i.
Proof.
  intros Hold Hc2 Hout Hm. destruct Hshell as [Hp Hb Ha Hst].
  assert (Hs : ∀ a, fs_addr (k_fs k) <= a < image_end (k_fs k) → k_mem (displayed old c2) a = k_mem k a).
  { intros a Hr. apply Hout. unfold outside_text in Ha. lia. }
  split_and!.
  - apply (machine_frame dir_addr table_addr vidmem_addr k); [done|done|done|done|apply (mo_page _ _ _ _ Hmach)].
  - intros x Hx. destruct (sc_pcbs _ _ _ _ Hk x Hx) as (p & Ep & Hl & Hpid).
    change (k_pcbs (displayed old c2)) with (<[get_curr_pcb k := with_schedule (k_esp k) (k_ebp k) old]> (k_pcbs k)).
    change (k_procs (displayed old c2)) with (k_procs k).
    destruct (decide (get_curr_pcb k = get_pcb_by_index x)) as [E|E].
    + rewrite E, lookup_insert_eq. rewrite E, Ep in Hold. injection Hold as <-. by eexists.
    + rewrite lookup_insert_ne by done. by exists p.
  - split; [|done|done|done]. by apply (program_frame dir_addr table_addr vidmem_addr k).
  - by apply (entry_point_frame dir_addr table_addr vidmem_addr k (displayed old c2) Hmach eq_refl Hs i shell Hp).
Qed.

(** The switch runs [execute] in that state. *)
Lemma switch_executes : ∃ old c2, k_pcbs k !! get_curr_pcb k = Some old ∧
  current_terminal c2 = id ∧ only_in VIDEO TEXT_END (k_mem k) (c_mem c2) ∧ mem_ok (c_mem c2) ∧
  (con_ok (k_con k) → con_ok c2) ∧
  (∀ t, 0 <= t < 3 → ∃ s s', text_of (k_con k) t = Some s ∧ text_of c2 t = Some s' ∧ s' ≡ s) ∧
  ∀ eip esp k', execute dir_addr table_addr vidmem_addr magics stack_dentry (lit0 "shell") (displayed old c2) = Done (Enter eip esp, k') →
    switch_to_terminal dir_addr table_addr vidmem_addr magics stack_dentry id k = Done (Enter eip esp, k').
Proof.
  destruct (switch_display (k_con k) id Hid (sc_display _ _ _ _ Hk) Hne Hinfo Hok Hkeys) as (c1 & c2 & E1 & E2 & Ecur & Hout & Hm & Hcon & Ht).
  destruct (sc_running _ _ _ _ Hk) as [Hr Ha]. destruct (alive_top _ _ _ Hlink k Hk _ Hr Ha) as (_ & old & _ & _ & Hold & _).
  unfold top_pcb in Hold. rewrite <- (sc_curr _ _ _ _ Hk) in Hold.
  exists old, c2. split_and!; [done|done|done|apply Hm, (mo_image _ _ _ _ Hmach)|exact Hcon|done|].
  intros eip esp k' E. unfold switch_to_terminal. cbv zeta.
  unfold MAX_TERMINAL_NUM. destruct (Z.leb_spec 3 id); [lia|].
  change (current_terminal (k_con (with_if false k))) with (current_terminal (k_con k)).
  rewrite (proj2 (Z.eqb_neq _ _) Hne). change (terminal_running (with_if false k)) with (terminal_running k).
  rewrite Hfirst. cbn [must]. rewrite bind_Done. change (0 =? 0) with true. cbv iota.
  change (get_pid (with_if false k)) with q. rewrite (proj2 (Z.eqb_neq _ _) Hq).
  apply zget_Some in Hfirst as Hf. destruct Hf as [_ Hf%lookup_lt_Some].
  rewrite zset_in by lia. cbn [must]. rewrite bind_Done. unfold save_display.
  change (k_con (with_terminal_running _ _)) with (k_con k). rewrite E1, !bind_Done. cbn [k_con with_con].
  rewrite E2, bind_Done. set (kc := with_con c2 _).
  change (pcb_at kc (get_curr_pcb kc)) with (must (k_pcbs k !! get_curr_pcb k)). rewrite Hold. cbn [must]. rewrite bind_Done.
  change (with_if true _) with (displayed old c2). by rewrite E, bind_Done.
Qed.

(** The state in which [execute] is called. *)
Section displayed.
Context (old : pcb_t) (c2 : console) (Hold : k_pcbs k !! get_curr_pcb k = Some old) (Hc2 : current_terminal c2 = id).

Lemma displayed_top_pcb t : 0 <= t < 3 → alive k t = true → top_pcb (displayed old c2) t =
  if t =? running_terminal k then Some (with_schedule (k_esp k) (k_ebp k) old) else top_pcb k t.
Proof.
  intros Ht Ha. unfold top_pcb. change (top (displayed old c2)) with (top k).
  change (k_pcbs (displayed old c2)) with (<[get_curr_pcb k := with_schedule (k_esp k) (k_ebp k) old]> (k_pcbs k)).
  destruct (sc_running _ _ _ _ Hk) as [Hrr Hra]. rewrite (sc_curr _ _ _ _ Hk).
  destruct (Z.eqb_spec t (running_terminal k)) as [->|Hne']; [by rewrite lookup_insert_eq|].
  rewrite lookup_insert_ne; [done|]. intros E. apply Hne'. symmetry. by apply (top_inj _ _ _ Hlink k Hk).
Qed.

Lemma displayed_context t : 0 <= t < 3 → alive k t = true → context (displayed old c2) t = context k t.
Proof.
  intros Ht Ha. destruct not_alive as [Hna Hnr]. assert (Hne' : t ≠ id) by (intros ->; by rewrite Hna in Ha).
  unfold context. change (running_terminal (displayed old c2)) with id.
  rewrite (proj2 (Z.eqb_neq t id)), displayed_top_pcb by done. by destruct (t =? running_terminal k).
Qed.

Lemma displayed_launchable : pcbs_ok (displayed old c2) → launchable (displayed old c2).
Proof.
  intros Hp. destruct not_alive as [Hna Hnr]. destruct (sc_running _ _ _ _ Hk) as [Hrr Hra].
  split; [exact (sc_procs _ _ _ _ Hk)|exact Hp|cbn; by rewrite Hc2|cbn; by rewrite Hc2| | |].
  - intros t Ht. change (terminal_running (displayed old c2)) with (<[Z.to_nat id := 1]> (terminal_running k)).
    change (running_terminal (displayed old c2)) with id. change (alive (displayed old c2)) with (alive k).
    destruct (decide (t = id)) as [->|Hne'].
    + exists 1. split; [|tauto]. apply zget_insert_eq. apply zget_Some in Hfirst as [_ Hf%lookup_lt_Some]. lia.
    + rewrite zget_insert_ne by lia. destruct (sc_flags _ _ _ _ Hk t Ht) as (r & Er & Hr). exists r. split; [done|tauto].
  - intros t p Ht Hne' Ha Hp'. change (alive k t = true) in Ha. rewrite displayed_top_pcb in Hp' by done.
    change (top (displayed old c2)) with (top k).
    destruct (Z.eqb_spec t (running_terminal k)) as [->|]; [injection Hp' as <-; apply (sc_curr _ _ _ _ Hk)|].
    by apply (sc_saved _ _ _ _ Hk).
  - intros t p Ht Hne' Ha Hp'. change (alive k t = true) in Ha. rewrite displayed_top_pcb in Hp' by done.
    destruct (Z.eqb_spec t (running_terminal k)) as [->|]; [|by apply (sc_pending _ _ _ _ Hk t)].
    injection Hp' as <-. cbn. apply (sc_pending _ _ _ _ Hk (running_terminal k)); [done|done|].
    unfold top_pcb. by rewrite <- (sc_curr _ _ _ _ Hk).
Qed.
End displayed.

End first_switch.

(** The memory does not matter to the records of the console. *)
Lemma con_ok_mem c m' : con_ok c → con_ok (with_mem (λ _, m') c).
Proof. by intros []. Qed.

(** The first switch to a terminal.  When the shell is on the image, a
    pid is free and no signal is pending, switching to a terminal that has
    never run starts the shell there: the call enters user mode at the
    shell's entry point, the terminal becomes the displayed and the running
    one with the new process, the lowest free pid, alone on its stack; every
    terminal keeps its text and its stack of processes; every terminal that
    was alive keeps the context it goes on with, the interrupted one
    included; and the new state is one the scheduler's theorems and the system
    calls' theorems start from. *)
Theorem first_switch_starts_shell (dir_addr table_addr vidmem_addr magics : Z) (stack_dentry : dentry_t)
    (Hlink : linked dir_addr table_addr vidmem_addr) (k : kernel) (i id : Z) (Hk : quiet dir_addr table_addr vidmem_addr k)
    (Hmach : machine_ok dir_addr table_addr vidmem_addr k) (Hshell : shell_on magics k i)
    (Hid : 0 <= id < 3) (Hne : id ≠ current_terminal (k_con k)) (Hfirst : zget (terminal_running k) id = Some 0)
    (Hq : get_pid k ≠ -1) (Hinfo : infos_ok (k_con k)) (Hok : ts_ok (abs_video (k_con k))) (Hkeys : keys_ok (k_con k)) :
  ∃ k' p', switch_to_terminal dir_addr table_addr vidmem_addr magics stack_dentry id k =
      Done (Enter (entry_point k i) (_128_MB_SIZE + FOUR_MB_SIZE - ESP_OFFSET), k') ∧
    sched_ok dir_addr table_addr vidmem_addr k' ∧ sys_ok dir_addr table_addr vidmem_addr (get_pid k) k' p' ∧
    current_terminal (k_con k') = id ∧ running_terminal k' = id ∧ stack_of (k_procs k') id = [get_pid k] ∧
    (∀ t, t ≠ id → stack_of (k_procs k') t = stack_of (k_procs k) t) ∧
    (∀ t, 0 <= t < 3 → alive k t = true → context k' t = context k t) ∧
    ∀ t, 0 <= t < 3 → ∃ s s', text_of (k_con k) t = Some s ∧ text_of (k_con k') t = Some s' ∧ s' ≡ s.
Proof.
  destruct (switch_executes dir_addr table_addr vidmem_addr magics stack_dentry Hlink k id Hk Hmach Hid Hne Hfirst Hq Hinfo Hok Hkeys)
    as (old & c2 & Hold & Hc2 & Hout & Hm & _ & Htext & Hrun).
  destruct (displayed_ok dir_addr table_addr vidmem_addr magics k i id Hk Hmach Hshell old c2 Hold Hc2 Hout Hm)
    as (Hmd & Hpd & [Hprog Hbuf _ Hst] & Een).
  pose proof (displayed_launchable dir_addr table_addr vidmem_addr Hlink k id Hk Hid Hne Hfirst old c2 Hold Hc2 Hpd) as La.
  destruct (not_alive dir_addr table_addr vidmem_addr k id Hk Hid Hne Hfirst) as [Hna Hnr].
  destruct (launch dir_addr table_addr vidmem_addr magics stack_dentry (displayed k id old c2) i shell [] (lit0 "shell") Hlink La
    Hmd Hq shell_bytes ltac:(by vm_compute) Hprog Hbuf (list.Forall_nil_2 _) ltac:(by vm_compute) parse_shell)
    as (old' & m' & E & _ & _ & Hfr & Hk' & Hsys).
  destruct (started_stacks (displayed k id old c2) La Hq [] old' m') as [S1 S2].
  change (current_terminal (k_con (displayed k id old c2))) with (current_terminal c2) in S1, S2. rewrite Hc2 in S1, S2.
  change (stack_of (k_procs (displayed k id old c2))) with (stack_of (k_procs k)) in S1, S2.
  assert (Hempty : stack_of (k_procs k) id = []).
  { unfold alive in Hna. by apply negb_false_iff, bool_decide_eq_true in Hna. }
  rewrite Hempty in S1. eexists _, _. rewrite <- Een. split; [exact (Hrun _ _ _ E)|].
  split_and!; [split; [exact Hk'|]|exact Hsys|exact Hc2|done|exact S1|exact S2| |].
  - destruct (sc_running _ _ _ _ Hk) as [Hrr Hra]. unfold alive. destruct (decide (id = 0)) as [E0|Hn0].
    + assert (running_terminal k = 1 ∨ running_terminal k = 2) as [E1|E1] by lia; [left|right]; rewrite <- E1, S2 by done; exact Hra.
    + assert (id = 1 ∨ id = 2) as [E1|E1] by lia; [left|right]; rewrite <- E1, S1; reflexivity.
  - intros t Ht Ha. assert (Hne' : t ≠ id) by (intros ->; by rewrite Hna in Ha).
    rewrite (started_context (displayed k id old c2) La Hq) by (done || (cbn; by rewrite Hc2)).
    by apply (displayed_context dir_addr table_addr vidmem_addr Hlink k id Hk Hid Hne Hfirst old c2).
  - intros t Ht. destruct (Htext t Ht) as (s & s1 & Es & Es1 & Eq1).
    destruct (text_frame c2 m') with (t := t) (s := s1) as (s2 & Es2 & Eq2); [|done|done|].
    { intros a Ha. unfold TEXT_END, FOUR_KB_SIZE in Ha. apply Hfr; [|unfold EIGHT_MB_SIZE, VIDEO in *; lia].
      unfold outside_text, TEXT_END, FOUR_KB_SIZE in Hst. lia. }
    exists s, s2. split_and!; [exact Es|exact Es2|]. by rewrite Eq2.
Qed.

(** * Witness: terminal 2 is switched to for the first time *)
Definition cells8 : list (Z * Z) :=
  [(0, 2); (4, 2); (8, 2); (64, 46); (96, 1); (128, 115); (129, 104); (130, 101); (131, 108); (132, 108);
   (160, 2); (4096, 136); (4097, 19); (4100, 1); (16384, 127); (16385, 69); (16386, 76); (16387, 70);
   (16408, 0); (16409, 128); (16410, 4); (16411, 8)].
Definition img8 : mem := cell_image cells8.
Definition img8_fs : fs := filesystem_init img8 image_base.
Definition kernel8 : kernel := with_fs img8_fs (set_mem img8 kernel5).

Lemma quiet_frame dir_addr table_addr vidmem_addr f m k :
  quiet dir_addr table_addr vidmem_addr k → quiet dir_addr table_addr vidmem_addr (with_fs f (set_mem m k)).
Proof. intros []. by split. Qed.

Lemma kernel8_machine : machine_ok 0x500000 0x501000 0x502000 kernel8.
Proof.
  split; [|split|by vm_compute|apply kernel5_sched].
  - split; [by apply cell_image_bytes|done|done|done].
  - by vm_compute.
  - change (num_dentries (k_fs kernel8)) with 2. intros i Hi. assert (i = 0 ∨ i = 1) as [-> | ->] by lia; by vm_compute.
Qed.

Lemma kernel8_shell : shell_on 0x7FB000 kernel8 1.
Proof.
  assert (Ei : load32 (k_mem kernel8) (entry_at (k_fs kernel8) 1 + 36) = 0) by by vm_compute.
  assert (Es : file_size (k_mem kernel8) (k_fs kernel8) 0 = 5000) by by vm_compute.
  split; [split| |right; by vm_compute|right; by vm_compute].
  - by vm_compute.
  - by vm_compute.
  - intros j Hj. assert (j = 0) as -> by lia. by vm_compute.
  - rewrite Ei. split; [by vm_compute|by vm_compute|]. intros j Hj. rewrite Es. unfold BLOCKSIZE. intros ?.
    assert (j = 0 ∨ j = 1) as [-> | ->] by lia; by vm_compute.
  - rewrite Ei, Es. unfold _128_MB_SIZE, FOUR_MB_SIZE, PROGRAM_OFFSET. lia.
  - by vm_compute.
  - split; [lia|]. right. by vm_compute.
Qed.

Lemma first_switch_starts_shell_witness : ∃ k',
  switch_to_terminal 0x500000 0x501000 0x502000 0x7FB000 (replicate 64 0) 2 kernel8 = Done (Enter 0x8048000 0x83FFFFC, k') ∧
  current_terminal (k_con k') = 2 ∧ stack_of (k_procs k') 2 = [2] ∧ stack_of (k_procs k') 1 = [1] ∧
  context k' 1 = Some (k_esp kernel8, k_ebp kernel8).
Proof.
  destruct (first_switch_starts_shell 0x500000 0x501000 0x502000 0x7FB000 (replicate 64 0) linked0 kernel8 1 2
    (quiet_frame _ _ _ _ _ _ (sc_quiet _ _ _ _ kernel5_sched)) kernel8_machine kernel8_shell)
    as (k' & p' & E & _ & _ & Hc & _ & Hs & Ho & Hx & _).
  - lia.
  - by vm_compute.
  - by vm_compute.
  - by vm_compute.
  - intros t Ht. assert (t = 0 ∨ t = 1 ∨ t = 2) as [-> | [-> | ->]] by lia; (eexists; split; [reflexivity|by vm_compute]).
  - exact (proj1 console1_ok).
  - exact (proj2 console1_ok).
  - assert (Ee : entry_point kernel8 1 = 0x8048000) by by vm_compute. rewrite Ee in E.
    assert (Eq : get_pid kernel8 = 2) by by vm_compute. rewrite Eq in Hs.
    assert (E1 : stack_of (k_procs kernel8) 1 = [1]) by by vm_compute.
    exists k'. split; [exact E|]. split; [exact Hc|]. split; [exact Hs|]. split; [rewrite <- E1; apply Ho; lia|].
    rewrite Hx; [by vm_compute|lia|by vm_compute].
Defined.
