(* ===== verification/Boot.v ===== *)
(** The start-up of the kernel: the first terminal of student-distrib/terminal.c
    and its shell. *)
From Stdlib Require Import String.
From stdpp Require Import gmap.
From S2P Require Import Prelude Memory Strings Console Filesystem Paging Pic Rtc Kernel Terminal Syscall Tables Process Scheduling Shells.

(** * Blank screens *)

(** The text rows at [base] are blank, in the colour of terminal [t]. *)
Definition blank (t : Z) (m : mem) (base : Z) : Prop :=
  ∀ o, 0 <= o < SCREEN_BYTES → m (base + o) = if Z.even o then 32 else attrib t.

Definition blank_text (t : Z) (s : tscreen) : Prop :=
  ts_ok s ∧ ∀ o, 0 <= o < SCREEN_BYTES → Console.cells s o = if Z.even o then 32 else attrib t.
#[export] Instance blank_text_proper t : Proper ((≡) ==> iff) (blank_text t).
Proof.
  intros s1 s2 E. unfold blank_text. rewrite E. destruct E as (_ & _ & _ & Ec).
  split; intros [? H]; (split; [done|]); intros o Ho; [rewrite <- Ec by done|rewrite Ec by done]; by apply H.
Qed.

(** A loop that writes cells of video memory. *)
Lemma cells_written t attr lo hi m : 0 <= lo <= hi →
  let m' := for_range lo hi (λ m i, store8 (store8 m (VIDEO + Z.shiftl i 1) (t i)) (VIDEO + Z.shiftl i 1 + 1) (attr i)) m in
  ∀ o, m' (VIDEO + o) = if (2 * lo <=? o) && (o <? 2 * hi) then u8 (if Z.even o then t (o / 2) else attr (o / 2)) else m (VIDEO + o).
Proof.
  intros Hr. cbv zeta. apply (for_range_ind (λ i m', ∀ o, m' (VIDEO + o) =
    if (2 * lo <=? o) && (o <? 2 * i) then u8 (if Z.even o then t (o / 2) else attr (o / 2)) else m (VIDEO + o))); [lia| |].
  { intros o. zcase; done. }
  intros i m' Hi H o. rewrite Z.shiftl_mul_pow2 by lia. unfold store8, upd.
  pose proof (Z.div_mod o 2 ltac:(done)) as Hdiv. pose proof (Z.mod_pos_bound o 2 ltac:(done)) as Hmod.
  destruct (Z.eqb_spec (VIDEO + o) (VIDEO + i * 2 ^ 1 + 1)) as [E|Hodd].
  { assert (o = 2 * i + 1) as -> by lia. replace ((2 * i + 1) / 2) with i by lia. rewrite Z.even_add, Z.even_mul. by zcase. }
  destruct (Z.eqb_spec (VIDEO + o) (VIDEO + i * 2 ^ 1)) as [E|Heven].
  { assert (o = 2 * i) as -> by lia. replace (2 * i / 2) with i by lia. rewrite Z.even_mul. by zcase. }
  rewrite H. zcase; done.
Qed.

Lemma clear_blank c : 0 <= current_terminal c < 3 → blank (current_terminal c) (c_mem (clear c)) VIDEO.
Proof.
  intros Ht o Ho. pose proof (attrib_u8 (current_terminal c)) as Ha. unfold SCREEN_BYTES in Ho.
  unfold clear. cbn [with_mem c_mem]. unfold NUM_ROWS, NUM_COLS, BARTEXLEN.
  assert (Hh : 0 <= high (current_terminal c)).
  { assert (current_terminal c = 0 ∨ current_terminal c = 1 ∨ current_terminal c = 2) as [-> | [-> | ->]] by lia; by vm_compute. }
  rewrite (cells_written _ (λ _, ATTRIB_HIG)) by lia. zcase.
  rewrite (cells_written _ (λ _, ATTRIB_BAR)) by lia. zcase.
  rewrite (cells_written (λ _, 32) (λ _, attrib (current_terminal c))) by lia. zcase.
  destruct (Z.even o); [done|by apply u8_id].
Qed.

(** * The terminal records *)

(** The console after the first [n] terminals are set up, from [c0]. *)
Record screens (c0 : console) (n : Z) (c : console) : Prop := Screens {
  sn_infos : ∀ t, 0 <= t < 3 → ∃ i, zget (terminal_info c) t = Some i ∧ length (key_arr_old i) = 129%nat ∧
    (t < n → i = init_info t i ∧ blank t (c_mem c) (saved_screen t));
  sn_len : length (terminal_info c) = 3%nat;
  sn_mem : only_in VIDEO TEXT_END (c_mem c0) (c_mem c);
  sn_bytes : mem_ok (c_mem c0) → mem_ok (c_mem c);
  sn_pos : screen_x c = screen_x c0 ∧ screen_y c = screen_y c0 ∧ row_stack c = row_stack c0;
  sn_keys : key_arr c = key_arr c0 ∧ key_arr_ptr c = key_arr_ptr c0 ∧ key_arr_overflow c = key_arr_overflow c0 }.

Lemma init_info_buffer i t : 0 <= i < 3 → screen_buffer (init_info i t) = saved_screen i.
Proof. intros Hi. assert (i = 0 ∨ i = 1 ∨ i = 2) as [-> | [-> | ->]] by lia; reflexivity. Qed.

(** Clearing the screen as terminal [t] and copying it to the buffer of [t]. *)
Lemma copy_clear t c : 0 <= t < 3 → let c' := copy_from_screen_buffer (saved_screen t) (clear (with_current t c)) in
  blank t (c_mem c') VIDEO ∧ blank t (c_mem c') (saved_screen t) ∧
  (∀ t', 0 <= t' < 3 → t' ≠ t → ∀ o, 0 <= o < SCREEN_BYTES → c_mem c' (saved_screen t' + o) = c_mem c (saved_screen t' + o)) ∧
  only_in VIDEO TEXT_END (c_mem c) (c_mem c') ∧ (mem_ok (c_mem c) → mem_ok (c_mem c')).
Proof.
  intros Ht. cbv zeta. set (cc := clear (with_current t c)).
  pose proof (clear_blank (with_current t c) Ht) as Hb. pose proof (clear_only (with_current t c) Ht) as Ho.
  pose proof (clear_ok (with_current t c)) as Hm. fold cc in Hb, Ho, Hm.
  change (current_terminal (with_current t c)) with t in Hb. change (c_mem (with_current t c)) with (c_mem c) in Ho, Hm.
  pose proof (λ a, copy_out_spec t cc a Ht) as Hc. pose proof (saved_screen_at t Ht) as Es. clearbody cc.
  unfold blank, SCREEN_BYTES in *. unfold TEXT_END, FOUR_KB_SIZE.
  split_and!.
  - intros o Hor. rewrite Hc. unfold copied. zcase; by apply Hb.
  - intros o Hor. rewrite Hc. unfold copied. zcase. cbv iota. rewrite <- Hb by done. f_equal. lia.
  - intros t' Ht' Hne o Hor. pose proof (saved_screen_at t' Ht') as Es'. rewrite Hc. unfold copied. zcase; apply Ho; lia.
  - intros a Ha. rewrite Hc. unfold copied. zcase; apply Ho; lia.
  - intros H a. rewrite Hc. by apply copied_ok, Hm.
Qed.

Lemma init_screen_ok c0 n c : 0 <= n < 3 → screens c0 n c → ∃ c', init_screen (Done c) n = Done c' ∧ screens c0 (n + 1) c'.
Proof.
  intros Hn [Hi Hl Hm Hb Hp Hk]. destruct (Hi n Hn) as (t & Ht & Hlt & _). unfold init_screen.
  rewrite bind_Done, Ht. cbn [must]. rewrite bind_Done, zset_in by lia. cbn [must]. rewrite bind_Done.
  rewrite init_info_buffer by done. eexists. split; [reflexivity|].
  set (l := <[Z.to_nat n := init_info n t]> (terminal_info c)).
  destruct (copy_clear n (with_terminals l c) Hn) as (_ & B1 & B2 & B3 & B4).
  change (with_current n (with_terminals l c)) with (with_terminals l (with_current n c)) in *.
  set (c' := copy_from_screen_buffer (saved_screen n) _) in *.
  change (c_mem (with_terminals l c)) with (c_mem c) in *.
  split; try done.
  - change (terminal_info c') with l. intros t' Ht'. unfold l. destruct (decide (n = t')) as [<-|Hne].
    + rewrite zget_insert_eq by lia. eexists. split; [done|]. split; [cbn; by rewrite length_insert|].
      intros _. split; [|exact B1]. unfold init_info. cbn. by rewrite list_insert_insert_eq.
    + rewrite zget_insert_ne by lia. destruct (Hi t' Ht') as (i & Ei & Eli & Hsmall). exists i.
      split; [done|]. split; [done|]. intros Hlt'. destruct (Hsmall ltac:(lia)) as [Einfo Hblank]. split; [done|].
      intros o Ho. rewrite B2 by (done || lia). by apply Hblank.
  - change (terminal_info c') with l. unfold l. by rewrite length_insert.
  - by eapply only_in_trans.
  - auto.
Qed.

Lemma init_screens_ok c0 : screens c0 0 c0 → ∃ c, for_range 0 3 init_screen (Done c0) = Done c ∧ screens c0 3 c.
Proof.
  intros H. apply (for_range_ind (λ n o, ∃ c, o = Done c ∧ screens c0 n c)); [done|by exists c0|].
  intros n o Hn (c & -> & Hc). by apply init_screen_ok.
Qed.

(** * The first shell *)
Section boot.
Context (dir_addr table_addr vidmem_addr magics : Z) (stack_dentry : dentry_t).
Context (Hlink : linked dir_addr table_addr vidmem_addr).

(** The kernel when the devices are set up: no process, the text cursor on
    the screen, the shell on the image. *)
Record boot_ok (k : kernel) (i : Z) : Prop := BootOk {
  bt_process : process (k_procs k) = replicate 6 NOT_IN_USE;
  bt_running : terminal_running k = replicate 3 0;
  bt_infos : length (terminal_info (k_con k)) = 3%nat ∧
    ∀ t, 0 <= t < 3 → ∃ it, zget (terminal_info (k_con k)) t = Some it ∧ length (key_arr_old it) = 129%nat;
  bt_current : 0 <= current_terminal (k_con k) < 3;
  bt_keys : keys_ok (k_con k);
  bt_text : ts_ok (abs_video (k_con k));
  bt_pcbs : ∀ q, 0 <= q < MAX_TASK → ∃ p, k_pcbs k !! get_pcb_by_index q = Some p ∧ length (files p) = 8%nat;
  bt_machine : machine_ok dir_addr table_addr vidmem_addr k;
  bt_shell : shell_on magics k i }.

Context (k : kernel) (i : Z) (Hk : boot_ok k i).

Definition no_procs : procs := Procs (replicate 6 NOT_IN_USE) (replicate 3 (replicate 6 0)) (replicate 3 0).
Lemma no_procs_ok : procs_ok no_procs.
Proof.
  split; try done.
  - intros t row [_ H]%zget_Some. by apply lookup_replicate in H as [-> _].
  - intros t n [_ H]%zget_Some. by apply lookup_replicate in H as [-> _].
  - apply NoDup_nil_2.
  - intros q. change (all_pids no_procs) with (@nil Z). split; [by intros ?%not_elem_of_nil|].
    intros [_ H]%zget_Some. by apply lookup_replicate in H as [? _].
  - intros q s [_ H]%zget_Some. apply lookup_replicate in H as [-> _]. by right.
Qed.

(** The kernel when [init_terminal] calls [execute]. *)
Definition cleared (c : console) : kernel :=
  with_terminal_running [1; 0; 0] (with_if true (with_con c (with_running 0 (with_procs no_procs k)))).

Lemma cleared_keys a : KEY_ARR_SIZE < Z.of_nat (length a) →
  KEY_ARR_SIZE < Z.of_nat (length (for_range 0 ((KEY_ARR_SIZE + 1) * 3) (λ a i, <[Z.to_nat i := 0]> a) a)).
Proof.
  intros H. apply (for_range_ind (λ _ a', KEY_ARR_SIZE < Z.of_nat (length a'))); [by vm_compute|done|].
  intros j a' _ Ha. by rewrite length_insert.
Qed.

Lemma init_terminal_executes : ∃ c, current_terminal c = 0 ∧
  only_in VIDEO TEXT_END (k_mem k) (c_mem c) ∧ mem_ok (c_mem c) ∧ con_ok c ∧
  (∀ t, 0 <= t < 3 → ∃ s, text_of c t = Some s ∧ blank_text t s) ∧
  init_terminal dir_addr table_addr vidmem_addr magics stack_dentry k =
    execute dir_addr table_addr vidmem_addr magics stack_dentry (lit0 "shell") (cleared c).
Proof.
  destruct (clear_shape (k_con k) (bt_current _ _ Hk)) as (cc & Ecc & E1 & E2 & E3 & E4).
  assert (Epos : screen_x cc = screen_x (k_con k) ∧ screen_y cc = screen_y (k_con k) ∧ row_stack cc = row_stack (k_con k) ∧
    key_arr cc = key_arr (k_con k) ∧ key_arr_ptr cc = key_arr_ptr (k_con k) ∧ key_arr_overflow cc = key_arr_overflow (k_con k))
    by by rewrite <- Ecc.
  destruct Epos as (P1 & P2 & P3 & K1 & K2 & K3).
  set (keys := for_range 0 ((KEY_ARR_SIZE + 1) * 3) (λ a i, <[Z.to_nat i := 0]> a) (key_arr cc)).
  set (c0 := with_current 0 (with_keys keys (key_arr_ptr cc) (key_arr_overflow cc) cc)).
  destruct (init_screens_ok c0) as (c1 & El & [Hi Hl Hm Hb Hp Hkeys]).
  { destruct (bt_infos _ _ Hk) as [Hlen Hinf]. split; try done; [|by rewrite <- Hlen, <- E1].
    intros t Ht. change (terminal_info c0) with (terminal_info cc). rewrite E1. destruct (Hinf t Ht) as (it & Eit & Hit).
    exists it. split; [done|]. split; [done|lia]. }
  destruct (copy_clear 0 c1 ltac:(lia)) as (B0 & B1 & B2 & B3 & B4).
  set (c := copy_from_screen_buffer (saved_screen 0) _) in *.
  change (c_mem c0) with (c_mem cc) in Hm, Hb.
  assert (Hinfos : terminal_info c = terminal_info c1) by done.
  assert (Hposc : screen_x c = screen_x c1 ∧ screen_y c = screen_y c1 ∧ row_stack c = row_stack c1 ∧
    key_arr c = key_arr c1 ∧ key_arr_ptr c = key_arr_ptr c1 ∧ key_arr_overflow c = key_arr_overflow c1) by done.
  destruct Hposc as (Q1 & Q2 & Q3 & Q4 & Q5 & Q6). destruct Hp as (R1 & R2 & R3). destruct Hkeys as (R4 & R5 & R6).
  assert (Htext : ts_ok (abs_video c)).
  { pose proof (bt_text _ _ Hk) as Hts. unfold ts_ok, abs_video, view_at in *. cbn [tx ty trow] in *.
    rewrite Q1, Q2, Q3, R1, R2, R3. cbn [c0 screen_x screen_y row_stack with_current with_keys]. by rewrite P1, P2, P3. }
  exists c. split; [done|]. split; [|split; [|split; [|split]]].
  - eapply only_in_trans; [|exact B3]. eapply only_in_trans; [|exact Hm].
    eapply only_in_weaken; [| |exact E3]; unfold TEXT_END, FOUR_KB_SIZE; lia.
  - apply B4, Hb, E4. apply (mo_image _ _ _ _ (bt_machine _ _ Hk)).
  - split; [| |exact Htext|].
    + intros t Ht. rewrite Hinfos. destruct (Hi t Ht) as (it & Eit & Hlt & Hset). destruct (Hset ltac:(lia)) as [Einit _].
      exists it. split; [done|]. pose proof (f_equal screen_buffer Einit) as Eb. rewrite init_info_buffer in Eb by done.
      pose proof (f_equal screen_pos_y Einit) as Ey. cbn [init_info screen_pos_y] in Ey. rewrite Ey. by split_and!.
    + intros t i' Ht Hti. rewrite Hinfos in Hti. destruct (Hi t Ht) as (it & Eit & Hlt & Hset).
      destruct (Hset ltac:(lia)) as [Einit _]. rewrite Eit in Hti. injection Hti as <-. rewrite Einit. by unfold ts_ok.
    + destruct (bt_keys _ _ Hk) as (G1 & G2 & G3 & G4). unfold keys_ok. rewrite Q4, Q5, Q6, R4, R5, R6.
      cbn [c0 key_arr key_arr_ptr key_arr_overflow with_current with_keys]. rewrite K2, K3.
      repeat split; try (done || apply G1 || apply G2). unfold keys. apply cleared_keys. by rewrite K1.
  - intros t Ht. unfold text_of. change (current_terminal c) with 0.
    destruct (Z.eqb_spec t 0) as [->|Hne]; [exists (abs_video c); by split|].
    rewrite Hinfos. destruct (Hi t ltac:(lia)) as (it & Eit & _ & Hset). destruct (Hset ltac:(lia)) as [Einit Hblank].
    rewrite Eit. eexists. split; [reflexivity|]. rewrite Einit. split; [by unfold ts_ok|].
    intros o Ho. change (c_mem c (saved_screen t + o) = if Z.even o then 32 else attrib t).
    rewrite B2 by (done || lia). by apply Hblank.
  - unfold init_terminal. rewrite Ecc. change (MAX_TERMINAL_NUM) with 3. fold keys. fold c0. rewrite El, bind_Done.
    change (terminal_info (clear (with_current 0 c1))) with (terminal_info c1).
    destruct (Hi 0 ltac:(lia)) as (it & Eit & _ & Hset). destruct (Hset ltac:(lia)) as [Einit _]. rewrite Eit. cbn [must].
    rewrite bind_Done. change (terminal_running (with_running 0 _)) with (terminal_running k). rewrite (bt_running _ _ Hk).
    rewrite zset_in by (cbn; lia). cbn [must]. rewrite bind_Done, Einit, init_info_buffer by lia.
    rewrite (bt_process _ _ Hk). reflexivity.
Qed.

Lemma cleared_pid c : get_pid (cleared c) = 0.
Proof. reflexivity. Qed.
Lemma cleared_stacks c t : 0 <= t < 3 → stack_of (k_procs (cleared c)) t = [].
Proof. intros Ht. assert (t = 0 ∨ t = 1 ∨ t = 2) as [-> | [-> | ->]] by lia; reflexivity. Qed.
Lemma cleared_alive c t : 0 <= t < 3 → alive (cleared c) t = false.
Proof. intros Ht. unfold alive. by rewrite cleared_stacks. Qed.

Lemma cleared_launchable c : current_terminal c = 0 → launchable (cleared c).
Proof.
  intros Hc. split; [exact no_procs_ok| |cbn; by rewrite Hc|cbn; by rewrite Hc| | |].
  - intros q Hq. destruct (bt_pcbs _ _ Hk q Hq) as (p & Hp & Hl). exists p. split_and!; [done|done|].
    intros Hin. by apply not_elem_of_nil in Hin.
  - intros t Ht. rewrite cleared_alive by done. assert (t = 0 ∨ t = 1 ∨ t = 2) as [-> | [-> | ->]] by lia.
    + exists 1. split; [done|]. split; [by left|done].
    + exists 0. split; [done|]. split; [done|by intros [?|?]].
    + exists 0. split; [done|]. split; [done|by intros [?|?]].
  - intros t p Ht _ Ha. by rewrite cleared_alive in Ha.
  - intros t p Ht _ Ha. by rewrite cleared_alive in Ha.
Qed.

Lemma cleared_ok c : only_in VIDEO TEXT_END (k_mem k) (c_mem c) → mem_ok (c_mem c) →
  machine_ok dir_addr table_addr vidmem_addr (cleared c) ∧ shell_on magics (cleared c) i ∧
  entry_point (cleared c) i = entry_point k i.
Proof.
  intros Hout Hm. destruct (bt_shell _ _ Hk) as [Hp Hb Ha Hst]. pose proof (bt_machine _ _ Hk) as Hmach.
  assert (Hs : ∀ a, fs_addr (k_fs k) <= a < image_end (k_fs k) → k_mem (cleared c) a = k_mem k a).
  { intros a Hr. apply Hout. unfold outside_text in Ha. lia. }
  split_and!.
  - apply (machine_frame dir_addr table_addr vidmem_addr k); [done|done|done|done|apply (mo_page _ _ _ _ Hmach)].
  - split; [|done|done|done]. by apply (program_frame dir_addr table_addr vidmem_addr k).
  - by apply (entry_point_frame dir_addr table_addr vidmem_addr k (cleared c) Hmach eq_refl Hs i shell Hp).
Qed.
End boot.

(** Start-up.  With the devices set up, no process and the shell on the
    image, [init_terminal] enters the shell as process 0: every terminal shows
    a blank screen in its own colour, terminal 0 is displayed, running and
    holds the new process alone, the other two are empty; and the state is
    one from which the theorems about the scheduler, the terminal switch and
    the system calls start. *)
Theorem boot_starts_shell (dir_addr table_addr vidmem_addr magics : Z) (stack_dentry : dentry_t)
    (Hlink : linked dir_addr table_addr vidmem_addr) (k : kernel) (i : Z)
    (Hk : boot_ok dir_addr table_addr vidmem_addr magics k i) :
  ∃ k' p', init_terminal dir_addr table_addr vidmem_addr magics stack_dentry k =
      Done (Enter (entry_point k i) (_128_MB_SIZE + FOUR_MB_SIZE - ESP_OFFSET), k') ∧
    quiet dir_addr table_addr vidmem_addr k' ∧ sys_ok dir_addr table_addr vidmem_addr 0 k' p' ∧ con_ok (k_con k') ∧
    current_terminal (k_con k') = 0 ∧ running_terminal k' = 0 ∧
    stack_of (k_procs k') 0 = [0] ∧ stack_of (k_procs k') 1 = [] ∧ stack_of (k_procs k') 2 = [] ∧
    ∀ t, 0 <= t < 3 → ∃ s, text_of (k_con k') t = Some s ∧ blank_text t s.
Proof.
  destruct (init_terminal_executes dir_addr table_addr vidmem_addr magics stack_dentry k i Hk)
    as (c & Hc & Hout & Hm & Hcon & Htext & E).
  destruct (cleared_ok dir_addr table_addr vidmem_addr magics k i Hk c Hout Hm) as (Hmach & [Hprog Hbuf _ Hst] & Een).
  pose proof (cleared_launchable dir_addr table_addr vidmem_addr magics k i Hk c Hc) as La.
  destruct (launch dir_addr table_addr vidmem_addr magics stack_dentry (cleared k c) i shell [] (lit0 "shell") Hlink La Hmach)
    as (old & m' & Ee & _ & _ & Hfr & Hq & Hsys);
    [done|exact shell_bytes|by vm_compute|done|done|constructor|by vm_compute|exact parse_shell|].
  destruct (started_stacks (cleared k c) La ltac:(done) [] old m') as [S1 S2].
  change (current_terminal (k_con (cleared k c))) with (current_terminal c) in S1, S2. rewrite Hc in S1, S2.
  eexists _, _. rewrite E, <- Een. split; [exact Ee|].
  split_and!; [exact Hq|exact Hsys|by apply (con_ok_mem c)|exact Hc|done|by rewrite S1|by rewrite S2|by rewrite S2|].
  intros t Ht. destruct (Htext t Ht) as (s & Es & Hs).
  destruct (text_frame c m') with (t := t) (s := s) as (s2 & Es2 & Eq2); [|done|done|].
  { intros a Ha. unfold TEXT_END, FOUR_KB_SIZE in Ha. apply Hfr; [|unfold EIGHT_MB_SIZE, VIDEO in *; lia].
    unfold outside_text, TEXT_END, FOUR_KB_SIZE in Hst. lia. }
  exists s2. split; [exact Es2|]. by rewrite Eq2.
Qed.

(** The image of the shell, with no process yet. *)
Definition kernel9 : kernel :=
  with_terminal_running [0; 0; 0] (with_procs (Procs [0; 0; 0; 0; 0; 0] [] []) kernel8).
Lemma no_process_yet dir_addr table_addr vidmem_addr ps l k : machine_ok dir_addr table_addr vidmem_addr k →
  machine_ok dir_addr table_addr vidmem_addr (with_terminal_running l (with_procs ps k)).
Proof. intros [H1 H2 H3 H4]. split; [exact H1|exact H2|exact H3|exact H4]. Qed.
Lemma no_process_shell magics ps l k i : shell_on magics k i → shell_on magics (with_terminal_running l (with_procs ps k)) i.
Proof.
  intros [[H1 H2 H3 H4 H5 H6] Hb Ho Hs].
  split; [split; [exact H1|exact H2|exact H3|exact H4|exact H5|exact H6]|exact Hb|exact Ho|exact Hs].
Qed.
Lemma kernel9_ok : boot_ok 0x500000 0x501000 0x502000 0x7FB000 kernel9 1.
Proof.
  split; [done|done| |by vm_compute|exact (proj2 console1_ok)|exact (proj1 console1_ok)| | |].
  - split; [done|]. intros t Ht. assert (t = 0 ∨ t = 1 ∨ t = 2) as [-> | [-> | ->]] by lia; (eexists; split; [reflexivity|by vm_compute]).
  - intros q Hq. exists (pcb5 q). split; [|done]. destruct (lt6 q Hq) as [-> | [-> | [-> | [-> | [-> | ->]]]]]; by vm_compute.
  - apply no_process_yet, kernel8_machine.
  - apply no_process_shell, kernel8_shell.
Qed.

Lemma boot_starts_shell_witness : ∃ k',
  init_terminal 0x500000 0x501000 0x502000 0x7FB000 (replicate 64 0) kernel9 = Done (Enter 0x8048000 0x83FFFFC, k') ∧
  stack_of (k_procs k') 0 = [0] ∧ current_terminal (k_con k') = 0.
Proof.
  destruct (boot_starts_shell 0x500000 0x501000 0x502000 0x7FB000 (replicate 64 0) linked0 kernel9 1 kernel9_ok)
    as (k' & p' & E & _ & _ & _ & Hc & _ & Hs & _).
  assert (Ee : entry_point kernel9 1 = 0x8048000) by by vm_compute. rewrite Ee in E.
  exists k'. split; [exact E|]. split; [exact Hs|exact Hc].
Defined.
