(* ===== verification/Lifecycle.v ===== *)
(** The life of the kernel after start-up: timer interrupts, terminal
    switches, programs that start, end and write their own memory, in any
    order; the invariant all of them keep, and that none of them gets stuck. *)
From Stdlib Require Import String.
From stdpp Require Import gmap.
From S2P Require Import Prelude Memory Strings Console Filesystem Paging Pic Rtc Kernel Terminal Syscall Tables Process Scheduling Keyboard Calls Shells Boot.

(** * The invariant *)
Section ready.
Context (dir_addr table_addr vidmem_addr magics : Z).

(** Every process alive has typed descriptors, a parent with a pid, and no
    pending signal. *)
Definition live_ok (k : kernel) : Prop := ∀ x p, x ∈ all_pids (k_procs k) → k_pcbs k !! get_pcb_by_index x = Some p →
  files_typed p ∧ 0 <= parent_pid p < 6 ∧ pending_signal p = 0x3F.

(** On each terminal every process but the first was started by the one below
    it, and its control block holds the kernel stack of that one. *)
Definition chained (k : kernel) : Prop := ∀ t l a b r p, 0 <= t < 3 → stack_of (k_procs k) t = l ++ a :: b :: r →
  k_pcbs k !! get_pcb_by_index b = Some p → parent_pid p = a ∧ Z.land (parent_esp p) PCB_MASK = get_pcb_by_index a.

(** The page tables map the program page of the process that runs. *)
Definition mapped (k : kernel) : Prop := ∃ win, rep dir_addr table_addr vidmem_addr (k_page k) (Some (top k (running_terminal k)), win) ∧
  st_ok (Some (top k (running_terminal k)), win).

Record ready (k : kernel) (i : Z) : Prop := Ready {
  rd_quiet : quiet dir_addr table_addr vidmem_addr k;
  rd_machine : machine_ok dir_addr table_addr vidmem_addr k;
  rd_mapped : mapped k;
  rd_shell : shell_on magics k i;
  rd_con : con_ok (k_con k);
  rd_live : live_ok k;
  rd_chain : chained k;
  rd_bits : Forall (λ r, r = 0 ∨ r = 1) (terminal_running k);
  rd_init : head (stack_of (k_procs k) 0) = Some 0 }.

(** The system calls' theorems apply to the process that runs. *)
Lemma ready_sys k i : ready k i → ∃ p, sys_ok dir_addr table_addr vidmem_addr (top k (running_terminal k)) k p.
Proof.
  intros H. destruct (rd_machine _ _ H) as [H1 H2 H3 _]. pose proof (rd_quiet _ _ H) as Hq.
  destruct (sc_running _ _ _ _ Hq) as [Hr Ha]. destruct (top_on_stack k _ (sc_procs _ _ _ _ Hq) Hr Ha) as [Hin _].
  destruct (sc_pcbs _ _ _ _ Hq (top k (running_terminal k))) as (p & Hp & Hl & _); [by apply (pid_range _ (sc_procs _ _ _ _ Hq))|].
  exists p. split; [done|done|done|apply (rd_mapped _ _ H)| |done]. by rewrite (sc_curr _ _ _ _ Hq).
Qed.

(** ** Frames *)
Definition core (p p' : pcb_t) : Prop :=
  files p' = files p ∧ parent_pid p' = parent_pid p ∧ parent_esp p' = parent_esp p ∧ pending_signal p' = pending_signal p.

Lemma pcbs_frame k k' : k_procs k' = k_procs k →
  (∀ x p', x ∈ all_pids (k_procs k) → k_pcbs k' !! get_pcb_by_index x = Some p' →
    ∃ p, k_pcbs k !! get_pcb_by_index x = Some p ∧ core p p') →
  (live_ok k → live_ok k') ∧ (chained k → chained k').
Proof.
  intros Hps Hc. split.
  - intros H x p' Hx Hp'. rewrite Hps in Hx. destruct (Hc x p' Hx Hp') as (p & Hp & E1 & E2 & E3 & E4).
    unfold files_typed. rewrite E1, E2, E4. by apply (H x).
  - intros H t l a b r p' Ht Hs Hp'. rewrite Hps in Hs.
    assert (Hb : b ∈ all_pids (k_procs k)) by (rewrite (all_pids_split _ t Ht), Hs; set_solver).
    destruct (Hc b p' Hb Hp') as (p & Hp & _ & E2 & E3 & _). rewrite E2, E3. by apply (H t l a b r).
Qed.

(** Changes of the console, of memory outside the image and of the interrupt
    flag. *)
Lemma ready_con k i c b : ready k i → con_ok c → 0 <= current_terminal c < 3 → mem_ok (c_mem c) →
  (∀ a, fs_addr (k_fs k) <= a < image_end (k_fs k) → c_mem c a = k_mem k a) → ready (with_if b (with_con c k)) i.
Proof.
  intros [Hq Hm Hmp [Hp Hb Ho Hs] _ Hl Hch Hbt Hi] Hc Ht Hmem Him. destruct Hq as [Q1 Q2 Q3 Q4 _ Q6 Q7 Q8 Q9].
  assert (Hm' : machine_ok dir_addr table_addr vidmem_addr (with_if b (with_con c k))).
  { by apply (machine_frame dir_addr table_addr vidmem_addr k). }
  split; try done. split; try done. by apply (program_frame dir_addr table_addr vidmem_addr k).
Qed.
Lemma ready_mem k i m b : ready k i → mem_ok m →
  (∀ a, fs_addr (k_fs k) <= a < image_end (k_fs k) → m a = k_mem k a) → ready (with_if b (set_mem m k)) i.
Proof.
  intros H Hm Him. apply ready_con; [done|by apply con_ok_mem, (rd_con _ _ H)|apply (sc_display _ _ _ _ (rd_quiet _ _ H))|done|done].
Qed.
End ready.

(** * Printing *)
(** A message printed on the screen. *)
Lemma print_ok cs : ∀ c, con_ok c → mem_ok (c_mem c) → Forall is_u8 cs → let c' := foldl putc c cs in
  con_ok c' ∧ mem_ok (c_mem c') ∧ current_terminal c' = current_terminal c ∧
  only_in VIDEO (VIDEO + SCREEN_BYTES) (c_mem c) (c_mem c').
Proof.
  induction cs as [|ch cs IH]; intros c Hc Hm Hcs; [by split_and!|]. apply list.Forall_cons in Hcs as [Hch Hcs].
  destruct (putc_ok c ch (co_text _ Hc) Hch) as [Habs Hmem].
  destruct (IH (putc c ch)) as (H1 & H2 & H3 & H4); [|by apply putc_bytes|done|].
  - destruct Hc as [C1 C2 C3 (K1 & K2 & K3 & K4)]. split.
    + intros t Ht. rewrite putc_terminals. by apply C1.
    + intros t i Ht. rewrite putc_terminals. apply (C2 t i Ht).
    + rewrite Habs. by apply ts_putc_ok.
    + destruct (putc_keys c ch) as (E1 & E2 & E3). unfold keys_ok. rewrite E1, E2, E3. split; [exact K1|split; [exact K2|split; [exact K3|exact K4]]].
  - cbv zeta. cbn [foldl]. split_and!; [done|done|by rewrite H3, putc_current|by eapply only_in_trans].
Qed.

(** * Programs that start *)
Section start.
Context (dir_addr table_addr vidmem_addr magics : Z) (stack_dentry : dentry_t).
Context (Hlink : linked dir_addr table_addr vidmem_addr).
Context (k : kernel) (i : Z) (La : launchable k) (Hm : machine_ok dir_addr table_addr vidmem_addr k).
Context (Hshell : shell_on magics k i) (Hcon : con_ok (k_con k)) (Hlive : live_ok k) (Hchain : chained k).
Context (Hbits : Forall (λ r, r = 0 ∨ r = 1) (terminal_running k)).
Context (t := current_terminal (k_con k)) (q := get_pid k).
(** The process below, if there is one, is the one that calls [execute]; pid 0
    is the first process of terminal 0. *)
Context (Hcurr : ∀ l a, stack_of (k_procs k) t = l ++ [a] → get_curr_pcb k = get_pcb_by_index a).
Context (Hinit : head (stack_of (k_procs k) 0) = Some 0 ∨ t = 0 ∧ q = 0 ∧ stack_of (k_procs k) 0 = []).
Context (j : Z) (name args : list Z) (command : str) (Hn : Forall (λ c, is_u8 c ∧ c ≠ 0) name) (Hln : Z.of_nat (length name) <= 32).
Context (Hprog : program k j name) (Ha : Forall (λ c, c ≠ 0) args) (Hla : Z.of_nat (length args) < ARG_MAX).
Context (Hparse : parse_command command = Done (inr (name ++ [0], args ++ [0]))).

Section started.
Context (Hq : q ≠ -1) (old : pcb_t) (m' : mem).
Let k' := started k args old m'.

Lemma started_live : live_ok k'.
Proof.
  destruct (get_pid_free k (la_procs _ La) Hq) as (Hqr & Hfree & _). fold q in Hqr, Hfree.
  intros x p Hx Hp. destruct (decide (x = q)) as [->|Hne].
  - pose proof (started_new_lookup k args old m') as En. fold k' q in En. rewrite En in Hp. injection Hp as <-. split; [apply init_files_ptrs|]. split; [|done].
    cbn. unfold parent_on. fold q. destruct (q =? 0); [lia|].
    destruct (list.last (stack_of (k_procs k) _)) as [a|] eqn:El; [|cbn; lia].
    apply last_Some in El as (l & El). cbn. apply (pid_range _ (la_procs _ La)).
    rewrite (all_pids_split _ t (la_display _ La)). fold t in El. rewrite El. set_solver.
  - apply (pushed_live (k_procs k) t q x (la_procs _ La) (la_display _ La) Hfree Hne) in Hx.
    apply (Hlive x p Hx). pose proof (started_lookup k La Hq args old m' x Hx) as Ex. fold k' in Ex. by rewrite <- Ex.
Qed.

Lemma started_init : head (stack_of (k_procs k') 0) = Some 0.
Proof.
  destruct (started_stacks k La Hq args old m') as [S1 S2]. fold t in S1, S2. fold k' in S1, S2. fold q in S1.
  destruct Hinit as [H|(E1 & E2 & E3)].
  - destruct (decide (t = 0)) as [E|Hne]; [|by rewrite S2 by done]. rewrite <- E, S1. rewrite E.
    by destruct (stack_of (k_procs k) 0).
  - rewrite <- E1, S1, E1, E3, E2. done.
Qed.

Lemma started_chain : chained k'.
Proof.
  destruct (get_pid_free k (la_procs _ La) Hq) as (Hqr & Hfree & _). fold q in Hqr, Hfree.
  destruct (started_stacks k La Hq args old m') as [S1 S2]. fold t in S1, S2. fold k' in S1, S2. fold q in S1.
  assert (Hold : ∀ t' l a b r p, 0 <= t' < 3 → stack_of (k_procs k) t' = l ++ a :: b :: r →
    k_pcbs k' !! get_pcb_by_index b = Some p → parent_pid p = a ∧ Z.land (parent_esp p) PCB_MASK = get_pcb_by_index a).
  { intros t' l a b r p Ht' Hs Hp. apply (Hchain t' l a b r); [done|done|].
    assert (Hb : b ∈ all_pids (k_procs k)) by (rewrite (all_pids_split _ t' Ht'), Hs; set_solver).
    pose proof (started_lookup k La Hq args old m' b Hb) as Eb. fold k' in Eb. by rewrite <- Eb. }
  intros t' l a b r p Ht' Hs Hp. destruct (decide (t' = t)) as [->|Hne]; [|rewrite S2 in Hs by done; by apply (Hold t' l a b r)].
  rewrite S1 in Hs. destruct r as [|x r _] using rev_ind.
  - change (a :: [b]) with ([a] ++ [b]) in Hs. rewrite app_assoc in Hs. apply app_inj_tail in Hs as [Hs <-].
    pose proof (started_new_lookup k args old m') as En. fold k' q in En. rewrite En in Hp. injection Hp as <-. cbn. fold q. split; [|by apply (Hcurr l a)].
    unfold parent_on. fold t. destruct (Z.eqb_spec q 0) as [E|_]; [|by rewrite Hs, last_snoc].
    exfalso. destruct Hinit as [H|(E1 & _ & E3)].
    + rewrite E in Hfree. assert (H0 : 0 ∈ all_pids (k_procs k)).
      { rewrite (all_pids_split _ 0 ltac:(lia)). destruct (stack_of (k_procs k) 0); [done|]. injection H as ->. set_solver. }
      apply (po_live _ (la_procs _ La)) in H0. rewrite H0 in Hfree. discriminate Hfree.
    + rewrite <- E1, Hs in E3. by destruct l.
  - apply (Hold t l a b r); [done| |done]. rewrite !app_comm_cons, app_assoc in Hs. by apply app_inj_tail in Hs as [Hs _].
Qed.

Lemma started_same : k_con k' = with_mem (λ _, m') (k_con k) ∧ k_fs k' = k_fs k ∧ running_terminal k' = running_terminal k ∧
  k_mem k' = m'.
Proof. done. Qed.
Lemma started_mapped p' : sys_ok dir_addr table_addr vidmem_addr q k' p' → mapped dir_addr table_addr vidmem_addr k'.
Proof.
  intros Hsys. destruct started_same as (_ & _ & Er & _). destruct (started_new k La Hq args old m') as [_ Et].
  fold k' in Et. unfold mapped. rewrite Er, (la_running _ La), Et. apply (so_page _ _ _ _ _ _ Hsys).
Qed.
Lemma started_shell p' : sys_ok dir_addr table_addr vidmem_addr q k' p' →
  (∀ a, fs_addr (k_fs k) <= a < image_end (k_fs k) → m' a = k_mem k a) → shell_on magics k' i.
Proof.
  intros Hsys Him. destruct started_same as (_ & Ef & _ & Em). destruct Hshell as [Hsh Hbuf Hout Hst].
  split; [|by rewrite Ef|by rewrite Ef|done]. apply (program_frame dir_addr table_addr vidmem_addr k k' Hm Ef); [|done].
  intros a Hr. rewrite Em. by apply Him.
Qed.
End started.

(** With a free pid the program is entered in a well-formed state. *)
Lemma launch_ready : q ≠ -1 → ∃ k', execute dir_addr table_addr vidmem_addr magics stack_dentry command k =
    Done (Enter (entry_point k j) (_128_MB_SIZE + FOUR_MB_SIZE - ESP_OFFSET), k') ∧
  ready dir_addr table_addr vidmem_addr magics k' i ∧ stack_of (k_procs k') t = stack_of (k_procs k) t ++ [q] ∧
  (∀ t', t' ≠ t → stack_of (k_procs k') t' = stack_of (k_procs k) t') ∧ k_pic k' = k_pic k.
Proof.
  intros Hq. destruct Hshell as [Hsh Hbuf Hout Hst].
  destruct (launch dir_addr table_addr vidmem_addr magics stack_dentry k j name args command Hlink La Hm Hq Hn Hln Hprog Hbuf Ha Hla Hparse)
    as (old & m' & E & Hold & [Hmem Him] & _ & Hquiet & Hsys).
  exists (started k args old m'). destruct (started_stacks k La Hq args old m') as [S1 S2]. fold t in S1, S2.
  split_and!; [exact E| |exact S1|exact S2|done].
  split; [exact Hquiet|by eapply sys_machine|by eapply started_mapped|by eapply started_shell| | | |exact Hbits|].
  - destruct (started_same old m') as (-> & _). by apply con_ok_mem.
  - by apply started_live.
  - by apply started_chain.
  - by apply started_init.
Qed.
End start.

(** The program is the shell. *)
Lemma launch_shell dir_addr table_addr vidmem_addr magics stack_dentry k i (t := current_terminal (k_con k)) :
  linked dir_addr table_addr vidmem_addr → launchable k → machine_ok dir_addr table_addr vidmem_addr k → shell_on magics k i →
  con_ok (k_con k) → live_ok k → chained k → Forall (λ r, r = 0 ∨ r = 1) (terminal_running k) →
  (∀ l a, stack_of (k_procs k) t = l ++ [a] → get_curr_pcb k = get_pcb_by_index a) →
  head (stack_of (k_procs k) 0) = Some 0 ∨ t = 0 ∧ get_pid k = 0 ∧ stack_of (k_procs k) 0 = [] → get_pid k ≠ -1 →
  ∃ k', execute dir_addr table_addr vidmem_addr magics stack_dentry (lit0 "shell") k =
      Done (Enter (entry_point k i) (_128_MB_SIZE + FOUR_MB_SIZE - ESP_OFFSET), k') ∧
    ready dir_addr table_addr vidmem_addr magics k' i ∧ stack_of (k_procs k') t = stack_of (k_procs k) t ++ [get_pid k] ∧
    (∀ t', t' ≠ t → stack_of (k_procs k') t' = stack_of (k_procs k) t') ∧ k_pic k' = k_pic k.
Proof.
  intros Hlink La Hm Hs Hcon Hlive Hchain Hbits Hcurr Hinit Hpid.
  apply (launch_ready dir_addr table_addr vidmem_addr magics stack_dentry Hlink k i La Hm Hs Hcon Hlive Hchain Hbits Hcurr Hinit
    i shell [] (lit0 "shell") shell_bytes ltac:(by vm_compute) (so_program _ _ _ Hs) (list.Forall_nil_2 _) ltac:(by vm_compute) parse_shell Hpid).
Qed.

(** * Timer interrupts *)
Section tick.
Context (dir_addr table_addr vidmem_addr magics : Z) (stack_dentry : dentry_t).
Context (Hlink : linked dir_addr table_addr vidmem_addr) (k : kernel) (i : Z).
Context (H : ready dir_addr table_addr vidmem_addr magics k i).
Let Hq := rd_quiet _ _ _ _ _ _ H.

Lemma switched_ready old new : alive k 1 = true ∨ alive k 2 = true → top_pcb k (running_terminal k) = Some old →
  saved_pcbs k old !! get_pcb_by_index (top k (rr_next (alive k) (running_terminal k))) = Some new →
  ready dir_addr table_addr vidmem_addr magics (switched vidmem_addr k old new) i.
Proof.
  intros Hmulti Hold Hnew. set (k' := switched vidmem_addr k old new).
  destruct (switched_page dir_addr table_addr vidmem_addr Hlink k Hq) as (w & _ & Hrep & Hst).
  destruct (pcbs_frame k k' eq_refl) as [Hl Hc].
  { intros x p' _ Hp'. change (k_pcbs k') with (saved_pcbs k old) in Hp'. unfold saved_pcbs in Hp'. unfold top_pcb in Hold.
    destruct (decide (get_pcb_by_index (top k (running_terminal k)) = get_pcb_by_index x)) as [E|E].
    - rewrite E, lookup_insert_eq in Hp'. injection Hp' as <-. exists old. rewrite <- E. by split.
    - rewrite lookup_insert_ne in Hp' by done. by exists p'. }
  destruct (rd_machine _ _ _ _ _ _ H) as [M1 M2 M3 _]. destruct (rd_shell _ _ _ _ _ _ H) as [[P1 P2 P3 P4 P5 P6] Hb Ho Hs].
  split; [apply (switched_ok dir_addr table_addr vidmem_addr Hlink k Hq Hmulti old new Hold Hnew)|split; [done|done|done|]| |split; [|done|done|done]| | | | |].
  - by eexists.
  - by exists (Some w).
  - by split.
  - apply (rd_con _ _ _ _ _ _ H).
  - apply Hl, (rd_live _ _ _ _ _ _ H).
  - apply Hc, (rd_chain _ _ _ _ _ _ H).
  - apply (rd_bits _ _ _ _ _ _ H).
  - apply (rd_init _ _ _ _ _ _ H).
Qed.

(** With one terminal in use the interrupt returns to the same program. *)
Lemma pit_stays : alive k 1 = false → alive k 2 = false →
  pit_handler dir_addr table_addr vidmem_addr magics stack_dentry k =
    Done (None, with_if true (with_if false (with_pic_rtc (send_eoi PIT_IRQ (k_pic k)) (k_rtc k) k))).
Proof.
  intros A1 A2. destruct (sc_running _ _ _ _ Hq) as [Hr Ha].
  assert (Er : running_terminal k = 0).
  { assert (running_terminal k = 0 ∨ running_terminal k = 1 ∨ running_terminal k = 2) as [E|[E|E]] by lia; [done|congruence..]. }
  assert (Ec : ∀ t, 0 <= t < 3 → alive k t = false → cnt k t = Done 0).
  { intros t Ht At. rewrite (cnt_spec dir_addr table_addr vidmem_addr k Hq t Ht).
    apply negb_false_iff, bool_decide_eq_true in At. by rewrite At. }
  destruct (alive_top dir_addr table_addr vidmem_addr Hlink k Hq _ Hr Ha) as (l & p & El & _ & Hp & _).
  pose proof (sc_pending _ _ _ _ Hq _ _ Hr Ha Hp) as Hpend. unfold top_pcb in Hp. rewrite <- (sc_curr _ _ _ _ Hq) in Hp.
  unfold pit_handler. cbv zeta. set (k0 := with_if false _).
  change (cnt k0 1) with (cnt k 1). change (cnt k0 2) with (cnt k 2). change (cnt k0 0) with (cnt k 0).
  rewrite (Ec 1 ltac:(lia) A1), (Ec 2 ltac:(lia) A2), !bind_Done. change (negb (0 =? 0) || negb (0 =? 0)) with false. cbv iota.
  rewrite (cnt_spec dir_addr table_addr vidmem_addr k Hq 0 ltac:(lia)), bind_Done. rewrite Er in El. rewrite El, length_app.
  rewrite (proj2 (Z.eqb_neq _ 0)) by (cbn; lia). change (pcb_at k0 (get_curr_pcb k0)) with (must (k_pcbs k !! get_curr_pcb k)).
  rewrite Hp. cbn [must]. by rewrite bind_Done, Hpend.
Qed.

Lemma tick_ready : ∃ k', pit_handler dir_addr table_addr vidmem_addr magics stack_dentry k = Done (None, k') ∧
  ready dir_addr table_addr vidmem_addr magics k' i.
Proof.
  destruct (alive k 1) eqn:A1; [|destruct (alive k 2) eqn:A2].
  3: { eexists. split; [by apply pit_stays|]. set (k0 := with_pic_rtc _ _ k).
       assert (H0 : ready dir_addr table_addr vidmem_addr magics k0 i).
       { destruct H as [[Q1 Q2 Q3 Q4 Q5 Q6 Q7 Q8 Q9] [M1 M2 M3 M4] Hmp [[P1 P2 P3 P4 P5 P6] Hb Ho Hs] Hc Hl Hch Hbt Hi].
         split; try done; split; try done; by split. }
       apply (ready_con _ _ _ _ k0 i (k_con k0) true H0); [apply (rd_con _ _ _ _ _ _ H)|apply (sc_display _ _ _ _ Hq)| |done].
       apply (mo_image _ _ _ _ (rd_machine _ _ _ _ _ _ H)). }
  all: assert (Hmulti : alive k 1 = true ∨ alive k 2 = true) by tauto.
  all: destruct (running_top dir_addr table_addr vidmem_addr Hlink k Hq) as (old & Hold).
  all: destruct (pit_switches dir_addr table_addr vidmem_addr magics stack_dentry Hlink k Hq Hmulti old Hold) as (new & Hnew & E).
  all: eexists; split; [exact E|by apply switched_ready].
Qed.
End tick.

(** * Terminal switches *)

(** The message when there is no pid for a new shell. *)
Definition no_pid_message : list Z := lit "process number reaches maximum! Can't switch to new terminal!" ++ 10 :: lit "391OS> ".
Lemma print_no_pid c : printf (lview (lit "process number reaches maximum! Can't switch to new terminal!"
  ++ 10 :: lit "391OS> " ++ [0])) [] c = Done (foldl putc c no_pid_message).
Proof.
  unfold printf. generalize (c_mem c). intros m.
  assert (printf_chars m (lview (lit "process number reaches maximum! Can't switch to new terminal!"
    ++ 10 :: lit "391OS> " ++ [0])) [] = Done no_pid_message) as ->; [by vm_compute|done].
Qed.
Lemma no_pid_bytes : Forall is_u8 no_pid_message.
Proof.
  assert (forallb (λ c, (0 <=? c) && (c <? 256)) no_pid_message = true) as Hall by by vm_compute.
  apply list.Forall_forall. intros c Hc. rewrite forallb_forall in Hall. specialize (Hall c).
  rewrite <- list_elem_of_In in Hall. specialize (Hall Hc). unfold is_u8. lia.
Qed.

Section switches.
Context (dir_addr table_addr vidmem_addr magics : Z) (stack_dentry : dentry_t).
Context (Hlink : linked dir_addr table_addr vidmem_addr) (k : kernel) (i : Z).
Context (H : ready dir_addr table_addr vidmem_addr magics k i).
Let Hq := rd_quiet _ _ _ _ _ _ H.
Let Hmach := rd_machine _ _ _ _ _ _ H.

(** Changes of the text pages. *)
Lemma text_outside m : only_in VIDEO TEXT_END (k_mem k) m →
  ∀ a, fs_addr (k_fs k) <= a < image_end (k_fs k) → m a = k_mem k a.
Proof.
  intros Hm a Ha. apply Hm. pose proof (so_outside _ _ _ (rd_shell _ _ _ _ _ _ H)) as Ho. unfold outside_text in Ho. lia.
Qed.

Lemma no_pid_ready : ready dir_addr table_addr vidmem_addr magics (with_con (foldl putc (k_con k) no_pid_message) (with_if false k)) i.
Proof.
  destruct (print_ok no_pid_message (k_con k) (rd_con _ _ _ _ _ _ H) (im_bytes _ _ (mo_image _ _ _ _ Hmach)) no_pid_bytes)
    as (H1 & H2 & H3 & H4).
  revert H1 H2 H3 H4. generalize (foldl putc (k_con k) no_pid_message). intros c H1 H2 H3 H4.
  apply (ready_con _ _ _ _ k i c false H H1); [rewrite H3; apply (sc_display _ _ _ _ Hq)|exact H2|].
  apply text_outside. eapply only_in_weaken; [| |exact H4]; unfold TEXT_END, SCREEN_BYTES, FOUR_KB_SIZE; lia.
Qed.

Lemma displayed_tables id old c2 : k_pcbs k !! get_curr_pcb k = Some old →
  (live_ok k → live_ok (displayed k id old c2)) ∧ (chained k → chained (displayed k id old c2)).
Proof.
  intros Hold. apply pcbs_frame; [done|]. intros x p' _ Hp'.
  change (k_pcbs (displayed k id old c2)) with (<[get_curr_pcb k := with_schedule (k_esp k) (k_ebp k) old]> (k_pcbs k)) in Hp'.
  destruct (decide (get_curr_pcb k = get_pcb_by_index x)) as [E|E].
  - rewrite E, lookup_insert_eq in Hp'. injection Hp' as <-. exists old. rewrite <- E. by split.
  - rewrite lookup_insert_ne in Hp' by done. by exists p'.
Qed.
(** The terminal that is displayed has never run. *)
Lemma switch_first_ready id : 0 <= id < 3 → id ≠ current_terminal (k_con k) → zget (terminal_running k) id = Some 0 →
  ∃ o k', switch_to_terminal dir_addr table_addr vidmem_addr magics stack_dentry id k = Done (o, k') ∧
  ready dir_addr table_addr vidmem_addr magics k' i.
Proof.
  intros Hid Hne Er. pose proof (rd_con _ _ _ _ _ _ H) as Hcon. destruct (decide (get_pid k = -1)) as [Epid|Hpid].
  { exists (Return (-1)). eexists. split; [|apply no_pid_ready]. unfold switch_to_terminal. cbv zeta. unfold MAX_TERMINAL_NUM.
    rewrite (proj2 (Z.leb_gt 3 id)) by lia. change (k_con (with_if false k)) with (k_con k).
    rewrite (proj2 (Z.eqb_neq _ _) Hne). change (terminal_running (with_if false k)) with (terminal_running k).
    rewrite Er. cbn [must]. rewrite bind_Done. change (0 =? 0) with true. cbv iota.
    change (get_pid (with_if false k)) with (get_pid k). rewrite Epid. change (-1 =? -1) with true. cbv iota.
    by rewrite print_no_pid, bind_Done. }
  destruct (switch_executes dir_addr table_addr vidmem_addr magics stack_dentry Hlink k id Hq Hmach Hid Hne Er Hpid
    (co_infos _ Hcon) (co_text _ Hcon) (co_keys _ Hcon)) as (old & c2 & Hold & Hc2 & Hout & Hm & Hcon2 & _ & Hrun).
  destruct (displayed_ok dir_addr table_addr vidmem_addr magics k i id Hq Hmach (rd_shell _ _ _ _ _ _ H) old c2 Hold Hc2 Hout Hm)
    as (Hmd & Hpd & Hshd & _).
  pose proof (displayed_launchable dir_addr table_addr vidmem_addr Hlink k id Hq Hid Hne Er old c2 Hold Hc2 Hpd) as La.
  destruct (displayed_tables id old c2) as [Hl Hc]; [exact Hold|].
  destruct (launch_shell dir_addr table_addr vidmem_addr magics stack_dentry (displayed k id old c2) i Hlink La Hmd Hshd
    (Hcon2 Hcon) (Hl (rd_live _ _ _ _ _ _ H)) (Hc (rd_chain _ _ _ _ _ _ H))) as (k' & E & Hk' & _); [| | |exact Hpid|].
  - change (terminal_running (displayed k id old c2)) with (<[Z.to_nat id := 1]> (terminal_running k)).
    apply Forall_insert; [apply (rd_bits _ _ _ _ _ _ H)|by right].
  - intros l a Hs. change (current_terminal (k_con (displayed k id old c2))) with (current_terminal c2) in Hs. rewrite Hc2 in Hs.
    destruct (not_alive dir_addr table_addr vidmem_addr k id Hq Hid Hne Er) as [Hna _].
    apply negb_false_iff, bool_decide_eq_true in Hna. change (stack_of (k_procs k) id = l ++ [a]) in Hs. rewrite Hna in Hs. by destruct l.
  - left. apply (rd_init _ _ _ _ _ _ H).
  - exists (Enter (entry_point (displayed k id old c2) i) (_128_MB_SIZE + FOUR_MB_SIZE - ESP_OFFSET)), k'.
    split; [by apply Hrun|exact Hk'].
Qed.

(** It has run before: its screen and its line are brought back. *)
Lemma switch_back_ready id : 0 <= id < 3 → id ≠ current_terminal (k_con k) → zget (terminal_running k) id = Some 1 →
  ∃ o k', switch_to_terminal dir_addr table_addr vidmem_addr magics stack_dentry id k = Done (o, k') ∧
  ready dir_addr table_addr vidmem_addr magics k' i.
Proof.
  intros Hid Hne Er. pose proof (rd_con _ _ _ _ _ _ H) as Hcon. pose proof (im_bytes _ _ (mo_image _ _ _ _ Hmach)) as Hbytes.
  destruct (switch_display (k_con k) id Hid (sc_display _ _ _ _ Hq) Hne (co_infos _ Hcon) (co_text _ Hcon) (co_keys _ Hcon))
    as (c1 & c2 & E1 & E2 & Ecur & Hout & Hm & Hcon2 & _).
  exists (Return 0), (with_if true (with_con c2 k)). split; [|apply (ready_con _ _ _ _ k i c2 true H); [by apply Hcon2|lia|by apply Hm|by apply text_outside]].
  unfold switch_to_terminal. cbv zeta. unfold MAX_TERMINAL_NUM.
  rewrite (proj2 (Z.leb_gt 3 id)) by lia. change (k_con (with_if false k)) with (k_con k).
  rewrite (proj2 (Z.eqb_neq _ _) Hne). change (terminal_running (with_if false k)) with (terminal_running k).
  rewrite Er. cbn [must]. rewrite bind_Done. change (1 =? 0) with false. cbv iota. unfold save_display.
  change (k_con (with_if false k)) with (k_con k). rewrite E1, !bind_Done. change (k_con (with_con c1 _)) with c1.
  by rewrite E2, bind_Done.
Qed.

Lemma switch_ready id : 0 <= id → ∃ o k', switch_to_terminal dir_addr table_addr vidmem_addr magics stack_dentry id k = Done (o, k') ∧
  ready dir_addr table_addr vidmem_addr magics k' i.
Proof.
  intros Hid. pose proof (sc_display _ _ _ _ Hq) as Hcur. pose proof (im_bytes _ _ (mo_image _ _ _ _ Hmach)) as Hbytes.
  assert (Hstay : ready dir_addr table_addr vidmem_addr magics (with_if false k) i)
    by (apply (ready_con _ _ _ _ k i (k_con k) false H (rd_con _ _ _ _ _ _ H) Hcur Hbytes); done).
  destruct (Z.leb_spec 3 id) as [Hbig|Hsmall].
  { exists (Return (-1)), (with_if false k). split; [|exact Hstay]. unfold switch_to_terminal. cbv zeta. unfold MAX_TERMINAL_NUM.
    by rewrite (proj2 (Z.leb_le 3 id)) by lia. }
  destruct (Z.eqb_spec id (current_terminal (k_con k))) as [E|Hne].
  { exists (Return 0), (with_if false k). split; [|exact Hstay]. unfold switch_to_terminal. cbv zeta. unfold MAX_TERMINAL_NUM.
    rewrite (proj2 (Z.leb_gt 3 id)) by lia. change (k_con (with_if false k)) with (k_con k). by rewrite (proj2 (Z.eqb_eq _ _) E). }
  destruct (sc_flags _ _ _ _ Hq id ltac:(lia)) as (r & Er & _). pose proof Er as [_ Hr]%zget_Some.
  apply (list.Forall_lookup_1 _ _ _ _ (rd_bits _ _ _ _ _ _ H)) in Hr.
  destruct Hr as [-> | ->]; [apply switch_first_ready|apply switch_back_ready]; by (done || lia).
Qed.
End switches.

(** * Programs that end *)
Section exits.
Context (dir_addr table_addr vidmem_addr magics : Z) (stack_dentry : dentry_t).
Context (Hlink : linked dir_addr table_addr vidmem_addr) (k : kernel) (i : Z).
Context (H : ready dir_addr table_addr vidmem_addr magics k i).
Let Hq := rd_quiet _ _ _ _ _ _ H.
Let Hmach := rd_machine _ _ _ _ _ _ H.
Context (t := running_terminal k) (q := top k t) (l : list Z) (Hstack : stack_of (k_procs k) t = l ++ [q]).
Context (p : pcb_t) (Hp : k_pcbs k !! get_pcb_by_index q = Some p).

Lemma exit_facts : 0 <= t < 3 ∧ q ∈ all_pids (k_procs k) ∧ 0 <= q < 6 ∧ pid p = q ∧ length (files p) = 8%nat ∧
  files_typed p ∧ 0 <= parent_pid p < 6.
Proof.
  destruct (sc_running _ _ _ _ Hq) as [Hr Ha]. fold t in Hr, Ha.
  destruct (top_on_stack k t (sc_procs _ _ _ _ Hq) Hr Ha) as [Hin _]. fold q in Hin.
  pose proof (pid_range _ (sc_procs _ _ _ _ Hq) q Hin) as Hqr. destruct (rd_live _ _ _ _ _ _ H q p Hin Hp) as (F1 & F2 & _).
  destruct (sc_pcbs _ _ _ _ Hq q Hqr) as (p' & Hp' & Hl & Hid). rewrite Hp in Hp'. injection Hp' as <-.
  split_and!; try done; try lia. by apply Hid.
Qed.

Let ps := popped (k_procs k) t q.
Lemma exit_popped : procs_ok ps ∧ stack_of ps t = l ∧ ∀ t', t' ≠ t → stack_of ps t' = stack_of (k_procs k) t'.
Proof. destruct exit_facts as (Ht & _). by apply popped_ok; [apply (sc_procs _ _ _ _ Hq)|..]. Qed.

(** The kernels after the process is taken off its stack: [k1] has the tables
    and the control blocks of [reaped], and the rest of [k] but for its page
    tables, stack and interrupt flag. *)
Section gone.
Context (k1 : kernel) (E1 : k_procs k1 = ps)
  (E2 : k_pcbs k1 = <[get_pcb_by_index q := with_files (closed_files (files p)) p]> (k_pcbs k))
  (E3 : k_con k1 = k_con k) (E4 : k_fs k1 = k_fs k) (E5 : running_terminal k1 = t) (E6 : terminal_running k1 = terminal_running k).

Lemma gone_other x : x ∈ all_pids ps → x ∈ all_pids (k_procs k) ∧ x ≠ q.
Proof.
  intros Hx. destruct exit_facts as (Ht & Hin & _). split; [by apply (popped_live _ t q l x (sc_procs _ _ _ _ Hq) Ht Hstack)|].
  intros ->. apply (po_live _ (proj1 exit_popped)) in Hx. unfold ps in Hx.
  rewrite (popped_process _ t q (sc_procs _ _ _ _ Hq) Ht) in Hx. rewrite zget_insert_eq in Hx; [discriminate Hx|].
  rewrite (po_process _ (sc_procs _ _ _ _ Hq)). destruct exit_facts as (_ & _ & Hr & _). lia.
Qed.
Lemma gone_lookup x : x ∈ all_pids ps → k_pcbs k1 !! get_pcb_by_index x = k_pcbs k !! get_pcb_by_index x.
Proof.
  intros Hx. destruct (gone_other x Hx) as [Hx1 Hne]. pose proof (pid_range _ (sc_procs _ _ _ _ Hq) x Hx1).
  destruct exit_facts as (_ & _ & Hr & _). rewrite E2, lookup_insert_ne; [done|].
  intros E. apply get_pcb_inj in E; [by subst x|done|done].
Qed.

Lemma gone_pcbs : pcbs_ok k1.
Proof.
  intros x Hx. rewrite E1, E2. destruct (sc_pcbs _ _ _ _ Hq x Hx) as (p' & Hp' & Hl & Hid).
  destruct (decide (get_pcb_by_index q = get_pcb_by_index x)) as [E|E].
  - rewrite E, lookup_insert_eq. rewrite <- E, Hp in Hp'. injection Hp' as <-. eexists. split; [done|].
    split; [cbn; unfold closed_files; by rewrite length_fmap|]. cbn. intros Hin. apply Hid. by apply gone_other.
  - rewrite lookup_insert_ne by done. exists p'. split; [done|]. split; [done|]. intros Hin. apply Hid. by apply gone_other.
Qed.
Lemma gone_live : live_ok k1.
Proof.
  intros x p' Hx Hp'. rewrite E1 in Hx. rewrite gone_lookup in Hp' by done. apply (rd_live _ _ _ _ _ _ H x); [|done].
  by apply gone_other.
Qed.
Lemma gone_chain : chained k1.
Proof.
  intros t' l' a b r p' Ht' Hs Hp'. rewrite E1 in Hs. destruct exit_popped as (Hps & S1 & S2).
  assert (Hb : b ∈ all_pids ps) by (rewrite (all_pids_split _ t' Ht'), Hs; set_solver).
  rewrite gone_lookup in Hp' by done. destruct (decide (t' = t)) as [->|Hne].
  - rewrite S1 in Hs. apply (rd_chain _ _ _ _ _ _ H t l' a b (r ++ [q]) p' Ht'); [|done].
    rewrite Hstack, Hs, <- app_assoc. done.
  - rewrite S2 in Hs by done. by apply (rd_chain _ _ _ _ _ _ H t' l' a b r).
Qed.
Lemma gone_top t' : t' ≠ t → alive k1 t' = alive k t' ∧ top k1 t' = top k t'.
Proof. intros Hne. unfold alive, top. by rewrite E1, (proj2 (proj2 exit_popped) t' Hne). Qed.
Lemma gone_top_pcb t' : 0 <= t' < 3 → t' ≠ t → alive k t' = true → top_pcb k1 t' = top_pcb k t'.
Proof.
  intros Ht' Hne Ha. unfold top_pcb. destruct (gone_top t' Hne) as [Ea ->]. apply gone_lookup.
  destruct exit_popped as (Hps & _). rewrite <- Ea in Ha. rewrite <- E1 in Hps.
  destruct (top_on_stack k1 t' Hps Ht' Ha) as [Hin _]. rewrite E1, (proj2 (gone_top t' Hne)) in Hin. exact Hin.
Qed.

Lemma gone_machine : k_mem k1 = k_mem k → (∃ st, rep dir_addr table_addr vidmem_addr (k_page k1) st ∧ st_ok st) →
  machine_ok dir_addr table_addr vidmem_addr k1 ∧ shell_on magics k1 i.
Proof.
  intros Em Hpg. destruct (rd_shell _ _ _ _ _ _ H) as [Hsh Hb Ho Hs]. split.
  - apply (machine_frame dir_addr table_addr vidmem_addr k k1 Hmach E4); [by intros; rewrite Em| |done].
    rewrite Em. apply (mo_image _ _ _ _ Hmach).
  - split; [|by rewrite E4|by rewrite E4|done]. apply (program_frame dir_addr table_addr vidmem_addr k k1 Hmach E4); [|done].
    intros. by rewrite Em.
Qed.

(** When a program is left on the stack, the scheduler's invariant holds. *)
Lemma gone_quiet : l ≠ [] → get_curr_pcb k1 = get_pcb_by_index (top k1 t) →
  (∃ st, rep dir_addr table_addr vidmem_addr (k_page k1) st ∧ st_ok st) → quiet dir_addr table_addr vidmem_addr k1.
Proof.
  intros Hl Hcurr Hpg. destruct exit_popped as (Hps & S1 & S2). destruct exit_facts as (Ht & _).
  assert (Ha : alive k1 t = true) by (unfold alive; rewrite E1; fold ps; rewrite S1; by destruct l).
  assert (Hpsk : procs_ok (k_procs k1)) by (by rewrite E1).
  split; [exact Hpsk|apply gone_pcbs|by rewrite E5| |by rewrite E3; apply (sc_display _ _ _ _ Hq)|by rewrite E5| | |exact Hpg].
  - intros t' Ht'. rewrite E6. destruct (sc_flags _ _ _ _ Hq t' Ht') as (r & Er & Hr). exists r. split; [done|].
    rewrite Hr. destruct (decide (t' = t)) as [->|Hne]; [|by rewrite (proj1 (gone_top t' Hne))].
    rewrite Ha. split; [done|]. intros _. apply (sc_running _ _ _ _ Hq).
  - intros t' p' Ht' Hne Hal Hp'. rewrite E5 in Hne. destruct (gone_top t' Hne) as [Ea Et]. rewrite Ea in Hal. rewrite Et.
    rewrite gone_top_pcb in Hp' by done. by apply (sc_saved _ _ _ _ Hq).
  - intros t' p' Ht' Hal Hp'. destruct (top_on_stack k1 t' Hpsk Ht' Hal) as [Hin _]. by apply (gone_live (top k1 t') p' Hin).
Qed.

(** When it was the last one and its terminal is displayed, a program can be
    started there. *)
Lemma gone_launchable : t = current_terminal (k_con k) → launchable k1.
Proof.
  intros Hcur. destruct exit_popped as (Hps & S1 & S2). destruct exit_facts as (Ht & _).
  split; [by rewrite E1|apply gone_pcbs|by rewrite E3, <- Hcur|by rewrite E5, E3| | |].
  - intros t' Ht'. rewrite E6, E5. destruct (sc_flags _ _ _ _ Hq t' Ht') as (r & Er & Hr). exists r. split; [done|].
    rewrite Hr. destruct (decide (t' = t)) as [->|Hne].
    + split; [by left|]. intros _. apply (sc_running _ _ _ _ Hq).
    + rewrite (proj1 (gone_top t' Hne)). split; [by right|]. by intros [?|?].
  - intros t' p' Ht' Hne Hal Hp'. rewrite E5 in Hne. destruct (gone_top t' Hne) as [Ea Et]. rewrite Ea in Hal. rewrite Et.
    rewrite gone_top_pcb in Hp' by done. by apply (sc_saved _ _ _ _ Hq).
  - intros t' p' Ht' Hne Hal Hp'. rewrite E5 in Hne. destruct (gone_top t' Hne) as [Ea Et]. rewrite Ea in Hal.
    rewrite gone_top_pcb in Hp' by done. by apply (sc_pending _ _ _ _ Hq t').
Qed.

Lemma gone_pid : get_pid k1 ≠ -1 ∧ (q = 0 → get_pid k1 = 0).
Proof.
  destruct exit_facts as (Ht & Hin & Hqr & _). unfold get_pid. rewrite E1. unfold ps.
  rewrite (popped_process _ t q (sc_procs _ _ _ _ Hq) Ht). pose proof (po_process _ (sc_procs _ _ _ _ Hq)) as Hlen.
  assert (Hfree : <[Z.to_nat q := NOT_IN_USE]> (process (k_procs k)) !! Z.to_nat q = Some NOT_IN_USE)
    by (apply list_lookup_insert_eq; lia).
  destruct (free_pid_spec (<[Z.to_nat q := NOT_IN_USE]> (process (k_procs k))) 0 ltac:(lia)) as [[E Hall]|(j & E & Hj & Hpre)].
  - pose proof (list.Forall_lookup_1 _ _ _ _ Hall Hfree) as Hu. by destruct Hu.
  - rewrite E. split; [lia|]. intros ->. destruct j as [|j]; [done|]. exfalso.
    by apply (Hpre 0%nat ltac:(lia) _ Hfree).
Qed.
End gone.

(** The first process of terminal 0 is process 0, and there is no other. *)
Lemma exit_first : t = 0 → head (l ++ [q]) = Some 0.
Proof. intros E0. rewrite <- Hstack, E0. apply (rd_init _ _ _ _ _ _ H). Qed.
Lemma exit_not_first : l ≠ [] → q ≠ 0.
Proof.
  intros Hl E. destruct exit_facts as (Ht & _). destruct (decide (t = 0)) as [E0|Hn0].
  - assert (El : ∃ l', l = 0 :: l').
    { pose proof (exit_first E0) as Hi. revert Hl Hi. generalize l. intros [|x l'] ? Hi; [done|]. injection Hi as ->. by exists l'. }
    destruct El as (l' & El). pose proof (po_nodup _ (sc_procs _ _ _ _ Hq)) as Hnd. rewrite (all_pids_split _ t Ht), Hstack, El in Hnd.
    apply list.NoDup_app in Hnd as [Hnd _]. cbn in Hnd. apply list.NoDup_cons in Hnd as [Hnot _]. apply Hnot. rewrite E. set_solver.
  - apply (stacks_disjoint dir_addr table_addr vidmem_addr Hlink k Hq 0 t 0 ltac:(lia) Ht (not_eq_sym Hn0)).
    + pose proof (rd_init _ _ _ _ _ _ H) as H0. destruct (stack_of (k_procs k) 0); [done|]. injection H0 as ->. set_solver.
    + rewrite Hstack, E. set_solver.
Qed.
Lemma exit_page : ∃ win, rep dir_addr table_addr vidmem_addr (map_program (parent_pid p) (k_page k)) (Some (parent_pid p), win) ∧
  st_ok (Some (parent_pid p), win).
Proof.
  destruct exit_facts as (_ & _ & _ & _ & _ & _ & Hpar). destruct (mo_page _ _ _ _ Hmach) as ([id win] & Hrep & Hst). exists win.
  split; [exact (run_op_rep _ _ _ Hlink _ _ (MapProgram (parent_pid p)) Hrep Hst Hpar)|
          exact (map_op_ok _ (MapProgram (parent_pid p)) Hpar Hst)].
Qed.

(** What holds after a program ends: the other stacks are kept. *)
Definition exited (o : outcome) (k' : kernel) : Prop :=
  ready dir_addr table_addr vidmem_addr magics k' i ∧
  (∀ t', t' ≠ t → stack_of (k_procs k') t' = stack_of (k_procs k) t') ∧
  (l ≠ [] → stack_of (k_procs k') t = l) ∧ (l = [] → ∃ q', stack_of (k_procs k') t = [q']).

(** Leaving the last program of the displayed terminal starts a new shell there. *)
Lemma exit_last_ready status : l = [] → t = current_terminal (k_con k) →
  ∃ o k', halt dir_addr table_addr vidmem_addr magics stack_dentry status k = Done (o, k') ∧ exited o k'.
Proof.
  intros El Hcur. destruct exit_facts as (Ht & Hin & Hqr & Hpid & Hlen & Hfiles & Hpar).
  destruct exit_popped as (Hps & S1 & S2). destruct exit_page as (win & Hrep & Hst). set (k1 := reaped k q p).
  assert (E : k_procs k1 = ps ∧ k_pcbs k1 = <[get_pcb_by_index q := with_files (closed_files (files p)) p]> (k_pcbs k) ∧
    k_con k1 = k_con k ∧ k_fs k1 = k_fs k ∧ running_terminal k1 = t ∧ terminal_running k1 = terminal_running k ∧ k_mem k1 = k_mem k ∧
    k_page k1 = map_program (parent_pid p) (k_page k)) by done.
  rewrite (halt_cases dir_addr table_addr vidmem_addr magics stack_dentry k (sc_procs _ _ _ _ Hq) Ht l q Hstack p Hp Hpid Hfiles).
  rewrite (bool_decide_true _ El), orb_true_r. fold k1. clearbody k1. destruct E as (E1 & E2 & E3 & E4 & E5 & E6 & E7 & E8).
  destruct (gone_machine k1 E4 E7) as [Hm1 Hs1]; [rewrite E8; by eexists|].
  pose proof (gone_launchable k1 E1 E2 E3 E5 E6 Hcur) as La.
  assert (Hpid1 : get_pid k1 ≠ -1) by (edestruct gone_pid; eauto).
  assert (Hpid0 : q = 0 → get_pid k1 = 0) by (edestruct gone_pid; eauto).
  destruct (launch_shell dir_addr table_addr vidmem_addr magics stack_dentry k1 i Hlink La Hm1 Hs1) as (k' & E & Hk' & Sk1 & Sk2 & _);
    [rewrite E3; apply (rd_con _ _ _ _ _ _ H)|by apply gone_live|by apply gone_chain|rewrite E6; apply (rd_bits _ _ _ _ _ _ H)| | |exact Hpid1|].
  - intros l' a Hs. rewrite E3, <- Hcur, E1, S1, El in Hs. by destruct l'.
  - rewrite E1, E3, <- Hcur. destruct (decide (t = 0)) as [E0|Hn0]; [|left; rewrite S2 by done; apply (rd_init _ _ _ _ _ _ H)].
    right. split; [done|]. rewrite <- E0, S1. pose proof (exit_first E0) as Hi. rewrite El in Hi. rewrite E0. split; [|done].
    apply Hpid0. by injection Hi.
  - rewrite E, bind_Done. eexists _, k'. split; [done|]. split; [exact Hk'|]. rewrite E3, <- Hcur in Sk1, Sk2.
    split; [|split; [done|intros _; exists (get_pid k1); by rewrite Sk1, E1, S1, El]].
    intros t' Hne. by rewrite Sk2, E1, S2 by done.
Qed.

(** Leaving another program returns to the one that started it. *)
Lemma exit_back_ready status : l ≠ [] →
  ∃ o k', halt dir_addr table_addr vidmem_addr magics stack_dentry status k = Done (o, k') ∧ exited o k'.
Proof.
  intros Hl. destruct exit_facts as (Ht & Hin & Hqr & Hpid & Hlen & Hfiles & Hpar).
  destruct exit_popped as (Hps & S1 & S2). destruct exit_page as (win & Hrep & Hst).
  rewrite (halt_spec dir_addr table_addr vidmem_addr magics stack_dentry k (sc_procs _ _ _ _ Hq) Ht l q Hstack p Hp Hpid Hfiles status Hl (exit_not_first Hl)).
  eexists _, _. split; [done|]. set (k1 := halted k q p status).
  assert (E : k_procs k1 = ps ∧ k_pcbs k1 = <[get_pcb_by_index q := with_files (closed_files (files p)) p]> (k_pcbs k) ∧
    k_con k1 = k_con k ∧ k_fs k1 = k_fs k ∧ running_terminal k1 = t ∧ terminal_running k1 = terminal_running k ∧ k_mem k1 = k_mem k ∧
    k_page k1 = map_program (parent_pid p) (k_page k) ∧ k_esp k1 = parent_esp p) by done.
  clearbody k1. destruct E as (E1 & E2 & E3 & E4 & E5 & E6 & E7 & E8 & E9).
  destruct (exists_last Hl) as (l' & a & El).
  assert (Etop : top k1 t = a) by (unfold top; by rewrite E1, S1, El, last_snoc).
  destruct (rd_chain _ _ _ _ _ _ H t l' a q [] p Ht) as [Epar Eesp]; [rewrite Hstack, El, <- app_assoc; done|done|].
  destruct (gone_machine k1 E4 E7) as [Hm1 Hs1]; [rewrite E8; by eexists|].
  assert (Hquiet : quiet dir_addr table_addr vidmem_addr k1).
  { apply gone_quiet; try done; [|rewrite E8; by eexists]. unfold get_curr_pcb. by rewrite E9, Etop. }
  split; [|rewrite E1; split; [exact S2|split; [by intros _|done]]].
  split; [exact Hquiet|exact Hm1| |exact Hs1|by rewrite E3; apply (rd_con _ _ _ _ _ _ H)|by apply gone_live|by apply gone_chain| |].
  - unfold mapped. rewrite E5, Etop, E8, <- Epar. by exists win.
  - rewrite E6. apply (rd_bits _ _ _ _ _ _ H).
  - rewrite E1. destruct (decide (t = 0)) as [E0|Hn0]; [|rewrite S2 by done; apply (rd_init _ _ _ _ _ _ H)].
    pose proof (exit_first E0) as Hi. rewrite <- E0 at 1. rewrite S1, El in *. by destruct l'.
Qed.

Lemma exit_ready status : l ≠ [] ∨ t = current_terminal (k_con k) →
  ∃ o k', halt dir_addr table_addr vidmem_addr magics stack_dentry status k = Done (o, k') ∧ exited o k'.
Proof. intros [Hl|Hcur]; [by apply exit_back_ready|]. destruct (decide (l = [])); [by apply exit_last_ready|by apply exit_back_ready]. Qed.
End exits.

(** * Events *)
Section events.
Context (dir_addr table_addr vidmem_addr magics : Z) (stack_dentry : dentry_t).

(** A timer interrupt, a switch to a terminal, the two calls that start and
    end a program, and the program that runs writing its memory. *)
Inductive event : Type :=
| Tick
| SwitchTo (terminal_id : Z)
| Start (command : str)
| Exit (status : Z)
| Store (m : mem).

(** The kernel in which the next instruction outside the kernel runs. *)
Definition do_event (e : event) (k : kernel) : out kernel :=
  match e with
  | Tick => '(_, k) ← pit_handler dir_addr table_addr vidmem_addr magics stack_dentry k; Done k
  | SwitchTo id => '(_, k) ← switch_to_terminal dir_addr table_addr vidmem_addr magics stack_dentry id k; Done k
  | Start command => '(_, k) ← execute dir_addr table_addr vidmem_addr magics stack_dentry command k; Done k
  | Exit status => '(_, k) ← halt dir_addr table_addr vidmem_addr magics stack_dentry status k; Done k
  | Store m => Done (set_mem m k)
  end.

(** A command line that names a program on the image. *)
Definition names_program (k : kernel) (command : str) : Prop := ∃ j name args n e,
  (reads command (replicate n 32 ++ name ++ args ++ [e]) ∧ (e = 10 ∨ e = 0)) ∧ command_line name args ∧
  (name ≠ [] ∧ Z.of_nat (length name) < 32 ∧ Forall is_u8 name) ∧
  (Z.of_nat (n + length name) <= KEY_ARR_SIZE ∧ Z.of_nat (length args) < ARG_MAX) ∧ program k j name.

(** What can happen in a state: interrupts and switches always; the program
    that runs can start another one, and the last program of a terminal can
    end, while that terminal is displayed; it writes its own page only. *)
Definition enabled (k : kernel) (e : event) : Prop :=
  match e with
  | Tick => True
  | SwitchTo id => 0 <= id
  | Start command => running_terminal k = current_terminal (k_con k) ∧ names_program k command
  | Exit _ => (1 < length (stack_of (k_procs k) (running_terminal k)))%nat ∨ running_terminal k = current_terminal (k_con k)
  | Store m => mem_ok m ∧ let base := user_phys (top k (running_terminal k)) _128_MB_SIZE in
      only_in base (base + FOUR_MB_SIZE) (k_mem k) m
  end.

Inductive history : kernel → list event → kernel → Prop :=
| history_nil k : history k [] k
| history_cons k e k' es k'' : enabled k e → do_event e k = Done k' → history k' es k'' → history k (e :: es) k''.

Context (Hlink : linked dir_addr table_addr vidmem_addr).
Let rdy := ready dir_addr table_addr vidmem_addr magics.

(** Without a free pid [execute] gives up after reading the header. *)
Lemma execute_full k i name args command : machine_ok dir_addr table_addr vidmem_addr k →
  Forall (λ c, is_u8 c ∧ c ≠ 0) name → Z.of_nat (length name) <= 32 → program k i name → buf_ok (k_fs k) magics 4 →
  parse_command command = Done (inr (name ++ [0], args ++ [0])) → get_pid k = -1 →
  ∃ m, execute dir_addr table_addr vidmem_addr magics stack_dentry command k = Done (Return (-1), with_if false (set_mem m k)) ∧ same_image k m.
Proof.
  intros H Hn Hl Hp Hb Hparse Hpid.
  destruct (read_header dir_addr table_addr vidmem_addr magics k H i name Hp Hb) as (m1 & m2 & E1 & M0 & M1 & M2 & M3 & E2 & _ & Hs & _).
  exists m2. split; [|exact Hs]. unfold execute. cbv zeta. rewrite Hparse, bind_Done. cbv iota.
  change (k_mem (with_if false k)) with (k_mem k). change (k_fs (with_if false k)) with (k_fs k).
  rewrite (lookup_program dir_addr table_addr vidmem_addr stack_dentry k H i name Hn Hl Hp), bind_Done. change (0 =? -1) with false. cbv iota.
  destruct (copy_dentry_fields (k_mem k) (entry_at (k_fs k) i) stack_dentry) as [_ Ei].
  rewrite Ei, E1, bind_Done, M0, M1, M2, M3. change (negb _) with false. cbv iota.
  change (k_fs (set_mem m1 (with_if false k))) with (k_fs k). rewrite E2, bind_Done. unfold alloc_pid.
  change (get_pid (set_mem _ _)) with (get_pid k). rewrite Hpid. reflexivity.
Qed.

Lemma start_ready k i command : rdy k i → running_terminal k = current_terminal (k_con k) → names_program k command →
  ∃ o k', execute dir_addr table_addr vidmem_addr magics stack_dentry command k = Done (o, k') ∧ rdy k' i.
Proof.
  intros H Hcur (j & name & args & n & e & Hc & Hline & Hname & Hsize & Hprog).
  pose proof (name_bytes name args Hline Hname) as Hn. pose proof (parse_ok name args n e command Hc Hline Hname Hsize) as Hparse.
  assert (Hlen : Z.of_nat (length name) <= 32) by (destruct Hname as (_ & ? & _); lia).
  pose proof (rd_quiet _ _ _ _ _ _ H) as Hq. pose proof (rd_machine _ _ _ _ _ _ H) as Hm.
  destruct (decide (get_pid k = -1)) as [Epid|Hpid].
  - destruct (execute_full k j name args command Hm Hn Hlen Hprog (so_buffer _ _ _ (rd_shell _ _ _ _ _ _ H)) Hparse Epid)
      as (m & E & [Hmem Him]). eexists _, _. split; [exact E|by apply ready_mem].
  - destruct (launch_ready dir_addr table_addr vidmem_addr magics stack_dentry Hlink k i (quiet_launchable _ _ _ k Hq Hcur) Hm
      (rd_shell _ _ _ _ _ _ H) (rd_con _ _ _ _ _ _ H) (rd_live _ _ _ _ _ _ H) (rd_chain _ _ _ _ _ _ H) (rd_bits _ _ _ _ _ _ H))
      with (j := j) (name := name) (args := args) (command := command) as (k' & E & Hk' & _); try done.
    + intros l a Hs. rewrite (sc_curr _ _ _ _ Hq), Hcur. unfold top. by rewrite Hs, last_snoc.
    + left. apply (rd_init _ _ _ _ _ _ H).
    + by apply (args_bytes name).
    + apply Hsize.
    + eexists _, k'. by split.
Qed.

(** Every enabled event ends in a state of the invariant. *)
Lemma event_ready k i e : rdy k i → enabled k e → ∃ k', do_event e k = Done k' ∧ rdy k' i.
Proof.
  intros H He. pose proof (rd_quiet _ _ _ _ _ _ H) as Hq. destruct e as [|id|command|status|m]; cbn [do_event enabled] in *.
  - destruct (tick_ready _ _ _ magics stack_dentry Hlink k i H) as (k' & E & Hk'). exists k'. by rewrite E.
  - destruct (switch_ready _ _ _ magics stack_dentry Hlink k i H id He) as (o & k' & E & Hk'). exists k'. by rewrite E.
  - destruct He as [Hcur Hc]. destruct (start_ready k i command H Hcur Hc) as (o & k' & E & Hk'). exists k'. by rewrite E.
  - destruct (sc_running _ _ _ _ Hq) as [Hr Ha]. destruct (top_on_stack k _ (sc_procs _ _ _ _ Hq) Hr Ha) as [Hin [l Hl]].
    destruct (sc_pcbs _ _ _ _ Hq (top k (running_terminal k))) as (p & Hp & _); [by apply (pid_range _ (sc_procs _ _ _ _ Hq))|].
    destruct (exit_ready _ _ _ magics stack_dentry Hlink k i H l Hl p Hp status) as (o & k' & E & Hk' & _).
    + destruct He as [He|He]; [|by right]. left. intros ->. rewrite Hl in He. cbn in He. lia.
    + exists k'. by rewrite E.
  - destruct He as [Hm Ho]. exists (set_mem m k). split; [done|].
    assert (Himage : ∀ a, fs_addr (k_fs k) <= a < image_end (k_fs k) → m a = k_mem k a).
    { intros a Hr. apply Ho. left. pose proof (mo_low _ _ _ _ (rd_machine _ _ _ _ _ _ H)) as Hlow.
      destruct (sc_running _ _ _ _ Hq) as [Hrr Ha]. destruct (top_on_stack k _ (sc_procs _ _ _ _ Hq) Hrr Ha) as [Hin _].
      pose proof (pid_range _ (sc_procs _ _ _ _ Hq) _ Hin). unfold user_phys, EIGHT_MB_SIZE, FOUR_MB_SIZE, _128_MB_SIZE in *. lia. }
    exact (ready_mem _ _ _ _ k i m (k_if k) H Hm Himage).
Qed.
Lemma history_ready k es k' : history k es k' → ∀ i, rdy k i → rdy k' i.
Proof.
  induction 1 as [k|k e k1 es k2 He E _ IH]; intros i H; [done|]. apply IH.
  destruct (event_ready k i e H He) as (k1' & E' & Hk1). rewrite E in E'. by injection E' as <-.
Qed.
End events.

(** Start-up ends in a state of the invariant. *)
Lemma boot_ready dir_addr table_addr vidmem_addr magics stack_dentry k i : linked dir_addr table_addr vidmem_addr →
  boot_ok dir_addr table_addr vidmem_addr magics k i →
  ∃ k', init_terminal dir_addr table_addr vidmem_addr magics stack_dentry k =
      Done (Enter (entry_point k i) (_128_MB_SIZE + FOUR_MB_SIZE - ESP_OFFSET), k') ∧
    ready dir_addr table_addr vidmem_addr magics k' i ∧ k_pic k' = k_pic k.
Proof.
  intros Hlink Hk. destruct (init_terminal_executes dir_addr table_addr vidmem_addr magics stack_dentry k i Hk)
    as (c & Hc & Hout & Hm & Hcon & _ & ->).
  destruct (cleared_ok dir_addr table_addr vidmem_addr magics k i Hk c Hout Hm) as (Hmach & Hshell & Een).
  pose proof (cleared_launchable dir_addr table_addr vidmem_addr magics k i Hk c Hc) as La.
  assert (Hnone : all_pids (k_procs (cleared k c)) = []) by done.
  destruct (launch_shell dir_addr table_addr vidmem_addr magics stack_dentry (cleared k c) i Hlink La Hmach Hshell Hcon)
    as (k' & E & Hk' & _ & _ & Hpic); [| | | | |done|].
  - intros x p Hx. rewrite Hnone in Hx. by apply not_elem_of_nil in Hx.
  - intros t l a b r p Ht Hs. rewrite cleared_stacks in Hs by done. by destruct l.
  - constructor; [by right|]. constructor; [by left|]. constructor; [by left|constructor].
  - intros l a Hs. change (current_terminal (k_con (cleared k c))) with (current_terminal c) in Hs. rewrite Hc, cleared_stacks in Hs by done. by destruct l.
  - right. split; [exact Hc|done].
  - exists k'. rewrite <- Een. by split_and!.
Qed.

(** C33. The kernel never gets stuck.  Let the machine start, and then let
    timer interrupts, terminal switches (to any number), programs started
    from the terminal that is displayed, programs that end (the last one of a
    terminal only while that terminal is displayed) and writes of the running
    program to its page happen in any number and any order.  ([enabled] says
    which event can happen when; C34 is about starts it excludes.)  Every state on
    the way satisfies the whole invariant: the process tables, the control
    blocks and their parents, the page tables, the terminals' records and the
    image are well formed, and the page of the running program is mapped; and
    in every such state each of these events is handled to its end, never
    reaching an undefined access or an endless loop. *)
Theorem kernel_never_stuck (dir_addr table_addr vidmem_addr magics : Z) (stack_dentry : dentry_t)
    (Hlink : linked dir_addr table_addr vidmem_addr) (k : kernel) (i : Z)
    (Hk : boot_ok dir_addr table_addr vidmem_addr magics k i) :
  ∃ o k1, init_terminal dir_addr table_addr vidmem_addr magics stack_dentry k = Done (o, k1) ∧
    ∀ es k2, history dir_addr table_addr vidmem_addr magics stack_dentry k1 es k2 →
      ready dir_addr table_addr vidmem_addr magics k2 i ∧
      ∀ e, enabled k2 e → ∃ k3, do_event dir_addr table_addr vidmem_addr magics stack_dentry e k2 = Done k3.
Proof.
  destruct (boot_ready _ _ _ magics stack_dentry k i Hlink Hk) as (k1 & E & Hk1 & _). eexists _, k1. split; [exact E|].
  intros es k2 Hes. pose proof (history_ready _ _ _ magics stack_dentry Hlink k1 es k2 Hes i Hk1) as H2. split; [exact H2|].
  intros e He. destruct (event_ready _ _ _ magics stack_dentry Hlink k2 i e H2 He) as (k3 & E3 & _). by exists k3.
Qed.

(** Start-up, a timer interrupt, a switch to terminal 1 and one back. *)
Lemma kernel_never_stuck_witness : ∃ o k1 k2 k3 k4,
  init_terminal 0x500000 0x501000 0x502000 0x7FB000 (replicate 64 0) kernel9 = Done (o, k1) ∧
  do_event 0x500000 0x501000 0x502000 0x7FB000 (replicate 64 0) Tick k1 = Done k2 ∧
  do_event 0x500000 0x501000 0x502000 0x7FB000 (replicate 64 0) (SwitchTo 1) k2 = Done k3 ∧
  do_event 0x500000 0x501000 0x502000 0x7FB000 (replicate 64 0) (SwitchTo 0) k3 = Done k4.
Proof.
  destruct (kernel_never_stuck 0x500000 0x501000 0x502000 0x7FB000 (replicate 64 0) linked0 kernel9 1 kernel9_ok)
    as (o & k1 & E & Hall).
  destruct (Hall [] k1 ltac:(constructor)) as [_ H1]. destruct (H1 Tick I) as (k2 & E2).
  assert (Hh2 : history 0x500000 0x501000 0x502000 0x7FB000 (replicate 64 0) k1 [Tick] k2) by (econstructor; [done|exact E2|constructor]).
  destruct (Hall _ k2 Hh2) as [_ H2]. destruct (H2 (SwitchTo 1)) as (k3 & E3); [by vm_compute|].
  assert (Hh3 : history 0x500000 0x501000 0x502000 0x7FB000 (replicate 64 0) k1 [Tick; SwitchTo 1] k3).
  { econstructor; [done|exact E2|]. econstructor; [by vm_compute|exact E3|constructor]. }
  destruct (Hall _ k3 Hh3) as [_ H3]. destruct (H3 (SwitchTo 0)) as (k4 & E4); [by vm_compute|].
  exists o, k1, k2, k3, k4. split; [exact E|]. split; [exact E2|]. split; [exact E3|exact E4].
Defined.

(** C34. Programs started in the background.  When the program that runs is
    not on the displayed terminal, [execute] puts the new process on the stack
    of the displayed terminal all the same: the new process runs, but it is on
    top of a terminal that is not the running one, and the terminal that runs
    has another process on top.  The scheduler's invariant is broken, whatever
    the program and however it is called. *)
Theorem background_start_breaks_invariant (dir_addr table_addr vidmem_addr magics : Z) (stack_dentry : dentry_t)
    (Hlink : linked dir_addr table_addr vidmem_addr) (k : kernel) (i : Z) (command : str)
    (H : ready dir_addr table_addr vidmem_addr magics k i) (Hcur : running_terminal k ≠ current_terminal (k_con k))
    (Hc : names_program k command) (Hpid : get_pid k ≠ -1) :
  ∃ eip esp k', execute dir_addr table_addr vidmem_addr magics stack_dentry command k = Done (Enter eip esp, k') ∧
    top k' (current_terminal (k_con k')) = get_pid k ∧ running_terminal k' = running_terminal k ∧
    stack_of (k_procs k') (running_terminal k) = stack_of (k_procs k) (running_terminal k) ∧
    get_curr_pcb k' = get_pcb_by_index (get_pid k) ∧ ¬ quiet dir_addr table_addr vidmem_addr k'.
Proof.
  destruct Hc as (j & name & args & n & e & Hc & Hline & Hname & Hsize & Hprog).
  pose proof (rd_quiet _ _ _ _ _ _ H) as Hq. pose proof (rd_machine _ _ _ _ _ _ H) as Hm.
  pose proof (sc_procs _ _ _ _ Hq) as Hps. pose proof (sc_pcbs _ _ _ _ Hq) as Hpcbs. pose proof (sc_display _ _ _ _ Hq) as Ht.
  destruct (execute_spec dir_addr table_addr vidmem_addr magics stack_dentry Hlink k Hm j name (name_bytes name args Hline Hname)
    ltac:(lia) Hprog (so_buffer _ _ _ (rd_shell _ _ _ _ _ _ H)) Hps Hpcbs Ht Hpid command args (args_bytes name args Hline)
    (proj2 Hsize) (parse_ok name args n e command Hc Hline Hname Hsize)) as (old & m' & E & Hold & Him & _).
  destruct (started_ok dir_addr table_addr vidmem_addr k Hm j name Hps Hpcbs Ht Hpid args old m' Hold Him) as (_ & Hps' & _ & Hcurr).
  destruct (get_pid_free k Hps Hpid) as (Hqr & Hfree & _).
  destruct (pushed_ok (k_procs k) (current_terminal (k_con k)) (get_pid k) Hps Ht Hfree) as (_ & S1 & S2).
  eexists _, _, _. split; [exact E|]. set (k' := started k args old m') in *.
  assert (Es : stack_of (k_procs k') (running_terminal k) = stack_of (k_procs k) (running_terminal k)) by by apply S2.
  assert (Et : top k' (current_terminal (k_con k)) = get_pid k).
  { unfold top. change (k_procs k') with (pushed (k_procs k) (current_terminal (k_con k)) (get_pid k)). by rewrite S1, last_snoc. }
  split; [exact Et|]. split; [done|]. split; [exact Es|]. split; [exact Hcurr|]. intros Hq'.
  pose proof (sc_curr _ _ _ _ Hq') as E'. change (running_terminal k') with (running_terminal k) in E'. rewrite Hcurr in E'.
  destruct (sc_running _ _ _ _ Hq) as [Hr Ha]. destruct (top_on_stack k _ Hps Hr Ha) as [Hin _].
  apply get_pcb_inj in E'; [|done|]; unfold top in *; rewrite Es in *; [|by apply (pid_range _ Hps)].
  apply (po_live _ Hps) in Hin. rewrite <- E', Hfree in Hin. discriminate Hin.
Qed.

(** Process 1 runs on terminal 1 while terminal 0 is displayed. *)
Lemma kernel8_pcb x p : k_pcbs kernel8 !! x = Some p → ∃ q, p = pcb5 q.
Proof. intros Hp. apply elem_of_list_to_map_2, list_elem_of_fmap in Hp as (q & [= _ ->] & _). by exists q. Qed.
Lemma kernel8_con : con_ok (k_con kernel8).
Proof.
  assert (Hall : ∀ t i, 0 <= t < 3 → zget (terminal_info (k_con kernel8)) t = Some i →
    i = Terminal t 0 0 0 0 0 0 (replicate 129 0) (saved_screen t)).
  { intros t i Ht. assert (t = 0 ∨ t = 1 ∨ t = 2) as [-> | [-> | ->]] by lia; intros E; by injection E as <-. }
  split; [| |exact (proj1 console1_ok)|exact (proj2 console1_ok)].
  - intros t Ht. assert (t = 0 ∨ t = 1 ∨ t = 2) as [-> | [-> | ->]] by lia; (eexists; split; [reflexivity|by vm_compute]).
  - intros t i Ht Hi. rewrite (Hall t i Ht Hi). by unfold ts_ok.
Qed.
Lemma kernel8_ready : ready 0x500000 0x501000 0x502000 0x7FB000 kernel8 1.
Proof.
  split.
  - apply quiet_frame, kernel5_sched.
  - exact kernel8_machine.
  - destruct tables1_rep as (win & Hrep & Hst). assert (E : top kernel8 (running_terminal kernel8) = 1) by by vm_compute.
    unfold mapped. rewrite E. exists win. split; [exact Hrep|exact Hst].
  - exact kernel8_shell.
  - exact kernel8_con.
  - intros x p _ Hp. destruct (kernel8_pcb _ _ Hp) as (q & ->). split; [apply init_files_ptrs|]. cbn. split; [lia|done].
  - intros t l a b r p Ht Hs. exfalso. assert (Hl : (length (stack_of (k_procs kernel8) t) <= 1)%nat).
    { assert (t = 0 ∨ t = 1 ∨ t = 2) as [-> | [-> | ->]] by lia; by vm_compute; lia. }
    rewrite Hs, length_app in Hl. cbn in Hl. lia.
  - repeat constructor; (by left) || by right.
  - by vm_compute.
Qed.
Lemma con_current t c : con_ok c → con_ok (with_current t c).
Proof. intros [C1 C2 C3 C4]. by split. Qed.
Definition kernel10 : kernel := with_if false (with_con (with_current 0 (k_con kernel8)) kernel8).
Lemma kernel10_ready : ready 0x500000 0x501000 0x502000 0x7FB000 kernel10 1.
Proof.
  apply (ready_con _ _ _ _ kernel8 1 (with_current 0 (k_con kernel8)) false kernel8_ready).
  - apply con_current, kernel8_con.
  - done.
  - exact (im_bytes _ _ (mo_image _ _ _ _ kernel8_machine)).
  - done.
Qed.

Lemma background_start_breaks_invariant_witness : ∃ eip esp k',
  execute 0x500000 0x501000 0x502000 0x7FB000 (replicate 64 0) (lit0 "shell") kernel10 = Done (Enter eip esp, k') ∧
  ¬ quiet 0x500000 0x501000 0x502000 k'.
Proof.
  destruct (background_start_breaks_invariant 0x500000 0x501000 0x502000 0x7FB000 (replicate 64 0) linked0 kernel10 1 (lit0 "shell")
    kernel10_ready) as (eip & esp & k' & E & _ & _ & _ & _ & Hn).
  - by vm_compute.
  - exists 1, shell, [], O, 0. split_and!; [| by right | | | | | | |].
    + intros i x Hi. apply zget_Some. split; [lia|by rewrite Nat2Z.id].
    + split; [|constructor|by left]. change shell with [115; 104; 101; 108; 108]. repeat constructor; lia.
    + done.
    + by vm_compute.
    + change shell with [115; 104; 101; 108; 108]. repeat constructor; lia.
    + by vm_compute.
    + by vm_compute.
    + apply (so_program _ _ _ (rd_shell _ _ _ _ _ _ kernel10_ready)).
  - by vm_compute.
  - exists eip, esp, k'. split; [exact E|exact Hn].
Defined.
