(* ===== verification/User.v ===== *)
(** User space: the system call wrappers of syscalls/ece391syscall.h as an
    interface, the part of syscalls/ece391support.c that uses them, and what a
    program may rely on: an abstract view of its process and the laws of the
    calls. *)
From Stdlib Require Import String.
From S2P Require Import Prelude Memory Strings Console Filesystem Kernel Syscall.

(** * The interface *)

(** [user st] is the program's memory ([None] where a load would fault), and
    [poke] is a store.  The other operations are the wrappers of
    ece391syscall.S, with the address of every pointer argument. *)
Class Syscalls (St : Type) : Type := {
  user : St → str;
  poke : Z → Z → St → out St;
  ece391_execute : Z → St → out (Z * St);
  ece391_read : Z → Z → Z → St → out (Z * St);
  ece391_write : Z → Z → Z → St → out (Z * St);
  ece391_open : Z → St → out (Z * St);
  ece391_close : Z → St → out (Z * St);
  ece391_getargs : Z → Z → St → out (Z * St) }.

(** A loop whose body makes calls. *)
Definition during {A S R} (o : out A) (f : A → S + out R) : S + out R :=
  match o with Done a => f a | Undef => inr Undef | Hang => inr Hang end.

Section support.
Context `{Syscalls St}.

Definition at_ (st : St) (a : Z) : str := λ i, user st (a + i).
Definition peek (a : Z) (st : St) : out Z := must (user st a).

Definition ece391_fdputs (fd s : Z) (st : St) : out St :=
  n ← ece391_strlen (at_ st s); '(_, st) ← ece391_write fd s (i32 n) st; Done st.

(** [ece391_strcpy] on the program's own memory, where the strings may overlap. *)
Definition copy_string (dst src : Z) (st : St) : out St :=
  orun (λ '(dst, src, st),
    during (peek src st) (λ c, during (poke dst c st) (λ st,
      if c =? 0 then inr (Done st) else inl (dst + 1, src + 1, st)))) (dst, src, st).
End support.

(** * What a program sees *)

(** The objects of the file system, and what a descriptor refers to. *)
Inductive node : Type := Regular (contents : list Z) | Directory | Device.
Inductive desc : Type := Closed | Stdin | Stdout | File (contents : list Z) (pos : Z) | Dir | Clock.

Record world : Type := World {
  w_mem : mem;
  w_fds : list desc;
  w_next : Z;        (* the next directory entry to be read *)
  w_out : list Z }.  (* the bytes written to the terminal *)

Definition with_wmem (m : mem) (w : world) : world := World m (w_fds w) (w_next w) (w_out w).
Definition with_desc (fd : Z) (d : desc) (w : world) : world :=
  World (w_mem w) (<[Z.to_nat fd := d]> (w_fds w)) (w_next w) (w_out w).
Definition with_next (n : Z) (w : world) : world := World (w_mem w) (w_fds w) n (w_out w).
Definition print (bs : list Z) (w : world) : world := World (w_mem w) (w_fds w) (w_next w) (w_out w ++ bs).

(** [bs] lies at address [a]; [name] lies there as a C string. *)
Definition holds (m : mem) (a : Z) (bs : list Z) : Prop := ∀ i v, zget bs i = Some v → m (a + i) = v.
Record string_at (w : world) (a : Z) (name : list Z) : Prop := StringAt {
  sa_page : user_buf a (Z.of_nat (length name) + 1);
  sa_text : Forall (λ c, c ≠ 0) name;
  sa_bytes : holds (w_mem w) a (name ++ [0]) }.

(** The lowest free descriptor from 2 on. *)
Fixpoint lowest_free (l : list desc) (i : Z) : option Z :=
  match l with
  | [] => None
  | Closed :: _ => Some i
  | _ :: l => lowest_free l (i + 1)
  end.
Definition free_desc (w : world) : option Z := lowest_free (drop 2 (w_fds w)) 2.

(** The [n] bytes of a buffer filled from [l]: its bytes, then NULs. *)
Definition padded (n : Z) (l : list Z) : list Z := take (Z.to_nat n) l ++ replicate (Z.to_nat n - length l) 0.

(** The call returns [r], and the program then sees [w]. *)
Definition gives {St A : Type} (sees : St → world → Prop) (o : out (A * St)) (r : A) (w : world) : Prop :=
  ∃ st, o = Done (r, st) ∧ sees st w.

(** What the calls promise.  [arguments] is the text after the program's name
    in its command line, [node_of] the file system and [listing] its names in
    directory order. *)
Class Promises (St : Type) `{Syscalls St} : Type := {
  sees : St → world → Prop;
  arguments : list Z;
  node_of : list Z → option node;
  listing : list (list Z);
  sees_bytes st w : sees st w → mem_ok (w_mem w);
  sees_descs st w : sees st w → length (w_fds w) = 8%nat;
  user_seen st w a : sees st w → user_buf a 1 → user st a = Some (w_mem w a);
  poke_seen st w a v : sees st w → user_buf a 1 →
    ∃ st', poke a v st = Done st' ∧ sees st' (with_wmem (store8 (w_mem w) a v) w);
  getargs_text st w buf n : sees st w → user_buf buf n → 0 < n → arguments ≠ [] →
    gives sees (ece391_getargs buf n st) 0 (with_wmem (blit (w_mem w) buf (padded n arguments)) w);
  getargs_none st w buf n : sees st w → arguments = [] → gives sees (ece391_getargs buf n st) (-1) w;
  open_regular st w a name c fd : sees st w → string_at w a name → node_of name = Some (Regular c) →
    free_desc w = Some fd → gives sees (ece391_open a st) fd (with_desc fd (File c 0) w);
  open_directory st w a name fd : sees st w → string_at w a name → node_of name = Some Directory →
    free_desc w = Some fd → gives sees (ece391_open a st) fd (with_next 0 (with_desc fd Dir w));
  open_missing st w a name : sees st w → string_at w a name → node_of name = None →
    gives sees (ece391_open a st) (-1) w;
  open_full st w a name c : sees st w → string_at w a name → node_of name = Some c → free_desc w = None →
    gives sees (ece391_open a st) (-1) w;
  read_file st w fd c pos buf n : sees st w → zget (w_fds w) fd = Some (File c pos) →
    user_buf buf n → 0 < n →
    let bs := take (Z.to_nat n) (drop (Z.to_nat pos) c) in
    gives sees (ece391_read fd buf n st) (Z.of_nat (length bs))
      (with_desc fd (File c (pos + Z.of_nat (length bs))) (with_wmem (blit (w_mem w) buf bs) w));
  read_name st w fd buf name : sees st w → zget (w_fds w) fd = Some Dir → user_buf buf 32 →
    zget listing (w_next w) = Some name →
    gives sees (ece391_read fd buf 32 st) (Z.of_nat (length name))
      (with_next (w_next w + 1) (with_wmem (blit (w_mem w) buf (padded 32 name)) w));
  read_names_end st w fd buf : sees st w → zget (w_fds w) fd = Some Dir → user_buf buf 32 →
    w_next w = Z.of_nat (length listing) → gives sees (ece391_read fd buf 32 st) 0 (with_next 0 w);
  write_text st w fd buf n : sees st w → zget (w_fds w) fd = Some Stdout → user_buf buf n → user_buf buf 1 → 0 <= n →
    gives sees (ece391_write fd buf n st) n (print (bytes_of (mview (w_mem w) buf) n) w);
  close_desc st w fd d : sees st w → 2 <= fd → zget (w_fds w) fd = Some d → d ≠ Closed →
    gives sees (ece391_close fd st) 0 (with_desc fd Closed w) }.

(** A program whose terminal somebody answers: a read of the terminal gets the
    line [answer], with its newline, and the terminal shows [echoed]. *)
Class Listens (St : Type) `{Promises St} : Type := {
  answer : list Z;
  echoed : list Z;
  read_line st w buf n : sees st w → zget (w_fds w) 0 = Some Stdin → user_buf buf (n + 1) → 0 < n →
    let l := take (Z.to_nat n) answer in
    gives sees (ece391_read 0 buf n st) (Z.of_nat (length l)) (print echoed (with_wmem (blit (w_mem w) buf (l ++ [0])) w)) }.

(** A program that uses the real-time clock: the names in [is_clock] open it, a
    read waits for the next tick, and a rate that is a power of two from 2 to
    1024 can be set. *)
Class Clocks (St : Type) `{Promises St} : Type := {
  is_clock : list Z → Prop;
  open_clock st w a name fd : sees st w → string_at w a name → is_clock name → free_desc w = Some fd →
    gives sees (ece391_open a st) fd (with_desc fd Clock w);
  read_clock st w fd buf n : sees st w → zget (w_fds w) fd = Some Clock → user_buf buf n → 0 <= n →
    gives sees (ece391_read fd buf n st) 0 w;
  set_clock st w fd buf i : sees st w → zget (w_fds w) fd = Some Clock → user_buf buf 4 → 1 <= i <= 10 →
    load32 (w_mem w) buf = 2 ^ i → gives sees (ece391_write fd buf 4 st) 0 w }.

(** * Lemmas *)

(** Membership in a list that is written out. *)
Ltac listed := solve [repeat first [apply list_elem_of_here|apply list_elem_of_further]].

Lemma with_wmem_id w : with_wmem (w_mem w) w = w.
Proof. by destruct w. Qed.

Lemma holds_nil m a : holds m a [].
Proof. by intros i v [_ E]%zget_Some. Qed.
Lemma holds_app m a l1 l2 : holds m a (l1 ++ l2) ↔ holds m a l1 ∧ holds m (a + Z.of_nat (length l1)) l2.
Proof.
  split.
  - intros H. split; intros i v [Hi E]%zget_Some.
    + apply H, zget_Some. split; [done|]. by apply lookup_app_l_Some.
    + rewrite <- Z.add_assoc. apply H, zget_Some. split; [lia|]. rewrite lookup_app_r by lia.
      by replace (Z.to_nat (Z.of_nat (length l1) + i) - length l1)%nat with (Z.to_nat i) by lia.
  - intros [H1 H2] i v [Hi E]%zget_Some. apply lookup_app_Some in E as [E|[Hl E]].
    + apply H1, zget_Some. done.
    + replace (a + i) with (a + Z.of_nat (length l1) + (i - Z.of_nat (length l1))) by lia.
      apply H2, zget_Some. split; [lia|]. by replace (Z.to_nat (i - Z.of_nat (length l1))) with (Z.to_nat i - length l1)%nat by lia.
Qed.

Lemma holds_blit m a l : holds (blit m a l) a l.
Proof. intros i v E. by apply blit_in. Qed.

Lemma holds_outside lo hi m m' a l : only_in lo hi m m' → a + Z.of_nat (length l) <= lo ∨ hi <= a →
  holds m a l → holds m' a l.
Proof.
  intros Ho Hout H i v E. pose proof E as [Hi Hl%lookup_lt_Some]%zget_Some. rewrite Ho by lia. by apply H.
Qed.

Lemma holds_bytes m a l n : holds m a l → n = Z.of_nat (length l) → bytes_of (mview m a) n = l.
Proof.
  intros H ->. apply list_eq. intros j. unfold bytes_of. rewrite list_lookup_fmap.
  destruct (decide (j < length l)%nat) as [Hj|Hj].
  - rewrite lookup_seqZ_lt by lia. destruct (lookup_lt_is_Some_2 l j Hj) as [c Hc]. rewrite Hc. cbn. f_equal.
    rewrite Z.add_0_l. apply H, zget_Some. rewrite Nat2Z.id. split; [lia|done].
  - rewrite (lookup_ge_None_2 l) by lia. by rewrite lookup_seqZ_ge by lia.
Qed.

Lemma string_cstr w a name : string_at w a name → is_cstr (mview (w_mem w) a) (Z.of_nat (length name)).
Proof.
  intros [_ Ht Hb]. pose proof (lview_cstr name Ht) as (H1 & H2 & H3). split_and!; [done| |].
  - unfold mview. f_equal. by apply Hb.
  - intros i Hi. destruct (H3 i Hi) as (c & Ec & Hc). exists c. split; [|done]. unfold mview. f_equal. by apply Hb.
Qed.

Lemma string_outside lo hi w w' a name : only_in lo hi (w_mem w) (w_mem w') →
  a + Z.of_nat (length name) + 1 <= lo ∨ hi <= a → string_at w a name → string_at w' a name.
Proof.
  intros Ho Hout [H1 H2 H3]. split; [done|done|]. eapply holds_outside; [exact Ho| |done]. rewrite length_app. cbn. lia.
Qed.

Lemma length_padded n l : 0 <= n → Z.of_nat (length (padded n l)) = n.
Proof. intros H. unfold padded. rewrite length_app, length_take, length_replicate. lia. Qed.
Lemma zget_padded n l j : 0 <= j < n → zget (padded n l) j = Some (default 0 (l !! Z.to_nat j)).
Proof.
  intros Hj. apply zget_Some. split; [lia|]. unfold padded. destruct (decide (Z.to_nat j < length l)%nat) as [Hl|Hl].
  - destruct (lookup_lt_is_Some_2 l _ Hl) as [c Hc]. rewrite Hc. apply lookup_app_l_Some. rewrite lookup_take_lt by lia. done.
  - rewrite lookup_app_r by (rewrite length_take; lia). rewrite (lookup_ge_None_2 l) by lia. cbn.
    apply lookup_replicate. split; [done|]. rewrite length_take. lia.
Qed.
Lemma padded_u8 n l : Forall is_u8 l → Forall is_u8 (padded n l).
Proof. intros H. apply list.Forall_app. split; [by apply Forall_take|]. by apply Forall_replicate. Qed.
Lemma padded_short n l : Z.of_nat (length l) < n → ∃ k, padded n l = (l ++ [0]) ++ replicate k 0.
Proof.
  intros H. exists (Z.to_nat n - length l - 1)%nat. unfold padded. rewrite take_ge by lia. rewrite <- app_assoc. f_equal.
  change ([0] ++ ?l) with (replicate 1 0 ++ l). rewrite <- replicate_add. f_equal. lia.
Qed.

Section gives.
Context {St : Type} (sees : St → world → Prop).
Lemma gives_bind {A B} (o : out (A * St)) (f : A * St → out (B * St)) r w r' w' :
  gives sees o r w → (∀ st, sees st w → gives sees (f (r, st)) r' w') → gives sees (o ≫= f) r' w'.
Proof. intros (st & -> & H) Hf. by apply Hf. Qed.
End gives.

Section client.
Context `{Promises St}.

(** The program's view of a string in its memory. *)
Lemma at_string st w a name : sees st w → string_at w a name → is_cstr (at_ st a) (Z.of_nat (length name)).
Proof.
  intros Hs Ha. pose proof (string_cstr _ _ _ Ha) as (H1 & H2 & H3). destruct Ha as [(Hp1 & _ & Hp2) _ _].
  assert (E : ∀ i, 0 <= i <= Z.of_nat (length name) → at_ st a i = mview (w_mem w) a i).
  { intros i Hi. unfold at_, mview. apply user_seen; [done|]. split_and!; lia. }
  split_and!; [done|by rewrite E by lia|]. intros i Hi. rewrite E by lia. by apply H3.
Qed.

Lemma string_short w a name : string_at w a name → Z.of_nat (length name) < 2 ^ 22.
Proof. intros [(H1 & _ & H2) _ _]. unfold FOUR_MB_SIZE, _128_MB_SIZE in *. lia. Qed.

Lemma peek_seen st w a : sees st w → user_buf a 1 → peek a st = Done (w_mem w a).
Proof. intros Hs Ha. unfold peek. by rewrite (user_seen st w a Hs Ha). Qed.

Lemma fdputs_seen st w a bs : sees st w → string_at w a bs → zget (w_fds w) 1 = Some Stdout →
  ∃ st', ece391_fdputs 1 a st = Done st' ∧ sees st' (print bs w).
Proof.
  intros Hs Ha Hfd. pose proof (string_short _ _ _ Ha) as Hl. unfold ece391_fdputs.
  rewrite ece391_strlen_eq, (strlen_spec _ (Z.of_nat (length bs))) by (first [by eapply at_string|lia]).
  rewrite bind_Done, i32_small by lia. pose proof Ha as [(P1 & P2 & P3) _ Hb].
  destruct (write_text st w 1 a (Z.of_nat (length bs)) Hs Hfd) as (st' & -> & Hs'); [split_and!; lia|split_and!; lia|lia|].
  rewrite bind_Done. exists st'. split; [done|]. rewrite (holds_bytes _ _ bs) in Hs'; [done| |done].
  by apply holds_app in Hb as [Hb _].
Qed.

(** Copying a string down inside the program's memory. *)
Lemma copy_string_seen st w dst src text : sees st w → string_at w src text → dst < src →
  _128_MB_SIZE <= dst →
  ∃ st' m, copy_string dst src st = Done st' ∧ sees st' (with_wmem m w) ∧ holds m dst (text ++ [0]) ∧
    only_in dst (dst + Z.of_nat (length text) + 1) (w_mem w) m.
Proof.
  intros Hs [(P1 & P2 & P3) Hnz Hb] Hlt Hdst. set (n := Z.of_nat (length text)) in *.
  destruct (orun_index (λ '(dst, src, st), during (peek src st) (λ c, during (poke dst c st) (λ st,
      if c =? 0 then inr (Done st) else inl (dst + 1, src + 1, st))))
    (λ r '(d, s, st), d = dst + (n - r) ∧ s = src + (n - r) ∧ r <= n ∧ ∃ m, sees st (with_wmem m w) ∧
      holds m dst (take (Z.to_nat (n - r)) text) ∧ only_in dst d (w_mem w) m)
    (λ st, ∃ m, sees st (with_wmem m w) ∧ holds m dst (text ++ [0]) ∧ only_in dst (dst + n + 1) (w_mem w) m)
    n (dst, src, st)) as (st' & E & m & H1 & H2 & H3); [|unfold FOUR_MB_SIZE in *; lia| |by exists st', m].
  2: { split_and!; [lia|lia|lia|]. exists (w_mem w). split_and!; [by rewrite with_wmem_id|rewrite Z.sub_diag; apply holds_nil|apply only_in_refl]. }
  intros r [[d s] st1] Hr (-> & -> & Hrn & m & Hs1 & Hh & Ho).
  assert (Hc : ∃ c, zget (text ++ [0]) (n - r) = Some c ∧ (c = 0 ↔ r = 0)).
  { destruct (decide (r = 0)) as [->|].
    - exists 0. split; [|done]. apply zget_Some. split; [lia|]. rewrite lookup_app_r by lia. by replace (Z.to_nat (n - 0) - length text)%nat with O by lia.
    - destruct (lookup_lt_is_Some_2 text (Z.to_nat (n - r))) as [c Hc]; [lia|]. exists c. split.
      + apply zget_Some. split; [lia|]. by apply lookup_app_l_Some.
      + split; [|done]. intros ->. by apply (list.Forall_lookup_1 _ _ _ _ Hnz) in Hc. }
  destruct Hc as (c & Hc & Hc0).
  assert (Hread : m (src + (n - r)) = c) by (rewrite Ho by lia; by apply Hb).
  unfold peek. rewrite (user_seen st1 _ _ Hs1) by (split_and!; lia). cbn [must during]. cbn [w_mem with_wmem]. rewrite Hread.
  pose proof (sees_bytes _ _ Hs1 (src + (n - r))) as Hu. cbn [w_mem with_wmem] in Hu. rewrite Hread in Hu.
  destruct (poke_seen st1 (with_wmem m w) (dst + (n - r)) c Hs1) as (st2 & -> & Hs2); [split_and!; lia|]. cbn [during].
  assert (Hh2 : holds (store8 m (dst + (n - r)) c) dst (take (Z.to_nat (n - r)) text ++ [c])).
  { apply holds_app. rewrite length_take, Nat.min_l by lia. split.
    - eapply holds_outside; [apply (only_in_upd (dst + (n - r)) (dst + (n - r) + 1)); lia| |exact Hh]. rewrite length_take. lia.
    - intros i v [Hi Hv]%zget_Some. apply list_lookup_singleton_Some in Hv as [Hi0 <-]. assert (i = 0) as -> by lia.
      unfold store8, upd. replace (dst + Z.of_nat (Z.to_nat (n - r)) + 0) with (dst + (n - r)) by lia. rewrite Z.eqb_refl. by apply u8_id. }
  assert (Ho2 : only_in dst (dst + (n - r) + 1) (w_mem w) (store8 m (dst + (n - r)) c)).
  { intros x Hx. unfold store8, upd. rewrite (proj2 (Z.eqb_neq _ _)) by lia. apply Ho. lia. }
  destruct (Z.eqb_spec c 0) as [E0|E0].
  - assert (r = 0) as -> by tauto. exists st2. split; [done|]. eexists. split; [exact Hs2|]. rewrite Z.sub_0_r in *. split; [|exact Ho2].
    rewrite E0 in Hh2. unfold n in Hh2 at 2. rewrite Nat2Z.id, firstn_all in Hh2. by rewrite E0.
  - assert (r ≠ 0) by tauto. exists (r - 1). split; [lia|]. split_and!; [lia|lia|lia|]. eexists. split; [exact Hs2|].
    split; [|by replace (dst + (n - (r - 1))) with (dst + (n - r) + 1) by lia].
    replace (Z.to_nat (n - (r - 1))) with (S (Z.to_nat (n - r))) by lia. rewrite (take_S_r _ _ c); [exact Hh2|].
    apply zget_Some in Hc as [_ Hc]. rewrite lookup_app_l in Hc by lia. done.
Qed.
End client.
