(* ===== verification/Programs.v ===== *)
(** The user programs of src/syscalls over the interface of User: cat and ls,
    and hello, counter and testprint. *)
From Stdlib Require Import String.
From S2P Require Import Prelude Memory Strings Console Filesystem Kernel Syscall User.

(** A string literal with its final newline. *)
Definition line (s : string) : list Z := lit s ++ [10].

Section programs.
Context `{Syscalls St}.
(** Where the program's literals lie. *)
Context (rodata : list Z → Z).

Definition puts (bs : list Z) (st : St) : out St := ece391_fdputs 1 (rodata bs) st.

(** ece391cat.c; [buf] is the address of the local buffer. *)
Definition cat_step (fd buf : Z) (st : St) : St + out (Z * St) :=
  during (ece391_read fd buf 1024 st) (λ '(cnt, st),
  if 0 =? cnt then inr (Done (0, st)) else
  if -1 =? cnt then inr (st ← puts (line "file read failed") st; Done (3, st)) else
  during (ece391_write 1 buf cnt st) (λ '(r, st),
  if -1 =? r then inr (Done (3, st)) else inl st)).

Definition cat (buf : Z) (st : St) : out (Z * St) :=
  '(r, st) ← ece391_getargs buf 1024 st;
  if negb (0 =? r) then st ← puts (line "could not read arguments") st; Done (3, st) else
  '(fd, st) ← ece391_open buf st;
  if -1 =? fd then st ← puts (line "file not found") st; Done (2, st) else
  orun (cat_step fd buf) st.

(** ece391ls.c *)
Definition SBUFSIZE : Z := 33.
Definition ls_step (fd buf : Z) (st : St) : St + out (Z * St) :=
  during (ece391_read fd buf (SBUFSIZE - 1) st) (λ '(cnt, st),
  if 0 =? cnt then inr (Done (0, st)) else
  if -1 =? cnt then inr (st ← puts (line "directory entry read failed") st; Done (3, st)) else
  during (poke (buf + cnt) 10 st) (λ st,
  during (ece391_write 1 buf (cnt + 1) st) (λ '(r, st),
  if -1 =? r then inr (Done (3, st)) else inl st))).

Definition ls (buf : Z) (st : St) : out (Z * St) :=
  '(fd, st) ← ece391_open (rodata (lit ".")) st;
  if -1 =? fd then st ← puts (line "directory open failed") st; Done (2, st) else
  orun (ls_step fd buf) st.
End programs.

(** * What the programs do *)
Section client.
Context `{Promises St}.
Context (rodata : list Z → Z).

Lemma puts_seen st w bs : sees st w → string_at w (rodata bs) bs → zget (w_fds w) 1 = Some Stdout →
  ∃ st', puts rodata bs st = Done st' ∧ sees st' (print bs w).
Proof. apply fdputs_seen. Qed.

(** A message, then a return value. *)
Lemma puts_gives st w bs (r : Z) : sees st w → string_at w (rodata bs) bs → zget (w_fds w) 1 = Some Stdout →
  gives sees (st ← puts rodata bs st; Done (r, st)) r (print bs w).
Proof. intros Hs Hb Ho. destruct (puts_seen st w bs Hs Hb Ho) as (st' & -> & Hs'). by exists st'. Qed.

(** The worlds a reading loop goes through: its buffer and its descriptor
    change, and it has printed [out]. *)
Record reading (fd buf n : Z) (d : desc) (out : list Z) (w w' : world) : Prop := Reading {
  rg_mem : only_in buf (buf + n) (w_mem w) (w_mem w');
  rg_fds : w_fds w' = <[Z.to_nat fd := d]> (w_fds w);
  rg_out : w_out w' = w_out w ++ out }.

Lemma free_desc_spec l : ∀ i fd, lowest_free l i = Some fd → i <= fd ∧ l !! Z.to_nat (fd - i) = Some Closed.
Proof.
  induction l as [|d l IH]; intros i fd E; [done|]. cbn in E.
  destruct d; [injection E as <-; rewrite Z.sub_diag; by split; [lia|]|..];
    (apply IH in E as [Hle E]; split; [lia|];
     by replace (Z.to_nat (fd - i)) with (S (Z.to_nat (fd - (i + 1)))) by lia).
Qed.
Lemma free_desc_range st w fd : sees st w → free_desc w = Some fd → 2 <= fd < 8.
Proof.
  intros Hs E. apply free_desc_spec in E as [Hle E]. split; [done|]. rewrite lookup_drop in E.
  apply lookup_lt_Some in E. rewrite (sees_descs st w Hs) in E. lia.
Qed.

Section cat.
Context (buf fd : Z) (c : list Z) (w0 : world) (Hbuf : user_buf buf 1024) (Hfd : 2 <= fd < 8).
Context (Hout : zget (w_fds w0) 1 = Some Stdout) (Hlen : Z.of_nat (length c) < 2 ^ 32).

Definition cat_inv (n : Z) (st : St) : Prop :=
  n <= Z.of_nat (length c) ∧ ∃ w, sees st w ∧ w_next w = w_next w0 ∧
    reading fd buf 1024 (File c (Z.of_nat (length c) - n)) (take (length c - Z.to_nat n) c) w0 w.

Lemma cat_loop st : cat_inv (Z.of_nat (length c)) st →
  ∃ w', w_next w' = w_next w0 ∧ reading fd buf 1024 (File c (Z.of_nat (length c))) c w0 w' ∧
    gives sees (orun (cat_step rodata fd buf) st) 0 w'.
Proof.
  intros Hst.
  destruct (orun_index (cat_step rodata fd buf) cat_inv
    (λ '(r, st'), r = 0 ∧ ∃ w', sees st' w' ∧ w_next w' = w_next w0 ∧ reading fd buf 1024 (File c (Z.of_nat (length c))) c w0 w')
    (Z.of_nat (length c)) st) as ([r st'] & E & -> & w' & Hs' & Hn' & Hr'); [|lia|done|].
  2: { exists w'. split; [done|]. split; [done|]. exists st'. split; [exact E|done]. }
  clear st Hst. intros n st Hn (Hle & w & Hs & Hnx & [Hm Hf Ho]).
  pose proof (sees_descs _ _ Hs) as H8. rewrite Hf, length_insert in H8.
  set (pos := Z.of_nat (length c) - n) in *.
  assert (Hget : zget (w_fds w) fd = Some (File c pos)) by (rewrite Hf; apply zget_insert_eq; lia).
  pose proof (read_file st w fd c pos buf 1024 Hs Hget Hbuf ltac:(done)) as Hread. cbv zeta in Hread.
  set (bs := take (Z.to_nat 1024) (drop (Z.to_nat pos) c)) in *.
  assert (Hbs : Z.of_nat (length bs) = Z.min 1024 n) by (unfold bs; rewrite length_take, length_drop; lia).
  unfold cat_step. destruct Hread as (st1 & -> & Hs1). cbn [during].
  rewrite Hbs in *. destruct (Z.eqb_spec 0 (Z.min 1024 n)) as [E0|E0].
  - assert (n = 0) as -> by lia. exists (0, st1). split; [done|]. split; [done|]. eexists. split; [exact Hs1|].
    split; [done|]. assert (Eb : bs = []) by (apply length_zero_iff_nil; lia). split; cbn.
    + rewrite Eb. eapply only_in_trans; [exact Hm|]. apply blit_only_in; cbn; lia.
    + rewrite Hf, list_insert_insert_eq. do 2 f_equal. unfold pos. lia.
    + rewrite Ho. f_equal. by rewrite Nat.sub_0_r, firstn_all.
  - rewrite (proj2 (Z.eqb_neq _ _)) by lia.
    match type of Hs1 with sees _ ?x => set (w1' := x) in * end.
    assert (Hout1 : zget (w_fds w1') 1 = Some Stdout).
    { cbn. rewrite zget_insert_ne by lia. rewrite Hf. by rewrite zget_insert_ne by lia. }
    destruct Hbuf as (Hb1 & Hb2 & Hb3).
    pose proof (write_text st1 w1' 1 buf (Z.min 1024 n) Hs1 Hout1 ltac:(split_and!; lia) ltac:(split_and!; lia) ltac:(lia)) as Hw.
    destruct Hw as (st2 & -> & Hs2). cbn [during].
    rewrite (proj2 (Z.eqb_neq _ _)) by lia. exists (n - Z.min 1024 n). split; [lia|]. split; [lia|].
    eexists. split; [exact Hs2|]. split; [done|]. split; cbn.
    + eapply only_in_trans; [exact Hm|]. apply blit_only_in; lia.
    + rewrite Hf, list_insert_insert_eq. do 2 f_equal. unfold pos. lia.
    + rewrite Ho, <- app_assoc. f_equal. rewrite (holds_bytes _ _ bs) by (first [apply holds_blit|done]).
      unfold bs. replace (length c - Z.to_nat (n - Z.min 1024 n))%nat with (Z.to_nat pos + Z.to_nat (Z.min 1024 n))%nat by (unfold pos; lia).
      replace (length c - Z.to_nat n)%nat with (Z.to_nat pos) by (unfold pos; lia).
      rewrite <- take_take_drop. f_equal. destruct (Z.le_ge_cases 1024 n); [by rewrite Z.min_l by lia|].
      rewrite Z.min_r by lia. rewrite !take_ge; [done|rewrite length_drop; unfold pos; lia..].
Qed.
End cat.

(** The memory cat starts from holds its messages away from its buffer. *)
Definition message (buf n : Z) (w : world) (bs : list Z) : Prop :=
  string_at w (rodata bs) bs ∧ (rodata bs + Z.of_nat (length bs) + 1 <= buf ∨ buf + n <= rodata bs).

Section cat_main.
Context (st : St) (w : world) (buf : Z) (Hs : sees st w) (Hbuf : user_buf buf 1024).
Context (Hout : zget (w_fds w) 1 = Some Stdout).

Lemma cat_no_arguments : arguments = [] → message buf 1024 w (line "could not read arguments") →
  gives sees (cat rodata buf st) 3 (print (line "could not read arguments") w).
Proof.
  intros Ha [Hm _]. unfold cat. eapply gives_bind; [by apply getargs_none|]. intros st1 Hs1. cbn [negb].
  change (negb (0 =? -1)) with true. cbv iota. by apply puts_gives.
Qed.

Context (Harg : arguments ≠ []) (Hnz : Forall (λ c, c ≠ 0) arguments) (Hlen : Z.of_nat (length arguments) < 1024).

(** The world after [getargs]. *)
Definition named : world := with_wmem (blit (w_mem w) buf (padded 1024 arguments)) w.
Lemma named_only : only_in buf (buf + 1024) (w_mem w) (w_mem named).
Proof. apply blit_only_in; rewrite ?length_padded by lia; lia. Qed.
Lemma named_string : string_at named buf arguments.
Proof.
  destruct Hbuf as (H1 & H2 & H3). split; [split_and!; lia|done|].
  destruct (padded_short 1024 arguments Hlen) as [k Ek]. pose proof (holds_blit (w_mem w) buf (padded 1024 arguments)) as Hh.
  rewrite Ek in Hh at 2. by apply holds_app in Hh as [Hh _].
Qed.

Lemma cat_missing_file : node_of arguments = None → message buf 1024 w (line "file not found") →
  gives sees (cat rodata buf st) 2 (print (line "file not found") named).
Proof.
  intros Hn [Hm Hap]. unfold cat. eapply gives_bind; [by apply getargs_text|]. intros st1 Hs1.
  change (negb (0 =? 0)) with false. cbv iota. eapply gives_bind; [by eapply open_missing, Hn; [|apply named_string]|].
  intros st2 Hs2. change (-1 =? -1) with true. cbv iota. apply puts_gives; [done| |done].
  eapply string_outside; [apply named_only| |exact Hm]. lia.
Qed.

Lemma cat_prints_file c fd : node_of arguments = Some (Regular c) → Z.of_nat (length c) < 2 ^ 32 →
  free_desc w = Some fd →
  ∃ w', gives sees (cat rodata buf st) 0 w' ∧ w_next w' = w_next w ∧
    reading fd buf 1024 (File c (Z.of_nat (length c))) c w w'.
Proof.
  intros Hn Hc Hfd. pose proof (free_desc_range st w fd Hs Hfd) as Hr. unfold cat.
  destruct (getargs_text st w buf 1024 Hs Hbuf ltac:(lia) Harg) as (st1 & -> & Hs1). rewrite bind_Done.
  change (negb (0 =? 0)) with false. cbv iota. fold named in Hs1.
  destruct (open_regular st1 named buf arguments c fd Hs1 named_string Hn Hfd) as (st2 & -> & Hs2). rewrite bind_Done.
  rewrite (proj2 (Z.eqb_neq _ _)) by lia.
  destruct (cat_loop buf fd c w Hbuf Hr Hout Hc st2) as (w' & H1 & H2 & H3); [|by exists w']. split; [lia|]. eexists. split; [exact Hs2|]. split; [done|].
  rewrite Z.sub_diag, Nat2Z.id, Nat.sub_diag. split; cbn; [apply named_only|done|by rewrite app_nil_r].
Qed.
End cat_main.

(** * ls *)
Section ls.
Context (buf fd : Z) (w0 : world) (Hbuf : user_buf buf 33) (Hfd : 2 <= fd < 8).
Context (Hout : zget (w_fds w0) 1 = Some Stdout).
Context (Hnames : Forall (λ n : list Z, 0 < Z.of_nat (length n) <= 32) listing) (Hcount : Z.of_nat (length listing) < 2 ^ 32).

Definition lines (names : list (list Z)) : list Z := concat ((λ n, n ++ [10]) <$> names).

Definition ls_inv (n : Z) (st : St) : Prop :=
  n <= Z.of_nat (length listing) ∧ ∃ w, sees st w ∧ w_next w = Z.of_nat (length listing) - n ∧
    reading fd buf 33 Dir (lines (take (length listing - Z.to_nat n) listing)) w0 w.

Lemma ls_loop st : ls_inv (Z.of_nat (length listing)) st →
  ∃ w', w_next w' = 0 ∧ reading fd buf 33 Dir (lines listing) w0 w' ∧ gives sees (orun (ls_step rodata fd buf) st) 0 w'.
Proof.
  intros Hst.
  destruct (orun_index (ls_step rodata fd buf) ls_inv
    (λ '(r, st'), r = 0 ∧ ∃ w', sees st' w' ∧ w_next w' = 0 ∧ reading fd buf 33 Dir (lines listing) w0 w')
    (Z.of_nat (length listing)) st) as ([r st'] & E & -> & w' & Hs' & Hn' & Hr'); [| |done|].
  3: { exists w'. split; [done|]. split; [done|]. exists st'. split; [exact E|done]. }
  2: lia.
  clear st Hst. intros n st Hn (Hle & w & Hs & Hnx & [Hm Hf Ho]).
  pose proof (sees_descs _ _ Hs) as H8. rewrite Hf, length_insert in H8. destruct Hbuf as (Hb1 & Hb2 & Hb3).
  assert (Hget : zget (w_fds w) fd = Some Dir) by (rewrite Hf; apply zget_insert_eq; lia).
  assert (Hb32 : user_buf buf 32) by (split_and!; lia).
  unfold ls_step. change (SBUFSIZE - 1) with 32. destruct (decide (n = 0)) as [->|Hne].
  { destruct (read_names_end st w fd buf Hs Hget Hb32 ltac:(lia)) as (st1 & -> & Hs1). cbn [during].
    exists (0, st1). split; [done|]. split; [done|]. eexists. split; [exact Hs1|]. split; [done|].
    rewrite Nat.sub_0_r, firstn_all in Ho. by split. }
  destruct (zget_is_Some listing (w_next w)) as [name Hname]; [lia|].
  pose proof Hname as [_ Hin]%zget_Some. pose proof (list.Forall_lookup_1 _ _ _ _ Hnames Hin) as Hln. cbn in Hln.
  destruct (read_name st w fd buf name Hs Hget Hb32 Hname) as (st1 & -> & Hs1). cbn [during].
  rewrite !(proj2 (Z.eqb_neq _ _)) by lia.
  match type of Hs1 with sees _ ?x => set (w1 := x) in * end.
  destruct (poke_seen st1 w1 (buf + Z.of_nat (length name)) 10 Hs1) as (st2 & -> & Hs2); [split_and!; lia|]. cbn [during].
  match type of Hs2 with sees _ ?x => set (w2 := x) in * end.
  assert (Hout2 : zget (w_fds w2) 1 = Some Stdout) by (cbn; rewrite Hf; by rewrite zget_insert_ne by lia).
  destruct (write_text st2 w2 1 buf (Z.of_nat (length name) + 1) Hs2 Hout2) as (st3 & -> & Hs3); [split_and!; lia|split_and!; lia|lia|]. cbn [during].
  rewrite (proj2 (Z.eqb_neq _ _)) by lia.
  exists (n - 1). split; [lia|]. split; [lia|]. eexists. split; [exact Hs3|]. split; [cbn; lia|]. split; cbn.
  - eapply only_in_trans; [exact Hm|]. eapply only_in_trans; [apply (blit_only_in _ buf (padded 32 name) buf (buf + 33)); rewrite ?length_padded by lia; lia|].
    apply only_in_upd. lia.
  - done.
  - rewrite Ho, <- app_assoc. f_equal.
    replace (length listing - Z.to_nat (n - 1))%nat with (S (length listing - Z.to_nat n)) by lia.
    rewrite (take_S_r _ _ name) by (rewrite <- Hin; f_equal; lia).
    unfold lines. rewrite fmap_app, concat_app. cbn. rewrite app_nil_r. f_equal.
    apply holds_bytes; [|rewrite length_app; cbn; lia]. apply holds_app. split.
    + intros i v Hv. pose proof Hv as [Hi Hl%lookup_lt_Some]%zget_Some. unfold store8, upd.
      rewrite (proj2 (Z.eqb_neq _ _)) by lia. apply holds_blit.
      apply zget_Some in Hv as [_ Hv]. apply zget_Some. split; [done|]. unfold padded. rewrite take_ge by lia.
      by apply lookup_app_l_Some.
    + intros i v [Hi Hv]%zget_Some. apply list_lookup_singleton_Some in Hv as [Hi0 <-].
      assert (i = 0) as -> by lia. unfold store8, upd. by rewrite Z.add_0_r, Z.eqb_refl.
Qed.

Lemma ls_no_directory st : sees st w0 → string_at w0 (rodata (lit ".")) (lit ".") → node_of (lit ".") = None →
  string_at w0 (rodata (line "directory open failed")) (line "directory open failed") →
  gives sees (ls rodata buf st) 2 (print (line "directory open failed") w0).
Proof.
  intros Hs Hd Hn Hm. unfold ls. eapply gives_bind; [by eapply open_missing|]. intros st1 Hs1.
  change (-1 =? -1) with true. cbv iota. by apply puts_gives.
Qed.

Lemma ls_lists st : sees st w0 → string_at w0 (rodata (lit ".")) (lit ".") → node_of (lit ".") = Some Directory →
  free_desc w0 = Some fd →
  ∃ w', gives sees (ls rodata buf st) 0 w' ∧ w_next w' = 0 ∧ reading fd buf 33 Dir (lines listing) w0 w'.
Proof.
  intros Hs Hd Hn Hf. unfold ls.
  destruct (open_directory st w0 _ _ fd Hs Hd Hn Hf) as (st1 & -> & Hs1). rewrite bind_Done.
  rewrite (proj2 (Z.eqb_neq _ _)) by lia.
  destruct (ls_loop st1) as (w' & Hw1 & Hw2 & Hw3); [|by exists w'].
  split; [lia|]. eexists. split; [exact Hs1|]. split; [cbn; lia|].
  rewrite Nat2Z.id, Nat.sub_diag. split; cbn; [apply only_in_refl|done|by rewrite app_nil_r].
Qed.
End ls.
End client.
