(* ===== verification/Userland.v ===== *)
(** User programs on the kernel: the system calls of Syscall implement the
    interface of User and keep its promises, so that what is proved of a
    program there holds of the program running in a process. *)
From Stdlib Require Import String.
From stdpp Require Import gmap.
From S2P Require Import Prelude Memory Strings Console Filesystem Paging Pic Rtc Kernel Terminal Syscall Process Calls User Programs.

(** * The implementation *)
Section kernel_calls.
Context (dir_addr table_addr vidmem_addr magics : Z) (stack_dentry : dentry_t).
(** What interrupts do during a blocking read, and what the programs started
    by [execute] do until they halt. *)
Context (typed : Z → console * Z → console * Z) (ticks : Z → nat) (child : Z → Z → kernel → out (Z * kernel)).

Definition user_execute (command : Z) (k : kernel) : out (Z * kernel) :=
  '(o, k) ← execute dir_addr table_addr vidmem_addr magics stack_dentry (at_user dir_addr table_addr vidmem_addr k command) k;
  match o with
  | Return r => Done (r, k)
  | Enter eip esp => child eip esp k
  | Handler _ _ => Undef
  end.

Definition kernel_calls : Syscalls kernel := {|
  user := user_load dir_addr table_addr vidmem_addr;
  poke := user_store dir_addr table_addr vidmem_addr;
  ece391_execute := user_execute;
  ece391_read := read dir_addr table_addr vidmem_addr stack_dentry typed ticks;
  ece391_write := write dir_addr table_addr vidmem_addr;
  ece391_open := open dir_addr table_addr vidmem_addr stack_dentry;
  ece391_close := close;
  ece391_getargs := getargs dir_addr table_addr vidmem_addr |}.
End kernel_calls.

(** * The image as a file system *)

(** The first entry of that name. *)
Definition entry_of (m : mem) (f : fs) (name : list Z) : option Z :=
  snd <$> list_find (λ i, entry_name m f i = name) (seqZ 0 (num_dentries f)).
Definition entry_type (m : mem) (f : fs) (i : Z) : Z := load32 m (entry_at f i + 32).
Definition entry_inode (m : mem) (f : fs) (i : Z) : Z := load32 m (entry_at f i + 36).
Definition contents (m : mem) (f : fs) (ino : Z) : list Z := file_slice m f ino 0 (file_size m f ino).

(** [fine] tells the inodes known to be well formed; nothing is promised of the others. *)
Definition image_node (fine : Z → bool) (m : mem) (f : fs) (name : list Z) : option node :=
  (λ i, if (entry_type m f i =? REGULAR_FILE) && fine (entry_inode m f i) then Regular (contents m f (entry_inode m f i))
        else if entry_type m f i =? DIR_TYPE then Directory else Device) <$> entry_of m f name.
Definition image_names (m : mem) (f : fs) : list (list Z) := entry_name m f <$> seqZ 0 (num_dentries f).

Lemma entry_of_Some m f name i : entry_of m f name = Some i ↔
  0 <= i < num_dentries f ∧ entry_name m f i = name ∧ ∀ j, 0 <= j < i → entry_name m f j ≠ name.
Proof.
  unfold entry_of. split.
  - intros ([j x] & (Hx & Hn & Hf)%list_find_Some & ->)%fmap_Some. apply lookup_seqZ in Hx as [-> Hx].
    cbn [snd]. split_and!; [lia|lia|done|]. intros y Hy. apply (Hf (Z.to_nat y)); [|lia].
    apply lookup_seqZ. lia.
  - intros (Hi & Hn & Hf).
    assert (E : list_find (λ i, entry_name m f i = name) (seqZ 0 (num_dentries f)) = Some (Z.to_nat i, i)); [|by rewrite E].
    apply list_find_Some. split_and!; [apply lookup_seqZ; lia|done|].
    intros j y Hy Hlt. apply lookup_seqZ in Hy as [-> Hy]. apply Hf. lia.
Qed.
Lemma entry_of_None m f name : entry_of m f name = None ↔ ∀ i, 0 <= i < num_dentries f → entry_name m f i ≠ name.
Proof.
  unfold entry_of. rewrite fmap_None, list_find_None, list.Forall_forall. split.
  - intros H i Hi. apply H, elem_of_seqZ. lia.
  - intros H i Hi%elem_of_seqZ. apply H. lia.
Qed.
Lemma length_contents m f ino : image_ok m f → Z.of_nat (length (contents m f ino)) = file_size m f ino.
Proof.
  intros Him. unfold contents, file_slice. rewrite length_fmap, length_seqZ. pose proof (file_size_range _ _ Him ino) as [? _]. lia.
Qed.
Lemma name_length m f i : image_ok m f → dir_ok m f → 0 <= i < num_dentries f → Z.of_nat (length (entry_name m f i)) <= 32.
Proof.
  intros Him Hdir Hi. destruct (entry_cstr m f Him Hdir i Hi) as (n & Hn & (? & _) & ->). rewrite length_bytes_of by lia. lia.
Qed.

(** What a call that does not read the terminal leaves alone, from [w], [k] to
    [w'], [k']: the keyboard, the clocks, the running terminal, the page tables
    and what was printed before; unless it prints, the page of video memory;
    and whatever [w] says of addresses outside the program's page. *)
Record undisturbed (w w' : world) (k k' : kernel) : Prop := Undisturbed {
  un_keyboard : same_keyboard (k_con k) (k_con k');
  un_enter : enter_state k' = enter_state k;
  un_rtc : k_rtc k' = k_rtc k;
  un_running : running_terminal k' = running_terminal k;
  un_page : k_page k' = k_page k;
  un_printed : ∃ bs, w_out w' = w_out w ++ bs ∧ (bs = [] → ∀ x, VIDEO <= x < VIDEO + FOUR_KB_SIZE → k_mem k' x = k_mem k x);
  un_apart x : x < _128_MB_SIZE ∨ _128_MB_SIZE + FOUR_MB_SIZE <= x → w_mem w' x = w_mem w x }.
Lemma undisturbed_still w w' k k' : same_keyboard (k_con k) (k_con k') → enter_state k' = enter_state k → k_rtc k' = k_rtc k →
  running_terminal k' = running_terminal k → k_page k' = k_page k → k_mem k' = k_mem k → w_out w' = w_out w → w_mem w' = w_mem w → undisturbed w w' k k'.
Proof.
  intros H1 H2 H3 H4 H5 H6 H7 H8. split; try done; [|by rewrite H8]. exists []. split; [by rewrite app_nil_r|]. by rewrite H6.
Qed.

(** * The promises *)
Section promises.
Context (dir_addr table_addr vidmem_addr magics : Z) (stack_dentry : dentry_t).
Context (typed : Z → console * Z → console * Z) (ticks : Z → nat) (child : Z → Z → kernel → out (Z * kernel)).
Context (Hlink : linked dir_addr table_addr vidmem_addr).
(** Process [id] on terminal [tid]; the image [m0], [f0]; the texts the
    terminals may start from; the arguments: [nb] blanks and the text [a]. *)
Context (id tid : Z) (Htid : 0 <= tid < 3).
Context (m0 : mem) (f0 : fs) (Him : image_ok m0 f0) (Hdir : dir_ok m0 f0) (Hlow : image_end f0 <= EIGHT_MB_SIZE).
Context (Hapart : outside_text (fs_addr f0) (image_end f0 - fs_addr f0)).
Context (fine : Z → bool) (Hfine : ∀ i, fine i = true → inode_ok m0 f0 i).
Context (starts : (Z → tscreen) → Prop) (Hstarts : ∀ s0, starts s0 → ∀ t, 0 <= t < 3 → ts_ok (s0 t)).
Context (nb : nat) (a : list Z) (Ha : Forall (λ c, c ≠ 0) a) (Hhead : head a ≠ Some 32).
Context (Hargs : Z.of_nat (nb + length a) < ARG_MAX) (Hblank : nb = 0%nat ↔ a = []).
(** What else is known of the kernel, which no call but a read of the terminal
    changes. *)
Context (devices : world → kernel → Prop) (Hdevices : ∀ w w' k k', undisturbed w w' k k' → devices w k → devices w' k').

#[local] Instance calls : Syscalls kernel :=
  kernel_calls dir_addr table_addr vidmem_addr magics stack_dentry typed ticks child.

Definition refers (d : file_desc_t) (x : desc) : Prop :=
  match x with
  | Closed => flags d = NOT_IN_USE
  | Stdin => flags d = IN_USE ∧ ptrs d = Some stdin_funcs
  | Stdout => flags d = IN_USE ∧ ptrs d = Some stdout_funcs
  | File c pos => flags d = IN_USE ∧ ptrs d = Some file_funcs ∧ file_pos d = pos ∧ inode_ok m0 f0 (inode d) ∧
      0 <= pos <= file_size m0 f0 (inode d) ∧ c = contents m0 f0 (inode d)
  | Dir => flags d = IN_USE ∧ ptrs d = Some dir_funcs
  | Clock => flags d = IN_USE ∧ ptrs d = Some rtc_funcs
  end.

(** The text of terminal [t] once the process has written [bs], from [s0] on. *)
Definition text_after (s0 : Z → tscreen) (bs : list Z) (t : Z) : tscreen :=
  if t =? tid then ts_print (attrib t) (s0 t) bs else s0 t.

(** The process with control block [p] sees the world [w]. *)
Record in_world (p : pcb_t) (k : kernel) (w : world) : Prop := InWorld {
  iw_sys : sys_ok dir_addr table_addr vidmem_addr id k p;
  iw_image : ∀ x, fs_addr f0 <= x < image_end f0 → k_mem k x = m0 x;
  iw_fs : k_fs k = with_dir_location (w_next w) f0;
  iw_next : 0 <= w_next w <= num_dentries f0;
  iw_fds : Forall2 refers (files p) (w_fds w);
  iw_args : argument p = argument_array (replicate nb 32 ++ a);
  iw_tid : get_terminal_id (pid p) k = tid;
  iw_page : ∀ x, user_buf x 1 → k_mem k (user_phys id x) = w_mem w x;
  iw_bytes : mem_ok (w_mem w);
  iw_con : 0 <= current_terminal (k_con k) < 3 ∧ length (terminal_info (k_con k)) = 3%nat;
  iw_text : ∃ s0, starts s0 ∧ ∀ t, 0 <= t < 3 → ∃ s, text_of (k_con k) t = Some s ∧ s ≡ text_after s0 (w_out w) t;
  iw_devices : devices w k }.
Definition kernel_sees (k : kernel) (w : world) : Prop := ∃ p, in_world p k w.

Lemma user_xlat p k w x : in_world p k w → user_buf x 1 →
  translation dir_addr table_addr vidmem_addr k x = Some (Xlat (user_phys id x) true true).
Proof. intros H (H1 & _ & H2). apply (user_translation _ _ _ Hlink id k p x (iw_sys _ _ _ H)). lia. Qed.

Lemma kernel_user_seen k w x : kernel_sees k w → user_buf x 1 → user k x = Some (w_mem w x).
Proof.
  intros [p H] Hx. change (user k) with (user_load dir_addr table_addr vidmem_addr k). unfold user_load.
  rewrite (user_xlat p k w x H Hx). cbn. by rewrite (iw_page _ _ _ H).
Qed.

Lemma user_above x : 0 <= id → user_buf x 1 → EIGHT_MB_SIZE <= user_phys id x.
Proof. intros Hid (H1 & _ & _). unfold user_phys, EIGHT_MB_SIZE, FOUR_MB_SIZE, _128_MB_SIZE in *. lia. Qed.
Lemma id_range p k : sys_ok dir_addr table_addr vidmem_addr id k p → 0 <= id.
Proof. intros H. destruct (so_page _ _ _ _ _ _ H) as (win & _ & [Hid _]). specialize (Hid id eq_refl). lia. Qed.

(** A change of memory inside the program's page: the program sees it, and
    nothing else does. *)
Lemma in_world_mem p k w m' : in_world p k w → mem_ok m' → only_in EIGHT_MB_SIZE (user_phys id (_128_MB_SIZE + FOUR_MB_SIZE)) (k_mem k) m' →
  ∀ mw, mem_ok mw → (∀ x, user_buf x 1 → m' (user_phys id x) = mw x) →
  (∀ x, x < _128_MB_SIZE ∨ _128_MB_SIZE + FOUR_MB_SIZE <= x → mw x = w_mem w x) →
  in_world p (set_mem m' k) (with_wmem mw w).
Proof.
  intros H Hm Ho mw Hmw Hpage Hout. pose proof (iw_sys _ _ _ H) as Hsys.
  assert (Hs : ∀ x, fs_addr (k_fs k) <= x < image_end (k_fs k) → m' x = k_mem k x).
  { intros x Hx. apply Ho. rewrite (iw_fs _ _ _ H) in Hx. unfold image_end in *. cbn in Hx. lia. }
  assert (Ef : fs_addr (k_fs k) = fs_addr f0 ∧ image_end (k_fs k) = image_end f0) by (by rewrite (iw_fs _ _ _ H)).
  destruct Ef as [Ef1 Ef2]. split.
  - destruct Hsys as [H1 H2 H3 H4 H5 H6]. split; [by apply (image_ok_frame (k_mem k))|by apply (dir_ok_frame (k_mem k))|done..].
  - intros x Hx. cbn. rewrite Hs by lia. by apply (iw_image _ _ _ H).
  - apply H.
  - apply H.
  - apply H.
  - apply H.
  - apply H.
  - exact Hpage.
  - exact Hmw.
  - apply H.
  - destruct (iw_text _ _ _ H) as (s0 & Hs0 & Htext). exists s0. split; [done|]. intros t Ht. destruct (Htext t Ht) as (s & Es & Hseq).
    destruct (text_frame (k_con k) m') with (t := t) (s := s) as (s' & Es' & Heq); [|done|done|].
    { intros x Hx. apply Ho. unfold TEXT_END, VIDEO, FOUR_KB_SIZE, EIGHT_MB_SIZE in *. lia. }
    exists s'. split; [exact Es'|]. by rewrite Heq.
  - apply (Hdevices w _ k); [|apply H]. split; try done. exists []. split; [by rewrite app_nil_r|]. intros _ x Hx. apply Ho.
    unfold VIDEO, FOUR_KB_SIZE, EIGHT_MB_SIZE in *. lia.
Qed.
(** A change of the kernel that a program does not see. *)
Lemma devices_still p k w k' w' : in_world p k w → same_keyboard (k_con k) (k_con k') → enter_state k' = enter_state k → k_rtc k' = k_rtc k →
  running_terminal k' = running_terminal k → k_page k' = k_page k → k_mem k' = k_mem k → w_out w' = w_out w → w_mem w' = w_mem w → devices w' k'.
Proof. intros H *. intros. apply (Hdevices w _ k); [by apply undisturbed_still|apply H]. Qed.

Lemma page_inj x y : user_phys id x = user_phys id y → x = y.
Proof. unfold user_phys. lia. Qed.

(** A buffer of the program is filled. *)
Lemma in_world_buf p k w m' mw buf n : in_world p k w → user_buf buf n → mem_ok mw →
  only_in (user_phys id buf) (user_phys id buf + n) (k_mem k) m' → only_in buf (buf + n) (w_mem w) mw →
  (∀ j, 0 <= j < n → m' (user_phys id buf + j) = mw (buf + j)) →
  in_world p (set_mem m' k) (with_wmem mw w).
Proof.
  intros H Hb Hmw Ho Hw Hin. pose proof (id_range _ _ (iw_sys _ _ _ H)) as Hid. destruct Hb as (Hb1 & Hb2 & Hb3).
  assert (Hpage : ∀ x, user_buf x 1 → m' (user_phys id x) = mw x).
  { intros x Hx. destruct (decide (buf <= x < buf + n)) as [Hr|Hr].
    - replace x with (buf + (x - buf)) at 2 by lia. rewrite <- Hin by lia. f_equal. unfold user_phys. lia.
    - rewrite Ho by (unfold user_phys; lia). rewrite (iw_page _ _ _ H x Hx). symmetry. apply Hw. lia. }
  apply (in_world_mem p k w m' H); [| |done|done|intros x Hx; apply Hw; lia].
  - intros x. destruct (decide (user_phys id buf <= x < user_phys id buf + n)) as [Hr|Hr].
    + replace x with (user_phys id buf + (x - user_phys id buf)) by lia. rewrite Hin by lia. apply Hmw.
    + rewrite Ho by lia. apply (iw_sys _ _ _ H).
  - eapply only_in_weaken; [| |exact Ho]; unfold user_phys, EIGHT_MB_SIZE, FOUR_MB_SIZE, _128_MB_SIZE in *; lia.
Qed.

(** A descriptor is changed. *)
Lemma in_world_fd p k w fd d x : in_world p k w → 0 <= fd < 8 → refers d x →
  in_world (with_files (<[Z.to_nat fd := d]> (files p)) p) (with_fd fd d p k) (with_desc fd x w).
Proof.
  intros H Hfd Hd. pose proof H as [H1 H2 H3 H4 H5 H6 H7 H8 H9 H10 H11 H12]. split; try done.
  - by apply with_fd_ok.
  - cbn. by apply Forall2_insert.
  - by apply (devices_still p k w).
Qed.

Lemma file_of p k w fd x : in_world p k w → zget (w_fds w) fd = Some x →
  0 <= fd < 8 ∧ ∃ d, zget (files p) fd = Some d ∧ refers d x.
Proof.
  intros H [Hfd E]%zget_Some. destruct (Forall2_lookup_r _ _ _ _ _ (iw_fds _ _ _ H) E) as (d & Ed & Hr).
  pose proof (lookup_lt_Some _ _ _ Ed) as Hl. rewrite (so_files _ _ _ _ _ _ (iw_sys _ _ _ H)) in Hl.
  split; [lia|]. exists d. split; [|done]. by apply zget_Some.
Qed.

Lemma kernel_poke k w x v : kernel_sees k w → user_buf x 1 →
  ∃ k', poke x v k = Done k' ∧ kernel_sees k' (with_wmem (store8 (w_mem w) x v) w).
Proof.
  intros [p H] Hx. change (poke x v k) with (user_store dir_addr table_addr vidmem_addr x v k). unfold user_store.
  rewrite (user_xlat p k w x H Hx). cbn [must]. rewrite bind_Done. cbn [x_user x_write andb x_pa].
  eexists. split; [reflexivity|]. exists p. apply (in_world_buf p k w _ _ x 1 H Hx).
  - intros y. unfold store8, upd. case_match; [apply u8_range|apply (iw_bytes _ _ _ H)].
  - apply only_in_upd. lia.
  - apply only_in_upd. lia.
  - intros j Hj. assert (j = 0) as -> by lia. unfold store8, upd. by rewrite !Z.add_0_r, !Z.eqb_refl.
Qed.

Lemma mem_ok_blit m b l : mem_ok m → Forall is_u8 l → mem_ok (blit m b l).
Proof.
  intros Hm Hl x. unfold blit. destruct (zget l (x - b)) as [v|] eqn:E; [|apply Hm].
  apply zget_Some in E as [_ E]. by eapply (list.Forall_lookup_1 _ _ _ _ Hl).
Qed.

Context (Hbytes : Forall is_u8 a).

Lemma kernel_getargs k w buf n : kernel_sees k w → user_buf buf n → 0 < n → a ≠ [] →
  gives kernel_sees (ece391_getargs buf n k) 0 (with_wmem (blit (w_mem w) buf (padded n a)) w).
Proof.
  intros [p H] Hb Hn Hne. destruct (getargs_spec _ _ _ Hlink k id p (iw_sys _ _ _ H) nb a buf n Ha Hhead Hargs (iw_args _ _ _ H) Hb Hn) as [Hg _].
  destruct Hg as (m' & E & Hin & Ho); [destruct nb; [by destruct Hne; apply Hblank|lia]|].
  exists (set_mem m' k). split; [exact E|]. exists p. apply (in_world_buf p k w m' _ buf n H Hb).
  - apply mem_ok_blit; [apply (iw_bytes _ _ _ H)|by apply padded_u8].
  - done.
  - apply blit_only_in; [lia|]. rewrite length_padded; lia.
  - intros j Hj. rewrite Hin by done. symmetry. apply blit_in. by apply zget_padded.
Qed.

Lemma kernel_getargs_none k w buf n : kernel_sees k w → a = [] → gives kernel_sees (ece391_getargs buf n k) (-1) w.
Proof.
  intros [p H] Hne. exists k. split; [|by exists p].
  change (ece391_getargs buf n k) with (getargs dir_addr table_addr vidmem_addr buf n k). unfold getargs, pcb_at.
  rewrite (so_pcb _ _ _ _ _ _ (iw_sys _ _ _ H)). cbn [must]. rewrite bind_Done, (iw_args _ _ _ H).
  by rewrite (proj2 Hblank Hne), Hne.
Qed.

(** The checks of [read] and [write] pass. *)
Lemma user_nonzero buf n : user_buf buf n → buf ≠ 0.
Proof. intros (H & _ & _). unfold _128_MB_SIZE in H. lia. Qed.
Lemma call_passes p k w fd buf n x (f : file_desc_t → out (Z * kernel)) : in_world p k w → zget (w_fds w) fd = Some x →
  x ≠ Closed → user_buf buf n → 0 <= n →
  ∃ d, zget (files p) fd = Some d ∧ refers d x ∧
  (if (fd <? 0) || (MAX_FD <=? fd) then Done (-1, k) else
   if n <? 0 then Done (-1, k) else
   if buf =? 0 then Done (-1, k) else
   p ← pcb_at k (get_curr_pcb k); d ← file_at p fd;
   if flags d =? NOT_IN_USE then Done (-1, k) else f d) = f d.
Proof.
  intros H Hx Hne Hb Hn. destruct (file_of p k w fd x H Hx) as (Hfd & d & Hd & Hr). exists d. split; [done|]. split; [done|].
  unfold MAX_FD. rewrite (proj2 (Z.ltb_ge fd 0)), (proj2 (Z.leb_gt 8 fd)), (proj2 (Z.ltb_ge n 0)) by lia. cbn [orb].
  rewrite (proj2 (Z.eqb_neq buf 0)) by by eapply user_nonzero.
  unfold pcb_at. rewrite (so_pcb _ _ _ _ _ _ (iw_sys _ _ _ H)). cbn [must]. rewrite bind_Done. unfold file_at. rewrite Hd. cbn [must]. rewrite bind_Done.
  assert (Ef : flags d = IN_USE) by (destruct x; [done|..]; apply Hr). by rewrite Ef.
Qed.

Lemma kernel_write k w fd buf n : kernel_sees k w → zget (w_fds w) fd = Some Stdout → user_buf buf n → user_buf buf 1 → 0 <= n →
  gives kernel_sees (ece391_write fd buf n k) n (print (bytes_of (mview (w_mem w) buf) n) w).
Proof.
  intros [p H] Hfd Hb Hb1 Hn. pose proof (iw_sys _ _ _ H) as Hsys. pose proof (id_range _ _ Hsys) as Hid.
  destruct (call_passes p k w fd buf n Stdout (λ d, call_write dir_addr table_addr vidmem_addr (ptrs d) fd buf n k) H Hfd)
    as (d & Hd & [_ Hp] & E); [done|done|done|].
  change (ece391_write fd buf n k) with (write dir_addr table_addr vidmem_addr fd buf n k). unfold gives, write. rewrite E, Hp.
  cbn [call_write]. clear E. pose proof (iw_tid _ _ _ H) as Et. pose proof (iw_con _ _ _ H) as [Hc Hinfo].
  assert (Hva : phys dir_addr table_addr vidmem_addr k buf = user_phys id buf) by by apply (user_va _ _ _ Hlink id k p buf 1 Hsys Hb1).
  assert (Hread : bytes_of (mview (k_mem k) (user_phys id buf)) n = bytes_of (mview (w_mem w) buf) n).
  { apply bytes_of_eq; [done|done|]. split; [done|]. intros j Hj. unfold mview; cbn.
    rewrite <- (iw_page _ _ _ H) by (destruct Hb as (?&?&?); split_and!; lia). f_equal. unfold user_phys. lia. }
  destruct (terminal_write_full dir_addr table_addr vidmem_addr buf n k p (so_pcb _ _ _ _ _ _ Hsys))
    as (c' & s & s' & E & Hs & Hs' & Heq & Hothers & Ho & Ec & Ei).
  - by rewrite Et.
  - exact Hc.
  - done.
  - by apply (user_range _ _ _ Hlink id k p buf n n Hsys Hb).
  - rewrite Hva. right. destruct Hb1 as (?&?&?). unfold user_phys, TEXT_END, VIDEO, FOUR_KB_SIZE, EIGHT_MB_SIZE, FOUR_MB_SIZE, _128_MB_SIZE in *. lia.
  - apply Hsys.
  - exact Hinfo.
  - rewrite Et. intros s Hs. destruct (iw_text _ _ _ H) as (s0 & Hs0 & Htext). destruct (Htext tid Htid) as (u & Eu & Hu). rewrite Eu in Hs. injection Hs as <-.
    rewrite Hu. unfold text_after. rewrite Z.eqb_refl. by apply ts_print_ok, (Hstarts s0).
  - exists (with_if true (with_con c' k)). split; [exact E|]. exists p. rewrite Et in Hs, Hs', Heq, Hothers.
    assert (Habove : ∀ y, EIGHT_MB_SIZE <= y → c_mem c' y = k_mem k y).
    { intros y Hy. apply Ho. unfold TEXT_END, VIDEO, FOUR_KB_SIZE, EIGHT_MB_SIZE in *. lia. }
    assert (Himage : ∀ y, fs_addr f0 <= y < image_end f0 → c_mem c' y = k_mem k y).
    { intros y Hy. apply Ho. unfold outside_text in Hapart. lia. }
    pose proof (terminal_write_bytes _ _ _ _ _ _ _ _ (im_bytes _ _ (so_image _ _ _ _ _ _ Hsys)) E) as Hbytes'.
    destruct Hsys as [S1 S2 S3 S4 S5 S6]. split; try apply H; cbn [k_con with_con with_if k_mem].
    + assert (Ef : ∀ y, fs_addr (k_fs k) <= y < image_end (k_fs k) → c_mem c' y = k_mem k y).
      { intros y Hy. apply Himage. rewrite (iw_fs _ _ _ H) in Hy. exact Hy. }
      split; [apply (image_ok_frame (k_mem k)); [done|done|exact Hbytes']|by apply (dir_ok_frame (k_mem k))|done..].
    + intros y Hy. etrans; [by apply Himage|]. by apply (iw_image _ _ _ H).
    + intros y Hy. etrans; [apply Habove; by apply user_above|]. by apply (iw_page _ _ _ H).
    + by rewrite Ec, Ei.
    + destruct (iw_text _ _ _ H) as (s0 & Hs0 & Htext). exists s0. split; [done|]. intros t Ht. destruct (decide (t = tid)) as [->|Hne].
      * exists s'. split; [done|]. rewrite Heq. change (c_mem (k_con k)) with (k_mem k). rewrite Hva, Hread. destruct (Htext tid Htid) as (u & Eu & Hu).
        rewrite Eu in Hs. injection Hs as <-. rewrite Hu. unfold text_after, print. rewrite Z.eqb_refl. cbn.
        unfold ts_print. by rewrite foldl_app.
      * destruct (Hothers t Ht Hne) as (u & u' & Eu & Eu' & Hu'). exists u'. split; [done|]. rewrite Hu'.
        destruct (Htext t Ht) as (v & Ev & Hv). rewrite Ev in Eu. injection Eu as <-. rewrite Hv.
        unfold text_after. by rewrite (proj2 (Z.eqb_neq _ _) Hne).
    + destruct (terminal_write_keyboard _ _ _ _ _ _ _ _ E) as [Hk _]. apply (Hdevices w _ k); [|apply H]. split; try done.
      exists (bytes_of (mview (w_mem w) buf) n). split; [done|]. intros Hnil x _. assert (n = 0) as ->.
      { pose proof (length_bytes_of (mview (w_mem w) buf) n Hn) as Hl. rewrite Hnil in Hl. cbn in Hl. lia. }
      by rewrite (terminal_write_nothing _ _ _ _ _ _ _ E).
Qed.

(** * Files *)
Lemma image_same p k w : in_world p k w → ∀ x, fs_addr f0 <= x < image_end f0 → k_mem k x = m0 x.
Proof. apply iw_image. Qed.

Lemma world_size p k w ino : in_world p k w → inode_ok m0 f0 ino → file_size (k_mem k) (k_fs k) ino = file_size m0 f0 ino.
Proof.
  intros H Hino. rewrite (iw_fs _ _ _ H). change (file_size (k_mem k) (with_dir_location (w_next w) f0) ino) with (file_size (k_mem k) f0 ino).
  apply (file_size_frame m0 (k_mem k) f0 Him (iw_image _ _ _ H) ino). pose proof (in_range _ _ _ Hino). lia.
Qed.
Lemma world_inode p k w ino : in_world p k w → inode_ok m0 f0 ino → inode_ok (k_mem k) (k_fs k) ino.
Proof.
  intros H Hino. pose proof (inode_ok_frame m0 (k_mem k) f0 Him (iw_image _ _ _ H) ino Hino) as [H1 H2 H3].
  rewrite (iw_fs _ _ _ H). by split.
Qed.
Lemma world_byte p k w ino i : in_world p k w → inode_ok m0 f0 ino → 0 <= i < file_size m0 f0 ino →
  file_byte (k_mem k) (k_fs k) ino i = file_byte m0 f0 ino i.
Proof.
  intros H Hino Hi. rewrite (iw_fs _ _ _ H). change (file_byte (k_mem k) (with_dir_location (w_next w) f0) ino i) with (file_byte (k_mem k) f0 ino i).
  by apply (file_byte_frame m0 (k_mem k) f0 Him (iw_image _ _ _ H) ino i Hino).
Qed.

Lemma lookup_contents ino i : 0 <= i < file_size m0 f0 ino → contents m0 f0 ino !! Z.to_nat i = Some (file_byte m0 f0 ino i).
Proof.
  intros Hi. unfold contents, file_slice. rewrite list_lookup_fmap, lookup_seqZ_lt by lia. cbn. do 2 f_equal. lia.
Qed.
Lemma contents_u8 ino : Forall is_u8 (contents m0 f0 ino).
Proof. apply Forall_fmap, Forall_true. intros. apply Him. Qed.

Lemma kernel_read_file k w fd c pos buf n : kernel_sees k w → zget (w_fds w) fd = Some (File c pos) →
  user_buf buf n → 0 < n →
  let bs := take (Z.to_nat n) (drop (Z.to_nat pos) c) in
  gives kernel_sees (ece391_read fd buf n k) (Z.of_nat (length bs))
    (with_desc fd (File c (pos + Z.of_nat (length bs))) (with_wmem (blit (w_mem w) buf bs) w)).
Proof.
  intros [p H] Hfd Hb Hn bs. destruct (file_of p k w fd _ H Hfd) as (Hr & d & Hd & Hfl & Hp & Hpos & Hino & Hrange & Hc).
  set (ino := inode d) in *. assert (Ed : d = FileDesc (Some file_funcs) ino pos IN_USE) by (destruct d; cbn in *; by subst).
  assert (Hbs : Z.of_nat (length bs) = Z.min (file_size m0 f0 ino - pos) n).
  { unfold bs. rewrite length_take, length_drop, Hc. pose proof (length_contents _ _ ino Him). lia. }
  rewrite Ed in Hd. destruct (read_file_spec _ _ _ stack_dentry Hlink id k p fd ino pos buf n typed ticks (iw_sys _ _ _ H) Hd)
    as (m' & E & Hby & Hs & Hm & Ho).
  { by apply (world_inode p k w). }
  { by rewrite (world_size p k w). }
  { done. } { done. }
  rewrite (world_size p k w ino H Hino), <- Hbs in E, Hby, Ho.
  eexists. split; [exact E|]. eexists. apply (in_world_fd p (set_mem m' k) _ fd (FileDesc (Some file_funcs) ino (pos + Z.of_nat (length bs)) IN_USE)); [|done|].
  2: { cbn. split_and!; [done|done|done|done|lia|lia|done]. }
  destruct Hb as (Hb1 & Hb2 & Hb3).
  apply (in_world_buf p k w m' _ buf (Z.of_nat (length bs)) H); [split_and!; lia| |done|by apply blit_only_in|].
  - apply mem_ok_blit; [apply (iw_bytes _ _ _ H)|]. unfold bs. apply Forall_take, Forall_drop. rewrite Hc. apply contents_u8.
  - intros j Hj. rewrite Hby by done. rewrite (world_byte p k w) by (first [done|lia]). symmetry. apply blit_in.
    apply zget_Some. split; [lia|]. unfold bs. rewrite lookup_take_lt by lia. rewrite lookup_drop, Hc.
    replace (Z.to_nat pos + Z.to_nat j)%nat with (Z.to_nat (pos + j)) by lia. apply lookup_contents. lia.
Qed.

(** * The directory *)
Lemma in_world_next p k w n : in_world p k w → 0 <= n <= num_dentries f0 →
  in_world p (with_fs (with_dir_location n f0) k) (with_next n w).
Proof.
  intros H Hn. pose proof (iw_fs _ _ _ H) as Ef. pose proof H as [[S1 S2 S3 S4 S5 S6] H2 H3 H4 H5 H6 H7 H8 H9 H10 H11 H12].
  split; try done; [|by apply (devices_still p k w)]. split; try done.
  - rewrite Ef in S1. by apply (image_ok_at _ _ n) in S1.
  - rewrite Ef in S2. by apply (dir_ok_at _ _ n) in S2.
  - rewrite Ef in S3. exact S3.
Qed.

Lemma world_name p k w i : in_world p k w → 0 <= i < num_dentries f0 → entry_name (k_mem k) (k_fs k) i = entry_name m0 f0 i.
Proof.
  intros H Hi. rewrite (iw_fs _ _ _ H). change (entry_name (k_mem k) (with_dir_location (w_next w) f0) i) with (entry_name (k_mem k) f0 i).
  by apply (entry_name_frame m0 (k_mem k) f0 i Him Hdir Hi), (iw_image _ _ _ H).
Qed.
Lemma zget_names i name : zget (image_names m0 f0) i = Some name → 0 <= i < num_dentries f0 ∧ entry_name m0 f0 i = name.
Proof.
  intros [Hi E]%zget_Some. unfold image_names in E. apply list_lookup_fmap_Some in E as (x & -> & E).
  apply lookup_seqZ in E as [-> ?]. rewrite Z.add_0_l, Z2Nat.id by lia. split; [lia|done].
Qed.

Lemma kernel_read_dir k w fd buf : kernel_sees k w → zget (w_fds w) fd = Some Dir → user_buf buf 32 →
  ∃ p, in_world p k w ∧
  ece391_read fd buf 32 k = dir_read_call dir_addr table_addr vidmem_addr stack_dentry buf 32 k.
Proof.
  intros [p H] Hfd Hb. exists p. split; [done|].
  destruct (call_passes p k w fd buf 32 Dir (λ d, call_read dir_addr table_addr vidmem_addr stack_dentry typed ticks (ptrs d) fd buf 32 k) H Hfd)
    as (d & _ & [_ Hp] & E); [done|done|lia|].
  change (ece391_read fd buf 32 k) with (read dir_addr table_addr vidmem_addr stack_dentry typed ticks fd buf 32 k).
  unfold read. by rewrite E, Hp.
Qed.

Lemma kernel_read_name k w fd buf name : kernel_sees k w → zget (w_fds w) fd = Some Dir → user_buf buf 32 →
  zget (image_names m0 f0) (w_next w) = Some name →
  gives kernel_sees (ece391_read fd buf 32 k) (Z.of_nat (length name))
    (with_next (w_next w + 1) (with_wmem (blit (w_mem w) buf (padded 32 name)) w)).
Proof.
  intros Hs Hfd Hb [Hnext Hname]%zget_names. destruct (kernel_read_dir k w fd buf Hs Hfd Hb) as (p & H & E).
  pose proof (iw_sys _ _ _ H) as Hsys. pose proof (name_length _ _ _ Him Hdir Hnext) as Hlen. rewrite Hname in Hlen.
  unfold gives. rewrite E. clear E. unfold dir_read_call. rewrite (user_va _ _ _ Hlink id k p buf 32 Hsys Hb) by lia.
  assert (El : dir_location (k_fs k) = w_next w) by by rewrite (iw_fs _ _ _ H).
  assert (En : num_dentries (k_fs k) = num_dentries f0) by by rewrite (iw_fs _ _ _ H).
  destruct (dir_read_entry (k_mem k) (k_fs k) stack_dentry (user_phys id buf) 32 (so_image _ _ _ _ _ _ Hsys)
    (so_dir _ _ _ _ _ _ Hsys)) as (m' & E & Ho & Hin); [lia|lia|].
  cbv zeta in E, Hin. rewrite El, (world_name p k w), Hname, Z.min_r in E, Hin by (done || lia). rewrite E, bind_Done.
  rewrite El, En, (proj2 (Z.ltb_lt _ _)) by lia.
  change F_TYPE_OFFSET with 32. rewrite (user_range _ _ _ Hlink id k p buf 32 32 Hsys Hb) by lia. rewrite bind_Done.
  eexists. split; [reflexivity|]. exists p. rewrite (iw_fs _ _ _ H).
  change (with_dir_location (w_next w + 1) (with_dir_location (w_next w) f0)) with (with_dir_location (w_next w + 1) f0).
  apply in_world_next; [|lia]. apply (in_world_buf p k w m' _ buf 32 H Hb); [|done|apply blit_only_in; rewrite ?length_padded; lia|].
  - apply mem_ok_blit; [apply (iw_bytes _ _ _ H)|]. apply padded_u8. rewrite <- Hname. apply entry_name_bytes, Him.
  - intros j Hj. rewrite Hin by done. rewrite (blit_in _ _ _ _ _ (zget_padded 32 name j Hj)).
    destruct (Z.ltb_spec j (Z.of_nat (length name))).
    + unfold zget. by rewrite (proj2 (Z.ltb_ge j 0)) by lia.
    + by rewrite (lookup_ge_None_2 name) by lia.
Qed.

Lemma kernel_read_end k w fd buf : kernel_sees k w → zget (w_fds w) fd = Some Dir → user_buf buf 32 →
  w_next w = Z.of_nat (length (image_names m0 f0)) → gives kernel_sees (ece391_read fd buf 32 k) 0 (with_next 0 w).
Proof.
  intros Hs Hfd Hb Hnext. destruct (kernel_read_dir k w fd buf Hs Hfd Hb) as (p & H & E).
  unfold gives. rewrite E. clear E. unfold dir_read_call.
  pose proof (iw_next _ _ _ H) as Hn. unfold image_names in Hnext. rewrite length_fmap, length_seqZ in Hnext.
  assert (El : dir_location (k_fs k) = num_dentries (k_fs k)) by (rewrite (iw_fs _ _ _ H); cbn; lia).
  rewrite dir_read_end by lia. rewrite bind_Done, El, (proj2 (Z.ltb_ge _ _)) by lia. rewrite bind_Done.
  eexists. split; [reflexivity|]. exists p. rewrite set_mem_id, (iw_fs _ _ _ H).
  change (with_dir_location 0 (with_dir_location (w_next w) f0)) with (with_dir_location 0 f0). apply in_world_next; [done|lia].
Qed.

(** * Opening and closing *)
Lemma world_string p k w x name : in_world p k w → string_at w x name →
  let n := Z.of_nat (length name) in
  user_buf x 1 ∧ n < 2 ^ 22 ∧ is_cstr (at_user dir_addr table_addr vidmem_addr k x) n ∧
  bytes_of (at_user dir_addr table_addr vidmem_addr k x) n = name.
Proof.
  intros H Hx. pose proof (string_cstr _ _ _ Hx) as (C1 & C2 & C3). pose proof Hx as [(P1 & P2 & P3) _ Hb].
  assert (E : ∀ i, 0 <= i <= Z.of_nat (length name) → mview (k_mem k) (user_phys id x) i = mview (w_mem w) x i).
  { intros i Hi. unfold mview. rewrite <- (iw_page _ _ _ H) by (split_and!; lia). do 2 f_equal. unfold user_phys. lia. }
  cbv zeta. split; [split_and!; lia|]. split; [by eapply string_short|].
  apply (at_user_string _ _ _ Hlink id k p x name _ (iw_sys _ _ _ H)); [split_and!; lia|split_and!; [done|by rewrite E by lia|]|].
  - intros i Hi. rewrite E by lia. by apply C3.
  - apply holds_app in Hb as [Hb _]. rewrite <- (holds_bytes _ _ name _ Hb eq_refl) at 2.
    apply bytes_of_eq; [lia|lia|]. split; [done|]. intros j Hj. by rewrite E by lia.
Qed.

Lemma world_entry p k w x name i : in_world p k w → string_at w x name → entry_of m0 f0 name = Some i →
  names_entry dir_addr table_addr vidmem_addr k x i ∧
  load32 (k_mem k) (entry_at (k_fs k) i + 32) = entry_type m0 f0 i ∧
  load32 (k_mem k) (entry_at (k_fs k) i + 36) = entry_inode m0 f0 i.
Proof.
  intros H Hx (Hi & Hn & Hf)%entry_of_Some. destruct (world_string p k w x name H Hx) as (_ & _ & Hc & Hb).
  assert (En : num_dentries (k_fs k) = num_dentries f0) by by rewrite (iw_fs _ _ _ H).
  assert (Ea : entry_at (k_fs k) i = entry_at f0 i) by by rewrite (iw_fs _ _ _ H).
  pose proof (entry_inside m0 f0 Him Hdir i Hi) as [I1 I2]. pose proof (boot_inside m0 f0 Him) as I3. split_and!.
  - unfold names_entry. rewrite En. split; [done|]. exists (Z.of_nat (length name)). split_and!; [done| | |].
    + rewrite <- Hn. by apply name_length.
    + rewrite (world_name p k w i H Hi), Hb. done.
    + intros j Hj. rewrite (world_name p k w j H) by lia. rewrite Hb. by apply Hf.
  - rewrite Ea. apply (image_frame_load m0 (k_mem k) f0 (iw_image _ _ _ H)); lia.
  - rewrite Ea. apply (image_frame_load m0 (k_mem k) f0 (iw_image _ _ _ H)); lia.
Qed.

Lemma free_match l1 l2 : Forall2 refers l1 l2 → ∀ i, free_fd l1 i = lowest_free l2 i.
Proof.
  induction 1 as [|d x l1 l2 Hd _ IH]; intros i; [done|]. cbn [free_fd lowest_free].
  destruct x; cbn in Hd; [by rewrite Hd|..]; destruct Hd as [-> _]; by rewrite IH.
Qed.
Lemma world_free p k w : in_world p k w → free_fd (drop 2 (files p)) MIN_FD = free_desc w.
Proof. intros H. apply free_match. by apply Forall2_drop, H. Qed.
Lemma free_range p k w fd : in_world p k w → free_desc w = Some fd → 2 <= fd < 8.
Proof.
  intros H Hfd. rewrite <- (world_free p k w H) in Hfd.
  by destruct (free_fd_files _ _ (so_files _ _ _ _ _ _ (iw_sys _ _ _ H)) Hfd) as (? & _).
Qed.

Lemma kernel_open_regular k w x name c fd : kernel_sees k w → string_at w x name →
  image_node fine m0 f0 name = Some (Regular c) → free_desc w = Some fd →
  gives kernel_sees (ece391_open x k) fd (with_desc fd (File c 0) w).
Proof.
  intros [p H] Hx (i & Ei & En)%fmap_Some Hfd. destruct (world_entry p k w x name i H Hx Ei) as (Hn & Ht & Hi).
  destruct (world_string p k w x name H Hx) as (Hp & _).
  destruct (Z.eqb_spec (entry_type m0 f0 i) REGULAR_FILE) as [Et|]; [|by destruct (_ =? DIR_TYPE)].
  destruct (fine _) eqn:Ef; [|by destruct (_ =? DIR_TYPE)]. injection En as ->. apply Hfine in Ef.
  eexists. split.
  - rewrite <- Ht in Et. apply (open_file_spec _ _ _ stack_dentry k p x i fd (sys_opener _ _ _ id k p x i (iw_sys _ _ _ H) Hp Hn) Et).
    by rewrite (world_free p k w).
  - eexists. apply (in_world_fd p k w fd _ (File _ 0) H); [pose proof (free_range p k w fd H Hfd); lia|].
    rewrite Hi. cbn. pose proof (file_size_range _ _ Him (entry_inode m0 f0 i)) as [? _]. split_and!; done.
Qed.

Lemma kernel_open_directory k w x name fd : kernel_sees k w → string_at w x name →
  image_node fine m0 f0 name = Some Directory → free_desc w = Some fd →
  gives kernel_sees (ece391_open x k) fd (with_next 0 (with_desc fd Dir w)).
Proof.
  intros [p H] Hx (i & Ei & En)%fmap_Some Hfd. destruct (world_entry p k w x name i H Hx Ei) as (Hn & Ht & Hi).
  destruct (world_string p k w x name H Hx) as (Hp & _). pose proof (iw_next _ _ _ H).
  destruct (_ && _); [done|]. destruct (Z.eqb_spec (entry_type m0 f0 i) DIR_TYPE) as [Et|]; [|done].
  assert (Etf : type_funcs (load32 (k_mem k) (entry_at (k_fs k) i + 32)) = Some dir_funcs) by by rewrite Ht, Et.
  eexists. split.
  - etrans; [apply (open_entry_spec _ _ _ stack_dentry k p x i fd dir_funcs (sys_opener _ _ _ id k p x i (iw_sys _ _ _ H) Hp Hn) Etf);
      by rewrite (world_free p k w)|]. reflexivity.
  - eexists. change (k_fs (with_fd ?a ?b ?c ?d)) with (k_fs d). rewrite (iw_fs _ _ _ H).
    change (with_dir_location 0 (with_dir_location (w_next w) f0)) with (with_dir_location 0 f0).
    apply in_world_next; [|lia]. by apply (in_world_fd p k w fd _ Dir H); [pose proof (free_range p k w fd H Hfd); lia|].
Qed.

Lemma kernel_open_full k w x name c : kernel_sees k w → string_at w x name →
  image_node fine m0 f0 name = Some c → free_desc w = None → gives kernel_sees (ece391_open x k) (-1) w.
Proof.
  intros [p H] Hx (i & Ei & _)%fmap_Some Hfd. destruct (world_entry p k w x name i H Hx Ei) as (Hn & _).
  destruct (world_string p k w x name H Hx) as (Hp & _). exists k. split; [|by exists p].
  apply (open_full_spec _ _ _ stack_dentry k p x i (sys_opener _ _ _ id k p x i (iw_sys _ _ _ H) Hp Hn)). by rewrite (world_free p k w).
Qed.

Lemma kernel_open_missing k w x name : kernel_sees k w → string_at w x name →
  image_node fine m0 f0 name = None → gives kernel_sees (ece391_open x k) (-1) w.
Proof.
  intros [p H] Hx Hnone%fmap_None. rewrite entry_of_None in Hnone.
  destruct (world_string p k w x name H Hx) as (Hp & Hlen & Hc & Hb). exists k. split; [|by exists p].
  pose proof (iw_sys _ _ _ H) as Hsys. change (ece391_open x k) with (open dir_addr table_addr vidmem_addr stack_dentry x k).
  unfold open. rewrite (proj2 (Z.eqb_neq _ _)) by by eapply user_nonzero.
  pose proof (so_image _ _ _ _ _ _ Hsys) as Himk.
  destruct (name_lookup (k_mem k) (k_fs k) _ stack_dentry _ Himk (so_dir _ _ _ _ _ _ Hsys) Hc (at_user_readable _ _ _ _ _ _ Himk Hc))
    as (r & d & -> & [->|(_ & i & Hi & Ei)]); [lia|done|].
  exfalso. assert (En : num_dentries (k_fs k) = num_dentries f0) by by rewrite (iw_fs _ _ _ H). rewrite En in Hi.
  rewrite (world_name p k w i H Hi), Hb in Ei. by eapply Hnone.
Qed.

Lemma kernel_close k w fd x : kernel_sees k w → 2 <= fd → zget (w_fds w) fd = Some x → x ≠ Closed →
  gives kernel_sees (ece391_close fd k) 0 (with_desc fd Closed w).
Proof.
  intros [p H] Hle Hfd Hne. destruct (file_of p k w fd x H Hfd) as (Hr & d & Hd & Hx).
  pose proof (iw_sys _ _ _ H) as Hsys.
  exists (with_fd fd (FileDesc (ptrs d) (inode d) (file_pos d) NOT_IN_USE) p k). split.
  - change (ece391_close fd k) with (close fd k). unfold close, MIN_FD, MAX_FD.
    rewrite (proj2 (Z.ltb_ge fd 2)), (proj2 (Z.leb_gt 8 fd)) by lia. cbn [orb].
    unfold pcb_at. rewrite (so_pcb _ _ _ _ _ _ Hsys). cbn [must]. rewrite bind_Done. unfold file_at. rewrite Hd. cbn [must]. rewrite bind_Done.
    assert (Ef : flags d = IN_USE) by (destruct x; [done|..]; apply Hx).
    rewrite Ef. change (IN_USE =? NOT_IN_USE) with false. cbv iota.
    unfold set_file. rewrite zset_in by (rewrite (so_files _ _ _ _ _ _ Hsys); lia). cbn [must]. rewrite !bind_Done.
    assert (Ec : call_close (ptrs d) = Done 0); [|by rewrite Ec].
    destruct x; [done|..]; cbn in Hx; [destruct Hx as [_ ->]|destruct Hx as [_ ->]|destruct Hx as (_ & -> & _)|destruct Hx as [_ ->]|destruct Hx as [_ ->]]; done.
  - eexists. by apply (in_world_fd p k w fd _ Closed H).
Qed.

Lemma kernel_bytes k w : kernel_sees k w → mem_ok (w_mem w).
Proof. intros [p H]. apply (iw_bytes _ _ _ H). Qed.
Lemma kernel_descs k w : kernel_sees k w → length (w_fds w) = 8%nat.
Proof.
  intros [p H]. rewrite <- (Forall2_length (iw_fds _ _ _ H)). apply (so_files _ _ _ _ _ _ (iw_sys _ _ _ H)).
Qed.

(** The kernel keeps every promise of the interface. *)
Definition kernel_promises : Promises kernel := {|
  sees := kernel_sees;
  arguments := a;
  node_of := image_node fine m0 f0;
  listing := image_names m0 f0;
  sees_bytes := kernel_bytes;
  sees_descs := kernel_descs;
  user_seen := kernel_user_seen;
  poke_seen := kernel_poke;
  getargs_text := kernel_getargs;
  getargs_none := kernel_getargs_none;
  open_regular := kernel_open_regular;
  open_directory := kernel_open_directory;
  open_missing := kernel_open_missing;
  open_full := kernel_open_full;
  read_file := kernel_read_file;
  read_name := kernel_read_name;
  read_names_end := kernel_read_end;
  write_text := kernel_write;
  close_desc := kernel_close |}.
End promises.

(** * Programs in a process *)

(** Process [id] of terminal [tid] as [execute] leaves it, with the arguments
    [a] after [nb] blanks. *)
Record fresh (dir_addr table_addr vidmem_addr id tid : Z) (nb : nat) (a : list Z) (k : kernel) (p : pcb_t) : Prop := Fresh {
  fr_sys : sys_ok dir_addr table_addr vidmem_addr id k p;
  fr_files : ∃ old, length old = 8%nat ∧ files p = init_files old;
  fr_tid : get_terminal_id (pid p) k = tid ∧ 0 <= tid < 3;
  fr_args : argument p = argument_array (replicate nb 32 ++ a) ∧ Z.of_nat (nb + length a) < ARG_MAX;
  fr_text : Forall (λ c, 0 < c < 256) a ∧ head a ≠ Some 32 ∧ (nb = 0%nat ↔ a = []);
  fr_con : 0 <= current_terminal (k_con k) < 3 ∧ length (terminal_info (k_con k)) = 3%nat;
  fr_texts : ∀ t s, text_of (k_con k) t = Some s → ts_ok s;
  fr_apart : outside_text (fs_addr (k_fs k)) (image_end (k_fs k) - fs_addr (k_fs k));
  fr_next : 0 <= dir_location (k_fs k) <= num_dentries (k_fs k) }.

Definition start_world (id : Z) (k : kernel) : world :=
  World (λ x, k_mem k (user_phys id x)) ([Stdin; Stdout] ++ replicate 6 Closed) (dir_location (k_fs k)) [].
Definition start_text (k : kernel) (t : Z) : tscreen := default (abs_video (k_con k)) (text_of (k_con k) t).

(** From [k] to [k'] the process wrote [bs] on terminal [tid] and changed no
    memory of its own outside the [n] bytes at [buf], nor the image. *)
Record wrote (id tid buf n : Z) (bs : list Z) (k k' : kernel) : Prop := Wrote {
  wr_text : ∃ s s', text_of (k_con k) tid = Some s ∧ text_of (k_con k') tid = Some s' ∧ s' ≡ ts_print (attrib tid) s bs;
  wr_others : ∀ t, 0 <= t < 3 → t ≠ tid → ∃ s s', text_of (k_con k) t = Some s ∧ text_of (k_con k') t = Some s' ∧ s' ≡ s;
  wr_image : ∀ x, fs_addr (k_fs k) <= x < image_end (k_fs k) → k_mem k' x = k_mem k x;
  wr_memory : ∀ x, user_buf x 1 → x < buf ∨ buf + n <= x → k_mem k' (user_phys id x) = k_mem k (user_phys id x) }.

Section in_process.
Context (dir_addr table_addr vidmem_addr magics : Z) (stack_dentry : dentry_t).
Context (typed : Z → console * Z → console * Z) (ticks : Z → nat) (child : Z → Z → kernel → out (Z * kernel)).
Context (Hlink : linked dir_addr table_addr vidmem_addr).
Context (k : kernel) (p : pcb_t) (id tid : Z) (nb : nat) (a : list Z).
Context (H : fresh dir_addr table_addr vidmem_addr id tid nb a k p).
Context (devices : world → kernel → Prop) (Hdevices : ∀ w w' k k', undisturbed w w' k k' → devices w k → devices w' k').

Lemma fresh_text t : 0 <= t < 3 → text_of (k_con k) t = Some (start_text k t).
Proof.
  intros Ht. unfold start_text, text_of. destruct (t =? _); [done|].
  destruct (zget_is_Some (terminal_info (k_con k)) t) as [x Hx]; [rewrite (proj2 (fr_con _ _ _ _ _ _ _ _ _ H)); lia|]. by rewrite Hx.
Qed.
Lemma fresh_text_ok t : 0 <= t < 3 → ts_ok (start_text k t).
Proof. intros Ht. by apply (fr_texts _ _ _ _ _ _ _ _ _ H t), fresh_text. Qed.
Lemma fresh_args : Forall (λ c, c ≠ 0) a ∧ Forall is_u8 a.
Proof.
  destruct (fr_text _ _ _ _ _ _ _ _ _ H) as (Ha & _). split; (eapply list.Forall_impl; [exact Ha|]); cbn; intros c Hc; [lia|split; lia].
Qed.

Definition sees_here : kernel → world → Prop :=
  kernel_sees dir_addr table_addr vidmem_addr id tid (k_mem k) (k_fs k) (eq (start_text k)) nb a devices.

Lemma fresh_sees_world starts mw : starts (start_text k) → mem_ok mw → (∀ x, user_buf x 1 → mw x = k_mem k (user_phys id x)) →
  devices (with_wmem mw (start_world id k)) k →
  kernel_sees dir_addr table_addr vidmem_addr id tid (k_mem k) (k_fs k) starts nb a devices k (with_wmem mw (start_world id k)).
Proof.
  intros Hst Hmw Hpage Hdev. exists p. destruct H as [H1 (old & Ho & Ef) [H3 H3'] [H4 H4'] H5 H6 H7 H8 H9]. split; try done.
  - cbn. by destruct (k_fs k).
  - rewrite Ef. unfold init_files. cbn [w_fds start_world app]. repeat (constructor; [done|]). clear -Ho.
    do 2 (destruct old as [|? old]; [done|]). cbn [drop]. do 6 (destruct old as [|? old]; [done|]; constructor; [done|]).
    destruct old; [constructor|done].
  - intros x Hx. symmetry. by apply Hpage.
  - exists (start_text k). split; [done|]. intros t Ht. exists (start_text k t). split; [by apply fresh_text|]. unfold text_after. by case_match.
Qed.
Lemma fresh_sees : devices (start_world id k) k → sees_here k (start_world id k).
Proof.
  intros Hdev. apply (fresh_sees_world _ (w_mem (start_world id k))); [done| |done|done].
  intros x. apply (im_bytes _ _ (so_image _ _ _ _ _ _ (fr_sys _ _ _ _ _ _ _ _ _ H))).
Qed.

Definition promises_from (starts : (Z → tscreen) → Prop) (Hstarts : ∀ s0, starts s0 → ∀ t, 0 <= t < 3 → ts_ok (s0 t))
    (fine : Z → bool) (Hfine : ∀ i, fine i = true → inode_ok (k_mem k) (k_fs k) i) :
    @Promises kernel (kernel_calls dir_addr table_addr vidmem_addr magics stack_dentry typed ticks child) :=
  let sys := fr_sys _ _ _ _ _ _ _ _ _ H in
  kernel_promises dir_addr table_addr vidmem_addr magics stack_dentry typed ticks child Hlink id tid
    (proj2 (fr_tid _ _ _ _ _ _ _ _ _ H)) (k_mem k) (k_fs k) (so_image _ _ _ _ _ _ sys) (so_dir _ _ _ _ _ _ sys)
    (proj2 (so_low _ _ _ _ _ _ sys)) (fr_apart _ _ _ _ _ _ _ _ _ H) fine Hfine starts Hstarts nb a
    (proj1 fresh_args) (proj1 (proj2 (fr_text _ _ _ _ _ _ _ _ _ H))) (proj2 (fr_args _ _ _ _ _ _ _ _ _ H))
    (proj2 (proj2 (fr_text _ _ _ _ _ _ _ _ _ H))) devices Hdevices (proj2 fresh_args).
Lemma fresh_start_ok s0 : start_text k = s0 → ∀ t, 0 <= t < 3 → ts_ok (s0 t).
Proof. intros <-. exact fresh_text_ok. Qed.
Definition promises_here : ∀ fine, (∀ i, fine i = true → inode_ok (k_mem k) (k_fs k) i) →
    @Promises kernel (kernel_calls dir_addr table_addr vidmem_addr magics stack_dentry typed ticks child) :=
  promises_from (eq (start_text k)) fresh_start_ok.

Lemma sees_wrote k' w' buf n : sees_here k' w' → only_in buf (buf + n) (w_mem (start_world id k)) (w_mem w') →
  wrote id tid buf n (w_out w') k k'.
Proof.
  intros [q Hq] Hm. pose proof (proj2 (fr_tid _ _ _ _ _ _ _ _ _ H)) as Ht. destruct (iw_text _ _ _ _ _ _ _ _ _ _ _ _ _ _ Hq) as (s0 & <- & Htext). split.
  - destruct (Htext tid Ht) as (s & Es & Hs). exists (start_text k tid), s.
    split_and!; [by apply fresh_text|done|]. rewrite Hs. unfold text_after. by rewrite Z.eqb_refl.
  - intros t Htr Hne. destruct (Htext t Htr) as (s & Es & Hs). exists (start_text k t), s.
    split_and!; [by apply fresh_text|done|]. rewrite Hs. unfold text_after. by rewrite (proj2 (Z.eqb_neq _ _) Hne).
  - apply (iw_image _ _ _ _ _ _ _ _ _ _ _ _ _ _ Hq).
  - intros x Hx Hout. rewrite (iw_page _ _ _ _ _ _ _ _ _ _ _ _ _ _ Hq x Hx). by apply Hm.
Qed.
End in_process.

(** A program that reads neither the terminal nor the clock needs to know
    nothing of them. *)
Definition any_devices (w : world) (k : kernel) : Prop := True.
Lemma any_kept w w' k k' : undisturbed w w' k k' → any_devices w k → any_devices w' k'.
Proof. done. Qed.

(** What cat prints and returns: the file its argument names. *)
Definition cat_result (m : mem) (f : fs) (a : list Z) : Z * list Z :=
  if decide (a = []) then (3, line "could not read arguments") else
  match entry_of m f a with
  | None => (2, line "file not found")
  | Some i => (0, contents m f (entry_inode m f i))
  end.

(** cat on the kernel.  Run in any process that [execute] has started,
    displayed or not, with its buffer in its own memory, cat finishes: without
    an argument it prints a message and returns 3, for a name that is not in
    the directory it prints a message and returns 2, and for the name of a
    well-formed regular file it returns 0 and its terminal shows what printing
    the bytes of that file shows.  The other terminals' texts, the image and
    the program's memory outside its buffer are as before. *)
Theorem cat_on_kernel (dir_addr table_addr vidmem_addr magics : Z) (stack_dentry : dentry_t)
    (typed : Z → console * Z → console * Z) (ticks : Z → nat) (child : Z → Z → kernel → out (Z * kernel))
    (Hlink : linked dir_addr table_addr vidmem_addr) (k : kernel) (p : pcb_t) (id tid : Z) (nb : nat) (a : list Z)
    (H : fresh dir_addr table_addr vidmem_addr id tid nb a k p) (rodata : list Z → Z) (buf : Z) (Hbuf : user_buf buf 1024)
    (Hmsg : ∀ m, m = line "could not read arguments" ∨ m = line "file not found" → message rodata buf 1024 (start_world id k) m)
    (Hfile : ∀ i, entry_of (k_mem k) (k_fs k) a = Some i →
      entry_type (k_mem k) (k_fs k) i = REGULAR_FILE ∧ inode_ok (k_mem k) (k_fs k) (entry_inode (k_mem k) (k_fs k) i)) :
  let '(r, printed) := cat_result (k_mem k) (k_fs k) a in
  ∃ k', @cat kernel (kernel_calls dir_addr table_addr vidmem_addr magics stack_dentry typed ticks child) rodata buf k = Done (r, k') ∧
    wrote id tid buf 1024 printed k k'.
Proof.
  set (cl := kernel_calls dir_addr table_addr vidmem_addr magics stack_dentry typed ticks child).
  set (fine := λ ino, match entry_of (k_mem k) (k_fs k) a with Some i => ino =? entry_inode (k_mem k) (k_fs k) i | None => false end).
  assert (Hfine : ∀ ino, fine ino = true → inode_ok (k_mem k) (k_fs k) ino).
  { intros ino. unfold fine. destruct (entry_of _ _ a) as [i|]; [|done]. intros ->%Z.eqb_eq. by apply Hfile. }
  pose (pr := promises_here dir_addr table_addr vidmem_addr magics stack_dentry typed ticks child Hlink k p id tid nb a H any_devices any_kept fine Hfine).
  pose proof (fresh_sees _ _ _ k p id tid nb a H any_devices I) as Hs.
  assert (Hlen : Z.of_nat (length a) < 1024).
  { pose proof (proj2 (fr_args _ _ _ _ _ _ _ _ _ H)). unfold ARG_MAX in *. lia. }
  destruct (fresh_args _ _ _ k p id tid nb a H) as [Hnz _].
  assert (Hfinish : ∀ r (w' : world) bs, gives (@sees _ _ pr) (@cat kernel cl rodata buf k) r w' → w_out w' = bs →
    only_in buf (buf + 1024) (w_mem (start_world id k)) (w_mem w') →
    ∃ k', @cat kernel cl rodata buf k = Done (r, k') ∧ wrote id tid buf 1024 bs k k').
  { intros r w' bs (k' & E & Hk') <- Ho. exists k'. split; [exact E|].
    by apply (sees_wrote dir_addr table_addr vidmem_addr k p id tid nb a H any_devices). }
  unfold cat_result. destruct (decide (a = [])) as [Ea|Ea].
  - eapply Hfinish; [apply (@cat_no_arguments _ _ pr)| |]; eauto using only_in_refl.
  - assert (Hnode : @node_of _ _ pr a = image_node fine (k_mem k) (k_fs k) a) by done. unfold image_node in Hnode.
    destruct (entry_of (k_mem k) (k_fs k) a) as [i|] eqn:Ei; cbn in Hnode.
    + destruct (Hfile i eq_refl) as [Et Hino]. rewrite Et in Hnode. change (REGULAR_FILE =? REGULAR_FILE) with true in Hnode.
      assert (Ef : fine (entry_inode (k_mem k) (k_fs k) i) = true) by (unfold fine; apply Z.eqb_refl). rewrite Ef in Hnode. cbn in Hnode.
      destruct (@cat_prints_file _ _ pr rodata k (start_world id k) buf Hs Hbuf eq_refl Ea Hnz Hlen _ 2 Hnode)
        as (w' & Hw & _ & [Hm _ Ho]); [|done|by eapply Hfinish].
      pose proof (file_size_range _ _ (so_image _ _ _ _ _ _ (fr_sys _ _ _ _ _ _ _ _ _ H)) (entry_inode (k_mem k) (k_fs k) i)) as [? ?].
      unfold contents, file_slice. rewrite length_fmap, length_seqZ. lia.
    + eapply Hfinish; [apply (@cat_missing_file _ _ pr)| |]; eauto. apply named_only.
Qed.

(** What ls prints and returns: a line for every name of the directory. *)
Definition ls_result (m : mem) (f : fs) : Z * list Z :=
  match entry_of m f (lit ".") with
  | None => (2, line "directory open failed")
  | Some _ => (0, lines (image_names m f))
  end.

(** ls on the kernel.  Run in any process that [execute] has started on
    an image whose names are not empty, ls finishes: it returns 0 and its
    terminal shows what printing every name of the directory once, in order
    and on a line of its own, shows; without an entry "." it prints a message
    and returns 2.  The other terminals' texts, the image and the program's
    memory outside its buffer are as before. *)
Theorem ls_on_kernel (dir_addr table_addr vidmem_addr magics : Z) (stack_dentry : dentry_t)
    (typed : Z → console * Z → console * Z) (ticks : Z → nat) (child : Z → Z → kernel → out (Z * kernel))
    (Hlink : linked dir_addr table_addr vidmem_addr) (k : kernel) (p : pcb_t) (id tid : Z) (nb : nat) (a : list Z)
    (H : fresh dir_addr table_addr vidmem_addr id tid nb a k p) (rodata : list Z → Z) (buf : Z) (Hbuf : user_buf buf 33)
    (Hmsg : ∀ m, m = lit "." ∨ m = line "directory open failed" → string_at (start_world id k) (rodata m) m)
    (Hdot : ∀ i, entry_of (k_mem k) (k_fs k) (lit ".") = Some i → entry_type (k_mem k) (k_fs k) i = DIR_TYPE)
    (Hnames : ∀ i, 0 <= i < num_dentries (k_fs k) → entry_name (k_mem k) (k_fs k) i ≠ []) :
  let '(r, printed) := ls_result (k_mem k) (k_fs k) in
  ∃ k', @ls kernel (kernel_calls dir_addr table_addr vidmem_addr magics stack_dentry typed ticks child) rodata buf k = Done (r, k') ∧
    wrote id tid buf 33 printed k k'.
Proof.
  set (cl := kernel_calls dir_addr table_addr vidmem_addr magics stack_dentry typed ticks child).
  pose (pr := promises_here dir_addr table_addr vidmem_addr magics stack_dentry typed ticks child Hlink k p id tid nb a H any_devices any_kept
    (λ _, false) (λ i (E : false = true), ltac:(discriminate E))).
  pose proof (fresh_sees _ _ _ k p id tid nb a H any_devices I) as Hs. pose proof (fr_sys _ _ _ _ _ _ _ _ _ H) as Hsys.
  assert (Hnode : @node_of _ _ pr (lit ".") = image_node (λ _, false) (k_mem k) (k_fs k) (lit ".")) by done. unfold image_node in Hnode.
  unfold ls_result. destruct (entry_of (k_mem k) (k_fs k) (lit ".")) as [i|] eqn:Ei; cbn [fmap option_fmap option_map] in Hnode.
  - rewrite (Hdot i eq_refl), andb_false_r in Hnode. change (DIR_TYPE =? DIR_TYPE) with true in Hnode.
    pose proof (dir_count _ _ (so_dir _ _ _ _ _ _ Hsys)).
    assert (Hd : 0 <= num_dentries (k_fs k)) by apply (image_counts _ _ (so_image _ _ _ _ _ _ Hsys)).
    destruct (@ls_lists _ _ pr rodata buf 2 (start_world id k) Hbuf ltac:(lia) eq_refl) with (st := k)
      as (w' & (k' & E & Hk') & _ & [Hm _ Ho]); [| |done| |done|done|].
    + change (@listing _ _ pr) with (image_names (k_mem k) (k_fs k)). apply Forall_fmap, list.Forall_forall. intros x Hx.
      apply elem_of_seqZ in Hx. cbn. split.
      * destruct (entry_name _ _ x) eqn:En; [|cbn; lia]. by destruct (Hnames x ltac:(lia)).
      * apply (name_length _ _ _ (so_image _ _ _ _ _ _ Hsys) (so_dir _ _ _ _ _ _ Hsys)). lia.
    + change (@listing _ _ pr) with (image_names (k_mem k) (k_fs k)). unfold image_names. rewrite length_fmap, length_seqZ. lia.
    + apply Hmsg. by left.
    + exists k'. split; [exact E|]. change (w_out (start_world id k)) with (@nil Z) in Ho. rewrite app_nil_l in Ho.
      change (@listing _ _ pr) with (image_names (k_mem k) (k_fs k)) in Ho. rewrite <- Ho.
      by apply (sees_wrote dir_addr table_addr vidmem_addr k p id tid nb a H any_devices).
  - destruct (@ls_no_directory _ _ pr rodata buf (start_world id k)) with (st := k) as (k' & E & Hk'); eauto.
    exists k'. split; [exact E|].
    apply (sees_wrote dir_addr table_addr vidmem_addr k p id tid nb a H any_devices k' (print _ (start_world id k))); [exact Hk'|apply only_in_refl].
Qed.

(** * Witnesses: process 1, started with the argument "ab" *)
Definition rodata11 (m : list Z) : Z :=
  if decide (m = line "could not read arguments") then 0x8060000 else if decide (m = lit ".") then 0x8060200
  else if decide (m = line "directory open failed") then 0x8060180 else 0x8060100.
Definition mem11 : mem :=
  blit (blit (blit (blit mem2 (user_phys 1 0x8060000) (line "could not read arguments" ++ [0]))
    (user_phys 1 0x8060100) (line "file not found" ++ [0])) (user_phys 1 0x8060200) (lit "." ++ [0]))
    (user_phys 1 0x8060180) (line "directory open failed" ++ [0]).
Definition pcb11 : pcb_t :=
  Pcb (init_files (replicate 8 (FileDesc None 0 0 0))) 1 0 0 0 0 0 (argument_array [32; 97; 98]) 0x3F signal_default.
Definition kernel11 : kernel := set_pcb (get_pcb_by_index 1) pcb11 (set_mem mem11 kernel2).

Lemma mem11_image x : fs_addr img_fs <= x < image_end img_fs → mem11 x = img x.
Proof.
  intros Hx. change (image_end img_fs) with 0x705000 in Hx.
  unfold mem11, mem2. rewrite !blit_out; [done|left; unfold user_phys, EIGHT_MB_SIZE, FOUR_MB_SIZE, _128_MB_SIZE; lia..].
Qed.
Lemma console1_texts m t s : text_of (with_mem (λ _, m) console1) t = Some s → ts_ok s.
Proof.
  unfold text_of. case_match; [intros [= <-]; apply console1_ok|].
  destruct (zget (terminal_info (with_mem (λ _, m) console1)) t) as [i|] eqn:Ei; [|done]. intros [= <-].
  apply zget_Some in Ei as [_ Ei]. change (terminal_info (with_mem (λ _, m) console1)) with (terminal_info console1) in Ei.
  destruct (Z.to_nat t) as [|[|[|]]]; [injection Ei as <-; split_and!; cbn; unfold NUM_COLS, NUM_ROWS; lia..|done].
Qed.
(** A string in the memory a process starts with. *)
Lemma start_string id k x l : user_buf x (Z.of_nat (length l) + 1) → Forall (λ c, c ≠ 0) l →
  bytes_of (mview (k_mem k) (user_phys id x)) (Z.of_nat (length l) + 1) = l ++ [0] → string_at (start_world id k) x l.
Proof.
  intros Hx Hnz Hb. split; [done|done|]. intros i v Hv. rewrite <- Hb in Hv. pose proof Hv as [Hi Hl%lookup_lt_Some]%zget_Some.
  pose proof (length_bytes_of (mview (k_mem k) (user_phys id x)) (Z.of_nat (length l) + 1) ltac:(lia)).
  rewrite zget_bytes_of in Hv by lia. injection Hv as <-. cbn. unfold user_phys. f_equal. lia.
Qed.
Lemma kernel11_fresh : fresh 0x500000 0x501000 0x502000 1 1 1 [97; 98] kernel11 pcb11.
Proof.
  split.
  - split; [| |by vm_compute|apply tables1_rep|reflexivity|reflexivity].
    + apply (image_ok_frame img mem11 img_fs img_ok mem11_image). unfold mem11, mem2.
      repeat (apply mem_ok_blit; [|by repeat (constructor; [split; vm_compute; done|]); constructor]). apply img_ok.
    + apply (dir_ok_frame img mem11 img_fs img_ok img_dir_ok mem11_image).
  - by exists (replicate 8 (FileDesc None 0 0 0)).
  - split; [by vm_compute|lia].
  - split; [done|by vm_compute].
  - split_and!; [repeat constructor; lia|done|done].
  - split; [by vm_compute|done].
  - apply console1_texts.
  - right. by vm_compute.
  - by vm_compute.
Qed.

Lemma kernel11_entry : entry_of (k_mem kernel11) (k_fs kernel11) [97; 98] = Some 1.
Proof. by vm_compute. Qed.
Lemma kernel11_message m off : rodata11 m = 0x8060000 + off → 0 <= off <= 0x200 → Z.of_nat (length m) < 0x100 → Forall (λ c, c ≠ 0) m →
  bytes_of (mview mem11 (user_phys 1 (rodata11 m))) (Z.of_nat (length m) + 1) = m ++ [0] →
  message rodata11 0x8050000 1024 (start_world 1 kernel11) m.
Proof.
  intros Er Hoff Hlen Hnz Hb. split; [|right; lia]. apply (start_string 1 kernel11); [split_and!; unfold _128_MB_SIZE, FOUR_MB_SIZE; lia|done|done].
Qed.

Lemma cat_on_kernel_witness :
  ∃ k', @cat kernel (kernel_calls 0x500000 0x501000 0x502000 0x503000 (replicate 64 0) (λ _ x, x) (λ _, O) (λ _ _ k, Done (0, k)))
      rodata11 0x8050000 kernel11 = Done (0, k') ∧
    wrote 1 1 0x8050000 1024 (contents mem11 img_fs 0) kernel11 k'.
Proof.
  pose proof (cat_on_kernel 0x500000 0x501000 0x502000 0x503000 (replicate 64 0) (λ _ x, x) (λ _, O) (λ _ _ k, Done (0, k)) linked0
    kernel11 pcb11 1 1 1 [97; 98] kernel11_fresh rodata11 0x8050000) as E.
  unfold cat_result in E. rewrite kernel11_entry in E.
  assert (Ei : entry_inode (k_mem kernel11) (k_fs kernel11) 1 = 0) by by vm_compute. rewrite Ei in E.
  apply E; clear E.
  - split_and!; by vm_compute.
  - intros m [-> | ->].
    + apply (kernel11_message _ 0); [reflexivity|lia|by vm_compute|by (vm_compute; repeat constructor)|by vm_compute].
    + apply (kernel11_message _ 0x100); [reflexivity|lia|by vm_compute|by (vm_compute; repeat constructor)|by vm_compute].
  - intros i [= <-]. split; [by vm_compute|]. rewrite Ei.
    apply (inode_ok_frame img mem11 img_fs img_ok mem11_image). exact img_inode_ok.
Defined.

Lemma ls_on_kernel_witness :
  ∃ k', @ls kernel (kernel_calls 0x500000 0x501000 0x502000 0x503000 (replicate 64 0) (λ _ x, x) (λ _, O) (λ _ _ k, Done (0, k)))
      rodata11 0x8050000 kernel11 = Done (0, k') ∧
    wrote 1 1 0x8050000 33 [46; 10; 97; 98; 10] kernel11 k'.
Proof.
  pose proof (ls_on_kernel 0x500000 0x501000 0x502000 0x503000 (replicate 64 0) (λ _ x, x) (λ _, O) (λ _ _ k, Done (0, k)) linked0
    kernel11 pcb11 1 1 1 [97; 98] kernel11_fresh rodata11 0x8050000) as E.
  assert (Er : ls_result (k_mem kernel11) (k_fs kernel11) = (0, [46; 10; 97; 98; 10])) by by vm_compute. rewrite Er in E.
  apply E; clear E.
  - split_and!; by vm_compute.
  - intros m [-> | ->].
    + apply (kernel11_message _ 0x200); [reflexivity|lia|by vm_compute|by (vm_compute; repeat constructor)|by vm_compute].
    + apply (kernel11_message _ 0x180); [reflexivity|lia|by vm_compute|by (vm_compute; repeat constructor)|by vm_compute].
  - intros i Hi. assert (Ei : entry_of (k_mem kernel11) (k_fs kernel11) (lit ".") = Some 0) by by vm_compute.
    rewrite Ei in Hi. injection Hi as <-. by vm_compute.
  - intros i Hi. change (num_dentries (k_fs kernel11)) with 2 in Hi. assert (i = 0 ∨ i = 1) as [-> | ->] by lia; by vm_compute.
Defined.
