(* ===== verification/Grep.v ===== *)
(** The grep program of src/syscalls/ece391grep.c: its buffering of a file by
    blocks and lines, and the theorem that it prints exactly the lines that
    contain the pattern. *)
From Stdlib Require Import String.
From S2P Require Import Prelude Memory Strings Console Filesystem Kernel Syscall User Programs.

Definition BUFSIZE : Z := 1024.

Section program.
Context `{Syscalls St}.
Context (rodata : list Z → Z).

(** The end of the line that starts at [line_start]. *)
Definition find_end (data last line_start : Z) (st : St) : out Z :=
  orun (λ line_end,
    if line_end <? last then
      during (peek (data + line_end) st) (λ c, if negb (10 =? c) then inl (line_end + 1) else inr (Done line_end))
    else inr (Done line_end)) line_start.

(** The search of one line, which prints it at the first match.  The pattern
    is an array of [char], which is signed. *)
Definition search_step (s s_len fname data line_start line_end : Z) (st : St) (check : Z) : Z + out St :=
  if negb (check <? line_end) then inr (Done st) else
  during (peek s st) (λ c0, during (peek (data + check) st) (λ c,
  if negb (i8 c0 =? c) then inl (check + 1) else
  during (ece391_strncmp (at_ st (data + check)) (at_ st s) s_len) (λ r,
  if negb (0 =? r) then inl (check + 1) else
  inr (st ← ece391_fdputs 1 fname st; st ← puts rodata (lit ":") st;
       st ← ece391_fdputs 1 (data + line_start) st; puts rodata [10] st)))).
Definition search_line (s s_len fname data line_start line_end : Z) (st : St) : out St :=
  orun (search_step s s_len fname data line_start line_end st) line_start.

(** The lines of the first [last] bytes of [data]; the result is the new [last]. *)
Definition scan_step (s s_len fname data last cnt : Z) (ls : Z * St) : Z * St + out (Z * St) :=
  let '(line_start, st) := ls in
  during (find_end data last line_start st) (λ line_end,
  during (peek (data + line_end) st) (λ c,
  if negb (10 =? c) && negb (0 =? cnt) && negb (line_start =? 0) then
    inr (st ← poke (data + line_end) 0 st; st ← copy_string data (data + line_start) st; Done (last - line_start, st))
  else
    during (poke (data + line_end) 0 st) (λ st,
    during (search_line s s_len fname data line_start line_end st) (λ st,
    let line_start := line_end + 1 in
    if last <=? line_start then inr (Done (0, st)) else inl (line_start, st))))).
Definition scan (s s_len fname data last cnt : Z) (st : St) : out (Z * St) :=
  orun (scan_step s s_len fname data last cnt) (0, st).

Definition file_step (s s_len fname data fd : Z) (ls : Z * St) : Z * St + out (Z * St) :=
  let '(last, st) := ls in
  during (ece391_read fd (data + last) (BUFSIZE - last) st) (λ '(cnt, st),
  if -1 =? cnt then inr (st ← puts rodata (line "file read failed") st; Done (-1, st)) else
  during (scan s s_len fname data (last + cnt) cnt st) (λ '(last, st),
  if 0 =? cnt then inr (Done (0, st)) else inl (last, st))).

(** [data] is the address of the local array. *)
Definition do_one_file (s fname data : Z) (st : St) : out (Z * St) :=
  s_len ← ece391_strlen (at_ st s);
  '(fd, st) ← ece391_open fname st;
  if -1 =? fd then st ← puts rodata (line "file open failed") st; Done (-1, st) else
  '(r, st) ← orun (file_step s s_len fname data fd) (0, st);
  if -1 =? r then Done (-1, st) else
  '(r, st) ← ece391_close fd st;
  if -1 =? r then st ← puts rodata (line "file close failed") st; Done (-1, st) else
  Done (0, st).

Definition name_step (search data buf fd : Z) (st : St) : St + out (Z * St) :=
  during (ece391_read fd buf (SBUFSIZE - 1) st) (λ '(cnt, st),
  if 0 =? cnt then inr (Done (0, st)) else
  if -1 =? cnt then inr (st ← puts rodata (line "directory entry read failed") st; Done (3, st)) else
  during (peek buf st) (λ c,
  if 46 =? c then inl st else
  during (poke (buf + cnt) 0 st) (λ st,
  during (do_one_file search buf data st) (λ '(r, st),
  if negb (0 =? r) then inr (Done (3, st)) else inl st)))).

(** [buf] and [search] are the addresses of the local arrays of [main]. *)
Definition grep (buf search data : Z) (st : St) : out (Z * St) :=
  '(r, st) ← ece391_getargs search BUFSIZE st;
  if negb (0 =? r) then st ← puts rodata (line "could not read argument") st; Done (3, st) else
  '(fd, st) ← ece391_open (rodata (lit ".")) st;
  if -1 =? fd then st ← puts rodata (line "directory open failed") st; Done (2, st) else
  orun (name_step search data buf fd) st.
End program.

(** * The reference: lines that contain the pattern *)
Fixpoint split_lines (cur l : list Z) : list (list Z) :=
  match l with
  | [] => [cur]
  | c :: l => if c =? 10 then cur :: split_lines [] l else split_lines (cur ++ [c]) l
  end.
Definition contains (pat l : list Z) : bool :=
  match pat with
  | [] => false
  | _ => existsb (λ i, bool_decide (take (length pat) (drop i l) = pat)) (seq 0 (length l))
  end.
Definition found (pat name l : list Z) : list Z := if contains pat l then name ++ [58] ++ l ++ [10] else [].
Definition grep_file (pat name c : list Z) : list Z := concat (found pat name <$> split_lines [] c).

Definition no_newline (l : list Z) : Prop := Forall (λ c, c ≠ 10) l.
Lemma split_newline l r : no_newline l → ∀ cur, split_lines cur (l ++ 10 :: r) = (cur ++ l) :: split_lines [] r.
Proof.
  induction 1 as [|c l Hc _ IH]; intros cur; cbn [app split_lines]; [by rewrite Z.eqb_refl, app_nil_r|].
  rewrite (proj2 (Z.eqb_neq c 10) Hc), IH. by rewrite <- app_assoc.
Qed.
Lemma split_fragment l : no_newline l → ∀ cur, split_lines cur l = [cur ++ l].
Proof.
  induction 1 as [|c l Hc _ IH]; intros cur; cbn [split_lines]; [by rewrite app_nil_r|].
  rewrite (proj2 (Z.eqb_neq c 10) Hc), IH. by rewrite <- app_assoc.
Qed.

(** The first line of a text and the rest. *)
Lemma first_line l : ∃ l1 r, l = l1 ++ r ∧ no_newline l1 ∧ (r = [] ∨ ∃ r', r = 10 :: r').
Proof.
  induction l as [|c l (l1 & r & -> & H1 & H2)]; [by exists [], []; split_and!; [|constructor|left]|].
  destruct (decide (c = 10)) as [->|Hc].
  - exists [], (10 :: l1 ++ r). split_and!; [done|constructor|right; by eexists].
  - exists (c :: l1), r. split_and!; [done|by constructor|done].
Qed.

Section reference.
Context (pat name : list Z).
Lemma grep_file_line l r : no_newline l → grep_file pat name (l ++ 10 :: r) = found pat name l ++ grep_file pat name r.
Proof. intros H. unfold grep_file. by rewrite (split_newline l r H []). Qed.
Lemma grep_file_fragment l : no_newline l → grep_file pat name l = found pat name l.
Proof. intros H. unfold grep_file. rewrite (split_fragment l H []). cbn. by rewrite app_nil_r. Qed.
Lemma found_nil : found pat name [] = [].
Proof. unfold found, contains. by destruct pat. Qed.
Lemma grep_file_nil : grep_file pat name [] = [].
Proof. rewrite grep_file_fragment by constructor. apply found_nil. Qed.
End reference.

Definition short (l : list Z) : Prop := Forall (λ x : list Z, Z.of_nat (length x) < 1024) (split_lines [] l).
Lemma short_line l r : no_newline l → short (l ++ 10 :: r) → short r.
Proof. intros H. unfold short. rewrite (split_newline l r H []). by intros [_ ?]%list.Forall_cons. Qed.

(** A full buffer of a text with short lines holds a newline. *)
Lemma short_has_newline b x : short (b ++ x) → 1024 <= Z.of_nat (length b) → ¬ no_newline b.
Proof.
  intros Hs Hl Hb. destruct (first_line x) as (l & r & -> & Hn & Hr).
  assert (Hbl : no_newline (b ++ l)) by (by apply list.Forall_app).
  assert (Hx : ∃ rest, split_lines [] (b ++ l ++ r) = (b ++ l) :: rest).
  { rewrite app_assoc. destruct Hr as [->|[r' ->]]; [rewrite app_nil_r, (split_fragment _ Hbl []); by eexists|].
    rewrite (split_newline _ _ Hbl []). by eexists. }
  destruct Hx as [rest Hx]. unfold short in Hs. rewrite Hx in Hs. apply list.Forall_cons in Hs as [Hs _].
  rewrite length_app in Hs. lia.
Qed.

Lemma contains_spec pat l : contains pat l = true ↔ pat ≠ [] ∧ ∃ i, (i < length l)%nat ∧ take (length pat) (drop i l) = pat.
Proof.
  unfold contains. destruct pat as [|c pat]; [split; [done|by intros [? _]]|]. rewrite existsb_exists. split.
  - intros (i & Hi & E). apply in_seq in Hi. apply bool_decide_eq_true in E. split; [done|]. exists i. split; [lia|done].
  - intros (_ & i & Hi & E). exists i. rewrite in_seq, bool_decide_eq_true. split; [lia|done].
Qed.

(** A C string begins with another one. *)
Definition reads (s : str) (l : list Z) : Prop := Forall (λ c, c ≠ 0) l ∧ ∀ i v, zget (l ++ [0]) i = Some v → s i = Some v.
Lemma reads_is_cstr s l : reads s l → is_cstr s (Z.of_nat (length l)).
Proof.
  intros [Hl H]. pose proof (lview_cstr l Hl) as (H1 & H2 & H3). split_and!; [done|by apply H|].
  intros i Hi. destruct (H3 i Hi) as (c & Ec & Hc). exists c. split; [by apply H|done].
Qed.
Lemma reads_in s l i : reads s l → (i < length l)%nat → ∃ c, l !! i = Some c ∧ s (Z.of_nat i) = Some c ∧ c ≠ 0.
Proof.
  intros [Hl H] Hi. destruct (lookup_lt_is_Some_2 l i Hi) as [c Hc]. exists c. split_and!; [done| |by apply (list.Forall_lookup_1 _ _ _ _ Hl Hc)].
  apply H, zget_Some. rewrite Nat2Z.id. split; [lia|]. by apply lookup_app_l_Some.
Qed.
Lemma agree_prefix s1 s2 u pat : reads s1 u → reads s2 pat →
  agree s1 s2 (Z.of_nat (length pat)) ↔ take (length pat) u = pat.
Proof.
  intros R1 R2. split.
  - intros Ha. assert (Hpre : ∀ j, (j < length pat)%nat → u !! j = pat !! j).
    { intros j. induction (lt_wf j) as [j _ IH]. intros Hj. destruct (reads_in s2 pat j R2 Hj) as (c & Ec & Es & Hc).
      assert (Es1 : s1 (Z.of_nat j) = Some c).
      { rewrite <- Es. apply Ha; [lia|]. intros i Hi E0. specialize (IH (Z.to_nat i) ltac:(lia) ltac:(lia)).
        destruct (reads_in s2 pat (Z.to_nat i) R2 ltac:(lia)) as (d & Ed & _ & Hd). rewrite Ed in IH.
        destruct (reads_in s1 u (Z.to_nat i) R1) as (e & Ee & Es' & He); [by apply lookup_lt_Some in IH|].
        rewrite Z2Nat.id in Es' by lia. congruence. }
      assert (Hju : (j < length u)%nat).
      { destruct (decide (j < length u)%nat) as [|Hge]; [done|exfalso]. destruct (decide (j = length u)) as [->|Hne].
        - destruct (reads_is_cstr _ _ R1) as (_ & Hz & _). congruence.
        - specialize (IH (length u) ltac:(lia) ltac:(lia)). rewrite lookup_ge_None_2 in IH by lia.
          destruct (lookup_lt_is_Some_2 pat (length u)) as [x Hx]; [lia|congruence]. }
      destruct (reads_in s1 u j R1 Hju) as (d & Ed & Es2 & _). congruence. }
    apply list_eq. intros j. destruct (decide (j < length pat)%nat) as [Hj|Hj].
    + rewrite lookup_take_lt by done. by apply Hpre.
    + rewrite (lookup_ge_None_2 pat) by lia. apply lookup_ge_None_2. rewrite length_take. lia.
  - intros E i Hi _. destruct (reads_in s2 pat (Z.to_nat i) R2 ltac:(lia)) as (c & Ec & Es & _).
    rewrite Z2Nat.id in Es by lia. rewrite Es. rewrite <- E in Ec. rewrite lookup_take_lt in Ec by lia.
    destruct (reads_in s1 u (Z.to_nat i) R1) as (d & Ed & Es1 & _); [by apply lookup_lt_Some in Ec|].
    rewrite Z2Nat.id in Es1 by lia. congruence.
Qed.

(** * The search of a line *)
Section client.
Context `{Promises St}.
Context (rodata : list Z → Z).

Lemma at_reads st w a l : sees st w → string_at w a l → reads (at_ st a) l.
Proof.
  intros Hs [(P1 & P2 & P3) Hl Hb]. split; [done|]. intros i v Hv. unfold at_.
  pose proof Hv as [Hi Hlt%lookup_lt_Some]%zget_Some. rewrite length_app in Hlt. cbn in Hlt.
  rewrite (user_seen st w _ Hs) by (split_and!; lia). f_equal. by apply Hb.
Qed.
Lemma string_suffix w a l i : string_at w a l → 0 <= i <= Z.of_nat (length l) → string_at w (a + i) (drop (Z.to_nat i) l).
Proof.
  intros [(P1 & P2 & P3) Hl Hb] Hi. split.
  - rewrite length_drop. split_and!; lia.
  - by apply Forall_drop.
  - rewrite <- (take_drop (Z.to_nat i) l), <- app_assoc in Hb. apply holds_app in Hb as [_ Hb].
    rewrite length_take in Hb. by replace (Z.of_nat (Z.to_nat i `min` length l)) with i in Hb by lia.
Qed.

Section file.
(** The pattern, the name, and the array [data], apart from them. *)
Context (s fname data : Z) (pat name : list Z).
Context (Hdata : user_buf data 1025) (Hascii : ∀ c, head pat = Some c → c < 128).

Record grep_env (w : world) : Prop := GrepEnv {
  ge_pat : string_at w s pat ∧ (s + Z.of_nat (length pat) + 1 <= data ∨ data + 1025 <= s);
  ge_name : string_at w fname name ∧ (fname + Z.of_nat (length name) + 1 <= data ∨ data + 1025 <= fname);
  ge_colon : message rodata data 1025 w (lit ":");
  ge_newline : message rodata data 1025 w [10];
  ge_stdout : zget (w_fds w) 1 = Some Stdout }.
Lemma grep_env_frame w w' : grep_env w → only_in data (data + 1025) (w_mem w) (w_mem w') →
  zget (w_fds w') 1 = Some Stdout → grep_env w'.
Proof.
  intros [[H1 D1] [H2 D2] [H3 D3] [H4 D4] _] Ho Hf. split; [..|done];
    (split; [eapply string_outside; [exact Ho| |eassumption]; lia|done]).
Qed.

Lemma find_end_spec st w ls l r last : sees st w → holds (w_mem w) (data + ls) (l ++ r) → no_newline l →
  (r = [] ∨ ∃ r', r = 10 :: r') → 0 <= ls → last = ls + Z.of_nat (length l) + Z.of_nat (length r) → last <= 1024 →
  find_end data last ls st = Done (ls + Z.of_nat (length l)).
Proof.
  intros Hs Hb Hl Hr Hls Hlast H1024. destruct Hdata as (D1 & D2 & D3).
  apply (orun_done _ (λ e, ls <= e <= ls + Z.of_nat (length l)) _ (λ e, ls + Z.of_nat (length l) - e)); [|lia|lia].
  intros e He. assert (Hpeek : ∀ c, (l ++ r) !! Z.to_nat (e - ls) = Some c → peek (data + e) st = Done c).
  { intros c Hc. unfold peek. rewrite (user_seen st w _ Hs) by (split_and!; lia). cbn. f_equal.
    replace (data + e) with (data + ls + (e - ls)) by lia. apply Hb, zget_Some. split; [lia|done]. }
  destruct (decide (e = ls + Z.of_nat (length l))) as [->|Hne].
  - destruct Hr as [->|[r' ->]]; cbn [length] in *.
    + rewrite (proj2 (Z.ltb_ge _ _)) by lia. done.
    + rewrite (proj2 (Z.ltb_lt _ _)) by lia. rewrite (Hpeek 10); [done|].
      replace (Z.to_nat (ls + Z.of_nat (length l) - ls)) with (length l + 0)%nat by lia. by rewrite lookup_app_r, Nat.add_sub_swap, Nat.sub_diag by lia.
  - rewrite (proj2 (Z.ltb_lt _ _)) by lia. destruct (lookup_lt_is_Some_2 l (Z.to_nat (e - ls))) as [c Hc]; [lia|].
    rewrite (Hpeek c) by by apply lookup_app_l_Some. cbn [during].
    pose proof (list.Forall_lookup_1 _ _ _ _ Hl Hc) as Hc10. cbn in Hc10. rewrite (proj2 (Z.eqb_neq 10 c)) by lia. cbn. lia.
Qed.

Lemma print_print bs1 bs2 w : print bs2 (print bs1 w) = print (bs1 ++ bs2) w.
Proof. unfold print. cbn. by rewrite app_assoc. Qed.
Lemma print_nil w : print [] w = w.
Proof. unfold print. rewrite app_nil_r. by destruct w. Qed.
Lemma string_print w a l bs : string_at w a l → string_at (print bs w) a l.
Proof. by intros []. Qed.

(** The four writes of a match. *)
Lemma found_printed st w ls l : sees st w → grep_env w → string_at w (data + ls) l →
  ∃ st', (st ← ece391_fdputs 1 fname st; st ← puts rodata (lit ":") st;
       st ← ece391_fdputs 1 (data + ls) st; puts rodata [10] st) = Done st' ∧ sees st' (print (name ++ [58] ++ l ++ [10]) w).
Proof.
  intros Hs [_ [Hn _] [Hc _] [Hnl _] Ho] Hl.
  destruct (fdputs_seen st w fname name Hs Hn Ho) as (st1 & -> & Hs1). rewrite bind_Done.
  destruct (puts_seen rodata st1 _ (lit ":") Hs1 (string_print _ _ _ _ Hc) Ho) as (st2 & -> & Hs2). rewrite bind_Done.
  destruct (fdputs_seen st2 _ (data + ls) l Hs2 (string_print _ _ _ _ (string_print _ _ _ _ Hl)) Ho) as (st3 & -> & Hs3). rewrite bind_Done.
  destruct (puts_seen rodata st3 _ [10] Hs3 (string_print _ _ _ _ (string_print _ _ _ _ (string_print _ _ _ _ Hnl))) Ho) as (st4 & -> & Hs4).
  exists st4. split; [done|]. by rewrite !print_print in Hs4.
Qed.

Lemma search_line_spec st w ls l : sees st w → grep_env w → string_at w (data + ls) l →
  ∃ st', search_line rodata s (Z.of_nat (length pat)) fname data ls (ls + Z.of_nat (length l)) st = Done st' ∧
    sees st' (print (found pat name l) w).
Proof.
  intros Hs Henv Hl. pose proof (ge_pat _ Henv) as [Hp _]. pose proof (string_short _ _ _ Hl) as Hshort.
  set (le := ls + Z.of_nat (length l)).
  apply (orun_index _ (λ n check, check = le - n ∧ n <= Z.of_nat (length l) ∧
      ∀ i, (Z.of_nat i < check - ls) → (pat ≠ [] → take (length pat) (drop i l) ≠ pat)) _ (Z.of_nat (length l))); [|lia|].
  2: { split_and!; [unfold le; lia|lia|lia]. }
  intros n check Hn (-> & Hnl & Hno). unfold search_step. destruct (Z.ltb_spec (le - n) le) as [Hlt|Hge]; cbn [negb].
  2: { exists st. split; [done|]. unfold found. destruct (contains pat l) eqn:Ec; [|by rewrite print_nil].
       apply contains_spec in Ec as (Hpn & i & Hi & Ei). by destruct (Hno i ltac:(unfold le; lia) Hpn). }
  set (i := Z.to_nat (Z.of_nat (length l) - n)).
  assert (Hsuf : string_at w (data + (le - n)) (drop i l)).
  { replace (data + (le - n)) with (data + ls + (Z.of_nat (length l) - n)) by (unfold le; lia). apply string_suffix; [done|lia]. }
  destruct (lookup_lt_is_Some_2 l i) as [c Hc]; [unfold i; lia|].
  assert (Hpeek : peek (data + (le - n)) st = Done c).
  { unfold peek. destruct (at_reads st w _ _ Hs Hsuf) as [_ Hr]. specialize (Hr 0 c). unfold at_ in Hr. rewrite Z.add_0_r in Hr.
    rewrite Hr; [done|]. apply zget_Some. split; [done|]. apply lookup_app_l_Some. by rewrite lookup_drop, Nat.add_0_r. }
  assert (Hpeek0 : ∃ c0, peek s st = Done c0 ∧ is_u8 c0 ∧ (pat = [] → c0 = 0) ∧ (pat ≠ [] → head pat = Some c0)).
  { destruct (at_reads st w _ _ Hs Hp) as [_ Hr]. exists (default 0 (head pat)). unfold peek. specialize (Hr 0 (default 0 (head pat))).
    unfold at_ in Hr. rewrite Z.add_0_r in Hr. assert (E : user st s = Some (default 0 (head pat))) by (apply Hr; by destruct pat).
    rewrite E. split; [done|]. split; [|by destruct pat].
    rewrite (user_seen st w s Hs) in E by (destruct Hp as [(?&?&?) _ _]; split_and!; lia). injection E as <-. by apply (sees_bytes st w Hs). }
  destruct Hpeek0 as (c0 & -> & Hu & Hc0 & Hc0'). cbn [during]. rewrite Hpeek. cbn [during].
  assert (Hcn : c ≠ 0) by (eapply (list.Forall_lookup_1 _ _ _ _ (sa_text _ _ _ Hl)); exact Hc).
  assert (Hi8 : i8 c0 = c0).
  { destruct (decide (pat = [])) as [->|Hpn]; [by rewrite (Hc0 eq_refl)|]. pose proof (Hascii c0 (Hc0' Hpn)).
    unfold i8. rewrite u8_id by done. destruct Hu. zcase. }
  rewrite Hi8.
  (* what going on means *)
  assert (Hon : (pat ≠ [] → take (length pat) (drop i l) ≠ pat) → ∃ n' : Z, 0 <= n' < n ∧ (le - n + 1 = le - n' ∧ n' <= Z.of_nat (length l) ∧
    ∀ j, Z.of_nat j < le - n + 1 - ls → pat ≠ [] → take (length pat) (drop j l) ≠ pat)).
  { intros Hi. exists (n - 1). split; [lia|]. split_and!; [lia|lia|]. intros j Hj Hpn.
    destruct (decide (j = i)) as [->|]; [by apply Hi|]. apply Hno; [|done]. unfold le, i in *. lia. }
  destruct (Z.eqb_spec c0 c) as [->|Hne]; cbn [negb].
  2: { apply Hon. intros Hpn E. apply Hne. specialize (Hc0' Hpn). rewrite <- E in Hc0'. destruct pat as [|x pat']; [done|].
       assert (Ed : drop i l = c :: drop (S i) l) by by apply drop_S. rewrite Ed in Hc0'. cbn in Hc0'. by injection Hc0'. }
  pose proof (at_reads st w _ _ Hs Hsuf) as R1. pose proof (at_reads st w _ _ Hs Hp) as R2.
  pose proof (string_short _ _ _ Hp).
  destruct (ece391_strncmp_spec _ _ _ _ (Z.of_nat (length pat)) (reads_is_cstr _ _ R1) (reads_is_cstr _ _ R2)) as (r & -> & Hr); [lia|].
  rewrite (agree_prefix _ _ _ _ R1 R2) in Hr. cbn [during]. destruct (Z.eqb_spec 0 r) as [E0|E0]; cbn [negb].
  2: { apply Hon. intros _ E. apply E0. symmetry. by apply Hr. }
  destruct (decide (pat = [])) as [->|Hpn]; [by destruct Hcn, Hc0|].
  assert (Ef : found pat name l = name ++ [58] ++ l ++ [10]).
  { unfold found. rewrite (proj2 (contains_spec pat l)); [done|]. split; [done|]. exists i. split; [unfold i; lia|]. by apply Hr. }
  rewrite Ef. by apply found_printed.
Qed.

(** * The lines of a buffer *)
Section scan.
Context (w : world) (Henv : grep_env w) (B X : list Z) (cnt last : Z).
Context (Hlast : last = Z.of_nat (length B)) (H1024 : last <= 1024).
Context (HX : X = [] ∨ last = 1024 ∧ ¬ no_newline B) (Hcnt : cnt = 0 → X = []).

(** What [out] was printed and what text [T] is left, in the memory [m]. *)
Record scanned (T out : list Z) (m : mem) : Prop := Scanned {
  sn_only : only_in data (data + 1025) (w_mem w) m;
  sn_text : Forall (λ c, c ≠ 0) T;
  sn_past : m (data + 1024) ≠ 10;
  sn_out : grep_file pat name (B ++ X) = out ++ grep_file pat name (T ++ X);
  sn_short : short (T ++ X) }.
Definition scan_inv (n : Z) (ls : Z * St) : Prop :=
  let '(line_start, st) := ls in
  line_start = last - n ∧ n <= last ∧ ∃ T out m, sees st (print out (with_wmem m w)) ∧ scanned T out m ∧
    holds m (data + line_start) T ∧ Z.of_nat (length T) = n ∧ (line_start = 0 → T = B).
Definition scan_post (r : Z * St) : Prop :=
  let '(last', st) := r in
  ∃ rest out m, last' = Z.of_nat (length rest) ∧ last' < 1024 ∧ sees st (print out (with_wmem m w)) ∧
    scanned rest out m ∧ holds m data rest ∧ no_newline rest ∧ (cnt = 0 → rest = []).

Lemma env_here out m : only_in data (data + 1025) (w_mem w) m → grep_env (print out (with_wmem m w)).
Proof. intros Ho. apply (grep_env_frame w); [done|done|apply Henv]. Qed.

(** A line, closed with a NUL where it ends, is searched. *)
Lemma close_line st out m ls l : sees st (print out (with_wmem m w)) → only_in data (data + 1025) (w_mem w) m →
  holds m (data + ls) l → Forall (λ c, c ≠ 0) l → 0 <= ls → ls + Z.of_nat (length l) <= 1024 →
  ∃ st1, poke (data + (ls + Z.of_nat (length l))) 0 st = Done st1 ∧
    let m1 := store8 m (data + (ls + Z.of_nat (length l))) 0 in
    sees st1 (print out (with_wmem m1 w)) ∧ only_in data (data + 1025) (w_mem w) m1 ∧
    string_at (print out (with_wmem m1 w)) (data + ls) l ∧
    ∃ st2, search_line rodata s (Z.of_nat (length pat)) fname data ls (ls + Z.of_nat (length l)) st1 = Done st2 ∧
      sees st2 (print (out ++ found pat name l) (with_wmem m1 w)).
Proof.
  intros Hs Ho Hb Hl Hls Hlen. destruct Hdata as (D1 & D2 & D3).
  destruct (poke_seen st _ (data + (ls + Z.of_nat (length l))) 0 Hs) as (st1 & E1 & Hs1); [split_and!; lia|].
  exists st1. split; [exact E1|]. cbv zeta.
  change (sees st1 (print out (with_wmem (store8 m (data + (ls + Z.of_nat (length l))) 0) w))) in Hs1. split; [exact Hs1|].
  assert (Ho1 : only_in data (data + 1025) (w_mem w) (store8 m (data + (ls + Z.of_nat (length l))) 0)).
  { eapply only_in_trans; [exact Ho|]. apply only_in_upd. lia. }
  split; [exact Ho1|].
  assert (Hstr : string_at (print out (with_wmem (store8 m (data + (ls + Z.of_nat (length l))) 0) w)) (data + ls) l).
  { split; [split_and!; lia|done|]. apply holds_app. cbn [w_mem print with_wmem]. split.
    - eapply holds_outside; [apply (only_in_upd (data + (ls + Z.of_nat (length l))) (data + (ls + Z.of_nat (length l)) + 1)); lia|lia|exact Hb].
    - intros i v [Hi Hv]%zget_Some. apply list_lookup_singleton_Some in Hv as [Hi0 <-]. assert (i = 0) as -> by lia.
      unfold store8, upd. replace (data + ls + Z.of_nat (length l) + 0) with (data + (ls + Z.of_nat (length l))) by lia. by rewrite Z.eqb_refl. }
  split; [exact Hstr|].
  destruct (search_line_spec st1 _ ls l Hs1 (env_here out _ Ho1) Hstr) as (st2 & E2 & Hs2). exists st2. split; [exact E2|].
  by rewrite print_print in Hs2.
Qed.

Lemma past_kept m a : data <= a <= data + 1024 → m (data + 1024) ≠ 10 → store8 m a 0 (data + 1024) ≠ 10.
Proof. intros Ha Hm. unfold store8, upd. case_match; [done|exact Hm]. Qed.

(** What remains to be done after a line, after the last one, and when an
    unfinished one has been moved to the front; [m1] differs by a NUL. *)
Lemma scanned_line l r out m m1 : scanned (l ++ 10 :: r) out m → no_newline l → only_in data (data + 1025) (w_mem w) m1 →
  m1 (data + 1024) ≠ 10 → scanned r (out ++ found pat name l) m1.
Proof.
  intros [_ HT _ Hout Hshort] Hl Ho Hp. apply list.Forall_app in HT as [HTl HTr]. apply list.Forall_cons in HTr as [_ HTr]. split; [done|done|done| |].
  - rewrite Hout, <- app_assoc. cbn [app]. rewrite grep_file_line by done. by rewrite app_assoc.
  - rewrite <- app_assoc in Hshort. cbn [app] in Hshort. by apply short_line in Hshort.
Qed.
Lemma scanned_end l out m m1 : scanned l out m → no_newline l → X = [] → only_in data (data + 1025) (w_mem w) m1 →
  m1 (data + 1024) ≠ 10 → scanned [] (out ++ found pat name l) m1.
Proof.
  intros [_ HT _ Hout Hshort] Hl HX0 Ho Hp. split; [done|constructor|done| |].
  - rewrite Hout, HX0, !app_nil_r, grep_file_fragment, grep_file_nil, app_nil_r by done. done.
  - rewrite HX0. unfold short. cbn. repeat constructor.
Qed.
Lemma scanned_kept l out m m1 : scanned l out m → only_in data (data + 1025) (w_mem w) m1 → m1 (data + 1024) ≠ 10 → scanned l out m1.
Proof. intros [_ HT _ Hout Hshort] Ho Hp. by split. Qed.

Lemma scan_spec st : sees st w → holds (w_mem w) data B → Forall (λ c, c ≠ 0) B → short (B ++ X) → w_mem w (data + 1024) ≠ 10 →
  ∃ r, scan rodata s (Z.of_nat (length pat)) fname data last cnt st = Done r ∧ scan_post r.
Proof.
  intros Hs Hb Hnz Hsh Hpast. unfold scan. apply (orun_index _ scan_inv _ last); [|lia|].
  2: { split_and!; [lia|lia|]. exists B, [], (w_mem w). split_and!; [by rewrite print_nil, with_wmem_id| | |done|done].
       - by split.
       - by rewrite Z.add_0_r. }
  clear st Hs. intros n [ls st] Hn (-> & Hnl & T & out & m & Hs & Hsc & Hh & HTn & HTB). pose proof Hsc as [Ho HT Hp _ _].
  destruct (first_line T) as (l & r & -> & Hl & Hr). rewrite length_app in HTn.
  pose proof Hh as Hlr. apply holds_app in Hlr as [Hhl Hhr]. apply list.Forall_app in HT as [HTl HTr].
  unfold scan_step.
  rewrite (find_end_spec st _ (last - n) l r last Hs Hh Hl Hr) by lia. cbn [during].
  set (e := last - n + Z.of_nat (length l)).
  assert (Hpeek : peek (data + e) st = Done (m (data + e))).
  { unfold peek. destruct Hdata as (D1 & D2 & D3). rewrite (user_seen st _ (data + e) Hs) by (unfold e; split_and!; lia). done. }
  rewrite Hpeek. cbn [during].
  destruct (close_line st out m (last - n) l Hs Ho Hhl HTl) as (st1 & E1 & Hs1 & Ho1 & Hstr & st2 & E2 & Hs2); [lia|lia|].
  fold e in E1, Hs1, Ho1, Hstr, E2, Hs2. destruct Hr as [->|[r' ->]].
  - (* the last piece *)
    rewrite app_nil_r in *. cbn [length] in HTn. assert (He : e = last) by (unfold e; lia).
    destruct (negb (10 =? m (data + e)) && negb (0 =? cnt) && negb (last - n =? 0)) eqn:Ec.
    + apply andb_true_iff in Ec as [[_ Ecn%negb_true_iff%Z.eqb_neq]%andb_true_iff Els%negb_true_iff%Z.eqb_neq]. rewrite E1, bind_Done.
      destruct (copy_string_seen st1 _ data (data + (last - n)) l Hs1 Hstr) as (st3 & m3 & E3 & Hs3 & Hh3 & Ho3); [lia|apply Hdata|].
      rewrite E3, bind_Done. eexists. split; [reflexivity|]. exists l, out, m3. split_and!; [lia|lia|exact Hs3| | |done|by intros ->].
      * apply (scanned_kept l out m); [done| |rewrite Ho3 by lia; apply past_kept; [unfold e; lia|done]].
        eapply only_in_trans; [exact Ho1|]. eapply only_in_weaken; [| |exact Ho3]; lia.
      * by apply holds_app in Hh3 as [Hh3 _].
    + assert (HX0 : X = []).
      { destruct HX as [|[E1024 Hbn]]; [done|]. destruct (decide (cnt = 0)) as [|Hcn]; [by apply Hcnt|exfalso].
        rewrite He, E1024, (proj2 (Z.eqb_neq 10 _)), (proj2 (Z.eqb_neq 0 _)) in Ec by congruence. cbn in Ec.
        apply negb_false_iff, Z.eqb_eq in Ec. apply Hbn. rewrite <- HTB by lia. done. }
      rewrite E1. cbn [during]. rewrite E2. cbn [during]. rewrite (proj2 (Z.leb_le _ _)) by lia.
      eexists. split; [reflexivity|]. exists [], (out ++ found pat name l), (store8 m (data + e) 0).
      split_and!; [done|lia|exact Hs2| |apply holds_nil|constructor|done].
      apply (scanned_end l out m); [done..|]. apply past_kept; [unfold e; lia|done].
  - (* a whole line *)
    cbn [length] in HTn. assert (E10 : m (data + e) = 10).
    { replace (data + e) with (data + (last - n) + Z.of_nat (length l) + 0) by (unfold e; lia). by apply Hhr. }
    rewrite E10. change (negb (10 =? 10)) with false. cbn [andb]. rewrite E1. cbn [during]. rewrite E2. cbn [during].
    assert (Hsc' : scanned r' (out ++ found pat name l) (store8 m (data + e) 0)).
    { apply (scanned_line l r' out m); [done..|]. apply past_kept; [unfold e; lia|done]. }
    assert (Hhr' : holds (store8 m (data + e) 0) (data + (e + 1)) r').
    { eapply holds_outside; [apply (only_in_upd (data + e) (data + e + 1)); lia|lia|].
      change (10 :: r') with ([10] ++ r') in Hhr. apply holds_app in Hhr as [_ Hhr]. cbn [length] in Hhr.
      by replace (data + (e + 1)) with (data + (last - n) + Z.of_nat (length l) + Z.of_nat 1) by (unfold e; lia). }
    destruct (Z.leb_spec last (e + 1)) as [Hge|Hlt].
    + assert (r' = []) as -> by (apply length_zero_iff_nil; unfold e in *; lia).
      eexists. split; [reflexivity|]. eexists [], _, _. split_and!; [done|lia|exact Hs2|exact Hsc'|apply holds_nil|constructor|done].
    + exists (n - Z.of_nat (length l) - 1). split; [lia|]. split_and!; [unfold e; lia|lia|].
      eexists r', _, _. split_and!; [exact Hs2|exact Hsc'|exact Hhr'|lia|unfold e; lia].
Qed.
End scan.

(** * A whole file *)
Section whole.
Context (w0 : world) (Henv : grep_env w0) (fd : Z) (c : list Z) (Hfd : 2 <= fd < 8).
Context (Hlen : Z.of_nat (length c) < 2 ^ 32) (Hnz : Forall (λ x, x ≠ 0) c) (Hshort : short c).

(** The world when [pos] bytes have been read and [out] was printed. *)
Definition in_file (m : mem) (pos : Z) (out : list Z) : world := print out (with_desc fd (File c pos) (with_wmem m w0)).
Lemma in_file_next m m1 pos pos1 out out1 :
  print out1 (with_wmem m1 (with_desc fd (File c pos1) (with_wmem m (in_file m pos out)))) = in_file m1 pos1 (out ++ out1).
Proof. unfold in_file, print, with_desc, with_wmem. cbn. by rewrite list_insert_insert_eq, app_assoc. Qed.

Record carried (n : Z) (pos : Z) (rest out : list Z) (m : mem) : Prop := Carried {
  cr_pos : 0 <= pos ∧ n = Z.of_nat (length c) - pos;
  cr_len : Z.of_nat (length rest) < 1024;
  cr_only : only_in data (data + 1025) (w_mem w0) m;
  cr_held : holds m data rest;
  cr_text : no_newline rest ∧ Forall (λ x, x ≠ 0) rest;
  cr_past : m (data + 1024) ≠ 10;
  cr_out : grep_file pat name c = out ++ grep_file pat name (rest ++ drop (Z.to_nat pos) c);
  cr_short : short (rest ++ drop (Z.to_nat pos) c) }.
Definition file_inv (n : Z) (ls : Z * St) : Prop :=
  let '(last, st) := ls in ∃ pos rest out m, last = Z.of_nat (length rest) ∧ sees st (in_file m pos out) ∧ carried n pos rest out m.
Definition file_post (r : Z * St) : Prop :=
  let '(v, st) := r in v = 0 ∧ ∃ m, sees st (in_file m (Z.of_nat (length c)) (grep_file pat name c)) ∧
    only_in data (data + 1025) (w_mem w0) m ∧ m (data + 1024) ≠ 10.

(** A block read behind [rest]: what it holds, and why it is full or the last. *)
Lemma block_read rest pos : 0 <= pos <= Z.of_nat (length c) → Z.of_nat (length rest) < 1024 → short (rest ++ drop (Z.to_nat pos) c) →
  let bs := take (Z.to_nat (1024 - Z.of_nat (length rest))) (drop (Z.to_nat pos) c) in
  let cnt := Z.of_nat (length bs) in let X := drop (Z.to_nat (pos + cnt)) c in
  cnt = Z.min (1024 - Z.of_nat (length rest)) (Z.of_nat (length c) - pos) ∧ (rest ++ bs) ++ X = rest ++ drop (Z.to_nat pos) c ∧
  (X = [] ∨ Z.of_nat (length rest) + cnt = 1024 ∧ ¬ no_newline (rest ++ bs)).
Proof.
  intros Hpos Hrl Hsh bs cnt X.
  assert (Ecnt : cnt = Z.min (1024 - Z.of_nat (length rest)) (Z.of_nat (length c) - pos)) by (unfold cnt, bs; rewrite length_take, length_drop; lia).
  assert (Hsplit : (rest ++ bs) ++ X = rest ++ drop (Z.to_nat pos) c).
  { rewrite <- app_assoc. f_equal. unfold X, bs.
    rewrite <- (take_drop (Z.to_nat (1024 - Z.of_nat (length rest))) (drop (Z.to_nat pos) c)) at 2. f_equal. rewrite drop_drop.
    destruct (Z.le_ge_cases (1024 - Z.of_nat (length rest)) (Z.of_nat (length c) - pos)).
    - f_equal. lia.
    - rewrite !drop_ge by lia. done. }
  split_and!; [done|done|]. destruct (Z.le_gt_cases (Z.of_nat (length c)) (pos + cnt)); [left; apply drop_ge; lia|right]. split; [lia|].
  apply (short_has_newline _ X); [by rewrite Hsplit|rewrite length_app; lia].
Qed.

Lemma file_loop st m0 : sees st (in_file m0 0 []) → only_in data (data + 1025) (w_mem w0) m0 → m0 (data + 1024) ≠ 10 →
  ∃ r, orun (file_step rodata s (Z.of_nat (length pat)) fname data fd) (0, st) = Done r ∧ file_post r.
Proof.
  intros Hs Ho Hp. apply (orun_index _ file_inv _ (Z.of_nat (length c))); [|lia|].
  2: { exists 0, [], [], m0. split; [done|]. split; [done|]. split; [lia|done|done|apply holds_nil|by split; constructor|done|done|exact Hshort]. }
  clear st m0 Hs Ho Hp. intros n [last st] Hn (pos & rest & out & m & -> & Hs & [[Hpos ->] Hrl Ho Hh [Hrn Hrz] Hp Hout Hsh]).
  pose proof (sees_descs _ _ Hs) as H8. cbn in H8. rewrite length_insert in H8. pose proof Hdata as (D1 & D2 & D3).
  assert (Hget : zget (w_fds (in_file m pos out)) fd = Some (File c pos)) by (cbn; apply zget_insert_eq; lia).
  unfold file_step, BUFSIZE.
  destruct (read_file st _ fd c pos (data + Z.of_nat (length rest)) (1024 - Z.of_nat (length rest)) Hs Hget) as (st1 & -> & Hs1);
    [split_and!; lia|lia|]. cbn [during].
  destruct (block_read rest pos ltac:(lia) Hrl Hsh) as (Ecnt & Hsplit & HX).
  set (bs := take _ (drop (Z.to_nat pos) c)) in *. set (cnt := Z.of_nat (length bs)) in *. set (X := drop (Z.to_nat (pos + cnt)) c) in *.
  rewrite (proj2 (Z.eqb_neq (-1) cnt)) by lia.
  match type of Hs1 with sees _ ?x => set (w1 := x) in * end.
  assert (Ho1 : only_in data (data + 1025) (w_mem w0) (w_mem w1)).
  { eapply only_in_trans; [exact Ho|]. apply blit_only_in; lia. }
  assert (Henv1 : grep_env w1).
  { apply (grep_env_frame w0); [done|done|]. cbn. rewrite !zget_insert_ne by lia. apply (ge_stdout _ Henv). }
  destruct (scan_spec w1 Henv1 (rest ++ bs) X cnt (Z.of_nat (length rest) + cnt)) with (st := st1)
    as ([last' st2] & -> & rest' & out' & m' & -> & Hl' & Hs2 & [So ST Sp Sout Ssh] & Sh & Sn & S0).
  - rewrite length_app. lia.
  - lia.
  - done.
  - intros E0. apply drop_ge. lia.
  - done.
  - cbn [w_mem w1 with_desc with_wmem]. apply holds_app. split; [|apply holds_blit].
    eapply holds_outside; [apply (blit_only_in _ _ bs (data + Z.of_nat (length rest)) (data + Z.of_nat (length rest) + cnt)); lia|lia|exact Hh].
  - apply list.Forall_app. split; [done|]. unfold bs. by apply Forall_take, Forall_drop.
  - by rewrite Hsplit.
  - cbn [w_mem w1 with_desc with_wmem]. rewrite blit_out by lia. exact Hp.
  - cbn [during]. unfold w1 in Hs2.
    change (with_wmem m' (with_desc fd (File c (pos + cnt)) (with_wmem (blit (w_mem (in_file m pos out)) (data + Z.of_nat (length rest)) bs) (in_file m pos out))))
      with (with_wmem m' (with_desc fd (File c (pos + cnt)) (with_wmem m (in_file m pos out)))) in Hs2.
    rewrite in_file_next in Hs2. rewrite Hsplit in Sout. rewrite Sout, app_assoc in Hout. destruct (Z.eqb_spec 0 cnt) as [E0|E0].
    + eexists. split; [reflexivity|]. split; [done|]. exists m'. assert (HX0 : X = []) by (apply drop_ge; lia).
      rewrite (S0 (eq_sym E0)), HX0 in Hout. cbn [app] in Hout. rewrite grep_file_nil, app_nil_r in Hout. rewrite Hout.
      replace (Z.of_nat (length c)) with (pos + cnt) by lia. split_and!; [exact Hs2|by eapply only_in_trans|done].
    + exists (Z.of_nat (length c) - (pos + cnt)). split; [lia|]. exists (pos + cnt), rest', (out ++ out'), m'.
      split; [done|]. split; [done|]. split; [lia|done|by eapply only_in_trans|done|done|done|done|done].
Qed.
End whole.

(** One call of [do_one_file]: the file is searched and the descriptor free again. *)
Lemma do_one_file_spec st w0 c fd : sees st w0 → grep_env w0 → node_of name = Some (Regular c) → free_desc w0 = Some fd →
  Z.of_nat (length c) < 2 ^ 32 → Forall (λ x, x ≠ 0) c → short c → w_mem w0 (data + 1024) ≠ 10 →
  ∃ st' m, do_one_file rodata s fname data st = Done (0, st') ∧ sees st' (print (grep_file pat name c) (with_wmem m w0)) ∧
    only_in data (data + 1025) (w_mem w0) m ∧ m (data + 1024) ≠ 10.
Proof.
  intros Hs Henv Hnode Hfree Hlen Hnz Hsh Hp. pose proof (free_desc_range st w0 fd Hs Hfree) as Hfd.
  pose proof (sees_descs _ _ Hs) as H8. destruct (ge_pat _ Henv) as [Hpat _]. destruct (ge_name _ Henv) as [Hname _].
  unfold do_one_file. rewrite ece391_strlen_eq, (strlen_spec _ (Z.of_nat (length pat)))
    by (first [by eapply at_string|pose proof (string_short _ _ _ Hpat); lia]). rewrite bind_Done.
  destruct (open_regular st w0 fname name c fd Hs Hname Hnode Hfree) as (st1 & -> & Hs1). rewrite bind_Done.
  rewrite (proj2 (Z.eqb_neq (-1) fd)) by lia.
  destruct (file_loop w0 Henv fd c Hfd Hlen Hnz Hsh st1 (w_mem w0)) as ([r st2] & -> & -> & m & Hs2 & Ho & Hp2); [|apply only_in_refl|done|].
  { unfold in_file. rewrite print_nil, with_wmem_id. exact Hs1. }
  rewrite bind_Done. change (-1 =? 0) with false. cbv iota.
  destruct (close_desc st2 _ fd (File c (Z.of_nat (length c))) Hs2) as (st3 & -> & Hs3); [lia|cbn; apply zget_insert_eq; lia|done|].
  rewrite bind_Done. change (-1 =? 0) with false. cbv iota. exists st3, m. split; [done|]. split; [|done].
  assert (Hcl : w_fds w0 !! Z.to_nat fd = Some Closed).
  { apply free_desc_spec in Hfree as [Hle E]. rewrite lookup_drop in E. by replace (2 + Z.to_nat (fd - 2))%nat with (Z.to_nat fd) in E by lia. }
  assert (Ew : with_desc fd Closed (in_file w0 fd c m (Z.of_nat (length c)) (grep_file pat name c)) = print (grep_file pat name c) (with_wmem m w0)).
  { unfold in_file, print, with_desc, with_wmem. cbn. rewrite list_insert_insert_eq, list_insert_id by done. done. }
  by rewrite Ew in Hs3.
Qed.
End file.

(** * The whole program *)
Definition grep_output (pat : list Z) : list Z :=
  concat ((λ name, match head name, node_of name with
    | Some 46, _ => []
    | _, Some (Regular c) => grep_file pat name c
    | _, _ => []
    end) <$> listing).
(** A name of the directory grep can deal with: hidden, or a text file. *)
Definition greppable (name : list Z) : Prop :=
  0 < Z.of_nat (length name) <= 32 ∧ Forall (λ c, c ≠ 0) name ∧
  (head name = Some 46 ∨ ∃ c, node_of name = Some (Regular c) ∧ Z.of_nat (length c) < 2 ^ 32 ∧ Forall (λ x, x ≠ 0) c ∧ short c).

Section main.
Context (buf search data : Z) (w1 : world) (pat : list Z) (fd fd2 : Z).
Context (Hbuf : user_buf buf 33) (Hdata : user_buf data 1025) (Happ : buf + 33 <= data ∨ data + 1025 <= buf).
Context (Hascii : ∀ c, head pat = Some c → c < 128) (Hnames : Forall greppable listing) (Hcount : Z.of_nat (length listing) < 2 ^ 32).
Context (Hfd : 2 <= fd < 8) (Hdir : zget (w_fds w1) fd = Some Dir) (Hfree : free_desc w1 = Some fd2) (Hstdout : zget (w_fds w1) 1 = Some Stdout).

(** Strings that neither array overlaps stay. *)
Definition away (a : Z) (l : list Z) : Prop :=
  (a + Z.of_nat (length l) + 1 <= buf ∨ buf + 33 <= a) ∧ (a + Z.of_nat (length l) + 1 <= data ∨ data + 1025 <= a).
Context (Hpat : string_at w1 search pat ∧ away search pat).
Context (Hcolon : string_at w1 (rodata (lit ":")) (lit ":") ∧ away (rodata (lit ":")) (lit ":")).
Context (Hnl : string_at w1 (rodata [10]) [10] ∧ away (rodata [10]) [10]).

Definition arrays_only (m m' : mem) : Prop := ∀ x, x < buf ∨ buf + 33 <= x → x < data ∨ data + 1025 <= x → m' x = m x.
Lemma away_string a l w : string_at w1 a l ∧ away a l → arrays_only (w_mem w1) (w_mem w) → string_at w a l.
Proof.
  intros [[H1 H2 H3] [A1 A2]] Ho. split; [done|done|]. intros i v Hv. pose proof Hv as [Hi Hl%lookup_lt_Some]%zget_Some.
  rewrite length_app in Hl. cbn in Hl. rewrite Ho by lia. by apply H3.
Qed.

Definition in_dir (m : mem) (i : Z) (out : list Z) : world := print out (with_next i (with_wmem m w1)).
Definition output_of (names : list (list Z)) : list Z :=
  concat ((λ name, match head name, node_of name with
    | Some 46, _ => [] | _, Some (Regular c) => grep_file pat name c | _, _ => [] end) <$> names).
Definition names_inv (n : Z) (st : St) : Prop :=
  n <= Z.of_nat (length listing) ∧ ∃ m, let i := Z.of_nat (length listing) - n in
    sees st (in_dir m i (output_of (take (Z.to_nat i) listing))) ∧ arrays_only (w_mem w1) m ∧ m (data + 1024) ≠ 10.
Definition names_post (r : Z * St) : Prop :=
  let '(v, st) := r in v = 0 ∧ ∃ m, sees st (in_dir m 0 (grep_output pat)) ∧ arrays_only (w_mem w1) m.

Lemma name_step_ok n st m name : 0 < n → n <= Z.of_nat (length listing) →
  let i := Z.of_nat (length listing) - n in
  zget listing i = Some name → greppable name →
  sees st (in_dir m i (output_of (take (Z.to_nat i) listing))) → arrays_only (w_mem w1) m → m (data + 1024) ≠ 10 →
  ∃ st', name_step rodata search data buf fd st = inl st' ∧ names_inv (n - 1) st'.
Proof.
  intros Hn Hle i Hname ([Hl1 Hl2] & Hz & Hcase) Hs Ho Hp. destruct Hbuf as (B1 & B2 & B3). destruct Hdata as (D1 & D2 & D3).
  unfold name_step. change (SBUFSIZE - 1) with 32.
  destruct (read_name st _ fd buf name Hs Hdir) as (st1 & -> & Hs1); [split_and!; lia|done|]. cbn [during].
  rewrite !(proj2 (Z.eqb_neq _ _)) by lia.
  set (m1 := blit m buf (padded 32 name)). change (sees st1 (in_dir m1 (i + 1) (output_of (take (Z.to_nat i) listing)))) in Hs1.
  assert (Ho1 : arrays_only (w_mem w1) m1).
  { intros x Hx1 Hx2. unfold m1. rewrite blit_out by (rewrite length_padded; lia). by apply Ho. }
  assert (Hp1 : m1 (data + 1024) ≠ 10) by (unfold m1; rewrite blit_out by (rewrite length_padded; lia); done).
  assert (Hheld : holds m1 buf name).
  { destruct (decide (Z.of_nat (length name) < 32)) as [Hlt|].
    - destruct (padded_short 32 name Hlt) as [k Ek]. pose proof (holds_blit m buf (padded 32 name)) as Hh. fold m1 in Hh.
      rewrite Ek, <- app_assoc in Hh. by apply holds_app in Hh as [Hh _].
    - pose proof (holds_blit m buf (padded 32 name)) as Hh. fold m1 in Hh. unfold padded in Hh. rewrite take_ge in Hh by lia. by apply holds_app in Hh as [Hh _]. }
  destruct (lookup_lt_is_Some_2 name 0) as [c0 Hc0]; [lia|]. assert (Hhead : head name = Some c0) by by destruct name.
  assert (Hpeek : peek buf st1 = Done c0).
  { unfold peek. rewrite (user_seen st1 _ buf Hs1) by (split_and!; lia). cbn. f_equal. rewrite <- (Z.add_0_r buf). by apply Hheld. }
  rewrite Hpeek. cbn [during].
  assert (Hnext : ∀ m' st' out, sees st' (in_dir m' (i + 1) (output_of (take (Z.to_nat i) listing) ++ out)) → arrays_only (w_mem w1) m' →
    m' (data + 1024) ≠ 10 → out = output_of [name] → names_inv (n - 1) st').
  { intros m' st' out Hs' Ho' Hp' ->. split; [lia|]. exists m'. cbv zeta. replace (Z.of_nat (length listing) - (n - 1)) with (i + 1) by (unfold i; lia).
    split; [|done]. replace (Z.to_nat (i + 1)) with (S (Z.to_nat i)) by (unfold i; lia). apply zget_Some in Hname as [_ Hname].
    rewrite (take_S_r _ _ _ Hname). unfold output_of in *. by rewrite fmap_app, concat_app. }
  destruct (Z.eqb_spec 46 c0) as [<-|Hne].
  - exists st1. split; [done|]. apply (Hnext m1 st1 []); [by rewrite app_nil_r|done|done|]. unfold output_of. cbn. by rewrite Hhead.
  - destruct Hcase as [E46|(c & Hnode & Hlen & Hnz & Hsh)]; [congruence|].
    destruct (poke_seen st1 _ (buf + Z.of_nat (length name)) 0 Hs1) as (st2 & -> & Hs2); [split_and!; lia|]. cbn [during].
    set (m2 := store8 m1 (buf + Z.of_nat (length name)) 0).
    change (sees st2 (in_dir m2 (i + 1) (output_of (take (Z.to_nat i) listing)))) in Hs2.
    assert (Ho2 : arrays_only (w_mem w1) m2).
    { intros x Hx1 Hx2. unfold m2, store8, upd. rewrite (proj2 (Z.eqb_neq _ _)) by lia. by apply Ho1. }
    assert (Hp2 : m2 (data + 1024) ≠ 10) by (unfold m2, store8, upd; rewrite (proj2 (Z.eqb_neq _ _)) by lia; done).
    assert (Hstr : string_at (in_dir m2 (i + 1) (output_of (take (Z.to_nat i) listing))) buf name).
    { split; [split_and!; lia|done|]. cbn [w_mem in_dir print with_next with_wmem]. apply holds_app. split.
      - eapply holds_outside; [apply (only_in_upd (buf + Z.of_nat (length name)) (buf + Z.of_nat (length name) + 1)); lia|lia|exact Hheld].
      - intros j v [Hj Hv]%zget_Some. apply list_lookup_singleton_Some in Hv as [Hj0 <-]. assert (j = 0) as -> by lia.
        unfold m2, store8, upd. by rewrite Z.add_0_r, Z.eqb_refl. }
    destruct (do_one_file_spec search buf data pat name ltac:(split_and!; lia) Hascii st2 _ c fd2 Hs2) as (st3 & m3 & E3 & Hs3 & Ho3 & Hp3); try done.
    { split; [split; [by apply away_string|apply Hpat]|split; [exact Hstr|lia]|split; [by apply away_string|apply Hcolon]
             |split; [by apply away_string|apply Hnl]|done]. }
    rewrite E3. cbn [during]. change (negb (0 =? 0)) with false. cbv iota. exists st3. split; [done|].
    apply (Hnext m3 st3 (grep_file pat name c)); [|intros x Hx1 Hx2; rewrite Ho3 by lia; by apply Ho2|done|].
    + unfold in_dir. rewrite <- print_print. exact Hs3.
    + unfold output_of. cbn. rewrite Hhead, Hnode, app_nil_r. clear -Hne. by repeat case_match.
Qed.

Lemma names_loop st m : sees st (in_dir m 0 []) → arrays_only (w_mem w1) m → m (data + 1024) ≠ 10 →
  ∃ r, orun (name_step rodata search data buf fd) st = Done r ∧ names_post r.
Proof.
  intros Hs Ho Hp. apply (orun_index _ names_inv _ (Z.of_nat (length listing))); [|lia|].
  2: { split; [lia|]. exists m. rewrite Z.sub_diag. done. }
  clear st m Hs Ho Hp. intros n st Hn (Hle & m & Hs & Ho & Hp). cbv zeta in Hs. destruct (decide (n = 0)) as [->|Hne].
  - rewrite Z.sub_0_r, Nat2Z.id, firstn_all in Hs. unfold name_step. change (SBUFSIZE - 1) with 32.
    destruct (read_names_end st _ fd buf Hs Hdir) as (st1 & -> & Hs1); [destruct Hbuf as (?&?&?); split_and!; lia|done|]. cbn [during].
    eexists. split; [reflexivity|]. split; [done|]. exists m. split; [|done]. exact Hs1.
  - destruct (zget_is_Some listing (Z.of_nat (length listing) - n)) as [name Hname]; [lia|].
    pose proof Hname as [_ Hin]%zget_Some. pose proof (list.Forall_lookup_1 _ _ _ _ Hnames Hin) as Hg.
    destruct (name_step_ok n st m name ltac:(lia) Hle Hname Hg Hs Ho Hp) as (st' & -> & Hinv). exists (n - 1). split; [lia|done].
Qed.
End main.

(** grep from its start. *)
Lemma grep_prints st w buf search data n lo fd fd2 : sees st w → arguments ≠ [] → Forall (λ c, c ≠ 0) arguments →
  Z.of_nat (length arguments) < 1024 → (∀ c, head arguments = Some c → c < 128) →
  user_buf lo n → lo <= buf → buf + 33 <= lo + n → lo <= search → search + 1024 <= lo + n → lo <= data → data + 1025 <= lo + n →
  (buf + 33 <= data ∨ data + 1025 <= buf) → (buf + 33 <= search ∨ search + 1024 <= buf) → (data + 1025 <= search ∨ search + 1024 <= data) →
  Forall greppable listing → Z.of_nat (length listing) < 2 ^ 32 → node_of (lit ".") = Some Directory →
  free_desc w = Some fd → free_desc (with_desc fd Dir w) = Some fd2 → zget (w_fds w) 1 = Some Stdout → w_mem w (data + 1024) ≠ 10 →
  (∀ l, l = lit "." ∨ l = lit ":" ∨ l = [10] → message rodata lo n w l) →
  ∃ w', gives sees (grep rodata buf search data st) 0 w' ∧ w_out w' = w_out w ++ grep_output arguments ∧ only_in lo (lo + n) (w_mem w) (w_mem w').
Proof.
  intros Hs Hne Hnz Hlen Hascii (L1 & L2 & L3) Hb1 Hb2 Hs1 Hs2 Hd1 Hd2 A1 A2 A3 Hnames Hcount Hdot Hfd Hfd2 Hout Hp Hlit.
  pose proof (free_desc_range st w fd Hs Hfd) as Hr. pose proof (sees_descs _ _ Hs) as H8.
  assert (Hbs : user_buf search 1024) by (split_and!; lia). unfold grep, BUFSIZE.
  destruct (getargs_text st w search 1024 Hs Hbs ltac:(lia) Hne) as (st1 & -> & Hst1). rewrite bind_Done.
  change (negb (0 =? 0)) with false. cbv iota. fold (named w search) in Hst1.
  pose proof (named_only w search) as Hno. pose proof (named_string w search Hbs Hnz Hlen) as Hpat.
  assert (Hstr : ∀ l, l = lit "." ∨ l = lit ":" ∨ l = [10] → string_at (named w search) (rodata l) l).
  { intros l Hl. destruct (Hlit l Hl) as [H1 H2]. eapply string_outside; [exact Hno| |exact H1]. lia. }
  destruct (open_directory st1 _ _ _ fd Hst1 (Hstr (lit ".") (or_introl eq_refl)) Hdot Hfd) as (st2 & -> & Hst2). rewrite bind_Done.
  rewrite (proj2 (Z.eqb_neq (-1) fd)) by lia.
  set (w1 := with_desc fd Dir (named w search)).
  assert (Haway : ∀ l, l = lit "." ∨ l = lit ":" ∨ l = [10] → string_at w1 (rodata l) l ∧ away buf data (rodata l) l).
  { intros l Hl. destruct (Hstr l Hl) as [H1 H2 H3]. destruct (Hlit l Hl) as [_ Hout']. split; [by split|]. unfold away. lia. }
  destruct (names_loop buf search data w1 arguments fd fd2) with (st := st2) (m := w_mem w1)
    as ([v st3] & -> & -> & m & Hs3 & Ho3); try done.
  - split_and!; lia.
  - split_and!; lia.
  - cbn. apply zget_insert_eq. lia.
  - cbn. rewrite zget_insert_ne by lia. done.
  - destruct Hpat as [P1 P2 P3]. split; [by split|]. unfold away. lia.
  - apply Haway. by right; left.
  - apply Haway. by right; right.
  - unfold in_dir. rewrite print_nil, with_wmem_id. exact Hst2.
  - cbn [w_mem w1 with_desc]. rewrite Hno by lia. exact Hp.
  - exists (in_dir w1 m 0 (grep_output arguments)). split; [by exists st3|]. split; [done|].
    intros x Hx. cbn [w_mem in_dir print with_next with_wmem]. rewrite Ho3 by lia. cbn [w_mem w1 with_desc]. apply Hno. lia.
Qed.
End client.
