(* ===== verification/Search.v ===== *)
(** grep running in a process of the kernel. *)
From Stdlib Require Import String.
From stdpp Require Import gmap.
From S2P Require Import Prelude Memory Strings Console Filesystem Paging Kernel Terminal Syscall Process User Programs Userland Grep.

(** What grep prints for the pattern [pat]: the matching lines of every file
    whose name does not start with a dot, in the order of the directory. *)
Definition image_grep (m : mem) (f : fs) (pat : list Z) : list Z :=
  concat ((λ name, match head name, entry_of m f name with
    | Some 46, _ => []
    | _, Some i => grep_file pat name (contents m f (entry_inode m f i))
    | _, None => []
    end) <$> image_names m f).

(** A well-formed regular file that is a text with lines of less than 1024 bytes. *)
Record text_file (m : mem) (f : fs) (i : Z) : Prop := TextFile {
  tf_type : entry_type m f i = REGULAR_FILE;
  tf_inode : inode_ok m f (entry_inode m f i);
  tf_text : Forall (λ c, c ≠ 0) (contents m f (entry_inode m f i));
  tf_short : short (contents m f (entry_inode m f i)) }.

Lemma cut0_nonzero l : Forall (λ c, c ≠ 0) (cut0 l).
Proof. induction l as [|c l IH]; [constructor|]. cbn. destruct (Z.eqb_spec c 0); [constructor|by constructor]. Qed.

(** What the kernel's interface says of such an image. *)
Section visible.
Context (m : mem) (f : fs).
Context (Hfiles : ∀ i, 0 <= i < num_dentries f → let name := entry_name m f i in name ≠ [] ∧ (head name = Some 46 ∨ text_file m f i)).

(** The inodes of the visible files. *)
Definition visible (ino : Z) : bool :=
  existsb (λ i, negb (bool_decide (head (entry_name m f i) = Some 46)) && (ino =? entry_inode m f i)) (seqZ 0 (num_dentries f)).
Lemma visible_ok ino : visible ino = true → inode_ok m f ino.
Proof.
  intros (i & Hi & [Hh ->%Z.eqb_eq]%andb_true_iff)%existsb_exists. rewrite <- list_elem_of_In in Hi. apply elem_of_seqZ in Hi.
  apply negb_true_iff, bool_decide_eq_false in Hh. destruct (Hfiles i ltac:(lia)) as [_ [?|Ht]]; [done|]. apply (tf_inode _ _ _ Ht).
Qed.
Lemma visible_node nm i : entry_of m f nm = Some i → head nm ≠ Some 46 →
  text_file m f i ∧ image_node visible m f nm = Some (Regular (contents m f (entry_inode m f i))).
Proof.
  intros Hi Hh. pose proof Hi as (Hr & Hn & _)%entry_of_Some. destruct (Hfiles i Hr) as [_ [?|Ht]]; [congruence|]. split; [done|].
  unfold image_node. rewrite Hi. cbn [fmap option_fmap option_map]. rewrite (tf_type _ _ _ Ht), Z.eqb_refl.
  assert (Ef : visible (entry_inode m f i) = true); [|by rewrite Ef].
  unfold visible. apply existsb_exists. exists i. rewrite <- list_elem_of_In. split; [apply elem_of_seqZ; lia|].
  rewrite Z.eqb_refl, andb_true_r. apply negb_true_iff, bool_decide_eq_false. congruence.
Qed.
End visible.
Lemma entry_found m f i : 0 <= i < num_dentries f → is_Some (entry_of m f (entry_name m f i)).
Proof. intros Hi. destruct (entry_of m f (entry_name m f i)) as [j|] eqn:E; [by eexists|]. rewrite entry_of_None in E. by destruct (E i Hi). Qed.

(** C38. grep on the kernel.  Run in any process started with a pattern whose
    first character is below 128, on an image whose visible files are texts with lines of less than 1024 bytes,
    grep finishes and returns 0, and its terminal shows what printing, for
    every visible file in the order of the directory and every line of it that
    contains the pattern, the name, a colon and that line shows: the 1024-byte
    blocks in which the file is read, and the lines that cross them, do not
    matter.  The other terminals, the image and the program's memory outside
    its arrays stay as they are. *)
Theorem grep_on_kernel (dir_addr table_addr vidmem_addr magics : Z) (stack_dentry : dentry_t)
    (typed : Z → console * Z → console * Z) (ticks : Z → nat) (child : Z → Z → kernel → out (Z * kernel))
    (Hlink : linked dir_addr table_addr vidmem_addr) (k : kernel) (p : pcb_t) (id tid : Z) (nb : nat) (a : list Z)
    (H : fresh dir_addr table_addr vidmem_addr id tid nb a k p) (rodata : list Z → Z) (buf search data lo n : Z)
    (Hpat : a ≠ []) (Hascii : ∀ c, head a = Some c → c < 128) (Hlo : user_buf lo n)
    (Harrays : lo <= buf ∧ buf + 33 <= search ∧ search + 1024 <= data ∧ data + 1025 <= lo + n)
    (Hpast : k_mem k (user_phys id (data + 1024)) ≠ 10)
    (Hlit : ∀ l, l = lit "." ∨ l = lit ":" ∨ l = [10] → message rodata lo n (start_world id k) l)
    (Hdot : ∀ i, entry_of (k_mem k) (k_fs k) (lit ".") = Some i → entry_type (k_mem k) (k_fs k) i = DIR_TYPE)
    (Hhas : is_Some (entry_of (k_mem k) (k_fs k) (lit ".")))
    (Hfiles : ∀ i, 0 <= i < num_dentries (k_fs k) → let name := entry_name (k_mem k) (k_fs k) i in
      name ≠ [] ∧ (head name = Some 46 ∨ text_file (k_mem k) (k_fs k) i)) :
  ∃ k', @grep kernel (kernel_calls dir_addr table_addr vidmem_addr magics stack_dentry typed ticks child) rodata buf search data k = Done (0, k') ∧
    wrote id tid lo n (image_grep (k_mem k) (k_fs k) a) k k'.
Proof.
  set (cl := kernel_calls dir_addr table_addr vidmem_addr magics stack_dentry typed ticks child).
  set (m := k_mem k) in *. set (f := k_fs k) in *.
  pose (pr := promises_here dir_addr table_addr vidmem_addr magics stack_dentry typed ticks child Hlink k p id tid nb a H any_devices any_kept (visible m f) (visible_ok m f Hfiles)).
  pose proof (fresh_sees _ _ _ k p id tid nb a H any_devices I) as Hs. pose proof (fr_sys _ _ _ _ _ _ _ _ _ H) as Hsys.
  destruct (fresh_args _ _ _ k p id tid nb a H) as [Hnz _]. pose proof (proj2 (fr_args _ _ _ _ _ _ _ _ _ H)) as Hlen. unfold ARG_MAX in Hlen.
  assert (Hnode : ∀ nm i, entry_of m f nm = Some i → head nm ≠ Some 46 →
    text_file m f i ∧ @node_of _ _ pr nm = Some (Regular (contents m f (entry_inode m f i)))) by exact (visible_node m f Hfiles).
  destruct (@grep_prints _ _ pr rodata k (start_world id k) buf search data n lo 2 3 Hs) as (w' & (k' & E & Hk') & Ho & Hm); try done; try lia.
  - change (@arguments _ _ pr) with a. lia.
  - change (@listing _ _ pr) with (image_names m f). apply Forall_fmap, list.Forall_forall. intros i Hi. apply elem_of_seqZ in Hi.
    change (greppable (entry_name m f i)). destruct (Hfiles i ltac:(lia)) as [Hne Hcase]. split; [|split].
    + split; [destruct (entry_name m f i); [done|cbn; lia]|]. apply (name_length m f i (so_image _ _ _ _ _ _ Hsys) (so_dir _ _ _ _ _ _ Hsys)). lia.
    + apply cut0_nonzero.
    + destruct (decide (head (entry_name m f i) = Some 46)) as [|Hh]; [by left|right].
      destruct (entry_found m f i ltac:(lia)) as [j Hj]. destruct (Hnode _ j Hj Hh) as [Ht Hn]. eexists. split; [exact Hn|].
      split_and!; [|apply Ht|apply Ht]. pose proof (length_contents m f (entry_inode m f j) (so_image _ _ _ _ _ _ Hsys)) as El.
      pose proof (file_size_range m f (so_image _ _ _ _ _ _ Hsys) (entry_inode m f j)) as [? ?]. lia.
  - change (@listing _ _ pr) with (image_names m f). unfold image_names. rewrite length_fmap, length_seqZ.
    pose proof (dir_count _ _ (so_dir _ _ _ _ _ _ Hsys)). fold f in H0. lia.
  - change (@node_of _ _ pr (lit ".")) with (image_node (visible m f) m f (lit ".")). unfold image_node. destruct Hhas as [i Hi]. rewrite Hi.
    cbn [fmap option_fmap option_map]. by rewrite (Hdot i Hi).
  - exists k'. split; [exact E|]. change (w_out (start_world id k)) with (@nil Z) in Ho. rewrite app_nil_l in Ho.
    assert (Eout : @grep_output _ _ pr (@arguments _ _ pr) = image_grep m f a).
    { unfold grep_output, image_grep. change (@listing _ _ pr) with (image_names m f). change (@arguments _ _ pr) with a. f_equal.
      unfold image_names. rewrite <- !list_fmap_compose. apply list_fmap_ext. intros ? i Hi. apply list_elem_of_lookup_2, elem_of_seqZ in Hi.
      cbn [compose]. destruct (entry_found m f i ltac:(lia)) as [j Hj]. destruct (decide (head (entry_name m f i) = Some 46)) as [Eh|Hh]; [by rewrite Eh|].
      destruct (Hnode _ j Hj Hh) as [_ Hn]. rewrite Hn, Hj. done. }
    rewrite <- Eout, <- Ho. by apply (sees_wrote dir_addr table_addr vidmem_addr k p id tid nb a H any_devices).
Qed.

(** * Witness: process 1, started with the pattern "hi" *)
Definition cells12 : list (Z * Z) :=
  [(0, 2); (4, 2); (8, 2); (64, 46); (96, 1); (128, 97); (129, 98); (160, 2); (4096, 12); (4100, 1);
   (16384, 110); (16385, 111); (16386, 10); (16387, 104); (16388, 105); (16389, 32); (16390, 97); (16391, 10);
   (16392, 98); (16393, 32); (16394, 104); (16395, 105)].
Definition img12 : mem := cell_image cells12.
Definition img12_fs : fs := filesystem_init img12 image_base.
Definition mem12 : mem :=
  blit (blit (blit img12 (user_phys 1 0x8060000) (lit "." ++ [0])) (user_phys 1 0x8060010) (lit ":" ++ [0]))
    (user_phys 1 0x8060020) [10; 0].
Definition rodata12 (l : list Z) : Z :=
  if decide (l = lit ".") then 0x8060000 else if decide (l = lit ":") then 0x8060010 else 0x8060020.
Definition pcb12 : pcb_t :=
  Pcb (init_files (replicate 8 (FileDesc None 0 0 0))) 1 0 0 0 0 0 (argument_array [32; 104; 105]) 0x3F signal_default.
Definition kernel12 : kernel := set_pcb (get_pcb_by_index 1) pcb12 (with_fs img12_fs (set_mem mem12 kernel2)).

Lemma img12_ok : image_ok img12 img12_fs.
Proof. split; [by apply cell_image_bytes|done|done|done]. Qed.
Lemma img12_dir : dir_ok img12 img12_fs.
Proof.
  split; [by vm_compute|]. intros i Hi. change (num_dentries img12_fs) with 2 in Hi.
  assert (i = 0 ∨ i = 1) as [-> | ->] by lia; by vm_compute.
Qed.
Lemma mem12_image x : fs_addr img12_fs <= x < image_end img12_fs → mem12 x = img12 x.
Proof.
  intros Hx. change (image_end img12_fs) with 0x705000 in Hx.
  unfold mem12. rewrite !blit_out; [done|left; unfold user_phys, EIGHT_MB_SIZE, FOUR_MB_SIZE, _128_MB_SIZE; lia..].
Qed.
Lemma img12_inode : inode_ok img12 img12_fs 0.
Proof.
  split; [by vm_compute|by vm_compute|]. intros k Hk. change (file_size img12 img12_fs 0) with 12.
  unfold BLOCKSIZE. intros ?. assert (k = 0) as -> by lia; by vm_compute.
Qed.
Lemma kernel12_fresh : fresh 0x500000 0x501000 0x502000 1 1 1 [104; 105] kernel12 pcb12.
Proof.
  split.
  - split; [| |by vm_compute|apply tables1_rep|reflexivity|reflexivity].
    + apply (image_ok_frame img12 mem12 img12_fs img12_ok mem12_image). unfold mem12.
      repeat (apply mem_ok_blit; [|by repeat (constructor; [split; vm_compute; done|]); constructor]). apply img12_ok.
    + apply (dir_ok_frame img12 mem12 img12_fs img12_ok img12_dir mem12_image).
  - by exists (replicate 8 (FileDesc None 0 0 0)).
  - split; [by vm_compute|lia].
  - split; [done|by vm_compute].
  - split_and!; [repeat constructor; lia|done|done].
  - split; [by vm_compute|done].
  - apply console1_texts.
  - right. by vm_compute.
  - by vm_compute.
Qed.
Lemma kernel12_message l off : rodata12 l = 0x8060000 + off → 0 <= off <= 0x200 → Z.of_nat (length l) < 0x100 → Forall (λ c, c ≠ 0) l →
  bytes_of (mview mem12 (user_phys 1 (rodata12 l))) (Z.of_nat (length l) + 1) = l ++ [0] →
  message rodata12 0x8050000 0x1000 (start_world 1 kernel12) l.
Proof.
  intros Er Hoff Hlen Hnz Hb. split; [|right; lia]. apply (start_string 1 kernel12); [split_and!; unfold _128_MB_SIZE, FOUR_MB_SIZE; lia|done|done].
Qed.

Lemma grep_on_kernel_witness :
  ∃ k', @grep kernel (kernel_calls 0x500000 0x501000 0x502000 0x503000 (replicate 64 0) (λ _ x, x) (λ _, O) (λ _ _ k, Done (0, k)))
      rodata12 0x8050000 0x8050040 0x8050440 kernel12 = Done (0, k') ∧
    wrote 1 1 0x8050000 0x1000 (lit "ab:hi a" ++ [10] ++ lit "ab:b hi" ++ [10]) kernel12 k'.
Proof.
  assert (Eo : image_grep (k_mem kernel12) (k_fs kernel12) [104; 105] = lit "ab:hi a" ++ [10] ++ lit "ab:b hi" ++ [10]) by by vm_compute.
  rewrite <- Eo.
  apply (grep_on_kernel 0x500000 0x501000 0x502000 0x503000 (replicate 64 0) (λ _ x, x) (λ _, O) (λ _ _ k, Done (0, k)) linked0
    kernel12 pcb12 1 1 1 [104; 105] kernel12_fresh).
  - done.
  - intros c [= <-]. lia.
  - split_and!; by vm_compute.
  - lia.
  - assert (Ep : k_mem kernel12 (user_phys 1 (0x8050440 + 1024)) = 9) by (vm_compute; reflexivity). rewrite Ep. lia.
  - intros l [-> | [-> | ->]].
    + apply (kernel12_message _ 0); [reflexivity|lia|by vm_compute|by (vm_compute; repeat constructor)|by vm_compute].
    + apply (kernel12_message _ 0x10); [reflexivity|lia|by vm_compute|by (vm_compute; repeat constructor)|by vm_compute].
    + apply (kernel12_message _ 0x20); [reflexivity|lia|by vm_compute|by (vm_compute; repeat constructor)|by vm_compute].
  - intros i Hi. assert (Ei : entry_of (k_mem kernel12) (k_fs kernel12) (lit ".") = Some 0) by by vm_compute.
    rewrite Ei in Hi. injection Hi as <-. by vm_compute.
  - exists 0. by vm_compute.
  - intros i Hi. change (num_dentries (k_fs kernel12)) with 2 in Hi. cbv zeta. assert (i = 0 ∨ i = 1) as [-> | ->] by lia.
    + split; [by vm_compute|left; by vm_compute].
    + split; [by vm_compute|right]. assert (Ei : entry_inode (k_mem kernel12) (k_fs kernel12) 1 = 0) by by vm_compute.
      split; [by vm_compute|..]; rewrite Ei.
      * apply (inode_ok_frame img12 mem12 img12_fs img12_ok mem12_image). exact img12_inode.
      * vm_compute. by repeat constructor.
      * vm_compute. by repeat constructor.
Defined.
