(* ===== verification/Session.v ===== *)
(** The shell of src/syscalls/ece391shell.c on an abstract terminal session,
    which hands out typed lines and records what is written and executed. *)
From Stdlib Require Import String.
From S2P Require Import Prelude Memory Strings Console Filesystem Kernel Syscall User Programs.

(** * The shell *)
Section programs.
Context `{Syscalls St}.
Context (rodata : list Z → Z).

(** One turn of the loop of ece391shell.c; [buf] is the address of its buffer. *)
Definition shell_turn (buf : Z) (st : St) : St + out (Z * St) :=
  during (puts rodata (lit "391OS> ") st) (λ st,
  during (ece391_read 0 buf (1024 - 1) st) (λ '(cnt, st),
  if -1 =? cnt then inr (st ← puts rodata (line "read from keyboard failed") st; Done (3, st)) else
  during (if 0 <? cnt then c ← peek (buf + (cnt - 1)) st; Done (if 10 =? c then cnt - 1 else cnt) else Done cnt) (λ cnt,
  during (poke (buf + cnt) 0 st) (λ st,
  during (ece391_strcmp (at_ st buf) (at_ st (rodata (lit "exit")))) (λ r,
  if 0 =? r then inr (Done (0, st)) else
  during (peek buf st) (λ c0,
  if 0 =? c0 then inl st else
  during (ece391_execute buf st) (λ '(rval, st),
  during (if -1 =? rval then puts rodata (line "no such command") st
          else if 256 =? rval then puts rodata (line "program terminated by exception") st
          else if negb (0 =? rval) then puts rodata (line "program terminated abnormally") st
          else Done st) (λ st, inl st)))))))).

Definition shell (buf : Z) (st : St) : out (Z * St) :=
  st ← puts rodata (line "Starting 391 Shell") st; orun (shell_turn buf) st.
End programs.

(** * A terminal session *)

(** What a program does that others notice. *)
Inductive action : Type := Said (bs : list Z) | Ran (command : list Z) (result : Z).
Record desk : Type := Desk { d_mem : mem; d_in : list (list Z); d_log : list action }.
Definition desk_string (d : desk) (a : Z) (l : list Z) : Prop := string_at (World (d_mem d) [] 0 []) a l.

(** The calls of a conversation: a read takes the next typed line, and [heard]
    is what is noticed of that. *)
Class Talks (St : Type) `{Syscalls St} : Type := {
  talks : St → desk → Prop;
  heard : list Z → list action;
  talk_bytes st d : talks st d → mem_ok (d_mem d);
  talk_user st d a : talks st d → user_buf a 1 → user st a = Some (d_mem d a);
  talk_poke st d a v : talks st d → user_buf a 1 →
    ∃ st', poke a v st = Done st' ∧ talks st' (Desk (store8 (d_mem d) a v) (d_in d) (d_log d));
  talk_read st d buf n l ls : talks st d → user_buf buf (n + 1) → d_in d = l :: ls → Z.of_nat (length l) <= n →
    ∃ st', ece391_read 0 buf n st = Done (Z.of_nat (length l), st') ∧ talks st' (Desk (blit (d_mem d) buf (l ++ [0])) ls (d_log d ++ heard l));
  talk_write st d buf n : talks st d → user_buf buf n → user_buf buf 1 → 0 <= n →
    ∃ st', ece391_write 1 buf n st = Done (n, st') ∧ talks st' (Desk (d_mem d) (d_in d) (d_log d ++ [Said (bytes_of (mview (d_mem d) buf) n)])) }.

(** A session of the shell: a read fails when nobody types any more, and
    [result] is what executing a command returns. *)
Class Sessions (St : Type) `{Talks St} : Type := {
  result : list action → list Z → Z;
  talk_closed st d buf n : talks st d → d_in d = [] → ∃ st', ece391_read 0 buf n st = Done (-1, st') ∧ talks st' d;
  talk_execute st d a c : talks st d → desk_string d a c →
    ∃ st', ece391_execute a st = Done (result (d_log d) c, st') ∧ talks st' (Desk (d_mem d) (d_in d) (d_log d ++ [Ran c (result (d_log d) c)])) }.

(** * The shell as a function of what is typed *)
Definition command_of (l : list Z) : list Z := if decide (list.last l = Some 10) then removelast l else l.
Definition complaint (r : Z) : list action :=
  if r =? -1 then [Said (line "no such command")]
  else if r =? 256 then [Said (line "program terminated by exception")]
  else if r =? 0 then [] else [Said (line "program terminated abnormally")].

Section reference.
Context (heard : list Z → list action) (result : list action → list Z → Z).
Fixpoint shell_run (log : list action) (ls : list (list Z)) : list action * Z :=
  let log := log ++ [Said (lit "391OS> ")] in
  match ls with
  | [] => (log ++ [Said (line "read from keyboard failed")], 3)
  | l :: ls =>
      let log := log ++ heard l in
      let c := command_of l in
      if decide (c = lit "exit") then (log, 0)
      else if decide (c = []) then shell_run log ls
      else let r := result log c in shell_run (log ++ [Ran c r] ++ complaint r) ls
  end.
End reference.

Lemma command_of_split l : (∃ l', l = l' ++ [10] ∧ command_of l = l') ∨ (list.last l ≠ Some 10 ∧ command_of l = l).
Proof.
  unfold command_of. destruct (decide (list.last l = Some 10)) as [E|]; [left|by right].
  apply last_Some in E as [l' ->]. exists l'. split; [done|]. apply removelast_last.
Qed.

Section client.
Context `{Talks St}.
Context (rodata : list Z → Z).

Lemma desk_reads st d a l : talks st d → desk_string d a l → is_cstr (at_ st a) (Z.of_nat (length l)) ∧
  ∀ i, (i < length l)%nat → at_ st a (Z.of_nat i) = l !! i.
Proof.
  intros Hs [(P1 & P2 & P3) Hl Hb]. assert (Hr : ∀ i v, zget (l ++ [0]) i = Some v → at_ st a i = Some v).
  { intros i v Hv. pose proof Hv as [Hi Hlt%lookup_lt_Some]%zget_Some. rewrite length_app in Hlt. cbn in Hlt.
    unfold at_. rewrite (talk_user st d _ Hs) by (split_and!; lia). f_equal. by apply Hb. }
  pose proof (lview_cstr l Hl) as (C1 & C2 & C3). split; [split_and!; [done|by apply Hr|]|].
  - intros i Hi. destruct (C3 i Hi) as (c & Ec & Hc). exists c. split; [by apply Hr|done].
  - intros i Hi. destruct (lookup_lt_is_Some_2 l i Hi) as [c Hc]. rewrite Hc. apply Hr, zget_Some. rewrite Nat2Z.id.
    split; [lia|]. by apply lookup_app_l_Some.
Qed.
Lemma desk_short d a l : desk_string d a l → Z.of_nat (length l) < 2 ^ 22.
Proof. apply string_short. Qed.

Lemma desk_puts st d a l : talks st d → desk_string d a l →
  ∃ st', ece391_fdputs 1 a st = Done st' ∧ talks st' (Desk (d_mem d) (d_in d) (d_log d ++ [Said l])).
Proof.
  intros Hs Ha. pose proof (desk_short _ _ _ Ha) as Hl. destruct (desk_reads _ _ _ _ Hs Ha) as [Hc _]. unfold ece391_fdputs.
  rewrite ece391_strlen_eq, (strlen_spec _ _ Hc) by lia. rewrite bind_Done, i32_small by lia.
  pose proof Ha as [(P1 & P2 & P3) _ Hb].
  destruct (talk_write st d a (Z.of_nat (length l)) Hs) as (st' & -> & Hs'); [split_and!; lia|split_and!; lia|lia|]. rewrite bind_Done. exists st'.
  split; [done|]. apply holds_app in Hb as [Hb _]. pose proof (holds_bytes _ _ l _ Hb eq_refl) as Eb. cbn [w_mem] in Eb. by rewrite Eb in Hs'.
Qed.

Lemma desk_strcmp st d a1 l1 a2 l2 : talks st d → desk_string d a1 l1 → desk_string d a2 l2 →
  ∃ r, ece391_strcmp (at_ st a1) (at_ st a2) = Done r ∧ (r = 0 ↔ l1 = l2).
Proof.
  intros Hs H1 H2. destruct (desk_reads _ _ _ _ Hs H1) as [C1 R1]. destruct (desk_reads _ _ _ _ Hs H2) as [C2 R2].
  pose proof (desk_short _ _ _ H1). destruct (ece391_strcmp_spec _ _ _ _ C1 C2) as (r & E & Hr); [lia|]. exists r. split; [done|].
  rewrite Hr. split; [|intros ->; split; [done|]].
  - intros [El Ha]. apply list_eq. intros i. destruct (decide (i < length l1)%nat) as [Hi|Hi].
    + rewrite <- R1, <- R2 by lia. apply Ha. lia.
    + rewrite !lookup_ge_None_2 by lia. done.
  - intros i Hi. specialize (R1 (Z.to_nat i) ltac:(lia)). specialize (R2 (Z.to_nat i) ltac:(lia)). rewrite Z2Nat.id in R1, R2 by lia. congruence.
Qed.

(** ** String literals, which lie outside the buffer of the program *)
Section literals.
Context (buf : Z) (m0 : mem) (literals : list (list Z)).
Definition literals_at : Prop := ∀ l, l ∈ literals → string_at (World m0 [] 0 []) (rodata l) l ∧
  (rodata l + Z.of_nat (length l) + 1 <= buf ∨ buf + 1024 <= rodata l).
Context (Hlit : literals_at).

Lemma literal_here d l : only_in buf (buf + 1024) m0 (d_mem d) → l ∈ literals → desk_string d (rodata l) l.
Proof. intros Ho Hl. destruct (Hlit l Hl) as [H1 H2]. by apply (string_outside buf (buf + 1024) (World m0 [] 0 []) (World (d_mem d) [] 0 [])); [exact Ho|lia|]. Qed.
Lemma literal_puts st d l : talks st d → only_in buf (buf + 1024) m0 (d_mem d) → l ∈ literals →
  ∃ st', puts rodata l st = Done st' ∧ talks st' (Desk (d_mem d) (d_in d) (d_log d ++ [Said l])).
Proof. intros Hs Ho Hl. by apply desk_puts, literal_here. Qed.
End literals.

Section shell.
Context `{!Sessions St}.
Context (buf : Z) (m0 : mem) (Hbuf : user_buf buf 1024).
Definition shell_literals : list (list Z) :=
  [line "Starting 391 Shell"; lit "391OS> "; line "read from keyboard failed"; lit "exit"; line "no such command";
   line "program terminated by exception"; line "program terminated abnormally"].
Context (Hlit : literals_at buf m0 shell_literals).
Let shell_puts := literal_puts buf m0 shell_literals Hlit.

(** A typed line, as the command line it becomes. *)
Lemma command_at m l : only_in buf (buf + 1024) m0 m → Z.of_nat (length l) <= 1023 → Forall (λ c, c ≠ 0) l →
  let m1 := blit m buf (l ++ [0]) in
  let c := command_of l in
  let m2 := store8 m1 (buf + Z.of_nat (length c)) 0 in
  only_in buf (buf + 1024) m0 m2 ∧ string_at (World m2 [] 0 []) buf c.
Proof.
  intros Ho Hl Hz m1 c m2. destruct Hbuf as (B1 & B2 & B3).
  assert (Hc : c = take (length c) l ∧ (length c <= length l)%nat ∧ Forall (λ c, c ≠ 0) c).
  { unfold c. destruct (command_of_split l) as [(l' & -> & ->)|[_ ->]].
    - rewrite take_app_length, length_app. split_and!; [done|lia|]. by apply list.Forall_app in Hz as [? _].
    - by rewrite firstn_all. }
  destruct Hc as (Ec & Hcl & Hcz). split.
  - eapply only_in_trans; [exact Ho|]. eapply only_in_trans; [apply (blit_only_in _ buf (l ++ [0])); [lia|rewrite length_app; cbn; lia]|].
    apply only_in_upd. lia.
  - split; [split_and!; lia|done|]. apply holds_app. cbn [w_mem]. split.
    + eapply holds_outside; [apply (only_in_upd (buf + Z.of_nat (length c)) (buf + Z.of_nat (length c) + 1)); lia|lia|].
      pose proof (holds_blit m buf (l ++ [0])) as Hh. fold m1 in Hh. clearbody m1. apply holds_app in Hh as [Hh _].
      rewrite <- (take_drop (length c) l), <- Ec in Hh. by apply holds_app in Hh as [Hh _].
    + intros i v [Hi Hv]%zget_Some. apply list_lookup_singleton_Some in Hv as [Hi0 <-]. assert (i = 0) as -> by lia.
      unfold m2, store8, upd. by rewrite Z.add_0_r, Z.eqb_refl.
Qed.

(** One turn: the shell waits for a line and acts on it. *)
Definition turn_ok (out : St + out (Z * St)) (d : desk) : Prop :=
  let log := d_log d ++ [Said (lit "391OS> ")] in
  match d_in d with
  | [] => ∃ st', out = inr (Done (3, st')) ∧ ∃ d', talks st' d' ∧ d_log d' = log ++ [Said (line "read from keyboard failed")]
  | l :: ls =>
      let log := log ++ heard l in
      let c := command_of l in
      if decide (c = lit "exit") then ∃ st', out = inr (Done (0, st')) ∧ ∃ d', talks st' d' ∧ d_log d' = log
      else ∃ st', out = inl st' ∧ ∃ m', only_in buf (buf + 1024) m0 m' ∧
        talks st' (Desk m' ls (if decide (c = []) then log else log ++ [Ran c (result log c)] ++ complaint (result log c)))
  end.

Lemma complain st m ls log r : talks st (Desk m ls log) → only_in buf (buf + 1024) m0 m →
  ∃ st', (if -1 =? r then puts rodata (line "no such command") st
          else if 256 =? r then puts rodata (line "program terminated by exception") st
          else if negb (0 =? r) then puts rodata (line "program terminated abnormally") st
          else Done st) = Done st' ∧ talks st' (Desk m ls (log ++ complaint r)).
Proof.
  intros Hs Ho. unfold complaint.
  assert (Hsay : ∀ l, l ∈ shell_literals → ∃ st', puts rodata l st = Done st' ∧ talks st' (Desk m ls (log ++ [Said l])))
    by (intros l Hl; exact (shell_puts st (Desk m ls log) l Hs Ho Hl)).
  rewrite (Z.eqb_sym r (-1)), (Z.eqb_sym r 256), (Z.eqb_sym r 0).
  destruct (-1 =? r); [apply Hsay; listed|]. destruct (256 =? r); [apply Hsay; listed|].
  destruct (0 =? r); cbn [negb]; [exists st; by rewrite app_nil_r|apply Hsay; listed].
Qed.

Lemma shell_turn_ok st d : talks st d → only_in buf (buf + 1024) m0 (d_mem d) →
  Forall (λ l : list Z, Z.of_nat (length l) <= 1023 ∧ Forall (λ c, c ≠ 0) l) (d_in d) →
  turn_ok (shell_turn rodata buf st) d.
Proof.
  intros Hs Ho Hin. unfold shell_turn, turn_ok. destruct d as [m ins log]. cbn [d_mem d_in d_log] in *.
  destruct (shell_puts st _ (lit "391OS> ") Hs Ho) as (st1 & -> & Hs1); [listed|]. cbn [during d_mem d_in d_log] in *.
  set (log1 := log ++ [_]) in *. change (1024 - 1) with 1023. destruct ins as [|l ls].
  - destruct (talk_closed st1 _ buf 1023 Hs1 eq_refl) as (st2 & -> & Hs2). cbn [during]. change (-1 =? -1) with true. cbv iota.
    destruct (shell_puts st2 _ (line "read from keyboard failed") Hs2 Ho) as (st3 & -> & Hs3); [listed|].
    exists st3. split; [done|]. by eexists.
  - apply list.Forall_cons in Hin as [[Hlen Hz] _]. destruct (talk_read st1 _ buf 1023 l ls Hs1 Hbuf eq_refl Hlen) as (st2 & -> & Hs2).
    cbn [during d_mem d_in d_log] in *. rewrite (proj2 (Z.eqb_neq (-1) _)) by lia. set (log2 := log1 ++ heard l) in *.
    set (c := command_of l). destruct Hbuf as (B1 & B2 & B3).
    assert (Ecnt : (if 0 <? Z.of_nat (length l) then c0 ← peek (buf + (Z.of_nat (length l) - 1)) st2;
        Done (if 10 =? c0 then Z.of_nat (length l) - 1 else Z.of_nat (length l)) else Done (Z.of_nat (length l))) = Done (Z.of_nat (length c))).
    { unfold c. destruct (decide (length l = 0%nat)) as [El|Hne].
      { apply length_zero_iff_nil in El as ->. done. }
      rewrite (proj2 (Z.ltb_lt _ _)) by lia. destruct (lookup_lt_is_Some_2 l (length l - 1)) as [x Hx]; [lia|].
      assert (Hpeek : peek (buf + (Z.of_nat (length l) - 1)) st2 = Done x).
      { unfold peek. rewrite (talk_user st2 _ _ Hs2) by (split_and!; lia). cbn. f_equal. apply blit_in, zget_Some. split; [lia|].
        apply lookup_app_l_Some. by replace (Z.to_nat (Z.of_nat (length l) - 1)) with (length l - 1)%nat by lia. }
      assert (Elast : list.last l = Some x) by (rewrite last_lookup, <- Hx; f_equal; lia).
      rewrite Hpeek, bind_Done. unfold command_of. rewrite Elast. destruct (Z.eqb_spec 10 x) as [<-|Hx10].
      - rewrite decide_True by done. apply last_Some in Elast as [l' ->]. rewrite removelast_last, length_app. cbn. f_equal. lia.
      - rewrite decide_False by congruence. done. }
    rewrite Ecnt. cbn [during].
    destruct (command_at m l Ho Hlen Hz) as [Ho2 Hstr]. fold c in Ho2, Hstr.
    destruct (talk_poke st2 _ (buf + Z.of_nat (length c)) 0 Hs2) as (st3 & -> & Hs3).
    { destruct Hstr as [(P1 & P2 & P3) _ _]. split_and!; lia. }
    cbn [during d_mem d_in d_log] in *. set (m2 := store8 _ _ 0) in *.
    destruct (desk_strcmp st3 _ buf c (rodata (lit "exit")) (lit "exit") Hs3) as (r & -> & Hr); [exact Hstr|by apply (literal_here buf m0 shell_literals Hlit); [exact Ho2|listed]|].
    cbn [during]. destruct (decide (c = lit "exit")) as [E|E].
    { rewrite (proj2 Hr E). exists st3. split; [done|]. by eexists. }
    rewrite (proj2 (Z.eqb_neq 0 r)) by (intros <-; by apply E, Hr).
    assert (Hpeek : ∃ c0, peek buf st3 = Done c0 ∧ (c0 = 0 ↔ c = [])).
    { unfold peek. rewrite (talk_user st3 _ buf Hs3) by (split_and!; lia). eexists. split; [reflexivity|]. cbn [d_mem].
      pose proof Hstr as [_ Hcz Hb]. destruct c as [|x c'] eqn:Ec.
      - specialize (Hb 0 0 eq_refl). rewrite Z.add_0_r in Hb. cbn [w_mem] in Hb. by rewrite Hb.
      - specialize (Hb 0 x eq_refl). rewrite Z.add_0_r in Hb. cbn [w_mem] in Hb. rewrite Hb. apply list.Forall_cons in Hcz as [Hx _]. by split. }
    destruct Hpeek as (c0 & -> & Hc0). cbn [during]. destruct (decide (c = [])) as [Enil|Enil].
    { rewrite (proj2 Hc0 Enil). exists st3. split; [done|]. by exists m2. }
    rewrite (proj2 (Z.eqb_neq 0 c0)) by (intros <-; by apply Enil, Hc0).
    destruct (talk_execute st3 _ buf c Hs3 Hstr) as (st4 & -> & Hs4). cbn [during d_mem d_in d_log] in *.
    destruct (complain st4 m2 ls _ (result log2 c) Hs4 Ho2) as (st5 & -> & Hs5). cbn [during].
    exists st5. split; [done|]. exists m2. split; [done|]. by rewrite <- app_assoc in Hs5.
Qed.

Definition shell_inv (log0 : list action) (ls0 : list (list Z)) (n : Z) (st : St) : Prop :=
  ∃ d, talks st d ∧ only_in buf (buf + 1024) m0 (d_mem d) ∧ n = Z.of_nat (length (d_in d)) ∧
    Forall (λ l : list Z, Z.of_nat (length l) <= 1023 ∧ Forall (λ c, c ≠ 0) l) (d_in d) ∧
    shell_run heard result (d_log d) (d_in d) = shell_run heard result log0 ls0.

Lemma shell_loop st d : talks st d → only_in buf (buf + 1024) m0 (d_mem d) →
  Forall (λ l : list Z, Z.of_nat (length l) <= 1023 ∧ Forall (λ c, c ≠ 0) l) (d_in d) → Z.of_nat (length (d_in d)) < 2 ^ 32 →
  let '(log, r) := shell_run heard result (d_log d) (d_in d) in
  ∃ st' d', orun (shell_turn rodata buf) st = Done (r, st') ∧ talks st' d' ∧ d_log d' = log.
Proof.
  intros Hs Ho Hin Hlen. destruct (shell_run heard result (d_log d) (d_in d)) as [log r] eqn:Erun.
  destruct (orun_index (shell_turn rodata buf) (shell_inv (d_log d) (d_in d))
    (λ '(r', st'), r' = r ∧ ∃ d', talks st' d' ∧ d_log d' = log) (Z.of_nat (length (d_in d))) st) as ([r' st'] & E & -> & d' & H1 & H2);
    [|lia|by exists d|by exists st', d'].
  rename d into d0. clear st Hs. intros n st Hn (d & Hs & Hod & -> & Hind & Er). pose proof (shell_turn_ok st d Hs Hod Hind) as Ht.
  unfold turn_ok in Ht. rewrite Erun in Er. destruct d as [m ins lg]. cbn [d_mem d_in d_log] in *.
  destruct ins as [|l ls]; cbn [shell_run] in Er.
  { destruct Ht as (st' & -> & d' & H1 & H2). injection Er as <- <-. exists (3, st'). split; [done|]. split; [done|]. by exists d'. }
  apply list.Forall_cons in Hind as [_ Hind]. destruct (decide (command_of l = lit "exit")).
  { destruct Ht as (st' & -> & d' & H1 & H2). injection Er as <- <-. exists (0, st'). split; [done|]. split; [done|]. by exists d'. }
  destruct Ht as (st' & -> & m' & Ho' & Hs'). exists (Z.of_nat (length ls)). split; [cbn; lia|]. eexists. split; [exact Hs'|].
  cbn [d_mem d_in d_log]. split_and!; [done|done|done|]. rewrite Erun, <- Er. by destruct (decide (command_of l = [])).
Qed.
End shell.
End client.

(** C39. The shell.  On every terminal session, whatever lines are typed (of at
    most 1023 bytes, without NULs) and whatever the programs it starts
    return, the shell prompts before every line; ends with 0 at the line
    "exit"; ignores empty lines; runs every other line, without its newline,
    as a command, once and in order, and says so when the result is -1, 256 or
    another non-zero value; and when no line can be read it says so and
    returns 3. *)
Theorem shell_session {St : Type} {sys : Syscalls St} {talk : Talks St} {session : Sessions St} (rodata : list Z → Z) (buf : Z) (st : St) (d : desk)
    (Hbuf : user_buf buf 1024) (Hs : talks st d)
    (Hlit : ∀ l, l ∈ shell_literals → desk_string d (rodata l) l ∧ (rodata l + Z.of_nat (length l) + 1 <= buf ∨ buf + 1024 <= rodata l))
    (Hin : Forall (λ l : list Z, Z.of_nat (length l) <= 1023 ∧ Forall (λ c, c ≠ 0) l) (d_in d)) (Hlen : Z.of_nat (length (d_in d)) < 2 ^ 32) :
  let '(log, r) := shell_run heard result (d_log d ++ [Said (line "Starting 391 Shell")]) (d_in d) in
  ∃ st' d', shell rodata buf st = Done (r, st') ∧ talks st' d' ∧ d_log d' = log.
Proof.
  unfold shell. destruct (literal_puts rodata buf (d_mem d) shell_literals Hlit st d (line "Starting 391 Shell") Hs) as (st1 & -> & Hs1);
    [apply only_in_refl|listed|]. rewrite bind_Done.
  exact (shell_loop rodata buf (d_mem d) Hbuf Hlit st1 _ Hs1 (only_in_refl _ _ _) Hin Hlen).
Qed.

(** * A scripted session, for the witness *)
Lemma string_u8 l : Forall is_u8 l → Forall is_u8 (l ++ [0]).
Proof. intros Hl. apply list.Forall_app. split; [done|]. constructor; [split; lia|constructor]. Qed.
Section scripted.
Context (outcome : list action → list Z → Z).
#[local] Instance scripted_calls : Syscalls desk := {|
  user d := λ a, Some (d_mem d a);
  poke a v d := Done (Desk (store8 (d_mem d) a v) (d_in d) (d_log d));
  ece391_execute a d :=
    n ← ece391_strlen (mview (d_mem d) a);
    let c := bytes_of (mview (d_mem d) a) n in
    Done (outcome (d_log d) c, Desk (d_mem d) (d_in d) (d_log d ++ [Ran c (outcome (d_log d) c)]));
  ece391_read fd buf n d :=
    match d_in d with
    | [] => Done (-1, d)
    | l :: ls => Done (Z.of_nat (length l), Desk (blit (d_mem d) buf (l ++ [0])) ls (d_log d))
    end;
  ece391_write fd buf n d := Done (n, Desk (d_mem d) (d_in d) (d_log d ++ [Said (bytes_of (mview (d_mem d) buf) n)]));
  ece391_open a d := Done (-1, d);
  ece391_close fd d := Done (-1, d);
  ece391_getargs buf n d := Done (-1, d) |}.

Definition scripted (st d : desk) : Prop := st = d ∧ mem_ok (d_mem d) ∧ Forall (Forall is_u8) (d_in d).
Lemma scripted_read st d buf n l ls : scripted st d → user_buf buf (n + 1) → d_in d = l :: ls → Z.of_nat (length l) <= n →
  ∃ st', ece391_read 0 buf n st = Done (Z.of_nat (length l), st') ∧ scripted st' (Desk (blit (d_mem d) buf (l ++ [0])) ls (d_log d ++ [])).
Proof.
  rewrite app_nil_r. intros (-> & Hm & Hin) _ Ed _. cbn. rewrite Ed in *. eexists. split; [reflexivity|]. apply list.Forall_cons in Hin as [Hl Hin].
  split_and!; [done|by apply blit_ok, string_u8|done].
Qed.
Lemma scripted_execute st d a c : scripted st d → desk_string d a c →
  ∃ st', ece391_execute a st = Done (outcome (d_log d) c, st') ∧ scripted st' (Desk (d_mem d) (d_in d) (d_log d ++ [Ran c (outcome (d_log d) c)])).
Proof.
  intros (-> & Hm & Hin) Hc. cbn. pose proof (string_cstr _ _ _ Hc : is_cstr (mview (d_mem d) a) (Z.of_nat (length c))) as Hcs. pose proof (string_short _ _ _ Hc).
  rewrite ece391_strlen_eq, (strlen_spec _ _ Hcs) by lia. rewrite bind_Done.
  destruct Hc as [_ _ Hb]. apply holds_app in Hb as [Hb _]. pose proof (holds_bytes _ _ c _ Hb eq_refl) as Eb. cbn [w_mem] in Eb.
  rewrite Eb. by eexists.
Qed.
Lemma scripted_poke st d a v : scripted st d → user_buf a 1 →
  ∃ st', poke a v st = Done st' ∧ scripted st' (Desk (store8 (d_mem d) a v) (d_in d) (d_log d)).
Proof. intros (-> & Hm & Hin) _. eexists. split; [reflexivity|]. split_and!; [done|by apply store8_ok|done]. Qed.

Lemma scripted_closed st d (buf n : Z) : scripted st d → d_in d = [] → ∃ st', ece391_read 0 buf n st = Done (-1, st') ∧ scripted st' d.
Proof. intros (-> & H) E. exists d. cbn. rewrite E. by split. Qed.

#[local] Instance scripted_talks : Talks desk := {|
  talks := scripted;
  heard _ := [];
  talk_bytes st d H := proj1 (proj2 H);
  talk_user st d a H _ := match proj1 H in _ = d' return user st a = Some (d_mem d' a) with eq_refl => eq_refl end;
  talk_poke := scripted_poke;
  talk_read := scripted_read;
  talk_write st d buf n H _ _ _ := ltac:(destruct H as (-> & H); eexists; split; [reflexivity|by split]) |}.
#[local] Instance scripted_sessions : Sessions desk := {|
  result := outcome;
  talk_closed := scripted_closed;
  talk_execute := scripted_execute |}.
End scripted.

Definition rodata13 (l : list Z) : Z :=
  0x8060000 + 0x100 * Z.of_nat (default O (fst <$> list_find (λ x, x = l) shell_literals)).
Definition mem13 : mem := foldr (λ l m, blit m (rodata13 l) (l ++ [0])) (λ _, 0) shell_literals.
Definition desk13 : desk := Desk mem13 [line "ls"; [10]; line "foo"; line "exit"] [].
Definition outcome13 (log : list action) (c : list Z) : Z := if decide (c = lit "ls") then 0 else -1.

Lemma mem13_ok : mem_ok mem13.
Proof.
  unfold mem13. assert (H : Forall (Forall is_u8) shell_literals) by (vm_compute; repeat constructor; discriminate).
  induction H as [|l ls Hl _ IH]; [by intros x|]. by apply blit_ok, string_u8.
Qed.
Lemma literals13 : Forall (λ l, bytes_of (mview mem13 (rodata13 l)) (Z.of_nat (length l) + 1) = l ++ [0] ∧
  (0x8060000 <= rodata13 l < 0x8061000 ∧ Z.of_nat (length l) < 100) ∧ forallb (λ c, negb (c =? 0)) l = true) shell_literals.
Proof. repeat (constructor; [split_and!; by vm_compute|]). constructor. Qed.

Lemma shell_session_witness :
  ∃ st' d', @shell desk (scripted_calls outcome13) rodata13 0x8050000 desk13 = Done (0, st') ∧
    @talks desk (scripted_calls outcome13) (scripted_talks outcome13) st' d' ∧
    d_log d' = [Said (line "Starting 391 Shell"); Said (lit "391OS> "); Ran (lit "ls") 0; Said (lit "391OS> "); Said (lit "391OS> ");
                Ran (lit "foo") (-1); Said (line "no such command"); Said (lit "391OS> ")].
Proof.
  pose proof (@shell_session desk (scripted_calls outcome13) (scripted_talks outcome13) (scripted_sessions outcome13) rodata13 0x8050000 desk13 desk13) as E.
  assert (Er : shell_run (λ _, []) outcome13 (d_log desk13 ++ [Said (line "Starting 391 Shell")]) (d_in desk13) =
    ([Said (line "Starting 391 Shell"); Said (lit "391OS> "); Ran (lit "ls") 0; Said (lit "391OS> "); Said (lit "391OS> ");
      Ran (lit "foo") (-1); Said (line "no such command"); Said (lit "391OS> ")], 0)) by (vm_compute; reflexivity).
  change (@result desk (scripted_calls outcome13) (scripted_talks outcome13) (scripted_sessions outcome13)) with outcome13 in E.
  change (@heard desk (scripted_calls outcome13) (scripted_talks outcome13)) with (λ _ : list Z, @nil action) in E. rewrite Er in E. apply E; clear E Er.
  - split_and!; by vm_compute.
  - split; [done|]. split; [apply mem13_ok|]. vm_compute. repeat constructor; discriminate.
  - intros l Hl. pose proof (proj1 (list.Forall_forall _ _) literals13 l Hl) as (Eb & (Hr & Hlen) & Hz).
    split; [|right; lia]. split; [split_and!; unfold _128_MB_SIZE, FOUR_MB_SIZE; lia| |].
    + rewrite forallb_forall in Hz. apply list.Forall_forall. intros c Hc. rewrite list_elem_of_In in Hc. specialize (Hz c Hc). lia.
    + intros i v Hv. rewrite <- Eb in Hv. pose proof Hv as [Hi Hl'%lookup_lt_Some]%zget_Some.
      pose proof (length_bytes_of (mview mem13 (rodata13 l)) (Z.of_nat (length l) + 1) ltac:(lia)).
      rewrite zget_bytes_of in Hv by lia. by injection Hv as <-.
  - vm_compute. repeat constructor; discriminate.
  - done.
Defined.
