(* ===== verification/Dialogue.v ===== *)
(** The other programs of src/syscalls that talk to the keyboard, hello,
    counter and testprint, on the terminal sessions of Session. *)
From Stdlib Require Import String.
From S2P Require Import Prelude Memory Strings Console Printf Filesystem Kernel Syscall User Programs Session.

(** * The programs *)
Section programs.
Context `{Syscalls St}.
Context (rodata : list Z → Z).

(** ece391hello.c *)
Definition hello (buf : Z) (st : St) : out (Z * St) :=
  st ← puts rodata (lit "Hi, what's your name? ") st;
  '(cnt, st) ← ece391_read 0 buf (1024 - 1) st;
  if -1 =? cnt then st ← puts rodata (line "Can't read name from keyboard.") st; Done (3, st) else
  st ← poke (buf + cnt) 0 st;
  st ← puts rodata (lit "Hello, ") st;
  st ← ece391_fdputs 1 buf st;
  Done (0, st).

(** ece391testprint.c *)
Definition testprint (st : St) : out (Z * St) :=
  st ← puts rodata (line "Hello, if this ran, the program was correct. Yay!") st; Done (0, st).

(** Storing the bytes of a string, from its first. *)
Fixpoint poke_all (a : Z) (bs : list Z) (st : St) : out St :=
  match bs with [] => Done st | b :: bs => st ← poke a b st; poke_all (a + 1) bs st end.

(** ece391counter.c *)
Definition counter_max (c : Z) : Z :=
  if c =? 48 then 100 else if c =? 49 then 10000 else if c =? 50 then 100000 else 0.
Definition counter_step (buf max : Z) (ist : Z * St) : Z * St + out (Z * St) :=
  let '(i, st) := ist in
  if negb (i <? max) then inr (Done (0, st)) else
  during (ece391_itoa (u32 (i + 1)) 10) (λ ds, during (poke_all buf ds st) (λ st,
  during (ece391_fdputs 1 buf st) (λ st, during (puts rodata [10] st) (λ st, inl (i + 1, st))))).
Definition counter (buf : Z) (st : St) : out (Z * St) :=
  st ← puts rodata (line "Enter the Test Number: (0): 100, (1): 10000, (2): 100000") st;
  '(cnt, st) ← ece391_read 0 buf (1024 - 1) st;
  if u32 (-1) =? u32 cnt then st ← puts rodata (line "Can't read the number from keyboard.") st; Done (3, st) else
  st ← poke (buf + cnt) 0 st;
  n ← ece391_strlen (at_ st buf);
  c0 ← peek buf st;
  if (2 <? n) || (n =? 2) && ((c0 <? 48) || (50 <? c0)) then st ← puts rodata (line "Wrong Choice!") st; Done (0, st) else
  orun (counter_step buf (counter_max c0)) (0, st).
End programs.

(** * What they say *)
Section client.
Context `{Talks St}.
Context (rodata : list Z → Z) (buf : Z) (m0 : mem) (Hbuf : user_buf buf 1024).

Definition dialogue_literals : list (list Z) :=
  [lit "Hi, what's your name? "; line "Can't read name from keyboard."; lit "Hello, ";
   line "Hello, if this ran, the program was correct. Yay!";
   line "Enter the Test Number: (0): 100, (1): 10000, (2): 100000"; line "Can't read the number from keyboard."; line "Wrong Choice!"; [10]].
Context (Hlit : literals_at rodata buf m0 dialogue_literals).
Let says := literal_puts rodata buf m0 dialogue_literals Hlit.

Lemma testprint_says st d : talks st d → only_in buf (buf + 1024) m0 (d_mem d) → ∃ st', testprint rodata st = Done (0, st') ∧
  talks st' (Desk (d_mem d) (d_in d) (d_log d ++ [Said (line "Hello, if this ran, the program was correct. Yay!")])).
Proof.
  intros Hs Ho. unfold testprint. destruct (says st d (line "Hello, if this ran, the program was correct. Yay!") Hs Ho) as (st' & -> & Hs'); [listed|].
  by exists st'.
Qed.

(** A line in the buffer, with the NUL the program adds. *)
Lemma line_at m l : only_in buf (buf + 1024) m0 m → Z.of_nat (length l) <= 1023 → Forall (λ c, c ≠ 0) l →
  let m2 := store8 (blit m buf (l ++ [0])) (buf + Z.of_nat (length l)) 0 in
  only_in buf (buf + 1024) m0 m2 ∧ string_at (World m2 [] 0 []) buf l.
Proof.
  intros Ho Hl Hz m2. destruct Hbuf as (B1 & B2 & B3).
  assert (E : ∀ a, m2 a = blit m buf (l ++ [0]) a).
  { intros a. unfold m2, store8, upd. destruct (Z.eqb_spec a (buf + Z.of_nat (length l))) as [->|]; [|done].
    symmetry. apply blit_in, zget_Some. rewrite Nat2Z.id. split; [lia|]. by rewrite lookup_app_r, Nat.sub_diag by lia. }
  split.
  - intros a Ha. rewrite E, (blit_only_in m buf (l ++ [0]) buf (buf + 1024)); [by apply Ho|lia|rewrite length_app; cbn; lia|done].
  - split; [split_and!; lia|done|]. intros i v Hv. cbn [w_mem]. rewrite E. by apply blit_in.
Qed.

(** hello greets whoever answers. *)
Lemma hello_greets st d l ls : talks st d → only_in buf (buf + 1024) m0 (d_mem d) → d_in d = l :: ls →
  Z.of_nat (length l) <= 1023 → Forall (λ c, c ≠ 0) l → ∃ st' d', hello rodata buf st = Done (0, st') ∧ talks st' d' ∧
    d_in d' = ls ∧ only_in buf (buf + 1024) m0 (d_mem d') ∧
    d_log d' = d_log d ++ [Said (lit "Hi, what's your name? ")] ++ heard l ++ [Said (lit "Hello, "); Said l].
Proof.
  intros Hs Ho Ed Hl Hz. destruct d as [m ins log]. cbn [d_mem d_in d_log] in *. subst ins. unfold hello. change (1024 - 1) with 1023.
  destruct (says st _ (lit "Hi, what's your name? ") Hs Ho) as (st1 & E1 & Hs1); [listed|]. cbn [d_mem d_in d_log] in Hs1.
  destruct (talk_read st1 _ buf 1023 l ls Hs1 Hbuf eq_refl Hl) as (st2 & E2 & Hs2). cbn [d_mem d_in d_log] in Hs2.
  destruct (talk_poke st2 _ (buf + Z.of_nat (length l)) 0 Hs2) as (st3 & E3 & Hs3).
  { destruct Hbuf as (B1 & B2 & B3). split_and!; lia. }
  cbn [d_mem d_in d_log] in Hs3. destruct (line_at m l Ho Hl Hz) as [Ho3 Hstr].
  destruct (says st3 _ (lit "Hello, ") Hs3 Ho3) as (st4 & E4 & Hs4); [listed|]. cbn [d_mem d_in d_log] in Hs4.
  destruct (desk_puts st4 _ buf l Hs4 Hstr) as (st5 & E5 & Hs5). cbn [d_mem d_in d_log] in Hs5.
  rewrite E1, bind_Done, E2, bind_Done, (proj2 (Z.eqb_neq (-1) _)) by lia. rewrite E3, bind_Done, E4, bind_Done, E5, bind_Done.
  exists st5. eexists. split; [done|]. split; [exact Hs5|]. split; [done|]. split; [exact Ho3|]. cbn. by rewrite <- !app_assoc.
Qed.
Lemma hello_closed `{!Sessions St} st d : talks st d → only_in buf (buf + 1024) m0 (d_mem d) → d_in d = [] →
  ∃ st' d', hello rodata buf st = Done (3, st') ∧ talks st' d' ∧
    d_log d' = d_log d ++ [Said (lit "Hi, what's your name? "); Said (line "Can't read name from keyboard.")].
Proof.
  intros Hs Ho Ed. unfold hello. change (1024 - 1) with 1023.
  destruct (says st d (lit "Hi, what's your name? ") Hs Ho) as (st1 & E1 & Hs1); [listed|].
  destruct (talk_closed st1 _ buf 1023 Hs1 Ed) as (st2 & E2 & Hs2).
  destruct (says st2 _ (line "Can't read name from keyboard.") Hs2 Ho) as (st3 & E3 & Hs3); [listed|].
  rewrite E1, bind_Done, E2, bind_Done. change (-1 =? -1) with true. cbv iota. rewrite E3, bind_Done.
  exists st3. eexists. split; [done|]. split; [exact Hs3|]. cbn. by rewrite <- app_assoc.
Qed.

(** ** Counting *)
Lemma poke_all_ok bs : ∀ a st d, talks st d → user_buf a (Z.of_nat (length bs)) → Forall is_u8 bs →
  ∃ st' m', poke_all a bs st = Done st' ∧ talks st' (Desk m' (d_in d) (d_log d)) ∧
    only_in a (a + Z.of_nat (length bs)) (d_mem d) m' ∧ holds m' a bs.
Proof.
  induction bs as [|b bs IH]; intros a st [m ins log] Hs Ha Hb; cbn [poke_all].
  - exists st, m. split_and!; [done|done|by intros x|by intros i v [_ ?]%zget_Some].
  - apply list.Forall_cons in Hb as [Hb Hbs]. destruct Ha as (A1 & A2 & A3). cbn [length] in A2, A3.
    destruct (talk_poke st _ a b Hs) as (st1 & -> & Hs1); [split_and!; lia|]. rewrite bind_Done.
    destruct (IH (a + 1) st1 _ Hs1) as (st2 & m2 & E2 & Hs2 & Ho & Hh); [split_and!; lia|done|]. cbn [d_mem d_in d_log] in *.
    exists st2, m2. split_and!; [done|done| |].
    + intros x Hx. cbn [length] in Hx. rewrite Ho by lia. unfold store8, upd. by destruct (Z.eqb_spec x a); [lia|].
    + intros i v [Hi Hv]%zget_Some. destruct (decide (i = 0)) as [->|Hne].
      * cbn in Hv. injection Hv as ->. rewrite Ho by lia. unfold store8, upd. rewrite Z.add_0_r, Z.eqb_refl. by apply u8_id.
      * replace (a + i) with (a + 1 + (i - 1)) by lia. apply Hh, zget_Some. split; [lia|].
        replace (Z.to_nat i) with (S (Z.to_nat (i - 1))) in Hv by lia. done.
Qed.

Definition spoken (dss : list (list Z)) : list action := concat ((λ ds, [Said ds; Said [10]]) <$> dss).
Lemma spoken_snoc dss ds : spoken (dss ++ [ds]) = spoken dss ++ [Said ds; Said [10]].
Proof. unfold spoken. rewrite fmap_app, concat_app. done. Qed.

Lemma numeral_u8 v ds : numeral 10 v ds → Forall is_u8 ds ∧ Forall (λ c, c ≠ 0) ds.
Proof.
  intros (_ & Hds & _). split; eapply list.Forall_impl; try exact Hds; intros c [Hc0 Hc]; [|done].
  unfold digit_val in Hc. destruct (Z.ltb_spec c 58); split; lia.
Qed.

Section counting.
Context (max : Z) (Hmax : 0 <= max < 2 ^ 32) (ins : list (list Z)) (log0 : list action).
(** After [i] numbers. *)
Definition counted (i : Z) (st : St) : Prop := ∃ m dss, talks st (Desk m ins (log0 ++ spoken dss)) ∧
  only_in buf (buf + 1024) m0 m ∧ Forall2 (numeral 10) (seqZ 1 i) dss.

Lemma counter_turn i st : 0 <= i < max → counted i st → ∃ st', counter_step rodata buf max (i, st) = inl (i + 1, st') ∧ counted (i + 1) st'.
Proof.
  intros Hi (m & dss & Hs & Ho & Hd). unfold counter_step. rewrite (proj2 (Z.ltb_lt i max)) by lia. cbn [negb]. rewrite u32_id by (split; lia).
  destruct (itoa_spec (i + 1) 10 ltac:(lia) ltac:(split; lia)) as (ds & _ & -> & V1 & V2 & V3 & V4). cbn [during].
  assert (Hn : numeral 10 (i + 1) ds) by exact (conj V1 (conj V2 (conj V3 V4))). destruct (numeral_u8 _ _ Hn) as [Hu Hz].
  pose proof Hbuf as (B1 & B2 & B3). assert (Hlen : length (ds ++ [0]) = S (length ds)) by (rewrite length_app; cbn; lia).
  destruct (poke_all_ok (ds ++ [0]) buf st _ Hs) as (st1 & m1 & -> & Hs1 & Ho1 & Hh); [rewrite Hlen; split_and!; lia|by apply string_u8|].
  cbn [during d_mem d_in d_log] in *. rewrite Hlen in Ho1.
  assert (Ho1' : only_in buf (buf + 1024) m0 m1).
  { eapply only_in_trans; [exact Ho|]. eapply only_in_weaken; [| |exact Ho1]; lia. }
  destruct (desk_puts st1 _ buf ds Hs1) as (st2 & -> & Hs2).
  { split; [split_and!; lia|done|exact Hh]. }
  cbn [during d_mem d_in d_log] in *. destruct (says st2 _ [10] Hs2 Ho1') as (st3 & -> & Hs3); [listed|]. cbn [during d_mem d_in d_log] in *.
  exists st3. split; [done|]. exists m1, (dss ++ [ds]). rewrite spoken_snoc, app_assoc. rewrite <- app_assoc in Hs3. split; [exact Hs3|].
  split; [done|]. rewrite (seqZ_app 1 i 1) by lia. apply Forall2_app; [done|]. constructor; [match goal with |- numeral _ ?x _ => replace x with (i + 1) by lia end; done|constructor].
Qed.

Lemma counter_loop st : counted 0 st → ∃ st', orun (counter_step rodata buf max) (0, st) = Done (0, st') ∧ counted max st'.
Proof.
  intros Hc. destruct (orun_index (counter_step rodata buf max) (λ n '(i, st), 0 <= i <= max ∧ n = max - i ∧ counted i st)
    (λ '(r, st), r = 0 ∧ counted max st) max (0, st)) as ([r st'] & E & -> & H'); [|lia|split_and!; [lia|lia|lia|done]|by exists st'].
  clear st Hc. intros n [i st] Hn (Hi & -> & Hc). destruct (decide (i = max)) as [->|Hne].
  - unfold counter_step. rewrite Z.ltb_irrefl. cbn [negb]. by exists (0, st).
  - destruct (counter_turn i st ltac:(lia) Hc) as (st' & -> & Hc'). exists (max - (i + 1)). split_and!; [lia|lia|lia|lia|lia|done].
Qed.
End counting.

(** The answers that counter refuses. *)
Definition wrong_choice (l : list Z) : bool :=
  let n := Z.of_nat (length l) in let c := default 0 (head l) in (2 <? n) || (n =? 2) && ((c <? 48) || (50 <? c)).

(** counter prints the numbers from 1 to the chosen bound, in decimal. *)
Definition counter_prompt : list action := [Said (line "Enter the Test Number: (0): 100, (1): 10000, (2): 100000")].
Lemma counter_counts st d l ls : talks st d → only_in buf (buf + 1024) m0 (d_mem d) → d_in d = l :: ls →
  Z.of_nat (length l) <= 1023 → Forall (λ c, c ≠ 0) l → ∃ st' d', counter rodata buf st = Done (0, st') ∧ talks st' d' ∧
    d_in d' = ls ∧ only_in buf (buf + 1024) m0 (d_mem d') ∧
    let log := d_log d ++ counter_prompt ++ heard l in
    if wrong_choice l then d_log d' = log ++ [Said (line "Wrong Choice!")]
    else ∃ dss, Forall2 (numeral 10) (seqZ 1 (counter_max (default 0 (head l)))) dss ∧ d_log d' = log ++ spoken dss.
Proof.
  intros Hs Ho Ed Hl Hz. destruct d as [m ins log0]. cbn [d_mem d_in d_log] in *. subst ins. unfold counter. change (1024 - 1) with 1023.
  destruct (says st _ (line "Enter the Test Number: (0): 100, (1): 10000, (2): 100000") Hs Ho) as (st1 & -> & Hs1); [listed|].
  cbn [d_mem d_in d_log] in Hs1. rewrite bind_Done.
  destruct (talk_read st1 _ buf 1023 l ls Hs1 Hbuf eq_refl Hl) as (st2 & -> & Hs2). cbn [d_mem d_in d_log] in Hs2.
  rewrite <- app_assoc in Hs2. fold counter_prompt in Hs2. set (log := log0 ++ counter_prompt ++ heard l) in *. clearbody log.
  rewrite bind_Done. change (u32 (-1)) with (2 ^ 32 - 1). rewrite (u32_id (Z.of_nat (length l))) by (split; lia).
  rewrite (proj2 (Z.eqb_neq (2 ^ 32 - 1) _)) by lia. pose proof Hbuf as (B1 & B2 & B3).
  destruct (talk_poke st2 _ (buf + Z.of_nat (length l)) 0 Hs2) as (st3 & -> & Hs3); [split_and!; lia|]. cbn [d_mem d_in d_log] in Hs3.
  rewrite bind_Done. destruct (line_at m l Ho Hl Hz) as [Ho3 Hstr]. destruct (desk_reads _ _ _ _ Hs3 Hstr) as [Hc _].
  rewrite ece391_strlen_eq, (strlen_spec _ _ Hc) by lia. rewrite bind_Done.
  assert (Hpeek : peek buf st3 = Done (default 0 (head l))).
  { unfold peek. rewrite (talk_user st3 _ buf Hs3) by (split_and!; lia). cbn [must d_mem]. f_equal. destruct Hstr as [_ _ Hh]. cbn [w_mem] in Hh.
    specialize (Hh 0). rewrite Z.add_0_r in Hh. destruct l; by apply Hh. }
  rewrite Hpeek, bind_Done. unfold wrong_choice. set (c := default 0 (head l)). destruct (_ || _).
  - destruct (says st3 _ (line "Wrong Choice!") Hs3 Ho3) as (st4 & -> & Hs4); [listed|]. rewrite bind_Done. exists st4. by eexists.
  - assert (Hmax : 0 <= counter_max c < 2 ^ 32) by (unfold counter_max; repeat case_match; lia).
    destruct (counter_loop (counter_max c) Hmax ls log st3) as (st4 & -> & m4 & dss & Hs4 & Ho4 & Hd).
    { eexists _, []. cbn. rewrite app_nil_r. split; [exact Hs3|]. split; [done|constructor]. }
    exists st4. eexists. split; [done|]. split; [exact Hs4|]. split; [done|]. split; [exact Ho4|]. by exists dss.
Qed.
End client.
