(* ===== verification/Answers.v ===== *)
(** Programs that read the terminal, on the kernel: while a process of the
    displayed terminal waits in [terminal_read] somebody types a line, and the
    kernel keeps the promise of the class [Listens]. *)
From Stdlib Require Import String.
From stdpp Require Import gmap.
From S2P Require Import Prelude Memory Strings Console Filesystem Paging Pic Rtc Kernel Terminal Syscall Tables Process Keyboard Calls User Programs Userland Session Dialogue Printf.

(** The line [cs] is typed as soon as a read waits for it, by the interrupts
    of its keys (C27 says that these run [type_line]). *)
Definition types (cs : list Z) (typed : Z → console * Z → console * Z) : Prop :=
  ∀ c c', type_line cs c = Done c' → typed 0 (c, 0) = (c', 1).
Definition typing (cs : list Z) (i : Z) (ce : console * Z) : console * Z :=
  match type_line cs (fst ce) with Done c => (c, 1) | _ => ce end.
Lemma typing_types cs : types cs (typing cs).
Proof. intros c c' E. unfold typing. cbn [fst]. by rewrite E. Qed.

Lemma type_line_ok cs c : keys_ok c → depth c = 0 → ts_ok (abs_video c) → Forall is_u8 cs →
  Z.of_nat (length cs) < KEY_ARR_SIZE - 1 + 255 → ∃ c', type_line cs c = Done c' ∧ line_typed c c' (cs ++ [10]).
Proof.
  intros Hk Hd Ho Hcs Hlen.
  assert (He : ∀ n, (n <= length cs)%nat → ∃ c1, echo_line (take n cs) c = Done c1 ∧ line_typed c c1 (take n cs)).
  { induction n as [|n IH]; intros Hn; [exists c; split; [done|by apply line_start]|].
    destruct IH as (c1 & E1 & H1); [lia|]. destruct (lookup_lt_is_Some_2 cs n) as [ch Hch]; [lia|].
    rewrite (take_S_r _ _ _ Hch). destruct (line_push c c1 (take n cs) ch H1) as (c2 & E2 & H2).
    { by apply (list.Forall_lookup_1 _ _ _ _ Hcs Hch). } { rewrite length_take. lia. }
    exists c2. by rewrite echo_snoc, E1, bind_Done. }
  destruct (He (length cs) ltac:(lia)) as (c1 & E1 & H1). rewrite firstn_all in E1, H1.
  destruct (line_enter c c1 cs H1 Hlen) as (c2 & E2 & H2). exists (enter_handler c2). split; [|done].
  unfold type_line. by rewrite E1, bind_Done, E2, bind_Done.
Qed.

Section listens.
Context (dir_addr table_addr vidmem_addr magics : Z) (stack_dentry : dentry_t).
Context (typed : Z → console * Z → console * Z) (ticks : Z → nat) (child : Z → Z → kernel → out (Z * kernel)).
Context (Hlink : linked dir_addr table_addr vidmem_addr).
Context (id tid : Z) (Htid : 0 <= tid < 3).
Context (m0 : mem) (f0 : fs) (Hlow : image_end f0 <= EIGHT_MB_SIZE) (Hapart : outside_text (fs_addr f0) (image_end f0 - fs_addr f0)).
Context (s0 : Z → tscreen) (Hs0 : ∀ t, 0 <= t < 3 → ts_ok (s0 t)) (nb : nat) (a : list Z).
Context (Hargs : Z.of_nat (nb + length a) < ARG_MAX) (Hblank : nb = 0%nat ↔ a = []).
(** What is typed. *)
Context (cs : list Z) (Hcs : Forall is_u8 cs) (Hlen : Z.of_nat (length cs) < KEY_ARR_SIZE - 1 + 255) (Htyped : types cs typed).

#[local] Instance here : Syscalls kernel :=
  kernel_calls dir_addr table_addr vidmem_addr magics stack_dentry typed ticks child.

(** Nothing has been typed since the last read, and the terminal is displayed. *)
Definition at_rest (c : console) (e : Z) : Prop := keys_ok c ∧ depth c = 0 ∧ e = 0 ∧ current_terminal c = tid.
Definition resting (w : world) (k : kernel) : Prop := at_rest (k_con k) (enter_state k).
Lemma rest_kept w w' k k' : undisturbed w w' k k' → resting w k → resting w' k'.
Proof.
  intros [[K1 K2 K3 K4] Ke _ _ _ _ _] (H1 & H2 & H3 & H4). split_and!; [|unfold depth in *; congruence|congruence|congruence].
  unfold keys_ok in *. by rewrite K1, K2, K3.
Qed.

Let world_here := in_world dir_addr table_addr vidmem_addr id tid m0 f0 (eq s0) nb a resting.
Let sees_here := kernel_sees dir_addr table_addr vidmem_addr id tid m0 f0 (eq s0) nb a resting.
Definition the_answer : list Z := take 127 (cs ++ [10]).
Definition the_echo : list Z := cs ++ [10] ++ tid_message tid.

(** The memory of the program after the read. *)
Lemma line_read_page k p w c line buf n : world_here p k w → line_read (k_con k) c line (user_phys id buf) n →
  user_buf buf (n + 1) → 0 <= n <= Z.of_nat (length line) →
  ∀ x, user_buf x 1 → c_mem c (user_phys id x) = blit (w_mem w) buf (take (Z.to_nat n) line ++ [0]) x.
Proof.
  intros H Hr (B1 & B2 & B3) Hn x Hx. set (l := take (Z.to_nat n) line).
  assert (Hl : Z.of_nat (length l) = n) by (unfold l; rewrite length_take; lia).
  pose proof (id_range _ _ _ _ _ _ Hargs Hblank _ _ (iw_sys _ _ _ _ _ _ _ _ _ _ _ _ _ _ H)) as Hid.
  destruct (decide (buf <= x < buf + n)) as [Hin|Hout]; [|destruct (decide (x = buf + n)) as [->|Hne]].
  - destruct (lookup_lt_is_Some_2 l (Z.to_nat (x - buf))) as [v Hv]; [lia|].
    replace x with (buf + (x - buf)) by lia. rewrite (blit_in _ _ _ (x - buf) v).
    2: { apply zget_Some. split; [lia|]. by apply lookup_app_l_Some. }
    unfold l in Hv. rewrite <- (lr_bytes _ _ _ _ _ Hr) in Hv. replace (user_phys id (buf + (x - buf))) with (user_phys id buf + (x - buf)) by (unfold user_phys; lia).
    assert (Hz : zget (bytes_of (mview (c_mem c) (user_phys id buf)) n) (x - buf) = Some v) by (apply zget_Some; split; [lia|done]).
    rewrite zget_bytes_of in Hz by lia. by injection Hz.
  - rewrite (blit_in _ _ _ n 0). 2: { apply zget_Some. split; [lia|]. rewrite lookup_app_r by lia. by replace (Z.to_nat n - length l)%nat with 0%nat by lia. }
    rewrite <- (lr_nul _ _ _ _ _ Hr). f_equal. unfold user_phys. lia.
  - rewrite blit_out by (rewrite length_app; cbn [length]; lia). rewrite <- (iw_page _ _ _ _ _ _ _ _ _ _ _ _ _ _ H x Hx).
    pose proof (user_above _ _ _ Hargs Hblank x Hid Hx). apply (lr_mem _ _ _ _ _ Hr); [|unfold user_phys; lia].
    right. unfold VIDEO, SCREEN_BYTES, EIGHT_MB_SIZE in *. lia.
Qed.

(** The texts after it. *)
Lemma line_read_text k p w c line buf n : world_here p k w → line_read (k_con k) c line (user_phys id buf) n →
  user_buf buf (n + 1) → 0 <= n → ∀ t, 0 <= t < 3 → ∃ s, text_of c t = Some s ∧ s ≡ text_after tid s0 (w_out w ++ line ++ tid_message tid) t.
Proof.
  intros H Hr (B1 & B2 & B3) Hn t Ht. destruct (iw_devices _ _ _ _ _ _ _ _ _ _ _ _ _ _ H) as (_ & _ & _ & Hcur).
  pose proof (id_range _ _ _ _ _ _ Hargs Hblank _ _ (iw_sys _ _ _ _ _ _ _ _ _ _ _ _ _ _ H)) as Hid.
  assert (Ha : EIGHT_MB_SIZE <= user_phys id buf) by (unfold user_phys, FOUR_MB_SIZE, _128_MB_SIZE, EIGHT_MB_SIZE in *; lia).
  destruct (iw_text _ _ _ _ _ _ _ _ _ _ _ _ _ _ H) as (? & <- & Htext). destruct (Htext t Ht) as (s & Es & Hs). clear Htext. unfold text_of, text_after in *.
  rewrite (lr_current _ _ _ _ _ Hr), (lr_infos _ _ _ _ _ Hr). rewrite Hcur in *. destruct (Z.eqb_spec t tid) as [->|Hne].
  - injection Es as <-. eexists. split; [done|]. rewrite (lr_screen _ _ _ _ _ Hr), Hcur, (ts_print_app _ _ (w_out w)), Hs; [done|].
    right. unfold TEXT_END, VIDEO, FOUR_KB_SIZE, EIGHT_MB_SIZE in *. lia.
  - destruct (zget (terminal_info (k_con k)) t) as [i|]; [|done]. injection Es as <-. eexists. split; [done|].
    etrans; [|exact Hs]. apply view_frame. intros o Ho. pose proof (saved_screen_at t Ht) as Ess.
    apply (lr_mem _ _ _ _ _ Hr); unfold VIDEO, SCREEN_BYTES, EIGHT_MB_SIZE in *; lia.
Qed.

Lemma line_read_world k p w c line buf n : world_here p k w → line_read (k_con k) c line (user_phys id buf) n → Forall is_u8 line →
  user_buf buf (n + 1) → 0 <= n <= Z.of_nat (length line) →
  world_here p (with_con c (with_if true (with_enter 0 k)))
    (print (line ++ tid_message tid) (with_wmem (blit (w_mem w) buf (take (Z.to_nat n) line ++ [0])) w)).
Proof.
  intros H Hr Hu Hb Hn. pose proof (iw_sys _ _ _ _ _ _ _ _ _ _ _ _ _ _ H) as Hsys. pose proof (id_range _ _ _ _ _ _ Hargs Hblank _ _ Hsys) as Hid.
  pose proof Hb as (B1 & B2 & B3).
  assert (Himage : ∀ x, fs_addr f0 <= x < image_end f0 → c_mem c x = k_mem k x).
  { intros x Hx. apply (lr_mem _ _ _ _ _ Hr); [unfold outside_text, TEXT_END, SCREEN_BYTES, FOUR_KB_SIZE in *; lia|].
    left. unfold user_phys, FOUR_MB_SIZE, _128_MB_SIZE, EIGHT_MB_SIZE in *. lia. }
  assert (Hf : ∀ x, fs_addr (k_fs k) <= x < image_end (k_fs k) → c_mem c x = k_mem k x).
  { intros x Hx. apply Himage. rewrite (iw_fs _ _ _ _ _ _ _ _ _ _ _ _ _ _ H) in Hx. exact Hx. }
  destruct (lr_keys _ _ _ _ _ Hr) as [Hk Hd].
  split; try apply H; cbn [k_con with_con with_if with_enter k_mem].
  - destruct Hsys as [S1 S2 S3 S4 S5 S6]. split; [apply (image_ok_frame (k_mem k)); [done|done|apply (lr_ok _ _ _ _ _ Hr), S1]|by apply (dir_ok_frame (k_mem k))|done..].
  - intros x Hx. etrans; [by apply Himage|]. by apply (iw_image _ _ _ _ _ _ _ _ _ _ _ _ _ _ H).
  - exact (line_read_page k p w c line buf n H Hr Hb Hn).
  - apply mem_ok_blit; [apply (iw_bytes _ _ _ _ _ _ _ _ _ _ _ _ _ _ H)|]. apply list.Forall_app. split; [by apply Forall_take|repeat constructor; lia].
  - rewrite (lr_current _ _ _ _ _ Hr), (lr_infos _ _ _ _ _ Hr). apply (iw_con _ _ _ _ _ _ _ _ _ _ _ _ _ _ H).
  - exists s0. split; [done|]. exact (line_read_text k p w c line buf n H Hr Hb ltac:(lia)).
  - split_and!; [done|done|done|]. etrans; [exact (lr_current _ _ _ _ _ Hr)|]. apply (iw_devices _ _ _ _ _ _ _ _ _ _ _ _ _ _ H).
Qed.

Lemma kernel_read_line k w buf n : sees_here k w → zget (w_fds w) 0 = Some Stdin → user_buf buf (n + 1) → 0 < n →
  let l := take (Z.to_nat n) the_answer in
  gives sees_here (ece391_read 0 buf n k) (Z.of_nat (length l)) (print the_echo (with_wmem (blit (w_mem w) buf (l ++ [0])) w)).
Proof.
  intros [p H] Hfd Hb Hn l. pose proof Hb as (B1 & B2 & B3).
  pose proof (iw_sys _ _ _ _ _ _ _ _ _ _ _ _ _ _ H) as Hsys. destruct (iw_devices _ _ _ _ _ _ _ _ _ _ _ _ _ _ H) as (Hk & Hd & He & Hcur).
  destruct (call_passes _ _ _ _ _ _ _ _ _ _ Hargs Hblank _ p k w 0 buf n Stdin
    (λ d, call_read dir_addr table_addr vidmem_addr stack_dentry typed ticks (ptrs d) 0 buf n k) H Hfd)
    as (d & Hd0 & [_ Hp] & E); [done|split_and!; lia|lia|].
  change (ece391_read 0 buf n k) with (read dir_addr table_addr vidmem_addr stack_dentry typed ticks 0 buf n k). unfold gives, read. rewrite E, Hp.
  cbn [call_read]. clear E. destruct (iw_text _ _ _ _ _ _ _ _ _ _ _ _ _ _ H) as (? & <- & Htext). destruct (Htext tid Htid) as (s & Es & Hs).
  unfold text_of in Es. rewrite Hcur, Z.eqb_refl in Es. injection Es as <-.
  destruct (type_line_ok cs (k_con k) Hk Hd) as (c1 & E1 & Hl); [|done|done|].
  { rewrite Hs. unfold text_after. rewrite Z.eqb_refl. by apply ts_print_ok, Hs0. }
  set (line := cs ++ [10]) in *. set (n' := Z.min (Z.min (Z.of_nat (length line)) (KEY_ARR_SIZE - 1)) n).
  assert (El : l = take (Z.to_nat n') line).
  { unfold l, the_answer. fold line. rewrite take_take. unfold n', KEY_ARR_SIZE.
    destruct (decide (Z.of_nat (length line) <= Z.min 127 n)).
    - rewrite !take_ge by lia. done.
    - f_equal. lia. }
  assert (Hn' : 0 <= n' <= Z.of_nat (length line) ∧ n' <= n) by (unfold n', KEY_ARR_SIZE; lia).
  assert (Hva : phys dir_addr table_addr vidmem_addr k buf = user_phys id buf) by (apply (user_va _ _ _ Hlink id k p buf (n + 1) Hsys Hb); lia).
  destruct (read_typed dir_addr table_addr vidmem_addr k c1 line typed buf n p Hl He (Htyped _ _ E1) (so_pcb _ _ _ _ _ _ Hsys)) as (c & E & Hr).
  - rewrite (iw_tid _ _ _ _ _ _ _ _ _ _ _ _ _ _ H). done.
  - rewrite Hcur. done.
  - lia.
  - apply (user_range _ _ _ Hlink id k p buf (n + 1)); [done|done|]. fold n'. lia.
  - fold n' in E, Hr. rewrite Hva in Hr. eexists. split.
    + rewrite El, length_take, Nat.min_l by lia. rewrite Z2Nat.id by lia. exact E.
    + exists p. rewrite El. unfold the_echo. change (cs ++ [10] ++ tid_message tid) with (cs ++ ([10] ++ tid_message tid)).
      rewrite (app_assoc cs [10]). fold line.
      apply (line_read_world k p w c line buf n' H Hr); [|split_and!; lia|lia].
      apply list.Forall_app. split; [done|]. repeat constructor; lia.
Qed.
End listens.

(** * Conversations in the world of a process *)
Section conversation.
Context `{Listens St}.
Context (fds : list desc) (Hin : zget fds 0 = Some Stdin) (Hout : zget fds 1 = Some Stdout) (Hne : answer ≠ []).

(** The bytes a conversation leaves on the terminal. *)
Definition said (log : list action) : list Z := concat ((λ x, match x with Said bs => bs | Ran _ _ => [] end) <$> log).
Lemma said_app l1 l2 : said (l1 ++ l2) = said l1 ++ said l2.
Proof. unfold said. by rewrite fmap_app, concat_app. Qed.
Lemma said_one bs : said [Said bs] = bs.
Proof. apply app_nil_r. Qed.

Lemma said_spoken dss : said (spoken dss) = concat ((λ ds, ds ++ [10]) <$> dss).
Proof.
  induction dss as [|ds dss IH]; [done|]. change (spoken (ds :: dss)) with ([Said ds; Said [10]] ++ spoken dss).
  rewrite said_app, IH. cbn. by rewrite <- app_assoc.
Qed.

Definition converses (st : St) (d : desk) : Prop := ∃ w, sees st w ∧ w_mem w = d_mem d ∧ w_fds w = fds ∧
  Forall (λ l, l = answer) (d_in d) ∧ w_out w = said (d_log d).

Lemma converses_read st d buf n l ls : converses st d → user_buf buf (n + 1) → d_in d = l :: ls → Z.of_nat (length l) <= n →
  ∃ st', ece391_read 0 buf n st = Done (Z.of_nat (length l), st') ∧
    converses st' (Desk (blit (d_mem d) buf (l ++ [0])) ls (d_log d ++ [Said echoed])).
Proof.
  intros (w & Hs & Em & Ef & Hl & Eo) Hb Ed Hlen. rewrite Ed in Hl. apply list.Forall_cons in Hl as [-> Hls].
  destruct (read_line st w buf n Hs) as (st' & E & Hs'); [by rewrite Ef|done|destruct answer; [done|cbn in Hlen; lia]|].
  rewrite take_ge in E, Hs' by lia. exists st'. split; [exact E|]. eexists. split; [exact Hs'|]. cbn [w_mem w_fds w_out d_mem d_in d_log print with_wmem]. by rewrite Em, Eo, said_app, said_one.
Qed.
Lemma converses_write st d buf n : converses st d → user_buf buf n → user_buf buf 1 → 0 <= n →
  ∃ st', ece391_write 1 buf n st = Done (n, st') ∧ converses st' (Desk (d_mem d) (d_in d) (d_log d ++ [Said (bytes_of (mview (d_mem d) buf) n)])).
Proof.
  intros (w & Hs & Em & Ef & Hl & Eo) Hb Hb1 Hn. destruct (write_text st w 1 buf n Hs) as (st' & E & Hs'); [by rewrite Ef|done..|].
  exists st'. split; [exact E|]. eexists. split; [exact Hs'|]. cbn [w_mem w_fds w_out d_mem d_in d_log print with_wmem]. by rewrite Em, Eo, said_app, said_one.
Qed.
Lemma converses_poke st d a v : converses st d → user_buf a 1 →
  ∃ st', poke a v st = Done st' ∧ converses st' (Desk (store8 (d_mem d) a v) (d_in d) (d_log d)).
Proof.
  intros (w & Hs & Em & Ef & Hl & Eo) Ha. destruct (poke_seen st w a v Hs Ha) as (st' & E & Hs').
  exists st'. split; [exact E|]. eexists. split; [exact Hs'|]. cbn. by rewrite Em.
Qed.
Lemma converses_bytes st d : converses st d → mem_ok (d_mem d).
Proof. intros (w & Hs & Em & _). rewrite <- Em. by eapply sees_bytes. Qed.
Lemma converses_user st d a : converses st d → user_buf a 1 → user st a = Some (d_mem d a).
Proof. intros (w & Hs & Em & _) Ha. rewrite <- Em. by eapply user_seen. Qed.

Definition conversation : Talks St := {|
  talks := converses;
  heard _ := [Said echoed];
  talk_bytes := converses_bytes;
  talk_user := converses_user;
  talk_poke := converses_poke;
  talk_read := converses_read;
  talk_write := converses_write |}.
End conversation.

(** * hello and counter in a process *)
Section in_process.
Context (dir_addr table_addr vidmem_addr magics : Z) (stack_dentry : dentry_t).
Context (typed : Z → console * Z → console * Z) (ticks : Z → nat) (child : Z → Z → kernel → out (Z * kernel)).
Context (Hlink : linked dir_addr table_addr vidmem_addr).
Context (k : kernel) (p : pcb_t) (id tid : Z) (nb : nat) (a : list Z).
Context (H : fresh dir_addr table_addr vidmem_addr id tid nb a k p) (Hrest : at_rest tid (k_con k) (enter_state k)).
Context (cs : list Z) (Hcs : Forall (λ c, 0 < c < 256) cs) (Hlen : Z.of_nat (length cs) < KEY_ARR_SIZE - 1 + 255) (Htyped : types cs typed).

#[local] Instance kernel_here : Syscalls kernel := kernel_calls dir_addr table_addr vidmem_addr magics stack_dentry typed ticks child.
#[local] Instance promises_at_rest (fine : Z → bool) (Hfine : ∀ i, fine i = true → inode_ok (k_mem k) (k_fs k) i) : Promises kernel :=
  promises_here dir_addr table_addr vidmem_addr magics stack_dentry typed ticks child Hlink k p id tid nb a H (resting tid) (rest_kept tid) fine Hfine.

Lemma typed_u8 : Forall is_u8 cs.
Proof. eapply list.Forall_impl; [exact Hcs|]. cbn. intros c Hc. split; lia. Qed.

Definition listens_here fine Hfine : @Listens kernel kernel_here (promises_at_rest fine Hfine) :=
  Build_Listens kernel kernel_here (promises_at_rest fine Hfine) (the_answer cs) (the_echo tid cs)
    (kernel_read_line dir_addr table_addr vidmem_addr magics stack_dentry typed ticks child Hlink id tid
      (proj2 (fr_tid _ _ _ _ _ _ _ _ _ H)) (k_mem k) (k_fs k) (proj2 (so_low _ _ _ _ _ _ (fr_sys _ _ _ _ _ _ _ _ _ H))) (fr_apart _ _ _ _ _ _ _ _ _ H) (start_text k)
      (fresh_text_ok _ _ _ k p id tid nb a H) nb a (proj2 (fr_args _ _ _ _ _ _ _ _ _ H)) (proj2 (proj2 (fr_text _ _ _ _ _ _ _ _ _ H)))
      cs typed_u8 Hlen Htyped).

Definition start_fds : list desc := [Stdin; Stdout] ++ replicate 6 Closed.
Definition no_fine (i : Z) : bool := false.
Lemma no_fine_ok i : no_fine i = true → inode_ok (k_mem k) (k_fs k) i.
Proof. discriminate. Qed.

Lemma answer_nonempty : the_answer cs ≠ [].
Proof. unfold the_answer. by destruct cs. Qed.
Lemma answer_ok : Z.of_nat (length (the_answer cs)) <= 1023 ∧ Forall (λ c, c ≠ 0) (the_answer cs).
Proof.
  unfold the_answer. split; [rewrite length_take; lia|]. apply Forall_take, list.Forall_app. split; [|by repeat constructor].
  eapply list.Forall_impl; [exact Hcs|]. cbn. lia.
Qed.

Definition talks_here : @Talks kernel kernel_here :=
  @conversation kernel kernel_here (promises_at_rest no_fine no_fine_ok) (listens_here no_fine no_fine_ok) start_fds eq_refl eq_refl answer_nonempty.
Definition start_desk : desk := Desk (λ x, k_mem k (user_phys id x)) [the_answer cs] [].
Lemma start_talks : @talks _ _ talks_here k start_desk.
Proof.
  exists (start_world id k). split_and!; try done; [|by constructor].
  exact (fresh_sees _ _ _ k p id tid nb a H (resting tid) Hrest).
Qed.
Lemma talks_wrote k' d buf n : @talks _ _ talks_here k' d → only_in buf (buf + n) (d_mem start_desk) (d_mem d) →
  wrote id tid buf n (said (d_log d)) k k'.
Proof.
  intros (w & Hs & Em & _ & _ & Eo) Ho. rewrite <- Eo. apply (sees_wrote dir_addr table_addr vidmem_addr k p id tid nb a H (resting tid)); [exact Hs|].
  by rewrite Em.
Qed.
Lemma start_literals rodata buf ls : (∀ l, l ∈ ls → message rodata buf 1024 (start_world id k) l) → literals_at rodata buf (d_mem start_desk) ls.
Proof. intros Hl l Hin. destruct (Hl l Hin) as [[H1 H2 H3] Hout]. split; [by split|exact Hout]. Qed.
End in_process.

(** C17. Dialogues on the kernel.  A process started by [execute] on the
    displayed terminal runs hello or counter, and somebody types any line of
    less than 382 characters, without NULs, when the program waits.  Both
    finish and return 0.  The terminal then shows, after the program's prompt,
    the echo of the line and what terminal_read prints, for hello "Hello, "
    and the line, cut to the 127 characters of the line buffer; for counter
    the decimal numerals from 1 to the bound that the first character chooses,
    one on each line, or "Wrong Choice!" when the line is too long or its only
    character is not a choice.  The other terminals' texts, the image and the
    program's memory outside its buffer are as before. *)
Theorem dialogues_on_kernel (dir_addr table_addr vidmem_addr magics : Z) (stack_dentry : dentry_t)
    (typed : Z → console * Z → console * Z) (ticks : Z → nat) (child : Z → Z → kernel → out (Z * kernel))
    (Hlink : linked dir_addr table_addr vidmem_addr) (k : kernel) (p : pcb_t) (id tid : Z) (nb : nat) (a : list Z)
    (H : fresh dir_addr table_addr vidmem_addr id tid nb a k p) (Hrest : at_rest tid (k_con k) (enter_state k))
    (cs : list Z) (Hcs : Forall (λ c, 0 < c < 256) cs) (Hlen : Z.of_nat (length cs) < KEY_ARR_SIZE - 1 + 255) (Htyped : types cs typed)
    (rodata : list Z → Z) (buf : Z) (Hbuf : user_buf buf 1024)
    (Hlit : ∀ l, l ∈ dialogue_literals → message rodata buf 1024 (start_world id k) l) :
  let sys := kernel_calls dir_addr table_addr vidmem_addr magics stack_dentry typed ticks child in
  let line_in := take 127 (cs ++ [10]) in
  let echo := cs ++ [10] ++ tid_message tid in
  (∃ k', @hello kernel sys rodata buf k = Done (0, k') ∧
    wrote id tid buf 1024 (lit "Hi, what's your name? " ++ echo ++ lit "Hello, " ++ line_in) k k') ∧
  ∃ k', @counter kernel sys rodata buf k = Done (0, k') ∧
    let shown := line "Enter the Test Number: (0): 100, (1): 10000, (2): 100000" ++ echo in
    if wrong_choice line_in then wrote id tid buf 1024 (shown ++ line "Wrong Choice!") k k'
    else ∃ dss, Forall2 (numeral 10) (seqZ 1 (counter_max (default 0 (head line_in)))) dss ∧
      wrote id tid buf 1024 (shown ++ concat ((λ ds, ds ++ [10]) <$> dss)) k k'.
Proof.
  intros sys line_in echo. set (tk := talks_here dir_addr table_addr vidmem_addr magics stack_dentry typed ticks child Hlink k p id tid nb a H cs Hcs Hlen Htyped).
  pose proof (start_talks _ _ _ magics stack_dentry typed ticks child Hlink k p id tid nb a H Hrest cs Hcs Hlen Htyped) as Hs. fold tk in Hs.
  destruct (answer_ok cs Hcs) as [Hl1 Hl2]. pose proof (start_literals k id cs rodata buf _ Hlit) as Hl.
  pose proof (talks_wrote _ _ _ magics stack_dentry typed ticks child Hlink k p id tid nb a H cs Hcs Hlen Htyped) as Hw. fold tk in Hw.
  split.
  - destruct (@hello_greets _ _ tk rodata buf _ Hbuf Hl k (start_desk k id cs) (the_answer cs) [] Hs) as (k' & d' & E & Hs' & _ & Ho & El);
      [apply only_in_refl|done..|]. exists k'. split; [exact E|].
    specialize (Hw k' d' buf 1024 Hs' Ho). rewrite El in Hw. cbn in Hw. by rewrite app_nil_r in Hw.
  - destruct (@counter_counts _ _ tk rodata buf _ Hbuf Hl k (start_desk k id cs) (the_answer cs) [] Hs) as (k' & d' & E & Hs' & _ & Ho & El);
      [apply only_in_refl|done..|]. exists k'. split; [exact E|]. specialize (Hw k' d' buf 1024 Hs' Ho). cbv zeta in El |- *.
    change (the_answer cs) with line_in in El.
    assert (Eshown : said (d_log (start_desk k id cs) ++ counter_prompt ++ @heard _ _ tk line_in) =
      line "Enter the Test Number: (0): 100, (1): 10000, (2): 100000" ++ echo).
    { change (d_log (start_desk k id cs)) with (@nil action). change (@heard _ _ tk line_in) with [Said echo].
      rewrite app_nil_l, said_app, said_one. f_equal. }
    destruct (wrong_choice line_in).
    + by rewrite El, said_app, Eshown, said_one in Hw.
    + destruct El as (dss & Hd & El). exists dss. split; [exact Hd|]. rewrite El, said_app, Eshown in Hw.
      by rewrite said_spoken in Hw.
Qed.

(** * Process 1 on the displayed terminal 1, with strings in its memory *)
Section placed.
(** The memory and the image before the literals are placed. *)
Context (image : mem) (f : fs) (literals : list (list Z)).
(** The [i]-th literal lies at [0x8060000 + 0x100 * i]. *)
Definition placed_at (l : list Z) : Z := 0x8060000 + 0x100 * Z.of_nat (default O (fst <$> list_find (λ x, x = l) literals)).
Definition placed_mem : mem := foldr (λ l m, blit m (user_phys 1 (placed_at l)) (l ++ [0])) image literals.
Definition placed_on : kernel :=
  let k := set_pcb (get_pcb_by_index 1) pcb11 (with_fs f (set_mem placed_mem kernel2)) in
  with_con (with_keys (replicate 387 0) 0 0 (k_con k)) k.

Context (Hu : Forall (Forall is_u8) literals) (Him : image_ok image f) (Hdir : dir_ok image f) (Hlow : FOUR_MB_SIZE <= fs_addr f ∧ image_end f <= EIGHT_MB_SIZE).
Context (Hapart : outside_text (fs_addr f) (image_end f - fs_addr f)) (Hnext : 0 <= dir_location f <= num_dentries f).
Lemma placed_range l : 0x8060000 <= placed_at l.
Proof. unfold placed_at. lia. Qed.
Lemma placed_image x : fs_addr f <= x < image_end f → placed_mem x = image x.
Proof.
  intros Hx. unfold placed_mem. pose proof placed_range as Hr. revert Hr. generalize placed_at.
  intros at_l Hr. clear Hu. induction literals as [|l ls IH]; cbn [foldr]; [done|].
  rewrite blit_out; [exact IH|]. left. specialize (Hr l). unfold user_phys, EIGHT_MB_SIZE, FOUR_MB_SIZE, _128_MB_SIZE in *. lia.
Qed.
Lemma placed_mem_ok : mem_ok placed_mem.
Proof.
  unfold placed_mem. generalize placed_at. intros at_l. induction Hu as [|l ls Hl _ IH]; cbn [foldr]; [apply Him|].
  apply mem_ok_blit; [apply IH; by apply list.Forall_cons in Hu as [_ Hu]|by apply string_u8].
Qed.

Lemma placed_fresh : fresh 0x500000 0x501000 0x502000 1 1 1 [97; 98] placed_on pcb11.
Proof.
  split.
  - split; [| |done|apply tables1_rep|reflexivity|reflexivity].
    + apply (image_ok_frame image placed_mem f Him placed_image placed_mem_ok).
    + apply (dir_ok_frame image placed_mem f Him Hdir placed_image).
  - by exists (replicate 8 (FileDesc None 0 0 0)).
  - split; [by vm_compute|lia].
  - split; [done|by vm_compute].
  - split_and!; [repeat constructor; lia|done|done].
  - split; [by vm_compute|done].
  - intros t s. apply (console1_texts placed_mem).
  - done.
  - done.
Qed.
Lemma placed_rest : at_rest 1 (k_con placed_on) (enter_state placed_on).
Proof. split_and!; [split_and!; by vm_compute|by vm_compute..]. Qed.

(** The literals can be read in memory: a check that evaluates. *)
Definition literal_there (l : list Z) : bool :=
  bool_decide (bytes_of (mview placed_mem (user_phys 1 (placed_at l))) (Z.of_nat (length l) + 1) = l ++ [0]) &&
  (placed_at l + Z.of_nat (length l) <? 0x8070000) && forallb (λ c, negb (c =? 0)) l.
Lemma placed_literal n l : forallb literal_there literals = true → l ∈ literals →
  string_at (start_world 1 placed_on) (placed_at l) l ∧ (0x8050000 + n <= 0x8060000 → 0x8050000 + n <= placed_at l).
Proof.
  intros Hall Hl. rewrite forallb_forall in Hall. specialize (Hall l (proj1 (list_elem_of_In _ _) Hl)). unfold literal_there in Hall.
  apply andb_true_iff in Hall as [[Hb%bool_decide_eq_true Hr%Z.ltb_lt]%andb_true_iff Hz]. pose proof (placed_range l). split; [|lia].
  apply (start_string 1 placed_on); [split_and!; unfold _128_MB_SIZE, FOUR_MB_SIZE; lia| |exact Hb].
  rewrite forallb_forall in Hz. apply list.Forall_forall. intros c Hc. rewrite list_elem_of_In in Hc. specialize (Hz c Hc). by destruct (Z.eqb_spec c 0).
Qed.
End placed.

(** The memory and the image of Syscall. *)
Definition placed_kernel : list (list Z) → kernel := placed_on mem2 img_fs.
Lemma mem2_ok : image_ok mem2 img_fs ∧ dir_ok mem2 img_fs.
Proof.
  assert (Hs : ∀ x, fs_addr img_fs <= x < image_end img_fs → mem2 x = img x).
  { intros x Hx. change (image_end img_fs) with 0x705000 in Hx. unfold mem2. by rewrite blit_out by lia. }
  split; [|by apply (dir_ok_frame img mem2 img_fs img_ok img_dir_ok)]. apply (image_ok_frame img mem2 img_fs img_ok Hs). unfold mem2.
  apply mem_ok_blit; [apply img_ok|]. by repeat (constructor; [split; vm_compute; done|]); constructor.
Qed.
Lemma placed_kernel_fresh ls : Forall (Forall is_u8) ls → fresh 0x500000 0x501000 0x502000 1 1 1 [97; 98] (placed_kernel ls) pcb11.
Proof. intros Hu. destruct mem2_ok. apply placed_fresh; [done|done|done|by split; vm_compute|right; by vm_compute|by vm_compute]. Qed.

Lemma dialogues_on_kernel_witness :
  let sys := kernel_calls 0x500000 0x501000 0x502000 0x503000 (replicate 64 0) (typing (lit "0")) (λ _, O) (λ _ _ k, Done (0, k)) in
  let k := placed_kernel dialogue_literals in
  (∃ k', @hello kernel sys (placed_at dialogue_literals) 0x8050000 k = Done (0, k') ∧
    wrote 1 1 0x8050000 1024 (lit "Hi, what's your name? 0" ++ [10] ++ line "current tid: 1" ++ line "Hello, 0") k k') ∧
  ∃ k' dss, @counter kernel sys (placed_at dialogue_literals) 0x8050000 k = Done (0, k') ∧
    Forall2 (numeral 10) (seqZ 1 100) dss ∧
    wrote 1 1 0x8050000 1024 ((line "Enter the Test Number: (0): 100, (1): 10000, (2): 100000" ++
      line "0" ++ line "current tid: 1") ++ concat ((λ ds, ds ++ [10]) <$> dss)) k k'.
Proof.
  intros sys k.
  assert (Hu : Forall (Forall is_u8) dialogue_literals) by (vm_compute; repeat constructor; discriminate).
  assert (Hall : forallb (literal_there mem2 dialogue_literals) dialogue_literals = true) by (vm_compute; reflexivity).
  destruct (dialogues_on_kernel 0x500000 0x501000 0x502000 0x503000 (replicate 64 0) (typing (lit "0")) (λ _, O) (λ _ _ k, Done (0, k)) linked0
    k pcb11 1 1 1 [97; 98] (placed_kernel_fresh _ Hu) (placed_rest _ _ _) (lit "0") ltac:(by repeat constructor) ltac:(by vm_compute) (typing_types _)
    (placed_at dialogue_literals) 0x8050000) as [H1 (k' & E & H2)].
  - split_and!; by vm_compute.
  - intros l Hl. destruct (placed_literal mem2 img_fs dialogue_literals 1024 l Hall Hl) as [H1 H2]. split; [exact H1|right; apply H2; lia].
  - split; [exact H1|]. change (wrong_choice (take 127 (lit "0" ++ [10]))) with false in H2. destruct H2 as (dss & Hd & Hw).
    exists k', dss. split_and!; [exact E|exact Hd|exact Hw].
Defined.
