(* ===== verification/Syserr.v ===== *)
(** The test of the system call errors, src/syscalls/ece391syserr.c: the
    program, what it needs of the kernel beyond the promises to ordinary
    programs, and the verdicts it then prints. *)
From Stdlib Require Import String.
From S2P Require Import Prelude Memory Strings Console Filesystem Kernel Syscall User Programs.

Definition NEG_FD : Z := -1073741823.
Definition BIG_FD : Z := 1073741823.
Definition BIG_NUM : Z := 1073741823.
Definition NEG_NUM : Z := -1073741823.

(** * The calls the test makes beyond those of the other programs *)
Class Probes (St : Type) : Type := {
  ece391_vidmap : Z → St → out (Z * St);
  call_number : Z → St → out (Z * St) }.

(** * The program *)
Section program.
Context `{Syscalls St} `{Probes St}.
Context (rodata : list Z → Z).

(** [if (-1 != call) { fail = 2; fdputs(1, complaint); }], the form of nearly
    every check. *)
Definition expect (call : St → out (Z * St)) (complaint : list Z) (fail : Z) (st : St) : out (Z * St) :=
  '(r, st) ← call st;
  if negb (-1 =? r) then st ← puts rodata complaint st; Done (2, st) else Done (fail, st).
Definition verdict (name : string) (fail : Z) (st : St) : out (Z * St) :=
  if negb (fail =? 0) then st ← puts rodata (lit name ++ line ": FAIL") st; Done (fail, st)
  else st ← puts rodata (lit name ++ line ": PASS") st; Done (fail, st).

(** [buf] is the local array of the tests that have one. *)
Definition err_neg_fd (buf : Z) (st : St) : out (Z * St) :=
  '(fail, st) ← expect (ece391_read NEG_FD buf 31) (line "read fail") 0 st;
  '(fail, st) ← expect (ece391_write NEG_FD buf 31) (line "write fail") fail st;
  '(fail, st) ← expect (ece391_close NEG_FD) (line "close fail") fail st;
  verdict "err_neg_fd" fail st.
Definition err_big_fd (buf : Z) (st : St) : out (Z * St) :=
  '(fail, st) ← expect (ece391_read BIG_FD buf 31) (line "read fail") 0 st;
  '(fail, st) ← expect (ece391_write BIG_FD buf 31) (line "write fail") fail st;
  '(fail, st) ← expect (ece391_close BIG_FD) (line "close fail") fail st;
  verdict "err_big_fd" fail st.

Definition open_once (o : out (Z * St)) (i : Z) : out (Z * St) :=
  '(cnt, st) ← o; '(r, st) ← ece391_open (rodata (lit ".")) st; Done (if -1 =? r then cnt + 1 else cnt, st).
Definition close_once (o : out St) (i : Z) : out St := st ← o; '(_, st) ← ece391_close i st; Done st.
Definition err_open_lots (st : St) : out (Z * St) :=
  '(cnt, st) ← for_range 0 7 open_once (Done (0, st));
  st ← for_range 2 8 close_once (Done st);
  if cnt =? 1 then st ← puts rodata (line "err_open_lots: PASS") st; Done (0, st)
  else st ← puts rodata (line "err_open_lots: FAIL") st; Done (2, st).

Definition err_open (st : St) : out (Z * St) :=
  '(fail, st) ← expect (ece391_open (rodata (lit "helloo"))) (line "'helloo' fail") 0 st;
  '(fail, st) ← expect (ece391_open (rodata (lit "shel"))) (line "'shel' fail") fail st;
  '(fail, st) ← expect (ece391_open (rodata (lit ""))) (line "empty string fail") fail st;
  verdict "err_open" fail st.

Definition expect_each (call : Z → St → out (Z * St)) (complaint : list Z) (o : out (Z * St)) (i : Z) : out (Z * St) :=
  '(fail, st) ← o; expect (call i) complaint fail st.
Definition err_unopened (buf : Z) (st : St) : out (Z * St) :=
  '(fail, st) ← for_range 0 8 (expect_each ece391_close (line "close unopened or invalid fd fail")) (Done (0, st));
  '(fail, st) ← for_range 2 8 (expect_each (λ i, ece391_read i buf 31) (line "read from unopened fd fail")) (Done (fail, st));
  '(fail, st) ← for_range 2 8 (expect_each (λ i, ece391_write i buf 31) (line "write to unopened fd fail")) (Done (fail, st));
  verdict "err_unopened" fail st.

Definition err_vidmap (st : St) : out (Z * St) :=
  '(fail, st) ← expect (ece391_vidmap 0) (line "Null pointer fail") 0 st;
  '(fail, st) ← expect (ece391_vidmap 0x400000) (line "Kernel pointer fail fail") fail st;
  verdict "err_vidmap" fail st.

Definition err_stdin_out (buf : Z) (st : St) : out (Z * St) :=
  '(fail, st) ← expect (ece391_write 0 buf 31) (line "write to stdin fail") 0 st;
  '(fail, st) ← expect (ece391_read 1 buf 31) (line "read from stdout fail") fail st;
  verdict "err_stdin_out" fail st.

Definition err_syscall_num (st : St) : out (Z * St) :=
  '(fail, st) ← expect (call_number BIG_NUM) (line "syscall 0 fail") 0 st;
  '(fail, st) ← expect (call_number NEG_NUM) (line "big num syscall fail") fail st;
  '(fail, st) ← expect (call_number 0) (line "neg num syscall fail") fail st;
  verdict "err_syscall_num" fail st.

(** [main]; [buf] is its own array, [tbuf] that of the tests.  The tests of
    [case 0] run in the order of the source and their results add up. *)
Definition tests (tbuf : Z) : list (St → out (Z * St)) :=
  [err_neg_fd tbuf; err_big_fd tbuf; err_open_lots; err_open; err_unopened tbuf; err_vidmap; err_stdin_out tbuf; err_syscall_num].
Fixpoint run_tests (ts : list (St → out (Z * St))) (fail : Z) (st : St) : out (Z * St) :=
  match ts with [] => Done (fail, st) | t :: ts => '(r, st) ← t st; run_tests ts (fail + r) st end.
Definition syserr (buf tbuf : Z) (st : St) : out (Z * St) :=
  st ← puts rodata (lit "Choose from tests 1-8. 0 to run all: ") st;
  '(cnt, st) ← ece391_read 0 buf 127 st;
  if -1 =? cnt then st ← puts rodata (line "Can't read test #") st; Done (2, st) else
  c ← peek buf st;
  let select := c - 48 in
  if select =? 0 then
    '(fail, st) ← run_tests (tests tbuf) 0 st;
    if negb (fail =? 0) then st ← puts rodata ([10] ++ line "Overall Tests: FAIL") st; Done (fail, st)
    else st ← puts rodata ([10] ++ line "Overall Tests: PASS") st; Done (fail, st)
  else match zget (tests tbuf) (select - 1) with
       | Some test => test st
       | None => st ← puts rodata (lit "Invalid test number. Choose from tests 1-8 or 0") st; Done (0, st)
       end.
End program.

(** * What the kernel refuses *)
Definition closed (w : world) (fd : Z) : Prop := zget (w_fds w) fd = None ∨ zget (w_fds w) fd = Some Closed.
Class Refuses (St : Type) `{Promises St} `{!Probes St} : Type := {
  bad_read st w fd buf n : sees st w → closed w fd ∨ zget (w_fds w) fd = Some Stdout → gives sees (ece391_read fd buf n st) (-1) w;
  bad_write st w fd buf n : sees st w → closed w fd ∨ zget (w_fds w) fd = Some Stdin → gives sees (ece391_write fd buf n st) (-1) w;
  bad_close st w fd : sees st w → closed w fd ∨ fd < 2 → gives sees (ece391_close fd st) (-1) w;
  bad_vidmap st w a : sees st w → a < _128_MB_SIZE → gives sees (ece391_vidmap a st) (-1) w;
  bad_number st w n : sees st w → i32 n < 1 ∨ 11 < i32 n → gives sees (call_number n st) (-1) w }.

(** The names of the tests, and what is printed when all pass. *)
Definition test_names : list string :=
  ["err_neg_fd"; "err_big_fd"; "err_open_lots"; "err_open"; "err_unopened"; "err_vidmap"; "err_stdin_out"; "err_syscall_num"]%string.
Definition pass (name : string) : list Z := lit name ++ line ": PASS".
Definition syserr_report (c : Z) : list Z :=
  if c =? 48 then concat (pass <$> test_names) ++ [10] ++ line "Overall Tests: PASS"
  else match zget test_names (c - 49) with
       | Some name => pass name
       | None => lit "Invalid test number. Choose from tests 1-8 or 0"
       end.
Definition syserr_strings : list (list Z) :=
  [lit "Choose from tests 1-8. 0 to run all: "; lit "."; lit "helloo"; lit "shel"; lit ""; [10] ++ line "Overall Tests: PASS";
   lit "Invalid test number. Choose from tests 1-8 or 0"] ++ (pass <$> test_names).

(** * The verdicts *)
Section client.
Context `{Refuses St}.
Context (rodata : list Z → Z).

Lemma string_same w w' a l : w_mem w' = w_mem w → string_at w a l → string_at w' a l.
Proof. intros E [P1 P2 P3]. split; [done|done|by rewrite E]. Qed.

(** A check of a call that is refused. *)
Lemma expect_refused call complaint fail st w : gives sees (call st) (-1) w →
  ∃ st', expect rodata call complaint fail st = Done (fail, st') ∧ sees st' w.
Proof. intros (st' & E & Hs). exists st'. unfold expect. by rewrite E, bind_Done. Qed.

Section tests.
(** The memory during the tests, and no descriptor open but the first two. *)
Context (m : mem) (Hlit : ∀ l, l ∈ syserr_strings → string_at (World m [] 0 []) (rodata l) l).
Definition fds0 : list desc := [Stdin; Stdout] ++ replicate 6 Closed.
Definition here (next : Z) (printed : list Z) : world := World m fds0 next printed.

Lemma says_here st next o l : sees st (here next o) → l ∈ syserr_strings →
  ∃ st', puts rodata l st = Done st' ∧ sees st' (here next (o ++ l)).
Proof.
  intros Hs Hl. apply (fdputs_seen st (here next o) (rodata l) l Hs); [|done]. by apply (string_same (World m [] 0 [])), Hlit.
Qed.

(** The test prints that it passed and returns 0. *)
Definition passes (test : St → out (Z * St)) (name : string) : Prop := ∀ st next o, sees st (here next o) →
  ∃ st' next', test st = Done (0, st') ∧ sees st' (here next' (o ++ pass name)).

Lemma verdict_passes name st next o : pass name ∈ syserr_strings → sees st (here next o) →
  ∃ st', verdict rodata name 0 st = Done (0, st') ∧ sees st' (here next (o ++ pass name)).
Proof.
  intros Hin Hs. unfold verdict. cbn [Z.eqb negb]. destruct (says_here st next o (pass name) Hs Hin) as (st' & E & Hs').
  exists st'. fold (pass name). by rewrite E, bind_Done.
Qed.
Lemma named_pass name : name ∈ test_names → pass name ∈ syserr_strings.
Proof. intros H'. apply elem_of_app. right. by apply list_elem_of_fmap_2. Qed.

Lemma fd_outside next o fd : fd < 0 ∨ 8 <= fd → closed (here next o) fd.
Proof.
  intros Hfd. left. unfold zget. destruct (Z.ltb_spec fd 0); [done|]. apply lookup_ge_None_2. cbn. lia.
Qed.
Lemma fd_unopened next o fd : 2 <= fd < 8 → closed (here next o) fd.
Proof.
  intros Hfd. right. assert (fd = 2 ∨ fd = 3 ∨ fd = 4 ∨ fd = 5 ∨ fd = 6 ∨ fd = 7) as Hc by lia.
  by repeat destruct Hc as [-> | Hc]; try subst fd.
Qed.

(** One refused check after another. *)
Ltac refused lem := match goal with
  | Hs : sees ?st ?w |- context [expect _ ?call ?msg ?f ?st] =>
      let st' := fresh "st" in let E := fresh "E" in let Hs' := fresh "Hs" in
      destruct (expect_refused call msg f st w) as (st' & E & Hs'); [apply lem; [exact Hs|]|rewrite E, bind_Done; clear E Hs]
  end.
Ltac finish := match goal with
  | Hs : sees ?st (here ?next ?o) |- context [verdict _ ?name 0 ?st] =>
      let E := fresh "E" in destruct (verdict_passes name st next o) as (? & E & ?); [apply named_pass; listed|exact Hs|rewrite E; by do 2 eexists]
  end.

Lemma neg_fd_passes buf : passes (err_neg_fd rodata buf) "err_neg_fd".
Proof.
  intros st next o Hs. unfold err_neg_fd. pose proof (fd_outside next o NEG_FD (or_introl eq_refl)) as Hc.
  refused bad_read; [by left|]. refused bad_write; [by left|]. refused bad_close; [by left|]. finish.
Qed.
Lemma big_fd_passes buf : passes (err_big_fd rodata buf) "err_big_fd".
Proof.
  intros st next o Hs. unfold err_big_fd. assert (Hc : closed (here next o) BIG_FD) by (apply fd_outside; unfold BIG_FD; lia).
  refused bad_read; [by left|]. refused bad_write; [by left|]. refused bad_close; [by left|]. finish.
Qed.
Lemma vidmap_passes : passes (err_vidmap rodata) "err_vidmap".
Proof. intros st next o Hs. unfold err_vidmap. refused bad_vidmap; [done|]. refused bad_vidmap; [done|]. finish. Qed.
Lemma stdin_out_passes buf : passes (err_stdin_out rodata buf) "err_stdin_out".
Proof. intros st next o Hs. unfold err_stdin_out. refused bad_write; [by right|]. refused bad_read; [by right|]. finish. Qed.
Lemma syscall_num_passes : passes (err_syscall_num rodata) "err_syscall_num".
Proof.
  intros st next o Hs. unfold err_syscall_num.
  refused bad_number; [right; by vm_compute|]. refused bad_number; [left; by vm_compute|]. refused bad_number; [left; by vm_compute|]. finish.
Qed.

(** A loop of refused checks. *)
Lemma each_refused call complaint lo hi st w : lo <= hi → sees st w → (∀ i st, lo <= i < hi → sees st w → gives sees (call i st) (-1) w) →
  ∃ st', for_range lo hi (expect_each rodata call complaint) (Done (0, st)) = Done (0, st') ∧ sees st' w.
Proof.
  intros Hle Hs Hcall. apply (for_range_ind (λ _ o, ∃ st', o = Done (0, st') ∧ sees st' w)); [done|by exists st|].
  intros i o Hi (st1 & -> & Hs1). unfold expect_each. rewrite bind_Done. by apply expect_refused, Hcall.
Qed.
Lemma unopened_passes buf : passes (err_unopened rodata buf) "err_unopened".
Proof.
  intros st next o Hs. unfold err_unopened.
  destruct (each_refused ece391_close (line "close unopened or invalid fd fail") 0 8 st (here next o)) as (st1 & -> & Hs1); [lia|done| |].
  { intros i st1 Hi Hs1. apply bad_close; [done|]. destruct (decide (i < 2)); [by right|left; apply fd_unopened; lia]. }
  rewrite bind_Done. destruct (each_refused (λ i, ece391_read i buf 31) (line "read from unopened fd fail") 2 8 st1 (here next o)) as (st2 & -> & Hs2); [lia|done| |].
  { intros i st2 Hi Hs2. apply bad_read; [done|]. left. by apply fd_unopened. }
  rewrite bind_Done. destruct (each_refused (λ i, ece391_write i buf 31) (line "write to unopened fd fail") 2 8 st2 (here next o)) as (st3 & -> & Hs3); [lia|done| |].
  { intros i st3 Hi Hs3. apply bad_write; [done|]. left. by apply fd_unopened. }
  rewrite bind_Done. clear Hs Hs1 Hs2. finish.
Qed.

(** Opening the directory until no descriptor is left. *)
Context (Hdot : node_of (lit ".") = Some Directory).
Context (Hmissing : ∀ l, l ∈ [lit "helloo"; lit "shel"; lit ""] → node_of l = None).

Lemma literal_string w l : w_mem w = m → l ∈ syserr_strings → string_at w (rodata l) l.
Proof. intros E Hl. by apply (string_same (World m [] 0 [])), Hlit. Qed.

Definition opened (next : Z) (o : list Z) (i : Z) : world :=
  World m ([Stdin; Stdout] ++ replicate (Z.to_nat i) Dir ++ replicate (6 - Z.to_nat i) Closed) next o.
Lemma opens_six st next o : sees st (here next o) → ∃ st', for_range 0 7 (open_once rodata) (Done (0, st)) = Done (1, st') ∧ sees st' (opened 0 o 6).
Proof.
  intros Hs. change 7 with (6 + 1). rewrite for_range_snoc by lia.
  assert (H6 : ∃ st', for_range 0 6 (open_once rodata) (Done (0, st)) = Done (0, st') ∧ ∃ next', (6 = 0 ∨ next' = 0) ∧ sees st' (opened next' o 6)).
  { apply (for_range_ind (λ i r, ∃ st', r = Done (0, st') ∧ ∃ next', (i = 0 ∨ next' = 0) ∧ sees st' (opened next' o i))); [lia|exists st; split; [done|]; exists next; by split; [left|]|].
    intros i r Hi (st1 & -> & n & _ & Hs1). unfold open_once. rewrite bind_Done.
    destruct (open_directory st1 (opened n o i) (rodata (lit ".")) (lit ".") (i + 2) Hs1) as (st2 & -> & Hs2); [apply literal_string; [done|listed]|done| |].
    { assert (i = 0 ∨ i = 1 ∨ i = 2 ∨ i = 3 ∨ i = 4 ∨ i = 5) as Hc by lia. by repeat destruct Hc as [-> | Hc]; try subst i. }
    rewrite bind_Done, (proj2 (Z.eqb_neq (-1) _)) by lia. exists st2. split; [done|]. exists 0. split; [by right|].
    assert (i = 0 ∨ i = 1 ∨ i = 2 ∨ i = 3 ∨ i = 4 ∨ i = 5) as Hc by lia. by repeat destruct Hc as [-> | Hc]; try subst i. }
  destruct H6 as (st1 & -> & n & [? | ->] & Hs1); [lia|]. unfold open_once. rewrite bind_Done.
  destruct (open_full st1 (opened 0 o 6) (rodata (lit ".")) (lit ".") Directory Hs1) as (st2 & -> & Hs2); [apply literal_string; [done|listed]|done|done|].
  rewrite bind_Done. by exists st2.
Qed.
Lemma closes_six st o : sees st (opened 0 o 6) → ∃ st', for_range 2 8 close_once (Done st) = Done st' ∧ sees st' (here 0 o).
Proof.
  intros Hs. apply (for_range_ind (λ i r, ∃ st', r = Done st' ∧
    sees st' (World m ([Stdin; Stdout] ++ replicate (Z.to_nat (i - 2)) Closed ++ replicate (6 - Z.to_nat (i - 2)) Dir) 0 o))); [lia|by exists st|].
  intros i r Hi (st1 & -> & Hs1). unfold close_once. rewrite bind_Done.
  assert (i = 2 ∨ i = 3 ∨ i = 4 ∨ i = 5 ∨ i = 6 ∨ i = 7) as Hc by lia.
  destruct (close_desc st1 _ i Dir Hs1) as (st2 & -> & Hs2); [lia| |done|].
  { by repeat destruct Hc as [-> | Hc]; try subst i. }
  rewrite bind_Done. exists st2. split; [done|]. by repeat destruct Hc as [-> | Hc]; try subst i.
Qed.
Lemma open_lots_passes : passes (err_open_lots rodata) "err_open_lots".
Proof.
  intros st next o Hs. unfold err_open_lots. destruct (opens_six st next o Hs) as (st1 & -> & Hs1). rewrite bind_Done.
  destruct (closes_six st1 o Hs1) as (st2 & -> & Hs2). rewrite bind_Done. change (1 =? 1) with true. cbv iota.
  destruct (says_here st2 0 o (pass "err_open_lots") Hs2) as (st3 & E & Hs3); [apply named_pass; listed|].
  change (line "err_open_lots: PASS") with (pass "err_open_lots"). rewrite E, bind_Done. by exists st3, 0.
Qed.
Lemma open_passes : passes (err_open rodata) "err_open".
Proof.
  intros st next o Hs. unfold err_open.
  assert (Hno : ∀ l st, l ∈ [lit "helloo"; lit "shel"; lit ""] → sees st (here next o) → gives sees (ece391_open (rodata l) st) (-1) (here next o)).
  { intros l st1 Hl Hs1. apply (open_missing st1 _ (rodata l) l Hs1); [apply literal_string; [done|]|by apply Hmissing].
    assert (l = lit "helloo" ∨ l = lit "shel" ∨ l = lit "") as [-> | [-> | ->]] by (by apply list_elem_of_In in Hl as [<- | [<- | [<- | []]]]; auto); listed. }
  destruct (expect_refused (ece391_open (rodata (lit "helloo"))) (line "'helloo' fail") 0 st _ (Hno (lit "helloo") st ltac:(listed) Hs)) as (st1 & -> & Hs1). rewrite bind_Done.
  destruct (expect_refused (ece391_open (rodata (lit "shel"))) (line "'shel' fail") 0 st1 _ (Hno (lit "shel") st1 ltac:(listed) Hs1)) as (st2 & -> & Hs2). rewrite bind_Done.
  destruct (expect_refused (ece391_open (rodata (lit ""))) (line "empty string fail") 0 st2 _ (Hno (lit "") st2 ltac:(listed) Hs2)) as (st3 & -> & Hs3). rewrite bind_Done.
  clear Hs Hs1 Hs2. finish.
Qed.

Lemma all_pass tbuf : Forall2 passes (tests rodata tbuf) test_names.
Proof.
  repeat (constructor; [first [apply neg_fd_passes|apply big_fd_passes|apply open_lots_passes|apply open_passes|apply unopened_passes|
    apply vidmap_passes|apply stdin_out_passes|apply syscall_num_passes]|]). constructor.
Qed.
Lemma run_tests_passes ts names : Forall2 passes ts names → ∀ fail st next o, sees st (here next o) →
  ∃ st' next', run_tests ts fail st = Done (fail, st') ∧ sees st' (here next' (o ++ concat (pass <$> names))).
Proof.
  induction 1 as [|t name ts names Ht _ IH]; intros fail st next o Hs; cbn [run_tests].
  - exists st, next. cbn. by rewrite app_nil_r.
  - destruct (Ht st next o Hs) as (st1 & n1 & -> & Hs1). rewrite bind_Done, Z.add_0_r.
    destruct (IH fail st1 n1 _ Hs1) as (st2 & n2 & -> & Hs2). exists st2, n2. cbn. by rewrite app_assoc.
Qed.
End tests.

(** [main]: the choice is the first character of the answer. *)
Context `{!Listens St}.
Context (buf tbuf : Z) (Hbuf : user_buf buf 128) (w : world) (Hfds : w_fds w = fds0).
Context (Hlit : ∀ l, l ∈ syserr_strings → string_at w (rodata l) l ∧ (rodata l + Z.of_nat (length l) + 1 <= buf ∨ buf + 128 <= rodata l)).
Context (Hdot : node_of (lit ".") = Some Directory).
Context (Hmissing : ∀ l, l ∈ [lit "helloo"; lit "shel"; lit ""] → node_of l = None).
Context (c : Z) (rest : list Z) (Hanswer : answer = c :: rest).

Definition syserr_mem : mem := blit (w_mem w) buf (take 127 answer ++ [0]).
Lemma syserr_literals l : l ∈ syserr_strings → string_at (World syserr_mem [] 0 []) (rodata l) l.
Proof.
  intros Hl. destruct (Hlit l Hl) as [P Hout]. apply (string_outside buf (buf + 128) w); [|lia|done].
  apply blit_only_in; [lia|]. rewrite length_app, length_take. cbn [length]. lia.
Qed.
Lemma answer_there : syserr_mem buf = c.
Proof.
  unfold syserr_mem. rewrite Hanswer. change (take 127 (c :: rest) ++ [0]) with (c :: (take 126 rest ++ [0])).
  replace buf with (buf + 0) at 2 by lia. by apply blit_in.
Qed.

Lemma syserr_reports st : sees st w → ∃ st' next, syserr rodata buf tbuf st = Done (0, st') ∧
  sees st' (World syserr_mem fds0 next (w_out w ++ lit "Choose from tests 1-8. 0 to run all: " ++ echoed ++ syserr_report c)).
Proof.
  intros Hs. unfold syserr. pose proof Hbuf as (B1 & B2 & B3).
  destruct (fdputs_seen st w (rodata (lit "Choose from tests 1-8. 0 to run all: ")) _ Hs (proj1 (Hlit _ ltac:(listed)))) as (st1 & E1 & Hs1); [by rewrite Hfds|].
  rewrite (E1 : puts rodata (lit "Choose from tests 1-8. 0 to run all: ") st = _), bind_Done.
  destruct (read_line st1 _ buf 127 Hs1) as (st2 & -> & Hs2); [cbn; by rewrite Hfds|done|lia|]. rewrite bind_Done, (proj2 (Z.eqb_neq (-1) _)) by lia.
  unfold print, with_wmem in Hs2. cbn [w_mem w_fds w_next w_out] in Hs2. change (Z.to_nat 127) with 127%nat in Hs2. rewrite Hfds, <- app_assoc in Hs2.
  fold syserr_mem in Hs2. fold (here syserr_mem (w_next w) (w_out w ++ lit "Choose from tests 1-8. 0 to run all: " ++ echoed)) in Hs2.
  set (o := w_out w ++ lit "Choose from tests 1-8. 0 to run all: " ++ echoed) in *.
  assert (Epeek : peek buf st2 = Done c).
  { unfold peek. rewrite (user_seen st2 _ buf Hs2) by (split_and!; lia). exact (f_equal Done answer_there). }
  rewrite Epeek, bind_Done. cbv zeta. pose proof (all_pass syserr_mem syserr_literals Hdot Hmissing tbuf) as Hall.
  unfold syserr_report. replace (c - 48 =? 0) with (c =? 48) by (destruct (Z.eqb_spec c 48), (Z.eqb_spec (c - 48) 0); lia).
  replace (c - 48 - 1) with (c - 49) by lia. rewrite !(app_assoc (w_out w)), !(app_assoc (w_out w ++ _)). rewrite <- (app_assoc (w_out w)). fold o.
  destruct (c =? 48).
  - destruct (run_tests_passes _ _ _ Hall 0 st2 _ o Hs2) as (st3 & n3 & -> & Hs3). rewrite bind_Done. cbn [Z.eqb negb].
    destruct (says_here syserr_mem syserr_literals st3 n3 _ ([10] ++ line "Overall Tests: PASS") Hs3) as (st4 & -> & Hs4); [listed|].
    rewrite bind_Done. exists st4, n3. rewrite <- app_assoc in Hs4. by split.
  - destruct (zget (tests rodata tbuf) (c - 49)) as [t|] eqn:Et.
    + apply zget_Some in Et as [Hi Et]. destruct (Forall2_lookup_l _ _ _ _ _ Hall Et) as (name & En & Ht).
      assert (Ez : zget test_names (c - 49) = Some name) by by apply zget_Some. rewrite Ez.
      exact (Ht st2 _ o Hs2).
    + assert (Ez : zget test_names (c - 49) = None).
      { unfold zget in *. destruct (c - 49 <? 0); [done|]. apply lookup_ge_None_2. apply lookup_ge_None_1 in Et. exact Et. }
      rewrite Ez. destruct (says_here syserr_mem syserr_literals st2 _ o (lit "Invalid test number. Choose from tests 1-8 or 0") Hs2) as (st3 & -> & Hs3); [listed|].
      rewrite bind_Done. by exists st3, (w_next w).
Qed.
End client.
