(* ===== verification/Selftest.v ===== *)
(** The test of the system call errors on the kernel: the kernel refuses what
    the test expects to be refused, so every test passes. *)
From Stdlib Require Import String.
From stdpp Require Import gmap.
From S2P Require Import Prelude Memory Strings Console Filesystem Paging Pic Rtc Kernel Terminal Syscall Tables Process Sb16 Keyboard Calls Linkage User Programs Userland Session Dialogue Answers Syserr.

(** The descriptors a process starts with. *)
Lemma fds_same : start_fds = fds0.
Proof. done. Qed.

Section refuses.
Context (dir_addr table_addr vidmem_addr magics : Z) (stack_dentry : dentry_t).
Context (typed : Z → console * Z → console * Z) (ticks : Z → nat) (child : Z → Z → kernel → out (Z * kernel)).
(** The registers and the kernel stack when [call_sys] traps, the sound card
    and what compiled functions leave behind. *)
Context (dsp : Z → Z → Z) (DMA_Buffer magic dh : Z) (left_over : Z → Z * Z * Z → Z * Z * Z * Z * Z) (kernel_stack : list Z) (m : cpu) (s : sb).

Definition user_call_sys (num : Z) (k : kernel) : out (Z * kernel) :=
  '(r, st) ← call_sys (jumptable dir_addr table_addr vidmem_addr magics stack_dentry typed ticks dsp DMA_Buffer magic dh left_over)
    num kernel_stack m (s, k);
  r ← must r; Done (r, snd st).
Definition kernel_probes : Probes kernel := {|
  ece391_vidmap := vidmap dir_addr table_addr vidmem_addr;
  call_number := user_call_sys |}.

Context (Hlink : linked dir_addr table_addr vidmem_addr).
Context (k0 : kernel) (p0 : pcb_t) (id tid : Z) (nb : nat) (a : list Z) (H0 : fresh dir_addr table_addr vidmem_addr id tid nb a k0 p0).
Context (devices : world → kernel → Prop) (Hdevices : ∀ w w' k k', undisturbed w w' k k' → devices w k → devices w' k').
Context (starts : (Z → tscreen) → Prop) (Hstarts : ∀ s0, starts s0 → ∀ t, 0 <= t < 3 → ts_ok (s0 t)).
Context (fine : Z → bool) (Hfine : ∀ i, fine i = true → inode_ok (k_mem k0) (k_fs k0) i).

#[local] Instance calls_here : Syscalls kernel := kernel_calls dir_addr table_addr vidmem_addr magics stack_dentry typed ticks child.
#[local] Instance kept_here : Promises kernel :=
  promises_from dir_addr table_addr vidmem_addr magics stack_dentry typed ticks child Hlink k0 p0 id tid nb a H0 devices Hdevices starts Hstarts fine Hfine.
#[local] Instance probes_here : Probes kernel := kernel_probes.

Let world_here := in_world dir_addr table_addr vidmem_addr id tid (k_mem k0) (k_fs k0) starts nb a devices.
Lemma sees_world k w : sees k w → ∃ p, world_here p k w.
Proof. done. Qed.

Lemma closed_here p k w fd : world_here p k w → closed w fd → closed_fd p fd.
Proof.
  intros H [Hn|Hc].
  - left. intros Hr. destruct (zget_is_Some (w_fds w) fd) as [x Hx]; [|congruence].
    rewrite <- (Forall2_length (iw_fds _ _ _ _ _ _ _ _ _ _ _ _ _ _ H)), (so_files _ _ _ _ _ _ (iw_sys _ _ _ _ _ _ _ _ _ _ _ _ _ _ H)). done.
  - right. destruct (file_of _ _ _ _ _ _ _ _ _ _ (proj2 (fr_args _ _ _ _ _ _ _ _ _ H0)) (proj2 (proj2 (fr_text _ _ _ _ _ _ _ _ _ H0))) _ p k w fd Closed H Hc)
      as (_ & d & Hd & Hr). by exists d.
Qed.
Lemma open_here p k w fd x f (no : file_operation_ptrs → Prop) : world_here p k w → zget (w_fds w) fd = Some x →
  (∀ d, refers (k_mem k0) (k_fs k0) d x → flags d = IN_USE ∧ ptrs d = Some f) → no f → open_as p fd no.
Proof.
  intros H Hx Hf Hno. destruct (file_of _ _ _ _ _ _ _ _ _ _ (proj2 (fr_args _ _ _ _ _ _ _ _ _ H0)) (proj2 (proj2 (fr_text _ _ _ _ _ _ _ _ _ H0))) _ p k w fd x H Hx)
    as (_ & d & Hd & Hr). destruct (Hf d Hr) as [E1 E2]. by exists d, f.
Qed.

Lemma kernel_bad_read k w fd buf n : sees k w → closed w fd ∨ zget (w_fds w) fd = Some Stdout → gives sees (ece391_read fd buf n k) (-1) w.
Proof.
  intros [p H]%sees_world Hbad. exists k. split; [|by exists p].
  apply (read_refused _ _ _ stack_dentry id k p (iw_sys _ _ _ _ _ _ _ _ _ _ _ _ _ _ H)). destruct Hbad as [Hc|Ho].
  - left. by apply (closed_here p k w).
  - do 3 right. apply (open_here p k w fd Stdout stdout_funcs); [done|done|done|by right].
Qed.
Lemma kernel_bad_write k w fd buf n : sees k w → closed w fd ∨ zget (w_fds w) fd = Some Stdin → gives sees (ece391_write fd buf n k) (-1) w.
Proof.
  intros [p H]%sees_world Hbad. exists k. split; [|by exists p].
  apply (write_refused _ _ _ id k p (iw_sys _ _ _ _ _ _ _ _ _ _ _ _ _ _ H)). destruct Hbad as [Hc|Ho].
  - left. by apply (closed_here p k w).
  - do 3 right. apply (open_here p k w fd Stdin stdin_funcs); [done|done|done|right; by left].
Qed.
Lemma kernel_bad_close k w fd : sees k w → closed w fd ∨ fd < 2 → gives sees (ece391_close fd k) (-1) w.
Proof.
  intros [p H]%sees_world Hbad. exists k. split; [|by exists p].
  apply (close_refused _ _ _ id k p (iw_sys _ _ _ _ _ _ _ _ _ _ _ _ _ _ H)). destruct Hbad as [Hc|?]; [left|by right]. by apply (closed_here p k w).
Qed.
Lemma kernel_bad_vidmap k w x : sees k w → x < _128_MB_SIZE → gives sees (ece391_vidmap x k) (-1) w.
Proof. intros Hs Hx. exists k. split; [|done]. apply vidmap_refused. by left. Qed.
Lemma kernel_bad_number k w n : sees k w → i32 n < 1 ∨ 11 < i32 n → gives sees (call_number n k) (-1) w.
Proof.
  intros Hs Hn. exists k. split; [|done]. change (call_number n k) with (user_call_sys n k). unfold user_call_sys, call_sys, int80, movl. cbn [rf stack].
  rewrite gate_refuses; [reflexivity|]. cbn [eax set_eax]. unfold i32 in *. by rewrite u32_u32.
Qed.
Definition refuses_here : Refuses kernel := {|
  bad_read := kernel_bad_read;
  bad_write := kernel_bad_write;
  bad_close := kernel_bad_close;
  bad_vidmap := kernel_bad_vidmap;
  bad_number := kernel_bad_number |}.
End refuses.

(** C9. The kernel passes its own test.  ece391syserr, run by [execute] in a
    process on the displayed terminal of a kernel whose image has a directory
    entry "." and no file "helloo", "shel" or "", reads the line that is typed
    and finishes with 0: for a choice from 1 to 8 it prints that that test
    passed, for 0 that each of the eight passed, in order, and that all did,
    and otherwise that the choice is invalid.  So reads, writes and closes of
    numbers that are no descriptor or not open, writes to standard input and
    reads of standard output, opening with every descriptor in use, names one
    character longer or shorter than a file's, [vidmap] outside the program
    and unknown call numbers are all refused, through the gate, and leave the
    process able to go on; nothing but the terminal and the program's own
    buffer changes. *)
Theorem syserr_on_kernel (dir_addr table_addr vidmem_addr magics : Z) (stack_dentry : dentry_t)
    (typed : Z → console * Z → console * Z) (ticks : Z → nat) (child : Z → Z → kernel → out (Z * kernel))
    (dsp : Z → Z → Z) (DMA_Buffer magic dh : Z) (left_over : Z → Z * Z * Z → Z * Z * Z * Z * Z) (kernel_stack : list Z) (m : cpu) (s : sb)
    (Hlink : linked dir_addr table_addr vidmem_addr) (k : kernel) (p : pcb_t) (id tid : Z) (nb : nat) (a : list Z)
    (H : fresh dir_addr table_addr vidmem_addr id tid nb a k p) (Hrest : at_rest tid (k_con k) (enter_state k))
    (c : Z) (cs : list Z) (Hcs : Forall (λ c, 0 < c < 256) (c :: cs)) (Hlen : Z.of_nat (length (c :: cs)) < KEY_ARR_SIZE - 1 + 255)
    (Htyped : types (c :: cs) typed) (rodata : list Z → Z) (buf tbuf : Z) (Hbuf : user_buf buf 128)
    (Hlit : ∀ l, l ∈ syserr_strings → message rodata buf 128 (start_world id k) l)
    (Hdot : ∃ i, entry_of (k_mem k) (k_fs k) (lit ".") = Some i ∧ entry_type (k_mem k) (k_fs k) i = DIR_TYPE)
    (Hmissing : ∀ l, l ∈ [lit "helloo"; lit "shel"; lit ""] → entry_of (k_mem k) (k_fs k) l = None) :
  let sys := kernel_calls dir_addr table_addr vidmem_addr magics stack_dentry typed ticks child in
  let probes := kernel_probes dir_addr table_addr vidmem_addr magics stack_dentry typed ticks dsp DMA_Buffer magic dh left_over kernel_stack m s in
  ∃ k', @syserr kernel sys probes rodata buf tbuf k = Done (0, k') ∧
    wrote id tid buf 128 (lit "Choose from tests 1-8. 0 to run all: " ++ (c :: cs ++ [10] ++ tid_message tid) ++ syserr_report c) k k'.
Proof.
  intros sys probes.
  set (pr := promises_at_rest dir_addr table_addr vidmem_addr magics stack_dentry typed ticks child Hlink k p id tid nb a H no_fine (no_fine_ok k)).
  set (ls := listens_here dir_addr table_addr vidmem_addr magics stack_dentry typed ticks child Hlink k p id tid nb a H (c :: cs) Hcs Hlen Htyped no_fine (no_fine_ok k)).
  set (rf := refuses_here dir_addr table_addr vidmem_addr magics stack_dentry typed ticks child dsp DMA_Buffer magic dh left_over kernel_stack m s
    Hlink k p id tid nb a H (resting tid) (rest_kept tid) (eq (start_text k)) (fresh_start_ok _ _ _ k p id tid nb a H) no_fine (no_fine_ok k)).
  destruct (@syserr_reports kernel sys pr probes rf rodata ls buf tbuf Hbuf (start_world id k) eq_refl Hlit) with (c := c) (rest := take 126 (cs ++ [10])) (st := k)
    as (k' & next & E & Hs).
  - destruct Hdot as (i & Ei & Et). change (image_node no_fine (k_mem k) (k_fs k) (lit ".") = Some Directory). unfold image_node. rewrite Ei. cbn [fmap option_fmap option_map].
    by rewrite Et, andb_false_r.
  - intros l Hl. change (image_node no_fine (k_mem k) (k_fs k) l = None). unfold image_node. by rewrite Hmissing.
  - reflexivity.
  - exact (fresh_sees _ _ _ k p id tid nb a H (resting tid) Hrest).
  - exists k'. split; [exact E|].
    apply (sees_wrote dir_addr table_addr vidmem_addr k p id tid nb a H (resting tid) k' (World _ fds0 next _) buf 128 Hs).
    apply blit_only_in; [lia|]. rewrite length_app, length_take. cbn [length]. lia.
Qed.

(** Process 1 on terminal 1; the user asks for all tests. *)
Lemma syserr_on_kernel_witness :
  let k := placed_kernel syserr_strings in
  ∃ k', @syserr kernel (kernel_calls 0x500000 0x501000 0x502000 0x503000 (replicate 64 0) (typing (lit "0")) (λ _, O) (λ _ _ k, Done (0, k)))
      (kernel_probes 0x500000 0x501000 0x502000 0x503000 (replicate 64 0) (typing (lit "0")) (λ _, O) (λ _ _, 0) 0x300000 0x310000 0
        (λ _ w, (w, 7, 8)) [] (Cpu (Regs 1 2 3 4 5 6 7) []) sb31) (placed_at syserr_strings) 0x8050000 0x8052000 k = Done (0, k') ∧
    wrote 1 1 0x8050000 128 (lit "Choose from tests 1-8. 0 to run all: " ++ line "0" ++ line "current tid: 1" ++
      line "err_neg_fd: PASS" ++ line "err_big_fd: PASS" ++ line "err_open_lots: PASS" ++ line "err_open: PASS" ++ line "err_unopened: PASS" ++
      line "err_vidmap: PASS" ++ line "err_stdin_out: PASS" ++ line "err_syscall_num: PASS" ++ [10] ++ line "Overall Tests: PASS") k k'.
Proof.
  intros k.
  assert (Hu : Forall (Forall is_u8) syserr_strings) by (vm_compute; repeat constructor; discriminate).
  assert (Hall : forallb (literal_there mem2 syserr_strings) syserr_strings = true) by (vm_compute; reflexivity).
  destruct (syserr_on_kernel 0x500000 0x501000 0x502000 0x503000 (replicate 64 0) (typing (lit "0")) (λ _, O) (λ _ _ k, Done (0, k))
    (λ _ _, 0) 0x300000 0x310000 0 (λ _ w, (w, 7, 8)) [] (Cpu (Regs 1 2 3 4 5 6 7) []) sb31 linked0
    k pcb11 1 1 1 [97; 98] (placed_kernel_fresh _ Hu) (placed_rest _ _ _) 48 [] ltac:(by repeat constructor) ltac:(by vm_compute) (typing_types _)
    (placed_at syserr_strings) 0x8050000 0x8052000) as (k' & E & Hw).
  - split_and!; by vm_compute.
  - intros l Hl. destruct (placed_literal mem2 img_fs syserr_strings 128 l Hall Hl) as [H1 H2]. split; [exact H1|right; apply H2; lia].
  - exists 0. split; by vm_compute.
  - intros l Hl. apply list_elem_of_In in Hl as [<- | [<- | [<- | []]]]; by vm_compute.
  - exists k'. split; [exact E|exact Hw].
Defined.
