(* ===== verification/Pingpong.v ===== *)
(** ece391pingpong.c over the interface of User: a letter that runs from wall
    to wall and back, one step per tick of the clock, without end. *)
From Stdlib Require Import String.
From S2P Require Import Prelude Memory Strings Console Filesystem Kernel Syscall User Programs.

Definition SCREENWIDTH : Z := 79.
Definition ENDING : Z := 2.
Definition BUFMAX : Z := SCREENWIDTH + ENDING.
Definition START : Z := 1.
Definition STARTLOOP : Z := START + 1.
Definition LOOPMAX : Z := BUFMAX - ENDING - 1.
Definition STARTCHAR : Z := 65.
Definition ENDCHAR : Z := 90.

(** * The program *)
Section program.
Context `{Syscalls St}.
Context (rodata : list Z → Z).

(** A store of an [int]. *)
Definition poke32 (a v : Z) (st : St) : out St :=
  st ← poke a (u8 v) st; st ← poke (a + 1) (u8 (Z.shiftr v 8)) st;
  st ← poke (a + 2) (u8 (Z.shiftr v 16)) st; poke (a + 3) (u8 (Z.shiftr v 24)) st.
(** A load of an [int]. *)
Definition peek32 (a : Z) (st : St) : out Z :=
  b0 ← peek a st; b1 ← peek (a + 1) st; b2 ← peek (a + 2) st; b3 ← peek (a + 3) st;
  Done (b0 + 2 ^ 8 * b1 + 2 ^ 16 * b2 + 2 ^ 24 * b3).
(** [for (i = lo; i < hi; i++) buf[i] = c;] *)
Definition fill (buf c lo hi : Z) (st : St) : out St :=
  for_range lo hi (λ o i, st ← o; poke (buf + i) c st) (Done st).

Section locals.
(** The addresses of the locals [buf], [ret_val] and [garbage]. *)
Context (buf ret_val garbage : Z).

Definition draw (rtc_fd curchar j : Z) (st : St) : out St :=
  st ← fill buf 32 STARTLOOP LOOPMAX st;
  st ← poke (buf + j) curchar st;
  st ← ece391_fdputs 1 buf st;
  '(_, st) ← ece391_read rtc_fd garbage 4 st; Done st.

(** One pass through [while (1)]: the new letter and the state. *)
Definition round (rtc_fd curchar : Z) (st : St) : out (Z * St) :=
  st ← for_range STARTLOOP LOOPMAX (λ o j, st ← o; draw rtc_fd curchar j st) (Done st);
  st ← for_range 0 (LOOPMAX - STARTLOOP) (λ o i, st ← o; draw rtc_fd curchar (LOOPMAX - 1 - i) st) (Done st);
  Done (if curchar =? ENDCHAR then STARTCHAR else u8 (curchar + 1), st).
Fixpoint rounds (n : nat) (rtc_fd curchar : Z) (st : St) : out (Z * St) :=
  match n with O => Done (curchar, st) | S n => '(curchar, st) ← round rtc_fd curchar st; rounds n rtc_fd curchar st end.

(** [main] up to the end of the [n]-th pass; it never returns. *)
Definition pingpong (n : nat) (st : St) : out (Z * St) :=
  st ← fill buf 32 0 BUFMAX st;
  st ← poke (buf + (BUFMAX - 1)) 0 st;
  st ← poke (buf + (BUFMAX - 2)) 10 st;
  st ← poke (buf + (BUFMAX - 3)) 124 st;
  st ← poke (buf + START) 124 st;
  '(rtc_fd, st) ← ece391_open (rodata (lit "rtc")) st;
  st ← poke32 ret_val 32 st;
  '(r, st) ← ece391_write rtc_fd ret_val 4 st;
  st ← poke32 ret_val r st;
  rounds n rtc_fd STARTCHAR st.
End locals.
End program.

(** * What it prints *)

(** The line with the letter at position [j], the lines of a pass, and the
    letter of the [i]-th. *)
Definition frame (c j : Z) : list Z := <[Z.to_nat j := c]> ([32; 124] ++ replicate 76 32 ++ [124; 10]).
Definition pass_text (c : Z) : list Z :=
  concat (frame c <$> seqZ 2 76) ++ concat ((λ i, frame c (77 - i)) <$> seqZ 0 76).
Definition letter (i : Z) : Z := 65 + i mod 26.
Definition pingpong_text (n : nat) : list Z := concat ((λ i, pass_text (letter i)) <$> seqZ 0 (Z.of_nat n)).

(** * Stores *)
Section stores.
Context `{Promises St}.

Lemma fill_seen st w buf c lo hi : sees st w → lo <= hi → user_buf (buf + lo) (hi - lo) →
  ∃ st' m, fill buf c lo hi st = Done st' ∧ sees st' (with_wmem m w) ∧
    ∀ x, m x = if (buf + lo <=? x) && (x <? buf + hi) then u8 c else w_mem w x.
Proof.
  intros Hs Hle (B1 & B2 & B3). unfold fill.
  apply (for_range_ind (λ i o, ∃ st' m, o = Done st' ∧ sees st' (with_wmem m w) ∧
    ∀ x, m x = if (buf + lo <=? x) && (x <? buf + i) then u8 c else w_mem w x)); [done| |].
  - exists st, (w_mem w). split; [done|]. split; [by rewrite with_wmem_id|]. intros x. zcase.
  - intros i o Hi (st1 & m & -> & Hs1 & Hm). rewrite bind_Done.
    destruct (poke_seen st1 _ (buf + i) c Hs1) as (st2 & -> & Hs2); [split_and!; lia|].
    exists st2. eexists. split; [done|]. split; [exact Hs2|]. intros x. cbn [w_mem with_wmem]. unfold store8, upd.
    rewrite (Hm x). zcase; done.
Qed.

Lemma poke32_seen st w a v : sees st w → user_buf a 4 → is_u32 v →
  ∃ st' m, poke32 a v st = Done st' ∧ sees st' (with_wmem m w) ∧ only_in a (a + 4) (w_mem w) m ∧ load32 m a = v.
Proof.
  intros Hs (B1 & B2 & B3) Hv. unfold poke32.
  destruct (poke_seen st w a (u8 v) Hs) as (st1 & -> & Hs1); [split_and!; lia|]. rewrite bind_Done.
  destruct (poke_seen st1 _ (a + 1) (u8 (Z.shiftr v 8)) Hs1) as (st2 & -> & Hs2); [split_and!; lia|]. rewrite bind_Done.
  destruct (poke_seen st2 _ (a + 2) (u8 (Z.shiftr v 16)) Hs2) as (st3 & -> & Hs3); [split_and!; lia|]. rewrite bind_Done.
  destruct (poke_seen st3 _ (a + 3) (u8 (Z.shiftr v 24)) Hs3) as (st4 & -> & Hs4); [split_and!; lia|].
  exists st4. eexists. split; [done|]. split; [exact Hs4|]. cbn [w_mem with_wmem]. split.
  - intros x Hx. unfold store8, upd. by rewrite !(proj2 (Z.eqb_neq _ _)) by lia.
  - unfold load32, store8, upd. rewrite !u8_u8, !Z.eqb_refl, !(proj2 (Z.eqb_neq _ _)) by lia.
    rewrite !Z.shiftr_div_pow2 by lia. unfold u8. destruct Hv as [H1 H2]. Z.div_mod_to_equations. lia.
Qed.
Lemma peek32_seen st w a : sees st w → user_buf a 4 → peek32 a st = Done (load32 (w_mem w) a).
Proof.
  intros Hs (B1 & B2 & B3). unfold peek32.
  rewrite (peek_seen st w a Hs) by (split_and!; lia). rewrite bind_Done. rewrite (peek_seen st w (a + 1) Hs) by (split_and!; lia). rewrite bind_Done.
  rewrite (peek_seen st w (a + 2) Hs) by (split_and!; lia). rewrite bind_Done. rewrite (peek_seen st w (a + 3) Hs) by (split_and!; lia). by rewrite bind_Done.
Qed.
End stores.

(** The line position by position, with its NUL. *)
Definition frame_at (c j i : Z) : Z :=
  if i =? j then c else if (i =? 1) || (i =? 78) then 124 else if i =? 79 then 10 else if i =? 80 then 0 else 32.
Lemma frame_lookup c j i v : 2 <= j < 78 → zget (frame c j ++ [0]) i = Some v → 0 <= i < 81 ∧ v = frame_at c j i.
Proof.
  intros Hj [Hi E]%zget_Some.
  assert (Hblank : ([32; 124] ++ replicate 76 32 ++ [124; 10]) ++ [0] = frame_at 32 2 <$> seqZ 0 81) by reflexivity.
  assert (Hall : frame c j ++ [0] = <[Z.to_nat j := c]> (frame_at 32 2 <$> seqZ 0 81)).
  { rewrite <- Hblank. unfold frame. symmetry. apply insert_app_l. cbn [length app]. rewrite length_app, length_replicate. cbn. lia. }
  rewrite Hall in E. assert (Hlt : 0 <= i < 81).
  { apply lookup_lt_Some in E. rewrite length_insert, length_fmap, length_seqZ in E. lia. }
  split; [done|]. unfold frame_at. destruct (Z.eqb_spec i j) as [-> |Hne].
  - rewrite list_lookup_insert_eq in E; [by injection E|]. rewrite length_fmap, length_seqZ. lia.
  - rewrite list_lookup_insert_ne in E by lia. rewrite list_lookup_fmap, lookup_seqZ_lt in E by lia. injection E as <-.
    unfold frame_at. rewrite Z.add_0_l, Z2Nat.id by lia. destruct (Z.eqb_spec i 2) as [-> |]; done.
Qed.
Lemma length_frame c j : length (frame c j) = 80%nat.
Proof. unfold frame. by rewrite length_insert. Qed.
Lemma frame_nonzero c j : 2 <= j < 78 → c ≠ 0 → Forall (λ c, c ≠ 0) (frame c j).
Proof.
  intros Hj Hc. apply list.Forall_insert; [|done]. apply (bool_decide_unpack _). by vm_compute.
Qed.

(** * The animation *)
Section animation.
Context `{Clocks St}.
Context (rodata : list Z → Z) (buf ret_val garbage : Z).
Context (Hbuf : user_buf buf BUFMAX) (Hret : user_buf ret_val 4) (Hgarbage : user_buf garbage 4).
Context (Hapart : ret_val + 4 <= buf ∨ buf + BUFMAX <= ret_val).

Section running.
Context (m0 : mem) (fds : list desc) (next fd : Z) (Hout : zget fds 1 = Some Stdout) (Hclock : zget fds fd = Some Clock).

Definition walls (m : mem) : Prop := ∀ i, 0 <= i < 2 ∨ 78 <= i < 81 → m (buf + i) = frame_at 0 (-1) i.
Definition runs (o : list Z) (st : St) : Prop :=
  ∃ m, sees st (World m fds next o) ∧ walls m ∧ ∀ x, x < buf ∨ buf + BUFMAX <= x → m x = m0 x.

Lemma draw_prints o st c j : runs o st → 2 <= j < 78 → 0 < c < 256 →
  ∃ st', draw buf garbage fd c j st = Done st' ∧ runs (o ++ frame c j) st'.
Proof.
  intros (m & Hs & Hw & Hm0) Hj Hc. pose proof Hbuf as (B1 & B2 & B3). unfold BUFMAX, SCREENWIDTH, ENDING in *. unfold draw.
  destruct (fill_seen st _ buf 32 STARTLOOP LOOPMAX Hs) as (st1 & m1 & -> & Hs1 & Hm1); [done|unfold STARTLOOP, LOOPMAX, BUFMAX, SCREENWIDTH, ENDING, START; split_and!; lia|].
  rewrite bind_Done. cbn [w_mem] in Hm1. change (buf + STARTLOOP) with (buf + 2) in Hm1. change (buf + LOOPMAX) with (buf + 78) in Hm1.
  destruct (poke_seen st1 _ (buf + j) c Hs1) as (st2 & -> & Hs2); [split_and!; lia|]. rewrite bind_Done.
  unfold with_wmem in Hs2. cbn [w_mem w_fds w_next w_out] in Hs2. set (m2 := store8 m1 (buf + j) c) in *.
  assert (Hm2 : ∀ i, 0 <= i < 81 → m2 (buf + i) = frame_at c j i).
  { intros i Hi. unfold m2, store8, upd, frame_at. rewrite Hm1. destruct (Z.eqb_spec (buf + i) (buf + j)) as [E|E].
    - replace i with j by lia. rewrite Z.eqb_refl. apply u8_id. split; lia.
    - rewrite (proj2 (Z.eqb_neq i j)) by lia. destruct (decide (2 <= i < 78)) as [Hin|Hwall].
      + rewrite (proj2 (Z.leb_le _ _)), (proj2 (Z.ltb_lt _ _)) by lia. cbn [andb]. by rewrite !(proj2 (Z.eqb_neq _ _)) by lia.
      + replace ((buf + 2 <=? buf + i) && (buf + i <? buf + 78)) with false by zcase. rewrite Hw by lia. unfold frame_at.
        by rewrite (proj2 (Z.eqb_neq i (-1))) by lia. }
  destruct (fdputs_seen st2 _ buf (frame c j) Hs2) as (st3 & -> & Hs3); [|done|].
  { split; [rewrite length_frame; split_and!; lia|apply frame_nonzero; lia|]. intros i v E. cbn [w_mem].
    apply frame_lookup in E as [Hi ->]; [by apply Hm2|done]. }
  rewrite bind_Done. destruct (read_clock st3 _ fd garbage 4 Hs3 Hclock Hgarbage ltac:(lia)) as (st4 & -> & Hs4). rewrite bind_Done.
  exists st4. split; [done|]. exists m2. split; [exact Hs4|]. split.
  - intros i Hi. rewrite Hm2 by lia. unfold frame_at. by rewrite (proj2 (Z.eqb_neq i j)), (proj2 (Z.eqb_neq i (-1))) by lia.
  - intros x Hx. unfold BUFMAX, SCREENWIDTH, ENDING in Hx. unfold m2, store8, upd. rewrite (proj2 (Z.eqb_neq _ _)), Hm1 by lia.
    replace ((buf + 2 <=? x) && (x <? buf + 78)) with false by zcase. by apply Hm0.
Qed.

(** A loop that draws. *)
Lemma letters_drawn o st c (pos : Z → Z) lo hi : runs o st → 0 < c < 256 → lo <= hi → (∀ i, lo <= i < hi → 2 <= pos i < 78) →
  ∃ st', for_range lo hi (λ r i, st ← r; draw buf garbage fd c (pos i) st) (Done st) = Done st' ∧
    runs (o ++ concat ((λ i, frame c (pos i)) <$> seqZ lo (hi - lo))) st'.
Proof.
  intros Hr Hc Hle Hpos. apply (for_range_ind (λ j r, ∃ st', r = Done st' ∧ runs (o ++ concat ((λ i, frame c (pos i)) <$> seqZ lo (j - lo))) st')); [done| |].
  - exists st. split; [done|]. rewrite seqZ_nil by lia. cbn. by rewrite app_nil_r.
  - intros i r Hi (st1 & -> & R1). rewrite bind_Done. destruct (draw_prints _ st1 c (pos i) R1) as (st2 & -> & R2); [by apply Hpos|done|].
    exists st2. split; [done|]. replace (i + 1 - lo) with ((i - lo) + 1) by lia. rewrite seqZ_app, fmap_app, concat_app by lia.
    replace (lo + (i - lo)) with i by lia. change (seqZ i 1) with [i]. cbn [fmap list_fmap concat].
    by rewrite app_nil_r, app_assoc.
Qed.

Lemma round_prints o st i : runs o st → 0 <= i →
  ∃ st', round buf garbage fd (letter i) st = Done (letter (i + 1), st') ∧ runs (o ++ pass_text (letter i)) st'.
Proof.
  intros Hr Hi. assert (Hc : 65 <= letter i <= 90) by (unfold letter; pose proof (Z.mod_pos_bound i 26); lia). unfold round.
  destruct (letters_drawn o st (letter i) id STARTLOOP LOOPMAX Hr) as (st1 & E1 & R1); [lia|done|unfold STARTLOOP, LOOPMAX, BUFMAX, SCREENWIDTH, ENDING, START, id; lia|].
  unfold id in E1. rewrite E1, bind_Done.
  destruct (letters_drawn _ st1 (letter i) (λ i, LOOPMAX - 1 - i) 0 (LOOPMAX - STARTLOOP) R1) as (st2 & -> & R2);
    [lia|done|unfold STARTLOOP, LOOPMAX, BUFMAX, SCREENWIDTH, ENDING, START; lia|].
  rewrite bind_Done. exists st2. split; [|unfold pass_text; by rewrite <- app_assoc in R2].
  f_equal. f_equal. unfold letter, ENDCHAR, STARTCHAR in *. destruct (Z.eqb_spec (65 + i mod 26) 90) as [E|E].
  - replace (i + 1) with (26 * (i / 26 + 1)) by (pose proof (Z.div_mod i 26); lia). by rewrite Z.mul_comm, Z.mod_mul.
  - rewrite u8_id by (split; lia). rewrite <- (Zplus_mod_idemp_l i 1 26), (Z.mod_small (i mod 26 + 1)) by (pose proof (Z.mod_pos_bound i 26); lia). lia.
Qed.
Lemma rounds_print n : ∀ o st i, runs o st → 0 <= i →
  ∃ st', rounds buf garbage n fd (letter i) st = Done (letter (i + Z.of_nat n), st') ∧
    runs (o ++ concat ((λ i, pass_text (letter i)) <$> seqZ i (Z.of_nat n))) st'.
Proof.
  induction n as [|n IH]; intros o st i Hr Hi; cbn [rounds].
  - exists st. rewrite Z.add_0_r, seqZ_nil by lia. cbn. by rewrite app_nil_r.
  - destruct (round_prints o st i Hr Hi) as (st1 & -> & R1). rewrite bind_Done. destruct (IH _ st1 (i + 1) R1) as (st2 & -> & R2); [lia|].
    exists st2. split; [by replace (i + 1 + Z.of_nat n) with (i + Z.of_nat (S n)) by lia|].
    rewrite seqZ_cons by lia. cbn. replace (Z.succ i) with (i + 1) by lia. replace (Z.pred (Z.of_nat (S n))) with (Z.of_nat n) by lia.
    by rewrite app_assoc.
Qed.
End running.

(** [main] from a process that has a descriptor to spare. *)
Lemma pingpong_prints n st w fd : sees st w → zget (w_fds w) 1 = Some Stdout → free_desc w = Some fd → is_clock (lit "rtc") →
  message rodata buf BUFMAX w (lit "rtc") →
  ∃ st' m, pingpong rodata buf ret_val garbage n st = Done (letter (Z.of_nat n), st') ∧
    sees st' (World m (<[Z.to_nat fd := Clock]> (w_fds w)) (w_next w) (w_out w ++ pingpong_text n)) ∧
    ∀ x, x < buf ∨ buf + BUFMAX <= x → x < ret_val ∨ ret_val + 4 <= x → m x = w_mem w x.
Proof.
  intros Hs Hout Hfree Hclock [Hrtc Hfar]. pose proof (free_desc_range st w fd Hs Hfree) as Hfd. pose proof Hbuf as (B1 & B2 & B3).
  pose proof Hret as (R1 & R2 & R3). unfold pingpong.
  destruct (fill_seen st w buf 32 0 BUFMAX Hs) as (st1 & m1 & -> & Hs1 & Hm1); [done|unfold BUFMAX, SCREENWIDTH, ENDING in *; split_and!; lia|]. rewrite bind_Done.
  unfold BUFMAX, SCREENWIDTH, ENDING, START in *. change (79 + 2 - 1) with 80. change (79 + 2 - 2) with 79. change (79 + 2 - 3) with 78.
  destruct (poke_seen st1 _ (buf + 80) 0 Hs1) as (st2 & -> & Hs2); [split_and!; lia|]. rewrite bind_Done.
  destruct (poke_seen st2 _ (buf + 79) 10 Hs2) as (st3 & -> & Hs3); [split_and!; lia|]. rewrite bind_Done.
  destruct (poke_seen st3 _ (buf + 78) 124 Hs3) as (st4 & -> & Hs4); [split_and!; lia|]. rewrite bind_Done.
  destruct (poke_seen st4 _ (buf + 1) 124 Hs4) as (st5 & -> & Hs5); [split_and!; lia|]. rewrite bind_Done.
  unfold with_wmem in Hs5. cbn [w_mem w_fds w_next w_out] in Hs5. set (m5 := store8 _ (buf + 1) 124) in Hs5.
  assert (Hm5 : (∀ i, 0 <= i < 2 ∨ 78 <= i < 81 → m5 (buf + i) = frame_at 0 (-1) i) ∧ only_in buf (buf + 81) (w_mem w) m5).
  { unfold m5, store8, upd. split.
    - intros i Hi. rewrite Hm1. assert (i = 0 ∨ i = 1 ∨ i = 78 ∨ i = 79 ∨ i = 80) as Hc by lia.
      repeat destruct Hc as [-> | Hc]; try subst i; rewrite ?Z.eqb_refl, ?(proj2 (Z.eqb_neq _ _)) by lia; try done.
      by rewrite (proj2 (Z.leb_le _ _)), (proj2 (Z.ltb_lt _ _)) by lia.
    - intros x Hx. rewrite !(proj2 (Z.eqb_neq _ _)), Hm1 by lia.
      replace ((buf + 0 <=? x) && (x <? buf + (79 + 2))) with false by zcase. done. }
  destruct Hm5 as [Hwalls Honly]. clearbody m5.
  assert (Hrtc5 : string_at (World m5 (w_fds w) (w_next w) (w_out w)) (rodata (lit "rtc")) (lit "rtc")).
  { apply (string_outside buf (buf + 81) w); [exact Honly|lia|done]. }
  destruct (open_clock st5 _ _ (lit "rtc") fd Hs5 Hrtc5 Hclock Hfree) as (st6 & -> & Hs6). rewrite bind_Done.
  assert (Hrate : is_u32 32) by done.
  destruct (poke32_seen st6 _ ret_val 32 Hs6 Hret Hrate) as (st7 & m7 & -> & Hs7 & Ho7 & Hv7). rewrite bind_Done.
  cbn [w_mem with_desc] in Ho7. unfold with_wmem, with_desc in Hs7. cbn [w_mem w_fds w_next w_out] in Hs7.
  assert (Hfd8 : zget (<[Z.to_nat fd := Clock]> (w_fds w)) fd = Some Clock) by (apply zget_insert_eq; rewrite (sees_descs st w Hs); lia).
  destruct (set_clock st7 _ fd ret_val 5 Hs7 Hfd8 Hret ltac:(lia) Hv7) as (st8 & -> & Hs8). rewrite bind_Done.
  destruct (poke32_seen st8 _ ret_val 0 Hs8 Hret ltac:(done)) as (st9 & m9 & -> & Hs9 & Ho9 & _). rewrite bind_Done.
  unfold with_wmem in Hs9. cbn [w_mem w_fds w_next w_out] in Hs9, Ho9.
  destruct (rounds_print m9 (<[Z.to_nat fd := Clock]> (w_fds w)) (w_next w) fd) with (n := n) (o := w_out w) (st := st9) (i := 0) as (st10 & E & m & Hs10 & _ & Hm);
    [by rewrite zget_insert_ne by lia|done| |done|].
  { exists m9. split; [exact Hs9|]. split; [|done]. intros i Hi. rewrite Ho9, Ho7 by lia. by apply Hwalls. }
  exists st10, m. split; [exact E|]. split; [exact Hs10|]. intros x Hx Hx'.
  rewrite Hm by (unfold BUFMAX, SCREENWIDTH, ENDING; lia). rewrite Ho9, Ho7 by lia. by apply Honly.
Qed.
End animation.
