(* ===== verification/Ticking.v ===== *)
(** Programs that wait for the clock: a process of the kernel keeps the
    promises of [Clocks], whenever the clock interrupts come, and pingpong
    runs in it. *)
From Stdlib Require Import String.
From stdpp Require Import gmap.
From S2P Require Import Prelude Memory Strings Console Filesystem Paging Pic Rtc Kernel Terminal Syscall Tables Process Calls User Programs Userland Answers Pingpong.

(** The clocks are in order and the running terminal is one of the three. *)
Definition ticking (w : world) (k : kernel) : Prop := rtc_ok (k_rtc k) ∧ 0 <= running_terminal k < 3.
Lemma ticking_kept w w' k k' : undisturbed w w' k k' → ticking w k → ticking w' k'.
Proof. intros [_ _ Er Et _ _ _]. unfold ticking. by rewrite Er, Et. Qed.
(** What is known of a kernel in which the clocks may be used. *)
Record clocked (devices : world → kernel → Prop) : Prop := Clocked {
  cl_kept w w' k k' : undisturbed w w' k k' → devices w k → devices w' k';
  cl_ticking w k : devices w k → ticking w k;
  cl_clock w k q s : devices w k → rtc_ok s → devices w (with_pic_rtc q s k);
  cl_flag w k b : devices w k → devices w (with_if b k) }.
Lemma ticking_clocked : clocked ticking.
Proof. split; [apply ticking_kept|done|by intros w k q s [_ ?]|done]. Qed.

Section clocks.
Context (dir_addr table_addr vidmem_addr magics : Z) (stack_dentry : dentry_t).
Context (typed : Z → console * Z → console * Z) (ticks : Z → nat) (child : Z → Z → kernel → out (Z * kernel)).
Context (Hlink : linked dir_addr table_addr vidmem_addr).
Context (id tid : Z) (m0 : mem) (f0 : fs) (Him : image_ok m0 f0) (Hdir : dir_ok m0 f0).
Context (starts : (Z → tscreen) → Prop) (devices : world → kernel → Prop) (Hclocked : clocked devices) (nb : nat) (a : list Z) (Hargs : Z.of_nat (nb + length a) < ARG_MAX) (Hblank : nb = 0%nat ↔ a = []).
(** Every wait lasts long enough for the slowest clock. *)
Context (N : nat) (HN : 1024 <= elapsed ticks N) (HN33 : Z.of_nat N < 2 ^ 33).

#[local] Instance here : Syscalls kernel :=
  kernel_calls dir_addr table_addr vidmem_addr magics stack_dentry typed ticks child.
Let world_here := in_world dir_addr table_addr vidmem_addr id tid m0 f0 starts nb a devices.
Let sees_here := kernel_sees dir_addr table_addr vidmem_addr id tid m0 f0 starts nb a devices.

Lemma clock_world p k w q s : world_here p k w → rtc_ok s → world_here p (with_pic_rtc q s k) w.
Proof. intros [[S1 S2 S3 S4 S5 S6] H2 H3 H4 H5 H6 H7 H8 H9 H10 H11 H12] Hs. split; try done. by apply cl_clock. Qed.
Lemma flag_world p k w b : world_here p k w → world_here p (with_if b k) w.
Proof. intros [[S1 S2 S3 S4 S5 S6] H2 H3 H4 H5 H6 H7 H8 H9 H10 H11 H12]. split; try done. by apply cl_flag. Qed.
Lemma world_ticking p k w : world_here p k w → ticking w k.
Proof. intros H. by apply (cl_ticking _ Hclocked), H. Qed.

(** The entries of the image that open the clock. *)
Definition clock_name (name : list Z) : Prop := ∃ i, entry_of m0 f0 name = Some i ∧ entry_type m0 f0 i = RTC_TYPE.

Lemma kernel_open_clock k w x name fd : sees_here k w → string_at w x name → clock_name name → free_desc w = Some fd →
  gives sees_here (ece391_open x k) fd (with_desc fd Clock w).
Proof.
  intros [p H] Hx (i & Ei & Et) Hfd.
  destruct (world_entry _ _ _ Hlink _ _ _ _ Him Hdir _ _ _ Hargs Hblank _ p k w x name i H Hx Ei) as (Hn & Ht & Hi).
  destruct (world_string _ _ _ Hlink _ _ _ _ _ _ _ Hargs Hblank _ p k w x name H Hx) as (Hp & _).
  pose proof (world_ticking p k w H) as [Hrtc Hrun].
  assert (Etf : type_funcs (load32 (k_mem k) (entry_at (k_fs k) i + 32)) = Some rtc_funcs) by by rewrite Ht, Et.
  assert (Hopen : ∃ s b, rtc_open (running_terminal k) (k_rtc k) = Done (0, s, b) ∧ rtc_ok s).
  { unfold rtc_open. rewrite rtc_set_freq_ok by done. change (is_rate 2) with true. cbv iota. rewrite bind_Done.
    eexists _, _. split; [done|]. by apply with_constant_ok. }
  destruct Hopen as (s & b & Eo & Hs). pose proof (free_range _ _ _ _ _ _ _ _ _ _ _ p k w fd H Hfd) as Hr.
  set (d := FileDesc (Some rtc_funcs) (load32 (k_mem k) (entry_at (k_fs k) i + 36)) 0 IN_USE).
  exists (with_if b (with_pic_rtc (k_pic k) s (with_fd fd d p k))). split.
  - etrans; [apply (open_entry_spec _ _ _ stack_dentry k p x i fd rtc_funcs (sys_opener _ _ _ id k p x i (iw_sys _ _ _ _ _ _ _ _ _ _ _ _ _ _ H) Hp Hn) Etf);
      by rewrite (world_free _ _ _ _ _ _ _ _ _ _ _ p k w H)|].
    cbn [call_open]. fold d. change (running_terminal (with_fd fd d p k)) with (running_terminal k). change (k_rtc (with_fd fd d p k)) with (k_rtc k).
    rewrite Eo. rewrite !bind_Done. reflexivity.
  - eexists. apply flag_world. change (k_pic k) with (k_pic (with_fd fd d p k)). apply clock_world; [|done].
    by apply (in_world_fd _ _ _ _ _ _ _ _ _ _ _ (cl_kept _ Hclocked) p k w fd d Clock H); [lia|].
Qed.

Lemma kernel_read_clock k w fd buf n : sees_here k w → zget (w_fds w) fd = Some Clock → user_buf buf n → 0 <= n →
  gives sees_here (ece391_read fd buf n k) 0 w.
Proof.
  intros [p H] Hfd Hb Hn. destruct (call_passes _ _ _ _ _ _ _ _ _ _ Hargs Hblank _ p k w fd buf n Clock
    (λ d, call_read dir_addr table_addr vidmem_addr stack_dentry typed ticks (ptrs d) fd buf n k) H Hfd)
    as (d & _ & [_ Hp] & E); [done|done|done|].
  change (ece391_read fd buf n k) with (read dir_addr table_addr vidmem_addr stack_dentry typed ticks fd buf n k).
  unfold gives, read. rewrite E, Hp. cbn [call_read].
  pose proof (world_ticking p k w H) as [Hrtc Hrun].
  destruct (rtc_read_returns (running_terminal k) Hrun ticks N HN HN33 (k_pic k) (k_rtc k) Hrtc) as (q & s & -> & Hs). rewrite bind_Done.
  eexists. split; [reflexivity|]. exists p. by apply clock_world.
Qed.

Lemma kernel_set_clock k w fd buf i : sees_here k w → zget (w_fds w) fd = Some Clock → user_buf buf 4 → 1 <= i <= 10 →
  load32 (w_mem w) buf = 2 ^ i → gives sees_here (ece391_write fd buf 4 k) 0 w.
Proof.
  intros [p H] Hfd Hb Hi Hv. pose proof (iw_sys _ _ _ _ _ _ _ _ _ _ _ _ _ _ H) as Hsys. pose proof Hb as (B1 & B2 & B3).
  destruct (call_passes _ _ _ _ _ _ _ _ _ _ Hargs Hblank _ p k w fd buf 4 Clock (λ d, call_write dir_addr table_addr vidmem_addr (ptrs d) fd buf 4 k) H Hfd)
    as (d & _ & [_ Hp] & E); [done|done|done|].
  change (ece391_write fd buf 4 k) with (write dir_addr table_addr vidmem_addr fd buf 4 k). unfold gives, write. rewrite E, Hp. cbn [call_write].
  pose proof (world_ticking p k w H) as [Hrtc Hrun]. rewrite (user_va _ _ _ Hlink id k p buf 4 Hsys Hb) by lia.
  unfold rtc_write. change (negb (4 =? 4)) with false. pose proof (id_range _ _ _ _ _ _ Hargs Hblank _ _ Hsys) as Hid.
  pose proof (user_above _ _ _ Hargs Hblank buf Hid ltac:(split_and!; lia)) as Habove. unfold EIGHT_MB_SIZE in Habove.
  rewrite (proj2 (Z.eqb_neq _ 0)) by lia. cbn [orb].
  assert (Ev : load32 (k_mem k) (user_phys id buf) = 2 ^ i).
  { rewrite <- Hv. unfold load32. assert (Ej : ∀ j, user_phys id buf + j = user_phys id (buf + j)) by (intros j; unfold user_phys; lia).
    rewrite !Ej. by rewrite !(iw_page _ _ _ _ _ _ _ _ _ _ _ _ _ _ H) by (split_and!; lia). }
  assert (Hrate : i32 (2 ^ i) = 2 ^ i ∧ is_rate (2 ^ i) = true ∧ 1 <= Z.quot 1024 (2 ^ i) <= 1024 ∧ 2 ^ i ≠ 0).
  { assert (i = 1 ∨ i = 2 ∨ i = 3 ∨ i = 4 ∨ i = 5 ∨ i = 6 ∨ i = 7 ∨ i = 8 ∨ i = 9 ∨ i = 10) as Hc by lia.
    by repeat destruct Hc as [-> | Hc]; try subst i. }
  destruct Hrate as (E1 & E2 & E3 & E4). rewrite Ev, E1, rtc_set_freq_ok, E2 by done. rewrite bind_Done.
  eexists. split; [reflexivity|]. exists p. apply flag_world, clock_world; [done|]. by apply with_constant_ok.
Qed.
End clocks.

(** * In a process *)
Section in_process.
Context (dir_addr table_addr vidmem_addr magics : Z) (stack_dentry : dentry_t).
Context (typed : Z → console * Z → console * Z) (ticks : Z → nat) (child : Z → Z → kernel → out (Z * kernel)).
Context (Hlink : linked dir_addr table_addr vidmem_addr).
Context (k : kernel) (p : pcb_t) (id tid : Z) (nb : nat) (a : list Z) (H : fresh dir_addr table_addr vidmem_addr id tid nb a k p).
Context (N : nat) (HN : 1024 <= elapsed ticks N) (HN33 : Z.of_nat N < 2 ^ 33).
Context (fine : Z → bool) (Hfine : ∀ i, fine i = true → inode_ok (k_mem k) (k_fs k) i).

#[local] Instance kernel_here : Syscalls kernel := kernel_calls dir_addr table_addr vidmem_addr magics stack_dentry typed ticks child.
Context (starts : (Z → tscreen) → Prop) (Hstarts : ∀ s0, starts s0 → ∀ t, 0 <= t < 3 → ts_ok (s0 t)).
Context (devices : world → kernel → Prop) (Hclocked : clocked devices).
Definition promises_ticking : Promises kernel :=
  promises_from dir_addr table_addr vidmem_addr magics stack_dentry typed ticks child Hlink k p id tid nb a H devices (cl_kept _ Hclocked) starts Hstarts fine Hfine.
Definition clocks_here : @Clocks kernel kernel_here promises_ticking :=
  let sys := fr_sys _ _ _ _ _ _ _ _ _ H in
  let args := proj2 (fr_args _ _ _ _ _ _ _ _ _ H) in
  let blanks := proj2 (proj2 (fr_text _ _ _ _ _ _ _ _ _ H)) in
  Build_Clocks kernel kernel_here promises_ticking (clock_name (k_mem k) (k_fs k))
    (kernel_open_clock dir_addr table_addr vidmem_addr magics stack_dentry typed ticks child Hlink id tid (k_mem k) (k_fs k)
      (so_image _ _ _ _ _ _ sys) (so_dir _ _ _ _ _ _ sys) starts devices Hclocked nb a args blanks N)
    (kernel_read_clock dir_addr table_addr vidmem_addr magics stack_dentry typed ticks child id tid (k_mem k) (k_fs k) starts devices Hclocked nb a args blanks N HN HN33)
    (kernel_set_clock dir_addr table_addr vidmem_addr magics stack_dentry typed ticks child Hlink id tid (k_mem k) (k_fs k) starts devices Hclocked nb a args blanks N).
End in_process.

(** C21. pingpong on the kernel.  In a process that [execute] has started, on
    a terminal displayed or not, with a clock named "rtc" in the image, and
    with clock interrupts that keep coming while the process waits, however
    they are spaced, ece391pingpong gets to the end of every pass through its
    endless loop: after [n] passes its terminal shows, for the letters A to Z
    in turn and again from A, the 76 lines in which the letter moves from the
    left wall to the right and the 76 in which it comes back.  Only its
    terminal and its local variables change. *)
Theorem pingpong_on_kernel (dir_addr table_addr vidmem_addr magics : Z) (stack_dentry : dentry_t)
    (typed : Z → console * Z → console * Z) (ticks : Z → nat) (child : Z → Z → kernel → out (Z * kernel))
    (Hlink : linked dir_addr table_addr vidmem_addr) (k : kernel) (p : pcb_t) (id tid : Z) (nb : nat) (a : list Z)
    (H : fresh dir_addr table_addr vidmem_addr id tid nb a k p) (Hrtc : rtc_ok (k_rtc k)) (Hrun : 0 <= running_terminal k < 3)
    (N : nat) (HN : 1024 <= elapsed ticks N) (HN33 : Z.of_nat N < 2 ^ 33)
    (rodata : list Z → Z) (locals size buf ret_val garbage : Z) (Hbuf : user_buf buf BUFMAX) (Hret : user_buf ret_val 4) (Hgarbage : user_buf garbage 4)
    (Hlocals : locals <= buf ∧ buf + BUFMAX <= locals + size ∧ locals <= ret_val ∧ ret_val + 4 <= locals + size)
    (Hapart : ret_val + 4 <= buf ∨ buf + BUFMAX <= ret_val)
    (Hname : message rodata buf BUFMAX (start_world id k) (lit "rtc"))
    (Hclock : clock_name (k_mem k) (k_fs k) (lit "rtc")) (n : nat) :
  let sys := kernel_calls dir_addr table_addr vidmem_addr magics stack_dentry typed ticks child in
  ∃ k', @pingpong kernel sys rodata buf ret_val garbage n k = Done (letter (Z.of_nat n), k') ∧ wrote id tid locals size (pingpong_text n) k k'.
Proof.
  intros sys. set (no := λ _ : Z, false). assert (Hno : ∀ i, no i = true → inode_ok (k_mem k) (k_fs k) i) by done.
  set (cl := clocks_here dir_addr table_addr vidmem_addr magics stack_dentry typed ticks child Hlink k p id tid nb a H N HN HN33 no Hno
    (eq (start_text k)) (fresh_start_ok _ _ _ k p id tid nb a H) ticking ticking_clocked).
  pose proof (fresh_sees _ _ _ k p id tid nb a H ticking (conj Hrtc Hrun)) as Hs.
  destruct (@pingpong_prints _ _ _ cl rodata buf ret_val garbage Hbuf Hret Hgarbage Hapart n k (start_world id k) 2 Hs eq_refl eq_refl Hclock Hname)
    as (k' & m & E & Hs' & Hm).
  exists k'. split; [exact E|].
  apply (sees_wrote dir_addr table_addr vidmem_addr k p id tid nb a H ticking k' _ locals size Hs'). intros x Hx. apply Hm; lia.
Qed.

(** * Witness: an image with the clock and two pictures, and process 1 *)
Definition cells15 : list (Z * Z) :=
  [(0, 4); (4, 3); (8, 2); (64, 46); (96, 1); (128, 114); (129, 116); (130, 99);
   (192, 102); (193, 114); (194, 97); (195, 109); (196, 101); (197, 48); (198, 46); (199, 116); (200, 120); (201, 116); (224, 2);
   (256, 102); (257, 114); (258, 97); (259, 109); (260, 101); (261, 49); (262, 46); (263, 116); (264, 120); (265, 116); (288, 2); (292, 1);
   (4096, 5); (8192, 3); (8196, 1);
   (16384, 79); (16385, 32); (16386, 43); (16387, 10); (16388, 35); (20480, 43); (20481, 10); (20482, 32)].
Definition img15 : mem := cell_image cells15.
Definition img15_fs : fs := filesystem_init img15 image_base.
Lemma img15_ok : image_ok img15 img15_fs.
Proof. split; [by apply cell_image_bytes|done|done|done]. Qed.
Lemma img15_dir : dir_ok img15 img15_fs.
Proof.
  split; [by vm_compute|]. intros i Hi. change (num_dentries img15_fs) with 4 in Hi.
  assert (i = 0 ∨ i = 1 ∨ i = 2 ∨ i = 3) as Hc by lia. by repeat destruct Hc as [-> | Hc]; try subst i; vm_compute.
Qed.
Lemma img15_inode i : i = 0 ∨ i = 1 → inode_ok img15 img15_fs i.
Proof.
  intros Hi. destruct Hi as [-> | ->]; (split; [by vm_compute|by vm_compute|]); intros k Hk;
    [change (file_size img15 img15_fs 0) with 5|change (file_size img15 img15_fs 1) with 3]; unfold BLOCKSIZE; intros ?;
    assert (k = 0) as -> by lia; by vm_compute.
Qed.
Lemma placed15_fresh ls : Forall (Forall is_u8) ls → fresh 0x500000 0x501000 0x502000 1 1 1 [97; 98] (placed_on img15 img15_fs ls) pcb11.
Proof. intros Hu. apply placed_fresh; [done|apply img15_ok|apply img15_dir|by split; vm_compute|right; by vm_compute|by vm_compute]. Qed.

(** One clock interrupt between two looks at the clock. *)
Lemma one_a_wait : ∃ N, 1024 <= elapsed (λ _, 1%nat) N ∧ Z.of_nat N < 2 ^ 33.
Proof.
  assert (HN : ∀ n, elapsed (λ _, 1%nat) n = Z.of_nat n) by (intros n; induction n as [|n IH]; [done|cbn [elapsed]; rewrite IH; lia]).
  exists (Z.to_nat 1024). rewrite HN, Z2Nat.id; lia.
Qed.

Lemma pingpong_on_kernel_witness :
  let k := placed_on img15 img15_fs [lit "rtc"] in
  ∃ k', @pingpong kernel (kernel_calls 0x500000 0x501000 0x502000 0x503000 (replicate 64 0) (λ _ x, x) (λ _, 1%nat) (λ _ _ k, Done (0, k)))
      (placed_at [lit "rtc"]) 0x8050000 0x8050100 0x8050104 2 k = Done (67, k') ∧
    wrote 1 1 0x8050000 0x108 (pass_text 65 ++ pass_text 66) k k'.
Proof.
  intros k. assert (Hu : Forall (Forall is_u8) [lit "rtc"]) by (vm_compute; repeat constructor; discriminate).
  assert (Hall : forallb (literal_there img15 [lit "rtc"]) [lit "rtc"] = true) by (vm_compute; reflexivity).
  destruct one_a_wait as (N & HN1 & HN2).
  destruct (pingpong_on_kernel 0x500000 0x501000 0x502000 0x503000 (replicate 64 0) (λ _ x, x) (λ _, 1%nat) (λ _ _ k, Done (0, k)) linked0
    k pcb11 1 1 1 [97; 98] (placed15_fresh _ Hu)) with (N := N) (rodata := placed_at [lit "rtc"]) (locals := 0x8050000) (size := 0x108)
      (buf := 0x8050000) (ret_val := 0x8050100) (garbage := 0x8050104) (n := 2%nat) as (k' & E & Hw).
  - exact rtc0_ok.
  - clear. by vm_compute.
  - exact HN1.
  - exact HN2.
  - clear. split_and!; by vm_compute.
  - clear. split_and!; by vm_compute.
  - clear. split_and!; by vm_compute.
  - unfold BUFMAX, SCREENWIDTH, ENDING. lia.
  - right. clear. by vm_compute.
  - destruct (placed_literal img15 img15_fs [lit "rtc"] BUFMAX (lit "rtc") Hall) as [H1 H2]; [apply list_elem_of_here|].
    split; [exact H1|right; apply H2; clear; by vm_compute].
  - clear. exists 1. split; by vm_compute.
  - assert (El : letter (Z.of_nat 2) = 67) by (vm_compute; reflexivity). rewrite El in E. exists k'. split; [exact E|]. assert (Et : pingpong_text 2 = pass_text 65 ++ pass_text 66).
    { unfold pingpong_text. change (seqZ 0 (Z.of_nat 2)) with [0; 1]. cbn [fmap list_fmap concat]. rewrite app_nil_r.
      change (letter 0) with 65. by change (letter 1) with 66. }
    by rewrite <- Et.
Defined.
