(* ===== verification/Entry.v ===== *)
(** The entry point of the kernel, student-distrib/kernel.c: the multiboot
    information, the descriptors of the processor, and the order in which the
    components are initialised. *)
From Stdlib Require Import String.
From stdpp Require Import gmap.
From S2P Require Import Prelude Memory Strings Console Idt Filesystem Paging Pic Rtc Kernel Terminal Syscall Tables Process Sb16 Scheduling Keyboard Shells Boot Lifecycle Printf.

(** * Descriptors *)
Definition KERNEL_DS : Z := 0x18.
Definition KERNEL_TSS : Z := 0x30.
Definition KERNEL_LDT : Z := 0x38.
Definition TSS_SIZE : Z := 104.
Definition CURSOR_MAX : Z := 15.

Record seg_desc_t : Type := SegDesc {
  seg_lim_15_00 : Z; base_15_00 : Z; base_23_16 : Z; type : Z; sys : Z; sd_dpl : Z; sd_present : Z;
  seg_lim_19_16 : Z; avail : Z; reserved : Z; opsize : Z; granularity : Z; base_31_24 : Z }.

(** The two macros have the same text. *)
Definition SET_SEG_PARAMS (addr lim : Z) (d : seg_desc_t) : seg_desc_t :=
  SegDesc (Z.land lim 0xFFFF) (Z.land addr 0xFFFF) (Z.shiftr (Z.land addr 0xFF0000) 16) (type d) (sys d) (sd_dpl d)
    (sd_present d) (Z.shiftr (Z.land lim 0xF0000) 16) (avail d) (reserved d) (opsize d) (granularity d)
    (Z.shiftr (Z.land addr 0xFF000000) 24).

(** The descriptors before the macros: their other fields. *)
Definition the_ldt_desc : seg_desc_t := SegDesc 0 0 0 0x2 0 0 1 0 0 0 1 0 0.
Definition the_tss_desc : seg_desc_t :=
  SegDesc (Z.land TSS_SIZE 0xFFFF) 0 0 0x9 0 0 1 (Z.land TSS_SIZE 0xF0000 mod 2 ^ 4) 0 0 0 0 0.

(** * State *)
Record machine : Type := Machine {
  mc_kernel : kernel; mc_sb : sb; idt : list idt_desc_t; ldt_desc_ptr : seg_desc_t; tss_desc_ptr : seg_desc_t;
  ldtr : Z; tr : Z; tss_ldt_segment_selector : Z; tss_ss0 : Z; fs_start_addr : Z; pit_ports : list (Z * Z) }.

Definition enable_cursor (v1 v2 start end_ : Z) (c : console) : console :=
  let c := outb (Z.lor (Z.land v1 0xC0) start) 0x3D5 (outb 0x0A 0x3D4 c) in
  outb (Z.lor (Z.land v2 0xE0) end_) 0x3D5 (outb 0x0B 0x3D4 c).

(** * The multiboot information *)
Definition MULTIBOOT_BOOTLOADER_MAGIC : Z := 0x2BADB002.
Definition CHECK_FLAG (flags bit : Z) : bool := negb (Z.land flags (Z.shiftl 1 bit) =? 0).

(** The field at [off] of the structure at [p], read now. *)
Definition field (p off : Z) (c : console) : Z := load32 (c_mem c) (u32 (p + off)).

Definition print_module (mod_count md : Z) (c : console) : out console :=
  c ← printf (line0 "Module %d loaded at address: 0x%#x") [mod_count; field md 0 c] c;
  c ← printf (line0 "Module %d ends at address: 0x%#x") [mod_count; field md 4 c] c;
  c ← printf (line0 "First few bytes of module:") [] c;
  c ← for_range 0 16 (λ o i, c ← o; printf (lit0 "0x%x ") [i8 (c_mem c (u32 (field md 0 c + i)))] c) (Done c);
  printf (line0 "") [] c.
Definition print_modules (mbi : Z) (c : console) : out console :=
  orun (λ '(mod_count, md, c),
    if mod_count <? field mbi 20 c then
      match print_module mod_count md c with
      | Done c => inl (u32 (mod_count + 1), u32 (md + 16), c)
      | o => inr o
      end
    else inr (Done c)) (0, field mbi 24 c, c).

Definition print_mmap (mbi : Z) (c : console) : out console :=
  orun (λ '(mmap, c),
    if mmap <? u32 (field mbi 48 c + field mbi 44 c) then
      match printf (lview (lit "    size = 0x%x, base_addr = 0x%#x%#x" ++ 10 :: lit "    type = 0x%x,  length    = 0x%#x%#x" ++ [10; 0]))
        [field mmap 0 c; field mmap 8 c; field mmap 4 c; field mmap 20 c; field mmap 16 c; field mmap 12 c] c with
      | Done c => inl (u32 (mmap + field mmap 0 c + 4), c)
      | o => inr o
      end
    else inr (Done c)) (field mbi 48 c, c).

(** The messages of [entry] and the address of the image; [false] when it
    returns after them. *)
Definition print_info (magic addr : Z) (start : Z) (c : console) : out (bool * Z * console) :=
  if negb (magic =? MULTIBOOT_BOOTLOADER_MAGIC) then
    c ← printf (line0 "Invalid magic number: 0x%#x") [magic] c; Done (false, start, c)
  else
    let mbi := addr in
    c ← printf (line0 "flags = 0x%#x") [field mbi 0 c] c;
    c ← (if CHECK_FLAG (field mbi 0 c) 0
         then printf (line0 "mem_lower = %uKB, mem_upper = %uKB") [field mbi 4 c; field mbi 8 c] c else Done c);
    c ← (if CHECK_FLAG (field mbi 0 c) 1 then printf (line0 "boot_device = 0x%#x") [field mbi 12 c] c else Done c);
    c ← (if CHECK_FLAG (field mbi 0 c) 2 then printf (line0 "cmdline = %s") [field mbi 16 c] c else Done c);
    '(start, c) ← (if CHECK_FLAG (field mbi 0 c) 3 then
                     let start := field (field mbi 24 c) 0 c in c ← print_modules mbi c; Done (start, c)
                   else Done (start, c));
    if CHECK_FLAG (field mbi 0 c) 4 && CHECK_FLAG (field mbi 0 c) 5 then
      c ← printf (line0 "Both bits 4 and 5 are set.") [] c; Done (false, start, c)
    else
      c ← (if CHECK_FLAG (field mbi 0 c) 5 then
             printf (line0 "elf_sec: num = %u, size = 0x%#x, addr = 0x%#x, shndx = 0x%#x")
               [field mbi 28 c; field mbi 32 c; field mbi 36 c; field mbi 40 c] c else Done c);
      c ← (if CHECK_FLAG (field mbi 0 c) 6 then
             c ← printf (line0 "mmap_addr = 0x%#x, mmap_length = 0x%x") [field mbi 48 c; field mbi 44 c] c; print_mmap mbi c
           else Done c);
      Done (true, start, c).

(** * The entry point *)
Section entry.
Context (dir_addr table_addr vidmem_addr magics : Z) (stack_dentry : dentry_t).
(** Addresses the linker and the compiler chose: the interrupt handlers, the
    LDT and the TSS, the local of [init_pit], the sound buffer and the literal
    "testaudio". *)
Context (address : routine → Z) (ldt ldt_size tss tss_size divisor_addr DMA_Buffer magic_addr dh testaudio : Z).
(** What the ports answer. *)
Context (dsp : Z → Z → Z) (rtc_b cursor1 cursor2 : Z).

Definition init_descriptors (s : machine) : machine :=
  Machine (with_tss 0x800000 (mc_kernel s)) (mc_sb s) (idt s) (SET_SEG_PARAMS ldt ldt_size the_ldt_desc)
    (SET_SEG_PARAMS tss tss_size the_tss_desc) KERNEL_LDT KERNEL_TSS KERNEL_LDT KERNEL_DS (fs_start_addr s) (pit_ports s).

Definition with_kernel (k : kernel) (s : machine) : machine :=
  Machine k (mc_sb s) (idt s) (ldt_desc_ptr s) (tss_desc_ptr s) (ldtr s) (tr s) (tss_ldt_segment_selector s) (tss_ss0 s)
    (fs_start_addr s) (pit_ports s).

(** The initialisation of the components, up to the sound. *)
Definition init_devices (s : machine) : out machine :=
  let k := mc_kernel s in
  let c := clear (k_con k) in
  let idt := init_idt address (idt s) in
  c ← printf (line0 "Enabling Paging :)") [] c;
  let k := with_con c k in
  let k := with_page (init_page dir_addr table_addr (k_page k)) k in
  let k := with_pic_rtc (enable_irq ICW3_SLAVE (i8259_init (k_pic k))) (k_rtc k) k in
  let k := init_keyboard k in
  let k := with_pic_rtc (rtc_init rtc_b (k_pic k)) (k_rtc k) k in
  _ ← range dir_addr table_addr vidmem_addr k (fs_start_addr s) 12;
  let k := with_fs (filesystem_init (k_mem k) (fs_start_addr s)) k in
  let k := with_con (enable_cursor cursor1 cursor2 0 CURSOR_MAX (k_con k)) k in
  '(ws, p) ← init_pit divisor_addr 20 (k_pic k);
  let k := with_pic_rtc (enable_irq 5 p) (k_rtc k) k in
  Done (Machine k (mc_sb s) idt (ldt_desc_ptr s) (tss_desc_ptr s) (ldtr s) (tr s) (tss_ldt_segment_selector s) (tss_ss0 s)
    (fs_start_addr s) (pit_ports s ++ ws)).

(** [Return] when [entry] returns to the code that halts the processor; the
    loop at its end does not finish. *)
Definition entry (magic addr : Z) (s : machine) : out (outcome * machine) :=
  let k := mc_kernel s in
  '(go, start, c) ← print_info magic addr (fs_start_addr s) (clear (k_con k));
  let s := Machine (with_con c k) (mc_sb s) (idt s) (ldt_desc_ptr s) (tss_desc_ptr s) (ldtr s) (tr s)
             (tss_ldt_segment_selector s) (tss_ss0 s) start (pit_ports s) in
  if negb go then Done (Return 0, s) else
  s ← init_devices (init_descriptors s);
  '(_, b, k) ← play_music dsp DMA_Buffer magic_addr dh dir_addr table_addr vidmem_addr stack_dentry testaudio (mc_sb s) (mc_kernel s);
  let s := Machine k b (idt s) (ldt_desc_ptr s) (tss_desc_ptr s) (ldtr s) (tr s) (tss_ldt_segment_selector s) (tss_ss0 s)
             (fs_start_addr s) (pit_ports s) in
  '(o, k) ← init_terminal dir_addr table_addr vidmem_addr magics stack_dentry k;
  match o with
  | Return _ =>
      '(o, k) ← execute dir_addr table_addr vidmem_addr magics stack_dentry (lit0 "shell") (with_if true k);
      match o with Return _ => Hang | _ => Done (o, with_kernel k s) end
  | _ => Done (o, with_kernel k s)
  end.
End entry.

(** What the processor reads from a descriptor. *)
Definition seg_base (d : seg_desc_t) : Z := base_15_00 d + 2 ^ 16 * base_23_16 d + 2 ^ 24 * base_31_24 d.
Definition seg_limit (d : seg_desc_t) : Z := seg_lim_15_00 d + 2 ^ 16 * seg_lim_19_16 d.
Definition system_segment (kind addr lim : Z) (d : seg_desc_t) : Prop :=
  sd_present d = 1 ∧ sys d = 0 ∧ type d = kind ∧ sd_dpl d = 0 ∧ granularity d = 0 ∧ seg_base d = addr ∧ seg_limit d = lim.

Lemma field_bits x n k : 0 <= n → 0 <= k → Z.shiftr (Z.land x (Z.shiftl (Z.ones k) n)) n = (x / 2 ^ n) mod 2 ^ k.
Proof. intros Hn Hk. rewrite land_field, Z.shiftr_div_pow2 by done. apply Z.div_mul. lia. Qed.

Lemma seg_params addr lim d : is_u32 addr → 0 <= lim < 2 ^ 20 →
  seg_base (SET_SEG_PARAMS addr lim d) = addr ∧ seg_limit (SET_SEG_PARAMS addr lim d) = lim.
Proof.
  intros Ha Hl. unfold is_u32 in Ha. unfold seg_base, seg_limit, SET_SEG_PARAMS. cbn [base_15_00 base_23_16 base_31_24 seg_lim_15_00 seg_lim_19_16].
  change 0xFFFF with (Z.ones 16). rewrite !Z.land_ones by lia.
  change 0xFF0000 with (Z.shiftl (Z.ones 8) 16). change 0xFF000000 with (Z.shiftl (Z.ones 8) 24). change 0xF0000 with (Z.shiftl (Z.ones 4) 16).
  rewrite !field_bits by lia. split.
  - pose proof (Z.div_mod addr (2 ^ 16) ltac:(lia)). pose proof (Z.div_mod (addr / 2 ^ 16) (2 ^ 8) ltac:(lia)).
    rewrite (Z.div_div addr (2 ^ 16) (2 ^ 8)) in * by lia. change (2 ^ 16 * 2 ^ 8) with (2 ^ 24) in *.
    rewrite (Z.mod_small (addr / 2 ^ 24)) by (split; [apply Z.div_pos; lia|apply Z.div_lt_upper_bound; lia]). lia.
  - pose proof (Z.div_mod lim (2 ^ 16) ltac:(lia)).
    rewrite (Z.mod_small (lim / 2 ^ 16)) by (split; [apply Z.div_pos; lia|apply Z.div_lt_upper_bound; lia]). lia.
Qed.

(** * Printing at start-up *)

(** What printing and clearing leave of a console: only the text pages, the
    position, the stack of columns and the ports change. *)
Record printing (c0 c : console) : Prop := Printing {
  pt_infos : terminal_info c = terminal_info c0;
  pt_current : current_terminal c = current_terminal c0;
  pt_keys : key_arr c = key_arr c0 ∧ key_arr_ptr c = key_arr_ptr c0 ∧ key_arr_overflow c = key_arr_overflow c0;
  pt_text : ts_ok (abs_video c);
  pt_mem : only_in VIDEO TEXT_END (c_mem c0) (c_mem c);
  pt_bytes : mem_ok (c_mem c) }.

Lemma printing_refl c : ts_ok (abs_video c) → mem_ok (c_mem c) → printing c c.
Proof. intros H1 H2. split; [done|done|done|done|apply only_in_refl|done]. Qed.
Lemma printing_clear c0 c : 0 <= current_terminal c < 3 → printing c0 c → printing c0 (clear c).
Proof.
  intros Ht [H1 H2 H3 H4 H5 H6]. split; [done|done|done|exact H4| |by apply clear_ok].
  eapply only_in_trans; [exact H5|]. eapply only_in_weaken; [| |by apply clear_only]; unfold TEXT_END, FOUR_KB_SIZE; lia.
Qed.
Lemma printing_putc c0 c ch : printing c0 c → is_u8 ch → printing c0 (putc c ch).
Proof.
  intros [H1 H2 H3 H4 H5 H6] Hch. destruct (putc_ok c ch H4 Hch) as [Ha Hm].
  destruct (putc_keys c ch) as (E1 & E2 & E3). split.
  - by rewrite putc_terminals.
  - by rewrite putc_current.
  - by rewrite E1, E2, E3.
  - rewrite Ha. by apply ts_putc_ok.
  - eapply only_in_trans; [exact H5|]. eapply only_in_weaken; [| |exact Hm]; unfold TEXT_END, SCREEN_BYTES, FOUR_KB_SIZE; lia.
  - by apply putc_bytes.
Qed.
Lemma printing_chars c0 cs : ∀ c, printing c0 c → Forall is_u8 cs → printing c0 (foldl putc c cs).
Proof.
  induction cs as [|ch cs IH]; intros c Hc Hcs; [done|]. apply list.Forall_cons in Hcs as [Hch Hcs].
  apply IH; [by apply printing_putc|done].
Qed.

(** ** Messages *)

(** The items of a format. *)
Fixpoint items (l : list Z) : list item :=
  match l with
  | 37 :: 35 :: 120 :: l => Conv Hex8 :: items l
  | 37 :: 120 :: l => Conv Hex :: items l
  | 37 :: 117 :: l => Conv Unsigned :: items l
  | 37 :: 100 :: l => Conv Signed :: items l
  | 37 :: 115 :: l => Conv Str :: items l
  | c :: l => Text c :: items l
  | [] => []
  end.
(** The conversions of a format, in order. *)
Fixpoint needs (its : list item) : list spec :=
  match its with [] => [] | Conv s :: its => s :: needs its | _ :: its => needs its end.
Definition plain (i : item) : bool := match i with Text c => (0 <? c) && (c <? 256) && negb (c =? 37) | _ => true end.

Lemma enough_needs m its : ∀ args, Forall2 (showable m) (needs its) args → enough m its args.
Proof.
  induction its as [|[c| |s] its IH]; intros args H; cbn in H.
  - constructor.
  - constructor. by apply IH.
  - constructor. by apply IH.
  - inversion H as [|s' v ss vs Hs Hv]. subst. constructor; [done|by apply IH].
Qed.

Lemma digit_u8 r c : r <= 16 → digit_ok r c → is_u8 c.
Proof. intros Hr [_ Hc]. unfold digit_val in Hc. destruct (Z.ltb_spec c 58); split; lia. Qed.
Lemma digits_u8 r ds : r <= 16 → Forall (digit_ok r) ds → Forall is_u8 ds.
Proof. intros Hr H. eapply list.Forall_impl; [exact H|]. intros c. by apply digit_u8. Qed.
Lemma shows_u8 m s v cs : mem_ok m → shows m s v cs → Forall is_u8 cs.
Proof.
  intros Hm. destruct s; cbn.
  - intros (_ & H & _). by apply (digits_u8 16).
  - intros (_ & _ & H). by apply (digits_u8 16).
  - intros (_ & H & _). by apply (digits_u8 10).
  - destruct (_ <? _).
    + intros (ds & -> & _ & H & _). constructor; [split; lia|by apply (digits_u8 10)].
    + intros (_ & H & _). by apply (digits_u8 10).
  - intros ->. constructor; [apply u8_range|constructor].
  - intros (n & _ & ->). by apply bytes_of_mem_u8.
Qed.
Lemma rendered_u8 m its args cs : mem_ok m → forallb plain its = true → rendered (shows m) its args cs → Forall is_u8 cs.
Proof.
  intros Hm Hp H. induction H as [args|c its args cs _ IH|its args cs _ IH|s v its args c cs Hs _ IH].
  - constructor.
  - cbn in Hp. apply andb_true_iff in Hp as [Hc Hp]. constructor; [split; lia|by apply IH].
  - constructor; [split; lia|by apply IH].
  - specialize (IH Hp). apply list.Forall_app. split; [by eapply shows_u8|done].
Qed.

(** The format is one of those that [Printf] describes, and asks for the
    words [ss]. *)
Definition format_ok (l : list Z) (ss : list spec) : Prop :=
  format_bytes (items l) = l ∧ forallb plain (items l) = true ∧ needs (items l) = ss ∧ Z.of_nat (length l) < 2 ^ 32.

Lemma says l ss args c0 c : printing c0 c → format_ok l ss → Forall2 (showable (c_mem c)) ss args →
  ∃ c', printf (lview (l ++ [0])) args c = Done c' ∧ printing c0 c'.
Proof.
  intros Hc (El & Hp & En & Hlen) Hs. rewrite <- En in Hs. set (its := items l) in *.
  destruct (enough_rendered _ _ _ (enough_needs _ _ _ Hs)) as (cs & H1 & H2).
  assert (Hits : Forall item_ok its).
  { rewrite forallb_forall in Hp. apply list.Forall_forall. intros it Hit. rewrite list_elem_of_In in Hit. specialize (Hp it Hit).
    destruct it as [ch| |s]; [|done|done]. cbn in Hp |- *. lia. }
  exists (foldl putc c cs). split.
  - unfold printf. rewrite <- El at 1. rewrite (printf_scan _ cs its args Hits H1) by by rewrite El. done.
  - apply printing_chars; [done|]. eapply rendered_u8; [apply (pt_bytes _ _ Hc)|exact Hp|exact H2].
Qed.

(** A message printed at this point of [print_info]. *)
Lemma says_line s ss args c0 c : printing c0 c → format_ok (lit s ++ [10]) ss → Forall2 (showable (c_mem c)) ss args →
  ∃ c', printf (line0 s) args c = Done c' ∧ printing c0 c'.
Proof.
  intros Hc Hf Hs. destruct (says _ _ _ _ _ Hc Hf Hs) as (c' & E & Hc'). exists c'. split; [|done].
  rewrite <- E. unfold line0. by rewrite <- app_assoc.
Qed.

(** A message that depends on the information. *)
Lemma says_if (b : bool) s ss args c0 c : printing c0 c → format_ok (lit s ++ [10]) ss → (b = true → Forall2 (showable (c_mem c)) ss args) →
  ∃ c', (if b then printf (line0 s) args c else Done c) = Done c' ∧ printing c0 c'.
Proof. intros Hc Hf Hs. destruct b; [|by exists c]. apply (says_line s ss); auto. Qed.

(** A computation that ends with the console as printing leaves it. *)
Definition prints {A} (c0 : console) (r : console → A) (o : out A) : Prop := ∃ c, o = Done (r c) ∧ printing c0 c.
Lemma prints_line {A} c0 (r : console → A) s ss args c f : printing c0 c → format_ok (lit s ++ [10]) ss →
  Forall2 (showable (c_mem c)) ss args → (∀ c, printing c0 c → prints c0 r (f c)) →
  prints c0 r (c ← printf (line0 s) args c; f c).
Proof. intros Hc Hf Hs H. destruct (says_line s ss args c0 c Hc Hf Hs) as (c' & -> & Hc'). rewrite bind_Done. by apply H. Qed.
Lemma prints_if {A} c0 (r : console → A) (b : bool) s ss args c f : printing c0 c → format_ok (lit s ++ [10]) ss →
  (b = true → Forall2 (showable (c_mem c)) ss args) → (∀ c, printing c0 c → prints c0 r (f c)) →
  prints c0 r (c ← (if b then printf (line0 s) args c else Done c); f c).
Proof. intros Hc Hf Hs H. destruct (says_if b s ss args c0 c Hc Hf Hs) as (c' & -> & Hc'). rewrite bind_Done. by apply H. Qed.
Lemma prints_last c0 s ss args c : printing c0 c → format_ok (lit s ++ [10]) ss → Forall2 (showable (c_mem c)) ss args →
  prints c0 id (printf (line0 s) args c).
Proof. apply says_line. Qed.
Lemma prints_done {A} c0 (r : console → A) c : printing c0 c → prints c0 r (Done (r c)).
Proof. intros H. by exists c. Qed.

Ltac format_ok := split_and!; vm_compute; reflexivity.
Ltac words := repeat (constructor; [exact I|]); constructor.
(** The next message of the goal, whose words are all numbers. *)
Ltac say c H :=
  match type of H with printing ?c0 ?c1 =>
    first [eapply (prints_line c0) | eapply (prints_if c0)]; [exact H|format_ok|first [words|intros _; words]|clear c1 H; intros c H] end.

(** * The boot information *)

(** [n] bytes at [a] that printing does not overwrite. *)
Definition kept (a n : Z) : Prop := 0 <= a ∧ a + n <= 2 ^ 32 ∧ outside_text a n.

(** What the boot loader leaves at [mbi]: a module, whose first one starts at
    [start], not both of the two kinds of symbols, and a memory map that ends
    before the end of memory.  Only the words that decide the control flow and
    the command line need be out of the way of the screen. *)
Record multiboot (c : console) (mbi start : Z) : Prop := Multiboot {
  mb_info : kept mbi 52;
  mb_modules : CHECK_FLAG (field mbi 0 c) 3 = true;
  mb_start : kept (field mbi 24 c) 4 ∧ field (field mbi 24 c) 0 c = start;
  mb_exclusive : CHECK_FLAG (field mbi 0 c) 4 && CHECK_FLAG (field mbi 0 c) 5 = false;
  mb_cmdline : CHECK_FLAG (field mbi 0 c) 2 = true →
    ∃ n, is_cstr (mview (c_mem c) (field mbi 16 c)) n ∧ n < 2 ^ 32 ∧ outside_text (field mbi 16 c) (n + 1);
  mb_mmap : CHECK_FLAG (field mbi 0 c) 6 = true → field mbi 48 c + field mbi 44 c < 2 ^ 32 ∧
    ∀ a, field mbi 48 c <= a < field mbi 48 c + field mbi 44 c → outside_text a 4 ∧ a + field a 0 c + 4 < 2 ^ 32 }.

Lemma field_printing c0 c p off : printing c0 c → outside_text (u32 (p + off)) 4 → field p off c = field p off c0.
Proof.
  intros Hc Ho. unfold field. apply load32_frame. intros x Hx. apply (pt_mem _ _ Hc). unfold outside_text in Ho. lia.
Qed.
Lemma field_kept c0 c p n off : printing c0 c → kept p n → 0 <= off → off + 4 <= n → field p off c = field p off c0.
Proof.
  intros Hc (H1 & H2 & H3) Ho Hn. apply (field_printing c0 c); [done|]. rewrite u32_id by (split; lia). unfold outside_text in *. lia.
Qed.
Lemma field_u32 c p off : mem_ok (c_mem c) → is_u32 (field p off c).
Proof. intros H. by apply load32_range. Qed.

Lemma print_module_ok c0 c n md : printing c0 c → prints c0 id (print_module n md c).
Proof.
  intros Hc. unfold print_module. say c1 Hc. say c2 Hc. say c3 Hc.
  assert (Hl : prints c0 id (for_range 0 16 (λ o i, c ← o; printf (lit0 "0x%x ") [i8 (c_mem c (u32 (field md 0 c + i)))] c) (Done c3))).
  { apply (for_range_ind (λ _, prints c0 id)); [lia|by exists c3|].
    intros i o _ (c4 & -> & Hc4). rewrite bind_Done. apply (says (lit "0x%x ") [Hex]); [done|format_ok|words]. }
  destruct Hl as (c4 & -> & Hc4). rewrite bind_Done. eapply prints_last; [done|format_ok|words].
Qed.

Lemma print_modules_ok c0 c mbi start : multiboot c0 mbi start → printing c0 c → prints c0 id (print_modules mbi c).
Proof.
  intros Hb Hc. set (count := field mbi 20 c0).
  assert (Hcount : is_u32 count). { unfold count. rewrite <- (field_kept c0 c mbi 52 20 Hc (mb_info _ _ _ Hb)) by lia. apply field_u32, (pt_bytes _ _ Hc). }
  unfold print_modules. destruct (orun_index
    (λ '(mod_count, md, c), if mod_count <? field mbi 20 c then
      match print_module mod_count md c with Done c => inl (u32 (mod_count + 1), u32 (md + 16), c) | o => inr o end else inr (Done c))
    (λ n '(i, md, c), 0 <= i <= count ∧ n = count - i ∧ printing c0 c) (printing c0) count (0, field mbi 24 c, c)) as (c' & E & H);
    [|unfold is_u32 in Hcount; lia|split_and!; [done|apply Hcount|lia|done]|by exists c'].
  clear c Hc. intros n [[i md] c] Hn (Hi & -> & Hc). rewrite (field_kept c0 c mbi 52 20 Hc (mb_info _ _ _ Hb)) by lia. fold count.
  destruct (Z.ltb_spec i count) as [Hlt|]; [|by exists c]. destruct (print_module_ok c0 c i md Hc) as (c' & -> & Hc').
  exists (count - (i + 1)). unfold is_u32 in Hcount. rewrite u32_id by (split; lia). split_and!; [lia|lia|lia|lia|done|done].
Qed.

Lemma print_mmap_ok c0 c mbi start : multiboot c0 mbi start → CHECK_FLAG (field mbi 0 c0) 6 = true → printing c0 c → prints c0 id (print_mmap mbi c).
Proof.
  intros Hb Hf Hc. destruct (mb_mmap _ _ _ Hb Hf) as [Hend Hent]. pose proof (mb_info _ _ _ Hb) as Hk.
  set (from := field mbi 48 c0) in *. set (len := field mbi 44 c0) in *.
  assert (Hfrom : is_u32 from). { unfold from. rewrite <- (field_kept c0 c mbi 52 48 Hc Hk) by lia. apply field_u32, (pt_bytes _ _ Hc). }
  assert (Hlen : is_u32 len). { unfold len. rewrite <- (field_kept c0 c mbi 52 44 Hc Hk) by lia. apply field_u32, (pt_bytes _ _ Hc). }
  unfold is_u32 in Hfrom, Hlen. unfold print_mmap. rewrite (field_kept c0 c mbi 52 48 Hc Hk) by lia. fold from.
  match goal with |- context [orun ?b _] => destruct (orun_index b
    (λ n '(a, c), from <= a < 2 ^ 32 ∧ n = Z.max 0 (from + len - a) ∧ printing c0 c) (printing c0) len (from, c)) as (c' & E & H) end;
    [|lia|split_and!; [lia|lia|lia|done]|by exists c'].
  clear c Hc. intros n [a c] Hn (Ha & -> & Hc). rewrite (field_kept c0 c mbi 52 48 Hc Hk), (field_kept c0 c mbi 52 44 Hc Hk) by lia.
  fold from len. rewrite (u32_id (from + len)) by (split; lia). destruct (Z.ltb_spec a (from + len)) as [Hlt|]; [|by exists c].
  destruct (Hent a ltac:(lia)) as [Hout Hstep]. rewrite <- (Z.add_0_r a), <- (u32_id (a + 0)) in Hout by (split; lia).
  pose proof (field_printing c0 c a 0 Hc Hout) as Esz. pose proof (field_u32 c a 0 (pt_bytes _ _ Hc)) as Hsz. unfold is_u32 in Hsz. rewrite Esz in Hsz.
  destruct (says (lit "    size = 0x%x, base_addr = 0x%#x%#x" ++ 10 :: lit "    type = 0x%x,  length    = 0x%#x%#x" ++ [10])
    [Hex; Hex8; Hex8; Hex; Hex8; Hex8] [field a 0 c; field a 8 c; field a 4 c; field a 20 c; field a 16 c; field a 12 c] c0 c Hc)
    as (c' & E & Hc'); [by split_and!; vm_compute|by repeat constructor|].
  replace (lview _) with (lview (lit "    size = 0x%x, base_addr = 0x%#x%#x" ++ 10 :: lit "    type = 0x%x,  length    = 0x%#x%#x" ++ [10; 0])) in E by done.
  rewrite E. clear E. exists (Z.max 0 (from + len - (a + field a 0 c0 + 4))).
  rewrite (field_printing c0 c' a 0 Hc' Hout), (u32_id (a + field a 0 c0 + 4)) by (split; lia).
  split_and!; [lia|lia|lia|lia|done|done].
Qed.

(** With a good magic number the messages are printed, and the file system is
    at the first module. *)
Lemma print_info_ok c0 c mbi start s0 : multiboot c0 mbi start → printing c0 c →
  prints c0 (λ c, (true, start, c)) (print_info MULTIBOOT_BOOTLOADER_MAGIC mbi s0 c).
Proof.
  intros Hb Hc. pose proof (mb_info _ _ _ Hb) as Hk. unfold print_info. rewrite Z.eqb_refl. cbn [negb].
  assert (Hflags : ∀ c, printing c0 c → field mbi 0 c = field mbi 0 c0) by (intros; by apply (field_kept _ _ _ 52); [..|lia|lia]).
  pose proof (mb_modules _ _ _ Hb) as Hmod. pose proof (mb_exclusive _ _ _ Hb) as Hexc. pose proof (mb_cmdline _ _ _ Hb) as Hcmd.
  pose proof (print_mmap_ok c0) as Hmmap. remember (field mbi 0 c0) as flags eqn:Eflags.
  say c1 Hc. say c2 Hc. say c3 Hc. eapply (prints_if c0); [exact Hc|format_ok| |intros c4 Hc4].
  { rewrite (Hflags _ Hc). intros Hf. destruct (Hcmd Hf) as (n & Hn & Hl & Ho). constructor; [|constructor]. exists n.
    split; [|done]. rewrite (field_kept _ _ _ 52 16 Hc Hk) by lia. destruct Hn as (H0 & Hz & Hs). split; [done|].
    assert (Hsame : ∀ i, 0 <= i <= n → c_mem c3 (field mbi 16 c0 + i) = c_mem c0 (field mbi 16 c0 + i)).
    { intros i Hi. apply (pt_mem _ _ Hc). unfold outside_text in Ho. lia. }
    unfold mview in *. split; [by rewrite Hsame by lia|]. intros i Hi. rewrite Hsame by lia. by apply Hs. }
  rewrite (Hflags _ Hc4), Hmod. destruct (mb_start _ _ _ Hb) as [Hst Est].
  rewrite (field_kept _ _ _ 52 24 Hc4 Hk), (field_kept _ _ _ 4 0 Hc4 Hst), Est by lia.
  destruct (print_modules_ok c0 c4 mbi start Hb Hc4) as (c5 & -> & Hc5). rewrite !bind_Done. cbv beta iota zeta delta [id].
  rewrite (Hflags _ Hc5), Hexc. say c6 Hc5.
  rewrite (Hflags _ Hc5). destruct (CHECK_FLAG flags 6) eqn:Ef; [|rewrite bind_Done; by apply (prints_done c0 (λ c, (true, start, c)))].
  destruct (says_line "mmap_addr = 0x%#x, mmap_length = 0x%x" [Hex8; Hex] [field mbi 48 c6; field mbi 44 c6] c0 c6) as (c7 & -> & Hc7);
    [done|format_ok|words|rewrite bind_Done].
  rewrite Eflags in Ef. destruct (Hmmap c7 mbi start Hb Ef Hc7) as (c8 & -> & Hc8). rewrite bind_Done. by exists c8.
Qed.

(** * The devices *)
Section boot.
Context (dir_addr table_addr vidmem_addr magics : Z) (stack_dentry : dentry_t).
Context (address : routine → Z) (ldt ldt_size tss tss_size divisor_addr DMA_Buffer magic_addr dh testaudio : Z).
Context (dsp : Z → Z → Z) (rtc_b cursor1 cursor2 : Z).
Context (Hlink : linked dir_addr table_addr vidmem_addr).

(** The kernel when the boot loader jumps to it, with an image at [start]
    whose entry [i] is the shell: the variables have their initial values. *)
Record cold (k : kernel) (start i : Z) : Prop := Cold {
  cd_process : process (k_procs k) = replicate 6 NOT_IN_USE;
  cd_running : terminal_running k = replicate 3 0;
  cd_infos : length (terminal_info (k_con k)) = 3%nat ∧
    ∀ t, 0 <= t < 3 → ∃ it, zget (terminal_info (k_con k)) t = Some it ∧ length (key_arr_old it) = 129%nat;
  cd_current : 0 <= current_terminal (k_con k) < 3;
  cd_keys : KEY_ARR_SIZE < Z.of_nat (length (key_arr (k_con k)));
  cd_text : ts_ok (abs_video (k_con k));
  cd_pcbs : ∀ q, 0 <= q < MAX_TASK → ∃ p, k_pcbs k !! get_pcb_by_index q = Some p ∧ length (files p) = 8%nat;
  cd_page : boot_state (k_page k);
  cd_image : image_ok (k_mem k) (filesystem_init (k_mem k) start);
  cd_dir : dir_ok (k_mem k) (filesystem_init (k_mem k) start);
  cd_low : FOUR_MB_SIZE <= fs_addr (filesystem_init (k_mem k) start) ∧ image_end (filesystem_init (k_mem k) start) <= EIGHT_MB_SIZE;
  cd_shell : shell_on magics (with_fs (filesystem_init (k_mem k) start) k) i }.

Lemma shell_same k k' i : k_fs k' = k_fs k → k_mem k' = k_mem k → shell_on magics k i →
  shell_on magics k' i ∧ entry_point k' i = entry_point k i.
Proof.
  intros E1 E2 [[H1 H2 H3 H4 H5 H6] Hb Ho Hs]. split; [|unfold entry_point; by rewrite E1, E2]. rewrite <- E1, <- E2 in *.
  split; [split; [exact H1|exact H2|exact H3|exact H4|exact H5|exact H6]|exact Hb|exact Ho|exact Hs].
Qed.

(** The file system does not move while the screen is written. *)
Lemma init_same m m' start : image_ok m (filesystem_init m start) →
  (∀ a, start <= a < image_end (filesystem_init m start) → m' a = m a) → mem_ok m' →
  filesystem_init m' start = filesystem_init m start.
Proof.
  intros Hi Hs Hm. pose proof (image_ok_frame m m' _ Hi Hs Hm) as [_ E _ _]. by rewrite E.
Qed.

(** The kernel [k] with its devices set up, from [k0]. *)
Record devices_on (k0 k : kernel) (start : Z) : Prop := DevicesOn {
  dv_state : k_procs k = k_procs k0 ∧ terminal_running k = terminal_running k0 ∧ k_pcbs k = k_pcbs k0 ∧ k_esp k = k_esp k0;
  dv_fs : k_fs k = filesystem_init (k_mem k0) start;
  dv_page : rep dir_addr table_addr vidmem_addr (k_page k) (None, None);
  dv_masks : ∀ n, 0 <= n < 16 → masked (k_pic k) n = negb (existsb (Z.eqb n) [0; 1; 2; 5; 8]);
  dv_infos : terminal_info (k_con k) = terminal_info (k_con k0) ∧ current_terminal (k_con k) = current_terminal (k_con k0);
  dv_keys : key_arr (k_con k) = key_arr (k_con k0) ∧ key_arr_ptr (k_con k) = 0 ∧ key_arr_overflow (k_con k) = 0;
  dv_text : ts_ok (abs_video (k_con k));
  dv_mem : only_in VIDEO TEXT_END (k_mem k0) (k_mem k);
  dv_bytes : mem_ok (k_mem k) }.

Lemma outside_image m f a : image_ok m f → outside_text (fs_addr f) (image_end f - fs_addr f) →
  fs_addr f <= a < image_end f → a < VIDEO ∨ TEXT_END <= a.
Proof. intros Hi Ho Ha. unfold outside_text in Ho. lia. Qed.

(** The kernel's own page after [init_page]. *)
Lemma kernel_address k a : rep dir_addr table_addr vidmem_addr (k_page k) (None, None) → FOUR_MB_SIZE <= a < EIGHT_MB_SIZE →
  translation dir_addr table_addr vidmem_addr k a = Some (Xlat a false false).
Proof.
  unfold FOUR_MB_SIZE, EIGHT_MB_SIZE. intros Hpage Ha. unfold translation. rewrite (translate_is_map _ _ _ Hlink _ _ _ Hpage) by first [lia|by split].
  cbn [fst snd]. unfold address_map, FOUR_MB, EIGHT_MB. destruct (Z.ltb_spec a 0x400000); [lia|]. by destruct (Z.ltb_spec a 0x800000); [|lia].
Qed.
Lemma kernel_range k a n : rep dir_addr table_addr vidmem_addr (k_page k) (None, None) → FOUR_MB_SIZE <= a → a + n <= EIGHT_MB_SIZE →
  range dir_addr table_addr vidmem_addr k a n = Done ().
Proof.
  intros Hpage Hlo Hhi. unfold range, check_range. destruct (Z.leb_spec n 0); [done|].
  rewrite !kernel_address by (done || lia). unfold FOUR_MB_SIZE, EIGHT_MB_SIZE in *.
  replace (a / 0x400000) with 1 by (apply Z.div_unique with (r := a - 0x400000); lia).
  by replace ((a + n - 1) / 0x400000) with 1 by (apply Z.div_unique with (r := a + n - 1 - 0x400000); lia).
Qed.

Lemma init_devices_ok k0 start i c e b dt ld td r1 r2 r3 r4 pp : cold k0 start i → printing (k_con k0) c →
  ∃ k ws, init_devices dir_addr table_addr vidmem_addr address divisor_addr rtc_b cursor1 cursor2
      (Machine (with_tss e (with_con c k0)) b dt ld td r1 r2 r3 r4 start pp) =
    Done (Machine k b (init_idt address dt) ld td r1 r2 r3 r4 start (pp ++ ws)) ∧ devices_on k0 k start.
Proof.
  intros Hk Hc. assert (Ht : 0 <= current_terminal c < 3) by (rewrite (pt_current _ _ Hc); apply (cd_current _ _ _ Hk)).
  pose proof (printing_clear _ _ Ht Hc) as Hcc. unfold init_devices. cbn [mc_kernel mc_sb idt ldt_desc_ptr tss_desc_ptr ldtr tr tss_ldt_segment_selector tss_ss0 fs_start_addr pit_ports].
  change (k_con (with_tss e (with_con c k0))) with c.
  destruct (says_line "Enabling Paging :)" [] [] _ _ Hcc) as (c1 & -> & Hc1); [format_ok|words|]. rewrite bind_Done.
  rewrite kernel_range; [rewrite bind_Done| |destruct (cd_low _ _ _ Hk); done|].
  2: { apply init_page_rep; [done|apply (cd_page _ _ _ Hk)]. }
  2: { pose proof (boot_inside _ _ (cd_image _ _ _ Hk)) as Hin. destruct (cd_low _ _ _ Hk) as [_ Hhi].
       change (fs_addr (filesystem_init (k_mem k0) start)) with start in Hin. unfold BLOCKSIZE in Hin. lia. }
  unfold init_pit. change (20 =? 0) with false. cbv iota. rewrite bind_Done. eexists _, _. split; [reflexivity|].
  destruct Hc1 as [H1 H2 (H3 & _) H4 H5 H6]. split.
  - done.
  - change (filesystem_init (c_mem c1) start = filesystem_init (k_mem k0) start).
    apply init_same; [apply (cd_image _ _ _ Hk)| |done]. intros a Ha. apply H5.
    pose proof (so_outside _ _ _ (cd_shell _ _ _ Hk)) as Ho.
    exact (outside_image _ _ a (cd_image _ _ _ Hk) Ho Ha).
  - apply init_page_rep; [done|apply (cd_page _ _ _ Hk)].
  - intros n Hn. assert (Hall : forallb (λ n, Bool.eqb (masked (enable_irq 5 (enable_irq PIT_IRQ (rtc_init rtc_b (enable_irq KEYBOARD_IRQ
      (enable_irq ICW3_SLAVE (i8259_init (k_pic k0))))))) n) (negb (existsb (Z.eqb n) [0; 1; 2; 5; 8]))) (seqZ 0 16) = true) by (vm_compute; reflexivity).
    rewrite forallb_forall in Hall. apply eqb_prop, (Hall n). rewrite <- list_elem_of_In. apply elem_of_seqZ. lia.
  - done.
  - done.
  - by repeat split.
  - done.
  - done.
Qed.

(** ** Kernels that differ where start-up does not look *)
Record boot_same (k k' : kernel) : Prop := BootSame {
  bs_state : k_procs k' = k_procs k ∧ terminal_running k' = terminal_running k ∧ k_fs k' = k_fs k ∧ k_page k' = k_page k ∧ k_pic k' = k_pic k;
  bs_infos : terminal_info (k_con k') = terminal_info (k_con k) ∧ current_terminal (k_con k') = current_terminal (k_con k);
  bs_keys : keys_ok (k_con k');
  bs_text : ts_ok (abs_video (k_con k'));
  bs_pcbs : ∀ q, 0 <= q < MAX_TASK → ∃ p, k_pcbs k' !! get_pcb_by_index q = Some p ∧ length (files p) = 8%nat;
  bs_mem : ∀ a, fs_addr (k_fs k) <= a < image_end (k_fs k) → k_mem k' a = k_mem k a;
  bs_bytes : mem_ok (k_mem k') }.

Lemma boot_same_ok k k' i : boot_ok dir_addr table_addr vidmem_addr magics k i → boot_same k k' →
  boot_ok dir_addr table_addr vidmem_addr magics k' i ∧ entry_point k' i = entry_point k i.
Proof.
  intros [H1 H2 H3 H4 H5 H6 H7 H8 H9] [(S1 & S2 & S3 & S4 & S5) (S6 & S7) S8 S9 S10 S11 S12].
  assert (Hm : machine_ok dir_addr table_addr vidmem_addr k')
    by (apply (machine_frame _ _ _ k k' H8 S3 S11 S12); rewrite S4; apply (mo_page _ _ _ _ H8)).
  split; [|by apply (entry_point_frame dir_addr table_addr vidmem_addr k k' H8 S3 S11 i shell), H9].
  split; rewrite ?S1, ?S2, ?S6, ?S7; [done..|exact Hm|]. destruct H9 as [G1 G2 G3 G4].
  split; rewrite ?S3; [|done..]. by apply (program_frame dir_addr table_addr vidmem_addr k k' H8 S3 S11).
Qed.

Lemma devices_boot k0 k start i : cold k0 start i → devices_on k0 k start →
  boot_ok dir_addr table_addr vidmem_addr magics k i ∧
  entry_point k i = entry_point (with_fs (filesystem_init (k_mem k0) start) k0) i.
Proof.
  intros Hk [(S1 & S2 & S3 & S4) D2 D3 _ (D5 & D6) (D7 & D8 & D9) D10 D11 D12].
  destruct (shell_same (with_fs (filesystem_init (k_mem k0) start) k0) (set_mem (k_mem k0) k) i D2 eq_refl (cd_shell _ _ _ Hk)) as [Hsh <-].
  pose proof (so_outside _ _ _ Hsh) as Hout. change (k_fs (set_mem (k_mem k0) k)) with (k_fs k) in Hout.
  destruct Hk as [C1 C2 C3 C4 C5 C6 C7 C8 C9 C10 C11 _]. rewrite <- D2 in C9, C10, C11.
  assert (Hkeys : keys_ok (k_con k)) by (unfold keys_ok; rewrite D7, D8, D9; unfold KEY_ARR_SIZE in *; lia).
  apply boot_same_ok.
  - split; [by rewrite <- C1, <- S1|by rewrite <- C2, <- S2|by rewrite <- D5 in C3|by rewrite <- D6 in C4|exact Hkeys|exact D10|by rewrite <- S3 in C7| |exact Hsh].
    split; [exact C9|exact C10|exact C11|]. by exists (None, None).
  - split; [done|done|exact Hkeys|exact D10|by rewrite <- S3 in C7| |exact D12].
    intros a Ha. apply D11, (outside_image _ _ a C9 Hout Ha).
Qed.

(** A kernel that could start processes is [cold] again with its page tables
    emptied, whatever else its memory holds. *)
Lemma cold_again k i m p start : boot_ok dir_addr table_addr vidmem_addr magics k i → k_fs k = filesystem_init (k_mem k) start →
  (∀ a, fs_addr (k_fs k) <= a < image_end (k_fs k) → m a = k_mem k a) → mem_ok m → boot_state p →
  cold (with_page p (set_mem m k)) start i.
Proof.
  intros [H1 H2 H3 H4 (_ & _ & _ & H5) H6 H7 H8 H9] Ef Hs Hm Hp.
  assert (Efs : filesystem_init m start = k_fs k) by (rewrite Ef in Hs |- *; apply init_same; [rewrite <- Ef; apply H8|exact Hs|done]).
  assert (Hmach : machine_ok dir_addr table_addr vidmem_addr (set_mem m k))
    by (apply (machine_frame _ _ _ k); [exact H8|done|exact Hs|exact Hm|apply (mo_page _ _ _ _ H8)]).
  split; [exact H1|exact H2|exact H3|exact H4|exact H5|exact H6|exact H7|exact Hp| | | |];
    change (k_mem (with_page p (set_mem m k))) with m; rewrite Efs; [apply Hmach..|].
  apply (shell_same (set_mem m k)); [done|done|]. destruct H9 as [G1 G2 G3 G4]. split; [|exact G2|exact G3|exact G4].
  by apply (program_frame dir_addr table_addr vidmem_addr k).
Qed.

(** * The start-up music *)

(** What is at "testaudio" on the image decides what is sent to the sound card:
    nothing when there is no such file; else it is a RIFF file of at least 64 KB
    and a descriptor of [l] is free. *)
Inductive soundtrack (m : mem) (f : fs) (l : list file_desc_t) : list (Z * Z) → Prop :=
| no_track : (∀ j, 0 <= j < num_dentries f → entry_name m f j ≠ lit "testaudio") → soundtrack m f l []
| track j fd (ino := load32 m (entry_at f j + 36)) : 0 <= j < num_dentries f → entry_name m f j = lit "testaudio" →
    (∀ j', 0 <= j' < j → entry_name m f j' ≠ lit "testaudio") → load32 m (entry_at f j + 32) = REGULAR_FILE →
    inode_ok m f ino → BUFFER_SIZE <= file_size m f ino → file_slice m f ino 0 4 = [0x52; 0x49; 0x46; 0x46] →
    free_fd (drop 2 l) MIN_FD = Some fd → soundtrack m f l (play_commands DMA_Buffer dh).

(** The linker and the stack put the literal, the buffer of the first bytes
    and the sound buffer in the kernel's page, outside the image. *)
Record sound_memory (m : mem) (f : fs) : Prop := SoundMemory {
  so_literal : FOUR_MB_SIZE <= testaudio ∧ testaudio + 33 <= EIGHT_MB_SIZE;
  so_bytes : ∀ j v, zget (lit "testaudio" ++ [0]) j = Some v → m (testaudio + j) = v;
  so_magic : buf_ok f magic_addr 4 ∧ FOUR_MB_SIZE <= magic_addr ∧ magic_addr + 4 <= EIGHT_MB_SIZE ∧ (magic_addr + 4 <= testaudio ∨ testaudio + 33 <= magic_addr);
  so_dma : buf_ok f DMA_Buffer BUFFER_SIZE ∧ FOUR_MB_SIZE <= DMA_Buffer ∧ DMA_Buffer + BUFFER_SIZE <= EIGHT_MB_SIZE }.

(** Both depend on the image and on the kernel's page only. *)
Lemma soundtrack_frame m m' f l ws : image_ok m f → dir_ok m f → (∀ a, fs_addr f <= a < image_end f → m' a = m a) →
  soundtrack m f l ws → soundtrack m' f l ws.
Proof.
  intros Hi Hd Hs [Hnone|j fd ino Hj En Hfirst Ht Hino Hsz Hriff Hfd].
  - apply no_track. intros j Hj. rewrite (entry_name_frame m m') by done. by apply Hnone.
  - destruct (entry_inside m f Hi Hd j Hj). pose proof (boot_inside m f Hi).
    assert (Ei : load32 m' (entry_at f j + 36) = ino) by (apply (image_frame_load m m' f Hs); lia).
    pose proof Hino as [Hir _ _]. apply (track m' f l j fd); rewrite ?Ei; try done.
    + by rewrite (entry_name_frame m m').
    + intros j' Hj'. rewrite (entry_name_frame m m') by (done || lia). by apply Hfirst.
    + rewrite <- Ht. apply (image_frame_load m m' f Hs); lia.
    + by apply (inode_ok_frame m).
    + rewrite (file_size_frame m m' f Hi Hs) by lia. done.
    + unfold BUFFER_SIZE, BLOCK_SIZE in Hsz. rewrite (file_slice_frame m); [done|done|done|lia|lia|done].
Qed.
Lemma sound_memory_frame m m' f : (∀ a, FOUR_MB_SIZE <= a → m' a = m a) → sound_memory m f → sound_memory m' f.
Proof.
  intros Hs [H1 H2 H3 H4]. split; [done| |done|done]. intros j v Hv. rewrite Hs; [by apply H2|].
  apply zget_Some in Hv as [Hj _]. lia.
Qed.

Section music.
Context (Hdsp : dsp_ready dsp) (Hdh : 0 <= dh < 256) (k : kernel) (i q : Z) (p : pcb_t) (ws : list (Z * Z)).
Context (Hk : boot_ok dir_addr table_addr vidmem_addr magics k i).
Context (Hpage : rep dir_addr table_addr vidmem_addr (k_page k) (None, None)).
Context (Hq : 0 <= q < MAX_TASK) (Hcurr : get_curr_pcb k = get_pcb_by_index q) (Hp : k_pcbs k !! get_pcb_by_index q = Some p).
Context (Hmem : sound_memory (k_mem k) (k_fs k)).

Lemma testaudio_cstr : let name := at_user dir_addr table_addr vidmem_addr k testaudio in
  is_cstr name 9 ∧ bytes_of name 9 = lit "testaudio".
Proof.
  intros name. pose proof (so_bytes _ _ Hmem) as Hb. destruct (so_literal _ _ Hmem) as [Hlo Hhi]. pose proof (lview_cstr (lit "testaudio") ltac:(vm_compute; repeat constructor; discriminate)) as Hc.
  assert (He : ∀ j, 0 <= j <= 9 → name j = lview (lit "testaudio" ++ [0]) j).
  { intros j Hj. destruct (zget_is_Some (lit "testaudio" ++ [0]) j) as [v E]; [by cbn; lia|].
    unfold name, at_user, vview, lview. rewrite kernel_address by (done || lia). cbn [mbind option_bind x_pa]. by rewrite E, (Hb j v E). }
  change (Z.of_nat (length (lit "testaudio"))) with 9 in Hc. destruct Hc as (H0 & Hz & Hs). split.
  - split; [done|]. rewrite He by lia. split; [done|]. intros j Hj. rewrite He by lia. by apply Hs.
  - transitivity (bytes_of (lview (lit "testaudio" ++ [0])) 9); [|reflexivity]. apply list_fmap_ext.
    intros j x Hj. apply lookup_seqZ in Hj as [-> Hj]. by rewrite He by lia.
Qed.

(** Printing, and the writes of [play_music], do not disturb the start-up. *)
Lemma printing_same c : printing (k_con k) c → boot_same k (with_con c k).
Proof.
  intros [P1 P2 (P3 & P4 & P5) P6 P7 P8]. destruct Hk as [H1 H2 H3 H4 H5 H6 H7 H8 [_ _ Hout _]].
  split; [done|done| |exact P6|done| |exact P8].
  - change (keys_ok c). unfold keys_ok. by rewrite P3, P4, P5.
  - intros a Ha. apply P7, (outside_image _ _ a (mo_image _ _ _ _ H8) Hout Ha).
Qed.
Lemma played_same j fd m : (∀ a, (a < magic_addr ∨ magic_addr + 4 <= a) → (a < DMA_Buffer ∨ DMA_Buffer + BUFFER_SIZE <= a) → m a = k_mem k a) →
  mem_ok m → boot_same k (played k p j fd m).
Proof.
  intros Hm Hok. destruct Hk as [H1 H2 H3 H4 H5 H6 H7 H8 _].
  split; [done|done|exact H5|exact H6| | |exact Hok].
  - intros x Hx. unfold played, with_fd. rewrite Hcurr. cbn. destruct (decide (x = q)) as [->|Hne].
    + eexists. split; [apply lookup_insert_eq|]. cbn. rewrite length_insert. destruct (H7 q Hq) as (p' & Hp' & Hl).
      rewrite Hp in Hp'. by injection Hp' as <-.
    + rewrite lookup_insert_ne; [by apply H7|]. intros E. by apply Hne, (get_pcb_inj x q Hx Hq).
  - intros a Ha. apply Hm; [pose proof (so_magic _ _ Hmem) as [[_ Hx] _]|pose proof (so_dma _ _ Hmem) as ([_ Hx] & _)]; lia.
Qed.

Lemma music_starts s : soundtrack (k_mem k) (k_fs k) (files p) ws →
  is_playing s ≠ 1 → current_offset s = 0 → cur_block s = DMA_Buffer → 0 <= sb_reads s →
  ∃ r s' k', play_music dsp DMA_Buffer magic_addr dh dir_addr table_addr vidmem_addr stack_dentry testaudio s k = Done (r, s', k') ∧
    sb_ports s' = sb_ports s ++ ws ∧ boot_same k k'.
Proof.
  intros Hs Hidle Hoff Hcur Hreads. destruct testaudio_cstr as [Hc Eb]. pose proof (bt_machine _ _ _ _ _ _ Hk) as Hmach.
  destruct (so_dma _ _ Hmem) as (Hd1 & Hd2 & Hd3). destruct (so_magic _ _ Hmem) as (Hmg & Hm4 & Hm8 & Hma).
  destruct Hs as [Hnone|j fd ino Hj En Hfirst Ht Hino Hsz Hriff Hfd].
  - destruct (read_dentry_by_name_found (k_mem k) (k_fs k) (mo_image _ _ _ _ Hmach) (mo_dir _ _ _ _ Hmach) _ 9 Hc)
      with (dentry := stack_dentry) as (r & Er & [(j & Hj & Ej & _)|[_ ->]]);
      [apply at_user_readable; [apply Hmach|exact Hc]|done|by rewrite Eb in Ej; destruct (Hnone j Hj)|].
    destruct (says (lit "No Such File") [] [] (k_con k) (k_con k)) as (c & Ec & Hcc);
      [apply printing_refl; [apply (bt_text _ _ _ _ _ _ Hk)|apply (im_bytes _ _ (mo_image _ _ _ _ Hmach))]|format_ok|words|].
    exists (-1), s, (with_con c k). split; [|split; [by rewrite app_nil_r|by apply printing_same]].
    unfold play_music. rewrite (proj2 (Z.eqb_neq _ _) Hidle). cbv zeta.
    rewrite Er, bind_Done. change (-1 =? -1) with true. cbv iota. unfold lit0. by rewrite Ec, bind_Done.
  - assert (Hop : opener dir_addr table_addr vidmem_addr k p testaudio j).
    { split; [apply Hmach|apply Hmach|by rewrite Hcurr| | |].
      - destruct (bt_pcbs _ _ _ _ _ _ Hk q Hq) as (p' & Hp' & Hl). rewrite Hp in Hp'. by injection Hp' as <-.
      - destruct (so_literal _ _ Hmem). unfold FOUR_MB_SIZE in *. lia.
      - split; [done|]. exists 9. rewrite Eb. by split_and!. }
    destruct (play_music_spec dsp Hdsp DMA_Buffer magic_addr dh Hdh dir_addr table_addr vidmem_addr stack_dentry k p testaudio j Hop)
      with (fd := fd) (s := s) as (s' & m & E & Hst & Ep & Hm); try done.
    { intros x y Hx Ey. destruct (so_literal _ _ Hmem). rewrite kernel_address in Ey by (done || lia). injection Ey as <-. cbn. lia. }
    { unfold FOUR_MB_SIZE in Hd2. lia. }
    exists 0, s', (played k p j fd m). split; [exact E|]. split; [exact Ep|]. apply played_same; [exact Hm|apply (st_mem _ _ _ _ _ _ _ Hst)].
Qed.
End music.
End boot.

(** C40. Booting.  When the boot loader passes control with its magic number,
    well-formed information, and a file system image, in the page the kernel
    runs in, that holds the shell, [entry] gets through the information, sets
    up the processor and the devices, sends the sound card the commands of
    [play_music] if the image has the music, and enters the shell in a state
    that satisfies the invariant of the whole kernel.  Then exactly the
    interrupt lines of the timer, the keyboard, the second controller, the
    sound card and the clock are enabled, the interrupt table is that of
    [init_idt], and the TSS and LDT descriptors denote the two tables. *)
Theorem entry_boots (dir_addr table_addr vidmem_addr magics : Z) (stack_dentry : dentry_t) (address : routine → Z)
    (ldt ldt_size tss tss_size divisor_addr DMA_Buffer magic_addr dh testaudio : Z) (dsp : Z → Z → Z) (rtc_b cursor1 cursor2 : Z)
    (s : machine) (mbi start i q : Z) (p : pcb_t) (ws : list (Z * Z)) (k := mc_kernel s) (f := filesystem_init (k_mem k) start)
    (Hlink : linked dir_addr table_addr vidmem_addr) (Hdsp : dsp_ready dsp) (Hdh : 0 <= dh < 256)
    (Hk : cold magics k start i) (Hinfo : multiboot (k_con k) mbi start)
    (Hq : 0 <= q < MAX_TASK) (Hcurr : get_curr_pcb k = get_pcb_by_index q) (Hp : k_pcbs k !! get_pcb_by_index q = Some p)
    (Hmem : sound_memory DMA_Buffer magic_addr testaudio (k_mem k) f) (Htrack : soundtrack DMA_Buffer dh (k_mem k) f (files p) ws)
    (Hsb : is_playing (mc_sb s) = 0 ∧ current_offset (mc_sb s) = 0 ∧ cur_block (mc_sb s) = DMA_Buffer ∧ 0 <= sb_reads (mc_sb s))
    (Hseg : is_u32 ldt ∧ 0 <= ldt_size < 2 ^ 20 ∧ is_u32 tss ∧ 0 <= tss_size < 2 ^ 20) :
  ∃ s', entry dir_addr table_addr vidmem_addr magics stack_dentry address ldt ldt_size tss tss_size divisor_addr DMA_Buffer magic_addr dh
      testaudio dsp rtc_b cursor1 cursor2 MULTIBOOT_BOOTLOADER_MAGIC mbi s =
    Done (Enter (entry_point (with_fs f k) i) (_128_MB_SIZE + FOUR_MB_SIZE - ESP_OFFSET), s') ∧
    ready dir_addr table_addr vidmem_addr magics (mc_kernel s') i ∧
    (∀ n, 0 <= n < 16 → masked (k_pic (mc_kernel s')) n = negb (existsb (Z.eqb n) [0; 1; 2; 5; 8])) ∧
    idt s' = init_idt address (idt s) ∧ sb_ports (mc_sb s') = sb_ports (mc_sb s) ++ ws ∧
    system_segment 2 ldt ldt_size (ldt_desc_ptr s') ∧ ldtr s' = KERNEL_LDT ∧
    system_segment 9 tss tss_size (tss_desc_ptr s') ∧ tr s' = KERNEL_TSS ∧ tss_ss0 s' = KERNEL_DS.
Proof.
  pose proof (printing_refl _ (cd_text _ _ _ _ Hk) (im_bytes _ _ (cd_image _ _ _ _ Hk))) as H0.
  pose proof (printing_clear _ _ (cd_current _ _ _ _ Hk) H0) as Hclear.
  unfold entry. fold k. destruct (print_info_ok (k_con k) (clear (k_con k)) mbi start (fs_start_addr s) Hinfo Hclear) as (c & -> & Hc).
  rewrite bind_Done. cbv beta iota zeta. cbn [negb]. unfold init_descriptors.
  cbn [mc_kernel mc_sb idt ldt_desc_ptr tss_desc_ptr ldtr tr tss_ldt_segment_selector tss_ss0 fs_start_addr pit_ports].
  destruct (init_devices_ok dir_addr table_addr vidmem_addr magics address divisor_addr rtc_b cursor1 cursor2 Hlink k start i c 0x800000 (mc_sb s) (idt s)
    (SET_SEG_PARAMS ldt ldt_size the_ldt_desc) (SET_SEG_PARAMS tss tss_size the_tss_desc) KERNEL_LDT KERNEL_TSS KERNEL_LDT KERNEL_DS (pit_ports s) Hk Hc)
    as (k1 & pit & -> & Hd).
  destruct (devices_boot dir_addr table_addr vidmem_addr magics k k1 start i Hk Hd) as [Hb1 Een].
  rewrite bind_Done. cbn [mc_kernel mc_sb idt ldt_desc_ptr tss_desc_ptr ldtr tr tss_ldt_segment_selector tss_ss0 fs_start_addr pit_ports].
  pose proof (mo_image _ _ _ _ (bt_machine _ _ _ _ _ _ Hb1)) as Him. pose proof (cd_image _ _ _ _ Hk) as Him0.
  destruct Hd as [(_ & _ & Ep & Ee) Ef Hpage Hmask _ _ _ Honly _]. change (k_fs k1 = f) in Ef.
  assert (Hc1 : get_curr_pcb k1 = get_pcb_by_index q) by (unfold get_curr_pcb; by rewrite Ee).
  assert (Hmem1 : sound_memory DMA_Buffer magic_addr testaudio (k_mem k1) (k_fs k1)).
  { rewrite Ef. apply (sound_memory_frame _ _ _ (k_mem k)); [|done]. intros a Ha. apply Honly. unfold TEXT_END, VIDEO, FOUR_KB_SIZE, FOUR_MB_SIZE in *. lia. }
  assert (Htrack1 : soundtrack DMA_Buffer dh (k_mem k1) (k_fs k1) (files p) ws).
  { rewrite Ef. apply (soundtrack_frame _ _ (k_mem k)); [done|apply (cd_dir _ _ _ _ Hk)| |done].
    intros a Ha. apply Honly, (outside_image _ _ a Him0 (so_outside _ _ _ (cd_shell _ _ _ _ Hk)) Ha). }
  destruct Hsb as (S1 & S2 & S3 & S4).
  destruct (music_starts dir_addr table_addr vidmem_addr magics stack_dentry DMA_Buffer magic_addr dh testaudio dsp Hlink Hdsp Hdh k1 i q p ws
    Hb1 Hpage Hq Hc1 ltac:(by rewrite Ep) Hmem1 (mc_sb s) Htrack1 ltac:(by rewrite S1) S2 S3 S4) as (r & sb' & k2 & -> & Eports & Hsame).
  rewrite bind_Done. cbn [mc_kernel].
  destruct (boot_same_ok dir_addr table_addr vidmem_addr magics k1 k2 i Hb1 Hsame) as [Hb2 Een2].
  destruct (boot_ready dir_addr table_addr vidmem_addr magics stack_dentry k2 i Hlink Hb2) as (k3 & -> & Hready & Epic).
  rewrite bind_Done. cbv iota. change (filesystem_init (k_mem k) start) with f in Een. eexists. split; [by rewrite <- Een, <- Een2|]. unfold with_kernel. cbn.
  destruct Hseg as (G1 & G2 & G3 & G4). destruct (bs_state _ _ Hsame) as (_ & _ & _ & _ & Epic2).
  split; [done|]. split; [by rewrite Epic, Epic2|]. split; [done|]. split; [done|].
  destruct (seg_params ldt ldt_size the_ldt_desc G1 G2), (seg_params tss tss_size the_tss_desc G3 G4). unfold system_segment. by split_and!.
Qed.

(** * Witness

    The image of [kernel8] at 0x700000, the information at 0x780000 with a command
    line, one module and one memory map entry, and no "testaudio". *)
Definition words_bytes (ws : list Z) : list Z := concat ((λ w, [w mod 2 ^ 8; w / 2 ^ 8 mod 2 ^ 8; w / 2 ^ 16 mod 2 ^ 8; w / 2 ^ 24]) <$> ws).
Definition blocks14 : list (Z * list Z) :=
  [(0x780000, words_bytes [0x4C; 0; 0; 0; 0x780300; 1; 0x780100; 0; 0; 0; 0; 24; 0x780200]);
   (0x780100, words_bytes [0x700000; 0x705000; 0; 0]); (0x780200, words_bytes [20; 0; 0; 0x7800000; 0; 1]); (0x780300, lit "root" ++ [0]);
   (0x790000, lit "testaudio" ++ [0])].
Definition mem14 : mem := foldr (λ '(a, l) m, blit m a l) img8 blocks14.
Definition kernel14 : kernel := with_page boot0 (set_mem mem14 kernel9).
Definition machine14 : machine :=
  Machine kernel14 (Sb [] 0 0x600000 0 0 0 (replicate 33 0) 0) [] the_ldt_desc the_tss_desc 0 0 0 0 0 [].

Lemma image14 a : a < 0x780000 → mem14 a = img8 a.
Proof. intros Ha. unfold mem14. cbn [foldr blocks14]. by rewrite !blit_out by (left; lia). Qed.
Lemma mem14_ok : mem_ok mem14.
Proof.
  pose proof (im_bytes _ _ (mo_image _ _ _ _ kernel8_machine) : mem_ok img8) as Hm.
  unfold mem14. cbn [foldr blocks14]. repeat apply blit_ok; try done; vm_compute; repeat constructor; discriminate.
Qed.
Lemma kernel14_cold : cold 0x7FB000 kernel14 0x700000 1.
Proof.
  apply (cold_again 0x500000 0x501000 0x502000 0x7FB000 kernel9 1 mem14 boot0 0x700000 kernel9_ok); [reflexivity| |exact mem14_ok|exact boot0_ok].
  intros a Ha. apply image14. assert (E : image_end (k_fs kernel9) = 0x705000) by (vm_compute; reflexivity). lia.
Qed.

Lemma kernel14_info : multiboot (k_con kernel14) 0x780000 0x700000.
Proof.
  assert (H0 : field 0x780000 0 (k_con kernel14) = 0x4C) by (vm_compute; reflexivity).
  assert (H16 : field 0x780000 16 (k_con kernel14) = 0x780300) by (vm_compute; reflexivity).
  assert (H24 : field 0x780000 24 (k_con kernel14) = 0x780100) by (vm_compute; reflexivity).
  assert (H44 : field 0x780000 44 (k_con kernel14) = 24) by (vm_compute; reflexivity).
  assert (H48 : field 0x780000 48 (k_con kernel14) = 0x780200) by (vm_compute; reflexivity).
  split; rewrite ?H0, ?H16, ?H24, ?H44, ?H48.
  - split_and!; [lia|lia|right; unfold TEXT_END, FOUR_KB_SIZE, VIDEO; lia].
  - reflexivity.
  - split; [split_and!; [lia|lia|right; unfold TEXT_END, FOUR_KB_SIZE, VIDEO; lia]|vm_compute; reflexivity].
  - reflexivity.
  - intros _. exists 4. split; [|split; [lia|right; unfold TEXT_END, FOUR_KB_SIZE, VIDEO; lia]].
    split; [lia|]. split; [vm_compute; reflexivity|]. intros j Hj. change (k_con kernel14) with (with_mem (λ _, mem14) (k_con kernel9)). cbn [c_mem with_mem].
    assert (j = 0 ∨ j = 1 ∨ j = 2 ∨ j = 3) as [-> | [-> | [-> | ->]]] by lia; (eexists; split; [vm_compute; reflexivity|done]).
  - intros _. split; [lia|]. intros a Ha. split; [right; unfold TEXT_END, FOUR_KB_SIZE, VIDEO; lia|].
    assert (Hall : forallb (λ a, a + field a 0 (k_con kernel14) + 4 <? 2 ^ 32) (seqZ 0x780200 24) = true) by (vm_compute; reflexivity).
    rewrite forallb_forall in Hall. specialize (Hall a). rewrite <- list_elem_of_In, elem_of_seqZ in Hall. specialize (Hall ltac:(lia)). lia.
Qed.
Lemma kernel14_sound : sound_memory 0x600000 0x7FF000 0x790000 (k_mem kernel14) (filesystem_init (k_mem kernel14) 0x700000).
Proof.
  assert (Ef : filesystem_init (k_mem kernel14) 0x700000 = img8_fs) by (vm_compute; reflexivity). rewrite Ef.
  assert (E1 : fs_addr img8_fs = 0x700000) by (vm_compute; reflexivity). assert (E2 : image_end img8_fs = 0x705000) by (vm_compute; reflexivity).
  split; unfold buf_ok, BUFFER_SIZE, BLOCK_SIZE, FOUR_MB_SIZE, EIGHT_MB_SIZE; rewrite ?E1, ?E2; [lia| |lia|lia].
  intros j v Hv. change (k_mem kernel14) with mem14. unfold mem14. cbn [foldr blocks14].
  rewrite !blit_out by (apply zget_Some in Hv as [Hj Hv]; apply lookup_lt_Some in Hv; cbn in Hv |- *; lia). by apply blit_in.
Qed.

(** The machine boots into the shell, at 0x8048000, without music. *)
Lemma entry_boots_witness : ∃ s',
  entry 0x500000 0x501000 0x502000 0x7FB000 (replicate 64 0) (λ _, 0x400000) 0x410000 31 0x420000 103 0x7FFFF0 0x600000 0x7FF000 0xFF
    0x790000 dsp4 0 0 0 MULTIBOOT_BOOTLOADER_MAGIC 0x780000 machine14 = Done (Enter 0x8048000 0x83FFFFC, s') ∧
  ready 0x500000 0x501000 0x502000 0x7FB000 (mc_kernel s') 1 ∧ sb_ports (mc_sb s') = [] ∧ seg_base (tss_desc_ptr s') = 0x420000.
Proof.
  destruct (entry_boots 0x500000 0x501000 0x502000 0x7FB000 (replicate 64 0) (λ _, 0x400000) 0x410000 31 0x420000 103 0x7FFFF0 0x600000 0x7FF000 0xFF
    0x790000 dsp4 0 0 0 machine14 0x780000 0x700000 1 1 (pcb5 1) [] linked0 dsp4_ready ltac:(lia) kernel14_cold kernel14_info)
    as (s' & E & Hr & _ & _ & Hw & _ & _ & (_ & _ & _ & _ & _ & Ht & _) & _).
  - done.
  - by vm_compute.
  - by vm_compute.
  - exact kernel14_sound.
  - apply no_track. intros j Hj. assert (En : num_dentries (filesystem_init (k_mem (mc_kernel machine14)) 0x700000) = 2) by (vm_compute; reflexivity).
    assert (j = 0 ∨ j = 1) as [-> | ->] by lia; by vm_compute.
  - by split_and!.
  - split_and!; try done; split; lia.
  - assert (Ee : entry_point (with_fs (filesystem_init (k_mem (mc_kernel machine14)) 0x700000) (mc_kernel machine14)) 1 = 0x8048000) by (vm_compute; reflexivity).
    rewrite Ee in E. exists s'. split; [exact E|]. split; [exact Hr|]. split; [exact Hw|exact Ht].
Defined.
