(* ===== verification/Blink.v ===== *)
(** The blinking characters of the fish animation: blink.S and blink.h, with
    mp1_malloc and mp1_free of fish.c.  The assembly keeps a linked list of
    structures in a static array; the theorems say that it implements an
    abstract list, and what the screen then shows. *)
From S2P Require Import Prelude Memory.


(** * Data *)

(** [struct mp1_blink_struct]: five unsigned shorts, two chars and a pointer.
    The pointer is NULL or that of an element of [blink_array]. *)
Record mp1_blink_struct : Type := Blink {
  location : Z; on_char : Z; off_char : Z; on_length : Z; off_length : Z; countdown : Z; status : Z; next : option nat }.

Definition set_lengths (on off : Z) (b : mp1_blink_struct) : mp1_blink_struct :=
  Blink (location b) (on_char b) (off_char b) on off (countdown b) (status b) (next b).
Definition set_timer (left st : Z) (b : mp1_blink_struct) : mp1_blink_struct :=
  Blink (location b) (on_char b) (off_char b) (on_length b) (off_length b) left st (next b).
Definition set_next (p : option nat) (b : mp1_blink_struct) : mp1_blink_struct :=
  Blink (location b) (on_char b) (off_char b) (on_length b) (off_length b) (countdown b) (status b) p.

(** The static data of blink.S and fish.c: the array, the head of the list, the
    address of the video page; and the memory that [mp1_poke] stores to.  No
    function here loads from that memory: Fish gives it a copy of the page of the
    program, and stores to the page what a call changed in the copy. *)
Record blinks : Type := Blinks {
  blink_array : list mp1_blink_struct; mp1_list_head : option nat; vmem_base_addr : Z; video : mem }.

Definition set_array (a : list mp1_blink_struct) (s : blinks) : blinks := Blinks a (mp1_list_head s) (vmem_base_addr s) (video s).
Definition set_head (p : option nat) (s : blinks) : blinks := Blinks (blink_array s) p (vmem_base_addr s) (video s).

Definition load_node (i : nat) (s : blinks) : out mp1_blink_struct := must (blink_array s !! i).
Definition put_node (i : nat) (b : mp1_blink_struct) (s : blinks) : blinks := set_array (<[i := b]> (blink_array s)) s.

(** A 16-bit pattern read as a signed number. *)
Definition i16 (z : Z) : Z := let u := u16 z in if u <? 2 ^ 15 then u else u - 2 ^ 16.

(** * The operations *)
Definition mp1_poke (cl eax : Z) (s : blinks) : blinks :=
  Blinks (blink_array s) (mp1_list_head s) (vmem_base_addr s) (store8 (video s) (vmem_base_addr s + eax) cl).

(** The first structure whose location is 0. *)
Definition mp1_malloc (s : blinks) : option nat := fst <$> list_find (λ b, location b = 0) (blink_array s).
(** [mp1_free]: sixteen bytes are set to 0. *)
Definition zeroed : mp1_blink_struct := Blink 0 0 0 0 0 0 0 None.
Definition mp1_free (i : nat) (s : blinks) : blinks := put_node i zeroed s.

(** One node of [tasklet_loop]; [ebx] is the node, NULL at the end. *)
Definition tasklet_step (st : option nat * blinks) : option nat * blinks + out blinks :=
  let '(ebx, s) := st in
  match ebx with
  | None => inr (Done s)
  | Some i =>
      match blink_array s !! i with
      | None => inr Undef
      | Some b =>
          let left := u16 (countdown b - 1) in
          let s := put_node i (set_timer left (status b) b) s in
          if 0 <? i16 left then inl (next b, s)
          else
            let eax := 2 * location b in
            let '(cl, dx) := if Z.testbit (status b) 0 then (off_char b, off_length b) else (on_char b, on_length b) in
            let s := mp1_poke cl eax s in
            inl (next b, put_node i (set_timer dx (Z.lxor (status b) 1) b) s)
      end
  end.
Definition mp1_rtc_tasklet (s : blinks) : out blinks := orun tasklet_step (mp1_list_head s, s).

(** The argument is a word of which the lower half is compared. *)
Definition find_step (ax : Z) (s : blinks) (ebx : option nat) : option nat + out (option nat) :=
  match ebx with
  | None => inr (Done None)
  | Some i =>
      match blink_array s !! i with
      | None => inr Undef
      | Some b => if location b =? ax then inr (Done (Some i)) else inl (next b)
      end
  end.
Definition mp1_find_helper (arg : Z) (s : blinks) : out (option nat) := orun (find_step (u16 arg) s) (mp1_list_head s).

(** [arg] is the structure the caller points at; it is copied to the stack,
    completed, and copied to the node. *)
Definition mp1_ioctl_add (arg : mp1_blink_struct) (s : blinks) : out (Z * blinks) :=
  if 80 * 25 <=? location arg then Done (-1, s) else
  let b := set_timer (on_length arg) 1 arg in
  match mp1_malloc s with
  | None => Done (-1, s)
  | Some i =>
      let s := put_node i b s in
      let s := put_node i (set_next (mp1_list_head s) b) s in
      let s := set_head (Some i) s in
      Done (0, mp1_poke (on_char b) (2 * location b) s)
  end.

(** [remove_find_prev] walks with a pointer to a pointer. *)
Inductive place : Type := Head | Next (i : nat).
Definition deref (p : place) (s : blinks) : option (option nat) :=
  match p with Head => Some (mp1_list_head s) | Next i => next <$> blink_array s !! i end.
Definition assign (p : place) (v : option nat) (s : blinks) : out blinks :=
  match p with
  | Head => Done (set_head v s)
  | Next i => b ← load_node i s; Done (put_node i (set_next v b) s)
  end.
Definition prev_step (eax : nat) (s : blinks) (edx : place) : place + out place :=
  match deref edx s with
  | None => inr Undef
  | Some v => if decide (v = Some eax) then inr (Done edx) else match v with None => inr Undef | Some i => inl (Next i) end
  end.
Definition mp1_ioctl_remove (arg : Z) (s : blinks) : out (Z * blinks) :=
  found ← mp1_find_helper arg s;
  match found with
  | None => Done (-1, s)
  | Some eax =>
      edx ← orun (prev_step eax s) Head;
      b ← load_node eax s;
      s ← assign edx (next b) s;
      Done (0, mp1_free eax s)
  end.

(** The flags of [testb $1]: [cmovl] moves when the sign and the overflow flag
    differ, and [testb] clears the overflow flag. *)
Definition testb_sign (st : Z) : bool := Z.testbit (Z.land 1 (u8 st)) 7.
Definition sync_nodes (esi edi : nat) (s : blinks) : out blinks :=
  a ← load_node esi s;
  b ← load_node edi s;
  let b := set_timer (countdown a) (status a) (set_lengths (on_length a) (off_length a) b) in
  let s := put_node edi b s in
  let ecx := if xorb (testb_sign (status b)) false then on_char b else off_char b in
  Done (mp1_poke ecx (2 * location b) s).
Definition mp1_ioctl_sync (arg : Z) (s : blinks) : out (Z * blinks) :=
  first ← mp1_find_helper (Z.shiftr arg 16) s;
  match first with
  | None => Done (-1, s)
  | Some esi =>
      second ← mp1_find_helper (Z.land arg 0xFFFF) s;
      match second with
      | None => Done (-1, s)
      | Some edi => s ← sync_nodes esi edi s; Done (0, s)
      end
  end.

(** The location is read from the caller's structure, which is overwritten. *)
Definition mp1_ioctl_find (arg : mp1_blink_struct) (s : blinks) : out (Z * mp1_blink_struct) :=
  found ← mp1_find_helper (location arg) s;
  match found with
  | None => Done (-1, arg)
  | Some i => b ← load_node i s; Done (0, b)
  end.

(** The argument of [mp1_ioctl] is a pointer for two of the commands and a
    number for the others; a command outside the table jumps nowhere. *)
Inductive ioctl_arg : Type := Pointer (b : mp1_blink_struct) | Number (n : Z).
Definition mp1_ioctl (arg : ioctl_arg) (cmd : Z) (s : blinks) : out (Z * ioctl_arg * blinks) :=
  match cmd, arg with
  | 0, Pointer b => '(r, s) ← mp1_ioctl_add b s; Done (r, arg, s)
  | 1, Number n => '(r, s) ← mp1_ioctl_remove n s; Done (r, arg, s)
  | 2, Pointer b => '(r, b) ← mp1_ioctl_find b s; Done (r, Pointer b, s)
  | 3, Number n => '(r, s) ← mp1_ioctl_sync n s; Done (r, arg, s)
  | _, _ => Undef
  end.

(** * The abstract list

    The structures in list order, without their pointers. *)
Definition plain (b : mp1_blink_struct) : mp1_blink_struct := set_next None b.
Record animation : Type := Animation { shown : list mp1_blink_struct; base : Z; screen : mem }.

Definition is_on (b : mp1_blink_struct) : bool := Z.testbit (status b) 0.
(** The tick that ends a phase. *)
Definition expires (b : mp1_blink_struct) : bool := negb (0 <? i16 (countdown b - 1)).
Definition tick (b : mp1_blink_struct) : mp1_blink_struct :=
  if expires b then set_timer (if is_on b then off_length b else on_length b) (Z.lxor (status b) 1) b
  else set_timer (u16 (countdown b - 1)) (status b) b.
Definition draw (base : Z) (c : Z) (b : mp1_blink_struct) (v : mem) : mem := store8 v (base + 2 * location b) c.
Definition tick_draw (base : Z) (v : mem) (b : mp1_blink_struct) : mem :=
  if expires b then draw base (if is_on b then off_char b else on_char b) b v else v.
Definition spec_tick (t : animation) : animation :=
  Animation (tick <$> shown t) (base t) (foldl (tick_draw (base t)) (screen t) (shown t)).

(** The position of the first structure at a location. *)
Definition position (loc : Z) (l : list mp1_blink_struct) : option nat := fst <$> list_find (λ b, location b = u16 loc) l.

Definition started (b : mp1_blink_struct) : mp1_blink_struct := plain (set_timer (on_length b) 1 b).
Definition spec_add (b : mp1_blink_struct) (t : animation) : Z * animation :=
  if (80 * 25 <=? location b) || (80 * 25 <=? Z.of_nat (length (shown t))) then (-1, t)
  else (0, Animation (started b :: shown t) (base t) (draw (base t) (on_char b) b (screen t))).
Definition spec_remove (loc : Z) (t : animation) : Z * animation :=
  match position loc (shown t) with
  | Some k => (0, Animation (delete k (shown t)) (base t) (screen t))
  | None => (-1, t)
  end.
Definition spec_find (b : mp1_blink_struct) (t : animation) : Z * mp1_blink_struct :=
  match position (location b) (shown t) ≫= (shown t !!.) with Some b' => (0, b') | None => (-1, plain b) end.
(** The second structure takes the phase of the first. *)
Definition in_phase (a b : mp1_blink_struct) : mp1_blink_struct :=
  set_timer (countdown a) (status a) (set_lengths (on_length a) (off_length a) b).
Definition spec_sync (arg : Z) (t : animation) : Z * animation :=
  match position (Z.shiftr arg 16) (shown t) ≫= (shown t !!.), position (Z.land arg 0xFFFF) (shown t) with
  | Some a, Some k =>
      match shown t !! k with
      | Some b => (0, Animation (<[k := in_phase a b]> (shown t)) (base t) (draw (base t) (off_char b) b (screen t)))
      | None => (-1, t)
      end
  | _, _ => (-1, t)
  end.

(** The commands of a user of the module, and an interrupt of the clock. *)
Inductive command : Type := Add (b : mp1_blink_struct) | Remove (n : Z) | Find (b : mp1_blink_struct) | Sync (n : Z) | Tick.
Definition perform (c : command) (s : blinks) : out (Z * ioctl_arg * blinks) :=
  match c with
  | Add b => mp1_ioctl (Pointer b) 0 s
  | Remove n => mp1_ioctl (Number n) 1 s
  | Find b => mp1_ioctl (Pointer b) 2 s
  | Sync n => mp1_ioctl (Number n) 3 s
  | Tick => s ← mp1_rtc_tasklet s; Done (0, Number 0, s)
  end.
(** What the caller gets: the value and, of its structure, all but the
    pointer. *)
Definition reply : Type := Z * option mp1_blink_struct.
Definition reply_of (r : Z) (a : ioctl_arg) : reply := (r, match a with Pointer b => Some (plain b) | Number _ => None end).
Fixpoint performs (cs : list command) (s : blinks) : out (list reply * blinks) :=
  match cs with
  | [] => Done ([], s)
  | c :: cs => '(r, a, s) ← perform c s; '(rs, s) ← performs cs s; Done (reply_of r a :: rs, s)
  end.
Definition spec_perform (c : command) (t : animation) : reply * animation :=
  match c with
  | Add b => let '(r, t) := spec_add b t in ((r, Some (plain b)), t)
  | Remove n => let '(r, t) := spec_remove n t in ((r, None), t)
  | Find b => let '(r, b) := spec_find b t in ((r, Some b), t)
  | Sync n => let '(r, t) := spec_sync n t in ((r, None), t)
  | Tick => ((0, None), spec_tick t)
  end.
Fixpoint spec_performs (cs : list command) (t : animation) : list reply * animation :=
  match cs with
  | [] => ([], t)
  | c :: cs => let '(a, t) := spec_perform c t in let '(rs, t) := spec_performs cs t in (a :: rs, t)
  end.

(** * The representation *)

(** [p] leads through the nodes [ns] to [q]. *)
Fixpoint lseg (a : list mp1_blink_struct) (p : option nat) (ns : list nat) (q : option nat) : Prop :=
  match ns with
  | [] => p = q
  | i :: ns => p = Some i ∧ ∃ r, next <$> a !! i = Some r ∧ lseg a r ns q
  end.
(** The nodes hold the structures of the list; the others are free. *)
Record represented (s : blinks) (ns : list nat) (t : animation) : Prop := Represented {
  re_size : length (blink_array s) = 2000%nat;
  re_list : lseg (blink_array s) (mp1_list_head s) ns None;
  re_once : NoDup ns;
  re_nodes : Forall2 (λ i b, plain <$> blink_array s !! i = Some b) ns (shown t);
  re_used : Forall (λ b, location b ≠ 0) (shown t);
  re_free i b : blink_array s !! i = Some b → i ∉ ns → location b = 0;
  re_base : vmem_base_addr s = base t;
  re_video : video s = screen t }.
Definition represents (s : blinks) (t : animation) : Prop := ∃ ns, represented s ns t.

(** A structure whose location is not that of a free node. *)
Definition placed (c : command) : Prop := match c with Add b => 0 < location b | _ => True end.

(** ** Segments *)
Lemma lseg_app a ns1 ns2 p q : lseg a p (ns1 ++ ns2) q ↔ ∃ r, lseg a p ns1 r ∧ lseg a r ns2 q.
Proof.
  revert p. induction ns1 as [|i ns1 IH]; intros p; cbn.
  - split; [by exists p|by intros (r & -> & ?)].
  - split.
    + intros (-> & r & E & H). apply IH in H as (r' & H1 & H2). exists r'. split; [|done]. split; [done|]. by exists r.
    + intros (r' & (-> & r & E & H1) & H2). split; [done|]. exists r. split; [done|]. apply IH. by exists r'.
Qed.
Lemma lseg_frame a a' p ns q : (∀ i, i ∈ ns → next <$> a' !! i = next <$> a !! i) → lseg a p ns q → lseg a' p ns q.
Proof.
  revert p. induction ns as [|i ns IH]; intros p Hf; [done|]. intros (-> & r & E & H). split; [done|]. exists r. split.
  - rewrite Hf by by left. done.
  - apply IH; [|done]. intros j Hj. apply Hf. by right.
Qed.
Lemma lseg_insert a p ns q i b : i ∉ ns → lseg a p ns q → lseg (<[i := b]> a) p ns q.
Proof. intros Hi. apply lseg_frame. intros j Hj. rewrite list_lookup_insert_ne; [done|]. by intros ->. Qed.
Lemma next_plain (a : list mp1_blink_struct) i b : plain <$> a !! i = Some b → ∃ nd, a !! i = Some nd ∧ b = plain nd.
Proof. destruct (a !! i) as [nd|]; [|done]. intros [= <-]. by exists nd. Qed.
Lemma plain_location b : location (plain b) = location b.
Proof. done. Qed.

(** ** Finding *)
Lemma position_cons loc b l : position loc (b :: l) = if decide (location b = u16 loc) then Some O else Datatypes.S <$> position loc l.
Proof.
  unfold position. cbn. destruct (decide (location b = u16 loc)); [done|].
  by destruct (list_find (λ b, location b = u16 loc) l) as [[]|].
Qed.
Lemma find_walk loc s ns l p : lseg (blink_array s) p ns None → Forall2 (λ i b, plain <$> blink_array s !! i = Some b) ns l →
  iterate (find_step (u16 loc) s) (Datatypes.S (length ns)) p = inr (Done (position loc l ≫= (ns !!.))).
Proof.
  intros Hp Hl. revert p Hp. induction Hl as [|i b ns l Hi _ IH]; intros p Hp.
  - by cbn in Hp; subst p.
  - destruct Hp as (-> & r & Er & Hr). apply next_plain in Hi as (nd & Ei & ->). rewrite Ei in Er. injection Er as <-.
    cbn [length iterate find_step]. rewrite Ei, position_cons, plain_location. destruct (Z.eqb_spec (location nd) (u16 loc)) as [E|E].
    + rewrite decide_True by done. done.
    + rewrite decide_False by done. specialize (IH _ Hr). cbn [length iterate] in IH. rewrite IH.
      by destruct (position loc l).
Qed.
Lemma once_below (ns : list nat) n : NoDup ns → (∀ i, i ∈ ns → (i < n)%nat) → (length ns <= n)%nat.
Proof.
  intros Hns Hlt. rewrite <- (length_seq n 0). apply submseteq_length, NoDup_submseteq; [done|].
  intros i Hi. apply elem_of_seq. split; [lia|]. by apply Hlt.
Qed.
Lemma all_below (ns : list nat) n : (∀ i, (i < n)%nat → i ∈ ns) → (n <= length ns)%nat.
Proof.
  intros Hall. rewrite <- (length_seq n 0) at 1. apply submseteq_length, NoDup_submseteq; [apply NoDup_seq|].
  intros i [_ Hi]%elem_of_seq. by apply Hall.
Qed.
(** A node of the list. *)
Lemma list_node s ns t i : represented s ns t → i ∈ ns →
  ∃ k nd, ns !! k = Some i ∧ blink_array s !! i = Some nd ∧ shown t !! k = Some (plain nd) ∧ (i < 2000)%nat ∧ location nd ≠ 0.
Proof.
  intros H [k Hk]%list_elem_of_lookup_1. destruct (Forall2_lookup_l _ _ _ _ _ (re_nodes _ _ _ H) Hk) as (b & Hb & (nd & Ei & ->)%next_plain).
  exists k, nd. split_and!; [done|done|done| |].
  - rewrite <- (re_size _ _ _ H). by apply lookup_lt_Some in Ei.
  - exact (proj1 (Forall_lookup _ _) (re_used _ _ _ H) _ _ Hb).
Qed.
Lemma small_list s ns t : represented s ns t → (length ns <= 2000)%nat ∧ length ns = length (shown t).
Proof.
  intros H. split; [|exact (Forall2_length (re_nodes _ _ _ H))].
  apply once_below; [exact (re_once _ _ _ H)|]. intros i Hi. by destruct (list_node s ns t i H Hi) as (? & ? & _ & _ & _ & ? & _).
Qed.
Lemma find_helper_spec s ns t loc : represented s ns t → mp1_find_helper loc s = Done (position loc (shown t) ≫= (ns !!.)).
Proof.
  intros H. apply (orun_exits _ (Datatypes.S (length ns))); [|destruct (small_list s ns t H); lia].
  apply find_walk; [exact (re_list _ _ _ H)|exact (re_nodes _ _ _ H)].
Qed.
(** A position that is found. *)
Lemma found_node s ns t loc k : represented s ns t → position loc (shown t) = Some k →
  ∃ i nd, ns !! k = Some i ∧ blink_array s !! i = Some nd ∧ shown t !! k = Some (plain nd).
Proof.
  intros H Hk. unfold position in Hk. apply fmap_Some in Hk as ([k' b] & (Hb & _)%list_find_Some & ->). cbn.
  destruct (Forall2_lookup_r _ _ _ _ _ (re_nodes _ _ _ H) Hb) as (i & Hi & (nd & Ei & ->)%next_plain). by exists i, nd.
Qed.

(** ** Allocating *)
Lemma malloc_free s ns t i : represented s ns t → mp1_malloc s = Some i → i ∉ ns ∧ (i < 2000)%nat ∧ (length (shown t) < 2000)%nat.
Proof.
  intros H Hm. unfold mp1_malloc in Hm. apply fmap_Some in Hm as ([i' nd] & (Hi & H0 & _)%list_find_Some & ->). cbn.
  assert (Hlt : (i' < 2000)%nat) by (rewrite <- (re_size _ _ _ H); by apply lookup_lt_Some in Hi).
  assert (Hnot : i' ∉ ns).
  { intros Hin. destruct (list_node s ns t i' H Hin) as (k & nd' & _ & E & _ & _ & Hloc). rewrite Hi in E. injection E as <-. done. }
  split_and!; [done|done|]. destruct (small_list s ns t H) as [_ <-].
  apply (once_below (i' :: ns)); [by constructor; [|exact (re_once _ _ _ H)]|].
  intros j [-> | Hj]%elem_of_cons; [done|]. by destruct (list_node s ns t j H Hj) as (? & ? & _ & _ & _ & ? & _).
Qed.
Lemma malloc_full s ns t : represented s ns t → mp1_malloc s = None → (2000 <= length (shown t))%nat.
Proof.
  intros H Hm. unfold mp1_malloc in Hm. apply fmap_None, list_find_None in Hm.
  destruct (small_list s ns t H) as [_ <-]. apply all_below.
  intros i Hi. destruct (lookup_lt_is_Some_2 (blink_array s) i) as [nd Hnd]; [by rewrite (re_size _ _ _ H)|].
  destruct (decide (i ∈ ns)) as [|Hn]; [done|]. destruct (proj1 (Forall_lookup _ _) Hm _ _ Hnd). by apply (re_free _ _ _ H i).
Qed.

(** ** Each operation *)
Lemma nodes_frame (a a' : list mp1_blink_struct) ns l : (∀ j, j ∈ ns → plain <$> a' !! j = plain <$> a !! j) →
  Forall2 (λ i b, plain <$> a !! i = Some b) ns l → Forall2 (λ i b, plain <$> a' !! i = Some b) ns l.
Proof.
  intros Hf H. apply Forall2_same_length_lookup. pose proof (proj1 (Forall2_same_length_lookup _ _ _) H) as [Hlen Hl].
  split; [done|]. intros k i b Hi Hb. rewrite Hf by by apply (list_elem_of_lookup_2 _ k). by apply (Hl k).
Qed.

Lemma find_ok s ns t b : represented s ns t → ∃ r b', mp1_ioctl_find b s = Done (r, b') ∧ spec_find b t = (r, plain b').
Proof.
  intros H. unfold mp1_ioctl_find, spec_find. rewrite (find_helper_spec s ns t _ H), bind_Done.
  destruct (position (location b) (shown t)) as [k|] eqn:Hk; cbn [mbind option_bind]; [|by exists (-1), b].
  destruct (found_node s ns t _ k H Hk) as (i & nd & -> & Ei & ->). unfold load_node. rewrite Ei. cbn. by exists 0, nd.
Qed.

Lemma add_ok s ns t b : represented s ns t → 0 < location b →
  ∃ r s' t', mp1_ioctl_add b s = Done (r, s') ∧ spec_add b t = (r, t') ∧ represents s' t'.
Proof.
  intros H Hb. unfold mp1_ioctl_add, spec_add. destruct (Z.leb_spec (80 * 25) (location b)); cbn [orb]; [by exists (-1), s, t; split_and!; [| |exists ns]|].
  destruct (mp1_malloc s) as [i|] eqn:Hm.
  - destruct (malloc_free s ns t i H Hm) as (Hi & Hlt & Hroom). rewrite (proj2 (Z.leb_gt _ _)) by lia.
    eexists 0, _, _. split_and!; [reflexivity|reflexivity|]. exists (i :: ns). destruct H as [Hsize Hlist Honce Hnodes Hused Hfree Hbase Hvideo].
    split; cbn [blink_array mp1_list_head vmem_base_addr video put_node set_array set_head mp1_poke shown base screen].
    + by rewrite !length_insert.
    + rewrite list_insert_insert_eq. split; [done|]. exists (mp1_list_head s).
      rewrite list_lookup_insert_eq by (rewrite Hsize; lia). split; [done|]. by apply lseg_insert.
    + by constructor.
    + rewrite list_insert_insert_eq. constructor; [by rewrite list_lookup_insert_eq by (rewrite Hsize; lia)|].
      apply (nodes_frame (blink_array s)); [|done]. intros j Hj. rewrite list_lookup_insert_ne; [done|]. by intros ->.
    + constructor; [cbn; lia|done].
    + intros j c. rewrite list_insert_insert_eq, not_elem_of_cons. intros Hj [Hne Hout]. rewrite list_lookup_insert_ne in Hj by done. by apply (Hfree j).
    + done.
    + by rewrite Hbase, Hvideo.
  - pose proof (malloc_full s ns t H Hm). rewrite (proj2 (Z.leb_le _ _)) by lia. by exists (-1), s, t; split_and!; [| |exists ns].
Qed.

Lemma prev_walk s i ns1 ns2 edx p : deref edx s = Some p → lseg (blink_array s) p (ns1 ++ i :: ns2) None → i ∉ ns1 →
  iterate (prev_step i s) (Datatypes.S (length ns1)) edx = inr (Done (match list.last ns1 with Some j => Next j | None => edx end)).
Proof.
  revert edx p. induction ns1 as [|j ns1 IH]; intros edx p Hp Hl Hi; cbn [length iterate app lseg] in *; unfold prev_step at 1; rewrite Hp.
  - destruct Hl as (-> & _). by rewrite decide_True.
  - destruct Hl as (-> & r & Er & Hl). apply not_elem_of_cons in Hi as [Hij Hi]. rewrite decide_False by congruence.
    specialize (IH (Next j) r Er Hl Hi). cbn [length iterate] in IH. rewrite IH, last_cons. by destruct (list.last ns1).
Qed.
(** Taking a node out of the list. *)
Lemma unlink s ns1 i ns2 nd : lseg (blink_array s) (mp1_list_head s) (ns1 ++ i :: ns2) None → NoDup (ns1 ++ i :: ns2) →
  blink_array s !! i = Some nd →
  ∃ s', assign (match list.last ns1 with Some j => Next j | None => Head end) (next nd) s = Done s' ∧
    lseg (blink_array s') (mp1_list_head s') (ns1 ++ ns2) None ∧ vmem_base_addr s' = vmem_base_addr s ∧ video s' = video s ∧
    length (blink_array s') = length (blink_array s) ∧
    ∀ j, plain <$> blink_array s' !! j = plain <$> blink_array s !! j.
Proof.
  intros Hl Hn Ei. apply lseg_app in Hl as (p & H1 & -> & r & Er & H2). rewrite Ei in Er. injection Er as <-.
  destruct ns1 as [|j ns1 _] using rev_ind.
  - cbn in H1 |- *. exists (set_head (next nd) s). by split_and!.
  - rewrite last_snoc. apply lseg_app in H1 as (p & H1 & -> & r & Er & Eri). cbn in Eri. subst r.
    destruct (blink_array s !! j) as [nj|] eqn:Ej; [|done]. cbn [assign]. unfold load_node. rewrite Ej. cbn [must]. rewrite bind_Done.
    rewrite <- app_assoc in Hn. apply list.NoDup_app in Hn as (_ & Hn1 & [Hj _]%list.NoDup_cons).
    assert (Hj2 : j ∉ ns2) by (intros ?; apply Hj; by right).
    assert (Hj1 : j ∉ ns1) by (intros Hin; apply (Hn1 j Hin); by left).
    eexists. split; [reflexivity|]. cbn [blink_array mp1_list_head vmem_base_addr video put_node set_array].
    split_and!; [|done|done|by rewrite length_insert|].
    + rewrite <- app_assoc. apply lseg_app. exists (Some j). split; [by apply lseg_insert|]. split; [done|]. exists (next nd).
      rewrite list_lookup_insert_eq by by apply lookup_lt_Some in Ej. split; [done|]. by apply lseg_insert.
    + intros k. destruct (decide (k = j)) as [-> | Hk]; [|by rewrite list_lookup_insert_ne].
      rewrite list_lookup_insert_eq by by apply lookup_lt_Some in Ej. by rewrite Ej.
Qed.

Lemma remove_ok s ns t n : represented s ns t →
  ∃ r s' t', mp1_ioctl_remove n s = Done (r, s') ∧ spec_remove n t = (r, t') ∧ represents s' t'.
Proof.
  intros H. unfold mp1_ioctl_remove, spec_remove. rewrite (find_helper_spec s ns t _ H), bind_Done.
  destruct (position n (shown t)) as [k|] eqn:Hk; cbn [mbind option_bind]; [|by exists (-1), s, t; split_and!; [| |exists ns]].
  destruct (found_node s ns t _ k H Hk) as (i & nd & Ei & End & Eb). rewrite Ei.
  pose proof (small_list s ns t H) as [Hsmall _]. destruct H as [Hsize Hlist Honce Hnodes Hused Hfree Hbase Hvideo].
  apply list_elem_of_split_length in Ei as (ns1 & ns2 & Hns & Hk1). rewrite Hns in Hlist, Honce, Hsmall. rewrite length_app in Hsmall.
  assert (Hi : i ∉ ns1 ++ ns2 ∧ NoDup (ns1 ++ ns2)) by by rewrite <- list.NoDup_cons, (Permutation_middle ns1 ns2 i).
  destruct Hi as [Hi Hrest].
  rewrite (orun_exits _ (Datatypes.S (length ns1)) _ (Done (match list.last ns1 with Some j => Next j | None => Head end)));
    [|apply (prev_walk s i ns1 ns2 Head (mp1_list_head s)); [done|done|intros ?; apply Hi, elem_of_app; by left]|lia].
  rewrite bind_Done. unfold load_node at 1. rewrite End. cbn [must]. rewrite bind_Done.
  destruct (unlink s ns1 i ns2 nd Hlist Honce End) as (s' & -> & Hl' & Eb' & Ev' & Esz & Ea'). rewrite bind_Done.
  assert (Ens : delete k ns = ns1 ++ ns2) by (rewrite Hns, Hk1; apply delete_middle).
  eexists 0, _, _. split_and!; [reflexivity|reflexivity|]. exists (ns1 ++ ns2).
  split; cbn [blink_array mp1_list_head vmem_base_addr video mp1_free put_node set_array shown base screen].
  - by rewrite length_insert, Esz.
  - by apply lseg_insert.
  - done.
  - rewrite <- Ens. apply (nodes_frame (blink_array s)); [|by apply Forall2_delete]. rewrite Ens. intros j Hj.
    rewrite list_lookup_insert_ne by by intros ->. apply Ea'.
  - by apply Forall_delete.
  - intros j b Hb Hj. destruct (decide (j = i)) as [-> | Hji].
    + rewrite list_lookup_insert_eq in Hb by (rewrite Esz; by apply lookup_lt_Some in End). by injection Hb as <-.
    + rewrite list_lookup_insert_ne in Hb by done. specialize (Ea' j). rewrite Hb in Ea'. symmetry in Ea'.
      apply next_plain in Ea' as (nd' & Hnd & E). rewrite <- (plain_location b), E, plain_location. apply (Hfree j); [done|].
      rewrite elem_of_app in Hj. rewrite Hns, elem_of_app, elem_of_cons. naive_solver.
  - by rewrite Eb'.
  - by rewrite Ev'.
Qed.

(** Writing the node at position [k], its pointer and location kept. *)
Lemma update_node s ns t k i nd nd' v : represented s ns t → ns !! k = Some i → blink_array s !! i = Some nd →
  next nd' = next nd → location nd' = location nd →
  represented (Blinks (<[i := nd']> (blink_array s)) (mp1_list_head s) (vmem_base_addr s) v) ns
    (Animation (<[k := plain nd']> (shown t)) (base t) v).
Proof.
  intros H Hk Ei Hnext Hloc. pose proof (list_node s ns t i H (list_elem_of_lookup_2 _ _ _ Hk)) as (_ & nd0 & _ & End & _ & _ & Hnz).
  rewrite Ei in End. injection End as <-. pose proof (lookup_lt_Some _ _ _ Ei) as Hlt.
  destruct H as [Hsize Hlist Honce Hnodes Hused Hfree Hbase Hvideo]. split; cbn [blink_array mp1_list_head vmem_base_addr video shown base screen]; [| | | | | |done|done].
  - by rewrite length_insert.
  - eapply lseg_frame; [|exact Hlist]. intros j _. destruct (decide (j = i)) as [-> | Hj]; [|by rewrite list_lookup_insert_ne].
    rewrite list_lookup_insert_eq, Ei by done. cbn. by rewrite Hnext.
  - done.
  - rewrite <- (list_insert_id ns k i Hk). apply Forall2_same_length_lookup. rewrite (list_insert_id ns k i Hk).
    pose proof (proj1 (Forall2_same_length_lookup _ _ _) Hnodes) as [Hlen Hl]. split; [by rewrite length_insert|].
    intros k' j b Hj Hb. destruct (decide (k' = k)) as [-> | Hkk].
    + rewrite Hk in Hj. injection Hj as <-. rewrite list_lookup_insert_eq in Hb by (rewrite <- Hlen; by apply lookup_lt_Some in Hk).
      injection Hb as <-. by rewrite list_lookup_insert_eq.
    + rewrite list_lookup_insert_ne in Hb by done. rewrite list_lookup_insert_ne; [by apply (Hl k')|].
      intros <-. apply Hkk. by apply (NoDup_lookup ns k' k i).
  - apply Forall_insert; [done|]. by rewrite plain_location, Hloc.
  - intros j b Hb Hj. apply (Hfree j); [|done]. rewrite list_lookup_insert_ne in Hb; [done|]. intros <-. apply Hj. by apply (list_elem_of_lookup_2 _ k).
Qed.

Lemma testb_never_negative st : testb_sign st = false.
Proof. unfold testb_sign. by rewrite Z.land_spec. Qed.
Lemma sync_ok s ns t n : represented s ns t →
  ∃ r s' t', mp1_ioctl_sync n s = Done (r, s') ∧ spec_sync n t = (r, t') ∧ represents s' t'.
Proof.
  intros H. unfold mp1_ioctl_sync, spec_sync. rewrite !(find_helper_spec s ns t _ H), bind_Done.
  destruct (position (Z.shiftr n 16) (shown t)) as [k1|] eqn:Hk1; cbn [mbind option_bind]; [|by exists (-1), s, t; split_and!; [| |exists ns]].
  destruct (found_node s ns t _ k1 H Hk1) as (i1 & a & -> & Ea & ->). rewrite bind_Done.
  destruct (position (Z.land n 0xFFFF) (shown t)) as [k|] eqn:Hk; cbn [mbind option_bind]; [|by exists (-1), s, t; split_and!; [| |exists ns]].
  destruct (found_node s ns t _ k H Hk) as (i & b & Ei & Eb & ->). rewrite Ei.
  unfold sync_nodes, load_node. rewrite Ea, Eb. cbn [must]. rewrite !bind_Done, testb_never_negative. cbn [xorb].
  eexists 0, _, _. split_and!; [reflexivity|reflexivity|]. exists ns.
  pose proof (update_node s ns t k i b (in_phase a b) (store8 (video s) (vmem_base_addr s + 2 * location b) (off_char b)) H Ei Eb eq_refl eq_refl) as U.
  unfold draw. by rewrite <- (re_base _ _ _ H), <- (re_video _ _ _ H) in *.
Qed.

(** ** The clock interrupt *)
Lemma i16_u16 z : i16 (u16 z) = i16 z.
Proof. unfold i16, u16. by rewrite Z.mod_mod. Qed.

(** A step of the walk: the node is updated as [tick] says. *)
Lemma tasklet_node s ns t k i b : represented s ns t → ns !! k = Some i → shown t !! k = Some b →
  ∃ s' r, tasklet_step (Some i, s) = inl (r, s') ∧ next <$> blink_array s !! i = Some r ∧
    (∀ j, next <$> blink_array s' !! j = next <$> blink_array s !! j) ∧
    represented s' ns (Animation (<[k := tick b]> (shown t)) (base t) (tick_draw (base t) (screen t) b)).
Proof.
  intros H Hk Hb. destruct (Forall2_lookup_l _ _ _ _ _ (re_nodes _ _ _ H) Hk) as (b' & Hb' & (nd & Ei & ->)%next_plain).
  rewrite Hb in Hb'. injection Hb' as ->. unfold tasklet_step, tick_draw, tick, expires, draw, is_on. rewrite Ei, i16_u16.
  assert (Hlen : (i < length (blink_array s))%nat) by by apply lookup_lt_Some in Ei.
  rewrite <- (re_base _ _ _ H), <- (re_video _ _ _ H). cbn [plain set_next countdown status location on_char off_char on_length off_length].
  assert (Hsame : ∀ nd' j, next nd' = next nd → next <$> <[i := nd']> (blink_array s) !! j = next <$> blink_array s !! j).
  { intros nd' j E. destruct (decide (j = i)) as [-> | Hj]; [rewrite list_lookup_insert_eq, Ei by done; cbn; by rewrite E|by rewrite list_lookup_insert_ne]. }
  assert (Hput : ∀ nd' v, next nd' = next nd → location nd' = location nd →
    represented (Blinks (<[i := nd']> (blink_array s)) (mp1_list_head s) (vmem_base_addr s) v) ns
      (Animation (<[k := plain nd']> (shown t)) (vmem_base_addr s) v)).
  { intros nd' v. rewrite (re_base _ _ _ H) at 2. exact (update_node s ns t k i nd nd' v H Hk Ei). }
  destruct (0 <? i16 (countdown nd - 1)); cbn [negb].
  - eexists _, _. split; [reflexivity|]. split; [done|]. split; [intros j; by apply Hsame|].
    exact (Hput (set_timer (u16 (countdown nd - 1)) (status nd) nd) (video s) eq_refl eq_refl).
  - destruct (Z.testbit (status nd) 0); (eexists _, _; split; [reflexivity|]; split; [done|]);
      unfold put_node, set_array, mp1_poke; cbn [blink_array mp1_list_head vmem_base_addr video]; rewrite list_insert_insert_eq; (split; [intros j; by apply Hsame|]).
    + exact (Hput (set_timer (off_length nd) (Z.lxor (status nd) 1) nd) _ eq_refl eq_refl).
    + exact (Hput (set_timer (on_length nd) (Z.lxor (status nd) 1) nd) _ eq_refl eq_refl).
Qed.

Lemma tasklet_walk ns2 : ∀ ns1 l1 l2 s p b v, length l1 = length ns1 → represented s (ns1 ++ ns2) (Animation (l1 ++ l2) b v) →
  lseg (blink_array s) p ns2 None →
  ∃ s', iterate tasklet_step (Datatypes.S (length ns2)) (p, s) = inr (Done s') ∧
    represented s' (ns1 ++ ns2) (Animation (l1 ++ (tick <$> l2)) b (foldl (tick_draw b) v l2)).
Proof.
  induction ns2 as [|i ns2 IH]; intros ns1 l1 l2 s p b v Hl1 H Hp.
  - cbn in Hp. subst p. exists s. split; [done|]. pose proof (proj2 (small_list s _ _ H)) as Hlen. cbn [shown] in Hlen.
    rewrite !length_app in Hlen. destruct l2; [done|cbn in Hlen; lia].
  - destruct Hp as (-> & r & Er & Hp). pose proof (proj2 (small_list s _ _ H)) as Hlen. cbn [shown] in Hlen.
    rewrite !length_app in Hlen. destruct l2 as [|x l2]; [cbn in Hlen; lia|].
    destruct (tasklet_node s _ _ (length ns1) i x H) as (s' & r' & Estep & Er' & Hnext & H').
    { by apply list_lookup_middle. }
    { cbn [shown]. by apply list_lookup_middle. }
    rewrite Er in Er'. injection Er' as <-. cbn [length iterate]. rewrite Estep. cbn [shown base screen] in H'.
    rewrite <- Hl1, <- (Nat.add_0_r (length l1)), insert_app_r in H'.
    destruct (IH (ns1 ++ [i]) (l1 ++ [tick x]) l2 s' r b (tick_draw b v x)) as (s'' & E & H'').
    + rewrite !length_app. cbn. lia.
    + rewrite <- !app_assoc. exact H'.
    + eapply lseg_frame; [|exact Hp]. intros j _. apply Hnext.
    + exists s''. split; [exact E|]. rewrite <- !app_assoc in H''. exact H''.
Qed.
Lemma tick_ok s ns t : represented s ns t → ∃ s', mp1_rtc_tasklet s = Done s' ∧ represents s' (spec_tick t).
Proof.
  intros H. destruct t as [l b v]. destruct (tasklet_walk ns [] [] l s (mp1_list_head s) b v eq_refl H (re_list _ _ _ H)) as (s' & E & H').
  exists s'. split; [|by exists ns]. apply (orun_exits _ _ _ _ E). destruct (small_list s ns _ H). lia.
Qed.

(** ** Every command *)
Lemma perform_ok c s t : represents s t → placed c →
  ∃ r a s' t', perform c s = Done (r, a, s') ∧ spec_perform c t = (reply_of r a, t') ∧ represents s' t'.
Proof.
  intros [ns H] Hc. destruct c as [b|n|b|n|]; cbn [perform spec_perform mp1_ioctl].
  - destruct (add_ok s ns t b H Hc) as (r & s' & t' & -> & -> & H'). by eexists _, _, _, _.
  - destruct (remove_ok s ns t n H) as (r & s' & t' & -> & -> & H'). by eexists _, _, _, _.
  - destruct (find_ok s ns t b H) as (r & b' & -> & ->). eexists _, _, _, _. split_and!; [done|done|by exists ns].
  - destruct (sync_ok s ns t n H) as (r & s' & t' & -> & -> & H'). by eexists _, _, _, _.
  - destruct (tick_ok s ns t H) as (s' & -> & H'). by eexists _, _, _, _.
Qed.
Lemma performs_ok cs : ∀ s t, represents s t → Forall placed cs →
  ∃ rs s' t', performs cs s = Done (rs, s') ∧ spec_performs cs t = (rs, t') ∧ represents s' t'.
Proof.
  induction cs as [|c cs IH]; intros s t H Hcs; [by exists [], s, t|].
  apply list.Forall_cons in Hcs as [Hc Hcs]. destruct (perform_ok c s t H Hc) as (r & a & s1 & t1 & E1 & E2 & H1).
  destruct (IH s1 t1 H1 Hcs) as (rs & s2 & t2 & E3 & E4 & H2). exists (reply_of r a :: rs), s2, t2. cbn [performs spec_performs].
  by rewrite E1, bind_Done, E3, bind_Done, E2, E4.
Qed.

(** What [ece391_memset] leaves of the array at the start of [main]. *)
Definition cleared (vmem : Z) (v : mem) : blinks := Blinks (replicate (80 * 25)%nat zeroed) None vmem v.
Lemma cleared_represents vmem v : represents (cleared vmem v) (Animation [] vmem v).
Proof.
  exists []. split; cbn [blink_array mp1_list_head vmem_base_addr video cleared shown base screen]; [apply length_replicate|done|constructor|constructor|constructor| |done|done].
  intros i b Hb _. by apply lookup_replicate in Hb as [-> _].
Qed.

(** * What the screen shows *)

(** The structure [b], [m] ticks after a phase began in which its on character
    is shown. *)
Definition phase (b : mp1_blink_struct) (m : Z) : mp1_blink_struct :=
  plain (if m <? on_length b then set_timer (on_length b - m) 1 b else set_timer (on_length b + off_length b - m) 0 b).
Definition period (b : mp1_blink_struct) : Z := on_length b + off_length b.
Definition shows (b : mp1_blink_struct) (m : Z) : Z := if m <? on_length b then on_char b else off_char b.
Definition blinks_ok (b : mp1_blink_struct) : Prop :=
  0 < location b < 80 * 25 ∧ 1 <= on_length b < 2 ^ 15 ∧ 1 <= off_length b < 2 ^ 15.

Lemma i16_small z : 0 <= z < 2 ^ 15 → i16 z = z.
Proof. intros H. unfold i16, u16. rewrite Z.mod_small by lia. zcase. Qed.
Lemma period_next b m : 0 <= m < period b → (m + 1) mod period b = if m + 1 =? period b then 0 else m + 1.
Proof. intros Hm. destruct (Z.eqb_spec (m + 1) (period b)) as [-> |]; [by rewrite Z_mod_same_full|by rewrite Z.mod_small by lia]. Qed.
Lemma phase_next b m : blinks_ok b → 0 <= m < period b → let m' := (m + 1) mod period b in
  tick (phase b m) = phase b m' ∧ expires (phase b m) = ((m + 1 =? on_length b) || (m + 1 =? period b)).
Proof.
  intros (_ & Hon & Hoff) Hm. cbv zeta. rewrite period_next by done. unfold period, tick, expires, phase, is_on in *.
  destruct (Z.ltb_spec m (on_length b));
    cbn [plain set_next set_timer countdown status on_length off_length location on_char off_char next];
    rewrite i16_small by lia; unfold u16.
  all: zcase; (split; [|done]); cbn; try rewrite Z.mod_small by lia; unfold plain, set_next, set_timer; cbn; f_equal; try (reflexivity || lia).
Qed.

Lemma spec_performs_app cs1 cs2 t :
  spec_performs (cs1 ++ cs2) t =
    let '(r1, t1) := spec_performs cs1 t in let '(r2, t2) := spec_performs cs2 t1 in (r1 ++ r2, t2).
Proof.
  revert t. induction cs1 as [|c cs1 IH]; intros t; cbn [app spec_performs]; [by destruct (spec_performs cs2 t)|].
  destruct (spec_perform c t) as [a t1]. rewrite IH. destruct (spec_performs cs1 t1) as [r1 t2].
  by destruct (spec_performs cs2 t2).
Qed.

(** What is drawn when a phase ends. *)
Lemma shows_next b m : blinks_ok b → 0 <= m < period b →
  shows b ((m + 1) mod period b) =
    if expires (phase b m) then (if is_on (phase b m) then off_char b else on_char b) else shows b m.
Proof.
  intros H Hm. destruct (phase_next b m H Hm) as [_ ->]. rewrite period_next by done. destruct H as (_ & Hon & Hoff).
  assert (Hlit : is_on (phase b m) = (m <? on_length b)) by (unfold is_on, phase; by destruct (m <? on_length b)).
  rewrite Hlit. unfold shows, period in *. zcase.
Qed.

Section blinking.
Context (vmem : Z) (v : mem).

Definition cell (b : mp1_blink_struct) : Z := vmem + 2 * location b.
(** [n] ticks after the structures of [l] were added. *)
Definition at_tick (l : list mp1_blink_struct) (n : Z) (t : animation) : Prop :=
  shown t = (λ b, phase b (n mod period b)) <$> l ∧ base t = vmem ∧
  (∀ b, b ∈ l → screen t (cell b) = u8 (shows b (n mod period b))) ∧
  ∀ a, (∀ b, b ∈ l → a ≠ cell b) → screen t a = v a.
(** They lie at different places. *)
Definition apart (l : list mp1_blink_struct) : Prop := Forall blinks_ok l ∧ NoDup (location <$> l).

Lemma draw_same c b w : draw vmem c b w (cell b) = u8 c.
Proof. unfold draw, store8, upd, cell. by rewrite Z.eqb_refl. Qed.
Lemma draw_other c b w a : a ≠ cell b → draw vmem c b w a = w a.
Proof. intros Ha. unfold draw, store8, upd, cell in *. by rewrite (proj2 (Z.eqb_neq _ _)). Qed.
Lemma apart_cons b l : apart (b :: l) → blinks_ok b ∧ apart l ∧ ∀ b', b' ∈ l → cell b' ≠ cell b.
Proof.
  intros [[Hb Hl]%list.Forall_cons Hn]. cbn in Hn. apply list.NoDup_cons in Hn as [Hb' Hn]. split_and!; [done|by split|].
  intros b' Hin E. apply Hb'. replace (location b) with (location b') by (unfold cell in E; lia). by apply list_elem_of_fmap_2.
Qed.
Lemma apart_small l : apart l → (length l <= 2000)%nat.
Proof.
  intros [Hok Hn]. rewrite <- (length_fmap (λ b, Z.to_nat (location b)) l). apply once_below.
  - rewrite (list_fmap_compose location Z.to_nat). apply NoDup_fmap_2_strong; [|done].
    intros x y [bx [-> Hx]]%list_elem_of_fmap [by' [-> Hy]]%list_elem_of_fmap.
    pose proof (proj1 (list.Forall_forall _ _) Hok _ Hx) as [? _]. pose proof (proj1 (list.Forall_forall _ _) Hok _ Hy) as [? _]. lia.
  - intros i [b [-> Hb]]%list_elem_of_fmap. pose proof (proj1 (list.Forall_forall _ _) Hok _ Hb) as [? _]. lia.
Qed.

Lemma phase_start b : blinks_ok b → started b = phase b 0 ∧ shows b 0 = on_char b ∧ 0 mod period b = 0.
Proof.
  intros (_ & ? & ?). unfold started, phase, shows. rewrite (proj2 (Z.ltb_lt _ _)) by lia. rewrite Z.sub_0_r. by rewrite Zmod_0_l.
Qed.
Lemma added l : apart l → ∃ t, at_tick l 0 t ∧
  spec_performs (Add <$> reverse l) (Animation [] vmem v) = ((λ b, (0, Some (plain b))) <$> reverse l, t).
Proof.
  induction l as [|b l IH]; intros Hl; [exists (Animation [] vmem v); split; [|done]; split_and!; try done; intros b Hb; by apply not_elem_of_nil in Hb|].
  destruct (apart_cons b l Hl) as (Hb & Hl' & Hne). destruct (IH Hl') as (t & (Hs & Hbase & Hcells & Hothers) & E).
  rewrite reverse_cons, !fmap_app, spec_performs_app, E. cbn [fmap list_fmap spec_performs spec_perform]. unfold spec_add.
  destruct (phase_start b Hb) as (Est & Eon & E0). pose proof (apart_small _ Hl) as Hsmall. cbn [length] in Hsmall.
  rewrite Hs, length_fmap, (proj2 (Z.leb_gt _ (location b))), (proj2 (Z.leb_gt _ (Z.of_nat _))) by (try (destruct Hb; lia); lia). cbn [orb].
  eexists. split; [|reflexivity]. rewrite Hbase. split_and!; [|done| |]; cbn [shown screen].
  - cbn. by rewrite E0, Est.
  - intros b' [-> | Hb']%elem_of_cons; [by rewrite draw_same, E0, Eon|]. rewrite draw_other by by apply Hne. by apply Hcells.
  - intros a Ha. rewrite draw_other by (apply Ha; by left). apply Hothers. intros b' Hb'. apply Ha. by right.
Qed.

(** Drawing a list: every cell is drawn once. *)
Lemma draws l : ∀ w, NoDup (location <$> l) →
  (∀ b, b ∈ l → foldl (tick_draw vmem) w l (cell b) = tick_draw vmem w b (cell b)) ∧
  ∀ a, (∀ b, b ∈ l → a ≠ cell b) → foldl (tick_draw vmem) w l a = w a.
Proof.
  assert (Hother : ∀ b w a, a ≠ cell b → tick_draw vmem w b a = w a).
  { intros b w a Ha. unfold tick_draw. destruct (expires b); [|done]. by apply draw_other. }
  induction l as [|b l IH]; intros w Hn; [by split; [intros b Hb; apply not_elem_of_nil in Hb|]|].
  cbn in Hn |- *. apply list.NoDup_cons in Hn as [Hb Hn]. destruct (IH (tick_draw vmem w b) Hn) as [I1 I2].
  assert (Hne : ∀ b', b' ∈ l → cell b' ≠ cell b).
  { intros b' Hin E. apply Hb. replace (location b) with (location b') by (unfold cell in E; lia). by apply list_elem_of_fmap_2. }
  split.
  - intros b' [-> | Hb']%elem_of_cons; [apply I2; intros x Hx Ex; by apply (Hne x Hx)|].
    rewrite I1 by done. unfold tick_draw at 1 3. destruct (expires b'); [by rewrite !draw_same|]. by apply Hother, Hne.
  - intros a Ha. rewrite I2 by (intros x Hx; apply Ha; by right). apply Hother, Ha. by left.
Qed.
Lemma ticked l n t : apart l → 0 <= n → at_tick l n t → at_tick l (n + 1) (spec_tick t).
Proof.
  intros [Hok Hn] Hn0 (Hs & Hbase & Hcells & Hothers). unfold spec_tick. rewrite Hs, Hbase.
  assert (Hloc : location <$> ((λ b, phase b (n mod period b)) <$> l) = location <$> l).
  { rewrite <- list_fmap_compose. apply list_fmap_ext. intros i b _. cbn. unfold phase. by destruct (_ <? _). }
  destruct (draws _ (screen t) (eq_ind_r (@NoDup Z) Hn Hloc)) as [D1 D2].
  assert (Hnext : ∀ b, b ∈ l → 0 <= n mod period b < period b ∧ (n + 1) mod period b = (n mod period b + 1) mod period b ∧ blinks_ok b ∧
    cell (phase b (n mod period b)) = cell b).
  { intros b Hb. pose proof (proj1 (list.Forall_forall _ _) Hok _ Hb) as H. assert (0 < period b) by (destruct H as (_ & ? & ?); unfold period; lia).
    split; [by apply Z.mod_pos_bound|]. split_and!; [by rewrite Zplus_mod_idemp_l|done|]. unfold cell, phase. by destruct (_ <? _). }
  split_and!; cbn [shown base screen]; [|done| |].
  - rewrite <- list_fmap_compose. apply list_fmap_ext. intros i b Hb%list_elem_of_lookup_2. destruct (Hnext b Hb) as (Hm & E & H & _).
    cbn. rewrite E. by apply phase_next.
  - intros b Hb. destruct (Hnext b Hb) as (Hm & E & H & Ec). rewrite <- Ec at 1. rewrite D1 by by apply (list_elem_of_fmap_2 (λ b, phase b (n mod period b))).
    rewrite E, (shows_next b _ H Hm). unfold tick_draw. rewrite Ec.
    destruct (expires (phase b (n mod period b))); [|by apply Hcells]. rewrite <- Ec, draw_same. unfold phase. by destruct (_ <? _).
  - intros a Ha. rewrite D2; [by apply Hothers|]. intros x [b [-> Hb]]%list_elem_of_fmap. destruct (Hnext b Hb) as (_ & _ & _ & ->). by apply Ha.
Qed.
Lemma ticked_times l n t : apart l → at_tick l 0 t → ∃ t', at_tick l (Z.of_nat n) t' ∧
  spec_performs (replicate n Tick) t = (replicate n (0, None), t').
Proof.
  intros Hl Ht. induction n as [|n (t' & H' & E)]; [by exists t|]. exists (spec_tick t'). split.
  - replace (Z.of_nat (Datatypes.S n)) with (Z.of_nat n + 1) by lia. apply ticked; [done|lia|done].
  - rewrite !replicate_S_end, spec_performs_app, E. done.
Qed.
End blinking.

(** * Theorems *)

(** C31. The list of blink.S implements an abstract list.  Whatever commands
    are given with a location that is not 0, in whatever order and between
    whatever clock interrupts, each of them finishes, the callers get the
    answers of the abstract list, and afterwards the nodes that are reached
    from the head hold that list, every other node is free to be allocated,
    and the screen is the one the abstract list drew.  In particular the walks
    meet no stray pointer and end, and what is removed can be added again. *)
Theorem blink_refines_list (s : blinks) (t : animation) (H : represents s t) (cs : list command) (Hcs : Forall placed cs) :
  ∃ rs s' t', performs cs s = Done (rs, s') ∧ spec_performs cs t = (rs, t') ∧ represents s' t'.
Proof. by apply performs_ok. Qed.

(** Two structures, one taken out, the other found, brought into phase with
    itself and ticked. *)
Definition blink1 : mp1_blink_struct := Blink 540 73 77 7 6 9 9 (Some 5%nat).
Definition blink2 : mp1_blink_struct := Blink 40 79 43 1 2 0 0 None.
Definition commands1 : list command := [Add blink1; Add blink2; Remove 540; Find blink1; Find blink2; Sync (40 * 2 ^ 16 + 40); Tick].
Lemma blink_refines_list_witness :
  represents (cleared 0x8800000 (λ _, 32)) (Animation [] 0x8800000 (λ _, 32)) ∧ Forall placed commands1 ∧
  ∃ rs s' t', performs commands1 (cleared 0x8800000 (λ _, 32)) = Done (rs, s') ∧
    spec_performs commands1 (Animation [] 0x8800000 (λ _, 32)) = (rs, t') ∧ represents s' t' ∧
    fst <$> rs = [0; 0; 0; -1; 0; 0; 0] ∧ screen t' 0x8800050 = 43.
Proof.
  assert (H1 : represents (cleared 0x8800000 (λ _, 32)) (Animation [] 0x8800000 (λ _, 32))) by apply cleared_represents.
  assert (H2 : Forall placed commands1) by (repeat constructor; done).
  split; [exact H1|split; [exact H2|]].
  destruct (blink_refines_list _ _ H1 commands1 H2) as (rs & s' & t' & E1 & E2 & H'). exists rs, s', t'.
  assert (E3 : (fst <$> (spec_performs commands1 (Animation [] 0x8800000 (λ _, 32))).1 = [0; 0; 0; -1; 0; 0; 0]) ∧
    screen (spec_performs commands1 (Animation [] 0x8800000 (λ _, 32))).2 0x8800050 = 43) by (split; vm_compute; reflexivity).
  rewrite E2 in E3. destruct E3 as [E3 E4]. by split_and!.
Defined.

(** C32. The screen blinks.  When structures with different locations on the
    screen and phases of 1 to 32767 ticks are added to the cleared array and
    the clock then ticks [n] times, every command succeeds, and at every place
    the on character is shown for the first [on_length] of every
    [on_length + off_length] ticks and the off character for the rest,
    whatever the other structures are; nothing else on the screen changes. *)
Theorem screen_blinks (vmem : Z) (v : mem) (bs : list mp1_blink_struct) (n : nat)
    (Hok : Forall blinks_ok bs) (Hdistinct : NoDup (location <$> bs)) :
  ∃ rs s', performs ((Add <$> bs) ++ replicate n Tick) (cleared vmem v) = Done (rs, s') ∧ Forall (λ a, a.1 = 0) rs ∧
    (∀ b, b ∈ bs → video s' (vmem + 2 * location b) =
      u8 (if Z.of_nat n mod (on_length b + off_length b) <? on_length b then on_char b else off_char b)) ∧
    ∀ a, (∀ b, b ∈ bs → a ≠ vmem + 2 * location b) → video s' a = v a.
Proof.
  assert (Hl : apart (reverse bs)) by (split; [by rewrite Forall_reverse|by rewrite fmap_reverse, reverse_Permutation]).
  destruct (added vmem v (reverse bs) Hl) as (t0 & H0 & E0). rewrite reverse_involutive in E0.
  destruct (ticked_times vmem v (reverse bs) n t0 Hl H0) as (t & (_ & _ & Hcells & Hothers) & E1).
  destruct (performs_ok ((Add <$> bs) ++ replicate n Tick) _ _ (cleared_represents vmem v)) as (rs & s' & t' & E2 & E3 & [ns H']).
  { apply list.Forall_app. split; [|by apply Forall_replicate]. apply list.Forall_fmap. eapply list.Forall_impl; [exact Hok|]. by intros b [[? _] _]. }
  rewrite spec_performs_app, E0, E1 in E3. injection E3 as <- <-. eexists _, s'.
  split; [exact E2|]. split.
  - apply list.Forall_app. split; [by apply list.Forall_fmap; by apply list.Forall_true|by apply Forall_replicate].
  - rewrite (re_video _ _ _ H'). split.
    + intros b Hb. by apply (Hcells b), elem_of_reverse.
    + intros a Ha. apply Hothers. intros b Hb. rewrite elem_of_reverse in Hb. exact (Ha b Hb).
Qed.
Lemma screen_blinks_witness :
  Forall blinks_ok [blink1; blink2] ∧ NoDup (location <$> [blink1; blink2]) ∧
  ∃ rs s', performs [Add blink1; Add blink2; Tick; Tick; Tick; Tick] (cleared 0x8800000 (λ _, 32)) = Done (rs, s') ∧
    video s' (0x8800000 + 2 * 540) = 73 ∧ video s' (0x8800000 + 2 * 40) = 43 ∧ video s' 0x8800000 = 32.
Proof.
  assert (H1 : Forall blinks_ok [blink1; blink2]) by (repeat constructor; done).
  assert (H2 : NoDup (location <$> [blink1; blink2])) by (apply (bool_decide_unpack _); vm_compute; exact I).
  split; [exact H1|split; [exact H2|]].
  destruct (screen_blinks 0x8800000 (λ _, 32) [blink1; blink2] 4 H1 H2) as (rs & s' & E & _ & Hc & Ho).
  exists rs, s'. split; [exact E|]. split; [exact (Hc blink1 (list_elem_of_here _ _))|].
  split; [exact (Hc blink2 (list_elem_of_further _ _ _ (list_elem_of_here _ _)))|].
  apply Ho. intros b [-> | [-> | Hb%not_elem_of_nil]%elem_of_cons]%elem_of_cons; [done|done|done].
Defined.

(** * The location 0

    A node in use whose location is 0 counts as free: the next structure is
    written over it and linked to itself, and no walk ends any more. *)
Definition self_linked (st : option nat * blinks) : Prop :=
  ∃ i nd, st.1 = Some i ∧ blink_array st.2 !! i = Some nd ∧ next nd = Some i.
Lemma self_linked_step st : self_linked st → ∃ st', tasklet_step st = inl st' ∧ self_linked st'.
Proof.
  destruct st as [p s]. intros (i & nd & Ep & Ei & En). cbn in Ep, Ei. subst p. unfold tasklet_step. rewrite Ei.
  pose proof (lookup_lt_Some _ _ _ Ei) as Hlt. destruct (0 <? _).
  - eexists. split; [done|]. exists i, (set_timer (u16 (countdown nd - 1)) (status nd) nd). cbn. by rewrite list_lookup_insert_eq.
  - destruct (if Z.testbit (status nd) 0 then _ else _) as [cl dx]. eexists. split; [done|].
    exists i, (set_timer dx (Z.lxor (status nd) 1) nd). cbn. by rewrite list_lookup_insert_eq by by rewrite length_insert.
Qed.
Lemma add_at i b s : mp1_malloc s = Some i → location b < 80 * 25 → mp1_ioctl_add b s =
  Done (0, Blinks (<[i := set_next (mp1_list_head s) (set_timer (on_length b) 1 b)]> (blink_array s)) (Some i) (vmem_base_addr s)
    (store8 (video s) (vmem_base_addr s + 2 * location b) (on_char b))).
Proof.
  intros Hm Hb. unfold mp1_ioctl_add. rewrite (proj2 (Z.leb_gt _ _)) by done. rewrite Hm. unfold put_node, set_head, set_array, mp1_poke.
  cbn [blink_array mp1_list_head vmem_base_addr video]. by rewrite list_insert_insert_eq.
Qed.
Lemma zero_location_loops s t b0 b1 : represents s t → (length (shown t) < 2000)%nat → location b0 = 0 → location b1 < 80 * 25 →
  ∃ rs s', performs [Add b0; Add b1] s = Done (rs, s') ∧ fst <$> rs = [0; 0] ∧ mp1_rtc_tasklet s' = Hang.
Proof.
  intros [ns H] Hroom E0 E1. destruct (mp1_malloc s) as [i|] eqn:Hm; [|pose proof (malloc_full s ns t H Hm); lia].
  cbn [performs perform mp1_ioctl]. rewrite (add_at i) by (rewrite ?E0; done). rewrite !bind_Done.
  unfold mp1_malloc in Hm. apply fmap_Some in Hm as ([i' nd] & (Hnd & Hz & Hbefore)%list_find_Some & Ei). cbn [fst] in Ei. subst i'.
  pose proof (lookup_lt_Some _ _ _ Hnd) as Hlt. rewrite (add_at i); [|unfold mp1_malloc; cbn [blink_array]|done].
  2:{ rewrite (proj2 (list_find_Some _ _ i (set_next (mp1_list_head s) (set_timer (on_length b0) 1 b0)))); [done|].
      split_and!; [by apply list_lookup_insert_eq|exact E0|]. intros j y Hy Hj. rewrite list_lookup_insert_ne in Hy by lia. by apply (Hbefore j). }
  rewrite !bind_Done. eexists _, _. split_and!; [reflexivity|reflexivity|]. cbn [blink_array mp1_list_head vmem_base_addr video].
  rewrite list_insert_insert_eq. unfold mp1_rtc_tasklet, orun. rewrite (run_stuck _ self_linked); [done|apply self_linked_step|].
  eexists i, _. cbn [fst snd mp1_list_head blink_array]. rewrite list_lookup_insert_eq by done. by split_and!.
Qed.
