(* ===== verification/Fish.v ===== *)
(** fish.c over the interface of User: two pictures read in parallel, whose
    differences blink, and the script of [main].  The characters are stored
    into the program's own memory, at the address [vidmap] returned. *)
From Stdlib Require Import String FunctionalExtensionality.
From S2P Require Import Prelude Memory Strings Console Filesystem Kernel Syscall User Programs Grep Syserr Pingpong Blink.

Definition WAIT : nat := 100.
Definition RTC_ADD : Z := 0.
Definition RTC_REMOVE : Z := 1.
Definition RTC_SYNC : Z := 3.

(** * The program *)
Section program.
Context `{Syscalls St} `{!Probes St}.
Context (rodata : list Z → Z).

(** The functions of blink.S load nothing from the page at [vmem_base_addr],
    they only store to it.  Blink lets them store to a copy; what they changed in
    it is stored to the program's memory.  The copy is no byte where a load would
    fault, so that whatever is drawn there is stored, and faults. *)
Definition on_page (base x : Z) : bool := (base <=? x) && (x <? base + FOUR_KB_SIZE).
Definition screen_at (base : Z) (st : St) : mem := λ x, if on_page base x then default (-1) (user st x) else -1.
Definition set_video (v : mem) (bl : blinks) : blinks := Blinks (blink_array bl) (mp1_list_head bl) (vmem_base_addr bl) v.
Definition store_change (v v' : mem) (o : out St) (x : Z) : out St := st ← o; if v' x =? v x then Done st else poke x (v' x) st.
Definition store_changes (base : Z) (v v' : mem) (st : St) : out St := foldl (store_change v v') (Done st) (seqZ base FOUR_KB_SIZE).
Definition drawing {A} (f : blinks → out (A * blinks)) (s : St * blinks) : out (A * (St * blinks)) :=
  let '(st, bl) := s in
  let v := screen_at (vmem_base_addr bl) st in
  '(a, bl) ← f (set_video v bl);
  st ← store_changes (vmem_base_addr bl) v (video bl) st;
  Done (a, (st, bl)).
(** [mp1_rtc_tasklet], which Blink performs as the command [Tick]. *)
Definition rtc_tasklet (s : St * blinks) : out (St * blinks) := '(_, s) ← drawing (perform Tick) s; Done s.

(** The program calls [ece391_halt] on the way, or goes on. *)
Inductive flow : Type := Halted (status : Z) (s : St * blinks) | Running (s : St * blinks).

(** The addresses of the locals [c0] and [c1] of [add_frames], and what its
    [blink_struct] holds before it is filled. *)
Context (a0 a1 : Z) (blink_struct : mp1_blink_struct).

(** [if (c != '\n') { num_bytes = read(fd, &c, 1); if (num_bytes == 0) ... }] *)
Definition read_char (fd a eof : Z) (st : St) : out (Z * St) :=
  c ← peek a st;
  if negb (c =? 10) then
    '(num_bytes, st) ← ece391_read fd a 1 st;
    if num_bytes =? 0 then st ← poke a 10 st; Done (1, st) else Done (eof, st)
  else Done (eof, st).

Definition visible (c0 c1 : Z) : bool := (negb (c0 =? 32) && negb (c0 =? 10)) || (negb (c1 =? 32) && negb (c1 =? 10)).
Definition frame_blink (row col c0 c1 : Z) : mp1_blink_struct :=
  Blink (u16 (row * 80 + col + 40)) (if c0 =? 10 then 32 else c0) (if c1 =? 10 then 32 else c1) 15 15
    (countdown blink_struct) (status blink_struct) (next blink_struct).

(** One pass of the loop over the columns; it leaves at the end of the row. *)
Definition col_step (fd0 fd1 row : Z) (s : Z * Z * Z * St * blinks) : Z * Z * Z * St * blinks + out (Z * Z * St * blinks) :=
  let '(col, eof0, eof1, st, bl) := s in
  during (read_char fd0 a0 eof0 st) (λ '(eof0, st),
  during (read_char fd1 a1 eof1 st) (λ '(eof1, st),
  during (peek a0 st) (λ c0, during (peek a1 st) (λ c1,
  if (c0 =? 10) && (c1 =? 10) then inr (Done (eof0, eof1, st, bl)) else
  if visible c0 c1 then
    during (drawing (mp1_ioctl (Pointer (frame_blink row col c0 c1)) RTC_ADD) (st, bl)) (λ '(_, (st, bl)), inl (col + 1, eof0, eof1, st, bl))
  else inl (col + 1, eof0, eof1, st, bl))))).

Definition end_line (fd a eof : Z) (st : St) : out St :=
  if negb (eof =? 0) then st ← poke a 10 st; '(_, st) ← ece391_close fd st; Done st else poke a 48 st.

Definition row_step (fd0 fd1 : Z) (s : Z * Z * Z * St * blinks) : Z * Z * Z * St * blinks + out (St * blinks) :=
  let '(row, eof0, eof1, st, bl) := s in
  if (eof0 =? 0) || (eof1 =? 0) then
    during (orun (col_step fd0 fd1 row) (0, eof0, eof1, st, bl)) (λ '(eof0, eof1, st, bl),
    during (end_line fd0 a0 eof0 st) (λ st, during (end_line fd1 a1 eof1 st) (λ st, inl (row + 1, eof0, eof1, st, bl))))
  else inr (Done (st, bl)).

Definition add_frames (f0 f1 : Z) (s : St * blinks) : out flow :=
  let '(st, bl) := s in
  st ← poke a0 48 st; st ← poke a1 48 st;
  '(fd0, st) ← ece391_open f0 st;
  if fd0 <? 0 then Done (Halted (-1) (st, bl)) else
  '(fd1, st) ← ece391_open f1 st;
  if fd1 <? 0 then Done (Halted (-1) (st, bl)) else
  s ← orun (row_step fd0 fd1) (0, 0, 0, st, bl); Done (Running s).

(** The addresses of [vmem_base_addr], [ret_val] and [garbage], and of the
    arrays [file0] and [file1]. *)
Context (vmem ret_val garbage file0 file1 : Z).

Definition set_vmem (v : Z) (bl : blinks) : blinks := Blinks (blink_array bl) (mp1_list_head bl) v (video bl).
Definition mp1_set_video_mode (s : St * blinks) : out (Z * (St * blinks)) :=
  let '(st, bl) := s in
  '(r, st) ← ece391_vidmap vmem st;
  if r =? -1 then Done (0, (st, bl)) else v ← peek32 vmem st; Done (v, (st, set_vmem v bl)).

(** [for(i=0; i<WAIT; i++) { read(rtc_fd, &garbage, 4); mp1_rtc_tasklet(garbage); }] *)
Fixpoint wait (n : nat) (rtc_fd : Z) (s : St * blinks) : out (St * blinks) :=
  match n with
  | O => Done s
  | S n => let '(st, bl) := s in '(_, st) ← ece391_read rtc_fd garbage 4 st; s ← rtc_tasklet (st, bl); wait n rtc_fd s
  end.
Definition im_blink (b : mp1_blink_struct) : mp1_blink_struct :=
  Blink (6 * 80 + 60) 73 77 7 6 (countdown b) (status b) (next b).

(** [b] is what the [blink_struct] of [main] holds before it is filled. *)
Definition ioctl_then_wait (arg : ioctl_arg) (cmd rtc_fd : Z) (s : St * blinks) : out (St * blinks) :=
  '(_, s) ← drawing (mp1_ioctl arg cmd) s; wait WAIT rtc_fd s.
Definition fish (b : mp1_blink_struct) (s : St * blinks) : out (Z * (St * blinks)) :=
  let '(st, bl) := s in
  '(v, s) ← mp1_set_video_mode (st, set_array (replicate (80 * 25) zeroed) bl);
  if v =? 0 then Done (-1, s) else
  let '(st, bl) := s in
  '(rtc_fd, st) ← ece391_open (rodata (lit "rtc")) st;
  f ← add_frames file0 file1 (st, bl);
  match f with
  | Halted status s => Done (status, s)
  | Running (st, bl) =>
      st ← poke32 ret_val 32 st;
      '(r, st) ← ece391_write rtc_fd ret_val 4 st;
      st ← poke32 ret_val r st;
      s ← wait WAIT rtc_fd (st, bl);
      s ← ioctl_then_wait (Pointer (im_blink b)) RTC_ADD rtc_fd s;
      s ← ioctl_then_wait (Number (Z.lor (Z.shiftl 40 16) (6 * 80 + 60))) RTC_SYNC rtc_fd s;
      '(st, bl) ← ioctl_then_wait (Number (6 * 80 + 60)) RTC_REMOVE rtc_fd s;
      '(_, st) ← ece391_close rtc_fd st;
      Done (0, (st, bl))
  end.
End program.

(** * The picture

    The two texts line by line; a place where either has a character blinks
    between the two. *)
Section picture.
Context (blink_struct : mp1_blink_struct).
Definition pixel (row col c0 c1 : Z) : list mp1_blink_struct :=
  if visible c0 c1 then [frame_blink blink_struct row col c0 c1] else [].
(** The places of a row from column [col] on. *)
Definition row_pixels (row col : Z) (l0 l1 : list Z) : list mp1_blink_struct :=
  concat ((λ i, pixel row (col + i) (default 10 (zget l0 i)) (default 10 (zget l1 i))) <$> seqZ 0 (Z.of_nat (length l0 `max` length l1))).
(** The rows from [row] on. *)
Definition pixels (row : Z) (ls0 ls1 : list (list Z)) : list mp1_blink_struct :=
  concat ((λ i, row_pixels (row + i) 0 (default [] (zget ls0 i)) (default [] (zget ls1 i))) <$> seqZ 0 (Z.of_nat (length ls0 `max` length ls1))).
Definition picture (c0 c1 : list Z) : list mp1_blink_struct := pixels 0 (split_lines [] c0) (split_lines [] c1).

Lemma zget_tail {A} (l : list A) i : 0 <= i → zget (tail l) i = zget l (i + 1).
Proof.
  intros Hi. unfold zget. rewrite !(proj2 (Z.ltb_ge _ 0)) by lia. replace (Z.to_nat (i + 1)) with (Datatypes.S (Z.to_nat i)) by lia. by destruct l.
Qed.
Lemma zget_head {A} (l : list A) : zget l 0 = head l.
Proof. by destruct l. Qed.
Lemma seqZ_shift n : 0 <= n → seqZ 0 (n + 1) = 0 :: ((λ i, i + 1) <$> seqZ 0 n).
Proof.
  intros Hn. rewrite seqZ_cons by lia. f_equal. replace (Z.pred (n + 1)) with n by lia. change (Z.succ 0) with (1 + 0).
  rewrite <- (fmap_add_seqZ 1 0 n). apply list_fmap_ext. intros i x _. lia.
Qed.
Lemma row_pixels_step row col l0 l1 : l0 ≠ [] ∨ l1 ≠ [] →
  row_pixels row col l0 l1 = pixel row col (default 10 (head l0)) (default 10 (head l1)) ++ row_pixels row (col + 1) (tail l0) (tail l1).
Proof.
  intros Hne. unfold row_pixels.
  replace (Z.of_nat (length l0 `max` length l1)) with (Z.of_nat (length (tail l0) `max` length (tail l1)) + 1) by (destruct l0, l1; cbn; naive_solver lia).
  rewrite seqZ_shift by lia. cbn [fmap list_fmap concat]. rewrite Z.add_0_r, !zget_head. f_equal. f_equal. rewrite <- list_fmap_compose.
  apply list_fmap_ext. intros i x Hx%list_elem_of_lookup_2%elem_of_seqZ. cbn. rewrite !zget_tail by lia. by replace (col + (x + 1)) with (col + 1 + x) by lia.
Qed.
Lemma pixels_step row ls0 ls1 : ls0 ≠ [] ∨ ls1 ≠ [] →
  pixels row ls0 ls1 = row_pixels row 0 (default [] (head ls0)) (default [] (head ls1)) ++ pixels (row + 1) (tail ls0) (tail ls1).
Proof.
  intros Hne. unfold pixels.
  replace (Z.of_nat (length ls0 `max` length ls1)) with (Z.of_nat (length (tail ls0) `max` length (tail ls1)) + 1) by (destruct ls0, ls1; cbn; naive_solver lia).
  rewrite seqZ_shift by lia. cbn [fmap list_fmap concat]. rewrite Z.add_0_r, !zget_head. f_equal. f_equal. rewrite <- list_fmap_compose.
  apply list_fmap_ext. intros i x Hx%list_elem_of_lookup_2%elem_of_seqZ. cbn. rewrite !zget_tail by lia. by replace (row + (x + 1)) with (row + 1 + x) by lia.
Qed.
End picture.

(** * A text as it is read

    The character last read, what is left of the file, and the flag of its
    end. *)
Record source : Type := Source { ch : Z; rest : list Z; eof : Z }.
Definition read_source (x : source) : source :=
  if ch x =? 10 then x else match rest x with [] => Source 10 [] 1 | c :: l => Source c l (eof x) end.
Fixpoint cut_line (l : list Z) : list Z := match l with [] => [] | c :: l => if c =? 10 then [] else c :: cut_line l end.
Fixpoint next_line (l : list Z) (e : Z) : list Z * Z :=
  match l with [] => ([], 1) | c :: l => if c =? 10 then (l, e) else next_line l e end.
(** What is left of the line, and the source at its end. *)
Definition line_left (x : source) : list Z := if ch x =? 10 then [] else cut_line (rest x).
Definition at_end (x : source) : source :=
  if ch x =? 10 then x else let '(l, e) := next_line (rest x) (eof x) in Source 10 l e.
(** The next row is begun, and the lines that are left before it. *)
Definition begin_line (x : source) : source := Source (if negb (eof x =? 0) then 10 else 48) (rest x) (eof x).
Definition lines_left (x : source) : list (list Z) := if ch x =? 10 then [] else split_lines [] (rest x).

Lemma read_line_left x : line_left (read_source x) = tail (line_left x).
Proof. unfold line_left, read_source. destruct (ch x =? 10) eqn:E; [by rewrite E|]. destruct (rest x) as [|c l]; [done|]. cbn. by destruct (c =? 10). Qed.
Lemma read_ch x : ch (read_source x) = default 10 (head (line_left x)).
Proof.
  unfold line_left, read_source. destruct (Z.eqb_spec (ch x) 10) as [E|E]; [done|]. destruct (rest x) as [|c l]; [done|]. cbn.
  by destruct (Z.eqb_spec c 10) as [-> |].
Qed.
Lemma read_at_end x : at_end (read_source x) = at_end x.
Proof. unfold at_end, read_source. destruct (ch x =? 10) eqn:E; [by rewrite E|]. destruct (rest x) as [|c l]; [done|]. cbn. by destruct (Z.eqb_spec c 10) as [-> |]. Qed.
Lemma at_end_done x : ch x = 10 → at_end x = x.
Proof. intros E. unfold at_end. by rewrite E. Qed.
Lemma line_left_nil x : line_left x = [] → ch (read_source x) = 10.
Proof. intros E. by rewrite read_ch, E. Qed.

(** The end of a line is the beginning of the next. *)
Lemma split_cut l : ∀ cur, split_lines cur l = (cur ++ cut_line l) :: if (next_line l 0).2 =? 0 then split_lines [] (next_line l 0).1 else [].
Proof.
  induction l as [|c l IH]; intros cur; cbn [split_lines cut_line next_line]; [by rewrite app_nil_r|].
  destruct (c =? 10); [by rewrite app_nil_r|]. rewrite IH. by rewrite <- app_assoc.
Qed.
(** At the beginning of a row. *)
Definition at_start (x : source) : Prop := (eof x = 0 ∧ ch x = 48) ∨ (eof x = 1 ∧ ch x = 10).
Lemma next_line_eof l : (next_line l 0).2 = 0 ∨ (next_line l 0).2 = 1.
Proof. induction l as [|c l IH]; cbn; [by right|]. destruct (c =? 10); [by left|done]. Qed.
Lemma start_next x : at_start x → at_start (begin_line (at_end x)) ∧ (eof (at_end x) = 0 ∨ eof (at_end x) = 1).
Proof.
  intros [[Ee Ec]|[Ee Ec]]; unfold at_end; rewrite Ec.
  - change (48 =? 10) with false. cbv iota. rewrite Ee. destruct (next_line_eof (rest x)) as [E|E]; destruct (next_line (rest x) 0) as [l e]; cbn in E; subst e.
    + split; left; done.
    + split; right; done.
  - change (10 =? 10) with true. cbv iota. unfold at_start, begin_line. cbn [eof ch]. rewrite Ee. split; right; done.
Qed.
Lemma lines_head x : at_start x → default [] (head (lines_left x)) = line_left x.
Proof.
  intros [[_ Ec]|[_ Ec]]; unfold lines_left, line_left; rewrite Ec; [|done]. change (48 =? 10) with false. cbv iota. by rewrite split_cut.
Qed.
Lemma lines_tail x : at_start x → tail (lines_left x) = lines_left (begin_line (at_end x)).
Proof.
  intros [[Ee Ec]|[Ee Ec]]; unfold lines_left, begin_line, at_end; rewrite Ec; cbn [ch rest eof].
  - change (48 =? 10) with false. cbv iota. rewrite split_cut, Ee. destruct (next_line_eof (rest x)) as [E|E]; destruct (next_line (rest x) 0) as [l e]; cbn in E |- *; by subst e.
  - change (10 =? 10) with true. cbv iota. rewrite Ee. done.
Qed.
Lemma lines_end x : at_start x → lines_left x = [] ↔ eof x ≠ 0.
Proof.
  intros [[Ee Ec]|[Ee Ec]]; unfold lines_left; rewrite Ec, Ee; [|done]. change (48 =? 10) with false. cbv iota. rewrite split_cut. done.
Qed.
Lemma cut_char l c : head (cut_line l) = Some c → c ≠ 10.
Proof. destruct l as [|d l]; [done|]. cbn. destruct (Z.eqb_spec d 10); [done|]. by intros [= <-]. Qed.
Lemma read_stops x : ch (read_source x) = 10 ↔ line_left x = [].
Proof.
  rewrite read_ch. split; [|by intros ->]. unfold line_left. destruct (ch x =? 10); [done|]. intros E.
  destruct (cut_line (rest x)) as [|c l] eqn:Ec; [done|]. cbn in E. by destruct (cut_char (rest x) c); [rewrite Ec|].
Qed.
Lemma length_cut l : (length (cut_line l) <= length l)%nat.
Proof. induction l as [|c l IH]; cbn; [done|]. destruct (c =? 10); cbn; lia. Qed.
Lemma length_split l : ∀ cur, (length (split_lines cur l) <= S (length l))%nat.
Proof.
  induction l as [|c l IH]; intros cur; cbn [split_lines length]; [lia|]. destruct (c =? 10); cbn [length]; [specialize (IH [])|specialize (IH (cur ++ [c]))]; lia.
Qed.

(** What the list of blinking structures becomes. *)
Definition drawn (bs : list mp1_blink_struct) (t : animation) : animation := (spec_performs (Add <$> bs) t).2.
Lemma drawn_app bs1 bs2 t : drawn (bs1 ++ bs2) t = drawn bs2 (drawn bs1 t).
Proof.
  unfold drawn. rewrite fmap_app, spec_performs_app. destruct (spec_performs (Add <$> bs1) t) as [r1 t1]. cbn.
  by destruct (spec_performs (Add <$> bs2) t1).
Qed.

(** * What a command draws

    Bytes on the page, since every structure lies on the screen. *)
Definition places (t : animation) : Prop := Forall (λ b, 0 <= location b < 80 * 25) (shown t).
Definition redrawn (base : Z) (v v' : mem) : Prop := ∀ x, v' x = v x ∨ on_page base x = true ∧ is_u8 (v' x).
Lemma redrawn_same base v : redrawn base v v.
Proof. intros x. by left. Qed.
Lemma redrawn_twice base v1 v2 v3 : redrawn base v1 v2 → redrawn base v2 v3 → redrawn base v1 v3.
Proof. intros H1 H2 x. destruct (H2 x) as [->|?]; [apply H1|by right]. Qed.
Lemma draw_redrawn base c b v : 0 <= location b < 80 * 25 → redrawn base v (draw base c b v).
Proof.
  intros Hb x. unfold draw, store8, upd. destruct (Z.eqb_spec x (base + 2 * location b)) as [->|]; [right|by left].
  split; [|apply u8_range]. unfold on_page, FOUR_KB_SIZE. apply andb_true_intro. split; [apply Z.leb_le|apply Z.ltb_lt]; lia.
Qed.
Lemma places_lookup t k b : places t → shown t !! k = Some b → 0 <= location b < 80 * 25.
Proof. intros Ht Hk. exact (proj1 (Forall_lookup _ _) Ht _ _ Hk). Qed.
Lemma tick_redrawn base l : ∀ v, Forall (λ b, 0 <= location b < 80 * 25) l → redrawn base v (foldl (tick_draw base) v l).
Proof.
  induction l as [|b l IH]; intros v Hl; [apply redrawn_same|]. apply list.Forall_cons in Hl as [Hb Hl]. cbn [foldl].
  eapply redrawn_twice; [|by apply IH]. unfold tick_draw. destruct (expires b); [by apply draw_redrawn|apply redrawn_same].
Qed.
Lemma spec_perform_draws c t : places t → placed c → let t' := (spec_perform c t).2 in
  places t' ∧ base t' = base t ∧ redrawn (base t) (screen t) (screen t').
Proof.
  intros Ht Hc. destruct c as [b|n|b|n|]; cbn [spec_perform].
  - unfold spec_add. destruct (Z.leb_spec (80 * 25) (location b)); cbn [orb]; [split_and!; [done..|apply redrawn_same]|].
    destruct (80 * 25 <=? Z.of_nat (length (shown t))); [split_and!; [done..|apply redrawn_same]|]. cbn in Hc.
    split_and!; [constructor; [cbn; lia|done]|done|apply draw_redrawn; lia].
  - unfold spec_remove. destruct (position n (shown t)) as [k|]; [|split_and!; [done..|apply redrawn_same]].
    split_and!; [by apply Forall_delete|done|apply redrawn_same].
  - destruct (spec_find b t). split_and!; [done..|apply redrawn_same].
  - unfold spec_sync. destruct (position (Z.shiftr n 16) (shown t) ≫= (shown t !!.)) as [a|]; [|split_and!; [done..|apply redrawn_same]].
    destruct (position (Z.land n 0xFFFF) (shown t)) as [k|]; [|split_and!; [done..|apply redrawn_same]].
    destruct (shown t !! k) as [b|] eqn:Ek; [|split_and!; [done..|apply redrawn_same]]. pose proof (places_lookup t k b Ht Ek).
    split_and!; [by apply Forall_insert|done|by apply draw_redrawn].
  - split_and!; [|done|by apply tick_redrawn]. apply Forall_fmap. eapply list.Forall_impl; [exact Ht|]. intros b Hb. cbn. unfold tick. by destruct (expires b).
Qed.

(** * A program that draws

    A call of [vidmap] that is served stores and returns the address of a page;
    the program may then load from it and store to it, and as long as it prints
    nothing it finds there what it stored.  In [unmapped] the page is not mapped
    yet, and the world already tells what is on it. *)
Class Displays (St : Type) `{Promises St} `{!Probes St} : Type := {
  video_page : Z;
  unmapped : St → world → Prop;
  video_page_ok : _128_MB_SIZE + FOUR_MB_SIZE <= video_page < 2 ^ 31;
  map_video st w a : unmapped st w → user_buf a 4 → ∃ m, gives sees (ece391_vidmap a st) video_page (with_wmem m w) ∧
    only_in a (a + 4) (w_mem w) m ∧ load32 m a = video_page;
  screen_seen st w x : sees st w → w_out w = [] → on_page video_page x = true → user st x = Some (w_mem w x);
  draw_seen st w x v : sees st w → w_out w = [] → on_page video_page x = true →
    ∃ st', poke x v st = Done st' ∧ sees st' (with_wmem (store8 (w_mem w) x v) w) }.

Section drawing.
Context `{Promises St} `{!Probes St} `{!Displays St}.

Definition page_of (m : mem) : mem := λ x, if on_page video_page x then m x else -1.
Definition off_screen (m m' : mem) : Prop := ∀ x, on_page video_page x = false → m' x = m x.
(** The list of the program is that of [t], and so is the screen. *)
Record showing (w : world) (bl : blinks) (t : animation) : Prop := Showing {
  sh_silent : w_out w = [];
  sh_list : represents (set_video (page_of (w_mem w)) bl) t;
  sh_places : places t;
  sh_base : base t = video_page }.

Lemma user_off_page a n x : user_buf a n → a <= x < a + n → on_page video_page x = false.
Proof.
  intros (H1 & H2 & H3) Hx. pose proof video_page_ok. unfold on_page. rewrite (proj2 (Z.leb_gt _ _)) by lia. done.
Qed.
Lemma page_of_same m m' : (∀ x, on_page video_page x = true → m' x = m x) → page_of m' = page_of m.
Proof. intros Hm. apply functional_extensionality. intros x. unfold page_of. destruct (on_page video_page x) eqn:E; [by apply Hm|done]. Qed.
Lemma showing_kept w w' bl t : showing w bl t → w_out w' = [] → (∀ x, on_page video_page x = true → w_mem w' x = w_mem w x) → showing w' bl t.
Proof. intros [S1 S2 S3 S4] Ho Hm. split; try done. by rewrite (page_of_same _ _ Hm). Qed.
Lemma showing_screen w bl t : showing w bl t → vmem_base_addr bl = video_page ∧ screen t = page_of (w_mem w).
Proof. intros [_ [ns S] _ Sb]. split; [rewrite <- Sb; exact (re_base _ _ _ S)|symmetry; exact (re_video _ _ _ S)]. Qed.

Lemma store_list_ok w v v' l : w_out w = [] → NoDup l → ∀ st m, sees st (with_wmem m w) →
  (∀ x, x ∈ l → on_page video_page x = true ∧ v x = m x ∧ (v' x = v x ∨ is_u8 (v' x))) →
  ∃ st' m', foldl (store_change v v') (Done st) l = Done st' ∧ sees st' (with_wmem m' w) ∧
    (∀ x, x ∈ l → m' x = v' x) ∧ ∀ x, x ∉ l → m' x = m x.
Proof.
  intros Ho. induction l as [|a l IH]; intros Hn st m Hs Hl; cbn [foldl].
  - exists st, m. split_and!; try done. by intros x Hx%not_elem_of_nil.
  - apply list.NoDup_cons in Hn as [Ha Hn]. destruct (Hl a (list_elem_of_here _ _)) as (Hp & Hv & Hu). unfold store_change at 2. rewrite bind_Done.
    assert (Hone : ∃ st1 m1, (if v' a =? v a then Done st else poke a (v' a) st) = Done st1 ∧ sees st1 (with_wmem m1 w) ∧ m1 a = v' a ∧ ∀ x, x ≠ a → m1 x = m x).
    { destruct (Z.eqb_spec (v' a) (v a)) as [E|E]; [exists st, m; split_and!; congruence|]. destruct Hu as [|Hu]; [done|].
      destruct (draw_seen st _ a (v' a) Hs Ho Hp) as (st1 & E1 & Hs1). eexists st1, _. split; [exact E1|]. split; [exact Hs1|]. cbn [w_mem with_wmem].
      unfold store8, upd. split; [rewrite Z.eqb_refl; by apply u8_id|]. intros x Hx. by rewrite (proj2 (Z.eqb_neq _ _)). }
    destruct Hone as (st1 & m1 & -> & Hs1 & E1 & O1). destruct (IH Hn st1 m1 Hs1) as (st2 & m2 & E2 & Hs2 & I2 & O2).
    { intros x Hx. destruct (Hl x (list_elem_of_further _ _ _ Hx)) as (? & ? & ?). rewrite O1 by (intros ->; done). done. }
    exists st2, m2. split; [exact E2|]. split; [exact Hs2|]. split.
    + intros x [-> |Hx]%elem_of_cons; [by rewrite O2|by apply I2].
    + intros x [Hx Hx']%not_elem_of_cons. by rewrite O2, O1.
Qed.
Lemma page_list x : x ∈ seqZ video_page FOUR_KB_SIZE ↔ on_page video_page x = true.
Proof. rewrite elem_of_seqZ. unfold on_page. rewrite andb_true_iff, Z.leb_le, Z.ltb_lt. done. Qed.

(** The characters are drawn on the page, and nothing else changes. *)
Lemma drawing_ok {A} (f : blinks → out (A * blinks)) st w bl t a bl' t' : sees st w → showing w bl t →
  f (set_video (page_of (w_mem w)) bl) = Done (a, bl') → represents bl' t' → places t' → base t' = base t → redrawn (base t) (screen t) (screen t') →
  ∃ st' m, drawing f (st, bl) = Done (a, (st', bl')) ∧ sees st' (with_wmem m w) ∧ off_screen (w_mem w) m ∧ showing (with_wmem m w) bl' t'.
Proof.
  intros Hs Hsh Hf Hr Hp Hb Hd. destruct (showing_screen w bl t Hsh) as [Eb Es]. rewrite (sh_base _ _ _ Hsh) in Hb, Hd. unfold drawing. rewrite Eb.
  assert (Ev : screen_at video_page st = page_of (w_mem w)).
  { apply functional_extensionality. intros x. unfold screen_at, page_of. destruct (on_page video_page x) eqn:E; [|done].
    by rewrite (screen_seen st w x Hs (sh_silent _ _ _ Hsh) E). }
  rewrite Ev, Hf, bind_Done. destruct Hr as [ns Hr]. rewrite (re_base _ _ _ Hr), Hb, (re_video _ _ _ Hr).
  destruct (store_list_ok w (page_of (w_mem w)) (screen t') (seqZ video_page FOUR_KB_SIZE) (sh_silent _ _ _ Hsh) (NoDup_seqZ _ _) st (w_mem w))
    as (st' & m & E & Hs' & Hin & Hout); [by rewrite with_wmem_id| |].
  { intros x Hx%page_list. split; [done|]. unfold page_of at 1. rewrite Hx. split; [done|]. rewrite <- Es. destruct (Hd x) as [?|[_ ?]]; [by left|by right]. }
  unfold store_changes. rewrite E, bind_Done. exists st', m. split; [done|]. split; [done|].
  assert (Hoff : off_screen (w_mem w) m) by (intros x Hx; apply Hout; rewrite page_list, Hx; done). split; [done|].
  assert (Em : page_of m = screen t').
  { apply functional_extensionality. intros x. unfold page_of. destruct (on_page video_page x) eqn:Ex; [by apply Hin, page_list|].
    destruct (Hd x) as [->|[Hx _]]; [|congruence]. rewrite Es. unfold page_of. by rewrite Ex. }
  split; [apply Hsh| |done|done]. cbn [w_mem with_wmem]. rewrite Em, <- (re_video _ _ _ Hr). exists ns. by destruct bl'.
Qed.
Lemma command_ok c st w bl t : sees st w → showing w bl t → placed c → ∃ r st' m bl', drawing (perform c) (st, bl) = Done (r, (st', bl')) ∧
  sees st' (with_wmem m w) ∧ off_screen (w_mem w) m ∧ showing (with_wmem m w) bl' (spec_perform c t).2.
Proof.
  intros Hs Hsh Hc. destruct (perform_ok c _ t (sh_list _ _ _ Hsh) Hc) as (r & a & bl' & t' & E & Et & Hr).
  destruct (spec_perform_draws c t (sh_places _ _ _ Hsh) Hc) as (Hp & Hb & Hd). rewrite Et in *. cbn [snd] in *.
  destruct (drawing_ok (perform c) st w bl t (r, a) bl' t' Hs Hsh E Hr Hp Hb Hd) as (st' & m & Ed & Hs' & Ho & Hsh'). by exists (r, a), st', m, bl'.
Qed.
Lemma add_drawn b st w bl t : sees st w → showing w bl t → placed (Add b) → ∃ r st' m bl',
  drawing (mp1_ioctl (Pointer b) RTC_ADD) (st, bl) = Done (r, (st', bl')) ∧
  sees st' (with_wmem m w) ∧ off_screen (w_mem w) m ∧ showing (with_wmem m w) bl' (drawn [b] t).
Proof.
  intros Hs Hsh Hb. destruct (command_ok (Add b) st w bl t Hs Hsh Hb) as (r & st' & m & bl' & E & Hs' & Ho & Hsh').
  exists r, st', m, bl'. split; [exact E|]. split; [done|]. split; [done|]. unfold drawn. cbn [fmap list_fmap spec_performs].
  by destruct (spec_perform (Add b) t).
Qed.
End drawing.

Section reading.
Context `{Refuses St} `{!Displays St}.
Context (a0 a1 : Z) (Ha0 : user_buf a0 1) (Ha1 : user_buf a1 1) (Hne : a0 ≠ a1).

(** The descriptor of a text: open where the reading has come to, or closed
    after the end. *)
Definition feeds (c : list Z) (x : source) (d : desc) : Prop :=
  (d = File c (Z.of_nat (length c) - Z.of_nat (length (rest x))) ∧ rest x `suffix_of` c) ∨ (d = Closed ∧ ch x = 10 ∧ eof x = 1).

Lemma suffix_drop (l c : list Z) : l `suffix_of` c → drop (Z.to_nat (Z.of_nat (length c) - Z.of_nat (length l))) c = l.
Proof.
  intros [k ->]. rewrite length_app. replace (Z.to_nat _) with (length k) by lia. apply drop_app_length.
Qed.

Lemma read_char_ok st w a fd c x d : sees st w → user_buf a 1 → zget (w_fds w) fd = Some d → w_mem w a = ch x → feeds c x d →
  ∃ st' w' d', read_char fd a (eof x) st = Done (eof (read_source x), st') ∧ sees st' w' ∧ feeds c (read_source x) d' ∧
    w_fds w' = <[Z.to_nat fd := d']> (w_fds w) ∧ w_mem w' a = ch (read_source x) ∧ (∀ y, y ≠ a → w_mem w' y = w_mem w y) ∧
    w_next w' = w_next w ∧ w_out w' = w_out w.
Proof.
  intros Hs Ha Hd Hm Hf. pose proof Ha as (A1 & A2 & A3). unfold read_char, peek. rewrite (user_seen st w a Hs Ha). cbn [must]. rewrite bind_Done, Hm.
  unfold read_source. destruct (Z.eqb_spec (ch x) 10) as [E|E]; cbn [negb].
  - exists st, w, d. split_and!; try done. symmetry. apply list_insert_id. by apply zget_Some in Hd as [_ Hd].
  - destruct Hf as [[-> Hsuf]|(_ & ? & _)]; [|done].
    destruct (read_file st w fd c _ a 1 Hs Hd Ha ltac:(lia)) as (st1 & -> & Hs1). rewrite bind_Done. rewrite (suffix_drop _ _ Hsuf) in Hs1 |- *.
    destruct (rest x) as [|v l] eqn:Er.
    + cbn [take length Z.to_nat]. change (take (Z.to_nat 1) []) with (@nil Z) in *. cbn [length] in *. change (Z.of_nat 0 =? 0) with true. cbv iota.
      destruct (poke_seen st1 _ a 10 Hs1 Ha) as (st2 & -> & Hs2). rewrite bind_Done. eexists st2, _, _. split; [done|]. split; [exact Hs2|]. split_and!; try done.
      * left. split; [|by apply suffix_nil]. cbn [rest length]. f_equal. lia.
      * cbn. unfold store8, upd. by rewrite Z.eqb_refl.
      * intros y Hy. cbn. unfold store8, upd. rewrite (proj2 (Z.eqb_neq _ _)) by done. apply blit_out. cbn. lia.
    + change (take (Z.to_nat 1) (v :: l)) with [v] in *. cbn [length] in *. change (Z.of_nat 1 =? 0) with false. cbv iota.
      eexists st1, _, _. split; [done|]. split; [exact Hs1|]. split_and!; try done.
      * left. split; [cbn [rest]; f_equal; lia|]. cbn [rest]. by apply (suffix_cons_l _ _ v).
      * cbn. replace a with (a + 0) at 2 by lia. by apply blit_in.
      * intros y Hy. cbn. apply blit_out. cbn. lia.
Qed.

(** Two texts at once. *)
Context (w0 : world) (c0 c1 : list Z) (fd0 fd1 : Z) (Hfd0 : 2 <= fd0 < 8) (Hfd1 : 2 <= fd1 < 8) (Hfds : fd0 ≠ fd1).
Record pair_world (x0 x1 : source) (w : world) : Prop := PairWorld {
  pw_0 : w_mem w a0 = ch x0;
  pw_1 : w_mem w a1 = ch x1;
  pw_mem y : y ≠ a0 → y ≠ a1 → on_page video_page y = false → w_mem w y = w_mem w0 y;
  pw_feeds0 : ∃ d, zget (w_fds w) fd0 = Some d ∧ feeds c0 x0 d;
  pw_feeds1 : ∃ d, zget (w_fds w) fd1 = Some d ∧ feeds c1 x1 d;
  pw_fds fd : fd ≠ fd0 → fd ≠ fd1 → zget (w_fds w) fd = zget (w_fds w0) fd;
  pw_next : w_next w = w_next w0;
  pw_out : w_out w = w_out w0 }.

Lemma read_both st w x0 x1 : sees st w → pair_world x0 x1 w →
  ∃ st1 st2 w2, read_char fd0 a0 (eof x0) st = Done (eof (read_source x0), st1) ∧ read_char fd1 a1 (eof x1) st1 = Done (eof (read_source x1), st2) ∧
    sees st2 w2 ∧ pair_world (read_source x0) (read_source x1) w2 ∧ ∀ y, y ≠ a0 → y ≠ a1 → w_mem w2 y = w_mem w y.
Proof.
  intros Hs [P0 P1 Pm (d0 & Hd0 & F0) (d1 & Hd1 & F1) Pf Pn Po]. pose proof (sees_descs st w Hs) as L.
  destruct (read_char_ok st w a0 fd0 c0 x0 d0 Hs Ha0 Hd0 P0 F0) as (st1 & w1 & d0' & R1 & Hs1 & F0' & E1 & M1 & O1 & N1 & U1).
  assert (Hd1' : zget (w_fds w1) fd1 = Some d1) by (rewrite E1, zget_insert_ne by lia; done).
  assert (P1' : w_mem w1 a1 = ch x1) by (rewrite O1 by done; done).
  destruct (read_char_ok st1 w1 a1 fd1 c1 x1 d1 Hs1 Ha1 Hd1' P1' F1) as (st2 & w2 & d1' & R2 & Hs2 & F1' & E2 & M2 & O2 & N2 & U2).
  exists st1, st2, w2. split; [done|]. split; [done|]. split; [done|]. split; [|intros y H0' H1'; by rewrite O2, O1 by done]. split; try done.
  - rewrite O2 by done. done.
  - intros y H0' H1' Hy. rewrite O2, O1 by done. by apply Pm.
  - exists d0'. split; [|done]. rewrite E2, zget_insert_ne by lia. rewrite E1. apply zget_insert_eq. lia.
  - exists d1'. split; [|done]. rewrite E2, E1. apply zget_insert_eq. rewrite length_insert. lia.
  - intros fd G0 G1. rewrite E2, E1, !zget_insert_ne by (done || lia). by apply Pf.
  - congruence.
  - congruence.
Qed.

(** Storing to the locals and drawing on the screen are apart. *)
Lemma locals_kept w w' bl t : showing w bl t → w_out w' = w_out w → (∀ y, y ≠ a0 → y ≠ a1 → w_mem w' y = w_mem w y) → showing w' bl t.
Proof.
  intros Hsh Ho Hm. apply (showing_kept w); [done|by rewrite Ho, (sh_silent _ _ _ Hsh)|]. intros x Hx. apply Hm; intros ->.
  - by rewrite (user_off_page a0 1 a0 Ha0) in Hx by lia.
  - by rewrite (user_off_page a1 1 a1 Ha1) in Hx by lia.
Qed.
Lemma pair_drawn x0 x1 w m : pair_world x0 x1 w → off_screen (w_mem w) m → pair_world x0 x1 (with_wmem m w).
Proof.
  intros [P0 P1 Pm F0 F1 Pf Pn Po] Ho. split; try done; cbn [w_mem with_wmem].
  - rewrite Ho by (apply (user_off_page a0 1); [done|lia]). done.
  - rewrite Ho by (apply (user_off_page a1 1); [done|lia]). done.
  - intros y Y0 Y1 Y2. rewrite Ho by done. by apply Pm.
Qed.

Context (blink_struct : mp1_blink_struct).
(** The loop over the columns ends when both lines have ended. *)
Lemma col_walk row n : ∀ x0 x1 col st w bl t, n = (length (line_left x0) `max` length (line_left x1))%nat →
  sees st w → pair_world x0 x1 w → showing w bl t → Forall placed (Add <$> row_pixels blink_struct row col (line_left x0) (line_left x1)) →
  ∃ st' w' bl', iterate (col_step a0 a1 blink_struct fd0 fd1 row) (S n) (col, eof x0, eof x1, st, bl) =
      inr (Done (eof (at_end x0), eof (at_end x1), st', bl')) ∧
    sees st' w' ∧ pair_world (at_end x0) (at_end x1) w' ∧ showing w' bl' (drawn (row_pixels blink_struct row col (line_left x0) (line_left x1)) t).
Proof.
  induction n as [|n IH]; intros x0 x1 col st w bl t Hn Hs Hw Hr Hp;
    destruct (read_both st w x0 x1 Hs Hw) as (st1 & st2 & w2 & E1 & E2 & Hs2 & Hw2 & Hm2); cbn [iterate]; unfold col_step at 1;
    (apply (locals_kept w w2) in Hr; [|by rewrite (pw_out _ _ _ Hw2), (pw_out _ _ _ Hw)|exact Hm2]);
    rewrite E1; cbn [during]; rewrite E2; cbn [during]; rewrite (peek_seen st2 w2 a0 Hs2 Ha0), (peek_seen st2 w2 a1 Hs2 Ha1); cbn [during];
    rewrite (pw_0 _ _ _ Hw2), (pw_1 _ _ _ Hw2).
  - destruct (line_left x0) as [|] eqn:L0, (line_left x1) as [|] eqn:L1; try (cbn in Hn; lia).
    assert (S0 : ch (read_source x0) = 10) by by apply read_stops. assert (S1 : ch (read_source x1) = 10) by by apply read_stops.
    rewrite S0, S1. change ((10 =? 10) && (10 =? 10)) with true. cbv iota.
    rewrite <- (read_at_end x0), <- (read_at_end x1), !at_end_done by done. by exists st2, w2, bl.
  - assert (Hsome : line_left x0 ≠ [] ∨ line_left x1 ≠ []) by (destruct (line_left x0), (line_left x1); cbn in Hn; [lia|by right|by left|by left]).
    assert (Hgo : (ch (read_source x0) =? 10) && (ch (read_source x1) =? 10) = false).
    { destruct (Z.eqb_spec (ch (read_source x0)) 10) as [G0|], (Z.eqb_spec (ch (read_source x1)) 10) as [G1|]; try done.
      apply read_stops in G0, G1. destruct Hsome; done. }
    rewrite Hgo. rewrite (row_pixels_step blink_struct row col) in Hp |- * by done. rewrite <- (read_ch x0), <- (read_ch x1), <- !read_line_left in *.
    rewrite fmap_app in Hp. apply list.Forall_app in Hp as [Hp1 Hp2]. rewrite drawn_app.
    assert (Hn' : n = (length (line_left (read_source x0)) `max` length (line_left (read_source x1)))%nat).
    { rewrite !read_line_left. destruct (line_left x0), (line_left x1); cbn in Hn |- *; lia. }
    unfold pixel in *. destruct (visible (ch (read_source x0)) (ch (read_source x1))).
    + apply list.Forall_cons in Hp1 as [Hp1 _]. destruct (add_drawn _ st2 w2 bl t Hs2 Hr Hp1) as (r & st3 & m & bl' & -> & Hs3 & Ho3 & Hr'). cbn [during].
      rewrite <- (read_at_end x0), <- (read_at_end x1). exact (IH _ _ (col + 1) st3 _ bl' _ Hn' Hs3 (pair_drawn _ _ _ _ Hw2 Ho3) Hr' Hp2).
    + rewrite <- (read_at_end x0), <- (read_at_end x1). exact (IH _ _ (col + 1) st2 w2 bl _ Hn' Hs2 Hw2 Hr Hp2).
Qed.

(** The end of a row. *)
Lemma end_line_ok st w a fd c x d : sees st w → user_buf a 1 → 2 <= fd < 8 → zget (w_fds w) fd = Some d → feeds c x d →
  eof x = 0 ∨ eof x = 1 → ∃ st' w' d', end_line fd a (eof x) st = Done st' ∧ sees st' w' ∧ feeds c (begin_line x) d' ∧ (eof x = 1 → d' = Closed) ∧
    w_fds w' = <[Z.to_nat fd := d']> (w_fds w) ∧ w_mem w' a = ch (begin_line x) ∧ (∀ y, y ≠ a → w_mem w' y = w_mem w y) ∧
    w_next w' = w_next w ∧ w_out w' = w_out w.
Proof.
  intros Hs Ha Hfd Hd Hf He. unfold end_line, begin_line. assert (Hid : <[Z.to_nat fd := d]> (w_fds w) = w_fds w) by (apply list_insert_id; by apply zget_Some in Hd as [_ Hd]).
  assert (Hput : ∀ v y, store8 (w_mem w) a v y = if y =? a then u8 v else w_mem w y) by done.
  destruct He as [E|E]; rewrite E; cbn [negb ch].
  - change (negb (0 =? 0)) with false. cbv iota. destruct (poke_seen st w a 48 Hs Ha) as (st1 & -> & Hs1). eexists st1, _, d.
    split; [done|]. split; [exact Hs1|]. destruct Hf as [[-> Hsuf]|(_ & _ & ?)]; [|congruence]. split_and!; try done.
    + by left.
    + cbn. by rewrite Hput, Z.eqb_refl.
    + intros y Hy. cbn. by rewrite Hput, (proj2 (Z.eqb_neq _ _)).
  - change (negb (1 =? 0)) with true. cbv iota. destruct (poke_seen st w a 10 Hs Ha) as (st1 & -> & Hs1). rewrite bind_Done.
    assert (Hclose : ∃ r st2, ece391_close fd st1 = Done (r, st2) ∧ sees st2 (with_desc fd Closed (with_wmem (store8 (w_mem w) a 10) w))).
    { destruct Hf as [[-> _]|(-> & _)].
      - destruct (close_desc st1 _ fd _ Hs1 (proj1 Hfd) Hd) as (st2 & E2 & Hs2); [done|]. by exists 0, st2.
      - destruct (bad_close st1 _ fd Hs1) as (st2 & E2 & Hs2); [by left; right|]. exists (-1), st2. split; [done|].
        unfold with_desc, with_wmem in *. cbn [w_fds w_mem w_next w_out] in *. by rewrite Hid. }
    destruct Hclose as (r & st2 & -> & Hs2). rewrite bind_Done. eexists st2, _, Closed. split; [done|]. split; [exact Hs2|]. split_and!; try done.
    + by right.
    + cbn. by rewrite Hput, Z.eqb_refl.
    + intros y Hy. cbn. by rewrite Hput, (proj2 (Z.eqb_neq _ _)).
Qed.

(** Between two rows: both texts at a start, and those that have ended closed. *)
Definition between (x0 x1 : source) (w : world) : Prop :=
  pair_world x0 x1 w ∧ at_start x0 ∧ at_start x1 ∧ (eof x0 = 1 → zget (w_fds w) fd0 = Some Closed) ∧ (eof x1 = 1 → zget (w_fds w) fd1 = Some Closed).
Lemma end_both st w x0 x1 : sees st w → pair_world x0 x1 w → (eof x0 = 0 ∨ eof x0 = 1) → (eof x1 = 0 ∨ eof x1 = 1) →
  at_start (begin_line x0) → at_start (begin_line x1) →
  ∃ st1 st2 w2, end_line fd0 a0 (eof x0) st = Done st1 ∧ end_line fd1 a1 (eof x1) st1 = Done st2 ∧ sees st2 w2 ∧
    between (begin_line x0) (begin_line x1) w2 ∧ ∀ y, y ≠ a0 → y ≠ a1 → w_mem w2 y = w_mem w y.
Proof.
  intros Hs [P0 P1 Pm (d0 & Hd0 & F0) (d1 & Hd1 & F1) Pf Pn Po] B0 B1 A0 A1. pose proof (sees_descs st w Hs) as L.
  destruct (end_line_ok st w a0 fd0 c0 x0 d0 Hs Ha0 Hfd0 Hd0 F0 B0) as (st1 & w1 & d0' & R1 & Hs1 & F0' & C0 & E1 & M1 & O1 & N1 & U1).
  assert (Hd1' : zget (w_fds w1) fd1 = Some d1) by (rewrite E1, zget_insert_ne by lia; done).
  destruct (end_line_ok st1 w1 a1 fd1 c1 x1 d1 Hs1 Ha1 Hfd1 Hd1' F1 B1) as (st2 & w2 & d1' & R2 & Hs2 & F1' & C1 & E2 & M2 & O2 & N2 & U2).
  exists st1, st2, w2. split; [done|]. split; [done|]. split; [done|].
  assert (G0 : zget (w_fds w2) fd0 = Some d0') by (rewrite E2, zget_insert_ne by lia; rewrite E1; apply zget_insert_eq; lia).
  assert (G1 : zget (w_fds w2) fd1 = Some d1') by (rewrite E2, E1; apply zget_insert_eq; rewrite length_insert; lia).
  split; [split; [split; try done|split_and!; try done]|intros y K0 K1; by rewrite O2, O1 by done].
  - rewrite O2 by done. done.
  - intros y K0 K1 K2. rewrite O2, O1 by done. by apply Pm.
  - by exists d0'.
  - by exists d1'.
  - intros fd K0 K1. rewrite E2, E1, !zget_insert_ne by (done || lia). by apply Pf.
  - congruence.
  - congruence.
  - intros E. rewrite G0. f_equal. by apply C0.
  - intros E. rewrite G1. f_equal. by apply C1.
Qed.

Context (Hc0 : Z.of_nat (length c0) < 2 ^ 32) (Hc1 : Z.of_nat (length c1) < 2 ^ 32).
Lemma line_short x0 x1 w : pair_world x0 x1 w → Z.of_nat (S (length (line_left x0) `max` length (line_left x1))) <= 2 ^ 33.
Proof.
  assert (Hone : ∀ c x d, Z.of_nat (length c) < 2 ^ 32 → feeds c x d → Z.of_nat (length (line_left x)) < 2 ^ 32).
  { intros c x d Hc [[_ [k ->]]|(_ & E & _)]; unfold line_left; [|by rewrite E]. rewrite length_app in Hc.
    destruct (ch x =? 10); [cbn; lia|]. pose proof (length_cut (rest x)). lia. }
  intros [_ _ _ (d0 & _ & F0) (d1 & _ & F1) _ _ _]. pose proof (Hone c0 x0 d0 Hc0 F0). pose proof (Hone c1 x1 d1 Hc1 F1). lia.
Qed.

Lemma row_walk n : ∀ x0 x1 row st w bl t, n = (length (lines_left x0) `max` length (lines_left x1))%nat →
  sees st w → between x0 x1 w → showing w bl t → Forall placed (Add <$> pixels blink_struct row (lines_left x0) (lines_left x1)) →
  ∃ st' w' bl' y0 y1, iterate (row_step a0 a1 blink_struct fd0 fd1) (S n) (row, eof x0, eof x1, st, bl) = inr (Done (st', bl')) ∧
    sees st' w' ∧ between y0 y1 w' ∧ eof y0 = 1 ∧ eof y1 = 1 ∧ showing w' bl' (drawn (pixels blink_struct row (lines_left x0) (lines_left x1)) t).
Proof.
  induction n as [|n IH]; intros x0 x1 row st w bl t Hn Hs Hw Hr Hp; cbn [iterate]; unfold row_step at 1; destruct Hw as (Hw & A0 & A1 & C0 & C1).
  - assert (L0 : lines_left x0 = []) by (destruct (lines_left x0); [done|cbn in Hn; lia]).
    assert (L1 : lines_left x1 = []) by (destruct (lines_left x1); [done|cbn in Hn; lia]).
    assert (E0 : eof x0 = 1) by (apply (lines_end x0 A0) in L0; destruct A0 as [[? _]|[? _]]; congruence).
    assert (E1 : eof x1 = 1) by (apply (lines_end x1 A1) in L1; destruct A1 as [[? _]|[? _]]; congruence).
    rewrite E0, E1. change ((1 =? 0) || (1 =? 0)) with false. cbv iota. exists st, w, bl, x0, x1. rewrite L0, L1. split_and!; done.
  - assert (Hsome : lines_left x0 ≠ [] ∨ lines_left x1 ≠ []) by (destruct (lines_left x0), (lines_left x1); cbn in Hn; [lia|by right|by left|by left]).
    assert (Hgo : (eof x0 =? 0) || (eof x1 =? 0) = true).
    { destruct (Z.eqb_spec (eof x0) 0) as [|G0]; [done|]. destruct (Z.eqb_spec (eof x1) 0) as [|G1]; [done|].
      apply (lines_end x0 A0) in G0. apply (lines_end x1 A1) in G1. destruct Hsome; done. }
    rewrite Hgo. rewrite (pixels_step blink_struct row) in Hp |- * by done. rewrite !lines_head, !lines_tail in * by done.
    rewrite fmap_app in Hp. apply list.Forall_app in Hp as [Hp1 Hp2]. rewrite drawn_app.
    destruct (col_walk row _ x0 x1 0 st w bl t eq_refl Hs Hw Hr Hp1) as (st1 & w1 & bl1 & Ec & Hs1 & Hw1 & Hr1).
    rewrite (orun_exits _ _ _ _ Ec) by by eapply line_short. cbn [during].
    destruct (start_next x0 A0) as [S0 B0]. destruct (start_next x1 A1) as [S1 B1].
    destruct (end_both st1 w1 _ _ Hs1 Hw1 B0 B1 S0 S1) as (st2 & st3 & w3 & Ee0 & Ee1 & Hs3 & Hb3 & Hm3). rewrite Ee0. cbn [during]. rewrite Ee1. cbn [during].
    assert (Hn' : n = (length (lines_left (begin_line (at_end x0))) `max` length (lines_left (begin_line (at_end x1))))%nat).
    { rewrite <- !lines_tail by done. destruct (lines_left x0), (lines_left x1); cbn in Hn |- *; lia. }
    apply (locals_kept w1 w3) in Hr1; [|by rewrite (pw_out _ _ _ (proj1 Hb3)), (pw_out _ _ _ Hw1)|exact Hm3].
    exact (IH _ _ (row + 1) st3 w3 bl1 _ Hn' Hs3 Hb3 Hr1 Hp2).
Qed.

(** The texts are read to their ends. *)
Lemma rows_read st bl t : sees st w0 → w_mem w0 a0 = 48 → w_mem w0 a1 = 48 →
  zget (w_fds w0) fd0 = Some (File c0 0) → zget (w_fds w0) fd1 = Some (File c1 0) → showing w0 bl t →
  Forall placed (Add <$> picture blink_struct c0 c1) →
  ∃ st' w' bl', orun (row_step a0 a1 blink_struct fd0 fd1) (0, 0, 0, st, bl) = Done (st', bl') ∧ sees st' w' ∧
    w_fds w' = <[Z.to_nat fd0 := Closed]> (<[Z.to_nat fd1 := Closed]> (w_fds w0)) ∧ w_next w' = w_next w0 ∧ w_out w' = w_out w0 ∧
    (∀ y, y ≠ a0 → y ≠ a1 → on_page video_page y = false → w_mem w' y = w_mem w0 y) ∧ showing w' bl' (drawn (picture blink_struct c0 c1) t).
Proof.
  intros Hs M0 M1 D0 D1 Hr Hp. set (x0 := Source 48 c0 0). set (x1 := Source 48 c1 0).
  assert (Hb : between x0 x1 w0).
  { split_and!; [split; try done|by left|by left|done|done].
    - eexists. split; [exact D0|]. left. cbn. split; [f_equal; lia|done].
    - eexists. split; [exact D1|]. left. cbn. split; [f_equal; lia|done]. }
  destruct (row_walk _ x0 x1 0 st w0 bl t eq_refl Hs Hb Hr Hp) as (st' & w' & bl' & y0 & y1 & E & Hs' & (Hw & _ & _ & C0 & C1) & E0 & E1 & Hr').
  exists st', w', bl'. split.
  { apply (orun_exits _ _ _ _ E). unfold lines_left, x0, x1. cbn [ch rest]. change (48 =? 10) with false. cbv iota.
    pose proof (length_split c0 []). pose proof (length_split c1 []). lia. }
  split; [done|]. pose proof (sees_descs st w0 Hs) as L. pose proof (sees_descs st' w' Hs') as L'.
  split_and!; [|apply Hw|apply Hw|intros y; apply Hw|exact Hr'].
  apply list_eq. intros i. assert (Ez : ∀ l : list desc, l !! i = zget l (Z.of_nat i)) by (intros l; unfold zget; by rewrite (proj2 (Z.ltb_ge _ _)), Nat2Z.id by lia).
  rewrite !Ez. destruct (decide (Z.of_nat i = fd0)) as [->|K0]; [|destruct (decide (Z.of_nat i = fd1)) as [->|K1]].
  - rewrite zget_insert_eq by (rewrite length_insert; lia). by apply C0.
  - rewrite zget_insert_ne by lia. rewrite zget_insert_eq by lia. by apply C1.
  - rewrite !zget_insert_ne by lia. by apply Hw.
Qed.
End reading.

(** * The script of main *)

(** The commands that are given in the course of [main]. *)
Definition pause : list command := replicate WAIT Tick.
Definition closing (b : mp1_blink_struct) : list command :=
  pause ++ (Add (im_blink b) :: pause) ++ (Sync (40 * 2 ^ 16 + 540) :: pause) ++ Remove 540 :: pause.
Definition script (frames b : mp1_blink_struct) (c0 c1 : list Z) : list command := (Add <$> picture frames c0 c1) ++ closing b.
Definition after (cs : list command) (t : animation) : animation := (spec_performs cs t).2.
Lemma after_app cs1 cs2 t : after (cs1 ++ cs2) t = after cs2 (after cs1 t).
Proof. unfold after. rewrite spec_performs_app. destruct (spec_performs cs1 t) as [r1 t1]. cbn. by destruct (spec_performs cs2 t1). Qed.
Lemma after_cons c cs t : after (c :: cs) t = after cs (spec_perform c t).2.
Proof. unfold after. cbn. destruct (spec_perform c t) as [r t1]. cbn. by destruct (spec_performs cs t1). Qed.

Section main.
Context `{Refuses St} `{!Clocks St} `{!Displays St}.

(** The command [c] is given, or the commands [cs], and what is drawn is all
    that changes. *)
Definition performed (o : out (St * blinks)) (w : world) (t : animation) : Prop :=
  ∃ st m bl, o = Done (st, bl) ∧ sees st (with_wmem m w) ∧ off_screen (w_mem w) m ∧ showing (with_wmem m w) bl t.

Lemma wait_ok garbage fd n : user_buf garbage 4 → ∀ st w bl t, sees st w → zget (w_fds w) fd = Some Clock → showing w bl t →
  performed (wait garbage n fd (st, bl)) w (after (replicate n Tick) t).
Proof.
  intros Hg. induction n as [|n IH]; intros st w bl t Hs Hfd Hr; cbn [wait replicate].
  { exists st, (w_mem w), bl. rewrite with_wmem_id. split_and!; done. }
  destruct (read_clock st w fd garbage 4 Hs Hfd Hg ltac:(lia)) as (st1 & -> & Hs1). rewrite bind_Done.
  destruct (command_ok Tick st1 w bl t Hs1 Hr I) as (r & st2 & m2 & bl2 & E & Hs2 & Ho2 & Hr2).
  unfold rtc_tasklet. rewrite E, !bind_Done, after_cons.
  destruct (IH st2 _ bl2 _ Hs2 Hfd Hr2) as (st3 & m3 & bl3 & E3 & Hs3 & Ho3 & Hr3). exists st3, m3, bl3.
  split; [exact E3|]. split; [exact Hs3|]. split; [|exact Hr3]. intros x Hx. rewrite Ho3 by done. by apply Ho2.
Qed.
Lemma ioctl_wait_ok garbage fd arg cmd c : user_buf garbage 4 → placed c → perform c = mp1_ioctl arg cmd →
  ∀ st w bl t, sees st w → zget (w_fds w) fd = Some Clock → showing w bl t →
  performed (ioctl_then_wait garbage arg cmd fd (st, bl)) w (after (c :: pause) t).
Proof.
  intros Hg Hc Hcmd st w bl t Hs Hfd Hr. unfold ioctl_then_wait. rewrite <- Hcmd.
  destruct (command_ok c st w bl t Hs Hr Hc) as (r & st2 & m2 & bl2 & -> & Hs2 & Ho2 & Hr2). rewrite bind_Done, after_cons.
  destruct (wait_ok garbage fd WAIT Hg st2 _ bl2 _ Hs2 Hfd Hr2) as (st3 & m3 & bl3 & E3 & Hs3 & Ho3 & Hr3). exists st3, m3, bl3.
  split; [exact E3|]. split; [exact Hs3|]. split; [|exact Hr3]. intros x Hx. rewrite Ho3 by done. by apply Ho2.
Qed.

Context (rodata : list Z → Z) (a0 a1 vmem ret_val garbage file0 file1 lo hi : Z).
Context (Ha0 : user_buf a0 1) (Ha1 : user_buf a1 1) (Hvmem : user_buf vmem 4) (Hret : user_buf ret_val 4) (Hgarbage : user_buf garbage 4) (Hne : a0 ≠ a1).
Context (Hlocals : lo <= a0 < hi ∧ lo <= a1 < hi ∧ (lo <= vmem ∧ vmem + 4 <= hi) ∧ lo <= ret_val ∧ ret_val + 4 <= hi).
Context (w : world) (Hfds : w_fds w = fds0) (Hsilent : w_out w = []) (n0 n1 c0 c1 : list Z).
(** The names lie away from the locals. *)
Definition name_at (a : Z) (l : list Z) : Prop := string_at w a l ∧ (a + Z.of_nat (length l) + 1 <= lo ∨ hi <= a).
Context (Hrtc : name_at (rodata (lit "rtc")) (lit "rtc")) (Hclock : is_clock (lit "rtc")).
Context (Hn0 : name_at file0 n0) (Hnode0 : node_of n0 = Some (Regular c0)) (Hc0 : Z.of_nat (length c0) < 2 ^ 32).
Context (Hn1 : name_at file1 n1) (Hnode1 : node_of n1 = Some (Regular c1)) (Hc1 : Z.of_nat (length c1) < 2 ^ 32).

(** Nothing changes but the locals and the screen. *)
Definition kept (m : mem) : Prop := ∀ x, x < lo ∨ hi <= x → on_page video_page x = false → m x = w_mem w x.
Lemma name_still a l m fds next o : name_at a l → kept m → string_at (World m fds next o) a l.
Proof.
  intros [[Hp Ht Hb] Hout] Ho. split; [done|done|]. intros i v Hi. pose proof Hi as [Hr Hlt%lookup_lt_Some]%zget_Some. rewrite length_app in Hlt. cbn [length] in Hlt.
  cbn [w_mem]. rewrite Ho; [by apply Hb|lia|]. apply (user_off_page a (Z.of_nat (length l) + 1)); [done|lia].
Qed.

Lemma set_video_ok st bl : unmapped st w → ∃ st' m, mp1_set_video_mode vmem (st, bl) = Done (video_page, (st', set_vmem video_page bl)) ∧
  sees st' (with_wmem m w) ∧ kept m ∧ page_of m = page_of (w_mem w).
Proof.
  intros Hs. pose proof video_page_ok as Hv. unfold _128_MB_SIZE, FOUR_MB_SIZE in Hv. unfold mp1_set_video_mode.
  destruct (map_video st w vmem Hs Hvmem) as (m & (st1 & -> & Hs1) & Ho & Hl). rewrite bind_Done.
  rewrite (proj2 (Z.eqb_neq _ (-1))) by lia. exists st1, m. split; [|split; [exact Hs1|split]].
  - rewrite (peek32_seen st1 _ vmem Hs1 Hvmem), bind_Done. cbn [w_mem with_wmem]. by rewrite Hl.
  - intros x Hx _. apply Ho. lia.
  - apply page_of_same. intros x Hx. apply Ho. destruct (decide (vmem <= x < vmem + 4)) as [Hin|]; [|lia].
    by rewrite (user_off_page vmem 4 x Hvmem Hin) in Hx.
Qed.

(** The clock is open, and two more descriptors are free. *)
Definition clock_fds : list desc := [Stdin; Stdout; Clock; Closed; Closed; Closed; Closed; Closed].
Definition clock_world (m : mem) : world := World m clock_fds (w_next w) (w_out w).
Lemma add_frames_ok frames st m bl t : sees st (clock_world m) → kept m → showing (clock_world m) bl t →
  Forall placed (Add <$> picture frames c0 c1) →
  ∃ st' m' bl', add_frames a0 a1 frames file0 file1 (st, bl) = Done (Running (st', bl')) ∧ sees st' (clock_world m') ∧
    kept m' ∧ showing (clock_world m') bl' (drawn (picture frames c0 c1) t).
Proof.
  intros Hs Ho Hr Hp. unfold add_frames.
  destruct (poke_seen st _ a0 48 Hs Ha0) as (st1 & -> & Hs1). rewrite bind_Done. destruct (poke_seen st1 _ a1 48 Hs1 Ha1) as (st2 & -> & Hs2). rewrite bind_Done.
  unfold with_wmem, clock_world in Hs2. cbn [w_mem w_fds w_next w_out] in Hs2. set (m2 := store8 (store8 m a0 48) a1 48) in Hs2.
  assert (Hm2 : ∀ x, x ≠ a0 → x ≠ a1 → m2 x = m x) by (intros x X0 X1; unfold m2, store8, upd; by rewrite !(proj2 (Z.eqb_neq _ _))).
  assert (Ho2 : kept m2) by (intros x Hx Hx'; rewrite Hm2 by lia; by apply Ho).
  destruct (open_regular st2 _ file0 n0 c0 3 Hs2 (name_still _ _ _ _ _ _ Hn0 Ho2) Hnode0 eq_refl) as (st3 & -> & Hs3). rewrite bind_Done.
  change (3 <? 0) with false. cbv iota. unfold with_desc in Hs3. cbn [w_mem w_fds w_next w_out] in Hs3.
  destruct (open_regular st3 _ file1 n1 c1 4 Hs3 (name_still _ _ _ _ _ _ Hn1 Ho2) Hnode1 eq_refl) as (st4 & -> & Hs4). rewrite bind_Done.
  change (4 <? 0) with false. cbv iota. unfold with_desc in Hs4. cbn [w_mem w_fds w_next w_out] in Hs4. set (w4 := World m2 _ _ _) in Hs4.
  apply (locals_kept a0 a1 Ha0 Ha1 _ w4) in Hr; [|done|exact Hm2].
  destruct (rows_read a0 a1 Ha0 Ha1 Hne w4 c0 c1 3 4 ltac:(lia) ltac:(lia) ltac:(lia) frames Hc0 Hc1 st4 bl t Hs4) as (st5 & w5 & bl5 & -> & Hs5 & Ef & En & Eo & Hm & Hr5);
    [cbn; unfold m2, store8, upd; by rewrite (proj2 (Z.eqb_neq _ _)), Z.eqb_refl|cbn; unfold m2, store8, upd; by rewrite Z.eqb_refl|done|done|done|done|].
  rewrite bind_Done. assert (E5 : w5 = clock_world (w_mem w5)) by (destruct w5 as [m5 f5 x5 o5]; cbn in Ef, En, Eo |- *; by subst f5 x5 o5).
  exists st5, (w_mem w5), bl5. rewrite <- E5. split; [done|]. split; [done|]. split; [|done].
  intros x Hx Hx'. rewrite Hm by (done || lia). by apply Ho2.
Qed.

(** What [main] does once the pictures are in. *)
Lemma script_ok b st v bl t : sees st v → zget (w_fds v) 2 = Some Clock → showing v bl t →
  performed (s ← wait garbage WAIT 2 (st, bl);
    s ← ioctl_then_wait garbage (Pointer (im_blink b)) RTC_ADD 2 s;
    s ← ioctl_then_wait garbage (Number (Z.lor (Z.shiftl 40 16) (6 * 80 + 60))) RTC_SYNC 2 s;
    ioctl_then_wait garbage (Number (6 * 80 + 60)) RTC_REMOVE 2 s) v (after (closing b) t).
Proof.
  intros Hs Hfd Hr.
  destruct (wait_ok garbage 2 WAIT Hgarbage st v bl t Hs Hfd Hr) as (st1 & m1 & bl1 & -> & Hs1 & Ho1 & Hr1). rewrite bind_Done.
  destruct (ioctl_wait_ok garbage 2 (Pointer (im_blink b)) RTC_ADD (Add (im_blink b)) Hgarbage ltac:(done) ltac:(done) st1 _ bl1 _ Hs1 Hfd Hr1)
    as (st2 & m2 & bl2 & -> & Hs2 & Ho2 & Hr2). rewrite bind_Done.
  destruct (ioctl_wait_ok garbage 2 (Number (Z.lor (Z.shiftl 40 16) (6 * 80 + 60))) RTC_SYNC (Sync (40 * 2 ^ 16 + 540)) Hgarbage ltac:(done) ltac:(done)
    st2 _ bl2 _ Hs2 Hfd Hr2) as (st3 & m3 & bl3 & -> & Hs3 & Ho3 & Hr3). rewrite bind_Done.
  destruct (ioctl_wait_ok garbage 2 (Number (6 * 80 + 60)) RTC_REMOVE (Remove 540) Hgarbage ltac:(done) ltac:(done) st3 _ bl3 _ Hs3 Hfd Hr3)
    as (st4 & m4 & bl4 & -> & Hs4 & Ho4 & Hr4).
  exists st4, m4, bl4. split; [done|]. split; [exact Hs4|]. split.
  - intros x Hx. cbn [w_mem with_wmem] in *. by rewrite Ho4, Ho3, Ho2, Ho1.
  - unfold closing. by rewrite after_app, (after_app (Add (im_blink b) :: pause)), (after_app (Sync (40 * 2 ^ 16 + 540) :: pause)).
Qed.

(** The rate of the clock is set. *)
Lemma rate_set st m bl t : sees st (clock_world m) → kept m → showing (clock_world m) bl t →
  ∃ st1 r st2 st3 m3, poke32 ret_val 32 st = Done st1 ∧ ece391_write 2 ret_val 4 st1 = Done (r, st2) ∧ poke32 ret_val r st2 = Done st3 ∧
    sees st3 (clock_world m3) ∧ kept m3 ∧ showing (clock_world m3) bl t.
Proof.
  intros Hs Ho Hr.
  destruct (poke32_seen st _ ret_val 32 Hs Hret ltac:(done)) as (st1 & m1 & E1 & Hs1 & Ho1 & Hv1). unfold with_wmem, clock_world in Hs1. cbn [w_mem w_fds w_next w_out clock_world] in Hs1, Ho1.
  destruct (set_clock st1 _ 2 ret_val 5 Hs1 eq_refl Hret ltac:(lia) Hv1) as (st2 & E2 & Hs2).
  destruct (poke32_seen st2 _ ret_val 0 Hs2 Hret ltac:(done)) as (st3 & m3 & E3 & Hs3 & Ho3 & _). unfold with_wmem in Hs3. cbn [w_mem w_fds w_next w_out] in Hs3, Ho3.
  exists st1, 0, st2, st3, m3. split_and!; [done|done|done|exact Hs3| |].
  - intros x Hx Hx'. rewrite Ho3, Ho1 by lia. by apply Ho.
  - apply (showing_kept (clock_world m)); [done|done|]. intros x Hx. cbn [w_mem clock_world].
    assert (x < ret_val ∨ ret_val + 4 <= x).
    { destruct (decide (ret_val <= x < ret_val + 4)) as [Hin|]; [|lia]. by rewrite (user_off_page ret_val 4 x Hret Hin) in Hx. }
    by rewrite Ho3, Ho1.
Qed.

(** [main] gives the commands of the script. *)
Lemma fish_plays b0 b st bl : unmapped st w → mp1_list_head bl = None → Forall placed (Add <$> picture b0 c0 c1) →
  ∃ st' m bl', fish rodata a0 a1 b0 vmem ret_val garbage file0 file1 b (st, bl) = Done (0, (st', bl')) ∧
    sees st' (World m fds0 (w_next w) (w_out w)) ∧ kept m ∧
    showing (World m fds0 (w_next w) (w_out w)) bl' (after (script b0 b c0 c1) (Animation [] video_page (page_of (w_mem w)))).
Proof.
  intros Hs Hl Hp. unfold fish.
  destruct (set_video_ok st (set_array (replicate (80 * 25) zeroed) bl) Hs) as (st1 & m1 & -> & Hs1 & Ho1 & Hpage). rewrite bind_Done.
  pose proof video_page_ok as Hv. unfold _128_MB_SIZE, FOUR_MB_SIZE in Hv. rewrite (proj2 (Z.eqb_neq _ 0)) by lia. cbv iota. unfold with_wmem in Hs1. rewrite Hfds in Hs1.
  destruct (open_clock st1 _ _ _ 2 Hs1 (name_still _ _ _ _ _ _ Hrtc Ho1) Hclock eq_refl) as (st2 & -> & Hs2). rewrite bind_Done.
  unfold with_desc in Hs2. cbn [w_mem w_fds w_next w_out] in Hs2.
  assert (Hr1 : showing (clock_world m1) (set_vmem video_page (set_array (replicate (80 * 25) zeroed) bl)) (Animation [] video_page (page_of (w_mem w)))).
  { split; [done| |constructor|done]. unfold set_vmem, set_array, set_video. cbn [blink_array mp1_list_head vmem_base_addr video clock_world w_mem].
    rewrite Hl, Hpage. apply cleared_represents. }
  destruct (add_frames_ok b0 st2 m1 _ _ Hs2 Ho1 Hr1 Hp) as (st3 & m3 & bl3 & -> & Hs3 & Ho3 & Hr3). rewrite bind_Done. cbv iota.
  destruct (rate_set st3 m3 bl3 _ Hs3 Ho3 Hr3) as (st4 & r & st5 & st6 & m6 & -> & E5 & E6 & Hs6 & Ho6 & Hr6). rewrite bind_Done, E5, bind_Done, E6, bind_Done.
  destruct (script_ok b st6 _ bl3 _ Hs6 eq_refl Hr6) as (st7 & m7 & bl7 & E7 & Hs7 & Ho7 & Hr7).
  destruct (close_desc st7 _ 2 Clock Hs7 ltac:(lia) eq_refl ltac:(done)) as (st8 & E8 & Hs8).
  exists st8, m7, bl7. split; [|split; [exact Hs8|split]].
  - destruct (wait garbage WAIT 2 (st6, bl3)) as [s1| |]; [|done|done]. rewrite bind_Done in E7. rewrite bind_Done.
    destruct (ioctl_then_wait _ _ RTC_ADD _ s1) as [s2| |]; [|done|done]. rewrite bind_Done in E7. rewrite bind_Done.
    destruct (ioctl_then_wait _ _ RTC_SYNC _ s2) as [s3| |]; [|done|done]. rewrite bind_Done in E7. rewrite bind_Done. by rewrite E7, bind_Done, E8, bind_Done.
  - intros x Hx Hx'. rewrite Ho7 by done. by apply Ho6.
  - apply (showing_kept (with_wmem m7 (clock_world m6))); [|done|done]. unfold script. rewrite after_app. exact Hr7.
Qed.
End main.
