(* ===== verification/Fishing.v ===== *)
(** The fish on the kernel: a process that maps the text page into its address
    space, draws on it, waits for the clock and reads two pictures from the
    image. *)
From Stdlib Require Import String FunctionalExtensionality.
From stdpp Require Import gmap.
From S2P Require Import Prelude Memory Strings Console Filesystem Paging Pic Rtc Kernel Terminal Syscall Tables Process Sb16 Calls Linkage User Programs Userland Answers Syserr Selftest Pingpong Ticking Blink Fish.

(** * The map of the screen *)
Lemma store32_at m a v : is_u32 v → load32 (store32 m a v) a = v.
Proof.
  intros Hv. unfold load32, store32, store8, upd, u8.
  rewrite !Z.eqb_refl, !(proj2 (Z.eqb_neq _ _)) by lia.
  unfold is_u32 in Hv. Z.div_mod_to_equations. lia.
Qed.
Lemma store32_shift m m' a b v i : 0 <= i < 4 → store32 m a v (a + i) = store32 m' b v (b + i).
Proof.
  intros Hi. assert (i = 0 ∨ i = 1 ∨ i = 2 ∨ i = 3) as Hc by lia. unfold store32, store8, upd.
  repeat destruct Hc as [-> | Hc]; try subst i; rewrite ?Z.add_0_r, ?Z.eqb_refl, ?(proj2 (Z.eqb_neq _ _)) by lia; done.
Qed.
Lemma store32_only m a v : only_in a (a + 4) m (store32 m a v).
Proof. intros x Hx. unfold store32, store8, upd. by rewrite !(proj2 (Z.eqb_neq _ _)) by lia. Qed.
Lemma store32_ok m a v : mem_ok m → mem_ok (store32 m a v).
Proof. intros Hm x. unfold store32, store8, upd. repeat case_match; try apply u8_range. apply Hm. Qed.

(** What the process knows of the kernel: it is on the displayed terminal [tid],
    and while it prints nothing its world tells what is on the page of video
    memory, which [vidmap] maps for it. *)
Definition page_shared (tid : Z) (w : world) (k : kernel) : Prop := ticking w k ∧ current_terminal (k_con k) = tid ∧
  (w_out w = [] → ∀ o, 0 <= o < FOUR_KB_SIZE → w_mem w (USER_VIDEO + o) = k_mem k (VIDEO + o)).
Definition page_mapped (dir_addr table_addr vidmem_addr tid : Z) (w : world) (k : kernel) : Prop := page_shared tid w k ∧
  ∃ prog, rep dir_addr table_addr vidmem_addr (k_page k) (prog, Some TEXT_PAGE) ∧ st_ok (prog, Some TEXT_PAGE).
(** The text of [tid] is whatever is drawn. *)
Definition any_text (tid : Z) (k0 : kernel) (s0 : Z → tscreen) : Prop :=
  (∀ t, 0 <= t < 3 → ts_ok (s0 t)) ∧ ∀ t, 0 <= t < 3 → t ≠ tid → s0 t = start_text k0 t.

Lemma page_shared_clocked tid : clocked (page_shared tid).
Proof.
  split.
  - intros w w' k k' U (Ht & Hc & Hp). pose proof U as [[_ _ _ Hc'] _ _ _ _ (bs & Eo & Hm) Ha].
    split_and!; [by apply (ticking_kept w _ k)|by rewrite Hc'|]. rewrite Eo. intros [E1 E2]%app_nil o Ho.
    rewrite Ha by (right; unfold USER_VIDEO, _128_MB_SIZE, FOUR_MB_SIZE; lia). rewrite (Hm E2) by lia. by apply Hp.
  - by intros w k [H _].
  - intros w k q s ([_ Hr] & Hc & Hp) Hs. by split.
  - done.
Qed.
Lemma page_mapped_clocked dir_addr table_addr vidmem_addr tid : clocked (page_mapped dir_addr table_addr vidmem_addr tid).
Proof.
  destruct (page_shared_clocked tid) as [C1 C2 C3 C4]. split.
  - intros w w' k k' U [H1 H2]. split; [by apply (C1 w _ k)|]. by rewrite (un_page _ _ _ _ U).
  - intros w k [H _]. by apply C2.
  - intros w k q s [H1 H2] Hs. split; [by apply C3|done].
  - intros w k b [H1 H2]. split; [by apply C4|done].
Qed.
Lemma any_text_ok tid k0 s0 : any_text tid k0 s0 → ∀ t, 0 <= t < 3 → ts_ok (s0 t).
Proof. by intros [H _]. Qed.

(** The video window while it is mapped. *)
Lemma video_translation dir_addr table_addr vidmem_addr p prog o : linked dir_addr table_addr vidmem_addr →
  rep dir_addr table_addr vidmem_addr p (prog, Some TEXT_PAGE) → st_ok (prog, Some TEXT_PAGE) → 0 <= o < FOUR_KB_SIZE →
  translate dir_addr table_addr vidmem_addr p (USER_VIDEO + o) = Some (Xlat (VIDEO + o) true true).
Proof.
  intros Hlink Hrep Hst Ho. unfold FOUR_KB_SIZE in Ho. rewrite (translate_is_map _ _ _ Hlink _ _ _ Hrep Hst) by (unfold USER_VIDEO; lia). unfold address_map. cbn [fst snd].
  rewrite !(proj2 (Z.ltb_ge _ _)) by (unfold USER_VIDEO, FOUR_MB, EIGHT_MB; lia).
  assert (E1 : (USER_VIDEO + o) / FOUR_MB = 52) by (symmetry; apply (Z.div_unique _ _ _ o); unfold USER_VIDEO, FOUR_MB; lia).
  assert (E2 : (USER_VIDEO + o) / FOUR_KB = 0xD000) by (symmetry; apply (Z.div_unique _ _ _ o); unfold USER_VIDEO, FOUR_KB; lia).
  assert (E3 : (USER_VIDEO + o) mod FOUR_KB = o) by (symmetry; apply (Z.mod_unique _ _ 0xD000); unfold USER_VIDEO, FOUR_KB; lia).
  rewrite E1, E2, E3. reflexivity.
Qed.
Lemma on_page_at x : on_page USER_VIDEO x = true → ∃ o, 0 <= o < FOUR_KB_SIZE ∧ x = USER_VIDEO + o.
Proof. unfold on_page. rewrite andb_true_iff, Z.leb_le, Z.ltb_lt. intros Hx. exists (x - USER_VIDEO). lia. Qed.

Section video.
Context (dir_addr table_addr vidmem_addr magics : Z) (stack_dentry : dentry_t).
Context (typed : Z → console * Z → console * Z) (ticks : Z → nat) (child : Z → Z → kernel → out (Z * kernel)).
Context (dsp : Z → Z → Z) (DMA_Buffer magic dh : Z) (left_over : Z → Z * Z * Z → Z * Z * Z * Z * Z) (kernel_stack : list Z) (m : cpu) (s : sb).
Context (Hlink : linked dir_addr table_addr vidmem_addr).
Context (k0 : kernel) (p0 : pcb_t) (id tid : Z) (nb : nat) (a : list Z) (H0 : fresh dir_addr table_addr vidmem_addr id tid nb a k0 p0).
Context (fine : Z → bool) (Hfine : ∀ i, fine i = true → inode_ok (k_mem k0) (k_fs k0) i).

Let mapped := page_mapped dir_addr table_addr vidmem_addr tid.
#[local] Instance calls_here : Syscalls kernel := kernel_calls dir_addr table_addr vidmem_addr magics stack_dentry typed ticks child.
#[local] Instance kept_here : Promises kernel :=
  promises_ticking dir_addr table_addr vidmem_addr magics stack_dentry typed ticks child Hlink k0 p0 id tid nb a H0 fine Hfine
    (any_text tid k0) (any_text_ok tid k0) mapped (page_mapped_clocked dir_addr table_addr vidmem_addr tid).
#[local] Instance probes_here : Probes kernel :=
  kernel_probes dir_addr table_addr vidmem_addr magics stack_dentry typed ticks dsp DMA_Buffer magic dh left_over kernel_stack m s.

Let world_in := in_world dir_addr table_addr vidmem_addr id tid (k_mem k0) (k_fs k0) (any_text tid k0) nb a.
Definition sees_unmapped : kernel → world → Prop :=
  kernel_sees dir_addr table_addr vidmem_addr id tid (k_mem k0) (k_fs k0) (any_text tid k0) nb a (page_shared tid).

(** The new map leaves the program's page where it was. *)
Lemma page_world p k w : world_in (page_shared tid) p k w → world_in mapped p (with_page (map_user_video vidmem_addr (k_page k)) k) w.
Proof.
  intros [[S1 S2 S3 (win & Hrep & Hst) S5 S6] H2 H3 H4 H5 H6 H7 H8 H9 H10 H11 H12].
  pose proof (run_op_rep _ _ _ Hlink _ _ MapUserVideo Hrep Hst I) as Hrep'. pose proof (map_op_ok _ MapUserVideo I Hst) as Hst'.
  split; try done; [split; try done; by exists (Some TEXT_PAGE)|]. split; [exact H12|]. by exists (Some id).
Qed.

Lemma kernel_map_video k w x : sees_unmapped k w → user_buf x 4 →
  ∃ mw, gives sees (ece391_vidmap x k) USER_VIDEO (with_wmem mw w) ∧ only_in x (x + 4) (w_mem w) mw ∧ load32 mw x = USER_VIDEO.
Proof.
  intros [p H] Hx. exists (store32 (w_mem w) x USER_VIDEO). split; [|split; [apply store32_only|by apply store32_at]].
  pose proof (page_world p k w H) as H'. set (k' := with_page _ k) in H'. pose proof (iw_sys _ _ _ _ _ _ _ _ _ _ _ _ _ _ H') as Hsys.
  exists (set_mem (store32 (k_mem k') (user_phys id x) USER_VIDEO) k'). split.
  - change (ece391_vidmap x k) with (vidmap dir_addr table_addr vidmem_addr x k). unfold vidmap. pose proof Hx as (B1 & B2 & B3).
    rewrite (proj2 (Z.ltb_ge _ _)), (proj2 (Z.ltb_ge _ _)) by (unfold ESP_OFFSET, _128_MB_SIZE, FOUR_MB_SIZE in *; lia). cbn [orb]. fold k'.
    by rewrite (user_range _ _ _ Hlink id k' p x 4 4 Hsys Hx), bind_Done, (user_va _ _ _ Hlink id k' p x 4 Hsys Hx) by lia.
  - exists p. apply (in_world_buf dir_addr table_addr vidmem_addr id tid (k_mem k0) (k_fs k0)
      (proj2 (so_low _ _ _ _ _ _ (fr_sys _ _ _ _ _ _ _ _ _ H0))) (any_text tid k0) nb a (proj2 (fr_args _ _ _ _ _ _ _ _ _ H0))
      (proj2 (proj2 (fr_text _ _ _ _ _ _ _ _ _ H0))) mapped (cl_kept _ (page_mapped_clocked _ _ _ tid)) p k' w _ _ x 4 H' Hx).
    + apply store32_ok, (iw_bytes _ _ _ _ _ _ _ _ _ _ _ _ _ _ H).
    + apply store32_only.
    + apply store32_only.
    + intros j Hj. by apply store32_shift.
Qed.

Lemma window p k w o : world_in mapped p k w → 0 <= o < FOUR_KB_SIZE →
  translation dir_addr table_addr vidmem_addr k (USER_VIDEO + o) = Some (Xlat (VIDEO + o) true true).
Proof.
  intros H Ho. destruct (iw_devices _ _ _ _ _ _ _ _ _ _ _ _ _ _ H) as [_ (prog & Hrep & Hst)]. by apply (video_translation _ _ _ _ prog).
Qed.
Lemma kernel_screen k w x : sees k w → w_out w = [] → on_page USER_VIDEO x = true → user k x = Some (w_mem w x).
Proof.
  intros [p H] Ho (o & Hx & ->)%on_page_at. change (user k) with (user_load dir_addr table_addr vidmem_addr k). unfold user_load.
  rewrite (window p k w o H Hx). cbn. destruct (iw_devices _ _ _ _ _ _ _ _ _ _ _ _ _ _ H) as [(_ & _ & Hp) _]. by rewrite Hp.
Qed.

(** Drawing changes the text of the displayed terminal, and nothing else. *)
Lemma drawn_text p k w o v : world_in mapped p k w → w_out w = [] → 0 <= o < FOUR_KB_SIZE →
  let c := k_con (set_mem (store8 (k_mem k) (VIDEO + o) v) k) in
  ∃ s0, any_text tid k0 s0 ∧ ∀ t, 0 <= t < 3 → ∃ u, text_of c t = Some u ∧ u ≡ text_after tid s0 (w_out w) t.
Proof.
  intros H Eo Ho c. destruct (iw_devices _ _ _ _ _ _ _ _ _ _ _ _ _ _ H) as [(_ & Hcur & _) _]. rewrite Eo.
  destruct (iw_text _ _ _ _ _ _ _ _ _ _ _ _ _ _ H) as (s0 & [Hok Hs0] & Htext). rewrite Eo in Htext.
  assert (Et : ∀ u t, text_after tid u [] t = u t) by (intros u t; unfold text_after, ts_print; by case_match).
  exists (λ t, if t =? tid then abs_video c else s0 t). split; [split|].
  - intros t Ht. destruct (Z.eqb_spec t tid) as [->|]; [|by apply Hok]. destruct (Htext tid Ht) as (u & Eu & Hu). rewrite Et in Hu.
    unfold text_of in Eu. rewrite Hcur, Z.eqb_refl in Eu. injection Eu as <-. destruct Hu as (U1 & U2 & U3 & _). specialize (Hok tid Ht).
    unfold ts_ok in *. rewrite <- U1, <- U2, <- U3 in Hok. exact Hok.
  - intros t Ht Hne. rewrite (proj2 (Z.eqb_neq _ _) Hne). by apply Hs0.
  - intros t Ht. rewrite Et. unfold text_of. change (current_terminal c) with (current_terminal (k_con k)). rewrite Hcur.
    destruct (Z.eqb_spec t tid) as [->|Hne]; [by eexists|]. destruct (Htext t Ht) as (u & Eu & Hu). rewrite Et in Hu. unfold text_of in Eu.
    rewrite Hcur, (proj2 (Z.eqb_neq _ _) Hne) in Eu. change (terminal_info c) with (terminal_info (k_con k)).
    destruct (zget (terminal_info (k_con k)) t) as [i|]; [|done]. injection Eu as <-. eexists. split; [done|]. rewrite <- Hu. apply view_frame. intros o' Ho'.
    pose proof (saved_screen_at t Ht) as Es. cbn [c c_mem k_con set_mem]. change (c_mem c) with (store8 (k_mem k) (VIDEO + o) v). unfold store8, upd.
    by rewrite (proj2 (Z.eqb_neq _ _)) by (unfold FOUR_KB_SIZE, SCREEN_BYTES in *; lia).
Qed.
Lemma drawn_world p k w o v : world_in mapped p k w → w_out w = [] → 0 <= o < FOUR_KB_SIZE →
  world_in mapped p (set_mem (store8 (k_mem k) (VIDEO + o) v) k) (with_wmem (store8 (w_mem w) (USER_VIDEO + o) v) w).
Proof.
  intros H Eo Ho. pose proof (drawn_text p k w o v H Eo Ho) as Htext. pose proof (id_range _ _ _ _ _ _ (proj2 (fr_args _ _ _ _ _ _ _ _ _ H0))
    (proj2 (proj2 (fr_text _ _ _ _ _ _ _ _ _ H0))) _ _ (iw_sys _ _ _ _ _ _ _ _ _ _ _ _ _ _ H)) as Hid.
  pose proof (so_low _ _ _ _ _ _ (fr_sys _ _ _ _ _ _ _ _ _ H0)) as [Hlow _]. unfold FOUR_KB_SIZE in Ho.
  assert (Hput : ∀ mm b y, store8 mm b v y = if y =? b then u8 v else mm y) by done.
  assert (Hmem : ∀ y, FOUR_MB_SIZE <= y → store8 (k_mem k) (VIDEO + o) v y = k_mem k y).
  { intros y Hy. rewrite Hput, (proj2 (Z.eqb_neq _ _)); [done|unfold VIDEO, FOUR_MB_SIZE in *; lia]. }
  assert (Hok : ∀ mm b, mem_ok mm → mem_ok (store8 mm b v)) by (intros mm b Hmm y; rewrite Hput; case_match; [apply u8_range|apply Hmm]).
  pose proof H as [[S1 S2 S3 S4 S5 S6] H2 H3 H4 H5 H6 H7 H8 H9 H10 _ [(Ht & Hc & Hp) Hmap]].
  split; try done; cbn [k_con set_mem w_mem with_wmem].
  - assert (Hs : ∀ y, fs_addr (k_fs k) <= y < image_end (k_fs k) → store8 (k_mem k) (VIDEO + o) v y = k_mem k y) by (intros y Hy; apply Hmem; lia).
    split; [by apply (image_ok_frame (k_mem k)); [| |apply Hok, S1]|by apply (dir_ok_frame (k_mem k))|done..].
  - intros y Hy. etrans; [apply Hmem; lia|]. by apply H2.
  - intros y Hy. pose proof (user_above _ _ _ (proj2 (fr_args _ _ _ _ _ _ _ _ _ H0)) (proj2 (proj2 (fr_text _ _ _ _ _ _ _ _ _ H0))) y Hid Hy) as Hab.
    etrans; [apply Hmem; unfold EIGHT_MB_SIZE, FOUR_MB_SIZE in *; lia|]. rewrite H8 by done. destruct Hy as (Y1 & Y2 & Y3).
    rewrite Hput, (proj2 (Z.eqb_neq _ _)); [done|unfold USER_VIDEO, _128_MB_SIZE, FOUR_MB_SIZE in *; lia].
  - by apply Hok.
  - split; [|exact Hmap]. split; [done|]. split; [done|]. intros _ o' Ho'. cbn [w_mem with_wmem].
    change (k_mem (set_mem (store8 (k_mem k) (VIDEO + o) v) k)) with (store8 (k_mem k) (VIDEO + o) v). rewrite !Hput.
    destruct (Z.eqb_spec (USER_VIDEO + o') (USER_VIDEO + o)); [by rewrite (proj2 (Z.eqb_eq _ _)) by lia|].
    rewrite (proj2 (Z.eqb_neq _ _)) by lia. by apply Hp.
Qed.
Lemma kernel_draw k w x v : sees k w → w_out w = [] → on_page USER_VIDEO x = true →
  ∃ k', poke x v k = Done k' ∧ sees k' (with_wmem (store8 (w_mem w) x v) w).
Proof.
  intros [p H] Eo (o & Ho & ->)%on_page_at. change (poke (USER_VIDEO + o) v k) with (user_store dir_addr table_addr vidmem_addr (USER_VIDEO + o) v k).
  unfold user_store. rewrite (window p k w o H Ho). cbn [must]. rewrite bind_Done. cbn [x_user x_write andb x_pa].
  eexists. split; [reflexivity|]. exists p. by apply drawn_world.
Qed.
Lemma video_page_range : _128_MB_SIZE + FOUR_MB_SIZE <= USER_VIDEO < 2 ^ 31.
Proof. unfold _128_MB_SIZE, FOUR_MB_SIZE, USER_VIDEO. lia. Qed.
Definition displays_here : Displays kernel := {|
  video_page := USER_VIDEO;
  unmapped := sees_unmapped;
  video_page_ok := video_page_range;
  map_video := kernel_map_video;
  screen_seen := kernel_screen;
  draw_seen := kernel_draw |}.
End video.

(** The text of a file of the image. *)
Definition file_text (k : kernel) (name : list Z) (c : list Z) : Prop :=
  ∃ i, entry_of (k_mem k) (k_fs k) name = Some i ∧ entry_type (k_mem k) (k_fs k) i = REGULAR_FILE ∧
    inode_ok (k_mem k) (k_fs k) (entry_inode (k_mem k) (k_fs k) i) ∧ contents (k_mem k) (k_fs k) (entry_inode (k_mem k) (k_fs k) i) = c.

(** The world of the process when [main] begins, the text page in it. *)
Definition shared_page (k : kernel) : mem := λ x, if on_page USER_VIDEO x then k_mem k (VIDEO + (x - USER_VIDEO)) else -1.
Definition fish_world (id : Z) (k : kernel) : world :=
  with_wmem (λ x, if on_page USER_VIDEO x then k_mem k (VIDEO + (x - USER_VIDEO)) else k_mem k (user_phys id x)) (start_world id k).
Lemma user_off_video x : user_buf x 1 → on_page USER_VIDEO x = false.
Proof. intros (H1 & H2 & H3). unfold on_page. by rewrite (proj2 (Z.leb_gt _ _)) by (unfold USER_VIDEO, _128_MB_SIZE, FOUR_MB_SIZE in *; lia). Qed.
Lemma fish_name id k lo hi x l : name_at lo hi (start_world id k) x l → name_at lo hi (fish_world id k) x l.
Proof.
  intros [[Hp Ht Hb] Ho]. split; [|done]. split; [done|done|]. intros i v Hi. pose proof Hi as [Hr Hlt%lookup_lt_Some]%zget_Some. rewrite length_app in Hlt. cbn [length] in Hlt.
  rewrite <- (Hb i v Hi). cbn. by rewrite user_off_video by (destruct Hp as (P1 & P2 & P3); split_and!; lia).
Qed.

Section in_process.
Context (dir_addr table_addr vidmem_addr : Z) (k : kernel) (p : pcb_t) (id tid : Z) (nb : nat) (a : list Z).
Context (H : fresh dir_addr table_addr vidmem_addr id tid nb a k p) (Hrtc : rtc_ok (k_rtc k)) (Hrun : 0 <= running_terminal k < 3).
Context (Hshown : current_terminal (k_con k) = tid).

Lemma fish_starts : sees_unmapped dir_addr table_addr vidmem_addr k id tid nb a k (fish_world id k).
Proof.
  apply (fresh_sees_world _ _ _ k p id tid nb a H).
  - split; [|done]. exact (fresh_text_ok _ _ _ k p id tid nb a H).
  - intros x. case_match; apply (im_bytes _ _ (so_image _ _ _ _ _ _ (fr_sys _ _ _ _ _ _ _ _ _ H))).
  - intros x Hx. by rewrite user_off_video.
  - split; [done|]. split; [done|]. intros _ o Ho. cbn. unfold on_page. rewrite (proj2 (Z.leb_le _ _)), (proj2 (Z.ltb_lt _ _)) by lia. cbn [andb]. f_equal. lia.
Qed.

(** What [k'] shows once the process has drawn [page] on the screen: the rest
    of its memory outside the [size] bytes at [lo], the other texts and the
    image are those of [k], and its descriptors from 2 on are closed. *)
Record drew (lo size : Z) (page : mem) (k' : kernel) : Prop := Drew {
  dw_screen o : 0 <= o < FOUR_KB_SIZE → k_mem k' (VIDEO + o) = page (USER_VIDEO + o);
  dw_shown : current_terminal (k_con k') = tid;
  dw_others t : 0 <= t < 3 → t ≠ tid → ∃ s s', text_of (k_con k) t = Some s ∧ text_of (k_con k') t = Some s' ∧ s' ≡ s;
  dw_image x : fs_addr (k_fs k) <= x < image_end (k_fs k) → k_mem k' x = k_mem k x;
  dw_memory x : user_buf x 1 → x < lo ∨ lo + size <= x → k_mem k' (user_phys id x) = k_mem k (user_phys id x);
  dw_closed : ∃ p', k_pcbs k' !! get_curr_pcb k' = Some p' ∧ Forall (λ d, flags d = NOT_IN_USE) (drop 2 (files p')) }.

Lemma sees_drew k' m lo size : let w := World m fds0 (w_next (fish_world id k)) [] in
  kernel_sees dir_addr table_addr vidmem_addr id tid (k_mem k) (k_fs k) (any_text tid k) nb a (page_mapped dir_addr table_addr vidmem_addr tid) k' w →
  (∀ x, x < lo ∨ lo + size <= x → on_page USER_VIDEO x = false → m x = w_mem (fish_world id k) x) → drew lo size m k'.
Proof.
  intros w [q Hq] Hm. destruct (iw_devices _ _ _ _ _ _ _ _ _ _ _ _ _ _ Hq) as [(_ & Hc & Hp) _].
  destruct (iw_text _ _ _ _ _ _ _ _ _ _ _ _ _ _ Hq) as (s0 & [_ Hs0] & Htext). split.
  - intros o Ho. symmetry. by apply Hp.
  - done.
  - intros t Ht Hne. destruct (Htext t Ht) as (s & Es & Hs). exists (start_text k t), s.
    split_and!; [by apply (fresh_text _ _ _ k p id tid nb a H)|done|]. rewrite Hs. unfold text_after. by rewrite (proj2 (Z.eqb_neq _ _) Hne), Hs0.
  - apply (iw_image _ _ _ _ _ _ _ _ _ _ _ _ _ _ Hq).
  - intros x Hx Hout. rewrite (iw_page _ _ _ _ _ _ _ _ _ _ _ _ _ _ Hq x Hx). pose proof (user_off_video x Hx) as Hoff.
    etrans; [by apply Hm|]. cbn. by rewrite Hoff.
  - exists q. split; [apply (iw_sys _ _ _ _ _ _ _ _ _ _ _ _ _ _ Hq)|]. pose proof (Forall2_drop _ _ _ 2 (iw_fds _ _ _ _ _ _ _ _ _ _ _ _ _ _ Hq)) as Hf.
    cbn [w w_fds] in Hf. change (drop 2 fds0) with (replicate 6 Closed) in Hf. apply list.Forall_forall. intros d Hd.
    apply list_elem_of_lookup_1 in Hd as [i Hi]. destruct (Forall2_lookup_l _ _ _ _ _ Hf Hi) as (x & Hx & Hr). by apply lookup_replicate in Hx as [-> _].
Qed.
End in_process.


(** Process 1 on terminal 1, which is displayed; the pictures have characters in
    three places. *)
Definition names15 : list (list Z) := [lit "rtc"; lit "frame0.txt"; lit "frame1.txt"].
Definition text15_0 : list Z := [79; 32; 43; 10; 35].
Definition text15_1 : list Z := [43; 10; 32].
Definition kernel15 : kernel := placed_on img15 img15_fs names15.
Definition played15 : animation := after (script zeroed zeroed text15_0 text15_1) (Animation [] USER_VIDEO (shared_page kernel15)).
Lemma played15_screen :
  (λ b, (location b, on_char b, off_char b)) <$> picture zeroed text15_0 text15_1 = [(40, 79, 43); (42, 43, 32); (120, 35, 32)] ∧
  (λ l, screen played15 (USER_VIDEO + 2 * l)) <$> [40; 42; 120; 540] = [79; 43; 35; 73].
Proof. split; vm_compute; reflexivity. Qed.

Lemma names15_inode ls i : i = 0 ∨ i = 1 → inode_ok (placed_mem img15 ls) img15_fs i.
Proof. intros Hi. apply (inode_ok_frame img15 (placed_mem img15 ls) img15_fs img15_ok); [apply (placed_image img15 img15_fs ls); by vm_compute|by apply img15_inode]. Qed.

