(* ===== verification/Emulate.v ===== *)
(** ece391emulate.c: the system calls of the programs under Linux.  The C
    library and Linux are parameters; the theorems say what the emulation makes
    of them: command lines are split and joined, and directories are read in
    the format of the kernel. *)
From Stdlib Require Import String.
From S2P Require Import Prelude Memory Strings Console User.

(** * Linux *)

(** How a child process ended, as [wait] reports it. *)
Inductive child_end : Type := Exited (status : Z) | Signalled (signal : Z).

(** What the code calls.  A file call gives the word the system leaves in EAX;
    pointers to library objects are numbers, and [None] is NULL. *)
Class Linux (W : Type) : Type := {
  sys_open : list Z → W → Z * W;                (* open(name, O_RDONLY) *)
  sys_read : Z → Z → W → Z * list Z * W;        (* with the bytes it stores *)
  sys_write : Z → list Z → W → Z * W;
  sys_close : Z → W → Z * W;
  open_file : list Z → W → Z * W;               (* open of the C library *)
  close_file : Z → W → W;
  opendir : list Z → W → option Z * W;
  readdir : Z → W → option (list Z) * W;        (* the name of the next entry *)
  closedir : Z → W → W;
  mmap : Z → W → option Z * W;                  (* the first megabyte of a file *)
  execv : list Z → list (list Z) → W → option child_end * W }. (* in a forked child; [None] when it fails *)

(** * The program *)
Section emulate.
Context `{Linux W}.

(** The static variables, the memory of the program and the world outside. *)
Record emu : Type := Emu { e_mem : mem; dir : option Z; dir_fd : Z; mem_fd : Z; world_of : W }.
Definition in_mem (m : mem) (s : emu) : emu := Emu m (dir s) (dir_fd s) (mem_fd s) (world_of s).
Definition in_dir (d : option Z) (fd : Z) (s : emu) : emu := Emu (e_mem s) d fd (mem_fd s) (world_of s).
Definition in_world (w : W) (s : emu) : emu := Emu (e_mem s) (dir s) (dir_fd s) (mem_fd s) w.

(** [DO_CALL]: a value above 0xFFFFC000 is an error. *)
Definition result (eax : Z) : Z := if eax <=? 0xFFFFC000 then i32 eax else -1.
Definition __ece391_read (fd buf nbytes : Z) (s : emu) : Z * emu :=
  let '(r, bs, w) := sys_read fd nbytes (world_of s) in (result r, in_world w (in_mem (blit (e_mem s) buf bs) s)).
Definition __ece391_write (fd buf nbytes : Z) (s : emu) : Z * emu :=
  let '(r, w) := sys_write fd (bytes_of (mview (e_mem s) buf) nbytes) (world_of s) in (result r, in_world w s).
Definition __ece391_close (fd : Z) (s : emu) : Z * emu :=
  let '(r, w) := sys_close fd (world_of s) in (result r, in_world w s).

(** The C string at an address. *)
Definition text_at (m : mem) (a : Z) : out (list Z) := n ← strlen (mview m a); Done (bytes_of (mview m a) n).

Definition ece391_strcpy_at (dst src : Z) (m : mem) : out mem := bs ← ece391_strcpy (mview m src); Done (blit m dst bs).

(** [for (; '\0' != *scan && ' ' != *scan && '\n' != *scan; scan++)] *)
Definition ends_word (c : Z) : bool := (c =? 0) || (c =? 32) || (c =? 10).
Definition to_word_end (m : mem) (scan : Z) : out Z := orun (λ scan, if ends_word (m scan) then inr (Done scan) else inl (scan + 1)) scan.
Definition skip_blanks (m : mem) (scan : Z) : out Z := orun (λ scan, if m scan =? 32 then inl (scan + 1) else inr (Done scan)) scan.

(** The loop that parses the arguments; [args] has 1024 elements. *)
Definition argument_step (s : Z * mem * list Z) : Z * mem * list Z + out (mem * list Z) :=
  let '(scan, m, args) := s in
  during (skip_blanks m scan) (λ scan,
  if (m scan =? 0) || (m scan =? 10) then inr (Done (store8 m scan 0, args)) else
  if negb (Z.of_nat (length args) <? 1024) then inr Undef else
  let args := args ++ [scan] in
  during (to_word_end m scan) (λ scan,
  if negb (m scan =? 0) then inl (scan + 1, store8 m scan 0, args) else inl (scan, m, args))).
Definition parse_arguments (buf : Z) (m : mem) : out (mem * list Z) :=
  scan ← to_word_end m (buf + 2);
  '(m, args) ← (if negb (m scan =? 0) then orun argument_step (scan + 1, store8 m scan 0, [buf]) else Done (m, [buf]));
  if Z.of_nat (length args) <? 1024 then Done (m, args) else Undef.

Fixpoint texts (m : mem) (args : list Z) : out (list (list Z)) :=
  match args with [] => Done [] | a :: args => t ← text_at m a; ts ← texts m args; Done (t :: ts) end.

(** [buf] is the address of the local array of 1026 bytes. *)
Definition ece391_execute (buf command : Z) (s : emu) : out (Z * emu) :=
  len ← ece391_strlen (mview (e_mem s) command);
  if 1023 <? len then Done (-1, s) else
  let m := store8 (store8 (e_mem s) buf 46) (buf + 1) 47 in
  m ← ece391_strcpy_at (buf + 2) command m;
  '(m, args) ← parse_arguments buf m;
  path ← text_at m buf; argv ← texts m args;
  let '(e, w) := execv path argv (world_of s) in
  let e := default (Signalled 9) e in
  Done (match e with Exited status => status | Signalled signal => if 9 =? signal then -1 else 256 end, in_world w (in_mem m s)).

Definition ece391_open (rodata : list Z → Z) (filename : Z) (s : emu) : out (Z * emu) :=
  r ← ece391_strcmp (mview (e_mem s) filename) (mview (e_mem s) (rodata (lit ".")));
  if 0 =? r then
    let '(d, w) := opendir (lit ".") (world_of s) in
    let '(fd, w) := open_file (lit "/dev/null") w in
    Done (fd, in_world w (in_dir d fd s))
  else
    name ← text_at (e_mem s) filename;
    let '(rval, w) := sys_open name (world_of s) in
    Done (if 0xFFFFC000 <? rval then -1 else i32 rval, in_world w s).

(** [start_esp] is where the stack began: argc, argv[0], argv[1], ... *)
Definition argument_join (start_esp argc : Z) (st : Z * Z * Z * mem) : Z * Z * Z * mem + out (Z * mem) :=
  let '(idx, buf, nbytes, m) := st in
  let last nbytes buf m := if nbytes <? 1 then inr (Done (-1, m)) else inr (Done (0, store8 m buf 0)) in
  if idx <? argc then
    let arg := load32 m (start_esp + 4 + 4 * idx) in
    during (ece391_strlen (mview m arg)) (λ len,
    if nbytes <? len then inr (Done (-1, m)) else
    during (ece391_strcpy_at buf arg m) (λ m,
    let buf := buf + len in
    let nbytes := nbytes - len in
    let idx := idx + 1 in
    if argc <=? idx then last nbytes buf m else
    if nbytes <? 1 then inr (Done (-1, m)) else
    inl (idx, buf + 1, nbytes - 1, store8 m buf 32)))
  else last nbytes buf m.
Definition ece391_getargs (start_esp buf nbytes : Z) (s : emu) : out (Z * emu) :=
  '(r, m) ← orun (argument_join start_esp (i32 (load32 (e_mem s) start_esp))) (1, buf, nbytes, e_mem s);
  Done (r, in_mem m s).

Definition ece391_vidmap (screen_start : Z) (s : emu) : Z * emu :=
  let '(fd, w) := if mem_fd s =? -1 then open_file (lit "/dev/mem") (world_of s) else (mem_fd s, world_of s) in
  let '(image, w) := mmap fd w in
  let s := Emu (e_mem s) (dir s) (dir_fd s) fd w in
  match image with
  | None => (-1, s)
  | Some image =>
      let a := u32 (image + 0xb8000) in
      (0, in_mem (blit (e_mem s) screen_start [u8 a; u8 (Z.shiftr a 8); u8 (Z.shiftr a 16); u8 (Z.shiftr a 24)]) s)
  end.

(** The copy of a name: [to], [copied] and what is left of [from]. *)
Fixpoint copy_entry (from : list Z) (nbytes to copied : Z) (m : mem) : (Z * Z * mem) + (Z * mem) :=
  match from with
  | [] => inl (to, copied, m)
  | c :: from =>
      let m := store8 m to c in
      let copied := copied + 1 in
      if copied =? nbytes then inr (nbytes, m) else if 32 =? copied then inr (32, m) else copy_entry from nbytes (to + 1) copied m
  end.
(** [while (nbytes > copied && 32 > copied)] *)
Definition clear_rest (nbytes to copied : Z) (m : mem) : Z * mem :=
  (Z.max copied (nbytes `min` 32), for_range copied (nbytes `min` 32) (λ m i, store8 m (to + (i - copied)) 0) m).
Definition is_dir (fd : Z) (s : emu) : option Z := if dir_fd s =? fd then dir s else None.
Definition ece391_read (fd buf nbytes : Z) (s : emu) : Z * emu :=
  match is_dir fd s with
  | None => __ece391_read fd buf nbytes s
  | Some d =>
      let '(de, w) := readdir d (world_of s) in
      match de with
      | None => (0, in_world w s)
      | Some name =>
          let '(r, m) := match copy_entry name nbytes buf 0 (e_mem s) with
                         | inr r => r
                         | inl (to, copied, m) => clear_rest nbytes to copied m
                         end in
          (r, in_world w (in_mem m s))
      end
  end.
Definition ece391_write (fd buf nbytes : Z) (s : emu) : Z * emu :=
  match is_dir fd s with None => __ece391_write fd buf nbytes s | Some _ => (-1, s) end.
Definition ece391_close (fd : Z) (s : emu) : Z * emu :=
  match is_dir fd s with
  | None => __ece391_close fd s
  | Some d => (0, in_dir None (-1) (in_world (close_file (dir_fd s) (closedir d (world_of s))) s))
  end.
End emulate.

(** * Command lines *)

(** The first word, and what follows it from the separator on. *)
Definition separates (c : Z) : bool := (c =? 32) || (c =? 10).
Fixpoint cut_word (l : list Z) : list Z * list Z :=
  match l with [] => ([], []) | c :: l' => if separates c then ([], l) else let '(w, r) := cut_word l' in (c :: w, r) end.
(** The words of a line: a newline in front of a word is its end. *)
Fixpoint words (cur l : list Z) : list (list Z) :=
  match l with
  | [] => if cur is [] then [] else [cur]
  | c :: l =>
      if c =? 32 then (if cur is [] then words [] l else cur :: words [] l)
      else if c =? 10 then (if cur is [] then [] else cur :: words [] l)
      else words (cur ++ [c]) l
  end.
(** The rest of a line behind the separator. *)
Definition behind (r : list Z) : list (list Z) := match r with [] => [] | _ :: r => words [] r end.
Definition arguments_of (l : list Z) : list (list Z) := behind (cut_word l).2.
Definition path_of (l : list Z) : list Z := [46; 47] ++ (cut_word l).1.

Lemma cut_eq l : l = (cut_word l).1 ++ (cut_word l).2.
Proof. induction l as [|c l IH]; [done|]. cbn. destruct (separates c); [done|]. destruct (cut_word l). cbn in *. by f_equal. Qed.
Lemma cut_sep l : match (cut_word l).2 with [] => True | c :: _ => separates c = true end.
Proof. induction l as [|c l IH]; [done|]. cbn. destruct (separates c) eqn:E; [done|]. by destruct (cut_word l). Qed.
Lemma cut_plain l : Forall (λ c, separates c = false) (cut_word l).1.
Proof. induction l as [|c l IH]; [constructor|]. cbn. destruct (separates c) eqn:E; [constructor|]. destruct (cut_word l). by constructor. Qed.
Lemma words_cut l : ∀ cur, cur ≠ [] → words cur l = (cur ++ (cut_word l).1) :: behind (cut_word l).2.
Proof.
  induction l as [|c l IH]; intros cur Hc; cbn [words cut_word]; [destruct cur; [done|by rewrite app_nil_r]|]. unfold separates.
  destruct (c =? 32); [destruct cur; [done|by rewrite app_nil_r]|]. destruct (c =? 10); [destruct cur; [done|by rewrite app_nil_r]|]. cbn [orb].
  rewrite IH by (by destruct cur). destruct (cut_word l). cbn. by rewrite <- app_assoc.
Qed.
Lemma words_blanks n l : words [] (replicate n 32 ++ l) = words [] l.
Proof. induction n as [|n IH]; [done|exact IH]. Qed.
Lemma words_first l c : head l = Some c → separates c = false → words [] l = (cut_word l).1 :: behind (cut_word l).2.
Proof.
  destruct l as [|d l]; [done|]. intros [= ->] Hc. cbn [words cut_word]. rewrite Hc. unfold separates in Hc. apply orb_false_iff in Hc as [-> ->].
  rewrite words_cut by done. by destruct (cut_word l).
Qed.
(** A line begins with blanks. *)
Lemma blanks_first l : ∃ n l', l = replicate n 32 ++ l' ∧ head l' ≠ Some 32.
Proof.
  induction l as [|c l (n & l' & -> & Hl)]; [by exists O, []|]. destruct (decide (c = 32)) as [->|Hne]; [by exists (S n), l'|].
  exists O, (c :: replicate n 32 ++ l'). split; [done|]. by intros [= ?].
Qed.

(** A string in memory. *)
Definition cstring (m : mem) (a : Z) (l : list Z) : Prop := holds m a (l ++ [0]) ∧ Forall (λ c, c ≠ 0) l.
Lemma cstring_cstr m a l : cstring m a l → is_cstr (mview m a) (Z.of_nat (length l)).
Proof.
  intros [Hb Ht]. pose proof (lview_cstr l Ht) as (H1 & H2 & H3). split_and!; [done| |].
  - unfold mview. f_equal. by apply Hb.
  - intros i Hi. destruct (H3 i Hi) as (c & Ec & Hc). exists c. split; [|done]. unfold mview. f_equal. by apply Hb.
Qed.
Lemma cstring_bytes m a l : cstring m a l → bytes_of (mview m a) (Z.of_nat (length l)) = l.
Proof. intros [[Hb _]%holds_app _]. by apply holds_bytes. Qed.
Lemma cstring_outside lo hi m m' a l : only_in lo hi m m' → a + Z.of_nat (length l) + 1 <= lo ∨ hi <= a → cstring m a l → cstring m' a l.
Proof. intros Ho Hout [Hb Ht]. split; [|done]. eapply holds_outside; [exact Ho| |done]. rewrite length_app. cbn. lia. Qed.
Lemma text_at_spec m a l : cstring m a l → Z.of_nat (length l) < 2 ^ 32 → text_at m a = Done l.
Proof. intros H Hl. unfold text_at. rewrite (strlen_spec _ _ (cstring_cstr m a l H) Hl), bind_Done. by rewrite cstring_bytes. Qed.
Lemma texts_spec m ps ws : Forall2 (cstring m) ps ws → Forall (λ w, Z.of_nat (length w) < 2 ^ 32) ws → texts m ps = Done ws.
Proof.
  induction 1 as [|p w ps ws Hp _ IH]; intros Hl; [done|]. apply list.Forall_cons in Hl as [Hw Hl]. cbn [texts].
  by rewrite (text_at_spec m p w Hp Hw), bind_Done, IH, bind_Done.
Qed.

Lemma strcpy_spec s n : is_cstr s n → n < 2 ^ 32 → ece391_strcpy s = Done (bytes_of s n ++ [0]).
Proof.
  intros (Hn & Hz & Hc) Hl. unfold ece391_strcpy.
  apply (orun_done _ (λ '(i, dst), 0 <= i <= n ∧ dst = bytes_of s i) _ (λ '(i, _), n - i)); [|split; [lia|done]|lia].
  intros [i dst] [Hi ->]. destruct (decide (i = n)) as [->|Hne]; [rewrite Hz; by change (0 =? 0) with true|].
  destruct (Hc i ltac:(lia)) as (c & Ec & Hc0). rewrite Ec, (proj2 (Z.eqb_neq 0 c)) by congruence.
  split; [|lia]. split; [lia|]. by rewrite bytes_of_snoc, Ec by lia.
Qed.
Lemma copied m a l dst : cstring m a l → Z.of_nat (length l) < 2 ^ 32 → ece391_strcpy_at dst a m = Done (blit m dst (l ++ [0])).
Proof. intros H Hl. unfold ece391_strcpy_at. by rewrite (strcpy_spec _ _ (cstring_cstr m a l H) Hl), bind_Done, cstring_bytes. Qed.

(** Walks over a string. *)
Lemma word_end m w c : ∀ a, holds m a (w ++ [c]) → Forall (λ c, ends_word c = false) w → ends_word c = true → Z.of_nat (length w) < 2 ^ 32 →
  to_word_end m a = Done (a + Z.of_nat (length w)).
Proof.
  intros a Hm Hw Hc Hl. apply (orun_exits _ (S (length w))); [|lia]. clear Hl. revert a Hm. induction Hw as [|d w Hd _ IH]; intros a Hm.
  - pose proof (Hm 0 c eq_refl) as E. rewrite Z.add_0_r in E. apply iterate_last. rewrite E, Hc. by rewrite Z.add_0_r.
  - change ((d :: w) ++ [c]) with ([d] ++ (w ++ [c])) in Hm. apply holds_app in Hm as [Hd' Hm].
    pose proof (Hd' 0 d eq_refl) as E. rewrite Z.add_0_r in E.
    etrans; [apply iterate_next; by rewrite E, Hd|]. etrans; [exact (IH (a + 1) Hm)|]. cbn [length]. do 2 f_equal. lia.
Qed.
Lemma blanks_end m n c : ∀ a, holds m a (replicate n 32 ++ [c]) → c ≠ 32 → Z.of_nat n < 2 ^ 32 → skip_blanks m a = Done (a + Z.of_nat n).
Proof.
  intros a Hm Hc Hn. apply (orun_exits _ (S n)); [|lia]. clear Hn. revert a Hm. induction n as [|n IH]; intros a Hm.
  - pose proof (Hm 0 c eq_refl) as E. rewrite Z.add_0_r in E. apply iterate_last. rewrite E, (proj2 (Z.eqb_neq _ _) Hc). by rewrite Z.add_0_r.
  - change (replicate (S n) 32 ++ [c]) with ([32] ++ (replicate n 32 ++ [c])) in Hm. apply holds_app in Hm as [Hd Hm].
    pose proof (Hd 0 32 eq_refl) as E. rewrite Z.add_0_r in E.
    etrans; [apply iterate_next; by rewrite E|]. etrans; [exact (IH (a + 1) Hm)|]. do 2 f_equal. lia.
Qed.
Lemma plain_continues w : Forall (λ c, separates c = false) w → Forall (λ c, c ≠ 0) w → Forall (λ c, ends_word c = false) w.
Proof.
  intros H1 H2. apply list.Forall_forall. intros c Hc. pose proof (proj1 (list.Forall_forall _ _) H1 c Hc) as E1. pose proof (proj1 (list.Forall_forall _ _) H2 c Hc) as E2.
  unfold ends_word, separates in *. rewrite (proj2 (Z.eqb_neq _ _) E2). exact E1.
Qed.
Lemma sep_ends c : separates c = true → ends_word c = true.
Proof. unfold ends_word, separates. intros E. rewrite <- orb_assoc, E. apply orb_true_r. Qed.
Lemma sep_nonzero c : separates c = true → c ≠ 0.
Proof. by intros E ->. Qed.

(** The strings that are cut out of a line lie in it, each with its NUL. *)
Definition cut_out (m : mem) (s : Z) (ps : list Z) (ws : list (list Z)) : Prop := Forall2 (λ p w, cstring m p w ∧ s <= p) ps ws.

Lemma cstring_app m s l1 l2 : cstring m s (l1 ++ l2) → holds m s l1 ∧ cstring m (s + Z.of_nat (length l1)) l2 ∧ Forall (λ c, c ≠ 0) l1.
Proof. intros [Hb [H1 H2]%list.Forall_app]. rewrite <- app_assoc in Hb. apply holds_app in Hb as [Hb1 Hb2]. by split_and!. Qed.
(** The character at the beginning of a string, and the NUL at its end. *)
Lemma cstring_head m s l : cstring m s l → m s = default 0 (head l) ∧ holds m s [default 0 (head l)].
Proof.
  intros [Hb _]. assert (E : m s = default 0 (head l)).
  { rewrite <- (Z.add_0_r s) at 1. apply Hb. by destruct l. }
  split; [done|]. intros i v [Hi Ev]%zget_Some. destruct (Z.to_nat i) eqn:Ei; [|done]. injection Ev as <-. by replace i with 0 by lia; rewrite Z.add_0_r.
Qed.
Lemma blanks_skipped m s b l : cstring m s (replicate b 32 ++ l) → head l ≠ Some 32 → Z.of_nat b < 2 ^ 32 → skip_blanks m s = Done (s + Z.of_nat b).
Proof.
  intros (H1 & H2 & _)%cstring_app Hl Hb. rewrite length_replicate in H2. apply cstring_head in H2 as [_ H2].
  apply (blanks_end m b (default 0 (head l))); [|destruct l as [|c l]; [done|intros E; apply Hl; cbn in E |- *; by rewrite E]|done].
  apply holds_app. by rewrite length_replicate.
Qed.

Definition ends_line (r : list Z) : Prop := r = [] ∨ head r = Some 10.
Lemma step_end m s b r args : cstring m s (replicate b 32 ++ r) → ends_line r → Z.of_nat b < 2 ^ 32 →
  argument_step (s, m, args) = inr (Done (store8 m (s + Z.of_nat b) 0, args)).
Proof.
  intros H Hr Hb. unfold argument_step. rewrite (blanks_skipped m s b r H) by (try done; by destruct Hr as [-> | ->]). cbn [during].
  destruct (cstring_app _ _ _ _ H) as (_ & H2 & _). rewrite length_replicate in H2. apply cstring_head in H2 as [E _]. rewrite E.
  by destruct Hr as [-> | ->].
Qed.
Lemma step_word m s b w r args : cstring m s (replicate b 32 ++ w ++ r) → w ≠ [] → Forall (λ c, separates c = false) w →
  match r with [] => True | c :: _ => separates c = true end → Z.of_nat b + Z.of_nat (length w) < 2 ^ 32 → Z.of_nat (length args) < 1024 →
  let a := s + Z.of_nat b in let e := a + Z.of_nat (length w) in
  argument_step (s, m, args) = inl (match r with [] => (e, m, args ++ [a]) | _ => (e + 1, store8 m e 0, args ++ [a]) end).
Proof.
  intros H Hw Hp Hr Hl Ha a e. unfold argument_step. destruct w as [|c w]; [done|]. pose proof (proj1 (list.Forall_cons_1 _ _ _ Hp)) as Hc. cbn beta in Hc.
  rewrite (blanks_skipped m s b _ H) by (first [by intros [= ->]|lia]). cbn [during]. fold a.
  destruct (cstring_app _ _ _ _ H) as (_ & H2 & _). rewrite length_replicate in H2. fold a in H2.
  pose proof (cstring_head _ _ _ H2) as [E _]. rewrite E. change (default 0 (head ((c :: w) ++ r))) with c.
  destruct (cstring_app _ _ _ _ H2) as (H3 & H4 & H5). fold e in H4. pose proof (proj1 (list.Forall_cons_1 _ _ _ H5)) as Hc0. cbn beta in Hc0.
  unfold separates in Hc. apply orb_false_iff in Hc as [_ ->]. rewrite (proj2 (Z.eqb_neq _ _) Hc0). cbn [orb]. rewrite (proj2 (Z.ltb_lt _ _) Ha). cbn [negb].
  pose proof (cstring_head _ _ _ H4) as [Ee He].
  rewrite (word_end m (c :: w) (default 0 (head r)) a); [|by apply holds_app|by apply plain_continues|by destruct r as [|d r]; [|apply sep_ends]|lia].
  cbn [during]. fold e. rewrite Ee. destruct r as [|d r]; [done|]. change (default 0 (head (d :: r))) with d. by rewrite (proj2 (Z.eqb_neq _ _) (sep_nonzero d Hr)).
Qed.

(** What the loop leaves: the words, each ended by a NUL in place. *)
Definition parsed (m m' : mem) (s n : Z) (ps : list Z) (ws : list (list Z)) : Prop :=
  only_in s (s + n + 1) m m' ∧ cut_out m' s ps ws.

(** A word with a NUL behind it. *)
Lemma word_there m m' a w : holds m a w → Forall (λ c, c ≠ 0) w → (∀ x, a <= x < a + Z.of_nat (length w) → m' x = m x) →
  m' (a + Z.of_nat (length w)) = 0 → cstring m' a w.
Proof.
  intros Hh Hw Hk Hz. split; [|done]. apply holds_app. split.
  - intros i v E. pose proof E as [Hi Hlt%lookup_lt_Some]%zget_Some. rewrite Hk by lia. by apply Hh.
  - intros i v [Hi E]%zget_Some. destruct (Z.to_nat i) eqn:Ei; [|done]. injection E as <-. replace i with 0 by lia. by rewrite Z.add_0_r.
Qed.

Lemma arguments_parsed k : ∀ l s m args, (length l < k)%nat → cstring m s l → Z.of_nat (length l) < 2 ^ 31 →
  Z.of_nat (length args + length (words [] l)) < 1024 →
  ∃ n m' ps, (n <= length l + 2)%nat ∧ iterate argument_step n (s, m, args) = inr (Done (m', args ++ ps)) ∧
    parsed m m' s (Z.of_nat (length l)) ps (words [] l).
Proof.
  induction k as [|k IH]; [lia|]. intros l s m args Hk Hm Hl Ha. destruct (blanks_first l) as (b & l1 & -> & Hl1).
  rewrite length_app, length_replicate in *. rewrite words_blanks in *.
  assert (Hend : ends_line l1 ∨ ∃ c, head l1 = Some c ∧ separates c = false).
  { destruct l1 as [|c l1]; [by left; left|]. destruct (separates c) eqn:Ec; [|by right; exists c]. left. right.
    unfold separates in Ec. apply orb_true_iff in Ec as [->%Z.eqb_eq| ->%Z.eqb_eq]; done. }
  destruct Hend as [Hend|(c & Hc & Ec)].
  - exists 1%nat, (store8 m (s + Z.of_nat b) 0), []. split; [lia|]. rewrite app_nil_r. split; [apply iterate_last, (step_end m s b l1); [done|done|lia]|].
    split; [apply only_in_upd; lia|]. destruct Hend as [-> |Hh]; [constructor|].
    destruct l1 as [|d l1]; [done|]. injection Hh as ->. constructor.
  - rewrite (words_first l1 c Hc Ec) in *. destruct (cut_word l1) as [w r] eqn:Ecut. pose proof (cut_eq l1) as E. pose proof (cut_sep l1) as Hs. pose proof (cut_plain l1) as Hp.
    rewrite Ecut in E, Hs, Hp. cbn [fst snd] in *. subst l1. rewrite length_app in *. cbn [length] in Ha.
    assert (Hw : w ≠ []) by (intros ->; destruct r as [|d r]; [done|]; injection Hc as ->; congruence).
    assert (Hw1 : (0 < length w)%nat) by (destruct w; [done|cbn; lia]).
    pose proof (step_word m s b w r args Hm Hw Hp Hs ltac:(lia) ltac:(lia)) as Estep. cbv zeta in Estep.
    set (a := s + Z.of_nat b) in *. set (e := a + Z.of_nat (length w)) in *.
    destruct (cstring_app _ _ _ _ Hm) as (_ & Hm1 & _). rewrite length_replicate in Hm1. fold a in Hm1.
    destruct (cstring_app _ _ _ _ Hm1) as (Hmw & Hmr & Hnw). fold e in Hmr.
    destruct r as [|d r].
    + exists 2%nat, (store8 m e 0), [a]. split; [lia|]. split.
      { etrans; [exact (iterate_next _ _ _ _ Estep)|]. apply iterate_last. etrans; [exact (step_end m e 0 [] _ Hmr (or_introl eq_refl) ltac:(lia))|]. by rewrite Z.add_0_r. }
      split; [apply only_in_upd; cbn; lia|]. constructor; [|constructor]. split; [|lia].
      apply (word_there m); [done|done| |]; intros; unfold store8, upd; fold e; [by rewrite (proj2 (Z.eqb_neq _ _)) by lia|by rewrite Z.eqb_refl].
    + cbn [length behind] in *. set (m1 := store8 m e 0) in *. assert (Hm2 : cstring m1 (e + 1) r).
      { apply (cstring_outside e (e + 1) m); [apply only_in_upd; lia|lia|]. change (d :: r) with ([d] ++ r) in Hmr. by apply cstring_app in Hmr as (_ & ? & _). }
      destruct (IH r (e + 1) m1 (args ++ [a]) ltac:(lia) Hm2 ltac:(lia) ltac:(rewrite length_app; cbn; lia)) as (n & m' & ps & Hn & Er & Ho & Hcut).
      exists (S n), m', (a :: ps). split; [lia|]. split.
      { etrans; [exact (iterate_next _ _ _ _ Estep)|]. rewrite Er. by rewrite <- app_assoc. }
      split.
      * apply (only_in_trans _ _ m m1 m'); [unfold m1; apply only_in_upd; lia|]. eapply only_in_weaken; [| |exact Ho]; lia.
      * constructor.
        { split; [|lia]. apply (word_there m); [done|done| |]; intros; rewrite Ho by lia; unfold m1, store8, upd; fold e;
            [by rewrite (proj2 (Z.eqb_neq _ _)) by lia|by rewrite Z.eqb_refl]. }
        eapply list.Forall2_impl; [exact Hcut|]. intros p w' [H1 H2]. split; [done|lia].
Qed.

Lemma words_count l : ∀ cur, (2 * length (words cur l) <= length l + (if cur is [] then 1 else 2))%nat.
Proof.
  induction l as [|c l IH]; intros cur; cbn [words length]; [destruct cur; cbn; lia|]. pose proof (IH []) as H0. cbn beta iota in H0.
  destruct (c =? 32); [destruct cur; cbn [length]; lia|]. destruct (c =? 10); [destruct cur; cbn [length]; lia|].
  specialize (IH (cur ++ [c])). destruct cur; cbn [app] in *; lia.
Qed.
Lemma words_short l : ∀ cur, Forall (λ w, (length w <= length cur + length l)%nat) (words cur l).
Proof.
  assert (Hmono : ∀ n k ws, (n <= k)%nat → Forall (λ w : list Z, (length w <= n)%nat) ws → Forall (λ w, (length w <= k)%nat) ws).
  { intros n k ws Hle Hw. eapply list.Forall_impl; [exact Hw|]. cbn. lia. }
  induction l as [|c l IH]; intros cur; cbn [words length]; [destruct cur; [constructor|constructor; [cbn; lia|constructor]]|].
  destruct (c =? 32).
  { destruct cur; [|constructor; [cbn; lia|]]; (eapply Hmono; [|exact (IH [])]; cbn; lia). }
  destruct (c =? 10).
  { destruct cur; [constructor|constructor; [cbn; lia|]]; (eapply Hmono; [|exact (IH [])]; cbn; lia). }
  eapply Hmono; [|exact (IH (cur ++ [c]))]. rewrite length_app. cbn. lia.
Qed.
Lemma arguments_short l : Forall (λ w, Z.of_nat (length w) <= Z.of_nat (length l) + 2) (path_of l :: arguments_of l).
Proof.
  pose proof (f_equal length (cut_eq l)) as E. rewrite length_app in E. unfold path_of, arguments_of. constructor; [rewrite length_app; cbn; lia|].
  destruct (cut_word l) as [w [|d r]]; cbn [snd fst behind length] in *; [constructor|].
  eapply list.Forall_impl; [exact (words_short r [])|]. cbn. lia.
Qed.

(** The command line is parsed in place. *)
Lemma parse_spec m buf l : cstring m buf ([46; 47] ++ l) → Z.of_nat (length l) <= 1023 →
  ∃ m' ps, parse_arguments buf m = Done (m', buf :: ps) ∧ only_in buf (buf + Z.of_nat (length l) + 3) m m' ∧ Forall2 (cstring m') (buf :: ps) (path_of l :: arguments_of l).
Proof.
  intros Hm Hl. unfold parse_arguments, path_of, arguments_of. destruct (cut_word l) as [w r] eqn:Ecut.
  pose proof (cut_eq l) as E. pose proof (cut_sep l) as Hs. pose proof (cut_plain l) as Hp. rewrite Ecut in E, Hs, Hp. cbn [fst snd] in *. subst l.
  rewrite length_app in *. destruct (cstring_app _ _ _ _ Hm) as (Hm0 & Hm1 & H0). cbn [length] in Hm1. change (Z.of_nat 2) with 2 in Hm1.
  destruct (cstring_app _ _ _ _ Hm1) as (Hmw & Hmr & Hnw). set (e := buf + 2 + Z.of_nat (length w)) in *. pose proof (cstring_head _ _ _ Hmr) as [Ee He].
  rewrite (word_end m w (default 0 (head r)) (buf + 2)); [|by apply holds_app|by apply plain_continues|by destruct r as [|d r]; [|apply sep_ends]|lia].
  rewrite bind_Done. fold e. rewrite Ee. assert (Hpath : holds m buf ([46; 47] ++ w)) by (by apply holds_app).
  assert (Hpt : Forall (λ c, c ≠ 0) ([46; 47] ++ w)) by (by apply list.Forall_app). assert (He2 : e = buf + Z.of_nat (length ([46; 47] ++ w))) by (rewrite length_app; cbn; lia).
  destruct r as [|d r].
  - change (negb (default 0 (head []) =? 0)) with false. cbv iota. rewrite bind_Done. exists m, []. split; [done|]. split; [apply only_in_refl|].
    constructor; [|constructor]. apply (word_there m); [done..|by rewrite <- He2].
  - change (default 0 (head (d :: r))) with d. rewrite (proj2 (Z.eqb_neq _ _) (sep_nonzero d Hs)). cbn [negb length behind] in *.
    set (m1 := store8 m e 0). assert (Hm2 : cstring m1 (e + 1) r).
    { apply (cstring_outside e (e + 1) m); [apply only_in_upd; lia|lia|]. change (d :: r) with ([d] ++ r) in Hmr. by apply cstring_app in Hmr as (_ & ? & _). }
    pose proof (words_count r []) as Hc. cbn beta iota in Hc. destruct (arguments_parsed _ r (e + 1) m1 [buf] (Nat.lt_succ_diag_r _) Hm2 ltac:(lia) ltac:(cbn [length]; lia))
      as (n & m' & ps & Hn & Er & Ho & Hcut).
    rewrite (orun_exits _ _ _ _ Er) by lia. rewrite bind_Done. exists m', ps. split; [|split].
    + pose proof (Forall2_length Hcut) as El. rewrite (proj2 (Z.ltb_lt _ _)); [done|]. rewrite length_app, El. cbn [length]. lia.
    + apply (only_in_trans _ _ m m1 m'); [unfold m1; apply only_in_upd; lia|]. eapply only_in_weaken; [| |exact Ho]; lia.
    + constructor; [|eapply list.Forall2_impl; [exact Hcut|]; by intros p w' [? _]].
      apply (word_there m); [done..| |]; intros; rewrite Ho by lia; unfold m1, store8, upd; [by rewrite (proj2 (Z.eqb_neq _ _)) by lia|by rewrite <- He2, Z.eqb_refl].
Qed.

(** * The calls *)
Section calls.
Context `{Linux W}.

Definition child_value (e : option child_end) : Z :=
  match e with Some (Exited status) => status | Some (Signalled g) => if 9 =? g then -1 else 256 | None => -1 end.
Lemma execute_splits s buf command l : cstring (e_mem s) command l → Z.of_nat (length l) < 2 ^ 32 →
  command + Z.of_nat (length l) + 1 <= buf ∨ buf + 1026 <= command →
  if 1023 <? Z.of_nat (length l) then ece391_execute buf command s = Done (-1, s)
  else let '(e, w) := execv (path_of l) (path_of l :: arguments_of l) (world_of s) in
    ∃ m, ece391_execute buf command s = Done (child_value e, in_world w (in_mem m s)) ∧ only_in buf (buf + 1026) (e_mem s) m.
Proof.
  intros Hc Hl Hout. unfold ece391_execute. rewrite ece391_strlen_eq, (strlen_spec _ _ (cstring_cstr _ _ _ Hc) Hl), bind_Done.
  destruct (Z.ltb_spec 1023 (Z.of_nat (length l))) as [|Hs]; [done|]. set (m0 := store8 (store8 (e_mem s) buf 46) (buf + 1) 47).
  assert (H0 : only_in buf (buf + 1026) (e_mem s) m0).
  { apply (only_in_trans _ _ _ (store8 (e_mem s) buf 46)); apply only_in_upd; lia. }
  rewrite (copied m0 command l) by (done || by apply (cstring_outside buf (buf + 1026) (e_mem s))). rewrite bind_Done.
  set (m1 := blit m0 (buf + 2) (l ++ [0])).
  assert (Hm1 : cstring m1 buf ([46; 47] ++ l)).
  { split; [|apply list.Forall_app; split; [by repeat constructor|apply Hc]]. rewrite <- app_assoc. apply holds_app. split; [|apply holds_blit].
    apply (holds_outside (buf + 2) (buf + 2 + Z.of_nat (length (l ++ [0]))) m0); [apply blit_only_in; lia|cbn; lia|].
    intros i v [Hi E]%zget_Some. unfold m0, store8, upd. assert (Z.to_nat i = 0%nat ∨ Z.to_nat i = 1%nat) as [Ei|Ei] by (apply lookup_lt_Some in E; cbn in E; lia);
      rewrite Ei in E; injection E as <-; [replace i with 0 by lia|replace i with 1 by lia]; by rewrite ?Z.eqb_refl, ?(proj2 (Z.eqb_neq _ _)), ?Z.add_0_r, ?Z.eqb_refl by lia. }
  destruct (parse_spec m1 buf l Hm1 Hs) as (m2 & ps & -> & Ho & Hps). rewrite bind_Done. cbv iota.
  assert (Hshort : Forall (λ w, Z.of_nat (length w) < 2 ^ 32) (path_of l :: arguments_of l)).
  { eapply list.Forall_impl; [exact (arguments_short l)|]. cbn. lia. }
  pose proof (proj1 (list.Forall_cons_1 _ _ _ Hshort)) as Hs1. pose proof (proj1 (proj1 (list.Forall2_cons _ _ _ _ _) Hps)) as Hp1.
  rewrite (text_at_spec m2 buf (path_of l) Hp1 Hs1), bind_Done.
  rewrite (texts_spec m2 _ _ Hps Hshort), bind_Done. destruct (execv (path_of l) (path_of l :: arguments_of l) (world_of s)) as [e w].
  exists m2. split; [by destruct e as [[]|]|].
  apply (only_in_trans _ _ _ m0); [done|]. apply (only_in_trans _ _ _ m1); [|eapply only_in_weaken; [| |exact Ho]; lia].
  apply blit_only_in; [lia|]. rewrite length_app. cbn. lia.
Qed.

(** * Arguments *)

(** The words with blanks between them. *)
Definition join (ws : list (list Z)) : list Z := match ws with [] => [] | w :: ws => w ++ concat ((λ x, 32 :: x) <$> ws) end.
Lemma join_cons w ws : ws ≠ [] → join (w :: ws) = w ++ [32] ++ join ws.
Proof. by destruct ws. Qed.

(** The arguments of a program as it is started, away from [lo] to [hi]. *)
Record passed (m : mem) (esp lo hi : Z) (argv : list (list Z)) : Prop := Passed {
  pa_count : load32 m esp = Z.of_nat (length argv);
  pa_many : Z.of_nat (length argv) < 2 ^ 31;
  pa_array : esp + 4 + 4 * Z.of_nat (length argv) <= lo ∨ hi <= esp;
  pa_texts : ∀ i w, argv !! i = Some w → let p := load32 m (esp + 4 + 4 * Z.of_nat i) in
    cstring m p w ∧ Z.of_nat (length w) < 2 ^ 31 ∧ (p + Z.of_nat (length w) + 1 <= lo ∨ hi <= p) }.

Section arguments.
Context (m0 : mem) (esp buf n : Z) (argv : list (list Z)) (Hp : passed m0 esp buf (buf + n + 1) argv).

Lemma argument_there m i w : only_in buf (buf + n + 1) m0 m → argv !! i = Some w →
  cstring m (load32 m (esp + 4 + 4 * Z.of_nat i)) w ∧ Z.of_nat (length w) < 2 ^ 31.
Proof.
  intros Ho Hi. destruct (pa_texts _ _ _ _ _ Hp i w Hi) as (Hc & Hl & Hout). pose proof (lookup_lt_Some _ _ _ Hi) as Hlt.
  assert (E : load32 m (esp + 4 + 4 * Z.of_nat i) = load32 m0 (esp + 4 + 4 * Z.of_nat i)).
  { pose proof (pa_array _ _ _ _ _ Hp). unfold load32. rewrite !Ho by lia. done. }
  rewrite E. split; [|done]. by apply (cstring_outside buf (buf + n + 1) m0).
Qed.

Lemma holds_stored m a l v : holds m a l → holds (store8 m (a + Z.of_nat (length l)) v) a (l ++ [u8 v]).
Proof.
  intros Hh. apply holds_app. split.
  - eapply (holds_outside (a + Z.of_nat (length l)) (a + Z.of_nat (length l) + 1)); [apply only_in_upd; lia|lia|done].
  - intros i x [Hi E]%zget_Some. destruct (Z.to_nat i) eqn:Ei; [|done]. injection E as <-. replace i with 0 by lia.
    unfold store8, upd. by rewrite Z.add_0_r, Z.eqb_refl.
Qed.
(** One turn of the loop. *)
Lemma argument_turn m i w b nb : only_in buf (buf + n + 1) m0 m → argv !! i = Some w →
  let m1 := blit m b (w ++ [0]) in let b1 := b + Z.of_nat (length w) in let nb1 := nb - Z.of_nat (length w) in
  argument_join esp (Z.of_nat (length argv)) (Z.of_nat i, b, nb, m) =
    if nb <? Z.of_nat (length w) then inr (Done (-1, m)) else
    if bool_decide (drop (S i) argv = []) then (if nb1 <? 1 then inr (Done (-1, m1)) else inr (Done (0, store8 m1 b1 0)))
    else if nb1 <? 1 then inr (Done (-1, m1)) else inl (Z.of_nat (S i), b1 + 1, nb1 - 1, store8 m1 b1 32).
Proof.
  intros Ho Hi m1 b1 nb1. pose proof (lookup_lt_Some _ _ _ Hi) as Hlt. destruct (argument_there m i w Ho Hi) as [Hc Hl]. unfold argument_join.
  rewrite (proj2 (Z.ltb_lt _ _)) by lia. rewrite ece391_strlen_eq, (strlen_spec _ _ (cstring_cstr _ _ _ Hc)) by lia. cbn [during].
  destruct (nb <? Z.of_nat (length w)); [done|]. rewrite (copied _ _ _ b Hc) by lia. cbn [during]. pose proof (length_drop argv (S i)) as El.
  destruct (bool_decide_reflect (drop (S i) argv = [])) as [Hr|Hr].
  - rewrite Hr in El. cbn [length] in El. by rewrite (proj2 (Z.leb_le _ _)) by lia.
  - assert (length (drop (S i) argv) ≠ 0%nat) by (by intros E%length_zero_iff_nil). rewrite (proj2 (Z.leb_gt _ _)) by lia. by replace (Z.of_nat i + 1) with (Z.of_nat (S i)) by lia.
Qed.

Lemma join_loop rest : ∀ i b nb m, drop i argv = rest → rest ≠ [] → only_in buf (buf + n + 1) m0 m → buf <= b → 0 <= nb → b + nb = buf + n →
  ∃ k r m', (k <= length rest)%nat ∧ iterate (argument_join esp (Z.of_nat (length argv))) k (Z.of_nat i, b, nb, m) = inr (Done (r, m')) ∧
    only_in b (b + nb + 1) m m' ∧
    (if Z.of_nat (length (join rest)) <? nb then r = 0 ∧ holds m' b (join rest ++ [0]) else r = -1).
Proof.
  induction rest as [|w rest IH]; intros i b nb m Hd Hne Ho Hb Hnb Hsum; [done|].
  assert (Hi : argv !! i = Some w) by (rewrite <- (Nat.add_0_r i), <- lookup_drop, Hd; done).
  assert (Hd' : drop (S i) argv = rest) by (rewrite <- Nat.add_1_r, <- drop_drop, Hd; done).
  pose proof (argument_turn m i w b nb Ho Hi) as Estep. cbv zeta in Estep. rewrite Hd' in Estep.
  set (m1 := blit m b (w ++ [0])) in *. set (b1 := b + Z.of_nat (length w)) in *.
  assert (Hw : holds m1 b w) by (pose proof (holds_blit m b (w ++ [0])) as Hh; by apply holds_app in Hh as [? _]).
  destruct (Z.ltb_spec nb (Z.of_nat (length w))) as [Hlong|Hfit].
  { exists 1%nat, (-1), m. split; [cbn; lia|]. split; [by apply iterate_last|]. split; [apply only_in_refl|].
    rewrite (proj2 (Z.ltb_ge _ _)); [done|]. unfold join. rewrite length_app. lia. }
  assert (Hout : only_in b (b + nb + 1) m m1) by (apply blit_only_in; [lia|rewrite length_app; cbn; lia]).
  destruct (bool_decide_reflect (rest = [])) as [->|Hr].
  - assert (Ej : join [w] = w) by (unfold join; cbn; by rewrite app_nil_r). rewrite Ej.
    destruct (Z.ltb_spec (nb - Z.of_nat (length w)) 1); [rewrite (proj2 (Z.ltb_ge _ _)) by lia|rewrite (proj2 (Z.ltb_lt _ _)) by lia].
    + exists 1%nat, (-1), m1. split; [cbn; lia|]. split; [by apply iterate_last|done].
    + exists 1%nat, 0, (store8 m1 b1 0). split; [cbn; lia|]. split; [by apply iterate_last|].
      split; [apply (only_in_trans _ _ m m1); [done|]; apply only_in_upd; lia|]. split; [done|]. by apply (holds_stored m1 b w 0).
  - rewrite join_cons by done. rewrite !length_app. cbn [length].
    destruct (Z.ltb_spec (nb - Z.of_nat (length w)) 1); [rewrite (proj2 (Z.ltb_ge _ _)) by lia; exists 1%nat, (-1), m1; split; [cbn; lia|]; split; [by apply iterate_last|done]|].
    set (m2 := store8 m1 b1 32) in *. pose proof (holds_stored m1 b w 32 Hw) as Hw2. fold b1 m2 in Hw2.
    assert (Ho1 : only_in b (b + nb + 1) m m2) by (apply (only_in_trans _ _ m m1); [done|]; apply only_in_upd; lia).
    destruct (IH (S i) (b1 + 1) (nb - Z.of_nat (length w) - 1) m2 Hd' Hr) as (k & r & m' & Hk & Er & Ho2 & Hres); [|lia|lia|lia|].
    { apply (only_in_trans _ _ m0 m); [done|]. eapply only_in_weaken; [| |exact Ho1]; lia. }
    exists (S k), r, m'. split; [cbn; lia|]. split; [etrans; [exact (iterate_next _ _ _ _ Estep)|done]|].
    split; [apply (only_in_trans _ _ m m2); [done|]; eapply only_in_weaken; [| |exact Ho2]; lia|].
    destruct (Z.ltb_spec (Z.of_nat (length (join rest))) (nb - Z.of_nat (length w) - 1)); [|by rewrite (proj2 (Z.ltb_ge _ _)) by lia].
    rewrite (proj2 (Z.ltb_lt _ _)) by lia. destruct Hres as [-> Hh]. split; [done|]. rewrite app_assoc, <- app_assoc. apply holds_app. rewrite length_app. cbn [length].
    split; [|by replace (b + Z.of_nat (length w + 1)) with (b1 + 1) by lia].
    eapply holds_outside; [exact Ho2| |exact Hw2]. rewrite length_app. cbn [length]. lia.
Qed.

Lemma getargs_joins (s : @emu W) : e_mem s = m0 → 0 <= n → argv ≠ [] →
  ∃ r m', ece391_getargs esp buf n s = Done (r, in_mem m' s) ∧ only_in buf (buf + n + 1) m0 m' ∧
    if Z.of_nat (length (join (tail argv))) <? n then r = 0 ∧ holds m' buf (join (tail argv) ++ [0]) else r = -1.
Proof.
  intros Es Hn Hne. unfold ece391_getargs. rewrite Es, (pa_count _ _ _ _ _ Hp).
  pose proof (pa_many _ _ _ _ _ Hp) as Hmany. rewrite i32_small by lia.
  assert (Ed : drop 1 argv = tail argv) by by destruct argv. pose proof (length_drop argv 1) as El. rewrite Ed in El.
  assert (Hl0 : length argv ≠ 0%nat) by (by intros E%length_zero_iff_nil). destruct (decide (tail argv = [])) as [Et|Ht].
  - rewrite Et in *. change (join []) with (@nil Z). change (Z.of_nat (length (@nil Z))) with 0. cbn [length] in El. replace (length argv) with 1%nat by lia.
    assert (Eb : argument_join esp (Z.of_nat 1) (1, buf, n, m0) = if n <? 1 then inr (Done (-1, m0)) else inr (Done (0, store8 m0 buf 0))) by done.
    destruct (Z.ltb_spec n 1); [rewrite (proj2 (Z.ltb_ge _ _)) by lia|rewrite (proj2 (Z.ltb_lt _ _)) by lia]; rewrite (orun_exit _ _ _ Eb), bind_Done.
    + exists (-1), m0. split; [done|]. split; [apply only_in_refl|done].
    + exists 0, (store8 m0 buf 0). split; [done|]. split; [apply only_in_upd; lia|]. split; [done|].
      pose proof (holds_stored m0 buf [] 0 (holds_nil _ _)) as Hh. by rewrite Z.add_0_r in Hh.
  - destruct (join_loop (tail argv) 1 buf n m0 Ed Ht) as (k & r & m' & Hk & Er & Ho & Hres); [apply only_in_refl|lia|lia|lia|].
    change (Z.of_nat 1) with 1 in Er. rewrite (orun_exits _ _ _ _ Er) by lia. rewrite bind_Done. by exists r, m'.
Qed.
End arguments.

(** * Directories *)
Section directory.
(** The names that a directory stream has yet to give. *)
Context (entries : Z → W → list (list Z)).
Context (Hread : ∀ d w, ∃ w', readdir d w = (head (entries d w), w') ∧ entries d w' = tail (entries d w)).

Lemma copy_entry_spec nbytes from : ∀ dst n m, 0 <= n < nbytes `min` 32 → Forall is_u8 from →
  let k := nbytes `min` 32 - n in
  if Z.of_nat (length from) <? k
  then ∃ m', copy_entry from nbytes dst n m = inl (dst + Z.of_nat (length from), n + Z.of_nat (length from), m') ∧
    only_in dst (dst + Z.of_nat (length from)) m m' ∧ holds m' dst from
  else ∃ m', copy_entry from nbytes dst n m = inr (nbytes `min` 32, m') ∧ only_in dst (dst + k) m m' ∧ holds m' dst (take (Z.to_nat k) from).
Proof.
  induction from as [|c from IH]; intros dst n m Hn Hu k.
  - cbn [length]. rewrite (proj2 (Z.ltb_lt _ _)) by lia. exists m. cbn [copy_entry]. rewrite !Z.add_0_r. split; [done|]. split; [apply only_in_refl|apply holds_nil].
  - apply list.Forall_cons in Hu as [Hc Hu]. cbn [copy_entry length]. set (m1 := store8 m dst c).
    assert (H1 : holds m1 dst [c]) by (pose proof (holds_stored m dst [] c (holds_nil _ _)) as Hh; rewrite Z.add_0_r, u8_id in Hh by done; exact Hh).
    destruct (decide (k = 1)) as [Hk|Hk].
    + rewrite (proj2 (Z.ltb_ge _ _)) by lia. exists m1. rewrite Hk. change (take (Z.to_nat 1) (c :: from)) with (c :: take 0 from). rewrite take_0.
      split; [|split; [apply only_in_upd; lia|done]].
      destruct (Z.eqb_spec (n + 1) nbytes); [by replace (nbytes `min` 32) with nbytes by lia|]. rewrite (proj2 (Z.eqb_eq 32 _)) by lia. by replace (nbytes `min` 32) with 32 by lia.
    + rewrite (proj2 (Z.eqb_neq _ _)), (proj2 (Z.eqb_neq _ _)) by lia. specialize (IH (dst + 1) (n + 1) m1 ltac:(lia) Hu). cbv zeta in IH.
      replace (nbytes `min` 32 - (n + 1)) with (k - 1) in IH by lia.
      assert (Hcons : ∀ m' l j, only_in (dst + 1) j m1 m' → holds m' (dst + 1) l → holds m' dst (c :: l)).
      { intros m' l j Ho Hl. change (c :: l) with ([c] ++ l). apply holds_app. split; [|exact Hl]. eapply holds_outside; [exact Ho|cbn; lia|done]. }
      destruct (Z.ltb_spec (Z.of_nat (length from)) (k - 1)).
      * rewrite (proj2 (Z.ltb_lt _ _)) by lia. destruct IH as (m' & E & Ho & Hh). exists m'. split; [rewrite E; do 3 f_equal; lia|]. split; [|by eapply Hcons].
        apply (only_in_trans _ _ m m1); [apply only_in_upd; lia|]. eapply only_in_weaken; [| |exact Ho]; lia.
      * rewrite (proj2 (Z.ltb_ge _ _)) by lia. destruct IH as (m' & E & Ho & Hh). exists m'. split; [exact E|]. split.
        -- apply (only_in_trans _ _ m m1); [apply only_in_upd; lia|]. eapply only_in_weaken; [| |exact Ho]; lia.
        -- replace (Z.to_nat k) with (S (Z.to_nat (k - 1))) by lia. cbn [take]. by eapply Hcons.
Qed.

Lemma clear_rest_spec nbytes dst n m : 0 <= n <= nbytes `min` 32 →
  ∃ m', clear_rest nbytes dst n m = (nbytes `min` 32, m') ∧ only_in dst (dst + (nbytes `min` 32 - n)) m m' ∧
    holds m' dst (replicate (Z.to_nat (nbytes `min` 32 - n)) 0).
Proof.
  intros Hn. unfold clear_rest. eexists. split; [f_equal; lia|].
  apply (for_range_ind (λ i m', only_in dst (dst + (nbytes `min` 32 - n)) m m' ∧ holds m' dst (replicate (Z.to_nat (i - n)) 0))).
  - lia.
  - rewrite Z.sub_diag. split; [apply only_in_refl|apply holds_nil].
  - intros i m' Hi [Ho Hh]. split; [apply (only_in_trans _ _ m m'); [done|]; apply only_in_upd; lia|].
    replace (Z.to_nat (i + 1 - n)) with (Z.to_nat (i - n) + 1)%nat by lia. rewrite replicate_add.
    pose proof (holds_stored m' dst _ 0 Hh) as Hs. rewrite length_replicate in Hs. by replace (Z.of_nat (Z.to_nat (i - n))) with (i - n) in Hs by lia.
Qed.

(** A read of a directory that is open. *)
Lemma read_directory d fd buf nbytes s name names : dir s = Some d → dir_fd s = fd → entries d (world_of s) = name :: names → Forall is_u8 name → 0 < nbytes →
  ∃ m w, ece391_read fd buf nbytes s = (nbytes `min` 32, in_world w (in_mem m s)) ∧ entries d w = names ∧
    only_in buf (buf + nbytes `min` 32) (e_mem s) m ∧ holds m buf (padded (nbytes `min` 32) name).
Proof.
  intros Hd Hf He Hu Hn. unfold ece391_read, is_dir. rewrite Hf, Z.eqb_refl, Hd. destruct (Hread d (world_of s)) as (w & Er & Ew). rewrite He in Er, Ew.
  cbn [head tail] in Er, Ew. rewrite Er. pose proof (copy_entry_spec nbytes name buf 0 (e_mem s) ltac:(lia) Hu) as Hc. cbv zeta in Hc. rewrite Z.sub_0_r in Hc.
  destruct (Z.ltb_spec (Z.of_nat (length name)) (nbytes `min` 32)) as [Hs|Hs]; destruct Hc as (m1 & E & Ho & Hh); rewrite E.
  - destruct (clear_rest_spec nbytes (buf + Z.of_nat (length name)) (0 + Z.of_nat (length name)) m1 ltac:(lia)) as (m2 & -> & Ho2 & Hh2).
    exists m2, w. split; [done|]. split; [done|]. split.
    { apply (only_in_trans _ _ _ m1); (eapply only_in_weaken; [| |eassumption]; lia). }
    unfold padded. rewrite take_ge by lia. apply holds_app. split; [eapply holds_outside; [exact Ho2|lia|done]|].
    by replace (Z.to_nat (nbytes `min` 32) - length name)%nat with (Z.to_nat (nbytes `min` 32 - (0 + Z.of_nat (length name)))) by lia.
  - exists m1, w. split; [done|]. split; [done|]. split; [done|]. unfold padded.
    replace (Z.to_nat (nbytes `min` 32) - length name)%nat with 0%nat by lia. by rewrite app_nil_r.
Qed.

(** [n] reads of 32 bytes: the values and what the buffer then holds. *)
Fixpoint read_names (n : nat) (fd buf : Z) (s : emu) : list (Z * list Z) * emu :=
  match n with
  | O => ([], s)
  | S n => let '(r, s) := ece391_read fd buf 32 s in
      let '(rs, s') := read_names n fd buf s in ((r, bytes_of (mview (e_mem s) buf) 32) :: rs, s')
  end.
Lemma read_all_names d fd buf names : ∀ s, dir s = Some d → dir_fd s = fd → entries d (world_of s) = names → Forall (Forall is_u8) names →
  ∃ s', read_names (length names) fd buf s = ((λ name, (32, padded 32 name)) <$> names, s') ∧ dir s' = Some d ∧ dir_fd s' = fd ∧ entries d (world_of s') = [].
Proof.
  induction names as [|name names IH]; intros s Hd Hf He Hu; [by exists s|]. apply list.Forall_cons in Hu as [Hu1 Hu2]. cbn [read_names length].
  destruct (read_directory d fd buf 32 s name names Hd Hf He Hu1 ltac:(lia)) as (m & w & -> & Ew & _ & Hh). change (32 `min` 32) with 32 in *.
  destruct (IH (in_world w (in_mem m s)) Hd Hf Ew Hu2) as (s' & -> & H1 & H2 & H3). exists s'. split; [|done].
  cbn [fmap list_fmap]. do 3 f_equal. apply holds_bytes; [exact Hh|]. by rewrite length_padded.
Qed.

(** Reading the directory under Linux.  After [ece391_open] of "." every read of
    32 bytes gives the next name, cut to 32 characters or filled with NULs as
    the kernel's [dir_read] does it, and the read after the last name gives 0;
    writes are refused, and [ece391_close] gives the descriptor back. *)
Theorem emulated_directory (rodata : list Z → Z) (s : emu) (filename buf fd d : Z) (names : list (list Z))
    (Hdot : cstring (e_mem s) filename (lit ".")) (Hlit : cstring (e_mem s) (rodata (lit ".")) (lit "."))
    (Hopen : let '(d', w) := opendir (lit ".") (world_of s) in let '(fd', w) := open_file (lit "/dev/null") w in
      d' = Some d ∧ fd' = fd ∧ entries d w = names) (Hnames : Forall (Forall is_u8) names) :
  ∃ s1 s2 s3 s4, ece391_open rodata filename s = Done (fd, s1) ∧
    read_names (length names) fd buf s1 = ((λ name, (32, padded 32 name)) <$> names, s2) ∧
    ece391_read fd buf 32 s2 = (0, s3) ∧ (∀ n, ece391_write fd buf n s3 = (-1, s3)) ∧ ece391_close fd s3 = (0, s4) ∧ dir s4 = None.
Proof.
  unfold ece391_open. destruct (ece391_strcmp_spec _ _ _ _ (cstring_cstr _ _ _ Hdot) (cstring_cstr _ _ _ Hlit) ltac:(done)) as (r & -> & Hr). rewrite bind_Done.
  assert (r = 0) as ->.
  { apply Hr. split; [done|]. intros i Hi. assert (i = 0) as -> by (cbn in Hi; lia). destruct Hdot as [H1 _]. destruct Hlit as [H2 _]. unfold mview. by rewrite (H1 0 46 eq_refl), (H2 0 46 eq_refl). }
  change (0 =? 0) with true. cbv iota. destruct (opendir (lit ".") (world_of s)) as [d' w1]. destruct (open_file (lit "/dev/null") w1) as [fd' w2].
  destruct Hopen as (-> & -> & He). set (s1 := in_world w2 (in_dir (Some d) fd s)).
  destruct (read_all_names d fd buf names s1 eq_refl eq_refl He Hnames) as (s2 & E2 & H1 & H2 & H3).
  destruct (Hread d (world_of s2)) as (w3 & Er & _). rewrite H3 in Er. exists s1, s2, (in_world w3 s2). eexists. split; [done|]. split; [exact E2|].
  unfold ece391_read, ece391_write, ece391_close, is_dir. cbn [dir dir_fd in_world]. rewrite H1, H2, Z.eqb_refl, Er. split_and!; done.
Qed.
End directory.
End calls.

(** * Words come back *)
Lemma cut_app w l : Forall (λ c, separates c = false) w → cut_word (w ++ 32 :: l) = (w, 32 :: l).
Proof. induction 1 as [|c w Hc _ IH]; [done|]. cbn [app cut_word]. by rewrite Hc, IH. Qed.
Lemma cut_all w : Forall (λ c, separates c = false) w → cut_word w = (w, []).
Proof. induction 1 as [|c w Hc _ IH]; [done|]. cbn [cut_word]. by rewrite Hc, IH. Qed.
Definition plain_words (ws : list (list Z)) : Prop := Forall (λ w, w ≠ [] ∧ Forall (λ c, separates c = false) w) ws.
Lemma words_join ws : plain_words ws → words [] (join ws) = ws.
Proof.
  induction 1 as [|w ws [Hw Hp] _ IH]; [done|]. destruct w as [|c w]; [done|]. pose proof (proj1 (list.Forall_cons_1 _ _ _ Hp)) as Hc. cbn beta in Hc.
  rewrite (words_first _ c) by done. destruct (decide (ws = [])) as [->|Hne].
  - unfold join. cbn [fmap list_fmap concat]. by rewrite app_nil_r, cut_all.
  - rewrite join_cons by done. change ([32] ++ join ws) with (32 :: join ws). rewrite cut_app by done. cbn [fst snd behind]. by rewrite IH.
Qed.
Lemma words_plain l : ∀ cur, Forall (λ c, separates c = false) cur → plain_words (words cur l).
Proof.
  assert (Hone : ∀ cur ws, cur ≠ [] → Forall (λ c, separates c = false) cur → plain_words ws → plain_words (cur :: ws)) by (intros; by constructor).
  induction l as [|c l IH]; intros cur Hc; cbn [words]; [destruct cur; [constructor|apply Hone; [done|done|constructor]]|].
  destruct (c =? 32) eqn:E1; [destruct cur; [by apply IH|apply Hone; [done|done|by apply IH]]|].
  destruct (c =? 10) eqn:E2; [destruct cur; [constructor|apply Hone; [done|done|by apply IH]]|].
  apply IH, list.Forall_app. split; [done|]. constructor; [|constructor]. unfold separates. by rewrite E1, E2.
Qed.
Lemma arguments_plain l : plain_words (arguments_of l).
Proof. unfold arguments_of. destruct (cut_word l) as [w [|d r]]; [constructor|]. by apply words_plain. Qed.

(** C36. Command lines under Linux.  [ece391_execute] of a line of up to 1023
    characters runs "./" and the first word with the words of the line as
    arguments, and writes to its own array only; a longer line is refused.
    When Linux hands these arguments to the program that is started,
    [ece391_getargs] gives it the words after the first with one blank between
    them, whatever the blanks in the line were, and 0 if they fit its buffer
    with a NUL, and -1 otherwise; it writes to the buffer and at most the byte
    behind it.  The text splits into the same words again. *)
Theorem command_line_roundtrip {W : Type} `{Linux W} (s : @emu W) (buf command : Z) (l : list Z)
    (Hl : cstring (e_mem s) command l) (Hlen : Z.of_nat (length l) < 2 ^ 31)
    (Hout : command + Z.of_nat (length l) + 1 <= buf ∨ buf + 1026 <= command) :
  (if 1023 <? Z.of_nat (length l) then ece391_execute buf command s = Done (-1, s)
   else let '(e, w) := execv (path_of l) (path_of l :: arguments_of l) (world_of s) in
     ∃ m, ece391_execute buf command s = Done (child_value e, in_world w (in_mem m s)) ∧ only_in buf (buf + 1026) (e_mem s) m) ∧
  (∀ (c : @emu W) esp b n, passed (e_mem c) esp b (b + n + 1) (path_of l :: arguments_of l) → 0 <= n →
     ∃ r m, ece391_getargs esp b n c = Done (r, in_mem m c) ∧ only_in b (b + n + 1) (e_mem c) m ∧
       if Z.of_nat (length (join (arguments_of l))) <? n then r = 0 ∧ holds m b (join (arguments_of l) ++ [0]) else r = -1) ∧
  words [] (join (arguments_of l)) = arguments_of l.
Proof.
  split; [|split].
  - apply execute_splits; [done|lia|done].
  - intros c esp b n Hp Hn. exact (getargs_joins _ _ _ _ _ Hp c eq_refl Hn ltac:(done)).
  - apply words_join, arguments_plain.
Qed.

(** * Witness: a Linux with one program, which ends with 3 *)
#[local] Instance linux0 : Linux unit := {|
  sys_open _ w := (3, w); sys_read _ _ w := (0, [], w); sys_write _ _ w := (0, w); sys_close _ w := (0, w);
  open_file _ w := (3, w); close_file _ w := w; opendir _ w := (Some 1, w); readdir _ w := (None, w); closedir _ w := w; mmap _ w := (None, w);
  execv path _ w := (if bool_decide (path = lit "./grep") then Some (Exited 3) else None, w) |}.
Definition line36 : list Z := lit "grep  fish . ".
Definition parent36 : @emu unit := Emu (blit (λ _, 7) 0x2000 (line36 ++ [0])) None (-1) (-1) ().
Definition child36 : @emu unit :=
  let word a := [a mod 2 ^ 8; a / 2 ^ 8; 0; 0] in
  Emu (blit (blit (λ _, 7) 0x4000 (lit "./grep" ++ [0] ++ lit "fish" ++ [0] ++ lit "." ++ [0])) 0x3000 ([3; 0; 0; 0] ++ word 0x4000 ++ word 0x4007 ++ word 0x400C)) None (-1) (-1) ().
Definition cstringb (m : mem) (a : Z) (l : list Z) : bool := bool_decide (bytes_of (mview m a) (Z.of_nat (length l) + 1) = l ++ [0]) && forallb (λ c, negb (c =? 0)) l.
Lemma cstringb_ok m a l : cstringb m a l = true → cstring m a l.
Proof.
  intros [Hb%bool_decide_eq_true Hz]%andb_true_iff. split.
  - intros i v Hv. rewrite <- Hb in Hv. pose proof Hv as [Hi Hl%lookup_lt_Some]%zget_Some.
    pose proof (length_bytes_of (mview m a) (Z.of_nat (length l) + 1) ltac:(lia)). rewrite zget_bytes_of in Hv by lia. by injection Hv.
  - rewrite forallb_forall in Hz. apply list.Forall_forall. intros c Hc. rewrite list_elem_of_In in Hc. specialize (Hz c Hc). by destruct (Z.eqb_spec c 0).
Qed.
Lemma command_line_roundtrip_witness :
  (∃ m, ece391_execute 0x1000 0x2000 parent36 = Done (3, in_mem m parent36)) ∧
  ∃ m, ece391_getargs 0x3000 0x5000 7 child36 = Done (0, in_mem m child36) ∧ holds m 0x5000 (lit "fish ." ++ [0]).
Proof.
  destruct (command_line_roundtrip parent36 0x1000 0x2000 line36) as (H1 & H2 & _).
  - apply cstringb_ok. vm_compute. reflexivity.
  - by vm_compute.
  - right. by vm_compute.
  - split.
    + assert (E : (1023 <? Z.of_nat (length line36)) = false) by (vm_compute; reflexivity). rewrite E in H1.
      assert (Ee : execv (path_of line36) (path_of line36 :: arguments_of line36) (world_of parent36) = (Some (Exited 3), ())) by (vm_compute; reflexivity).
      rewrite Ee in H1. destruct H1 as (m & E1 & _). exists m. exact E1.
    + assert (Ea : arguments_of line36 = [lit "fish"; lit "."]) by (vm_compute; reflexivity). rewrite Ea in H2.
      destruct (H2 child36 0x3000 0x5000 7) as (r & m & E1 & _ & Hr).
      * split; [by vm_compute|by vm_compute|left; by vm_compute|]. intros i w Hi.
        assert (i = 0%nat ∨ i = 1%nat ∨ i = 2%nat) as [-> |[-> | ->]] by (apply lookup_lt_Some in Hi; cbn in Hi; lia); injection Hi as <-;
          (split; [apply cstringb_ok; vm_compute; reflexivity|split; [by vm_compute|left; by vm_compute]]).
      * done.
      * assert (Ej : (Z.of_nat (length (join [lit "fish"; lit "."])) <? 7) = true) by (vm_compute; reflexivity). rewrite Ej in Hr.
        destruct Hr as [-> Hr]. exists m. split; [exact E1|exact Hr].
Defined.
