(* ===== verification/Sigtest.v ===== *)
(** ece391sigtest.c and ece391exception.c: programs that access an address
    they do not own, and the signal handlers that the first one installs. *)
From Stdlib Require Import String.
From stdpp Require Import gmap.
From S2P Require Import Prelude Memory Strings Console Printf Idt Paging Filesystem Kernel Terminal Syscall Keyboard User Programs Userland Session Pingpong Answers.

Definition SEGFAULT : Z := 1.
Definition ALARM : Z := 3.

(** The remaining wrapper. *)
Class Signals (St : Type) : Type := { ece391_set_handler : Z → Z → St → out (Z * St) }.

(** * The programs *)
Section programs.
Context `{Syscalls St, !Signals St}.
Context (rodata : list Z → Z).
(** The check the processor makes before a load or a store ([write]) at an
    address that may not be the program's; a fault runs a handler of the kernel. *)
Context (access : Z → bool → St → out St).
(** The addresses of [buf], of the static variables [charbuf] and [badbuf], and of the handlers. *)
Context (buf charbuf badbuf segfault_address alarm_address : Z).

(** What is done once the store to [badbuf] has succeeded. *)
Definition greet (cnt : Z) (st : St) : out (Z * St) :=
  st ← poke (buf + cnt) 0 st;
  st ← puts rodata (lit "Hello, ") st;
  st ← ece391_fdputs 1 buf st;
  c ← peek charbuf st;
  st ← (if c =? 1 then puts rodata (line "success") st else puts rodata (line "failure") st);
  Done (0, st).

(** The handlers, when the argument asks for them. *)
Definition install (yes : bool) (st : St) : out St :=
  if yes then
    st ← puts rodata (line "Installing signal handlers") st;
    '(_, st) ← ece391_set_handler SEGFAULT segfault_address st;
    '(_, st) ← ece391_set_handler ALARM alarm_address st; Done st
  else Done st.

Definition sigtest (st : St) : out (Z * St) :=
  '(r, st) ← ece391_getargs buf 1024 st;
  if negb (0 =? r) then st ← puts rodata (line "could not read argument") st; Done (3, st) else
  c0 ← peek buf st;
  st ← install (c0 =? 49) st;
  st ← puts rodata (lit "Hi, what's your name? ") st;
  '(cnt, st) ← ece391_read 0 buf (1024 - 1) st;
  if -1 =? cnt then st ← puts rodata (line "Can't read name from keyboard.") st; Done (3, st) else
  bad ← peek32 badbuf st;
  st ← access bad true st; st ← poke bad 1 st;
  greet cnt st.

(** [switch (signum)] of both handlers. *)
Definition signal_number (signum : Z) : list Z :=
  if signum =? 0 then line "0" else if signum =? 1 then line "1" else if signum =? 2 then line "2"
  else if signum =? 3 then line "3" else line "invalid".

(** [signum] is the address of its argument and [key]
    that of its local. *)
Definition segfault_sighandler (signum key : Z) (st : St) : out St :=
  st ← puts rodata (lit "Segfault signal handler called, signum: ") st;
  n ← peek32 signum st; st ← puts rodata (signal_number (i32 n)) st;
  st ← puts rodata (line "Press enter to continue...") st;
  '(_, st) ← ece391_read 0 key 1 st;
  st ← poke32 badbuf charbuf st;
  let eax := signum + 4 * 7 in
  st ← poke32 eax charbuf st;
  puts rodata (line "Signal handler returning") st.
Definition alarm_sighandler (signum : Z) (st : St) : out St :=
  st ← puts rodata (lit "Alarm signal handler called, signum: ") st;
  n ← peek32 signum st; puts rodata (signal_number (i32 n)) st.

(** ece391exception.c *)
Definition exception_program (st : St) : out (Z * St) :=
  st ← access 0 false st; _ ← peek32 0 st; Done (0, st).
End programs.

(** What they rely on. *)
Class Handles (St : Type) `{Promises St} `{!Signals St} : Type := {
  set_handler_seen st w signum h : sees st w → 0 <= signum <= 4 → h ≠ 0 → gives sees (ece391_set_handler signum h st) 0 w }.

Section client.
Context `{Listens St} `{!Signals St} `{!Handles St}.
Context (rodata : list Z → Z) (buf charbuf badbuf segfault_address alarm_address : Z) (Hbuf : user_buf buf 1024).
Context (Hsegv : segfault_address ≠ 0) (Halarm : alarm_address ≠ 0) (Hargs : arguments ≠ []) (Hanswer : Forall (λ c, c ≠ 0) answer).

Definition sigtest_strings : list (list Z) :=
  [line "Installing signal handlers"; lit "Hi, what's your name? "; lit "Hello, "; line "success"; line "failure"].
Definition announced : list Z :=
  (if decide (head arguments = Some 49) then line "Installing signal handlers" else []) ++ lit "Hi, what's your name? " ++ echoed.
(** The line that main keeps. *)
Definition name_read : list Z := take 1023 answer.

Lemma install_seen st w yes : sees st w → string_at w (rodata (line "Installing signal handlers")) (line "Installing signal handlers") →
  zget (w_fds w) 1 = Some Stdout →
  ∃ st', install rodata segfault_address alarm_address yes st = Done st' ∧ sees st' (print (if yes then line "Installing signal handlers" else []) w).
Proof.
  intros Hs Hm Hout. destruct yes; cbn [install].
  - destruct (puts_seen rodata st w _ Hs Hm Hout) as (st1 & -> & Hs1). rewrite bind_Done.
    destruct (set_handler_seen st1 _ SEGFAULT _ Hs1 ltac:(done) Hsegv) as (st2 & -> & Hs2). rewrite bind_Done.
    destruct (set_handler_seen st2 _ ALARM _ Hs2 ltac:(done) Halarm) as (st3 & -> & Hs3). by exists st3.
  - exists st. split; [done|]. unfold print. rewrite app_nil_r. by destruct w.
Qed.

(** What getargs leaves in the buffer. *)
Lemma first_argument m : (blit m buf (padded 1024 arguments) buf =? 49) = bool_decide (head arguments = Some 49).
Proof.
  assert (E : blit m buf (padded 1024 arguments) (buf + 0) = default 0 (arguments !! 0%nat)) by by apply blit_in, zget_padded.
  rewrite Z.add_0_r in E. rewrite E. destruct arguments as [|x l]; [done|]. cbn.
  destruct (Z.eqb_spec x 49) as [->|Hx]; [done|]. symmetry. apply bool_decide_eq_false. congruence.
Qed.

(** Up to the store through [badbuf]. *)
Lemma sigtest_store st w : sees st w → zget (w_fds w) 0 = Some Stdin → zget (w_fds w) 1 = Some Stdout →
  (∀ l, l ∈ sigtest_strings → message rodata buf 1024 w l) → user_buf badbuf 4 → badbuf + 4 <= buf ∨ buf + 1024 <= badbuf →
  ∃ st' w', sees st' w' ∧ w_fds w' = w_fds w ∧ only_in buf (buf + 1024) (w_mem w) (w_mem w') ∧ w_out w' = w_out w ++ announced ∧
    holds (w_mem w') buf (name_read ++ [0]) ∧
    ∀ access, sigtest rodata access buf charbuf badbuf segfault_address alarm_address st =
      (st ← access (load32 (w_mem w) badbuf) true st'; st ← poke (load32 (w_mem w) badbuf) 1 st;
       greet rodata buf charbuf (Z.of_nat (length name_read)) st).
Proof.
  intros Hs Hin Hout Hlit Hbad Hfar. pose proof Hbuf as (B1 & B2 & B3).
  assert (Hsay : ∀ l w', l ∈ sigtest_strings → only_in buf (buf + 1024) (w_mem w) (w_mem w') → string_at w' (rodata l) l).
  { intros l w' Hl Ho. destruct (Hlit l Hl) as [M1 M2]. apply (string_outside buf (buf + 1024) w); [exact Ho|lia|exact M1]. }
  destruct (getargs_text st w buf 1024 Hs Hbuf ltac:(lia) Hargs) as (st1 & E1 & Hs1).
  pose proof (peek_seen st1 _ buf Hs1 ltac:(split_and!; lia)) as Ec. pose proof (first_argument (w_mem w)) as Ef.
  cbn [w_mem with_wmem] in Ec. set (m1 := blit (w_mem w) buf (padded 1024 arguments)) in *.
  assert (Ho1 : only_in buf (buf + 1024) (w_mem w) m1) by (apply blit_only_in; rewrite ?length_padded by lia; lia).
  destruct (install_seen st1 _ (m1 buf =? 49) Hs1 (Hsay (line "Installing signal handlers") (with_wmem m1 w) ltac:(listed) Ho1) Hout) as (st2 & E2 & Hs2).
  destruct (puts_seen rodata st2 _ (lit "Hi, what's your name? ") Hs2 (Hsay (lit "Hi, what's your name? ") (print _ (with_wmem m1 w)) ltac:(listed) Ho1) Hout) as (st3 & E3 & Hs3).
  destruct (read_line st3 _ buf 1023 Hs3 Hin Hbuf ltac:(lia)) as (st4 & E4 & Hs4).
  cbn [w_mem with_wmem print] in Hs4. change (Z.to_nat 1023) with 1023%nat in *. fold name_read in E4, Hs4.
  set (m4 := blit m1 buf (name_read ++ [0])) in *.
  assert (Ho4 : only_in buf (buf + 1024) (w_mem w) m4).
  { eapply only_in_trans; [exact Ho1|]. apply blit_only_in; [lia|]. unfold name_read. rewrite length_app, length_take. cbn [length]. lia. }
  pose proof (peek32_seen st4 _ badbuf Hs4 Hbad) as E5. cbn [w_mem with_wmem print] in E5.
  rewrite (load32_frame (w_mem w) m4) in E5 by (intros x Hx; apply Ho4; lia). exists st4. eexists. split; [exact Hs4|].
  split; [done|]. split; [exact Ho4|]. split; [|split; [apply holds_blit|]].
  - cbn. unfold announced. rewrite Ef, <- !app_assoc. do 2 f_equal. by case_bool_decide; case_decide.
  - intros access. unfold sigtest. change (1024 - 1) with 1023. rewrite E1, bind_Done. change (negb (0 =? 0)) with false. cbv iota.
    rewrite Ec, bind_Done, E2, bind_Done, E3, bind_Done, E4, bind_Done.
    rewrite (proj2 (Z.eqb_neq (-1) _)) by lia. by rewrite E5, bind_Done.
Qed.

(** ... and from it, when it has succeeded. *)
Lemma greet_says st w cnt l : sees st w → zget (w_fds w) 1 = Some Stdout → (∀ l, l ∈ sigtest_strings → message rodata buf 1024 w l) →
  holds (w_mem w) buf (l ++ [0]) → Forall (λ c, c ≠ 0) l → cnt = Z.of_nat (length l) → cnt < 1024 → user_buf charbuf 1 →
  charbuf < buf ∨ buf + 1024 <= charbuf → w_mem w charbuf = 1 →
  gives sees (greet rodata buf charbuf cnt st) 0
    (World (store8 (w_mem w) (buf + cnt) 0) (w_fds w) (w_next w) (w_out w ++ lit "Hello, " ++ l ++ line "success")).
Proof.
  intros Hs Hout Hlit Hl Hz -> Hlen Hchar Hfar Hone. pose proof Hbuf as (B1 & B2 & B3). unfold greet.
  destruct (poke_seen st w (buf + Z.of_nat (length l)) 0 Hs) as (st1 & -> & Hs1); [split_and!; lia|]. rewrite bind_Done.
  set (m1 := store8 (w_mem w) (buf + Z.of_nat (length l)) 0) in *.
  assert (Ho : only_in buf (buf + 1024) (w_mem w) m1).
  { intros x Hx. unfold m1, store8, upd. by rewrite (proj2 (Z.eqb_neq _ _)) by lia. }
  assert (Hsay : ∀ l o, l ∈ sigtest_strings → string_at (World m1 (w_fds w) (w_next w) o) (rodata l) l).
  { intros l' o Hl'. destruct (Hlit l' Hl') as [M1 M2]. apply (string_outside buf (buf + 1024) w); [exact Ho|lia|exact M1]. }
  assert (Hstr : ∀ o, string_at (World m1 (w_fds w) (w_next w) o) buf l).
  { intros o. split; [split_and!; lia|exact Hz|]. intros i v Hv. cbn [w_mem]. unfold m1, store8, upd.
    destruct (Z.eqb_spec (buf + i) (buf + Z.of_nat (length l))) as [E|_]; [|by apply Hl].
    assert (i = Z.of_nat (length l)) as -> by lia. apply zget_Some in Hv as [_ Hv].
    rewrite Nat2Z.id, lookup_app_r, Nat.sub_diag in Hv by lia. cbn in Hv. by injection Hv as <-. }
  destruct (puts_seen rodata st1 _ (lit "Hello, ") Hs1 (Hsay (lit "Hello, ") _ ltac:(listed)) Hout) as (st2 & -> & Hs2). rewrite bind_Done.
  destruct (fdputs_seen st2 _ buf l Hs2 (Hstr _) Hout) as (st3 & -> & Hs3). rewrite bind_Done.
  rewrite (peek_seen st3 _ charbuf Hs3 Hchar), bind_Done. cbn [w_mem with_wmem print]. rewrite Ho, Hone by lia. change (1 =? 1) with true. cbv iota.
  destruct (puts_seen rodata st3 _ (line "success") Hs3 (Hsay (line "success") _ ltac:(listed)) Hout) as (st4 & -> & Hs4). rewrite bind_Done.
  exists st4. split; [done|]. unfold print in Hs4. cbn in Hs4. by rewrite <- !app_assoc in Hs4.
Qed.

(** Were [badbuf] set to [charbuf], the program would say so. *)
Lemma sigtest_succeeds access st w : sees st w → zget (w_fds w) 0 = Some Stdin → zget (w_fds w) 1 = Some Stdout →
  (∀ l, l ∈ sigtest_strings → message rodata buf 1024 w l) → user_buf badbuf 4 → badbuf + 4 <= buf ∨ buf + 1024 <= badbuf →
  load32 (w_mem w) badbuf = charbuf → user_buf charbuf 1 → charbuf < buf ∨ buf + 1024 <= charbuf →
  (∀ l, l ∈ sigtest_strings → charbuf < rodata l ∨ rodata l + Z.of_nat (length l) < charbuf) →
  (∀ st w, sees st w → access charbuf true st = Done st) →
  ∃ st' w', sigtest rodata access buf charbuf badbuf segfault_address alarm_address st = Done (0, st') ∧ sees st' w' ∧
    w_out w' = w_out w ++ announced ++ lit "Hello, " ++ name_read ++ line "success".
Proof.
  intros Hs Hin Hout Hlit Hbad Hfar Hset Hchar Hcfar Hclit Hacc. pose proof Hbuf as (B1 & B2 & B3).
  destruct (sigtest_store st w Hs Hin Hout Hlit Hbad Hfar) as (st1 & w1 & Hs1 & Ef & Ho & Eo & Hl & E). rewrite E, Hset.
  rewrite (Hacc st1 w1 Hs1), bind_Done. destruct (poke_seen st1 w1 charbuf 1 Hs1 Hchar) as (st2 & -> & Hs2). rewrite bind_Done.
  assert (Ho2 : only_in charbuf (charbuf + 1) (w_mem w1) (store8 (w_mem w1) charbuf 1)) by (apply only_in_upd; lia).
  destruct (greet_says st2 _ (Z.of_nat (length name_read)) name_read Hs2) as (st3 & E3 & Hs3).
  - cbn. by rewrite Ef.
  - intros l Hin'. destruct (Hlit l Hin') as [M1 M2]. split; [|exact M2].
    apply (string_outside charbuf (charbuf + 1) w1); [exact Ho2|destruct (Hclit l Hin'); lia|].
    apply (string_outside buf (buf + 1024) w); [exact Ho|lia|exact M1].
  - cbn. eapply holds_outside; [exact Ho2| |exact Hl]. unfold name_read. rewrite length_app, length_take. cbn [length]. lia.
  - by apply Forall_take.
  - done.
  - unfold name_read. rewrite length_take. lia.
  - done.
  - lia.
  - cbn. unfold store8, upd. by rewrite Z.eqb_refl.
  - exists st3. eexists. split; [exact E3|]. split; [exact Hs3|]. cbn. by rewrite Eo, <- !app_assoc.
Qed.

(** The handler would set it, and the register the store is retried with,
    to [charbuf]. *)
Definition handler_strings : list (list Z) :=
  [lit "Segfault signal handler called, signum: "; line "Press enter to continue..."; line "Signal handler returning";
   lit "Alarm signal handler called, signum: "] ++ (signal_number <$> [0; 1; 2; 3; 4]).
Lemma signal_number_listed n : signal_number n ∈ handler_strings.
Proof. unfold signal_number. repeat case_match; listed. Qed.

Lemma segfault_repairs st w signum key : sees st w → zget (w_fds w) 0 = Some Stdin → zget (w_fds w) 1 = Some Stdout → is_u32 charbuf →
  user_buf signum 32 → user_buf key 2 → user_buf badbuf 4 → badbuf + 4 <= signum ∨ signum + 32 <= badbuf → 
  (∀ l, l ∈ handler_strings → message rodata signum 32 w l ∧ (rodata l + Z.of_nat (length l) + 1 <= key ∨ key + 2 <= rodata l) ∧
    (rodata l + Z.of_nat (length l) + 1 <= badbuf ∨ badbuf + 4 <= rodata l)) →
  ∃ st' w', segfault_sighandler rodata charbuf badbuf signum key st = Done st' ∧ sees st' w' ∧
    load32 (w_mem w') badbuf = charbuf ∧ load32 (w_mem w') (signum + 4 * 7) = charbuf ∧
    w_out w' = w_out w ++ lit "Segfault signal handler called, signum: " ++ signal_number (i32 (load32 (w_mem w) signum)) ++
      line "Press enter to continue..." ++ echoed ++ line "Signal handler returning".
Proof.
  intros Hs Hin Hout Hc Hsig Hkey Hbad Hfar Hlit. pose proof Hsig as (G1 & G2 & G3). pose proof Hkey as (K1 & K2 & K3).
  assert (Hsay : ∀ l w', l ∈ handler_strings → w_mem w' = w_mem w → string_at w' (rodata l) l).
  { intros l w' Hl E. apply (string_outside 0 0 w); [intros x _; by rewrite E|destruct (proj1 (proj1 (Hlit l Hl))) as [(?&?&?) _ _]; unfold _128_MB_SIZE in *; lia|apply Hlit, Hl]. }
  set (n := signal_number (i32 (load32 (w_mem w) signum))). assert (Hn : n ∈ handler_strings) by apply signal_number_listed. unfold segfault_sighandler.
  destruct (puts_seen rodata st w (lit "Segfault signal handler called, signum: ") Hs (Hsay _ w ltac:(listed) eq_refl) Hout) as (st1 & -> & Hs1). rewrite bind_Done.
  rewrite (peek32_seen st1 _ signum Hs1), bind_Done by (split_and!; lia). cbn [w_mem print]. fold n.
  destruct (puts_seen rodata st1 _ n Hs1 (Hsay n (print _ w) Hn eq_refl) Hout) as (st2 & -> & Hs2). rewrite bind_Done.
  destruct (puts_seen rodata st2 _ (line "Press enter to continue...") Hs2 (Hsay (line "Press enter to continue...") (print _ (print _ w)) ltac:(listed) eq_refl) Hout)
    as (st3 & -> & Hs3). rewrite bind_Done.
  destruct (read_line st3 _ key 1 Hs3 Hin Hkey ltac:(lia)) as (st4 & -> & Hs4). rewrite bind_Done. cbn [w_mem with_wmem print] in Hs4.
  set (m4 := blit (w_mem w) key _) in Hs4.
  assert (Ho4 : only_in key (key + 2) (w_mem w) m4).
  { apply blit_only_in; [lia|]. rewrite length_app, length_take. cbn [length]. change (Z.to_nat 1) with 1%nat. lia. }
  destruct (poke32_seen st4 _ badbuf charbuf Hs4 Hbad Hc) as (st5 & m5 & -> & Hs5 & Ho5 & H5). rewrite bind_Done. cbn [w_mem with_wmem print] in Ho5, Hs5.
  destruct (poke32_seen st5 _ (signum + 4 * 7) charbuf Hs5 ltac:(split_and!; lia) Hc) as (st6 & m6 & -> & Hs6 & Ho6 & H6). rewrite bind_Done. cbn [w_mem with_wmem print] in Ho6, Hs6.
  destruct (puts_seen rodata st6 _ (line "Signal handler returning") Hs6) as (st7 & -> & Hs7).
  - destruct (Hlit (line "Signal handler returning") ltac:(listed)) as ([M1 M2] & M3 & M4).
    apply (string_outside (signum + 4 * 7) (signum + 4 * 7 + 4) (World m5 (w_fds w) (w_next w) [])); [exact Ho6|lia|].
    apply (string_outside badbuf (badbuf + 4) (World m4 (w_fds w) (w_next w) [])); [exact Ho5|lia|].
    apply (string_outside key (key + 2) w); [exact Ho4|lia|exact M1].
  - exact Hout.
  - exists st7. eexists. split; [done|]. split; [exact Hs7|]. cbn [w_mem w_out with_wmem print]. split; [|split; [exact H6|by rewrite <- !app_assoc]].
    rewrite (load32_frame m5 m6); [exact H5|]. intros x Hx. apply Ho6. lia.
Qed.
Lemma alarm_says st w signum : sees st w → zget (w_fds w) 1 = Some Stdout → user_buf signum 4 →
  (∀ l, l ∈ handler_strings → string_at w (rodata l) l) →
  ∃ st', alarm_sighandler rodata signum st = Done st' ∧
    sees st' (print (signal_number (i32 (load32 (w_mem w) signum))) (print (lit "Alarm signal handler called, signum: ") w)).
Proof.
  intros Hs Hout Hsig Hlit. unfold alarm_sighandler.
  destruct (puts_seen rodata st w (lit "Alarm signal handler called, signum: ") Hs (Hlit (lit "Alarm signal handler called, signum: ") ltac:(listed)) Hout) as (st1 & -> & Hs1). rewrite bind_Done.
  rewrite (peek32_seen st1 _ signum Hs1 Hsig), bind_Done. cbn [w_mem print]. apply puts_seen; [exact Hs1| |exact Hout].
  set (n := signal_number _). assert (Hn : n ∈ handler_strings) by apply signal_number_listed. destruct (Hlit n Hn). by split.
Qed.
End client.

(** * What a page fault shows *)

(** The page-fault handler before it spins. *)
Definition page_fault_report (address esp : Z) (c : console) : out console :=
  let val := load32 (c_mem c) (u32 (esp - 12)) in
  c ← printf (line0 "exception occur at address: 0x%x") [address] c;
  c ← printf (line0 "user esp at address: 0x%x") [val] c;
  printf (line0 (exc_message page_fault_exception)) [] c.
Lemma page_fault_spins address esp c c' : page_fault_report address esp c = Done c' → exception page_fault_exception address esp c = Hang.
Proof.
  unfold page_fault_report. cbn [exception]. set (val := load32 _ _). clearbody val.
  destruct (printf _ [address] c) as [c1| |]; [|done|done]. rewrite !bind_Done.
  destruct (printf _ [val] c1) as [c2| |]; [|done|done]. rewrite !bind_Done. unfold print_exception. by intros ->.
Qed.

Definition fault_text (address user_esp : list Z) : list Z :=
  (lit "exception occur at address: 0x" ++ address ++ [10]) ++ (lit "user esp at address: 0x" ++ user_esp ++ [10]) ++
  line "EXCEPTION: page_fault_exception!".

Lemma rendered_texts P l its args cs : rendered P its args cs → rendered P ((Text <$> l) ++ its) args (l ++ cs).
Proof. intros H. induction l as [|c l IH]; [exact H|by constructor]. Qed.
Lemma printf_hex l v c : Forall (λ c, c ≠ 0 ∧ c ≠ 37) l → Z.of_nat (length l) < 2 ^ 31 →
  ∃ ds, printf (lview (l ++ lit "%x" ++ [10; 0])) [v] c = Done (foldl putc c (l ++ ds ++ [10])) ∧ numeral 16 (u32 v) ds.
Proof.
  intros Hl Hlen. destruct (conversion_ok (c_mem c) Hex v I) as (ds & E & Hd). exists ds. split; [|exact Hd]. unfold printf.
  assert (Ef : format_bytes ((Text <$> l) ++ [Conv Hex; Text 10]) = l ++ lit "%x" ++ [10]).
  { unfold format_bytes. rewrite fmap_app, concat_app. f_equal. rewrite <- list_fmap_compose.
    clear. induction l as [|c l IH]; [done|]. cbn. by rewrite IH. }
  pose proof (printf_scan (c_mem c) (l ++ ds ++ [10]) ((Text <$> l) ++ [Conv Hex; Text 10]) [v]) as Hp. rewrite Ef in Hp.
  rewrite <- !app_assoc in Hp. change ([10] ++ [0]) with [10; 0] in Hp. rewrite Hp; [done| | |].
  - apply list.Forall_app. split; [|by repeat constructor]. by apply list.Forall_fmap.
  - apply rendered_texts. apply (rendered_conv _ Hex v [Text 10] [] ds [10]); [exact E|]. repeat constructor.
  - rewrite !length_app. change (length (lit "%x")) with 2%nat. cbn [length]. lia.
Qed.
Lemma numeral_bytes v ds : numeral 16 v ds → Forall is_u8 ds.
Proof.
  intros (_ & Hds & _). eapply list.Forall_impl; [exact Hds|]. intros c [Hc0 Hc]. unfold digit_val in Hc. destruct (Z.ltb_spec c 58); split; lia.
Qed.

Lemma report_shows address esp c : ts_ok (abs_video c) → ∃ c' ds es, page_fault_report address esp c = Done c' ∧ same_keyboard c c' ∧
  abs_video c' ≡ ts_print (attrib (current_terminal c)) (abs_video c) (fault_text ds es) ∧
  numeral 16 (u32 address) ds ∧ numeral 16 (u32 (load32 (c_mem c) (u32 (esp - 12)))) es.
Proof.
  intros Hok. unfold page_fault_report. set (val := load32 _ _). clearbody val.
  destruct (printf_hex (lit "exception occur at address: 0x") address c) as (ds & E1 & Hd); [by apply (bool_decide_unpack _)|done|].
  change (line0 "exception occur at address: 0x%x") with (lview (lit "exception occur at address: 0x" ++ lit "%x" ++ [10; 0])). rewrite E1, bind_Done.
  destruct (printf_hex (lit "user esp at address: 0x") val (foldl putc c (lit "exception occur at address: 0x" ++ ds ++ [10]))) as (es & E2 & He);
    [by apply (bool_decide_unpack _)|done|].
  change (line0 "user esp at address: 0x%x") with (lview (lit "user esp at address: 0x" ++ lit "%x" ++ [10; 0])). rewrite E2, bind_Done.
  unfold printf. generalize (c_mem (foldl putc (foldl putc c (lit "exception occur at address: 0x" ++ ds ++ [10])) (lit "user esp at address: 0x" ++ es ++ [10]))).
  intros m. assert (printf_chars m (line0 (exc_message page_fault_exception)) [] = Done (line "EXCEPTION: page_fault_exception!")) as -> by by vm_compute.
  rewrite bind_Done, <- !foldl_app. eexists _, ds, es. split; [done|]. rewrite <- app_assoc. fold (fault_text ds es).
  split; [apply print_keyboard|]. split; [|done]. apply print_foreground; [done|]. unfold fault_text.
  apply numeral_bytes in Hd, He. rewrite !list.Forall_app. split_and!; try done; by apply (bool_decide_unpack _).
Qed.

(** * On the kernel *)
Section kernel_access.
Context (dir_addr table_addr vidmem_addr : Z).
(** [esp] is the stack pointer of the handler. *)
Definition user_access (esp a : Z) (write : bool) (k : kernel) : out kernel :=
  let fault := c ← exception page_fault_exception a esp (k_con k); Done (with_con c k) in
  match translation dir_addr table_addr vidmem_addr k a with
  | Some x => if x_user x && (negb write || x_write x) then Done k else fault
  | None => fault
  end.
Definition kernel_signals : Signals kernel := {| ece391_set_handler := set_handler |}.
End kernel_access.

(** The process of terminal [tid] makes a forbidden access at [a] in [k]: the
    kernel never returns from it, and the terminal ends with the report. *)
Record dies (esp a tid : Z) (o : out kernel) (k : kernel) : Prop := Dies {
  di_hangs : o = Hang;
  di_shows : ∃ c s s' ds es, page_fault_report a esp (k_con k) = Done c ∧
    text_of (k_con k) tid = Some s ∧ text_of c tid = Some s' ∧ s' ≡ ts_print (attrib tid) s (fault_text ds es) ∧
    numeral 16 a ds ∧ numeral 16 (u32 (load32 (k_mem k) (u32 (esp - 12)))) es }.

Section in_process.
Context (dir_addr table_addr vidmem_addr magics : Z) (stack_dentry : dentry_t).
Context (typed : Z → console * Z → console * Z) (ticks : Z → nat) (child : Z → Z → kernel → out (Z * kernel)).
Context (Hlink : linked dir_addr table_addr vidmem_addr).
Context (k : kernel) (p : pcb_t) (id tid : Z) (nb : nat) (a : list Z).
Context (H : fresh dir_addr table_addr vidmem_addr id tid nb a k p) (Hrest : at_rest tid (k_con k) (enter_state k)).
Let here := sees_here dir_addr table_addr vidmem_addr k id tid nb a (resting tid).

Lemma handler_set k' w signum h : here k' w → 0 <= signum <= 4 → h ≠ 0 → gives here (set_handler signum h k') 0 w.
Proof.
  intros [q Hq] Hs Hh. unfold set_handler. rewrite (proj2 (Z.ltb_ge signum 0)), (proj2 (Z.ltb_ge 4 signum)), (proj2 (Z.eqb_neq h 0)) by lia. cbn [orb].
  pose proof (iw_sys _ _ _ _ _ _ _ _ _ _ _ _ _ _ Hq) as [S1 S2 S3 S4 S5 S6]. unfold pcb_at. rewrite S5. cbn [must]. rewrite bind_Done.
  eexists. split; [reflexivity|]. exists (with_sighandler (user_handler h) q).
  destruct Hq as [I1 I2 I3 I4 I5 I6 I7 I8 I9 I10 I11 I12]. split; try done. split; try done. cbn. apply lookup_insert_eq.
Qed.

Lemma below_program_dies esp x write k' w : here k' w → 0 <= x < _128_MB_SIZE → dies esp x tid (user_access dir_addr table_addr vidmem_addr esp x write k') k'.
Proof.
  intros [q Hq] Hx. pose proof (iw_sys _ _ _ _ _ _ _ _ _ _ _ _ _ _ Hq) as [_ _ _ (win & Hrep & Hst) _ _].
  destruct (iw_devices _ _ _ _ _ _ _ _ _ _ _ _ _ _ Hq) as (_ & _ & _ & Hcur).
  pose proof (proj2 (fr_tid _ _ _ _ _ _ _ _ _ H)) as Htid.
  destruct (iw_text _ _ _ _ _ _ _ _ _ _ _ _ _ _ Hq) as (? & <- & Htext). destruct (Htext tid Htid) as (s & Es & Hs). unfold text_of in Es. rewrite Hcur, Z.eqb_refl in Es. injection Es as <-.
  destruct (report_shows x esp (k_con k')) as (c & ds & es & E & Hk & Heq & Hd & He).
  { rewrite Hs. unfold text_after. rewrite Z.eqb_refl. apply ts_print_ok. by apply (fresh_text_ok _ _ _ k p id tid nb a H). }
  unfold _128_MB_SIZE in Hx. rewrite u32_id in Hd by (split; lia). split.
  - assert (Hf : ∀ f, (c ← exception page_fault_exception x esp (k_con k'); Done (f c)) = Hang :> out kernel).
    { intros f. by rewrite (page_fault_spins _ _ _ _ E). }
    unfold user_access. destruct (translation _ _ _ _ _) as [y|] eqn:Et; [|apply Hf].
    unfold translation in Et. rewrite (translate_is_map _ _ _ Hlink _ _ _ Hrep Hst) in Et by lia. cbn [fst snd] in Et. unfold address_map in Et.
    replace (x_user y) with false; [apply Hf|].
    assert (E32 : (x / FOUR_MB =? 32) = false) by (apply Z.eqb_neq; unfold FOUR_MB; Z.div_mod_to_equations; lia).
    assert (Ewin : (x / FOUR_KB =? USER_VIDEO / FOUR_KB) = false).
    { apply Z.eqb_neq. change (USER_VIDEO / FOUR_KB) with 53248. unfold FOUR_KB. Z.div_mod_to_equations. lia. }
    rewrite E32, Ewin in Et. repeat case_match; try done; by injection Et as <-.
  - exists c, (abs_video (k_con k')), (abs_video c), ds, es. split; [exact E|].
    unfold text_of. rewrite (sk_current _ _ Hk), Hcur, Z.eqb_refl. rewrite Hcur in Heq. done.
Qed.
Context (cs : list Z) (Hcs : Forall (λ c, 0 < c < 256) cs) (Hlen : Z.of_nat (length cs) < KEY_ARR_SIZE - 1 + 255) (Htyped : types cs typed).
#[local] Instance sys_here : Syscalls kernel := kernel_calls dir_addr table_addr vidmem_addr magics stack_dentry typed ticks child.
#[local] Instance promised_here : Promises kernel := promises_at_rest dir_addr table_addr vidmem_addr magics stack_dentry typed ticks child Hlink k p id tid nb a H no_fine (no_fine_ok k).
#[local] Instance heard_here : Listens kernel := listens_here dir_addr table_addr vidmem_addr magics stack_dentry typed ticks child Hlink k p id tid nb a H cs Hcs Hlen Htyped no_fine (no_fine_ok k).
Definition handled_here : @Handles kernel sys_here promised_here kernel_signals := Build_Handles kernel sys_here promised_here kernel_signals handler_set.
End in_process.

(** C14. Forbidden accesses on the kernel.  ece391exception.c, which loads from
    address 0, and ece391sigtest.c, which stores through a pointer that holds
    0 (or any other address below the program's page), are started by
    [execute] on the displayed terminal.  The second first announces the signal
    handlers that its argument "1" makes it install, asks for a name and reads
    the line that is typed, whatever the access does afterwards.  The access
    itself, a load or a store to memory that is absent or the kernel's, is
    stopped by the page tables; the page-fault handler shows the address and the
    word 12 bytes below its stack pointer, in hexadecimal, on the terminal, and
    never ends: neither the rest of the program nor a signal handler runs. *)
Theorem forbidden_accesses_on_kernel (dir_addr table_addr vidmem_addr magics : Z) (stack_dentry : dentry_t)
    (typed : Z → console * Z → console * Z) (ticks : Z → nat) (child : Z → Z → kernel → out (Z * kernel))
    (Hlink : linked dir_addr table_addr vidmem_addr) (k : kernel) (p : pcb_t) (id tid : Z) (nb : nat) (a : list Z)
    (H : fresh dir_addr table_addr vidmem_addr id tid nb a k p) (Hrest : at_rest tid (k_con k) (enter_state k)) (Ha : a ≠ [])
    (cs : list Z) (Hcs : Forall (λ c, 0 < c < 256) cs) (Hlen : Z.of_nat (length cs) < KEY_ARR_SIZE - 1 + 255) (Htyped : types cs typed)
    (rodata : list Z → Z) (buf charbuf badbuf segv_handler alarm_handler esp : Z) (Hbuf : user_buf buf 1024)
    (Hsegv : segv_handler ≠ 0) (Halarm : alarm_handler ≠ 0)
    (Hbad : user_buf badbuf 4) (Hfar : badbuf + 4 <= buf ∨ buf + 1024 <= badbuf)
    (Hb : load32 (w_mem (start_world id k)) badbuf < _128_MB_SIZE)
    (Hlit : ∀ l, l ∈ sigtest_strings → message rodata buf 1024 (start_world id k) l) :
  let sys := kernel_calls dir_addr table_addr vidmem_addr magics stack_dentry typed ticks child in
  let checked := user_access dir_addr table_addr vidmem_addr esp in
  let main access := @sigtest kernel sys kernel_signals rodata access buf charbuf badbuf segv_handler alarm_handler in
  let b := load32 (w_mem (start_world id k)) badbuf in
  let installing := if decide (head a = Some 49) then line "Installing signal handlers" else [] in
  (dies esp 0 tid (checked 0 false k) k ∧ @exception_program kernel sys checked k = Hang) ∧
  ∃ k' cnt, wrote id tid buf 1024 (installing ++ lit "Hi, what's your name? " ++ cs ++ [10] ++ tid_message tid) k k' ∧
    (∀ access, main access k = (k1 ← access b true k'; k1 ← @poke kernel sys b 1 k1; @greet kernel sys rodata buf charbuf cnt k1)) ∧
    dies esp b tid (checked b true k') k' ∧ main checked k = Hang.
Proof.
  intros sys checked main b installing.
  pose (pr := promised_here dir_addr table_addr vidmem_addr magics stack_dentry typed ticks child Hlink k p id tid nb a H).
  pose (li := heard_here dir_addr table_addr vidmem_addr magics stack_dentry typed ticks child Hlink k p id tid nb a H cs Hcs Hlen Htyped).
  pose (ha := handled_here dir_addr table_addr vidmem_addr magics stack_dentry typed ticks child Hlink k p id tid nb a H).
  pose proof (fresh_sees _ _ _ k p id tid nb a H (resting tid) Hrest) as Hs.
  assert (Hdies : ∀ x w st w', sees_here dir_addr table_addr vidmem_addr k id tid nb a (resting tid) st w' → 0 <= x < _128_MB_SIZE →
    dies esp x tid (checked x w st) st) by (intros; by eapply below_program_dies).
  split.
  - assert (H0 : dies esp 0 tid (checked 0 false k) k) by by eapply Hdies. split; [exact H0|].
    unfold exception_program. by rewrite (di_hangs _ _ _ _ _ H0).
  - destruct (@sigtest_store kernel sys pr li kernel_signals ha rodata buf charbuf badbuf segv_handler alarm_handler Hbuf Hsegv Halarm Ha k (start_world id k) Hs
      eq_refl eq_refl Hlit Hbad Hfar) as (k' & w' & Hs' & _ & Ho & Eo & _ & E).
    assert (Hd : dies esp b tid (checked b true k') k').
    { eapply Hdies; [exact Hs'|]. split; [|exact Hb]. apply load32_range. intros x. apply (im_bytes _ _ (so_image _ _ _ _ _ _ (fr_sys _ _ _ _ _ _ _ _ _ H))). }
    exists k', (Z.of_nat (length (@name_read kernel sys pr li))). split; [|split; [exact E|split; [exact Hd|]]].
    + pose proof (sees_wrote dir_addr table_addr vidmem_addr k p id tid nb a H (resting tid) k' w' buf 1024 Hs' Ho) as Hw. by rewrite Eo in Hw.
    + unfold main. rewrite E. fold b. by rewrite (di_hangs _ _ _ _ _ Hd).
Qed.

(** Process 1 on terminal 1, its pointer null. *)
Definition null_image : mem := blit mem2 (user_phys 1 0x8053000) [0; 0; 0; 0].
Definition null_kernel : kernel := placed_on null_image img_fs sigtest_strings.
Lemma null_kernel_fresh : fresh 0x500000 0x501000 0x502000 1 1 1 [97; 98] null_kernel pcb11.
Proof.
  destruct mem2_ok as [Him Hdir].
  assert (Hs : ∀ x, fs_addr img_fs <= x < image_end img_fs → null_image x = mem2 x).
  { intros x Hx. change (image_end img_fs) with 0x705000 in Hx. unfold null_image. rewrite blit_out; [done|]. left. unfold user_phys, EIGHT_MB_SIZE, FOUR_MB_SIZE, _128_MB_SIZE. lia. }
  assert (Hi : image_ok null_image img_fs).
  { apply (image_ok_frame mem2 null_image img_fs Him Hs). apply mem_ok_blit; [apply Him|by repeat constructor]. }
  apply placed_fresh; [vm_compute; repeat constructor; discriminate|exact Hi|by apply (dir_ok_frame mem2 null_image img_fs)|by split; vm_compute|right; by vm_compute|by vm_compute].
Qed.

(** "Jo" is typed. *)
Lemma forbidden_accesses_on_kernel_witness :
  let sys := kernel_calls 0x500000 0x501000 0x502000 0x503000 (replicate 64 0) (typing (lit "Jo")) (λ _, O) (λ _ _ k, Done (0, k)) in
  let k := null_kernel in
  let checked := user_access 0x500000 0x501000 0x502000 0x7FC000 in
  let main access := @sigtest kernel sys kernel_signals (placed_at sigtest_strings) access 0x8050000 0x8053004 0x8053000 0x8048200 0x8048300 in
  @exception_program kernel sys checked k = Hang ∧
  ∃ k', wrote 1 1 0x8050000 1024 (lit "Hi, what's your name? Jo" ++ [10] ++ line "current tid: 1") k k' ∧
    dies 0x7FC000 0 1 (checked 0 true k') k' ∧ main checked k = Hang.
Proof.
  intros sys k checked main.
  assert (Hall : forallb (literal_there null_image sigtest_strings) sigtest_strings = true) by (vm_compute; reflexivity).
  assert (E0 : load32 (w_mem (start_world 1 k)) 0x8053000 = 0) by (vm_compute; reflexivity).
  destruct (forbidden_accesses_on_kernel 0x500000 0x501000 0x502000 0x503000 (replicate 64 0) (typing (lit "Jo")) (λ _, O) (λ _ _ k, Done (0, k)) linked0
    k pcb11 1 1 1 [97; 98] null_kernel_fresh (placed_rest _ _ _) ltac:(done) (lit "Jo") ltac:(by repeat constructor) ltac:(by vm_compute) (typing_types _)
    (placed_at sigtest_strings) 0x8050000 0x8053004 0x8053000 0x8048200 0x8048300 0x7FC000) as [[_ Hex] (k' & cnt & Hw & _ & Hd & Hm)].
  - split_and!; by vm_compute.
  - done.
  - done.
  - split_and!; by vm_compute.
  - lia.
  - fold k. by rewrite E0.
  - intros l Hl. destruct (placed_literal null_image img_fs sigtest_strings 1024 l Hall Hl) as [H1 H2]. split; [exact H1|right; apply H2; lia].
  - split; [exact Hex|]. exists k'. fold k in Hd. rewrite E0 in Hd. split_and!; [exact Hw|exact Hd|exact Hm].
Defined.
